(* ===== verification/_CoqProject ===== *)
-Q . S2P
Prelude.v
Float64.v
FloatFacts.v
FloatRound.v
FloatBounds.v
FloatExact.v
FloatDyadic.v
Exp.v
Rand.v
RbfgradParms.v
RbfNet.v
Gapso.v
Controller.v
KernelEnv.v
QueueShow.v
Qdisc.v
QdiscInv.v
QdiscStep.v
QdiscProps.v
Text.v
SeqFile.v
Trace.v
Modules.v
Utils.v
Addr.v
Ipx.v
Netlink.v
AttrTree.v
Rtnl.v
LlMap.v
TcCore.v
TcUtil.v
RtNames.v
LlNames.v
HostNames.v
TcRed.v
TcStab.v
TcRbfgrad.v
TcWords.v
TcBlue.v
TcDisc.v
TcTbf.v
TcHtb.v
TcHfsc.v
TcNetem.v
NetemDist.v
TcMulti.v
TcQdisc.v
TcAqm.v
TcCbq.v
TcQdiscProps.v
TcClass.v
TcFilter.v
TcAction.v
TcGact.v
TcActs.v
TcPolice.v
TcPedit.v
TcStock.v
TcOpts.v
TcClassify.v
TcFlow.v
TcU32.v
TcU32Match.v
TcU32Facts.v
TcRsvp.v
TcEmatch.v
TcEmods.v
TcEmatchFacts.v
TcEmatchTrip.v
TcEmodFacts.v
TcMonitor.v
TcKinds.v
EndToEnd.v
