(* ===== verification/Prelude.v ===== *)
(** * GRPID: the GAPSO-RBF-PID active queue management scheduler

    This development models the network scheduler of this repository, its
    observation tools and the part of [tc] that configures it, and proves what makes
    them correct.  It is a shallow embedding: a C function is a Rocq function on
    explicit state, with the source's names; the source lines a definition models
    stand in its comment, as [path:first-last symbol].

    ** The program

    [modules/sch_rbfgrad.c] is a Linux qdisc.  Packets are marked with probability
    [p_k] on enqueue and handed to a child FIFO.  A kernel thread computes [p_k] every
    sampling period in three phases: the data of the period is loaded and a particle
    swarm looks for the weights of a radial-basis-function network that predicts the
    queue length (GAPSO); the network's Jacobian adapts the three PID gains; the
    incremental PID law gives the probability, which is then clamped to
    [[p_min, p_max]].  A second thread waits to stop the first.  [include/] holds the
    parameter structure and its initialisation, an [exp] for the kernel and the
    sample log, an array that [queuedata/] shows through /proc and [test/transfer.c]
    turns back into doubles.  Two tracepoint modules queue configurations and
    variables in kfifos, shown through /proc and decoded by [read_proc_*].
    [iproute2-3.1.0/tc/q_rbfgrad.c] builds the netlink request from the command line.

    ** The files

    - [Prelude]: record update, machine integers, counted loops, matrices by rows, and
      the lemmas on them that every component shares.
    - [Float64], [FloatFacts], [FloatRound], [FloatBounds], [FloatExact], [FloatDyadic]: binary64 by
      the standard library's [SpecFloat] at precision 53 and exponent 1024, with the
      comparisons, conversions and 64-bit representation C uses; validity of every
      operation; a rounded result never crosses a representable number; exact
      arithmetic on integers and on binary fractions.  There is one NaN.
    - [Exp] (exp.h, fabs.h): the exponential, its words and special values.
    - [Rand] (rbfgrad.h): random weights and coefficients; [random32] is an
      argument.
    - [RbfgradParms] (rbfgrad.h): the controller's state as a record, its
      initialisation by a configuration request, the marking decision.  Random draws
      come from the argument [kernel], a generator with its state.
    - [RbfNet], [Gapso], [Controller] (sch_rbfgrad.c): network, swarm
      training, gain adaptation, PID law and clamp: one control period is
      [control_period], the composition of the phases in the order of the thread.
    - [KernelEnv]: the kernel services the scheduler calls, as classes of operations
      with separate classes of laws (packets and child queues, netlink, message
      buffers, threads), and a concrete instance of each.
    - [QueueShow] (rbfgrad_queue.h, the sampling blocks of enqueue): the log.
    - [Qdisc], [QdiscInv], [QdiscStep], [QdiscProps] (sch_rbfgrad.c): every qdisc
      operation as a function on the [world] (the instance, the child, the threads,
      the log and the kernel's lock and floating-point depths); the invariants and
      their preservation by each handler; the interleaving of the handlers with the
      phases of the control thread as a step relation; the theorems.
    - [Text]: C strings, [printf] and [scanf] conversions, [strtol], [strtoul],
      [strtod], and that what is printed is read back.
    - [SeqFile] (seqfile_queuedata_rbfgrad.c, transfer.c), [Trace]
      (tracepoint-probe-rbfgrad.c, -vars.c, read_proc_*.c): the /proc iterators and
      the decoding programs.
    - [Modules]: initialisation and removal of the scheduler, the log reader and the two
      tracers over the registries of the kernel, and the loader that keeps the
      dependencies.
    - [Utils], [Addr] (lib/utils.c, dnet_*.c), [Netlink] (lib/libnetlink.c, the attributes),
      [TcCore] (tc_core.c), [TcUtil] (tc_util.c), [TcRed] (tc_red.c), [TcStab]
      (tc_stab.c, tc_estimator.c, m_estimator.c), [TcRbfgrad] (q_rbfgrad.c): the
      quantities and options of the front end.
    - [Rtnl] (lib/libnetlink.c, the rest): requests, answers, dumps and listening.  What
      the socket delivers is a list of events, so that a receiving loop is a recursion
      on it and waits where it ends; [session] is the same on messages instead of bytes.
    - [LlMap] (lib/ll_map.c): the hash table of interfaces and the finite map it
      implements.
    - [TcQdisc], [TcQdiscProps] (tc_qdisc.c, tc.c): the program, from the words of a
      command or a batch to the datagram, the answer, the status and the listing.
    - [TcWords]: the loop over option words that the disciplines share, with its
      invariant; [TcBlue] (q_blue.c), [TcDisc] (q_red.c, q_fifo.c, q_sfq.c, q_prio.c),
      [TcTbf] (q_tbf.c): other disciplines of the program,
      from words to attributes and back; the fixed-point numbers of [TcBlue] are those of
      q_rbfgrad.c, whose two functions q_blue.c repeats word for word.
    - [AttrTree]: attributes in attributes as trees; what it means that a message holds
      one, the builders that append one, the table a parser finds.
    - [TcMulti] (q_ingress.c, q_multiq.c, q_rr.c, q_mqprio.c, q_dsmark.c), [TcAqm] (q_sfb.c,
      q_choke.c, q_gred.c), [TcCbq] (q_cbq.c, tc_cbq.c), [TcHtb] (q_htb.c), [TcHfsc]
      (q_hfsc.c), [TcNetem] (q_netem.c): more disciplines; [NetemDist] (netem/*.c): the generators of the tables that the last
      of them loads.
    - [TcAction] (m_action.c): the object actions; [TcGact] (m_gact.c): the generic action;
      [TcActs] (m_mirred.c, m_nat.c, m_skbedit.c, m_csum.c), [TcPolice] (m_police.c),
      [TcPedit] (m_pedit.c, p_*.c): the others, which [TcStock] puts into one table.
    - [TcOpts]: the loop over the words of a classifier, with the derivations of what it
      adds; [TcClassify] (f_fw.c, f_basic.c, f_cgroup.c, f_tcindex.c, f_route.c), [TcFlow]
      (f_flow.c), [TcU32] (f_u32.c): classifiers; [TcU32Match]: what a selector selects in a
      packet; [TcU32Facts]: handles, and samples that ask for something else; [TcRsvp]
      (f_rsvp.c): the classifier of reserved sessions and what its ports select.
    - [TcEmatch] (m_ematch.c, m_ematch.h, emp_ematch.l, emp_ematch.y): the expressions of
      extended matches, scanned, parsed into nodes that point at each other, flattened, sent
      and printed; [TcEmods] (em_cmp.c, em_nbyte.c, em_u32.c, em_meta.c): their modules;
      [TcEmatchFacts]: parsing and flattening against the trees they stand for;
      [TcEmatchTrip]: from the words to the message and its text, for any modules that
      accept their arguments; [TcEmodFacts]: the linked modules do.
    - [TcClass] (tc_class.c, q_drr.c, q_qfq.c): the object class, and the disciplines that
      have classes; [TcFilter] (tc_filter.c): the object filter; [TcMonitor]
      (tc_monitor.c): the monitor, and the objects together; [TcKinds]: the tables of
      operations linked into the program.
    - [RtNames] (lib/rt_names.c), [LlNames] (ll_proto.c, ll_types.c, ll_addr.c,
      inet_proto.c), [Ipx] (ipx_*.c), [HostNames] (the resolver's part of utils.c): the
      names of numbers and addresses, with the statics that cache them.
    - [EndToEnd]: the front end and the scheduler together, through classes of laws for
      the kernel's netlink code, with an instance on bytes.

    ** What is shown

    - Scheduler: every execution, with handlers and thread phases interleaved in any
      way, refines an abstract queue that accepts, refuses, delivers and drops packets
      in FIFO order ([exec_refines]); the reported length is the child's, the log
      stays in its array, the swarm's indices stay in theirs ([exec_invariant]);
      outside the window between law and clamp the probability is the configured
      initial one, in the interval, or a NaN ([exec_probability]).  Each handler is
      characterised on every branch, errors included.
    - Control: the result of a period is the law's, clamped; the swarm's minimum is
      the best error it has evaluated, and the installed weights attain it; velocities
      are limited; what each phase may write is framed.
    - Numerics: [exp] is total, has the special values of IEEE and scales exactly.
    - Observation: a sampled double reaches the analysis program bit for bit; the
      same for a traced configuration, given a line buffer of 22 bytes.
    - Netlink: the receiving calls on bytes refine the sessions on messages
      ([sessions_refine]); a call returns when its answer is among the events and a
      dump when its end is ([talk_answered], [dump_complete]); the interface table
      refines a finite map ([ll_map_refines]) and is filled with exactly the links
      dumped ([init_map_learns]).
    - Front end: a command sends one datagram with the options as typed and reports the
      kernel's answer, or is refused and sends nothing ([command_configures],
      [command_refused]); that datagram installs the options typed, and the scheduler's
      next report, printed, shows them ([configure_then_show]); round trips of
      handles, numbers, hexadecimal strings, prefixes and nested attributes; size tables
      cover the MTU with the least cell.
    - Other disciplines: a fixed-point number is the number cut after 31 binary places
      ([double2fixpoint_spec]); the requests of BLUE, RED, TBF and the FIFOs decode to
      what the words set and are printed back ([blue_request], [red_request],
      [tbf_request], [fifo_request]); a class listing shows nothing it is not asked for
      ([class_listing_limited]); the monitor shows every change, in order
      ([monitor_shows_all]).
      The classes of CBQ, HTB and HFSC, CHOKe, NETEM, MQPRIO and DSMARK likewise
      ([cbq_class_request], [htb_class_request], [hfsc_class_roundtrip],
      [choke_request], [netem_roundtrip],
      [mqprio_roundtrip], [dsmark_roundtrip]); the tables of the generators are read back
      ([distribution_roundtrip]).
    - Actions: the words of a command become one datagram with a nest per action
      ([actions_added]), the parser of the generic action and its printer agree
      ([gact_roundtrip]), a table of actions is listed in order ([actions_listed]), and the
      other actions are shown as typed ([actions_roundtrip]).  What a command of an edit
      changes in a packet is exactly the field named ([pedit_edits]).
    - Classifiers: a sample of u32 narrows what is selected by exactly its field
      ([sample_selects]), handles are read back ([u32_handle_roundtrip]), a chain of
      operations of flow computes what it says ([flow_ops_meaning]), the mark classifier
      and that of sessions are shown as typed ([fw_roundtrip], [rsvp_roundtrip]), and a
      generalised port selects exactly its field of a packet ([gpi_selects]).
    - Extended matches: scanning and parsing end ([ematch_parse_ends]), an expression is sent
      and shown as typed, every group in its place ([ematch_roundtrip]), and the word of its
      module u32 selects exactly the field named ([em_u32_selects]).
    - Modules: what the registries hold belongs to a module that is loaded
      ([modules_safe]), and unloading undoes loading ([load_unload]).
    - Names: the tables of routing names, of protocols and of hosts answer as their files
      and databases do, whatever was asked before ([hash_session_refines],
      [proto_session_refines], [resolve_session_refines]); databases, hardware
      addresses and frame protocols are read back ([db_roundtrip], [ll_addr_roundtrip],
      [proto_roundtrip]).

    Where the code does not do what it means to, the theorem states what it does and
    its comment says so: among others [change_backlog_stale], [init_error_leaks],
    [destroy_leaves_thread], [unclamped_probability_visible], [seq_pass_overruns],
    [read_proc_overflows], [unnamed_options_zero], [unpadded_exits], [stale_name],
    [list_keeps_filter], [class_list_twice], [prio_band_out],
    [cache_overwritten], [table_overrun], [too_many_octets], [ipx_print_refused],
    [priority_lost], [tracer_hides_failure], [unload_takes_foreign_entry],
    [gact_then_action], [order_32_not_shown], [htb_overhead_not_shown],
    [hfsc_divides_by_zero], [missing_distribution], [maketable_overrun], [layered_refused],
    [nat_shows_32], [mirred_action_last], [addend_keys], [tcindex_numbers],
    [route_order_cut], [ip6_mask_31], [icmp_code_place], [flags_end_refused],
    [cbq_weight_size], [cbq_prio_zero], [cbq_flags_sent], [gpi_default_masks],
    [gpi_bytes_exchanged], [gpi_end_null], [quoted_word_is_text],
    [strings_share_buffer], [run_overruns], [end_given_back], [nexthdr_apart],
    [odd_offset_moved], [meta_types].

    ** Bounds and fuel

    Counted loops are folds over their counter and need no fuel.  Fuel appears in the
    searches and readers only, always with the bound that makes it enough: 32 shifts
    empty a word, 17 scalings fit any word in 16 bits ([size_table_ok] proves both),
    a round of a text or attribute loop consumes a character or four bytes
    ([getcmdline_clean], [rtattr_loop_ok], [read_records]), a /proc pass shows 41
    entries at most ([seq_walk_spec]).  A round over received messages takes 16 bytes
    ([datagram_count]), a round of a batch a character ([batch_terminates]), a round over
    the words of a command a word ([actions_terminate]; so the loops of [TcActs],
    [TcPedit], [TcOpts] and [TcU32], whose fuel is the number of words), a line or number of a
    distribution file a character; the loop of normal.c, whose variable is a double, ends
    within [x_rounds] ([normal_table_printed]).  The parser of an expression has a round for
    every character of the words ([expr_ends]), flattening and printing one for every node
    ([flatten_layout], [seq_shown]).  Printing a number runs for one digit more than
    its logarithm ([print_base_fuel]).

    ** What is not modelled

    Memory allocation; the text of log messages; of iproute2 the discipline atm,
    the actions that call iptables, the trace lines of m_pedit.c, the list of identifiers of
    em_meta.c and what the scanner of one expression leaves for the next of the same command,
    and the other programs; what the kernel does with a socket; the
    dead headers pso.h and rbf.h; the generated *.mod.c; the scripts
    and plots.  The libraries' IPv6 parser, [pow], [log] and [erf], the lookup of devices,
    for the classifiers the extended matches, what stands behind the end of a name buffer, and a word shifted by
    its whole width are parameters; so is what [fscanf] leaves in a variable when it finds
    no number, and the field of a mark that is never set. *)

From Stdlib Require Export ZArith Lia.
From stdpp Require Export base numbers list strings gmap.

Global Open Scope Z_scope.

(** ** Functional record update

    [r <| f := v |>] is the C assignment [r.f = v] on an explicit state.  The
    setter of a projection is built by the tactic below the first time it is
    needed; with primitive projections every read of an updated record
    computes without a case analysis on the record. *)

Class Setter {R T : Type} (proj : R -> T) := set_field : (T -> T) -> R -> R.
Global Arguments set_field {R T} proj {_} f r.

Ltac solve_setter :=
  match goal with
  | |- @Setter ?R ?T ?proj =>
      unfold Setter;
      let f := fresh "f" in
      let r := fresh "r" in
      intros f r;
      let t := constr:(ltac:(
        let w := fresh in
        pose (w := r); destruct r;
        let whole := eval unfold w in w in
        let field := eval cbn in (proj whole) in
        match eval pattern field in whole with
        | ?ctx _ => let v := eval cbv beta in (ctx (f field)) in exact v
        end) : R) in
      let t := eval cbv zeta in t in
      exact t
  end.

#[export] Hint Extern 0 (Setter _) => solve_setter : typeclass_instances.

Declare Scope record_scope.
Global Open Scope record_scope.
Notation "r <| p := v |>" := (set_field p (fun _ => v) r)
  (at level 1, left associativity, p at level 11, v at level 200,
   format "r  <| p  :=  v |>") : record_scope.

(** ** Machine integers

    C integers are carried as [Z]; the conversions below are the ones the
    compiler inserts (modular for unsigned types, two's complement wrap-around
    for signed ones, as gcc does on the targets of this module). *)

Definition u8 (z : Z) : Z := z mod 2 ^ 8.
Definition u16 (z : Z) : Z := z mod 2 ^ 16.
Definition u32 (z : Z) : Z := z mod 2 ^ 32.
Definition u64 (z : Z) : Z := z mod 2 ^ 64.
Definition s8 (z : Z) : Z := (z + 2 ^ 7) mod 2 ^ 8 - 2 ^ 7.
Definition s16 (z : Z) : Z := (z + 2 ^ 15) mod 2 ^ 16 - 2 ^ 15.
Definition s32 (z : Z) : Z := (z + 2 ^ 31) mod 2 ^ 32 - 2 ^ 31.
Definition s64 (z : Z) : Z := (z + 2 ^ 63) mod 2 ^ 64 - 2 ^ 63.

Definition INT_MAX : Z := 2147483647.
Definition INT_MIN : Z := -2147483648.

(** The C library's [abs] on [int]: the negation wraps at [INT_MIN]. *)
Definition c_abs (z : Z) : Z := if z <? 0 then s32 (- z) else z.

Ltac machine_int :=
  unfold u8, u16, u32, u64, s8, s16, s32, s64, INT_MAX, INT_MIN in *;
  Z.div_mod_to_equations; lia.

Create HintDb cint.
Create Rewrite HintDb cint.

Lemma u32_range z : 0 <= u32 z < 2 ^ 32.
Proof. machine_int. Qed.

Lemma u64_range z : 0 <= u64 z < 2 ^ 64.
Proof. machine_int. Qed.

Lemma s32_range z : - 2 ^ 31 <= s32 z < 2 ^ 31.
Proof. machine_int. Qed.

Lemma s64_range z : - 2 ^ 63 <= s64 z < 2 ^ 63.
Proof. machine_int. Qed.

Lemma u32_small z : 0 <= z < 2 ^ 32 -> u32 z = z.
Proof. intros; machine_int. Qed.

Lemma u64_small z : 0 <= z < 2 ^ 64 -> u64 z = z.
Proof. intros; machine_int. Qed.

Lemma s32_small z : - 2 ^ 31 <= z < 2 ^ 31 -> s32 z = z.
Proof. intros; machine_int. Qed.

Lemma s64_small z : - 2 ^ 63 <= z < 2 ^ 63 -> s64 z = z.
Proof. intros; machine_int. Qed.

Lemma s32_u32 z : s32 (u32 z) = s32 z.
Proof. machine_int. Qed.

Lemma u32_s32 z : u32 (s32 z) = u32 z.
Proof. machine_int. Qed.

Lemma u64_s64 z : u64 (s64 z) = u64 z.
Proof. machine_int. Qed.

Lemma s64_u64 z : s64 (u64 z) = s64 z.
Proof. machine_int. Qed.

Lemma u32_idemp z : u32 (u32 z) = u32 z.
Proof. machine_int. Qed.

#[export] Hint Resolve u32_range u64_range s32_range s64_range : cint.
#[export] Hint Rewrite s32_u32 u32_s32 u64_s64 s64_u64 u32_idemp : cint.

(** The values of an [int]. *)
Definition int_range (z : Z) : Prop := - 2 ^ 31 <= z < 2 ^ 31.

(** ** Counted loops

    [for_n n body s] is [for (i = 0; i < n; i++) body(i)] on an explicit
    state; [for_down n body s] is [for (i = n - 1; i > 0; i--) body(i)]. *)

Definition for_n {S : Type} (n : nat) (body : nat -> S -> S) (s : S) : S :=
  fold_left (fun s i => body i s) (seq 0 n) s.

Definition for_from {S : Type} (lo n : nat) (body : nat -> S -> S) (s : S) : S :=
  fold_left (fun s i => body i s) (seq lo (n - lo)) s.

Definition for_down {S : Type} (n : nat) (body : nat -> S -> S) (s : S) : S :=
  fold_left (fun s i => body i s) (rev (seq 1 (n - 1))) s.

Section ForLoops.
Context {S : Type}.
Implicit Types (body : nat -> S -> S) (s : S).

Lemma for_n_0 body s : for_n 0 body s = s.
Proof. reflexivity. Qed.

Lemma for_n_S n body s : for_n (Datatypes.S n) body s = body n (for_n n body s).
Proof. unfold for_n. rewrite seq_S, fold_left_app. reflexivity. Qed.

(** The rule for counted loops: an indexed invariant. *)
Lemma for_n_ind (P : nat -> S -> Prop) n body s :
  P 0%nat s ->
  (forall i s, (i < n)%nat -> P i s -> P (Datatypes.S i) (body i s)) ->
  P n (for_n n body s).
Proof.
  intros H0 Hstep. induction n as [|n IH]; [exact H0|].
  rewrite for_n_S. apply Hstep; [lia|]. apply IH. intros; apply Hstep; [lia|done].
Qed.

(** The same rule with an invariant that does not mention the counter. *)
Lemma for_n_inv (P : S -> Prop) n body s :
  P s -> (forall i s, (i < n)%nat -> P s -> P (body i s)) -> P (for_n n body s).
Proof. intros H0 Hstep. apply (for_n_ind (fun _ => P)); auto. Qed.

Lemma for_from_inv (P : S -> Prop) lo n body s :
  P s -> (forall i s, (lo <= i < n)%nat -> P s -> P (body i s)) ->
  P (for_from lo n body s).
Proof.
  unfold for_from. intros H0 Hstep.
  assert (Hin : forall i, In i (seq lo (n - lo)) -> (lo <= i < n)%nat)
    by (intros i; rewrite in_seq; lia).
  revert s H0 Hin. induction (seq lo (n - lo)) as [|i l IH]; simpl; [done|].
  intros s H0 Hin. apply IH; [|auto]. apply Hstep; auto.
Qed.

Lemma for_from_ind (P : nat -> S -> Prop) lo n body s :
  (lo <= n)%nat -> P lo s ->
  (forall i s, (lo <= i < n)%nat -> P i s -> P (Datatypes.S i) (body i s)) ->
  P n (for_from lo n body s).
Proof.
  intros Hle H0 Hstep. unfold for_from.
  assert (Hn : n = (lo + (n - lo))%nat) by lia. rewrite Hn at 1.
  assert (Hk : (lo + (n - lo) <= n)%nat) by lia. clear Hn.
  induction (n - lo)%nat as [|k IH]; [by rewrite Nat.add_0_r|].
  rewrite seq_S, fold_left_app. simpl. rewrite Nat.add_succ_r.
  apply Hstep; [lia|]. apply IH. lia.
Qed.

(** A loop whose body leaves a field of the state alone leaves it alone. *)
Lemma for_n_frame {T : Type} (field : S -> T) n body s :
  (forall i s, field (body i s) = field s) -> field (for_n n body s) = field s.
Proof.
  intros Hf. apply (for_n_inv (fun s' => field s' = field s)); [done|].
  intros i s' _ IH. rewrite Hf. exact IH.
Qed.

Lemma for_from_frame {T : Type} (field : S -> T) lo n body s :
  (forall i s, field (body i s) = field s) -> field (for_from lo n body s) = field s.
Proof.
  intros Hf. apply (for_from_inv (fun s' => field s' = field s)); [done|].
  intros i s' _ IH. rewrite Hf. exact IH.
Qed.

Lemma for_n_ext n body body' s :
  (forall i s, (i < n)%nat -> body i s = body' i s) ->
  for_n n body s = for_n n body' s.
Proof.
  intros Hb. induction n as [|n IH]; [done|].
  rewrite !for_n_S, IH by (intros; apply Hb; lia). apply Hb. lia.
Qed.

End ForLoops.

(** A field of the state seen on its own: if the body acts on it as [g] does,
    the loop computes it as the loop of [g]. *)
Lemma for_n_proj {S T : Type} (f : S -> T) (g : nat -> T -> T) n body s :
  (forall i s, f (body i s) = g i (f s)) -> f (for_n n body s) = for_n n g (f s).
Proof.
  intros Hf. induction n as [|n IH]; [done|]. by rewrite !for_n_S, Hf, IH.
Qed.
(** Filling an array cell by cell. *)
Lemma for_n_fill {A} (v : A) l :
  for_n (length l) (fun i l => <[i := v]> l) l = replicate (length l) v.
Proof.
  assert (forall k, (k <= length l)%nat ->
    for_n k (fun i l => <[i := v]> l) l = replicate k v ++ drop k l) as Hk.
  { induction k as [|k IH]; intros Hle; [done|]. rewrite for_n_S, IH by lia.
    rewrite insert_app_r_alt by (rewrite length_replicate; lia).
    rewrite length_replicate, Nat.sub_diag.
    destruct (lookup_lt_is_Some_2 l k) as [x Hx]; [lia|].
    rewrite (drop_S l x k) by done. rewrite replicate_S_end, <- app_assoc. done. }
  rewrite Hk by done. rewrite drop_all. apply app_nil_r.
Qed.

(** ** Arrays

    A C array is a list whose length never changes.  Reads are [l !!! i],
    writes [<[i := v]> l]; [upd2] writes one cell of a two-dimensional array
    and [get2] reads one. *)

Definition upd2 {A} (i j : nat) (v : A) (m : list (list A)) : list (list A) :=
  alter (fun row => <[j := v]> row) i m.

Definition get2 {A} `{Inhabited A} (m : list (list A)) (i j : nat) : A :=
  (m !!! i) !!! j.

(** A two-dimensional array has [r] rows of [c] cells. *)
Definition shape {A} (r c : nat) (m : list (list A)) : Prop :=
  length m = r /\ Forall (fun row => length row = c) m.

Lemma shape_upd2 {A} r c i j (v : A) m : shape r c m -> shape r c (upd2 i j v m).
Proof.
  intros [Hr Hc]. split; unfold upd2; [by rewrite length_alter|].
  apply Forall_alter; [done|]. intros row _ Hrow. by rewrite length_insert.
Qed.

Lemma shape_row {A} r c i (m : list (list A)) :
  shape r c m -> (i < r)%nat -> length (m !!! i) = c.
Proof.
  intros [Hr Hc] Hi. rewrite Forall_forall in Hc. apply Hc.
  apply list_elem_of_lookup. exists i. apply list_lookup_lookup_total_lt. lia.
Qed.

Lemma shape_replicate {A} r c (v : A) : shape r c (replicate r (replicate c v)).
Proof.
  split; [apply length_replicate|].
  apply Forall_replicate. apply length_replicate.
Qed.

Lemma get2_upd2_eq {A} `{Inhabited A} r c i j (v : A) m :
  shape r c m -> (i < r)%nat -> (j < c)%nat -> get2 (upd2 i j v m) i j = v.
Proof.
  intros Hs Hi Hj. unfold get2, upd2.
  assert (Hrow : length (m !!! i) = c) by eauto using shape_row.
  assert (Hlk : m !! i = Some (m !!! i))
    by (apply list_lookup_lookup_total_lt; destruct Hs; lia).
  rewrite (list_lookup_total_correct _ i (<[j:=v]> (m !!! i))).
  - apply list_lookup_total_insert_eq. lia.
  - rewrite list_lookup_alter_eq, Hlk. reflexivity.
Qed.

Lemma row_upd2_ne {A} (i i' j : nat) (v : A) m :
  i <> i' -> upd2 i j v m !! i' = m !! i'.
Proof. intros Hne. unfold upd2. by rewrite list_lookup_alter_ne. Qed.

Lemma get2_upd2_ne_row {A} `{Inhabited A} i i' j j' (v : A) m :
  i <> i' -> get2 (upd2 i j v m) i' j' = get2 m i' j'.
Proof.
  intros Hne. unfold get2. rewrite !list_lookup_total_alt, row_upd2_ne by done.
  reflexivity.
Qed.

Lemma get2_upd2_ne_col {A} `{Inhabited A} i j j' (v : A) m :
  j <> j' -> get2 (upd2 i j v m) i j' = get2 m i j'.
Proof.
  intros Hne. unfold get2, upd2. rewrite !list_lookup_total_alt.
  rewrite list_lookup_alter_eq. destruct (m !! i) as [row|]; [|done].
  simpl. by rewrite list_lookup_insert_ne.
Qed.

Lemma upd2_upd2 {A} i j (v w : A) m : upd2 i j w (upd2 i j v m) = upd2 i j w m.
Proof.
  apply list_eq. intros k. unfold upd2. destruct (decide (k = i)) as [->|Hne].
  - rewrite !list_lookup_alter_eq. destruct (m !! i) as [row|]; [|done].
    cbn. by rewrite list_insert_insert_eq.
  - by rewrite !list_lookup_alter_ne.
Qed.

Lemma upd2_insert {A} i j (v : A) row m :
  upd2 i j v (<[i := row]> m) = <[i := <[j := v]> row]> m.
Proof.
  apply list_eq. intros k. unfold upd2. destruct (decide (k = i)) as [->|Hne].
  - rewrite list_lookup_alter_eq. destruct (decide (i < length m)%nat).
    + by rewrite !list_lookup_insert_eq by done.
    + by rewrite !lookup_ge_None_2 by (rewrite length_insert; lia).
  - by rewrite list_lookup_alter_ne, !list_lookup_insert_ne.
Qed.

(** Copying a row cell by cell. *)
Lemma copy_row {A} `{Inhabited A} c i (row : list A) m r :
  shape r c m -> (i < r)%nat -> length row = c ->
  for_n c (fun k m => upd2 i k (row !!! k) m) m = <[i := row]> m.
Proof.
  intros Hs Hi Hrow.
  assert (forall k, (k <= c)%nat -> for_n k (fun k m => upd2 i k (row !!! k) m) m =
    <[i := take k row ++ drop k (m !!! i)]> m) as Hk.
  { induction k as [|k IH]; intros Hle.
    - rewrite for_n_0. cbn [take drop app]. rewrite list_insert_id; [done|].
      apply list_lookup_lookup_total_lt. destruct Hs; lia.
    - rewrite for_n_S, IH, upd2_insert by lia. f_equal.
      assert (length (m !!! i) = c) as Hm by eauto using shape_row.
      rewrite insert_app_r_alt by (rewrite length_take; lia).
      rewrite length_take, Nat.min_l, Nat.sub_diag by lia.
      destruct (lookup_lt_is_Some_2 (m !!! i) k) as [x Hx]; [lia|].
      destruct (lookup_lt_is_Some_2 row k) as [y Hy]; [lia|].
      rewrite (drop_S (m !!! i) x k) by done. rewrite (take_S_r row k y) by done.
      rewrite (list_lookup_total_correct row k y) by done. by rewrite <- app_assoc. }
  rewrite Hk by done. f_equal. rewrite take_ge, drop_ge by
    (rewrite ?(shape_row r c) by done; lia). apply app_nil_r.
Qed.

(** Copying a vector cell by cell. *)
Lemma copy_vec {A} `{Inhabited A} (src l : list A) :
  length l = length src ->
  for_n (length src) (fun i l => <[i := src !!! i]> l) l = src.
Proof.
  intros Hl.
  assert (forall k, (k <= length src)%nat ->
    for_n k (fun i l => <[i := src !!! i]> l) l = take k src ++ drop k l) as Hk.
  { induction k as [|k IH]; intros Hle; [done|]. rewrite for_n_S, IH by lia.
    rewrite insert_app_r_alt by (rewrite length_take; lia).
    rewrite length_take, Nat.min_l, Nat.sub_diag by lia.
    destruct (lookup_lt_is_Some_2 l k) as [x Hx]; [lia|].
    destruct (lookup_lt_is_Some_2 src k) as [y Hy]; [lia|].
    rewrite (drop_S l x k), (take_S_r src k y) by done.
    rewrite (list_lookup_total_correct src k y) by done. by rewrite <- app_assoc. }
  rewrite Hk by done. rewrite take_ge, drop_ge by lia. apply app_nil_r.
Qed.

(** Computing a vector cell by cell. *)
Lemma for_n_tabulate {A} (f : nat -> A) n l :
  length l = n -> for_n n (fun i l => <[i := f i]> l) l = f <$> seq 0 n.
Proof.
  intros <-.
  assert (forall k, (k <= length l)%nat ->
    for_n k (fun i l => <[i := f i]> l) l = (f <$> seq 0 k) ++ drop k l) as Hk.
  { induction k as [|k IH]; intros Hle; [done|]. rewrite for_n_S, IH by lia.
    rewrite insert_app_r_alt by (rewrite length_fmap, length_seq; lia).
    rewrite length_fmap, length_seq, Nat.sub_diag.
    destruct (lookup_lt_is_Some_2 l k) as [x Hx]; [lia|].
    rewrite (drop_S l x k), seq_S, fmap_app by done. by rewrite <- app_assoc. }
  rewrite Hk by done. rewrite drop_all. apply app_nil_r.
Qed.

Lemma lookup_total_zip `{Inhabited A, Inhabited B} (l : list A) (k : list B) i :
  (i < length l)%nat -> (i < length k)%nat -> zip l k !!! i = (l !!! i, k !!! i).
Proof.
  intros Hl Hk. apply list_lookup_total_correct, lookup_zip_with_Some.
  exists (l !!! i), (k !!! i). by rewrite !list_lookup_lookup_total_lt.
Qed.

(** A counted loop that only reads the elements of a list is a fold over it. *)
Lemma for_n_foldl `{Inhabited A} {S : Type} (f : S -> A -> S) l n s :
  length l = n -> for_n n (fun i s => f s (l !!! i)) s = foldl f s l.
Proof.
  intros <-. revert s. induction l as [|a l IH] using rev_ind; intros s; [done|].
  rewrite length_app, Nat.add_1_r, for_n_S, foldl_app. cbn [foldl].
  rewrite list_lookup_total_middle by done. f_equal. rewrite <- IH.
  apply for_n_ext. intros i s' Hi. by rewrite lookup_total_app_l by lia.
Qed.

Global Arguments for_n : simpl never.
Global Arguments for_from : simpl never.
Global Arguments for_down : simpl never.
Global Arguments upd2 : simpl never.
Global Arguments get2 : simpl never.
Global Arguments u8 : simpl never.
Global Arguments u32 : simpl never.
Global Arguments u64 : simpl never.
Global Arguments s32 : simpl never.
Global Arguments s64 : simpl never.

(** ** Small automation shared by the components *)

Ltac inv_some :=
  repeat match goal with
  | H : Some _ = Some _ |- _ => injection H as H; try subst
  | H : None = Some _ |- _ => discriminate H
  | H : Some _ = None |- _ => discriminate H
  end.

(** Case analysis on the scrutinee of every match or conditional left in the
    goal. *)
Ltac split_matches :=
  repeat match goal with
  | |- context [match ?x with _ => _ end] => destruct x eqn:?
  end.
