(* ===== verification/Float64.v ===== *)
(** * IEEE-754 binary64 arithmetic

    The C type [double] of the module and of the [tc] front end.  The standard
    library's executable specification [SpecFloat] gives the arithmetic at
    precision 53 and maximal exponent 1024 (one rounding to nearest-even per
    operation); this file adds the comparisons and conversions C inserts, the
    decimal literals, and the 64-bit representation that the program reads and
    writes through [*(long long * )&x].  The order facts the controller's clamps
    and its swarm minimum rely on are at the end. *)

From Stdlib Require Export SpecFloat.
From S2P Require Export Prelude.

Abbreviation double := spec_float.

Definition prec : Z := 53.
Definition emax : Z := 1024.

Global Instance double_eq_dec : EqDecision double.
Proof. solve_decision. Defined.

Global Instance double_inhabited : Inhabited double := populate (S754_zero false).

Declare Scope double_scope.
Delimit Scope double_scope with D.
Bind Scope double_scope with spec_float.

(** ** Arithmetic *)

Definition dadd (x y : double) : double := SFadd prec emax x y.
Definition dsub (x y : double) : double := SFsub prec emax x y.
Definition dmul (x y : double) : double := SFmul prec emax x y.
Definition ddiv (x y : double) : double := SFdiv prec emax x y.
Definition dneg (x : double) : double := SFopp x.

Infix "+" := dadd : double_scope.
Infix "-" := dsub : double_scope.
Infix "*" := dmul : double_scope.
Infix "/" := ddiv : double_scope.
Notation "- x" := (dneg x) : double_scope.

(** ** Comparisons: every comparison with a NaN is false *)

Definition dlt (x y : double) : bool := SFltb x y.
Definition dle (x y : double) : bool := SFleb x y.
Definition dgt (x y : double) : bool := SFltb y x.
Definition dge (x y : double) : bool := SFleb y x.
Definition deq (x y : double) : bool := SFeqb x y.

Definition is_nan (x : double) : bool :=
  match x with S754_nan => true | _ => false end.

Definition is_finite (x : double) : bool :=
  match x with S754_zero _ | S754_finite _ _ _ => true | _ => false end.

(** ** Conversions

    [d_of_Z] is the implicit conversion of an integer.  Conversions to integer
    types truncate; out of range they are undefined in C, and the definitions
    give the result of the SSE2 instruction gcc emits: the "integer indefinite"
    value (for an [unsigned int], the low half of the 64-bit conversion). *)

Definition d_of_Z (z : Z) : double := binary_normalize prec emax z 0 false.

Definition d_trunc (x : double) : option Z :=
  match x with
  | S754_zero _ => Some 0
  | S754_finite s m e =>
      let a := if 0 <=? e then Z.pos m * 2 ^ e else Z.pos m / 2 ^ (- e) in
      Some (if s then - a else a)
  | _ => None
  end.

Definition d_to_s32 (x : double) : Z :=
  match d_trunc x with
  | Some z => if (- 2 ^ 31 <=? z) && (z <? 2 ^ 31) then z else - 2 ^ 31
  | None => - 2 ^ 31
  end.

Definition d_to_s64 (x : double) : Z :=
  match d_trunc x with
  | Some z => if (- 2 ^ 63 <=? z) && (z <? 2 ^ 63) then z else - 2 ^ 63
  | None => - 2 ^ 63
  end.

Definition d_to_u32 (x : double) : Z := u32 (d_to_s64 x).

(** ** Literals

    [dec m k] is the decimal constant [m * 10^k], correctly rounded. *)

Definition dec (m k : Z) : double :=
  if 0 <=? k then binary_normalize prec emax (m * 10 ^ k) 0 false
  else match m with
       | Z0 => S754_zero false
       | Zpos p => ddiv (S754_finite false p 0) (S754_finite false (Z.to_pos (10 ^ (- k))) 0)
       | Zneg p => ddiv (S754_finite true p 0) (S754_finite false (Z.to_pos (10 ^ (- k))) 0)
       end.

Definition d0 : double := S754_zero false.
Definition d1 : double := Eval vm_compute in d_of_Z 1.
Definition d2 : double := Eval vm_compute in d_of_Z 2.

(** ** The 64-bit representation

    [bits_of_double] is the content of the eight bytes of a double as an
    unsigned integer, [double_of_bits] the double they denote.  The model has a
    single NaN; its bits are those the x86 units produce, the value the module
    also names as [NaN]. *)

Definition nan_bits : Z := 0xFFF8000000000000.

Definition bits_of_double (x : double) : Z :=
  let sgn (s : bool) := if s then 2 ^ 63 else 0 in
  match x with
  | S754_zero s => sgn s
  | S754_infinity s => sgn s + 2047 * 2 ^ 52
  | S754_nan => nan_bits
  | S754_finite s m e =>
      if 2 ^ 52 <=? Z.pos m then sgn s + (e + 1075) * 2 ^ 52 + (Z.pos m - 2 ^ 52)
      else sgn s + Z.pos m
  end.

Definition double_of_bits (b : Z) : double :=
  let s := Z.testbit b 63 in
  let ex := (b / 2 ^ 52) mod 2 ^ 11 in
  let fr := b mod 2 ^ 52 in
  if ex =? 2047 then (if fr =? 0 then S754_infinity s else S754_nan)
  else if ex =? 0 then
    match fr with Zpos m => S754_finite s m (-1074) | _ => S754_zero s end
  else S754_finite s (Z.to_pos (fr + 2 ^ 52)) (ex - 1075).

(** [*(long long * )&x] and its inverse. *)
Definition double_to_ll (x : double) : Z := s64 (bits_of_double x).
Definition ll_to_double (z : Z) : double := double_of_bits (u64 z).

Global Arguments dadd : simpl never.
Global Arguments dsub : simpl never.
Global Arguments dmul : simpl never.
Global Arguments ddiv : simpl never.
Global Arguments dlt : simpl never.
Global Arguments dle : simpl never.
Global Arguments dgt : simpl never.
Global Arguments dge : simpl never.
Global Arguments d_of_Z : simpl never.
Global Arguments d_to_s32 : simpl never.
Global Arguments d_to_s64 : simpl never.
Global Arguments d_to_u32 : simpl never.
Global Arguments dec : simpl never.
Global Arguments double_to_ll : simpl never.
Global Arguments ll_to_double : simpl never.

(** ** Order

    [dkey] maps a double to a triple whose lexicographic order is the order of
    the doubles, so that goals about comparisons become linear arithmetic. *)

Definition dkey (x : double) : Z * Z * Z :=
  match x with
  | S754_infinity true => (-2, 0, 0)
  | S754_finite true m e => (-1, - e, - Z.pos m)
  | S754_zero _ | S754_nan => (0, 0, 0)
  | S754_finite false m e => (1, e, Z.pos m)
  | S754_infinity false => (2, 0, 0)
  end.

Definition lex_lt (a b : Z * Z * Z) : Prop :=
  let '(a1, a2, a3) := a in
  let '(b1, b2, b3) := b in
  a1 < b1 \/ (a1 = b1 /\ (a2 < b2 \/ (a2 = b2 /\ a3 < b3))).

Lemma dlt_spec x y :
  dlt x y = true <-> is_nan x = false /\ is_nan y = false /\ lex_lt (dkey x) (dkey y).
Proof.
  unfold dlt, SFltb, SFcompare, dkey, lex_lt, is_nan.
  destruct x as [[]|[]| |[] mx ex], y as [[]|[]| |[] my ey];
    try (split; [discriminate|intros; lia || intuition discriminate]);
    try (split; [intros _; repeat split; lia|reflexivity]);
    try (destruct (Z.compare_spec ex ey); fold (Pos.compare mx my);
         try destruct (Pos.compare_spec mx my); simpl;
         split; intros; try discriminate; try reflexivity; intuition lia).
Qed.

Lemma dle_spec x y :
  dle x y = true <-> is_nan x = false /\ is_nan y = false /\ ~ lex_lt (dkey y) (dkey x).
Proof.
  unfold dle, SFleb, SFcompare, dkey, lex_lt, is_nan.
  destruct x as [[]|[]| |[] mx ex], y as [[]|[]| |[] my ey];
    try (split; [discriminate|intros; lia || intuition discriminate]);
    try (split; [intros _; repeat split; lia|reflexivity]);
    try (destruct (Z.compare_spec ex ey); fold (Pos.compare mx my);
         try destruct (Pos.compare_spec mx my); simpl;
         split; intros; try discriminate; try reflexivity; intuition lia).
Qed.

Lemma dgt_dlt x y : dgt x y = dlt y x.
Proof. reflexivity. Qed.

Lemma dge_dle x y : dge x y = dle y x.
Proof. reflexivity. Qed.

(** [d_order] decides goals about [dlt], [dle], [dgt], [dge] on doubles. *)
Ltac d_order_pre :=
  rewrite ?dgt_dlt, ?dge_dle in *;
  repeat match goal with
  | H : dlt ?x ?y = true |- _ => apply dlt_spec in H
  | H : dle ?x ?y = true |- _ => apply dle_spec in H
  | H : dlt ?x ?y = false |- _ =>
      rewrite <- Bool.not_true_iff_false, dlt_spec in H
  | H : dle ?x ?y = false |- _ =>
      rewrite <- Bool.not_true_iff_false, dle_spec in H
  | |- dlt ?x ?y = true => apply dlt_spec
  | |- dle ?x ?y = true => apply dle_spec
  | |- dlt ?x ?y = false => rewrite <- Bool.not_true_iff_false, dlt_spec
  | |- dle ?x ?y = false => rewrite <- Bool.not_true_iff_false, dle_spec
  end.

Ltac d_order :=
  d_order_pre;
  unfold lex_lt in *;
  repeat match goal with
  | |- context [dkey ?x] => destruct (dkey x) as [[? ?] ?]; simpl in *
  | H : context [dkey ?x] |- _ => destruct (dkey x) as [[? ?] ?]; simpl in *
  end;
  repeat match goal with
  | |- context [is_nan ?x] => destruct (is_nan x); simpl in *
  | H : context [is_nan ?x] |- _ => destruct (is_nan x); simpl in *
  end;
  intuition (try discriminate; try congruence; try lia).

Lemma dlt_irrefl x : dlt x x = false.
Proof. d_order. Qed.

Lemma dlt_trans x y z : dlt x y = true -> dlt y z = true -> dlt x z = true.
Proof. intros; d_order. Qed.

Lemma dle_trans x y z : dle x y = true -> dle y z = true -> dle x z = true.
Proof. intros; d_order. Qed.

Lemma dlt_dle x y : dlt x y = true -> dle x y = true.
Proof. intros; d_order. Qed.

Lemma dle_dlt_trans x y z : dle x y = true -> dlt y z = true -> dlt x z = true.
Proof. intros; d_order. Qed.

(** On numbers the order is total: what is not less is at least. *)
Lemma dlt_false_dle x y :
  is_nan x = false -> is_nan y = false -> dlt x y = false -> dle y x = true.
Proof. intros; d_order. Qed.

Lemma dle_refl x : is_nan x = false -> dle x x = true.
Proof. intros; d_order. Qed.

Lemma dlt_nan_l y : dlt S754_nan y = false.
Proof. reflexivity. Qed.

Lemma dlt_nan_r x : dlt x S754_nan = false.
Proof. destruct x as [[]|[]| |[] ? ?]; reflexivity. Qed.

(** [if (x > hi) x = hi; if (x < lo) x = lo;], the clamp the controller writes
    several times: its result is in the interval unless [x] is a NaN. *)
Definition clamp (lo hi x : double) : double :=
  let x := if dgt x hi then hi else x in
  if dlt x lo then lo else x.

Lemma clamp_nan lo hi : clamp lo hi S754_nan = S754_nan.
Proof. unfold clamp. rewrite dgt_dlt, dlt_nan_r, dlt_nan_l. reflexivity. Qed.

Lemma clamp_bounds lo hi x :
  dle lo hi = true -> is_nan x = false ->
  dle lo (clamp lo hi x) = true /\ dle (clamp lo hi x) hi = true.
Proof.
  intros Hlh Hx. unfold clamp.
  destruct (dgt x hi) eqn:Hgt; [destruct (dlt hi lo) eqn:Hlt|destruct (dlt x lo) eqn:Hlt];
    split; d_order.
Qed.
