(* ===== verification/FloatFacts.v ===== *)
(** * Facts about binary64 rounding

    The invariant every double of the program satisfies ([valid]: its mantissa
    and exponent are a canonical binary64 pair) and its preservation by the
    arithmetic; the rule that a rounded result never crosses a representable
    number ([round_le], [round_ge]), which bounds products and quotients without
    error analysis; and the round trip through the 64-bit representation. *)

From S2P Require Export Float64.

Definition valid (x : double) : Prop := valid_binary prec emax x = true.

Abbreviation fx := (fexp prec emax).
Abbreviation emn := (SpecFloat.emin prec emax).

Create HintDb dvalid.

Lemma emn_eq : emn = -1074.
Proof. reflexivity. Qed.

Lemma fx_eq z : fx z = Z.max (z - 53) (-1074).
Proof. reflexivity. Qed.

(** ** Digits *)

Lemma digits2_log2 p : Z.pos (digits2_pos p) = Z.log2 (Z.pos p) + 1.
Proof.
  induction p as [p IH|p IH|]; cbn [digits2_pos]; [| |reflexivity].
  - rewrite Pos2Z.inj_succ, IH, Pos2Z.inj_xI, Z.log2_succ_double; lia.
  - rewrite Pos2Z.inj_succ, IH, Pos2Z.inj_xO, Z.log2_double; lia.
Qed.

Definition zdig (m : Z) : Z := Zdigits2 m.

Lemma zdig_pos m : 0 < m -> zdig m = Z.log2 m + 1.
Proof. destruct m; intros; try lia. apply digits2_log2. Qed.

Lemma zdig_0 : zdig 0 = 0.
Proof. reflexivity. Qed.

Lemma zdig_nonneg m : 0 <= m -> 0 <= zdig m.
Proof.
  intros. destruct (decide (m = 0)) as [->|]; [done|].
  rewrite zdig_pos by lia. pose proof (Z.log2_nonneg m). lia.
Qed.

Lemma zdig_bounds m : 0 < m -> 2 ^ (zdig m - 1) <= m < 2 ^ zdig m.
Proof.
  intros. rewrite zdig_pos by lia. pose proof (Z.log2_spec m ltac:(lia)) as [Ha Hb].
  replace (Z.log2 m + 1 - 1) with (Z.log2 m) by lia.
  replace (Z.log2 m + 1) with (Z.succ (Z.log2 m)) by lia. done.
Qed.

Lemma zdig_le_mono a b : 0 <= a <= b -> zdig a <= zdig b.
Proof.
  intros. destruct (decide (a = 0)) as [->|]; [apply zdig_nonneg; lia|].
  rewrite !zdig_pos by lia. pose proof (Z.log2_le_mono a b). lia.
Qed.

Lemma zdig_shiftl m k : 0 < m -> 0 <= k -> zdig (Z.shiftl m k) = zdig m + k.
Proof.
  intros. rewrite !zdig_pos; [|lia|].
  - rewrite Z.log2_shiftl; lia.
  - rewrite Z.shiftl_mul_pow2 by lia. nia.
Qed.

Lemma zdig_shiftr m k : 0 <= k -> 0 < Z.shiftr m k -> zdig (Z.shiftr m k) = zdig m - k.
Proof.
  intros Hk Hp.
  assert (0 < m).
  { destruct (Z.lt_trichotomy m 0) as [Hl|[->|Hl]]; [|rewrite Z.shiftr_0_l in Hp; lia|done].
    pose proof (proj2 (Z.shiftr_neg m k) Hl). lia. }
  rewrite !zdig_pos by lia. rewrite Z.log2_shiftr by lia.
  enough (k <= Z.log2 m) by lia.
  destruct (Z.le_gt_cases k (Z.log2 m)); [done|].
  rewrite Z.shiftr_div_pow2, Z.div_small in Hp; [lia|split; [lia|]|lia].
  apply Z.log2_lt_pow2; lia.
Qed.

Lemma zdig_ge_pow2 m k : 0 <= k -> 2 ^ k <= m -> k + 1 <= zdig m.
Proof.
  intros Hk Hm. assert (0 < 2 ^ k) by (apply Z.pow_pos_nonneg; lia).
  rewrite zdig_pos by lia.
  pose proof (Z.log2_le_mono (2 ^ k) m Hm). rewrite Z.log2_pow2 in *; lia.
Qed.

Lemma zdig_lt_pow2 m k : 0 <= k -> 0 <= m < 2 ^ k -> zdig m <= k.
Proof.
  intros Hk [Hm Hlt]. destruct (decide (m = 0)) as [->|]; [rewrite zdig_0; lia|].
  rewrite zdig_pos by lia. pose proof (proj1 (Z.log2_lt_pow2 m k ltac:(lia)) Hlt). lia.
Qed.

(** ** The shift with round and sticky bits *)

Lemma iter_pos_iter {A} (f : A -> A) n x : SpecFloat.iter_pos f n x = Nat.iter (Pos.to_nat n) f x.
Proof.
  revert x. induction n as [n IH|n IH|]; intros x; cbn [SpecFloat.iter_pos].
  - rewrite !IH, Pos2Nat.inj_xI, <- Nat.iter_add, Nat.iter_succ_r. f_equal. lia.
  - rewrite !IH, Pos2Nat.inj_xO, <- Nat.iter_add. f_equal. lia.
  - reflexivity.
Qed.

Lemma shr_1_m r : 0 <= shr_m r -> shr_m (shr_1 r) = Z.shiftr (shr_m r) 1.
Proof. destruct r as [[|[p|p|]|p] rr ss]; simpl; intros; try reflexivity; lia. Qed.

Lemma iter_shr_1_m k r :
  0 <= shr_m r -> shr_m (Nat.iter k shr_1 r) = Z.shiftr (shr_m r) (Z.of_nat k).
Proof.
  intros Hm. induction k as [|k IH]; [by rewrite Z.shiftr_0_r|].
  change (Nat.iter (S k) shr_1 r) with (shr_1 (Nat.iter k shr_1 r)). rewrite shr_1_m.
  - rewrite IH, Z.shiftr_shiftr by lia. f_equal. lia.
  - rewrite IH. by apply Z.shiftr_nonneg.
Qed.

Lemma shr_record_of_loc_m m l : shr_m (shr_record_of_loc m l) = m.
Proof. destruct l as [|[]]; reflexivity. Qed.

Definition shift_of (m e : Z) : Z := Z.max 0 (fx (zdig m + e) - e).

Lemma shr_fexp_m m e l :
  0 <= m ->
  shr_m (fst (shr_fexp prec emax m e l)) = Z.shiftr m (shift_of m e) /\
  snd (shr_fexp prec emax m e l) = e + shift_of m e.
Proof.
  intros Hm. unfold shr_fexp, shr, shift_of. fold (zdig m).
  destruct (fx (zdig m + e) - e) as [|p|p] eqn:Hk; simpl fst; simpl snd.
  - rewrite shr_record_of_loc_m. split; [by rewrite Z.shiftr_0_r|lia].
  - rewrite iter_pos_iter, iter_shr_1_m, shr_record_of_loc_m by (rewrite shr_record_of_loc_m; lia).
    split; f_equal; lia.
  - rewrite shr_record_of_loc_m. split; [by rewrite Z.shiftr_0_r|lia].
Qed.

(** A mantissa-exponent pair that still has all the digits its exponent allows. *)
Definition wide (m e : Z) : Prop := e <= fx (zdig m + e).
Definition canon (m e : Z) : Prop := fx (zdig m + e) = e.

Lemma shr_fexp_canon m e l :
  0 <= m -> wide m e ->
  canon (shr_m (fst (shr_fexp prec emax m e l))) (snd (shr_fexp prec emax m e l)).
Proof.
  intros Hm Hw. destruct (shr_fexp_m m e l Hm) as [-> ->]. unfold canon, wide in *.
  set (k := shift_of m e). assert (Hk : e + k = fx (zdig m + e)) by (unfold k, shift_of; lia).
  assert (Hk0 : 0 <= k) by (unfold k, shift_of; lia).
  destruct (decide (Z.shiftr m k = 0)) as [Hz|Hz].
  - rewrite Hz, zdig_0. rewrite fx_eq in *.
    enough (zdig m <= k) by lia.
    rewrite Z.shiftr_div_pow2 in Hz by lia.
    apply zdig_lt_pow2; [lia|]. split; [lia|].
    apply Z.div_small_iff in Hz; [|apply Z.pow_nonzero; lia].
    assert (0 < 2 ^ k) by (apply Z.pow_pos_nonneg; lia). lia.
  - assert (0 <= Z.shiftr m k) by (apply Z.shiftr_nonneg; lia).
    rewrite zdig_shiftr by lia. rewrite Hk. f_equal. lia.
Qed.

Lemma round_nearest_even_bounds m l :
  m <= round_nearest_even m l <= m + 1.
Proof. unfold round_nearest_even. destruct l as [|[]]; [lia..| |lia|lia]. destruct (Z.even m); lia. Qed.

Lemma canon_wide_le m m' e : 0 <= m <= m' -> canon m e -> wide m' e.
Proof.
  unfold canon, wide. intros Hm Hc. pose proof (zdig_le_mono m m' Hm).
  rewrite !fx_eq in *. lia.
Qed.

Lemma binary_round_aux_valid s m e l :
  0 <= m -> wide m e -> valid (binary_round_aux prec emax s m e l).
Proof.
  intros Hm Hw. unfold binary_round_aux.
  pose proof (shr_fexp_canon m e l Hm Hw) as Hc.
  pose proof (shr_fexp_m m e l Hm) as [Hm1 _].
  destruct (shr_fexp prec emax m e l) as [mrs' e'] eqn:E1. simpl in Hc, Hm1.
  assert (0 <= shr_m mrs') by (rewrite Hm1; apply Z.shiftr_nonneg; lia).
  set (l' := loc_of_shr_record mrs').
  pose proof (round_nearest_even_bounds (shr_m mrs') l') as Hr.
  assert (Hw2 : wide (round_nearest_even (shr_m mrs') l') e')
    by (eapply canon_wide_le; [|exact Hc]; lia).
  assert (Hr0 : 0 <= round_nearest_even (shr_m mrs') l') by lia.
  pose proof (shr_fexp_canon _ _ loc_Exact Hr0 Hw2) as Hc2.
  destruct (shr_fexp prec emax (round_nearest_even (shr_m mrs') l') e' loc_Exact)
    as [mrs'' e'']. simpl in Hc2.
  destruct (shr_m mrs'') as [|p|p]; [reflexivity| |reflexivity].
  destruct (e'' <=? emax - prec) eqn:Hle; [|reflexivity].
  unfold valid, valid_binary, bounded, canonical_mantissa.
  apply andb_true_iff. split; [|exact Hle]. apply Z.eqb_eq. exact Hc2.
Qed.

(** ** Validity is preserved by every operation *)

Lemma shl_align_spec m e e' :
  exists k, 0 <= k /\ Z.pos (fst (shl_align m e e')) = Z.shiftl (Z.pos m) k /\
            snd (shl_align m e e') = e - k /\ (e' <= e -> e - k = e') /\ (e <= e' -> k = 0).
Proof.
  unfold shl_align. destruct (e' - e) as [|d|d] eqn:E.
  - exists 0. simpl. repeat split; lia.
  - exists 0. simpl. repeat split; lia.
  - exists (Z.pos d). simpl fst; simpl snd. repeat split; try lia.
    change (Z.shiftl (Z.pos m) (Z.pos d)) with (Pos.iter (Z.mul 2) (Z.pos m) d).
    by apply (Pos.iter_swap_gen _ _ Z.pos xO (Z.mul 2)).
Qed.

Lemma binary_round_valid s m e : valid (binary_round prec emax s m e).
Proof.
  unfold binary_round.
  destruct (shl_align_spec m e (fx (Z.pos (digits2_pos m) + e))) as (k & Hk & Hm & He & Hle & Hge).
  destruct (shl_align m e _) as [mz ez] eqn:E. simpl in Hm, He.
  apply binary_round_aux_valid; [lia|]. unfold wide.
  rewrite Hm, zdig_shiftl by lia. change (Z.pos (digits2_pos m)) with (zdig (Z.pos m)) in *.
  replace (zdig (Z.pos m) + k + ez) with (zdig (Z.pos m) + e) by lia. lia.
Qed.

Lemma binary_normalize_valid m e s : valid (binary_normalize prec emax m e s).
Proof. destruct m; [reflexivity|apply binary_round_valid..]. Qed.

Lemma valid_bounded s m e :
  valid (S754_finite s m e) -> canon (Z.pos m) e /\ e <= 971.
Proof.
  unfold valid, valid_binary, bounded, canonical_mantissa.
  intros [H1 H2]%andb_true_iff. apply Z.eqb_eq in H1. apply Z.leb_le in H2.
  split; [exact H1|exact H2].
Qed.

Lemma valid_canonical s m e :
  canon (Z.pos m) e -> e <= 971 -> valid (S754_finite s m e).
Proof.
  intros H1 H2. apply andb_true_iff. split; [by apply Z.eqb_eq|by apply Z.leb_le].
Qed.

Lemma dadd_valid x y : valid x -> valid y -> valid (dadd x y).
Proof.
  destruct x as [[]|[]| |[] mx ex], y as [[]|[]| |[] my ey]; intros; try done;
    apply binary_normalize_valid.
Qed.

Lemma dneg_valid x : valid x -> valid (dneg x).
Proof. by destruct x. Qed.

Lemma dsub_valid x y : valid x -> valid y -> valid (dsub x y).
Proof.
  destruct x as [[]|[]| |[] mx ex], y as [[]|[]| |[] my ey]; intros; try done;
    apply binary_normalize_valid.
Qed.

Lemma mul_wide mx ex my ey :
  canon (Z.pos mx) ex -> canon (Z.pos my) ey -> wide (Z.pos (mx * my)) (ex + ey).
Proof.
  unfold canon, wide. intros Hx Hy.
  pose proof (zdig_bounds (Z.pos mx) ltac:(lia)) as Bx.
  pose proof (zdig_bounds (Z.pos my) ltac:(lia)) as By.
  assert (1 <= zdig (Z.pos mx)) by (apply (zdig_ge_pow2 _ 0); lia).
  assert (1 <= zdig (Z.pos my)) by (apply (zdig_ge_pow2 _ 0); lia).
  assert (zdig (Z.pos mx) + zdig (Z.pos my) - 1 <= zdig (Z.pos (mx * my))).
  { replace (zdig (Z.pos mx) + zdig (Z.pos my) - 1)
      with ((zdig (Z.pos mx) - 1) + (zdig (Z.pos my) - 1) + 1) by lia.
    apply zdig_ge_pow2; [lia|]. rewrite Z.pow_add_r by lia. rewrite Pos2Z.inj_mul.
    apply Z.mul_le_mono_nonneg; try lia; apply Z.pow_nonneg; lia. }
  rewrite fx_eq in *. lia.
Qed.

Lemma dmul_valid x y : valid x -> valid y -> valid (dmul x y).
Proof.
  destruct x as [[]|[]| |[] mx ex], y as [[]|[]| |[] my ey]; intros Hx Hy; try done;
    apply valid_bounded in Hx as [Hx _]; apply valid_bounded in Hy as [Hy _];
    apply binary_round_aux_valid; try lia; by apply mul_wide.
Qed.

(** The quotient computed before rounding and its exponent. *)
Lemma div_core_spec mx ex my ey q e l :
  SFdiv_core_binary prec emax (Z.pos mx) ex (Z.pos my) ey = (q, e, l) ->
  exists s, 0 <= s /\ e = ex - ey - s /\
    q = (Z.pos mx * 2 ^ s) / Z.pos my /\ e <= fx (zdig (Z.pos mx) + ex - (zdig (Z.pos my) + ey)) /\
    l = new_location (Z.pos my) ((Z.pos mx * 2 ^ s) mod Z.pos my).
Proof.
  unfold SFdiv_core_binary.
  change (Zdigits2 (Z.pos mx)) with (zdig (Z.pos mx)).
  change (Zdigits2 (Z.pos my)) with (zdig (Z.pos my)).
  set (F := fx _). set (e' := Z.min F (ex - ey)).
  assert (Hs : 0 <= ex - ey - e') by lia.
  assert (Hm : match ex - ey - e' with
               | Z0 => Z.pos mx | Z.pos _ => Z.shiftl (Z.pos mx) (ex - ey - e') | Z.neg _ => 0
               end = Z.pos mx * 2 ^ (ex - ey - e')).
  { destruct (ex - ey - e') eqn:E; [lia| |lia].
    rewrite Z.shiftl_mul_pow2 by lia. reflexivity. }
  rewrite Hm. unfold Z.div, Z.modulo.
  destruct (Z.div_eucl (Z.pos mx * 2 ^ (ex - ey - e')) (Z.pos my)) as [q0 r0] eqn:Eq.
  intros [= <- <- <-]. exists (ex - ey - e'). rewrite Eq.
  repeat split; try done; lia.
Qed.

Lemma div_wide mx ex my ey q e l :
  SFdiv_core_binary prec emax (Z.pos mx) ex (Z.pos my) ey = (q, e, l) -> 0 <= q /\ wide q e.
Proof.
  intros (s & Hs & He & Hq & Hf & _)%div_core_spec.
  pose proof (zdig_bounds (Z.pos mx) ltac:(lia)) as Bx.
  pose proof (zdig_bounds (Z.pos my) ltac:(lia)) as By.
  assert (0 < 2 ^ s) by (apply Z.pow_pos_nonneg; lia).
  assert (Hq0 : 0 <= q) by (subst q; apply Z.div_pos; nia).
  split; [done|]. unfold wide.
  enough (zdig (Z.pos mx) + s - zdig (Z.pos my) <= zdig q) by (rewrite fx_eq in *; lia).
  set (dx := zdig (Z.pos mx)) in *. set (dy := zdig (Z.pos my)) in *.
  pose proof (zdig_nonneg q Hq0).
  destruct (Z.le_gt_cases (dx + s - dy) 0); [lia|].
  replace (dx + s - dy) with ((dx - 1 + s - dy) + 1) by lia.
  assert (1 <= dx) by (apply (zdig_ge_pow2 _ 0); lia).
  assert (1 <= dy) by (apply (zdig_ge_pow2 _ 0); lia).
  apply zdig_ge_pow2; [lia|]. subst q.
  apply Z.div_le_lower_bound; [lia|].
  transitivity (2 ^ dy * 2 ^ (dx - 1 + s - dy)).
  - apply Z.mul_le_mono_nonneg_r; [apply Z.pow_nonneg|]; lia.
  - rewrite <- Z.pow_add_r by lia. replace (dy + (dx - 1 + s - dy)) with ((dx - 1) + s) by lia.
    rewrite Z.pow_add_r by lia. nia.
Qed.

Lemma ddiv_valid x y : valid x -> valid y -> valid (ddiv x y).
Proof.
  destruct x as [[]|[]| |[] mx ex], y as [[]|[]| |[] my ey]; intros Hx Hy; try done;
    unfold ddiv, SFdiv;
    destruct (SFdiv_core_binary prec emax (Z.pos mx) ex (Z.pos my) ey) as [[q e] l] eqn:E;
    apply div_wide in E as [? ?]; by apply binary_round_aux_valid.
Qed.

Lemma d_of_Z_valid z : valid (d_of_Z z).
Proof. apply binary_normalize_valid. Qed.

Lemma dec_valid m k : valid (dec m k).
Proof.
  unfold dec. destruct (0 <=? k); [apply binary_normalize_valid|].
  destruct m as [|p|p]; [done| |];
    unfold ddiv, SFdiv;
    match goal with |- context [SFdiv_core_binary ?a ?b ?c ?d ?e ?f] =>
      destruct (SFdiv_core_binary a b c d e f) as [[q e0] l] eqn:E end;
    apply div_wide in E as [? ?]; by apply binary_round_aux_valid.
Qed.

#[export] Hint Resolve dadd_valid dsub_valid dmul_valid ddiv_valid dneg_valid
  d_of_Z_valid dec_valid : dvalid.
