(* ===== verification/FloatRound.v ===== *)
(** * Rounding never crosses a representable number

    [ulps x] is the value of a finite double in units of 2^-1074, an integer.
    On valid doubles the program's comparisons are the comparisons of [ulps],
    and a rounded sum, product or quotient is at most (at least) every
    representable number its exact value is at most (at least). *)

From S2P Require Export FloatFacts.

(** ** Comparing scaled values *)

Definition ple (m1 e1 m2 e2 : Z) : Prop :=
  m1 * 2 ^ (e1 - Z.min e1 e2) <= m2 * 2 ^ (e2 - Z.min e1 e2).

Lemma pow_split k e c : k <= c <= e -> 2 ^ (e - k) = 2 ^ (e - c) * 2 ^ (c - k).
Proof. intros. rewrite <- Z.pow_add_r by lia. f_equal. lia. Qed.

Lemma ple_scale k m1 e1 m2 e2 :
  k <= e1 -> k <= e2 ->
  (ple m1 e1 m2 e2 <-> m1 * 2 ^ (e1 - k) <= m2 * 2 ^ (e2 - k)).
Proof.
  intros H1 H2. unfold ple. set (c := Z.min e1 e2).
  rewrite (pow_split k e1 c), (pow_split k e2 c) by lia.
  assert (0 < 2 ^ (c - k)) by (apply Z.pow_pos_nonneg; lia).
  rewrite !Z.mul_assoc. by apply Z.mul_le_mono_pos_r.
Qed.

Lemma ple_trans m1 e1 m2 e2 m3 e3 :
  ple m1 e1 m2 e2 -> ple m2 e2 m3 e3 -> ple m1 e1 m3 e3.
Proof.
  set (k := Z.min e1 (Z.min e2 e3)).
  rewrite !(ple_scale k) by lia. lia.
Qed.

Lemma ple_total m1 e1 m2 e2 : ple m1 e1 m2 e2 \/ ~ ple m1 e1 m2 e2.
Proof. unfold ple. lia. Qed.

Lemma nple m1 e1 m2 e2 : ~ ple m1 e1 m2 e2 -> ple m2 e2 m1 e1.
Proof. unfold ple. rewrite (Z.min_comm e2 e1). lia. Qed.

Lemma ple_same_exp m1 m2 e : ple m1 e m2 e <-> m1 <= m2.
Proof. rewrite (ple_scale e) by lia. rewrite Z.sub_diag, !Z.mul_1_r. done. Qed.

(** A larger exponent with a larger leading position is a larger value. *)
Lemma ple_of_digits m1 e1 m2 e2 :
  0 <= m1 -> 0 < m2 -> zdig m1 + e1 < zdig m2 + e2 -> ~ ple m2 e2 m1 e1.
Proof.
  intros H1 H2 Hd. set (k := Z.min e1 e2).
  pose proof (zdig_nonneg m1 H1).
  rewrite (ple_scale k) by lia.
  pose proof (zdig_bounds m2 H2) as [B2 _].
  assert (Hm1 : m1 < 2 ^ zdig m1).
  { destruct (decide (m1 = 0)) as [->|]; [by rewrite zdig_0|apply zdig_bounds; lia]. }
  assert (1 <= zdig m2) by (apply (zdig_ge_pow2 _ 0); lia).
  assert (P1 : 0 < 2 ^ (e1 - k)) by (apply Z.pow_pos_nonneg; lia).
  assert (P2 : 0 < 2 ^ (e2 - k)) by (apply Z.pow_pos_nonneg; lia).
  assert (2 ^ (zdig m1) * 2 ^ (e1 - k) <= 2 ^ (zdig m2 - 1) * 2 ^ (e2 - k)).
  { rewrite <- !Z.pow_add_r by lia. apply Z.pow_le_mono_r; lia. }
  nia.
Qed.

Lemma shiftr_ple m e k : 0 <= k -> ple (Z.shiftr m k) (e + k) m e.
Proof.
  intros Hk. rewrite (ple_scale e) by lia.
  replace (e + k - e) with k by lia. rewrite Z.sub_diag, Z.mul_1_r.
  rewrite Z.shiftr_div_pow2 by lia.
  assert (0 < 2 ^ k) by (apply Z.pow_pos_nonneg; lia).
  pose proof (Z.mul_div_le m (2 ^ k)). lia.
Qed.

(** The truncation to the target exponent stays above every canonical number
    below the input. *)
Lemma floor_lower m e m0 e0 :
  0 < m -> wide m e -> 0 < m0 -> canon m0 e0 -> ple m0 e0 m e ->
  ple m0 e0 (Z.shiftr m (shift_of m e)) (e + shift_of m e).
Proof.
  intros Hm Hw Hm0 Hc Hle. set (k := shift_of m e).
  assert (Hk : e + k = fx (zdig m + e)) by (unfold k, shift_of, wide in *; lia).
  assert (Hk0 : 0 <= k) by (unfold k, shift_of; lia).
  destruct (Z.le_gt_cases (e + k) e0) as [Hge|Hlt].
  - rewrite (ple_scale (e + k)) by lia.
    replace (e + k - (e + k)) with 0 by lia. rewrite Z.mul_1_r.
    rewrite Z.shiftr_div_pow2 by lia. apply Z.div_le_lower_bound; [apply Z.pow_pos_nonneg; lia|].
    rewrite (ple_scale e) in Hle by lia. rewrite Z.sub_diag, Z.mul_1_r in Hle.
    rewrite (pow_split e e0 (e + k)) in Hle by lia.
    replace (e + k - e) with k in Hle by lia. lia.
  - apply nple. apply ple_of_digits; [lia| |].
    + enough (0 <> Z.shiftr m k) by (pose proof (proj2 (Z.shiftr_nonneg m k)); lia).
      intros Hz. symmetry in Hz. rewrite Z.shiftr_div_pow2 in Hz by lia.
      apply Z.div_small_iff in Hz; [|apply Z.pow_nonzero; lia].
      assert (0 < 2 ^ k) by (apply Z.pow_pos_nonneg; lia).
      assert (zdig m <= k) by (apply zdig_lt_pow2; lia).
      unfold canon in Hc. rewrite fx_eq in *. lia.
    + destruct (Z.le_gt_cases (zdig m + e) (zdig m0 + e0)) as [Hd|Hd].
      { unfold canon in Hc. rewrite fx_eq in *. lia. }
      destruct (decide (Z.shiftr m k = 0)) as [Hz|Hz].
      * rewrite Z.shiftr_div_pow2 in Hz by lia.
        apply Z.div_small_iff in Hz; [|apply Z.pow_nonzero; lia].
        assert (0 < 2 ^ k) by (apply Z.pow_pos_nonneg; lia).
        assert (zdig m <= k) by (apply zdig_lt_pow2; lia).
        unfold canon in Hc. rewrite fx_eq in *. lia.
      * rewrite zdig_shiftr; [lia|lia|].
        pose proof (proj2 (Z.shiftr_nonneg m k)). lia.
Qed.

(** ** Exactness of the tracked remainder *)

Lemma iter_shr_1_exact k m :
  0 <= m ->
  Nat.iter k shr_1 (Build_shr_record (m * 2 ^ Z.of_nat k) false false)
  = Build_shr_record m false false.
Proof.
  intros Hm. induction k as [|k IH].
  - cbn [Nat.iter nat_rect]. by rewrite Z.mul_1_r.
  - rewrite Nat.iter_succ_r. etransitivity; [|exact IH]. f_equal.
    rewrite Nat2Z.inj_succ, Z.pow_succ_r by lia.
    replace (m * (2 * 2 ^ Z.of_nat k)) with (2 * (m * 2 ^ Z.of_nat k)) by lia.
    assert (0 <= m * 2 ^ Z.of_nat k) by (apply Z.mul_nonneg_nonneg; [done|apply Z.pow_nonneg; lia]).
    destruct (m * 2 ^ Z.of_nat k); try lia; reflexivity.
Qed.

Lemma shr_fexp_exact m e l :
  0 <= m -> l = loc_Exact -> m mod 2 ^ shift_of m e = 0 ->
  loc_of_shr_record (fst (shr_fexp prec emax m e l)) = loc_Exact.
Proof.
  intros Hm -> Hd. unfold shr_fexp, shr, shift_of in *. fold (zdig m) in *.
  destruct (fx (zdig m + e) - e) as [|p|p] eqn:Hk; simpl fst; [done| |done].
  rewrite iter_pos_iter.
  rewrite Z.max_r in Hd by lia.
  assert (Hp : 0 < 2 ^ Z.pos p) by (apply Z.pow_pos_nonneg; lia).
  assert (Hx : m = (m / 2 ^ Z.pos p) * 2 ^ Z.of_nat (Pos.to_nat p)).
  { rewrite positive_nat_Z. pose proof (Z.div_mod m (2 ^ Z.pos p)). lia. }
  rewrite Hx at 1. simpl shr_record_of_loc.
  rewrite iter_shr_1_exact; [done|]. apply Z.div_pos; lia.
Qed.

(** ** The bounds on the rounded result *)

(** The result of rounding the positive value [m * 2^e] (plus a remainder below
    one unit when [l] is inexact) is one of these. *)
Definition rounds_to (s : bool) (r : double) (m e : Z) : Prop :=
  (r = S754_zero s /\ m = 0) \/
  (exists p, r = S754_finite s p e /\ m = Z.pos p) \/
  (r = S754_infinity s /\ 971 < e /\ 0 < m).

Lemma round_aux_cases s m e l :
  0 <= m -> wide m e ->
  exists m2 e1,
    let k2 := shift_of m2 e1 in
    e1 = e + shift_of m e /\ 0 <= m2 /\ wide m2 e1 /\
    rounds_to s (binary_round_aux prec emax s m e l) (Z.shiftr m2 k2) (e1 + k2) /\
    canon (Z.shiftr m2 k2) (e1 + k2) /\
    (m2 = Z.shiftr m (shift_of m e) \/
     m2 = Z.shiftr m (shift_of m e) + 1 /\
     ~ (l = loc_Exact /\ m mod 2 ^ shift_of m e = 0)).
Proof.
  intros Hm Hw. unfold binary_round_aux.
  pose proof (shr_fexp_canon m e l Hm Hw) as Hc.
  pose proof (shr_fexp_m m e l Hm) as [Hm1 He1].
  pose proof (shr_fexp_exact m e l Hm) as Hex.
  destruct (shr_fexp prec emax m e l) as [mrs' e'] eqn:E1. simpl in Hc, Hm1, He1, Hex.
  assert (Hpos : 0 <= shr_m mrs') by (rewrite Hm1; apply Z.shiftr_nonneg; lia).
  set (l' := loc_of_shr_record mrs') in *.
  pose proof (round_nearest_even_bounds (shr_m mrs') l') as Hr.
  assert (Hw2 : wide (round_nearest_even (shr_m mrs') l') e')
    by (eapply canon_wide_le; [|exact Hc]; lia).
  assert (Hr0 : 0 <= round_nearest_even (shr_m mrs') l') by lia.
  pose proof (shr_fexp_canon _ _ loc_Exact Hr0 Hw2) as Hc2.
  pose proof (shr_fexp_m _ e' loc_Exact Hr0) as [Hm3 He3].
  exists (round_nearest_even (shr_m mrs') l'), e'. cbv zeta.
  destruct (shr_fexp prec emax (round_nearest_even (shr_m mrs') l') e' loc_Exact)
    as [mrs'' e''] eqn:E2. simpl in Hc2, Hm3, He3. rewrite <- Hm3, <- He3.
  split; [done|]. split; [done|]. split; [done|].
  assert (Hn3 : 0 <= shr_m mrs'') by (rewrite Hm3; by apply Z.shiftr_nonneg).
  split; [|split; [done|]].
  - destruct (shr_m mrs'') as [|p|p] eqn:Ep; [by left| |lia]. right.
    destruct (e'' <=? emax - prec) eqn:Hle; [left; eauto|right].
    apply Z.leb_gt in Hle. unfold emax, prec in Hle. repeat split; lia.
  - rewrite <- Hm1. destruct (decide (round_nearest_even (shr_m mrs') l' = shr_m mrs')) as [|Hne];
      [by left|right]. split; [lia|]. intros [Hl Hd].
    apply Hne. rewrite (Hex Hl Hd). reflexivity.
Qed.

Lemma mod_shiftr_strict m k :
  0 <= k -> m mod 2 ^ k <> 0 -> Z.shiftr m k * 2 ^ k < m.
Proof.
  intros Hk Hd. rewrite Z.shiftr_div_pow2 by lia.
  assert (0 < 2 ^ k) by (apply Z.pow_pos_nonneg; lia).
  pose proof (Z.div_mod m (2 ^ k)). pose proof (Z.mod_pos_bound m (2 ^ k)). lia.
Qed.

(** Upper bound, before the final renormalisation. *)
Lemma round_up_le m e l m0 e0 m2 :
  0 <= m -> wide m e -> 0 < m0 -> canon m0 e0 -> ple m e m0 e0 ->
  (l <> loc_Exact -> ~ ple m0 e0 m e) ->
  (m2 = Z.shiftr m (shift_of m e) \/
   m2 = Z.shiftr m (shift_of m e) + 1 /\
   ~ (l = loc_Exact /\ m mod 2 ^ shift_of m e = 0)) ->
  ple m2 (e + shift_of m e) m0 e0.
Proof.
  intros Hm Hw Hm0 Hc Hle Hstrict. set (k := shift_of m e).
  assert (Hk : e + k = fx (zdig m + e)) by (unfold k, shift_of, wide in *; lia).
  assert (Hk0 : 0 <= k) by (unfold k, shift_of; lia).
  intros [->|[-> Hne]].
  { eapply ple_trans; [apply shiftr_ple; lia|done]. }
  destruct (Z.le_gt_cases (e + k) e0) as [Hge|Hlt].
  - rewrite (ple_scale (e + k)) by lia.
    replace (e + k - (e + k)) with 0 by lia. rewrite Z.mul_1_r.
    enough (Z.shiftr m k < m0 * 2 ^ (e0 - (e + k))) by lia.
    assert (Hp : 0 < 2 ^ k) by (apply Z.pow_pos_nonneg; lia).
    apply (Z.mul_lt_mono_pos_r (2 ^ k)); [done|].
    rewrite <- Z.mul_assoc, <- Z.pow_add_r by lia.
    replace (e0 - (e + k) + k) with (e0 - e) by lia.
    rewrite (ple_scale e) in Hle by lia. rewrite Z.sub_diag, Z.mul_1_r in Hle.
    destruct (decide (m mod 2 ^ k = 0)) as [Hd|Hd].
    + assert (Hl : l <> loc_Exact) by tauto. specialize (Hstrict Hl).
      rewrite (ple_scale e) in Hstrict by lia.
      rewrite Z.sub_diag, Z.mul_1_r in Hstrict.
      rewrite Z.shiftr_div_pow2 by lia. pose proof (Z.mul_div_le m (2 ^ k)). lia.
    + pose proof (mod_shiftr_strict m k Hk0 Hd). lia.
  - exfalso. destruct (decide (m = 0)) as [->|Hmz].
    { rewrite zdig_0 in Hk. unfold canon, wide in *. rewrite zdig_0 in Hw.
      rewrite fx_eq in *. lia. }
    apply (ple_of_digits m0 e0 m e); [lia|lia| |done].
    unfold canon in Hc. rewrite fx_eq in *. lia.
Qed.

Lemma canon_big_digits m e : canon m e -> -1074 < e -> 0 < m -> zdig m = 53.
Proof. unfold canon. rewrite fx_eq. lia. Qed.

Lemma canon_digits_le m e : canon m e -> 0 < m -> zdig m <= 53.
Proof. unfold canon. rewrite fx_eq. intros. assert (1 <= zdig m) by (apply (zdig_ge_pow2 _ 0); lia). lia. Qed.

(** A rounded value is at most every representable number above the input; in
    particular it does not overflow. *)
Lemma round_le s m e l m0 e0 :
  0 <= m -> wide m e -> 0 < m0 -> canon m0 e0 -> e0 <= 971 -> ple m e m0 e0 ->
  (l <> loc_Exact -> ~ ple m0 e0 m e) ->
  binary_round_aux prec emax s m e l = S754_zero s \/
  exists p e', binary_round_aux prec emax s m e l = S754_finite s p e' /\
               ple (Z.pos p) e' m0 e0.
Proof.
  intros Hm Hw Hm0 Hc He0 Hle Hst.
  destruct (round_aux_cases s m e l Hm Hw) as (m2 & e1 & -> & Hm2 & Hw2 & Hr & Hc3 & Hor).
  pose proof (round_up_le m e l m0 e0 m2 Hm Hw Hm0 Hc Hle Hst Hor) as Hup.
  set (e1 := e + shift_of m e) in *. set (k2 := shift_of m2 e1) in *.
  assert (Hk2 : 0 <= k2) by (unfold k2, shift_of; lia).
  assert (Hv : ple (Z.shiftr m2 k2) (e1 + k2) m0 e0)
    by (eapply ple_trans; [apply shiftr_ple|]; done).
  destruct Hr as [[-> _]|[(p & -> & Hp)|(_ & Hbig & Hpos)]].
  - by left.
  - right. exists p, (e1 + k2). split; [done|]. by rewrite <- Hp.
  - exfalso. apply (ple_of_digits m0 e0 (Z.shiftr m2 k2) (e1 + k2)); [lia|done| |done].
    rewrite (canon_big_digits (Z.shiftr m2 k2) (e1 + k2)) by (done || lia).
    pose proof (canon_digits_le m0 e0 Hc Hm0). lia.
Qed.

(** A rounded value is at least every representable number below the input. *)
Lemma round_ge s m e l m0 e0 :
  0 < m -> wide m e -> 0 < m0 -> canon m0 e0 -> ple m0 e0 m e ->
  binary_round_aux prec emax s m e l = S754_infinity s \/
  exists p e', binary_round_aux prec emax s m e l = S754_finite s p e' /\
               ple m0 e0 (Z.pos p) e'.
Proof.
  intros Hm Hw Hm0 Hc Hle.
  destruct (round_aux_cases s m e l ltac:(lia) Hw) as (m2 & e1 & -> & Hm2 & Hw2 & Hr & Hc3 & Hor).
  pose proof (floor_lower m e m0 e0 Hm Hw Hm0 Hc Hle) as Hfl.
  set (e1 := e + shift_of m e) in *.
  assert (Hle2 : ple m0 e0 m2 e1).
  { eapply ple_trans; [exact Hfl|]. apply ple_same_exp. lia. }
  assert (Hm2p : 0 < m2).
  { destruct (decide (m2 = 0)) as [->|]; [|lia]. exfalso.
    unfold ple in Hle2. rewrite Z.mul_0_l in Hle2.
    assert (0 < 2 ^ (e0 - Z.min e0 e1)) by (apply Z.pow_pos_nonneg; lia). nia. }
  pose proof (floor_lower m2 e1 m0 e0 Hm2p Hw2 Hm0 Hc Hle2) as Hfl2.
  destruct Hr as [[_ Hz]|[(p & -> & Hp)|(-> & _ & _)]]; [|right|by left].
  - exfalso. rewrite Hz in Hfl2. unfold ple in Hfl2. rewrite Z.mul_0_l in Hfl2.
    match type of Hfl2 with _ * ?q <= _ => assert (0 < q) by (apply Z.pow_pos_nonneg; lia) end.
    nia.
  - exists p, (e1 + shift_of m2 e1). split; [done|]. by rewrite <- Hp.
Qed.

(** ** Comparison of valid positive doubles is comparison of values *)

Lemma canon_ple_lex m1 e1 m2 e2 :
  0 < m1 -> 0 < m2 -> canon m1 e1 -> canon m2 e2 ->
  (ple m1 e1 m2 e2 <-> e1 < e2 \/ (e1 = e2 /\ m1 <= m2)).
Proof.
  intros H1 H2 C1 C2. unfold canon in *. rewrite fx_eq in *.
  destruct (Z.lt_trichotomy e1 e2) as [Hl|[->|Hl]].
  - split; [by left|intros _]. apply nple. apply ple_of_digits; lia.
  - rewrite ple_same_exp. lia.
  - split; [|lia]. intros Hp. exfalso.
    revert Hp. apply ple_of_digits; lia.
Qed.

Lemma dle_pos m1 e1 m2 e2 :
  valid (S754_finite false m1 e1) -> valid (S754_finite false m2 e2) ->
  (dle (S754_finite false m1 e1) (S754_finite false m2 e2) = true <->
   ple (Z.pos m1) e1 (Z.pos m2) e2).
Proof.
  intros [C1 _]%valid_bounded [C2 _]%valid_bounded.
  rewrite canon_ple_lex by (done || lia). rewrite dle_spec.
  unfold dkey, lex_lt. cbn [is_nan]. intuition lia.
Qed.

(** Nonnegative finite doubles, as a predicate. *)
Definition nonneg_finite (x : double) : Prop :=
  match x with S754_zero _ | S754_finite false _ _ => True | _ => False end.

Lemma dmul_le x y b :
  valid x -> valid y -> valid b ->
  nonneg_finite x -> nonneg_finite y ->
  (match x, y, b with
   | S754_finite _ mx ex, S754_finite _ my ey, S754_finite false mb eb =>
       ple (Z.pos mx * Z.pos my) (ex + ey) (Z.pos mb) eb
   | _, _, S754_finite false _ _ => True
   | _, _, _ => False
   end) ->
  nonneg_finite (dmul x y) /\ dle (dmul x y) b = true.
Proof.
  destruct x as [[]|[]| |[] mx ex], y as [[]|[]| |[] my ey], b as [[]|[]| |[] mb eb];
    intros Vx Vy Vb Hx Hy Hb; try contradiction; try (split; [exact I|reflexivity]);
    apply valid_bounded in Vx as [Cx _]; apply valid_bounded in Vy as [Cy _];
    pose proof Vb as Vb'; apply valid_bounded in Vb as [Cb Eb].
  change (dmul (S754_finite false mx ex) (S754_finite false my ey))
    with (binary_round_aux prec emax false (Z.pos (mx * my)) (ex + ey) loc_Exact).
  destruct (round_le false (Z.pos (mx * my)) (ex + ey) loc_Exact (Z.pos mb) eb)
    as [->|(p & e' & E & Hp)]; try done; try lia.
  - by apply mul_wide.
  - assert (V : valid (S754_finite false p e')).
    { rewrite <- E. apply binary_round_aux_valid; [lia|]. by apply mul_wide. }
    rewrite E. split; [exact I|]. by apply dle_pos.
Qed.

Lemma d_trunc_le x b mb eb :
  nonneg_finite x -> valid x -> b = S754_finite false mb eb -> valid b ->
  dle x b = true ->
  exists z zb, d_trunc x = Some z /\ d_trunc b = Some zb /\ 0 <= z <= zb.
Proof.
  intros Hx Vx -> Vb Hle.
  assert (Hpow : forall e, 0 <= 2 ^ e) by (intros; apply Z.pow_nonneg; lia).
  destruct x as [s|s| |[] mx ex]; try contradiction.
  - exists 0. eexists. split; [done|]. split; [done|]. simpl.
    destruct (0 <=? eb) eqn:E; [specialize (Hpow eb); nia|].
    split; [lia|]. apply Z.div_pos; [lia|]. apply Z.pow_pos_nonneg; lia.
  - eexists _, _. split; [done|]. split; [done|]. cbv zeta.
    rewrite dle_pos in Hle by done.
    set (k := Z.min 0 (Z.min ex eb)).
    assert (Heq : forall m e, k <= e ->
      (if 0 <=? e then Z.pos m * 2 ^ e else Z.pos m / 2 ^ (- e))
      = (Z.pos m * 2 ^ (e - k)) / 2 ^ (- k)).
    { intros m e He. assert (0 < 2 ^ (- k)) by (apply Z.pow_pos_nonneg; lia).
      destruct (0 <=? e) eqn:Ee.
      - replace (e - k) with (e + - k) by lia. rewrite Z.pow_add_r, Z.mul_assoc by lia.
        rewrite Z.div_mul; lia.
      - replace (- k) with (- e + (e - k)) by lia. rewrite Z.pow_add_r by lia.
        rewrite Z.div_mul_cancel_r; [done| |]; apply Z.pow_nonzero; lia. }
    rewrite !Heq by lia. rewrite (ple_scale k) in Hle by lia.
    assert (0 < 2 ^ (- k)) by (apply Z.pow_pos_nonneg; lia).
    assert (0 <= 2 ^ (ex - k)) by done.
    split; [apply Z.div_pos; lia|]. apply Z.div_le_mono; lia.
Qed.

(** ** Exact conversions *)

Lemma round_aux_canon s m e :
  0 < m -> canon m e -> e <= 971 ->
  binary_round_aux prec emax s m e loc_Exact = S754_finite s (Z.to_pos m) e.
Proof.
  intros Hm Hc He. assert (Hs : shr_fexp prec emax m e loc_Exact
    = (Build_shr_record m false false, e)).
  { unfold shr_fexp. fold (zdig m). unfold canon in Hc. rewrite Hc, Z.sub_diag. done. }
  unfold binary_round_aux. rewrite Hs. simpl round_nearest_even. rewrite Hs. simpl shr_m.
  destruct m as [|p|p]; try lia. unfold emax, prec.
  destruct (e <=? 1024 - 53) eqn:E; [done|lia].
Qed.

Lemma d_of_Z_exact n :
  0 < n < 2 ^ 53 ->
  d_of_Z n = S754_finite false (Z.to_pos (Z.shiftl n (53 - zdig n))) (zdig n - 53)
  /\ canon (Z.shiftl n (53 - zdig n)) (zdig n - 53).
Proof.
  intros Hn. destruct n as [|p|p]; try lia.
  assert (Hd : 1 <= zdig (Z.pos p) <= 53).
  { split; [apply (zdig_ge_pow2 _ 0); lia|apply zdig_lt_pow2; lia]. }
  assert (Hc : canon (Z.shiftl (Z.pos p) (53 - zdig (Z.pos p))) (zdig (Z.pos p) - 53)).
  { unfold canon. rewrite zdig_shiftl, fx_eq by lia. lia. }
  split; [|done].
  unfold d_of_Z, binary_normalize, binary_round.
  change (Z.pos (digits2_pos p)) with (zdig (Z.pos p)).
  assert (Hfx : fx (zdig (Z.pos p) + 0) = zdig (Z.pos p) - 53) by (rewrite fx_eq; lia).
  rewrite Hfx.
  destruct (shl_align_spec p 0 (zdig (Z.pos p) - 53)) as (k & Hk & Hm & He & Hle & Hge).
  destruct (shl_align p 0 (zdig (Z.pos p) - 53)) as [mz ez]. simpl fst in Hm. simpl snd in He.
  assert (k = 53 - zdig (Z.pos p)) by lia. subst k.
  rewrite Hm, He. replace (0 - (53 - zdig (Z.pos p))) with (zdig (Z.pos p) - 53) by lia.
  apply round_aux_canon; [|done|lia].
  rewrite Z.shiftl_mul_pow2 by lia.
  assert (0 < 2 ^ (53 - zdig (Z.pos p))) by (apply Z.pow_pos_nonneg; lia). lia.
Qed.

(** ** The 64-bit representation *)

Lemma bits_split (s : bool) (hi lo : Z) :
  0 <= hi < 2 ^ 11 -> 0 <= lo < 2 ^ 52 ->
  let b := (if s then 2 ^ 63 else 0) + hi * 2 ^ 52 + lo in
  0 <= b < 2 ^ 64 /\ Z.testbit b 63 = s /\ (b / 2 ^ 52) mod 2 ^ 11 = hi /\ b mod 2 ^ 52 = lo.
Proof.
  intros Hh Hl b.
  assert (Hb : 0 <= b < 2 ^ 64) by (subst b; destruct s; lia).
  assert (Hd : b / 2 ^ 52 = (if s then 2 ^ 11 else 0) + hi).
  { subst b. symmetry. apply (Z.div_unique _ _ _ lo); [lia|]. destruct s; lia. }
  repeat split; try lia.
  - rewrite Z.testbit_eqb by lia. subst b.
    destruct s; Z.div_mod_to_equations; [apply Z.eqb_eq|apply Z.eqb_neq]; lia.
  - rewrite Hd. destruct s; Z.div_mod_to_equations; lia.
  - subst b. symmetry. apply (Z.mod_unique _ _ ((if s then 2 ^ 11 else 0) + hi)); [lia|].
    destruct s; lia.
Qed.

Lemma valid_mantissa s m e :
  valid (S754_finite s m e) ->
  (2 ^ 52 <= Z.pos m < 2 ^ 53 /\ -1074 <= e <= 971) \/ (Z.pos m < 2 ^ 52 /\ e = -1074).
Proof.
  intros [Hc He]%valid_bounded. unfold canon in Hc. rewrite fx_eq in Hc.
  pose proof (zdig_bounds (Z.pos m) ltac:(lia)) as [B1 B2].
  destruct (Z.le_gt_cases (zdig (Z.pos m)) 52).
  - right. split; [|lia]. eapply Z.lt_le_trans; [exact B2|]. apply Z.pow_le_mono_r; lia.
  - assert (Hd : zdig (Z.pos m) = 53) by lia. rewrite Hd in *. left. lia.
Qed.

Lemma bits_of_double_range x : valid x -> 0 <= bits_of_double x < 2 ^ 64.
Proof.
  intros V. unfold bits_of_double.
  destruct x as [s|s| |s m e]; [destruct s; lia..|unfold nan_bits; lia|].
  destruct (valid_mantissa s m e V) as [[? ?]|[? ->]];
    destruct (2 ^ 52 <=? Z.pos m) eqn:E; destruct s; lia.
Qed.

(** The representation determines the double. *)
Lemma double_of_bits_of_double x : valid x -> double_of_bits (bits_of_double x) = x.
Proof.
  intros V. unfold double_of_bits, bits_of_double.
  destruct x as [s|s| |s m e]; [by destruct s|by destruct s|by vm_compute|].
  destruct (valid_mantissa s m e V) as [[Hm He]|[Hm ->]];
    destruct (2 ^ 52 <=? Z.pos m) eqn:E; try lia.
  - destruct (bits_split s (e + 1075) (Z.pos m - 2 ^ 52)) as (_ & -> & -> & ->); [lia..|].
    destruct (e + 1075 =? 2047) eqn:E1; [lia|]. destruct (e + 1075 =? 0) eqn:E2; [lia|].
    f_equal; lia.
  - pose proof (bits_split s 0 (Z.pos m) ltac:(lia) ltac:(lia)) as (_ & H1 & H2 & H3).
    rewrite Z.mul_0_l, Z.add_0_r in *. rewrite H1, H2, H3. reflexivity.
Qed.

(** Passing a double through a [long long] and back loses nothing. *)
Lemma ll_to_double_to_ll x : valid x -> ll_to_double (double_to_ll x) = x.
Proof.
  intros V. unfold ll_to_double, double_to_ll. rewrite u64_s64, u64_small.
  - by apply double_of_bits_of_double.
  - by apply bits_of_double_range.
Qed.
