(* ===== verification/FloatBounds.v ===== *)
(** * Bounds on sums and quotients

    The value of a finite double in units of 2^-1074 ([ulps]); a sum (quotient)
    of doubles lies on the same side of a representable bound as the exact sum
    (quotient). *)

From S2P Require Export FloatRound.

Definition ulps (x : double) : Z :=
  match x with
  | S754_finite s m e => (if s then -1 else 1) * (Z.pos m * 2 ^ (e + 1074))
  | _ => 0
  end.

Lemma ulps_finite_pos m e : -1074 <= e -> 0 < Z.pos m * 2 ^ (e + 1074).
Proof. intros. assert (0 < 2 ^ (e + 1074)) by (apply Z.pow_pos_nonneg; lia). lia. Qed.

Lemma valid_exp s m e : valid (S754_finite s m e) -> -1074 <= e <= 971.
Proof. intros V. destruct (valid_mantissa s m e V) as [[? ?]|[? ->]]; lia. Qed.

Lemma ple_ulps m1 e1 m2 e2 :
  -1074 <= e1 -> -1074 <= e2 ->
  (ple m1 e1 m2 e2 <-> m1 * 2 ^ (e1 + 1074) <= m2 * 2 ^ (e2 + 1074)).
Proof.
  intros. rewrite (ple_scale (-1074)) by lia.
  replace (e1 - -1074) with (e1 + 1074) by lia.
  replace (e2 - -1074) with (e2 + 1074) by lia. done.
Qed.

(** On valid finite doubles the comparison is the comparison of values. *)
Lemma dle_ulps x y :
  valid x -> valid y -> is_finite x = true -> is_finite y = true ->
  (dle x y = true <-> ulps x <= ulps y).
Proof.
  destruct x as [sx|sx| |sx mx ex], y as [sy|sy| |sy my ey]; intros Vx Vy Fx Fy;
    try discriminate;
    try (pose proof (valid_exp _ _ _ Vx); pose proof (ulps_finite_pos mx ex));
    try (pose proof (valid_exp _ _ _ Vy); pose proof (ulps_finite_pos my ey)).
  - split; [simpl; lia|by destruct sx, sy].
  - destruct sx, sy; split; cbn [ulps]; intros; try lia; try reflexivity; try discriminate.
  - destruct sx, sy; split; cbn [ulps]; intros; try lia; try reflexivity; try discriminate.
  - pose proof Vx as Wx. pose proof Vy as Wy.
    apply valid_bounded in Vx as [Cx _]. apply valid_bounded in Vy as [Cy _].
    destruct sx, sy; cbn [ulps]; try (split; [intros; lia|reflexivity]);
      try (split; [discriminate|intros; lia]).
    + transitivity (ple (Z.pos my) ey (Z.pos mx) ex).
      * rewrite canon_ple_lex by (done || lia). rewrite dle_spec.
        unfold dkey, lex_lt. cbn [is_nan]. intuition lia.
      * rewrite ple_ulps by lia. lia.
    + rewrite dle_pos by done. rewrite ple_ulps by lia. lia.
Qed.

Lemma dlt_ulps x y :
  valid x -> valid y -> is_finite x = true -> is_finite y = true ->
  (dlt x y = true <-> ulps x < ulps y).
Proof.
  intros Vx Vy Fx Fy. pose proof (dle_ulps y x Vy Vx Fy Fx) as Hyx.
  assert (Nx : is_nan x = false) by (by destruct x).
  assert (Ny : is_nan y = false) by (by destruct y).
  destruct (dlt x y) eqn:E.
  - split; [intros _|done]. destruct (Z.lt_ge_cases (ulps x) (ulps y)); [done|].
    assert (dle y x = true) by (apply Hyx; lia). d_order.
  - split; [discriminate|]. intros.
    assert (dle y x = true) by (by apply dlt_false_dle). apply Hyx in H0. lia.
Qed.

(** ** Rounding an integer multiple of a power of two *)

Lemma round_aux_opp s m e l :
  binary_round_aux prec emax (negb s) m e l = dneg (binary_round_aux prec emax s m e l).
Proof.
  unfold binary_round_aux.
  destruct (shr_fexp prec emax m e l) as [r e1].
  destruct (shr_fexp prec emax (round_nearest_even _ _) e1 loc_Exact) as [r2 e2].
  destruct (shr_m r2); try reflexivity. by destruct (e2 <=? emax - prec).
Qed.

Lemma normalize_opp m e z :
  m <> 0 ->
  binary_normalize prec emax (- m) e z = dneg (binary_normalize prec emax m e z).
Proof.
  intros Hm. destruct m as [|p|p]; [done| |]; simpl; unfold binary_round;
    destruct (shl_align p e _) as [mz ez].
  - apply (round_aux_opp false).
  - apply (round_aux_opp true).
Qed.

Lemma dle_dneg x y : dle (dneg x) (dneg y) = dle y x.
Proof.
  apply eq_true_iff_eq. rewrite !dle_spec.
  destruct x as [[]|[]| |[] ? ?], y as [[]|[]| |[] ? ?]; cbn; intuition lia.
Qed.

(** The aligned mantissa handed to the rounding, as the same value. *)
Lemma normalize_aligned p e :
  exists m e',
    binary_normalize prec emax (Z.pos p) e false = binary_round_aux prec emax false m e' loc_Exact /\ 0 < m /\ wide m e' /\ ple m e' (Z.pos p) e /\ ple (Z.pos p) e m e'.
Proof.
  unfold binary_normalize, binary_round.
  destruct (shl_align_spec p e (fx (Z.pos (digits2_pos p) + e))) as (k & Hk & Hm & He & Hl & Hg).
  destruct (shl_align p e _) as [mz ez]. simpl in Hm, He.
  exists (Z.pos mz), ez. split; [done|]. split; [lia|]. split.
  - unfold wide. rewrite Hm, zdig_shiftl by lia.
    change (Z.pos (digits2_pos p)) with (zdig (Z.pos p)) in *.
    replace (zdig (Z.pos p) + k + ez) with (zdig (Z.pos p) + e) by lia. lia.
  - rewrite !(ple_scale ez) by lia. rewrite Hm, Z.shiftl_mul_pow2, Z.sub_diag by lia.
    replace (e - ez) with k by lia. lia.
Qed.

Lemma normalize_zero_sign m e z :
  m <> 0 -> binary_normalize prec emax m e z = binary_normalize prec emax m e false.
Proof. by destruct m. Qed.

Lemma normalize_pos_sign p e :
  binary_normalize prec emax (Z.pos p) e false = S754_zero false \/
  binary_normalize prec emax (Z.pos p) e false = S754_infinity false \/
  exists m e', binary_normalize prec emax (Z.pos p) e false = S754_finite false m e'.
Proof.
  destruct (normalize_aligned p e) as (m & e' & -> & Hm & Hw & _ & _).
  destruct (round_aux_cases false m e' loc_Exact ltac:(lia) Hw)
    as (m2 & e1 & _ & _ & _ & Hr & _).
  destruct Hr as [[-> _]|[(q & -> & _)|(-> & _)]]; eauto.
Qed.

Section Normalize.
Context {mb : positive} {eb : Z}.
Hypothesis Vb : valid (S754_finite false mb eb).

Lemma normalize_le_pos m e z :
  ple m e (Z.pos mb) eb ->
  dle (binary_normalize prec emax m e z) (S754_finite false mb eb) = true.
Proof.
  intros Hle. destruct (Z.lt_trichotomy m 0) as [Hn|[->|Hp]]; [|by destruct z|].
  - replace m with (- Z.pos (Z.to_pos (- m))) by lia. rewrite normalize_opp by lia.
    rewrite normalize_zero_sign by lia.
    destruct (normalize_pos_sign (Z.to_pos (- m)) e) as [->|[->|(m' & e' & ->)]];
      reflexivity.
  - rewrite normalize_zero_sign by lia. destruct m as [|p|p]; try lia.
    destruct (normalize_aligned p e) as (m & e' & -> & Hm & Hw & Hlo & _).
    destruct (valid_bounded _ _ _ Vb) as [Cb Eb].
    assert (Hz : ple m e' (Z.pos mb) eb) by (eapply ple_trans; eassumption).
    destruct (round_le false m e' loc_Exact (Z.pos mb) eb)
      as [->|(q & e2 & E & Hq)]; try done; try lia.
    rewrite E. apply dle_pos; [|done|done].
    rewrite <- E. apply binary_round_aux_valid; [lia|done].
Qed.

Lemma normalize_ge_pos m e z :
  ple (Z.pos mb) eb m e ->
  dle (S754_finite false mb eb) (binary_normalize prec emax m e z) = true.
Proof.
  intros Hle. assert (Hpos : 0 < m).
  { unfold ple in Hle.
    assert (0 < 2 ^ (eb - Z.min eb e)) by (apply Z.pow_pos_nonneg; lia).
    assert (0 < 2 ^ (e - Z.min eb e)) by (apply Z.pow_pos_nonneg; lia). nia. }
  rewrite normalize_zero_sign by lia. destruct m as [|p|p]; try lia.
  destruct (normalize_aligned p e) as (m & e' & -> & Hm & Hw & _ & Hhi).
  destruct (valid_bounded _ _ _ Vb) as [Cb Eb].
  assert (Hz : ple (Z.pos mb) eb m e') by (eapply ple_trans; eassumption).
  destruct (round_ge false m e' loc_Exact (Z.pos mb) eb)
    as [->|(q & e2 & E & Hq)]; try done; try lia.
  rewrite E. apply dle_pos; [done| |done].
  rewrite <- E. apply binary_round_aux_valid; [lia|done].
Qed.
End Normalize.

Lemma ple_opp m1 e1 m2 e2 : ple (- m1) e1 (- m2) e2 <-> ple m2 e2 m1 e1.
Proof. unfold ple. rewrite (Z.min_comm e2 e1). lia. Qed.

(** The rounded value of [m * 2^e] is on the same side of a representable
    number as [m * 2^e] itself. *)
Lemma normalize_le m e z b :
  valid b -> is_finite b = true -> -1074 <= e -> m * 2 ^ (e + 1074) <= ulps b ->
  (m = 0 -> z = false) ->
  dle (binary_normalize prec emax m e z) b = true.
Proof.
  intros Vb Fb He Hle Hz. destruct b as [s|s| |s mb eb]; try discriminate.
  - cbn [ulps] in Hle. assert (0 < 2 ^ (e + 1074)) by (apply Z.pow_pos_nonneg; lia).
    destruct (decide (m = 0)) as [->|]; [by destruct s|].
    replace m with (- Z.pos (Z.to_pos (- m))) by nia. rewrite normalize_opp by lia.
    rewrite normalize_zero_sign by lia.
    destruct (normalize_pos_sign (Z.to_pos (- m)) e) as [->|[->|(m' & e' & ->)]]; by destruct s.
  - pose proof (valid_exp _ _ _ Vb). destruct s; cbn [ulps] in Hle.
    + pose proof (ulps_finite_pos mb eb ltac:(lia)).
      assert (0 < 2 ^ (e + 1074)) by (apply Z.pow_pos_nonneg; lia).
      replace m with (- (- m)) by lia. rewrite normalize_opp by nia.
      change (S754_finite true mb eb) with (dneg (S754_finite false mb eb)).
      rewrite dle_dneg. apply normalize_ge_pos; [exact Vb|].
      rewrite ple_ulps by lia. lia.
    + apply normalize_le_pos; [done|]. rewrite ple_ulps by lia. lia.
Qed.

Lemma normalize_ge m e z b :
  valid b -> is_finite b = true -> -1074 <= e -> ulps b <= m * 2 ^ (e + 1074) ->
  dle b (binary_normalize prec emax m e z) = true.
Proof.
  intros Vb Fb He Hle.
  destruct (decide (m = 0)) as [->|Hm].
  { destruct b as [s|s| |s mb eb]; try discriminate; [by destruct s, z|].
    pose proof (valid_exp _ _ _ Vb). pose proof (ulps_finite_pos mb eb ltac:(lia)).
    destruct s; cbn [ulps] in Hle; [by destruct z|lia]. }
  rewrite normalize_zero_sign by done.
  rewrite <- (Z.opp_involutive m), normalize_opp by lia.
  replace b with (dneg (dneg b)) by (destruct b as [[]|[]| |[] ? ?]; reflexivity).
  rewrite dle_dneg. apply normalize_le; [by apply dneg_valid|by destruct b|done| |done].
  destruct b as [s|s| |s mb eb]; try discriminate; cbn [ulps dneg SFopp] in *; [lia|].
  destruct s; cbn [negb]; lia.
Qed.

(** ** Sums *)

Lemma align_value m e ez :
  ez <= e -> Z.pos (fst (shl_align m e ez)) = Z.pos m * 2 ^ (e - ez).
Proof.
  intros He. destruct (shl_align_spec m e ez) as (k & Hk & -> & _ & Hl & _).
  rewrite Z.shiftl_mul_pow2 by lia. do 2 f_equal. lia.
Qed.

(** The exact sum of two finite doubles, in units of 2^-1074, and its rounding. *)
Lemma dadd_normalize sx mx ex sy my ey :
  valid (S754_finite sx mx ex) -> valid (S754_finite sy my ey) ->
  exists m e,
    dadd (S754_finite sx mx ex) (S754_finite sy my ey) = binary_normalize prec emax m e false /\ -1074 <= e /\ m * 2 ^ (e + 1074) = ulps (S754_finite sx mx ex) + ulps (S754_finite sy my ey).
Proof.
  intros Hx%valid_exp Hy%valid_exp.
  eexists _, (Z.min ex ey). split; [reflexivity|]. split; [lia|].
  rewrite !align_value by lia. cbn [ulps].
  set (c := Z.min ex ey).
  replace (2 ^ (ex + 1074)) with (2 ^ (ex - c) * 2 ^ (c + 1074))
    by (rewrite <- Z.pow_add_r by lia; f_equal; lia).
  replace (2 ^ (ey + 1074)) with (2 ^ (ey - c) * 2 ^ (c + 1074))
    by (rewrite <- Z.pow_add_r by lia; f_equal; lia).
  destruct sx, sy; unfold cond_Zopp; lia.
Qed.

Lemma dadd_le x y b :
  valid x -> valid y -> valid b ->
  is_finite x = true -> is_finite y = true -> is_finite b = true ->
  ulps x + ulps y <= ulps b -> dle (dadd x y) b = true.
Proof.
  intros Vx Vy Vb Fx Fy Fb Hle.
  assert (Hz : forall s, dle (S754_zero s) b = dle (S754_zero false) b)
    by (intros; by destruct s, b).
  destruct x as [sx|sx| |sx mx ex], y as [sy|sy| |sy my ey]; try discriminate.
  - assert (H0 : dle (S754_zero false) b = true) by (apply dle_ulps; done).
    destruct sx, sy; unfold dadd, SFadd; rewrite ?Hz; exact H0.
  - apply dle_ulps; first [done|unfold dadd, SFadd; cbn [ulps] in *; lia].
  - apply dle_ulps; first [done|unfold dadd, SFadd; cbn [ulps] in *; lia].
  - destruct (dadd_normalize sx mx ex sy my ey Vx Vy) as (m & e & -> & He & Hv).
    apply normalize_le; try done. lia.
Qed.

Lemma dadd_ge x y b :
  valid x -> valid y -> valid b ->
  is_finite x = true -> is_finite y = true -> is_finite b = true ->
  ulps b <= ulps x + ulps y -> dle b (dadd x y) = true.
Proof.
  intros Vx Vy Vb Fx Fy Fb Hle.
  assert (Hz : forall s, dle b (S754_zero s) = dle b (S754_zero false))
    by (intros; by destruct s, b).
  destruct x as [sx|sx| |sx mx ex], y as [sy|sy| |sy my ey]; try discriminate.
  - assert (H0 : dle b (S754_zero false) = true) by (apply dle_ulps; done).
    destruct sx, sy; unfold dadd, SFadd; rewrite ?Hz; exact H0.
  - apply dle_ulps; first [done|unfold dadd, SFadd; cbn [ulps] in *; lia].
  - apply dle_ulps; first [done|unfold dadd, SFadd; cbn [ulps] in *; lia].
  - destruct (dadd_normalize sx mx ex sy my ey Vx Vy) as (m & e & -> & He & Hv).
    apply normalize_ge; try done. lia.
Qed.

(** ** Quotients of positive doubles *)

Lemma ddiv_le mx ex my ey mb eb :
  valid (S754_finite false mb eb) ->
  ple (Z.pos mx) ex (Z.pos mb * Z.pos my) (eb + ey) ->
  let r := ddiv (S754_finite false mx ex) (S754_finite false my ey) in
  nonneg_finite r /\ dle r (S754_finite false mb eb) = true.
Proof.
  intros Vb Hle r. unfold r, ddiv, SFdiv.
  destruct (SFdiv_core_binary prec emax (Z.pos mx) ex (Z.pos my) ey) as [[q e] l] eqn:E.
  destruct (div_wide _ _ _ _ _ _ _ E) as [Hq Hw].
  apply div_core_spec in E as (s & Hs & He & Hqe & _ & Hl).
  destruct (valid_bounded _ _ _ Vb) as [Cb Eb].
  set (k := Z.min e (Z.min eb (ex - ey))).
  assert (Hx : Z.pos mx * 2 ^ (ex - (k + ey)) <= Z.pos mb * Z.pos my * 2 ^ (eb - k)).
  { rewrite (ple_scale (k + ey)) in Hle by lia.
    replace (eb + ey - (k + ey)) with (eb - k) in Hle by lia. exact Hle. }
  assert (Hxs : Z.pos mx * 2 ^ (ex - (k + ey)) = Z.pos mx * 2 ^ s * 2 ^ (e - k)).
  { rewrite <- Z.mul_assoc, <- Z.pow_add_r by lia. do 2 f_equal. lia. }
  pose proof (Z.div_mod (Z.pos mx * 2 ^ s) (Z.pos my) ltac:(lia)) as Hdm.
  pose proof (Z.mod_pos_bound (Z.pos mx * 2 ^ s) (Z.pos my) ltac:(lia)) as Hmb.
  rewrite <- Hqe in Hdm. set (rm := (Z.pos mx * 2 ^ s) mod Z.pos my) in *.
  assert (Hp : 0 < 2 ^ (e - k)) by (apply Z.pow_pos_nonneg; lia).
  assert (Hqb : ple q e (Z.pos mb) eb).
  { rewrite (ple_scale k) by lia. apply (Z.mul_le_mono_pos_l _ _ (Z.pos my)); [lia|]. nia. }
  assert (Hst : l <> loc_Exact -> ~ ple (Z.pos mb) eb q e).
  { intros Hne. rewrite (ple_scale k) by lia.
    assert (rm <> 0).
    { intros Hz. apply Hne. rewrite Hl, Hz. unfold new_location, new_location_even,
        new_location_odd. by destruct (Z.even (Z.pos my)). }
    intros Hc. apply (Z.mul_le_mono_pos_l _ _ (Z.pos my)) in Hc; [|lia]. nia. }
  destruct (round_le false q e l (Z.pos mb) eb) as [Hr|(p & e' & Hr & Hpe)]; try done.
  - simpl. rewrite Hr. done.
  - simpl. rewrite Hr. split; [done|]. apply dle_pos; [|done|done].
    rewrite <- Hr. by apply binary_round_aux_valid.
Qed.
