(* ===== verification/FloatExact.v ===== *)
(** * Exact arithmetic on integers in binary64

    A rounded result that a representable number bounds on both sides is that
    number ([round_exact]); products of integers below 2^53 and the conversions
    back are therefore exact. *)

From S2P Require Export FloatBounds.

Lemma round_exact s m e m0 e0 :
  0 < m -> wide m e -> 0 < m0 -> canon m0 e0 -> e0 <= 971 -> ple m e m0 e0 -> ple m0 e0 m e ->
  binary_round_aux prec emax s m e loc_Exact = S754_finite s (Z.to_pos m0) e0.
Proof.
  intros Hm Hw Hm0 Hc He H1 H2.
  destruct (round_le s m e loc_Exact m0 e0) as [E|(p & e' & E & Hp)]; try done; try lia.
  - destruct (round_ge s m e loc_Exact m0 e0) as [E'|(p & e' & E' & _)]; try done; congruence.
  - destruct (round_ge s m e loc_Exact m0 e0) as [E'|(p' & e'' & E' & Hp')]; try done; [congruence|].
    rewrite E in E'. injection E' as <- <-.
    assert (valid (S754_finite s p e')) as V by (rewrite <- E; apply binary_round_aux_valid; [lia|done]).
    destruct (valid_bounded _ _ _ V) as [Cp _].
    pose proof (proj1 (canon_ple_lex (Z.pos p) e' m0 e0 ltac:(lia) Hm0 Cp Hc) Hp).
    pose proof (proj1 (canon_ple_lex m0 e0 (Z.pos p) e' Hm0 ltac:(lia) Hc Cp) Hp').
    rewrite E. assert (e' = e0) as -> by lia. f_equal. lia.
Qed.

(** The value of an integer's double. *)
Lemma d_of_Z_value n :
  0 < n < 2 ^ 53 ->
  exists m e, d_of_Z n = S754_finite false m e /\ canon (Z.pos m) e /\ -53 <= e <= 0 /\
    Z.pos m = n * 2 ^ (- e).
Proof.
  intros Hn. destruct (d_of_Z_exact n Hn) as [E C].
  assert (1 <= zdig n <= 53) as Hd.
  { split; [apply (zdig_ge_pow2 _ 0); lia|apply zdig_lt_pow2; lia]. }
  rewrite Z.shiftl_mul_pow2 in * by lia.
  assert (0 < 2 ^ (53 - zdig n)) by (apply Z.pow_pos_nonneg; lia).
  assert (0 < n * 2 ^ (53 - zdig n)) by nia.
  exists (Z.to_pos (n * 2 ^ (53 - zdig n))), (zdig n - 53). split; [done|].
  rewrite Z2Pos.id by done. split; [done|]. split; [lia|]. f_equal. f_equal. lia.
Qed.

Lemma dmul_exact a b :
  0 < a -> 0 < b -> a * b < 2 ^ 53 -> dmul (d_of_Z a) (d_of_Z b) = d_of_Z (a * b).
Proof.
  intros Ha Hb Hab. assert (a < 2 ^ 53 /\ b < 2 ^ 53) as [Ha' Hb'] by nia.
  destruct (d_of_Z_value a ltac:(lia)) as (ma & ea & Ea & Ca & He & Va).
  destruct (d_of_Z_value b ltac:(lia)) as (mb & eb & Eb & Cb & He' & Vb).
  destruct (d_of_Z_value (a * b) ltac:(nia)) as (m & e & E & C & He'' & V).
  rewrite Ea, Eb, E.
  change (dmul (S754_finite false ma ea) (S754_finite false mb eb))
    with (binary_round_aux prec emax false (Z.pos (ma * mb)) (ea + eb) loc_Exact).
  assert (forall k, k <= ea -> k <= eb -> Z.pos (ma * mb) * 2 ^ (ea + eb - (k + k)) = a * b * 2 ^ (- (k + k))) as Hv.
  { intros k H1 H2. rewrite Pos2Z.inj_mul, Va, Vb.
    replace (- (k + k)) with ((- ea) + (- eb) + (ea + eb - (k + k))) by lia.
    rewrite (Z.pow_add_r 2 (- ea + - eb)), (Z.pow_add_r 2 (- ea)) by lia. lia. }
  assert (Z.pos m * 2 ^ (e - (-53 + -53)) = a * b * 2 ^ (- (-53 + -53))) as Hm.
  { rewrite V. replace (- (-53 + -53)) with (- e + (e - (-53 + -53))) by lia.
    rewrite (Z.pow_add_r 2 (- e)) by lia. lia. }
  specialize (Hv (-53) ltac:(lia) ltac:(lia)).
  rewrite (round_exact false (Z.pos (ma * mb)) (ea + eb) (Z.pos m) e); [done|lia|by apply mul_wide|lia|done|lia|..];
    rewrite (ple_scale (-53 + -53)) by lia; lia.
Qed.

Lemma d_trunc_of_Z n : 0 <= n < 2 ^ 53 -> d_trunc (d_of_Z n) = Some n.
Proof.
  intros Hn. destruct (decide (n = 0)) as [->|]; [done|].
  destruct (d_of_Z_value n ltac:(lia)) as (m & e & -> & _ & He & V). cbn [d_trunc].
  assert (0 < 2 ^ (- e)) by (apply Z.pow_pos_nonneg; lia). rewrite V.
  destruct (Z.leb_spec 0 e) as [H0|H0].
  - assert (e = 0) as -> by lia. f_equal. change (2 ^ (- 0)) with 1. change (2 ^ 0) with 1. lia.
  - by rewrite Z.div_mul by lia.
Qed.

Lemma d_to_u32_of_Z n : 0 <= n < 2 ^ 53 -> d_to_u32 (d_of_Z n) = u32 n.
Proof.
  intros Hn. unfold d_to_u32, d_to_s64. rewrite d_trunc_of_Z by done.
  by rewrite (proj2 (Z.leb_le _ n)), (proj2 (Z.ltb_lt n (2 ^ 63))) by lia.
Qed.

Lemma dmul_of_Z a b : 0 <= a -> 0 < b < 2 ^ 53 -> a * b < 2 ^ 53 -> dmul (d_of_Z a) (d_of_Z b) = d_of_Z (a * b).
Proof.
  intros Ha Hb Hab. destruct (decide (a = 0)) as [->|]; [|apply dmul_exact; lia].
  destruct (d_of_Z_value b ltac:(lia)) as (m & e & -> & _). done.
Qed.
