(* ===== verification/FloatDyadic.v ===== *)
(** * Exact operations on binary fractions

    A finite double has the value [n] when its content in units of 2^-1074 is [n].
    The sum of two such values is exact whenever it is representable; doubling is
    exact below overflow, halving above underflow. *)

From S2P Require Export FloatExact.

Definition has_value (x : double) (n : Z) : Prop := valid x /\ is_finite x = true /\ ulps x = n.

(** The value of 1. *)
Definition unit_ulps : Z := 2 ^ 1074.

Definition representable (n : Z) : Prop := exists x, has_value x n.

Lemma has_value_rep x n : has_value x n -> representable n.
Proof. by exists x. Qed.

(** A significand of 53 bits at any exponent in range. *)
Lemma representable_pow k j : 0 <= k < 2 ^ 53 -> 0 <= j <= 2045 -> representable (k * 2 ^ j).
Proof.
  intros Hk Hj. destruct (decide (k = 0)) as [->|]; [by exists d0|].
  pose proof (zdig_bounds k ltac:(lia)) as Hb.
  assert (1 <= zdig k <= 53) as Hd.
  { split; [apply (zdig_ge_pow2 _ 0); lia|apply zdig_lt_pow2; lia]. }
  set (s := Z.min j (53 - zdig k)). assert (0 < 2 ^ s) as Hs by (apply Z.pow_pos_nonneg; lia).
  assert (0 < k * 2 ^ s) as Hm by nia.
  exists (S754_finite false (Z.to_pos (k * 2 ^ s)) (j - s - 1074)).
  split; [|split; [done|]].
  - apply valid_canonical; [|lia]. unfold canon. rewrite Z2Pos.id, <- Z.shiftl_mul_pow2, zdig_shiftl, fx_eq by lia. lia.
  - cbn [ulps]. rewrite Z2Pos.id by done. replace (j - s - 1074 + 1074) with (j - s) by lia.
    replace j with (s + (j - s)) at 2 by lia. rewrite Z.pow_add_r by lia. lia.
Qed.

(** A double between two copies of a value is finite and has the value. *)
Lemma value_between x z n : valid x -> has_value z n -> dle x z = true -> dle z x = true -> has_value x n.
Proof.
  intros Vx (Vz & Fz & <-) H1 H2.
  assert (is_finite x = true) as Fx by (by destruct x as [|[]| |], z as [|[]| |[]]).
  split; [done|]. split; [done|].
  pose proof (proj1 (dle_ulps x z Vx Vz Fx Fz) H1). pose proof (proj1 (dle_ulps z x Vz Vx Fz Fx) H2). lia.
Qed.

Lemma dadd_value x y a b : has_value x a -> has_value y b -> representable (a + b) -> has_value (dadd x y) (a + b).
Proof.
  intros (Vx & Fx & Ex) (Vy & Fy & Ey) [z Hz]. pose proof Hz as (Vz & Fz & Ez).
  apply (value_between _ z); [by apply dadd_valid|done|..].
  - apply dadd_le; try done. lia.
  - apply dadd_ge; try done. lia.
Qed.

Lemma dneg_value x a : has_value x a -> has_value (dneg x) (- a).
Proof.
  intros (V & F & E). split; [by apply dneg_valid|]. destruct x as [|[]| |[] m e]; try done; (split; [done|]);
    cbn [dneg SFopp ulps negb] in *; lia.
Qed.

Lemma dsub_dadd x y : is_finite y = true -> is_finite x = true -> dsub x y = dadd x (dneg y) \/ ulps y = 0.
Proof. destruct x as [[]|[]| |[] ? ?], y as [[]|[]| |[] ? ?]; try done; intros _ _; first [by right | by left]. Qed.

Lemma dsub_value x y a b :
  has_value x a -> has_value y b -> b <> 0 -> representable (a - b) -> has_value (dsub x y) (a - b).
Proof.
  intros Hx Hy Hb Hr. destruct (dsub_dadd x y) as [->|E].
  - apply Hy.
  - apply Hx.
  - change (a - b) with (a + - b). apply dadd_value; [done|by apply dneg_value|exact Hr].
  - destruct Hy as (_ & _ & Ey). congruence.
Qed.

Lemma one_value : has_value d1 unit_ulps.
Proof. split; [reflexivity|]. split; [reflexivity|]. reflexivity. Qed.

Lemma unit_pow k : 0 <= k <= 1074 -> unit_ulps = 2 ^ k * 2 ^ (1074 - k).
Proof. intros. unfold unit_ulps. rewrite <- Z.pow_add_r by lia. f_equal. lia. Qed.

Lemma unit_pos : 0 < unit_ulps.
Proof. reflexivity. Qed.

(** A positive value is its significand at its exponent. *)
Lemma value_pos x n :
  has_value x n -> 0 < n ->
  exists m e, x = S754_finite false m e /\ valid x /\ -1074 <= e <= 971 /\ Z.pos m < 2 ^ 53 /\
    n = Z.pos m * 2 ^ (e + 1074).
Proof.
  intros (V & F & E) Hn. destruct x as [s|s| |[] m e]; try done; [cbn in E; lia| |].
  - pose proof (valid_exp _ _ _ V). pose proof (ulps_finite_pos m e ltac:(lia)). cbn [ulps] in E. lia.
  - exists m, e. pose proof (valid_exp _ _ _ V) as He.
    assert (Z.pos m < 2 ^ 53).
    { destruct (valid_mantissa _ _ _ V) as [[[_ H] _]|[H _]]; [done|].
      assert (2 ^ 52 < 2 ^ 53) by (by apply Z.pow_lt_mono_r). lia. }
    split; [done|]. split; [done|]. split; [done|]. split; [done|]. cbn [ulps] in E. lia.
Qed.

Lemma d2_eq : d2 = S754_finite false (Z.to_pos (2 ^ 52)) (-51).
Proof. reflexivity. Qed.

(** Doubling. *)
Lemma double_value x n : has_value x n -> 0 <= n < 2 * unit_ulps -> has_value (dmul x d2) (2 * n).
Proof.
  intros Hx Hn. destruct (decide (n = 0)) as [->|].
  { destruct Hx as (V & F & E). destruct x as [[]|s| |[] m e]; try done;
      pose proof (valid_exp _ _ _ V); pose proof (ulps_finite_pos m e ltac:(lia)); cbn [ulps] in E; lia. }
  destruct (value_pos x n Hx ltac:(lia)) as (m & e & -> & V & He & Hm & En).
  assert (e <= 1) as He1.
  { destruct (Z.le_gt_cases e 1) as [|Hg]; [done|]. exfalso.
    assert (2 ^ 1075 <= 2 ^ (e + 1074)) by (apply Z.pow_le_mono_r; lia).
    assert (2 * unit_ulps = 2 ^ 1075) as E2 by reflexivity. rewrite E2 in Hn. clear E2.
    assert (0 < 2 ^ 1075) by (by apply Z.pow_pos_nonneg). nia. }
  assert (2 * n = Z.pos m * 2 ^ (e + 1075)) as E2.
  { rewrite En. replace (e + 1075) with (1 + (e + 1074)) by lia. rewrite (Z.pow_add_r 2 1) by lia. lia. }
  destruct (representable_pow (Z.pos m) (e + 1075)) as [z Hz]; [lia|lia|]. rewrite <- E2 in Hz.
  destruct (value_pos z _ Hz ltac:(lia)) as (mz & ez & -> & Vz & Hez & _ & Ez).
  rewrite d2_eq.
  assert (dmul (S754_finite false m e) (S754_finite false (Z.to_pos (2 ^ 52)) (-51)) = S754_finite false mz ez) as ->;
    [|exact Hz].
  change (dmul (S754_finite false m e) (S754_finite false (Z.to_pos (2 ^ 52)) (-51)))
    with (binary_round_aux prec emax false (Z.pos (m * Z.to_pos (2 ^ 52))) (e + -51) loc_Exact).
  assert (Z.pos (m * Z.to_pos (2 ^ 52)) * 2 ^ (e + -51 - -1200) = Z.pos mz * 2 ^ (ez - -1200)) as Eq.
  { rewrite Pos2Z.inj_mul. change (Z.pos (Z.to_pos (2 ^ 52))) with (2 ^ 52).
    replace (ez - -1200) with (126 + (ez + 1074)) by lia. rewrite (Z.pow_add_r 2 126) by lia.
    replace (e + -51 - -1200) with (126 + (e + 1075) - 52) by lia.
    transitivity (2 ^ 126 * (2 * n)); [|rewrite Ez; lia]. rewrite E2.
    rewrite <- (Z.mul_assoc (Z.pos m)), <- (Z.pow_add_r 2 52) by lia. replace (52 + (126 + (e + 1075) - 52)) with (126 + (e + 1075)) by lia.
    rewrite (Z.pow_add_r 2 126) by lia. lia. }
  destruct (valid_bounded _ _ _ V) as [C _]. destruct (valid_bounded _ _ _ Vz) as [Cz _].
  apply (round_exact false (Z.pos (m * Z.to_pos (2 ^ 52))) (e + -51) (Z.pos mz) ez); [lia| |lia|done|lia|..].
  - rewrite Pos2Z.inj_mul. by apply mul_wide.
  - rewrite (ple_scale (-1200)) by lia. lia.
  - rewrite (ple_scale (-1200)) by lia. lia.
Qed.

Lemma new_location_0 p : new_location p 0 = loc_Exact.
Proof. unfold new_location, new_location_even, new_location_odd. by destruct (Z.even p). Qed.

(** The quotient by 2 before rounding. *)
Lemma halve_core m e q e' l :
  Z.pos m < 2 ^ 53 -> -900 <= e ->
  SFdiv_core_binary prec emax (Z.pos m) e (2 ^ 52) (-51) = (q, e', l) ->
  l = loc_Exact /\ exists t, 0 <= t /\ q = Z.pos m * 2 ^ t /\ e' = e - 1 - t.
Proof.
  intros Hm He E. change (2 ^ 52) with (Z.pos (Z.to_pos (2 ^ 52))) in E.
  apply div_core_spec in E as (s & Hs & -> & -> & Hf & ->).
  change (Z.pos (Z.to_pos (2 ^ 52))) with (2 ^ 52) in *. change (zdig (2 ^ 52)) with 53 in Hf.
  assert (zdig (Z.pos m) <= 53) by (apply zdig_lt_pow2; lia). rewrite fx_eq in Hf.
  assert (52 <= s) as H52 by lia.
  assert (Z.pos m * 2 ^ s = Z.pos m * 2 ^ (s - 52) * 2 ^ 52) as ->.
  { rewrite <- Z.mul_assoc, <- Z.pow_add_r by lia. do 2 f_equal. lia. }
  rewrite Z.mod_mul, Z.div_mul by lia. split; [apply new_location_0|]. exists (s - 52). split; [lia|]. split; [done|lia].
Qed.

(** Halving. *)
Lemma halve_value x n : has_value x (2 * n) -> n = 0 \/ 2 ^ 1000 <= n -> n < unit_ulps -> has_value (ddiv x d2) n.
Proof.
  intros Hx [->|Hn] Hu.
  { destruct Hx as (V & F & E). destruct x as [[]|s| |[] m e]; try done;
      pose proof (valid_exp _ _ _ V); pose proof (ulps_finite_pos m e ltac:(lia)); cbn [ulps] in E; lia. }
  assert (0 < 2 ^ 1000) by (by apply Z.pow_pos_nonneg).
  destruct (value_pos x _ Hx ltac:(lia)) as (m & e & -> & V & He & Hm & En).
  assert (-900 <= e) as He1.
  { destruct (Z.le_gt_cases (-900) e) as [|Hg]; [done|]. exfalso.
    assert (2 ^ (e + 1074) <= 2 ^ 173) by (apply Z.pow_le_mono_r; lia).
    assert (2 ^ 1000 = 2 ^ 53 * 2 ^ 173 * 2 ^ 774) as E3 by reflexivity.
    assert (0 < 2 ^ 173 /\ 0 < 2 ^ (e + 1074) /\ 1 <= 2 ^ 774) as (? & ? & ?)
      by (split_and!; [done|apply Z.pow_pos_nonneg; lia|done]). nia. }
  assert (n = Z.pos m * 2 ^ (e + 1073)) as E2.
  { replace (e + 1074) with (1 + (e + 1073)) in En by lia. rewrite (Z.pow_add_r 2 1) in En by lia. lia. }
  destruct (representable_pow (Z.pos m) (e + 1073)) as [z Hz]; [lia|lia|]. rewrite <- E2 in Hz.
  destruct (value_pos z _ Hz ltac:(lia)) as (mz & ez & -> & Vz & Hez & _ & Ez).
  rewrite d2_eq. unfold ddiv, SFdiv. change (Z.pos (Z.to_pos (2 ^ 52))) with (2 ^ 52).
  destruct (SFdiv_core_binary prec emax (Z.pos m) e (2 ^ 52) (-51)) as [[q e'] l] eqn:Ed.
  pose proof (halve_core m e q e' l Hm He1 Ed) as (-> & t & Ht & Eq & Ee).
  change (2 ^ 52) with (Z.pos (Z.to_pos (2 ^ 52))) in Ed. destruct (div_wide _ _ _ _ _ _ _ Ed) as [_ Hw].
  assert (q * 2 ^ (e' - (-1200 - t)) = Z.pos mz * 2 ^ (ez - (-1200 - t))) as Ev.
  { rewrite Eq, Ee. replace (e - 1 - t - (-1200 - t)) with (126 + (e + 1073)) by lia.
    replace (ez - (-1200 - t)) with (t + (126 + (ez + 1074))) by lia.
    rewrite !(Z.pow_add_r 2 t), !(Z.pow_add_r 2 126) by lia.
    transitivity (2 ^ t * 2 ^ 126 * n); [rewrite E2; lia|rewrite Ez; lia]. }
  assert (0 < q) as Hq by (rewrite Eq; assert (0 < 2 ^ t) by (by apply Z.pow_pos_nonneg); lia).
  destruct (valid_bounded _ _ _ Vz) as [Cz _]. cbn [xorb].
  rewrite (round_exact false q e' (Z.pos mz) ez); [exact Hz|done|done|lia|done|lia|..].
  - rewrite (ple_scale (-1200 - t)) by lia. lia.
  - rewrite (ple_scale (-1200 - t)) by lia. lia.
Qed.

(** A value in [[1, 2)] less one. *)
Lemma minus_one_value x n :
  has_value x n -> unit_ulps <= n < 2 * unit_ulps -> has_value (dsub x d1) (n - unit_ulps).
Proof.
  intros Hx Hn. pose proof unit_pos. apply dsub_value; [done|exact one_value|lia|].
  destruct (value_pos x n Hx ltac:(lia)) as (m & e & _ & _ & He & Hm & En).
  assert (e <= 0) as He0.
  { destruct (Z.le_gt_cases e 0) as [|Hg]; [done|]. exfalso.
    assert (2 ^ 1075 <= 2 ^ (e + 1074)) by (apply Z.pow_le_mono_r; lia).
    assert (2 * unit_ulps = 2 ^ 1075) as E2 by reflexivity. rewrite E2 in Hn. clear E2.
    assert (0 < 2 ^ 1075) by (by apply Z.pow_pos_nonneg). nia. }
  assert (0 < 2 ^ (e + 1074) /\ 0 < 2 ^ (- e)) as [? ?] by (split; apply Z.pow_pos_nonneg; lia).
  assert (unit_ulps = 2 ^ (- e) * 2 ^ (e + 1074)) as Eu.
  { rewrite (unit_pow (- e)) by lia. do 2 f_equal. lia. }
  assert (n - unit_ulps = (Z.pos m - 2 ^ (- e)) * 2 ^ (e + 1074)) as -> by lia.
  apply representable_pow; [|lia]. split; [nia|lia].
Qed.
