(* ===== verification/Exp.v ===== *)
(** * The exponential and the absolute value (include/exp.h, include/fabs.h)

    The kernel has no libm, so the module carries fdlibm's [exp].  The words of
    a double are taken and replaced through the 64-bit representation, as the
    source does through a union.  A local the C function leaves indeterminate on
    a path is [None]; [exp_defined] shows it is never read. *)

From S2P Require Export FloatBounds.

(** ** The words of a double *)

(** [include/exp.h:113-118 GET_HIGH_WORD] *)
Definition GET_HIGH_WORD (d : double) : Z := bits_of_double d / 2 ^ 32.

(** [include/exp.h:122-127 GET_LOW_WORD] *)
Definition GET_LOW_WORD (d : double) : Z := bits_of_double d mod 2 ^ 32.

(** [include/exp.h:132-138 SET_HIGH_WORD] *)
Definition SET_HIGH_WORD (d : double) (v : Z) : double :=
  double_of_bits (u32 v * 2 ^ 32 + GET_LOW_WORD d).

(** [include/exp.h:142-148 SET_LOW_WORD] *)
Definition SET_LOW_WORD (d : double) (v : Z) : double :=
  double_of_bits (GET_HIGH_WORD d * 2 ^ 32 + u32 v).

(** ** Constants *)

(** [include/exp.h:154-154 one] *)
Definition one : double := d1.
(** [include/exp.h:155-155 halF] *)
Definition halF : list double := Eval vm_compute in [dec 5 (-1); dec (-5) (-1)].
(** [include/exp.h:156-156 huge] *)
Definition huge : double := Eval vm_compute in dec 1 300.
(** [include/exp.h:157-157 twom1000] *)
Definition twom1000 : double := Eval vm_compute in dec 933263618503218878990 (-322).
(** [include/exp.h:158-158 o_threshold] *)
Definition o_threshold : double := Eval vm_compute in dec 709782712893383973096 (-18).
(** [include/exp.h:159-159 u_threshold] *)
Definition u_threshold : double := Eval vm_compute in dec (-745133219101941108420) (-18).
(** [include/exp.h:160-161 ln2HI] *)
Definition ln2HI : list double :=
  Eval vm_compute in [dec 693147180369123816490 (-21); dec (-693147180369123816490) (-21)].
(** [include/exp.h:162-163 ln2LO] *)
Definition ln2LO : list double :=
  Eval vm_compute in [dec 190821492927058770002 (-30); dec (-190821492927058770002) (-30)].
(** [include/exp.h:164-164 invln2] *)
Definition invln2 : double := Eval vm_compute in dec 144269504088896338700 (-20).
(** [include/exp.h:165-165 P1] *)
Definition P1 : double := Eval vm_compute in dec 166666666666666019037 (-21).
(** [include/exp.h:166-166 P2] *)
Definition P2 : double := Eval vm_compute in dec (-277777777770155933842) (-23).
(** [include/exp.h:167-167 P3] *)
Definition P3 : double := Eval vm_compute in dec 661375632143793436117 (-25).
(** [include/exp.h:168-168 P4] *)
Definition P4 : double := Eval vm_compute in dec (-165339022054652515390) (-26).
(** [include/exp.h:169-169 P5] *)
Definition P5 : double := Eval vm_compute in dec 413813679705723846039 (-28).

(** ** The exponential *)

(** The early returns for NaN, the infinities, overflow and underflow.
    [include/exp.h:182-193 __ieee754_exp] *)
Definition exp_filter (x : double) (hx xsb : Z) : option double :=
  if 0x40862E42 <=? hx then
    if 0x7ff00000 <=? hx then
      let lx := GET_LOW_WORD x in
      if negb (Z.lor (Z.land hx 0xfffff) lx =? 0) then Some (x + x)%D
      else Some (if xsb =? 0 then x else d0)
    else if dgt x o_threshold then Some (huge * huge)%D
    else if dlt x u_threshold then Some (twom1000 * twom1000)%D
    else None
  else None.

(** What the argument reduction leaves: an early result, or the reduced [x]
    with [hi], [lo] and [k], those that were assigned. *)
Inductive reduction :=
| Early (r : double)
| Reduced (x : double) (hilo : option (double * double)) (k : option Z).

(** [include/exp.h:195-210 __ieee754_exp] *)
Definition exp_reduce (x : double) (hx xsb : Z) : reduction :=
  let sel := Z.to_nat xsb in
  if 0x3fd62e42 <? hx then
    let '(hi, lo, k) :=
      if hx <? 0x3FF0A2B2 then
        ((x - ln2HI !!! sel)%D, ln2LO !!! sel, 1 - xsb - xsb)
      else
        let k := d_to_s32 (invln2 * x + halF !!! sel)%D in
        let t := d_of_Z k in
        ((x - t * ln2HI !!! 0%nat)%D, (t * ln2LO !!! 0%nat)%D, k) in
    Reduced (hi - lo)%D (Some (hi, lo)) (Some k)
  else if hx <? 0x3e300000 then
    if dgt (huge + x)%D one then Early (one + x)%D
    else Reduced x None None
  else Reduced x None (Some 0).

(** The polynomial on the primary range. [include/exp.h:212-214 __ieee754_exp] *)
Definition exp_poly (x : double) : double :=
  let t := (x * x)%D in
  (x - t * (P1 + t * (P2 + t * (P3 + t * (P4 + t * P5)))))%D.

(** Scaling by [2^k]: [k] is added to the exponent field of [y].
    [include/exp.h:217-227 __ieee754_exp] *)
Definition exp_scale (y : double) (k : Z) : double :=
  if -1021 <=? k then
    SET_HIGH_WORD y (u32 (GET_HIGH_WORD y + Z.shiftl k 20))
  else
    (SET_HIGH_WORD y (u32 (GET_HIGH_WORD y + Z.shiftl (k + 1000) 20)) * twom1000)%D.

(** [include/exp.h:212-228 __ieee754_exp] *)
Definition exp_finish (x : double) (hilo : option (double * double)) (k : option Z)
  : option double :=
  let c := exp_poly x in
  match k with
  | None => None
  | Some k =>
      if k =? 0 then Some (one - ((x * c) / (c - d2) - x))%D
      else match hilo with
           | None => None
           | Some (hi, lo) =>
               Some (exp_scale (one - ((lo - (x * c) / (d2 - c)) - hi))%D k)
           end
  end.

(** [None] would be the read of an indeterminate local.
    [include/exp.h:172-228 __ieee754_exp] *)
Definition __ieee754_exp (x : double) : option double :=
  let hx := GET_HIGH_WORD x in
  let xsb := Z.land (Z.shiftr hx 31) 1 in
  let hx := Z.land hx 0x7fffffff in
  match exp_filter x hx xsb with
  | Some r => Some r
  | None =>
      match exp_reduce x hx xsb with
      | Early r => Some r
      | Reduced x hilo k => exp_finish x hilo k
      end
  end.

(** [include/exp.h:230-233 exp] *)
Definition exp (x : double) : double := default S754_nan (__ieee754_exp x).

(** ** The absolute value *)

(** [include/fabs.h:8-11 fabs] *)
Definition fabs (a : double) : double := if dgt a d0 then a else (- a)%D.

(** ** The words and the magnitude of a double *)

Lemma bits_neg_abs m e :
  bits_of_double (S754_finite true m e) = 2 ^ 63 + bits_of_double (S754_finite false m e).
Proof. unfold bits_of_double. destruct (2 ^ 52 <=? Z.pos m); lia. Qed.

Lemma bits_pos_range m e :
  valid (S754_finite false m e) -> 0 <= bits_of_double (S754_finite false m e) < 2 ^ 63.
Proof.
  intros V. unfold bits_of_double.
  destruct (valid_mantissa _ _ _ V) as [[? ?]|[? ->]]; destruct (2 ^ 52 <=? Z.pos m) eqn:E; lia.
Qed.

Lemma bits_mono_pos m1 e1 m2 e2 :
  valid (S754_finite false m1 e1) -> valid (S754_finite false m2 e2) ->
  dle (S754_finite false m1 e1) (S754_finite false m2 e2) = true ->
  bits_of_double (S754_finite false m1 e1) <= bits_of_double (S754_finite false m2 e2).
Proof.
  intros V1 V2 (_ & _ & Hle)%dle_spec. unfold dkey, lex_lt in Hle. unfold bits_of_double.
  destruct (valid_mantissa _ _ _ V1) as [[? ?]|[? ->]];
    destruct (valid_mantissa _ _ _ V2) as [[? ?]|[? ->]];
    destruct (2 ^ 52 <=? Z.pos m1) eqn:E1; destruct (2 ^ 52 <=? Z.pos m2) eqn:E2; lia.
Qed.

(** The masked high word and the sign bit the code computes. *)
Lemma high_word_masked s m e :
  valid (S754_finite s m e) ->
  Z.land (GET_HIGH_WORD (S754_finite s m e)) 0x7fffffff
  = bits_of_double (S754_finite false m e) / 2 ^ 32 /\
  Z.land (Z.shiftr (GET_HIGH_WORD (S754_finite s m e)) 31) 1 = (if s then 1 else 0).
Proof.
  intros V. pose proof (bits_pos_range m e V) as B. unfold GET_HIGH_WORD.
  assert (Hm : forall h, Z.land h 0x7fffffff = h mod 2 ^ 31)
    by (intros; apply (Z.land_ones h 31); lia).
  assert (H1 : forall h, Z.land (Z.shiftr h 31) 1 = (h / 2 ^ 31) mod 2 ^ 1)
    by (intros; rewrite <- Z.shiftr_div_pow2 by lia; apply (Z.land_ones _ 1); lia).
  rewrite Hm, H1. destruct s; rewrite ?bits_neg_abs;
    set (b := bits_of_double (S754_finite false m e)) in *;
    assert (Hq : 0 <= b / 2 ^ 32 < 2 ^ 31) by (Z.div_mod_to_equations; lia).
  - replace (2 ^ 63) with (2 ^ 31 * 2 ^ 32) by reflexivity.
    rewrite Z.div_add_l by lia. set (q := b / 2 ^ 32) in *.
    replace (2 ^ 31 + q) with (q + 1 * 2 ^ 31) by lia.
    rewrite Z.mod_add, Z.div_add, Z.mod_small, Z.div_small by lia. done.
  - set (q := b / 2 ^ 32) in *. rewrite Z.mod_small, Z.div_small by lia. done.
Qed.

Lemma small_high_word s m e :
  valid (S754_finite s m e) ->
  bits_of_double (S754_finite false m e) / 2 ^ 32 < 0x3e300000 ->
  - ulps d1 <= ulps (S754_finite s m e).
Proof.
  intros V Hh.
  assert (Hb : bits_of_double (S754_finite false m e) < 0x3e300000 * 2 ^ 32)
    by (Z.div_mod_to_equations; lia).
  pose proof (valid_exp _ _ _ V) as He.
  change (ulps d1) with (4503599627370496 * 2 ^ 1022).
  enough (Z.pos m * 2 ^ (e + 1074) <= 4503599627370496 * 2 ^ 1022)
    by (unfold ulps; destruct s; lia).
  assert (He2 : Z.pos m < 2 ^ 53 /\ e <= -53).
  { unfold bits_of_double in Hb.
    destruct (valid_mantissa _ _ _ V) as [[? ?]|[? ->]];
      destruct (2 ^ 52 <=? Z.pos m) eqn:E; lia. }
  transitivity (2 ^ 53 * 2 ^ 1021); [|vm_compute; discriminate].
  apply Z.mul_le_mono_nonneg; [lia|lia|apply Z.pow_nonneg; lia|].
  apply Z.pow_le_mono_r; lia.
Qed.

(** On the branch that tests [huge+x>one] the test succeeds. *)
Lemma huge_plus_small x :
  valid x -> is_finite x = true -> - ulps d1 <= ulps x ->
  dgt (huge + x)%D one = true.
Proof.
  intros V F H. rewrite dgt_dlt.
  assert (Hle : dle d2 (huge + x)%D = true).
  { apply dadd_ge; try done.
    change (ulps d2) with (2 * ulps d1).
    enough (3 * ulps d1 <= ulps huge) by lia. by vm_compute. }
  assert (Hlt : dlt one d2 = true) by reflexivity. d_order.
Qed.

(** ** Properties *)

(** On every double (a canonical binary64 value) [exp] returns a result: no
    path reads [k], [hi] or [lo] before it is assigned, although the branch for
    |x| < 2^-28 assigns none of them. *)
Theorem exp_defined (x : double) : valid x -> is_Some (__ieee754_exp x).
Proof.
  intros V. unfold __ieee754_exp.
  destruct (exp_filter x _ _) as [r|] eqn:Ef; [by eexists|].
  unfold exp_reduce.
  destruct (0x3fd62e42 <? _) eqn:E1.
  { destruct (_ <? 0x3FF0A2B2); unfold exp_finish;
      match goal with |- context [if ?c =? 0 then _ else _] => destruct (c =? 0) end;
      by eexists. }
  destruct (_ <? 0x3e300000) eqn:E2; [|by eexists].
  rewrite huge_plus_small; [by eexists|done| |].
  - destruct x as [s|s| |s m e]; try done; by destruct s.
  - destruct x as [s|s| |s m e]; try (by destruct s); [by vm_compute|].
    apply small_high_word; [done|].
    destruct (high_word_masked s m e V) as [<- _]. by apply Z.ltb_lt.
Qed.

Lemma exp_defined_witness : valid (dec (-1) (-9)) /\ is_Some (__ieee754_exp (dec (-1) (-9))).
Proof. split; [apply dec_valid|apply (exp_defined (dec (-1) (-9))); apply dec_valid]. Defined.

Lemma o_threshold_bits m e :
  valid (S754_finite false m e) -> dlt o_threshold (S754_finite false m e) = true ->
  0x40862E42 <= bits_of_double (S754_finite false m e) / 2 ^ 32 < 0x7ff00000.
Proof.
  intros V H.
  assert (bits_of_double o_threshold <= bits_of_double (S754_finite false m e))
    by (apply bits_mono_pos; [by vm_compute|done|by apply dlt_dle]).
  assert (bits_of_double (S754_finite false m e) <= bits_of_double (S754_finite false 9007199254740991 971)).
  { apply bits_mono_pos; [done|by vm_compute|].
    destruct (valid_bounded _ _ _ V) as [Hc He].
    apply dle_spec. unfold dkey, lex_lt. cbn [is_nan].
    destruct (valid_mantissa _ _ _ V) as [[? ?]|[? ->]]; simpl; lia. }
  change (bits_of_double o_threshold) with 4649454530587146735 in *.
  change (bits_of_double (S754_finite false 9007199254740991 971)) with 9218868437227405311 in *.
  Z.div_mod_to_equations; lia.
Qed.

(** The special values of [exp]: NaN, the infinities and the zeros; every
    finite argument above [o_threshold] overflows to +inf and every finite one
    below [u_threshold] underflows to +0. *)
Theorem exp_special (x : double) :
  valid x -> is_finite x = true ->
  exp S754_nan = S754_nan /\
  exp (S754_infinity false) = S754_infinity false /\
  exp (S754_infinity true) = S754_zero false /\
  (forall s, exp (S754_zero s) = one) /\
  (dgt x o_threshold = true -> exp x = S754_infinity false) /\
  (dlt x u_threshold = true -> exp x = S754_zero false).
Proof.
  intros V F. split; [by vm_compute|]. split; [by vm_compute|]. split; [by vm_compute|].
  split; [intros []; by vm_compute|].
  split; intros H; destruct x as [[]|[]| |s m e]; try discriminate.
  - assert (s = false) as -> by (destruct s; [discriminate H|done]).
    destruct (high_word_masked false m e V) as [Hh Hs].
    destruct (o_threshold_bits m e V H) as [Hlo Hhi].
    unfold exp, __ieee754_exp. rewrite Hh, Hs. unfold exp_filter.
    rewrite (proj2 (Z.leb_le _ _) Hlo), (proj2 (Z.leb_gt _ _) Hhi), H. by vm_compute.
  - assert (s = true) as -> by (destruct s; [done|discriminate H]).
    assert (V' : valid (S754_finite false m e)) by exact V.
    assert (H' : dlt o_threshold (S754_finite false m e) = true).
    { apply (dlt_trans _ (dneg u_threshold)); [by vm_compute|].
      apply dlt_spec in H as (_ & _ & H). apply dlt_spec. split; [done|split; [done|]].
      unfold lex_lt, dkey, u_threshold, dneg, SFopp, negb in *. lia. }
    destruct (high_word_masked true m e V) as [Hh Hs].
    destruct (o_threshold_bits m e V' H') as [Hlo Hhi].
    unfold exp, __ieee754_exp. rewrite Hh, Hs. unfold exp_filter.
    rewrite (proj2 (Z.leb_le _ _) Hlo), (proj2 (Z.leb_gt _ _) Hhi), H.
    replace (dgt (S754_finite true m e) o_threshold) with false by done. by vm_compute.
Qed.

Lemma exp_special_witness :
  exp (d_of_Z 710) = S754_infinity false /\ exp (d_of_Z (-746)) = S754_zero false.
Proof.
  split.
  - assert (V : valid (d_of_Z 710)) by apply d_of_Z_valid.
    assert (F : is_finite (d_of_Z 710) = true) by (by vm_compute).
    destruct (exp_special (d_of_Z 710) V F) as (_ & _ & _ & _ & H & _).
    apply H. by vm_compute.
  - assert (V : valid (d_of_Z (-746))) by apply d_of_Z_valid.
    assert (F : is_finite (d_of_Z (-746)) = true) by (by vm_compute).
    destruct (exp_special (d_of_Z (-746)) V F) as (_ & _ & _ & _ & _ & H).
    apply H. by vm_compute.
Defined.

(** The exponent-field addition that ends [exp] is a multiplication by 2^k:
    for a normal positive [y] whose scaled exponent stays in range, the result
    is [y] with exponent [e + k] and the same mantissa. *)
Theorem exp_scale_ldexp (m : positive) (e k : Z) :
  valid (S754_finite false m e) -> 2 ^ 52 <= Z.pos m -> -1021 <= k ->
  -1074 <= e + k <= 971 ->
  exp_scale (S754_finite false m e) k = S754_finite false m (e + k).
Proof.
  intros V Hm Hk He. unfold exp_scale.
  rewrite (proj2 (Z.leb_le _ _) Hk). unfold SET_HIGH_WORD, GET_HIGH_WORD, GET_LOW_WORD.
  assert (Hb : forall e', bits_of_double (S754_finite false m e')
               = (e' + 1075) * 2 ^ 52 + (Z.pos m - 2 ^ 52)).
  { intros e'. unfold bits_of_double. destruct (2 ^ 52 <=? Z.pos m) eqn:E; lia. }
  assert (Vk : valid (S754_finite false m (e + k))).
  { destruct (valid_mantissa _ _ _ V) as [[? ?]|[? ->]]; [|lia].
    apply valid_canonical; [|lia]. unfold canon. rewrite fx_eq.
    assert (zdig (Z.pos m) <= 53) by (apply zdig_lt_pow2; lia).
    assert (53 <= zdig (Z.pos m)) by (apply (zdig_ge_pow2 _ 52); lia). lia. }
  rewrite <- (double_of_bits_of_double _ Vk) at 1. f_equal. rewrite !Hb.
  pose proof (bits_pos_range m e V) as B. rewrite Hb in B.
  pose proof (bits_pos_range m (e + k) Vk) as Bk. rewrite Hb in Bk.
  rewrite u32_idemp, Z.shiftl_mul_pow2 by lia.
  assert (Hhi : ((e + 1075) * 2 ^ 52 + (Z.pos m - 2 ^ 52)) / 2 ^ 32
                = (e + 1075) * 2 ^ 20 + (Z.pos m - 2 ^ 52) / 2 ^ 32).
  { replace ((e + 1075) * 2 ^ 52) with ((e + 1075) * 2 ^ 20 * 2 ^ 32) by lia.
    rewrite Z.div_add_l; lia. }
  assert (Hlo : ((e + 1075) * 2 ^ 52 + (Z.pos m - 2 ^ 52)) mod 2 ^ 32
                = (Z.pos m - 2 ^ 52) mod 2 ^ 32).
  { replace ((e + 1075) * 2 ^ 52) with ((e + 1075) * 2 ^ 20 * 2 ^ 32) by lia.
    rewrite Z.add_comm, Z.mod_add; lia. }
  rewrite Hhi, Hlo. set (r := Z.pos m - 2 ^ 52) in *.
  pose proof (Z.div_mod r (2 ^ 32) ltac:(lia)) as Hr.
  pose proof (Z.mod_pos_bound r (2 ^ 32) ltac:(lia)) as Hr2.
  set (q := r / 2 ^ 32) in *. set (lo := r mod 2 ^ 32) in *.
  rewrite u32_small; lia.
Qed.

Lemma exp_scale_ldexp_witness :
  valid d1 /\ exp_scale d1 (-3) = S754_finite false 4503599627370496 (-55).
Proof.
  split; [by vm_compute|].
  apply (exp_scale_ldexp 4503599627370496 (-52) (-3)); [by vm_compute|lia|lia|lia].
Defined.

(** The decimal constants of [exp] are, after rounding, exactly the words
    the comments of exp.h give for them. *)
Theorem exp_constants_words :
  map bits_of_double [twom1000; o_threshold; u_threshold; ln2HI !!! 0%nat; ln2HI !!! 1%nat;
                      ln2LO !!! 0%nat; ln2LO !!! 1%nat; invln2; P1; P2; P3; P4; P5]
  = [0x0170000000000000; 0x40862E42FEFA39EF; 0xc0874910D52D3051; 0x3fe62e42fee00000;
     0xbfe62e42fee00000; 0x3dea39ef35793c76; 0xbdea39ef35793c76; 0x3ff71547652b82fe;
     0x3FC555555555553E; 0xBF66C16C16BEBD93; 0x3F11566AAF25DE2C; 0xBEBBBD41C5D26BF1;
     0x3E66376972BEA4D0].
Proof. vm_compute. reflexivity. Qed.

(** [fabs] is the absolute value except at the zeros, where the test [a>0]
    fails and the zero comes back with its sign flipped ([fabs(+0)] is -0). *)
Theorem fabs_spec (a : double) :
  fabs a = match a with S754_zero s => S754_zero (negb s) | _ => SFabs a end.
Proof. by destruct a as [[]|[]| |[] m e]. Qed.
