(* ===== verification/Rand.v ===== *)
(** * Random numbers (the rand_my macro of include/rbfgrad.h)

    The kernel's [random32] is outside the repository: it is an operation of
    the class [Rng] on an explicit generator state, and [RngOk] is the one thing
    the code relies on, that it returns a 32-bit unsigned integer.  [script] is a
    generator that replays a list, for concrete runs. *)

From S2P Require Export FloatBounds.

Class Rng (G : Type) := random32 : G -> Z * G.
Class RngOk (G : Type) `{Rng G} := random32_range : forall g, 0 <= (random32 g).1 < 2 ^ 32.

(** A scripted generator. *)
Definition script := list Z.
#[export] Instance script_rng : Rng script :=
  fun g => match g with [] => (0, []) | r :: g => (u32 r, g) end.
#[export] Instance script_rng_ok : RngOk script.
Proof. intros [|r g]; [done|apply u32_range]. Qed.

(** [include/rbfgrad.h:12-12 RAND_MAX] *)
Definition RAND_MAX : Z := 2147483647.

(** [RAND_MAX+1.0]. *)
Definition rand_max_1 : double := Eval vm_compute in (d_of_Z RAND_MAX + d1)%D.

Section Rand.
Context `{Rng G}.

(** [rand_my] on [int] bounds: the product is an [unsigned int] product.
    [include/rbfgrad.h:63-64 rand_my] *)
Definition rand_my_int (min max : Z) (g : G) : double * G :=
    let '(r, g) := random32 g in
    ((d_of_Z (u32 (s32 (max - min) * r)) / rand_max_1 + d_of_Z min)%D, g).

(** [rand_my] on [double] bounds.
    [include/rbfgrad.h:63-64 rand_my] *)
Definition rand_my_dbl (min max : double) (g : G) : double * G :=
    let '(r, g) := random32 g in
    (((max - min) * d_of_Z r) / rand_max_1 + min, g)%D.

(** [(double)random32()/(RAND_MAX+1.0)], the coefficients of the velocity
      update.  [modules/sch_rbfgrad.c:640-641 rbfgrad_mark_probability] *)
Definition rand_unit (g : G) : double * G :=
    let '(r, g) := random32 g in ((d_of_Z r / rand_max_1)%D, g).
End Rand.

(** ** Bounds *)

Lemma d_of_Z_pos_form n :
  0 < n < 2 ^ 53 -> exists m e, d_of_Z n = S754_finite false m e /\
    valid (S754_finite false m e) /\ e <= 0 /\ Z.pos m = n * 2 ^ (- e).
Proof.
  intros Hn. destruct (d_of_Z_exact n Hn) as [E C].
  assert (Hz : 0 <= zdig n <= 53).
  { split; [apply zdig_nonneg; lia|apply zdig_lt_pow2; lia]. }
  eexists _, _. split; [exact E|]. split; [rewrite <- E; apply d_of_Z_valid|].
  split; [lia|]. rewrite Z.shiftl_mul_pow2 by lia.
  assert (0 < 2 ^ (53 - zdig n)) by (apply Z.pow_pos_nonneg; lia).
  rewrite Z2Pos.id by nia. do 2 f_equal. lia.
Qed.

Lemma rand_max_1_eq : rand_max_1 = S754_finite false 4503599627370496 (-21).
Proof. reflexivity. Qed.

(** A 32-bit integer over 2^31, bounded by a representable quotient. *)
Lemma scaled_le n mb eb :
  0 <= n < 2 ^ 32 -> valid (S754_finite false mb eb) ->
  ple n 0 (Z.pos mb) (eb + 31) ->
  nonneg_finite (d_of_Z n / rand_max_1)%D /\
  valid (d_of_Z n / rand_max_1)%D /\
  dle (d_of_Z n / rand_max_1)%D (S754_finite false mb eb) = true.
Proof.
  intros Hn Vb Hle.
  destruct (decide (n = 0)) as [->|Hz]; [by vm_compute|].
  destruct (d_of_Z_pos_form n ltac:(lia)) as (m & e & E & V & He & Hm).
  assert (VR : valid rand_max_1) by (by vm_compute).
  rewrite E in *. split; [|split]; [|by apply ddiv_valid|];
    rewrite rand_max_1_eq; apply (ddiv_le _ _ _ _ mb eb); try done;
    set (k := Z.min e (eb - 21)); rewrite (ple_scale k) by lia;
    (rewrite (ple_scale (Z.min 0 (eb + 31))) in Hle by lia);
    rewrite Hm, <- Z.mul_assoc, <- Z.pow_add_r by lia;
    replace (- e + (e - k)) with (- k) by lia;
    change 4503599627370496 with (2 ^ 52);
    rewrite <- Z.mul_assoc, <- Z.pow_add_r by lia;
    replace (52 + (eb + -21 - k)) with (eb + 31 - k) by lia;
    set (c := Z.min 0 (eb + 31)) in *.
  all: replace (- k) with ((0 - c) + (c - k)) by lia;
    replace (eb + 31 - k) with ((eb + 31 - c) + (c - k)) by lia;
    rewrite !Z.pow_add_r, !Z.mul_assoc by lia;
    apply Z.mul_le_mono_nonneg_r; [apply Z.pow_nonneg; lia|exact Hle].
Qed.

Lemma nonneg_finite_ulps x :
  nonneg_finite x -> is_finite x = true /\ 0 <= ulps x.
Proof.
  destruct x as [[]|[]| |[] m e]; simpl; try done.
  intros _. split; [done|]. assert (0 <= 2 ^ (e + 1074)) by (apply Z.pow_nonneg; lia). lia.
Qed.

Lemma valid_normal mb eb :
  2 ^ 52 <= Z.pos mb < 2 ^ 53 -> -1074 <= eb <= 971 -> valid (S754_finite false mb eb).
Proof.
  intros Hm He. apply valid_canonical; [|lia]. unfold canon. rewrite fx_eq.
  assert (zdig (Z.pos mb) <= 53) by (apply zdig_lt_pow2; lia).
  assert (53 <= zdig (Z.pos mb)) by (apply (zdig_ge_pow2 _ 52); lia). lia.
Qed.

(** Dividing by 2^31 a product bounded by [mb * 2^(eb+33)]. *)
Lemma div_rand_max_bound p mb eb :
  valid p -> nonneg_finite p -> 2 ^ 52 <= Z.pos mb < 2 ^ 53 -> -1074 <= eb <= 900 ->
  dle p (S754_finite false mb (eb + 33)) = true ->
  nonneg_finite (p / rand_max_1)%D /\ valid (p / rand_max_1)%D /\
  ulps (p / rand_max_1)%D <= 4 * (Z.pos mb * 2 ^ (eb + 1074)).
Proof.
  intros Vp Np Hm He Hpb.
  assert (V33 : valid (S754_finite false mb (eb + 33))) by (apply valid_normal; lia).
  assert (V2 : valid (S754_finite false mb (eb + 2))) by (apply valid_normal; lia).
  assert (Vr : valid rand_max_1) by (by vm_compute).
  pose proof (ulps_finite_pos mb eb ltac:(lia)) as Hb.
  assert (Hz : forall s, nonneg_finite (S754_zero s / rand_max_1)%D /\
    ulps (S754_zero s / rand_max_1)%D = 0) by (intros []; by vm_compute).
  destruct p as [s|s| |s pm pe]; try contradiction.
  { destruct (Hz s) as [? ->]. split; [done|]. split; [by apply ddiv_valid|lia]. }
  destruct s; [contradiction|].
  apply dle_pos in Hpb; [|exact Vp|exact V33].
  destruct (ddiv_le pm pe 4503599627370496 (-21) mb (eb + 2)) as [Hn Hle]; [exact V2| |].
  { change (Z.pos 4503599627370496) with (2 ^ 52).
    eapply ple_trans; [exact Hpb|].
    set (k := Z.min (eb + 33) (eb + 2 + -21)). rewrite (ple_scale k) by lia.
    rewrite <- Z.mul_assoc, <- Z.pow_add_r by lia.
    apply Z.mul_le_mono_nonneg_l; [lia|]. apply Z.pow_le_mono_r; lia. }
  rewrite <- rand_max_1_eq in *.
  assert (Vq : valid (S754_finite false pm pe / rand_max_1)%D) by (apply ddiv_valid; assumption).
  split; [exact Hn|]. split; [exact Vq|]. apply nonneg_finite_ulps in Hn as [Fq _].
  apply (dle_ulps _ _ Vq V2 Fq eq_refl) in Hle.
  etransitivity; [exact Hle|]. cbn [ulps].
  replace (eb + 2 + 1074) with (2 + (eb + 1074)) by lia. rewrite Z.pow_add_r by lia. lia.
Qed.

(** A bounded 32-bit random integer times a positive double. *)
Lemma mul_rand_bound mb eb r :
  2 ^ 52 <= Z.pos mb < 2 ^ 53 -> -1074 <= eb <= 900 -> 0 <= r < 2 ^ 32 ->
  let p := (S754_finite false mb (eb + 1) * d_of_Z r)%D in
  valid p /\ nonneg_finite p /\ dle p (S754_finite false mb (eb + 33)) = true.
Proof.
  intros Hm He Hr p.
  assert (V1 : valid (S754_finite false mb (eb + 1))) by (apply valid_normal; lia).
  assert (V33 : valid (S754_finite false mb (eb + 33))) by (apply valid_normal; lia).
  split; [apply dmul_valid; [exact V1|apply d_of_Z_valid]|]. unfold p.
  destruct (decide (r = 0)) as [->|Hz]; [by split|].
  destruct (d_of_Z_pos_form r ltac:(lia)) as (m & e & E & V & He0 & Hme). rewrite E.
  apply dmul_le; try assumption; try exact I.
  rewrite (ple_scale (eb + 1 + e)) by lia. rewrite Hme, Z.sub_diag, Z.mul_1_r.
  apply Z.mul_le_mono_nonneg_l; [lia|].
  replace (eb + 33 - (eb + 1 + e)) with (32 + - e) by lia. rewrite Z.pow_add_r by lia.
  apply Z.mul_le_mono_nonneg_r; [apply Z.pow_nonneg|]; lia.
Qed.

(** [rand_my(-b,b)] as computed: the range is [-b, 3b], not [-b, b]. *)
Lemma rand_my_sym_bounds `{RngOk G} mb eb B g :
  let b := S754_finite false mb eb in
  2 ^ 52 <= Z.pos mb < 2 ^ 53 -> -1074 <= eb <= 900 ->
  (b - - b)%D = S754_finite false mb (eb + 1) ->
  valid B -> is_finite B = true -> 3 * ulps b <= ulps B ->
  let v := (rand_my_dbl (- b) b g).1 in
  valid v /\ dle (- b)%D v = true /\ dle v B = true.
Proof.
  intros b Hm He Hd VB FB HB. unfold rand_my_dbl.
  pose proof (random32_range g) as Hr. destruct (random32 g) as [r g']. cbn [fst] in *.
  rewrite Hd. destruct (mul_rand_bound mb eb r Hm He Hr) as (Vp & Np & Hp).
  destruct (div_rand_max_bound _ mb eb Vp Np Hm He Hp) as (Nq & Vq & Uq).
  set (q := (S754_finite false mb (eb + 1) * d_of_Z r / rand_max_1)%D) in *.
  destruct (nonneg_finite_ulps q Nq) as [Fq U0].
  assert (Vb : valid b) by (apply valid_normal; lia).
  assert (Vn : valid (dneg b)) by (by apply dneg_valid).
  assert (Ub : ulps b = Z.pos mb * 2 ^ (eb + 1074)) by (cbn [ulps b]; lia).
  assert (Un : ulps (dneg b) = - ulps b) by (cbn [ulps b dneg SFopp negb]; lia).
  split; [by apply dadd_valid|]. split.
  - apply dadd_ge; try assumption; try reflexivity. lia.
  - apply dadd_le; try assumption; try reflexivity. lia.
Qed.

Lemma rand_weight_bounds `{RngOk G} (g : G) :
  let w := (rand_my_int (-1) 1 g).1 in
  valid w /\ dle (- d1)%D w = true /\ dlt w d1 = true.
Proof.
  unfold rand_my_int. destruct (random32 g) as [r g']. cbn [fst].
  change (s32 (1 - -1)) with 2. set (n := u32 (2 * r)).
  assert (Hn : 0 <= n <= 2 ^ 32 - 2) by (unfold n; machine_int).
  destruct (scaled_le n 9007199250546688 (-52)) as (Nq & Vq & Hq); [lia|by vm_compute| |].
  { rewrite (ple_scale (-21)) by lia. change (Z.pos 9007199250546688) with ((2 ^ 32 - 2) * 2 ^ 21).
    cbn [Z.sub]. change (2 ^ (0 - -21)) with (2 ^ 21). change (2 ^ (-52 + 31 - -21)) with 1. lia. }
  destruct (nonneg_finite_ulps _ Nq) as [Fq U0].
  set (q := (d_of_Z n / rand_max_1)%D) in *.
  assert (VB : valid (S754_finite false 9007199250546688 (-52))) by (by vm_compute).
  apply (dle_ulps _ _ Vq VB Fq eq_refl) in Hq.
  assert (Vm : valid (d_of_Z (-1))) by apply d_of_Z_valid.
  split; [by apply dadd_valid|]. split.
  - apply dadd_ge; try assumption; try reflexivity.
    change (ulps (- d1)%D) with (ulps (d_of_Z (-1))). lia.
  - apply (dle_dlt_trans _ (S754_finite false 9007199246352384 (-53))); [|by vm_compute].
    apply dadd_le; try assumption; try reflexivity.
    etransitivity; [apply Z.add_le_mono_r, Hq|]. by vm_compute.
Qed.

(** The initial weights drawn by [rand_my(-1,1)] lie in [-1,1), whatever the
    generator returns: the unsigned product wraps to twice the random number
    modulo 2^32. *)
Theorem rand_weight_range `{RngOk G} (g : G) :
  let w := (rand_my_int (-1) 1 g).1 in
  valid w /\ dle (- d1)%D w = true /\ dlt w d1 = true.
Proof. apply rand_weight_bounds. Qed.

(** The coefficient [(double)random32()/(RAND_MAX+1.0)] of the velocity
    update lies in [0,2): [random32] is 32 bits wide, one more than [RAND_MAX]
    allows for, so the value reaches 1 (see [rand_unit_reaches_1]). *)
Theorem rand_unit_range `{RngOk G} (g : G) :
  let r := (rand_unit g).1 in
  valid r /\ dle d0 r = true /\ dlt r d2 = true.
Proof.
  unfold rand_unit. pose proof (random32_range g) as Hr.
  destruct (random32 g) as [r g']. cbn [fst] in *.
  destruct (scaled_le r 9007199252643840 (-52)) as (Nq & Vq & Hq); [lia|by vm_compute| |].
  { rewrite (ple_scale (-21)) by lia. change (Z.pos 9007199252643840) with ((2 ^ 32 - 1) * 2 ^ 21).
    change (2 ^ (0 - -21)) with (2 ^ 21). change (2 ^ (-52 + 31 - -21)) with 1. lia. }
  destruct (nonneg_finite_ulps _ Nq) as [Fq U0]. split; [exact Vq|]. split.
  - apply dle_ulps; try assumption; reflexivity.
  - eapply dle_dlt_trans; [exact Hq|]. by vm_compute.
Qed.

(** With the top bit of the random number set the velocity coefficient is
    at least 1: the scale is off by a factor of two. *)
Theorem rand_unit_reaches_1 :
  (rand_unit ([2 ^ 31] : script)).1 = d1 /\ dgt (rand_unit ([2 ^ 32 - 1] : script)).1 d1 = true.
Proof. by vm_compute. Qed.

Lemma rand_weight_range_witness :
  let w := (rand_my_int (-1) 1 ([3000000000] : script)).1 in
  valid w /\ dle (- d1)%D w = true /\ dlt w d1 = true.
Proof. apply rand_weight_range. Defined.

Lemma rand_unit_range_witness :
  let r := (rand_unit ([4294967295] : script)).1 in
  valid r /\ dle d0 r = true /\ dlt r d2 = true.
Proof. apply rand_unit_range. Defined.
