(* ===== verification/RbfgradParms.v ===== *)
(** * The scheduler's parameters and marking decision (include/rbfgrad.h)

    [rbfgrad_parms] is the struct the controller, the swarm and the queue
    handlers share.  [rbfgrad_set_parms] initialises it from the netlink request,
    [rbfgrad_cmp_prob]/[rbfgrad_action] decide the fate of a packet.  The calls
    that open and close a floating-point section of the kernel are counted in
    [fpu_depth], the random generator is threaded through in [rng]. *)

From S2P Require Export Rand.

(** ** Constants *)

(** [include/rbfgrad.h:54-54 RBFGRAD_STAB_SIZE] *)
Definition RBFGRAD_STAB_SIZE : nat := 256.
(** [include/rbfgrad.h:58-58 SAM_NUM] *)
Definition SAM_NUM : nat := 10.
(** [include/rbfgrad.h:59-59 UNIT_NUM] *)
Definition UNIT_NUM : nat := 6.
(** [include/rbfgrad.h:60-60 PARTICLE_NUM] *)
Definition PARTICLE_NUM : nat := 90.
(** [include/rbfgrad.h:61-61 MAX_EPOCH] *)
Definition MAX_EPOCH : nat := 10.

(** ** Data *)

#[local] Set Primitive Projections.

(** [include/rbfgrad.h:67-74 rbfgrad_stats] *)
Record rbfgrad_stats := mk_stats {
  prob_drop : Z;
  prob_mark : Z;
  forced_drop : Z;
  forced_mark : Z;
  pdrop : Z;
  other : Z
}.

(** The fields [n] and [m] of the struct are [parms_n] and [parms_m].
    [include/rbfgrad.h:76-155 rbfgrad_parms] *)
Record rbfgrad_parms := mk_parms {
  sampl_period : Z;
  Scell_max : Z;
  Scell_log : Z;
  Stab : list Z;
  q_ref : Z;
  p_init : double;
  p_min : double;
  p_max : double;
  eta_p : double;
  eta_i : double;
  eta_d : double;
  SamNum : Z;
  parms_n : Z;
  parms_m : Z;
  alpha : double;
  eta : double;
  MaxEpoch : Z;
  E0 : double;
  iw1 : double;
  iw2 : double;
  iwe : double;
  ac1 : double;
  ac2 : double;
  mv : double;
  mwav : double;
  ergrd : double;
  ergrdep : double;
  p_k : double;
  p_k_1 : double;
  e_k : Z;
  e_k_1 : Z;
  e_k_2 : Z;
  kp_k : double;
  kp_k_1 : double;
  ki_k : double;
  ki_k_1 : double;
  kd_k : double;
  kd_k_1 : double;
  w_k : list double;
  w_k_1 : list double;
  w_k_2 : list double;
  c_k : list (list double);
  c_k_1 : list (list double);
  c_k_2 : list (list double);
  delta_k : list double;
  delta_k_1 : list double;
  delta_k_2 : list double;
  jacobian : double;
  NetOut : list double;
  w_pso : list (list double);
  pos : list (list double);
  vel : list (list double);
  pbest : list (list double);
  pbestval : list double;
  gbest : list double;
  gbestval : double;
  gbest_index : Z;
  q_k : Z;
  proba : list double;
  queue_len : list Z;
  SamIn : list double;
  SamOut : list double
}.

(** What the code uses of the kernel around its own state: the nesting of
    floating-point sections and the random generator. *)
Record kctx (G : Type) := mk_kctx { fpu_depth : Z; rng : G }.
Global Arguments mk_kctx {G} _ _.
Global Arguments fpu_depth {G} _.
Global Arguments rng {G} _.

#[local] Unset Primitive Projections.

Definition kernel_fpu_begin {G} (k : kctx G) : kctx G := k <| fpu_depth := fpu_depth k + 1 |>.
Definition kernel_fpu_end {G} (k : kctx G) : kctx G := k <| fpu_depth := fpu_depth k - 1 |>.

(** The zeroed private area a new qdisc starts from. *)
Definition zero_parms : rbfgrad_parms :=
  let vs := replicate SAM_NUM d0 in
  let vu := replicate UNIT_NUM d0 in
  let vp := replicate PARTICLE_NUM d0 in
  let mus := replicate UNIT_NUM vs in
  let mpu := replicate PARTICLE_NUM vu in
  mk_parms 0 0 0 (replicate RBFGRAD_STAB_SIZE 0) 0 d0 d0 d0 d0 d0 d0 0 0 0 d0 d0 0 d0
    d0 d0 d0 d0 d0 d0 d0 d0 d0 d0 d0 0 0 0 d0 d0 d0 d0 d0 d0
    vu vu vu mus mus mus vu vu vu d0 vp mpu mpu mpu mpu vp vu d0 0 0
    vs (replicate SAM_NUM 0) vs vs.

(** The dimensions of the arrays of the struct. *)
Record parms_shape (p : rbfgrad_parms) : Prop := {
  sh_Stab : length (Stab p) = RBFGRAD_STAB_SIZE;
  sh_w_k : length (w_k p) = UNIT_NUM;
  sh_w_k_1 : length (w_k_1 p) = UNIT_NUM;
  sh_c_k : shape UNIT_NUM SAM_NUM (c_k p);
  sh_c_k_1 : shape UNIT_NUM SAM_NUM (c_k_1 p);
  sh_delta_k : length (delta_k p) = UNIT_NUM;
  sh_delta_k_1 : length (delta_k_1 p) = UNIT_NUM;
  sh_NetOut : length (NetOut p) = PARTICLE_NUM;
  sh_pos : shape PARTICLE_NUM UNIT_NUM (pos p);
  sh_vel : shape PARTICLE_NUM UNIT_NUM (vel p);
  sh_pbest : shape PARTICLE_NUM UNIT_NUM (pbest p);
  sh_pbestval : length (pbestval p) = PARTICLE_NUM;
  sh_gbest : length (gbest p) = UNIT_NUM;
  sh_proba : length (proba p) = SAM_NUM;
  sh_queue_len : length (queue_len p) = SAM_NUM;
  sh_SamIn : length (SamIn p) = SAM_NUM;
  sh_SamOut : length (SamOut p) = SAM_NUM
}.

(** ** Initialisation *)

Section SetParms.
Context `{Rng G}.

(** The RBF weights, centres and widths.
    [include/rbfgrad.h:200-213 rbfgrad_set_parms] *)
Definition init_rbf (s : rbfgrad_parms * G) : rbfgrad_parms * G :=
  let e_max := d1 in
  let e_min := (- d1)%D in
  for_n UNIT_NUM (fun i '(p, g) =>
    let '(w, g) := rand_my_int (-1) 1 g in
    let p := p <| w_k := <[i := w]> (w_k p) |> in
    let '(w1, g) := rand_my_int (-1) 1 g in
    let p := p <| w_k_1 := <[i := w1]> (w_k_1 p) |> in
    let p := for_n SAM_NUM (fun j p =>
      let p := p <| c_k := upd2 i j d0 (c_k p) |> in
      p <| c_k_1 := upd2 i j
             (e_min + d_of_Z (Z.of_nat i - 1) * (e_max - e_min) *
              d_of_Z (Z.of_nat UNIT_NUM - 1))%D (c_k_1 p) |>) p in
    let p := p <| delta_k := <[i := d_of_Z 40]> (delta_k p) |> in
    let p := p <| delta_k_1 := <[i := d_of_Z 40]> (delta_k_1 p) |> in
    (p, g)) s.

(** The sample history.  [include/rbfgrad.h:215-220 rbfgrad_set_parms] *)
Definition init_history (p : rbfgrad_parms) : rbfgrad_parms :=
  for_n SAM_NUM (fun i p =>
    let p := p <| proba := <[i := p_init p]> (proba p) |> in
    let p := p <| queue_len := <[i := 0]> (queue_len p) |> in
    let p := p <| SamIn := <[i := d0]> (SamIn p) |> in
    p <| SamOut := <[i := d0]> (SamOut p) |>) p.

(** The positions and velocities of the particles; the first particle starts
    at the RBF weights.  [include/rbfgrad.h:239-249 rbfgrad_set_parms] *)
Definition init_swarm (s : rbfgrad_parms * G) : rbfgrad_parms * G :=
  let s := for_n UNIT_NUM (fun j '(p, g) =>
    let p := p <| pos := upd2 0 j (w_k p !!! j) (pos p) |> in
    let '(v, g) := rand_my_dbl (- mv p)%D (mv p) g in
    (p <| vel := upd2 0 j v (vel p) |>, g)) s in
  for_from 1 PARTICLE_NUM (fun i s =>
    for_n UNIT_NUM (fun j '(p, g) =>
      let '(x, g) := rand_my_dbl (- mwav p)%D (mwav p) g in
      let p := p <| pos := upd2 i j x (pos p) |> in
      let '(v, g) := rand_my_dbl (- mv p)%D (mv p) g in
      (p <| vel := upd2 i j v (vel p) |>, g)) s) s.

(** The constants of the swarm.  [include/rbfgrad.h:229-238 rbfgrad_set_parms] *)
Definition init_pso_parms (p : rbfgrad_parms) : rbfgrad_parms :=
  p <| iw1 := dec 9 (-1) |>
    <| iw2 := dec 2 (-1) |>
    <| iwe := (d_of_Z (Z.of_nat MAX_EPOCH) * d_of_Z 3 / d_of_Z 4)%D |>
    <| ac1 := d2 |>
    <| ac2 := d2 |>
    <| mv := dec 1 (-2) |>
    <| mwav := d1 |>
    <| ergrd := dec 1 (-9) |>
    <| ergrdep := (d_of_Z (Z.of_nat MAX_EPOCH) / d_of_Z 20)%D |>.

(** The shift count is taken modulo 32, as the x86 instruction does.
    [include/rbfgrad.h:157-260 rbfgrad_set_parms] *)
Definition rbfgrad_set_parms (p : rbfgrad_parms) (k : kctx G)
    (sampl_period' q_ref' : Z) (p_init' p_min' p_max' kp_k' ki_k' kd_k'
     eta_p' eta_i' eta_d' : double) (n' m' : Z) (alpha' eta' : double)
    (Scell_log' : Z) (stab : list Z) : rbfgrad_parms * kctx G :=
  let p := p <| sampl_period := sampl_period' |>
             <| q_ref := q_ref' |>
             <| p_init := p_init' |>
             <| p_min := p_min' |>
             <| p_max := p_max' |>
             <| eta_p := eta_p' |>
             <| eta_i := eta_i' |>
             <| eta_d := eta_d' |>
             <| SamNum := 10 |>
             <| parms_n := n' |>
             <| parms_m := m' |>
             <| alpha := alpha' |>
             <| eta := eta' |>
             <| MaxEpoch := 1 |>
             <| E0 := dec 1 (-6) |> in
  let k := kernel_fpu_begin k in
  let p := p <| p_k := p_init' |>
             <| e_k := 0 |>
             <| e_k_1 := 0 |>
             <| e_k_2 := 0 |>
             <| kp_k := kp_k' |>
             <| ki_k := ki_k' |>
             <| kd_k := kd_k' |> in
  let '(p, g) := init_rbf (p, rng k) in
  let p := init_history p in
  let p := for_n PARTICLE_NUM (fun i p => p <| NetOut := <[i := d0]> (NetOut p) |>) p in
  let p := p <| e_k := 0 |> <| e_k_1 := 0 |> <| e_k_2 := 0 |> in
  let p := init_pso_parms p in
  let '(p, g) := init_swarm (p, g) in
  let k := k <| rng := g |> in
  let p := p <| gbestval := d0 |> <| gbest_index := 0 |> in
  let k := kernel_fpu_end k in
  let p := p <| Scell_log := Scell_log' |>
             <| Scell_max := u32 (s32 (Z.shiftl 255 (Z.land Scell_log' 31))) |>
             <| Stab := stab |> in
  (p, k).

(** ** The marking decision *)

(** [include/rbfgrad.h:270-273 RBFGRAD_BELOW_PROB] *)
Inductive cmp_result := RBFGRAD_BELOW_PROB | RBFGRAD_ABOVE_PROB.

(** [include/rbfgrad.h:293-296 RBFGRAD_DONT_MARK] *)
Inductive action := RBFGRAD_DONT_MARK | RBFGRAD_PROB_MARK.

(** The values of the enumerators. *)
Definition action_code (a : action) : Z :=
  match a with RBFGRAD_DONT_MARK => 0 | RBFGRAD_PROB_MARK => 1 end.

(** [(int)(p->p_k*RAND_MAX)].  [include/rbfgrad.h:282-282 rbfgrad_cmp_prob] *)
Definition current_p (p : rbfgrad_parms) : Z := d_to_s32 (p_k p * d_of_Z RAND_MAX)%D.

(** [net_random] is [random32]; its 32 bits become an [int] before [abs].
    [include/rbfgrad.h:275-291 rbfgrad_cmp_prob] *)
Definition rbfgrad_cmp_prob (p : rbfgrad_parms) (k : kctx G) : cmp_result * kctx G :=
  let '(r, g) := random32 (rng k) in
  let k := k <| rng := g |> in
  let p_random := c_abs (s32 r) in
  let k := kernel_fpu_begin k in
  let current := current_p p in
  let k := kernel_fpu_end k in
  if p_random <? current then (RBFGRAD_BELOW_PROB, k) else (RBFGRAD_ABOVE_PROB, k).

(** [include/rbfgrad.h:298-310 rbfgrad_action] *)
Definition rbfgrad_action (p : rbfgrad_parms) (k : kctx G) : action * kctx G :=
  let '(c, k) := rbfgrad_cmp_prob p k in
  match c with
  | RBFGRAD_ABOVE_PROB => (RBFGRAD_DONT_MARK, k)
  | RBFGRAD_BELOW_PROB => (RBFGRAD_PROB_MARK, k)
  end.

(** [include/rbfgrad.h:262-265 rbfgrad_restart] *)
Definition rbfgrad_restart (p : rbfgrad_parms) : rbfgrad_parms := p.
End SetParms.

(** ** Properties of the initialisation *)

Create HintDb pshape.

(** One rule per array: writing a cell keeps the shape. *)
Ltac shape_update :=
  intros []; constructor; cbn; rewrite ?length_insert; auto using shape_upd2.

Lemma shape_ins_w_k p i x : parms_shape p -> parms_shape (p <| w_k := <[i := x]> (w_k p) |>).
Proof. shape_update. Qed.
Lemma shape_ins_w_k_1 p i x : parms_shape p -> parms_shape (p <| w_k_1 := <[i := x]> (w_k_1 p) |>).
Proof. shape_update. Qed.
Lemma shape_ins_delta_k p i x : parms_shape p -> parms_shape (p <| delta_k := <[i := x]> (delta_k p) |>).
Proof. shape_update. Qed.
Lemma shape_ins_delta_k_1 p i x : parms_shape p -> parms_shape (p <| delta_k_1 := <[i := x]> (delta_k_1 p) |>).
Proof. shape_update. Qed.
Lemma shape_ins_NetOut p i x : parms_shape p -> parms_shape (p <| NetOut := <[i := x]> (NetOut p) |>).
Proof. shape_update. Qed.
Lemma shape_ins_pbestval p i x : parms_shape p -> parms_shape (p <| pbestval := <[i := x]> (pbestval p) |>).
Proof. shape_update. Qed.
Lemma shape_ins_gbest p i x : parms_shape p -> parms_shape (p <| gbest := <[i := x]> (gbest p) |>).
Proof. shape_update. Qed.
Lemma shape_ins_proba p i x : parms_shape p -> parms_shape (p <| proba := <[i := x]> (proba p) |>).
Proof. shape_update. Qed.
Lemma shape_ins_queue_len p i x : parms_shape p -> parms_shape (p <| queue_len := <[i := x]> (queue_len p) |>).
Proof. shape_update. Qed.
Lemma shape_ins_SamIn p i x : parms_shape p -> parms_shape (p <| SamIn := <[i := x]> (SamIn p) |>).
Proof. shape_update. Qed.
Lemma shape_ins_SamOut p i x : parms_shape p -> parms_shape (p <| SamOut := <[i := x]> (SamOut p) |>).
Proof. shape_update. Qed.
Lemma shape_ins_c_k p i j x : parms_shape p -> parms_shape (p <| c_k := upd2 i j x (c_k p) |>).
Proof. shape_update. Qed.
Lemma shape_ins_c_k_1 p i j x : parms_shape p -> parms_shape (p <| c_k_1 := upd2 i j x (c_k_1 p) |>).
Proof. shape_update. Qed.
Lemma shape_ins_pos p i j x : parms_shape p -> parms_shape (p <| pos := upd2 i j x (pos p) |>).
Proof. shape_update. Qed.
Lemma shape_ins_vel p i j x : parms_shape p -> parms_shape (p <| vel := upd2 i j x (vel p) |>).
Proof. shape_update. Qed.
Lemma shape_ins_pbest p i j x : parms_shape p -> parms_shape (p <| pbest := upd2 i j x (pbest p) |>).
Proof. shape_update. Qed.

#[export] Hint Extern 2 (parms_shape (for_n _ _ _)) => apply for_n_inv; [|intros] : pshape.
#[export] Hint Extern 1 (parms_shape (set_field w_k _ _)) => apply shape_ins_w_k : pshape.
#[export] Hint Extern 1 (parms_shape (set_field w_k_1 _ _)) => apply shape_ins_w_k_1 : pshape.
#[export] Hint Extern 1 (parms_shape (set_field delta_k _ _)) => apply shape_ins_delta_k : pshape.
#[export] Hint Extern 1 (parms_shape (set_field delta_k_1 _ _)) => apply shape_ins_delta_k_1 : pshape.
#[export] Hint Extern 1 (parms_shape (set_field NetOut _ _)) => apply shape_ins_NetOut : pshape.
#[export] Hint Extern 1 (parms_shape (set_field pbestval _ _)) => apply shape_ins_pbestval : pshape.
#[export] Hint Extern 1 (parms_shape (set_field gbest _ _)) => apply shape_ins_gbest : pshape.
#[export] Hint Extern 1 (parms_shape (set_field proba _ _)) => apply shape_ins_proba : pshape.
#[export] Hint Extern 1 (parms_shape (set_field queue_len _ _)) => apply shape_ins_queue_len : pshape.
#[export] Hint Extern 1 (parms_shape (set_field SamIn _ _)) => apply shape_ins_SamIn : pshape.
#[export] Hint Extern 1 (parms_shape (set_field SamOut _ _)) => apply shape_ins_SamOut : pshape.
#[export] Hint Extern 1 (parms_shape (set_field c_k _ _)) => apply shape_ins_c_k : pshape.
#[export] Hint Extern 1 (parms_shape (set_field c_k_1 _ _)) => apply shape_ins_c_k_1 : pshape.
#[export] Hint Extern 1 (parms_shape (set_field pos _ _)) => apply shape_ins_pos : pshape.
#[export] Hint Extern 1 (parms_shape (set_field vel _ _)) => apply shape_ins_vel : pshape.
#[export] Hint Extern 1 (parms_shape (set_field pbest _ _)) => apply shape_ins_pbest : pshape.

Ltac pshape := auto 12 with pshape.

(** Each phase writes only the fields it names: a projection that does not read
    them is unchanged. *)
Ltac frame_tac := intros; reflexivity.

Section InitFacts.
Context `{RngOk G}.
Implicit Types (p : rbfgrad_parms) (g : G) (k : kctx G).

Lemma init_rbf_frame {T} (f : rbfgrad_parms -> T) p g :
  (forall p x, f (p <| w_k := x |>) = f p) -> (forall p x, f (p <| w_k_1 := x |>) = f p) ->
  (forall p x, f (p <| c_k := x |>) = f p) -> (forall p x, f (p <| c_k_1 := x |>) = f p) ->
  (forall p x, f (p <| delta_k := x |>) = f p) ->
  (forall p x, f (p <| delta_k_1 := x |>) = f p) ->
  f (init_rbf (p, g)).1 = f p.
Proof.
  intros H1 H2 H3 H4 H5 H6. unfold init_rbf.
  apply (for_n_frame (fun s => f s.1)). intros i [p' g']. cbv beta iota zeta; cbn [fst snd].
  destruct (rand_my_int (-1) 1 g') as [w g1]. destruct (rand_my_int (-1) 1 g1) as [w1 g2].
  cbv beta iota zeta; cbn [fst snd]. rewrite H6, H5, for_n_frame, H2, H1; [done|].
  intros j p1. by rewrite H4, H3.
Qed.

Lemma init_history_frame {T} (f : rbfgrad_parms -> T) p :
  (forall p x, f (p <| proba := x |>) = f p) -> (forall p x, f (p <| queue_len := x |>) = f p) ->
  (forall p x, f (p <| SamIn := x |>) = f p) -> (forall p x, f (p <| SamOut := x |>) = f p) ->
  f (init_history p) = f p.
Proof.
  intros H1 H2 H3 H4. unfold init_history. apply for_n_frame.
  intros i p'. cbv beta iota zeta; cbn [fst snd]. by rewrite H4, H3, H2, H1.
Qed.

Lemma init_swarm_frame {T} (f : rbfgrad_parms -> T) p g :
  (forall p x, f (p <| pos := x |>) = f p) -> (forall p x, f (p <| vel := x |>) = f p) ->
  f (init_swarm (p, g)).1 = f p.
Proof.
  intros H1 H2. unfold init_swarm.
  rewrite (for_from_frame (fun s => f s.1)).
  - apply (for_n_frame (fun s => f s.1)). intros j [p' g']. cbv beta iota zeta; cbn [fst snd].
    destruct (rand_my_dbl _ _ g') as [v g1]. cbv beta iota zeta; cbn [fst snd]. by rewrite H2, H1.
  - intros i s. apply (for_n_frame (fun s => f s.1)). intros j [p' g']. cbv beta iota zeta; cbn [fst snd].
    destruct (rand_my_dbl _ _ g') as [x g1]. cbv beta iota zeta; cbn [fst snd].
    destruct (rand_my_dbl _ _ g1) as [v g2]. cbv beta iota zeta; cbn [fst snd]. by rewrite H2, H1.
Qed.

Lemma init_rbf_shape p g : parms_shape p -> parms_shape (init_rbf (p, g)).1.
Proof.
  intros Hs. unfold init_rbf. apply (for_n_inv (fun s => parms_shape s.1)); [done|].
  intros i [p' g'] _ Hp. cbn [fst snd] in *; cbv beta iota zeta.
  destruct (rand_my_int (-1) 1 g') as [w g1]. destruct (rand_my_int (-1) 1 g1) as [w1 g2].
  cbv beta iota zeta; cbn [fst snd]. pshape.
Qed.

Lemma init_history_shape p : parms_shape p -> parms_shape (init_history p).
Proof.
  intros Hs. unfold init_history. apply for_n_inv; [done|].
  intros i p' _ Hp. cbv zeta. pshape.
Qed.

Lemma init_pso_parms_shape p : parms_shape p -> parms_shape (init_pso_parms p).
Proof. intros []. by constructor. Qed.

Lemma swarm_cell_shape p i j x v :
  parms_shape p ->
  let p := p <| pos := upd2 i j x (pos p) |> in
  parms_shape (p <| vel := upd2 i j v (vel p) |>).
Proof. intros Hs. cbv zeta. pshape. Qed.

Lemma init_swarm_shape p g : parms_shape p -> parms_shape (init_swarm (p, g)).1.
Proof.
  intros Hs. unfold init_swarm. apply (for_from_inv (fun s => parms_shape s.1)).
  - apply (for_n_inv (fun s => parms_shape s.1)); [done|]. intros j [p' g'] _ Hp.
    destruct (rand_my_dbl _ _ g') as [v g1]. cbn [fst snd] in *. by apply swarm_cell_shape.
  - intros i s _ Hi. apply (for_n_inv (fun s => parms_shape s.1)); [done|].
    intros j [p' g'] _ Hp. destruct (rand_my_dbl _ _ g') as [x g1].
    destruct (rand_my_dbl _ _ g1) as [v g2]. cbn [fst snd] in *. by apply swarm_cell_shape.
Qed.

(** A matrix is filled up to cell [(i,j)], in the order the loops visit it. *)
Definition filled (P : nat -> nat -> double -> Prop) (m : list (list double)) (i j : nat) : Prop :=
  forall i' j', (j' < UNIT_NUM)%nat -> (i' < i \/ i' = i /\ j' < j)%nat -> P i' j' (get2 m i' j').

Lemma filled_upd2 (P : nat -> nat -> double -> Prop) m i j x :
  shape PARTICLE_NUM UNIT_NUM m -> (i < PARTICLE_NUM)%nat -> (j < UNIT_NUM)%nat ->
  filled P m i j -> P i j x -> filled P (upd2 i j x m) i (S j).
Proof.
  intros Hs Hi Hj Hf Hx i' j' Hj' Hlt. destruct (decide (i' = i)) as [->|Hne].
  - destruct (decide (j' = j)) as [->|Hne']; [by erewrite get2_upd2_eq|].
    rewrite get2_upd2_ne_col by done. apply Hf; [done|]. lia.
  - rewrite get2_upd2_ne_row by done. apply Hf; [done|]. lia.
Qed.

Lemma filled_next P m i : filled P m i UNIT_NUM -> filled P m (S i) 0.
Proof. intros Hf i' j' Hj' Hlt. apply Hf; [done|]. lia. Qed.

Definition in_range (lo hi x : double) : Prop :=
  valid x /\ dle lo x = true /\ dle x hi = true.

(** What row [i] of the swarm starts from. *)
Definition pos_init (w : list double) (i j : nat) (x : double) : Prop :=
  if decide (i = 0%nat) then x = w !!! j else in_range (- d1) (d_of_Z 3) x.
Definition vel_init (i j : nat) (x : double) : Prop :=
  in_range (- dec 1 (-2)) (dec 31 (-3)) x.

Definition swarm_inv (p0 : rbfgrad_parms) (i j : nat) (s : rbfgrad_parms * G) : Prop :=
  parms_shape s.1 /\ mv s.1 = dec 1 (-2) /\ mwav s.1 = d1 /\ w_k s.1 = w_k p0 /\
  filled (pos_init (w_k p0)) (pos s.1) i j /\ filled vel_init (vel s.1) i j.

Lemma draw_pos_range g : in_range (- d1) (d_of_Z 3) (rand_my_dbl (- d1) d1 g).1.
Proof.
  apply (rand_my_sym_bounds 4503599627370496 (-52) (d_of_Z 3) g); try (by vm_compute); try lia.
Qed.

Lemma draw_vel_range g : in_range (- dec 1 (-2)) (dec 31 (-3)) (rand_my_dbl (- dec 1 (-2)) (dec 1 (-2)) g).1.
Proof.
  apply (rand_my_sym_bounds 5764607523034235 (-59) (dec 31 (-3)) g); try (by vm_compute); try lia.
Qed.

(** One cell: the position is written first, then the velocity. *)
Lemma swarm_inv_cell p0 p g i j x v g' :
  (i < PARTICLE_NUM)%nat -> (j < UNIT_NUM)%nat ->
  swarm_inv p0 i j (p, g) -> pos_init (w_k p0) i j x -> vel_init i j v ->
  let p := p <| pos := upd2 i j x (pos p) |> in
  swarm_inv p0 i (S j) (p <| vel := upd2 i j v (vel p) |>, g').
Proof.
  intros Hi Hj (Hs & Hmv & Hmw & Hw & Hp & Hv) Hx Hv'. unfold swarm_inv; cbn [fst snd] in *.
  split; [by apply swarm_cell_shape|]. do 3 (split; [done|]).
  split; apply filled_upd2; try done; apply Hs.
Qed.

Lemma init_swarm_ranges p g :
  parms_shape p -> mv p = dec 1 (-2) -> mwav p = d1 ->
  swarm_inv p PARTICLE_NUM 0 (init_swarm (p, g)).
Proof.
  intros Hs Hmv Hmw. unfold init_swarm.
  apply (for_from_ind (fun i => swarm_inv p i 0)); [unfold PARTICLE_NUM; lia| |].
  - assert (swarm_inv p 0 0 (p, g)) as Hst.
    { do 4 (split; [done|]). split; intros i' j' ? ?; exfalso; lia. }
    match goal with |- swarm_inv _ _ _ ?s => assert (swarm_inv p 0 UNIT_NUM s) as HU end.
    { apply (for_n_ind (swarm_inv p 0)); [done|]. intros j [p' g'] Hj HI.
      pose proof HI as (_ & Hmv' & _ & Hw' & _). cbn [fst snd] in *.
      cbv beta iota zeta. pose proof (draw_vel_range g') as Hd.
      change (mv (p' <| pos := upd2 0 j (w_k p' !!! j) (pos p') |>)) with (mv p').
      rewrite Hmv'. destruct (rand_my_dbl _ _ g') as [v g1].
      eapply swarm_inv_cell; [unfold PARTICLE_NUM; lia|exact Hj|exact HI| |exact Hd].
      unfold pos_init. cbn [decide]. by rewrite Hw'. }
    destruct HU as (? & ? & ? & ? & HUp & HUv). do 4 (split; [done|]).
    split; by apply filled_next.
  - intros i s Hi HI.
    match goal with |- swarm_inv _ _ _ ?s => assert (swarm_inv p i UNIT_NUM s) as HU end.
    { apply (for_n_ind (swarm_inv p i)); [done|]. intros j [p' g'] Hj HJ.
      pose proof HJ as (_ & Hmv' & Hmw' & _). cbn [fst snd] in *.
      cbv beta iota zeta. rewrite Hmw'. pose proof (draw_pos_range g') as Hx.
      destruct (rand_my_dbl _ _ g') as [x g1].
      change (mv (p' <| pos := upd2 i j x (pos p') |>)) with (mv p').
      rewrite Hmv'. pose proof (draw_vel_range g1) as Hd.
      destruct (rand_my_dbl _ _ g1) as [v g2].
      eapply swarm_inv_cell; [lia|exact Hj|exact HJ| |exact Hd].
      unfold pos_init. by rewrite decide_False by lia. }
    destruct HU as (? & ? & ? & ? & HUp & HUv). do 4 (split; [done|]).
    split; by apply filled_next.
Qed.

(** The weights drawn for the network. *)
Lemma init_rbf_weights p g :
  parms_shape p -> forall j, (j < UNIT_NUM)%nat ->
  let w := w_k (init_rbf (p, g)).1 !!! j in
  valid w /\ dle (- d1) w = true /\ dlt w d1 = true.
Proof.
  intros Hs. unfold init_rbf.
  apply (for_n_ind (fun i s => length (w_k s.1) = UNIT_NUM /\ forall j, (j < i)%nat ->
    let w := w_k s.1 !!! j in valid w /\ dle (- d1) w = true /\ dlt w d1 = true)).
  - split; [apply Hs|lia].
  - intros i [p' g'] Hi [Hl HI]. cbv beta iota zeta. cbn [fst snd] in *.
    pose proof (rand_weight_bounds g') as Hw.
    destruct (rand_my_int (-1) 1 g') as [w g1]. destruct (rand_my_int (-1) 1 g1) as [w1 g2].
    cbv beta iota zeta; cbn [fst snd].
    assert (forall p x y, w_k (p <| delta_k := x |> <| delta_k_1 := y |>) = w_k p) as -> by done.
    rewrite (for_n_frame w_k) by (intros; reflexivity).
    assert (forall p x y, w_k (p <| w_k := x |> <| w_k_1 := y |>) = x) as -> by done.
    split; [by rewrite <- Hl; apply length_insert|]. intros j Hj.
    destruct (decide (j = i)) as [->|Hne].
    + rewrite list_lookup_total_insert_eq by (rewrite Hl; exact Hi). exact Hw.
    + rewrite list_lookup_total_insert_ne by done. apply HI. lia.
Qed.

(** What the history holds after the reset. *)
Lemma init_history_fill p :
  parms_shape p ->
  proba (init_history p) = replicate SAM_NUM (p_init p) /\
  queue_len (init_history p) = replicate SAM_NUM 0 /\
  SamIn (init_history p) = replicate SAM_NUM d0 /\
  SamOut (init_history p) = replicate SAM_NUM d0.
Proof.
  intros Hs. unfold init_history. repeat split.
  - rewrite <- (sh_proba _ Hs).
    assert (forall n, (p_init (for_n n (fun i p =>
      p <| proba := <[i:=p_init p]> (proba p) |> <| queue_len := <[i:=0]> (queue_len p) |>
        <| SamIn := <[i:=d0]> (SamIn p) |> <| SamOut := <[i:=d0]> (SamOut p) |>) p) = p_init p)) as Hi
      by (intros; by apply for_n_frame).
    rewrite <- for_n_fill. 
    assert (forall n, proba (for_n n (fun i p =>
      p <| proba := <[i:=p_init p]> (proba p) |> <| queue_len := <[i:=0]> (queue_len p) |>
        <| SamIn := <[i:=d0]> (SamIn p) |> <| SamOut := <[i:=d0]> (SamOut p) |>) p)
      = for_n n (fun i l => <[i:=p_init p]> l) (proba p)) as Hp.
    { induction n as [|n IH]; [done|]. rewrite !for_n_S, <- IH. cbn [proba set_field].
      by rewrite <- (Hi n). }
    exact (Hp _).
  - rewrite <- (sh_queue_len _ Hs) at 2. rewrite <- for_n_fill, (sh_queue_len _ Hs).
    by apply (for_n_proj queue_len).
  - rewrite <- (sh_SamIn _ Hs) at 2. rewrite <- for_n_fill, (sh_SamIn _ Hs).
    by apply (for_n_proj SamIn).
  - rewrite <- (sh_SamOut _ Hs) at 2. rewrite <- for_n_fill, (sh_SamOut _ Hs).
    by apply (for_n_proj SamOut).
Qed.
End InitFacts.

(** ** What a configuration request leaves behind *)

Section Configured.
Context `{RngOk G}.
Variables (sp qr : Z) (pi pmi pma kp ki kd ep ei ed : double) (n m : Z) (al et : double).
Variables (cell : Z) (stab : list Z).

Let configure (p : rbfgrad_parms) (k : kctx G) : rbfgrad_parms * kctx G :=
  rbfgrad_set_parms p k sp qr pi pmi pma kp ki kd ep ei ed n m al et cell stab.

(** The state before the arrays are filled. *)
Let scalars (p : rbfgrad_parms) : rbfgrad_parms :=
  p <| sampl_period := sp |> <| q_ref := qr |> <| p_init := pi |> <| p_min := pmi |>
    <| p_max := pma |> <| eta_p := ep |> <| eta_i := ei |> <| eta_d := ed |> <| SamNum := 10 |>
    <| parms_n := n |> <| parms_m := m |> <| alpha := al |> <| eta := et |> <| MaxEpoch := 1 |>
    <| E0 := dec 1 (-6) |> <| p_k := pi |> <| e_k := 0 |> <| e_k_1 := 0 |> <| e_k_2 := 0 |>
    <| kp_k := kp |> <| ki_k := ki |> <| kd_k := kd |>.

Let middle (p : rbfgrad_parms) : rbfgrad_parms :=
  let p := init_history p in
  let p := for_n PARTICLE_NUM (fun i p => p <| NetOut := <[i := d0]> (NetOut p) |>) p in
  init_pso_parms (p <| e_k := 0 |> <| e_k_1 := 0 |> <| e_k_2 := 0 |>).

Lemma configure_stages p k :
  let s1 := init_rbf (scalars p, rng k) in
  let s3 := init_swarm (middle s1.1, s1.2) in
  configure p k =
  (s3.1 <| gbestval := d0 |> <| gbest_index := 0 |> <| Scell_log := cell |>
     <| Scell_max := u32 (s32 (Z.shiftl 255 (Z.land cell 31))) |> <| Stab := stab |>,
   kernel_fpu_end (kernel_fpu_begin k <| rng := s3.2 |>)).
Proof.
  unfold configure, rbfgrad_set_parms. cbv beta iota zeta.
  change (rng (kernel_fpu_begin k)) with (rng k).
  fold (scalars p). unfold middle; cbv zeta.
  destruct (init_rbf (scalars p, rng k)) as [p1 g1]. cbn [fst snd].
  destruct (init_swarm _) as [p3 g3]. reflexivity.
Qed.

(** A field no loop writes: it is what the assignments before the loops made
    it, or what it was. *)
Ltac skip_swarm f :=
  rewrite configure_stages; cbv zeta; cbn [fst snd];
  match goal with |- context [init_swarm ?s] =>
    transitivity (f (init_swarm s).1);
    [reflexivity|etransitivity; [apply (init_swarm_frame f); intros; reflexivity|]]
  end.

Ltac skip_history f :=
  unfold middle; cbv zeta;
  match goal with |- context [for_n PARTICLE_NUM ?b ?h] =>
    transitivity (f (for_n PARTICLE_NUM b h));
    [reflexivity
    |etransitivity; [apply (for_n_frame f); intros; reflexivity|]]
  end.

Ltac configured_field f :=
  skip_swarm f; skip_history f;
  etransitivity; [apply (init_history_frame f); intros; reflexivity|];
  etransitivity; [apply (init_rbf_frame f); intros; reflexivity|]; reflexivity.

Lemma scalars_shape p : parms_shape p -> parms_shape (scalars p).
Proof. intros []. by constructor. Qed.

Lemma middle_shape p : parms_shape p -> parms_shape (middle p).
Proof.
  intros Hs. unfold middle. cbv zeta. apply init_pso_parms_shape.
  assert (forall p, parms_shape p -> parms_shape (p <| e_k := 0 |> <| e_k_1 := 0 |> <| e_k_2 := 0 |>))
    as He by (intros ? []; by constructor).
  apply He. apply for_n_inv; [by apply init_history_shape|]. intros; pshape.
Qed.

Lemma configured_shape p k :
  parms_shape p -> length stab = RBFGRAD_STAB_SIZE ->
  parms_shape (rbfgrad_set_parms p k sp qr pi pmi pma kp ki kd ep ei ed n m al et cell stab).1.
Proof.
  intros Hs Hst. fold (configure p k). rewrite configure_stages. cbv zeta. cbn [fst snd].
  match goal with |- context [init_swarm ?s] =>
    assert (parms_shape (init_swarm s).1) as [] by
      (apply init_swarm_shape, middle_shape, init_rbf_shape, scalars_shape, Hs) end.
  by constructor.
Qed.

Lemma configured_constants p k :
  let '(p', k') := rbfgrad_set_parms p k sp qr pi pmi pma kp ki kd ep ei ed n m al et cell stab in
  mv p' = dec 1 (-2) /\ gbest_index p' = 0 /\ p_k p' = p_init p' /\ fpu_depth k' = fpu_depth k.
Proof.
  fold (configure p k). destruct (configure p k) as [p' k'] eqn:E.
  assert (p' = (configure p k).1) as -> by (by rewrite E).
  assert (k' = (configure p k).2) as -> by (by rewrite E). clear E.
  split; [skip_swarm mv; reflexivity|]. split; [by rewrite configure_stages|].
  split.
  - transitivity pi; [configured_field p_k|symmetry; configured_field p_init].
  - rewrite configure_stages. cbv zeta. cbn [fst snd].
    change (fpu_depth k + 1 - 1 = fpu_depth k). lia.
Qed.

(** The fields a request sets and nothing else writes. *)
Lemma configured_request p k :
  let p' := (rbfgrad_set_parms p k sp qr pi pmi pma kp ki kd ep ei ed n m al et cell stab).1 in
  (q_ref p', p_max p', kp_k p', ki_k p', kd_k p', eta_p p', eta_i p', eta_d p', parms_n p',
   parms_m p', alpha p', eta p', sampl_period p') =
  (qr, pma, kp, ki, kd, ep, ei, ed, n, m, al, et, sp).
Proof.
  fold (configure p k). cbv zeta.
  configured_field (fun p' => (q_ref p', p_max p', kp_k p', ki_k p', kd_k p', eta_p p', eta_i p',
    eta_d p', parms_n p', parms_m p', alpha p', eta p', sampl_period p')).
Qed.


(** After a configuration request the controller is at its initial state:
    the probability is [p_init], the three errors are 0, the gains are those
    requested, the history holds [p_init] and zeros, the swarm's best is reset,
    and the floating-point section is closed again. *)
Theorem set_parms_initial p k :
  parms_shape p ->
  let '(p', k') := rbfgrad_set_parms p k sp qr pi pmi pma kp ki kd ep ei ed n m al et cell stab in
  p_k p' = pi /\ (p_min p', p_max p', q_ref p') = (pmi, pma, qr) /\
  (e_k p', e_k_1 p', e_k_2 p') = (0, 0, 0) /\ (kp_k p', ki_k p', kd_k p') = (kp, ki, kd) /\
  proba p' = replicate SAM_NUM pi /\ queue_len p' = replicate SAM_NUM 0 /\
  gbest_index p' = 0 /\ gbestval p' = d0 /\ fpu_depth k' = fpu_depth k.
Proof.
  intros Hs. fold (configure p k).
  destruct (configure p k) as [p' k'] eqn:E.
  assert (p' = (configure p k).1) as -> by (by rewrite E).
  assert (k' = (configure p k).2) as -> by (by rewrite E). clear E.
  pose proof (init_history_fill _ (init_rbf_shape _ (rng k) (scalars_shape _ Hs))) as (Hp & Hq & _).
  split; [configured_field p_k|].
  split; [configured_field (fun p => (p_min p, p_max p, q_ref p))|].
  split; [skip_swarm (fun p => (e_k p, e_k_1 p, e_k_2 p)); reflexivity|].
  split; [configured_field (fun p => (kp_k p, ki_k p, kd_k p))|].
  split.
  { skip_swarm proba. skip_history proba. etransitivity; [exact Hp|]. f_equal.
    etransitivity; [apply (init_rbf_frame p_init); intros; reflexivity|]. reflexivity. }
  split; [skip_swarm queue_len; skip_history queue_len; exact Hq|].
  rewrite configure_stages. cbv zeta. cbn [fst snd]. split; [done|]. split; [done|].
  change (fpu_depth k + 1 - 1 = fpu_depth k). lia.
Qed.


(** The comment announces that the variables recording earlier steps are
    initialised, "the last drop probability" and the last gains among them; the
    code leaves those, and the swarm's personal bests, as they were. *)
Theorem set_parms_stale p k :
  let p' := (rbfgrad_set_parms p k sp qr pi pmi pma kp ki kd ep ei ed n m al et cell stab).1 in
  p_k_1 p' = p_k_1 p /\ (kp_k_1 p', ki_k_1 p', kd_k_1 p') = (kp_k_1 p, ki_k_1 p, kd_k_1 p) /\
  pbest p' = pbest p /\ pbestval p' = pbestval p /\ gbest p' = gbest p /\
  jacobian p' = jacobian p.
Proof.
  fold (configure p k). cbv zeta.
  split; [configured_field p_k_1|].
  split; [configured_field (fun p => (kp_k_1 p, ki_k_1 p, kd_k_1 p))|].
  split; [configured_field pbest|]. split; [configured_field pbestval|].
  split; [configured_field gbest|configured_field jacobian].
Qed.
End Configured.

(** ** What the marking decision decides *)

Definition p_random_of (r : Z) : Z := c_abs (s32 r).

Lemma p_random_range r :
  0 <= r < 2 ^ 32 -> r <> 2 ^ 31 -> 0 <= p_random_of r <= RAND_MAX.
Proof.
  intros Hr Hne. unfold p_random_of, c_abs, RAND_MAX.
  destruct (s32 r <? 0) eqn:E; [apply Z.ltb_lt in E|apply Z.ltb_ge in E]; machine_int.
Qed.

Lemma p_random_int_min : p_random_of (2 ^ 31) = INT_MIN.
Proof. reflexivity. Qed.

Lemma in_unit_nonneg x : dle d0 x = true -> dle x d1 = true -> nonneg_finite x.
Proof. by destruct x as [[]|[]| |[] m e]. Qed.

Definition rand_max_d : double := Eval vm_compute in d_of_Z RAND_MAX.

(** A probability in the unit interval never overflows the conversion. *)
Lemma current_p_range p :
  valid (p_k p) -> dle d0 (p_k p) = true -> dle (p_k p) d1 = true ->
  0 <= current_p p <= RAND_MAX.
Proof.
  intros V H0 H1. pose proof (in_unit_nonneg _ H0 H1) as Hn. unfold current_p.
  change (d_of_Z RAND_MAX) with rand_max_d.
  assert (VR : valid rand_max_d) by (by vm_compute).
  destruct (dmul_le (p_k p) rand_max_d rand_max_d V VR VR Hn I) as (Hz & Hle).
  { unfold rand_max_d. destruct (p_k p) as [s|s| |[] m e]; try exact I; try contradiction.
    apply (dle_pos m e 4503599627370496 (-52)) in H1; [|exact V|by vm_compute].
    set (c := Z.min e (-52)). rewrite (ple_scale c) in H1 by lia.
    rewrite (ple_scale (c - 22)) by lia.
    replace (e + -22 - (c - 22)) with (e - c) by lia.
    replace (-22 - (c - 22)) with ((-52 - c) + 52) by lia.
    rewrite Z.pow_add_r by lia. change (2 ^ 52) with 4503599627370496. nia. }
  pose proof (dmul_valid _ _ V VR) as Vz.
  destruct (d_trunc_le _ rand_max_d _ _ Hz Vz eq_refl VR Hle) as (z & zb & Ez & Eb & Hb).
  vm_compute in Eb. injection Eb as <-. unfold d_to_s32. rewrite Ez.
  unfold RAND_MAX in *.
  rewrite (proj2 (Z.leb_le (- 2 ^ 31) z)), (proj2 (Z.ltb_lt z (2 ^ 31))) by lia. simpl. lia.
Qed.

Section Marking.
Context `{RngOk G}.

(** The decision as a comparison of the random magnitude with the threshold. *)
Lemma rbfgrad_action_eq p (k : kctx G) :
  let r := (random32 (rng k)).1 in
  rbfgrad_action p k =
  (if p_random_of r <? current_p p then RBFGRAD_PROB_MARK else RBFGRAD_DONT_MARK,
   mk_kctx (fpu_depth k + 1 - 1) (random32 (rng k)).2).
Proof.
  cbv zeta. unfold rbfgrad_action, rbfgrad_cmp_prob, p_random_of.
  destruct (random32 (rng k)) as [r g]. cbn [fst snd]. cbv zeta.
  by destruct (_ <? _).
Qed.

(** C14: With a probability in [0,1] the conversion to [int] never overflows and
    a packet is marked exactly when the magnitude of the random number is below
    the threshold, one number being drawn and the floating-point section being
    closed again; the one exception is the random number 2^31, whose [abs]
    stays negative: it marks every packet. *)
Theorem mark_decision (p : rbfgrad_parms) (k : kctx G) :
  valid (p_k p) -> dle d0 (p_k p) = true -> dle (p_k p) d1 = true ->
  let r := (random32 (rng k)).1 in
  let '(a, k') := rbfgrad_action p k in
  0 <= current_p p <= RAND_MAX /\
  (a = RBFGRAD_PROB_MARK <-> r = 2 ^ 31 \/ Z.abs (s32 r) < current_p p) /\
  k' = mk_kctx (fpu_depth k) (random32 (rng k)).2.
Proof.
  intros V Hp0 Hp1. cbv zeta. rewrite rbfgrad_action_eq. cbv zeta.
  pose proof (current_p_range p V Hp0 Hp1) as Hc. split; [exact Hc|]. split; [|f_equal; lia].
  pose proof (random32_range (rng k)) as Hr. set (r := (random32 (rng k)).1) in *.
  destruct (decide (r = 2 ^ 31)) as [E|E].
  - rewrite E. change (p_random_of (2 ^ 31)) with INT_MIN.
    rewrite (proj2 (Z.ltb_lt INT_MIN (current_p p))) by (unfold INT_MIN; lia). intuition.
  - assert (p_random_of r = Z.abs (s32 r)) as ->.
    { unfold p_random_of, c_abs. destruct (Z.ltb_spec (s32 r) 0); machine_int. }
    destruct (Z.ltb_spec (Z.abs (s32 r)) (current_p p)); [intuition|].
    split; [discriminate|]. intros [?|?]; [done|lia].
Qed.

(** The boundary probabilities.  At 0 no packet is marked, except on the
    random number 2^31; at 1 every packet is marked except on the two numbers of
    magnitude [RAND_MAX]; a NaN probability never marks. *)
Theorem mark_boundaries (p : rbfgrad_parms) (k : kctx G) :
  let r := (random32 (rng k)).1 in
  (p_k p = d0 -> ((rbfgrad_action p k).1 = RBFGRAD_PROB_MARK <-> r = 2 ^ 31)) /\
  (p_k p = d1 -> ((rbfgrad_action p k).1 = RBFGRAD_DONT_MARK <-> r = 2 ^ 31 - 1 \/ r = 2 ^ 31 + 1)) /\
  (p_k p = S754_nan -> (rbfgrad_action p k).1 = RBFGRAD_DONT_MARK).
Proof.
  cbv zeta. rewrite rbfgrad_action_eq. cbv zeta. cbn [fst].
  pose proof (random32_range (rng k)) as Hr. set (r := (random32 (rng k)).1) in *.
  assert (current_p p = match p_k p with S754_zero _ => 0 | S754_nan => INT_MIN
                        | _ => current_p p end) as Hc
    by (unfold current_p; destruct (p_k p) as [[]|?| |? ? ?]; reflexivity).
  split; [|split]; intros E.
  - rewrite E in Hc. simpl in Hc. rewrite Hc. destruct (decide (r = 2 ^ 31)) as [->|Hne]; [done|].
    pose proof (p_random_range r Hr Hne) as Hp. destruct (Z.ltb_spec (p_random_of r) 0); [lia|].
    split; [discriminate|done].
  - assert (current_p p = RAND_MAX) as -> by (unfold current_p; by rewrite E).
    unfold p_random_of, c_abs, RAND_MAX.
    destruct (Z.ltb_spec (s32 r) 0);
      (match goal with |- context [?a <? ?b] => destruct (Z.ltb_spec a b) end);
      (split; [try discriminate; intros _|try done; intros; exfalso]); machine_int.
  - rewrite E in Hc. simpl in Hc. rewrite Hc. destruct (decide (r = 2 ^ 31)) as [->|Hne]; [done|].
    pose proof (p_random_range r Hr Hne) as Hp.
    destruct (Z.ltb_spec (p_random_of r) INT_MIN); [unfold INT_MIN in *; lia|done].
Qed.
End Marking.

(** ** Concrete instances *)

Lemma zero_parms_shape : parms_shape zero_parms.
Proof. constructor; try reflexivity; apply shape_replicate. Qed.

Definition idle_kernel : kctx script := mk_kctx 0 [].


Lemma set_parms_initial_witness :
  parms_shape zero_parms /\
  let '(p', k') := rbfgrad_set_parms zero_parms idle_kernel 10 300 d0 d0 d1 d1 d0 d0
    d1 d1 d1 10 6 d0 d0 4 [] in
  p_k p' = d0 /\ (p_min p', p_max p', q_ref p') = (d0, d1, 300) /\
  (e_k p', e_k_1 p', e_k_2 p') = (0, 0, 0) /\ (kp_k p', ki_k p', kd_k p') = (d1, d0, d0) /\
  proba p' = replicate SAM_NUM d0 /\ queue_len p' = replicate SAM_NUM 0 /\
  gbest_index p' = 0 /\ gbestval p' = d0 /\ fpu_depth k' = 0.
Proof. split; [exact zero_parms_shape|]. apply set_parms_initial, zero_parms_shape. Defined.


Lemma mark_decision_witness :
  let p := zero_parms <| p_k := dec 5 (-1) |> in
  (valid (p_k p) /\ dle d0 (p_k p) = true /\ dle (p_k p) d1 = true) /\
  let r := (random32 ([5] : script)).1 in
  let '(a, k') := rbfgrad_action p (mk_kctx 0 ([5] : script)) in
  0 <= current_p p <= RAND_MAX /\
  (a = RBFGRAD_PROB_MARK <-> r = 2 ^ 31 \/ Z.abs (s32 r) < current_p p) /\
  k' = mk_kctx 0 (random32 ([5] : script)).2.
Proof.
  split; [by vm_compute|].
  apply (mark_decision (zero_parms <| p_k := dec 5 (-1) |>) (mk_kctx 0 ([5] : script)));
    by vm_compute.
Defined.

Lemma mark_boundaries_witness :
  (rbfgrad_action zero_parms (mk_kctx 0 ([2 ^ 31] : script))).1 = RBFGRAD_PROB_MARK.
Proof.
  apply (proj1 (mark_boundaries zero_parms (mk_kctx 0 ([2 ^ 31] : script)))); reflexivity.
Defined.
