(* ===== verification/RbfNet.v ===== *)
(** * The RBF identifier (get_rbf_SSE of modules/sch_rbfgrad.c)

    The network predicts the normalised queue length from the sample history;
    the particles of the swarm are candidate weight vectors.  [get_rbf_SSE] is
    the code, which accumulates the output in the cell [NetOut[which]];
    [sse_of] is the specification, a pure function of the weights. *)

From S2P Require Export RbfgradParms Exp.

(** The literal [6500.00] the queue lengths are divided by. *)
Definition queue_scale : double := Eval vm_compute in d_of_Z 6500.

(** The squared distance of the sample to a centre.
    [modules/sch_rbfgrad.c:437-439 get_rbf_SSE] *)
Definition rbf_dist (x c : list double) : double :=
  for_n SAM_NUM (fun j s => s + (x !!! j - c !!! j) * (x !!! j - c !!! j))%D d0.

(** A hidden unit.  [modules/sch_rbfgrad.c:440-440 get_rbf_SSE] *)
Definition rbf_unit (x c : list double) (delta : double) : double :=
  exp (- rbf_dist x c / (d2 * delta * delta))%D.

(** The error of the particle [which] on the current sample; its output is left
    in [NetOut].  [modules/sch_rbfgrad.c:425-453 get_rbf_SSE] *)
Definition get_rbf_SSE (p : rbfgrad_parms) (which : nat) : double * rbfgrad_parms :=
  let w := pos p !!! which in
  let p := p <| NetOut := <[which := d0]> (NetOut p) |> in
  let p := for_n UNIT_NUM (fun i p =>
    let r := rbf_unit (SamIn p) (c_k p !!! i) (delta_k p !!! i) in
    p <| NetOut := <[which := (NetOut p !!! which + w !!! i * r)%D]> (NetOut p) |>) p in
  let y := (d_of_Z (queue_len p !!! 0%nat) / queue_scale)%D in
  (((y - NetOut p !!! which) * (y - NetOut p !!! which) / d2)%D, p).

(** ** Specification *)

(** What the network is evaluated on. *)
Record net := mk_net { net_x : list double; net_c : list (list double); net_d : list double; net_y : Z }.

Definition net_of (p : rbfgrad_parms) : net :=
  mk_net (SamIn p) (c_k p) (delta_k p) (queue_len p !!! 0%nat).

(** The weighted sum of the hidden units. *)
Definition net_out (n : net) (w : list double) : double :=
  for_n UNIT_NUM (fun i a =>
    a + w !!! i * rbf_unit (net_x n) (net_c n !!! i) (net_d n !!! i))%D d0.

(** Half the squared error of the normalised queue length. *)
Definition sse_of (n : net) (w : list double) : double :=
  let e := (d_of_Z (net_y n) / queue_scale - net_out n w)%D in (e * e / d2)%D.

(** ** The code computes the specification *)

Lemma get_rbf_SSE_eq p which :
  (which < length (NetOut p))%nat ->
  get_rbf_SSE p which =
  (sse_of (net_of p) (pos p !!! which),
   p <| NetOut := <[which := net_out (net_of p) (pos p !!! which)]> (NetOut p) |>).
Proof.
  intros Hw. unfold get_rbf_SSE, sse_of. cbv zeta.
  set (w := pos p !!! which).
  assert (forall n,
    for_n n (fun i p =>
      p <| NetOut := <[which := (NetOut p !!! which + w !!! i *
             rbf_unit (SamIn p) (c_k p !!! i) (delta_k p !!! i))%D]> (NetOut p) |>)
      (p <| NetOut := <[which := d0]> (NetOut p) |>) =
    p <| NetOut := <[which := for_n n (fun i a =>
           a + w !!! i * rbf_unit (SamIn p) (c_k p !!! i) (delta_k p !!! i))%D d0]> (NetOut p) |>) as Hn.
  { induction n as [|n IH]; [done|]. rewrite !for_n_S, IH.
    set (a := for_n n _ d0).
    change (p <| NetOut := <[which := ((<[which := a]> (NetOut p)) !!! which + w !!! n *
      rbf_unit (SamIn p) (c_k p !!! n) (delta_k p !!! n))%D]> (<[which := a]> (NetOut p)) |> =
      p <| NetOut := <[which := (a + w !!! n *
      rbf_unit (SamIn p) (c_k p !!! n) (delta_k p !!! n))%D]> (NetOut p) |>).
    by rewrite list_lookup_total_insert_eq, list_insert_insert_eq by done. }
  rewrite Hn. change (net_y (net_of p)) with (queue_len p !!! 0%nat).
  unfold net_out. change (net_x (net_of p)) with (SamIn p).
  change (net_c (net_of p)) with (c_k p). change (net_d (net_of p)) with (delta_k p).
  set (out := for_n UNIT_NUM _ d0).
  change (queue_len (p <| NetOut := _ |>)) with (queue_len p).
  change (NetOut (p <| NetOut := ?x |>)) with x.
  by rewrite list_lookup_total_insert_eq.
Qed.

(** ** The error is never negative *)

(** Not below zero: a NaN, or at least 0. *)
Definition nn (x : double) : Prop := is_nan x = true \/ dle d0 x = true.

Lemma round_aux_nn m e l : nn (binary_round_aux prec emax false m e l).
Proof.
  unfold binary_round_aux, nn.
  destruct (shr_fexp prec emax m e l) as [r1 e1].
  destruct (shr_fexp prec emax _ e1 loc_Exact) as [r2 e2].
  destruct (shr_m r2) as [|q|q]; [by right| |by left].
  destruct (e2 <=? emax - prec); by right.
Qed.

Lemma square_nn x : nn (x * x)%D.
Proof.
  destruct x as [[]|[]| |s m e]; try (by left); try (by right).
  unfold dmul, SFmul. rewrite xorb_nilpotent. apply round_aux_nn.
Qed.

Lemma half_nn x : nn x -> nn (x / d2)%D.
Proof.
  unfold nn. destruct x as [[]|[]| |[] m e]; intros [H|H]; try discriminate H;
    try (by left); try (by right).
  - unfold ddiv, SFdiv. cbn [d2 xorb].
    destruct (SFdiv_core_binary prec emax (Z.pos m) e _ _) as [[q e'] l]. apply round_aux_nn.
Qed.

(** ** The network as folds over lists *)

(** The squared distance of two vectors. *)
Definition sq_dist (x c : list double) : double :=
  foldl (fun s '(a, b) => s + (a - b) * (a - b))%D d0 (zip x c).

(** A Gaussian bell of width [delta] around [c]. *)
Definition gaussian (x c : list double) (delta : double) : double :=
  exp (- sq_dist x c / (d2 * delta * delta))%D.

(** The response of the network: the Gaussians weighted and summed. *)
Definition response (x : list double) (units : list (list double * double)) (w : list double) : double :=
  foldl (fun a '(wi, (c, delta)) => a + wi * gaussian x c delta)%D d0 (zip w units).

(** Half the squared difference between a target and the response. *)
Definition half_sq_error (y : double) (p : rbfgrad_parms) (w : list double) : double :=
  let e := (y - response (SamIn p) (zip (c_k p) (delta_k p)) w)%D in (e * e / d2)%D.

Lemma sq_dist_eq x c :
  length x = SAM_NUM -> length c = SAM_NUM -> rbf_dist x c = sq_dist x c.
Proof.
  intros Hx Hc. unfold rbf_dist, sq_dist.
  rewrite <- (for_n_foldl _ (zip x c) SAM_NUM) by (rewrite length_zip; lia).
  apply for_n_ext. intros j s Hj. by rewrite lookup_total_zip by lia.
Qed.

Lemma net_out_response p w :
  parms_shape p -> length w = UNIT_NUM ->
  net_out (net_of p) w = response (SamIn p) (zip (c_k p) (delta_k p)) w.
Proof.
  intros Hs Hw. destruct (sh_c_k _ Hs) as [Hc _]. pose proof (sh_delta_k _ Hs) as Hd.
  unfold net_out, response.
  rewrite <- (for_n_foldl _ (zip w _) UNIT_NUM) by (rewrite !length_zip; lia).
  apply for_n_ext. intros i a Hi. rewrite !lookup_total_zip by (rewrite ?length_zip; lia).
  unfold rbf_unit, gaussian. cbn [net_of net_x net_c net_d].
  rewrite sq_dist_eq; [done|apply (sh_SamIn _ Hs)|].
  eapply shape_row; [apply (sh_c_k _ Hs)|lia].
Qed.

(** C8: [get_rbf_SSE] returns half the squared distance between the normalised
    queue length and the response of a radial basis function network, the sum of
    Gaussians weighted by the particle's position, written as folds over the
    arrays; its only effect is to leave that output in [NetOut[which]]; and the
    error is never negative (a NaN, or at least 0). *)
Theorem get_rbf_SSE_spec (p : rbfgrad_parms) (which : nat) :
  parms_shape p -> (which < PARTICLE_NUM)%nat ->
  let w := pos p !!! which in
  let y := (d_of_Z (queue_len p !!! 0%nat) / queue_scale)%D in
  get_rbf_SSE p which =
    (half_sq_error y p w,
     p <| NetOut := <[which := response (SamIn p) (zip (c_k p) (delta_k p)) w]> (NetOut p) |>) /\
  (is_nan (half_sq_error y p w) = true \/ dle d0 (half_sq_error y p w) = true).
Proof.
  intros Hs Hw. cbv zeta. assert (length (pos p !!! which) = UNIT_NUM) as Hlen
    by (eapply shape_row; [apply (sh_pos _ Hs)|done]).
  split; [|apply half_nn, square_nn].
  rewrite get_rbf_SSE_eq by (by rewrite (sh_NetOut _ Hs)).
  unfold sse_of, half_sq_error. by rewrite net_out_response.
Qed.

Lemma get_rbf_SSE_spec_witness :
  parms_shape zero_parms /\ (5 < PARTICLE_NUM)%nat /\
  (get_rbf_SSE zero_parms 5).1 = half_sq_error d0 zero_parms (replicate UNIT_NUM d0).
Proof.
  split; [exact zero_parms_shape|]. split; [unfold PARTICLE_NUM; lia|].
  destruct (get_rbf_SSE_spec zero_parms 5 zero_parms_shape) as [E _]; [unfold PARTICLE_NUM; lia|].
  rewrite E. reflexivity.
Defined.

Global Arguments sse_of : simpl never.
Global Arguments net_out : simpl never.
