(* ===== verification/Gapso.v ===== *)
(** * The particle swarm (rbfgrad_mark_probability, first part)

    Each control period trains the network: the positions of the particles are
    candidate weight vectors, [pbest]/[pbestval] the best vector each particle
    has visited and its error, [gbest]/[gbestval] the best of those.  The locals
    of the C function that survive an iteration are threaded explicitly: the
    index of the best particle and the random generator. *)

From S2P Require Export RbfNet.

(** ** Before the loop *)

(** The sample: five probabilities, then five normalised queue lengths.
    [modules/sch_rbfgrad.c:511-526 rbfgrad_mark_probability] *)
Definition load_sample (p : rbfgrad_parms) : rbfgrad_parms :=
  let p := p <| jacobian := d0 |> in
  let queue := for_n SAM_NUM (fun i q =>
    <[i := (d_of_Z (queue_len p !!! i) / queue_scale)%D]> q) (replicate SAM_NUM d0) in
  for_n SAM_NUM (fun i p =>
    if decide (i < SAM_NUM / 2)%nat
    then p <| SamIn := <[i := proba p !!! i]> (SamIn p) |>
    else p <| SamIn := <[i := queue !!! (i - SAM_NUM / 2)%nat]> (SamIn p) |>) p.

(** [modules/sch_rbfgrad.c:583-585 rbfgrad_mark_probability] *)
Definition pbest_init (p : rbfgrad_parms) : rbfgrad_parms :=
  for_n PARTICLE_NUM (fun i p =>
    for_n UNIT_NUM (fun j p => p <| pbest := upd2 i j (get2 (pos p) i j) (pbest p) |>) p) p.

(** [modules/sch_rbfgrad.c:587-588 rbfgrad_mark_probability] *)
Definition pbestval_init (p : rbfgrad_parms) : rbfgrad_parms :=
  for_n PARTICLE_NUM (fun i p =>
    let '(sse, p) := get_rbf_SSE p i in
    p <| pbestval := <[i := sse]> (pbestval p) |>) p.

(** The particle of least error: [gbestval] and its index.
    [modules/sch_rbfgrad.c:616-623 rbfgrad_mark_probability] *)
Definition gbest_scan (p : rbfgrad_parms) : rbfgrad_parms * nat :=
  let p := p <| gbestval := pbestval p !!! 0%nat |> in
  for_n PARTICLE_NUM (fun j '(p, index) =>
    if dgt (gbestval p) (pbestval p !!! j)
    then (p <| gbestval := pbestval p !!! j |>, j)
    else (p, index)) (p, 0%nat).

(** [modules/sch_rbfgrad.c:624-625 rbfgrad_mark_probability] *)
Definition gbest_copy (p : rbfgrad_parms) (index : nat) : rbfgrad_parms :=
  for_n UNIT_NUM (fun k p => p <| gbest := <[k := get2 (pbest p) index k]> (gbest p) |>) p.

(** The leader of the swarm.  [modules/sch_rbfgrad.c:616-625 rbfgrad_mark_probability] *)
Definition select (p : rbfgrad_parms) : rbfgrad_parms * nat :=
  let '(p, index) := gbest_scan p in (gbest_copy p index, index).

(** [modules/sch_rbfgrad.c:583-600 rbfgrad_mark_probability] *)
Definition pso_start (p : rbfgrad_parms) : rbfgrad_parms * nat :=
  select (pbestval_init (pbest_init p)).

(** ** One epoch *)

(** [modules/sch_rbfgrad.c:606-614 rbfgrad_mark_probability] *)
Definition pbest_update (p : rbfgrad_parms) : rbfgrad_parms :=
  for_n PARTICLE_NUM (fun j p =>
    let '(sse, p) := get_rbf_SSE p j in
    if dgt (pbestval p !!! j) sse then
      let p := p <| pbestval := <[j := sse]> (pbestval p) |> in
      for_n UNIT_NUM (fun k p => p <| pbest := upd2 j k (get2 (pos p) j k) (pbest p) |>) p
    else p) p.

(** The inertia weight of epoch [i].  The local copies of the parameters are
    read from the struct.  [modules/sch_rbfgrad.c:631-634 rbfgrad_mark_probability] *)
Definition inertia (p : rbfgrad_parms) (i : nat) : double :=
  let i := d_of_Z (Z.of_nat i) in
  if dlt i (iwe p) then ((iw2 p - iw1 p) / (iwe p - d1) * i + iw1 p)%D else iw2 p.

(** The new velocity of a coordinate, before it is limited.
    [modules/sch_rbfgrad.c:644-644 rbfgrad_mark_probability] *)
Definition velocity (p : rbfgrad_parms) (iwt r1 r2 : double) (j k : nat) : double :=
  let x := get2 (pos p) j k in
  (iwt * get2 (vel p) j k + ac1 p * r1 * (get2 (pbest p) j k - x)
   + ac2 p * r2 * (gbest p !!! k - x))%D.

Section Swarm.
Context `{Rng G}.

(** [modules/sch_rbfgrad.c:639-650 rbfgrad_mark_probability] *)
Definition velocity_row (iwt : double) (j : nat) (s : rbfgrad_parms * G) : rbfgrad_parms * G :=
  for_n UNIT_NUM (fun k '(p, g) =>
    let '(r1, g) := rand_unit g in
    let '(r2, g) := rand_unit g in
    let p := p <| vel := upd2 j k (velocity p iwt r1 r2 j k) (vel p) |> in
    let p := if dgt (get2 (vel p) j k) (mv p) then p <| vel := upd2 j k (mv p) (vel p) |> else p in
    let p := if dlt (get2 (vel p) j k) (- mv p) then p <| vel := upd2 j k (- mv p)%D (vel p) |> else p in
    (p, g)) s.

(** [modules/sch_rbfgrad.c:653-654 rbfgrad_mark_probability] *)
Definition position_row (j : nat) (p : rbfgrad_parms) : rbfgrad_parms :=
  for_n UNIT_NUM (fun k p =>
    p <| pos := upd2 j k (get2 (pos p) j k + get2 (vel p) j k)%D (pos p) |>) p.

(** [modules/sch_rbfgrad.c:638-655 rbfgrad_mark_probability] *)
Definition swarm_move (iwt : double) (s : rbfgrad_parms * G) : rbfgrad_parms * G :=
  for_n PARTICLE_NUM (fun j s =>
    let '(p, g) := velocity_row iwt j s in (position_row j p, g)) s.

(** [modules/sch_rbfgrad.c:604-668 rbfgrad_mark_probability] *)
Definition pso_epoch (i : nat) (s : rbfgrad_parms * nat * G) : rbfgrad_parms * nat * G :=
  let '(p, _, g) := s in
  let p := pbest_update p in
  let '(p, index) := select p in
  let '(p, g) := swarm_move (inertia p i) (p, g) in
  (p, index, g).

(** The whole training, and its result copied to the network.
    [modules/sch_rbfgrad.c:583-675 rbfgrad_mark_probability] *)
Definition pso_train (p : rbfgrad_parms) (g : G) : rbfgrad_parms * G :=
  let '(p, index) := pso_start p in
  let '(p, index, g) := for_n MAX_EPOCH pso_epoch (p, index, g) in
  let p := for_n UNIT_NUM (fun j p => p <| w_k := <[j := gbest p !!! j]> (w_k p) |>) p in
  (p <| gbest_index := Z.of_nat index |>, g).
End Swarm.

(** ** Each phase as an update of the fields it writes *)

Lemma pbest_row_copy p j :
  parms_shape p -> (j < PARTICLE_NUM)%nat ->
  for_n UNIT_NUM (fun k p => p <| pbest := upd2 j k (get2 (pos p) j k) (pbest p) |>) p =
  p <| pbest := <[j := pos p !!! j]> (pbest p) |>.
Proof.
  intros Hs Hj.
  rewrite <- (copy_row (H := double_inhabited) UNIT_NUM j (pos p !!! j) (pbest p) PARTICLE_NUM)
    by eauto using shape_row, sh_pos, sh_pbest.
  assert (forall n, for_n n (fun k p => p <| pbest := upd2 j k (get2 (pos p) j k) (pbest p) |>) p =
    p <| pbest := for_n n (fun k m => upd2 j k ((pos p !!! j) !!! k) m) (pbest p) |>) as Hn;
    [|apply Hn].
  induction n as [|n IH]; [done|]. rewrite !for_n_S, IH. reflexivity.
Qed.

(** The shape of the fields the training writes. *)
Lemma shape_pbest_set p m :
  parms_shape p -> shape PARTICLE_NUM UNIT_NUM m -> parms_shape (p <| pbest := m |>).
Proof. intros [] ?; by constructor. Qed.

Lemma shape_insert_row {A} r c i (row : list A) m :
  shape r c m -> length row = c -> shape r c (<[i := row]> m).
Proof.
  intros [Hr Hc] Hrow. split; [by rewrite length_insert|]. by apply Forall_insert.
Qed.

Lemma pbest_init_eq p : parms_shape p -> pbest_init p = p <| pbest := pos p |>.
Proof.
  intros Hs. unfold pbest_init.
  rewrite <- (copy_vec (H := _) (pos p) (pbest p)) by (rewrite (proj1 (sh_pos _ Hs)); apply Hs).
  rewrite (proj1 (sh_pos _ Hs)).
  assert (forall n, (n <= PARTICLE_NUM)%nat -> 
    for_n n (fun i p => for_n UNIT_NUM (fun j p =>
      p <| pbest := upd2 i j (get2 (pos p) i j) (pbest p) |>) p) p =
    p <| pbest := for_n n (fun i l => <[i := pos p !!! i]> l) (pbest p) |> /\
    shape PARTICLE_NUM UNIT_NUM (for_n n (fun i l => <[i := pos p !!! i]> l) (pbest p))) as Hn;
    [|by apply Hn].
  induction n as [|n IH]; intros Hle; [split; [done|apply Hs]|].
  destruct IH as [E Hsh]; [lia|]. rewrite !for_n_S, E. split.
  - rewrite pbest_row_copy; [reflexivity| |lia]. by apply shape_pbest_set.
  - apply shape_insert_row; [done|]. apply (shape_row PARTICLE_NUM); [apply Hs|lia].
Qed.

(** The network outputs and errors are the only effect of an evaluation. *)
Lemma eval_eq p j :
  parms_shape p -> (j < PARTICLE_NUM)%nat ->
  get_rbf_SSE p j = (sse_of (net_of p) (pos p !!! j),
    p <| NetOut := <[j := net_out (net_of p) (pos p !!! j)]> (NetOut p) |>).
Proof. intros Hs Hj. apply get_rbf_SSE_eq. by rewrite (sh_NetOut _ Hs). Qed.

Lemma map_lookup {A} `{Inhabited A} (f : A -> double) l j :
  (j < length l)%nat -> (f <$> l) !!! j = f (l !!! j).
Proof.
  intros Hj. apply list_lookup_total_correct.
  by rewrite list_lookup_fmap, (list_lookup_lookup_total_lt l j Hj).
Qed.

Definition errors_of (n : net) (m : list (list double)) : list double := sse_of n <$> m.

Lemma errors_of_lookup n m j :
  (j < length m)%nat -> errors_of n m !!! j = sse_of n (m !!! j).
Proof. apply map_lookup. Qed.

Lemma pbestval_init_eq p :
  parms_shape p ->
  pbestval_init p = p <| NetOut := net_out (net_of p) <$> pos p |>
                      <| pbestval := errors_of (net_of p) (pos p) |>.
Proof.
  intros Hs. unfold pbestval_init. pose proof (proj1 (sh_pos _ Hs)) as Hl.
  set (N := net_out (net_of p) <$> pos p). set (E := errors_of (net_of p) (pos p)).
  assert (length N = PARTICLE_NUM) as HN by (unfold N; by rewrite length_fmap).
  assert (length E = PARTICLE_NUM) as HE by (unfold E, errors_of; by rewrite length_fmap).
  rewrite <- (copy_vec (H := double_inhabited) N (NetOut p)), HN by (rewrite HN; apply Hs).
  rewrite <- (copy_vec (H := double_inhabited) E (pbestval p)), HE by (rewrite HE; apply Hs).
  assert (forall n, (n <= PARTICLE_NUM)%nat ->
    for_n n (fun i p => let '(sse, p) := get_rbf_SSE p i in
      p <| pbestval := <[i := sse]> (pbestval p) |>) p =
    p <| NetOut := for_n n (fun i l => <[i := N !!! i]> l) (NetOut p) |>
      <| pbestval := for_n n (fun i l => <[i := E !!! i]> l) (pbestval p) |>) as Hn; [|by apply Hn].
  induction n as [|n IH]; intros Hle; [done|]. rewrite !for_n_S, IH by lia.
  set (no := for_n n _ (NetOut p)). set (pv := for_n n _ (pbestval p)).
  assert (length no = PARTICLE_NUM) as Hno.
  { unfold no. apply for_n_inv; [apply Hs|]. intros. by rewrite length_insert. }
  rewrite get_rbf_SSE_eq by (cbn [NetOut set_field]; rewrite Hno; lia).
  unfold E. rewrite errors_of_lookup by lia.
  unfold N. rewrite map_lookup by lia. reflexivity.
Qed.

(** ** The best particle *)

Definition no_better (v : list double) (x : double) : Prop :=
  forall j, (j < PARTICLE_NUM)%nat -> dlt (v !!! j) x = false.

Lemma gbest_scan_spec p :
  exists i, (i < PARTICLE_NUM)%nat /\
    gbest_scan p = (p <| gbestval := pbestval p !!! i |>, i) /\
    no_better (pbestval p) (pbestval p !!! i).
Proof.
  unfold gbest_scan. cbv zeta.
  pose proof (for_n_ind (fun j s => exists i, (i < PARTICLE_NUM)%nat /\
    s = (p <| gbestval := pbestval p !!! i |>, i) /\
    forall j', (j' < j)%nat -> dlt (pbestval p !!! j') (pbestval p !!! i) = false)) as Hind.
  apply Hind.
  - exists 0%nat. split; [unfold PARTICLE_NUM; lia|]. split; [done|lia].
  - intros j s Hj (i & Hi & -> & Hno). cbv beta iota.
    change (pbestval (p <| gbestval := pbestval p !!! i |>)) with (pbestval p).
    change (gbestval (p <| gbestval := pbestval p !!! i |>)) with (pbestval p !!! i).
    destruct (dgt (pbestval p !!! i) (pbestval p !!! j)) eqn:E.
    + exists j. split; [done|]. split; [done|]. intros j' Hj'.
      destruct (decide (j' = j)) as [->|Hne]; [apply dlt_irrefl|].
      specialize (Hno j' ltac:(lia)). d_order.
    + exists i. split; [done|]. split; [done|]. intros j' Hj'.
      destruct (decide (j' = j)) as [->|Hne]; [done|]. apply Hno. lia.
Qed.

Lemma gbest_copy_eq p i :
  parms_shape p -> (i < PARTICLE_NUM)%nat ->
  gbest_copy p i = p <| gbest := pbest p !!! i |>.
Proof.
  intros Hs Hi. unfold gbest_copy.
  assert (length (pbest p !!! i) = UNIT_NUM) as Hr by (eapply shape_row; [apply Hs|done]).
  rewrite <- (copy_vec (H := double_inhabited) (pbest p !!! i) (gbest p)), Hr by (rewrite Hr; apply Hs).
  assert (forall n, for_n n (fun k p => p <| gbest := <[k := get2 (pbest p) i k]> (gbest p) |>) p =
    p <| gbest := for_n n (fun k l => <[k := (pbest p !!! i) !!! k]> l) (gbest p) |>) as Hn;
    [|apply Hn].
  induction n as [|n IH]; [done|]. by rewrite !for_n_S, IH.
Qed.

(** What the comparison with the current position leaves as a particle's best. *)
Definition best_of (p : rbfgrad_parms) (j : nat) : double * list double :=
  let sse := sse_of (net_of p) (pos p !!! j) in
  if dgt (pbestval p !!! j) sse then (sse, pos p !!! j) else (pbestval p !!! j, pbest p !!! j).

Definition with_bests (p : rbfgrad_parms) no pv pb : rbfgrad_parms :=
  p <| NetOut := no |> <| pbestval := pv |> <| pbest := pb |>.

Lemma with_bests_shape p no pv pb :
  parms_shape p -> length no = PARTICLE_NUM -> length pv = PARTICLE_NUM ->
  shape PARTICLE_NUM UNIT_NUM pb -> parms_shape (with_bests p no pv pb).
Proof. intros [] ???; by constructor. Qed.

Lemma insert_lookup_total_cases {A} `{Inhabited A} (l : list A) i j x :
  (i < length l)%nat -> <[i := x]> l !!! j = if decide (j = i) then x else l !!! j.
Proof.
  intros Hi. destruct (decide (j = i)) as [->|Hne].
  - by apply list_lookup_total_insert_eq.
  - by apply list_lookup_total_insert_ne.
Qed.

Lemma pbest_update_spec p :
  parms_shape p ->
  exists no pv pb, pbest_update p = with_bests p no pv pb /\
    length no = PARTICLE_NUM /\ length pv = PARTICLE_NUM /\ shape PARTICLE_NUM UNIT_NUM pb /\
    forall j, (j < PARTICLE_NUM)%nat -> (pv !!! j, pb !!! j) = best_of p j.
Proof.
  intros Hs. unfold pbest_update.
  pose proof (for_n_ind (fun n s => exists no pv pb, s = with_bests p no pv pb /\
    length no = PARTICLE_NUM /\ length pv = PARTICLE_NUM /\ shape PARTICLE_NUM UNIT_NUM pb /\
    (forall j, (j < PARTICLE_NUM)%nat -> (pv !!! j, pb !!! j) =
       if decide (j < n)%nat then best_of p j else (pbestval p !!! j, pbest p !!! j)))
    PARTICLE_NUM) as Hind.
  match goal with |- context [for_n PARTICLE_NUM ?b p] => specialize (Hind b p) end.
  destruct Hind as (no & pv & pb & E & H1 & H2 & H3 & H4).
  - exists (NetOut p), (pbestval p), (pbest p). by destruct Hs.
  - intros j s Hj (no & pv & pb & -> & H1 & H2 & H3 & H4).
    assert (parms_shape (with_bests p no pv pb)) as Hsh by (by apply with_bests_shape).
    cbv beta. rewrite eval_eq by done. cbv beta iota.
    change (net_of (with_bests p no pv pb)) with (net_of p).
    change (pos (with_bests p no pv pb)) with (pos p).
    set (sse := sse_of (net_of p) (pos p !!! j)).
    set (no' := <[j := _]> (NetOut (with_bests p no pv pb))).
    assert (length no' = PARTICLE_NUM) as H1' by (unfold no'; by rewrite length_insert).
    change (pbestval ((with_bests p no pv pb) <| NetOut := no' |>)) with pv.
    pose proof (H4 j Hj) as Hj4. rewrite decide_False in Hj4 by lia.
    injection Hj4 as Epv Epb. rewrite Epv.
    destruct (dgt (pbestval p !!! j) sse) eqn:Ed.
    + exists no', (<[j := sse]> pv), (<[j := pos p !!! j]> pb). split.
      { cbv zeta. match goal with |- for_n _ _ ?s = _ =>
          change s with (with_bests p no' (<[j := sse]> pv) pb) end.
        rewrite pbest_row_copy; [reflexivity| |done].
        apply with_bests_shape; rewrite ?length_insert; done. }
      split; [done|]. split; [by rewrite length_insert|].
      split; [apply shape_insert_row; [done|eapply shape_row; [apply Hs|done]]|].
      intros j' Hj'. rewrite !insert_lookup_total_cases by (rewrite ?(proj1 H3); lia).
      destruct (decide (j' = j)) as [->|Hne].
      * rewrite decide_True by lia. unfold best_of. fold sse. by rewrite Ed.
      * rewrite H4 by done. destruct (decide (j' < j)%nat), (decide (j' < S j)%nat); try done; lia.
    + exists no', pv, pb. split; [reflexivity|]. do 3 (split; [done|]). intros j' Hj'.
      rewrite H4 by done. destruct (decide (j' = j)) as [->|Hne].
      * rewrite decide_False, decide_True by lia. unfold best_of. fold sse. by rewrite Ed.
      * destruct (decide (j' < j)%nat), (decide (j' < S j)%nat); try done; lia.
  - exists no, pv, pb. split; [done|]. do 3 (split; [done|]). intros j Hj.
    rewrite H4 by done. by rewrite decide_True.
Qed.

(** ** The movement of the swarm *)

Definition limited (b x : double) : Prop :=
  is_nan x = true \/ dle (- b) x = true /\ dle x b = true.

Lemma clamp_limited b x : dle (- b) b = true -> limited b (clamp (- b) b x).
Proof.
  intros Hb. destruct (is_nan x) eqn:E.
  - left. destruct x; try discriminate. by rewrite clamp_nan.
  - right. by apply clamp_bounds.
Qed.

Section Movement.
Context `{RngOk G}.
Implicit Types (p : rbfgrad_parms) (g : G).

(** The generator after [n] draws. *)
Definition draws (n : nat) (g : G) : G := Nat.iter n (fun g => (random32 g).2) g.

Lemma draws_add n m g : draws n (draws m g) = draws (n + m) g.
Proof. induction n as [|n IH]; [done|]. unfold draws in *. simpl. by rewrite IH. Qed.

Lemma rand_unit_draw g : rand_unit g = ((rand_unit g).1, draws 1 g).
Proof. unfold rand_unit, draws. simpl. by destruct (random32 g). Qed.

(** The two tests after the update are the clamp. *)
Lemma velocity_cell p iwt r1 r2 j k :
  parms_shape p -> (j < PARTICLE_NUM)%nat -> (k < UNIT_NUM)%nat ->
  (let p := p <| vel := upd2 j k (velocity p iwt r1 r2 j k) (vel p) |> in
   let p := if dgt (get2 (vel p) j k) (mv p) then p <| vel := upd2 j k (mv p) (vel p) |> else p in
   if dlt (get2 (vel p) j k) (- mv p) then p <| vel := upd2 j k (- mv p)%D (vel p) |> else p) =
  p <| vel := upd2 j k (clamp (- mv p) (mv p) (velocity p iwt r1 r2 j k)) (vel p) |>.
Proof.
  intros Hs Hj Hk. set (v := velocity p iwt r1 r2 j k).
  pose (q := fun v => p <| vel := upd2 j k v (vel p) |>).
  assert (forall v, get2 (vel (q v)) j k = v) as Hget
    by (intros; eapply (get2_upd2_eq PARTICLE_NUM UNIT_NUM); [apply Hs|done|done]).
  assert (forall (b : bool) v w, (if b then (q v) <| vel := upd2 j k w (vel (q v)) |> else q v) =
    q (if b then w else v)) as Hstep.
  { intros [] v' w; [|done]. unfold q.
    change (p <| vel := upd2 j k w (upd2 j k v' (vel p)) |> = p <| vel := upd2 j k w (vel p) |>).
    by rewrite upd2_upd2. }
  cbv zeta. change (p <| vel := upd2 j k v (vel p) |>) with (q v).
  change (mv (q v)) with (mv p). rewrite Hstep, Hget.
  set (v1 := if dgt v (mv p) then mv p else v).
  change (mv (q v1)) with (mv p). rewrite Hstep, Hget. reflexivity.
Qed.

(** The cells of the velocity matrix up to [(i,j)] have been limited. *)
Definition vel_limited (b : double) (m : list (list double)) (i j : nat) : Prop :=
  filled (fun _ _ => limited b) m i j.

Lemma velocity_row_spec p g iwt j :
  parms_shape p -> (j < PARTICLE_NUM)%nat -> dle (- mv p) (mv p) = true ->
  vel_limited (mv p) (vel p) j 0 ->
  exists ve, velocity_row iwt j (p, g) = (p <| vel := ve |>, draws (2 * UNIT_NUM) g) /\
    shape PARTICLE_NUM UNIT_NUM ve /\ vel_limited (mv p) ve j UNIT_NUM.
Proof.
  intros Hs Hj Hmv Hv. unfold velocity_row.
  apply (for_n_ind (fun k s => exists ve, s = (p <| vel := ve |>, draws (2 * k) g) /\
    shape PARTICLE_NUM UNIT_NUM ve /\ vel_limited (mv p) ve j k)).
  - exists (vel p). split; [done|]. split; [apply Hs|done].
  - intros k s Hk (ve & -> & Hve & Hl). cbv beta iota.
    assert (parms_shape (p <| vel := ve |>)) as Hsv by (by destruct Hs; constructor).
    rewrite rand_unit_draw. cbv beta iota. rewrite (rand_unit_draw (draws 1 _)). cbv beta iota.
    rewrite draws_add, draws_add.
    set (r1 := (rand_unit (draws (2 * k) g)).1). set (r2 := (rand_unit (draws _ _)).1).
    pose proof (velocity_cell _ iwt r1 r2 j k Hsv Hj Hk) as Hc. cbv zeta in Hc |- *.
    eexists. split; [f_equal; [exact Hc|f_equal; lia]|].
    change (vel (p <| vel := ve |>)) with ve. change (mv (p <| vel := ve |>)) with (mv p).
    split; [by apply shape_upd2|]. apply filled_upd2; try done. by apply clamp_limited.
Qed.

Lemma position_row_spec p j :
  parms_shape p -> exists po, position_row j p = p <| pos := po |> /\
    shape PARTICLE_NUM UNIT_NUM po.
Proof.
  intros Hs. unfold position_row.
  apply (for_n_inv (fun s => exists po, s = p <| pos := po |> /\ shape PARTICLE_NUM UNIT_NUM po)).
  - exists (pos p). split; [done|apply Hs].
  - intros k s _ (po & -> & Hpo). eexists. split; [reflexivity|]. by apply shape_upd2.
Qed.

(** One move: only positions and velocities change, every velocity is within
    the limit, and each coordinate costs two random numbers. *)
Lemma swarm_move_spec p g iwt :
  parms_shape p -> dle (- mv p) (mv p) = true ->
  exists po ve, swarm_move iwt (p, g) =
      (p <| vel := ve |> <| pos := po |>, draws (2 * UNIT_NUM * PARTICLE_NUM) g) /\
    shape PARTICLE_NUM UNIT_NUM po /\ shape PARTICLE_NUM UNIT_NUM ve /\
    vel_limited (mv p) ve PARTICLE_NUM 0.
Proof.
  intros Hs Hmv. unfold swarm_move.
  apply (for_n_ind (fun j s => exists po ve,
    s = (p <| vel := ve |> <| pos := po |>, draws (2 * UNIT_NUM * j) g) /\
    shape PARTICLE_NUM UNIT_NUM po /\ shape PARTICLE_NUM UNIT_NUM ve /\
    vel_limited (mv p) ve j 0)).
  - exists (pos p), (vel p). split; [by rewrite Nat.mul_0_r|].
    split; [apply Hs|]. split; [apply Hs|]. intros i' j' ??. exfalso. lia.
  - intros j s Hj (po & ve & -> & Hpo & Hve & Hl). cbv beta.
    set (q := p <| vel := ve |> <| pos := po |>).
    assert (parms_shape q) as Hq by (by destruct Hs; constructor).
    destruct (velocity_row_spec q (draws (2 * UNIT_NUM * j) g) iwt j Hq Hj Hmv Hl)
      as (ve' & -> & Hve' & Hl'). cbv beta iota.
    assert (parms_shape (q <| vel := ve' |>)) as Hq' by (by destruct Hq; constructor).
    destruct (position_row_spec (q <| vel := ve' |>) j Hq') as (po' & -> & Hpo').
    exists po', ve'. split.
    { f_equal. rewrite draws_add. f_equal. unfold UNIT_NUM. lia. }
    split; [done|]. split; [done|]. by apply filled_next.
Qed.
End Movement.

(** ** Training as a whole *)

(** Everything but the fields the training writes. *)
Definition erase_swarm (p : rbfgrad_parms) : rbfgrad_parms :=
  p <| pos := [] |> <| vel := [] |> <| NetOut := [] |> <| pbest := [] |> <| pbestval := [] |>
    <| gbest := [] |> <| gbestval := d0 |> <| w_k := [] |> <| gbest_index := 0 |>.

Lemma erased_field {T} (f : rbfgrad_parms -> T) p p0 :
  erase_swarm p = erase_swarm p0 -> (forall p, f (erase_swarm p) = f p) -> f p = f p0.
Proof. intros E Hf. by rewrite <- Hf, E, Hf. Qed.

(** The bests are consistent: each value is the error of the recorded weights. *)
Record best_inv (p0 p : rbfgrad_parms) : Prop := {
  bi_shape : parms_shape p;
  bi_frame : erase_swarm p = erase_swarm p0;
  bi_sse : forall j, (j < PARTICLE_NUM)%nat ->
    pbestval p !!! j = sse_of (net_of p0) (pbest p !!! j)
}.

(** Particle [i] leads the swarm. *)
Record led (p : rbfgrad_parms) (i : nat) : Prop := {
  led_index : (i < PARTICLE_NUM)%nat;
  led_gbest : gbest p = pbest p !!! i;
  led_gbestval : gbestval p = pbestval p !!! i;
  led_best : no_better (pbestval p) (gbestval p)
}.

(** No particle's best error has grown. *)
Definition not_worse (p p' : rbfgrad_parms) : Prop :=
  forall j, (j < PARTICLE_NUM)%nat ->
    pbestval p' !!! j = pbestval p !!! j \/ dlt (pbestval p' !!! j) (pbestval p !!! j) = true.

#[export] Instance not_worse_preorder : PreOrder not_worse.
Proof.
  split; [intros p j _; by left|]. intros p q r H1 H2 j Hj.
  destruct (H1 j Hj) as [E1|E1], (H2 j Hj) as [E2|E2]; rewrite ?E2, <- ?E1; auto;
    rewrite ?E1 in *; eauto using dlt_trans.
Qed.

Lemma select_spec p0 p :
  best_inv p0 p ->
  best_inv p0 (select p).1 /\ led (select p).1 (select p).2 /\
  pos (select p).1 = pos p /\ vel (select p).1 = vel p /\ pbestval (select p).1 = pbestval p.
Proof.
  intros [Hs Hf Hb]. unfold select.
  destruct (gbest_scan_spec p) as (i & Hi & -> & Hno). cbn [fst snd].
  set (q := p <| gbestval := pbestval p !!! i |>).
  assert (parms_shape q) as Hq by (by destruct Hs; constructor).
  rewrite gbest_copy_eq by done.
  assert (length (pbest p !!! i) = UNIT_NUM) as Hrow by (eapply shape_row; [apply Hs|done]).
  split; [|split; [by constructor|done]].
  constructor; [by destruct Hs; constructor|exact Hf|exact Hb].
Qed.

Lemma pbest_update_inv p0 p :
  best_inv p0 p ->
  best_inv p0 (pbest_update p) /\ not_worse p (pbest_update p) /\
  pos (pbest_update p) = pos p /\ vel (pbest_update p) = vel p /\
  forall j, (j < PARTICLE_NUM)%nat ->
    dlt (sse_of (net_of p0) (pos p !!! j)) (pbestval (pbest_update p) !!! j) = false.
Proof.
  intros [Hs Hf Hb]. destruct (pbest_update_spec p Hs) as (no & pv & pb & -> & H1 & H2 & H3 & H4).
  assert (net_of p = net_of p0) as Hn by (by apply (erased_field net_of)).
  split; [constructor; [by apply with_bests_shape|exact Hf|]|].
  - intros j Hj. change (pv !!! j = sse_of (net_of p0) (pb !!! j)).
    specialize (H4 j Hj). specialize (Hb j Hj). unfold best_of in H4. rewrite Hn in H4.
    destruct (dgt _ _); injection H4 as -> ->; [done|exact Hb].
  - change (pbestval (with_bests p no pv pb)) with pv.
    split; [intros j Hj|split; [done|split; [done|intros j Hj]]];
      specialize (H4 j Hj); unfold best_of in H4; rewrite Hn in H4;
      destruct (dgt _ _) eqn:Ed; injection H4 as E _.
    + right. change (dlt (pv !!! j) (pbestval p !!! j) = true). by rewrite E.
    + by left.
    + rewrite E. apply dlt_irrefl.
    + rewrite E. exact Ed.
Qed.

Section Training.
Context `{RngOk G}.

Lemma pso_epoch_spec p0 p index g e :
  best_inv p0 p -> dle (- mv p0) (mv p0) = true ->
  let '(p', index', g') := pso_epoch e (p, index, g) in
  best_inv p0 p' /\ led p' index' /\ not_worse p p' /\
  vel_limited (mv p0) (vel p') PARTICLE_NUM 0 /\
  g' = draws (2 * UNIT_NUM * PARTICLE_NUM) g.
Proof.
  intros Hb Hmv. unfold pso_epoch.
  destruct (pbest_update_inv p0 p Hb) as (Hb1 & Hnw & _ & _ & _).
  revert Hb1 Hnw. cbv zeta. generalize (pbest_update p). intros p1 Hb1 Hnw.
  destruct (select_spec p0 p1 Hb1) as (Hb2 & Hled & _ & _ & Hpv).
  destruct (select p1) as [p3 i]. cbn [fst snd] in *.
  assert (mv p3 = mv p0) as Hmv3 by (apply (erased_field mv); [apply Hb2|done]).
  assert (parms_shape p3) as Hs3 by apply Hb2.
  destruct (swarm_move_spec p3 g (inertia p3 e) Hs3) as (po & ve & -> & Hpo & Hve & Hl);
    [by rewrite Hmv3|].
  set (p4 := p3 <| vel := ve |> <| pos := po |>).
  split; [|split; [|split; [|split]]].
  - constructor; [by destruct Hs3; constructor|apply Hb2|apply Hb2].
  - destruct Hled as [H1 H2 H3 H4]. by constructor.
  - intros j Hj. change (pbestval p4) with (pbestval p3). rewrite Hpv. by apply Hnw.
  - rewrite <- Hmv3. exact Hl.
  - reflexivity.
Qed.

Lemma pso_start_spec p :
  parms_shape p ->
  best_inv p (pso_start p).1 /\ led (pso_start p).1 (pso_start p).2 /\
  forall j, (j < PARTICLE_NUM)%nat ->
    pbestval (pso_start p).1 !!! j = sse_of (net_of p) (pos p !!! j).
Proof.
  intros Hs. unfold pso_start. rewrite pbest_init_eq by done.
  assert (parms_shape (p <| pbest := pos p |>)) as Hs1 by (destruct Hs; by constructor).
  rewrite pbestval_init_eq by done.
  set (q := p <| pbest := pos p |> <| NetOut := _ |> <| pbestval := _ |>).
  assert (length (pos p) = PARTICLE_NUM) as Hl by apply Hs.
  assert (forall j, (j < PARTICLE_NUM)%nat -> pbestval q !!! j = sse_of (net_of p) (pos p !!! j))
    as Hpv by (intros j Hj; apply errors_of_lookup; lia).
  assert (best_inv p q) as Hq.
  { constructor; [|done|exact Hpv]. destruct Hs1. constructor; try assumption.
    - change (length (net_out (net_of p) <$> pos p) = PARTICLE_NUM). by rewrite length_fmap.
    - change (length (sse_of (net_of p) <$> pos p) = PARTICLE_NUM). by rewrite length_fmap. }
  destruct (select_spec p q Hq) as (Hb & Hled & _ & _ & Epv).
  split; [exact Hb|]. split; [exact Hled|]. intros j Hj. rewrite Epv. by apply Hpv.
Qed.

Definition epochs_inv (p0 p1 : rbfgrad_parms) (g0 : G) (e : nat) (s : rbfgrad_parms * nat * G) : Prop :=
  let '(p, i, g) := s in
  best_inv p0 p /\ led p i /\ not_worse p1 p /\
  ((0 < e)%nat -> vel_limited (mv p0) (vel p) PARTICLE_NUM 0) /\
  g = draws (2 * UNIT_NUM * PARTICLE_NUM * e) g0.

Lemma epochs_spec p0 p1 i g n :
  best_inv p0 p1 -> led p1 i -> dle (- mv p0) (mv p0) = true ->
  epochs_inv p0 p1 g n (for_n n pso_epoch (p1, i, g)).
Proof.
  intros Hb Hl Hmv. apply (for_n_ind (epochs_inv p0 p1 g)).
  - split; [done|]. split; [done|]. split; [done|]. split; [lia|]. by rewrite Nat.mul_0_r.
  - intros e [[p i'] g'] He (Hb' & _ & Hnw & _ & Hg).
    pose proof (pso_epoch_spec p0 p i' g' e Hb' Hmv) as Hs.
    destruct (pso_epoch e (p, i', g')) as [[p2 i2] g2]. destruct Hs as (? & ? & ? & ? & ->).
    split; [done|]. split; [done|]. split; [by transitivity p|]. split; [done|].
    rewrite Hg, draws_add. f_equal. rewrite Nat.mul_succ_r. apply Nat.add_comm.
Qed.

(** The weights of the leader are installed. *)
Lemma install_weights p :
  parms_shape p ->
  for_n UNIT_NUM (fun j p => p <| w_k := <[j := gbest p !!! j]> (w_k p) |>) p =
  p <| w_k := gbest p |>.
Proof.
  intros Hs. rewrite <- (copy_vec (H := double_inhabited) (gbest p) (w_k p))
    by (rewrite (sh_gbest _ Hs); apply Hs).
  rewrite (sh_gbest _ Hs).
  assert (forall n, for_n n (fun j p => p <| w_k := <[j := gbest p !!! j]> (w_k p) |>) p =
    p <| w_k := for_n n (fun j l => <[j := gbest p !!! j]> l) (w_k p) |>) as Hn; [|apply Hn].
  induction n as [|n IH]; [done|]. by rewrite !for_n_S, IH.
Qed.

(** What the training establishes, for the properties below. *)
Lemma pso_train_spec p g :
  parms_shape p -> dle (- mv p) (mv p) = true ->
  let '(p', g') := pso_train p g in
  exists i, best_inv p p' /\ led p' i /\ gbest_index p' = Z.of_nat i /\ w_k p' = gbest p' /\
    vel_limited (mv p) (vel p') PARTICLE_NUM 0 /\
    g' = draws (2 * UNIT_NUM * PARTICLE_NUM * MAX_EPOCH) g /\
    forall j, (j < PARTICLE_NUM)%nat ->
      pbestval p' !!! j = sse_of (net_of p) (pos p !!! j) \/
      dlt (pbestval p' !!! j) (sse_of (net_of p) (pos p !!! j)) = true.
Proof.
  intros Hs Hmv. unfold pso_train. destruct (pso_start_spec p Hs) as (Hb & Hl & Hpv).
  destruct (pso_start p) as [p1 i1]. cbn [fst snd] in *.
  pose proof (epochs_spec p p1 i1 g MAX_EPOCH Hb Hl Hmv) as He.
  destruct (for_n MAX_EPOCH pso_epoch (p1, i1, g)) as [[p2 i2] g2].
  destruct He as (Hb2 & Hl2 & Hnw & Hv & Hg).
  rewrite install_weights by apply Hb2. exists i2.
  destruct Hb2 as [Hs2 Hf2 Hsse2].
  split; [constructor; [destruct Hs2; by constructor|exact Hf2|exact Hsse2]|].
  split; [destruct Hl2 as [? ? ? ?]; by constructor|].
  split; [done|]. split; [done|].
  split; [apply Hv; unfold MAX_EPOCH; lia|]. split; [exact Hg|].
  intros j Hj. rewrite <- Hpv by done. exact (Hnw j Hj).
Qed.


(** The training keeps the dimensions of every array, writes nothing but the
    swarm's own fields and the network weights (the history, the gains, the
    errors and the configuration are untouched), leaves [gbest_index] inside the
    swarm, and draws two random numbers per coordinate, particle and epoch. *)
Theorem pso_train_frame (p : rbfgrad_parms) (g : G) :
  parms_shape p -> dle (- mv p) (mv p) = true ->
  let '(p', g') := pso_train p g in
  parms_shape p' /\ erase_swarm p' = erase_swarm p /\
  0 <= gbest_index p' < Z.of_nat PARTICLE_NUM /\
  g' = draws (2 * UNIT_NUM * PARTICLE_NUM * MAX_EPOCH) g.
Proof.
  intros Hs Hmv. pose proof (pso_train_spec p g Hs Hmv) as Ht.
  destruct (pso_train p g) as [p' g'].
  destruct Ht as (i & [Hs' Hf Hsse] & [Hi Hg Hgv Hno] & -> & _ & _ & Hg' & _).
  split; [done|]. split; [done|]. split; [lia|done].
Qed.

(** After the training every velocity is within the limit [mv], or a NaN:
    the two comparisons that limit it are both false for a NaN. *)
Theorem pso_train_velocity (p : rbfgrad_parms) (g : G) :
  parms_shape p -> dle (- mv p) (mv p) = true ->
  let p' := (pso_train p g).1 in
  forall j k, (j < PARTICLE_NUM)%nat -> (k < UNIT_NUM)%nat ->
    let v := get2 (vel p') j k in
    is_nan v = true \/ dle (- mv p) v = true /\ dle v (mv p) = true.
Proof.
  intros Hs Hmv. pose proof (pso_train_spec p g Hs Hmv) as Ht. cbv zeta.
  destruct (pso_train p g) as [p' g']. cbn [fst].
  destruct Ht as (i & _ & _ & _ & _ & Hv & _).
  intros j k Hj Hk. apply (Hv j k Hk). by left.
Qed.
End Training.

(** The inertia schedule.  With the constants [rbfgrad_set_parms] installs the
    weight starts at [iw1], falls at every epoch up to the seventh and is [iw2]
    from the eighth on; the division by [iwe - 1] with a counter that starts at 0
    makes it overshoot: at epoch 7 it is below its final value. *)
Theorem inertia_schedule (p : rbfgrad_parms) :
  let p := init_pso_parms p in
  inertia p 0 = iw1 p /\
  (forall i, (i < 7)%nat -> dlt (inertia p (S i)) (inertia p i) = true) /\
  (forall i, (8 <= i < MAX_EPOCH)%nat -> inertia p i = iw2 p) /\
  dlt (inertia p 7) (iw2 p) = true.
Proof.
  cbv zeta. split; [by vm_compute|]. split; [|split; [|by vm_compute]].
  - intros i Hi. do 7 (destruct i as [|i]; [by vm_compute|]). lia.
  - intros i Hi. unfold MAX_EPOCH in Hi.
    do 10 (destruct i as [|i]; [first [lia|by vm_compute]|]). lia.
Qed.

(** ** Concrete instances *)

Lemma zero_parms_mv : dle (- mv zero_parms) (mv zero_parms) = true.
Proof. reflexivity. Qed.


Lemma pso_train_frame_witness :
  parms_shape zero_parms /\ dle (- mv zero_parms) (mv zero_parms) = true /\
  let '(p', g') := pso_train zero_parms ([] : script) in
  parms_shape p' /\ erase_swarm p' = erase_swarm zero_parms /\
  0 <= gbest_index p' < Z.of_nat PARTICLE_NUM /\
  g' = draws (2 * UNIT_NUM * PARTICLE_NUM * MAX_EPOCH) ([] : script).
Proof.
  split; [exact zero_parms_shape|]. split; [exact zero_parms_mv|].
  apply (pso_train_frame zero_parms ([] : script) zero_parms_shape zero_parms_mv).
Defined.

Lemma pso_train_velocity_witness :
  parms_shape zero_parms /\ dle (- mv zero_parms) (mv zero_parms) = true /\
  let v := get2 (vel (pso_train zero_parms ([] : script)).1) 4 2 in
  is_nan v = true \/ dle (- mv zero_parms) v = true /\ dle v (mv zero_parms) = true.
Proof.
  split; [exact zero_parms_shape|]. split; [exact zero_parms_mv|].
  apply (pso_train_velocity zero_parms ([] : script) zero_parms_shape zero_parms_mv);
    unfold PARTICLE_NUM, UNIT_NUM; lia.
Defined.
