(* ===== verification/Controller.v ===== *)
(** * The control period (rbfgrad_mark_probability as a whole)

    After the training the network gives the sensitivity ([jacobian]) of the queue
    length to the probability, the three PID gains follow its gradient, and the
    incremental PID law moves the marking probability, clamped to
    [[p_min, p_max]]. *)

From S2P Require Export Gapso.

(** The normalised errors, locals of the C function. *)
Record errors := mk_errors { n_e_k : double; n_e_k_1 : double; n_e_k_2 : double }.

(** [modules/sch_rbfgrad.c:514-516 rbfgrad_mark_probability] *)
Definition load_errors (p : rbfgrad_parms) : errors :=
  mk_errors (d_of_Z (e_k p) / queue_scale) (d_of_Z (e_k_1 p) / queue_scale)
    (d_of_Z (e_k_2 p) / queue_scale).

(** The sensitivity, accumulated over the hidden units.
    [modules/sch_rbfgrad.c:681-692 rbfgrad_mark_probability] *)
Definition jacobian_step (p : rbfgrad_parms) : rbfgrad_parms :=
  for_n UNIT_NUM (fun i p =>
    let c := c_k p !!! i in
    let delta := delta_k p !!! i in
    let r := rbf_unit (SamIn p) c delta in
    p <| jacobian :=
      (jacobian p + w_k p !!! i * r * (c !!! 0%nat - p_k p) / (delta * delta))%D |>) p.

(** [if (x < 0) x = 0]. *)
Definition non_negative (x : double) : double := if dlt x d0 then d0 else x.

(** The gradient step of the gains.  The learning rates are local copies of the
    parameters.  [modules/sch_rbfgrad.c:694-707 rbfgrad_mark_probability] *)
Definition tune_gains (e : errors) (p : rbfgrad_parms) : rbfgrad_parms :=
  let p := p <| kp_k_1 := kp_k p |> in
  let p := p <| ki_k_1 := ki_k p |> in
  let p := p <| kd_k_1 := kd_k p |> in
  let p := p <| kp_k := (kp_k_1 p + eta_p p * n_e_k e * jacobian p * (n_e_k e - n_e_k_1 e))%D |> in
  let p := p <| ki_k := (ki_k_1 p + eta_i p * n_e_k e * jacobian p * n_e_k e)%D |> in
  let p := p <| kd_k := (kd_k_1 p + eta_d p * n_e_k e * jacobian p *
                           (n_e_k e - d2 * n_e_k_1 e + n_e_k_2 e))%D |> in
  let p := p <| kp_k := non_negative (kp_k p) |> in
  let p := p <| ki_k := non_negative (ki_k p) |> in
  p <| kd_k := non_negative (kd_k p) |>.

(** Only a network trained to the precision [E0] tunes the gains.
    [modules/sch_rbfgrad.c:679-708 rbfgrad_mark_probability] *)
Definition adapt (e : errors) (p : rbfgrad_parms) : rbfgrad_parms :=
  if dlt (gbestval p) (E0 p) then tune_gains e (jacobian_step p) else p.

(** The incremental PID law.  [modules/sch_rbfgrad.c:711-716 rbfgrad_mark_probability] *)
Definition pid_law (e : errors) (p : rbfgrad_parms) : rbfgrad_parms :=
  let p := p <| p_k_1 := p_k p |> in
  p <| p_k := (p_k_1 p + kp_k p * (n_e_k e - n_e_k_1 e) + ki_k p * n_e_k e
               + kd_k p * (n_e_k e - d2 * n_e_k_1 e + n_e_k_2 e))%D |>.

(** [modules/sch_rbfgrad.c:719-722 rbfgrad_mark_probability] *)
Definition limit_probability (p : rbfgrad_parms) : rbfgrad_parms :=
  let p := if dgt (p_k p) (p_max p) then p <| p_k := p_max p |> else p in
  if dlt (p_k p) (p_min p) then p <| p_k := p_min p |> else p.

(** One control period on the parameters; the caller counts the call in
    [prob_number].  [modules/sch_rbfgrad.c:506-722 rbfgrad_mark_probability] *)
Definition control_period `{Rng G} (p : rbfgrad_parms) (g : G) : rbfgrad_parms * G :=
  let e := load_errors p in
  let p := load_sample p in
  let '(p, g) := pso_train p g in
  (limit_probability (pid_law e (adapt e p)), g).

(** ** The sample *)

(** The five most recent probabilities, then the five most recent normalised
    queue lengths. *)
Definition sample (p : rbfgrad_parms) : list double :=
  take 5 (proba p) ++ ((fun q => d_of_Z q / queue_scale)%D <$> take 5 (queue_len p)).

Lemma length_10 {A} (l : list A) :
  length l = 10%nat -> exists a b c d e f g h i j, l = [a; b; c; d; e; f; g; h; i; j].
Proof.
  intros Hl. do 10 (destruct l as [|? l]; [discriminate|]). destruct l; [|discriminate].
  by repeat eexists.
Qed.

Lemma sample_tabulate p :
  parms_shape p ->
  (fun i => if decide (i < SAM_NUM / 2)%nat then proba p !!! i
            else (d_of_Z (queue_len p !!! (i - SAM_NUM / 2)%nat) / queue_scale)%D) <$> seq 0 SAM_NUM
  = sample p.
Proof.
  intros Hs. unfold sample.
  destruct (length_10 _ (sh_queue_len _ Hs)) as (q0&q1&q2&q3&q4&q5&q6&q7&q8&q9&->).
  by destruct (length_10 _ (sh_proba _ Hs)) as (x0&x1&x2&x3&x4&x5&x6&x7&x8&x9&->).
Qed.

Lemma load_sample_eq p :
  parms_shape p -> load_sample p = p <| jacobian := d0 |> <| SamIn := sample p |>.
Proof.
  intros Hs. unfold load_sample. cbv zeta.
  change (queue_len (p <| jacobian := d0 |>)) with (queue_len p).
  rewrite (for_n_tabulate (fun i => d_of_Z (queue_len p !!! i) / queue_scale)%D)
    by apply length_replicate.
  set (queue := _ <$> seq 0 SAM_NUM).
  rewrite <- sample_tabulate, <- (for_n_tabulate _ _ (SamIn p)) by (done || apply Hs).
  assert (forall n, (n <= SAM_NUM)%nat -> for_n n (fun i p =>
      if decide (i < SAM_NUM / 2)%nat then p <| SamIn := <[i := proba p !!! i]> (SamIn p) |>
      else p <| SamIn := <[i := queue !!! (i - SAM_NUM / 2)%nat]> (SamIn p) |>) (p <| jacobian := d0 |>)
    = p <| jacobian := d0 |> <| SamIn := for_n n (fun i l =>
      <[i := if decide (i < SAM_NUM / 2)%nat then proba p !!! i
             else (d_of_Z (queue_len p !!! (i - SAM_NUM / 2)%nat) / queue_scale)%D]> l) (SamIn p) |>)
    as Hn; [|by apply Hn].
  induction n as [|n IH]; intros Hle; [done|]. rewrite !for_n_S, IH by lia.
  destruct (decide (n < SAM_NUM / 2)%nat); [done|].
  assert (queue !!! (n - SAM_NUM / 2)%nat =
    (d_of_Z (queue_len p !!! (n - SAM_NUM / 2)%nat) / queue_scale)%D) as ->; [|done].
  unfold queue. rewrite map_lookup by (rewrite length_seq; lia).
  assert (seq 0 SAM_NUM !!! (n - SAM_NUM / 2)%nat = (n - SAM_NUM / 2)%nat) as ->; [|done].
  apply list_lookup_total_correct. by rewrite lookup_seq_lt by lia.
Qed.

(** ** Each step as an update of the fields it writes *)

Definition jacobian_of (p : rbfgrad_parms) : double :=
  for_n UNIT_NUM (fun i a =>
    let c := c_k p !!! i in
    let delta := delta_k p !!! i in
    (a + w_k p !!! i * rbf_unit (SamIn p) c delta * (c !!! 0%nat - p_k p) / (delta * delta))%D)
    (jacobian p).

Lemma jacobian_step_eq p : jacobian_step p = p <| jacobian := jacobian_of p |>.
Proof.
  unfold jacobian_step, jacobian_of. generalize UNIT_NUM as n.
  induction n as [|n IH]; [done|]. rewrite !for_n_S, IH. reflexivity.
Qed.

Lemma limit_probability_eq p :
  limit_probability p = p <| p_k := clamp (p_min p) (p_max p) (p_k p) |>.
Proof.
  unfold limit_probability, clamp. cbv zeta. destruct (dgt (p_k p) (p_max p)).
  - change (p_k (p <| p_k := p_max p |>)) with (p_max p).
    change (p_min (p <| p_k := p_max p |>)) with (p_min p).
    by destruct (dlt (p_max p) (p_min p)).
  - by destruct (dlt (p_k p) (p_min p)).
Qed.

(** The increment of the PID law. *)
Definition pid_sum (e : errors) (p : rbfgrad_parms) : double :=
  (p_k p + kp_k p * (n_e_k e - n_e_k_1 e) + ki_k p * n_e_k e
   + kd_k p * (n_e_k e - d2 * n_e_k_1 e + n_e_k_2 e))%D.

Lemma pid_law_eq e p : pid_law e p = p <| p_k_1 := p_k p |> <| p_k := pid_sum e p |>.
Proof. reflexivity. Qed.

(** Everything but what a control period writes. *)
Definition erase_control (p : rbfgrad_parms) : rbfgrad_parms :=
  erase_swarm p <| SamIn := [] |> <| jacobian := d0 |> <| kp_k := d0 |> <| kp_k_1 := d0 |>
    <| ki_k := d0 |> <| ki_k_1 := d0 |> <| kd_k := d0 |> <| kd_k_1 := d0 |>
    <| p_k := d0 |> <| p_k_1 := d0 |>.

Lemma non_negative_nn x : nn (non_negative x).
Proof.
  unfold non_negative, nn. destruct (dlt x d0) eqn:E; [by right|].
  destruct (is_nan x) eqn:En; [by left|right]. d_order.
Qed.

(** One gradient step of a gain, held at 0 from below. *)
Definition next_gain (gain rate : double) (e : errors) (j dir : double) : double :=
  non_negative (gain + rate * n_e_k e * j * dir)%D.

Lemma tune_gains_eq e p :
  tune_gains e p =
  p <| kp_k_1 := kp_k p |> <| ki_k_1 := ki_k p |> <| kd_k_1 := kd_k p |>
    <| kp_k := next_gain (kp_k p) (eta_p p) e (jacobian p) (n_e_k e - n_e_k_1 e) |>
    <| ki_k := next_gain (ki_k p) (eta_i p) e (jacobian p) (n_e_k e) |>
    <| kd_k := next_gain (kd_k p) (eta_d p) e (jacobian p)
                 (n_e_k e - d2 * n_e_k_1 e + n_e_k_2 e) |>.
Proof. unfold next_gain. reflexivity. Qed.
(** The three gains after a gradient step along the sensitivity [j]. *)
Definition gains (p : rbfgrad_parms) : double * double * double := (kp_k p, ki_k p, kd_k p).
Definition old_gains (p : rbfgrad_parms) : double * double * double := (kp_k_1 p, ki_k_1 p, kd_k_1 p).

Definition next_gains (e : errors) (j : double) (p : rbfgrad_parms) : double * double * double :=
  (next_gain (kp_k p) (eta_p p) e j (n_e_k e - n_e_k_1 e),
   next_gain (ki_k p) (eta_i p) e j (n_e_k e),
   next_gain (kd_k p) (eta_d p) e j (n_e_k e - d2 * n_e_k_1 e + n_e_k_2 e)).

Lemma adapt_spec e p :
  erase_control (adapt e p) = erase_control p /\ p_k (adapt e p) = p_k p /\
  (dlt (gbestval p) (E0 p) = true ->
     jacobian (adapt e p) = jacobian_of p /\ old_gains (adapt e p) = gains p /\
     gains (adapt e p) = next_gains e (jacobian_of p) p) /\
  (dlt (gbestval p) (E0 p) = false -> adapt e p = p).
Proof.
  unfold adapt. destruct (dlt (gbestval p) (E0 p)); [|done].
  rewrite jacobian_step_eq, tune_gains_eq. generalize (jacobian_of p). intros j. done.
Qed.

Lemma clamp_is_nan lo hi x : is_nan x = true -> is_nan (clamp lo hi x) = true.
Proof. destruct x; try discriminate. by rewrite clamp_nan. Qed.

Lemma add_is_nan x y : is_nan x = true -> is_nan (x + y)%D = true.
Proof. by destruct x. Qed.

Section Control.
Context `{RngOk G}.

(** What a control period starts its training from. *)
Definition loaded (p : rbfgrad_parms) : rbfgrad_parms :=
  p <| jacobian := d0 |> <| SamIn := sample p |>.

Lemma loaded_shape p : parms_shape p -> parms_shape (loaded p).
Proof.
  intros Hs. assert (length (sample p) = SAM_NUM) as Hl.
  { rewrite <- sample_tabulate by done. by rewrite length_fmap, length_seq. }
  destruct Hs; by constructor.
Qed.

(** The period as three updates: training, adaptation, law and clamp. *)
Lemma control_period_eq p g :
  parms_shape p ->
  let '(q, g') := pso_train (loaded p) g in
  let a := adapt (load_errors p) q in
  control_period p g =
    (a <| p_k_1 := p_k a |> <| p_k := clamp (p_min a) (p_max a) (pid_sum (load_errors p) a) |>, g').
Proof.
  intros Hs. unfold control_period. cbv zeta. rewrite load_sample_eq by done.
  fold (loaded p). destruct (pso_train (loaded p) g) as [q g'].
  by rewrite pid_law_eq, limit_probability_eq.
Qed.

Lemma control_unfold p g :
  parms_shape p -> dle (- mv p) (mv p) = true ->
  exists q a, parms_shape q /\ erase_swarm q = erase_swarm (loaded p) /\
    a = adapt (load_errors p) q /\ 0 <= gbest_index q < Z.of_nat PARTICLE_NUM /\
    control_period p g =
      (a <| p_k_1 := p_k a |> <| p_k := clamp (p_min a) (p_max a) (pid_sum (load_errors p) a) |>,
       draws (2 * UNIT_NUM * PARTICLE_NUM * MAX_EPOCH) g).
Proof.
  intros Hs Hmv. pose proof (control_period_eq p g Hs) as Heq.
  pose proof (pso_train_spec (loaded p) g (loaded_shape _ Hs) Hmv) as Ht.
  destruct (pso_train (loaded p) g) as [q g'].
  destruct Ht as (i & [Hq Hf _] & [Hi _ _ _] & Hidx & _ & _ & -> & _).
  exists q, (adapt (load_errors p) q). split; [done|]. split; [done|]. split; [done|].
  split; [lia|]. exact Heq.
Qed.

(** Training and adaptation on their own: what they keep. *)
Lemma train_frame p g :
  parms_shape p -> dle (- mv p) (mv p) = true ->
  let '(q, g') := pso_train (loaded p) g in
  let a := adapt (load_errors p) q in
  parms_shape a /\ 0 <= gbest_index a < Z.of_nat PARTICLE_NUM /\
  (mv a, p_k a, p_init a, p_min a, p_max a) = (mv p, p_k p, p_init p, p_min p, p_max p).
Proof.
  intros Hs Hmv. pose proof (pso_train_spec (loaded p) g (loaded_shape _ Hs) Hmv) as Ht.
  destruct (pso_train (loaded p) g) as [q g'].
  destruct Ht as (i & [Hq Hf _] & [Hi _ _ _] & Hidx & _). cbv zeta.
  assert (0 <= gbest_index q < Z.of_nat PARTICLE_NUM) as Hr by lia. clear Hidx.
  pose proof (erased_field (fun p => (mv p, p_k p, p_init p, p_min p, p_max p)) q (loaded p) Hf
    ltac:(done)) as He.
  unfold adapt. destruct (dlt _ _); [|done]. rewrite jacobian_step_eq, tune_gains_eq.
  split; [destruct Hq; by constructor|]. split; [exact Hr|exact He].
Qed.

Lemma erased_control {T} (f : rbfgrad_parms -> T) p p0 :
  erase_control p = erase_control p0 -> (forall p, f (erase_control p) = f p) -> f p = f p0.
Proof. intros E Hf. by rewrite <- Hf, E, Hf. Qed.

Lemma erase_loaded q p :
  erase_swarm q = erase_swarm (loaded p) -> erase_control q = erase_control p.
Proof.
  intros Hf. transitivity (erase_control (erase_swarm q)); [done|]. rewrite Hf. done.
Qed.

(** C6: The control law.  A period ends with the probability the incremental PID
    law gives for the (possibly adapted) gains, clamped to [[p_min, p_max]]: it is
    in that interval, or a NaN; the previous probability is kept in [p_k_1]. *)
Theorem control_probability (p : rbfgrad_parms) (g : G) :
  parms_shape p -> dle (- mv p) (mv p) = true -> dle (p_min p) (p_max p) = true ->
  let p' := (control_period p g).1 in
  let e := load_errors p in
  let x := (p_k p + kp_k p' * (n_e_k e - n_e_k_1 e) + ki_k p' * n_e_k e
            + kd_k p' * (n_e_k e - d2 * n_e_k_1 e + n_e_k_2 e))%D in
  p_k p' = clamp (p_min p) (p_max p) x /\ p_k_1 p' = p_k p /\
  (is_nan (p_k p') = true \/ dle (p_min p) (p_k p') = true /\ dle (p_k p') (p_max p) = true).
Proof.
  intros Hs Hmv Hmm. cbv zeta.
  destruct (control_unfold p g Hs Hmv) as (q & a & _ & Hf & -> & _ & ->). cbn [fst].
  destruct (adapt_spec (load_errors p) q) as (He & Hp & _ & _).
  set (a := adapt _ q) in *.
  assert (erase_control a = erase_control p) as Hfr by (rewrite He; by apply erase_loaded).
  assert (p_k a = p_k p) as Hpk.
  { rewrite Hp. by apply (erased_field p_k q (loaded p)). }
  assert (p_min a = p_min p) as Hmin by (by apply (erased_control p_min)).
  assert (p_max a = p_max p) as Hmax by (by apply (erased_control p_max)).
  clearbody a. unfold pid_sum. rewrite Hpk, Hmin, Hmax.
  match goal with |- context [clamp (p_min p) (p_max p) ?x] => set (y := x) end.
  split; [reflexivity|]. split; [reflexivity|].
  match goal with |- context [p_k ?s] => change (p_k s) with (clamp (p_min p) (p_max p) y) end.
  clearbody y.
  destruct (is_nan y) eqn:En; [left|right; by apply clamp_bounds].
  destruct y; try discriminate. by rewrite clamp_nan.
Qed.

(** C19: A control period keeps the dimensions of every array and changes nothing
    but the sample, the swarm, the network weights, the gains and the
    probability: the history, the errors and the configuration are those it
    started from.  The best particle's index stays in range, and the period costs
    10 * 90 * 6 * 2 = 10800 random numbers. *)
Theorem control_frame (p : rbfgrad_parms) (g : G) :
  parms_shape p -> dle (- mv p) (mv p) = true ->
  let '(p', g') := control_period p g in
  parms_shape p' /\ erase_control p' = erase_control p /\ 
  0 <= gbest_index p' < Z.of_nat PARTICLE_NUM /\ g' = draws (2 * UNIT_NUM * PARTICLE_NUM * MAX_EPOCH) g.
Proof.
  intros Hs Hmv. destruct (control_unfold p g Hs Hmv) as (q & a & Hq & Hf & -> & Hi & ->).
  destruct (adapt_spec (load_errors p) q) as (He & _ & _ & _).
  assert (parms_shape (adapt (load_errors p) q)) as Ha.
  { unfold adapt. destruct (dlt _ _); [|done]. rewrite jacobian_step_eq, tune_gains_eq.
    by destruct Hq; constructor. }
  assert (gbest_index (adapt (load_errors p) q) = gbest_index q) as Hix.
  { unfold adapt. destruct (dlt _ _); [|done]. by rewrite jacobian_step_eq, tune_gains_eq. }
  rewrite (erase_loaded q p Hf) in He. revert He Ha Hix. generalize (adapt (load_errors p) q).
  intros a He Ha Hix. split; [destruct Ha; by constructor|]. split; [exact He|].
  split; [|reflexivity]. rewrite <- Hix in Hi. exact Hi.
Qed.


(** A NaN probability is permanent: every later control period leaves it a
    NaN, since both tests of the clamp are false for it (and by
    [mark_boundaries] no packet is then ever marked). *)
Theorem control_nan_sticky (p : rbfgrad_parms) (g : G) (n : nat) :
  parms_shape p -> dle (- mv p) (mv p) = true -> is_nan (p_k p) = true ->
  is_nan (p_k (Nat.iter n (fun s => control_period s.1 s.2) (p, g)).1) = true.
Proof.
  intros Hs Hmv Hn.
  enough (forall s : rbfgrad_parms * G, parms_shape s.1 /\ dle (- mv s.1) (mv s.1) = true /\
    is_nan (p_k s.1) = true -> let s' := control_period s.1 s.2 in
    parms_shape s'.1 /\ dle (- mv s'.1) (mv s'.1) = true /\ is_nan (p_k s'.1) = true) as Hstep.
  { assert (let s := Nat.iter n (fun s => control_period s.1 s.2) (p, g) in
      parms_shape s.1 /\ dle (- mv s.1) (mv s.1) = true /\ is_nan (p_k s.1) = true) as Hall;
      [|apply Hall].
    induction n as [|n IH]; [done|]. by apply Hstep. }
  clear. intros [p g] (Hs & Hmv & Hn). cbn [fst snd] in *. cbv zeta.
  pose proof (control_frame p g Hs Hmv) as Hfr.
  destruct (control_unfold p g Hs Hmv) as (q & a & _ & Hf & Ea & _ & Eq). rewrite Eq in *.
  cbn [fst]. destruct Hfr as (Hs' & He & _).
  split; [exact Hs'|]. split.
  - assert (forall x, x = mv p -> dle (- x) x = true) as Hc by (by intros ? ->).
    apply Hc. exact (erased_control mv _ p He ltac:(done)).
  - destruct (adapt_spec (load_errors p) q) as (_ & Hp & _ & _). rewrite <- Ea in Hp.
    pose proof (erased_field p_k q (loaded p) Hf ltac:(done)) as Hq.
    change (p_k (loaded p)) with (p_k p) in Hq.
    match goal with |- is_nan (p_k ?s) = true =>
      change (p_k s) with (clamp (p_min a) (p_max a) (pid_sum (load_errors p) a)) end.
    unfold pid_sum. rewrite (eq_trans Hp Hq : p_k a = p_k p).
    apply clamp_is_nan. by do 3 apply add_is_nan.
Qed.
End Control.

(** ** Equilibrium *)

Lemma mul_zero_finite x : is_finite x = true -> exists s, (x * d0)%D = S754_zero s.
Proof. destruct x as [[]|[]| |[] m e]; intros; try discriminate; by eexists. Qed.

(** Equal up to the sign of a zero. *)
Definition same_value (x y : double) : Prop :=
  x = y \/ exists s t, x = S754_zero s /\ y = S754_zero t.

Lemma add_zero_same x y s :
  same_value x y -> is_finite y = true -> same_value (x + S754_zero s)%D y.
Proof.
  intros [->|(t & u & -> & ->)] Fy.
  - destruct y as [t|[]| |t m e]; try discriminate; [right|by left].
    destruct t, s; by repeat eexists.
  - right. destruct t, s; by repeat eexists.
Qed.

Lemma clamp_same lo hi x y :
  same_value x y -> is_finite y = true -> dle lo y = true -> dle y hi = true ->
  deq (clamp lo hi x) y = true.
Proof.
  intros Hx Fy Hlo Hhi.
  assert (dgt x hi = dgt y hi /\ dlt x lo = dlt y lo) as [E1 E2].
  { destruct Hx as [->|(s & t & -> & ->)]; [done|].
    by destruct hi as [[]|[]| |[] ? ?], lo as [[]|[]| |[] ? ?], s, t. }
  assert (dgt y hi = false) as E3 by d_order. assert (dlt y lo = false) as E4 by d_order.
  unfold clamp. rewrite E1, E3, E2, E4. destruct Hx as [->|(s & t & -> & ->)].
  - destruct y as [[]|[]| |[] m e]; try discriminate; try done;
      unfold deq, SFeqb; cbn [SFcompare]; by rewrite Z.compare_refl, Pos.compare_cont_refl.
  - by destruct s, t.
Qed.

(** At rest the controller holds still: with zero errors, finite gains and a
    probability already in the interval, the PID law and the clamp give the same
    probability (up to the sign of a zero). *)
Theorem pid_equilibrium (p : rbfgrad_parms) :
  e_k p = 0 -> e_k_1 p = 0 -> e_k_2 p = 0 ->
  is_finite (kp_k p) = true -> is_finite (ki_k p) = true -> is_finite (kd_k p) = true ->
  is_finite (p_k p) = true -> dle (p_min p) (p_k p) = true -> dle (p_k p) (p_max p) = true ->
  deq (p_k (limit_probability (pid_law (load_errors p) p))) (p_k p) = true.
Proof.
  intros E0' E1 E2 Fp Fi Fd Fk Hmin Hmax.
  rewrite pid_law_eq, limit_probability_eq.
  match goal with |- deq (p_k ?s) _ = true =>
    change (p_k s) with (clamp (p_min p) (p_max p) (pid_sum (load_errors p) p)) end.
  assert (load_errors p = mk_errors d0 d0 d0) as -> by (unfold load_errors; by rewrite E0', E1, E2).
  unfold pid_sum. cbn [n_e_k n_e_k_1 n_e_k_2].
  change (d0 - d0)%D with d0. change (d0 - d2 * d0 + d0)%D with d0.
  destruct (mul_zero_finite _ Fp) as [s1 ->], (mul_zero_finite _ Fi) as [s2 ->],
    (mul_zero_finite _ Fd) as [s3 ->].
  apply clamp_same; try assumption. do 3 (apply add_zero_same; [|exact Fk]). by left.
Qed.

(** ** Concrete instances *)

Definition rest_parms : rbfgrad_parms :=
  zero_parms <| p_k := dec 1 (-1) |> <| kp_k := d1 |> <| p_max := d1 |>.

Lemma pid_equilibrium_witness :
  deq (p_k (limit_probability (pid_law (load_errors rest_parms) rest_parms))) (p_k rest_parms) = true.
Proof. apply (pid_equilibrium rest_parms); by vm_compute. Defined.

Lemma control_probability_witness :
  parms_shape zero_parms /\ dle (- mv zero_parms) (mv zero_parms) = true /\
  dle (p_min zero_parms) (p_max zero_parms) = true /\
  let p' := (control_period zero_parms ([] : script)).1 in
  is_nan (p_k p') = true \/
  dle (p_min zero_parms) (p_k p') = true /\ dle (p_k p') (p_max zero_parms) = true.
Proof.
  split; [exact zero_parms_shape|]. split; [exact zero_parms_mv|]. split; [reflexivity|].
  apply (control_probability zero_parms ([] : script) zero_parms_shape zero_parms_mv eq_refl).
Defined.

Lemma control_frame_witness :
  parms_shape zero_parms /\ dle (- mv zero_parms) (mv zero_parms) = true /\
  let '(p', g') := control_period zero_parms ([] : script) in
  parms_shape p' /\ erase_control p' = erase_control zero_parms /\
  0 <= gbest_index p' < Z.of_nat PARTICLE_NUM /\
  g' = draws (2 * UNIT_NUM * PARTICLE_NUM * MAX_EPOCH) ([] : script).
Proof.
  split; [exact zero_parms_shape|]. split; [exact zero_parms_mv|].
  apply (control_frame zero_parms ([] : script) zero_parms_shape zero_parms_mv).
Defined.


Lemma control_nan_sticky_witness :
  let p := zero_parms <| p_k := S754_nan |> in
  parms_shape p /\
  is_nan (p_k (Nat.iter 3 (fun s => control_period s.1 s.2) (p, [] : script)).1) = true.
Proof.
  assert (parms_shape (zero_parms <| p_k := S754_nan |>)) as Hs
    by (destruct zero_parms_shape; by constructor).
  split; [exact Hs|].
  apply (control_nan_sticky (zero_parms <| p_k := S754_nan |>) ([] : script) 3 Hs); reflexivity.
Defined.
