(* ===== verification/KernelEnv.v ===== *)
(** * The kernel around the scheduler

    Everything [sch_rbfgrad.c] calls that is not in the repository: packets, the
    child queue, netlink attributes, message buffers and threads.  Each service is
    an operation of a class; what the code relies on is stated by a separate class
    of laws (the documented behaviour of the service), so that the scheduler's
    theorems are proved against the interface.  A concrete environment, whose
    child is a byte-limited FIFO, instantiates all of it. *)

From S2P Require Export Controller.

(** ** Return codes (linux/netdevice.h, asm-generic/errno.h) *)

Definition NET_XMIT_SUCCESS : Z := 0.
Definition NET_XMIT_DROP : Z := 1.
Definition NET_XMIT_CN : Z := 2.
Definition EINVAL : Z := 22.
Definition EMSGSIZE : Z := 90.

(** ** Configuration request (iproute2-3.1.0/include/linux/pkt_sched.h) *)

#[local] Set Primitive Projections.

(** The fields carry the prefix [o_].
    [iproute2-3.1.0/include/linux/pkt_sched.h:261-286 tc_rbfgrad_qopt] *)
Record tc_rbfgrad_qopt := mk_qopt {
  o_q_ref : Z;
  o_p_init : double;
  o_p_min : double;
  o_p_max : double;
  o_kp_k : double;
  o_ki_k : double;
  o_kd_k : double;
  o_eta_p : double;
  o_eta_i : double;
  o_eta_d : double;
  o_n : Z;
  o_m : Z;
  o_alpha : double;
  o_eta : double;
  o_sampl_period : Z;
  o_Scell_log : Z;
  o_limit : Z;
  o_flags : Z
}.

(** [iproute2-3.1.0/include/linux/pkt_sched.h:288-294 tc_rbfgrad_xstats] *)
Record tc_rbfgrad_xstats := mk_xstats {
  xs_early : Z;
  xs_pdrop : Z;
  xs_other : Z;
  xs_marked : Z
}.

(** [iproute2-3.1.0/include/linux/pkt_sched.h:283-283 TC_RBFGRAD_ECN] *)
Definition TC_RBFGRAD_ECN : Z := 1.
(** [iproute2-3.1.0/include/linux/pkt_sched.h:284-284 TC_RBFGRAD_HARDDROP] *)
Definition TC_RBFGRAD_HARDDROP : Z := 2.

(** [iproute2-3.1.0/include/linux/pkt_sched.h:251-257 TCA_RBFGRAD_PARMS] *)
Inductive tca_rbfgrad := TCA_RBFGRAD_UNSPEC | TCA_RBFGRAD_PARMS | TCA_RBFGRAD_STAB.

(** The counters of a [struct Qdisc] the scheduler touches: [q.qlen],
    [qstats.drops], [qstats.overlimits], [qstats.backlog], [bstats]. *)
Record Qdisc := mk_qdisc {
  qlen : Z;
  drops : Z;
  overlimits : Z;
  backlog : Z;
  b_bytes : Z;
  b_packets : Z
}.

#[local] Unset Primitive Projections.

(** ** Packets and the child queue *)

Class QdiscEnv (C Skb : Type) := {
  skb_len : Skb -> Z;
  INET_ECN_set_ce : Skb -> bool * Skb;
  net_xmit_drop_count : Z -> bool;
  qdisc_drop : Skb -> Qdisc -> Qdisc;
  qdisc_bstats_update : Skb -> Qdisc -> Qdisc;
  qdisc_enqueue : Skb -> C -> Z * C;
  child_dequeue : C -> option Skb * C;
  child_peek : C -> option Skb * C;
  child_drop : C -> option (Z * C);      (* None: the child has no drop operation *)
  qdisc_reset : C -> C;
  child_qlen : C -> Z;
  child_backlog : C -> Z;
  child_handle : C -> Z;
  qdisc_tree_decrease_qlen : C -> Z -> Qdisc -> Qdisc;
  noop_qdisc : C;
  fifo_create_dflt : Z -> Z + C           (* the error of IS_ERR, or the child *)
}.

(** What the scheduler relies on: [child_pkts] is the content of the child. *)
Class QdiscEnvOk (C Skb : Type) `{QdiscEnv C Skb} := {
  child_pkts : C -> list Skb;
  skb_len_range : forall s, 0 <= skb_len s < 2 ^ 32;
  set_ce_len : forall s, skb_len (INET_ECN_set_ce s).2 = skb_len s;
  drop_stats : forall s q, qdisc_drop s q = q <| drops := u32 (drops q + 1) |>;
  bstats_frame : forall s q,
    let q' := qdisc_bstats_update s q in
    (qlen q', drops q', overlimits q', backlog q') = (qlen q, drops q, overlimits q, backlog q);
  enqueue_ok : forall s c c', qdisc_enqueue s c = (NET_XMIT_SUCCESS, c') ->
    child_pkts c' = child_pkts c ++ [s];
  enqueue_refused : forall s c r c', qdisc_enqueue s c = (r, c') -> r <> NET_XMIT_SUCCESS ->
    child_pkts c' = child_pkts c;
  dequeue_some : forall c s c', child_dequeue c = (Some s, c') -> child_pkts c = s :: child_pkts c';
  dequeue_none : forall c c', child_dequeue c = (None, c') ->
    child_pkts c = [] /\ child_pkts c' = [];
  peek_pkts : forall c, child_pkts (child_peek c).2 = child_pkts c;
  peek_head : forall c, (child_peek c).1 = head (child_pkts c);
  drop_some : forall c n c', child_drop c = Some (n, c') -> 0 < n ->
    exists l1 s l2, child_pkts c = l1 ++ s :: l2 /\ child_pkts c' = l1 ++ l2 /\ skb_len s = n;
  drop_zero : forall c n c', child_drop c = Some (n, c') -> n <= 0 -> child_pkts c' = child_pkts c;
  reset_pkts : forall c, child_pkts (qdisc_reset c) = [];
  qlen_pkts : forall c, child_qlen c = u32 (Z.of_nat (length (child_pkts c)));
  tree_decrease : forall c n q, qdisc_tree_decrease_qlen c n q = q <| qlen := u32 (qlen q - n) |>;
  noop_pkts : child_pkts noop_qdisc = [];
  create_pkts : forall lim c, fifo_create_dflt lim = inr c -> child_pkts c = [];
  create_error : forall lim e, fifo_create_dflt lim = inl e -> e < 0
}.

(** ** Netlink

    [nla_parse_nested] returns an error or the attribute table; the payloads of
    the two attributes are read through [nla_parms] and [nla_stab]. *)

Class NetlinkEnv (Attr : Type) := {
  nla_parse_nested : Attr -> Z + (tca_rbfgrad -> option Attr);
  nla_parms : Attr -> tc_rbfgrad_qopt;
  nla_stab : Attr -> list Z
}.

Class NetlinkEnvOk (Attr : Type) `{NetlinkEnv Attr} := {
  parse_error : forall a e, nla_parse_nested a = inl e -> e < 0;
  (* the policy guarantees the length of the table *)
  stab_length : forall a tb st, nla_parse_nested a = inr tb ->
    tb TCA_RBFGRAD_STAB = Some st -> length (nla_stab st) = RBFGRAD_STAB_SIZE
}.

(** Dump messages.  An open nest is known by its place in the message; its end writes
    its length. *)
Class MsgEnv (Msg : Type) := {
  nla_nest_start : Msg -> option (Z * Msg);
  nla_put_parms : tc_rbfgrad_qopt -> Msg -> option Msg;
  nla_nest_end : Z -> Msg -> Z * Msg;
  nla_nest_cancel : option Z -> Msg -> Msg;
  gnet_stats_copy_app : tc_rbfgrad_xstats -> Msg -> Z * Msg
}.

(** ** Threads *)

Inductive thread_fn := rbfgrad_thread | rbfgrad_stop_prob_thread.

Class ThreadEnv (Tsk Th : Type) := {
  kthread_run : thread_fn -> Th -> Tsk * Th;
  kthread_stop : Tsk -> Th -> Th;
  kthread_should_stop : Tsk -> Th -> bool
}.

Class ThreadEnvOk (Tsk Th : Type) `{ThreadEnv Tsk Th} := {
  run_not_stopped : forall f th, let '(t, th') := kthread_run f th in
    kthread_should_stop t th' = false;
  run_frame : forall f th t, kthread_should_stop t th = false ->
    kthread_should_stop t (kthread_run f th).2 = false;
  stop_stops : forall t th, kthread_should_stop t (kthread_stop t th) = true
}.

(** ** A concrete environment

    A packet is its length, whether it is ECN capable and whether it carries the
    congestion mark; the child is a FIFO limited in bytes. *)

Record skb := mk_skb { len : Z; ect : bool; ce : bool }.
Record fifo := mk_fifo { f_limit : Z; f_pkts : list skb }.

Definition fifo_bytes (l : list skb) : Z := foldr (fun s n => len s mod 2 ^ 32 + n) 0 l.

Definition fifo_enqueue (s : skb) (c : fifo) : Z * fifo :=
  if fifo_bytes (f_pkts c) + len s mod 2 ^ 32 <=? f_limit c
  then (NET_XMIT_SUCCESS, mk_fifo (f_limit c) (f_pkts c ++ [s]))
  else (NET_XMIT_DROP, c).

Definition fifo_dequeue (c : fifo) : option skb * fifo :=
  match f_pkts c with
  | [] => (None, c)
  | s :: l => (Some s, mk_fifo (f_limit c) l)
  end.

Definition fifo_drop (c : fifo) : option (Z * fifo) :=
  match rev (f_pkts c) with
  | [] => Some (0, c)
  | s :: l => if 0 <? len s mod 2 ^ 32 then Some (len s mod 2 ^ 32, mk_fifo (f_limit c) (rev l))
              else Some (0, c)
  end.

#[export] Instance fifo_env : QdiscEnv fifo skb := {
  skb_len s := len s mod 2 ^ 32;
  INET_ECN_set_ce s := if ect s then (true, mk_skb (len s) (ect s) true) else (false, s);
  net_xmit_drop_count r := Z.land r 0x10000 =? 0;
  qdisc_drop s q := q <| drops := u32 (drops q + 1) |>;
  qdisc_bstats_update s q :=
    q <| b_bytes := u64 (b_bytes q + len s mod 2 ^ 32) |> <| b_packets := u32 (b_packets q + 1) |>;
  qdisc_enqueue := fifo_enqueue;
  child_dequeue := fifo_dequeue;
  child_peek c := (head (f_pkts c), c);
  child_drop := fifo_drop;
  qdisc_reset c := mk_fifo (f_limit c) [];
  child_qlen c := u32 (Z.of_nat (length (f_pkts c)));
  child_backlog c := u32 (fifo_bytes (f_pkts c));
  child_handle c := 0;
  qdisc_tree_decrease_qlen c n q := q <| qlen := u32 (qlen q - n) |>;
  noop_qdisc := mk_fifo (-1) [];
  fifo_create_dflt lim := inr (mk_fifo lim [])
}.

#[export] Program Instance fifo_env_ok : QdiscEnvOk fifo skb := {| child_pkts := f_pkts |}.
Next Obligation. intros s. apply Z.mod_pos_bound. lia. Qed.
Next Obligation. intros s. cbn. by destruct (ect s). Qed.
Next Obligation. done. Qed.
Next Obligation. done. Qed.
Next Obligation. intros s c c'. cbn. unfold fifo_enqueue. case_match; intros [= <-]; done. Qed.
Next Obligation.
  intros s c r c'. cbn. unfold fifo_enqueue. case_match; intros [= <- <-]; [done|done].
Qed.
Next Obligation.
  intros c s c'. cbn. unfold fifo_dequeue. destruct (f_pkts c) eqn:E; intros [= <- <-]. done.
Qed.
Next Obligation.
  intros c c'. cbn. unfold fifo_dequeue. destruct (f_pkts c) eqn:E; intros [= <-]. done.
Qed.
Next Obligation. done. Qed.
Next Obligation. done. Qed.
Next Obligation.
  intros c n c'. cbn. unfold fifo_drop. destruct (rev (f_pkts c)) as [|s l] eqn:E.
  - intros [= <- <-]. lia.
  - case_match; intros [= <- <-] Hn; [|lia]. exists (rev l), s, []. rewrite app_nil_r. split; [|done].
    by rewrite <- (rev_involutive (f_pkts c)), E.
Qed.
Next Obligation.
  intros c n c'. cbn. unfold fifo_drop. destruct (rev (f_pkts c)) as [|s l] eqn:E.
  - by intros [= <- <-].
  - case_match eqn:El; intros [= <- <-] Hn; [|done]. apply Z.ltb_lt in El. lia.
Qed.
Next Obligation. done. Qed.
Next Obligation. done. Qed.
Next Obligation. done. Qed.
Next Obligation. done. Qed.
Next Obligation. intros lim c. cbn. by intros [= <-]. Qed.
Next Obligation. done. Qed.

(** Attributes as they are after parsing: a request, its table, both optional. *)
Inductive attr := AReq (parms stab : option attr) | AParms (o : tc_rbfgrad_qopt) | AStab (l : list Z).

Definition zero_qopt : tc_rbfgrad_qopt :=
  mk_qopt 0 d0 d0 d0 d0 d0 d0 d0 d0 d0 0 0 d0 d0 0 0 0 0.

#[export] Instance attr_env : NetlinkEnv attr := {
  nla_parse_nested a :=
    match a with
    | AReq p s => inr (fun t => match t with
                      | TCA_RBFGRAD_PARMS => p | TCA_RBFGRAD_STAB => s | _ => None end)
    | _ => inl (- EINVAL)
    end;
  nla_parms a := match a with AParms o => o | _ => zero_qopt end;
  nla_stab a := match a with
    | AStab l => take RBFGRAD_STAB_SIZE (l ++ replicate RBFGRAD_STAB_SIZE 0)
    | _ => replicate RBFGRAD_STAB_SIZE 0 end
}.

#[export] Program Instance attr_env_ok : NetlinkEnvOk attr.
Next Obligation. intros [] e; cbn; intros [= <-]; unfold EINVAL; lia. Qed.
Next Obligation.
  intros a tb st _ _. destruct st as [| |l]; cbn [nla_stab attr_env].
  - apply length_replicate.
  - apply length_replicate.
  - rewrite length_take, length_app, length_replicate. lia.
Qed.

(** A message is the list of what was put in it, with a capacity. *)
Record msg := mk_msg { room : nat; puts : list tc_rbfgrad_qopt; apps : list tc_rbfgrad_xstats }.

#[export] Instance msg_env : MsgEnv msg := {
  nla_nest_start m := match room m with 0%nat => None | S r => Some (0, mk_msg r (puts m) (apps m)) end;
  nla_put_parms o m := match room m with 0%nat => None | S r => Some (mk_msg r (o :: puts m) (apps m)) end;
  nla_nest_end _ m := (Z.of_nat (length (puts m)), m);
  nla_nest_cancel _ m := mk_msg (room m) [] (apps m);
  gnet_stats_copy_app x m := (0, mk_msg (room m) (puts m) (x :: apps m))
}.

(** Threads as the set of tasks asked to stop. *)
Record threads := mk_threads { next_tsk : nat; stopped : list nat }.

#[export] Instance thread_env : ThreadEnv nat threads := {
  kthread_run f th := (next_tsk th, mk_threads (S (next_tsk th))
                                      (filter (fun t => t <> next_tsk th) (stopped th)));
  kthread_stop t th := mk_threads (next_tsk th) (t :: stopped th);
  kthread_should_stop t th := bool_decide (t ∈ stopped th)
}.

#[export] Program Instance thread_env_ok : ThreadEnvOk nat threads.
Next Obligation.
  intros f th. cbn. apply bool_decide_eq_false. rewrite list_elem_of_filter. by intros [? _].
Qed.
Next Obligation.
  intros f th t. cbn. rewrite !bool_decide_eq_false, list_elem_of_filter. tauto.
Qed.
Next Obligation. intros t th. cbn. apply bool_decide_eq_true. apply list_elem_of_here. Qed.
