(* ===== verification/QueueShow.v ===== *)
(** * The sample log (include/rbfgrad_queue.h, sch_rbfgrad.c)

    Every [CYC_MAX] packets the enqueue handler records a sample in the array
    [queue_show_base_rbfgrad] and shifts the history the controller trains on.
    The doubles are stored through [*(long long * )&x]. *)

From S2P Require Export KernelEnv.

(** [include/rbfgrad_queue.h:3-3 QUEUE_SHOW_MAX] *)
Definition QUEUE_SHOW_MAX : Z := 30000.
(** [modules/sch_rbfgrad.c:34-34 CYC_MAX] *)
Definition CYC_MAX : Z := 20.

#[local] Set Primitive Projections.

(** [include/rbfgrad_queue.h:7-27 queue_show] *)
Record queue_show := mk_show {
  s_numbers : Z;
  s_length : Z;
  s_mark_type : Z;
  s_jacobian : Z;
  s_NetOut : Z;
  s_p : Z;
  s_kp : Z;
  s_ki : Z;
  s_kd : Z;
  s_SamIn : list Z;
  s_SamOut : list Z;
  s_proba : list Z;
  s_queue_len : list Z;
  s_e_k : Z;
  s_e_k_1 : Z;
  s_e_k_2 : Z
}.

(** [queue_show_base_rbfgrad], [array_element_rbfgrad] and [cyc_count].
    [modules/sch_rbfgrad.c:82-83 queue_show_base_rbfgrad] *)
Record show_log := mk_log {
  queue_show_base : list queue_show;
  array_element : Z;
  cyc_count : Z
}.

#[local] Unset Primitive Projections.

#[export] Instance queue_show_inhabited : Inhabited queue_show :=
  populate (mk_show 0 0 0 0 0 0 0 0 0 (replicate SAM_NUM 0) (replicate SAM_NUM 0)
              (replicate SAM_NUM 0) (replicate SAM_NUM 0) 0 0 0).

(** The zeroed array. *)
Definition empty_log : show_log := mk_log (replicate (Z.to_nat QUEUE_SHOW_MAX) inhabitant) 0 0.

(** The entry written for the state [p] at queue length [len]; the four arrays
    keep what they held.  [modules/sch_rbfgrad.c:115-130 rbfgrad_enqueue] *)
Definition show_entry (old : queue_show) (num len : Z) (mark : action) (p : rbfgrad_parms) : queue_show :=
  old <| s_length := len |>
      <| s_numbers := num |>
      <| s_mark_type := action_code mark |>
      <| s_p := double_to_ll (p_k p) |>
      <| s_kp := double_to_ll (kp_k p) |>
      <| s_ki := double_to_ll (ki_k p) |>
      <| s_kd := double_to_ll (kd_k p) |>
      <| s_jacobian := double_to_ll (jacobian p) |>
      <| s_NetOut := double_to_ll (NetOut p !!! Z.to_nat (gbest_index p)) |>
      <| s_e_k := e_k p |>
      <| s_e_k_1 := e_k_1 p |>
      <| s_e_k_2 := e_k_2 p |>.

Definition log_write (l : show_log) (len : Z) (mark : action) (p : rbfgrad_parms) : show_log :=
  let i := Z.to_nat (array_element l) in
  l <| queue_show_base := <[i := show_entry (queue_show_base l !!! i) (array_element l) len mark p]>
         (queue_show_base l) |>.

(** The history of probabilities and queue lengths moves by one place and the
    errors by one step; the new error is an unsigned difference stored in an
    [int].  [modules/sch_rbfgrad.c:143-155 rbfgrad_enqueue] *)
Definition history_update (len : Z) (p : rbfgrad_parms) : rbfgrad_parms :=
  let p := for_down SAM_NUM (fun i p =>
    let p := p <| proba := <[i := proba p !!! (i - 1)%nat]> (proba p) |> in
    p <| queue_len := <[i := queue_len p !!! (i - 1)%nat]> (queue_len p) |>) p in
  let p := p <| proba := <[0%nat := p_k_1 p]> (proba p) |> in
  let p := p <| queue_len := <[0%nat := s32 len]> (queue_len p) |> in
  let p := p <| e_k_2 := e_k_1 p |> in
  let p := p <| e_k_1 := e_k p |> in
  p <| e_k := s32 (u32 (len - q_ref p)) |>.

(** [modules/sch_rbfgrad.c:157-158 rbfgrad_enqueue] *)
Definition log_advance (l : show_log) : show_log :=
  let l := if array_element l <? QUEUE_SHOW_MAX - 1 then l <| array_element := array_element l + 1 |> else l in
  l <| cyc_count := 0 |>.

(** The sampling block of a packet that is not marked.
    [modules/sch_rbfgrad.c:113-159 rbfgrad_enqueue] *)
Definition sample_packet (mark : action) (len : Z) (s : rbfgrad_parms * show_log) : rbfgrad_parms * show_log :=
  let '(p, l) := s in
  let l := l <| cyc_count := s32 (cyc_count l + 1) |> in
  if cyc_count l =? CYC_MAX then
    let l := log_write l len mark p in
    let p := history_update len p in
    (p, log_advance l)
  else (p, l).

(** The same block in the other branch of the switch.
    [modules/sch_rbfgrad.c:167-212 rbfgrad_enqueue] *)
Definition sample_marked_packet : Z -> rbfgrad_parms * show_log -> rbfgrad_parms * show_log :=
  sample_packet RBFGRAD_PROB_MARK.

(** ** Well-formedness *)

Record log_ok (l : show_log) : Prop := {
  lo_length : length (queue_show_base l) = Z.to_nat QUEUE_SHOW_MAX;
  lo_element : 0 <= array_element l < QUEUE_SHOW_MAX;
  lo_cyc : 0 <= cyc_count l < CYC_MAX
}.

Lemma empty_log_ok : log_ok empty_log.
Proof. constructor; [apply length_replicate|..]; cbn; unfold QUEUE_SHOW_MAX, CYC_MAX; lia. Qed.

Definition shift_cell {A} `{Inhabited A} (i : nat) (l : list A) : list A :=
  <[i := l !!! (i - 1)%nat]> l.

Lemma shift_down {A} `{Inhabited A} (l : list A) :
  length l = SAM_NUM -> for_down SAM_NUM shift_cell l = (l !!! 0%nat) :: take 9 l.
Proof. intros (a&b&c&d&e&f&g&h&i&j&->)%length_10. reflexivity. Qed.

(** The history as a shift register. *)
Lemma history_update_eq p len :
  parms_shape p ->
  history_update len p =
  p <| proba := p_k_1 p :: take 9 (proba p) |>
    <| queue_len := s32 len :: take 9 (queue_len p) |>
    <| e_k_2 := e_k_1 p |> <| e_k_1 := e_k p |> <| e_k := s32 (len - q_ref p) |>.
Proof.
  intros Hs. unfold history_update. cbv zeta.
  assert (for_down SAM_NUM (fun i p =>
    let p := p <| proba := <[i := proba p !!! (i - 1)%nat]> (proba p) |> in
    p <| queue_len := <[i := queue_len p !!! (i - 1)%nat]> (queue_len p) |>) p =
    p <| proba := for_down SAM_NUM shift_cell (proba p) |>
      <| queue_len := for_down SAM_NUM shift_cell (queue_len p) |>) as E.
  { unfold for_down. generalize (rev (seq 1 (SAM_NUM - 1))) as l. intros l. revert p Hs.
    induction l as [|i l IH]; intros p Hs; [done|]. cbn [fold_left].
    rewrite IH by (cbv zeta; pshape). reflexivity. }
  transitivity ((fun p => p <| proba := <[0%nat := p_k_1 p]> (proba p) |>
      <| queue_len := <[0%nat := s32 len]> (queue_len p) |>
      <| e_k_2 := e_k_1 p |> <| e_k_1 := e_k p |> <| e_k := s32 (u32 (len - q_ref p)) |>)
    (for_down SAM_NUM (fun i p =>
    let p := p <| proba := <[i := proba p !!! (i - 1)%nat]> (proba p) |> in
    p <| queue_len := <[i := queue_len p !!! (i - 1)%nat]> (queue_len p) |>) p)); [reflexivity|].
  rewrite E. cbv beta. rewrite !shift_down by apply Hs. rewrite s32_u32. reflexivity.
Qed.

Lemma history_update_shape p len : parms_shape p -> parms_shape (history_update len p).
Proof.
  intros Hs. rewrite history_update_eq by done.
  pose proof (sh_proba _ Hs) as H1. pose proof (sh_queue_len _ Hs) as H2.
  destruct Hs. constructor; try assumption.
  - change (S (length (take 9 (proba p))) = SAM_NUM). rewrite length_take, H1. reflexivity.
  - change (S (length (take 9 (queue_len p))) = SAM_NUM). rewrite length_take, H2. reflexivity.
Qed.

Lemma sample_packet_cases mark len p l :
  log_ok l ->
  sample_packet mark len (p, l) =
    if cyc_count l =? CYC_MAX - 1
    then (history_update len p, log_advance (log_write (l <| cyc_count := CYC_MAX |>) len mark p))
    else (p, l <| cyc_count := cyc_count l + 1 |>).
Proof.
  intros [_ _ Hc]. unfold sample_packet. cbv zeta.
  rewrite s32_small by (unfold CYC_MAX in *; lia).
  change (cyc_count (l <| cyc_count := cyc_count l + 1 |>)) with (cyc_count l + 1).
  destruct (Z.eqb_spec (cyc_count l) (CYC_MAX - 1)) as [E|E].
  - rewrite E. replace (CYC_MAX - 1 + 1) with CYC_MAX by lia. by rewrite Z.eqb_refl.
  - rewrite (proj2 (Z.eqb_neq _ _)) by lia. done.
Qed.

Lemma log_advance_write_ok l len mark p :
  log_ok l -> log_ok (log_advance (log_write (l <| cyc_count := CYC_MAX |>) len mark p)).
Proof.
  intros [Hl He Hc]. unfold log_advance, log_write. cbv zeta.
  set (b := <[_ := _]> _).
  assert (length b = Z.to_nat QUEUE_SHOW_MAX) as Hb by (unfold b; by rewrite length_insert).
  clearbody b. unfold QUEUE_SHOW_MAX, CYC_MAX in *.
  match goal with |- context [array_element ?x <? _] => change (array_element x) with (array_element l) end.
  destruct (Z.ltb_spec (array_element l) (30000 - 1)); constructor; try exact Hb.
  - change (0 <= array_element l + 1 < 30000). lia.
  - change (0 <= 0 < 20). lia.
  - change (0 <= array_element l < 30000). lia.
  - change (0 <= 0 < 20). lia.
Qed.

(** The sampling block keeps the log within its array and the parameters
    within their dimensions, for every packet. *)
Theorem sample_packet_ok (mark : action) (len : Z) (p : rbfgrad_parms) (l : show_log) :
  parms_shape p -> log_ok l ->
  let '(p', l') := sample_packet mark len (p, l) in parms_shape p' /\ log_ok l'.
Proof.
  intros Hs Hl. rewrite sample_packet_cases by done.
  destruct (Z.eqb_spec (cyc_count l) (CYC_MAX - 1)).
  - split; [by apply history_update_shape|by apply log_advance_write_ok].
  - split; [done|]. destruct Hl as [? ? ?]. constructor; [done|done|].
    change (0 <= cyc_count l + 1 < CYC_MAX). lia.
Qed.

Lemma log_advance_fields l len mark p :
  let l' := log_advance (log_write (l <| cyc_count := CYC_MAX |>) len mark p) in
  cyc_count l' = 0 /\
  array_element l' = if array_element l <? QUEUE_SHOW_MAX - 1 then array_element l + 1 else array_element l.
Proof.
  cbv zeta. unfold log_advance, log_write. cbv zeta.
  match goal with |- context [array_element ?x <? _] => change (array_element x) with (array_element l) end.
  by destruct (array_element l <? QUEUE_SHOW_MAX - 1).
Qed.

(** A sequence of packets, each with its mark and the queue length it met. *)
Definition sample_packets (pkts : list (action * Z)) (s : rbfgrad_parms * show_log) : rbfgrad_parms * show_log :=
  foldl (fun s '(mark, len) => sample_packet mark len s) s pkts.

(** The log samples one packet in [CYC_MAX], whatever the packets and their
    marks: after [n] packets the counter is [n] modulo 20 further on, and the
    write position has moved once per completed cycle until it stays on the last
    entry of the array, which later samples overwrite. *)
Theorem sampling_period (pkts : list (action * Z)) (p : rbfgrad_parms) (l : show_log) :
  log_ok l ->
  let n := Z.of_nat (length pkts) in
  let l' := (sample_packets pkts (p, l)).2 in
  cyc_count l' = (cyc_count l + n) mod CYC_MAX /\
  array_element l' = Z.min (QUEUE_SHOW_MAX - 1) (array_element l + (cyc_count l + n) / CYC_MAX).
Proof.
  cbv zeta. revert p l. induction pkts as [|[mark len] pkts IH]; intros p l Hl.
  - destruct Hl as [_ He Hc]. cbn [length sample_packets foldl snd].
    unfold QUEUE_SHOW_MAX, CYC_MAX in *. rewrite Z.add_0_r, Z.mod_small, Z.div_small by lia. lia.
  - cbn [length sample_packets foldl]. fold (sample_packets pkts).
    rewrite sample_packet_cases by done.
    destruct (Z.eqb_spec (cyc_count l) (CYC_MAX - 1)) as [Ec|Ec].
    + pose proof (log_advance_write_ok l len mark p Hl) as Hok.
      destruct (log_advance_fields l len mark p) as [F1 F2].
      set (l1 := log_advance _) in *. fold (sample_packets pkts (history_update len p, l1)).
      destruct (IH (history_update len p) l1 Hok) as [-> ->]. rewrite F1, F2, Ec.
      destruct Hl as [_ He _]. unfold QUEUE_SHOW_MAX, CYC_MAX in *.
      rewrite Nat2Z.inj_succ.
      replace (20 - 1 + Z.succ (Z.of_nat (length pkts))) with (Z.of_nat (length pkts) + 1 * 20) by lia.
      rewrite Z.mod_add, Z.div_add, Z.add_0_l by lia. split; [done|].
      assert (0 <= Z.of_nat (length pkts) / 20) by (apply Z.div_pos; lia).
      destruct (Z.ltb_spec (array_element l) (30000 - 1)); lia.
    + fold (sample_packets pkts (p, l <| cyc_count := cyc_count l + 1 |>)).
      destruct (IH p (l <| cyc_count := cyc_count l + 1 |>)) as [-> ->].
      { destruct Hl as [? ? ?]. constructor; [done|done|].
        change (0 <= cyc_count l + 1 < CYC_MAX). lia. }
      change (array_element (l <| cyc_count := cyc_count l + 1 |>)) with (array_element l).
      change (cyc_count (l <| cyc_count := cyc_count l + 1 |>)) with (cyc_count l + 1).
      rewrite Nat2Z.inj_succ.
      by replace (cyc_count l + Z.succ (Z.of_nat (length pkts)))
        with (cyc_count l + 1 + Z.of_nat (length pkts)) by lia.
Qed.

Lemma sample_due (mark : action) (len : Z) (p : rbfgrad_parms) (l : show_log) :
  parms_shape p -> log_ok l -> cyc_count l = CYC_MAX - 1 ->
  let '(p', l') := sample_packet mark len (p, l) in
  p' = p <| proba := p_k_1 p :: take 9 (proba p) |>
         <| queue_len := s32 len :: take 9 (queue_len p) |>
         <| e_k_2 := e_k_1 p |> <| e_k_1 := e_k p |> <| e_k := s32 (len - q_ref p) |> /\
  let s := queue_show_base l' !!! Z.to_nat (array_element l) in
  (s_length s, s_numbers s, s_mark_type s) = (len, array_element l, action_code mark) /\
  (s_e_k s, s_e_k_1 s, s_e_k_2 s) = (e_k p, e_k_1 p, e_k_2 p) /\
  s_p s = double_to_ll (p_k p).
Proof.
  intros Hs Hl Hc. rewrite sample_packet_cases by done. rewrite Hc, Z.eqb_refl.
  split; [by apply history_update_eq|]. cbv zeta.
  assert (forall l, queue_show_base (log_advance l) = queue_show_base l) as E.
  { intros l0. unfold log_advance. cbv zeta. by destruct (array_element l0 <? _). }
  rewrite E. unfold log_write. cbv zeta.
  set (l1 := l <| cyc_count := CYC_MAX |>).
  change (array_element l1) with (array_element l).
  change (queue_show_base l1) with (queue_show_base l).
  match goal with |- context [queue_show_base (_ <| queue_show_base := ?b |>)] =>
    change (queue_show_base (l1 <| queue_show_base := b |>)) with b end.
  rewrite list_lookup_total_insert_eq by (rewrite (lo_length _ Hl); pose proof (lo_element _ Hl); lia).
  done.
Qed.

(** A sample takes the state of the controller before the history moves, and
    the history is a shift register: the previous probability and the queue
    length enter at the front and the oldest sample drops out; the errors move
    one step and the new one is the distance to the reference length. *)
Theorem sample_effect (mark : action) (len : Z) (p : rbfgrad_parms) (l : show_log) :
  parms_shape p -> log_ok l -> cyc_count l = CYC_MAX - 1 ->
  let '(p', l') := sample_packet mark len (p, l) in
  p' = p <| proba := p_k_1 p :: take 9 (proba p) |>
         <| queue_len := s32 len :: take 9 (queue_len p) |>
         <| e_k_2 := e_k_1 p |> <| e_k_1 := e_k p |> <| e_k := s32 (len - q_ref p) |> /\
  let s := queue_show_base l' !!! Z.to_nat (array_element l) in
  (s_length s, s_numbers s, s_mark_type s) = (len, array_element l, action_code mark) /\
  (s_e_k s, s_e_k_1 s, s_e_k_2 s) = (e_k p, e_k_1 p, e_k_2 p) /\
  s_p s = double_to_ll (p_k p).
Proof. apply sample_due. Qed.

Lemma sample_packet_ok_witness :
  parms_shape zero_parms /\ log_ok empty_log /\
  let '(p', l') := sample_packet RBFGRAD_DONT_MARK 5 (zero_parms, empty_log) in
  parms_shape p' /\ log_ok l'.
Proof.
  split; [exact zero_parms_shape|]. split; [exact empty_log_ok|].
  apply (sample_packet_ok RBFGRAD_DONT_MARK 5 zero_parms empty_log zero_parms_shape empty_log_ok).
Defined.

Lemma sampling_period_witness :
  log_ok empty_log /\
  let l' := (sample_packets (replicate 45 (RBFGRAD_DONT_MARK, 7)) (zero_parms, empty_log)).2 in
  cyc_count l' = 5 /\ array_element l' = 2.
Proof.
  split; [exact empty_log_ok|].
  apply (sampling_period (replicate 45 (RBFGRAD_DONT_MARK, 7)) zero_parms empty_log empty_log_ok).
Defined.

Definition due_log : show_log := empty_log <| cyc_count := 19 |>.

Lemma due_log_ok : log_ok due_log.
Proof. constructor; [apply length_replicate|..]; cbn; unfold QUEUE_SHOW_MAX, CYC_MAX; lia. Qed.

Lemma sample_effect_witness :
  parms_shape zero_parms /\ log_ok due_log /\ cyc_count due_log = CYC_MAX - 1 /\
  let '(p', l') := sample_packet RBFGRAD_PROB_MARK 12 (zero_parms, due_log) in
  s_length (queue_show_base l' !!! 0%nat) = 12.
Proof.
  split; [exact zero_parms_shape|]. split; [exact due_log_ok|]. split; [reflexivity|].
  pose proof (sample_effect RBFGRAD_PROB_MARK 12 zero_parms due_log zero_parms_shape due_log_ok eq_refl)
    as Hs.
  destruct (sample_packet RBFGRAD_PROB_MARK 12 (zero_parms, due_log)) as [p' l'].
  destruct Hs as (_ & E & _). by injection E.
Defined.
