(* ===== verification/Qdisc.v ===== *)
(** * The queueing discipline (modules/sch_rbfgrad.c)

    One definition per handler of [rbfgrad_qdisc_ops] and [rbfgrad_class_ops], on
    an explicit [world]: the scheduler's private data, the counters of its
    [struct Qdisc], the module's globals and what the code uses of the kernel.
    [alive] is false once the core has freed the qdisc after [destroy]. *)

From S2P Require Export QueueShow.

#[local] Set Primitive Projections.

(** The private data of a scheduler instance.
    [modules/sch_rbfgrad.c:71-80 rbfgrad_sched_data] *)
Record rbfgrad_sched_data (C : Type) := mk_data {
  limit : Z;
  flags : Z;
  parms : rbfgrad_parms;
  stats : rbfgrad_stats;
  qdisc : C
}.
Global Arguments mk_data {C} _ _ _ _ _.
Global Arguments limit {C} _.
Global Arguments flags {C} _.
Global Arguments parms {C} _.
Global Arguments stats {C} _.
Global Arguments qdisc {C} _.

(** Everything the handlers read and write. *)
Record world (C G Tsk Th : Type) := mk_world {
  q : rbfgrad_sched_data C;
  sch : Qdisc;
  log : show_log;
  prob_number : Z;
  pkg_number : Z;
  tsk_prob : option Tsk;
  tsk_stop_prob : option Tsk;
  kctx_of : kctx G;
  thr : Th;
  tree_lock : Z;
  destroyed : list C;
  alive : bool
}.
Global Arguments mk_world {C G Tsk Th} _ _ _ _ _ _ _ _ _ _ _ _.
Global Arguments q {C G Tsk Th} _.
Global Arguments sch {C G Tsk Th} _.
Global Arguments log {C G Tsk Th} _.
Global Arguments prob_number {C G Tsk Th} _.
Global Arguments pkg_number {C G Tsk Th} _.
Global Arguments tsk_prob {C G Tsk Th} _.
Global Arguments tsk_stop_prob {C G Tsk Th} _.
Global Arguments kctx_of {C G Tsk Th} _.
Global Arguments thr {C G Tsk Th} _.
Global Arguments tree_lock {C G Tsk Th} _.
Global Arguments destroyed {C G Tsk Th} _.
Global Arguments alive {C G Tsk Th} _.

#[local] Unset Primitive Projections.

(** [PROB_TIME], in milliseconds.  [modules/sch_rbfgrad.c:54-54 PROB_TIME] *)
Definition PROB_TIME : Z := 55000.

(** [modules/sch_rbfgrad.c:88-91 rbfgrad_use_ecn] *)
Definition rbfgrad_use_ecn {C} (d : rbfgrad_sched_data C) : bool :=
  negb (Z.land (flags d) TC_RBFGRAD_ECN =? 0).

(** [modules/sch_rbfgrad.c:93-96 rbfgrad_use_harddrop] *)
Definition rbfgrad_use_harddrop {C} (d : rbfgrad_sched_data C) : bool :=
  negb (Z.land (flags d) TC_RBFGRAD_HARDDROP =? 0).

Section Handlers.
Context {C G Skb Attr Msg Tsk Th : Type}.
Context `{QdiscEnv C Skb} `{Rng G} `{NetlinkEnv Attr} `{MsgEnv Msg} `{ThreadEnv Tsk Th}.

Abbreviation W := (world C G Tsk Th).
Implicit Types (w : W) (d : rbfgrad_sched_data C).

(** Updates of the nested records. *)
Definition upd_q (f : rbfgrad_sched_data C -> rbfgrad_sched_data C) w : W := w <| q := f (q w) |>.
Definition upd_sch (f : Qdisc -> Qdisc) w : W := w <| sch := f (sch w) |>.
Definition upd_parms (f : rbfgrad_parms -> rbfgrad_parms) w : W :=
  upd_q (fun d => d <| parms := f (parms d) |>) w.
Definition upd_stats (f : rbfgrad_stats -> rbfgrad_stats) w : W :=
  upd_q (fun d => d <| stats := f (stats d) |>) w.

(** ** Packets *)

(** The sampling block on the world. *)
Definition sample_world (mark : action) w : W :=
  let '(p, l) := sample_packet mark (qlen (sch w)) (parms (q w), log w) in
  upd_parms (fun _ => p) (w <| log := l |>).

(** [goto congestion_drop].  [modules/sch_rbfgrad.c:244-246 rbfgrad_enqueue] *)
Definition congestion_drop (skb : Skb) w : Z * W :=
  (NET_XMIT_CN, upd_sch (qdisc_drop skb) w).

(** The hand-over to the child and its accounting.
    [modules/sch_rbfgrad.c:225-242 rbfgrad_enqueue] *)
Definition child_enqueue (skb : Skb) w : Z * W :=
  let '(ret, c) := qdisc_enqueue skb (qdisc (q w)) in
  let w := upd_q (fun d => d <| qdisc := c |>) w in
  if ret =? NET_XMIT_SUCCESS then
    let w := upd_sch (fun s => s <| qlen := u32 (qlen s + 1) |>) w in
    (ret, upd_sch (fun s => s <| backlog := u32 (backlog s + skb_len skb) |>) w)
  else if net_xmit_drop_count ret then
    let w := upd_stats (fun s => s <| pdrop := u32 (pdrop s + 1) |>) w in
    (ret, upd_sch (fun s => s <| drops := u32 (drops s + 1) |>) w)
  else (ret, w).

(** The marked packet: ECN if the packet allows it, else dropped.
    [modules/sch_rbfgrad.c:214-222 rbfgrad_enqueue] *)
Definition mark_packet (skb : Skb) w : W * option Skb :=
  let w := upd_sch (fun s => s <| overlimits := u32 (overlimits s + 1) |>) w in
  if rbfgrad_use_ecn (q w) then
    let '(ok, skb') := INET_ECN_set_ce skb in
    if ok then (upd_stats (fun s => s <| prob_mark := u32 (prob_mark s + 1) |>) w, Some skb')
    else (upd_stats (fun s => s <| prob_drop := u32 (prob_drop s + 1) |>) w, None)
  else (upd_stats (fun s => s <| prob_drop := u32 (prob_drop s + 1) |>) w, None).

(** [modules/sch_rbfgrad.c:98-247 rbfgrad_enqueue] *)
Definition rbfgrad_enqueue (skb : Skb) w : Z * W :=
  let w := w <| pkg_number := s32 (pkg_number w + 1) |> in
  let '(a, k) := rbfgrad_action (parms (q w)) (kctx_of w) in
  let w := w <| kctx_of := k |> in
  match a with
  | RBFGRAD_DONT_MARK => child_enqueue skb (sample_world RBFGRAD_DONT_MARK w)
  | RBFGRAD_PROB_MARK =>
      let '(w, out) := mark_packet skb (sample_world RBFGRAD_PROB_MARK w) in
      match out with
      | None => congestion_drop skb w
      | Some skb' => child_enqueue skb' w
      end
  end.

(** [modules/sch_rbfgrad.c:249-265 rbfgrad_dequeue] *)
Definition rbfgrad_dequeue w : option Skb * W :=
  let '(r, c) := child_dequeue (qdisc (q w)) in
  let w := upd_q (fun d => d <| qdisc := c |>) w in
  match r with
  | Some skb =>
      let w := upd_sch (qdisc_bstats_update skb) w in
      let w := upd_sch (fun s => s <| backlog := u32 (backlog s - skb_len skb) |>) w in
      (Some skb, upd_sch (fun s => s <| qlen := u32 (qlen s - 1) |>) w)
  | None => (None, w)
  end.

(** [modules/sch_rbfgrad.c:267-273 rbfgrad_peek] *)
Definition rbfgrad_peek w : option Skb * W :=
  let '(r, c) := child_peek (qdisc (q w)) in (r, upd_q (fun d => d <| qdisc := c |>) w).

(** [modules/sch_rbfgrad.c:275-292 rbfgrad_drop] *)
Definition rbfgrad_drop w : Z * W :=
  match child_drop (qdisc (q w)) with
  | None => (0, w)
  | Some (len, c) =>
      let w := upd_q (fun d => d <| qdisc := c |>) w in
      if 0 <? len then
        let w := upd_sch (fun s => s <| backlog := u32 (backlog s - len) |>) w in
        let w := upd_stats (fun s => s <| other := u32 (other s + 1) |>) w in
        let w := upd_sch (fun s => s <| drops := u32 (drops s + 1) |>) w in
        let w := upd_sch (fun s => s <| qlen := u32 (qlen s - 1) |>) w in
        (len, w)
      else (0, w)
  end.

(** ** Life cycle *)

(** [modules/sch_rbfgrad.c:294-307 rbfgrad_reset] *)
Definition rbfgrad_reset w : W :=
  let w := upd_q (fun d => d <| qdisc := qdisc_reset (qdisc d) |>) w in
  let w := upd_sch (fun s => s <| backlog := 0 |>) w in
  let w := upd_sch (fun s => s <| qlen := 0 |>) w in
  let w := w <| log := (log w) <| array_element := 0 |> |> in
  upd_parms rbfgrad_restart w.

(** The calls that stop the threads are commented out.
    [modules/sch_rbfgrad.c:309-328 rbfgrad_destroy] *)
Definition rbfgrad_destroy w : W :=
  let w := w <| log := (log w) <| array_element := 0 |> |> in
  let w := w <| kctx_of := kernel_fpu_end (kctx_of w) |> in
  w <| destroyed := qdisc (q w) :: destroyed w |>.

Definition sch_tree_lock w : W := w <| tree_lock := tree_lock w + 1 |>.
Definition sch_tree_unlock w : W := w <| tree_lock := tree_lock w - 1 |>.

(** [modules/sch_rbfgrad.c:376-380 rbfgrad_change] *)
Definition replace_child (child : option C) w : W :=
  match child with
  | Some c =>
      let w := upd_sch (qdisc_tree_decrease_qlen (qdisc (q w)) (child_qlen (qdisc (q w)))) w in
      let w := w <| destroyed := qdisc (q w) :: destroyed w |> in
      upd_q (fun d => d <| qdisc := c |>) w
  | None => w
  end.

(** The part under the tree lock: the request is installed, the child replaced.
    [modules/sch_rbfgrad.c:373-397 rbfgrad_change] *)
Definition install_request (ctl : tc_rbfgrad_qopt) (stab : list Z) (child : option C) w : W :=
  let w := sch_tree_lock w in
  let w := upd_q (fun d => d <| flags := u8 (o_flags ctl) |>) w in
  let w := upd_q (fun d => d <| limit := o_limit ctl |>) w in
  let w := replace_child child w in
  let '(p, k) := rbfgrad_set_parms (parms (q w)) (kctx_of w) (o_sampl_period ctl) (o_q_ref ctl)
    (o_p_init ctl) (o_p_min ctl) (o_p_max ctl) (o_kp_k ctl) (o_ki_k ctl) (o_kd_k ctl)
    (o_eta_p ctl) (o_eta_i ctl) (o_eta_d ctl) (o_n ctl) (o_m ctl) (o_alpha ctl) (o_eta ctl)
    (o_Scell_log ctl) stab in
  let w := upd_parms (fun _ => p) w in
  let w := w <| kctx_of := k |> in
  let w := w <| log := (log w) <| array_element := 0 |> |> in
  sch_tree_unlock w.

(** [modules/sch_rbfgrad.c:345-398 rbfgrad_change] *)
Definition rbfgrad_change (opt : option Attr) w : Z * W :=
  match opt with
  | None => (- EINVAL, w)
  | Some a =>
      match nla_parse_nested a with
      | inl err => (err, w)
      | inr tb =>
          match tb TCA_RBFGRAD_PARMS, tb TCA_RBFGRAD_STAB with
          | Some pa, Some sa =>
              let ctl := nla_parms pa in
              if 0 <? o_limit ctl then
                match fifo_create_dflt (o_limit ctl) with
                | inl err => (err, w)
                | inr c => (0, install_request ctl (nla_stab sa) (Some c) w)
                end
              else (0, install_request ctl (nla_stab sa) None w)
          | _, _ => (- EINVAL, w)
          end
      end
  end.

(** The result of [rbfgrad_change] does not stop the threads from starting.
    [modules/sch_rbfgrad.c:728-763 rbfgrad_init] *)
Definition rbfgrad_init (opt : option Attr) w : Z * W :=
  let w := w <| kctx_of := kernel_fpu_begin (kctx_of w) |> in
  let w := w <| log := (log w) <| array_element := 0 |> |> in
  let w := w <| log := (log w) <| cyc_count := 0 |> |> in
  let w := w <| prob_number := 0 |> in
  let w := w <| pkg_number := 0 |> in
  let w := upd_q (fun d => d <| qdisc := noop_qdisc |>) w in
  let '(ret, w) := rbfgrad_change opt w in
  let '(t1, th) := kthread_run rbfgrad_thread (thr w) in
  let w := w <| tsk_prob := Some t1 |> <| thr := th |> in
  let '(t2, th) := kthread_run rbfgrad_stop_prob_thread (thr w) in
  let w := w <| tsk_stop_prob := Some t2 |> <| thr := th |> in
  (ret, w).

(** ** Threads *)

(** The control period on the world.  [modules/sch_rbfgrad.c:458-725 rbfgrad_mark_probability] *)
Definition rbfgrad_mark_probability w : W :=
  let '(p, g) := control_period (parms (q w)) (rng (kctx_of w)) in
  let w := upd_parms (fun _ => p) w in
  let w := w <| kctx_of := (kctx_of w) <| rng := g |> |> in
  w <| prob_number := s32 (prob_number w + 1) |>.

(** One turn of the loop: the period, and whether the loop goes on.  The thread
    [t] runs on the qdisc it was given, which may have been freed.
    [modules/sch_rbfgrad.c:400-412 rbfgrad_thread_func] *)
Definition rbfgrad_thread_func (t : Tsk) w : option (bool * W) :=
  if alive w then
    let w := rbfgrad_mark_probability w in
    Some (negb (kthread_should_stop t (thr w)), w)
  else None.

(** After [PROB_TIME] milliseconds the control thread is stopped.
    [modules/sch_rbfgrad.c:413-418 rbfgrad_stop_prob_thread_func] *)
Definition rbfgrad_stop_prob_thread_func w : W :=
  match tsk_prob w with
  | Some t => w <| thr := kthread_stop t (thr w) |>
  | None => w
  end.

(** ** Reports *)

(** The fields the initialiser does not name are zero.
    [modules/sch_rbfgrad.c:769-784 rbfgrad_dump] *)
Definition dump_opt w : tc_rbfgrad_qopt :=
  let p := parms (q w) in
  mk_qopt (q_ref p) d0 d0 (p_max p) (kp_k p) (ki_k p) (kd_k p) (eta_p p) (eta_i p) (eta_d p)
    (parms_n p) (parms_m p) (alpha p) (eta p) (sampl_period p) 0 (limit (q w)) 0.

(** [modules/sch_rbfgrad.c:765-796 rbfgrad_dump] *)
Definition rbfgrad_dump (m : Msg) w : Z * Msg * W :=
  let opt := dump_opt w in
  let w := upd_sch (fun s => s <| backlog := child_backlog (qdisc (q w)) |>) w in
  match nla_nest_start m with
  | None => (- EMSGSIZE, nla_nest_cancel None m, w)
  | Some (opts, m) =>
      match nla_put_parms opt m with
      | None => (- EMSGSIZE, nla_nest_cancel (Some opts) m, w)
      | Some m => (nla_nest_end opts m, w)
      end
  end.

(** [modules/sch_rbfgrad.c:798-809 rbfgrad_dump_stats] *)
Definition xstats_of (s : rbfgrad_stats) : tc_rbfgrad_xstats :=
  mk_xstats (u32 (prob_drop s + forced_drop s)) (pdrop s) (other s)
    (u32 (prob_mark s + forced_mark s)).
Definition rbfgrad_dump_stats (m : Msg) w : Z * Msg :=
  gnet_stats_copy_app (xstats_of (stats (q w))) m.

(** ** The single class *)

(** [tcm_handle] and [tcm_info].  [modules/sch_rbfgrad.c:811-819 rbfgrad_dump_class] *)
Definition rbfgrad_dump_class (tcm_handle : Z) w : Z * (Z * Z) :=
  (0, (Z.lor tcm_handle (Z.land 1 0xFFFF), child_handle (qdisc (q w)))).

(** [modules/sch_rbfgrad.c:821-836 rbfgrad_graft] *)
Definition rbfgrad_graft (new : option C) w : Z * C * W :=
  let new := match new with None => noop_qdisc | Some c => c end in
  let w := sch_tree_lock w in
  let old := qdisc (q w) in
  let w := upd_q (fun d => d <| qdisc := new |>) w in
  let w := upd_sch (qdisc_tree_decrease_qlen old (child_qlen old)) w in
  let old := qdisc_reset old in
  (0, old, sch_tree_unlock w).

(** [modules/sch_rbfgrad.c:838-842 rbfgrad_leaf] *)
Definition rbfgrad_leaf w : C := qdisc (q w).

(** [modules/sch_rbfgrad.c:844-847 rbfgrad_get] *)
Definition rbfgrad_get (classid : Z) : Z := 1.

(** [modules/sch_rbfgrad.c:849-851 rbfgrad_put] *)
Definition rbfgrad_put w : W := w.

(** The walker: [stop], [skip], [count] and the caller's function, which works on
    a state of its own. *)
Record qdisc_walker := mk_walker { w_stop : bool; w_skip : Z; w_count : Z }.

(** [modules/sch_rbfgrad.c:853-863 rbfgrad_walk] *)
Definition rbfgrad_walk {U} (fn : Z -> U -> Z * U) (wk : qdisc_walker) (u : U) : qdisc_walker * U :=
  if w_stop wk then (wk, u)
  else if w_skip wk <=? w_count wk then
    let '(r, u) := fn 1 u in
    if r <? 0 then (mk_walker true (w_skip wk) (w_count wk), u)
    else (mk_walker (w_stop wk) (w_skip wk) (s32 (w_count wk + 1)), u)
  else (mk_walker (w_stop wk) (w_skip wk) (s32 (w_count wk + 1)), u).

End Handlers.
