(* ===== verification/QdiscInv.v ===== *)
(** * Invariant and refinement of the queueing discipline

    The scheduler is a step relation: any handler may run at any time, and the
    control thread works in three steps between which handlers interleave, as
    nothing synchronises them.  [world_ok] is the invariant; the abstract machine
    [aqm_step] is a FIFO of packets that may refuse or mark a packet on entry. *)

From S2P Require Export Qdisc.

(** ** The parameters *)

Record parms_inv (p : rbfgrad_parms) : Prop := {
  pi_shape : parms_shape p;
  pi_mv : dle (- mv p) (mv p) = true;
  pi_gbest : 0 <= gbest_index p < Z.of_nat PARTICLE_NUM
}.

(** The probability is the initial one or a clamped one. *)
Definition prob_ok (p : rbfgrad_parms) : Prop :=
  p_k p = p_init p \/ exists y, p_k p = clamp (p_min p) (p_max p) y.

Lemma prob_ok_eq p p' :
  (p_k p', p_init p', p_min p', p_max p') = (p_k p, p_init p, p_min p, p_max p) ->
  prob_ok p -> prob_ok p'.
Proof. unfold prob_ok. by intros [= -> -> -> ->]. Qed.

Lemma zero_parms_inv : parms_inv zero_parms.
Proof. constructor; [exact zero_parms_shape|reflexivity|]. cbn. unfold PARTICLE_NUM. lia. Qed.

(** The fields the sampling block leaves alone. *)
Lemma sample_packet_frame {T} (f : rbfgrad_parms -> T) mark len p l :
  parms_shape p -> log_ok l ->
  (forall p a b c d e, f (p <| proba := a |> <| queue_len := b |> <| e_k_2 := c |>
     <| e_k_1 := d |> <| e_k := e |>) = f p) ->
  f (sample_packet mark len (p, l)).1 = f p.
Proof.
  intros Hs Hl Hf. rewrite sample_packet_cases by done.
  destruct (cyc_count l =? CYC_MAX - 1); [|done]. cbn [fst].
  rewrite history_update_eq by done. apply Hf.
Qed.

Lemma sample_packet_inv mark len p l :
  parms_inv p -> log_ok l ->
  parms_inv (sample_packet mark len (p, l)).1 /\ log_ok (sample_packet mark len (p, l)).2 /\
  (prob_ok p -> prob_ok (sample_packet mark len (p, l)).1).
Proof.
  intros [Hs Hm Hg] Hl. pose proof (sample_packet_ok mark len p l Hs Hl) as Hok.
  pose proof (sample_packet_frame mv mark len p l Hs Hl ltac:(done)) as Fm.
  pose proof (sample_packet_frame gbest_index mark len p l Hs Hl ltac:(done)) as Fg.
  pose proof (sample_packet_frame (fun p => (p_k p, p_init p, p_min p, p_max p)) mark len p l Hs Hl
    ltac:(done)) as Fp.
  destruct (sample_packet mark len (p, l)) as [p' l']. cbn [fst snd] in *.
  destruct Hok as [Hs' Hl']. split; [|split; [done|]].
  - constructor; [done| |].
    + exact (eq_ind_r (fun x => dle (- x) x = true) Hm Fm).
    + exact (eq_ind_r (fun x => 0 <= x < Z.of_nat PARTICLE_NUM) Hg Fg).
  - exact (prob_ok_eq p p' Fp).
Qed.

Section Invariant.
Context {C G Skb Attr Msg Tsk Th : Type}.
Context `{QdiscEnvOk C Skb} `{RngOk G} `{NetlinkEnvOk Attr} `{MsgEnv Msg} `{ThreadEnv Tsk Th}.

Abbreviation W := (world C G Tsk Th).
Implicit Types (w : W) (l : list Skb).

(** [l] is the content of the queue; [F] and [L] are the nesting of
    floating-point sections and of the tree lock. *)
Record world_ok (F L : Z) w l : Prop := {
  wo_parms : parms_inv (parms (q w));
  wo_log : log_ok (log w);
  wo_pkts : child_pkts (qdisc (q w)) = l;
  wo_qlen : qlen (sch w) = u32 (Z.of_nat (length l));
  wo_fpu : fpu_depth (kctx_of w) = F;
  wo_lock : tree_lock w = L
}.

(** ** Packets *)

Lemma sample_world_ok F L w l mark :
  world_ok F L w l -> world_ok F L (sample_world mark w) l /\
  (prob_ok (parms (q w)) -> prob_ok (parms (q (sample_world mark w)))).
Proof.
  intros [Hp Hl Hk Hq Hf HL]. unfold sample_world.
  pose proof (sample_packet_inv mark (qlen (sch w)) _ _ Hp Hl) as (H1' & H2' & H3').
  destruct (sample_packet mark (qlen (sch w)) (parms (q w), log w)) as [p' l']. cbn [fst snd] in *.
  split; [by constructor|exact H3'].
Qed.

Lemma u32_succ n : u32 (u32 (Z.of_nat n) + 1) = u32 (Z.of_nat (S n)).
Proof. machine_int. Qed.

Lemma u32_pred n : u32 (u32 (Z.of_nat (S n)) - 1) = u32 (Z.of_nat n).
Proof. machine_int. Qed.

Lemma child_enqueue_ok F L w l skb :
  world_ok F L w l ->
  let '(r, w') := child_enqueue skb w in
  world_ok F L w' (if r =? NET_XMIT_SUCCESS then l ++ [skb] else l) /\
  parms (q w') = parms (q w).
Proof.
  intros [Hp Hl Hk Hq Hf HL]. unfold child_enqueue.
  destruct (qdisc_enqueue skb (qdisc (q w))) as [r c] eqn:E. cbv zeta.
  destruct (Z.eqb_spec r NET_XMIT_SUCCESS) as [->|Hr].
  - apply enqueue_ok in E. rewrite Z.eqb_refl. split; [|done].
    constructor; [done|done|by rewrite <- Hk| |done|done].
    change (u32 (qlen (sch w) + 1) = u32 (Z.of_nat (length (l ++ [skb])))).
    by rewrite Hq, length_app, Nat.add_1_r, u32_succ.
  - pose proof (enqueue_refused _ _ _ _ E Hr) as Ec.
    destruct (net_xmit_drop_count r); rewrite (proj2 (Z.eqb_neq _ _)) by done;
      (split; [|done]); constructor; try done; by rewrite <- Hk.
Qed.

Lemma upd_stats_ok F L w l f : world_ok F L w l -> world_ok F L (upd_stats f w) l.
Proof. intros []. by constructor. Qed.

Lemma mark_packet_ok F L w l skb :
  world_ok F L w l ->
  let '(w', out) := mark_packet skb w in
  world_ok F L w' l /\ parms (q w') = parms (q w) /\
  (forall s, out = Some s -> s = (INET_ECN_set_ce skb).2 /\ (INET_ECN_set_ce skb).1 = true).
Proof.
  intros Hw. unfold mark_packet. cbv zeta.
  set (w1 := upd_sch _ w).
  assert (world_ok F L w1 l) as Hw1 by (destruct Hw; by constructor).
  destruct (rbfgrad_use_ecn (q w1)); [destruct (INET_ECN_set_ce skb) as [[] s']|];
    (split; [by apply upd_stats_ok|split; [done|]]); intros s; [|done|done].
  by intros [= ->].
Qed.

Lemma congestion_drop_ok F L w l skb :
  world_ok F L w l -> world_ok F L (congestion_drop skb w).2 l.
Proof.
  intros [Hp Hl Hk Hq Hf HL]. constructor; try done. unfold congestion_drop. cbn [snd].
  change (qlen (qdisc_drop skb (sch w)) = u32 (Z.of_nat (length l))). by rewrite drop_stats.
Qed.

(** The packet that enters the queue is the one offered, possibly with the
    congestion mark. *)
Definition entering (skb s : Skb) : Prop :=
  s = skb \/ s = (INET_ECN_set_ce skb).2 /\ (INET_ECN_set_ce skb).1 = true.

Lemma rbfgrad_enqueue_ok F L w l skb :
  world_ok F L w l ->
  let '(r, w') := rbfgrad_enqueue skb w in
  (exists s, entering skb s /\ world_ok F L w' (if r =? NET_XMIT_SUCCESS then l ++ [s] else l)) /\
  (prob_ok (parms (q w)) -> prob_ok (parms (q w'))).
Proof.
  intros Hw. unfold rbfgrad_enqueue. cbv zeta.
  set (w0 := w <| pkg_number := _ |>).
  change (parms (q w0)) with (parms (q w)). change (kctx_of w0) with (kctx_of w).
  rewrite rbfgrad_action_eq. cbv zeta.
  set (g' := (random32 _).2). set (w1 := w0 <| kctx_of := _ |>).
  assert (world_ok F L w1 l) as Hw1.
  { destruct Hw. constructor; try done.
    change (fpu_depth (kctx_of w) + 1 - 1 = F). rewrite <- wo_fpu0. lia. }
  change (prob_ok (parms (q w))) with (prob_ok (parms (q w1))). clearbody w1. clear w0 g'.
  destruct (_ <? _).
  - destruct (sample_world_ok F L w1 l RBFGRAD_PROB_MARK Hw1) as [Hw2 Hp2].
    pose proof (mark_packet_ok F L _ l skb Hw2) as Hm.
    destruct (mark_packet skb (sample_world RBFGRAD_PROB_MARK w1)) as [w3 [s|]];
      destruct Hm as (Hw3 & E3 & Hs).
    + pose proof (child_enqueue_ok F L w3 l s Hw3) as Hc.
      destruct (child_enqueue s w3) as [r w']. destruct Hc as [Hc Ec].
      split; [exists s; split; [right; by apply Hs|done]|]. by rewrite Ec, E3.
    + pose proof (congestion_drop_ok F L w3 l skb Hw3) as Hd. unfold congestion_drop in *.
      cbn [snd] in Hd. split; [exists skb; split; [by left|done]|].
      intros Hpr. change (prob_ok (parms (q w3))). rewrite E3. by apply Hp2.
  - destruct (sample_world_ok F L w1 l RBFGRAD_DONT_MARK Hw1) as [Hw2 Hp2].
    pose proof (child_enqueue_ok F L _ l skb Hw2) as Hc.
    destruct (child_enqueue skb (sample_world RBFGRAD_DONT_MARK w1)) as [r w']. destruct Hc as [Hc Ec].
    split; [exists skb; split; [by left|done]|]. by rewrite Ec.
Qed.

Lemma rbfgrad_dequeue_ok F L w l :
  world_ok F L w l ->
  let '(r, w') := rbfgrad_dequeue w in
  parms (q w') = parms (q w) /\
  match r with
  | Some s => exists l', l = s :: l' /\ world_ok F L w' l'
  | None => l = [] /\ world_ok F L w' []
  end.
Proof.
  intros [Hp Hl Hk Hq Hf HL]. unfold rbfgrad_dequeue.
  destruct (child_dequeue (qdisc (q w))) as [[s|] c] eqn:E; cbv zeta.
  - apply dequeue_some in E. rewrite Hk in E. split; [done|].
    exists (child_pkts c). split; [done|]. constructor; try done.
    pose proof (bstats_frame s (sch w)) as Hb. cbv zeta in Hb. injection Hb as Hb _ _ _.
    change (u32 (qlen (qdisc_bstats_update s (sch w)) - 1) = u32 (Z.of_nat (length (child_pkts c)))).
    rewrite Hb, Hq, E. apply u32_pred.
  - apply dequeue_none in E as [E1 E2]. rewrite Hk in E1. subst l. split; [done|].
    split; [done|]. rewrite E1 in Hq. by constructor.
Qed.

Lemma rbfgrad_peek_ok F L w l :
  world_ok F L w l -> let '(r, w') := rbfgrad_peek w in
  r = head l /\ world_ok F L w' l /\ parms (q w') = parms (q w).
Proof.
  intros [Hp Hl Hk Hq Hf HL]. unfold rbfgrad_peek.
  pose proof (peek_pkts (qdisc (q w))) as E1. pose proof (peek_head (qdisc (q w))) as E2.
  destruct (child_peek (qdisc (q w))) as [r c]. cbn [fst snd] in *. rewrite Hk in E1, E2.
  split; [done|]. split; [|done]. by constructor.
Qed.

Lemma rbfgrad_drop_ok F L w l :
  world_ok F L w l ->
  let '(n, w') := rbfgrad_drop w in
  parms (q w') = parms (q w) /\
  if 0 <? n then exists l1 s l2, l = l1 ++ s :: l2 /\ skb_len s = n /\ world_ok F L w' (l1 ++ l2)
  else n = 0 /\ world_ok F L w' l.
Proof.
  intros Hw. pose proof Hw as [Hp Hl Hk Hq Hf HL]. unfold rbfgrad_drop.
  destruct (child_drop (qdisc (q w))) as [[n c]|] eqn:E; cbv zeta; [|by split].
  destruct (Z.ltb_spec 0 n) as [Hn|Hn].
  - rewrite (proj2 (Z.ltb_lt 0 n)) by done. split; [done|].
    destruct (drop_some _ _ _ E Hn) as (l1 & s & l2 & E1 & E2 & E3). rewrite Hk in E1.
    exists l1, s, l2. split; [done|]. split; [done|]. constructor; try done.
    change (u32 (qlen (sch w) - 1) = u32 (Z.of_nat (length (l1 ++ l2)))).
    rewrite Hq, E1, !length_app. cbn [length]. by rewrite Nat.add_succ_r, u32_pred.
  - split; [done|]. rewrite (proj2 (Z.ltb_ge 0 0)) by lia. split; [done|].
    pose proof (drop_zero _ _ _ E Hn) as Ec. constructor; try done. by rewrite <- Hk.
Qed.

(** ** Configuration *)

Lemma set_parms_inv p (k : kctx G) sp qr pi pmi pma kp ki kd ep ei ed n m al et cell stab :
  parms_inv p -> length stab = RBFGRAD_STAB_SIZE ->
  let '(p', k') := rbfgrad_set_parms p k sp qr pi pmi pma kp ki kd ep ei ed n m al et cell stab in
  parms_inv p' /\ p_k p' = p_init p' /\ fpu_depth k' = fpu_depth k.
Proof.
  intros [Hs _ _] Hst.
  pose proof (configured_shape sp qr pi pmi pma kp ki kd ep ei ed n m al et cell stab p k Hs Hst) as Hs'.
  pose proof (configured_constants sp qr pi pmi pma kp ki kd ep ei ed n m al et cell stab p k)
    as Hc.
  destruct (rbfgrad_set_parms _ _ _ _ _ _ _ _ _ _ _ _ _ _ _ _ _ _ _) as [p' k'].
  destruct Hc as (Hm & Hg & Hpk & Hf). split; [|by split].
  constructor; [done| |].
  - by refine (eq_ind_r (fun x => dle (- x) x = true) _ Hm).
  - refine (eq_ind_r (fun x => 0 <= x < Z.of_nat PARTICLE_NUM) _ Hg). unfold PARTICLE_NUM. lia.
Qed.

Lemma qlen_zero n : u32 (u32 (Z.of_nat n) - u32 (Z.of_nat n)) = 0.
Proof. by rewrite Z.sub_diag. Qed.

Lemma reset_element_ok lg : log_ok lg -> log_ok (lg <| array_element := 0 |>).
Proof.
  intros [H1' H2' H3']. constructor; [done| |done].
  change (0 <= 0 < QUEUE_SHOW_MAX). unfold QUEUE_SHOW_MAX. lia.
Qed.

Lemma install_request_ok F L w l ctl stab child :
  world_ok F L w l -> length stab = RBFGRAD_STAB_SIZE ->
  (forall c, child = Some c -> child_pkts c = []) ->
  let w' := install_request ctl stab child w in
  world_ok F L w' (if child is Some _ then [] else l) /\ prob_ok (parms (q w')).
Proof.
  intros [Hp Hl Hk Hq Hf HL] Hst Hc. unfold install_request. cbv zeta.
  set (w1 := replace_child child _).
  assert (world_ok F (L + 1) w1 (if child is Some _ then [] else l)) as Hw1.
  { unfold w1. destruct child as [c|].
    - constructor; try done; [by apply Hc| |].
      + change (qlen (qdisc_tree_decrease_qlen (qdisc (q w)) (child_qlen (qdisc (q w))) (sch w)) = 0).
        rewrite tree_decrease, qlen_pkts, Hk.
        change (u32 (qlen (sch w) - u32 (Z.of_nat (length l))) = 0). by rewrite Hq, qlen_zero.
      + change (tree_lock w + 1 = L + 1). by rewrite HL.
    - constructor; try done. change (tree_lock w + 1 = L + 1). by rewrite HL. }
  clearbody w1. pose proof Hw1 as [Hp1 Hl1 Hk1 Hq1 Hf1 HL1].
  pose proof (set_parms_inv (parms (q w1)) (kctx_of w1) (o_sampl_period ctl) (o_q_ref ctl)
    (o_p_init ctl) (o_p_min ctl) (o_p_max ctl) (o_kp_k ctl) (o_ki_k ctl) (o_kd_k ctl)
    (o_eta_p ctl) (o_eta_i ctl) (o_eta_d ctl) (o_n ctl) (o_m ctl) (o_alpha ctl) (o_eta ctl)
    (o_Scell_log ctl) stab Hp1 Hst) as Hset.
  destruct (rbfgrad_set_parms _ _ _ _ _ _ _ _ _ _ _ _ _ _ _ _ _ _ _) as [p' k'].
  destruct Hset as (Hp' & Hpr & Hf'). split; [|by left].
  constructor; try done.
  - by apply reset_element_ok.
  - change (fpu_depth k' = F). by rewrite Hf'.
  - change (tree_lock w1 - 1 = L). lia.
Qed.

Lemma rbfgrad_change_ok F L w l opt :
  world_ok F L w l ->
  let '(r, w') := rbfgrad_change opt w in
  (r = 0 /\ prob_ok (parms (q w')) /\ (world_ok F L w' l \/ world_ok F L w' [])) \/
  (r < 0 /\ w' = w).
Proof.
  intros Hw. unfold rbfgrad_change. destruct opt as [a|]; [|by right].
  destruct (nla_parse_nested a) as [e|tb] eqn:Ea; [right; split; [by eapply parse_error|done]|].
  destruct (tb TCA_RBFGRAD_PARMS) as [pa|]; [|by right].
  destruct (tb TCA_RBFGRAD_STAB) as [sa|] eqn:Esa; [|by right].
  pose proof (stab_length _ _ _ Ea Esa) as Hst. cbv zeta.
  destruct (0 <? o_limit (nla_parms pa)).
  - destruct (fifo_create_dflt (o_limit (nla_parms pa))) as [e|c] eqn:Ec;
      [right; split; [by eapply create_error|done]|].
    destruct (install_request_ok F L w l (nla_parms pa) (nla_stab sa) (Some c) Hw Hst) as [H1' H2'].
    { intros c' [= <-]. by eapply create_pkts. }
    left. split; [done|]. split; [done|]. by right.
  - destruct (install_request_ok F L w l (nla_parms pa) (nla_stab sa) None Hw Hst) as [H1' H2'];
      [done|].
    left. split; [done|]. split; [done|]. by left.
Qed.

Lemma rbfgrad_reset_ok F L w l :
  world_ok F L w l -> world_ok F L (rbfgrad_reset w) [] /\
  parms (q (rbfgrad_reset w)) = parms (q w).
Proof.
  intros [Hp Hl Hk Hq Hf HL]. split; [|done]. constructor; try done.
  - by apply reset_element_ok.
  - apply reset_pkts.
Qed.

Lemma rbfgrad_graft_ok F L w l new :
  world_ok F L w l ->
  let '(r, old, w') := rbfgrad_graft new w in
  r = 0 /\ child_pkts old = [] /\ parms (q w') = parms (q w) /\
  (child_pkts (default noop_qdisc new) = [] -> world_ok F L w' []).
Proof.
  intros [Hp Hl Hk Hq Hf HL]. unfold rbfgrad_graft. cbv zeta.
  split; [done|]. split; [apply reset_pkts|]. split; [done|]. intros Hn.
  constructor; try done.
  - change (qlen (qdisc_tree_decrease_qlen (qdisc (q w)) (child_qlen (qdisc (q w))) (sch w)) = 0).
    rewrite tree_decrease, qlen_pkts, Hk.
    change (u32 (qlen (sch w) - u32 (Z.of_nat (length l))) = 0). by rewrite Hq, qlen_zero.
  - change (tree_lock w + 1 - 1 = L). lia.
Qed.

Lemma rbfgrad_dump_ok F L w l (m : Msg) :
  world_ok F L w l -> world_ok F L (rbfgrad_dump m w).2 l /\
  parms (q (rbfgrad_dump m w).2) = parms (q w).
Proof.
  intros [Hp Hl Hk Hq Hf HL]. unfold rbfgrad_dump. cbv zeta.
  destruct (nla_nest_start m) as [[opts m1]|]; [destruct (nla_put_parms _ m1)|];
    (split; [by constructor|done]).
Qed.
End Invariant.
