(* ===== verification/QdiscStep.v ===== *)
(** * Executions

    The interleaving of the handlers and of the control thread as a labelled step
    relation, and the refinement of the abstract queue by every execution. *)

From S2P Require Export QdiscInv.

Section Executions.
Context {C G Skb Attr Msg Tsk Th : Type}.
Context `{QdiscEnvOk C Skb} `{RngOk G} `{NetlinkEnvOk Attr} `{MsgEnv Msg} `{ThreadEnv Tsk Th}.

Abbreviation W := (world C G Tsk Th).
Implicit Types (w : W) (l : list Skb).

(** ** The control thread, as the other processors see it

    Between two accesses of the C function to the struct any handler may run; the
    model lets handlers run at the two points that matter to a reader of the
    probability: before the PID law and before the clamp. *)

Inductive phase := Idle | Trained (e : errors) | Lawed.

(** Up to the adaptation of the gains.  [modules/sch_rbfgrad.c:506-708 rbfgrad_mark_probability] *)
Definition period_train w : W * errors :=
  let p := parms (q w) in
  let e := load_errors p in
  let '(p, g) := pso_train (load_sample p) (rng (kctx_of w)) in
  (upd_parms (fun _ => adapt e p) w <| kctx_of := (kctx_of w) <| rng := g |> |>, e).

(** [modules/sch_rbfgrad.c:711-716 rbfgrad_mark_probability] *)
Definition period_law (e : errors) w : W := upd_parms (pid_law e) w.

(** [modules/sch_rbfgrad.c:719-724 rbfgrad_mark_probability] *)
Definition period_limit w : W :=
  upd_parms limit_probability w <| prob_number := s32 (prob_number w + 1) |>.

(** The three steps in a row are the C function. *)
Lemma mark_probability_steps w :
  rbfgrad_mark_probability w =
  (let '(w1, e) := period_train w in period_limit (period_law e w1)).
Proof.
  unfold rbfgrad_mark_probability, period_train, control_period. cbv zeta.
  destruct (pso_train _ _) as [p g]. reflexivity.
Qed.

(** ** Steps *)

Inductive label :=
| LEnqueue (s : Skb) (ret : Z)
| LDequeue (r : option Skb)
| LPeek (r : option Skb)
| LDrop (n : Z)
| LReset
| LChange (ret : Z)
| LGraft
| LTau.

(** A child is handed over by the core empty. *)
Inductive step : phase * W -> label -> phase * W -> Prop :=
| step_enqueue ph w s r w' :
    rbfgrad_enqueue s w = (r, w') -> step (ph, w) (LEnqueue s r) (ph, w')
| step_dequeue ph w r w' :
    rbfgrad_dequeue w = (r, w') -> step (ph, w) (LDequeue r) (ph, w')
| step_peek ph w r w' :
    rbfgrad_peek w = (r, w') -> step (ph, w) (LPeek r) (ph, w')
| step_drop ph w n w' :
    rbfgrad_drop w = (n, w') -> step (ph, w) (LDrop n) (ph, w')
| step_reset ph w : step (ph, w) LReset (ph, rbfgrad_reset w)
| step_change ph w (opt : option Attr) r w' :
    rbfgrad_change opt w = (r, w') -> step (ph, w) (LChange r) (ph, w')
| step_graft ph w new r old w' :
    child_pkts (default noop_qdisc new) = [] ->
    rbfgrad_graft new w = (r, old, w') -> step (ph, w) LGraft (ph, w')
| step_dump ph w (m : Msg) : step (ph, w) LTau (ph, (rbfgrad_dump m w).2)
| step_train w w' e : period_train w = (w', e) -> step (Idle, w) LTau (Trained e, w')
| step_law e w : step (Trained e, w) LTau (Lawed, period_law e w)
| step_limit w : step (Lawed, w) LTau (Idle, period_limit w).

Inductive exec : phase * W -> list label -> phase * W -> Prop :=
| exec_nil c : exec c [] c
| exec_cons c a c1 tr c2 : step c a c1 -> exec c1 tr c2 -> exec c (a :: tr) c2.

(** ** The abstract queue *)

Inductive aqm_step : list Skb -> label -> list Skb -> Prop :=
| aqm_accept s s' l : entering s s' -> aqm_step l (LEnqueue s NET_XMIT_SUCCESS) (l ++ [s'])
| aqm_refuse s r l : r <> NET_XMIT_SUCCESS -> aqm_step l (LEnqueue s r) l
| aqm_dequeue s l : aqm_step (s :: l) (LDequeue (Some s)) l
| aqm_empty : aqm_step [] (LDequeue None) []
| aqm_peek l : aqm_step l (LPeek (head l)) l
| aqm_drop l1 s l2 : 0 < skb_len s -> aqm_step (l1 ++ s :: l2) (LDrop (skb_len s)) (l1 ++ l2)
| aqm_drop_none l : aqm_step l (LDrop 0) l
| aqm_reset l : aqm_step l LReset []
| aqm_keep l r : aqm_step l (LChange r) l
| aqm_flush l : aqm_step l (LChange 0) []
| aqm_graft l : aqm_step l LGraft []
| aqm_tau l : aqm_step l LTau l.

Inductive aqm_exec : list Skb -> list label -> list Skb -> Prop :=
| aqm_nil l : aqm_exec l [] l
| aqm_cons l a l1 tr l2 : aqm_step l a l1 -> aqm_exec l1 tr l2 -> aqm_exec l (a :: tr) l2.

(** ** The invariant of an execution *)

Definition config_ok (F L : Z) (c : phase * W) l : Prop :=
  world_ok F L c.2 l /\ (c.1 <> Lawed -> prob_ok (parms (q c.2))).

Lemma with_parms_ok F L w l (f : rbfgrad_parms -> rbfgrad_parms) :
  world_ok F L w l -> parms_inv (f (parms (q w))) -> world_ok F L (upd_parms f w) l.
Proof. intros [] Hp. by constructor. Qed.

Lemma period_train_ok F L w l :
  world_ok F L w l ->
  let '(w', _) := period_train w in
  world_ok F L w' l /\ (prob_ok (parms (q w)) -> prob_ok (parms (q w'))).
Proof.
  intros Hw. pose proof Hw as [[Hs Hm Hg] _ _ _ _ _]. unfold period_train. cbv zeta.
  rewrite load_sample_eq by done. fold (loaded (parms (q w))).
  pose proof (train_frame (parms (q w)) (rng (kctx_of w)) Hs Hm) as Ht. cbv zeta in Ht.
  destruct (pso_train (loaded (parms (q w))) (rng (kctx_of w))) as [p g].
  destruct Ht as (Ha & Hi & He).
  revert Ha Hi He. generalize (adapt (load_errors (parms (q w))) p). intros a Ha Hi He.
  pose proof He as [= Em E1 E2 E3 E4]. split.
  - assert (parms_inv a) as Hinv.
    { constructor; [done| |done]. by refine (eq_ind_r (fun x => dle (- x) x = true) _ Em). }
    pose proof (with_parms_ok F L w l (fun _ => a) Hw Hinv) as [? ? ? ? ? ?]. by constructor.
  - apply prob_ok_eq. exact (f_equal (fun '(_, a, b, c, d) => (a, b, c, d)) He).
Qed.

Lemma pid_law_inv e p : parms_inv p -> parms_inv (pid_law e p).
Proof. intros [Hs Hm Hg]. rewrite pid_law_eq. constructor; [destruct Hs; by constructor|done|done]. Qed.

Lemma limit_inv p : parms_inv p -> parms_inv (limit_probability p) /\ prob_ok (limit_probability p).
Proof.
  intros [Hs Hm Hg]. rewrite limit_probability_eq.
  split; [constructor; [destruct Hs; by constructor|done|done]|]. right. by exists (p_k p).
Qed.

(** Every step of the scheduler is a step of the abstract queue and keeps the
    invariant. *)
Lemma step_refines F L c a c' l :
  config_ok F L c l -> step c a c' -> exists l', aqm_step l a l' /\ config_ok F L c' l'.
Proof.
  intros [Hw Hp] Hst. unfold config_ok.
  destruct Hst as [ph w s r w' E|ph w r w' E|ph w r w' E|ph w n w' E|ph w|ph w opt r w' E
    |ph w new r old w' Hn E|ph w m|w w' e E|e w|w]; cbn [fst snd] in *.
  - pose proof (rbfgrad_enqueue_ok F L w l s Hw) as He. rewrite E in He.
    destruct He as [(s' & Hs' & Hw') Hp']. destruct (Z.eqb_spec r NET_XMIT_SUCCESS) as [->|Hr].
    + exists (l ++ [s']). split; [by constructor|]. split; [exact Hw'|auto].
    + exists l. split; [by constructor|]. split; [exact Hw'|auto].
  - pose proof (rbfgrad_dequeue_ok F L w l Hw) as He. rewrite E in He.
    destruct r as [s|]; destruct He as [Hp' He].
    + destruct He as (l' & -> & Hw'). exists l'. rewrite Hp'. split; [constructor|by split].
    + destruct He as [-> Hw']. exists []. rewrite Hp'. split; [constructor|by split].
  - pose proof (rbfgrad_peek_ok F L w l Hw) as He. rewrite E in He. destruct He as (-> & Hw' & Hp').
    exists l. rewrite Hp'. split; [constructor|by split].
  - pose proof (rbfgrad_drop_ok F L w l Hw) as He. rewrite E in He. destruct He as [Hp' He].
    rewrite Hp'. destruct (Z.ltb_spec 0 n) as [Hn|Hn].
    + destruct He as (l1 & s & l2 & -> & <- & Hw'). exists (l1 ++ l2). split; [by constructor|by split].
    + destruct He as [-> Hw']. exists l. split; [constructor|by split].
  - destruct (rbfgrad_reset_ok F L w l Hw) as [Hw' Hp']. exists []. rewrite Hp'.
    split; [constructor|by split].
  - pose proof (rbfgrad_change_ok F L w l opt Hw) as He. rewrite E in He.
    destruct He as [(-> & Hp' & [Hw'|Hw'])|(_ & ->)].
    + exists l. split; [constructor|by split].
    + exists []. split; [constructor|by split].
    + exists l. split; [constructor|by split].
  - pose proof (rbfgrad_graft_ok F L w l new Hw) as He. rewrite E in He.
    destruct He as (_ & _ & Hp' & Hw'). exists []. rewrite Hp'. split; [constructor|].
    split; [by apply Hw'|done].
  - destruct (rbfgrad_dump_ok F L w l m Hw) as [Hw' Hp']. exists l. rewrite Hp'.
    split; [constructor|by split].
  - pose proof (period_train_ok F L w l Hw) as He. rewrite E in He. destruct He as [Hw' Hp'].
    exists l. split; [constructor|]. split; [done|]. intros _. by apply Hp', Hp.
  - exists l. split; [constructor|]. split; [|done].
    apply with_parms_ok; [done|]. apply pid_law_inv, Hw.
  - exists l. split; [constructor|]. destruct (limit_inv (parms (q w))) as [H1' H2']; [apply Hw|].
    split; [|intros _; exact H2'].
    pose proof (with_parms_ok F L w l _ Hw H1') as [? ? ? ? ? ?]. by constructor.
Qed.

Lemma exec_refines_aux F L c tr c' l :
  exec c tr c' -> config_ok F L c l -> exists l', aqm_exec l tr l' /\ config_ok F L c' l'.
Proof.
  intros He. revert l. induction He as [c|c a c1 tr c2 Hs He IH]; intros l Hc.
  - exists l. split; [constructor|done].
  - destruct (step_refines F L c a c1 l Hc Hs) as (l1 & Ha & Hc1).
    destruct (IH l1 Hc1) as (l2 & Ht & Hc2). exists l2. split; [by econstructor|done].
Qed.

(** C1: refinement.  Every execution of the scheduler, with the handlers and the
    steps of the control thread interleaved in any way, is an execution of the
    abstract queue: packets come out in the order they entered, unchanged but for
    the congestion mark, a refused packet leaves no trace, and only a drop, a
    reset, a new child or a graft remove packets otherwise. *)
Theorem exec_refines (F L : Z) (ph ph' : phase) (w w' : W) (l : list Skb) (tr : list label) :
  world_ok F L w l -> prob_ok (parms (q w)) -> exec (ph, w) tr (ph', w') ->
  exists l', aqm_exec l tr l' /\ child_pkts (qdisc (q w')) = l'.
Proof.
  intros Hw Hp He. destruct (exec_refines_aux F L _ tr _ l He) as (l' & Ht & [[_ _ Hk _ _ _] _]);
    [by split|]. by exists l'.
Qed.

(** C2: The invariant of every execution: the length the scheduler reports is that
    of its child queue (modulo 2^32), the sample log stays in its array, the best
    particle's index and every array of the controller stay in bounds, and
    floating-point sections and the tree lock are balanced. *)
Theorem exec_invariant (F L : Z) (ph ph' : phase) (w w' : W) (l : list Skb) (tr : list label) :
  world_ok F L w l -> prob_ok (parms (q w)) -> exec (ph, w) tr (ph', w') ->
  qlen (sch w') = u32 (Z.of_nat (length (child_pkts (qdisc (q w'))))) /\
  log_ok (log w') /\ parms_shape (parms (q w')) /\
  0 <= gbest_index (parms (q w')) < Z.of_nat PARTICLE_NUM /\
  fpu_depth (kctx_of w') = F /\ tree_lock w' = L.
Proof.
  intros Hw Hp He.
  destruct (exec_refines_aux F L _ tr _ l He) as (l' & _ & [[[Hs _ Hg] Hl Hk Hq Hf HL] _]);
    [by split|]. cbn [snd] in *. rewrite Hk. done.
Qed.

(** C12: Outside the window between the PID law and its clamp the probability the
    packets see is the configured initial one or a value clamped to
    [[p_min, p_max]], whatever was interleaved before. *)
Theorem exec_probability (F L : Z) (ph ph' : phase) (w w' : W) (l : list Skb) (tr : list label) :
  world_ok F L w l -> prob_ok (parms (q w)) -> exec (ph, w) tr (ph', w') -> ph' <> Lawed ->
  let p := parms (q w') in
  p_k p = p_init p \/ exists y, p_k p = clamp (p_min p) (p_max p) y.
Proof.
  intros Hw Hp He Hph. destruct (exec_refines_aux F L _ tr _ l He) as (l' & _ & [_ Hpr]);
    [by split|]. by apply Hpr.
Qed.
End Executions.
