(* ===== verification/QdiscProps.v ===== *)
(** * What the handlers do

    Per-branch behaviour of the handlers, the life cycle of an instance, and the
    reports.  The last section runs the handlers in the concrete environment. *)

From S2P Require Export QdiscStep.

Section Properties.
Context {C G Skb Attr Msg Tsk Th : Type}.
Context `{QdiscEnvOk C Skb} `{RngOk G} `{NetlinkEnvOk Attr} `{MsgEnv Msg} `{ThreadEnvOk Tsk Th}.

Abbreviation W := (world C G Tsk Th).
Implicit Types (w : W) (l : list Skb).

(** ** Enqueue *)

(** The fate of a packet as the congestion decision sees it. *)
Inductive fate := Pass (s : Skb) | Mark (s : Skb) | Refuse.

Definition fate_of w (s : Skb) : fate :=
  match (rbfgrad_action (parms (q w)) (kctx_of w)).1 with
  | RBFGRAD_DONT_MARK => Pass s
  | RBFGRAD_PROB_MARK =>
      if rbfgrad_use_ecn (q w) && (INET_ECN_set_ce s).1 then Mark (INET_ECN_set_ce s).2 else Refuse
  end.

(** The counters of one handler call, next to those it started from. *)
Definition counters w : Z * Z * Z * Z * Z * Z :=
  (qlen (sch w), drops (sch w), overlimits (sch w),
   prob_drop (stats (q w)), prob_mark (stats (q w)), pdrop (stats (q w))).

Definition add_counters (d c : Z * Z * Z * Z * Z * Z) : Z * Z * Z * Z * Z * Z :=
  let '(a1, a2, a3, a4, a5, a6) := d in
  let '(b1, b2, b3, b4, b5, b6) := c in
  (u32 (b1 + a1), u32 (b2 + a2), u32 (b3 + a3), u32 (b4 + a4), u32 (b5 + a5), u32 (b6 + a6)).

Definition counters_ok w : Prop :=
  let '(a1, a2, a3, a4, a5, a6) := counters w in
  0 <= a1 < 2 ^ 32 /\ 0 <= a2 < 2 ^ 32 /\ 0 <= a3 < 2 ^ 32 /\
  0 <= a4 < 2 ^ 32 /\ 0 <= a5 < 2 ^ 32 /\ 0 <= a6 < 2 ^ 32.

Lemma sample_world_keeps mark w :
  sch (sample_world mark w) = sch w /\ stats (q (sample_world mark w)) = stats (q w) /\
  qdisc (q (sample_world mark w)) = qdisc (q w) /\ flags (q (sample_world mark w)) = flags (q w).
Proof. unfold sample_world. by destruct (sample_packet _ _ _). Qed.

Lemma u32_add0 n : 0 <= n < 2 ^ 32 -> u32 (n + 0) = n.
Proof. intros. rewrite Z.add_0_r. by apply u32_small. Qed.

(** The child's part, on the counters. *)
Definition handed w (s : Skb) (d3 d4 d5 : Z) (r : Z) w' : Prop :=
  let '(ret, c) := qdisc_enqueue s (qdisc (q w)) in
  r = ret /\ qdisc (q w') = c /\
  counters w' = add_counters
    (if ret =? NET_XMIT_SUCCESS then (1, 0, d3, d4, d5, 0)
     else if net_xmit_drop_count ret then (0, 1, d3, d4, d5, 1) else (0, 0, d3, d4, d5, 0))
    (counters w).

Lemma child_enqueue_counters w0 w s d3 d4 d5 :
  counters_ok w0 -> qdisc (q w) = qdisc (q w0) ->
  counters w = add_counters (0, 0, d3, d4, d5, 0) (counters w0) ->
  handed w0 s d3 d4 d5 (child_enqueue s w).1 (child_enqueue s w).2.
Proof.
  intros Hr Hq Hc. unfold handed, child_enqueue. rewrite Hq.
  destruct (qdisc_enqueue s (qdisc (q w0))) as [r c]. cbv zeta.
  unfold counters, add_counters, counters_ok in *.
  destruct Hr as (R1 & R2 & R3 & R4 & R5 & R6).
  injection Hc as C1 C2 C3 C4 C5 C6. rewrite u32_add0 in C1, C2, C6 by done.
  destruct (r =? NET_XMIT_SUCCESS); [|destruct (net_xmit_drop_count r)];
    (split; [done|]; split; [done|]); repeat f_equal; rewrite ?u32_add0 by done; try done.
  - change (u32 (qlen (sch w) + 1) = u32 (qlen (sch w0) + 1)). by rewrite C1.
  - change (u32 (drops (sch w) + 1) = u32 (drops (sch w0) + 1)). by rewrite C2.
  - change (u32 (pdrop (stats (q w)) + 1) = u32 (pdrop (stats (q w0)) + 1)). by rewrite C6.
Qed.

(** C3: enqueue, branch by branch.  An unmarked packet is handed to the child as it
    is; a marked one counts an overlimit and is handed over with the congestion
    mark if ECN is on and the packet carries it, else it is dropped, the child is
    not called and [NET_XMIT_CN] is returned.  The child's answer is returned, and
    the counters move by exactly one each where the code says. *)
Theorem enqueue_branches w (s : Skb) :
  counters_ok w ->
  let '(r, w') := rbfgrad_enqueue s w in
  match fate_of w s with
  | Pass s' => handed w s' 0 0 0 r w'
  | Mark s' => handed w s' 1 0 1 r w'
  | Refuse => r = NET_XMIT_CN /\ qdisc (q w') = qdisc (q w) /\
      counters w' = add_counters (0, 1, 1, 1, 0, 0) (counters w)
  end.
Proof.
  intros Hr. unfold rbfgrad_enqueue, fate_of. cbv zeta.
  set (w0 := w <| pkg_number := _ |>).
  change (parms (q w0)) with (parms (q w)). change (kctx_of w0) with (kctx_of w).
  destruct (rbfgrad_action (parms (q w)) (kctx_of w)) as [a k]. cbn [fst].
  set (w1 := w0 <| kctx_of := k |>).
  assert (counters w = add_counters (0, 0, 0, 0, 0, 0) (counters w)) as Hz.
  { pose proof Hr as (R1 & R2 & R3 & R4 & R5 & R6).
    unfold counters, add_counters. by rewrite !u32_add0 by done. }
  destruct a.
  - destruct (sample_world_keeps RBFGRAD_DONT_MARK w1) as (E1 & E2 & E3 & _).
    set (w2 := sample_world _ w1) in *.
    pose proof (child_enqueue_counters w w2 s 0 0 0 Hr E3) as Hc.
    destruct (child_enqueue s w2) as [r w']. apply Hc.
    rewrite <- Hz. unfold counters. by rewrite E1, E2.
  - destruct (sample_world_keeps RBFGRAD_PROB_MARK w1) as (E1 & E2 & E3 & E4).
    set (w2 := sample_world _ w1) in *. clearbody w2.
    assert (rbfgrad_use_ecn (q w2) = rbfgrad_use_ecn (q w)) as Ee
      by (unfold rbfgrad_use_ecn; by rewrite E4).
    assert (counters w2 = counters w) as Ec by (unfold counters; by rewrite E1, E2).
    assert (qdisc (q w2) = qdisc (q w)) as Eq by done. clear E1 E2 E3 E4 Hz.
    unfold mark_packet. cbv zeta.
    match goal with |- context [rbfgrad_use_ecn (q ?x)] =>
      change (rbfgrad_use_ecn (q x)) with (rbfgrad_use_ecn (q w2)) end. rewrite Ee.
    pose proof Hr as (R1 & R2 & R3 & R4 & R5 & R6). unfold counters in Ec.
    injection Ec as C1 C2 C3 C4 C5 C6.
    assert (forall w', w' = upd_stats (fun s => s <| prob_drop := u32 (prob_drop s + 1) |>)
        (upd_sch (fun s => s <| overlimits := u32 (overlimits s + 1) |>) w2) ->
      let '(r, w') := congestion_drop s w' in
      r = NET_XMIT_CN /\ qdisc (q w') = qdisc (q w) /\
      counters w' = add_counters (0, 1, 1, 1, 0, 0) (counters w)) as Hdrop.
    { intros w' ->. unfold congestion_drop. split; [done|]. split; [done|].
      unfold counters, add_counters, upd_sch at 1 2 3. 
      match goal with |- context [qdisc_drop s ?x] => set (x' := x) end.
      change ((qlen (qdisc_drop s x'), drops (qdisc_drop s x'), overlimits (qdisc_drop s x'),
        u32 (prob_drop (stats (q w2)) + 1), prob_mark (stats (q w2)), pdrop (stats (q w2))) =
        (u32 (qlen (sch w) + 0), u32 (drops (sch w) + 1), u32 (overlimits (sch w) + 1),
         u32 (prob_drop (stats (q w)) + 1), u32 (prob_mark (stats (q w)) + 0),
         u32 (pdrop (stats (q w)) + 0))).
      rewrite drop_stats, !u32_add0 by done.
      change ((qlen (sch w2), u32 (drops (sch w2) + 1), u32 (overlimits (sch w2) + 1),
        u32 (prob_drop (stats (q w2)) + 1), prob_mark (stats (q w2)), pdrop (stats (q w2))) =
        (qlen (sch w), u32 (drops (sch w) + 1), u32 (overlimits (sch w) + 1),
         u32 (prob_drop (stats (q w)) + 1), prob_mark (stats (q w)), pdrop (stats (q w)))).
      by rewrite C1, C2, C3, C4, C5, C6. }
    destruct (rbfgrad_use_ecn (q w)); [|by apply Hdrop].
    destruct (INET_ECN_set_ce s) as [[] s'] eqn:Es; [|by apply Hdrop]. cbn [fst snd andb].
    set (w3 := upd_stats _ _).
    pose proof (child_enqueue_counters w w3 s' 1 0 1 Hr Eq) as Hc.
    destruct (child_enqueue s' w3) as [r w']. apply Hc.
    unfold counters, add_counters. rewrite !u32_add0 by done.
    change ((qlen (sch w2), drops (sch w2), u32 (overlimits (sch w2) + 1),
      prob_drop (stats (q w2)), u32 (prob_mark (stats (q w2)) + 1), pdrop (stats (q w2))) =
      (qlen (sch w), drops (sch w), u32 (overlimits (sch w) + 1),
      prob_drop (stats (q w)), u32 (prob_mark (stats (q w)) + 1), pdrop (stats (q w)))).
    by rewrite C1, C2, C3, C4, C5, C6.
Qed.

(** ** Bytes *)

Definition bytes l : Z := foldr (fun s n => skb_len s + n) 0 l.

Lemma bytes_app l1 l2 : bytes (l1 ++ l2) = bytes l1 + bytes l2.
Proof. induction l1 as [|s l1 IH]; [done|]. cbn [bytes foldr app] in *. unfold bytes in *. lia. Qed.

(** The byte count the scheduler keeps is that of its child. *)
Definition backlog_ok w : Prop := backlog (sch w) = u32 (bytes (child_pkts (qdisc (q w)))).

Lemma u32_add_l a b : u32 (u32 a + b) = u32 (a + b).
Proof. machine_int. Qed.

Lemma u32_sub_l a b : u32 (u32 a - b) = u32 (a - b).
Proof. machine_int. Qed.

Lemma child_enqueue_backlog w s : backlog_ok w -> backlog_ok (child_enqueue s w).2.
Proof.
  unfold backlog_ok, child_enqueue. intros Hb.
  destruct (qdisc_enqueue s (qdisc (q w))) as [r c] eqn:E. cbv zeta.
  destruct (Z.eqb_spec r NET_XMIT_SUCCESS) as [->|Hr].
  - apply enqueue_ok in E. cbn [snd].
    change (u32 (backlog (sch w) + skb_len s) = u32 (bytes (child_pkts c))).
    rewrite Hb, E, u32_add_l, bytes_app. unfold bytes at 3. cbn [foldr]. f_equal. lia.
  - pose proof (enqueue_refused _ _ _ _ E Hr) as Ec.
    destruct (net_xmit_drop_count r); cbn [snd];
      change (backlog (sch w) = u32 (bytes (child_pkts c))); by rewrite Ec.
Qed.

(** C20: On the data path (enqueue, dequeue, drop, reset) the backlog the scheduler
    reports is the number of bytes in its child, modulo 2^32. *)
Theorem data_path_backlog w (s : Skb) :
  backlog_ok w ->
  backlog_ok (rbfgrad_enqueue s w).2 /\ backlog_ok (rbfgrad_dequeue w).2 /\
  backlog_ok (rbfgrad_drop w).2 /\ backlog_ok (rbfgrad_reset w).
Proof.
  intros Hb. split; [|split; [|split]].
  - unfold rbfgrad_enqueue. cbv zeta.
    match goal with |- context [rbfgrad_action ?a ?b] => destruct (rbfgrad_action a b) as [a' k] end.
    set (w1 := set_field kctx_of _ _).
    assert (forall m, backlog_ok (sample_world m w1)) as Hs.
    { intros m. destruct (sample_world_keeps m w1) as (E1 & _ & E3 & _).
      unfold backlog_ok. rewrite E1, E3. exact Hb. }
    destruct a'; [apply child_enqueue_backlog, Hs|].
    pose proof (Hs RBFGRAD_PROB_MARK) as Hm.
    destruct (mark_packet s (sample_world RBFGRAD_PROB_MARK w1)) as [w2 o] eqn:E2.
    assert (backlog_ok w2) as Hw2.
    { revert E2. unfold mark_packet. cbv zeta.
      destruct (rbfgrad_use_ecn _); [destruct (INET_ECN_set_ce s) as [[] ?]|]; intros [= <- _]; exact Hm. }
    destruct o as [s'|]; [by apply child_enqueue_backlog|].
    unfold congestion_drop, backlog_ok. cbn [snd].
    change (backlog (qdisc_drop s (sch w2)) = u32 (bytes (child_pkts (qdisc (q w2))))).
    rewrite drop_stats. exact Hw2.
  - unfold rbfgrad_dequeue, backlog_ok in *.
    destruct (child_dequeue (qdisc (q w))) as [[x|] c] eqn:E; cbv zeta; cbn [snd].
    + apply dequeue_some in E. rewrite E in Hb.
      change (u32 (backlog (qdisc_bstats_update x (sch w)) - skb_len x) = u32 (bytes (child_pkts c))).
      pose proof (bstats_frame x (sch w)) as Hf. cbv zeta in Hf. injection Hf as _ _ _ Hf.
      rewrite Hf, Hb. cbn [bytes foldr]. rewrite u32_sub_l. f_equal. unfold bytes. lia.
    + apply dequeue_none in E as [E1 E2].
      change (backlog (sch w) = u32 (bytes (child_pkts c))). by rewrite Hb, E1, E2.
  - unfold rbfgrad_drop, backlog_ok in *.
    destruct (child_drop (qdisc (q w))) as [[n c]|] eqn:E; cbv zeta; [|done].
    destruct (Z.ltb_spec 0 n) as [Hn|Hn]; cbn [snd].
    + destruct (drop_some _ _ _ E Hn) as (l1 & x & l2 & E1 & E2 & E3).
      change (u32 (backlog (sch w) - n) = u32 (bytes (child_pkts c))).
      rewrite Hb, E1, E2, u32_sub_l, !bytes_app. f_equal. cbn [bytes foldr].
      unfold bytes. lia.
    + pose proof (drop_zero _ _ _ E Hn) as Ec.
      change (backlog (sch w) = u32 (bytes (child_pkts c))). by rewrite Hb, Ec.
  - unfold backlog_ok. change (0 = u32 (bytes (child_pkts (qdisc_reset (qdisc (q w)))))).
    by rewrite reset_pkts.
Qed.

(** A request that replaces the child subtracts the child's packets from the
    queue length but not its bytes from the backlog: the scheduler then reports
    the bytes of packets that no longer exist, over an empty queue. *)
Theorem change_backlog_stale w (ctl : tc_rbfgrad_qopt) (stab : list Z) (c : C) :
  child_pkts c = [] -> qlen (sch w) = u32 (Z.of_nat (length (child_pkts (qdisc (q w))))) ->
  let w' := install_request ctl stab (Some c) w in
  qlen (sch w') = 0 /\ child_pkts (qdisc (q w')) = [] /\ backlog (sch w') = backlog (sch w).
Proof.
  intros Hc Hq. unfold install_request. cbv zeta.
  destruct (rbfgrad_set_parms _ _ _ _ _ _ _ _ _ _ _ _ _ _ _ _ _ _ _) as [p' k'].
  match goal with |- qlen (sch ?x) = _ /\ _ => set (w' := x) end.
  assert (sch w' = qdisc_tree_decrease_qlen (qdisc (q w)) (child_qlen (qdisc (q w))) (sch w)) as Es
    by done.
  rewrite Es, tree_decrease, qlen_pkts. split; [|split; [exact Hc|done]].
  change (u32 (qlen (sch w) - u32 (Z.of_nat (length (child_pkts (qdisc (q w)))))) = 0).
  by rewrite Hq, Z.sub_diag.
Qed.

(** ** Life cycle *)

Lemma change_errors_keep w (opt : option Attr) :
  let '(r, w') := rbfgrad_change opt w in r <> 0 -> w' = w.
Proof.
  unfold rbfgrad_change. destruct opt as [a|]; [|done].
  destruct (nla_parse_nested a) as [e|tb]; [done|].
  destruct (tb TCA_RBFGRAD_PARMS) as [pa|]; [|done].
  destruct (tb TCA_RBFGRAD_STAB) as [sa|]; [|done].
  cbv zeta. by destruct (0 <? o_limit _); [destruct (fifo_create_dflt _)|].
Qed.


(** What [rbfgrad_init] starts the configuration from. *)
Definition init_start w : W :=
  let w := w <| kctx_of := kernel_fpu_begin (kctx_of w) |> in
  let w := w <| log := (log w) <| array_element := 0 |> |> in
  let w := w <| log := (log w) <| cyc_count := 0 |> |> in
  let w := w <| prob_number := 0 |> in
  let w := w <| pkg_number := 0 |> in
  upd_q (fun d => d <| qdisc := noop_qdisc |>) w.

Lemma rbfgrad_init_eq (opt : option Attr) w :
  let '(r, w1) := rbfgrad_change opt (init_start w) in
  let '(t1, th1) := kthread_run rbfgrad_thread (thr w1) in
  let '(t2, th2) := kthread_run rbfgrad_stop_prob_thread th1 in
  rbfgrad_init opt w =
    (r, w1 <| tsk_prob := Some t1 |> <| thr := th1 |> <| tsk_stop_prob := Some t2 |> <| thr := th2 |>).
Proof.
  unfold rbfgrad_init. cbv zeta. fold (init_start w).
  destruct (rbfgrad_change opt (init_start w)) as [r w1].
  destruct (kthread_run rbfgrad_thread (thr w1)) as [t1 th1].
  change (thr (w1 <| tsk_prob := Some t1 |> <| thr := th1 |>)) with th1.
  by destruct (kthread_run rbfgrad_stop_prob_thread th1).
Qed.

(** C34: [rbfgrad_init] establishes the invariant with an empty queue when the
    request is accepted, one floating-point section being left open. *)
Theorem init_establishes (opt : option Attr) w (F L : Z) :
  parms_inv (parms (q w)) -> log_ok (log w) -> qlen (sch w) = 0 ->
  fpu_depth (kctx_of w) = F -> tree_lock w = L ->
  let '(r, w') := rbfgrad_init opt w in
  r = 0 -> world_ok (F + 1) L w' [] /\ prob_ok (parms (q w')).
Proof.
  intros Hp [Hl1 Hl2 Hl3] Hq Hf HL. pose proof (rbfgrad_init_eq opt w) as Hi.
  assert (world_ok (F + 1) L (init_start w) []) as Hw.
  { constructor; [done| |exact noop_pkts|exact Hq| |exact HL].
    - constructor; [done| |]; [change (0 <= 0 < QUEUE_SHOW_MAX)|change (0 <= 0 < CYC_MAX)];
        unfold QUEUE_SHOW_MAX, CYC_MAX; lia.
    - change (fpu_depth (kctx_of w) + 1 = F + 1). by rewrite Hf. }
  pose proof (rbfgrad_change_ok (F + 1) L (init_start w) [] opt Hw) as Hc.
  destruct (rbfgrad_change opt (init_start w)) as [r w1].
  destruct (kthread_run rbfgrad_thread (thr w1)) as [t1 th1].
  destruct (kthread_run rbfgrad_stop_prob_thread th1) as [t2 th2]. rewrite Hi. intros ->.
  destruct Hc as [(_ & Hpr & Hw1)|(? & _)]; [|lia].
  assert (world_ok (F + 1) L w1 []) as [] by (by destruct Hw1). by split; [constructor|].
Qed.

(** The return value of the configuration does not stop [rbfgrad_init]: when
    the request is refused the error is returned, but both threads have been
    started on the instance, the floating-point section is open, and the child is
    the no-op queue. *)
Theorem init_error_leaks (opt : option Attr) w :
  let '(r, w') := rbfgrad_init opt w in
  r <> 0 ->
  (exists t1 t2, tsk_prob w' = Some t1 /\ tsk_stop_prob w' = Some t2 /\
     kthread_should_stop t1 (thr w') = false) /\
  fpu_depth (kctx_of w') = fpu_depth (kctx_of w) + 1 /\ qdisc (q w') = noop_qdisc.
Proof.
  pose proof (rbfgrad_init_eq opt w) as Hi. pose proof (change_errors_keep (init_start w) opt) as Hc.
  destruct (rbfgrad_change opt (init_start w)) as [r w1].
  pose proof (run_not_stopped rbfgrad_thread (thr w1)) as Hr1.
  destruct (kthread_run rbfgrad_thread (thr w1)) as [t1 th1].
  pose proof (run_frame rbfgrad_stop_prob_thread th1 t1 Hr1) as Hr2.
  destruct (kthread_run rbfgrad_stop_prob_thread th1) as [t2 th2]. rewrite Hi. intros Hr.
  rewrite (Hc Hr). split; [by exists t1, t2|]. split; [|done]. reflexivity.
Qed.

(** The core frees the instance after its [destroy] handler. *)
Definition core_free w : W := w <| alive := false |>.

(** [rbfgrad_destroy] does not stop the control thread (the calls are commented
    out): after the instance is destroyed and freed the thread is still due to run,
    and its next turn works on freed memory. *)
Theorem destroy_leaves_thread w (t : Tsk) :
  alive w = true -> tsk_prob w = Some t -> kthread_should_stop t (thr w) = false ->
  let w' := core_free (rbfgrad_destroy w) in
  kthread_should_stop t (thr w') = false /\ rbfgrad_thread_func t w' = None /\
  (exists w1, rbfgrad_thread_func t w = Some (true, w1)).
Proof.
  intros Ha Ht Hs. cbv zeta. split; [exact Hs|]. split; [done|].
  unfold rbfgrad_thread_func. rewrite Ha. cbv zeta. unfold rbfgrad_mark_probability.
  destruct (control_period _ _) as [p g]. cbv zeta.
  match goal with |- context [kthread_should_stop t (thr ?x)] => change (thr x) with (thr w) end.
  rewrite Hs. by eexists.
Qed.

(** Stopping works when it is reached: after the second thread has run, the
    turn the control thread is in is its last. *)
Theorem stop_thread_stops w (t : Tsk) :
  alive w = true -> tsk_prob w = Some t ->
  exists w1, rbfgrad_thread_func t (rbfgrad_stop_prob_thread_func w) = Some (false, w1).
Proof.
  intros Ha Ht. unfold rbfgrad_stop_prob_thread_func. rewrite Ht. unfold rbfgrad_thread_func.
  change (alive (w <| thr := kthread_stop t (thr w) |>)) with (alive w). rewrite Ha. cbv zeta.
  unfold rbfgrad_mark_probability. destruct (control_period _ _) as [p g]. cbv zeta.
  match goal with |- context [kthread_should_stop t (thr ?x)] =>
    change (thr x) with (kthread_stop t (thr w)) end.
  rewrite stop_stops. by eexists.
Qed.

(** ** Reports *)

(** After a request is installed, the dump reports that request, except that
    the initial and minimal probabilities, the cell size and the flags always read
    zero: the initialiser of [rbfgrad_dump] does not name them. *)
Theorem dump_after_change (ctl : tc_rbfgrad_qopt) (stab : list Z) (c : option C) w :
  dump_opt (install_request ctl stab c w) =
  ctl <| o_p_init := d0 |> <| o_p_min := d0 |> <| o_Scell_log := 0 |> <| o_flags := 0 |>.
Proof.
  unfold install_request. cbv zeta. set (w1 := replace_child _ _).
  assert (limit (q w1) = o_limit ctl) as Hlim by (by destruct c).
  pose proof (configured_request (o_sampl_period ctl) (o_q_ref ctl)
    (o_p_init ctl) (o_p_min ctl) (o_p_max ctl) (o_kp_k ctl) (o_ki_k ctl) (o_kd_k ctl)
    (o_eta_p ctl) (o_eta_i ctl) (o_eta_d ctl) (o_n ctl) (o_m ctl) (o_alpha ctl) (o_eta ctl)
    (o_Scell_log ctl) stab (parms (q w1)) (kctx_of w1)) as Hc.
  destruct (rbfgrad_set_parms _ _ _ _ _ _ _ _ _ _ _ _ _ _ _ _ _ _ _) as [p' k'].
  cbn [fst] in Hc. injection Hc as E1 E2 E3 E4 E5 E6 E7 E8 E9 E10 E11 E12 E13.
  match goal with |- dump_opt ?x = _ =>
    change (dump_opt x) with
      (mk_qopt (q_ref p') d0 d0 (p_max p') (kp_k p') (ki_k p') (kd_k p') (eta_p p') (eta_i p')
         (eta_d p') (parms_n p') (parms_m p') (alpha p') (eta p') (sampl_period p') 0
         (limit (q w1)) 0) end.
  by rewrite Hlim, E1, E2, E3, E4, E5, E6, E7, E8, E9, E10, E11, E12, E13.
Qed.

(** ** The unprotected window *)

(** The samples and the history depend on the packet only through the decision. *)
Lemma enqueue_sampled w (s : Skb) :
  exists m, log (rbfgrad_enqueue s w).2 = (sample_packet m (qlen (sch w)) (parms (q w), log w)).2 /\
    parms (q (rbfgrad_enqueue s w).2) = (sample_packet m (qlen (sch w)) (parms (q w), log w)).1.
Proof.
  assert (forall x w, log (child_enqueue x w).2 = log w /\ parms (q (child_enqueue x w).2) = parms (q w))
    as Hce.
  { intros x w0. unfold child_enqueue. destruct (qdisc_enqueue _ _) as [r c]. cbv zeta.
    destruct (_ =? _); [done|]. by destruct (net_xmit_drop_count r). }
  assert (forall m w, log (sample_world m w) = (sample_packet m (qlen (sch w)) (parms (q w), log w)).2 /\
    parms (q (sample_world m w)) = (sample_packet m (qlen (sch w)) (parms (q w), log w)).1) as Hsw.
  { intros m w0. unfold sample_world. by destruct (sample_packet _ _ _). }
  assert (forall x w, log (mark_packet x w).1 = log w /\ parms (q (mark_packet x w).1) = parms (q w))
    as Hmp.
  { intros x w0. unfold mark_packet. cbv zeta.
    destruct (rbfgrad_use_ecn _); [destruct (INET_ECN_set_ce x) as [[] ?]|]; done. }
  unfold rbfgrad_enqueue. cbv zeta.
  match goal with |- context [rbfgrad_action ?a ?b] => destruct (rbfgrad_action a b) as [a' k] end.
  set (w1 := set_field kctx_of _ _). destruct a'.
  - exists RBFGRAD_DONT_MARK. destruct (Hce s (sample_world RBFGRAD_DONT_MARK w1)) as [-> ->].
    apply (Hsw RBFGRAD_DONT_MARK w1).
  - exists RBFGRAD_PROB_MARK. pose proof (Hmp s (sample_world RBFGRAD_PROB_MARK w1)) as [E1 E2].
    destruct (Hsw RBFGRAD_PROB_MARK w1) as [E3 E4].
    destruct (mark_packet s (sample_world RBFGRAD_PROB_MARK w1)) as [w2 [s'|]]; cbn [fst snd] in *.
    + destruct (Hce s' w2) as [-> ->]. rewrite E1, E2. by split.
    + split; [exact (eq_trans E1 E3)|exact (eq_trans E2 E4)].
Qed.

(** The probability is read by the packet path without the semaphore the
    comment in [rbfgrad_cmp_prob] asks for: a packet sampled between the PID law
    and the clamp is decided on, and logged with, the unclamped value, although
    the value was and will be within bounds. *)
Theorem unclamped_probability_visible w (e : errors) (s : Skb) :
  log_ok (log w) -> parms_shape (parms (q w)) -> cyc_count (log w) = CYC_MAX - 1 ->
  let x := pid_sum e (parms (q w)) in
  let w1 := period_law e w in
  let w2 := (rbfgrad_enqueue s w1).2 in
  p_k (parms (q w1)) = x /\
  s_p (queue_show_base (log w2) !!! Z.to_nat (array_element (log w))) = double_to_ll x /\
  p_k (parms (q (period_limit w2))) = clamp (p_min (parms (q w))) (p_max (parms (q w))) x.
Proof.
  intros Hl Hs Hc. cbv zeta. split; [done|].
  assert (parms_shape (parms (q (period_law e w)))) as Hs1.
  { change (parms_shape (pid_law e (parms (q w)))). rewrite pid_law_eq. by destruct Hs; constructor. }
  destruct (enqueue_sampled (period_law e w) s) as (m & El & Ep).
  pose proof (sample_due m (qlen (sch (period_law e w))) (parms (q (period_law e w)))
    (log (period_law e w)) Hs1 Hl Hc) as Hd.
  destruct (sample_packet m _ _) as [p' l']. cbn [fst snd] in *.
  destruct Hd as (Hp' & _ & _ & Hx). split; [rewrite El; exact Hx|].
  change (p_k (limit_probability (parms (q (rbfgrad_enqueue s (period_law e w)).2))) =
    clamp (p_min (parms (q w))) (p_max (parms (q w))) (pid_sum e (parms (q w)))).
  rewrite Ep, Hp', limit_probability_eq. reflexivity.
Qed.
End Properties.

(** ** The concrete environment *)

Definition demo_data : rbfgrad_sched_data fifo :=
  mk_data 1000 1 zero_parms (mk_stats 0 0 0 0 0 0) (mk_fifo 1000 []).

(** An idle instance over an empty 1000-byte FIFO, ECN on. *)
Definition demo_world : world fifo script nat threads :=
  mk_world demo_data (mk_qdisc 0 0 0 0 0 0) empty_log 0 0 (Some 0%nat) (Some 1%nat)
    (mk_kctx 0 [7; 9]) (mk_threads 2 []) 0 [] true.

Lemma demo_world_ok : world_ok (Skb := skb) 0 0 demo_world [].
Proof. constructor; try reflexivity; [exact zero_parms_inv|exact empty_log_ok]. Qed.

Lemma demo_prob_ok : prob_ok (parms (q demo_world)).
Proof. by left. Qed.

Definition demo_skb : skb := mk_skb 100 true false.

Definition demo_req : tc_rbfgrad_qopt :=
  mk_qopt 300 (dec 1 (-2)) (dec 1 (-3)) d1 d1 d0 d0 d1 d1 d1 10 6 d0 d0 10 4 1000 1.

Definition demo_opt : attr := AReq (Some (AParms demo_req)) (Some (AStab [])).

(** One packet in, one packet out, then the control thread's PID step. *)
Definition demo_enq := rbfgrad_enqueue demo_skb demo_world.
Definition demo_deq := rbfgrad_dequeue (Skb := skb) demo_enq.2.

Lemma demo_exec :
  exec (Attr := attr) (Msg := msg) (Idle, demo_world) [LEnqueue demo_skb demo_enq.1; LDequeue demo_deq.1]
    (Idle, demo_deq.2).
Proof.
  eapply exec_cons; [apply (step_enqueue Idle demo_world demo_skb demo_enq.1 demo_enq.2);
    exact (surjective_pairing _)|].
  eapply exec_cons; [apply (step_dequeue Idle demo_enq.2 demo_deq.1 demo_deq.2);
    exact (surjective_pairing _)|]. constructor.
Qed.

Lemma exec_refines_witness :
  exists l', aqm_exec [] [LEnqueue demo_skb demo_enq.1; LDequeue demo_deq.1] l' /\
    child_pkts (qdisc (q demo_deq.2)) = l'.
Proof.
  apply (exec_refines 0 0 Idle Idle demo_world demo_deq.2 [] _ demo_world_ok demo_prob_ok demo_exec).
Defined.

Lemma exec_invariant_witness :
  qlen (sch demo_deq.2) = u32 (Z.of_nat (length (child_pkts (qdisc (q demo_deq.2))))) /\
  log_ok (log demo_deq.2) /\ parms_shape (parms (q demo_deq.2)) /\
  0 <= gbest_index (parms (q demo_deq.2)) < Z.of_nat PARTICLE_NUM /\
  fpu_depth (kctx_of demo_deq.2) = 0 /\ tree_lock demo_deq.2 = 0.
Proof.
  apply (exec_invariant 0 0 Idle Idle demo_world demo_deq.2 [] _ demo_world_ok demo_prob_ok demo_exec).
Defined.

Lemma exec_probability_witness :
  let p := parms (q demo_deq.2) in
  p_k p = p_init p \/ exists y, p_k p = clamp (p_min p) (p_max p) y.
Proof.
  apply (exec_probability 0 0 Idle Idle demo_world demo_deq.2 [] _ demo_world_ok demo_prob_ok demo_exec).
  discriminate.
Defined.

(** A marked packet: the random number 2^31 marks whatever the probability. *)
Definition demo_mark : world fifo script nat threads :=
  demo_world <| kctx_of := mk_kctx 0 [2 ^ 31] |>.

Lemma enqueue_branches_witness :
  counters_ok demo_mark /\ fate_of demo_mark demo_skb = Mark (mk_skb 100 true true) /\
  let '(r, w') := rbfgrad_enqueue demo_skb demo_mark in
  handed demo_mark (mk_skb 100 true true) 1 0 1 r w'.
Proof.
  assert (counters_ok demo_mark) as Hc by (vm_compute; intuition discriminate).
  assert (fate_of demo_mark demo_skb = Mark (mk_skb 100 true true)) as Hf by (by vm_compute).
  split; [exact Hc|]. split; [exact Hf|].
  pose proof (enqueue_branches demo_mark demo_skb Hc) as He. rewrite Hf in He. exact He.
Defined.

Lemma data_path_backlog_witness :
  backlog_ok (Skb := skb) demo_world /\ backlog_ok (rbfgrad_enqueue demo_skb demo_world).2.
Proof.
  split; [reflexivity|]. apply (data_path_backlog demo_world demo_skb). reflexivity.
Defined.

(** A queue of one packet. *)
Definition demo_full : world fifo script nat threads :=
  demo_world <| q := demo_data <| qdisc := mk_fifo 1000 [demo_skb] |> |>
             <| sch := mk_qdisc 1 0 0 100 0 0 |>.

Lemma change_backlog_stale_witness :
  let w' := install_request demo_req (replicate RBFGRAD_STAB_SIZE 0) (Some (mk_fifo 10 [])) demo_full in
  qlen (sch w') = 0 /\ child_pkts (qdisc (q w')) = [] /\ backlog (sch w') = backlog (sch demo_full).
Proof.
  apply (change_backlog_stale demo_full demo_req (replicate RBFGRAD_STAB_SIZE 0) (mk_fifo 10 []));
    reflexivity.
Defined.


Lemma init_establishes_witness :
  let '(r, w') := rbfgrad_init (Some demo_opt) demo_world in
  r = 0 -> world_ok (Skb := skb) (0 + 1) 0 w' [] /\ prob_ok (parms (q w')).
Proof.
  apply (init_establishes (Some demo_opt) demo_world 0 0); try reflexivity;
    [exact zero_parms_inv|exact empty_log_ok].
Defined.

Lemma init_error_leaks_witness :
  let '(r, w') := rbfgrad_init (Attr := attr) None demo_world in
  r <> 0 ->
  (exists t1 t2, tsk_prob w' = Some t1 /\ tsk_stop_prob w' = Some t2 /\
     kthread_should_stop t1 (thr w') = false) /\
  fpu_depth (kctx_of w') = fpu_depth (kctx_of demo_world) + 1 /\ qdisc (q w') = noop_qdisc.
Proof. apply (init_error_leaks (None : option attr) demo_world). Defined.

Lemma destroy_leaves_thread_witness :
  let w' := core_free (rbfgrad_destroy demo_world) in
  kthread_should_stop 0%nat (thr w') = false /\ rbfgrad_thread_func 0%nat w' = None /\
  (exists w1, rbfgrad_thread_func 0%nat demo_world = Some (true, w1)).
Proof. apply (destroy_leaves_thread demo_world 0%nat); reflexivity. Defined.

Lemma stop_thread_stops_witness :
  exists w1, rbfgrad_thread_func 0%nat (rbfgrad_stop_prob_thread_func demo_world) = Some (false, w1).
Proof. apply (stop_thread_stops demo_world 0%nat); reflexivity. Defined.

Lemma dump_after_change_witness :
  dump_opt (install_request demo_req (replicate RBFGRAD_STAB_SIZE 0) None demo_world) =
  demo_req <| o_p_init := d0 |> <| o_p_min := d0 |> <| o_Scell_log := 0 |> <| o_flags := 0 |>.
Proof. apply (dump_after_change demo_req (replicate RBFGRAD_STAB_SIZE 0) None demo_world). Defined.

(** A world one packet before a sample. *)
Definition demo_due : world fifo script nat threads := demo_world <| log := due_log |>.

Lemma unclamped_probability_visible_witness :
  let e := mk_errors d1 d0 d0 in
  let w1 := period_law e demo_due in
  s_p (queue_show_base (log (rbfgrad_enqueue demo_skb w1).2) !!! 0%nat) =
  double_to_ll (pid_sum e (parms (q demo_due))).
Proof.
  apply (unclamped_probability_visible demo_due (mk_errors d1 d0 d0) demo_skb due_log_ok
    zero_parms_shape eq_refl).
Defined.
