(* ===== verification/Text.v ===== *)
(** * Text: the C library's number formats

    Strings are NUL-free C strings.  [strtol], [strtoul] and [strtod] return [None]
    when the C function leaves its end pointer at the start, else the value and
    the rest of the string; [long] has 64 bits.  The printing functions are the
    conversions of [printf] the program uses. *)

From S2P Require Export FloatBounds.
From Stdlib Require Export String Ascii.

Global Open Scope string_scope.
Global Open Scope Z_scope.

(** ** Characters *)

Definition code (c : ascii) : Z := Z.of_N (N_of_ascii c).
Definition char_of (z : Z) : ascii := ascii_of_N (Z.to_N z).

Definition is_space (c : ascii) : bool := (code c =? 32) || ((9 <=? code c) && (code c <=? 13)).

(** The value of a digit or letter, as the number parsers read it. *)
Definition digit_value (c : ascii) : option Z :=
  let z := code c in
  if (48 <=? z) && (z <=? 57) then Some (z - 48)
  else if (97 <=? z) && (z <=? 122) then Some (z - 87)
  else if (65 <=? z) && (z <=? 90) then Some (z - 55)
  else None.

Definition digit_in (base : Z) (c : ascii) : option Z :=
  match digit_value c with
  | Some d => if d <? base then Some d else None
  | None => None
  end.

Definition digit_char (d : Z) : ascii := char_of (if d <? 10 then d + 48 else d + 87).

Definition to_lower (c : ascii) : ascii :=
  if (65 <=? code c) && (code c <=? 90) then char_of (code c + 32) else c.

Fixpoint lower (s : string) : string :=
  match s with "" => "" | String c s => String (to_lower c) (lower s) end.

(** [strcasecmp(a, b) == 0]. *)
Definition strcaseeq (a b : string) : bool := String.eqb (lower a) (lower b).

(** ** Printing integers *)

Fixpoint print_digits (fuel : nat) (base z : Z) (acc : string) : string :=
  match fuel with
  | O => acc
  | S fuel =>
      let acc := String (digit_char (z mod base)) acc in
      if z <? base then acc else print_digits fuel base (z / base) acc
  end.

(** [%x] and [%u] of a non-negative number, [%d] of any. *)
Definition print_base (base z : Z) : string := print_digits (S (Z.to_nat (Z.log2 z))) base z "".
Definition print_u (z : Z) : string := print_base 10 z.
Definition print_x (z : Z) : string := print_base 16 z.
Definition print_d (z : Z) : string := if z <? 0 then String "-" (print_u (- z)) else print_u z.

(** ** Reading integers *)

Fixpoint skip_space (s : string) : string :=
  match s with String c s' => if is_space c then skip_space s' else s | "" => "" end.

(** The digits at the front: their value after [acc], and the rest. *)
Fixpoint scan_digits (base : Z) (s : string) (acc : Z) : Z * string :=
  match s with
  | String c s' =>
      match digit_in base c with Some d => scan_digits base s' (acc * base + d) | None => (acc, s) end
  | "" => (acc, "")
  end.

Definition starts_digit (base : Z) (s : string) : bool :=
  match s with String c _ => if digit_in base c is Some _ then true else false | "" => false end.

Definition scan_sign (s : string) : bool * string :=
  match s with
  | String c s' => if Ascii.eqb c "-" then (true, s') else if Ascii.eqb c "+" then (false, s') else (false, s)
  | "" => (false, "")
  end.

(** The base and where its digits start: [0x] counts only before a hex digit. *)
Definition scan_base (base : Z) (s : string) : Z * string :=
  let hex :=
    match s with
    | String z (String x s') =>
        Ascii.eqb z "0" && (Ascii.eqb x "x" || Ascii.eqb x "X") && starts_digit 16 s'
    | _ => false
    end in
  if ((base =? 0) || (base =? 16)) && hex then (16, substring 2 (String.length s - 2) s)
  else if base =? 0 then (match s with String z _ => if Ascii.eqb z "0" then 8 else 10 | "" => 10 end, s)
  else (base, s).

(** Sign, magnitude and rest. *)
Definition scan_int (base : Z) (s : string) : option (bool * Z * string) :=
  let '(neg, s) := scan_sign (skip_space s) in
  let '(base, s) := scan_base base s in
  if starts_digit base s then
    let '(m, rest) := scan_digits base s 0 in Some (neg, m, rest)
  else None.

Definition LONG_MAX : Z := 9223372036854775807.
Definition LONG_MIN : Z := -9223372036854775808.
Definition ULONG_MAX : Z := 18446744073709551615.

Definition strtol (s : string) (base : Z) : option (Z * string) :=
  match scan_int base s with
  | Some (neg, m, rest) => Some (Z.max LONG_MIN (Z.min LONG_MAX (if neg then - m else m)), rest)
  | None => None
  end.

Definition strtoul (s : string) (base : Z) : option (Z * string) :=
  match scan_int base s with
  | Some (neg, m, rest) =>
      Some (if ULONG_MAX <? m then ULONG_MAX else u64 (if neg then - m else m), rest)
  | None => None
  end.

(** [atoi] and [atoll]: [strtol] without the checks. *)
Definition atoll (s : string) : Z := match strtol s 10 with Some (v, _) => v | None => 0 end.
Definition atoi (s : string) : Z := s32 (atoll s).

(** [sscanf(s, "%d", &x)]: the value when one item was converted. *)
Definition sscanf_d (s : string) : option Z :=
  match strtol s 10 with Some (v, _) => Some (s32 v) | None => None end.

(** ** Reading doubles *)

(** Digits with a point: the integer they form, how many follow the point, and
    whether there was any. *)
Definition scan_fraction (base : Z) (s : string) : Z * Z * bool * string :=
  let '(m, r) := scan_digits base s 0 in
  let any := starts_digit base s in
  match r with
  | String c r' =>
      if Ascii.eqb c "." then
        let '(m', r'') := scan_digits base r' m in
        if any || starts_digit base r'
        then (m', Z.of_nat (String.length r' - String.length r''), true, r'')
        else (0, 0, false, s)
      else (m, 0, any, r)
  | "" => (m, 0, any, r)
  end.

(** The exponent part introduced by [mark]; without digits it is not consumed,
    which [scanf] reports as an error. *)
Definition scan_exponent (mark : ascii) (s : string) : Z * string * bool :=
  match s with
  | String c s' =>
      if Ascii.eqb (to_lower c) mark then
        let '(neg, d) := scan_sign s' in
        if starts_digit 10 d then
          let '(e, r) := scan_digits 10 d 0 in ((if neg then - e else e), r, true)
        else (0, s, false)
      else (0, s, true)
  | "" => (0, "", true)
  end.

Definition has_prefix (p s : string) : bool := String.prefix p (lower s).

Definition drop_chars (n : nat) (s : string) : string := substring n (String.length s - n) s.

(** [m * base^k] in binary64; base 10 or 2. *)
Definition scale2 (m k : Z) : double :=
  if 0 <=? k then binary_normalize prec emax (m * 2 ^ k) 0 false
  else binary_normalize prec emax m k false.

(** The unsigned part of a [strtod] argument; the flag is false when [scanf]
    would report an error. *)
Definition scan_float (s : string) : option (double * string * bool) :=
  if has_prefix "infinity" s then Some (S754_infinity false, drop_chars 8 s, true)
  else if has_prefix "inf" s then Some (S754_infinity false, drop_chars 3 s, true)
  else if has_prefix "nan" s then Some (S754_nan, drop_chars 3 s, true)
  else
    let hex := has_prefix "0x" s && (let '(_, _, any, _) := scan_fraction 16 (drop_chars 2 s) in any) in
    if hex then
      let '(m, f, _, r) := scan_fraction 16 (drop_chars 2 s) in
      let '(e, r, ok) := scan_exponent "p" r in Some (scale2 m (e - 4 * f), r, ok)
    else
      let '(m, f, any, r) := scan_fraction 10 s in
      if any then let '(e, r, ok) := scan_exponent "e" r in Some (dec m (e - f), r, ok)
      else None.

Definition scan_double (s : string) : option (double * string * bool) :=
  let '(neg, s) := scan_sign (skip_space s) in
  match scan_float s with
  | Some (x, r, ok) => Some ((if neg then dneg x else x), r, ok)
  | None => None
  end.

Definition strtod (s : string) : option (double * string) :=
  match scan_double s with Some (x, r, _) => Some (x, r) | None => None end.

(** [sscanf(s, "%lf", &x)]. *)
Definition sscanf_lf (s : string) : option double :=
  match scan_double s with Some (x, _, true) => Some x | _ => None end.

(** ** Printing doubles *)

(** [num / den] rounded to the nearest integer, ties to even. *)
Definition round_half_even (num den : Z) : Z :=
  let q := num / den in
  let r := num mod den in
  match 2 * r ?= den with
  | Lt => q
  | Gt => q + 1
  | Eq => if Z.even q then q else q + 1
  end.

Fixpoint pad_left (n : nat) (s : string) : string :=
  match n with O => s | S n => if (String.length s <? S n)%nat then String "0" (pad_left n s) else s end.

Definition sign_text (s : bool) (t : string) : string := if s then String "-" t else t.

(** [%.nf]. *)
Definition fmt_fixed (n : nat) (x : double) : string :=
  match x with
  | S754_nan => "-nan"
  | S754_infinity s => sign_text s "inf"
  | S754_zero s => sign_text s (if (0 <? n)%nat then "0." +:+ pad_left n "" else "0")
  | S754_finite s m e =>
      let p := 10 ^ Z.of_nat n in
      let v := if 0 <=? e then Z.pos m * 2 ^ e * p else round_half_even (Z.pos m * p) (2 ^ (- e)) in
      let ip := print_u (v / p) in
      sign_text s (if (0 <? n)%nat then ip +:+ "." +:+ pad_left n (print_u (v mod p)) else ip)
  end.

Definition fmt_lf : double -> string := fmt_fixed 6.

Fixpoint strip_zeros (s : string) : string :=
  match s with
  | String c s' =>
      match strip_zeros s' with
      | "" => if Ascii.eqb c "0" then "" else String c ""
      | t => String c t
      end
  | "" => ""
  end.

(** The decimal exponent of [num/den], found from an upper estimate. *)
Fixpoint dec_exponent (fuel : nat) (num den x : Z) : Z :=
  match fuel with
  | O => x
  | S fuel =>
      let above := if 0 <=? x then den * 10 ^ x <=? num else den <=? num * 10 ^ (- x) in
      if above then x else dec_exponent fuel num den (x - 1)
  end.

(** [%g]: six significant digits, trailing zeros removed. *)
Definition fmt_g (x : double) : string :=
  match x with
  | S754_nan => "-nan"
  | S754_infinity s => sign_text s "inf"
  | S754_zero s => sign_text s "0"
  | S754_finite s m e =>
      let num := if 0 <=? e then Z.pos m * 2 ^ e else Z.pos m in
      let den := if 0 <=? e then 1 else 2 ^ (- e) in
      let x0 := dec_exponent 700 num den 309 in
      let scaled (x : Z) := if 0 <=? 5 - x then round_half_even (num * 10 ^ (5 - x)) den
                            else round_half_even num (den * 10 ^ (x - 5)) in
      let '(d, x) := if scaled x0 =? 10 ^ 6 then (10 ^ 5, x0 + 1) else (scaled x0, x0) in
      let ds := print_u d in
      let point (i f : string) := match strip_zeros f with "" => i | f => i +:+ "." +:+ f end in
      sign_text s
        (if (x <? -4) || (6 <=? x) then
           point (substring 0 1 ds) (substring 1 5 ds) +:+
             "e" +:+ (if x <? 0 then "-" else "+") +:+ pad_left 2 (print_u (Z.abs x))
         else if 0 <=? x then
           point (substring 0 (Z.to_nat (x + 1)) ds) (substring (Z.to_nat (x + 1)) 6 ds)
         else point "0" (pad_left (Z.to_nat (5 - x)) ds))
  end.

(** ** What is printed is read back *)

(** A property of the sixteen digits, checked one by one. *)
Lemma all_digits (P : Z -> Prop) :
  List.Forall P (map Z.of_nat (List.seq 0 16)) -> forall d, 0 <= d < 16 -> P d.
Proof.
  rewrite List.Forall_forall. intros HP d Hd. apply HP, in_map_iff.
  exists (Z.to_nat d). split; [lia|]. apply in_seq. lia.
Qed.

Lemma digit_value_char d : 0 <= d < 16 -> digit_value (digit_char d) = Some d.
Proof. revert d. apply all_digits. repeat constructor. Qed.

Lemma digit_in_char base d : 0 <= d < base -> base <= 16 -> digit_in base (digit_char d) = Some d.
Proof.
  intros Hd Hb. unfold digit_in. rewrite digit_value_char by lia.
  by rewrite (proj2 (Z.ltb_lt d base)) by lia.
Qed.

(** The first character of a printed number is a digit: no sign, no space. *)
Lemma digit_char_plain d :
  0 <= d < 16 ->
  is_space (digit_char d) = false /\ Ascii.eqb (digit_char d) "-" = false /\
  Ascii.eqb (digit_char d) "+" = false /\ Ascii.eqb (digit_char d) "x" = false /\
  Ascii.eqb (digit_char d) "X" = false.
Proof. revert d. apply all_digits. repeat constructor. Qed.

Lemma append_empty s : s +:+ "" = s.
Proof.
  induction s as [|c s IH]; [done|]. change (String c (s +:+ "") = String c s). by rewrite IH.
Qed.

Lemma append_assoc s t u : (s +:+ t) +:+ u = s +:+ (t +:+ u).
Proof.
  induction s as [|c s IH]; [done|].
  change (String c ((s +:+ t) +:+ u) = String c (s +:+ (t +:+ u))). by rewrite IH.
Qed.

Section RoundTrip.
Variable base : Z.
Hypothesis base_range : 2 <= base <= 16.

Lemma scan_print_digits fuel z acc :
  0 <= z < base ^ Z.of_nat (S fuel) ->
  exists k, 0 <= k /\ forall a, scan_digits base (print_digits (S fuel) base z acc) a =
    scan_digits base acc (a * base ^ k + z).
Proof.
  revert z acc. induction fuel as [|fuel IH]; intros z acc Hz.
  - change (base ^ Z.of_nat 1) with (base ^ 1) in Hz. rewrite Z.pow_1_r in Hz.
    cbn [print_digits]. rewrite Z.mod_small, (proj2 (Z.ltb_lt z base)) by lia.
    exists 1. split; [lia|]. intros a. cbn [scan_digits].
    rewrite digit_in_char by lia. by rewrite Z.pow_1_r.
  - cbn [print_digits]. pose proof (Z.mod_pos_bound z base ltac:(lia)) as Hm.
    destruct (Z.ltb_spec z base) as [Hlt|Hge].
    + exists 1. split; [lia|]. intros a. cbn [scan_digits].
      rewrite digit_in_char by lia. by rewrite Z.pow_1_r, Z.mod_small by lia.
    + destruct (IH (z / base) (String (digit_char (z mod base)) acc)) as (k & Hk & Hs).
      { split; [apply Z.div_pos; lia|]. apply Z.div_lt_upper_bound; [lia|].
        rewrite <- Z.pow_succ_r by lia. rewrite <- Nat2Z.inj_succ. lia. }
      exists (k + 1). split; [lia|]. intros a. cbn [print_digits] in Hs. rewrite Hs. cbn [scan_digits].
      rewrite digit_in_char by lia. f_equal. rewrite Z.pow_add_r, Z.pow_1_r by lia.
      pose proof (Z.div_mod z base ltac:(lia)). nia.
Qed.

Lemma print_base_fuel z : 0 <= z -> z < base ^ Z.of_nat (S (Z.to_nat (Z.log2 z))).
Proof.
  intros Hz. pose proof (Z.log2_nonneg z) as Hl.
  rewrite Nat2Z.inj_succ, Z2Nat.id by done.
  apply Z.lt_le_trans with (2 ^ Z.succ (Z.log2 z)).
  - destruct (decide (z = 0)) as [->|]; [reflexivity|]. apply Z.log2_spec. lia.
  - apply Z.pow_le_mono_l. lia.
Qed.

(** The printed digits are those in front of the accumulator. *)
Lemma print_digits_app fuel z acc : print_digits fuel base z acc = print_digits fuel base z "" +:+ acc.
Proof.
  revert z acc. induction fuel as [|fuel IH]; intros z acc; [done|]. cbn [print_digits].
  destruct (z <? base); [done|]. set (c := digit_char _).
  rewrite (IH (z / base) (String c acc)), (IH (z / base) (String c "")), append_assoc. done.
Qed.

Lemma scan_print z rest :
  0 <= z -> starts_digit base rest = false ->
  scan_digits base (print_base base z +:+ rest) 0 = (z, rest).
Proof.
  intros Hz Hr. unfold print_base. rewrite <- print_digits_app.
  destruct (scan_print_digits (Z.to_nat (Z.log2 z)) z rest) as (k & _ & Hs);
    [split; [done|by apply print_base_fuel]|].
  rewrite Hs, Z.mul_0_l, Z.add_0_l.
  destruct rest as [|c rest]; [done|]. cbn [scan_digits starts_digit] in *.
  by destruct (digit_in base c).
Qed.

Lemma print_digits_head fuel z acc :
  0 <= z -> exists d s, print_digits (S fuel) base z acc = String (digit_char d) s /\ 0 <= d < base.
Proof.
  revert z acc. induction fuel as [|fuel IH]; intros z acc Hz; cbn [print_digits];
    pose proof (Z.mod_pos_bound z base ltac:(lia)) as Hm.
  - exists (z mod base), acc. by destruct (z <? base).
  - destruct (z <? base); [by exists (z mod base), acc|]. apply (IH (z / base)). apply Z.div_pos; lia.
Qed.

(** A printed number starts like a number without sign or prefix. *)
Lemma print_base_scan z rest :
  0 <= z -> starts_digit base (print_base base z +:+ rest) = true /\
  scan_sign (skip_space (print_base base z +:+ rest)) = (false, print_base base z +:+ rest).
Proof.
  intros Hz. unfold print_base.
  destruct (print_digits_head (Z.to_nat (Z.log2 z)) z "" Hz) as (d & s & E & Hd). rewrite E.
  destruct (digit_char_plain d ltac:(lia)) as (Hsp & Hm & Hp & _).
  change (String (digit_char d) s +:+ rest) with (String (digit_char d) (s +:+ rest)).
  cbn [starts_digit skip_space scan_sign].
  rewrite digit_in_char, Hsp by lia. cbn [scan_sign]. by rewrite Hm, Hp.
Qed.
End RoundTrip.

Lemma scan_base_10 s : scan_base 10 s = (10, s).
Proof. reflexivity. Qed.

(** Reading back a decimal number: [strtol] of [%d]. *)
Lemma strtol_print_d z rest :
  LONG_MIN <= z <= LONG_MAX -> starts_digit 10 rest = false ->
  strtol (print_d z +:+ rest) 10 = Some (z, rest).
Proof.
  intros Hz Hr. unfold strtol, scan_int, print_d, print_u, LONG_MIN, LONG_MAX in *.
  destruct (Z.ltb_spec z 0) as [Hn|Hn].
  - change (String "-" (print_base 10 (- z)) +:+ rest) with (String "-" (print_base 10 (- z) +:+ rest)).
    cbn [skip_space]. change (is_space "-") with false. cbn iota.
    change (scan_sign (String "-" (print_base 10 (- z) +:+ rest))) with
      (true, print_base 10 (- z) +:+ rest). cbn iota. rewrite scan_base_10. cbn iota.
    destruct (print_base_scan 10 ltac:(lia) (- z) rest ltac:(lia)) as [-> _].
    rewrite scan_print by (done || lia). cbn iota. do 2 f_equal. lia.
  - destruct (print_base_scan 10 ltac:(lia) z rest ltac:(lia)) as [Hs ->]. cbn iota.
    rewrite scan_base_10. cbn iota. rewrite Hs, scan_print by (done || lia).
    cbn iota. do 2 f_equal. lia.
Qed.

Lemma atoll_print_d z rest :
  LONG_MIN <= z <= LONG_MAX -> starts_digit 10 rest = false -> atoll (print_d z +:+ rest) = z.
Proof. intros. unfold atoll. by rewrite strtol_print_d. Qed.

(** ** Lengths and lines *)

Definition tab : string := String "009" "".
Definition newline : string := String "010" "".

Lemma length_append s t : String.length (s +:+ t) = (String.length s + String.length t)%nat.
Proof.
  induction s as [|c s IH]; [done|]. change (S (String.length (s +:+ t)) = S (String.length s + String.length t)).
  by rewrite IH.
Qed.

(** The number of digits. *)
Lemma substring_all s : forall n, (String.length s <= n)%nat -> substring 0 n s = s.
Proof.
  induction s as [|c s IH]; intros n Hn; [by destruct n|].
  destruct n as [|n]; [cbn in Hn; lia|]. cbn [substring]. f_equal. apply IH. cbn in Hn. lia.
Qed.

Lemma print_digits_length base fuel : forall z k acc,
  2 <= base -> 0 <= z < base ^ Z.of_nat fuel -> (0 < k)%nat ->
  (z < base ^ Z.of_nat k ->
     (String.length (print_digits fuel base z acc) <= String.length acc + k)%nat) /\
  (base ^ (Z.of_nat k - 1) <= z ->
     (String.length acc + k <= String.length (print_digits fuel base z acc))%nat).
Proof.
  induction fuel as [|fuel IH]; intros z k acc Hb Hz Hk.
  { assert (z = 0) as -> by (change (base ^ Z.of_nat 0) with 1 in Hz; lia). cbn [print_digits].
    split; [lia|]. intros H. pose proof (Z.pow_pos_nonneg base (Z.of_nat k - 1)). lia. }
  cbn [print_digits]. destruct (Z.ltb_spec z base) as [Hs|Hl]; cbn [String.length].
  - split; [lia|]. intros H. destruct k as [|[|k]]; [lia..|].
    assert (base ^ 1 <= base ^ (Z.of_nat (S (S k)) - 1)) by (apply Z.pow_le_mono_r; lia).
    rewrite Z.pow_1_r in *. lia.
  - destruct k as [|k]; [lia|].
    assert (0 <= z / base < base ^ Z.of_nat fuel) as Hd.
    { split; [apply Z.div_pos; lia|]. apply Z.div_lt_upper_bound; [lia|].
      rewrite <- Z.pow_succ_r, <- Nat2Z.inj_succ by lia. lia. }
    destruct k as [|k].
    { split; intros H; [|].
      - change (Z.of_nat 1) with 1 in H. rewrite Z.pow_1_r in H. lia.
      - destruct (IH (z / base) 1%nat (String (digit_char (z mod base)) acc) Hb Hd ltac:(lia)) as [_ I].
        cbn [String.length] in I. assert (base ^ (Z.of_nat 1 - 1) <= z / base).
        { change (base ^ (Z.of_nat 1 - 1)) with 1. apply Z.div_le_lower_bound; lia. }
        specialize (I H0). lia. }
    destruct (IH (z / base) (S k) (String (digit_char (z mod base)) acc) Hb Hd ltac:(lia)) as [I1 I2].
    cbn [String.length] in I1, I2. split; intros H.
    + assert (z / base < base ^ Z.of_nat (S k)).
      { apply Z.div_lt_upper_bound; [lia|]. rewrite <- Z.pow_succ_r, <- Nat2Z.inj_succ by lia. lia. }
      specialize (I1 H0). lia.
    + assert (base ^ (Z.of_nat (S k) - 1) <= z / base).
      { apply Z.div_le_lower_bound; [lia|]. rewrite <- Z.pow_succ_r by lia.
        replace (Z.succ (Z.of_nat (S k) - 1)) with (Z.of_nat (S (S k)) - 1) by lia. done. }
      specialize (I2 H0). lia.
Qed.

Lemma print_u_length z k :
  0 <= z -> (0 < k)%nat ->
  (z < 10 ^ Z.of_nat k -> (String.length (print_u z) <= k)%nat) /\
  (10 ^ (Z.of_nat k - 1) <= z -> (k <= String.length (print_u z))%nat).
Proof.
  intros Hz Hk. unfold print_u, print_base.
  destruct (print_digits_length 10 (S (Z.to_nat (Z.log2 z))) z k "") as [I1 I2];
    [lia|split; [done|apply print_base_fuel; lia]|done|]. cbn [String.length] in *. split; lia || auto.
Qed.

Lemma print_d_length z : LONG_MIN <= z <= LONG_MAX -> (1 <= String.length (print_d z) <= 20)%nat.
Proof.
  unfold LONG_MIN, LONG_MAX. intros Hz. unfold print_d. destruct (Z.ltb_spec z 0) as [Hn|Hn].
  - destruct (print_u_length (- z) 19 ltac:(lia) ltac:(lia)) as [I _].
    change (10 ^ Z.of_nat 19) with 10000000000000000000 in I. cbn [String.length]. lia.
  - destruct (print_u_length z 19 Hn ltac:(lia)) as [I _].
    destruct (print_u_length z 1 Hn ltac:(lia)) as [_ J].
    change (10 ^ Z.of_nat 19) with 10000000000000000000 in I.
    destruct (decide (z = 0)) as [->|]; [vm_compute; lia|].
    change (10 ^ (Z.of_nat 1 - 1)) with 1 in J. lia.
Qed.

Lemma print_d_u z : 0 <= z -> print_d z = print_u z.
Proof. intros Hz. unfold print_d. by rewrite (proj2 (Z.ltb_ge z 0)). Qed.

(** A line of the input, with its newline, and the rest. *)
Fixpoint read_line (s : string) : string * string :=
  match s with
  | String c s' =>
      if Ascii.eqb c "010" then (String c "", s') else let '(l, r) := read_line s' in (String c l, r)
  | "" => ("", "")
  end.

Lemma digit_char_newline d : 0 <= d < 16 -> Ascii.eqb (digit_char d) "010" = false.
Proof. revert d. apply all_digits. repeat constructor. Qed.

Lemma read_line_digits base fuel : 2 <= base <= 16 -> forall z acc rest l r,
  0 <= z -> read_line (acc +:+ rest) = (l, r) ->
  exists ds, print_digits fuel base z acc = ds +:+ acc /\
    read_line (ds +:+ acc +:+ rest) = (ds +:+ l, r).
Proof.
  intros Hb. induction fuel as [|fuel IH]; intros z acc rest l r Hz E; cbn [print_digits].
  { by exists "". }
  set (d := z mod base). assert (0 <= d < 16) by (unfold d; pose proof (Z.mod_pos_bound z base); lia).
  assert (read_line (String (digit_char d) acc +:+ rest) = (String (digit_char d) l, r)) as E1.
  { change (String (digit_char d) acc +:+ rest) with (String (digit_char d) (acc +:+ rest)).
    cbn [read_line]. by rewrite digit_char_newline, E. }
  destruct (z <? base).
  { exists (String (digit_char d) ""). done. }
  destruct (IH (z / base) (String (digit_char d) acc) rest _ r ltac:(apply Z.div_pos; lia) E1) as (ds & -> & R).
  exists (ds +:+ String (digit_char d) ""). rewrite !append_assoc. split; [done|].
  exact R.
Qed.

(** A printed number and a newline are a line. *)
Lemma read_line_print_d z rest :
  read_line (print_d z +:+ String "010" rest) = (print_d z +:+ String "010" "", rest).
Proof.
  assert (forall z, 0 <= z -> read_line (print_u z +:+ String "010" rest) = (print_u z +:+ String "010" "", rest)) as Hu.
  { intros y Hy. unfold print_u, print_base.
    destruct (read_line_digits 10 (S (Z.to_nat (Z.log2 y))) ltac:(lia) y "" (String "010" rest)
      (String "010" "") rest Hy eq_refl) as (ds & -> & R). rewrite append_empty. exact R. }
  unfold print_d. destruct (Z.ltb_spec z 0) as [Hn|Hn]; [|by apply Hu].
  change (String "-" (print_u (- z)) +:+ String "010" rest) with
    (String "-" (print_u (- z) +:+ String "010" rest)).
  cbn [read_line]. change (Ascii.eqb "-" "010") with false. cbv iota. rewrite Hu by lia. done.
Qed.

(** ** More conversions *)

Fixpoint all_chars (P : ascii -> bool) (s : string) : bool :=
  match s with "" => true | String c s => P c && all_chars P s end.

Lemma all_chars_app P s t : all_chars P (s +:+ t) = all_chars P s && all_chars P t.
Proof.
  induction s as [|c s IH]; [done|].
  change (P c && all_chars P (s +:+ t) = P c && all_chars P s && all_chars P t). rewrite IH. apply andb_assoc.
Qed.

Lemma print_digits_chars (P : ascii -> bool) base fuel : forall z acc,
  0 < base -> 0 <= z -> (forall d, 0 <= d < base -> P (digit_char d) = true) -> all_chars P acc = true ->
  all_chars P (print_digits fuel base z acc) = true.
Proof.
  induction fuel as [|fuel IH]; intros z acc Hb Hz HP Ha; [done|]. cbn [print_digits].
  assert (all_chars P (String (digit_char (z mod base)) acc) = true) as E.
  { cbn [all_chars]. by rewrite HP, Ha by (apply Z.mod_pos_bound; lia). }
  destruct (z <? base); [done|]. apply IH; try done. apply Z.div_pos; lia.
Qed.

Lemma print_base_chars P base z :
  0 < base -> 0 <= z -> (forall d, 0 <= d < base -> P (digit_char d) = true) ->
  all_chars P (print_base base z) = true.
Proof. intros. by apply print_digits_chars. Qed.

(** A number in base 16 is not taken for a prefix. *)
Lemma scan_base_16 z rest :
  0 <= z -> match rest with String c _ => is_space c || Ascii.eqb c ":" = true | "" => True end ->
  scan_base 16 (print_x z +:+ rest) = (16, print_x z +:+ rest).
Proof.
  intros Hz Hr. unfold scan_base. cbv zeta.
  match goal with |- context [((16 =? 0) || (16 =? 16)) && ?h] => assert (h = false) as -> end; [|done].
  set (P c := negb (Ascii.eqb c "x" || Ascii.eqb c "X")).
  assert (all_chars P (print_x z) = true) as Hp.
  { apply print_base_chars; [lia|done|]. intros d Hd. unfold P.
    by destruct (digit_char_plain d ltac:(lia)) as (_ & _ & _ & -> & ->). }
  assert (forall s, all_chars P s = true ->
    match s +:+ rest with String x _ => Ascii.eqb x "x" || Ascii.eqb x "X" = false | "" => True end) as Hx.
  { intros [|c s] H.
    - change ("" +:+ rest) with rest. destruct rest as [|c r]; [done|].
      destruct (Ascii.eqb_spec c "x") as [->|]; [done|]. by destruct (Ascii.eqb_spec c "X") as [->|].
    - change (String c s +:+ rest) with (String c (s +:+ rest)). cbv iota.
      cbn [all_chars] in H. apply andb_true_iff in H as [H _]. unfold P in H. by apply negb_true_iff. }
  destruct (print_x z) as [|c1 s1] eqn:E.
  { exfalso. pose proof (print_base_scan 16 ltac:(lia) z "" Hz) as [H _].
    change (print_base 16 z) with (print_x z) in H. by rewrite E in H. }
  cbn [all_chars] in Hp. apply andb_true_iff in Hp as [_ Hp]. specialize (Hx s1 Hp).
  change (String c1 s1 +:+ rest) with (String c1 (s1 +:+ rest)). cbv iota.
  destruct (s1 +:+ rest) as [|x s']; [done|]. rewrite Hx. by rewrite andb_false_r.
Qed.

(** Reading back a hexadecimal number. *)
Lemma strtoul_print_x z rest :
  0 <= z <= ULONG_MAX ->
  match rest with String c _ => is_space c || Ascii.eqb c ":" = true | "" => True end ->
  strtoul (print_x z +:+ rest) 16 = Some (z, rest).
Proof.
  intros Hz Hr. assert (starts_digit 16 rest = false) as Hs.
  { destruct rest as [|c r]; [done|]. cbn [starts_digit]. apply orb_true_iff in Hr as [Hr|Hr].
    - unfold digit_in, digit_value. unfold is_space in Hr.
      destruct (Z.leb_spec 48 (code c)), (Z.leb_spec (code c) 57); cbn; try lia;
      destruct (Z.leb_spec 97 (code c)); cbn; try lia;
      destruct (Z.leb_spec 65 (code c)); cbn; try lia; done.
    - by apply Ascii.eqb_eq in Hr as ->. }
  unfold strtoul, scan_int. destruct (print_base_scan 16 ltac:(lia) z rest ltac:(lia)) as [Hd E].
  change (print_base 16 z) with (print_x z) in *. rewrite E, scan_base_16 by (done || lia).
  rewrite Hd. change (print_x z) with (print_base 16 z). rewrite scan_print by (done || lia).
  rewrite (proj2 (Z.ltb_ge ULONG_MAX z)) by lia. unfold ULONG_MAX in Hz. by rewrite u64_small by lia.
Qed.

(** Reading back a decimal number with [strtoul]: negative numbers wrap. *)
Lemma strtoul_print_d z rest :
  LONG_MIN <= z <= ULONG_MAX -> starts_digit 10 rest = false ->
  strtoul (print_d z +:+ rest) 10 = Some (u64 z, rest).
Proof.
  intros Hz Hr. unfold LONG_MIN, ULONG_MAX in Hz.
  unfold strtoul, scan_int, print_d, print_u. destruct (Z.ltb_spec z 0) as [Hn|Hn].
  - change (String "-" (print_base 10 (- z)) +:+ rest) with (String "-" (print_base 10 (- z) +:+ rest)).
    cbn [skip_space]. change (is_space "-") with false. cbv iota.
    change (scan_sign (String "-" (print_base 10 (- z) +:+ rest))) with
      (true, print_base 10 (- z) +:+ rest). cbv iota. rewrite scan_base_10. cbv iota.
    destruct (print_base_scan 10 ltac:(lia) (- z) rest ltac:(lia)) as [-> _].
    rewrite scan_print by (done || lia). cbv iota. unfold ULONG_MAX.
    rewrite (proj2 (Z.ltb_ge _ (- z))) by lia. do 3 f_equal. lia.
  - destruct (print_base_scan 10 ltac:(lia) z rest ltac:(lia)) as [Hs ->]. cbv iota.
    rewrite scan_base_10. cbv iota. rewrite Hs, scan_print by (done || lia). cbv iota.
    unfold ULONG_MAX. by rewrite (proj2 (Z.ltb_ge _ z)) by lia.
Qed.
