(* ===== verification/SeqFile.v ===== *)
(** * Reading the sample log (seqfile_queuedata_rbfgrad.c, test/transfer.c)

    The /proc file walks the log in passes, remembering between passes how far it
    got; [transfer.c] turns the printed integers back into doubles.  A pointer
    into the array is its index; the position of the seq_file is an argument of
    each operation, as in the kernel's protocol. *)

From S2P Require Export QueueShow Text.

(** ** The /proc iterator *)

(** The statics [queue_array_count] and [count].
    [queuedata/seqfile_queuedata_rbfgrad.c:20-21 queue_array_count] *)
Record seq_state := mk_seq { queue_array_count : Z; count : Z }.

(** The value of the static initialisers. *)
Definition seq_init : seq_state := mk_seq 0 1.

Definition seq_header : string :=
  "Show queue length:" +:+ String "010" ("numbers" +:+ String "009" ("queue_length" +:+ String "009"
  ("mark_type" +:+ String "009" ("probability" +:+ String "009" ("kp" +:+ String "009" ("ki" +:+
  String "009" ("kd" +:+ String "009" ("jacobian" +:+ String "009" ("NetOut" +:+ String "010" ""))))))))).

(** The entry to show first, what is printed, and the statics.
    [queuedata/seqfile_queuedata_rbfgrad.c:23-50 l_start] *)
Definition l_start (array_element : Z) (pos : Z) (st : seq_state) : option Z * string * seq_state :=
  if pos =? 0 then
    let out := if queue_array_count st =? 0 then seq_header else "" in
    if queue_array_count st <? array_element then
      let st := mk_seq (queue_array_count st) 1 in
      (Some (Z.max 0 (queue_array_count st)), out, st)
    else (None, out, st)
  else (None, "", st).

(** [queuedata/seqfile_queuedata_rbfgrad.c:52-64 l_next] *)
Definition l_next (array_element : Z) (l pos : Z) (st : seq_state) : option Z * Z * seq_state :=
  let st := mk_seq (s32 (queue_array_count st + 1)) (s32 (count st + 1)) in
  if negb (pos =? 0) && ((array_element <=? queue_array_count st) || (40 <? count st))
  then (None, pos, st)
  else (Some (l + 1), pos + 1, st).

(** One line of the file.  [queuedata/seqfile_queuedata_rbfgrad.c:70-80 l_show] *)
Definition l_show (s : queue_show) : string :=
  print_u (u32 (s_numbers s)) +:+ tab +:+ print_u (u32 (s_length s)) +:+ tab +:+
  print_u (u32 (s_mark_type s)) +:+ tab +:+ print_d (s_p s) +:+ tab +:+ print_d (s_kp s) +:+ tab +:+
  print_d (s_ki s) +:+ tab +:+ print_d (s_kd s) +:+ tab +:+ print_d (s_jacobian s) +:+ tab +:+
  print_d (s_NetOut s) +:+ tab +:+ print_d (s_e_k s) +:+ tab +:+ print_d (s_e_k_1 s) +:+ tab +:+
  print_d (s_e_k_2 s) +:+ tab +:+ newline.

(** A pass as [seq_read] drives it: start, then show and next until the end. *)
Fixpoint seq_walk (fuel : nat) (n l pos : Z) (st : seq_state) : list Z * seq_state :=
  match fuel with
  | O => ([l], st)
  | S fuel =>
      let '(r, pos, st) := l_next n l pos st in
      match r with
      | None => ([l], st)
      | Some l' => let '(shown, st) := seq_walk fuel n l' pos st in (l :: shown, st)
      end
  end.

(** A pass shows at most 41 entries, so 41 steps are enough. *)
Definition seq_pass (n : Z) (st : seq_state) : list Z * seq_state :=
  let '(r, _, st) := l_start n 0 st in
  match r with None => ([], st) | Some l => seq_walk 41 n l 0 st end.

Definition entries (from : Z) (k : nat) : list Z := (fun i => from + Z.of_nat i) <$> seq 0 k.

Lemma entries_S from k : entries from (S k) = from :: entries (from + 1) k.
Proof.
  unfold entries. cbn [seq]. rewrite fmap_cons, <- fmap_S_seq, <- list_fmap_compose.
  f_equal; [apply Z.add_0_r|]. apply list_fmap_ext. intros i j _. unfold compose, id.
  rewrite Nat2Z.inj_succ. lia.
Qed.

Lemma entries_1 from : entries from (Z.to_nat 1) = [from].
Proof. change (Z.to_nat 1) with 1%nat. rewrite entries_S. done. Qed.

(** The walk after the first step. *)
Lemma seq_walk_spec fuel n l pos qac cnt :
  0 < pos -> 0 <= qac -> 1 <= cnt <= 40 -> n <= 30000 -> qac < n -> l = qac ->
  (41 <= fuel + Z.to_nat cnt)%nat ->
  let k := Z.min (n - qac) (41 - cnt) in
  seq_walk fuel n l pos (mk_seq qac cnt) = (entries l (Z.to_nat k), mk_seq (qac + k) (cnt + k)).
Proof.
  revert l pos qac cnt. induction fuel as [|fuel IH]; intros l pos qac cnt Hpos Hq Hc Hn Hlt -> Hf k;
    [lia|]. cbn [seq_walk]. unfold l_next. cbn [queue_array_count count].
  rewrite !s32_small by lia. rewrite (proj2 (Z.eqb_neq pos 0)) by lia. cbn [negb andb].
  destruct (Z.leb_spec n (qac + 1)) as [Hend|Hmore]; cbn [orb].
  { assert (k = 1) as -> by lia. by rewrite entries_1. }
  destruct (Z.ltb_spec 40 (cnt + 1)) as [Hend|Hmore2].
  { assert (k = 1) as -> by lia. by rewrite entries_1. }
  rewrite IH by lia. set (k' := Z.min (n - (qac + 1)) (41 - (cnt + 1))).
  assert (k = k' + 1) as -> by lia. rewrite Z2Nat.inj_add, Nat.add_1_r, entries_S by lia.
  f_equal. f_equal; lia.
Qed.

(** The first step of a pass is not bounded. *)
Lemma seq_pass_first n q c :
  0 <= q < 30000 -> q < n ->
  seq_pass n (mk_seq q c) =
    let '(shown, st) := seq_walk 40 n (q + 1) 1 (mk_seq (q + 1) 2) in (q :: shown, st).
Proof.
  intros Hq Hlt. unfold seq_pass, l_start.
  change (0 =? 0) with true. cbv iota. cbn [queue_array_count].
  rewrite (proj2 (Z.ltb_lt q n)) by lia. cbn [queue_array_count]. rewrite Z.max_r by lia.
  change (seq_walk 41 n q 0 (mk_seq q 1)) with
    (let '(r, pos, st) := l_next n q 0 (mk_seq q 1) in
     match r with
     | None => ([q], st)
     | Some l' => let '(shown, st) := seq_walk 40 n l' pos st in (q :: shown, st)
     end).
  unfold l_next at 1. change (negb (0 =? 0)) with false. cbn [queue_array_count count andb].
  by rewrite !s32_small by lia.
Qed.

(** A pass over the /proc file shows the recorded entries in order, from where
    the last pass stopped, at most 40 of them, and remembers where it stopped. *)
Theorem seq_pass_in_order (n : Z) (st : seq_state) :
  0 <= queue_array_count st -> n <= 30000 -> queue_array_count st + 2 <= n ->
  let k := Z.min 40 (n - queue_array_count st) in
  (seq_pass n st).1 = entries (queue_array_count st) (Z.to_nat k) /\
  queue_array_count (seq_pass n st).2 = queue_array_count st + k.
Proof.
  destruct st as [q c]. intros Hq Hn Hlt k. cbn [queue_array_count] in *.
  rewrite seq_pass_first, (seq_walk_spec 40 n _ 1 (q + 1) 2) by lia.
  set (k' := Z.min (n - (q + 1)) (41 - 2)). assert (k = k' + 1) as -> by lia.
  rewrite Z2Nat.inj_add by lia. change (Z.to_nat 1) with 1%nat. rewrite Nat.add_1_r, entries_S.
  cbn [fst snd queue_array_count]. split; [done|lia].
Qed.

Lemma seq_pass_in_order_witness :
  (seq_pass 100 (mk_seq 7 3)).1 = entries 7 40 /\ queue_array_count (seq_pass 100 (mk_seq 7 3)).2 = 47.
Proof. apply (seq_pass_in_order 100 (mk_seq 7 3)); cbn; lia. Defined.

(** With exactly one entry left the pass runs past the end of the log: the
    bound is not tested on the first step, so the entry after the last one, not
    recorded yet, is shown too, and the reader is left one entry ahead of the log:
    the next entry recorded is never shown with its own data. *)
Theorem seq_pass_overruns (st : seq_state) :
  0 <= queue_array_count st < 30000 ->
  let n := queue_array_count st + 1 in
  (seq_pass n st).1 = [queue_array_count st; n] /\
  queue_array_count (seq_pass n st).2 = n + 1 /\
  (seq_pass (n + 1) (seq_pass n st).2).1 = [].
Proof.
  destruct st as [q c]. intros Hq n. cbn [queue_array_count] in *.
  assert (seq_pass n (mk_seq q c) = ([q; n], mk_seq (n + 1) 3)) as ->.
  { rewrite seq_pass_first by lia. cbn [seq_walk]. unfold l_next.
    cbn [queue_array_count count]. change (negb (1 =? 0)) with true. cbn [andb].
    rewrite !s32_small by lia. rewrite (proj2 (Z.leb_le n (q + 1 + 1))) by lia. done. }
  cbn [fst snd queue_array_count]. split; [done|]. split; [done|].
  unfold seq_pass, l_start. change (0 =? 0) with true. cbv iota. cbn [queue_array_count].
  by rewrite (proj2 (Z.ltb_ge (n + 1) (n + 1))) by lia.
Qed.

Lemma seq_pass_overruns_witness :
  (seq_pass 8 (mk_seq 7 3)).1 = [7; 8] /\ queue_array_count (seq_pass 8 (mk_seq 7 3)).2 = 9 /\
  (seq_pass 9 (seq_pass 8 (mk_seq 7 3)).2).1 = [].
Proof. apply (seq_pass_overruns (mk_seq 7 3)). cbn. lia. Defined.

(** ** Back to doubles: test/transfer.c *)

(** [fscanf(fp, "%lld", &a)]: the variable and the rest of the stream; a failed
    conversion leaves both. *)
Definition fscanf_lld (s : string) (a : Z) : Z * string :=
  match strtol s 10 with Some (v, r) => (v, r) | None => (a, s) end.

(** Column [j] of a row, as it is written to the output file.
    [test/transfer.c:51-67 main] *)
Definition transfer_cell (j : nat) (a : Z) : string :=
  match j with
  | 3%nat | 4%nat | 5%nat | 6%nat | 7%nat => fmt_fixed 15 (ll_to_double a) +:+ tab
  | 8%nat => fmt_fixed 15 (ll_to_double a * queue_scale)%D +:+ tab
  | _ => print_d a +:+ tab
  end.

(** One column: the stream, the variable [a] and the output.  [test/transfer.c:50-67 main] *)
Definition transfer_column (j : nat) (st : string * Z * string) : string * Z * string :=
  let '(s, a, out) := st in
  let '(a, s) := fscanf_lld s a in (s, a, out +:+ transfer_cell j a).

(** One row.  [test/transfer.c:48-70 main] *)
Definition transfer_row (st : string * Z * string) : string * Z * string :=
  let '(s, a, out) := for_n 12 transfer_column st in (s, a, out +:+ newline).

(** The program on [rows] rows ([ROW] is 20000): the second line becomes the
    comment line of the output.  [test/transfer.c:16-74 main] *)
Definition transfer_main (rows : nat) (input : string) (a0 : Z) : string :=
  let '(_, s) := read_line input in
  let '(l2, s) := read_line s in
  let '(_, _, out) := for_n rows (fun _ => transfer_row) (s, a0, String "#" l2) in out.

(** The numbers of an entry in the order of the columns. *)
Definition show_fields (s : queue_show) : list Z :=
  [u32 (s_numbers s); u32 (s_length s); u32 (s_mark_type s); s_p s; s_kp s; s_ki s; s_kd s;
   s_jacobian s; s_NetOut s; s_e_k s; s_e_k_1 s; s_e_k_2 s].

Fixpoint print_fields (l : list Z) : string :=
  match l with [] => newline | z :: l => print_d z +:+ tab +:+ print_fields l end.

Lemma l_show_fields s : l_show s = print_fields (show_fields s).
Proof.
  unfold l_show, show_fields. cbn [print_fields].
  rewrite <- !print_d_u by apply u32_range. done.
Qed.

Definition long_range (z : Z) : Prop := LONG_MIN <= z <= LONG_MAX.

(** Leading blanks are skipped by every conversion. *)
Fixpoint blanks (s : string) : bool :=
  match s with "" => true | String c s => is_space c && blanks s end.

Lemma strtol_blanks pre s : blanks pre = true -> strtol (pre +:+ s) 10 = strtol s 10.
Proof.
  intros Hp. unfold strtol, scan_int.
  assert (skip_space (pre +:+ s) = skip_space s) as ->; [|done].
  induction pre as [|c pre IH]; [done|].
  change (String c pre +:+ s) with (String c (pre +:+ s)). cbn [blanks skip_space] in *.
  apply andb_true_iff in Hp as [-> Hp]. by apply IH.
Qed.

Lemma fscanf_field pre z rest a :
  blanks pre = true -> long_range z ->
  fscanf_lld (pre +:+ print_d z +:+ tab +:+ rest) a = (z, tab +:+ rest).
Proof. intros Hp Hz. unfold fscanf_lld. by rewrite strtol_blanks, strtol_print_d. Qed.

(** The cells of the columns from [j] on. *)
Fixpoint cells (j : nat) (l : list Z) : string :=
  match l with [] => "" | z :: l => transfer_cell j z +:+ cells (S j) l end.

Lemma last_any (l : list Z) : forall x d d', List.last (x :: l) d = List.last (x :: l) d'.
Proof. induction l as [|y l IH]; intros x d d'; [done|apply IH]. Qed.

(** What reading the columns from [j] on does. *)
Lemma transfer_columns l : forall j pre rest a out,
  blanks pre = true -> Forall long_range l ->
  fold_left (fun st j => transfer_column j st) (seq j (List.length l))
    (pre +:+ print_fields l +:+ rest, a, out) =
  ((match l with [] => pre | _ => tab end) +:+ newline +:+ rest, List.last l a, out +:+ cells j l).
Proof.
  induction l as [|z l IH]; intros j pre rest a out Hp Hl.
  - cbn [List.length seq fold_left print_fields cells]. by rewrite append_empty.
  - apply Forall_cons in Hl as [Hz Hl]. cbn [List.length seq fold_left print_fields].
    rewrite !append_assoc. unfold transfer_column at 2. rewrite fscanf_field by done.
    rewrite IH by done. cbn [cells]. rewrite append_assoc.
    destruct l as [|z' l]; [done|]. by rewrite (last_any l z' z a).
Qed.

(** Reading back a row of twelve numbers. *)
Lemma transfer_row_fields l rest a out :
  List.length l = 12%nat -> Forall long_range l ->
  transfer_row (print_fields l +:+ rest, a, out) =
    (tab +:+ newline +:+ rest, List.last l a, out +:+ cells 0 l +:+ newline).
Proof.
  intros Hl Hr. unfold transfer_row, for_n.
  pose proof (transfer_columns l 0 "" rest a out eq_refl Hr) as E. rewrite Hl in E.
  change ("" +:+ print_fields l +:+ rest) with (print_fields l +:+ rest) in E.
  rewrite E, append_assoc. by destruct l.
Qed.

(** The numbers of an entry fit [long long]. *)
Lemma long_range_double x : long_range (double_to_ll x).
Proof.
  unfold double_to_ll. pose proof (s64_range (bits_of_double x)).
  unfold long_range, LONG_MIN, LONG_MAX. lia.
Qed.

Lemma long_range_int z : - 2 ^ 31 <= z < 2 ^ 31 -> long_range z.
Proof. unfold long_range, LONG_MIN, LONG_MAX. lia. Qed.

Lemma show_fields_entry old num len mark p :
  show_fields (show_entry old num len mark p) =
  [u32 num; u32 len; u32 (action_code mark); double_to_ll (p_k p); double_to_ll (kp_k p);
   double_to_ll (ki_k p); double_to_ll (kd_k p); double_to_ll (jacobian p);
   double_to_ll (NetOut p !!! Z.to_nat (gbest_index p)); e_k p; e_k_1 p; e_k_2 p].
Proof. reflexivity. Qed.

(** C16: End to end, the analysis program recovers exactly what the scheduler
    sampled: for every log entry, the row printed by [l_show] is read back by
    [transfer.c] as its twelve numbers, and the six columns it converts are the
    very doubles the controller held ([queue_scale] undoes the normalisation of
    the predicted length only). *)
Theorem transfer_reads_entry (old : queue_show) (num len : Z) (mark : action) (p : rbfgrad_parms)
    (rest : string) (a : Z) (out : string) :
  0 <= num < 2 ^ 31 -> 0 <= len < 2 ^ 32 ->
  valid (p_k p) -> valid (kp_k p) -> valid (ki_k p) -> valid (kd_k p) -> valid (jacobian p) ->
  valid (NetOut p !!! Z.to_nat (gbest_index p)) ->
  - 2 ^ 31 <= e_k p < 2 ^ 31 -> - 2 ^ 31 <= e_k_1 p < 2 ^ 31 -> - 2 ^ 31 <= e_k_2 p < 2 ^ 31 ->
  transfer_row (l_show (show_entry old num len mark p) +:+ rest, a, out) =
    (tab +:+ newline +:+ rest, e_k_2 p,
     out +:+
     (print_d num +:+ tab +:+ print_d len +:+ tab +:+ print_d (action_code mark) +:+ tab +:+
      fmt_fixed 15 (p_k p) +:+ tab +:+ fmt_fixed 15 (kp_k p) +:+ tab +:+
      fmt_fixed 15 (ki_k p) +:+ tab +:+ fmt_fixed 15 (kd_k p) +:+ tab +:+
      fmt_fixed 15 (jacobian p) +:+ tab +:+
      fmt_fixed 15 (NetOut p !!! Z.to_nat (gbest_index p) * queue_scale)%D +:+ tab +:+
      print_d (e_k p) +:+ tab +:+ print_d (e_k_1 p) +:+ tab +:+ print_d (e_k_2 p) +:+ tab +:+ newline)).
Proof.
  intros Hnum Hlen V1 V2 V3 V4 V5 V6 E1 E2 E3. rewrite l_show_fields, transfer_row_fields; [|done|].
  - rewrite show_fields_entry. cbn [cells List.last]. unfold transfer_cell.
    rewrite !ll_to_double_to_ll, !u32_small by (done || lia || by destruct mark).
    by rewrite !append_assoc.
  - rewrite show_fields_entry.
    assert (forall z, 0 <= z < 2 ^ 32 -> long_range z) as Hu
      by (unfold long_range, LONG_MIN, LONG_MAX; lia).
    rewrite !u32_small by (done || lia || by destruct mark).
    repeat (apply Forall_cons; split;
      [apply long_range_double || (apply Hu; lia || by destruct mark) || by apply long_range_int|]). done.
Qed.

(** An entry of a controller that marks half of the packets, with negative error. *)
Definition sample_parms : rbfgrad_parms :=
  zero_parms <| p_k := (d1 / d2)%D |> <| e_k := - 40 |> <| e_k_2 := 12 |>.

Lemma transfer_reads_entry_witness :
  exists cells,
    transfer_row (l_show (show_entry inhabitant 3 17 RBFGRAD_DONT_MARK sample_parms) +:+ "", 9, "") =
      (tab +:+ newline +:+ "", 12, cells) /\
    has_prefix ("3" +:+ tab +:+ "17" +:+ tab +:+ "0" +:+ tab +:+ "0.500000000000000" +:+ tab) cells = true.
Proof.
  eexists. split.
  - apply transfer_reads_entry; first [reflexivity | (vm_compute; split; congruence) | vm_compute; reflexivity].
  - vm_compute. reflexivity.
Defined.
