(* ===== verification/Trace.v ===== *)
(** * The parameter traces and their readers

    [tracepoint-probe-rbfgrad.c] queues a copy of every traced configuration in a
    kfifo and prints the queue through /proc/rbfgrad; [read_proc_rbfgrad.c] turns
    the printed integers back into doubles.  The variants for the variables print
    a queue that nothing fills.  The kernel's kfifo is an interface; [seq_read]
    is represented by a pass: start, then show and next until the iterator ends
    or the buffer, given as a number of steps, is used up. *)

From S2P Require Export KernelEnv SeqFile.

#[local] Open Scope list_scope.

(** ** kfifo *)

Class KfifoEnv (F A : Type) := {
  kfifo_in : F -> A -> F * Z;       (* the queue and the number of bytes copied *)
  kfifo_out : F -> A -> F * A * Z   (* the queue, the destination and the number of bytes *)
}.

(** Whole records go in while there is room and come out in order. *)
Class KfifoEnvOk (F A : Type) `{KfifoEnv F A} := {
  fifo_records : F -> list A;
  fifo_room : F -> nat;
  in_room : forall f a, (0 < fifo_room f)%nat ->
    fifo_records (kfifo_in f a).1 = fifo_records f ++ [a] /\
    S (fifo_room (kfifo_in f a).1) = fifo_room f /\ (kfifo_in f a).2 <> 0;
  out_some : forall f t a l, fifo_records f = a :: l ->
    exists f' n, kfifo_out f t = (f', a, n) /\ n <> 0 /\ fifo_records f' = l;
  out_none : forall f t, fifo_records f = [] -> kfifo_out f t = (f, t, 0)
}.

(** A queue of at most [cap] records of [size] bytes. *)
Definition bounded_fifo (A : Type) : Type := nat * list A.

#[export] Instance bounded_fifo_env A : KfifoEnv (bounded_fifo A) A := {
  kfifo_in f a := match f with (O, l) => (f, 0) | (S r, l) => ((r, l ++ [a]), 128) end;
  kfifo_out f t := match f with (r, []) => (f, t, 0) | (r, a :: l) => ((S r, l), a, 128) end
}.

#[export] Program Instance bounded_fifo_ok A : KfifoEnvOk (bounded_fifo A) A := {
  fifo_records f := f.2;
  fifo_room f := f.1
}.
Next Obligation. intros A [[|r] l] a; cbn; [lia|done]. Qed.
Next Obligation. intros A [r l'] t a l E. cbn in *. subst l'. eauto. Qed.
Next Obligation. intros A [r l] t E. cbn in *. by subst l. Qed.

(** ** A pass over a sequence file *)

Section Pass.
Context {S : Type} (next : Z -> S -> bool * Z * S) (show : S -> string).

(** From an element on: what is printed and the final state. *)
Fixpoint seq_drain (steps : nat) (pos : Z) (s : S) : string * S :=
  match steps with
  | O => (show s, s)
  | Datatypes.S steps =>
      let out := show s in
      let '(more, pos, s) := next pos s in
      if more then let '(rest, s) := seq_drain steps pos s in (out +:+ rest, s) else (out, s)
  end.

End Pass.

Definition MAX_TO_GET : Z := 10000.

(** ** The parameters: tracepoint-probe-rbfgrad.c *)

Section Params.
Context {F : Type} `{KfifoEnvOk F tc_rbfgrad_qopt}.

(** [fifo] and [ctl_temp]. *)
Record trace_state := mk_trace { fifo : F; ctl_temp : tc_rbfgrad_qopt }.

(** The fields [ctl_init] does not name are zero too.
    [modules/tracepoint-probe-rbfgrad.c:32-43 ctl_init] *)
Definition ctl_init : tc_rbfgrad_qopt :=
  mk_qopt 0 d0 d0 d0 d0 d0 d0 d0 d0 d0 0 0 d0 d0 0 0 0 0.

(** [modules/tracepoint-probe-rbfgrad.c:50-88 probe_rbfgrad_output] *)
Definition probe_rbfgrad_output (ctl : tc_rbfgrad_qopt) (st : trace_state) : trace_state :=
  let ctl_temp' := ctl in
  let ctl_temp' := ctl_temp' <| o_sampl_period := o_sampl_period ctl |> in
  let ctl_temp' := ctl_temp' <| o_q_ref := o_q_ref ctl |> in
  let ctl_temp' := ctl_temp' <| o_p_max := o_p_max ctl |> in
  let ctl_temp' := ctl_temp' <| o_eta_p := o_eta_p ctl |> in
  let ctl_temp' := ctl_temp' <| o_eta_i := o_eta_i ctl |> in
  let ctl_temp' := ctl_temp' <| o_eta_d := o_eta_d ctl |> in
  let ctl_temp' := ctl_temp' <| o_alpha := o_alpha ctl |> in
  let ctl_temp' := ctl_temp' <| o_eta := o_eta ctl |> in
  mk_trace (kfifo_in (fifo st) ctl_temp').1 (ctl_temp st).

(** The result says whether [&ctl_temp] or [NULL] is returned.
    [modules/tracepoint-probe-rbfgrad.c:101-112 rbfgrad_start] *)
Definition rbfgrad_start (pos : Z) (st : trace_state) : bool * trace_state :=
  (pos =? 0, mk_trace (fifo st) ctl_init).

(** [modules/tracepoint-probe-rbfgrad.c:114-140 rbfgrad_next] *)
Definition rbfgrad_next (pos : Z) (st : trace_state) : bool * Z * trace_state :=
  let st := mk_trace (fifo st) ctl_init in
  let pos := pos + 1 in
  if MAX_TO_GET <=? pos then (false, pos, st)
  else
    let '(f, t, ret) := kfifo_out (fifo st) (ctl_temp st) in
    (negb (ret =? 0), pos, mk_trace f t).

Definition line_d (z : Z) : string := print_d z +:+ newline.

(** [modules/tracepoint-probe-rbfgrad.c:148-155 rbfgrad_show] *)
Definition rbfgrad_show (t : tc_rbfgrad_qopt) : string :=
  line_d (o_sampl_period t) +:+ line_d (o_q_ref t) +:+
  line_d (double_to_ll (o_p_max t)) +:+ line_d (double_to_ll (o_eta_p t)) +:+
  line_d (double_to_ll (o_eta_i t)) +:+ line_d (double_to_ll (o_eta_d t)) +:+
  line_d (o_m t) +:+ line_d (o_n t) +:+
  line_d (double_to_ll (o_alpha t)) +:+ line_d (double_to_ll (o_eta t)).

(** Reading /proc/rbfgrad with a buffer of [steps] further records. *)
Definition rbfgrad_pass (steps : nat) (st : trace_state) : string * trace_state :=
  let '(ok, st) := rbfgrad_start 0 st in
  if ok then seq_drain rbfgrad_next (fun st => rbfgrad_show (ctl_temp st)) steps 0 st else ("", st).

Definition show_all (l : list tc_rbfgrad_qopt) : string :=
  foldr (fun t out => rbfgrad_show t +:+ out) "" l.

Lemma probe_queues ctl st :
  (0 < fifo_room (fifo st))%nat ->
  fifo_records (fifo (probe_rbfgrad_output ctl st)) = fifo_records (fifo st) ++ [ctl] /\
  S (fifo_room (fifo (probe_rbfgrad_output ctl st))) = fifo_room (fifo st).
Proof.
  intros Hr. unfold probe_rbfgrad_output. cbv zeta. cbn [fifo].
  change (ctl <| o_sampl_period := _ |> <| o_q_ref := _ |> <| o_p_max := _ |> <| o_eta_p := _ |>
    <| o_eta_i := _ |> <| o_eta_d := _ |> <| o_alpha := _ |> <| o_eta := _ |>) with ctl.
  destruct (in_room (fifo st) ctl Hr) as (-> & -> & _). done.
Qed.

(** Tracing a series of configurations. *)
Lemma probes_queue l : forall st,
  (List.length l <= fifo_room (fifo st))%nat ->
  fifo_records (fifo (foldl (fun st ctl => probe_rbfgrad_output ctl st) st l)) =
    fifo_records (fifo st) ++ l.
Proof.
  induction l as [|c l IH]; intros st Hl; cbn [foldl List.length] in *; [by rewrite app_nil_r|].
  destruct (probe_queues c st ltac:(lia)) as [E R].
  rewrite IH by lia. by rewrite E, <- app_assoc.
Qed.

Lemma drain_spec l : forall steps pos t f,
  fifo_records f = l -> 0 <= pos -> pos + Z.of_nat (List.length l) < MAX_TO_GET ->
  (List.length l < steps)%nat ->
  let r := seq_drain rbfgrad_next (fun st => rbfgrad_show (ctl_temp st)) steps pos (mk_trace f t) in
  r.1 = rbfgrad_show t +:+ show_all l /\ fifo_records (fifo r.2) = [].
Proof.
  induction l as [|c l IH]; intros steps pos t f E Hp Hm Hs; (destruct steps as [|steps]; [cbn in Hs; lia|]);
    cbn [seq_drain List.length] in *; cbv zeta;
    match goal with |- context [rbfgrad_next pos ?s] => set (nx := rbfgrad_next pos s) end;
    unfold rbfgrad_next in nx; cbn [fifo ctl_temp] in nx; subst nx.
  - destruct (MAX_TO_GET <=? pos + 1); [|rewrite out_none by done];
      (split; [symmetry; apply append_empty|exact E]).
  - rewrite (proj2 (Z.leb_gt MAX_TO_GET (pos + 1))) by lia.
    destruct (out_some f ctl_init c l E) as (f' & n & -> & Hn & E').
    rewrite (proj2 (Z.eqb_neq n 0) Hn). cbn [negb].
    destruct (IH steps (pos + 1) c f' E' ltac:(lia) ltac:(lia) ltac:(lia)) as [I1 I2].
    destruct (seq_drain _ _ _ _ _) as [rest st']. cbn [fst snd] in *. by rewrite I1.
Qed.

(** Reading the trace prints an all-zero record and then every configuration
    traced since the last read, in order, each exactly once; nothing is left in
    the queue. *)
Theorem trace_pass (st : trace_state) (l : list tc_rbfgrad_qopt) (steps : nat) :
  fifo_records (fifo st) = [] -> (List.length l <= fifo_room (fifo st))%nat ->
  Z.of_nat (List.length l) < MAX_TO_GET -> (List.length l < steps)%nat ->
  let st' := foldl (fun st ctl => probe_rbfgrad_output ctl st) st l in
  (rbfgrad_pass steps st').1 = show_all (ctl_init :: l) /\
  fifo_records (fifo (rbfgrad_pass steps st').2) = [].
Proof.
  intros He Hr Hm Hs st'. unfold rbfgrad_pass, rbfgrad_start. change (0 =? 0) with true. cbv iota.
  apply drain_spec; [|done..]. unfold st'. rewrite probes_queue by done. by rewrite He.
Qed.

End Params.

Global Arguments trace_state : clear implicits.

(** ** The variables: tracepoint-probe-rbfgrad-vars.c *)

#[local] Set Primitive Projections.

(** The fields carry the prefix [t_].  [modules/tp-rbfgrad-vars-trace.h:6-53 trace_rbfgrad_parms] *)
Record trace_rbfgrad_parms := mk_vars {
  t_sampl_period : Z;
  t_q_ref : Z;
  t_p_max : double;
  t_eta_p : double;
  t_eta_i : double;
  t_eta_d : double;
  t_n : Z;
  t_m : Z;
  t_alpha : double;
  t_eta : double;
  t_p_k : double;
  t_p_k_1 : double;
  t_e_k : double;
  t_e_k_1 : double;
  t_e_k_2 : double;
  t_kp_k : double;
  t_kp_k_1 : double;
  t_ki_k : double;
  t_ki_k_1 : double;
  t_kd_k : double;
  t_kd_k_1 : double
}.

#[local] Unset Primitive Projections.

Section Vars.
Context {F : Type} `{KfifoEnvOk F trace_rbfgrad_parms}.

Record vars_state := mk_vars_state { vars_fifo : F; parms_temp : trace_rbfgrad_parms }.

(** [modules/tracepoint-probe-rbfgrad-vars.c:32-58 parms_init] *)
Definition parms_init : trace_rbfgrad_parms :=
  mk_vars 0 0 d0 d0 d0 d0 0 0 d0 d0 d0 d0 d0 d0 d0 d0 d0 d0 d0 d0 d0.

(** The whole body is commented out.
    [modules/tracepoint-probe-rbfgrad-vars.c:65-101 probe_rbfgrad_vars_output] *)
Definition probe_rbfgrad_vars_output (parms : trace_rbfgrad_parms) (st : vars_state) : vars_state := st.

(** [modules/tracepoint-probe-rbfgrad-vars.c:114-125 rbfgrad_vars_start] *)
Definition rbfgrad_vars_start (pos : Z) (st : vars_state) : bool * vars_state :=
  (pos =? 0, mk_vars_state (vars_fifo st) parms_init).

(** [modules/tracepoint-probe-rbfgrad-vars.c:127-153 rbfgrad_vars_next] *)
Definition rbfgrad_vars_next (pos : Z) (st : vars_state) : bool * Z * vars_state :=
  let st := mk_vars_state (vars_fifo st) parms_init in
  let pos := pos + 1 in
  if MAX_TO_GET <=? pos then (false, pos, st)
  else
    let '(f, t, ret) := kfifo_out (vars_fifo st) (parms_temp st) in
    (negb (ret =? 0), pos, mk_vars_state f t).

(** The fifth line repeats [e_k_1].
    [modules/tracepoint-probe-rbfgrad-vars.c:161-178 rbfgrad_vars_show] *)
Definition rbfgrad_vars_show (t : trace_rbfgrad_parms) : string :=
  line_d (double_to_ll (t_p_k t)) +:+ line_d (double_to_ll (t_p_k_1 t)) +:+
  line_d (double_to_ll (t_e_k t)) +:+ line_d (double_to_ll (t_e_k_1 t)) +:+
  line_d (double_to_ll (t_e_k_1 t)) +:+ line_d (double_to_ll (t_kp_k t)) +:+
  line_d (double_to_ll (t_kp_k_1 t)) +:+ line_d (double_to_ll (t_ki_k t)) +:+
  line_d (double_to_ll (t_ki_k_1 t)) +:+ line_d (double_to_ll (t_kd_k t)) +:+
  line_d (double_to_ll (t_kd_k_1 t)).

(** Reading /proc/rbfgrad_vars with a buffer of [steps] further records. *)
Definition rbfgrad_vars_pass (steps : nat) (st : vars_state) : string * vars_state :=
  let '(ok, st) := rbfgrad_vars_start 0 st in
  if ok then seq_drain rbfgrad_vars_next (fun st => rbfgrad_vars_show (parms_temp st)) steps 0 st
  else ("", st).

(** The variables trace never shows a variable: whatever is traced, from the
    empty queue the module starts with, a read prints the all-zero record. *)
Theorem vars_trace_silent (st : vars_state) (l : list trace_rbfgrad_parms) (steps : nat) :
  fifo_records (vars_fifo st) = [] -> (0 < steps)%nat ->
  let st' := foldl (fun st parms => probe_rbfgrad_vars_output parms st) st l in
  (rbfgrad_vars_pass steps st').1 = rbfgrad_vars_show parms_init /\
  fifo_records (vars_fifo (rbfgrad_vars_pass steps st').2) = [].
Proof.
  intros He Hs st'. assert (st' = st) as -> by (unfold st'; induction l; done).
  destruct steps as [|steps]; [lia|].
  unfold rbfgrad_vars_pass, rbfgrad_vars_start. change (0 =? 0) with true. cbv iota.
  cbn [seq_drain]. unfold rbfgrad_vars_next. cbn [vars_fifo parms_temp].
  change (MAX_TO_GET <=? 0 + 1) with false. cbv iota. by rewrite out_none.
Qed.

End Vars.

Global Arguments vars_state : clear implicits.

(** ** The readers: read_proc_rbfgrad.c, read_proc_rbfgrad_vars.c *)

(** [fgets(s, MAX, fp)] into an array of [size] bytes: the line and the rest of
    the stream; [inr] when the line and its final NUL do not fit, [inl None] at
    the end of the stream.  Lines of [MAX] characters do not fit either. *)
Definition fgets_into (size : Z) (stream : string) : option (string * string) + unit :=
  match stream with
  | "" => inl None
  | _ =>
      let '(line, rest) := read_line stream in
      if Z.of_nat (String.length line) + 1 <=? size then inl (Some (line, rest)) else inr ()
  end.

Definition read_double (format : Z -> string) (s : string) : string := format (atoll s).

Definition fmt_ll_16f (tll : Z) : string := fmt_fixed 16 (ll_to_double tll).

(** The output of line [count_line] of a record, and the new [count_line].
    [read_proc_rbfgrad_/read_proc_rbfgrad.c:37-60 main] *)
Definition params_cell (count_line : Z) (s : string) : string * Z :=
  if (count_line =? 1) || (count_line =? 2) || (count_line =? 7) || (count_line =? 8)
  then (print_d (atoi s) +:+ tab, count_line)
  else if (3 <=? count_line) && (count_line <=? 6) || (count_line =? 9)
  then (fmt_ll_16f (atoll s) +:+ tab, count_line)
  else if count_line =? 10 then (fmt_ll_16f (atoll s) +:+ newline, 0)
  else ("", count_line).

(** [read_proc_rbfgrad_vars_/read_proc_rbfgrad_vars.c:33-56 main] *)
Definition vars_cell (count_line : Z) (s : string) : string * Z :=
  if (1 <=? count_line) && (count_line <=? 10) then (fmt_ll_16f (atoll s) +:+ tab, count_line)
  else if count_line =? 11 then (fmt_ll_16f (atoll s) +:+ newline, 0)
  else ("", count_line).

(** The reading loop: the output and [count_total], or [None] when a line
    overflows the buffer.  Every round consumes a character at least. *)
Fixpoint read_loop (fuel : nat) (size : Z) (cell : Z -> string -> string * Z)
    (stream : string) (count_line count_total : Z) : option (string * Z) :=
  match fuel with
  | O => Some ("", count_total)
  | S fuel =>
      match fgets_into size stream with
      | inr _ => None
      | inl None => Some ("", count_total)
      | inl (Some (s, rest)) =>
          let '(out, count_line) := cell (s32 (count_line + 1)) s in
          match read_loop fuel size cell rest count_line (s32 (count_total + 1)) with
          | Some (more, total) => Some (out +:+ more, total)
          | None => None
          end
      end
  end.

Definition S_SIZE : Z := 20.

(** [size] is the size of the line buffer, [S_SIZE] in the program.
    [read_proc_rbfgrad_/read_proc_rbfgrad.c:8-66 main] *)
Definition read_proc_rbfgrad (size : Z) (stream : string) : option (string * Z) :=
  read_loop (S (String.length stream)) size params_cell stream 0 0.

(** [read_proc_rbfgrad_vars_/read_proc_rbfgrad_vars.c:7-62 main] *)
Definition read_proc_rbfgrad_vars (size : Z) (stream : string) : option (string * Z) :=
  read_loop (S (String.length stream)) size vars_cell stream 0 0.

(** What the reader should write for one record. *)
Definition params_row (t : tc_rbfgrad_qopt) : string :=
  print_d (o_sampl_period t) +:+ tab +:+ print_d (o_q_ref t) +:+ tab +:+
  fmt_fixed 16 (o_p_max t) +:+ tab +:+ fmt_fixed 16 (o_eta_p t) +:+ tab +:+
  fmt_fixed 16 (o_eta_i t) +:+ tab +:+ fmt_fixed 16 (o_eta_d t) +:+ tab +:+
  print_d (o_m t) +:+ tab +:+ print_d (o_n t) +:+ tab +:+
  fmt_fixed 16 (o_alpha t) +:+ tab +:+ fmt_fixed 16 (o_eta t) +:+ newline.

Section Readers.
Context (size : Z) (cell : Z -> string -> string * Z).

Lemma line_d_app z rest : line_d z +:+ rest = print_d z +:+ String "010" rest.
Proof. unfold line_d, newline. by rewrite append_assoc. Qed.

Lemma fgets_line z rest :
  long_range z -> Z.of_nat (String.length (print_d z)) + 2 <= size ->
  fgets_into size (line_d z +:+ rest) = inl (Some (line_d z, rest)).
Proof.
  intros Hz Hs. pose proof (print_d_length z Hz) as Hl. rewrite line_d_app. unfold fgets_into.
  rewrite read_line_print_d. destruct (print_d z) as [|c s] eqn:E; [cbn in Hl; lia|].
  rewrite length_append, <- E. change (String.length (String "010" "")) with 1%nat.
  rewrite E, (proj2 (Z.leb_le _ size)) by lia. cbv iota. unfold line_d, newline. by rewrite E.
Qed.

(** One round of the loop. *)
Lemma read_loop_line fuel z rest line total out line' :
  long_range z -> Z.of_nat (String.length (print_d z)) + 2 <= size -> 0 <= total < 2 ^ 31 - 1 ->
  cell (s32 (line + 1)) (line_d z) = (out, line') ->
  read_loop (S fuel) size cell (line_d z +:+ rest) line total =
    match read_loop fuel size cell rest line' (total + 1) with
    | Some (more, total) => Some (out +:+ more, total)
    | None => None
    end.
Proof.
  intros Hz Hs Ht E. cbn [read_loop]. rewrite fgets_line by done. rewrite E.
  by rewrite (s32_small (total + 1)) by lia.
Qed.

(** A line that does not fit. *)
Lemma read_loop_overflow fuel z rest line total :
  10 ^ (size - 2) <= z <= LONG_MAX -> 3 <= size -> read_loop (S fuel) size cell (line_d z +:+ rest) line total = None.
Proof.
  intros Hz Hs. cbn [read_loop]. rewrite line_d_app. unfold fgets_into. rewrite read_line_print_d.
  assert (0 < 10 ^ (size - 2)) by (apply Z.pow_pos_nonneg; lia).
  destruct (print_u_length z (Z.to_nat (size - 1)) ltac:(lia) ltac:(lia)) as [_ Hl].
  rewrite Z2Nat.id in Hl by lia. replace (size - 1 - 1) with (size - 2) in Hl by lia.
  specialize (Hl ltac:(lia)). rewrite <- print_d_u in Hl by lia.
  destruct (print_d z) as [|c s] eqn:E; [cbn in Hl; lia|].
  change (String c s +:+ String "010" rest) with (String c (s +:+ String "010" rest)). cbv iota.
  rewrite length_append. change (String.length (String "010" "")) with 1%nat.
  by rewrite (proj2 (Z.leb_gt _ size)) by lia.
Qed.

End Readers.

(** Lines that fit whatever they hold. *)
Lemma long_line_fits size z :
  long_range z -> 22 <= size -> Z.of_nat (String.length (print_d z)) + 2 <= size.
Proof. intros Hz Hs. pose proof (print_d_length z Hz). lia. Qed.

Lemma atoll_line z : long_range z -> atoll (line_d z) = z.
Proof. intros Hz. unfold line_d. by apply atoll_print_d. Qed.

Lemma int_line_fits z : int_range z -> Z.of_nat (String.length (print_d z)) + 2 <= S_SIZE.
Proof.
  unfold int_range, S_SIZE. intros Hz. unfold print_d. destruct (Z.ltb_spec z 0) as [Hn|Hn].
  - destruct (print_u_length (- z) 10 ltac:(lia) ltac:(lia)) as [I _].
    change (10 ^ Z.of_nat 10) with 10000000000 in I. cbn [String.length]. lia.
  - destruct (print_u_length z 10 Hn ltac:(lia)) as [I _].
    change (10 ^ Z.of_nat 10) with 10000000000 in I. lia.
Qed.

#[local] Ltac row_range := first [apply long_range_double | by apply long_range_int].

Lemma atoi_line z : int_range z -> atoi (line_d z) = z.
Proof. intros Hz. unfold atoi. rewrite atoll_line by (by apply long_range_int). by apply s32_small. Qed.

Lemma ll_line x : valid x -> fmt_ll_16f (atoll (line_d (double_to_ll x))) = fmt_fixed 16 x.
Proof.
  intros V. rewrite atoll_line by apply long_range_double. unfold fmt_ll_16f.
  by rewrite ll_to_double_to_ll.
Qed.

(** The configurations the tools can represent. *)
Record qopt_ok (t : tc_rbfgrad_qopt) : Prop := {
  qo_ints : Forall int_range [o_sampl_period t; o_q_ref t; o_m t; o_n t];
  qo_doubles : Forall valid [o_p_max t; o_eta_p t; o_eta_i t; o_eta_d t; o_alpha t; o_eta t]
}.

Lemma read_record fuel size t rest total :
  qopt_ok t -> 22 <= size -> 0 <= total < 2 ^ 31 - 10 ->
  read_loop (10 + fuel) size params_cell (rbfgrad_show t +:+ rest) 0 total =
    match read_loop fuel size params_cell rest 0 (total + 10) with
    | Some (more, total) => Some (params_row t +:+ more, total)
    | None => None
    end.
Proof.
  intros [Hi Hd] Hs Ht. rewrite !Forall_cons in Hi. rewrite !Forall_cons in Hd.
  destruct Hi as (I1 & I2 & I3 & I4 & _), Hd as (D1 & D2 & D3 & D4 & D5 & D6 & _).
  unfold rbfgrad_show. rewrite !append_assoc.
  change (10 + fuel)%nat with (S (S (S (S (S (S (S (S (S (S fuel)))))))))).
  do 10 (erewrite read_loop_line;
    [|row_range | apply long_line_fits; [row_range|done] | lia | reflexivity]).
  rewrite !atoi_line, !ll_line by done.
  replace (total + 1 + 1 + 1 + 1 + 1 + 1 + 1 + 1 + 1 + 1) with (total + 10) by lia.
  destruct (read_loop fuel size params_cell rest 0 (total + 10)) as [[more tot]|]; [|done].
  unfold params_row. by rewrite !append_assoc.
Qed.

(** The decoded records. *)
Definition rows (l : list tc_rbfgrad_qopt) : string :=
  foldr (fun t out => params_row t +:+ out) "" l.

Lemma read_records size l : forall fuel total,
  Forall qopt_ok l -> 22 <= size -> (10 * List.length l < fuel)%nat ->
  0 <= total -> total + 10 * Z.of_nat (List.length l) < 2 ^ 31 ->
  read_loop fuel size params_cell (show_all l) 0 total =
    Some (rows l, total + 10 * Z.of_nat (List.length l)).
Proof.
  induction l as [|t l IH]; intros fuel total Hl Hs Hf H0 Ht; cbn [List.length] in *.
  - destruct fuel as [|fuel]; [lia|]. cbn [read_loop show_all foldr fgets_into rows].
    by rewrite Z.mul_0_r, Z.add_0_r.
  - apply Forall_cons in Hl as [Hto Hl]. cbn [show_all foldr].
    replace fuel with (10 + (fuel - 10))%nat by lia.
    rewrite read_record by (done || lia). fold (show_all l).
    rewrite IH by (done || lia). cbn [rows foldr]. do 2 f_equal. lia.
Qed.

Lemma show_all_length l : (10 * List.length l <= String.length (show_all l))%nat.
Proof.
  induction l as [|t l IH]; cbn [List.length show_all foldr]; [lia|]. fold (show_all l).
  rewrite length_append. enough (10 <= String.length (rbfgrad_show t))%nat by lia.
  unfold rbfgrad_show, line_d, newline. rewrite !length_append.
  change (String.length (String "010" "")) with 1%nat. lia.
Qed.

Lemma ctl_init_ok : qopt_ok ctl_init.
Proof. split; repeat constructor; done. Qed.

(** End to end, with a line buffer that holds a [long long] (22 bytes) the
    reader recovers every traced configuration exactly: one row per record, in
    order, with the integers and the very doubles that were traced, after the
    all-zero record each read starts with. *)
Theorem read_proc_recovers {F} `{KfifoEnvOk F tc_rbfgrad_qopt} (size : Z)
    (st : trace_state F) (l : list tc_rbfgrad_qopt) (steps : nat) :
  fifo_records (fifo st) = [] -> (List.length l <= fifo_room (fifo st))%nat ->
  Z.of_nat (List.length l) < MAX_TO_GET -> (List.length l < steps)%nat ->
  Forall qopt_ok l -> 22 <= size ->
  let st' := foldl (fun st ctl => probe_rbfgrad_output ctl st) st l in
  read_proc_rbfgrad size (rbfgrad_pass steps st').1 =
    Some (rows (ctl_init :: l), 10 * (Z.of_nat (List.length l) + 1)).
Proof.
  intros He Hr Hm Hst Hl Hs st'.
  assert ((rbfgrad_pass steps st').1 = show_all (ctl_init :: l)) as ->.
  { unfold rbfgrad_pass, rbfgrad_start. change (0 =? 0) with true. cbv iota.
    apply drain_spec; [|done..]. unfold st'. rewrite probes_queue by done. by rewrite He. }
  unfold read_proc_rbfgrad. pose proof (show_all_length (ctl_init :: l)).
  unfold MAX_TO_GET in Hm.
  rewrite read_records; [|by constructor; [apply ctl_init_ok|]|done|lia|lia|cbn [List.length]; lia].
  do 2 f_equal. cbn [List.length]. lia.
Qed.

(** The reader's own buffer is too small: with its 20 bytes, the first record
    whose maximal probability has a bit pattern of 19 digits (every double from
    about 1e-241 up, all values of practical use) overflows the array. *)
Theorem read_proc_overflows (t : tc_rbfgrad_qopt) (rest : string) :
  qopt_ok t -> 10 ^ 18 <= double_to_ll (o_p_max t) ->
  read_proc_rbfgrad S_SIZE (rbfgrad_show t +:+ rest) = None.
Proof.
  intros [Hi _] Hp. rewrite !Forall_cons in Hi. destruct Hi as (I1 & I2 & _).
  unfold read_proc_rbfgrad. set (n := String.length _).
  assert (exists k, S n = (3 + k)%nat) as [k ->].
  { exists (n - 2)%nat. enough (2 <= n)%nat by lia. unfold n. rewrite length_append.
    pose proof (show_all_length [t]) as Hl. cbn [show_all foldr List.length] in Hl.
    rewrite append_empty in Hl. lia. }
  clear n. unfold rbfgrad_show. rewrite !append_assoc.
  change (3 + k)%nat with (S (S (S k))).
  do 2 (erewrite read_loop_line;
    [|row_range | by apply int_line_fits | lia | reflexivity]).
  rewrite read_loop_overflow; [done| |unfold S_SIZE; lia].
  split; [exact Hp|apply long_range_double].
Qed.

(** ** Witnesses *)

(** The configuration of the demonstration scripts. *)
Definition traced_qopt : tc_rbfgrad_qopt :=
  mk_qopt 300 d0 d0 d1 d0 d0 d0 (d1 / d2)%D (dneg d1) d2 3 10 d1 (d1 / d2)%D 20 10 500 1.

Definition two_traced : list tc_rbfgrad_qopt := [traced_qopt; traced_qopt <| o_q_ref := - 7 |>].

Definition fresh_trace : trace_state (bounded_fifo tc_rbfgrad_qopt) := mk_trace (5%nat, []) ctl_init.

Lemma two_traced_ok : Forall qopt_ok two_traced.
Proof. repeat constructor; vm_compute; congruence || reflexivity. Qed.

Lemma trace_pass_witness :
  (rbfgrad_pass 9 (foldl (fun st ctl => probe_rbfgrad_output ctl st) fresh_trace two_traced)).1 =
    show_all (ctl_init :: two_traced) /\
  fifo_records (fifo (rbfgrad_pass 9
    (foldl (fun st ctl => probe_rbfgrad_output ctl st) fresh_trace two_traced)).2) = [].
Proof. apply (trace_pass fresh_trace two_traced 9); vm_compute; lia || reflexivity. Defined.

Lemma vars_trace_silent_witness :
  (rbfgrad_vars_pass 9 (foldl (fun st parms => probe_rbfgrad_vars_output parms st)
     (mk_vars_state (F := bounded_fifo trace_rbfgrad_parms) (5%nat, []) parms_init) [parms_init])).1 =
    rbfgrad_vars_show parms_init /\
  fifo_records (vars_fifo (rbfgrad_vars_pass 9 (foldl (fun st parms => probe_rbfgrad_vars_output parms st)
     (mk_vars_state (F := bounded_fifo trace_rbfgrad_parms) (5%nat, []) parms_init) [parms_init])).2) = [].
Proof.
  apply (vars_trace_silent (mk_vars_state (F := bounded_fifo trace_rbfgrad_parms) (5%nat, []) parms_init)
    [parms_init] 9); [reflexivity|lia].
Defined.

Lemma read_proc_recovers_witness :
  read_proc_rbfgrad 64 (rbfgrad_pass 9
    (foldl (fun st ctl => probe_rbfgrad_output ctl st) fresh_trace two_traced)).1 =
    Some (rows (ctl_init :: two_traced), 30).
Proof.
  apply (read_proc_recovers 64 fresh_trace two_traced 9);
    [reflexivity|vm_compute; lia|reflexivity|vm_compute; lia|exact two_traced_ok|lia].
Defined.

Lemma read_proc_overflows_witness :
  read_proc_rbfgrad S_SIZE (rbfgrad_show traced_qopt +:+ "") = None.
Proof.
  apply (read_proc_overflows traced_qopt "").
  - pose proof two_traced_ok as H. by inversion H.
  - vm_compute. congruence.
Defined.
