(* ===== verification/Modules.v ===== *)
(** * Loading and unloading the modules

    The entry and exit points of the four kernel modules: the scheduler registers its
    operations, the log reader and the two tracers a /proc entry, the tracers a probe and
    a queue.  The registries of the kernel are an interface with laws; the loader, which
    ties the modules to each other, is a step relation. *)

From S2P Require Export Qdisc Trace.

#[local] Open Scope list_scope.

(** ** The operations of the scheduler *)

#[local] Set Primitive Projections.

Record Qdisc_class_ops (C G Tsk Th U : Type) := mk_class_ops {
  cl_graft : option C -> world C G Tsk Th -> Z * C * world C G Tsk Th;
  cl_leaf : world C G Tsk Th -> C;
  cl_get : Z -> Z;
  cl_put : world C G Tsk Th -> world C G Tsk Th;
  cl_walk : (Z -> U -> Z * U) -> qdisc_walker -> U -> qdisc_walker * U;
  cl_dump : Z -> world C G Tsk Th -> Z * (Z * Z)
}.
Global Arguments mk_class_ops {C G Tsk Th U} _ _ _ _ _ _.

Record Qdisc_ops (C G Skb Attr Msg Tsk Th U : Type) := mk_ops {
  ops_id : string;
  ops_cl_ops : Qdisc_class_ops C G Tsk Th U;
  ops_enqueue : Skb -> world C G Tsk Th -> Z * world C G Tsk Th;
  ops_dequeue : world C G Tsk Th -> option Skb * world C G Tsk Th;
  ops_peek : world C G Tsk Th -> option Skb * world C G Tsk Th;
  ops_drop : world C G Tsk Th -> Z * world C G Tsk Th;
  ops_init : option Attr -> world C G Tsk Th -> Z * world C G Tsk Th;
  ops_reset : world C G Tsk Th -> world C G Tsk Th;
  ops_destroy : world C G Tsk Th -> world C G Tsk Th;
  ops_change : option Attr -> world C G Tsk Th -> Z * world C G Tsk Th;
  ops_dump : Msg -> world C G Tsk Th -> Z * Msg * world C G Tsk Th;
  ops_dump_stats : Msg -> world C G Tsk Th -> Z * Msg
}.
Global Arguments mk_ops {C G Skb Attr Msg Tsk Th U} _ _ _ _ _ _ _ _ _ _ _ _.
Global Arguments ops_id {C G Skb Attr Msg Tsk Th U} _.

(** ** The registries of the kernel *)

(** The file operations of the repository; [seq_op_of] is the iterator an entry opens. *)
Inductive proc_fops := queuedata_seq_fops | rbfgrad_proc_fops | rbfgrad_vars_proc_fops | other_fops.
Inductive seq_operations := queuedata_seq_op | rbfgrad_seq_op | rbfgrad_vars_seq_op.

#[export] Instance proc_fops_eq_dec : EqDecision proc_fops.
Proof. solve_decision. Defined.

(** The probes of the repository. *)
Inductive probe := probe_rbfgrad | probe_rbfgrad_vars | other_probe (id : Z).

#[export] Instance probe_eq_dec : EqDecision probe.
Proof. solve_decision. Defined.

(** An entry of /proc: its place, its name, its operations, and whether [write_proc] is set. *)
Record proc_dir_entry := mk_entry { pe_ptr : Z; pe_name : string; pe_fops : option proc_fops; pe_write : bool }.

#[export] Instance proc_dir_entry_eq_dec : EqDecision proc_dir_entry.
Proof. solve_decision. Defined.

(** What is registered: the disciplines in their order, each with its address, the entries of /proc with the
    newest first, the probes with the name of their tracepoint. *)
Record registries (Ops : Type) := mk_regs {
  r_qdiscs : list (Z * Ops); r_procs : list proc_dir_entry; r_probes : list (string * probe)
}.
Global Arguments mk_regs {Ops} _ _ _.
Global Arguments r_qdiscs {Ops} _.
Global Arguments r_procs {Ops} _.
Global Arguments r_probes {Ops} _.

#[local] Unset Primitive Projections.

(** The first entry of the name goes. *)
Fixpoint remove_entry (name : string) (l : list proc_dir_entry) : list proc_dir_entry :=
  match l with
  | [] => []
  | e :: l => if String.eqb (pe_name e) name then l else e :: remove_entry name l
  end.

Definition update_entry (ptr : Z) (f : proc_dir_entry -> proc_dir_entry) (l : list proc_dir_entry) :
    list proc_dir_entry :=
  map (fun e => (if pe_ptr e =? ptr then f e else e)) l.

(** The services of the kernel: those that can fail return a status or no pointer. *)
Class ModuleEnv (K Ops F : Type) := {
  regs : K -> registries Ops;
  register_qdisc : Z -> Ops -> K -> Z * K;
  unregister_qdisc : Z -> K -> Z * K;
  tracepoint_probe_register : string -> probe -> K -> Z * K;
  tracepoint_probe_unregister : string -> probe -> K -> Z * K;
  tracepoint_synchronize_unregister : K -> K;
  create_proc_entry : string -> K -> option Z * K;
  proc_create : string -> proc_fops -> K -> option Z * K;
  set_proc_fops : Z -> proc_fops -> K -> K;
  set_write_proc : Z -> K -> K;
  remove_proc_entry : string -> K -> K;
  kfifo_alloc : Z -> K -> Z * option F * K;
  kfifo_free : option F -> K -> K
}.

(** What they promise.  A failed call changes no registry; the disciplines have different
    names and are taken off by their address; a probe alone on its tracepoint can always be taken off. *)
Class ModuleEnvOk (K Ops F : Type) (id_of : Ops -> string) `{ModuleEnv K Ops F} := {
  register_ok : forall a o k,
    let '(r, k') := register_qdisc a o k in
    (r = 0 /\ (id_of o ∉ map (fun x => id_of x.2) (r_qdiscs (regs k))) /\
     regs k' = mk_regs (r_qdiscs (regs k) ++ [(a, o)]) (r_procs (regs k)) (r_probes (regs k))) \/
    (r < 0 /\ regs k' = regs k);
  unregister_ok : forall a k,
    regs (unregister_qdisc a k).2 =
      mk_regs (List.filter (fun x => negb (x.1 =? a)) (r_qdiscs (regs k))) (r_procs (regs k)) (r_probes (regs k));
  probe_register_ok : forall tp p k,
    let '(r, k') := tracepoint_probe_register tp p k in
    (r = 0 /\ regs k' = mk_regs (r_qdiscs (regs k)) (r_procs (regs k)) ((tp, p) :: r_probes (regs k))) \/
    (r < 0 /\ regs k' = regs k);
  probe_unregister_ok : forall tp p k,
    (forall p', (tp, p') ∈ r_probes (regs k) -> p' = p) ->
    regs (tracepoint_probe_unregister tp p k).2 =
      mk_regs (r_qdiscs (regs k)) (r_procs (regs k))
        (List.filter (fun x => negb (bool_decide (x = (tp, p)))) (r_probes (regs k)));
  synchronize_ok : forall k, regs (tracepoint_synchronize_unregister k) = regs k;
  create_ok : forall name k,
    match create_proc_entry name k with
    | (Some p, k') => (p ∉ map pe_ptr (r_procs (regs k))) /\
        regs k' = mk_regs (r_qdiscs (regs k)) (mk_entry p name None false :: r_procs (regs k)) (r_probes (regs k))
    | (None, k') => regs k' = regs k
    end;
  proc_create_ok : forall name f k,
    match proc_create name f k with
    | (Some p, k') => (p ∉ map pe_ptr (r_procs (regs k))) /\
        regs k' = mk_regs (r_qdiscs (regs k)) (mk_entry p name (Some f) false :: r_procs (regs k)) (r_probes (regs k))
    | (None, k') => regs k' = regs k
    end;
  set_fops_ok : forall p f k,
    regs (set_proc_fops p f k) =
      mk_regs (r_qdiscs (regs k)) (update_entry p (fun e => (e <| pe_fops := Some f |>)) (r_procs (regs k)))
        (r_probes (regs k));
  set_write_ok : forall p k,
    regs (set_write_proc p k) =
      mk_regs (r_qdiscs (regs k)) (update_entry p (fun e => (e <| pe_write := true |>)) (r_procs (regs k)))
        (r_probes (regs k));
  remove_ok : forall name k,
    regs (remove_proc_entry name k) =
      mk_regs (r_qdiscs (regs k)) (remove_entry name (r_procs (regs k))) (r_probes (regs k));
  alloc_ok : forall n k, let '(r, f, k') := kfifo_alloc n k in
    regs k' = regs k /\ (r = 0 <-> f <> None);
  free_ok : forall f k, regs (kfifo_free f k) = regs k
}.

(** ** The modules *)

Inductive kmodule := Scheduler | LogReader | ParamsTracer | VarsTracer.

#[export] Instance kmodule_eq_dec : EqDecision kmodule.
Proof. solve_decision. Defined.

Lemma filter_all {A} (f : A -> bool) (l : list A) : (forall x, x ∈ l -> f x = true) -> List.filter f l = l.
Proof.
  induction l as [|a l IH]; intros Hf; [done|]. cbn [List.filter]. rewrite Hf by left.
  f_equal. apply IH. intros x Hx. apply Hf. by right.
Qed.

(** The modules loaded once one is gone. *)
Definition without (m : kmodule) (l : list kmodule) : list kmodule :=
  List.filter (fun m' => negb (bool_decide (m' = m))) l.

Lemma in_without m m' l : m' ∈ without m l <-> m' ∈ l /\ m' <> m.
Proof.
  unfold without. rewrite list_elem_of_In, filter_In, <- list_elem_of_In.
  destruct (decide (m' = m)) as [->|Hn].
  - rewrite bool_decide_eq_true_2 by done. split; [intros [_ ?]; done|intros [_ ?]; done].
  - rewrite bool_decide_eq_false_2 by done. split; intros [Hin _]; done.
Qed.

Section Modules.
Context {C G Skb Attr Msg Tsk Th U K F : Type}.
Context `{QdiscEnv C Skb} `{Rng G} `{NetlinkEnv Attr} `{MsgEnv Msg} `{ThreadEnv Tsk Th}.
#[local] Abbreviation Ops := (Qdisc_ops C G Skb Attr Msg Tsk Th U).
Context `{ME : ModuleEnv K Ops F}.

(** Where [rbfgrad_qdisc_ops] lies. *)
Context (ops_addr : Z).

(** [modules/sch_rbfgrad.c:868-875 rbfgrad_class_ops] *)
Definition rbfgrad_class_ops : Qdisc_class_ops C G Tsk Th U :=
  mk_class_ops rbfgrad_graft rbfgrad_leaf rbfgrad_get rbfgrad_put rbfgrad_walk rbfgrad_dump_class.

(** [modules/sch_rbfgrad.c:877-892 rbfgrad_qdisc_ops] *)
Definition rbfgrad_qdisc_ops : Ops :=
  mk_ops "rbfgrad" rbfgrad_class_ops rbfgrad_enqueue rbfgrad_dequeue rbfgrad_peek rbfgrad_drop rbfgrad_init
    rbfgrad_reset rbfgrad_destroy rbfgrad_change rbfgrad_dump rbfgrad_dump_stats.

(** [modules/sch_rbfgrad.c:894-897 rbfgrad_module_init] *)
Definition rbfgrad_module_init (k : K) : Z * K := register_qdisc ops_addr rbfgrad_qdisc_ops k.

(** [modules/sch_rbfgrad.c:899-902 rbfgrad_module_exit] *)
Definition rbfgrad_module_exit (k : K) : K := (unregister_qdisc ops_addr k).2.

(** [queuedata/seqfile_queuedata_rbfgrad.c:82-92 queuedata_seq_open] *)
Definition queuedata_seq_open : seq_operations := queuedata_seq_op.

(** An entry that could not be made is not an error.
    [queuedata/seqfile_queuedata_rbfgrad.c:101-108 init_module] *)
Definition init_module (k : K) : Z * K :=
  let '(entry_queuedata, k) := create_proc_entry "data_seq_file" k in
  let k := match entry_queuedata with
           | Some p => set_proc_fops p queuedata_seq_fops k
           | None => k
           end in
  (0, k).

(** [queuedata/seqfile_queuedata_rbfgrad.c:110-113 cleanup_module] *)
Definition cleanup_module (k : K) : K := remove_proc_entry "data_seq_file" k.

(** The statics of a tracer: [proc_entry] and what [fifo] was allocated. *)
Record tracer := mk_tracer { proc_entry : option Z; t_fifo : option F }.

(** [modules/tracepoint-probe-rbfgrad.c:21-21 PROC_FIFO] *)
Definition PROC_FIFO : string := "rbfgrad".
(** [modules/tracepoint-probe-rbfgrad.c:25-25 BUF_SIZE] *)
Definition BUF_SIZE : Z := 128 * 1024.

(** [modules/tracepoint-probe-rbfgrad.c:157-167 rbfgrad_open] *)
Definition rbfgrad_open : seq_operations := rbfgrad_seq_op.

(** Of the probe, the entry and the queue each may fail; the result is 0.
    [modules/tracepoint-probe-rbfgrad.c:213-235 tp_rbfgrad_trace_init] *)
Definition tp_rbfgrad_trace_init (k : K) : Z * tracer * K :=
  let '(ret, k) := tracepoint_probe_register "rbfgrad_output" probe_rbfgrad k in
  let '(entry, k) := proc_create PROC_FIFO rbfgrad_proc_fops k in
  let k := match entry with
           | None => k
           | Some p => set_proc_fops p rbfgrad_proc_fops (set_write_proc p k)
           end in
  let '(r, f, k) := kfifo_alloc BUF_SIZE k in
  (0, mk_tracer entry f, k).

(** [modules/tracepoint-probe-rbfgrad.c:239-247 tp_rbfgrad_trace_exit] *)
Definition tp_rbfgrad_trace_exit (t : tracer) (k : K) : K :=
  let k := (tracepoint_probe_unregister "rbfgrad_output" probe_rbfgrad k).2 in
  let k := tracepoint_synchronize_unregister k in
  let k := remove_proc_entry "rbfgrad" k in
  kfifo_free (t_fifo t) k.

(** [modules/tracepoint-probe-rbfgrad-vars.c:180-190 rbfgrad_open] *)
Definition rbfgrad_vars_open : seq_operations := rbfgrad_vars_seq_op.

(** [modules/tracepoint-probe-rbfgrad-vars.c:236-258 tp_rbfgrad_vars_trace_init] *)
Definition tp_rbfgrad_vars_trace_init (k : K) : Z * tracer * K :=
  let '(ret, k) := tracepoint_probe_register "rbfgrad_vars_output" probe_rbfgrad_vars k in
  let '(entry, k) := proc_create "rbfgrad_vars" rbfgrad_vars_proc_fops k in
  let k := match entry with
           | None => k
           | Some p => set_proc_fops p rbfgrad_vars_proc_fops k
           end in
  let '(r, f, k) := kfifo_alloc (10 * 1024) k in
  (0, mk_tracer entry f, k).

(** [modules/tracepoint-probe-rbfgrad-vars.c:262-270 tp_rbfgrad_vars_trace_exit] *)
Definition tp_rbfgrad_vars_trace_exit (t : tracer) (k : K) : K :=
  let k := (tracepoint_probe_unregister "rbfgrad_vars_output" probe_rbfgrad_vars k).2 in
  let k := tracepoint_synchronize_unregister k in
  let k := remove_proc_entry "rbfgrad_vars" k in
  kfifo_free (t_fifo t) k.

(** What opening a file of /proc gives. *)
Definition seq_op_of (f : proc_fops) : option seq_operations :=
  match f with
  | queuedata_seq_fops => Some queuedata_seq_open
  | rbfgrad_proc_fops => Some rbfgrad_open
  | rbfgrad_vars_proc_fops => Some rbfgrad_vars_open
  | other_fops => None
  end.

(** ** The loader *)

(** [modules/sch_rbfgrad.c:82-83 queue_show_base_rbfgrad] *)
Definition exports (m : kmodule) : list string :=
  match m with Scheduler => ["queue_show_base_rbfgrad"; "array_element_rbfgrad"] | _ => [] end.

(** The names [l_start] and [l_next] use. *)
Definition imports (m : kmodule) : list string :=
  match m with LogReader => ["queue_show_base_rbfgrad"; "array_element_rbfgrad"] | _ => [] end.

#[local] Set Primitive Projections.

Record loader := mk_loader {
  l_loaded : list kmodule; l_instances : nat; l_params : tracer; l_vars : tracer; l_k : K
}.

#[local] Unset Primitive Projections.

Definition mod_init (m : kmodule) (l : loader) : Z * loader :=
  match m with
  | Scheduler => let '(r, k) := rbfgrad_module_init (l_k l) in (r, l <| l_k := k |>)
  | LogReader => let '(r, k) := init_module (l_k l) in (r, l <| l_k := k |>)
  | ParamsTracer => let '(r, t, k) := tp_rbfgrad_trace_init (l_k l) in (r, (l <| l_k := k |>) <| l_params := t |>)
  | VarsTracer => let '(r, t, k) := tp_rbfgrad_vars_trace_init (l_k l) in (r, (l <| l_k := k |>) <| l_vars := t |>)
  end.

Definition mod_exit (m : kmodule) (l : loader) : loader :=
  match m with
  | Scheduler => l <| l_k := rbfgrad_module_exit (l_k l) |>
  | LogReader => l <| l_k := cleanup_module (l_k l) |>
  | ParamsTracer => l <| l_k := tp_rbfgrad_trace_exit (l_params l) (l_k l) |>
  | VarsTracer => l <| l_k := tp_rbfgrad_vars_trace_exit (l_vars l) (l_k l) |>
  end.

(** What the loader of the kernel allows: a module is loaded when the symbols it needs
    are there, and stays when its initialisation returns 0; it is unloaded when no loaded module needs
    its symbols and no instance of its discipline is left, for an instance holds its
    [owner]. *)
Inductive loader_step : loader -> loader -> Prop :=
| step_load m l r l' :
    m ∉ l_loaded l -> (forall s, s ∈ imports m -> exists m', m' ∈ l_loaded l /\ s ∈ exports m') ->
    mod_init m l = (r, l') ->
    loader_step l (if r =? 0 then l' <| l_loaded := m :: l_loaded l' |> else l')
| step_unload m l :
    m ∈ l_loaded l ->
    (forall s m', m' ∈ l_loaded l -> s ∈ imports m' -> s ∉ exports m) ->
    (m = Scheduler -> l_instances l = O) ->
    loader_step l ((mod_exit m l) <| l_loaded := without m (l_loaded l) |>)
| step_attach l :
    (ops_addr, rbfgrad_qdisc_ops) ∈ r_qdiscs (regs (l_k l)) ->
    loader_step l (l <| l_instances := S (l_instances l) |>)
| step_detach l n :
    l_instances l = S n -> loader_step l (l <| l_instances := n |>).

(** ** What a module leaves in the registries *)

Definition fops_of (m : kmodule) : option (string * proc_fops) :=
  match m with
  | Scheduler => None
  | LogReader => Some ("data_seq_file", queuedata_seq_fops)
  | ParamsTracer => Some ("rbfgrad", rbfgrad_proc_fops)
  | VarsTracer => Some ("rbfgrad_vars", rbfgrad_vars_proc_fops)
  end.

Definition probe_of (m : kmodule) : option (string * probe) :=
  match m with
  | ParamsTracer => Some ("rbfgrad_output", probe_rbfgrad)
  | VarsTracer => Some ("rbfgrad_vars_output", probe_rbfgrad_vars)
  | _ => None
  end.

(** What loading a module can add: all of it, or less where a step failed. *)
Record added (m : kmodule) (r r' : registries Ops) : Prop := {
  ad_qdiscs : r_qdiscs r' = r_qdiscs r \/
    (m = Scheduler /\ r_qdiscs r' = r_qdiscs r ++ [(ops_addr, rbfgrad_qdisc_ops)]);
  ad_procs : r_procs r' = r_procs r \/
    exists p n f w, fops_of m = Some (n, f) /\ r_procs r' = mk_entry p n (Some f) w :: r_procs r;
  ad_probes : r_probes r' = r_probes r \/
    exists x, probe_of m = Some x /\ r_probes r' = x :: r_probes r
}.

(** What unloading takes away. *)
Record taken (m : kmodule) (r r' : registries Ops) : Prop := {
  tk_qdiscs : r_qdiscs r' =
    if decide (m = Scheduler) then List.filter (fun x => negb (x.1 =? ops_addr)) (r_qdiscs r) else r_qdiscs r;
  tk_procs : r_procs r' = match fops_of m with Some (n, _) => remove_entry n (r_procs r) | None => r_procs r end;
  tk_probes : r_probes r' =
    match probe_of m with
    | Some x => List.filter (fun y => negb (bool_decide (y = x))) (r_probes r)
    | None => r_probes r
    end
}.

Context `{MEO : !ModuleEnvOk K Ops F ops_id}.

Lemma update_head p f e (l : list proc_dir_entry) :
  pe_ptr e = p -> p ∉ map pe_ptr l -> update_entry p f (e :: l) = f e :: l.
Proof.
  intros He Hp. unfold update_entry. cbn [map]. rewrite He, Z.eqb_refl. f_equal.
  induction l as [|e' l IH]; [done|]. cbn [map] in *. rewrite not_elem_of_cons in Hp. destruct Hp as [Hn Hp].
  rewrite (proj2 (Z.eqb_neq (pe_ptr e') p)) by congruence. by rewrite IH.
Qed.

Lemma tracer_added m x n f r r1 r2 :
  probe_of m = Some x -> fops_of m = Some (n, f) ->
  r1 = r \/ r1 = mk_regs (r_qdiscs r) (r_procs r) (x :: r_probes r) ->
  r2 = r1 \/ (exists p w, r2 = mk_regs (r_qdiscs r1) (mk_entry p n (Some f) w :: r_procs r1) (r_probes r1)) ->
  added m r r2.
Proof.
  intros Hx Hf [->| ->] [->|(p & w & ->)]; split; cbn [r_qdiscs r_procs r_probes]; eauto 10.
Qed.

(** A service that can fail either does what it promises or leaves the registries. *)
Lemma registered_probe tp p k :
  regs (tracepoint_probe_register tp p k).2 = regs k \/
  regs (tracepoint_probe_register tp p k).2 =
    mk_regs (r_qdiscs (regs k)) (r_procs (regs k)) ((tp, p) :: r_probes (regs k)).
Proof. pose proof (probe_register_ok tp p k) as R. destruct (tracepoint_probe_register _ _ _). cbn [snd]. tauto. Qed.

(** The scheduler's initialisation fails only where nothing was registered; the other
    three always return 0. *)
Lemma init_added m l r l' :
  mod_init m l = (r, l') ->
  added m (regs (l_k l)) (regs (l_k l')) /\
  (r <> 0 -> m = Scheduler /\ regs (l_k l') = regs (l_k l)) /\ l_loaded l' = l_loaded l /\ l_instances l' = l_instances l.
Proof.
  destruct m; cbn [mod_init]; intros E.
  - unfold rbfgrad_module_init in E. pose proof (register_ok ops_addr rbfgrad_qdisc_ops (l_k l)) as R.
    destruct (register_qdisc _ _ _) as [r0 k]. injection E as <- <-. cbn.
    destruct R as [(-> & _ & ->)|[Hr ->]]; (split; [|split; [|split; reflexivity]]).
    + split; cbn [r_qdiscs r_procs r_probes]; [right; done|by left..].
    + lia.
    + split; by left.
    + done.
  - unfold init_module in E. pose proof (create_ok "data_seq_file" (l_k l)) as R.
    destruct (create_proc_entry _ _) as [[p|] k]; injection E as <- <-; cbn;
      (split; [|done]).
    + destruct R as [Hp R]. rewrite set_fops_ok, R. cbn [r_qdiscs r_procs r_probes].
      rewrite update_head by done. split; [by left|right|by left]. by eexists p, _, _, false.
    + rewrite R. split; by left.
  - unfold tp_rbfgrad_trace_init in E. pose proof (registered_probe "rbfgrad_output" probe_rbfgrad (l_k l)) as R1.
    destruct (tracepoint_probe_register _ _ _) as [r1 k1].
    pose proof (proc_create_ok PROC_FIFO rbfgrad_proc_fops k1) as R2. destruct (proc_create _ _ _) as [ep k2].
    match type of E with context [kfifo_alloc ?n ?k] =>
      pose proof (alloc_ok n k) as R3; destruct (kfifo_alloc n k) as [[r3 f] k3] end.
    injection E as <- <-. cbn. split; [|done]. destruct R3 as [-> _].
    eapply (tracer_added _ _ _ _ _ (regs k1)); [done|done|exact R1|]. destruct ep as [p|]; [|by left].
    destruct R2 as [Hp R2]. right. exists p, true. rewrite set_fops_ok, set_write_ok, R2. cbn [r_qdiscs r_procs r_probes].
    by rewrite !update_head by done.
  - unfold tp_rbfgrad_vars_trace_init in E.
    pose proof (registered_probe "rbfgrad_vars_output" probe_rbfgrad_vars (l_k l)) as R1.
    destruct (tracepoint_probe_register _ _ _) as [r1 k1].
    pose proof (proc_create_ok "rbfgrad_vars" rbfgrad_vars_proc_fops k1) as R2. destruct (proc_create _ _ _) as [ep k2].
    match type of E with context [kfifo_alloc ?n ?k] =>
      pose proof (alloc_ok n k) as R3; destruct (kfifo_alloc n k) as [[r3 f] k3] end.
    injection E as <- <-. cbn. split; [|done]. destruct R3 as [-> _].
    eapply (tracer_added _ _ _ _ _ (regs k1)); [done|done|exact R1|]. destruct ep as [p|]; [|by left].
    destruct R2 as [Hp R2]. right. exists p, false. rewrite set_fops_ok, R2. cbn [r_qdiscs r_procs r_probes].
    by rewrite !update_head by done.
Qed.

(** ** The invariant of the loader *)

(** Only what loaded modules have registered is registered, and the entry of a module is
    the first of its name. *)
Record reg_ok (loaded : list kmodule) (r : registries Ops) : Prop := {
  ok_ops : forall o, (ops_addr, o) ∈ r_qdiscs r -> o = rbfgrad_qdisc_ops /\ Scheduler ∈ loaded;
  ok_entry : forall e m n f, e ∈ r_procs r -> fops_of m = Some (n, f) -> pe_fops e = Some f -> m ∈ loaded;
  ok_first : forall e m n f, fops_of m = Some (n, f) -> e ∈ remove_entry n (r_procs r) -> pe_fops e <> Some f;
  ok_probe : forall m x, x ∈ r_probes r -> probe_of m = Some x -> m ∈ loaded;
  ok_alone : forall m tp p p', probe_of m = Some (tp, p) -> (tp, p') ∈ r_probes r -> p' = p
}.

Lemma exit_taken loaded m l :
  reg_ok loaded (regs (l_k l)) -> taken m (regs (l_k l)) (regs (l_k (mod_exit m l))).
Proof.
  intros Hok.
  assert (forall mm tp p n f k t, probe_of mm = Some (tp, p) -> fops_of mm = Some (n, f) -> mm <> Scheduler ->
    regs k = regs (l_k l) ->
    taken mm (regs (l_k l)) (regs (kfifo_free t (remove_proc_entry n (tracepoint_synchronize_unregister
      (tracepoint_probe_unregister tp p k).2))))) as Ht.
  { intros mm tp p n f k t Hp Hf Hm E.
    rewrite free_ok, remove_ok, synchronize_ok, probe_unregister_ok;
      [|intros p' Hin; rewrite E in Hin; by eapply ok_alone in Hin].
    cbn [r_qdiscs r_procs r_probes]. rewrite E.
    split; cbn [r_qdiscs r_procs r_probes]; rewrite ?Hp, ?Hf, ?decide_False by done; done. }
  destruct m; cbn.
  - unfold rbfgrad_module_exit. rewrite unregister_ok. by split.
  - unfold cleanup_module. rewrite remove_ok. by split.
  - exact (Ht ParamsTracer _ _ _ rbfgrad_proc_fops _ _ eq_refl eq_refl ltac:(done) eq_refl).
  - exact (Ht VarsTracer _ _ _ rbfgrad_vars_proc_fops _ _ eq_refl eq_refl ltac:(done) eq_refl).
Qed.

Lemma remove_entry_in n l e : e ∈ remove_entry n l -> e ∈ l.
Proof.
  induction l as [|e' l IH]; [done|]. cbn [remove_entry]. rewrite elem_of_cons.
  destruct (String.eqb _ _); [by right|]. rewrite elem_of_cons. intros [->|]; auto.
Qed.

(** Taking off entries of two names commutes. *)
Lemma remove_entry_comm n n' l : n <> n' -> remove_entry n (remove_entry n' l) = remove_entry n' (remove_entry n l).
Proof.
  intros Hn. induction l as [|e l IH]; [done|]. cbn [remove_entry].
  destruct (String.eqb_spec (pe_name e) n'), (String.eqb_spec (pe_name e) n); subst; cbn [remove_entry]; try congruence;
    rewrite ?String.eqb_refl, ?(proj2 (String.eqb_neq _ _)) by done; congruence.
Qed.

Lemma names_differ m m' n n' f f' :
  fops_of m = Some (n, f) -> fops_of m' = Some (n', f') -> m <> m' -> n <> n' /\ f <> f'.
Proof. destruct m, m'; cbn; intros [= <- <-] [= <- <-]; done. Qed.

Lemma probes_differ m m' x x' :
  probe_of m = Some x -> probe_of m' = Some x' -> m <> m' -> x <> x' /\ x.1 <> x'.1.
Proof. destruct m, m'; cbn; intros [= <-] [= <-]; done. Qed.

Lemma added_ok m loaded r r' : m ∉ loaded -> reg_ok loaded r -> added m r r' -> reg_ok (m :: loaded) r'.
Proof.
  intros Hm [I2 I3 I4 I5 I6] [A1 A2 A3]. split.
  - intros o Hin. destruct A1 as [E|(-> & E)]; rewrite E in Hin.
    + destruct (I2 o Hin). split; [done|by right].
    + split; [|left]. apply elem_of_app in Hin as [Hin|Hin]; [by apply I2|].
      apply list_elem_of_singleton in Hin. by injection Hin.
  - intros e m' n f Hin Hf He. destruct A2 as [E|(p & n0 & f0 & w & Hf0 & E)]; rewrite E in Hin; [right; eauto|].
    apply elem_of_cons in Hin as [->|Hin]; [|right; eauto]. cbn [pe_fops] in He.
    destruct (decide (m = m')) as [->|Hne]; [left|]. destruct (names_differ _ _ _ _ _ _ Hf0 Hf Hne). congruence.
  - intros e m' n f Hf Hin He. destruct A2 as [E|(p & n0 & f0 & w & Hf0 & E)]; rewrite E in Hin; [by eapply I4|].
    cbn [remove_entry pe_name] in Hin. destruct (decide (m = m')) as [->|Hne].
    + assert (n0 = n) as -> by congruence. rewrite String.eqb_refl in Hin. apply Hm. by eapply I3.
    + destruct (names_differ _ _ _ _ _ _ Hf0 Hf Hne) as [Hnn Hff]. rewrite (proj2 (String.eqb_neq _ _)) in Hin by done.
      apply elem_of_cons in Hin as [->|Hin]; [cbn [pe_fops] in He; congruence|by eapply I4].
  - intros m' x Hin Hx. destruct A3 as [E|(x0 & Hx0 & E)]; rewrite E in Hin; [right; eauto|].
    apply elem_of_cons in Hin as [->|Hin]; [|right; eauto].
    destruct (decide (m = m')) as [->|Hne]; [left|]. destruct (probes_differ _ _ _ _ Hx0 Hx Hne). done.
  - intros m' tp p p' Hp Hin. destruct A3 as [E|(x0 & Hx0 & E)]; rewrite E in Hin; [eauto|].
    apply elem_of_cons in Hin as [<-|Hin]; [|eauto].
    destruct (decide (m = m')) as [->|Hne]; [congruence|]. by destruct (probes_differ _ _ _ _ Hx0 Hp Hne).
Qed.

Lemma taken_ok m loaded r r' :
  reg_ok loaded r -> taken m r r' -> reg_ok (without m loaded) r'.
Proof.
  intros [I2 I3 I4 I5 I6] [T1 T2 T3].
  assert (forall m', m' ∈ loaded -> m' <> m -> m' ∈ without m loaded) as Hk by (intros; by apply in_without).
  split.
  - intros o Hin. rewrite T1 in Hin. destruct (decide (m = Scheduler)) as [->|Hne].
    + apply list_elem_of_In, filter_In in Hin as [_ Hd]. cbn [fst] in Hd. by rewrite Z.eqb_refl in Hd.
    + destruct (I2 o Hin). auto.
  - intros e m' n f Hin Hf He. destruct (fops_of m) as [[n0 f0]|] eqn:Hf0; rewrite T2 in Hin.
    + destruct (decide (m' = m)) as [->|Hne].
      * rewrite Hf in Hf0. injection Hf0 as <- <-. by destruct (I4 e m n f Hf Hin).
      * apply Hk; [eapply I3; eauto using remove_entry_in|done].
    + apply Hk; [by eapply I3|congruence].
  - intros e m' n f Hf Hin. destruct (fops_of m) as [[n0 f0]|] eqn:Hf0; rewrite T2 in Hin; [|by eapply I4].
    destruct (decide (m' = m)) as [->|Hne].
    + rewrite Hf in Hf0. injection Hf0 as <- <-. eapply I4; [done|]. by eapply remove_entry_in.
    + destruct (names_differ _ _ _ _ _ _ Hf Hf0 Hne) as [Hnn _]. rewrite remove_entry_comm in Hin by done.
      eapply I4; [done|]. by eapply remove_entry_in.
  - intros m' x Hin Hx. destruct (probe_of m) as [x0|] eqn:Hx0; rewrite T3 in Hin.
    + apply list_elem_of_In, filter_In in Hin as [Hin Hd]. apply list_elem_of_In in Hin. apply Hk; [by eapply I5|].
      intros ->. rewrite Hx in Hx0. injection Hx0 as ->. by rewrite bool_decide_eq_true_2 in Hd.
    + apply Hk; [by eapply I5|congruence].
  - intros m' tp p p' Hp Hin. eapply I6; [done|]. destruct (probe_of m) as [x0|]; rewrite T3 in Hin; [|done].
    apply list_elem_of_In, filter_In in Hin as [Hin _]. by apply list_elem_of_In.
Qed.

(** What holds in every state of the loader. *)
Record modules_ok (l : loader) : Prop := {
  mo_reader : LogReader ∈ l_loaded l -> Scheduler ∈ l_loaded l;
  mo_instances : l_instances l <> O -> Scheduler ∈ l_loaded l;
  mo_regs : reg_ok (l_loaded l) (regs (l_k l))
}.

Lemma step_ok l l' : modules_ok l -> loader_step l l' -> modules_ok l'.
Proof.
  intros [M1 M2 M3] Hs.
  destruct Hs as [m l r l1 Hm Hi E|m l Hm Hu Hz|l Ha|l n En].
  - destruct (init_added _ _ _ _ E) as (Ha & Hf & El & Ei).
    destruct (Z.eqb_spec r 0) as [->|Hr].
    + pose proof (added_ok _ _ _ _ Hm M3 Ha) as Hok. split; cbn.
      * rewrite El, elem_of_cons. intros [<-|Hin]; [|right; auto].
        destruct (Hi "queue_show_base_rbfgrad") as (m' & Hin & Hx); [left|].
        destruct m'; try (by apply not_elem_of_nil in Hx). by right.
      * intros Hn. rewrite El. right. apply M2. intros E0. apply Hn. exact (eq_trans Ei E0).
      * by rewrite El.
    + destruct (Hf Hr) as [_ Er]. split.
      * by rewrite El.
      * intros Hn. rewrite El. apply M2. intros E0. apply Hn. exact (eq_trans Ei E0).
      * by rewrite El, Er.
  - pose proof (taken_ok _ _ _ _ M3 (exit_taken _ m l M3)) as Hok.
    assert (l_instances (mod_exit m l) = l_instances l) as Ei by (by destruct m).
    assert (Scheduler ∈ l_loaded l -> m <> Scheduler -> Scheduler ∈ without m (l_loaded l)) as Hk
      by (intros; by apply in_without).
    split; cbn; [| |done].
    + intros Hin. apply in_without in Hin as [Hin Hne]. apply Hk; [auto|]. intros ->.
      apply (Hu "queue_show_base_rbfgrad" LogReader Hin); left.
    + intros Hn. assert (l_instances l <> O) as Hn' by (intros E0; apply Hn; exact (eq_trans Ei E0)).
      apply Hk; [auto|]. intros ->. auto.
  - split; cbn; [done| |done]. intros _. by destruct (ok_ops _ _ M3 _ Ha).
  - split; cbn; [done| |done]. intros _. apply M2. congruence.
Qed.

(** Nothing of the repository is registered yet. *)
Record untouched (r : registries Ops) : Prop := {
  un_ops : forall o, (ops_addr, o) ∉ r_qdiscs r;
  un_fops : forall e m n f, e ∈ r_procs r -> fops_of m = Some (n, f) -> pe_fops e <> Some f;
  un_probes : forall m tp p p', probe_of m = Some (tp, p) -> (tp, p') ∉ r_probes r
}.

Lemma boot_ok l :
  l_loaded l = [] -> l_instances l = O -> untouched (regs (l_k l)) -> modules_ok l.
Proof.
  intros E Ei [U1 U2 U3]. split; rewrite E; [intros Hin; by apply not_elem_of_nil in Hin|intros Hn; by destruct (Hn Ei)|]. split.
  - intros o Hin. by destruct (U1 o).
  - intros e m n f Hin Hf He. by destruct (U2 e m n f Hin Hf).
  - intros e m n f Hf Hin He. eapply (U2 e m n f); [by eapply remove_entry_in|done..].
  - intros m [tp p] Hin Hx. by destruct (U3 m tp p p Hx).
  - intros m tp p p' Hp Hin. by destruct (U3 m tp p p' Hp).
Qed.

(** C13: Whatever modules are loaded and unloaded in whatever order, and whichever of their
    registrations fail: the log reader is loaded only while the scheduler, whose log it
    walks, is; an instance of the discipline only exists while the scheduler is loaded;
    and every handler, /proc entry and probe of the repository that is registered belongs
    to a module that is loaded. *)
Theorem modules_safe (l0 l : loader) :
  l_loaded l0 = [] -> l_instances l0 = O -> untouched (regs (l_k l0)) -> rtc loader_step l0 l ->
  (LogReader ∈ l_loaded l -> Scheduler ∈ l_loaded l) /\
  (l_instances l <> O -> Scheduler ∈ l_loaded l) /\
  (forall o, (ops_addr, o) ∈ r_qdiscs (regs (l_k l)) -> Scheduler ∈ l_loaded l) /\
  (forall e f s, e ∈ r_procs (regs (l_k l)) -> pe_fops e = Some f -> seq_op_of f = Some s ->
     exists m n, fops_of m = Some (n, f) /\ m ∈ l_loaded l) /\
  (forall m x, x ∈ r_probes (regs (l_k l)) -> probe_of m = Some x -> m ∈ l_loaded l).
Proof.
  intros E Ei Hu Hr.
  assert (modules_ok l) as [M1 M2 [R1 R2 R3 R4 R5]].
  { pose proof (boot_ok l0 E Ei Hu) as Hok. clear E Ei Hu. induction Hr as [|l0 l1 l Hs _ IH]; eauto using step_ok. }
  split_and!; [done..| | |done].
  - intros o Hin. by destruct (R1 o Hin).
  - intros e f s Hin He Hs.
    assert (exists m n, fops_of m = Some (n, f)) as (m & n & Hf).
    { destruct f; [exists LogReader|exists ParamsTracer|exists VarsTracer|done]; by eexists. }
    exists m, n. split; [done|]. by eapply R2.
Qed.

(** A module that is loaded and unloaded again leaves the registries as they were; but
    where its entry in /proc could not be made, unloading takes off the first entry of that
    name, whoever made it. *)
Theorem load_unload (l l1 : loader) (m : kmodule) :
  modules_ok l -> m ∉ l_loaded l -> mod_init m l = (0, l1) ->
  let r := regs (l_k l) in
  let r' := regs (l_k (mod_exit m l1)) in
  r_qdiscs r' = r_qdiscs r /\ r_probes r' = r_probes r /\
  r_procs r' = if decide (r_procs (regs (l_k l1)) = r_procs r)
               then match fops_of m with Some (n, _) => remove_entry n (r_procs r) | None => r_procs r end
               else r_procs r.
Proof.
  intros [_ _ Hok] Hm E r r'. destruct (init_added _ _ _ _ E) as (Ha & _ & El & _).
  pose proof (added_ok _ _ _ _ Hm Hok Ha) as Hok1.
  pose proof (exit_taken _ m l1 Hok1) as [T1 T2 T3]. destruct Ha as [A1 A2 A3], Hok as [I2 I3 I4 I5 I6].
  fold r in A1, A2, A3, I2, I5. fold r' in T1, T2, T3. split_and!.
  - rewrite T1. destruct (decide (m = Scheduler)) as [->|Hne].
    + assert (List.filter (fun x : Z * Ops => negb (x.1 =? ops_addr)) (r_qdiscs r) = r_qdiscs r) as Hf.
      { apply filter_all. intros [a o] Hin. cbn [fst]. destruct (Z.eqb_spec a ops_addr) as [->|]; [|done].
        by destruct (I2 o Hin). }
      destruct A1 as [-> |(_ & ->)]; [done|]. rewrite List.filter_app, Hf. cbn [List.filter fst].
      rewrite Z.eqb_refl. apply app_nil_r.
    + by destruct A1 as [->|(-> & _)].
  - rewrite T3. destruct (probe_of m) as [x|] eqn:Hx; [|by destruct A3 as [->|(x & [=] & _)]].
    assert (List.filter (fun y => negb (bool_decide (y = x))) (r_probes r) = r_probes r) as Hf.
    { apply filter_all. intros y Hin. rewrite bool_decide_eq_false_2; [done|]. intros ->. by apply Hm, (I5 _ _ Hin). }
    destruct A3 as [->|(x' & [= <-] & ->)]; [done|]. cbn [List.filter]. by rewrite bool_decide_eq_true_2.
  - rewrite T2. destruct A2 as [Ep|(p & n & f & w & Hf & Ep)].
    + rewrite decide_True by done. by rewrite Ep.
    + rewrite Hf, Ep, decide_False by (intros Eq; apply (f_equal List.length) in Eq; cbn in Eq; lia).
      cbn [remove_entry pe_name]. by rewrite String.eqb_refl.
Qed.
End Modules.

(** ** Registries as lists

    A budget says how many more registrations succeed. *)

Record lists (Ops : Type) := mk_lists { ls_regs : registries Ops; ls_budget : nat }.
Global Arguments mk_lists {Ops} _ _.
Global Arguments ls_regs {Ops} _.
Global Arguments ls_budget {Ops} _.

Definition ENOMEM : Z := 12.

(** An address no entry has. *)
Definition free_ptr (l : list proc_dir_entry) : Z := foldr (fun e p => Z.max (pe_ptr e) p) 0 l + 1.

Lemma free_ptr_fresh l : free_ptr l ∉ map pe_ptr l.
Proof.
  unfold free_ptr. assert (forall n, foldr (fun e p => Z.max (pe_ptr e) p) 0 l < n -> n ∉ map pe_ptr l) as Hf;
    [|apply Hf; lia].
  induction l as [|e l IH]; intros n Hn; [apply not_elem_of_nil|]. cbn [foldr map] in *.
  apply not_elem_of_cons. split; [lia|apply IH; lia].
Qed.

Definition spend {Ops T} (k : lists Ops) (fail : T) (ok : T * registries Ops) : T * lists Ops :=
  match ls_budget k with
  | O => (fail, k)
  | S b => (ok.1, mk_lists ok.2 b)
  end.

Section Lists.
Context {C G Skb Attr Msg Tsk Th U : Type}.
#[local] Abbreviation Ops := (Qdisc_ops C G Skb Attr Msg Tsk Th U).

#[export] Instance lists_env : ModuleEnv (lists Ops) Ops unit := {
  regs k := ls_regs k;
  register_qdisc a o k :=
    let r := ls_regs k in
    if bool_decide (ops_id o ∈ map (fun x => ops_id x.2) (r_qdiscs r)) then (- 17, k)
    else spend k (- ENOMEM) (0, mk_regs (r_qdiscs r ++ [(a, o)]) (r_procs r) (r_probes r));
  unregister_qdisc a k :=
    let r := ls_regs k in
    (0, mk_lists (mk_regs (List.filter (fun x => negb (x.1 =? a)) (r_qdiscs r)) (r_procs r) (r_probes r)) (ls_budget k));
  tracepoint_probe_register tp p k :=
    let r := ls_regs k in spend k (- ENOMEM) (0, mk_regs (r_qdiscs r) (r_procs r) ((tp, p) :: r_probes r));
  tracepoint_probe_unregister tp p k :=
    let r := ls_regs k in
    (0, mk_lists (mk_regs (r_qdiscs r) (r_procs r)
      (List.filter (fun x => negb (bool_decide (x = (tp, p)))) (r_probes r))) (ls_budget k));
  tracepoint_synchronize_unregister k := k;
  create_proc_entry name k :=
    let r := ls_regs k in
    spend k None (Some (free_ptr (r_procs r)),
      mk_regs (r_qdiscs r) (mk_entry (free_ptr (r_procs r)) name None false :: r_procs r) (r_probes r));
  proc_create name f k :=
    let r := ls_regs k in
    spend k None (Some (free_ptr (r_procs r)),
      mk_regs (r_qdiscs r) (mk_entry (free_ptr (r_procs r)) name (Some f) false :: r_procs r) (r_probes r));
  set_proc_fops p f k :=
    let r := ls_regs k in
    mk_lists (mk_regs (r_qdiscs r) (update_entry p (fun e => (e <| pe_fops := Some f |>)) (r_procs r)) (r_probes r))
      (ls_budget k);
  set_write_proc p k :=
    let r := ls_regs k in
    mk_lists (mk_regs (r_qdiscs r) (update_entry p (fun e => (e <| pe_write := true |>)) (r_procs r)) (r_probes r))
      (ls_budget k);
  remove_proc_entry name k :=
    let r := ls_regs k in
    mk_lists (mk_regs (r_qdiscs r) (remove_entry name (r_procs r)) (r_probes r)) (ls_budget k);
  kfifo_alloc n k := match ls_budget k with O => (- ENOMEM, None, k) | S b => (0, Some tt, mk_lists (ls_regs k) b) end;
  kfifo_free f k := k
}.

#[export] Instance lists_ok : ModuleEnvOk (lists Ops) Ops unit ops_id.
Proof.
  split; intros; cbn; try reflexivity.
  - destruct (bool_decide _) eqn:E; [right; done|]. apply bool_decide_eq_false in E. unfold spend.
    destruct (ls_budget k); [by right|left; done].
  - unfold spend. destruct (ls_budget k); [by right|left; done].
  - unfold spend. destruct (ls_budget k); cbn; [done|split; [apply free_ptr_fresh|done]].
  - unfold spend. destruct (ls_budget k); cbn; [done|split; [apply free_ptr_fresh|done]].
  - destruct (ls_budget k); done.
Qed.
End Lists.

(** ** Witnesses *)

#[local] Abbreviation demo_loader := (@loader (lists (Qdisc_ops KernelEnv.fifo script skb attr msg nat threads unit)) unit).
#[local] Abbreviation demo_init := (@mod_init KernelEnv.fifo script skb attr msg nat threads unit
  (lists (Qdisc_ops KernelEnv.fifo script skb attr msg nat threads unit)) unit _ _ _ _ _ lists_env 100).

(** Nothing loaded; [b] registrations succeed. *)
Definition demo_boot (b : nat) : demo_loader :=
  mk_loader [] 0 (mk_tracer None None) (mk_tracer None None) (mk_lists (mk_regs [] [] []) b).

Definition demo_sched : demo_loader := ((demo_init Scheduler (demo_boot 9)).2) <| l_loaded := [Scheduler] |>.
Definition demo_reader : demo_loader := ((demo_init LogReader demo_sched).2) <| l_loaded := [LogReader; Scheduler] |>.

Lemma demo_untouched : untouched 100 (regs (l_k (demo_boot 9))).
Proof.
  split.
  - intros o. apply not_elem_of_nil.
  - intros e m n f Hin. by apply not_elem_of_nil in Hin.
  - intros m tp p p' _. apply not_elem_of_nil.
Qed.

Lemma modules_safe_witness :
  Scheduler ∈ l_loaded demo_reader /\ r_procs (regs (l_k demo_reader)) <> [].
Proof.
  split; [|discriminate].
  refine (proj1 (modules_safe (Skb := skb) (Attr := attr) 100 (demo_boot 9) demo_reader eq_refl eq_refl demo_untouched _) _);
    [|left].
  eapply rtc_l; [apply (step_load 100 Scheduler (demo_boot 9) 0 (demo_init Scheduler (demo_boot 9)).2);
    [apply not_elem_of_nil|intros s Hs; by apply not_elem_of_nil in Hs|reflexivity]|].
  eapply rtc_l; [|apply rtc_refl].
  apply (step_load 100 LogReader demo_sched 0 (demo_init LogReader demo_sched).2);
    [by apply (bool_decide_eq_true_1 _)| |reflexivity].
  intros s Hs. exists Scheduler. split; [left|exact Hs].
Defined.

Lemma load_unload_witness :
  r_procs (regs (l_k demo_reader)) <> [] /\
  r_procs (regs (l_k (mod_exit (Skb := skb) (Attr := attr) 100 LogReader demo_reader))) = [].
Proof.
  split; [discriminate|].
  assert (modules_ok (Skb := skb) (Attr := attr) 100 demo_sched) as Hok.
  { refine (step_ok 100 _ _ (boot_ok 100 (demo_boot 9) eq_refl eq_refl demo_untouched) _).
    apply (step_load 100 Scheduler (demo_boot 9) 0 (demo_init Scheduler (demo_boot 9)).2);
      [apply not_elem_of_nil|intros s Hs; by apply not_elem_of_nil in Hs|reflexivity]. }
  assert (LogReader ∉ l_loaded demo_sched) as Hn by (by apply (bool_decide_eq_true_1 _)).
  destruct (load_unload 100 demo_sched (demo_init LogReader demo_sched).2 LogReader Hok Hn eq_refl) as (_ & _ & Hr).
  exact Hr.
Defined.

(** With no registration left the tracer loads with nothing registered and no queue. *)
Lemma tracer_hides_failure :
  let '(r, l) := demo_init ParamsTracer (demo_boot 0) in
  r = 0 /\ regs (l_k l) = mk_regs [] [] [] /\ t_fifo (l_params l) = None.
Proof. vm_compute. done. Qed.

(** With room for the probe and the entry but not for the queue, the probe runs without one. *)
Lemma tracer_without_queue :
  let '(r, l) := demo_init ParamsTracer (demo_boot 2) in
  r = 0 /\ r_probes (regs (l_k l)) = [("rbfgrad_output", probe_rbfgrad)] /\ t_fifo (l_params l) = None.
Proof. vm_compute. done. Qed.

(** Unloading the log reader takes off an entry it did not make. *)
Lemma unload_takes_foreign_entry :
  let foreign := mk_entry 1 "data_seq_file" (Some other_fops) false in
  let boot := (demo_boot 0) <| l_k := mk_lists (mk_regs [] [foreign] []) 0 |> in
  let '(r, l) := demo_init LogReader boot in
  r = 0 /\ r_procs (regs (l_k l)) = [foreign] /\
  r_procs (regs (l_k (mod_exit (Skb := skb) (Attr := attr) 100 LogReader l))) = [].
Proof. vm_compute. done. Qed.
