(* ===== verification/Utils.v ===== *)
(** * The front end's utilities (iproute2-3.1.0/lib/utils.c)

    Number parsers, pattern matching, hexadecimal strings, the command reader and
    the clock rate.  A parser that returns -1 is [None]; one that stores through a
    pointer returns the stored value.  The null pointers the C functions also
    refuse cannot be expressed: the arguments are strings. *)

From S2P Require Export Text.

(** ** Numbers *)

(** [iproute2-3.1.0/lib/utils.c:32-44 get_integer] *)
Definition get_integer (arg : string) (base : Z) : option Z :=
  if String.eqb arg "" then None
  else match strtol arg base with
       | Some (res, "") => if (INT_MAX <? res) || (res <? INT_MIN) then None else Some (s32 res)
       | _ => None
       end.

(** [iproute2-3.1.0/lib/utils.c:81-93 get_unsigned] *)
Definition get_unsigned (arg : string) (base : Z) : option Z :=
  if String.eqb arg "" then None
  else match strtoul arg base with
       | Some (res, "") => if 4294967295 <? res then None else Some (u32 res)
       | _ => None
       end.

Definition contains (c : ascii) (s : string) : bool := negb (all_chars (fun d => negb (Ascii.eqb d c)) s).

(** The stored value and [*raw], which is written even when the call fails later.
    [iproute2-3.1.0/lib/utils.c:102-143 get_time_rtt] *)
Definition get_time_rtt (arg : string) (raw : Z) : option Z * Z :=
  let number : option (double * string) :=
    if contains "." arg then
      match strtod arg with
      | Some (t, p) => if dlt t d0 then None else Some (t, p)
      | None => None
      end
    else
      match strtoul arg 0 with
      | Some (res, p) => if 4294967295 <? res then None else Some (d_of_Z res, p)
      | None => None
      end in
  match number with
  | None => (None, raw)
  | Some (t, p) =>
      let scaled : option double * Z :=
        if String.eqb p "" then (Some t, 1)
        else if strcaseeq p "s" || strcaseeq p "sec" || strcaseeq p "secs"
        then (Some (t * d_of_Z 1000)%D, 0)
        else if strcaseeq p "ms" || strcaseeq p "msec" || strcaseeq p "msecs"
        then (Some (t * d1)%D, 0)
        else (None, 0) in
      match scaled with
      | (None, raw) => (None, raw)
      | (Some t, raw) =>
          let val := d_to_u32 t in
          (Some (if dlt (d_of_Z val) t then u32 (val + 1) else val), raw)
      end
  end.

(** The test is an equality: the values above 0xFFFFFFFF are accepted.
    [iproute2-3.1.0/lib/utils.c:145-157 get_u64] *)
Definition get_u64 (arg : string) (base : Z) : option Z :=
  if String.eqb arg "" then None
  else match strtoul arg base with
       | Some (res, "") => if res =? 0xFFFFFFFF then None else Some res
       | _ => None
       end.

(** [iproute2-3.1.0/lib/utils.c:159-171 get_u32] *)
Definition get_u32 (arg : string) (base : Z) : option Z :=
  if String.eqb arg "" then None
  else match strtoul arg base with
       | Some (res, "") => if 0xFFFFFFFF <? res then None else Some (u32 res)
       | _ => None
       end.

(** [iproute2-3.1.0/lib/utils.c:173-185 get_u16] *)
Definition get_u16 (arg : string) (base : Z) : option Z :=
  if String.eqb arg "" then None
  else match strtoul arg base with
       | Some (res, "") => if 0xFFFF <? res then None else Some (u16 res)
       | _ => None
       end.

(** [iproute2-3.1.0/lib/utils.c:187-199 get_u8] *)
Definition get_u8 (arg : string) (base : Z) : option Z :=
  if String.eqb arg "" then None
  else match strtoul arg base with
       | Some (res, "") => if 0xFF <? res then None else Some (u8 res)
       | _ => None
       end.

(** [iproute2-3.1.0/lib/utils.c:201-213 get_s16] *)
Definition get_s16 (arg : string) (base : Z) : option Z :=
  if String.eqb arg "" then None
  else match strtol arg base with
       | Some (res, "") => if (0x7FFF <? res) || (res <? - 0x8000) then None else Some (s16 res)
       | _ => None
       end.

(** [iproute2-3.1.0/lib/utils.c:215-227 get_s8] *)
Definition get_s8 (arg : string) (base : Z) : option Z :=
  if String.eqb arg "" then None
  else match strtol arg base with
       | Some (res, "") => if (0x7F <? res) || (res <? - 0x80) then None else Some (s8 res)
       | _ => None
       end.

(** ** Words and commands *)

(** Whether the C function returns 0: [cmd] is a prefix of [pattern].
    [iproute2-3.1.0/lib/utils.c:427-433 matches] *)
Definition matches (cmd pattern : string) : bool :=
  let len := String.length cmd in
  if (String.length pattern <? len)%nat then false else String.eqb (substring 0 len pattern) cmd.

(** [c] replaced by the end of the string, as [strchr] and [*cp = 0] do. *)
Fixpoint cut_at (c : ascii) (s : string) : string :=
  match s with
  | String d s => if Ascii.eqb d c then "" else String d (cut_at c s)
  | "" => ""
  end.

(** What is before the first backslash-newline, if there is one. *)
Fixpoint cut_continuation (s : string) : option string :=
  match s with
  | String c s' =>
      if Ascii.eqb c "\" && match s' with String n _ => Ascii.eqb n "010" | "" => false end
      then Some ""
      else match cut_continuation s' with Some p => Some (String c p) | None => None end
  | "" => None
  end.

(** [getline]: the line, or [None] at the end. *)
Definition getline (stream : string) : option (string * string) :=
  match stream with "" => None | _ => Some (read_line stream) end.

(** The loop over the continuation lines; it reads a line in every round.  The
    result is the line with the count, or [None] for a missing continuation, and
    the stream and line number. *)
Fixpoint continue_line (fuel : nat) (line : string) (cc : Z) (stream : string) (cmdlineno : Z) :
    option (string * Z) * string * Z :=
  match fuel with
  | O => (None, stream, cmdlineno)
  | S fuel =>
      match cut_continuation line with
      | None => (Some (line, cc), stream, cmdlineno)
      | Some cut =>
          match getline stream with
          | None => (None, stream, cmdlineno)
          | Some (line1, stream) =>
              let cc1 := Z.of_nat (String.length line1) in
              continue_line fuel (cut +:+ cut_at "#" line1) (cc + (cc1 - 2)) stream (s32 (cmdlineno + 1))
          end
      end
  end.

(** [iproute2-3.1.0/lib/utils.c:687-729 getcmdline] *)
Definition getcmdline (stream : string) (cmdlineno : Z) : option (string * Z) * string * Z :=
  match getline stream with
  | None => (None, stream, cmdlineno)
  | Some (line, rest) =>
      continue_line (S (String.length stream)) (cut_at "#" line) (Z.of_nat (String.length line)) rest
        (s32 (cmdlineno + 1))
  end.

Definition is_ws (c : ascii) : bool :=
  Ascii.eqb c " " || Ascii.eqb c "009" || Ascii.eqb c "013" || Ascii.eqb c "010".

(** [strtok] over the whole line: [word] is the token being read, reversed order
    not needed as it is extended on the right. *)
Fixpoint tokens (s word : string) : list string :=
  let flush := if String.eqb word "" then [] else [word] in
  match s with
  | "" => flush
  | String c s => if is_ws c then flush ++ tokens s "" else tokens s (word +:+ String c "")
  end%list.

(** [None] when the program exits with "Too many arguments"; the vector has the
    arguments ([argc] is its length).  [iproute2-3.1.0/lib/utils.c:732-748 makeargs] *)
Definition makeargs (line : string) (maxargs : Z) : option (list string) :=
  let words := tokens line "" in
  if Z.of_nat (List.length words) <=? maxargs - 1 then Some words else None.

(** ** Hexadecimal strings *)

Definition print_02x (z : Z) : string := pad_left 2 (print_x z).

(** The text written to [buf], and whether the terminating NUL of the last
    [sprintf] is behind it: a colon overwrites it, and with no room for a first
    byte, or no byte, nothing is written.
    [iproute2-3.1.0/lib/utils.c:613-630 hexstring_n2a] *)
Fixpoint hexstring_n2a (str : list Z) (blen : Z) : string * bool :=
  match str with
  | [] => ("", false)
  | b :: str =>
      if blen <? 3 then ("", false)
      else
        let blen := blen - 2 in
        match str with
        | [] => (print_02x b, true)
        | _ =>
            if 1 <? blen then
              let '(s, ok) := hexstring_n2a str (blen - 1) in (print_02x b +:+ String ":" s, ok)
            else let '(s, ok) := hexstring_n2a str blen in (print_02x b +:+ s, ok || String.eqb s "")
        end
  end.

(** The digits up to a colon or the end: the value and the rest. *)
Fixpoint hex_group (str : string) (acc : Z) : option (Z * string) :=
  match str with
  | "" => Some (acc, "")
  | String ch s =>
      if Ascii.eqb ch ":" then Some (acc, str)
      else
        let z := code ch in
        if (48 <=? z) && (z <=? 57) then hex_group s (u32 (u32 (Z.shiftl acc 4) + (z - 48)))
        else if (97 <=? z) && (z <=? 102) then hex_group s (u32 (u32 (Z.shiftl acc 4) + (z - 87)))
        else if (65 <=? z) && (z <=? 70) then hex_group s (u32 (u32 (Z.shiftl acc 4) + (z - 55)))
        else None
  end.

(** The groups: one more than there are colons. *)
Fixpoint hex_groups (fuel : nat) (str : string) (blen : nat) : option (list Z) :=
  match fuel with
  | O => None
  | S fuel =>
      match hex_group str 0 with
      | None => None
      | Some (acc, rest) =>
          if 255 <? acc then None
          else
            let '(store, blen) := match blen with O => ([], O) | S n => ([acc], n) end in
            match rest with
            | "" => Some (store ++ replicate blen 0)%list
            | String _ rest =>
                match hex_groups fuel rest blen with
                | Some l => Some (store ++ l)%list
                | None => None
                end
            end
      end
  end.

(** The [blen] bytes of the buffer.  [iproute2-3.1.0/lib/utils.c:632-668 hexstring_a2n] *)
Definition hexstring_a2n (str : string) (blen : nat) : option (list Z) :=
  hex_groups (S (String.length str)) str blen.

(** ** The clock rate *)

(** [fscanf] of [%08x]: at most eight characters after the blanks. *)
Definition scanf_x8 (s : string) : option (Z * string) :=
  let s := skip_space s in
  let w := substring 0 8 s in
  match strtoul w 16 with
  | Some (v, r) => Some (u32 v, r +:+ drop_chars 8 s)
  | None => None
  end.

Definition HZ : Z := 100.

(** The environment and the files are arguments.
    [iproute2-3.1.0/lib/utils.c:465-493 __get_hz] *)
Definition __get_hz (getenv : string -> option string) (fopen : string -> option string) : Z :=
  match getenv "HZ" with
  | Some v => if atoi v =? 0 then HZ else atoi v
  | None =>
      let name :=
        match getenv "PROC_NET_PSCHED", getenv "PROC_ROOT" with
        | Some f, _ => substring 0 1022 f
        | None, Some r => substring 0 1022 (r +:+ "/net/psched")
        | None, None => "/proc/net/psched"
        end in
      let hz :=
        match fopen name with
        | Some text =>
            match scanf_x8 text with
            | Some (_, t) =>
                match scanf_x8 t with
                | Some (_, t) =>
                    match scanf_x8 t with
                    | Some (nom, t) =>
                        match scanf_x8 t with
                        | Some (denom, _) => if nom =? 1000000 then s32 denom else 0
                        | None => 0
                        end
                    | None => 0
                    end
                | None => 0
                end
            | None => 0
            end
        | None => 0
        end in
      if hz =? 0 then HZ else hz
  end.

(** ** The number parsers *)

(** Case analysis on the comparisons of a goal between options or booleans. *)
Ltac range_cases :=
  repeat (match goal with
          | |- context [?a <=? ?b] => destruct (Z.leb_spec a b)
          | |- context [?a <? ?b] => destruct (Z.ltb_spec a b)
          | |- context [?a =? ?b] => destruct (Z.eqb_spec a b)
          end; cbn [andb orb negb]);
  try lia; try done; try (f_equal; machine_int).

Lemma nonempty_print z : LONG_MIN <= z <= LONG_MAX -> String.eqb (print_d z) "" = false.
Proof. intros Hz. pose proof (print_d_length z Hz). by destruct (print_d z); [cbn in *; lia|]. Qed.

Lemma parse_signed z : LONG_MIN <= z <= LONG_MAX -> strtol (print_d z) 10 = Some (z, "").
Proof. intros Hz. rewrite <- (append_empty (print_d z)). by apply strtol_print_d. Qed.

Lemma parse_unsigned z : LONG_MIN <= z <= LONG_MAX -> strtoul (print_d z) 10 = Some (u64 z, "").
Proof.
  intros Hz. rewrite <- (append_empty (print_d z)).
  apply strtoul_print_d; [|done]. unfold LONG_MIN, LONG_MAX, ULONG_MAX in *. lia.
Qed.

(** The number parsers invert decimal printing exactly on the range of their
    type and refuse every other number a [long] can hold (a negative one too, where
    the type is unsigned: [strtoul] wraps it far out of range); the exception is
    [get_u64], which refuses the single value 0xFFFFFFFF and takes a negative
    number for its value modulo 2^64. *)
Theorem number_parsers (z : Z) :
  LONG_MIN <= z <= LONG_MAX ->
  let accept lo hi := if (lo <=? z) && (z <=? hi) then Some z else None in
  get_integer (print_d z) 10 = accept INT_MIN INT_MAX /\
  get_s16 (print_d z) 10 = accept (- 0x8000) 0x7FFF /\
  get_s8 (print_d z) 10 = accept (- 0x80) 0x7F /\
  get_unsigned (print_d z) 10 = accept 0 0xFFFFFFFF /\
  get_u32 (print_d z) 10 = accept 0 0xFFFFFFFF /\
  get_u16 (print_d z) 10 = accept 0 0xFFFF /\
  get_u8 (print_d z) 10 = accept 0 0xFF /\
  get_u64 (print_d z) 10 = (if z =? 0xFFFFFFFF then None else Some (z mod 2 ^ 64)).
Proof.
  intros Hz accept. unfold get_integer, get_s16, get_s8, get_unsigned, get_u32, get_u16, get_u8, get_u64.
  rewrite nonempty_print, parse_signed, parse_unsigned by done. unfold accept, LONG_MIN, LONG_MAX, INT_MIN, INT_MAX in *.
  assert (u64 z = if 0 <=? z then z else z + 2 ^ 64) as Eu.
  { destruct (Z.leb_spec 0 z); machine_int. }
  rewrite Eu. repeat split; range_cases.
Qed.

Lemma number_parsers_witness :
  get_s8 (print_d (- 128)) 10 = Some (- 128) /\ get_u8 (print_d (- 1)) 10 = None.
Proof.
  destruct (number_parsers (- 128) ltac:(vm_compute; split; congruence)) as (_ & _ & -> & _).
  destruct (number_parsers (- 1) ltac:(vm_compute; split; congruence)) as (_ & _ & _ & _ & _ & _ & -> & _).
  split; reflexivity.
Defined.

(** ** Words and commands *)

Lemma substring_prefix cmd : forall pattern,
  (String.length cmd <= String.length pattern)%nat ->
  substring 0 (String.length cmd) pattern = cmd <-> exists rest, pattern = cmd +:+ rest.
Proof.
  induction cmd as [|c cmd IH]; intros pattern Hl.
  { split; [by exists pattern|]. intros _. by destruct pattern. }
  destruct pattern as [|d pattern]; [cbn in Hl; lia|]. cbn [String.length substring] in *.
  specialize (IH pattern ltac:(lia)). split.
  - intros H. injection H as -> E. apply IH in E as [rest ->]. by exists rest.
  - intros [rest E]. change (String c cmd +:+ rest) with (String c (cmd +:+ rest)) in E.
    injection E as -> E. f_equal. apply IH. by exists rest.
Qed.

(** An abbreviation matches exactly the words it is a prefix of. *)
Lemma matches_prefix cmd pattern :
  matches cmd pattern = true <-> exists rest, pattern = cmd +:+ rest.
Proof.
  unfold matches. destruct (Nat.ltb_spec (String.length pattern) (String.length cmd)) as [Hl|Hl].
  - split; [done|]. intros [rest ->]. rewrite length_append in Hl. lia.
  - rewrite <- (substring_prefix cmd pattern Hl). destruct (String.eqb_spec (substring 0 (String.length cmd) pattern) cmd); done.
Qed.

Lemma read_line_split s : forall l r, read_line s = (l, r) -> s = l +:+ r /\ (s = "" \/ l <> "").
Proof.
  induction s as [|c s IH]; intros l r E; cbn [read_line] in E.
  - injection E as <- <-. split; [done|by left].
  - destruct (Ascii.eqb c "010").
    + injection E as <- <-. split; [done|by right].
    + destruct (read_line s) as [l' r'] eqn:E'. injection E as <- <-.
      destruct (IH _ _ eq_refl) as [-> _]. split; [done|by right].
Qed.

Lemma getline_shorter s l r : getline s = Some (l, r) -> (String.length r < String.length s)%nat.
Proof.
  unfold getline. intros E. assert (s <> "" /\ read_line s = (l, r)) as [Hs E'].
  { destruct s; [done|]. injection E as E. done. }
  clear E. rename E' into E.
  apply read_line_split in E as [E Hl]. rewrite E, length_append. destruct Hl as [?|Hl]; [congruence|].
  destruct l; [done|]. cbn [String.length]. lia.
Qed.

Definition not_hash (c : ascii) : bool := negb (Ascii.eqb c "#").

Lemma cut_at_clean s : all_chars not_hash (cut_at "#" s) = true.
Proof.
  induction s as [|c s IH]; [done|]. cbn [cut_at]. destruct (Ascii.eqb c "#") eqn:E; [done|].
  cbn [all_chars]. unfold not_hash at 1. by rewrite E, IH.
Qed.

Lemma cut_continuation_clean s : forall p,
  all_chars not_hash s = true -> cut_continuation s = Some p -> all_chars not_hash p = true.
Proof.
  induction s as [|c s IH]; intros p Hs E; [done|]. cbn [cut_continuation all_chars] in *.
  apply andb_true_iff in Hs as [Hc Hs]. destruct (_ && _); [by injection E as <-|].
  destruct (cut_continuation s) as [q|]; [|done]. injection E as <-. cbn [all_chars].
  by rewrite Hc, IH.
Qed.

Lemma continue_line_clean fuel : forall line cc stream no,
  all_chars not_hash line = true -> (String.length stream < fuel)%nat ->
  match continue_line fuel line cc stream no with
  | (Some (l, _), _, _) => all_chars not_hash l = true /\ cut_continuation l = None
  | (None, rest, _) => rest = ""
  end.
Proof.
  induction fuel as [|fuel IH]; intros line cc stream no Hl Hf; [lia|]. cbn [continue_line].
  destruct (cut_continuation line) as [cut|] eqn:Ec; [|done].
  destruct (getline stream) as [[line1 rest]|] eqn:Eg.
  - pose proof (getline_shorter _ _ _ Eg). apply IH; [|lia].
    rewrite all_chars_app, cut_at_clean, (cut_continuation_clean line) by done. done.
  - by destruct stream.
Qed.

(** The command reader always ends; a command it returns has no comment and no
    continuation left, and it fails only at the end of the input. *)
Theorem getcmdline_clean (stream : string) (cmdlineno : Z) :
  match getcmdline stream cmdlineno with
  | (Some (line, _), _, _) => all_chars not_hash line = true /\ cut_continuation line = None
  | (None, rest, _) => rest = ""
  end.
Proof.
  unfold getcmdline. destruct (getline stream) as [[line rest]|] eqn:Eg.
  - apply continue_line_clean; [apply cut_at_clean|]. pose proof (getline_shorter _ _ _ Eg). lia.
  - by destruct stream.
Qed.

Example getcmdline_joins :
  getcmdline ("qdisc add \" +:+ String "010" ("dev eth0 # the uplink" +:+ String "010" "next")) 0 =
  (Some ("qdisc add dev eth0 ", 32), "next", 2).
Proof. reflexivity. Qed.

Definition word (s : string) : Prop := s <> "" /\ all_chars (fun c => negb (is_ws c)) s = true.

Lemma tokens_word w : forall acc s,
  all_chars (fun c => negb (is_ws c)) w = true -> tokens (w +:+ s) acc = tokens s (acc +:+ w).
Proof.
  induction w as [|c w IH]; intros acc s Hw.
  - by rewrite append_empty.
  - change (String c w +:+ s) with (String c (w +:+ s)). cbn [tokens all_chars] in *.
    apply andb_true_iff in Hw as [Hc Hw]. apply negb_true_iff in Hc. rewrite Hc.
    rewrite IH by done. by rewrite append_assoc.
Qed.

(** The words of a line, each followed by a blank. *)
Definition join (l : list string) : string := foldr (fun w s => w +:+ String " " s) "" l.

Lemma makeargs_join l maxargs :
  Forall word l -> Z.of_nat (List.length l) < maxargs -> makeargs (join l) maxargs = Some l.
Proof.
  intros Hl Hm. unfold makeargs. assert (tokens (join l) "" = l) as ->.
  { clear Hm. induction Hl as [|w l [Hne Hw] Hl IH]; [done|]. cbn [join foldr].
    rewrite tokens_word by done. cbn [tokens]. change (is_ws " ") with true. cbv iota.
    change ("" +:+ w) with w. destruct (String.eqb_spec w ""); [done|]. fold (join l). by rewrite IH. }
  by rewrite (proj2 (Z.leb_le _ _)) by lia.
Qed.

(** ** Hexadecimal strings *)

(** A property of the 256 bytes, checked one by one. *)
Lemma all_bytes (P : Z -> Prop) :
  List.Forall P (map Z.of_nat (List.seq 0 256)) -> forall b, 0 <= b < 256 -> P b.
Proof.
  rewrite List.Forall_forall. intros HP b Hb. apply HP, in_map_iff.
  exists (Z.to_nat b). split; [lia|]. apply in_seq. lia.
Qed.

Lemma all_bytes_b (f : Z -> bool) :
  forallb f (map Z.of_nat (List.seq 0 256)) = true -> forall b, 0 <= b < 256 -> f b = true.
Proof. intros H. apply all_bytes. by apply List.Forall_forall, forallb_forall. Qed.

Lemma hex_group_byte b : 0 <= b < 256 -> forall rest, hex_group (print_02x b +:+ rest) 0 = hex_group rest b.
Proof.
  revert b. apply (all_bytes (fun b => forall rest, hex_group (print_02x b +:+ rest) 0 = hex_group rest b)).
  repeat constructor.
Qed.

Lemma hex_groups_byte fuel b rest blen :
  0 <= b < 256 -> (0 < blen)%nat ->
  hex_groups (S fuel) (print_02x b) blen = Some (b :: replicate (blen - 1) 0) /\
  hex_groups (S fuel) (print_02x b +:+ String ":" rest) blen =
    match hex_groups fuel rest (blen - 1) with Some l => Some (b :: l) | None => None end.
Proof.
  intros Hb Hl. cbn [hex_groups]. rewrite <- (append_empty (print_02x b)) at 1.
  rewrite !hex_group_byte by done. cbn [hex_group]. change (Ascii.eqb ":" ":") with true. cbv iota.
  rewrite (proj2 (Z.ltb_ge 255 b)) by lia. destruct blen as [|n]; [lia|].
  cbn [Nat.sub]. by rewrite Nat.sub_0_r.
Qed.

Lemma hexstring_text l : forall blen,
  l <> [] -> Forall (fun b => 0 <= b < 256) l -> 3 * Z.of_nat (List.length l) <= blen ->
  exists text, hexstring_n2a l blen = (text, true) /\ (List.length l <= String.length text)%nat /\
    forall fuel n, (List.length l <= n)%nat -> (List.length l <= fuel)%nat ->
      hex_groups fuel text n = Some (l ++ replicate (n - List.length l) 0)%list.
Proof.
  assert (forall b, 0 <= b < 256 -> (1 <= String.length (print_02x b))%nat) as Hp.
  { intros b Hb. apply Nat.leb_le. revert b Hb. by apply all_bytes_b; vm_compute. }
  induction l as [|b l IH]; intros blen Hne Hl Hb; [done|]. cbn [hexstring_n2a List.length] in *.
  apply Forall_cons in Hl as [Hb0 Hl]. rewrite (proj2 (Z.ltb_ge blen 3)) by lia.
  destruct l as [|b' l].
  - exists (print_02x b). split; [done|]. split; [by apply Hp|]. intros fuel n Hn Hf.
    destruct fuel as [|fuel]; [cbn in Hf; lia|].
    by destruct (hex_groups_byte fuel b "" n Hb0 ltac:(cbn in Hn; lia)) as [-> _].
  - cbn [List.length] in Hb. rewrite (proj2 (Z.ltb_lt 1 (blen - 2))) by lia.
    destruct (IH (blen - 2 - 1) ltac:(done) Hl ltac:(cbn [List.length]; lia)) as (text & -> & Ht & IHt).
    exists (print_02x b +:+ String ":" text). split; [done|]. split.
    { rewrite length_append. cbn [String.length List.length] in *. specialize (Hp b Hb0). lia. }
    intros fuel n Hn Hf. destruct fuel as [|fuel]; [lia|].
    destruct (hex_groups_byte fuel b text n Hb0 ltac:(lia)) as [_ ->].
    rewrite IHt by (cbn [List.length] in *; lia). cbn [List.length app].
    by replace (n - S (S (List.length l)))%nat with (n - 1 - S (List.length l))%nat by lia.
Qed.

(** What [hexstring_n2a] prints into a buffer of at least three characters per
    byte is a terminated string that [hexstring_a2n] reads back as the same bytes,
    the rest of its buffer cleared. *)
Theorem hexstring_roundtrip (l : list Z) (blen : Z) (n : nat) :
  l <> [] -> Forall (fun b => 0 <= b < 256) l -> 3 * Z.of_nat (List.length l) <= blen ->
  (List.length l <= n)%nat ->
  (hexstring_n2a l blen).2 = true /\
  hexstring_a2n (hexstring_n2a l blen).1 n = Some (l ++ replicate (n - List.length l) 0)%list.
Proof.
  intros Hne Hl Hb Hn. destruct (hexstring_text l blen Hne Hl Hb) as (text & -> & Ht & H).
  split; [done|]. cbn [fst]. unfold hexstring_a2n. apply H; [done|lia].
Qed.

Lemma hexstring_roundtrip_witness :
  (hexstring_n2a [0; 22; 62; 171; 255] 15).2 = true /\
  hexstring_a2n (hexstring_n2a [0; 22; 62; 171; 255] 15).1 6 = Some [0; 22; 62; 171; 255; 0].
Proof. apply (hexstring_roundtrip [0; 22; 62; 171; 255] 15 6); [done|repeat constructor; done|cbn; lia|cbn; lia]. Defined.

(** With less room the colon can be the last character written, without a NUL. *)
Example hexstring_unterminated : hexstring_n2a [170; 187] 5 = ("aa:", false).
Proof. reflexivity. Qed.

(** ** What the unsigned parsers can give *)

Ltac unsigned_range f :=
  unfold f; match goal with |- context [String.eqb ?a ""] => destruct (String.eqb a "") end; [done|];
  match goal with |- context [strtoul ?a ?b] => destruct (strtoul a b) as [[? [|]]|]; try done end;
  match goal with |- context [?b <? ?z] => destruct (b <? z) end; [done|]; intros [= <-]; by apply Z.mod_pos_bound.

Lemma get_u8_range arg base z : get_u8 arg base = Some z -> 0 <= z < 2 ^ 8.
Proof. unsigned_range get_u8. Qed.

Lemma get_u16_range arg base z : get_u16 arg base = Some z -> 0 <= z < 2 ^ 16.
Proof. unsigned_range get_u16. Qed.

Lemma get_u32_range arg base z : get_u32 arg base = Some z -> 0 <= z < 2 ^ 32.
Proof. unsigned_range get_u32. Qed.

Lemma get_unsigned_range arg base z : get_unsigned arg base = Some z -> 0 <= z < 2 ^ 32.
Proof. unsigned_range get_unsigned. Qed.
