(* ===== verification/Addr.v ===== *)
(** * Addresses and prefixes (iproute2-3.1.0/lib/utils.c, dnet_pton.c, dnet_ntop.c)

    The data of an address is its 32 bytes; a word of it is read in the byte order
    of the host, little-endian.  The C library's IPv6 parser is a parameter. *)

From S2P Require Export Utils.

#[local] Open Scope list_scope.

Inductive family := AF_UNSPEC | AF_INET | AF_INET6 | AF_DECnet | AF_PACKET | AF_IPX.

#[export] Instance family_eq_dec : EqDecision family.
Proof. solve_decision. Defined.

Definition family_is (a b : family) : bool := bool_decide (a = b).

#[local] Set Primitive Projections.

(** [iproute2-3.1.0/include/utils.h:44-51 inet_prefix] *)
Record inet_prefix := mk_prefix {
  pf_family : family;
  bytelen : Z;
  bitlen : Z;
  pf_flags : Z;
  data : list Z
}.

#[local] Unset Primitive Projections.

Definition zero_prefix : inet_prefix := mk_prefix AF_UNSPEC 0 0 0 (replicate 32 0).

Definition PREFIXLEN_SPECIFIED : Z := 1.

(** [ntohl] and [htonl] of a little-endian host. *)
Definition ntohl (w : Z) : Z :=
  w mod 2 ^ 8 * 2 ^ 24 + w / 2 ^ 8 mod 2 ^ 8 * 2 ^ 16 + w / 2 ^ 16 mod 2 ^ 8 * 2 ^ 8 + w / 2 ^ 24 mod 2 ^ 8.

(** Word [i] of the data. *)
Definition data_word (d : list Z) (i : nat) : Z :=
  d !!! (4 * i)%nat + 2 ^ 8 * d !!! (4 * i + 1)%nat + 2 ^ 16 * d !!! (4 * i + 2)%nat +
  2 ^ 24 * d !!! (4 * i + 3)%nat.

(** The first [length b] bytes replaced. *)
Definition store_bytes (b d : list Z) : list Z := b ++ drop (List.length b) d.

(** ** Netmasks *)

(** [for (; mask; mask <<= 1) ++bits]: 32 rounds empty a word. *)
Fixpoint count_mask (fuel : nat) (mask bits : Z) : Z :=
  match fuel with
  | O => bits
  | S fuel => if mask =? 0 then bits else count_mask fuel (u32 (Z.shiftl mask 1)) (u32 (bits + 1))
  end.

(** [iproute2-3.1.0/lib/utils.c:46-59 mask2bits] *)
Definition mask2bits (netmask : Z) : Z :=
  let mask := ntohl netmask in
  let host := u32 (Z.lnot mask) in
  if negb (Z.land host (u32 (host + 1)) =? 0) then - 1 else count_mask 32 mask 0.

(** ** IPv4 *)

(** [i] counts the bytes stored; the result lists them.
    [iproute2-3.1.0/lib/utils.c:232-258 get_addr_ipv4] *)
Fixpoint get_addr_ipv4 (more : nat) (cp : string) : option (list Z) :=
  match more with
  | O => None
  | S more =>
      match strtoul cp 0 with
      | None => None
      | Some (n, endp) =>
          if 255 <? n then None
          else
            match endp with
            | "" => Some [n]
            | String c rest =>
                if (more =? 0)%nat || negb (Ascii.eqb c ".") then None
                else match get_addr_ipv4 more rest with
                     | Some l => Some (n :: l)
                     | None => None
                     end
            end
      end
  end.

(** ** DECnet *)

(** The digits at the front: how many, and their value in 16 bits.
    [iproute2-3.1.0/lib/dnet_pton.c:20-37 dnet_num] *)
Fixpoint dnet_num (src : string) (rv dst : Z) : Z * Z :=
  match src with
  | "" => (rv, dst)
  | String c src =>
      let tmp := code c - 48 in
      if (tmp <? 0) || (9 <? tmp) then (rv, dst)
      else dnet_num src (rv + 1) (u16 (u16 (dst * 10) + tmp))
  end.

(** The two bytes of the address, low byte first ([dn_htons] is the identity on a
    little-endian host).  [iproute2-3.1.0/lib/dnet_pton.c:39-57 dnet_pton1] *)
Definition dnet_pton1 (src : string) : option (list Z) :=
  let '(pos, area) := dnet_num src 0 0 in
  if (pos =? 0) || (63 <? area) then None
  else
    match drop_chars (Z.to_nat pos) src with
    | String c rest =>
        if negb (Ascii.eqb c ".") then None
        else
          let '(pos, node) := dnet_num rest 0 0 in
          if (pos =? 0) || (1023 <? node) then None
          else
            let addr := Z.lor (u16 (Z.shiftl area 10)) node in
            Some [addr mod 2 ^ 8; addr / 2 ^ 8]
    | "" => None
    end.

(** [iproute2-3.1.0/lib/dnet_pton.c:59-74 dnet_pton] *)
Definition dnet_pton (af : family) (src : string) : option (list Z) :=
  if family_is af AF_DECnet then dnet_pton1 src else None.

(** The state of the digits: what is left of the number, the text, [started] and
    the room left; a result with [true] ends the conversion.
    [iproute2-3.1.0/lib/dnet_ntop.c:19-34 do_digit] *)
Definition do_digit (addr scale : Z) (str : string) (room : Z) (started : bool) :
    bool * Z * string * Z * bool :=
  let tmp := addr / scale in
  if room =? 0 then (true, addr, str, room, started)
  else if (0 <? tmp) || started || (scale =? 1)
  then (false, u16 (addr - tmp * scale), str +:+ String (char_of (tmp + 48)) "", room - 1, true)
  else (false, addr, str, room, started).

(** The digits of the scales in order. *)
Fixpoint do_digits (scales : list Z) (addr : Z) (str : string) (room : Z) (started : bool) :
    bool * string * Z :=
  match scales with
  | [] => (false, str, room)
  | scale :: scales =>
      let '(full, addr, str, room, started) := do_digit addr scale str room started in
      if full then (true, str, room) else do_digits scales addr str room started
  end.

(** [a_len] is 2, the only value the callers give; the text is what is stored
    before the NUL, or in the whole buffer when it is full.
    [iproute2-3.1.0/lib/dnet_ntop.c:37-86 dnet_ntop1] *)
Definition dnet_ntop1 (a_addr : list Z) (len : Z) : string :=
  let addr := a_addr !!! 0%nat + 2 ^ 8 * a_addr !!! 1%nat in
  let area := Z.shiftr addr 10 in
  let addr := Z.land addr 0x03ff in
  if len =? 0 then ""
  else
    let '(full, str, room) := do_digits [10; 1] area "" len false in
    if full || (room =? 0) then str
    else
      let '(_, str, _) := do_digits [1000; 100; 10; 1] addr (str +:+ ".") (room - 1) false in str.

(** [iproute2-3.1.0/lib/dnet_ntop.c:89-100 dnet_ntop] *)
Definition dnet_ntop (af : family) (addr : list Z) (len : Z) : option string :=
  if family_is af AF_DECnet then Some (dnet_ntop1 addr len) else None.

(** ** Addresses of any family *)

Section Families.

(** The C library's [inet_pton(AF_INET6, ..)]: 16 bytes. *)
Context (inet_pton6 : string -> option (list Z)).

Definition any_name (name : string) : bool :=
  String.eqb name "default" || String.eqb name "all" || String.eqb name "any".

(** [iproute2-3.1.0/lib/utils.c:260-307 get_addr_1] *)
Definition get_addr_1 (name : string) (fam : family) : option inet_prefix :=
  let addr := zero_prefix in
  if any_name name then
    if family_is fam AF_DECnet then None
    else
      Some (addr <| pf_family := fam |> <| bytelen := if family_is fam AF_INET6 then 16 else 4 |>
                 <| bitlen := - 1 |>)
  else if contains ":" name then
    if negb (family_is fam AF_UNSPEC) && negb (family_is fam AF_INET6) then None
    else match inet_pton6 name with
         | None => None
         | Some b =>
             Some (addr <| pf_family := AF_INET6 |> <| data := store_bytes b (data addr) |>
                        <| bytelen := 16 |> <| bitlen := - 1 |>)
         end
  else if family_is fam AF_DECnet then
    match dnet_pton AF_DECnet name with
    | None => None
    | Some b =>
        Some (addr <| pf_family := AF_DECnet |> <| data := store_bytes b (data addr) |>
                   <| bytelen := 2 |> <| bitlen := - 1 |>)
    end
  else if negb (family_is fam AF_UNSPEC) && negb (family_is fam AF_INET) then None
  else match get_addr_ipv4 4 name with
       | None => None
       | Some b =>
           Some (addr <| pf_family := AF_INET |> <| data := store_bytes b (data addr) |>
                      <| bytelen := 4 |> <| bitlen := - 1 |>)
       end.

(** [iproute2-3.1.0/lib/utils.c:61-79 get_netmask] *)
Definition get_netmask (arg : string) (base : Z) : option Z :=
  match get_unsigned arg base with
  | Some v => Some v
  | None =>
      match get_addr_1 arg AF_INET with
      | Some addr =>
          if family_is (pf_family addr) AF_INET then
            let b := mask2bits (data_word (data addr) 0) in
            if 0 <=? b then Some b else None
          else None
      | None => None
      end
  end.

(** What follows the first [c], if there is one. *)
Fixpoint after (c : ascii) (s : string) : option string :=
  match s with
  | "" => None
  | String d s => if Ascii.eqb d c then Some s else after c s
  end.

(** The argument is cut at the slash and restored.
    [iproute2-3.1.0/lib/utils.c:309-359 get_prefix_1] *)
Definition get_prefix_1 (arg : string) (fam : family) : option inet_prefix :=
  let dst := zero_prefix in
  if any_name arg then
    if family_is fam AF_DECnet then None
    else Some (dst <| pf_family := fam |> <| bytelen := 0 |> <| bitlen := 0 |>)
  else
    let slash := after "/" arg in
    match get_addr_1 (cut_at "/" arg) fam with
    | None => None
    | Some dst =>
        let dst := dst <| bitlen := match pf_family dst with
                                    | AF_INET6 => 128
                                    | AF_DECnet => 16
                                    | _ => 32
                                    end |> in
        match slash with
        | None => Some dst
        | Some mask =>
            match get_netmask mask 0 with
            | None => None
            | Some plen =>
                if u32 (bitlen dst) <? plen then None
                else
                  Some (dst <| pf_flags := Z.lor (pf_flags dst) PREFIXLEN_SPECIFIED |>
                            <| bitlen := s16 plen |>)
            end
        end
    end.

(** The program ends with status 1 on an error: [inl].
    [iproute2-3.1.0/lib/utils.c:361-372 get_addr] *)
Definition get_addr (arg : string) (fam : family) : Z + inet_prefix :=
  if family_is fam AF_PACKET then inl 1
  else match get_addr_1 arg fam with None => inl 1 | Some dst => inr dst end.

(** [iproute2-3.1.0/lib/utils.c:374-385 get_prefix] *)
Definition get_prefix (arg : string) (fam : family) : Z + inet_prefix :=
  if family_is fam AF_PACKET then inl 1
  else match get_prefix_1 arg fam with None => inl 1 | Some dst => inr dst end.

(** [iproute2-3.1.0/lib/utils.c:387-395 get_addr32] *)
Definition get_addr32 (name : string) : Z + Z :=
  match get_addr_1 name AF_INET with None => inl 1 | Some addr => inr (data_word (data addr) 0) end.

End Families.

(** 0 when the first [bits] bits agree, 1 when they differ in the last, partial
    word, -1 in the words before.
    [iproute2-3.1.0/lib/utils.c:435-461 inet_addr_match] *)
Definition inet_addr_match (a b : inet_prefix) (bits : Z) : Z :=
  let words := Z.to_nat (Z.shiftr bits 5) in
  let bits := Z.land bits 0x1f in
  if negb (bool_decide (take (4 * words) (data a) = take (4 * words) (data b))) then - 1
  else if negb (bits =? 0) &&
    (let mask := ntohl (u32 (Z.shiftl 0xffffffff (0x20 - bits))) in
     negb (Z.land (Z.lxor (data_word (data a) words) (data_word (data b) words)) mask =? 0))
  then 1
  else 0.

(** ** Netmasks *)

Lemma land_succ_pow2 : forall n h, 0 <= h -> (Z.to_nat h <= n)%nat -> Z.land h (h + 1) = 0 ->
  exists k, 0 <= k /\ h = 2 ^ k - 1.
Proof.
  induction n as [|n IH]; intros h Hh Hn E.
  { exists 0. split; [lia|]. assert (h = 0) as -> by lia. done. }
  destruct (Z.Even_or_Odd h) as [[q ->]|[q ->]].
  - assert (Z.land (2 * q) (2 * q + 1) = 2 * q) as E'.
    { apply Z.bits_inj'. intros i Hi. rewrite Z.land_spec.
      destruct (decide (i = 0)) as [->|].
      - by rewrite Z.testbit_even_0.
      - replace i with (Z.succ (i - 1)) by lia.
        rewrite Z.testbit_even_succ, Z.testbit_odd_succ by lia. apply andb_diag. }
    rewrite E in E'. exists 0. split; [lia|]. rewrite <- E'. done.
  - replace (2 * q + 1 + 1) with (2 * (q + 1)) in E by lia.
    assert (Z.land q (q + 1) = 0) as E'.
    { apply Z.bits_inj'. intros i Hi. rewrite Z.land_spec, Z.bits_0.
      assert (Z.testbit (Z.land (2 * q + 1) (2 * (q + 1))) (Z.succ i) = false) as Hb by (by rewrite E, Z.bits_0).
      rewrite Z.land_spec, Z.testbit_odd_succ, Z.testbit_even_succ in Hb by done. done. }
    destruct (IH q ltac:(lia) ltac:(lia) E') as (k & Hk & ->).
    exists (k + 1). split; [lia|]. rewrite Z.pow_add_r by lia. lia.
Qed.

Lemma ntohl_range w : 0 <= ntohl w < 2 ^ 32.
Proof. unfold ntohl. Z.div_mod_to_equations. lia. Qed.

Lemma ntohl_invol w : 0 <= w < 2 ^ 32 -> ntohl (ntohl w) = w.
Proof.
  intros Hw. assert (exists a b c d, 0 <= a < 256 /\ 0 <= b < 256 /\ 0 <= c < 256 /\ 0 <= d < 256 /\
    w = a + 2 ^ 8 * b + 2 ^ 16 * c + 2 ^ 24 * d) as (a & b & c & d & Ha & Hb & Hc & Hd & ->).
  { exists (w mod 2 ^ 8), (w / 2 ^ 8 mod 2 ^ 8), (w / 2 ^ 16 mod 2 ^ 8), (w / 2 ^ 24).
    Z.div_mod_to_equations. lia. }
  assert (forall a b c d, 0 <= a < 256 -> 0 <= b < 256 -> 0 <= c < 256 -> 0 <= d < 256 ->
    ntohl (a + 2 ^ 8 * b + 2 ^ 16 * c + 2 ^ 24 * d) = d + 2 ^ 8 * c + 2 ^ 16 * b + 2 ^ 24 * a) as H.
  { clear. intros a b c d Ha Hb Hc Hd. unfold ntohl.
    assert ((a + 2 ^ 8 * b + 2 ^ 16 * c + 2 ^ 24 * d) mod 2 ^ 8 = a) as -> by (Z.div_mod_to_equations; lia).
    assert ((a + 2 ^ 8 * b + 2 ^ 16 * c + 2 ^ 24 * d) / 2 ^ 8 mod 2 ^ 8 = b) as -> by (Z.div_mod_to_equations; lia).
    assert ((a + 2 ^ 8 * b + 2 ^ 16 * c + 2 ^ 24 * d) / 2 ^ 16 mod 2 ^ 8 = c) as -> by (Z.div_mod_to_equations; lia).
    assert ((a + 2 ^ 8 * b + 2 ^ 16 * c + 2 ^ 24 * d) / 2 ^ 24 mod 2 ^ 8 = d) as -> by (Z.div_mod_to_equations; lia).
    lia. }
  by rewrite !H.
Qed.

(** The network order of the netmask of [n] bits. *)
Definition netmask (n : Z) : Z := ntohl (2 ^ 32 - 2 ^ (32 - n)).

(** A property of the 33 prefix lengths, checked one by one. *)
Lemma all_lengths (f : Z -> bool) :
  forallb f (map Z.of_nat (List.seq 0 33)) = true -> forall n, 0 <= n <= 32 -> f n = true.
Proof.
  rewrite forallb_forall. intros H n Hn. apply H, in_map_iff. exists (Z.to_nat n).
  split; [lia|]. apply in_seq. lia.
Qed.

Lemma mask2bits_netmask n : 0 <= n <= 32 -> mask2bits (netmask n) = n.
Proof.
  intros Hn. apply Z.eqb_eq. revert n Hn. by apply (all_lengths (fun n => mask2bits (netmask n) =? n)); vm_compute.
Qed.

(** [mask2bits] accepts exactly the words that are netmasks in network byte
    order, and gives their number of leading ones: it inverts [netmask]. *)
Theorem mask2bits_exact (w : Z) :
  0 <= w < 2 ^ 32 ->
  (mask2bits w = - 1 /\ forall n, 0 <= n <= 32 -> w <> netmask n) \/
  (0 <= mask2bits w <= 32 /\ w = netmask (mask2bits w)).
Proof.
  intros Hw. pose proof (ntohl_range w) as Hm.
  assert (u32 (Z.lnot (ntohl w)) = 2 ^ 32 - 1 - ntohl w) as Eh by (unfold Z.lnot; machine_int).
  destruct (Z.eqb_spec (Z.land (2 ^ 32 - 1 - ntohl w) (u32 (2 ^ 32 - 1 - ntohl w + 1))) 0) as [E|E].
  - right. assert (exists k, 0 <= k <= 32 /\ 2 ^ 32 - 1 - ntohl w = 2 ^ k - 1) as (k & Hk & Ek).
    { destruct (decide (ntohl w = 0)) as [->|Hne]; [by exists 32|].
      rewrite u32_small in E by lia.
      destruct (land_succ_pow2 _ (2 ^ 32 - 1 - ntohl w) ltac:(lia) (Nat.le_refl _) E) as (k & Hk & Ek).
      exists k. split; [|done]. split; [done|].
      apply Z.lt_succ_r, Z.nle_gt. intros Hge.
      assert (2 ^ Z.succ 32 <= 2 ^ k) by (apply Z.pow_le_mono_r; lia). lia. }
    assert (w = netmask (32 - k)) as ->.
    { rewrite <- (ntohl_invol w Hw). unfold netmask. f_equal. replace (32 - (32 - k)) with k by lia. lia. }
    rewrite mask2bits_netmask by lia. split; [lia|done].
  - left. assert (mask2bits w = - 1) as E1.
    { unfold mask2bits. rewrite Eh. by rewrite (proj2 (Z.eqb_neq _ 0) E). }
    split; [done|]. intros n Hn ->. rewrite mask2bits_netmask in E1 by done. lia.
Qed.

Lemma mask2bits_exact_witness :
  (mask2bits (netmask 20) = - 1 /\ forall n, 0 <= n <= 32 -> netmask 20 <> netmask n) \/
  (0 <= mask2bits (netmask 20) <= 32 /\ netmask 20 = netmask (mask2bits (netmask 20))).
Proof. apply (mask2bits_exact (netmask 20)). vm_compute. split; congruence. Defined.

(** ** Prefixes *)

(** A byte in decimal is read in any base notation: it has no leading zero. *)
Lemma strtoul_byte b :
  0 <= b < 256 -> strtoul (print_u b) 0 = Some (b, "") /\
  forall rest, strtoul (print_u b +:+ String "." rest) 0 = Some (b, String "." rest).
Proof.
  revert b. apply (all_bytes (fun b => strtoul (print_u b) 0 = Some (b, "") /\
    forall rest, strtoul (print_u b +:+ String "." rest) 0 = Some (b, String "." rest))).
  repeat (constructor; [split; [vm_compute; reflexivity|intros rest; reflexivity]|]). constructor.
Qed.

Lemma cut_at_app c s t :
  all_chars (fun d => negb (Ascii.eqb d c)) s = true ->
  cut_at c (s +:+ String c t) = s /\ after c (s +:+ String c t) = Some t.
Proof.
  induction s as [|d s IH]; intros Hs.
  - change ("" +:+ String c t) with (String c t). cbn [cut_at after]. by rewrite Ascii.eqb_refl.
  - change (String d s +:+ String c t) with (String d (s +:+ String c t)). cbn [cut_at after all_chars] in *.
    apply andb_true_iff in Hs as [Hd Hs]. apply negb_true_iff in Hd. rewrite Hd.
    by destruct (IH Hs) as [-> ->].
Qed.

(** The dotted notation of four bytes. *)
Definition quad (a b c d : Z) : string :=
  print_u a +:+ String "." (print_u b +:+ String "." (print_u c +:+ String "." (print_u d))).

Lemma byte_text (P : ascii -> bool) b :
  forallb (fun d => P (digit_char d)) (map Z.of_nat (List.seq 0 10)) = true -> 0 <= b ->
  all_chars P (print_u b) = true.
Proof.
  rewrite forallb_forall. intros HP Hb. apply print_base_chars; [lia|done|]. intros d Hd.
  apply HP, in_map_iff. exists (Z.to_nat d). split; [lia|]. apply in_seq. lia.
Qed.

Lemma quad_chars (P : ascii -> bool) a b c d :
  forallb (fun d => P (digit_char d)) (map Z.of_nat (List.seq 0 10)) = true -> P "."%char = true ->
  0 <= a -> 0 <= b -> 0 <= c -> 0 <= d -> all_chars P (quad a b c d) = true.
Proof.
  intros HP Hd Ha Hb Hc Hdd. unfold quad.
  repeat (rewrite all_chars_app, byte_text by done; cbn [all_chars andb]; rewrite Hd; cbn [andb]).
  by apply byte_text.
Qed.

Lemma all_chars_head P s : all_chars P s = true -> match s with String c _ => P c = true | "" => True end.
Proof. destruct s; [done|]. cbn [all_chars]. intros H. by apply andb_true_iff in H as [-> _]. Qed.

Lemma any_name_false s : (forall c t, s = String c t -> code c <= 57) -> any_name s = false.
Proof.
  intros H. unfold any_name.
  destruct (String.eqb_spec s "default") as [->|]; [specialize (H _ _ eq_refl); by vm_compute in H|].
  destruct (String.eqb_spec s "all") as [->|]; [specialize (H _ _ eq_refl); by vm_compute in H|].
  destruct (String.eqb_spec s "any") as [->|]; [specialize (H _ _ eq_refl); by vm_compute in H|]. done.
Qed.

Lemma get_addr_ipv4_quad a b c d :
  0 <= a < 256 -> 0 <= b < 256 -> 0 <= c < 256 -> 0 <= d < 256 ->
  get_addr_ipv4 4 (quad a b c d) = Some [a; b; c; d].
Proof.
  intros Ha Hb Hc Hd. unfold quad. cbn [get_addr_ipv4].
  destruct (strtoul_byte a Ha) as [_ ->]. rewrite (proj2 (Z.ltb_ge 255 a)) by lia.
  change ((3 =? 0)%nat || negb (Ascii.eqb "." ".")) with false. cbv iota.
  destruct (strtoul_byte b Hb) as [_ ->]. rewrite (proj2 (Z.ltb_ge 255 b)) by lia.
  change ((2 =? 0)%nat || negb (Ascii.eqb "." ".")) with false. cbv iota.
  destruct (strtoul_byte c Hc) as [_ ->]. rewrite (proj2 (Z.ltb_ge 255 c)) by lia.
  change ((1 =? 0)%nat || negb (Ascii.eqb "." ".")) with false. cbv iota.
  destruct (strtoul_byte d Hd) as [-> _]. by rewrite (proj2 (Z.ltb_ge 255 d)) by lia.
Qed.

Lemma quad_head a b c d t :
  0 <= a < 256 -> 0 <= b -> 0 <= c -> 0 <= d -> any_name (quad a b c d +:+ t) = false.
Proof.
  intros Ha Hb Hc Hd. apply any_name_false. intros ch u E.
  assert (all_chars (fun c => code c <=? 57) (quad a b c d) = true) as H
    by (apply quad_chars; try lia; by vm_compute).
  destruct (quad a b c d) as [|c' s'] eqn:Eq.
  - exfalso. unfold quad in Eq. apply (f_equal String.length) in Eq. rewrite length_append in Eq.
    cbn [String.length] in Eq. lia.
  - apply all_chars_head in H. change (String c' s' +:+ t) with (String c' (s' +:+ t)) in E.
    injection E as -> _. by apply Z.leb_le.
Qed.

Section Prefix.
Context (inet_pton6 : string -> option (list Z)).

Lemma get_addr_1_quad a b c d fam :
  0 <= a < 256 -> 0 <= b < 256 -> 0 <= c < 256 -> 0 <= d < 256 -> fam = AF_UNSPEC \/ fam = AF_INET ->
  get_addr_1 inet_pton6 (quad a b c d) fam =
    Some (mk_prefix AF_INET 4 (- 1) 0 ([a; b; c; d] ++ replicate 28 0)).
Proof.
  intros Ha Hb Hc Hd Hf. unfold get_addr_1.
  rewrite <- (append_empty (quad a b c d)) at 1. rewrite quad_head by lia.
  assert (contains ":" (quad a b c d) = false) as ->.
  { unfold contains. rewrite quad_chars; try lia; by vm_compute. }
  rewrite get_addr_ipv4_quad by done. by destruct Hf as [->| ->].
Qed.

(** An IPv4 prefix in the usual notation is parsed to its bytes and its
    length, marked as given. *)
Theorem get_prefix_ipv4 (a b c d n : Z) (fam : family) :
  0 <= a < 256 -> 0 <= b < 256 -> 0 <= c < 256 -> 0 <= d < 256 -> 0 <= n <= 32 ->
  fam = AF_UNSPEC \/ fam = AF_INET ->
  get_prefix_1 inet_pton6 (quad a b c d +:+ String "/" (print_u n)) fam =
    Some (mk_prefix AF_INET 4 n PREFIXLEN_SPECIFIED ([a; b; c; d] ++ replicate 28 0)).
Proof.
  intros Ha Hb Hc Hd Hn Hf. unfold get_prefix_1. rewrite quad_head by lia.
  destruct (cut_at_app "/" (quad a b c d) (print_u n)) as [-> ->].
  { apply quad_chars; try lia; by vm_compute. }
  rewrite get_addr_1_quad by done. cbn [pf_family].
  assert (get_netmask inet_pton6 (print_u n) 0 = Some n) as ->.
  { unfold get_netmask, get_unsigned.
    assert (String.eqb (print_u n) "" = false) as ->.
    { rewrite <- print_d_u by lia. apply nonempty_print. unfold LONG_MIN, LONG_MAX. lia. }
    destruct (strtoul_byte n ltac:(lia)) as [-> _].
    rewrite (proj2 (Z.ltb_ge _ n)) by lia. by rewrite u32_small by lia. }
  change (u32 (bitlen _)) with 32. rewrite (proj2 (Z.ltb_ge 32 n)) by lia.
  assert (s16 n = n) as E by machine_int.
  unfold PREFIXLEN_SPECIFIED. cbv beta iota zeta. unfold set_field. cbn. by rewrite E.
Qed.

End Prefix.

Lemma get_prefix_ipv4_witness :
  get_prefix_1 (fun _ => None) (quad 192 168 0 1 +:+ String "/" (print_u 24)) AF_UNSPEC =
    Some (mk_prefix AF_INET 4 24 PREFIXLEN_SPECIFIED ([192; 168; 0; 1] ++ replicate 28 0)).
Proof. apply (get_prefix_ipv4 (fun _ => None) 192 168 0 1 24 AF_UNSPEC); lia || by left. Defined.

(** ** DECnet *)

(** The largest address, and one in a buffer too small for it. *)
Example dnet_largest : dnet_ntop1 [255; 255] 64 = "63.1023" /\ dnet_pton1 "63.1023" = Some [255; 255].
Proof. split; reflexivity. Qed.

Example dnet_truncated : dnet_ntop1 [255; 255] 4 = "63.1".
Proof. reflexivity. Qed.
