(* ===== verification/Ipx.v ===== *)
(** * IPX addresses (lib/ipx_pton.c, ipx_ntop.c)

    A network of 32 bits in network order and a node of six bytes, as text and back.
    What is printed is not read: see [ipx_print_refused]. *)

From S2P Require Export Addr.

#[local] Open Scope list_scope.

Module Ipx.
#[local] Set Primitive Projections.

(** [iproute2-3.1.0/include/utils.h:68-71 ipx_addr] *)
Record ipx_addr := mk_ipx { ipx_net : Z; ipx_node : list Z }.

#[local] Unset Primitive Projections.

(** ** Reading *)

(** [iproute2-3.1.0/lib/ipx_pton.c:8-18 hexget] *)
Definition hexget (c : ascii) : Z :=
  let z := code c in
  if (65 <=? z) && (z <=? 70) then z - 65 + 10
  else if (97 <=? z) && (z <=? 102) then z - 97 + 10
  else if (48 <=? z) && (z <=? 57) then z - 48
  else 0xf0.

Definition no_digit (tmp : Z) : bool := negb (Z.land tmp 0xf0 =? 0).

(** [fuel] counts the eight rounds of the loop.  [iproute2-3.1.0/lib/ipx_pton.c:20-43 ipx_getnet] *)
Fixpoint ipx_getnet (fuel : nat) (net : Z) (str : string) : option Z :=
  match str with
  | "" => Some net
  | String c rest =>
      match fuel with
      | O => None
      | S fuel =>
          let tmp := hexget c in
          if no_digit tmp then if Ascii.eqb c "." then Some net else None
          else ipx_getnet fuel (Z.lor (u32 (Z.shiftl net 4)) tmp) rest
      end
  end.

(** The six rounds; the NUL at the end of the text is no digit.
    [iproute2-3.1.0/lib/ipx_pton.c:45-63 ipx_getnode] *)
Fixpoint ipx_getnode (rounds : nat) (str : string) : option (list Z) :=
  match rounds with
  | O => Some []
  | S rounds =>
      match str with
      | String h (String l rest) =>
          if no_digit (hexget h) || no_digit (hexget l) then None
          else
            let byte := Z.lor (u8 (Z.shiftl (hexget h) 4)) (hexget l) in
            let rest := match rest with String c t => if Ascii.eqb c ":" then t else rest | "" => "" end in
            match ipx_getnode rounds rest with Some node => Some (byte :: node) | None => None end
      | _ => None
      end
  end.

(** [None] is the result 0.  [iproute2-3.1.0/lib/ipx_pton.c:65-90 ipx_pton1] *)
Definition ipx_pton1 (src : string) : option ipx_addr :=
  match ipx_getnet 8 0 src with
  | None => None
  | Some net =>
      match after "." src with
      | None => Some (mk_ipx (ntohl net) (replicate 6 0))
      | Some sep =>
          match ipx_getnode 6 sep with Some node => Some (mk_ipx (ntohl net) node) | None => None end
      end
  end.

(** The result, 1, 0 or -1, and the address stored with 1.
    [iproute2-3.1.0/lib/ipx_pton.c:92-107 ipx_pton] *)
Definition ipx_pton (af : family) (src : string) : Z * option ipx_addr :=
  if family_is af AF_IPX then match ipx_pton1 src with Some a => (1, Some a) | None => (0, None) end
  else (- 1, None).

(** ** Printing *)

(** The text stored before the terminating NUL, which is missing when the buffer is full;
    [true] ends the conversion.  [iproute2-3.1.0/lib/ipx_ntop.c:7-22 do_digit] *)
Definition put_digit (addr scale : Z) (str : string) (len : Z) : bool * string :=
  let tmp := Z.land (Z.shiftr addr (scale * 4)) 0x0f in
  if Z.of_nat (String.length str) =? len then (true, str)
  else (false, str +:+ String (char_of (if 9 <? tmp then tmp + 65 - 10 else tmp + 48)) "").

(** The digits of the places in order. *)
Fixpoint put_digits (digits : list (Z * Z)) (str : string) (len : Z) : bool * string :=
  match digits with
  | [] => (false, str)
  | (addr, scale) :: digits =>
      let '(full, str) := put_digit addr scale str len in
      if full then (true, str) else put_digits digits str len
  end.

Definition net_places (addr : ipx_addr) : list (Z * Z) :=
  map (fun scale => (ntohl (ipx_net addr), scale)) [7; 6; 5; 4; 3; 2; 1; 0].

Definition node_places (addr : ipx_addr) : list (Z * Z) := flat_map (fun b => [(b, 1); (b, 0)]) (ipx_node addr).

(** [iproute2-3.1.0/lib/ipx_ntop.c:24-55 ipx_ntop1] *)
Definition ipx_ntop1 (addr : ipx_addr) (len : Z) : string :=
  if len =? 0 then ""
  else
    let '(full, str) := put_digits (net_places addr) "" len in
    if full || (Z.of_nat (String.length str) =? len) then str
    else (put_digits (node_places addr) (str +:+ ".") len).2.

(** [iproute2-3.1.0/lib/ipx_ntop.c:58-69 ipx_ntop] *)
Definition ipx_ntop (af : family) (addr : ipx_addr) (len : Z) : option string :=
  if family_is af AF_IPX then Some (ipx_ntop1 addr len) else None.

Example ipx_text : ipx_ntop AF_IPX (mk_ipx (ntohl 0x1A2B) [0; 1; 2; 0xab; 4; 5]) 22 = Some "00001A2B.000102AB0405".
Proof. vm_compute. reflexivity. Qed.

Example ipx_read : ipx_pton AF_IPX "1a2b.000102AB0405" = (1, Some (mk_ipx (ntohl 0x1A2B) [0; 1; 2; 0xab; 4; 5])).
Proof. vm_compute. reflexivity. Qed.

(** ** What is read of what is printed *)

(** The digit printed for 0 to 15. *)
Definition upper_digit (d : Z) : ascii := char_of (if 9 <? d then d + 65 - 10 else d + 48).

Definition digits_text (ds : list Z) : string := foldr (fun d s => String (upper_digit d) s) "" ds.

Definition value (ds : list Z) : Z := fold_left (fun v d => 16 * v + d) ds 0.

Definition nibbles (l : list Z) : list Z := flat_map (fun b => [b / 16; b mod 16]) l.

Lemma hexget_upper d : 0 <= d < 16 -> hexget (upper_digit d) = d.
Proof. revert d. apply all_digits. repeat constructor. Qed.

Lemma digit_is_digit d : 0 <= d < 16 -> no_digit d = false.
Proof. revert d. apply all_digits. repeat constructor. Qed.

Lemma upper_no_dot d : 0 <= d < 16 -> Ascii.eqb (upper_digit d) "." = false /\ Ascii.eqb (upper_digit d) ":" = false.
Proof. revert d. apply all_digits. repeat constructor. Qed.

Lemma digits_text_length ds : String.length (digits_text ds) = List.length ds.
Proof. induction ds as [|d ds IH]; [done|]. cbn [digits_text foldr String.length List.length]. by f_equal. Qed.

Lemma digits_text_app a b : digits_text (a ++ b) = digits_text a +:+ digits_text b.
Proof.
  induction a as [|d a IH]; [done|].
  change (digits_text ((d :: a) ++ b)) with (String (upper_digit d) (digits_text (a ++ b))). by rewrite IH.
Qed.

Lemma put_digits_room ds : forall str len,
  Z.of_nat (String.length str + List.length ds) <= len ->
  put_digits ds str len =
    (false, str +:+ digits_text (map (fun p => Z.land (Z.shiftr p.1 (p.2 * 4)) 0x0f) ds)).
Proof.
  induction ds as [|[a k] ds IH]; intros str len Hl; cbn [put_digits map List.length] in *; [by rewrite append_empty|].
  unfold put_digit. rewrite (proj2 (Z.eqb_neq _ _)) by lia. rewrite IH.
  - rewrite append_assoc. done.
  - rewrite length_append. cbn [String.length]. lia.
Qed.

Lemma push_digit net d : 0 <= d < 16 -> 0 <= net < 2 ^ 28 -> Z.lor (u32 (Z.shiftl net 4)) d = 16 * net + d.
Proof.
  intros Hd Hn. rewrite Z.shiftl_mul_pow2, u32_small by lia. enough (Z.land (net * 2 ^ 4) d = 0) as E0.
  { pose proof (Z.add_lor_land (net * 2 ^ 4) d) as E. rewrite E0, Z.add_0_r in E. rewrite E. lia. }
  apply Z.bits_inj'. intros k Hk. rewrite Z.land_spec, Z.bits_0.
  destruct (Z.ltb_spec k 4) as [H4|H4]; [by rewrite Z.mul_pow2_bits_low by lia|].
  replace d with (d mod 2 ^ 4) by (apply Z.mod_small; lia). rewrite Z.mod_pow2_bits_high by lia. apply andb_false_r.
Qed.

Lemma getnet_dot ds : Forall (fun d => 0 <= d < 16) ds -> forall fuel net rest,
  (List.length ds <= fuel <= 8)%nat -> 0 <= net < 16 ^ (8 - Z.of_nat fuel) ->
  ipx_getnet fuel net (digits_text ds +:+ "." +:+ rest) =
    if (List.length ds <? fuel)%nat then Some (fold_left (fun v d => 16 * v + d) ds net) else None.
Proof.
  induction 1 as [|d ds Hd _ IH]; intros fuel net rest Hf Hn.
  - change (digits_text [] +:+ "." +:+ rest) with (String "." rest). by destruct fuel.
  - cbn [List.length] in *. destruct fuel as [|fuel]; [lia|].
    change (digits_text (d :: ds) +:+ "." +:+ rest) with (String (upper_digit d) (digits_text ds +:+ "." +:+ rest)).
    cbn [ipx_getnet]. rewrite hexget_upper, digit_is_digit by done. cbv zeta iota.
    change (S (List.length ds) <? S fuel)%nat with (List.length ds <? fuel)%nat. cbn [fold_left].
    assert (16 ^ (8 - Z.of_nat (S fuel)) <= 16 ^ 7) as H7 by (apply Z.pow_le_mono_r; lia). change (16 ^ 7) with (2 ^ 28) in H7.
    rewrite push_digit by lia. apply IH; [lia|].
    replace (8 - Z.of_nat fuel) with (1 + (8 - Z.of_nat (S fuel))) by lia. rewrite Z.pow_add_r by lia. lia.
Qed.

Lemma after_dot ds rest : Forall (fun d => 0 <= d < 16) ds -> after "." (digits_text ds +:+ "." +:+ rest) = Some rest.
Proof.
  induction 1 as [|d ds Hd _ IH]; [done|].
  change (digits_text (d :: ds) +:+ "." +:+ rest) with (String (upper_digit d) (digits_text ds +:+ "." +:+ rest)).
  cbn [after]. destruct (upper_no_dot d Hd) as [-> _]. exact IH.
Qed.

Lemma nibbles_range l : Forall (fun b => 0 <= b < 256) l -> Forall (fun d => 0 <= d < 16) (nibbles l).
Proof.
  induction 1 as [|b l Hb _ IH]; [constructor|]. cbn [nibbles flat_map app].
  constructor; [|constructor; [|exact IH]]; Z.div_mod_to_equations; lia.
Qed.

Lemma getnode_digits l : Forall (fun b => 0 <= b < 256) l ->
  ipx_getnode (List.length l) (digits_text (nibbles l)) = Some l.
Proof.
  induction 1 as [|b l Hb Hl IH]; [done|].
  assert (0 <= b / 16 < 16 /\ 0 <= b mod 16 < 16 /\ b = 16 * (b / 16) + b mod 16) as (H1 & H2 & Eb)
    by (Z.div_mod_to_equations; lia).
  change (digits_text (nibbles (b :: l))) with
    (String (upper_digit (b / 16)) (String (upper_digit (b mod 16)) (digits_text (nibbles l)))).
  cbn [List.length ipx_getnode]. rewrite !hexget_upper, !digit_is_digit by done. cbn [orb]. cbv zeta.
  assert (Z.lor (u8 (Z.shiftl (b / 16) 4)) (b mod 16) = b) as ->.
  { pose proof (push_digit (b / 16) (b mod 16) H2 ltac:(lia)) as E. rewrite Z.shiftl_mul_pow2 in * by lia.
    rewrite u32_small in E by lia. unfold u8. rewrite Z.mod_small by lia. lia. }
  assert (match digits_text (nibbles l) with String c t => if Ascii.eqb c ":" then t else digits_text (nibbles l) | "" => "" end =
    digits_text (nibbles l)) as ->; [|by rewrite IH].
  pose proof (nibbles_range l Hl) as Hn. destruct (nibbles l) as [|d ds]; [done|]. apply Forall_cons in Hn as [Hd _].
  change (digits_text (d :: ds)) with (String (upper_digit d) (digits_text ds)). by destruct (upper_no_dot d Hd) as [_ ->].
Qed.

(** A network of at most seven digits before a dot and the node is read; one of eight
    digits is refused, because after the eighth digit the text must end. *)
Theorem ipx_digits ds node :
  Forall (fun d => 0 <= d < 16) ds -> (List.length ds <= 8)%nat ->
  Forall (fun b => 0 <= b < 256) node -> List.length node = 6%nat ->
  ipx_pton AF_IPX (digits_text ds +:+ "." +:+ digits_text (nibbles node)) =
    if (List.length ds <? 8)%nat then (1, Some (mk_ipx (ntohl (value ds)) node)) else (0, None).
Proof.
  intros Hd Hl Hn H6. unfold ipx_pton, ipx_pton1. change (family_is AF_IPX AF_IPX) with true. cbv iota.
  rewrite getnet_dot by (done || lia). fold (value ds). destruct (List.length ds <? 8)%nat; [|done].
  rewrite after_dot by done. by rewrite <- H6, getnode_digits.
Qed.

(** An address is printed with eight digits for its network, so that none is read back. *)
Theorem ipx_print_refused addr len :
  Forall (fun b => 0 <= b < 256) (ipx_node addr) -> List.length (ipx_node addr) = 6%nat -> 22 <= len ->
  exists text, ipx_ntop AF_IPX addr len = Some text /\ ipx_pton AF_IPX text = (0, None).
Proof.
  intros Hn H6 Hlen. unfold ipx_ntop, ipx_ntop1. change (family_is AF_IPX AF_IPX) with true. cbv iota.
  rewrite (proj2 (Z.eqb_neq len 0)) by lia. rewrite put_digits_room by (cbn; lia). cbn [orb].
  set (ds := map (fun p => Z.land (Z.shiftr p.1 (p.2 * 4)) 15) (net_places addr)).
  change ("" +:+ digits_text ds) with (digits_text ds).
  assert (List.length ds = 8%nat) as Hds by done. rewrite digits_text_length, (proj2 (Z.eqb_neq _ _)) by lia.
  assert (List.length (node_places addr) = 12%nat) as H12.
  { unfold node_places. destruct addr as [net node]. cbn in H6 |- *. do 6 (destruct node as [|? node]; [done|]).
    by destruct node. }
  rewrite put_digits_room by (rewrite length_append, digits_text_length, H12; cbn; lia). cbn [snd].
  eexists. split; [reflexivity|]. rewrite append_assoc.
  assert (Forall (fun d => 0 <= d < 16) ds) as Hr.
  { unfold ds. apply Forall_map, Forall_forall. intros p _. cbv beta.
    change 15 with (Z.ones 4). rewrite Z.land_ones by lia. apply Z.mod_pos_bound. lia. }
  unfold ipx_pton, ipx_pton1. change (family_is AF_IPX AF_IPX) with true. cbv iota.
  rewrite getnet_dot by (done || lia). by rewrite Hds.
Qed.
End Ipx.
