(* ===== verification/Netlink.v ===== *)
(** * Netlink attributes (iproute2-3.1.0/lib/libnetlink.c)

    A message is its length field and the memory from its header on, as bytes; a
    pointer into the message is an offset.  Writing beyond the memory cannot be
    expressed: the callers' buffers hold at least [maxlen] bytes, a hypothesis of
    the lemmas. *)

From S2P Require Export Prelude.

(** ** Bytes in memory *)

(** [n] bytes of [z], low byte first. *)
Fixpoint le_bytes (n : nat) (z : Z) : list Z :=
  match n with O => [] | S n => z mod 2 ^ 8 :: le_bytes n (z / 2 ^ 8) end.

Fixpoint of_le_bytes (l : list Z) : Z :=
  match l with [] => 0 | b :: l => b + 2 ^ 8 * of_le_bytes l end.

Definition load_bytes (m : list Z) (off n : Z) : list Z := take (Z.to_nat n) (drop (Z.to_nat off) m).

Definition store_at (off : Z) (b : list Z) (m : list Z) : list Z :=
  take (Z.to_nat off) m ++ b ++ drop (Z.to_nat off + length b) m.

Definition load16 (m : list Z) (off : Z) : Z := of_le_bytes (load_bytes m off 2).

(** ** Messages *)

#[local] Set Primitive Projections.

(** [iproute2-3.1.0/include/linux/netlink.h:38-44 nlmsghdr] *)
Record nlmsghdr := mk_nlmsg { nlmsg_len : Z; mem : list Z }.

#[local] Unset Primitive Projections.

(** [RTA_ALIGN] and [NLMSG_ALIGN].  [iproute2-3.1.0/include/linux/rtnetlink.h:144-145 RTA_ALIGN] *)
Definition RTA_ALIGN (len : Z) : Z := Z.land (len + 3) (Z.lnot 3).

(** [iproute2-3.1.0/include/linux/rtnetlink.h:151-151 RTA_LENGTH] *)
Definition RTA_LENGTH (len : Z) : Z := RTA_ALIGN 4 + len.

Definition NLMSG_TAIL (n : nlmsghdr) : Z := RTA_ALIGN (nlmsg_len n).

(** The fields [rta_len] and [rta_type] of the attribute at an offset. *)
Definition rta_len (m : list Z) (rta : Z) : Z := load16 m rta.
Definition rta_type (m : list Z) (rta : Z) : Z := load16 m (rta + 2).
Definition set_rta_len (rta len : Z) (m : list Z) : list Z := store_at rta (le_bytes 2 len) m.
Definition set_rta_type (rta type : Z) (m : list Z) : list Z := store_at (rta + 2) (le_bytes 2 type) m.

(** [iproute2-3.1.0/include/linux/rtnetlink.h:153-153 RTA_DATA] *)
Definition RTA_DATA (rta : Z) : Z := rta + RTA_LENGTH 0.
(** [iproute2-3.1.0/include/linux/rtnetlink.h:154-154 RTA_PAYLOAD] *)
Definition RTA_PAYLOAD (m : list Z) (rta : Z) : Z := rta_len m rta - RTA_LENGTH 0.

(** ** Building *)

(** Every builder gives the return value and the message.
    [iproute2-3.1.0/lib/libnetlink.c:536-550 addattr32] *)
Definition addattr32 (n : nlmsghdr) (maxlen type data : Z) : Z * nlmsghdr :=
  let len := RTA_LENGTH 4 in
  if maxlen <? u32 (RTA_ALIGN (nlmsg_len n) + len) then (- 1, n)
  else
    let rta := NLMSG_TAIL n in
    let m := set_rta_type rta type (mem n) in
    let m := set_rta_len rta len m in
    let m := store_at (RTA_DATA rta) (le_bytes 4 data) m in
    (0, mk_nlmsg (u32 (RTA_ALIGN (nlmsg_len n) + len)) m).

(** [iproute2-3.1.0/lib/libnetlink.c:552-568 addattr_l] *)
Definition addattr_l (n : nlmsghdr) (maxlen type : Z) (data : list Z) : Z * nlmsghdr :=
  let len := RTA_LENGTH (Z.of_nat (length data)) in
  if maxlen <? u32 (RTA_ALIGN (nlmsg_len n) + RTA_ALIGN len) then (- 1, n)
  else
    let rta := NLMSG_TAIL n in
    let m := set_rta_type rta type (mem n) in
    let m := set_rta_len rta len m in
    let m := store_at (RTA_DATA rta) data m in
    (0, mk_nlmsg (u32 (RTA_ALIGN (nlmsg_len n) + RTA_ALIGN len)) m).

(** [iproute2-3.1.0/lib/libnetlink.c:570-581 addraw_l] *)
Definition addraw_l (n : nlmsghdr) (maxlen : Z) (data : list Z) : Z * nlmsghdr :=
  let len := Z.of_nat (length data) in
  if maxlen <? u32 (RTA_ALIGN (nlmsg_len n) + RTA_ALIGN len) then (- 1, n)
  else
    let m := store_at (NLMSG_TAIL n) data (mem n) in
    let m := store_at (NLMSG_TAIL n + len) (replicate (Z.to_nat (RTA_ALIGN len - len)) 0) m in
    (0, mk_nlmsg (u32 (RTA_ALIGN (nlmsg_len n) + RTA_ALIGN len)) m).

(** [iproute2-3.1.0/lib/libnetlink.c:583-589 addattr_nest] *)
Definition addattr_nest (n : nlmsghdr) (maxlen type : Z) : Z * nlmsghdr :=
  let nest := NLMSG_TAIL n in (nest, (addattr_l n maxlen type []).2).

(** [iproute2-3.1.0/lib/libnetlink.c:591-595 addattr_nest_end] *)
Definition addattr_nest_end (n : nlmsghdr) (nest : Z) : Z * nlmsghdr :=
  (nlmsg_len n, mk_nlmsg (nlmsg_len n) (set_rta_len nest (NLMSG_TAIL n - nest) (mem n))).

(** [iproute2-3.1.0/lib/libnetlink.c:597-605 addattr_nest_compat] *)
Definition addattr_nest_compat (n : nlmsghdr) (maxlen type : Z) (data : list Z) : Z * nlmsghdr :=
  let start := NLMSG_TAIL n in
  let n := (addattr_l n maxlen type data).2 in
  let n := (addattr_nest n maxlen type).2 in
  (start, n).

(** [iproute2-3.1.0/lib/libnetlink.c:607-614 addattr_nest_compat_end] *)
Definition addattr_nest_compat_end (n : nlmsghdr) (start : Z) : Z * nlmsghdr :=
  let nest := start + RTA_ALIGN (rta_len (mem n) start) in
  let n := mk_nlmsg (nlmsg_len n) (set_rta_len start (NLMSG_TAIL n - start) (mem n)) in
  addattr_nest_end n nest.

(** The attribute being extended is at an offset of the memory.
    [iproute2-3.1.0/lib/libnetlink.c:616-631 rta_addattr32] *)
Definition rta_addattr32 (m : list Z) (rta maxlen type data : Z) : Z * list Z :=
  let len := RTA_LENGTH 4 in
  if maxlen <? RTA_ALIGN (rta_len m rta) + len then (- 1, m)
  else
    let subrta := rta + RTA_ALIGN (rta_len m rta) in
    let m' := set_rta_type subrta type m in
    let m' := set_rta_len subrta len m' in
    let m' := store_at (RTA_DATA subrta) (le_bytes 4 data) m' in
    (0, set_rta_len rta (RTA_ALIGN (rta_len m rta) + len) m').

(** [iproute2-3.1.0/lib/libnetlink.c:633-649 rta_addattr_l] *)
Definition rta_addattr_l (m : list Z) (rta maxlen type : Z) (data : list Z) : Z * list Z :=
  let len := RTA_LENGTH (Z.of_nat (length data)) in
  if maxlen <? RTA_ALIGN (rta_len m rta) + RTA_ALIGN len then (- 1, m)
  else
    let subrta := rta + RTA_ALIGN (rta_len m rta) in
    let m' := set_rta_type subrta type m in
    let m' := set_rta_len subrta len m' in
    let m' := store_at (RTA_DATA subrta) data m' in
    (0, set_rta_len rta (RTA_ALIGN (rta_len m rta) + RTA_ALIGN len) m').

(** ** Parsing *)

(** [iproute2-3.1.0/include/linux/rtnetlink.h:146-148 RTA_OK] *)
Definition RTA_OK (m : list Z) (rta len : Z) : bool :=
  (4 <=? len) && (4 <=? rta_len m rta) && (rta_len m rta <=? len).

(** The loop of [parse_rtattr]; a round takes at least four bytes. *)
Fixpoint rtattr_loop (fuel : nat) (m : list Z) (max : Z) (rta len : Z) (tb : list (option Z)) :
    list (option Z) * Z :=
  match fuel with
  | O => (tb, len)
  | S fuel =>
      if RTA_OK m rta len then
        let type := rta_type m rta in
        let tb :=
          if type <=? max then
            match tb !!! Z.to_nat type with
            | None => <[Z.to_nat type := Some rta]> tb
            | Some _ => tb
            end
          else tb in
        rtattr_loop fuel m max (rta + RTA_ALIGN (rta_len m rta)) (len - RTA_ALIGN (rta_len m rta)) tb
      else (tb, len)
  end.

(** The table of offsets, and the deficit that is reported when it is not 0.
    [iproute2-3.1.0/lib/libnetlink.c:651-662 parse_rtattr] *)
Definition parse_rtattr (m : list Z) (max rta len : Z) : list (option Z) * Z :=
  rtattr_loop (S (Z.to_nat len)) m max rta len (replicate (Z.to_nat (max + 1)) None).

(** [iproute2-3.1.0/include/libnetlink.h:67-68 parse_rtattr_nested] *)
Definition parse_rtattr_nested (m : list Z) (max rta : Z) : list (option Z) * Z :=
  parse_rtattr m max (RTA_DATA rta) (RTA_PAYLOAD m rta).

Fixpoint byindex_loop (fuel : nat) (m : list Z) (max : Z) (rta len : Z) (tb : list Z) : list Z :=
  match fuel with
  | O => tb
  | S fuel =>
      if RTA_OK m rta len then
        let tb :=
          if (rta_type m rta <=? max) && (Z.of_nat (length tb) <? max) then tb ++ [rta] else tb in
        byindex_loop fuel m max (rta + RTA_ALIGN (rta_len m rta)) (len - RTA_ALIGN (rta_len m rta)) tb
      else tb
  end.

(** The entries filled; the result is their number.
    [iproute2-3.1.0/lib/libnetlink.c:664-677 parse_rtattr_byindex] *)
Definition parse_rtattr_byindex (m : list Z) (max rta len : Z) : list Z :=
  byindex_loop (S (Z.to_nat len)) m max rta len [].

(** [None] for -1.  [iproute2-3.1.0/lib/libnetlink.c:679-690 __parse_rtattr_nested_compat] *)
Definition __parse_rtattr_nested_compat (m : list Z) (max rta len : Z) : option (list (option Z)) :=
  if RTA_PAYLOAD m rta <? len then None
  else if RTA_ALIGN len + 4 <=? RTA_PAYLOAD m rta
  then Some (parse_rtattr_nested m max (RTA_DATA rta + RTA_ALIGN len)).1
  else Some (replicate (Z.to_nat (max + 1)) None).

(** ** Memory *)

Lemma le_bytes_length n z : length (le_bytes n z) = n.
Proof. revert z. induction n as [|n IH]; intros z; cbn; [done|by rewrite IH]. Qed.

Lemma of_le_bytes_le n z : of_le_bytes (le_bytes n z) = z mod 2 ^ (8 * Z.of_nat n).
Proof.
  revert z. induction n as [|n IH]; intros z; cbn [le_bytes of_le_bytes].
  - change (2 ^ (8 * Z.of_nat 0)) with 1. by rewrite Z.mod_1_r.
  - rewrite IH. replace (8 * Z.of_nat (S n)) with (8 + 8 * Z.of_nat n) by lia.
    rewrite Z.pow_add_r by lia. rewrite Z.rem_mul_r; [done|lia|]. apply Z.pow_pos_nonneg; lia.
Qed.

Lemma RTA_ALIGN_div z : RTA_ALIGN z = (z + 3) / 4 * 4.
Proof.
  unfold RTA_ALIGN. rewrite <- Z.ldiff_land. change 3 with (Z.ones 2) at 2.
  rewrite Z.ldiff_ones_r, Z.shiftl_mul_pow2, Z.shiftr_div_pow2 by lia. done.
Qed.

Lemma RTA_ALIGN_bounds z : z <= RTA_ALIGN z < z + 4 /\ RTA_ALIGN z mod 4 = 0.
Proof. rewrite RTA_ALIGN_div. Z.div_mod_to_equations. lia. Qed.

Lemma RTA_ALIGN_aligned z : z mod 4 = 0 -> RTA_ALIGN z = z.
Proof. rewrite RTA_ALIGN_div. intros H. Z.div_mod_to_equations. lia. Qed.

Lemma store_at_length off b m :
  0 <= off -> off + Z.of_nat (length b) <= Z.of_nat (length m) -> length (store_at off b m) = length m.
Proof. intros H1 H2. unfold store_at. rewrite !length_app, length_take, length_drop. lia. Qed.

Lemma load_store_same off b m n :
  0 <= off -> off + Z.of_nat (length b) <= Z.of_nat (length m) -> n = Z.of_nat (length b) ->
  load_bytes (store_at off b m) off n = b.
Proof.
  intros H1 H2 ->. unfold load_bytes, store_at. rewrite drop_app_ge by (rewrite length_take; lia).
  rewrite length_take. replace (_ - _)%nat with 0%nat by lia. rewrite drop_0, Nat2Z.id.
  by rewrite take_app_length.
Qed.

Lemma load_store_other off b m off' n :
  0 <= off -> off + Z.of_nat (length b) <= Z.of_nat (length m) -> 0 <= off' -> 0 <= n ->
  off' + n <= off \/ off + Z.of_nat (length b) <= off' ->
  load_bytes (store_at off b m) off' n = load_bytes m off' n.
Proof.
  intros H1 H2 H3 H4 [H|H]; unfold load_bytes, store_at.
  - rewrite drop_app_le by (rewrite length_take; lia).
    rewrite take_app_le by (rewrite length_drop, length_take; lia).
    rewrite !take_drop_commute, take_take. f_equal. f_equal. lia.
  - rewrite drop_app_ge by (rewrite length_take; lia). rewrite length_take.
    rewrite drop_app_ge by lia. rewrite drop_drop. do 2 f_equal. lia.
Qed.

(** ** What a builder leaves in memory *)

(** An attribute at an offset. *)
Definition attr_at (m : list Z) (off type : Z) (data : list Z) : Prop :=
  rta_len m off = 4 + Z.of_nat (length data) /\ rta_type m off = type /\
  load_bytes m (off + 4) (Z.of_nat (length data)) = data.

(** Memories that agree below an offset. *)
Definition same_below (off : Z) (m m' : list Z) : Prop :=
  forall o n, 0 <= o -> 0 <= n -> o + n <= off -> load_bytes m' o n = load_bytes m o n.

Lemma attr_at_same top m m' off type data :
  same_below top m m' -> 0 <= off -> off + 4 + Z.of_nat (length data) <= top ->
  attr_at m off type data -> attr_at m' off type data.
Proof.
  intros Hs Ho Ht (Hl & Hty & Hd). unfold attr_at, rta_len, rta_type, load16.
  rewrite !Hs by lia. done.
Qed.

(** The three stores of a builder. *)
Definition put_attr (rta type : Z) (data m : list Z) : list Z :=
  store_at (RTA_DATA rta) data (set_rta_len rta (RTA_LENGTH (Z.of_nat (length data))) (set_rta_type rta type m)).

Lemma put_attr_at rta type data m :
  0 <= rta -> rta + 4 + Z.of_nat (length data) <= Z.of_nat (length m) ->
  0 <= type < 2 ^ 16 -> 4 + Z.of_nat (length data) < 2 ^ 16 ->
  attr_at (put_attr rta type data m) rta type data /\
  length (put_attr rta type data m) = length m /\
  same_below rta m (put_attr rta type data m).
Proof.
  intros Hr Hm Ht Hl. unfold put_attr, set_rta_len, set_rta_type, RTA_DATA, RTA_LENGTH.
  change (RTA_ALIGN 4) with 4.
  set (m1 := store_at (rta + 2) (le_bytes 2 type) m).
  assert (length m1 = length m) as L1 by (apply store_at_length; rewrite ?le_bytes_length; lia).
  set (m2 := store_at rta (le_bytes 2 (4 + Z.of_nat (length data))) m1).
  assert (length m2 = length m) as L2
    by (unfold m2; rewrite store_at_length; rewrite ?le_bytes_length, ?L1; lia).
  split; [|split].
  - unfold attr_at, rta_len, rta_type, load16. split; [|split].
    + rewrite load_store_other by lia. unfold m2.
      rewrite load_store_same by (rewrite ?le_bytes_length; lia).
      rewrite of_le_bytes_le. apply Z.mod_small. lia.
    + rewrite load_store_other by lia. unfold m2.
      rewrite load_store_other by (rewrite ?le_bytes_length; lia). unfold m1.
      rewrite load_store_same by (rewrite ?le_bytes_length; lia).
      rewrite of_le_bytes_le. by apply Z.mod_small.
    + rewrite load_store_same by lia. done.
  - rewrite store_at_length; lia.
  - intros o n Ho Hn Hon. rewrite load_store_other by lia. unfold m2.
    rewrite load_store_other by (rewrite ?le_bytes_length; lia). unfold m1.
    by rewrite load_store_other by (rewrite ?le_bytes_length; lia).
Qed.

Definition attr_span (data : list Z) : Z := RTA_ALIGN (4 + Z.of_nat (length data)).

Lemma attr_span_bounds data : 4 + Z.of_nat (length data) <= attr_span data < 8 + Z.of_nat (length data) /\
  attr_span data mod 4 = 0.
Proof. unfold attr_span. pose proof (RTA_ALIGN_bounds (4 + Z.of_nat (length data))). lia. Qed.

(** A message with room for [span] more bytes. *)
Record room_for (n : nlmsghdr) (maxlen span : Z) : Prop := {
  rf_len : 0 <= nlmsg_len n;
  rf_tail : NLMSG_TAIL n + span <= maxlen;
  rf_mem : NLMSG_TAIL n + span <= Z.of_nat (length (mem n));
  rf_max : maxlen < 2 ^ 16
}.

Lemma tail_bounds n : nlmsg_len n <= NLMSG_TAIL n < nlmsg_len n + 4 /\ NLMSG_TAIL n mod 4 = 0.
Proof. unfold NLMSG_TAIL. pose proof (RTA_ALIGN_bounds (nlmsg_len n)). lia. Qed.

(** [addattr_l] with and without room. *)
Lemma addattr_l_ok n maxlen type data :
  room_for n maxlen (attr_span data) -> 0 <= type < 2 ^ 16 ->
  addattr_l n maxlen type data =
    (0, mk_nlmsg (NLMSG_TAIL n + attr_span data) (put_attr (NLMSG_TAIL n) type data (mem n))).
Proof.
  intros [H0 H1 H2 H3] Ht. unfold addattr_l. fold (NLMSG_TAIL n).
  unfold RTA_LENGTH. change (RTA_ALIGN 4) with 4. fold (attr_span data).
  pose proof (attr_span_bounds data). pose proof (tail_bounds n).
  rewrite u32_small by lia. by rewrite (proj2 (Z.ltb_ge maxlen _)) by lia.
Qed.

(** The same for a message larger than any attribute. *)
Lemma addattr_l_fits n maxlen type data :
  0 <= nlmsg_len n -> NLMSG_TAIL n + attr_span data <= maxlen < 2 ^ 32 ->
  addattr_l n maxlen type data =
    (0, mk_nlmsg (NLMSG_TAIL n + attr_span data) (put_attr (NLMSG_TAIL n) type data (mem n))).
Proof.
  intros H0 H1. unfold addattr_l. fold (NLMSG_TAIL n).
  unfold RTA_LENGTH. change (RTA_ALIGN 4) with 4. fold (attr_span data).
  pose proof (attr_span_bounds data). pose proof (tail_bounds n).
  rewrite u32_small by lia. by rewrite (proj2 (Z.ltb_ge maxlen _)) by lia.
Qed.

Lemma addattr_l_full n maxlen type data :
  0 <= nlmsg_len n -> NLMSG_TAIL n + attr_span data < 2 ^ 32 -> maxlen < NLMSG_TAIL n + attr_span data ->
  addattr_l n maxlen type data = (- 1, n).
Proof.
  intros H0 H1 H2. unfold addattr_l. fold (NLMSG_TAIL n).
  unfold RTA_LENGTH. change (RTA_ALIGN 4) with 4. fold (attr_span data).
  pose proof (attr_span_bounds data). pose proof (tail_bounds n).
  rewrite u32_small by lia. by rewrite (proj2 (Z.ltb_lt maxlen _)) by lia.
Qed.

(** ** Loads from structures *)

(** Elements of one size in a row. *)
Lemma load_element k l i rest :
  (i < length l)%nat ->
  load_bytes (flat_map (le_bytes k) l ++ rest) (Z.of_nat k * Z.of_nat i) (Z.of_nat k) = le_bytes k (nth i l 0).
Proof.
  unfold load_bytes. rewrite <- Nat2Z.inj_mul, !Nat2Z.id. revert i.
  induction l as [|x l IH]; intros [|i] Hi; cbn [length] in Hi; try lia; cbn [flat_map nth]; rewrite <- app_assoc.
  - rewrite Nat.mul_0_r, skipn_O. rewrite take_app_le by (rewrite le_bytes_length; lia).
    apply firstn_all2. rewrite le_bytes_length. lia.
  - rewrite drop_app_ge by (rewrite le_bytes_length; lia). rewrite le_bytes_length.
    replace (k * S i - k)%nat with (k * i)%nat by lia. apply IH. lia.
Qed.

Lemma flat_map_length_const k l : length (flat_map (le_bytes k) l) = (k * length l)%nat.
Proof. induction l as [|x l IH]; cbn [flat_map length]; [lia|]. rewrite length_app, le_bytes_length, IH. lia. Qed.

Lemma load_skip a b len off n :
  Z.of_nat (length a) = len -> 0 <= off -> load_bytes (a ++ b) (len + off) n = load_bytes b off n.
Proof.
  intros <- Ho. unfold load_bytes. rewrite drop_app_ge by lia. f_equal. f_equal. lia.
Qed.

(** A load inside a load. *)
Lemma load_load m off len o n :
  0 <= off -> 0 <= o -> 0 <= n -> o + n <= len -> load_bytes m (off + o) n = load_bytes (load_bytes m off len) o n.
Proof.
  intros H1 H2 H3 H4. unfold load_bytes. rewrite skipn_firstn_comm, firstn_firstn, skipn_skipn.
  f_equal; [lia|]. f_equal. lia.
Qed.

(** ** Series of attributes *)

Fixpoint attrs_at (m : list Z) (off : Z) (l : list (Z * list Z)) : Prop :=
  match l with
  | [] => True
  | (type, data) :: l => attr_at m off type data /\ attrs_at m (off + attr_span data) l
  end.

Fixpoint span (l : list (Z * list Z)) : Z :=
  match l with [] => 0 | (_, data) :: l => attr_span data + span l end.

Definition types_ok (l : list (Z * list Z)) : Prop := Forall (fun a => 0 <= a.1 < 2 ^ 16) l.

Definition add_all (maxlen : Z) (l : list (Z * list Z)) (n : nlmsghdr) : nlmsghdr :=
  foldl (fun n a => (addattr_l n maxlen a.1 a.2).2) n l.

Lemma span_bounds l : 0 <= span l /\ span l mod 4 = 0.
Proof.
  induction l as [|[t d] l IH]; cbn [span]; [done|]. pose proof (attr_span_bounds d).
  split; [lia|]. Z.div_mod_to_equations. lia.
Qed.

Lemma attrs_at_same top m m' l : forall off,
  same_below top m m' -> 0 <= off -> off + span l <= top -> attrs_at m off l -> attrs_at m' off l.
Proof.
  induction l as [|[t d] l IH]; intros off Hs H0 Ht; cbn [attrs_at span] in *; [done|].
  intros [Ha Hl]. pose proof (attr_span_bounds d). pose proof (span_bounds l).
  split; [eapply attr_at_same; eauto; lia|]. apply IH; [done|lia|lia|done].
Qed.

Lemma same_below_trans off off' m m' m'' :
  off <= off' -> same_below off m m' -> same_below off' m' m'' -> same_below off m m''.
Proof. intros Ho H1 H2 o n Hn Hn' Hon. rewrite H2 by lia. by apply H1. Qed.

(** The attributes are laid out one after the other, and nothing below changes. *)
Lemma add_all_ok maxlen l : forall n,
  room_for n maxlen (span l) -> types_ok l ->
  let n' := add_all maxlen l n in
  attrs_at (mem n') (NLMSG_TAIL n) l /\ NLMSG_TAIL n' = NLMSG_TAIL n + span l /\
  length (mem n') = length (mem n) /\ same_below (NLMSG_TAIL n) (mem n) (mem n') /\
  (l <> [] -> nlmsg_len n' = NLMSG_TAIL n + span l).
Proof.
  induction l as [|[t d] l IH]; intros n Hr Hty.
  { cbn. split; [done|]. split; [lia|]. split; [done|]. split; [by intros o k|done]. }
  cbn [span] in Hr. apply Forall_cons in Hty as [Ht Hty]. cbn [fst] in Ht.
  pose proof (attr_span_bounds d) as Hd. pose proof (span_bounds l) as Hsp. pose proof (tail_bounds n) as Htl.
  destruct Hr as [H0 H1 H2 H3].
  unfold add_all. cbn [foldl fst snd]. rewrite addattr_l_ok by (done || constructor; lia). cbn [snd].
  set (n1 := mk_nlmsg _ _). fold (add_all maxlen l n1).
  destruct (put_attr_at (NLMSG_TAIL n) t d (mem n) ltac:(lia) ltac:(lia) Ht ltac:(lia)) as (A1 & A2 & A3).
  assert (NLMSG_TAIL n1 = NLMSG_TAIL n + attr_span d) as E1.
  { unfold NLMSG_TAIL at 1. cbn [nlmsg_len n1]. apply RTA_ALIGN_aligned. Z.div_mod_to_equations. lia. }
  destruct (IH n1) as (I1 & I2 & I3 & I4 & I5); [|done|].
  { constructor; [cbn [nlmsg_len n1]; lia|rewrite E1; lia|cbn [mem n1]; rewrite A2; lia|done]. }
  cbn [mem n1] in I3, I4. rewrite E1 in *. cbn [attrs_at span].
  split; [split; [|done]|split; [lia|split; [congruence|split; [|]]]].
  - eapply attr_at_same; [exact I4|lia|lia|exact A1].
  - eapply same_below_trans; [|exact A3|exact I4]. lia.
  - intros _. destruct l as [|a l]; [cbn [add_all foldl nlmsg_len n1 span]; lia|]. rewrite I5 by done. lia.
Qed.

(** ** Parsing what was built *)

(** The table after the attributes from an offset on: the first of a type wins. *)
Fixpoint fill_table (max : Z) (off : Z) (l : list (Z * list Z)) (tb : list (option Z)) : list (option Z) :=
  match l with
  | [] => tb
  | (type, data) :: l =>
      fill_table max (off + attr_span data) l
        (if type <=? max then
           match tb !!! Z.to_nat type with
           | None => <[Z.to_nat type := Some off]> tb
           | Some _ => tb
           end
         else tb)
  end.

Lemma rtattr_loop_ok m max l : forall fuel off tb,
  attrs_at m off l -> (length l < fuel)%nat ->
  rtattr_loop fuel m max off (span l) tb = (fill_table max off l tb, 0).
Proof.
  induction l as [|[t d] l IH]; intros fuel off tb Ha Hf; (destruct fuel as [|fuel]; [cbn in Hf; lia|]);
    cbn [rtattr_loop span length] in *.
  - unfold RTA_OK. done.
  - destruct Ha as [(Hl & Ht & _) Ha]. pose proof (attr_span_bounds d) as Hd.
    pose proof (span_bounds l) as Hsp.
    unfold RTA_OK. rewrite Hl, Ht.
    rewrite (proj2 (Z.leb_le 4 _)), (proj2 (Z.leb_le 4 _)), (proj2 (Z.leb_le _ (attr_span d + span l))) by lia.
    cbn [andb]. fold (attr_span d). cbn [fill_table].
    replace (attr_span d + span l - attr_span d) with (span l) by lia.
    by rewrite IH by (done || lia).
Qed.

Lemma span_count l : 4 * Z.of_nat (length l) <= span l.
Proof.
  induction l as [|[t d] l IH]; cbn [span length]; [lia|]. pose proof (attr_span_bounds d). lia.
Qed.

Lemma attrs_at_above bot m m' l : forall off,
  (forall o k, bot <= o -> 0 <= k -> load_bytes m' o k = load_bytes m o k) ->
  bot <= off -> attrs_at m off l -> attrs_at m' off l.
Proof.
  induction l as [|[t d] l IH]; intros off Hs Hb; cbn [attrs_at]; [done|].
  intros [(A1 & A2 & A3) Hl]. pose proof (attr_span_bounds d). split.
  - unfold attr_at, rta_len, rta_type, load16. rewrite !Hs by lia. done.
  - apply IH; [done|lia|done].
Qed.

(** An attribute opened, filled and closed, and then parsed. *)
Lemma nested_ok (n : nlmsghdr) (maxlen type max : Z) (l : list (Z * list Z)) :
  room_for n maxlen (4 + span l) -> 0 <= type < 2 ^ 16 -> types_ok l ->
  let '(nest, n1) := addattr_nest n maxlen type in
  let '(_, n2) := addattr_nest_end (add_all maxlen l n1) nest in
  parse_rtattr_nested (mem n2) max nest =
    (fill_table max (nest + 4) l (replicate (Z.to_nat (max + 1)) None), 0) /\
  attrs_at (mem n2) (nest + 4) l /\ rta_type (mem n2) nest = type /\
  rta_len (mem n2) nest = 4 + span l /\ nlmsg_len n2 = nlmsg_len (add_all maxlen l n1) /\
  length (mem n2) = length (mem n) /\ same_below nest (mem n) (mem n2) /\
  (l <> [] -> nlmsg_len n2 = nest + 4 + span l).
Proof.
  intros [H0 H1 H2 H3] Ht Hty. unfold addattr_nest, addattr_nest_end.
  pose proof (span_bounds l) as Hsp. pose proof (tail_bounds n) as Htl.
  assert (attr_span [] = 4) as E4 by reflexivity.
  rewrite addattr_l_ok by (done || constructor; rewrite ?E4; lia). cbn [snd].
  set (nest := NLMSG_TAIL n) in *. rewrite E4.
  set (n1 := mk_nlmsg (nest + 4) _).
  assert (NLMSG_TAIL n1 = nest + 4) as E1.
  { unfold NLMSG_TAIL at 1. cbn [nlmsg_len n1]. apply RTA_ALIGN_aligned. Z.div_mod_to_equations. lia. }
  destruct (put_attr_at nest type [] (mem n) ltac:(lia) ltac:(cbn [length]; lia) Ht ltac:(done)) as (A1 & A2 & A3).
  destruct (add_all_ok maxlen l n1) as (I1 & I2 & I3 & I4 & I5);
    [constructor; [cbn [nlmsg_len n1]; lia|rewrite E1; lia|cbn [mem n1]; rewrite A2; lia|done]|done|].
  cbn [mem n1] in I3, I4. rewrite E1 in *. set (n' := add_all maxlen l n1) in *.
  rewrite I2. cbn [mem]. set (m := set_rta_len nest (nest + 4 + span l - nest) (mem n')).
  assert (nest + 4 <= Z.of_nat (length (mem n'))) as Hlen by (rewrite I3, A2; lia).
  assert (forall o k, nest + 2 <= o -> 0 <= k -> load_bytes m o k = load_bytes (mem n') o k) as Habove.
  { intros o k Ho Hk. apply load_store_other; rewrite ?le_bytes_length; lia. }
  assert (attrs_at m (nest + 4) l) as Hattrs.
  { eapply attrs_at_above; [exact Habove|lia|exact I1]. }
  assert (rta_len m nest = 4 + span l) as Elen.
  { unfold rta_len, load16, m, set_rta_len.
    rewrite load_store_same by (rewrite ?le_bytes_length; lia). rewrite of_le_bytes_le.
    change (2 ^ (8 * Z.of_nat 2)) with (2 ^ 16). rewrite Z.mod_small; lia. }
  split; [|split; [exact Hattrs|split; [|split; [exact Elen|split; [done|split; [|split; [|]]]]]]].
  - unfold parse_rtattr_nested, parse_rtattr, RTA_DATA, RTA_PAYLOAD, RTA_LENGTH.
    change (RTA_ALIGN 4 + 0) with 4. rewrite Elen. replace (4 + span l - 4) with (span l) by lia.
    apply rtattr_loop_ok; [exact Hattrs|]. pose proof (span_count l). lia.
  - unfold rta_type, load16. rewrite Habove by lia.
    rewrite (I4 (nest + 2) 2) by lia. by destruct A1 as (_ & ? & _).
  - unfold m. unfold set_rta_len. rewrite store_at_length; rewrite ?le_bytes_length; lia.
  - intros o k Ho Hk Hok. unfold m, set_rta_len.
    rewrite load_store_other by (rewrite ?le_bytes_length; lia).
    rewrite I4 by lia. by apply A3.
  - intros Hne. cbn [nlmsg_len]. by rewrite I5.
Qed.

(** An attribute opened with [addattr_nest], filled with [addattr_l] and closed
    with [addattr_nest_end] is parsed by [parse_rtattr_nested] to the table of its
    contents, with no deficit, whatever the contents, as long as the message has
    room: each entry is the offset of the first attribute of its type, whose data
    stand there. *)
Theorem nested_roundtrip (n : nlmsghdr) (maxlen type max : Z) (l : list (Z * list Z)) :
  room_for n maxlen (4 + span l) -> 0 <= type < 2 ^ 16 -> types_ok l ->
  let '(nest, n1) := addattr_nest n maxlen type in
  let '(_, n2) := addattr_nest_end (add_all maxlen l n1) nest in
  parse_rtattr_nested (mem n2) max nest =
    (fill_table max (nest + 4) l (replicate (Z.to_nat (max + 1)) None), 0) /\
  attrs_at (mem n2) (nest + 4) l /\ rta_type (mem n2) nest = type.
Proof.
  intros H1 H2 H3. pose proof (nested_ok n maxlen type max l H1 H2 H3) as H.
  destruct (addattr_nest n maxlen type) as [nest n1]. destruct (addattr_nest_end _ nest) as [r n2].
  by destruct H as (? & ? & ? & _).
Qed.

(** A request of two attributes, the second type twice. *)
Lemma nested_roundtrip_witness :
  let n := mk_nlmsg 36 (replicate 64 0) in
  let l := [(1, [7; 8; 9]); (2, [1]); (2, [5; 5])] in
  let '(nest, n1) := addattr_nest n 64 2 in
  let '(_, n2) := addattr_nest_end (add_all 64 l n1) nest in
  parse_rtattr_nested (mem n2) 2 nest = ([None; Some 40; Some 48], 0) /\
  attrs_at (mem n2) (nest + 4) l /\ rta_type (mem n2) nest = 2.
Proof.
  apply (nested_roundtrip (mk_nlmsg 36 (replicate 64 0)) 64 2 2 [(1, [7; 8; 9]); (2, [1]); (2, [5; 5])]).
  - constructor; vm_compute; congruence.
  - lia.
  - repeat constructor; cbn; lia.
Defined.
