(* ===== verification/AttrTree.v ===== *)
(** * Trees of netlink attributes

    Requests that nest attributes in attributes: what a builder appends to a message is a
    list of trees, and builders compose: one after the other, and inside a nest.  Parsing a
    nest finds the trees in it. *)

From S2P Require Export Netlink.

#[local] Open Scope list_scope.

(** ** Trees *)

#[local] Unset Elimination Schemes.

Inductive atree := Leaf (type : Z) (data : list Z) | Nest (type : Z) (l : list atree).

#[local] Set Elimination Schemes.

Section Induction.
Context (P : atree -> Prop) (Hleaf : forall t d, P (Leaf t d)) (Hnest : forall t l, Forall P l -> P (Nest t l)).

Fixpoint atree_rect' (t : atree) : P t :=
  match t with
  | Leaf t d => Hleaf t d
  | Nest t l => Hnest t l ((fix go l : Forall P l :=
      match l with [] => @List.Forall_nil _ P | t :: l => @List.Forall_cons _ P t l (atree_rect' t) (go l) end) l)
  end.
End Induction.

Definition tree_type (t : atree) : Z := match t with Leaf ty _ | Nest ty _ => ty end.

(** The bytes a tree takes, with its header and padding. *)
Fixpoint tspan1 (t : atree) : Z :=
  match t with
  | Leaf _ d => attr_span d
  | Nest _ l => 4 + (fix go l := match l with [] => 0 | t :: l => tspan1 t + go l end) l
  end.

Fixpoint tspan (l : list atree) : Z := match l with [] => 0 | t :: l => tspan1 t + tspan l end.

(** A tree at an offset of the memory. *)
Fixpoint tree_at (m : list Z) (off : Z) (t : atree) : Prop :=
  match t with
  | Leaf ty d => attr_at m off ty d
  | Nest ty l =>
      rta_len m off = tspan1 (Nest ty l) /\ rta_type m off = ty /\
      (fix go off l := match l with [] => True | t :: l => tree_at m off t /\ go (off + tspan1 t) l end) (off + 4) l
  end.

Fixpoint trees_at (m : list Z) (off : Z) (l : list atree) : Prop :=
  match l with [] => True | t :: l => tree_at m off t /\ trees_at m (off + tspan1 t) l end.

Fixpoint tree_ok (t : atree) : Prop :=
  0 <= tree_type t < 2 ^ 16 /\
  match t with
  | Leaf _ _ => True
  | Nest _ l => (fix go l := match l with [] => True | t :: l => tree_ok t /\ go l end) l
  end.

Lemma tspan_nest ty l : tspan1 (Nest ty l) = 4 + tspan l.
Proof. reflexivity. Qed.

Lemma tree_at_nest m off ty l :
  tree_at m off (Nest ty l) <-> rta_len m off = 4 + tspan l /\ rta_type m off = ty /\ trees_at m (off + 4) l.
Proof.
  cbn [tree_at]. rewrite tspan_nest.
  set (go := fix go off l := match l with [] => True | t :: l => tree_at m off t /\ go (off + tspan1 t) l end).
  assert (forall o, go o l <-> trees_at m o l) as E; [|by rewrite E].
  induction l as [|t l IH]; intros o; [done|]. cbn [trees_at go]. by rewrite IH.
Qed.

Lemma tspan1_bounds t : 4 <= tspan1 t /\ tspan1 t mod 4 = 0.
Proof.
  induction t as [ty d|ty l IH] using atree_rect'.
  - cbn [tspan1]. pose proof (attr_span_bounds d). lia.
  - rewrite tspan_nest. enough (0 <= tspan l /\ tspan l mod 4 = 0) by (split; [lia|Z.div_mod_to_equations; lia]).
    induction IH as [|t l [H1 H2] _ IH]; cbn [tspan]; [done|]. split; [lia|]. Z.div_mod_to_equations. lia.
Qed.

Lemma tspan_bounds l : 4 * Z.of_nat (length l) <= tspan l /\ tspan l mod 4 = 0.
Proof.
  induction l as [|t l IH]; cbn [tspan length]; [done|]. pose proof (tspan1_bounds t).
  split; [lia|]. Z.div_mod_to_equations. lia.
Qed.

Lemma tspan_app l l' : tspan (l ++ l') = tspan l + tspan l'.
Proof. induction l as [|t l IH]; cbn [app tspan]; lia. Qed.

Lemma trees_at_app m l l' : forall off,
  trees_at m off (l ++ l') <-> trees_at m off l /\ trees_at m (off + tspan l) l'.
Proof.
  induction l as [|t l IH]; intros off; cbn [app trees_at tspan]; [by rewrite Z.add_0_r; intuition|].
  rewrite IH, Z.add_assoc. tauto.
Qed.

(** A tree only depends on the memory it spans. *)
Lemma tree_at_range m m' t : forall off,
  (forall o n, off <= o -> 0 <= n -> o + n <= off + tspan1 t -> load_bytes m' o n = load_bytes m o n) ->
  tree_at m off t -> tree_at m' off t.
Proof.
  induction t as [ty d|ty l IH] using atree_rect'; intros off Hs Ht.
  - destruct Ht as (H1 & H2 & H3). cbn [tspan1] in Hs. pose proof (attr_span_bounds d).
    cbn [tree_at]. unfold attr_at, rta_len, rta_type, load16. rewrite !Hs by lia. done.
  - apply tree_at_nest in Ht as (H1 & H2 & H3). apply tree_at_nest. rewrite tspan_nest in Hs.
    pose proof (tspan_bounds l). unfold rta_len, rta_type, load16. rewrite !Hs by lia. split; [done|]. split; [done|].
    assert (forall o, off + 4 <= o -> o + tspan l <= off + 4 + tspan l -> trees_at m o l -> trees_at m' o l) as Hl;
      [|apply Hl; [lia|lia|done]].
    clear H1 H2 H3. revert Hs. generalize (tspan l) at 1 3. intros top Hs.
    induction IH as [|t l Ht _ IH]; intros o Ho1 Ho2; cbn [trees_at tspan] in *; [done|].
    intros [Ha Hb]. pose proof (tspan1_bounds t). pose proof (tspan_bounds l).
    split; [eapply Ht; [|exact Ha]; intros; apply Hs; lia|apply IH; [lia|lia|lia|done]].
Qed.

Lemma trees_at_range m m' l : forall off,
  (forall o n, off <= o -> 0 <= n -> o + n <= off + tspan l -> load_bytes m' o n = load_bytes m o n) ->
  trees_at m off l -> trees_at m' off l.
Proof.
  induction l as [|t l IH]; intros off Hs; cbn [trees_at tspan] in *; [done|]. intros [Ha Hb].
  pose proof (tspan1_bounds t). pose proof (tspan_bounds l). split.
  - eapply tree_at_range; [|exact Ha]. intros; apply Hs; lia.
  - apply IH; [|done]. intros; apply Hs; lia.
Qed.

(** ** Builders *)

(** A function on messages that appends trees, while there is room. *)
Definition appends (maxlen : Z) (f : nlmsghdr -> nlmsghdr) (l : list atree) : Prop :=
  forall n, room_for n maxlen (tspan l) ->
  let n' := f n in
  trees_at (mem n') (NLMSG_TAIL n) l /\ NLMSG_TAIL n' = NLMSG_TAIL n + tspan l /\ 0 <= nlmsg_len n' /\
  length (mem n') = length (mem n) /\ same_below (NLMSG_TAIL n) (mem n) (mem n') /\
  (nlmsg_len n mod 4 = 0 -> nlmsg_len n' mod 4 = 0).

(** An attribute is opened, filled and given its length. *)
Definition with_nest (maxlen type : Z) (f : nlmsghdr -> nlmsghdr) (n : nlmsghdr) : nlmsghdr :=
  let tail := NLMSG_TAIL n in
  let n := f (addattr_l n maxlen type []).2 in
  mk_nlmsg (nlmsg_len n) (set_rta_len tail (NLMSG_TAIL n - tail) (mem n)).

Lemma appends_id maxlen : appends maxlen (fun n => n) [].
Proof. intros n [H0 H1 H2 H3]. cbn. rewrite Z.add_0_r. split_and!; try done. Qed.

Lemma appends_leaf maxlen type data :
  0 <= type < 2 ^ 16 -> appends maxlen (fun n => (addattr_l n maxlen type data).2) [Leaf type data].
Proof.
  intros Ht n Hr. cbn [tspan tspan1] in *. rewrite Z.add_0_r in Hr. rewrite addattr_l_ok by done. cbn [snd mem trees_at tree_at tspan1].
  destruct Hr as [H0 H1 H2 H3]. pose proof (attr_span_bounds data). pose proof (tail_bounds n).
  destruct (put_attr_at (NLMSG_TAIL n) type data (mem n)) as (A1 & A2 & A3); [lia|lia|done|lia|].
  assert ((NLMSG_TAIL n + attr_span data) mod 4 = 0) as Hal by (Z.div_mod_to_equations; lia).
  rewrite Z.add_0_r. split_and!; try done; cbn [nlmsg_len]; try lia.
  unfold NLMSG_TAIL at 1. cbn [nlmsg_len]. by apply RTA_ALIGN_aligned.
Qed.

Lemma room_app n n' maxlen l l' :
  room_for n maxlen (tspan (l ++ l')) -> NLMSG_TAIL n' = NLMSG_TAIL n + tspan l -> 0 <= nlmsg_len n' ->
  length (mem n') = length (mem n) -> room_for n maxlen (tspan l) /\ room_for n' maxlen (tspan l').
Proof.
  intros [H0 H1 H2 H3] Ht Hl Hm. rewrite tspan_app in H1, H2. pose proof (tspan_bounds l'). pose proof (tspan_bounds l).
  split; constructor; rewrite ?Hm; lia.
Qed.

Lemma appends_seq maxlen f g l l' :
  appends maxlen f l -> appends maxlen g l' -> appends maxlen (fun n => g (f n)) (l ++ l').
Proof.
  intros Hf Hg n Hr.
  assert (room_for n maxlen (tspan l)) as Hr1.
  { destruct Hr as [H0 H1 H2 H3]. rewrite tspan_app in H1, H2. pose proof (tspan_bounds l'). constructor; lia. }
  destruct (Hf n Hr1) as (F1 & F2 & F3 & F4 & F5 & F6).
  destruct (room_app n (f n) maxlen l l' Hr F2 F3 F4) as [_ Hr2].
  destruct (Hg (f n) Hr2) as (G1 & G2 & G3 & G4 & G5 & G6). cbv zeta in *.
  pose proof (tspan_bounds l) as Hl. pose proof (tail_bounds n) as Htl. destruct Hr1 as [H0 _ _ _].
  rewrite F2 in *. rewrite tspan_app, trees_at_app. split_and!; try done; try lia; try congruence.
  - eapply trees_at_range; [|exact F1]. intros o k Ho Hk Hok. apply G5; lia.
  - eapply same_below_trans; [|exact F5|exact G5]. lia.
Qed.

Lemma appends_nest maxlen type f l :
  0 <= type < 2 ^ 16 -> appends maxlen f l -> appends maxlen (with_nest maxlen type f) [Nest type l].
Proof.
  intros Ht Hf n Hr. unfold with_nest. change (tspan [Nest type l]) with (tspan1 (Nest type l) + 0) in *.
  rewrite tspan_nest, Z.add_0_r in *. pose proof (tspan_bounds l) as Hsp. pose proof (tail_bounds n) as Htl.
  assert (room_for n maxlen (tspan [Leaf type []])) as Hr1 
    by (change (tspan [Leaf type []]) with 4; destruct Hr; constructor; lia).
  destruct (appends_leaf maxlen type [] Ht n Hr1) as ([L1 _] & L2 & L3 & L4 & L5 & L6).
  change (tspan [Leaf type []]) with 4 in L2. cbv zeta in *.
  set (n1 := (addattr_l n maxlen type []).2) in *.
  assert (room_for n1 maxlen (tspan l)) as Hr2 by (destruct Hr; constructor; rewrite ?L2, ?L4; lia).
  destruct (Hf n1 Hr2) as (F1 & F2 & F3 & F4 & F5 & F6). cbv zeta in *. set (n2 := f n1) in *.
  set (tail := NLMSG_TAIL n) in *. destruct Hr as [H0 H1 H2 H3]. rewrite L2 in *.
  cbn [mem nlmsg_len trees_at]. set (m := set_rta_len tail (NLMSG_TAIL n2 - tail) (mem n2)).
  assert (tail + 4 <= Z.of_nat (length (mem n2))) as Hlen by (rewrite F4, L4; lia).
  assert (forall o k, tail + 2 <= o -> 0 <= k -> load_bytes m o k = load_bytes (mem n2) o k) as Habove
    by (intros; apply load_store_other; rewrite ?le_bytes_length; lia).
  split_and!; try done.
  - apply tree_at_nest. split_and!.
    + unfold rta_len, load16, m, set_rta_len. rewrite load_store_same by (rewrite ?le_bytes_length; lia).
      rewrite of_le_bytes_le. change (2 ^ (8 * Z.of_nat 2)) with (2 ^ 16). rewrite Z.mod_small; lia.
    + unfold rta_type, load16. rewrite Habove, (F5 (tail + 2) 2) by lia. by destruct L1 as (_ & ? & _).
    + eapply trees_at_range; [|exact F1]. intros o k Ho Hk _. apply Habove; lia.
  - unfold NLMSG_TAIL at 1. cbn [nlmsg_len]. change (RTA_ALIGN (nlmsg_len n2)) with (NLMSG_TAIL n2). lia.
  - unfold m, set_rta_len. rewrite store_at_length; rewrite ?le_bytes_length; [congruence|lia|lia].
  - intros o k Ho Hk Hok. unfold m, set_rta_len. rewrite load_store_other by (rewrite ?le_bytes_length; lia).
    rewrite F5 by lia. by apply L5.
  - auto.
Qed.

(** What a message holds once all is appended. *)
Lemma appends_len maxlen f l n :
  appends maxlen f l -> room_for n maxlen (tspan l) -> nlmsg_len n mod 4 = 0 ->
  nlmsg_len (f n) = nlmsg_len n + tspan l.
Proof.
  intros Hf Hr Hn. destruct (Hf n Hr) as (_ & F2 & _ & _ & _ & F6).
  unfold NLMSG_TAIL in F2. rewrite !RTA_ALIGN_aligned in F2 by auto. done.
Qed.

(** ** Attributes with bounds of their own *)

(** The attributes of a series are appended with a bound each. *)
Definition add_bounded (l : list (Z * Z * list Z)) (n : nlmsghdr) : nlmsghdr :=
  foldl (fun n '(b, t, d) => (addattr_l n b t d).2) n l.

Definition leaves (l : list (Z * Z * list Z)) : list atree := map (fun '(_, t, d) => Leaf t d) l.

(** Every one has room under its bound, from an offset on. *)
Fixpoint within (maxlen off : Z) (l : list (Z * Z * list Z)) : Prop :=
  match l with
  | [] => True
  | (b, t, d) :: l => off + attr_span d <= b < 2 ^ 32 /\ off + attr_span d <= maxlen /\ within maxlen (off + attr_span d) l
  end.

Definition same_bound (maxlen : Z) (l : list (Z * Z * list Z)) : list (Z * Z * list Z) :=
  map (fun '(_, t, d) => (maxlen, t, d)) l.

(** Then the bounds do not matter. *)
Lemma add_bounded_eq maxlen l : maxlen < 2 ^ 32 -> forall n,
  0 <= nlmsg_len n -> within maxlen (NLMSG_TAIL n) l -> add_bounded l n = add_bounded (same_bound maxlen l) n.
Proof.
  intros Hm. induction l as [|[[b t] d] l IH]; intros n Hn Hw; [done|]. destruct Hw as (H1 & H2 & H3).
  cbn [add_bounded foldl same_bound map]. pose proof (attr_span_bounds d) as Hs. pose proof (tail_bounds n) as Ht.
  rewrite !(addattr_l_fits n) by lia. cbn [snd]. apply IH; [cbn [nlmsg_len]; lia|].
  unfold NLMSG_TAIL at 1. cbn [nlmsg_len]. rewrite RTA_ALIGN_aligned; [done|]. Z.div_mod_to_equations. lia.
Qed.

Lemma bounded_appends maxlen l :
  Forall (fun '(_, t, _) => 0 <= t < 2 ^ 16) l -> appends maxlen (add_bounded (same_bound maxlen l)) (leaves l).
Proof.
  induction l as [|[[b t] d] l IH]; intros Hl; [apply appends_id|]. apply Forall_cons in Hl as [Ht Hl].
  apply (appends_seq maxlen (fun n => (addattr_l n maxlen t d).2) (add_bounded (same_bound maxlen l)) [Leaf t d]).
  - by apply appends_leaf.
  - by apply IH.
Qed.

(** A nest whose header and attributes have bounds of their own. *)
Definition nest_bounded (b type : Z) (l : list (Z * Z * list Z)) (n : nlmsghdr) : nlmsghdr :=
  let tail := NLMSG_TAIL n in
  let n := add_bounded l (addattr_l n b type []).2 in
  mk_nlmsg (nlmsg_len n) (set_rta_len tail (NLMSG_TAIL n - tail) (mem n)).

Lemma nest_bounded_eq maxlen b type l n :
  0 <= nlmsg_len n -> maxlen < 2 ^ 32 -> NLMSG_TAIL n + 4 <= b < 2 ^ 32 -> NLMSG_TAIL n + 4 <= maxlen ->
  within maxlen (NLMSG_TAIL n + 4) l ->
  nest_bounded b type l n = with_nest maxlen type (add_bounded (same_bound maxlen l)) n.
Proof.
  intros Hn Hm Hb Ht Hw. unfold nest_bounded, with_nest. pose proof (tail_bounds n).
  rewrite !(addattr_l_fits n) by (change (attr_span []) with 4; lia). cbn [snd]. change (attr_span []) with 4.
  set (n1 := mk_nlmsg (NLMSG_TAIL n + 4) _). assert (NLMSG_TAIL n1 = NLMSG_TAIL n + 4) as E.
  { unfold NLMSG_TAIL at 1. cbn [nlmsg_len n1]. apply RTA_ALIGN_aligned. Z.div_mod_to_equations. lia. }
  rewrite (add_bounded_eq maxlen l); [done|done|cbn [nlmsg_len n1]; lia|by rewrite E].
Qed.

(** What such a nest leaves in the message. *)
Lemma nest_bounded_ok maxlen b type l n :
  room_for n maxlen (4 + tspan (leaves l)) -> 0 <= type < 2 ^ 16 -> Forall (fun '(_, t, _) => 0 <= t < 2 ^ 16) l ->
  NLMSG_TAIL n + 4 <= b < 2 ^ 32 -> within maxlen (NLMSG_TAIL n + 4) l ->
  let n' := nest_bounded b type l n in
  tree_at (mem n') (NLMSG_TAIL n) (Nest type (leaves l)) /\ NLMSG_TAIL n' = NLMSG_TAIL n + 4 + tspan (leaves l) /\
  same_below (NLMSG_TAIL n) (mem n) (mem n').
Proof.
  intros Hroom Ht Hl Hb Hw. pose proof (tspan_bounds (leaves l)).
  destruct Hroom as [R0 R1 R2 R3]. rewrite (nest_bounded_eq maxlen) by (done || lia).
  destruct (appends_nest maxlen type _ _ Ht (bounded_appends maxlen l Hl) n) as ([T _] & T2 & _ & _ & T3 & _).
  { change (tspan [Nest type (leaves l)]) with (4 + tspan (leaves l) + 0). constructor; lia. }
  split; [exact T|]. split; [|exact T3]. rewrite T2. change (tspan [Nest type (leaves l)]) with (4 + tspan (leaves l) + 0). lia.
Qed.

(** ** Parsing *)

(** The table after the trees from an offset on: the first of a type wins. *)
Fixpoint tree_table (max off : Z) (l : list atree) (tb : list (option Z)) : list (option Z) :=
  match l with
  | [] => tb
  | t :: l =>
      tree_table max (off + tspan1 t) l
        (if tree_type t <=? max then
           match tb !!! Z.to_nat (tree_type t) with
           | None => <[Z.to_nat (tree_type t) := Some off]> tb
           | Some _ => tb
           end
         else tb)
  end.

Lemma tree_header m off t :
  tree_at m off t -> exists len, rta_len m off = len /\ rta_type m off = tree_type t /\
    4 <= len <= tspan1 t /\ RTA_ALIGN len = tspan1 t.
Proof.
  destruct t as [ty d|ty l].
  - intros (H1 & H2 & _). eexists. split; [exact H1|]. split; [exact H2|]. cbn [tspan1].
    pose proof (attr_span_bounds d). split; [lia|done].
  - intros (H1 & H2 & _)%tree_at_nest. eexists. split; [exact H1|]. split; [exact H2|]. rewrite tspan_nest.
    pose proof (tspan_bounds l). split; [lia|]. apply RTA_ALIGN_aligned. Z.div_mod_to_equations. lia.
Qed.

Lemma rtattr_loop_trees m max l : forall fuel off tb,
  trees_at m off l -> (length l < fuel)%nat ->
  rtattr_loop fuel m max off (tspan l) tb = (tree_table max off l tb, 0).
Proof.
  induction l as [|t l IH]; intros fuel off tb Ha Hf; (destruct fuel as [|fuel]; [cbn in Hf; lia|]);
    cbn [rtattr_loop tspan length] in *; [done|].
  destruct Ha as [Ht Ha]. destruct (tree_header _ _ _ Ht) as (len & E1 & E2 & Hl & Ea).
  pose proof (tspan_bounds l). unfold RTA_OK. rewrite E1, E2, Ea.
  rewrite (proj2 (Z.leb_le 4 _)), (proj2 (Z.leb_le 4 _)), (proj2 (Z.leb_le _ (tspan1 t + tspan l))) by lia.
  cbn [andb tree_table]. replace (tspan1 t + tspan l - tspan1 t) with (tspan l) by lia.
  by rewrite IH by (done || lia).
Qed.

(** Parsing a series of trees, and the contents of a nest. *)
Lemma parse_trees m max off l :
  trees_at m off l ->
  parse_rtattr m max off (tspan l) = (tree_table max off l (replicate (Z.to_nat (max + 1)) None), 0).
Proof. intros Ha. pose proof (tspan_bounds l). apply rtattr_loop_trees; [done|lia]. Qed.

Lemma parse_nest m max off ty l :
  tree_at m off (Nest ty l) ->
  parse_rtattr_nested m max off = (tree_table max (off + 4) l (replicate (Z.to_nat (max + 1)) None), 0).
Proof.
  intros (H1 & H2 & H3)%tree_at_nest. unfold parse_rtattr_nested, RTA_DATA, RTA_PAYLOAD, RTA_LENGTH.
  change (RTA_ALIGN 4 + 0) with 4. rewrite H1. replace (4 + tspan l - 4) with (tspan l) by lia. by apply parse_trees.
Qed.

(** Writing the length of a nest once more. *)
Lemma set_len_again m off ty l :
  tree_at m off (Nest ty l) -> 0 <= off -> off + 4 <= Z.of_nat (length m) -> 4 + tspan l < 2 ^ 16 ->
  let m' := set_rta_len off (4 + tspan l) m in
  tree_at m' off (Nest ty l) /\ length m' = length m /\ same_below off m m'.
Proof.
  intros (H1 & H2 & H3)%tree_at_nest Ho Hm Hl m'. pose proof (tspan_bounds l).
  assert (forall o k, off + 2 <= o -> 0 <= k -> load_bytes m' o k = load_bytes m o k) as Habove
    by (intros; apply load_store_other; rewrite ?le_bytes_length; lia).
  split_and!.
  - apply tree_at_nest. split_and!.
    + unfold rta_len, load16, m', set_rta_len. rewrite load_store_same by (rewrite ?le_bytes_length; lia).
      rewrite of_le_bytes_le. change (2 ^ (8 * Z.of_nat 2)) with (2 ^ 16). rewrite Z.mod_small; lia.
    + unfold rta_type, load16 in *. by rewrite Habove by lia.
    + eapply trees_at_range; [|exact H3]. intros; apply Habove; lia.
  - unfold m', set_rta_len. apply store_at_length; rewrite ?le_bytes_length; lia.
  - intros o k H4 H5 H6. apply load_store_other; rewrite ?le_bytes_length; lia.
Qed.

(** ** Finding an attribute *)

(** The first tree of a type, and its place. *)
Fixpoint tree_get (ty : Z) (l : list atree) : option atree :=
  match l with [] => None | t :: l => if tree_type t =? ty then Some t else tree_get ty l end.

Fixpoint tree_find (ty off : Z) (l : list atree) : option Z :=
  match l with [] => None | t :: l => if tree_type t =? ty then Some off else tree_find ty (off + tspan1 t) l end.

Lemma table_find max l ty : 0 <= ty <= max -> Forall (fun t => 0 <= tree_type t) l -> forall off tb,
  length tb = Z.to_nat (max + 1) ->
  tree_table max off l tb !!! Z.to_nat ty = match tb !!! Z.to_nat ty with Some o => Some o | None => tree_find ty off l end.
Proof.
  intros Hty Hl. induction Hl as [|t l Ht _ IH]; intros off tb Htb; cbn [tree_table tree_find]; [by destruct (tb !!! _)|].
  destruct (Z.leb_spec (tree_type t) max) as [Hle|Hgt].
  - destruct (tb !!! Z.to_nat (tree_type t)) as [o|] eqn:Eo.
    + rewrite IH by done. destruct (tb !!! Z.to_nat ty) eqn:Ey; [done|].
      destruct (Z.eqb_spec (tree_type t) ty) as [<-|]; [congruence|done].
    + rewrite IH by (by rewrite length_insert). destruct (Z.eqb_spec (tree_type t) ty) as [<-|Hne].
      * rewrite list_lookup_total_insert_eq by lia. by rewrite Eo.
      * by rewrite list_lookup_total_insert_ne by lia.
  - rewrite IH by done. destruct (Z.eqb_spec (tree_type t) ty); [lia|done].
Qed.

(** The table of a nest has at a type what is found there. *)
Lemma nest_find m max off ty l k :
  tree_at m off (Nest ty l) -> Forall (fun t => 0 <= tree_type t) l -> 0 <= k <= max ->
  (parse_rtattr_nested m max off).1 !!! Z.to_nat k = tree_find k (off + 4) l.
Proof.
  intros Ht Hl Hk. rewrite (parse_nest _ _ _ _ _ Ht). cbn [fst]. rewrite table_find; [|done|done|by rewrite length_replicate].
  by rewrite lookup_total_replicate_2 by lia.
Qed.

Lemma find_get m ty l : forall off,
  trees_at m off l ->
  match tree_get ty l with
  | Some t => exists o, tree_find ty off l = Some o /\ off <= o /\ tree_at m o t
  | None => tree_find ty off l = None
  end.
Proof.
  induction l as [|t l IH]; intros off Ha; cbn [tree_get tree_find]; [done|]. destruct Ha as [Ht Ha].
  destruct (tree_type t =? ty); [exists off; split_and!; [done|lia|done]|]. specialize (IH _ Ha).
  destruct (tree_get ty l) as [t'|]; [|done]. destruct IH as (o & E & Ho & H). exists o. pose proof (tspan1_bounds t).
  split_and!; [done|lia|done].
Qed.

(** What a printer reads of a nest: the bytes of the attribute of a type. *)
Definition leaf_bytes (ty : Z) (l : list atree) : option (list Z) :=
  match tree_get ty l with Some (Leaf _ d) => Some d | _ => None end.

Definition all_leaves (l : list atree) : Prop := Forall (fun t => exists ty d, t = Leaf ty d /\ 0 <= ty) l.

Lemma all_leaves_types l : all_leaves l -> Forall (fun t => 0 <= tree_type t) l.
Proof. intros H. eapply Forall_impl; [exact H|]. by intros t (ty & d & -> & Ht). Qed.

Lemma nest_leaf m max off ty l k :
  tree_at m off (Nest ty l) -> all_leaves l -> 0 <= k <= max -> 0 <= off ->
  match leaf_bytes k l with
  | Some d => exists o, (parse_rtattr_nested m max off).1 !!! Z.to_nat k = Some o /\ 0 <= RTA_DATA o /\
      RTA_PAYLOAD m o = Z.of_nat (length d) /\ load_bytes m (RTA_DATA o) (Z.of_nat (length d)) = d
  | None => (parse_rtattr_nested m max off).1 !!! Z.to_nat k = None
  end.
Proof.
  intros Ht Hl Hk Ho. rewrite (nest_find _ _ _ _ _ _ Ht (all_leaves_types _ Hl) Hk).
  apply tree_at_nest in Ht as (_ & _ & Ht). pose proof (find_get m k l _ Ht) as Hf. unfold leaf_bytes.
  destruct (tree_get k l) as [t|] eqn:Eg; [|done]. destruct Hf as (o & E & Hoff & Ha).
  assert (exists ty d, t = Leaf ty d) as (ty' & d & ->).
  { clear -Hl Eg. induction Hl as [|t' l (ty' & d & -> & _) _ IH]; cbn [tree_get] in Eg; [done|].
    destruct (_ =? k); [injection Eg as <-; eauto|auto]. }
  destruct Ha as (L & _ & D). exists o. change (RTA_DATA o) with (o + 4). split; [done|]. split; [lia|]. split; [|done].
  unfold RTA_PAYLOAD. rewrite L. change (RTA_LENGTH 0) with 4. lia.
Qed.

(** ** Optional values *)

(** An attribute of [k] bytes, if it was given. *)
Definition add_value (maxlen type : Z) (k : nat) (o : option Z) (n : nlmsghdr) : nlmsghdr :=
  match o with Some v => (addattr_l n maxlen type (le_bytes k v)).2 | None => n end.

Definition opt_leaf (type : Z) (k : nat) (o : option Z) : list atree :=
  match o with Some v => [Leaf type (le_bytes k v)] | None => [] end.

Lemma appends_value maxlen type k o :
  0 <= type < 2 ^ 16 -> appends maxlen (add_value maxlen type k o) (opt_leaf type k o).
Proof. intros Ht. destruct o; [by apply appends_leaf|apply appends_id]. Qed.

(** A value that fits its bytes. *)
Definition byte_sized (n : nat) (o : option Z) : Prop := match o with Some v => 0 <= v < 2 ^ (8 * Z.of_nat n) | None => True end.


Lemma nest_mod m max off ty l k n load o :
  tree_at m off (Nest ty l) -> all_leaves l -> 0 <= k <= max -> 0 <= off ->
  (forall m off, load m off = of_le_bytes (load_bytes m off (Z.of_nat n))) ->
  leaf_bytes k l = option_map (le_bytes n) o ->
  option_map (fun a => load m (RTA_DATA a)) ((parse_rtattr_nested m max off).1 !!! Z.to_nat k) =
    option_map (fun v => v mod 2 ^ (8 * Z.of_nat n)) o.
Proof.
  intros Ht Hl Hk Ho Hload E. pose proof (nest_leaf _ _ _ _ _ _ Ht Hl Hk Ho) as H. rewrite E in H.
  destruct o as [v|]; cbn [option_map] in H; [|by rewrite H]. destruct H as (a & -> & _ & _ & D).
  rewrite le_bytes_length in D. cbn [option_map]. by rewrite Hload, D, of_le_bytes_le.
Qed.

Lemma nest_value m max off ty l k n load o :
  tree_at m off (Nest ty l) -> all_leaves l -> 0 <= k <= max -> 0 <= off ->
  (forall m off, load m off = of_le_bytes (load_bytes m off (Z.of_nat n))) ->
  byte_sized n o -> leaf_bytes k l = option_map (le_bytes n) o ->
  option_map (fun a => load m (RTA_DATA a)) ((parse_rtattr_nested m max off).1 !!! Z.to_nat k) = o.
Proof.
  intros Ht Hl Hk Ho Hload Hb E. rewrite (nest_mod m max off ty l k n load o) by done.
  destruct o as [v|]; [|done]. cbn. f_equal. by apply Z.mod_small.
Qed.

(** ** Trees of several builders *)

Lemma tree_get_app ty l l' : tree_get ty (l ++ l') = match tree_get ty l with Some t => Some t | None => tree_get ty l' end.
Proof. induction l as [|t l IH]; cbn [app tree_get]; [done|]. by destruct (tree_type t =? ty). Qed.

(** The place of the first tree of a type in a nest, whatever else the nest holds. *)
Lemma nest_get m max off ty l k :
  tree_at m off (Nest ty l) -> Forall (fun t => 0 <= tree_type t) l -> 0 <= k <= max -> 0 <= off ->
  match tree_get k l with
  | Some t => exists o, (parse_rtattr_nested m max off).1 !!! Z.to_nat k = Some o /\ off + 4 <= o /\ tree_at m o t
  | None => (parse_rtattr_nested m max off).1 !!! Z.to_nat k = None
  end.
Proof.
  intros Ht Hl Hk Ho. rewrite (nest_find _ _ _ _ _ _ Ht Hl Hk).
  apply tree_at_nest in Ht as (_ & _ & Ht). pose proof (find_get m k l _ Ht) as Hf.
  destruct (tree_get k l) as [t|]; [|done]. exact Hf.
Qed.

(** The payload of a leaf. *)
Lemma leaf_data m o ty d : tree_at m o (Leaf ty d) ->
  RTA_PAYLOAD m o = Z.of_nat (length d) /\ load_bytes m (RTA_DATA o) (Z.of_nat (length d)) = d.
Proof.
  intros (L & _ & D). split; [|exact D]. unfold RTA_PAYLOAD. rewrite L. change (RTA_LENGTH 0) with 4. lia.
Qed.
