(* ===== verification/Rtnl.v ===== *)
(** * Netlink sessions (iproute2-3.1.0/lib/libnetlink.c)

    Requests, answers and dumps.  What the socket will deliver is a list of events,
    the argument [inbox]: a loop that receives is a recursion on it, and waits when
    it is used up.  What the socket accepts is the status of the call, an argument.
    A handler gets the sender and the bytes of a message and threads a state of the
    caller. *)

From S2P Require Export Netlink.

Definition load32 (m : list Z) (off : Z) : Z := of_le_bytes (load_bytes m off 4).

(** ** Messages in a buffer *)

Definition NLMSG_ERROR : Z := 2.
Definition NLMSG_DONE : Z := 3.
Definition NLM_F_REQUEST : Z := 1.
Definition NLM_F_ACK : Z := 4.
Definition NLM_F_DUMP : Z := 768.
Definition EINTR : Z := 4.
Definition EAGAIN : Z := 11.
Definition ENOBUFS : Z := 105.

(** The size of the header, and of an error with its header. *)
Definition HDR : Z := 16.
Definition ERR_LENGTH : Z := 36.

(** [iproute2-3.1.0/include/linux/netlink.h:75-76 NLMSG_ALIGN] *)
Definition NLMSG_ALIGN (len : Z) : Z := Z.land (u32 (len + 3)) (Z.lnot 3).

(** The fields of the header at an offset of the buffer. *)
Definition h_len (buf : list Z) (h : Z) : Z := load32 buf h.
Definition h_type (buf : list Z) (h : Z) : Z := load16 buf (h + 4).
Definition h_seq (buf : list Z) (h : Z) : Z := load32 buf (h + 8).
Definition h_pid (buf : list Z) (h : Z) : Z := load32 buf (h + 12).

(** The field [error] of an error message, an [int]. *)
Definition h_error (buf : list Z) (h : Z) : Z := s32 (load32 buf (h + HDR)).

(** The bytes a handler may read. *)
Definition message (buf : list Z) (h : Z) : list Z := load_bytes buf h (h_len buf h).

(** The lengths are compared as unsigned numbers once [len] is known to cover the
    header.  [iproute2-3.1.0/include/linux/netlink.h:83-85 NLMSG_OK] *)
Definition NLMSG_OK (buf : list Z) (h len : Z) : bool :=
  (HDR <=? len) && (HDR <=? h_len buf h) && (h_len buf h <=? u32 len).

(** ** The handle *)

#[local] Set Primitive Projections.

(** [iproute2-3.1.0/include/linux/netlink.h:31-36 sockaddr_nl] *)
Record sockaddr_nl := mk_addr { nl_family : Z; nl_pid : Z; nl_groups : Z }.

(** [iproute2-3.1.0/include/libnetlink.h:11-18 rtnl_handle] *)
Record rtnl_handle := mk_rth {
  rth_fd : Z; rth_local : sockaddr_nl; rth_peer : sockaddr_nl; rth_seq : Z; rth_dump : Z
}.

#[local] Unset Primitive Projections.

Definition AF_NETLINK : Z := 16.
Definition NETLINK_ROUTE : Z := 0.
Definition zero_addr : sockaddr_nl := mk_addr 0 0 0.

(** [iproute2-3.1.0/lib/libnetlink.c:31-37 rtnl_close] *)
Definition rtnl_close (rth : rtnl_handle) : rtnl_handle :=
  if 0 <=? rth_fd rth then rth <| rth_fd := - 1 |> else rth.

(** What the system calls of [rtnl_open_byproto] return, the clock included. *)
Record open_calls := {
  oc_socket : Z; oc_sndbuf : Z; oc_rcvbuf : Z; oc_bind : Z;
  oc_getsockname : Z; oc_addr : sockaddr_nl; oc_addr_len : Z; oc_time : Z
}.

(** [getsockname] stores the address the kernel assigned.  An error after the first
    leaves the socket open in the handle.
    [iproute2-3.1.0/lib/libnetlink.c:39-84 rtnl_open_byproto] *)
Definition rtnl_open_byproto (c : open_calls) (subscriptions protocol : Z) : Z * rtnl_handle :=
  let rth := mk_rth 0 zero_addr zero_addr 0 0 in
  let rth := rth <| rth_fd := oc_socket c |> in
  if rth_fd rth <? 0 then (- 1, rth)
  else if oc_sndbuf c <? 0 then (- 1, rth)
  else if oc_rcvbuf c <? 0 then (- 1, rth)
  else
    let rth := rth <| rth_local := mk_addr AF_NETLINK 0 subscriptions |> in
    if oc_bind c <? 0 then (- 1, rth)
    else if oc_getsockname c <? 0 then (- 1, rth)
    else
      let rth := rth <| rth_local := oc_addr c |> in
      if negb (oc_addr_len c =? 12) then (- 1, rth)
      else if negb (nl_family (rth_local rth) =? AF_NETLINK) then (- 1, rth)
      else (0, rth <| rth_seq := u32 (oc_time c) |>).

(** [iproute2-3.1.0/lib/libnetlink.c:86-89 rtnl_open] *)
Definition rtnl_open (c : open_calls) (subscriptions : Z) : Z * rtnl_handle :=
  rtnl_open_byproto c subscriptions NETLINK_ROUTE.

(** ** Requests *)

Definition header (len type flags seq pid : Z) : list Z :=
  le_bytes 4 len ++ le_bytes 2 type ++ le_bytes 2 flags ++ le_bytes 4 seq ++ le_bytes 4 pid.

(** The next sequence number, remembered for the dump. *)
Definition start_dump (rth : rtnl_handle) : rtnl_handle :=
  let rth := rth <| rth_seq := u32 (rth_seq rth + 1) |> in
  rth <| rth_dump := rth_seq rth |>.

(** The handle and the datagram sent; the family is a byte and three of padding.
    [iproute2-3.1.0/lib/libnetlink.c:91-108 rtnl_wilddump_request] *)
Definition rtnl_wilddump_request (rth : rtnl_handle) (family type : Z) : rtnl_handle * list Z :=
  let rth := start_dump rth in
  (rth, header 20 type (Z.lor NLM_F_DUMP NLM_F_REQUEST) (rth_dump rth) 0 ++ [u8 family; 0; 0; 0]).

(** [iproute2-3.1.0/lib/libnetlink.c:145-170 rtnl_dump_request] *)
Definition rtnl_dump_request (rth : rtnl_handle) (type : Z) (req : list Z) : rtnl_handle * list Z :=
  let rth := start_dump rth in
  (rth, header (HDR + Z.of_nat (length req)) type (Z.lor NLM_F_DUMP NLM_F_REQUEST) (rth_dump rth) 0 ++ req).

(** What a call that receives gives: an error, or a datagram with its sender and the
    length of the sender's address. *)
Inductive recv := RecvErr (errno : Z) | Recv (from : sockaddr_nl) (namelen : Z) (data : list Z).

(** A buffer keeps what earlier datagrams left beyond the new one. *)
Definition receive (data buf : list Z) : list Z := store_at 0 (take (length buf) data) buf.
Definition received (data buf : list Z) : Z := Z.of_nat (Nat.min (length data) (length buf)).
Definition MSG_TRUNC (data buf : list Z) : bool := (length buf <? length data)%nat.

(** The errors among the messages peeked at; the second component is the new
    [errno]. *)
Fixpoint check_messages (fuel : nat) (resp : list Z) (h status : Z) : Z * option Z :=
  match fuel with
  | O => (0, None)
  | S fuel =>
      if NLMSG_OK resp h status then
        if h_type resp h =? NLMSG_ERROR
        then (- 1, if h_len resp h <? ERR_LENGTH then None else Some (s32 (- h_error resp h)))
        else check_messages fuel resp (h + NLMSG_ALIGN (h_len resp h)) (status - NLMSG_ALIGN (h_len resp h))
      else (0, None)
  end.

(** [sent] is the status of [send], [peek] what [recv] finds.
    [iproute2-3.1.0/lib/libnetlink.c:115-143 rtnl_send_check] *)
Definition rtnl_send_check (sent : Z) (peek : recv) (resp : list Z) : Z * option Z :=
  if sent <? 0 then (sent, None)
  else
    match peek with
    | RecvErr errno => (if errno =? EAGAIN then 0 else - 1, Some errno)
    | Recv _ _ data =>
        check_messages (S (Z.to_nat (received data resp))) (receive data resp) 0 (received data resp)
    end.

(** ** Receiving *)

(** How a call ends: with a value; with the end of the program; waiting for a
    datagram that is not among the events; or reading outside its buffer. *)
Inductive outcome (R A : Type) :=
  | Returned (r : R) (a : A)
  | Exited (status : Z)
  | Waiting (a : A)
  | Wild.
Arguments Returned {R A} r a.
Arguments Exited {R A} status.
Arguments Waiting {R A} a.
Arguments Wild {R A}.

Section Receive.
Context {A : Type}.

(** [iproute2-3.1.0/include/libnetlink.h:28-29 rtnl_filter_t] *)
Definition rtnl_filter_t : Type := sockaddr_nl -> list Z -> A -> Z * A.

(** The arguments [arg1] and [arg2] are part of the functions.
    [iproute2-3.1.0/include/libnetlink.h:31-37 rtnl_dump_filter_arg] *)
Record rtnl_dump_filter_arg := mk_arg { d_filter : rtnl_filter_t; d_junk : option rtnl_filter_t }.

(** A message that is not for the caller. *)
Definition junk_result (j : option rtnl_filter_t) (from : sockaddr_nl) (msg : list Z) (a : A) : Z * A :=
  match j with Some j => j from msg a | None => (0, a) end.

(** *** Dumps *)

Inductive scan := Scanned (msglen : Z) (found_done : bool) (a : A) | Stopped (r : Z) (a : A).

Definition dump_mine (rth : rtnl_handle) (from : sockaddr_nl) (buf : list Z) (h : Z) : bool :=
  (nl_pid from =? 0) && (h_pid buf h =? nl_pid (rth_local rth)) && (h_seq buf h =? rth_dump rth).

(** A round takes at least 16 bytes.
    [iproute2-3.1.0/lib/libnetlink.c:210-249 rtnl_dump_filter_l] *)
Fixpoint dump_messages (fuel : nat) (rth : rtnl_handle) (arg : rtnl_dump_filter_arg) (from : sockaddr_nl)
    (buf : list Z) (h msglen : Z) (a : A) : scan :=
  match fuel with
  | O => Scanned msglen false a
  | S fuel =>
      if NLMSG_OK buf h msglen then
        let next (r : Z * A) :=
          if r.1 <? 0 then Stopped r.1 r.2
          else dump_messages fuel rth arg from buf (h + NLMSG_ALIGN (h_len buf h))
                 (msglen - NLMSG_ALIGN (h_len buf h)) r.2 in
        if negb (dump_mine rth from buf h) then next (junk_result (d_junk arg) from (message buf h) a)
        else if h_type buf h =? NLMSG_DONE then Scanned msglen true a
        else if h_type buf h =? NLMSG_ERROR then Stopped (- 1) a
        else next (d_filter arg from (message buf h) a)
      else Scanned msglen false a
  end.

(** Every filter reads the whole datagram; [found_done] is kept, [msglen] is what
    the last filter left.
    [iproute2-3.1.0/lib/libnetlink.c:206-251 rtnl_dump_filter_l] *)
Fixpoint dump_filters (args : list rtnl_dump_filter_arg) (rth : rtnl_handle) (from : sockaddr_nl)
    (buf : list Z) (status msglen : Z) (found : bool) (a : A) : scan :=
  match args with
  | [] => Scanned msglen found a
  | arg :: args =>
      match dump_messages (S (Z.to_nat status)) rth arg from buf 0 status a with
      | Stopped r a => Stopped r a
      | Scanned msglen f a => dump_filters args rth from buf status msglen (found || f) a
      end
  end.

(** The result and the events not used; [buf] is the buffer's initial content.
    [iproute2-3.1.0/lib/libnetlink.c:172-264 rtnl_dump_filter_l] *)
Fixpoint rtnl_dump_filter_l (rth : rtnl_handle) (args : list rtnl_dump_filter_arg) (buf : list Z)
    (inbox : list recv) (a : A) : outcome Z A * list recv :=
  match inbox with
  | [] => (Waiting a, [])
  | RecvErr errno :: inbox =>
      if (errno =? EINTR) || (errno =? EAGAIN) then rtnl_dump_filter_l rth args buf inbox a
      else (Returned (- 1) a, inbox)
  | Recv _ _ [] :: inbox => (Returned (- 1) a, inbox)
  | Recv from _ data :: inbox =>
      let status := received data buf in
      let trunc := MSG_TRUNC data buf in
      let buf := receive data buf in
      match dump_filters args rth from buf status 0 false a with
      | Stopped r a => (Returned r a, inbox)
      | Scanned msglen found a =>
          if found then (Returned 0 a, inbox)
          else if trunc then rtnl_dump_filter_l rth args buf inbox a
          else if negb (msglen =? 0) then (Exited 1, inbox)
          else rtnl_dump_filter_l rth args buf inbox a
      end
  end.

(** [iproute2-3.1.0/lib/libnetlink.c:266-278 rtnl_dump_filter] *)
Definition rtnl_dump_filter (rth : rtnl_handle) (filter : rtnl_filter_t) (junk : option rtnl_filter_t)
    (buf : list Z) (inbox : list recv) (a : A) : outcome Z A * list recv :=
  rtnl_dump_filter_l rth [mk_arg filter junk] buf inbox a.

(** *** Conversations *)

(** The value returned, and what was copied to [answer]. *)
Record reply := mk_reply { r_value : Z; r_answer : option (list Z) }.

Inductive talk_scan :=
  | TalkOn (status : Z) (a : A)
  | TalkReturn (r : reply) (a : A)
  | TalkExit (status : Z)
  | TalkWild.

(** Whether [status >= sizeof h] holds: the size is unsigned, so that a negative
    [status] passes. *)
Definition covers_header (status : Z) : bool := HDR <=? u64 status.

Definition give_answer (wanted : bool) (buf : list Z) (h : Z) : option (list Z) :=
  if wanted then Some (message buf h) else None.

(** [iproute2-3.1.0/lib/libnetlink.c:345-394 rtnl_talk] *)
Fixpoint talk_messages (fuel : nat) (local peer seq : Z) (wanted : bool) (junk : option rtnl_filter_t)
    (trunc : bool) (from : sockaddr_nl) (buf : list Z) (h status : Z) (a : A) : talk_scan :=
  match fuel with
  | O => TalkOn status a
  | S fuel =>
      if covers_header status then
        if Z.of_nat (length buf) <? h + HDR then TalkWild
        else
          let len := s32 (h_len buf h) in
          let l := s32 (len - HDR) in
          let next a := talk_messages fuel local peer seq wanted junk trunc from buf (h + NLMSG_ALIGN len)
                          (s32 (status - NLMSG_ALIGN len)) a in
          if (l <? 0) || (status <? len) then
            if trunc then TalkReturn (mk_reply (- 1) None) a else TalkExit 1
          else if negb ((nl_pid from =? peer) && (h_pid buf h =? local) && (h_seq buf h =? seq)) then
            let '(err, a) := junk_result junk from (message buf h) a in
            if err <? 0 then TalkReturn (mk_reply err None) a else next a
          else if h_type buf h =? NLMSG_ERROR then
            if l <? ERR_LENGTH - HDR then TalkReturn (mk_reply (- 1) None) a
            else if s32 (- h_error buf h) =? 0
            then TalkReturn (mk_reply 0 (give_answer wanted buf h)) a
            else TalkReturn (mk_reply (- 1) None) a
          else if wanted then TalkReturn (mk_reply 0 (give_answer wanted buf h)) a
          else next a
      else TalkOn status a
  end.

(** The rounds a datagram can take: one per 16 bytes, and three for a status below
    zero. *)
Definition talk_fuel (status : Z) : nat := Z.to_nat status + 4.

(** [iproute2-3.1.0/lib/libnetlink.c:324-404 rtnl_talk] *)
Fixpoint talk_loop (local peer seq : Z) (wanted : bool) (junk : option rtnl_filter_t) (buf : list Z)
    (inbox : list recv) (a : A) : outcome reply A * list recv :=
  match inbox with
  | [] => (Waiting a, [])
  | RecvErr errno :: inbox =>
      if (errno =? EINTR) || (errno =? EAGAIN) then talk_loop local peer seq wanted junk buf inbox a
      else (Returned (mk_reply (- 1) None) a, inbox)
  | Recv _ _ [] :: inbox => (Returned (mk_reply (- 1) None) a, inbox)
  | Recv from namelen data :: inbox =>
      if negb (namelen =? 12) then (Exited 1, inbox)
      else
        let status := received data buf in
        let trunc := MSG_TRUNC data buf in
        let buf := receive data buf in
        match talk_messages (talk_fuel status) local peer seq wanted junk trunc from buf 0 status a with
        | TalkReturn r a => (Returned r a, inbox)
        | TalkExit n => (Exited n, inbox)
        | TalkWild => (Wild, inbox)
        | TalkOn status a =>
            if trunc then talk_loop local peer seq wanted junk buf inbox a
            else if negb (status =? 0) then (Exited 1, inbox)
            else talk_loop local peer seq wanted junk buf inbox a
        end
  end.

(** The request completed with its sequence number, and an acknowledgement asked
    for if no answer is wanted.
    [iproute2-3.1.0/lib/libnetlink.c:304-307 rtnl_talk] *)
Definition talk_request (rtnl : rtnl_handle) (n : nlmsghdr) (wanted : bool) : rtnl_handle * nlmsghdr :=
  let rtnl := rtnl <| rth_seq := u32 (rth_seq rtnl + 1) |> in
  let n := n <| mem := store_at 8 (le_bytes 4 (rth_seq rtnl)) (mem n) |> in
  let n := if wanted then n
           else n <| mem := store_at 6 (le_bytes 2 (Z.lor (load16 (mem n) 6) NLM_F_ACK)) (mem n) |> in
  (rtnl, n).

(** The bytes sent: the length field of the structure is the first word of the
    message. *)
Definition wire (n : nlmsghdr) : list Z :=
  load_bytes (store_at 0 (le_bytes 4 (nlmsg_len n)) (mem n)) 0 (nlmsg_len n).

Definition BUF_SIZE : nat := Z.to_nat 16384.

(** [sent] is the status of [sendmsg], which is given the address of [peer] and
    [groups] and the bytes of [talk_request].
    [iproute2-3.1.0/lib/libnetlink.c:280-405 rtnl_talk] *)
Definition rtnl_talk (sent : Z) (rtnl : rtnl_handle) (n : nlmsghdr) (peer : Z) (wanted : bool)
    (junk : option rtnl_filter_t) (inbox : list recv) (a : A) :
    rtnl_handle * nlmsghdr * (outcome reply A * list recv) :=
  let '(rtnl, n) := talk_request rtnl n wanted in
  if sent <? 0 then (rtnl, n, (Returned (mk_reply (- 1) None) a, inbox))
  else
    (rtnl, n, talk_loop (nl_pid (rth_local rtnl)) peer (rth_seq rtnl) wanted junk (replicate BUF_SIZE 0) inbox a).

(** *** Listening *)

(** [iproute2-3.1.0/lib/libnetlink.c:446-466 rtnl_listen] *)
Fixpoint listen_messages (fuel : nat) (handler : rtnl_filter_t) (trunc : bool) (from : sockaddr_nl)
    (buf : list Z) (h status : Z) (a : A) : talk_scan :=
  match fuel with
  | O => TalkOn status a
  | S fuel =>
      if covers_header status then
        if Z.of_nat (length buf) <? h + HDR then TalkWild
        else
          let len := s32 (h_len buf h) in
          let l := s32 (len - HDR) in
          if (l <? 0) || (status <? len) then
            if trunc then TalkReturn (mk_reply (- 1) None) a else TalkExit 1
          else
            let '(err, a) := handler from (message buf h) a in
            if err <? 0 then TalkReturn (mk_reply err None) a
            else listen_messages fuel handler trunc from buf (h + NLMSG_ALIGN len)
                   (s32 (status - NLMSG_ALIGN len)) a
      else TalkOn status a
  end.

(** [iproute2-3.1.0/lib/libnetlink.c:407-476 rtnl_listen] *)
Fixpoint rtnl_listen (handler : rtnl_filter_t) (buf : list Z) (inbox : list recv) (a : A) :
    outcome Z A * list recv :=
  match inbox with
  | [] => (Waiting a, [])
  | RecvErr errno :: inbox =>
      if (errno =? EINTR) || (errno =? EAGAIN) || (errno =? ENOBUFS) then rtnl_listen handler buf inbox a
      else (Returned (- 1) a, inbox)
  | Recv _ _ [] :: inbox => (Returned (- 1) a, inbox)
  | Recv from namelen data :: inbox =>
      if negb (namelen =? 12) then (Exited 1, inbox)
      else
        let status := received data buf in
        let trunc := MSG_TRUNC data buf in
        let buf := receive data buf in
        match listen_messages (talk_fuel status) handler trunc from buf 0 status a with
        | TalkReturn r a => (Returned (r_value r) a, inbox)
        | TalkExit n => (Exited n, inbox)
        | TalkWild => (Wild, inbox)
        | TalkOn status a =>
            if trunc then rtnl_listen handler buf inbox a
            else if negb (status =? 0) then (Exited 1, inbox)
            else rtnl_listen handler buf inbox a
        end
  end.

(** The messages recorded in a file, whose bytes are [file]: a round takes at least
    one.  The header is read over the start of [buf], the rest behind it; a header
    cut off at the end of the file keeps the bytes of the one before.
    [iproute2-3.1.0/lib/libnetlink.c:478-533 rtnl_from_file] *)
Fixpoint rtnl_from_file (fuel : nat) (handler : rtnl_filter_t) (buf file : list Z) (a : A) : Z * A :=
  match fuel with
  | O => (0, a)
  | S fuel =>
      match file with
      | [] => (0, a)
      | _ =>
          let buf := store_at 0 (take (Z.to_nat HDR) file) buf in
          let file := drop (Z.to_nat HDR) file in
          let len := s32 (h_len buf 0) in
          let l := s32 (len - HDR) in
          if (l <? 0) || (8192 <? u64 len) then (- 1, a)
          else
            let part := take (Z.to_nat (NLMSG_ALIGN l)) file in
            let buf := store_at HDR part buf in
            let file := drop (Z.to_nat (NLMSG_ALIGN l)) file in
            if Z.of_nat (length part) <? l then (- 1, a)
            else
              let '(err, a) := handler (mk_addr AF_NETLINK 0 0) (message buf 0) a in
              if err <? 0 then (err, a) else rtnl_from_file fuel handler buf file a
      end
  end.

End Receive.

(** ** Messages and datagrams *)

#[local] Set Primitive Projections.

Record nlmsg := mk_msg { m_type : Z; m_flags : Z; m_seq : Z; m_pid : Z; m_data : list Z }.

#[local] Unset Primitive Projections.

Definition msg_len (m : nlmsg) : Z := HDR + Z.of_nat (length (m_data m)).

Definition msg_bytes (m : nlmsg) : list Z :=
  header (msg_len m) (m_type m) (m_flags m) (m_seq m) (m_pid m) ++ m_data m.

(** A message as it stands in a datagram: filled up to a multiple of four. *)
Definition padded (m : nlmsg) : list Z :=
  msg_bytes m ++ replicate (Z.to_nat (NLMSG_ALIGN (msg_len m) - msg_len m)) 0.

Definition datagram (ms : list nlmsg) : list Z := flat_map padded ms.

(** The error an error message carries. *)
Definition m_error (m : nlmsg) : Z := s32 (load32 (m_data m) 0).

Record msg_ok (m : nlmsg) : Prop := {
  mo_type : 0 <= m_type m < 2 ^ 16;
  mo_seq : 0 <= m_seq m < 2 ^ 32;
  mo_pid : 0 <= m_pid m < 2 ^ 32;
  mo_len : msg_len m < 2 ^ 30
}.

Definition blen (l : list Z) : Z := Z.of_nat (length l).

Lemma NLMSG_ALIGN_bounds z :
  0 <= z < 2 ^ 31 -> z <= NLMSG_ALIGN z < z + 4 /\ NLMSG_ALIGN z mod 4 = 0.
Proof.
  intros Hz. unfold NLMSG_ALIGN. rewrite u32_small by lia. apply (RTA_ALIGN_bounds z).
Qed.

Lemma msg_len_bounds m : msg_ok m -> HDR <= msg_len m < 2 ^ 30.
Proof. intros Hm. pose proof (mo_len _ Hm). unfold msg_len, HDR in *. lia. Qed.

Lemma header_length a b c d e : length (header a b c d e) = 16%nat.
Proof. unfold header. by rewrite !length_app, !le_bytes_length. Qed.

Lemma msg_bytes_length m : blen (msg_bytes m) = msg_len m.
Proof. unfold blen, msg_bytes, msg_len, HDR. rewrite length_app, header_length. lia. Qed.

Lemma padded_length m : msg_ok m -> blen (padded m) = NLMSG_ALIGN (msg_len m).
Proof.
  intros Hm. pose proof (msg_len_bounds m Hm) as Hl.
  pose proof (NLMSG_ALIGN_bounds (msg_len m)) as Ha. pose proof (msg_bytes_length m) as Hb.
  unfold blen, HDR in *. unfold padded. rewrite length_app, length_replicate. lia.
Qed.

Lemma load_bytes_drop buf h o n :
  0 <= h -> 0 <= o -> load_bytes buf (h + o) n = load_bytes (drop (Z.to_nat h) buf) o n.
Proof. intros Hh Ho. unfold load_bytes. rewrite drop_drop. do 2 f_equal. lia. Qed.

(** The fields of the message that stands at an offset. *)
Record message_at (buf : list Z) (h : Z) (m : nlmsg) : Prop := {
  ma_len : h_len buf h = msg_len m;
  ma_type : h_type buf h = m_type m;
  ma_seq : h_seq buf h = m_seq m;
  ma_pid : h_pid buf h = m_pid m;
  ma_message : message buf h = msg_bytes m;
  ma_error : (4 <= length (m_data m))%nat -> h_error buf h = m_error m
}.

Lemma drop_message_at buf h m rest :
  0 <= h -> msg_ok m -> drop (Z.to_nat h) buf = msg_bytes m ++ rest -> message_at buf h m.
Proof.
  intros Hh Hm Hd. pose proof (msg_len_bounds m Hm) as Hl.
  assert (h_len buf h = msg_len m) as Elen.
  { unfold h_len, load32. replace h with (h + 0) by lia. rewrite load_bytes_drop, Hd by lia.
    change (of_le_bytes (le_bytes 4 (msg_len m)) = msg_len m).
    rewrite of_le_bytes_le. apply Z.mod_small. change (2 ^ (8 * Z.of_nat 4)) with (2 ^ 32). unfold HDR in Hl. lia. }
  destruct Hm as [H1 H2 H3 H4]. constructor.
  - done.
  - unfold h_type, load16. rewrite load_bytes_drop, Hd by lia.
    change (of_le_bytes (le_bytes 2 (m_type m)) = m_type m).
    rewrite of_le_bytes_le. by apply Z.mod_small.
  - unfold h_seq, load32. rewrite load_bytes_drop, Hd by lia.
    change (of_le_bytes (le_bytes 4 (m_seq m)) = m_seq m).
    rewrite of_le_bytes_le. by apply Z.mod_small.
  - unfold h_pid, load32. rewrite load_bytes_drop, Hd by lia.
    change (of_le_bytes (le_bytes 4 (m_pid m)) = m_pid m).
    rewrite of_le_bytes_le. by apply Z.mod_small.
  - unfold message. rewrite Elen. replace h with (h + 0) by lia. rewrite load_bytes_drop, Hd by lia.
    unfold load_bytes. rewrite drop_0. pose proof (msg_bytes_length m) as Hb. unfold blen in Hb.
    rewrite take_app_le by lia. apply take_ge. lia.
  - intros H5. unfold h_error, m_error, load32.
    rewrite load_bytes_drop, Hd by (unfold HDR; lia).
    do 2 f_equal. unfold msg_bytes. rewrite <- app_assoc. unfold load_bytes.
    change (Z.to_nat HDR) with 16%nat.
    rewrite drop_app_ge by (by rewrite header_length). rewrite header_length, drop_0.
    change (Z.to_nat 4) with 4%nat. rewrite take_app_le by lia. by rewrite drop_0.
Qed.

(** ** Sessions on messages

    The calls again, without bytes: an event is an interrupted or failed call, or a
    series of messages from a sender. *)

Inductive event := EvErr (errno : Z) | Ev (from : sockaddr_nl) (ms : list nlmsg).

Definition deliver (e : event) : recv :=
  match e with EvErr n => RecvErr n | Ev from ms => Recv from 12 (datagram ms) end.

(** The messages fit their fields and the datagram the receiver's buffer. *)
Definition event_ok (size : Z) (e : event) : Prop :=
  match e with EvErr _ => True | Ev _ ms => Forall msg_ok ms /\ blen (datagram ms) <= size end.

Section Sessions.
Context {A : Type}.

Inductive verdict (R : Type) := Going (a : A) | Final (r : R) (a : A).
Arguments Going {R} a.
Arguments Final {R} r a.

(** A handler that fails ends the call with its value. *)
Definition handled {R} (fail : Z -> R) (r : Z * A) (next : A -> verdict R) : verdict R :=
  if r.1 <? 0 then Final (fail r.1) r.2 else next r.2.

Definition dump_for (rth : rtnl_handle) (from : sockaddr_nl) (m : nlmsg) : bool :=
  (nl_pid from =? 0) && (m_pid m =? nl_pid (rth_local rth)) && (m_seq m =? rth_dump rth).

Fixpoint dump_spec (rth : rtnl_handle) (arg : @rtnl_dump_filter_arg A) (from : sockaddr_nl)
    (ms : list nlmsg) (a : A) : verdict Z :=
  match ms with
  | [] => Going a
  | m :: ms =>
      if negb (dump_for rth from m)
      then handled id (junk_result (d_junk arg) from (msg_bytes m) a) (dump_spec rth arg from ms)
      else if m_type m =? NLMSG_DONE then Final 0 a
      else if m_type m =? NLMSG_ERROR then Final (- 1) a
      else handled id (d_filter arg from (msg_bytes m) a) (dump_spec rth arg from ms)
  end.

Definition talk_for (local peer seq : Z) (from : sockaddr_nl) (m : nlmsg) : bool :=
  (nl_pid from =? peer) && (m_pid m =? local) && (m_seq m =? seq).

Definition answer_of (wanted : bool) (m : nlmsg) : option (list Z) :=
  if wanted then Some (msg_bytes m) else None.

Definition talk_error (wanted : bool) (m : nlmsg) : reply :=
  if msg_len m <? ERR_LENGTH then mk_reply (- 1) None
  else if s32 (- m_error m) =? 0 then mk_reply 0 (answer_of wanted m)
  else mk_reply (- 1) None.

Fixpoint talk_spec (local peer seq : Z) (wanted : bool) (junk : option (@rtnl_filter_t A))
    (from : sockaddr_nl) (ms : list nlmsg) (a : A) : verdict reply :=
  match ms with
  | [] => Going a
  | m :: ms =>
      let next := talk_spec local peer seq wanted junk from ms in
      if negb (talk_for local peer seq from m)
      then handled (fun err => mk_reply err None) (junk_result junk from (msg_bytes m) a) next
      else if m_type m =? NLMSG_ERROR then Final (talk_error wanted m) a
      else if wanted then Final (mk_reply 0 (answer_of wanted m)) a
      else next a
  end.

Fixpoint listen_spec (handler : @rtnl_filter_t A) (from : sockaddr_nl) (ms : list nlmsg) (a : A) :
    verdict Z :=
  match ms with
  | [] => Going a
  | m :: ms => handled id (handler from (msg_bytes m) a) (listen_spec handler from ms)
  end.

(** A call over all events: an empty datagram ends it, the errors of [again] do
    not. *)
Fixpoint session {R} (fail : R) (again : Z -> bool) (scan : sockaddr_nl -> list nlmsg -> A -> verdict R)
    (evs : list event) (a : A) : outcome R A * list event :=
  match evs with
  | [] => (Waiting a, [])
  | EvErr n :: evs => if again n then session fail again scan evs a else (Returned fail a, evs)
  | Ev _ [] :: evs => (Returned fail a, evs)
  | Ev from ms :: evs =>
      match scan from ms a with
      | Going a => session fail again scan evs a
      | Final r a => (Returned r a, evs)
      end
  end.

Definition interrupted (n : Z) : bool := (n =? EINTR) || (n =? EAGAIN).

(** ** The bytes and the messages *)

Lemma datagram_cons m ms : datagram (m :: ms) = padded m ++ datagram ms.
Proof. reflexivity. Qed.

Lemma blen_app l k : blen (l ++ k) = blen l + blen k.
Proof. unfold blen. rewrite length_app. lia. Qed.

Lemma datagram_mod ms : Forall msg_ok ms -> blen (datagram ms) mod 4 = 0.
Proof.
  induction 1 as [|m ms Hm _ IH]; [done|]. rewrite datagram_cons, blen_app, padded_length by done.
  pose proof (msg_len_bounds m Hm) as Hl. unfold HDR in Hl.
  destruct (NLMSG_ALIGN_bounds (msg_len m)) as [_ H4]; [lia|].
  rewrite Z.add_mod, H4, IH by lia. done.
Qed.

Lemma datagram_count ms : Forall msg_ok ms -> 16 * Z.of_nat (length ms) <= blen (datagram ms).
Proof.
  induction 1 as [|m ms Hm _ IH]; [done|]. rewrite datagram_cons, blen_app, padded_length by done.
  pose proof (msg_len_bounds m Hm) as Hl. unfold HDR in Hl.
  pose proof (NLMSG_ALIGN_bounds (msg_len m)). cbn [length]. lia.
Qed.

(** The head of what is left of a datagram. *)
Record head_at (buf : list Z) (h status : Z) (m : nlmsg) (ms : list nlmsg) (rest : list Z) : Prop := {
  ha_at : message_at buf h m;
  ha_len : HDR <= msg_len m <= status;
  ha_align : NLMSG_ALIGN (msg_len m) <= status;
  ha_next : status - NLMSG_ALIGN (msg_len m) = blen (datagram ms);
  ha_drop : drop (Z.to_nat (h + NLMSG_ALIGN (msg_len m))) buf = datagram ms ++ rest;
  ha_in : h + HDR <= blen buf
}.

Lemma datagram_head buf h m ms rest :
  0 <= h -> Forall msg_ok (m :: ms) -> drop (Z.to_nat h) buf = datagram (m :: ms) ++ rest ->
  head_at buf h (blen (datagram (m :: ms))) m ms rest.
Proof.
  intros Hh Hms Hd. apply Forall_cons in Hms as [Hm Hms].
  pose proof (msg_len_bounds m Hm) as Hl.
  pose proof (NLMSG_ALIGN_bounds (msg_len m)) as Ha. pose proof (padded_length m Hm) as Hp.
  pose proof (msg_bytes_length m) as Hb.
  assert (blen (datagram (m :: ms)) = NLMSG_ALIGN (msg_len m) + blen (datagram ms)) as E
    by (by rewrite datagram_cons, blen_app, Hp).
  assert (0 <= blen (datagram ms)) as H0 by (unfold blen; lia).
  unfold HDR in Hl. rewrite datagram_cons, <- app_assoc in Hd. constructor; unfold HDR; try lia.
  - unfold padded in Hd. rewrite <- app_assoc in Hd. by apply (drop_message_at _ _ _ _ Hh Hm Hd).
  - rewrite Z2Nat.inj_add, <- drop_drop, Hd by lia. apply drop_app_length'. unfold blen in Hp. lia.
  - assert (blen (drop (Z.to_nat h) buf) = blen (padded m) + blen (datagram ms ++ rest)) as Hlen
      by (by rewrite Hd, blen_app).
    unfold blen in Hlen at 1. rewrite length_drop in Hlen. rewrite Hp in Hlen.
    assert (0 <= blen (datagram ms ++ rest)) by (unfold blen; lia). unfold blen. lia.
Qed.

Lemma head_ok buf h status m ms rest :
  head_at buf h status m ms rest -> status < 2 ^ 31 -> NLMSG_OK buf h status = true.
Proof.
  intros [H1 H2 H3 H4 H5 H6] Hs. unfold NLMSG_OK. rewrite (ma_len _ _ _ H1).
  unfold HDR in *. rewrite u32_small by lia.
  by rewrite !(proj2 (Z.leb_le _ _)) by lia.
Qed.

Definition scan_agrees (v : verdict Z) (s : scan) : Prop :=
  match v with
  | Going a => s = Scanned 0 false a
  | Final r a => s = Stopped r a \/ r = 0 /\ exists n, s = Scanned n true a
  end.

Lemma dump_messages_spec rth arg from buf ms : forall rest h fuel a,
  0 <= h -> Forall msg_ok ms -> drop (Z.to_nat h) buf = datagram ms ++ rest ->
  blen (datagram ms) < 2 ^ 31 -> (length ms < fuel)%nat ->
  scan_agrees (dump_spec rth arg from ms a)
    (dump_messages fuel rth arg from buf h (blen (datagram ms)) a).
Proof.
  induction ms as [|m ms IH]; intros rest h fuel a Hh Hms Hd Hs Hf; (destruct fuel as [|fuel]; [cbn in Hf; lia|]).
  - cbn [dump_messages dump_spec]. unfold NLMSG_OK. done.
  - pose proof (datagram_head buf h m ms rest Hh Hms Hd) as Hat.
    apply Forall_cons in Hms as [Hm Hms]. cbn [dump_messages dump_spec].
    rewrite (head_ok _ _ _ _ _ _ Hat Hs). destruct Hat as [H1 H2 H3 H4 H5 H6].
    destruct H1 as [E1 E2 E3 E4 E5 _].
    unfold dump_mine, dump_for. rewrite E1, E2, E3, E4, E5, H4.
    pose proof (msg_len_bounds m Hm) as Hl. unfold HDR in Hl.
    destruct (NLMSG_ALIGN_bounds (msg_len m)) as [Ha _]; [lia|].
    assert (forall r : Z * A,
      scan_agrees (handled id r (dump_spec rth arg from ms))
        (if r.1 <? 0 then Stopped r.1 r.2
         else dump_messages fuel rth arg from buf (h + NLMSG_ALIGN (msg_len m)) (blen (datagram ms)) r.2)) as Hnext.
    { intros r. unfold handled. destruct (r.1 <? 0); [by left|].
      apply (IH rest); [lia|done|done|lia|cbn in Hf; lia]. }
    destruct (negb _); [apply Hnext|].
    destruct (m_type m =? NLMSG_DONE); [right; eauto|].
    destruct (m_type m =? NLMSG_ERROR); [by left|]. apply Hnext.
Qed.

Lemma receive_all data buf :
  blen data <= blen buf ->
  received data buf = blen data /\ MSG_TRUNC data buf = false /\
  length (receive data buf) = length buf /\
  exists rest, drop (Z.to_nat 0) (receive data buf) = data ++ rest.
Proof.
  unfold blen. intros H. unfold received, MSG_TRUNC, receive. rewrite take_ge by lia.
  repeat split; [lia|apply Nat.ltb_ge; lia|apply store_at_length; lia|].
  exists (drop (length data) buf). reflexivity.
Qed.

Definition scan_of (v : verdict reply) : talk_scan :=
  match v with Going a => TalkOn 0 a | Final r a => TalkReturn r a end.

Lemma head_covered buf h status m ms rest :
  head_at buf h status m ms rest -> msg_ok m -> status < 2 ^ 31 ->
  covers_header status = true /\ (Z.of_nat (length buf) <? h + HDR) = false /\
  s32 (h_len buf h) = msg_len m /\ s32 (msg_len m - HDR) = msg_len m - HDR /\
  (msg_len m - HDR <? 0) || (status <? msg_len m) = false /\
  s32 (status - NLMSG_ALIGN (msg_len m)) = blen (datagram ms).
Proof.
  intros [H1 H2 H3 H4 H5 H6] Hm Hs. pose proof (msg_len_bounds m Hm) as Hl. unfold HDR, blen in *.
  pose proof (NLMSG_ALIGN_bounds (msg_len m)) as Ha.
  unfold covers_header, HDR. rewrite (ma_len _ _ _ H1), u64_small by lia. rewrite !s32_small by lia.
  split; [by apply Z.leb_le; lia|]. split; [by apply Z.ltb_ge; lia|].
  split; [done|]. split; [done|]. split; [|lia].
  apply orb_false_iff. split; apply Z.ltb_ge; lia.
Qed.

Lemma talk_messages_spec local peer seq wanted junk from buf ms : forall rest h fuel a,
  0 <= h -> Forall msg_ok ms -> drop (Z.to_nat h) buf = datagram ms ++ rest ->
  blen (datagram ms) < 2 ^ 31 -> (length ms < fuel)%nat ->
  talk_messages fuel local peer seq wanted junk false from buf h (blen (datagram ms)) a =
  scan_of (talk_spec local peer seq wanted junk from ms a).
Proof.
  induction ms as [|m ms IH]; intros rest h fuel a Hh Hms Hd Hs Hf; (destruct fuel as [|fuel]; [cbn in Hf; lia|]).
  - done.
  - pose proof (datagram_head buf h m ms rest Hh Hms Hd) as Hat.
    apply Forall_cons in Hms as [Hm Hms]. cbn [talk_messages talk_spec].
    destruct (head_covered _ _ _ _ _ _ Hat Hm Hs) as (-> & -> & -> & -> & -> & ->).
    destruct Hat as [[E1 E2 E3 E4 E5 E6] H2 _ H4 H5 _].
    unfold talk_for, talk_error, answer_of, give_answer. rewrite E2, E3, E4, E5.
    pose proof (msg_len_bounds m Hm) as Hl. unfold HDR in Hl.
    destruct (NLMSG_ALIGN_bounds (msg_len m)) as [Ha _]; [lia|].
    assert (forall a, talk_messages fuel local peer seq wanted junk false from buf (h + NLMSG_ALIGN (msg_len m))
      (blen (datagram ms)) a = scan_of (talk_spec local peer seq wanted junk from ms a)) as Hnext
      by (intros a'; apply (IH rest); [lia|done|done|lia|cbn in Hf; lia]).
    destruct (negb _).
    { unfold handled. destruct (junk_result _ _ _ _) as [err a']. cbn [fst snd].
      by destruct (err <? 0); [|rewrite Hnext]. }
    destruct (m_type m =? NLMSG_ERROR); [|by destruct wanted; [|rewrite Hnext]].
    replace (msg_len m - HDR <? ERR_LENGTH - HDR) with (msg_len m <? ERR_LENGTH)
      by (unfold HDR, ERR_LENGTH; apply eq_true_iff_eq; rewrite !Z.ltb_lt; lia).
    destruct (Z.ltb_spec (msg_len m) ERR_LENGTH) as [|Hlong]; [done|].
    rewrite E6 by (unfold ERR_LENGTH, msg_len, HDR in Hlong; lia). by destruct (_ =? 0).
Qed.

Lemma listen_messages_spec handler from buf ms : forall rest h fuel a,
  0 <= h -> Forall msg_ok ms -> drop (Z.to_nat h) buf = datagram ms ++ rest ->
  blen (datagram ms) < 2 ^ 31 -> (length ms < fuel)%nat ->
  listen_messages fuel handler false from buf h (blen (datagram ms)) a =
  match listen_spec handler from ms a with
  | Going a => TalkOn 0 a
  | Final r a => TalkReturn (mk_reply r None) a
  end.
Proof.
  induction ms as [|m ms IH]; intros rest h fuel a Hh Hms Hd Hs Hf; (destruct fuel as [|fuel]; [cbn in Hf; lia|]).
  - done.
  - pose proof (datagram_head buf h m ms rest Hh Hms Hd) as Hat.
    apply Forall_cons in Hms as [Hm Hms]. cbn [listen_messages listen_spec].
    destruct (head_covered _ _ _ _ _ _ Hat Hm Hs) as (-> & -> & -> & -> & -> & ->).
    destruct Hat as [[_ _ _ _ E5 _] _ _ H4 H5 _]. rewrite E5. unfold handled.
    destruct (handler from (msg_bytes m) a) as [err a']. cbn [fst snd].
    destruct (err <? 0); [done|]. pose proof (msg_len_bounds m Hm) as Hl. unfold HDR in Hl.
    destruct (NLMSG_ALIGN_bounds (msg_len m)) as [Ha _]; [lia|].
    apply (IH rest); [lia|done|done|lia|cbn in Hf; lia].
Qed.

(** A call over events agrees with the session on messages, when one datagram does. *)
Lemma session_agrees {R} (call : list Z -> list recv -> A -> outcome R A * list recv)
    (fail : R) (again : Z -> bool) (scan : sockaddr_nl -> list nlmsg -> A -> verdict R) size :
  size < 2 ^ 31 ->
  (forall buf a, call buf [] a = (Waiting a, [])) ->
  (forall buf n inbox a,
    call buf (RecvErr n :: inbox) a = if again n then call buf inbox a else (Returned fail a, inbox)) ->
  (forall buf from k inbox a, call buf (Recv from k [] :: inbox) a = (Returned fail a, inbox)) ->
  (forall buf from ms inbox a,
    blen buf = size -> datagram ms <> [] -> Forall msg_ok ms -> blen (datagram ms) <= size ->
    call buf (Recv from 12 (datagram ms) :: inbox) a =
    match scan from ms a with
    | Going a => call (receive (datagram ms) buf) inbox a
    | Final r a => (Returned r a, inbox)
    end) ->
  forall evs buf a, blen buf = size -> Forall (event_ok size) evs ->
  call buf (map deliver evs) a =
  ((session fail again scan evs a).1, map deliver (session fail again scan evs a).2).
Proof.
  intros Hsize Hnil Herr Heof Hmsg. induction evs as [|[n|from ms] evs IH]; intros buf a Hbuf Hok; cbn [map deliver].
  - apply Hnil.
  - apply Forall_cons in Hok as [_ Hok]. rewrite Herr. cbn [session]. destruct (again n); [by apply IH|done].
  - apply Forall_cons in Hok as [[Hms Hfit] Hok]. cbn [session].
    destruct ms as [|m ms]; [apply Heof|]. rewrite Hmsg; [|done| |done|done].
    + destruct (scan from (m :: ms) a) as [a'|r a']; [|done]. apply IH; [|done].
      unfold blen in *. destruct (receive_all (datagram (m :: ms)) buf) as (_ & _ & Hl & _);
        [unfold blen; lia|]. by rewrite Hl.
    + intros E. apply (f_equal blen) in E. pose proof (datagram_count _ Hms) as Hc.
      rewrite E in Hc. unfold blen in Hc. cbn [length] in Hc. lia.
Qed.

Lemma dump_filter_agrees rth flt jnk size evs buf a :
  size < 2 ^ 31 -> blen buf = size -> Forall (event_ok size) evs ->
  rtnl_dump_filter rth flt jnk buf (map deliver evs) a =
  (let s := session (- 1) interrupted (dump_spec rth (mk_arg flt jnk)) evs a in (s.1, map deliver s.2)).
Proof.
  intros Hsize Hbuf Hok. cbv zeta.
  apply (session_agrees (fun buf inbox a => rtnl_dump_filter rth flt jnk buf inbox a) _ _ _ size); try done.
  clear - Hsize. intros buf from ms inbox a Hbuf Hne Hms Hfit.
  unfold rtnl_dump_filter. cbn [rtnl_dump_filter_l].
  destruct (datagram ms) as [|b data] eqn:Ed; [done|]. rewrite <- Ed in *. clear Hne Ed.
  destruct (receive_all (datagram ms) buf) as (E1 & E2 & E3 & rest & Hd); [lia|].
  rewrite E1, E2. cbn [dump_filters].
  pose proof (datagram_count ms Hms) as Hc.
  pose proof (dump_messages_spec rth (mk_arg flt jnk) from (receive (datagram ms) buf) ms rest 0
    (S (Z.to_nat (blen (datagram ms)))) a) as Hs.
  destruct (dump_spec rth (mk_arg flt jnk) from ms a) as [a'|r a']; cbn [scan_agrees] in Hs.
  - rewrite Hs by (done || lia). done.
  - destruct Hs as [->|[-> [n ->]]]; try done; lia.
Qed.

Lemma talk_loop_agrees local peer seq wanted jnk evs buf a :
  blen buf < 2 ^ 31 -> Forall (event_ok (blen buf)) evs ->
  talk_loop local peer seq wanted jnk buf (map deliver evs) a =
  (let s := session (mk_reply (- 1) None) interrupted (talk_spec local peer seq wanted jnk) evs a in
   (s.1, map deliver s.2)).
Proof.
  intros Hsize Hok. cbv zeta.
  apply (session_agrees (talk_loop local peer seq wanted jnk) _ _ _ (blen buf)); try done.
  clear - Hsize. revert Hsize. generalize (blen buf) as size. clear buf. intros size Hsize buf from ms inbox a Hbuf Hne Hms Hfit.
  cbn [talk_loop].
  destruct (datagram ms) as [|b data] eqn:Ed; [done|]. rewrite <- Ed in *. clear Hne Ed.
  destruct (receive_all (datagram ms) buf) as (E1 & E2 & E3 & rest & Hd); [lia|].
  rewrite E1, E2. change (negb (12 =? 12)) with false. cbv iota. pose proof (datagram_count ms Hms) as Hc.
  rewrite (talk_messages_spec local peer seq wanted jnk from _ ms rest 0) by (done || unfold talk_fuel; lia).
  by destruct (talk_spec _ _ _ _ _ from ms a).
Qed.

Lemma listen_agrees handler evs buf a :
  blen buf < 2 ^ 31 -> Forall (event_ok (blen buf)) evs ->
  rtnl_listen handler buf (map deliver evs) a =
  (let s := session (- 1) (fun n => interrupted n || (n =? ENOBUFS)) (listen_spec handler) evs a in
   (s.1, map deliver s.2)).
Proof.
  intros Hsize Hok. cbv zeta.
  apply (session_agrees (rtnl_listen handler) _ _ _ (blen buf)); try done.
  clear - Hsize. revert Hsize. generalize (blen buf) as size. clear buf. intros size Hsize buf from ms inbox a Hbuf Hne Hms Hfit.
  cbn [rtnl_listen].
  destruct (datagram ms) as [|b data] eqn:Ed; [done|]. rewrite <- Ed in *. clear Hne Ed.
  destruct (receive_all (datagram ms) buf) as (E1 & E2 & E3 & rest & Hd); [lia|].
  rewrite E1, E2. change (negb (12 =? 12)) with false. cbv iota. pose proof (datagram_count ms Hms) as Hc.
  rewrite (listen_messages_spec handler from _ ms rest 0) by (done || unfold talk_fuel; lia).
  by destruct (listen_spec handler from ms a).
Qed.

End Sessions.

(** C9: The three receiving calls on the bytes of well-formed datagrams are the sessions
    on their messages: filters, junk handlers and listeners are called on the same
    messages in the same order, with the same results and the same events left. *)
Theorem sessions_refine {A} (size : Z) (buf : list Z) (evs : list event) (a : A) :
  size < 2 ^ 31 -> blen buf = size -> Forall (event_ok size) evs ->
  (forall rth flt jnk,
    rtnl_dump_filter rth flt jnk buf (map deliver evs) a =
    (let s := session (- 1) interrupted (dump_spec rth (mk_arg flt jnk)) evs a in (s.1, map deliver s.2))) /\
  (forall local peer seq wanted jnk,
    talk_loop local peer seq wanted jnk buf (map deliver evs) a =
    (let s := session (mk_reply (- 1) None) interrupted (talk_spec local peer seq wanted jnk) evs a in
     (s.1, map deliver s.2))) /\
  (forall handler,
    rtnl_listen handler buf (map deliver evs) a =
    (let s := session (- 1) (fun n => interrupted n || (n =? ENOBUFS)) (listen_spec handler) evs a in
     (s.1, map deliver s.2))).
Proof.
  intros Hs <- Hok. split; [|split]; intros; [by eapply dump_filter_agrees|by apply talk_loop_agrees|by apply listen_agrees].
Qed.

(** ** Answers arrive *)

Section Liveness.
Context {A : Type}.

(** A handler that never fails. *)
Definition tolerant (f : @rtnl_filter_t A) : Prop := forall from msg a, 0 <= (f from msg a).1.

Definition tolerant_junk (j : option (@rtnl_filter_t A)) : Prop :=
  match j with Some f => tolerant f | None => True end.

Lemma junk_result_tolerant j from msg a : tolerant_junk j -> ((junk_result j from msg a).1 <? 0) = false.
Proof. intros Hj. apply Z.ltb_ge. destruct j as [f|]; [apply Hj|done]. Qed.

(** What a message that does not end a conversation is: for somebody else, or an
    unexpected one. *)
Definition passed_over (local peer seq : Z) (wanted : bool) (from : sockaddr_nl) (m : nlmsg) : Prop :=
  talk_for local peer seq from m = false \/ m_type m <> NLMSG_ERROR /\ wanted = false.

Definition passes (P : sockaddr_nl -> nlmsg -> Prop) (e : event) : Prop :=
  match e with
  | EvErr n => interrupted n = true
  | Ev from ms => ms <> [] /\ Forall (P from) ms
  end.

(** A session comes past the events on which no scan ends. *)
Lemma session_passes {R} (fail : R) scan (P : sockaddr_nl -> nlmsg -> Prop) before rest :
  (forall from ms a, Forall (P from) ms -> exists a', scan from ms a = @Going A R a') ->
  Forall (passes P) before -> forall a, exists a',
  session fail interrupted scan (before ++ rest) a = session fail interrupted scan rest a'.
Proof.
  intros Hscan. induction 1 as [|[n|from ms] before He _ IH]; intros a; cbn [app session].
  - by exists a.
  - cbn [passes] in He. rewrite He. apply IH.
  - destruct He as [Hne Hms]. destruct ms as [|m ms]; [done|].
    destruct (Hscan from (m :: ms) a Hms) as [a' ->]. apply IH.
Qed.

Lemma talk_spec_passes local peer seq wanted jnk from ms rest :
  tolerant_junk jnk -> Forall (passed_over local peer seq wanted from) ms -> forall a, exists a',
  talk_spec local peer seq wanted jnk from (ms ++ rest) a = talk_spec local peer seq wanted jnk from rest a'.
Proof.
  intros Hj. induction 1 as [|m ms Hm _ IH]; intros a; cbn [app talk_spec]; [by exists a|].
  unfold handled. destruct (talk_for local peer seq from m) eqn:Ef; cbn [negb].
  - destruct Hm as [Hm|[Ht ->]]; [congruence|]. rewrite (proj2 (Z.eqb_neq _ _)) by done. apply IH.
  - rewrite junk_result_tolerant by done. apply IH.
Qed.

(** The result of the message that ends a conversation. *)
Definition reply_to (wanted : bool) (m : nlmsg) : reply :=
  if m_type m =? NLMSG_ERROR then talk_error wanted m else mk_reply 0 (answer_of wanted m).

Lemma talk_session_answered local peer seq wanted jnk before from ms1 m ms2 after :
  tolerant_junk jnk ->
  Forall (passes (passed_over local peer seq wanted)) before ->
  Forall (passed_over local peer seq wanted from) ms1 ->
  talk_for local peer seq from m = true -> m_type m = NLMSG_ERROR \/ wanted = true ->
  forall a, exists a',
  session (mk_reply (- 1) None) interrupted (talk_spec local peer seq wanted jnk)
    (before ++ Ev from (ms1 ++ m :: ms2) :: after) a =
  (Returned (reply_to wanted m) a', after).
Proof.
  intros Hj Hb H1 Hm Hend a.
  destruct (session_passes (mk_reply (- 1) None) (talk_spec local peer seq wanted jnk)
    (passed_over local peer seq wanted) before (Ev from (ms1 ++ m :: ms2) :: after)) with (a := a)
    as [a1 ->]; [|done|].
  { intros f ms a' Hms. destruct (talk_spec_passes local peer seq wanted jnk f ms [] Hj Hms a') as [a2 E].
    rewrite app_nil_r in E. by exists a2. }
  destruct (talk_spec_passes local peer seq wanted jnk from ms1 (m :: ms2) Hj H1 a1) as [a2 E].
  exists a2. cbn [session]. destruct (ms1 ++ m :: ms2) as [|x l] eqn:El; [by destruct ms1|]. rewrite E.
  cbn [talk_spec]. rewrite Hm. cbn [negb]. unfold reply_to.
  destruct (Z.eqb_spec (m_type m) NLMSG_ERROR) as [|Hne]; [done|].
  by destruct Hend as [?| ->]; [congruence|].
Qed.

(** What reading a message does to the state of the handlers. *)
Definition dump_step (rth : rtnl_handle) (flt : @rtnl_filter_t A) (jnk : option rtnl_filter_t)
    (a : A) (x : sockaddr_nl * nlmsg) : A :=
  if dump_for rth x.1 x.2 then (flt x.1 (msg_bytes x.2) a).2
  else (junk_result jnk x.1 (msg_bytes x.2) a).2.

(** The messages of the events, in order. *)
Definition messages (evs : list event) : list (sockaddr_nl * nlmsg) :=
  flat_map (fun e => match e with EvErr _ => [] | Ev from ms => (from,.) <$> ms end) evs.

(** A message that does not end a dump, and on which no handler fails. *)
Definition dump_on (rth : rtnl_handle) (flt : @rtnl_filter_t A) (jnk : option rtnl_filter_t)
    (from : sockaddr_nl) (m : nlmsg) : Prop :=
  if dump_for rth from m
  then m_type m <> NLMSG_DONE /\ m_type m <> NLMSG_ERROR /\ (forall a : A, 0 <= (flt from (msg_bytes m) a).1)
  else forall a : A, 0 <= (junk_result jnk from (msg_bytes m) a).1.

Lemma dump_spec_passes rth flt jnk from ms rest :
  Forall (dump_on rth flt jnk from) ms -> forall a,
  dump_spec rth (mk_arg flt jnk) from (ms ++ rest) a =
  dump_spec rth (mk_arg flt jnk) from rest (foldl (dump_step rth flt jnk) a ((from,.) <$> ms)).
Proof.
  induction 1 as [|m ms Hm _ IH]; intros a; [done|].
  cbn [app dump_spec fmap list_fmap foldl d_filter d_junk]. unfold handled, dump_step at 2. cbn [fst snd].
  unfold dump_on in Hm. destruct (dump_for rth from m); cbn [negb].
  - destruct Hm as (H1 & H2 & H3). rewrite !(proj2 (Z.eqb_neq _ _)) by done.
    rewrite (proj2 (Z.ltb_ge _ _)) by apply H3. apply IH.
  - rewrite (proj2 (Z.ltb_ge _ _)) by apply Hm. apply IH.
Qed.

(** What does not end listening. *)
Definition listened (e : event) : Prop :=
  match e with EvErr n => (interrupted n || (n =? ENOBUFS)) = true | Ev _ ms => ms <> [] end.

Lemma listen_spec_all (handler : @rtnl_filter_t A) from ms : tolerant handler -> forall a,
  listen_spec handler from ms a = @Going A Z (foldl (fun a x => (handler x.1 (msg_bytes x.2) a).2) a ((from,.) <$> ms)).
Proof.
  intros Ht. induction ms as [|m ms IH]; intros a; [done|]. cbn [listen_spec fmap list_fmap foldl fst snd].
  unfold handled. rewrite (proj2 (Z.ltb_ge _ _)) by apply Ht. apply IH.
Qed.

(** Listening hands every message to a handler that never fails, in order, and waits for
    more. *)
Theorem listen_complete (handler : @rtnl_filter_t A) evs buf a :
  tolerant handler -> blen buf < 2 ^ 31 -> Forall (event_ok (blen buf)) evs -> Forall listened evs ->
  rtnl_listen handler buf (map deliver evs) a =
    (Waiting (foldl (fun a x => (handler x.1 (msg_bytes x.2) a).2) a (messages evs)), []).
Proof.
  intros Ht Hb Hok Hl. rewrite listen_agrees by done. cbv zeta. clear Hok Hb. revert a.
  induction Hl as [|[n|from ms] evs He _ IH]; intros a; cbn [session messages flat_map]; [done| |].
  - cbn [listened] in He. rewrite He. apply IH.
  - destruct ms as [|m ms]; [done|]. rewrite listen_spec_all by done. rewrite foldl_app. apply IH.
Qed.

Lemma dump_session_complete rth flt jnk before from ms1 m ms2 after :
  Forall (passes (dump_on rth flt jnk)) before -> Forall (dump_on rth flt jnk from) ms1 ->
  dump_for rth from m = true -> m_type m = NLMSG_DONE -> forall a,
  session (- 1) interrupted (dump_spec rth (mk_arg flt jnk)) (before ++ Ev from (ms1 ++ m :: ms2) :: after) a =
  (Returned 0 (foldl (dump_step rth flt jnk) a (messages (before ++ [Ev from ms1]))), after).
Proof.
  intros Hb H1 Hm Hd. induction Hb as [|[n|f ms] before He _ IH]; intros a; cbn [app session].
  - destruct (ms1 ++ m :: ms2) as [|x l] eqn:El; [by destruct ms1|]. rewrite <- El.
    rewrite dump_spec_passes by done. cbn [dump_spec]. rewrite Hm, Hd. cbn.
    by rewrite app_nil_r.
  - cbn [passes] in He. rewrite He. apply IH.
  - destruct He as [Hne Hms]. destruct ms as [|x l] eqn:El; [done|]. rewrite <- El in *.
    rewrite <- (app_nil_r ms) at 1. rewrite dump_spec_passes by done. cbn [dump_spec].
    rewrite IH. cbn [messages flat_map]. by rewrite foldl_app.
Qed.

End Liveness.

(** The conversation over the request's own sequence number. *)
Definition request_seq (rtnl : rtnl_handle) : Z := u32 (rth_seq rtnl + 1).

Lemma talk_returns {A} (sent : Z) (rtnl : rtnl_handle) (n : nlmsghdr) (peer : Z) (wanted : bool)
    (jnk : option (@rtnl_filter_t A)) before from ms1 m ms2 after a :
  let local := nl_pid (rth_local rtnl) in
  let seq := request_seq rtnl in
  0 <= sent -> tolerant_junk jnk ->
  Forall (event_ok 16384) (before ++ Ev from (ms1 ++ m :: ms2) :: after) ->
  Forall (passes (passed_over local peer seq wanted)) before ->
  Forall (passed_over local peer seq wanted from) ms1 ->
  talk_for local peer seq from m = true -> m_type m = NLMSG_ERROR \/ wanted = true ->
  exists a',
    (rtnl_talk sent rtnl n peer wanted jnk (map deliver (before ++ Ev from (ms1 ++ m :: ms2) :: after)) a).2 =
    (Returned (reply_to wanted m) a', map deliver after).
Proof.
  cbv zeta. intros Hsent Hj Hok Hb H1 Hm Hend. unfold rtnl_talk, talk_request.
  rewrite (proj2 (Z.ltb_ge sent 0)) by done. cbn [snd].
  assert (blen (replicate BUF_SIZE 0) = 16384) as Hbuf by (unfold blen; by rewrite length_replicate).
  rewrite talk_loop_agrees by (rewrite Hbuf; done). cbv zeta.
  change (rth_seq (rtnl <| rth_seq := _ |>)) with (request_seq rtnl).
  change (rth_local (rtnl <| rth_seq := _ |>)) with (rth_local rtnl).
  destruct (talk_session_answered (nl_pid (rth_local rtnl)) peer (request_seq rtnl) wanted jnk before from
    ms1 m ms2 after Hj Hb H1 Hm Hend a) as [a' ->]. by exists a'.
Qed.

(** C32: [rtnl_talk] comes back as soon as its answer is there: whatever interruptions,
    messages for others and unexpected messages come before it, the call returns at
    the first error message or, when an answer is wanted, the first message for the
    request; the value is 0 exactly when the error is 0 or an answer was copied, and
    later events are left. *)
Theorem talk_answered {A} (sent : Z) (rtnl : rtnl_handle) (n : nlmsghdr) (peer : Z) (wanted : bool)
    (jnk : option (@rtnl_filter_t A)) before from ms1 m ms2 after a :
  let local := nl_pid (rth_local rtnl) in
  let seq := request_seq rtnl in
  0 <= sent -> tolerant_junk jnk ->
  Forall (event_ok 16384) (before ++ Ev from (ms1 ++ m :: ms2) :: after) ->
  Forall (passes (passed_over local peer seq wanted)) before ->
  Forall (passed_over local peer seq wanted from) ms1 ->
  talk_for local peer seq from m = true -> m_type m = NLMSG_ERROR \/ wanted = true ->
  exists a',
    (rtnl_talk sent rtnl n peer wanted jnk (map deliver (before ++ Ev from (ms1 ++ m :: ms2) :: after)) a).2 =
    (Returned (reply_to wanted m) a', map deliver after).
Proof. apply talk_returns. Qed.

Lemma dump_filter_complete {A} (rth : rtnl_handle) (flt : @rtnl_filter_t A) (jnk : option rtnl_filter_t)
    (size : Z) (buf : list Z) before from ms1 m ms2 after a :
  size < 2 ^ 31 -> blen buf = size ->
  Forall (event_ok size) (before ++ Ev from (ms1 ++ m :: ms2) :: after) ->
  Forall (passes (dump_on rth flt jnk)) before -> Forall (dump_on rth flt jnk from) ms1 ->
  dump_for rth from m = true -> m_type m = NLMSG_DONE ->
  rtnl_dump_filter rth flt jnk buf (map deliver (before ++ Ev from (ms1 ++ m :: ms2) :: after)) a =
  (Returned 0 (foldl (dump_step rth flt jnk) a (messages (before ++ [Ev from ms1]))), map deliver after).
Proof.
  intros Hs Hbuf Hok Hb H1 Hm Hd. erewrite dump_filter_agrees by done. cbv zeta.
  by rewrite dump_session_complete.
Qed.

(** C33: A dump ends at the first message that says so, and until then every message for
    it was given to the filter, every other one to the junk handler, each once and in
    the order sent; the value is 0, whatever interruptions came between. *)
Theorem dump_complete {A} (rth : rtnl_handle) (flt : @rtnl_filter_t A) (jnk : option rtnl_filter_t)
    (size : Z) (buf : list Z) before from ms1 m ms2 after a :
  size < 2 ^ 31 -> blen buf = size ->
  Forall (event_ok size) (before ++ Ev from (ms1 ++ m :: ms2) :: after) ->
  Forall (passes (dump_on rth flt jnk)) before -> Forall (dump_on rth flt jnk from) ms1 ->
  dump_for rth from m = true -> m_type m = NLMSG_DONE ->
  rtnl_dump_filter rth flt jnk buf (map deliver (before ++ Ev from (ms1 ++ m :: ms2) :: after)) a =
  (Returned 0 (foldl (dump_step rth flt jnk) a (messages (before ++ [Ev from ms1]))), map deliver after).
Proof. apply dump_filter_complete. Qed.

(** ** Examples *)

(** A handle with port 77 whose last sequence number was 5. *)
Definition demo_rth : rtnl_handle := mk_rth 3 (mk_addr AF_NETLINK 77 0) zero_addr 5 6.
Definition kernel_addr : sockaddr_nl := mk_addr AF_NETLINK 0 0.
(** An acknowledgement, a message for somebody else, a link and the end of a dump. *)
Definition demo_ack : nlmsg := mk_msg NLMSG_ERROR 0 6 77 (replicate 20 0).
Definition demo_other : nlmsg := mk_msg 16 0 9 12 [1; 2; 3].
Definition demo_part : nlmsg := mk_msg 16 2 6 77 [4; 5; 6; 7; 8].
Definition demo_done : nlmsg := mk_msg NLMSG_DONE 2 6 77 (replicate 4 0).

(** A handler that counts. *)
Definition count_bytes : @rtnl_filter_t Z := fun _ msg a => (0, a + blen msg).



Lemma demo_events_ok size :
  1000 <= size -> Forall (event_ok size) [EvErr EINTR; Ev kernel_addr [demo_other; demo_part]; Ev kernel_addr [demo_part; demo_done]].
Proof.
  intros Hs. repeat constructor; try (apply (Z.le_trans _ 1000); [|exact Hs]); by vm_compute.
Qed.

Lemma sessions_refine_witness :
  let evs := [EvErr EINTR; Ev kernel_addr [demo_other; demo_part]; Ev kernel_addr [demo_part; demo_done]] in
  rtnl_dump_filter demo_rth count_bytes None (replicate 1000 0) (map deliver evs) 0 =
  (Returned 0 42, []).
Proof.
  cbv zeta. destruct (sessions_refine 1000 (replicate 1000 0)
    [EvErr EINTR; Ev kernel_addr [demo_other; demo_part]; Ev kernel_addr [demo_part; demo_done]] 0)
    as (H & _ & _); [lia|unfold blen; by rewrite length_replicate|apply demo_events_ok; lia|].
  rewrite H. reflexivity.
Defined.

Lemma talk_answered_witness :
  exists a', (rtnl_talk 36 demo_rth (mk_nlmsg 36 (replicate 36 0)) 0 false (Some count_bytes)
    (map deliver [EvErr EAGAIN; Ev kernel_addr [demo_other; demo_ack]]) 0).2 =
  (Returned (mk_reply 0 None) a', []).
Proof.
  apply (talk_answered 36 demo_rth (mk_nlmsg 36 (replicate 36 0)) 0 false (Some count_bytes)
    [EvErr EAGAIN] kernel_addr [demo_other] demo_ack [] []).
  - lia.
  - intros f msg a. cbn. lia.
  - repeat constructor; by vm_compute.
  - repeat constructor.
  - repeat constructor.
  - reflexivity.
  - by left.
Defined.

Lemma dump_complete_witness :
  rtnl_dump_filter demo_rth count_bytes None (replicate 1000 0)
    (map deliver ([EvErr EINTR; Ev kernel_addr [demo_other; demo_part]] ++
                  Ev kernel_addr ([demo_part] ++ demo_done :: []) :: [])) 0 = (Returned 0 42, []).
Proof.
  rewrite (dump_complete demo_rth count_bytes None 1000 (replicate 1000 0)
    [EvErr EINTR; Ev kernel_addr [demo_other; demo_part]] kernel_addr [demo_part] demo_done [] []).
  - reflexivity.
  - lia.
  - unfold blen. by rewrite length_replicate.
  - apply demo_events_ok. lia.
  - repeat constructor; cbn; lia || done.
  - repeat constructor; cbn; lia || done.
  - reflexivity.
  - reflexivity.
Defined.

(** The unsigned comparison of a negative remainder: a message for somebody else whose
    last bytes are not filled up to a multiple of four takes [status] below zero, the
    loop goes on behind the message, and the program ends. *)
Example unpadded_exits :
  talk_loop 77 0 6 false None (replicate 64 0) [Recv kernel_addr 12 (msg_bytes demo_other)] 0 = (Exited 1, []).
Proof. reflexivity. Qed.

(** Filled up, it is passed over and the call waits for its answer. *)
Example padded_waits :
  talk_loop 77 0 6 false None (replicate 64 0) [Recv kernel_addr 12 (padded demo_other)] 0 = (Waiting 0, []).
Proof. reflexivity. Qed.

(** A dump without a filter never ends, whatever arrives. *)
Example no_filter_waits :
  rtnl_dump_filter_l demo_rth [] (replicate 64 0) [deliver (Ev kernel_addr [demo_done])] 0 = (Waiting 0, []).
Proof. reflexivity. Qed.
