(* ===== verification/LlMap.v ===== *)
(** * The map of interfaces (iproute2-3.1.0/lib/ll_map.c)

    A hash table of 1024 chains from interface indices to names, filled from a dump
    of the links, and its abstraction, a finite map.  The [malloc] of an entry is an
    argument: [None], or the entry with the bytes it finds in memory. *)

From S2P Require Export Rtnl Text.

#[local] Open Scope list_scope.

(** ** Data *)

Definition IFNAMSIZ : nat := 16.
Definition ADDR_SIZE : Z := 20.
(** [iproute2-3.1.0/lib/ll_map.c:37-37 IDXMAP_SIZE] *)
Definition IDXMAP_SIZE : nat := 1024.

Definition RTM_NEWLINK : Z := 16.
Definition RTM_GETLINK : Z := 18.
Definition IFLA_ADDRESS : Z := 1.
Definition IFLA_IFNAME : Z := 3.
Definition IFLA_MAX : Z := 28.

#[local] Set Primitive Projections.

(** The chain is the list of its entries.  [iproute2-3.1.0/lib/ll_map.c:26-35 ll_cache] *)
Record ll_cache := mk_cache {
  im_flags : Z; im_index : Z; im_type : Z; im_alen : Z; im_name : string; im_addr : list Z
}.

(** The statics of the file.  [iproute2-3.1.0/lib/ll_map.c:38-38 idx_head] *)
Record ll_map := mk_map {
  idx_head : list (list ll_cache); ncache : string; icache : Z; initialized : bool
}.

#[local] Unset Primitive Projections.

Global Instance ll_cache_inhabited : Inhabited ll_cache := populate (mk_cache 0 0 0 0 "" []).

Definition empty_map : ll_map := mk_map (replicate IDXMAP_SIZE []) "" 0 false.

(** [idx & (IDXMAP_SIZE - 1)] *)
Definition bucket (idx : Z) : nat := Z.to_nat (Z.land idx 1023).

(** [iproute2-3.1.0/lib/ll_map.c:40-43 idxhead] *)
Definition idxhead (m : ll_map) (idx : Z) : list ll_cache := idx_head m !!! bucket (s32 idx).

(** ** Learning a link *)

(** The C string that starts a memory. *)
Fixpoint cstring (m : list Z) : string :=
  match m with
  | [] => ""
  | b :: m => if b =? 0 then "" else String (char_of b) (cstring m)
  end.

(** The fields of [struct ifinfomsg] behind the header. *)
Definition ifi_type (msg : list Z) : Z := load16 msg 18.
Definition ifi_index (msg : list Z) : Z := s32 (load32 msg 20).
Definition ifi_flags (msg : list Z) : Z := load32 msg 24.

(** [iproute2-3.1.0/include/linux/if_link.h:147-148 IFLA_RTA] *)
Definition IFLA_RTA : Z := 32.
Definition IFLA_PAYLOAD (msg : list Z) : Z := s32 (u32 (h_len msg 0 - 32)).

Definition link_attrs (msg : list Z) : list (option Z) :=
  (parse_rtattr msg IFLA_MAX IFLA_RTA (IFLA_PAYLOAD msg)).1.

(** The entry as the message describes it; a hardware address longer than the field
    is cut, a shorter one leaves the rest of the field.
    [iproute2-3.1.0/lib/ll_map.c:80-93 ll_remember_index] *)
Definition set_link (msg : list Z) (name : string) (im : ll_cache) : ll_cache :=
  let im := im <| im_type := ifi_type msg |> in
  let im := im <| im_flags := ifi_flags msg |> in
  let im :=
    match link_attrs msg !!! Z.to_nat IFLA_ADDRESS with
    | Some a =>
        let alen := RTA_PAYLOAD msg a in
        let im := im <| im_alen := u16 alen |> in
        let alen := if ADDR_SIZE <? alen then ADDR_SIZE else alen in
        im <| im_addr := store_at 0 (load_bytes msg (RTA_DATA a) alen) (im_addr im) |>
    | None => (im <| im_alen := 0 |>) <| im_addr := replicate (Z.to_nat ADDR_SIZE) 0 |>
    end in
  im <| im_name := name |>.

(** The search in the chain; a new entry goes to its end.
    [iproute2-3.1.0/lib/ll_map.c:66-78 ll_remember_index] *)
Fixpoint chain_set (idx : Z) (fresh : option ll_cache) (set : ll_cache -> ll_cache) (chain : list ll_cache) :
    list ll_cache :=
  match chain with
  | [] => match fresh with Some im => [set (im <| im_index := idx |>)] | None => [] end
  | im :: chain => if im_index im =? idx then set im :: chain else im :: chain_set idx fresh set chain
  end.

(** [None] when the name overflows its field.  The length is tested against a header
    and a pointer, 8 bytes.  [iproute2-3.1.0/lib/ll_map.c:45-95 ll_remember_index] *)
Definition ll_remember_index (fresh : option ll_cache) (msg : list Z) (m : ll_map) : option (Z * ll_map) :=
  if negb (h_type msg 0 =? RTM_NEWLINK) then Some (0, m)
  else if h_len msg 0 <? HDR + 8 then Some (- 1, m)
  else
    match link_attrs msg !!! Z.to_nat IFLA_IFNAME with
    | None => Some (0, m)
    | Some a =>
        let name := cstring (drop (Z.to_nat (RTA_DATA a)) msg) in
        if (IFNAMSIZ <=? String.length name)%nat then None
        else
          let h := bucket (ifi_index msg) in
          Some (0, m <| idx_head :=
            <[h := chain_set (ifi_index msg) fresh (set_link msg name) (idx_head m !!! h)]> (idx_head m) |>)
    end.

(** ** Queries *)

(** The search of a chain: the index is compared as an unsigned number. *)
Definition lookup_index (m : ll_map) (idx : Z) : option ll_cache :=
  List.find (fun im => u32 (im_index im) =? idx) (idxhead m idx).

(** [snprintf] into a buffer of [IFNAMSIZ] bytes. *)
Definition ifname_text (idx : Z) : string := substring 0 (IFNAMSIZ - 1) ("if" +:+ print_d (s32 idx)).

(** [iproute2-3.1.0/lib/ll_map.c:97-110 ll_idx_n2a] *)
Definition ll_idx_n2a (m : ll_map) (idx : Z) : string :=
  if idx =? 0 then "*"
  else match lookup_index m idx with Some im => im_name im | None => ifname_text idx end.

(** [iproute2-3.1.0/lib/ll_map.c:113-118 ll_index_to_name] *)
Definition ll_index_to_name (m : ll_map) (idx : Z) : string := ll_idx_n2a m idx.

(** [iproute2-3.1.0/lib/ll_map.c:120-130 ll_index_to_type] *)
Definition ll_index_to_type (m : ll_map) (idx : Z) : Z :=
  if idx =? 0 then - 1 else match lookup_index m idx with Some im => im_type im | None => - 1 end.

(** [iproute2-3.1.0/lib/ll_map.c:132-143 ll_index_to_flags] *)
Definition ll_index_to_flags (m : ll_map) (idx : Z) : Z :=
  if idx =? 0 then 0 else match lookup_index m idx with Some im => im_flags im | None => 0 end.

(** The bytes copied to a buffer of [alen].
    [iproute2-3.1.0/lib/ll_map.c:145-164 ll_index_to_addr] *)
Definition ll_index_to_addr (m : ll_map) (idx alen : Z) : list Z :=
  if idx =? 0 then []
  else
    match lookup_index m idx with
    | Some im =>
        let alen := if ADDR_SIZE <? alen then ADDR_SIZE else alen in
        let alen := if im_alen im <? alen then im_alen im else alen in
        take (Z.to_nat alen) (im_addr im)
    | None => []
    end.

(** [sscanf(name, "if%u", &idx)] with [idx] 0 before. *)
Definition scan_ifname (name : string) : Z :=
  if String.prefix "if" name
  then match strtoul (drop_chars 2 name) 10 with Some (v, _) => u32 v | None => 0 end
  else 0.

(** [if_nametoindex] asks the kernel.  [iproute2-3.1.0/lib/ll_map.c:166-194 ll_name_to_index] *)
Definition ll_name_to_index (if_nametoindex : string -> Z) (name : option string) (m : ll_map) : Z * ll_map :=
  match name with
  | None => (0, m)
  | Some name =>
      if negb (icache m =? 0) && String.eqb name (ncache m) then (u32 (icache m), m)
      else
        match List.find (fun im => String.eqb (im_name im) name) (List.concat (idx_head m)) with
        | Some im => (u32 (im_index im), (m <| icache := im_index im |>) <| ncache := name |>)
        | None =>
            let idx := if_nametoindex name in
            ((if idx =? 0 then scan_ifname name else idx), m)
        end
  end.

(** The handler of the dump: [None] is a memory that is no longer the program's. *)
Definition remember_filter (malloc : ll_map -> option ll_cache) : @rtnl_filter_t (option ll_map) :=
  fun _ msg m =>
    match m with
    | None => (0, None)
    | Some m =>
        match ll_remember_index (malloc m) msg m with
        | Some (r, m) => (r, Some m)
        | None => (0, None)
        end
    end.

(** [sent] is the status of the request; the handle and the events left are part of
    the result.  [iproute2-3.1.0/lib/ll_map.c:196-215 ll_init_map] *)
Definition ll_init_map (malloc : ll_map -> option ll_cache) (sent : Z) (rth : rtnl_handle) (buf : list Z)
    (inbox : list recv) (m : ll_map) : rtnl_handle * (outcome Z (option ll_map) * list recv) :=
  if initialized m then (rth, (Returned 0 (Some m), inbox))
  else
    let rth := (rtnl_wilddump_request rth 0 RTM_GETLINK).1 in
    if sent <? 0 then (rth, (Exited 1, inbox))
    else
      (rth,
       match rtnl_dump_filter rth (remember_filter malloc) None buf inbox (Some m) with
       | (Returned r m, inbox) =>
           if r <? 0 then (Exited 1, inbox)
           else (Returned 0 (match m with Some m => Some (m <| initialized := true |>) | None => None end), inbox)
       | o => o
       end).

(** ** The abstraction *)

(** What the table knows, as a finite map from indices. *)
Definition contents (m : ll_map) : gmap Z ll_cache :=
  list_to_map ((fun im => (im_index im, im)) <$> List.concat (idx_head m)).

Record entry_ok (im : ll_cache) : Prop := {
  eo_index : int_range (im_index im);
  eo_name : (String.length (im_name im) < IFNAMSIZ)%nat;
  eo_addr : List.length (im_addr im) = Z.to_nat ADDR_SIZE;
  eo_alen : 0 <= im_alen im < 2 ^ 16
}.

(** Every entry is well formed and stands in the chain of its index, once. *)
Record map_ok (m : ll_map) : Prop := {
  mk_size : List.length (idx_head m) = IDXMAP_SIZE;
  mk_entries : forall h, (h < IDXMAP_SIZE)%nat ->
    Forall (fun im => entry_ok im /\ bucket (im_index im) = h) (idx_head m !!! h);
  mk_nodup : forall h, (h < IDXMAP_SIZE)%nat -> NoDup (im_index <$> idx_head m !!! h)
}.

Definition fresh_ok (im : ll_cache) : Prop := List.length (im_addr im) = Z.to_nat ADDR_SIZE.

(** The same update on the finite map. *)
Definition learn_link (fresh : option ll_cache) (msg : list Z) (name : string) (c : gmap Z ll_cache) :
    gmap Z ll_cache :=
  let i := ifi_index msg in
  match c !! i, fresh with
  | Some im, _ => <[i := set_link msg name im]> c
  | None, Some im => <[i := set_link msg name (im <| im_index := i |>)]> c
  | None, None => c
  end.

(** What a message teaches: a value and a new map, or an overflow of the name. *)
Definition learn (fresh : option ll_cache) (msg : list Z) (c : gmap Z ll_cache) : option (Z * gmap Z ll_cache) :=
  if negb (h_type msg 0 =? RTM_NEWLINK) then Some (0, c)
  else if h_len msg 0 <? HDR + 8 then Some (- 1, c)
  else
    match link_attrs msg !!! Z.to_nat IFLA_IFNAME with
    | None => Some (0, c)
    | Some a =>
        let name := cstring (drop (Z.to_nat (RTA_DATA a)) msg) in
        if (IFNAMSIZ <=? String.length name)%nat then None else Some (0, learn_link fresh msg name c)
    end.

(** ** Chains *)

Definition index_is (i : Z) (im : ll_cache) : bool := im_index im =? i.

Lemma bucket_mod i : bucket i = Z.to_nat (i mod 1024).
Proof. unfold bucket. change 1023 with (Z.ones 10). by rewrite Z.land_ones by lia. Qed.

Lemma bucket_lt i : (bucket i < IDXMAP_SIZE)%nat.
Proof. rewrite bucket_mod. unfold IDXMAP_SIZE. pose proof (Z.mod_pos_bound i 1024). lia. Qed.

Lemma bucket_s32 i : bucket (s32 i) = bucket i.
Proof. rewrite !bucket_mod. f_equal. unfold s32. Z.div_mod_to_equations. lia. Qed.

Lemma lookup_list_to_map l i :
  (list_to_map ((fun im => (im_index im, im)) <$> l) : gmap Z ll_cache) !! i = List.find (index_is i) l.
Proof.
  induction l as [|im l IH]; [apply lookup_empty|].
  cbn [fmap list_fmap list_to_map foldr List.find uncurry fst snd].
  unfold index_is at 1. destruct (Z.eqb_spec (im_index im) i) as [->|Hne].
  - apply lookup_insert_eq.
  - rewrite lookup_insert_ne by done. apply IH.
Qed.

Lemma find_none {A} (p : A -> bool) l : Forall (fun x => p x = false) l -> List.find p l = None.
Proof. induction 1 as [|x l Hx _ IH]; [done|]. cbn. by rewrite Hx. Qed.

Lemma find_app {A} (p : A -> bool) l k :
  List.find p (l ++ k) = match List.find p l with Some x => Some x | None => List.find p k end.
Proof. induction l as [|x l IH]; [done|]. cbn. by destruct (p x). Qed.

Lemma find_ext {A} (p q : A -> bool) l : Forall (fun x => p x = q x) l -> List.find p l = List.find q l.
Proof. induction 1 as [|x l Hx _ IH]; [done|]. cbn. by rewrite Hx, IH. Qed.

(** The element is looked for in the only row that may hold it. *)
Lemma find_concat {A} (p : A -> bool) rows : forall h,
  (h < List.length rows)%nat ->
  (forall k, (k < List.length rows)%nat -> k <> h -> Forall (fun x => p x = false) (rows !!! k)) ->
  List.find p (List.concat rows) = List.find p (rows !!! h).
Proof.
  induction rows as [|row rows IH]; intros h Hh Hp; cbn [List.length] in *; [lia|].
  cbn [List.concat]. rewrite find_app. destruct h as [|h].
  - change ((row :: rows) !!! 0%nat) with row. destruct (List.find p row); [done|]. apply find_none. apply Forall_forall.
    intros x Hx. apply list_elem_of_In, in_concat in Hx as (l & Hl & Hx).
    apply list_elem_of_In, list_elem_of_lookup in Hl as [k Hk].
    assert (k < List.length rows)%nat by (by apply lookup_lt_Some in Hk).
    specialize (Hp (S k) ltac:(lia) ltac:(lia)). change ((row :: rows) !!! S k) with (rows !!! k) in Hp.
    rewrite (list_lookup_total_correct _ _ _ Hk) in Hp. rewrite Forall_forall in Hp.
    apply Hp. by apply list_elem_of_In.
  - rewrite (find_none p row) by (apply (Hp 0%nat); lia).
    change ((row :: rows) !!! S h) with (rows !!! h). apply IH; [lia|].
    intros k Hk Hne. apply (Hp (S k)); lia.
Qed.

Lemma contents_lookup m i :
  map_ok m -> contents m !! i = List.find (index_is i) (idx_head m !!! bucket i).
Proof.
  intros [Hs He _]. unfold contents. rewrite lookup_list_to_map. pose proof (bucket_lt i).
  apply find_concat; [lia|]. intros k Hk Hne. rewrite Hs in Hk.
  eapply Forall_impl; [apply He; lia|]. cbn. intros im [_ Hb]. unfold index_is.
  apply Z.eqb_neq. intros <-. congruence.
Qed.

Lemma find_chain_set i fresh set chain j :
  (forall im, im_index (set im) = im_index im) ->
  List.find (index_is j) (chain_set i fresh set chain) =
  if j =? i
  then match List.find (index_is i) chain, fresh with
       | Some im, _ => Some (set im)
       | None, Some im => Some (set (im <| im_index := i |>))
       | None, None => None
       end
  else List.find (index_is j) chain.
Proof.
  intros Hset. induction chain as [|im chain IH]; cbn [chain_set List.find].
  - destruct fresh as [im|]; cbn [List.find]; [|by destruct (j =? i)].
    unfold index_is. rewrite Hset. cbn. rewrite (Z.eqb_sym i j). by destruct (j =? i).
  - change (index_is i im) with (im_index im =? i). change (index_is j im) with (im_index im =? j).
    destruct (Z.eqb_spec (im_index im) i) as [Hi|Hi]; cbn [List.find].
    + change (index_is j (set im)) with (im_index (set im) =? j). rewrite Hset, Hi.
      destruct (Z.eqb_spec i j) as [->|Hij]; [by rewrite Z.eqb_refl|].
      by rewrite (proj2 (Z.eqb_neq j i)).
    + change (index_is j im) with (im_index im =? j).
      destruct (Z.eqb_spec (im_index im) j) as [Hj|Hj]; [|exact IH].
      by rewrite (proj2 (Z.eqb_neq j i)) by congruence.
Qed.

(** ** The handler implements the finite map *)

Lemma set_link_index msg name im : im_index (set_link msg name im) = im_index im.
Proof. unfold set_link. by destruct (link_attrs msg !!! _). Qed.

Lemma set_link_ok msg name im :
  int_range (im_index im) -> List.length (im_addr im) = Z.to_nat ADDR_SIZE ->
  (String.length name < IFNAMSIZ)%nat -> entry_ok (set_link msg name im).
Proof.
  intros Hi Ha Hn. constructor; [by rewrite set_link_index|by unfold set_link; destruct (link_attrs msg !!! _)| |];
    unfold set_link; destruct (link_attrs msg !!! _) as [a|]; cbn -[Z.to_nat ADDR_SIZE u16 load_bytes]; try done.
  - set (n := if ADDR_SIZE <? RTA_PAYLOAD msg a then ADDR_SIZE else RTA_PAYLOAD msg a).
    assert (n <= ADDR_SIZE) as Hle by (unfold n; destruct (Z.ltb_spec ADDR_SIZE (RTA_PAYLOAD msg a)); lia).
    rewrite store_at_length; [done|lia|].
    apply (Z.le_trans _ (Z.of_nat (Z.to_nat ADDR_SIZE))); [|apply Z.eq_le_incl; by rewrite <- Ha].
    unfold load_bytes. rewrite length_take. lia.
  - unfold u16. apply Z.mod_pos_bound. lia.
Qed.

Lemma chain_set_ok h i fresh set chain :
  bucket i = h -> int_range i ->
  (forall im, int_range (im_index im) -> List.length (im_addr im) = Z.to_nat ADDR_SIZE -> entry_ok (set im)) ->
  (forall im, im_index (set im) = im_index im) ->
  match fresh with Some im => fresh_ok im | None => True end ->
  Forall (fun im => entry_ok im /\ bucket (im_index im) = h) chain ->
  Forall (fun im => entry_ok im /\ bucket (im_index im) = h) (chain_set i fresh set chain).
Proof.
  intros Hb Hi Hset Hidx Hf. induction 1 as [|im chain [He Hh] Hc IH]; cbn [chain_set].
  - destruct fresh as [im|]; [|done]. apply Forall_singleton. split; [by apply Hset|by rewrite Hidx].
  - destruct (im_index im =? i); constructor; try done.
    split; [apply Hset; apply He|by rewrite Hidx].
Qed.

Lemma chain_set_indices i fresh set chain :
  (forall im, im_index (set im) = im_index im) ->
  (im_index <$> chain_set i fresh set chain) = (im_index <$> chain) \/
  (i ∉ (im_index <$> chain)) /\ (im_index <$> chain_set i fresh set chain) = (im_index <$> chain) ++ [i].
Proof.
  intros Hset. induction chain as [|im chain IH]; cbn [chain_set].
  - destruct fresh as [im|]; [right|by left]. split; [apply not_elem_of_nil|]. cbn. by rewrite Hset.
  - destruct (Z.eqb_spec (im_index im) i) as [Hi|Hi]; cbn [fmap list_fmap].
    + left. cbn. by rewrite Hset.
    + destruct IH as [IH|[Hn IH]]; [left; f_equal; exact IH|right].
      split; [|cbn; f_equal; exact IH]. apply not_elem_of_cons. split; [congruence|exact Hn].
Qed.

Lemma chain_set_nodup i fresh set chain :
  (forall im, im_index (set im) = im_index im) ->
  NoDup (im_index <$> chain) -> NoDup (im_index <$> chain_set i fresh set chain).
Proof.
  intros Hset Hn. destruct (chain_set_indices i fresh set chain Hset) as [->|[Hi ->]]; [done|].
  apply NoDup_app. split; [done|]. split; [|apply NoDup_singleton].
  intros x Hx ->%list_elem_of_singleton. done.
Qed.

Lemma find_index chain im : NoDup (im_index <$> chain) -> im ∈ chain -> List.find (index_is (im_index im)) chain = Some im.
Proof.
  induction chain as [|x chain IH]; [by intros _ ?%not_elem_of_nil|].
  rewrite fmap_cons. intros [Hx Hn]%NoDup_cons [->|Hin]%elem_of_cons; cbn [List.find]; unfold index_is at 1.
  - by rewrite Z.eqb_refl.
  - destruct (Z.eqb_spec (im_index x) (im_index im)) as [E|_]; [|by apply IH]. destruct Hx.
    exact (eq_ind_r (fun i => i ∈ im_index <$> chain) (list_elem_of_fmap_2 im_index chain im Hin) E).
Qed.

Lemma ifi_index_range msg : int_range (ifi_index msg).
Proof. apply s32_range. Qed.

Lemma ll_remember_index_ok fresh msg m :
  map_ok m -> match fresh with Some im => fresh_ok im | None => True end ->
  match ll_remember_index fresh msg m with
  | Some (r, m') => map_ok m' /\ learn fresh msg (contents m) = Some (r, contents m') /\
                    icache m' = icache m /\ ncache m' = ncache m
  | None => learn fresh msg (contents m) = None
  end.
Proof.
  intros Hm Hf. unfold ll_remember_index, learn.
  destruct (negb (h_type msg 0 =? RTM_NEWLINK)); [done|].
  destruct (h_len msg 0 <? HDR + 8); [done|].
  destruct (link_attrs msg !!! _) as [a|]; [|done]. cbv zeta.
  set (name := cstring _). destruct (Nat.leb_spec IFNAMSIZ (String.length name)) as [|Hn]; [done|].
  set (i := ifi_index msg). set (set := set_link msg name).
  pose proof (bucket_lt i) as Hlt. pose proof (mk_size _ Hm) as Hs.
  assert (map_ok (m <| idx_head := <[bucket i := chain_set i fresh set (idx_head m !!! bucket i)]> (idx_head m) |>))
    as Hm'.
  { constructor; cbn [idx_head set_field].
    - change (List.length (<[bucket i := chain_set i fresh set (idx_head m !!! bucket i)]> (idx_head m)) = IDXMAP_SIZE).
      by rewrite length_insert.
    - intros h Hh. change (idx_head (m <| idx_head := ?x |>)) with x.
      destruct (decide (bucket i = h)) as [<-|Hne].
      + rewrite list_lookup_total_insert_eq by lia.
        apply chain_set_ok; [done|apply ifi_index_range| |apply set_link_index|done|by apply (mk_entries _ Hm)].
        intros im H1 H2. by apply set_link_ok.
      + rewrite list_lookup_total_insert_ne by done. by apply (mk_entries _ Hm).
    - intros h Hh. change (idx_head (m <| idx_head := ?x |>)) with x.
      destruct (decide (bucket i = h)) as [<-|Hne].
      + rewrite list_lookup_total_insert_eq by lia.
        apply chain_set_nodup; [apply set_link_index|by apply (mk_nodup _ Hm)].
      + rewrite list_lookup_total_insert_ne by done. by apply (mk_nodup _ Hm). }
  split; [exact Hm'|]. split; [|done]. do 2 f_equal. apply map_eq. intros j.
  rewrite (contents_lookup _ j Hm'). change (idx_head (m <| idx_head := ?x |>)) with x.
  unfold learn_link. fold i set.
  assert (contents m !! i = List.find (index_is i) (idx_head m !!! bucket i)) as Ei by (by apply contents_lookup).
  destruct (decide (j = i)) as [->|Hji].
  - rewrite list_lookup_total_insert_eq, find_chain_set, Z.eqb_refl by (lia || apply set_link_index).
    rewrite <- Ei. destruct (contents m !! i) as [im|] eqn:E; [apply lookup_insert_eq|].
    destruct fresh as [im|]; [apply lookup_insert_eq|exact E].
  - assert (match contents m !! i, fresh with
      | Some im, _ => <[i := set im]> (contents m)
      | None, Some im => <[i := set (im <| im_index := i |>)]> (contents m)
      | None, None => contents m end !! j = contents m !! j) as ->
      by (destruct (contents m !! i), fresh; rewrite ?lookup_insert_ne by done; done).
    rewrite (contents_lookup _ j Hm). destruct (decide (bucket i = bucket j)) as [Hb|Hb].
    + rewrite Hb at 2. rewrite <- Hb. rewrite list_lookup_total_insert_eq by lia.
      rewrite find_chain_set by apply set_link_index. by rewrite (proj2 (Z.eqb_neq j i)).
    + by rewrite list_lookup_total_insert_ne.
Qed.

(** ** Queries of the finite map *)

Lemma lookup_index_contents m idx :
  map_ok m -> 0 <= idx < 2 ^ 32 -> lookup_index m idx = contents m !! s32 idx.
Proof.
  intros Hm Hi. rewrite contents_lookup by done. unfold lookup_index, idxhead. rewrite bucket_s32.
  apply find_ext. eapply Forall_impl; [apply (mk_entries _ Hm), bucket_lt|].
  cbn. intros im [[Hr _ _ _] _]. unfold index_is. unfold int_range in Hr.
  apply eq_true_iff_eq. rewrite !Z.eqb_eq. unfold u32, s32. split; intros; Z.div_mod_to_equations; lia.
Qed.

Lemma find_some_iff {A} (p : A -> bool) l x : List.find p l = Some x -> x ∈ l /\ p x = true.
Proof. intros H. apply List.find_some in H as [H1 H2]. split; [by apply list_elem_of_In|done]. Qed.

(** An entry of a chain is the one the finite map has for its index. *)
Lemma contents_entry m im : map_ok m -> im ∈ List.concat (idx_head m) -> contents m !! im_index im = Some im.
Proof.
  intros Hm Hin. apply list_elem_of_In, in_concat in Hin as (l & Hl & Hin).
  apply list_elem_of_In, list_elem_of_lookup in Hl as [h Hh]. apply list_elem_of_In in Hin.
  assert (h < IDXMAP_SIZE)%nat as Hlt by (rewrite <- (mk_size _ Hm); by apply lookup_lt_Some in Hh).
  apply list_lookup_total_correct in Hh as Ht. subst l.
  pose proof (mk_entries _ Hm h Hlt) as He. rewrite Forall_forall in He. destruct (He im Hin) as [_ Hb].
  rewrite contents_lookup, Hb by done. apply find_index; [by apply (mk_nodup _ Hm)|done].
Qed.

Lemma contents_name m name :
  map_ok m ->
  match List.find (fun im => String.eqb (im_name im) name) (List.concat (idx_head m)) with
  | Some im => contents m !! im_index im = Some im /\ im_name im = name
  | None => forall i im, contents m !! i = Some im -> im_name im <> name
  end.
Proof.
  intros Hm. destruct (List.find _ _) as [im|] eqn:E.
  - apply find_some_iff in E as [Hin Hn]. apply String.eqb_eq in Hn. split; [by apply contents_entry|done].
  - intros i im. unfold contents. rewrite lookup_list_to_map. intros F Hn.
    apply find_some_iff in F as [Hin _]. apply list_elem_of_In in Hin.
    pose proof (List.find_none _ _ E im Hin) as Hno. cbn in Hno. apply String.eqb_neq in Hno. done.
Qed.


(** ** Names and indices *)

Lemma scan_ifname_text idx : 0 < idx < 2 ^ 32 -> scan_ifname (ifname_text idx) = idx.
Proof.
  intros Hi. unfold ifname_text. pose proof (s32_range idx) as Hr.
  assert (String.length (print_d (s32 idx)) <= 13)%nat as Hl.
  { unfold print_d. destruct (Z.ltb_spec (s32 idx) 0); cbn [String.length].
    - pose proof (print_u_length (- s32 idx) 10 ltac:(lia) ltac:(lia)). lia.
    - pose proof (print_u_length (s32 idx) 10 ltac:(lia) ltac:(lia)). lia. }
  rewrite substring_all by (rewrite length_append; cbn; lia).
  unfold scan_ifname, drop_chars. rewrite length_append.
  set (s := print_d (s32 idx)) in *.
  assert (String.prefix "if" ("if" +:+ s) = true) as -> by (by destruct s).
  change (substring 2 (String.length "if" + String.length s - 2) ("if" +:+ s)) with
    (substring 0 (S (S (String.length s)) - 2) s).
  rewrite substring_all by lia. unfold s. rewrite <- (append_empty (print_d _)).
  rewrite strtoul_print_d by (done || unfold LONG_MIN, ULONG_MAX; lia).
  unfold u32, u64, s32. Z.div_mod_to_equations. lia.
Qed.

(** No two entries have the same name. *)
Definition names_distinct (c : gmap Z ll_cache) : Prop :=
  forall i j a b, c !! i = Some a -> c !! j = Some b -> im_name a = im_name b -> i = j.

(** Before the first name is looked up, the name of an index, known to the map or not,
    is read back as that index; the kernel is only asked about a name that is not in
    the map. *)
Theorem index_name_roundtrip (if_nametoindex : string -> Z) (m : ll_map) (idx : Z) :
  map_ok m -> icache m = 0 -> names_distinct (contents m) -> 0 < idx < 2 ^ 32 ->
  (contents m !! s32 idx = None ->
    if_nametoindex (ifname_text idx) = 0 /\ forall i im, contents m !! i = Some im -> im_name im <> ifname_text idx) ->
  (ll_name_to_index if_nametoindex (Some (ll_index_to_name m idx)) m).1 = idx.
Proof.
  intros Hm Hc Hd Hi Hk. unfold ll_name_to_index, ll_index_to_name, ll_idx_n2a. rewrite Hc. cbn [negb Z.eqb andb].
  rewrite (proj2 (Z.eqb_neq idx 0)), lookup_index_contents by (done || lia).
  destruct (contents m !! s32 idx) as [im|] eqn:E.
  - pose proof (contents_name m (im_name im) Hm) as H.
    destruct (List.find _ _) as [im'|]; [|by destruct (H _ _ E)]. destruct H as [E' Hn].
    cbn [fst]. rewrite (Hd _ _ _ _ E' E Hn). unfold u32, s32. Z.div_mod_to_equations. lia.
  - destruct (Hk eq_refl) as [Hk0 Hno]. pose proof (contents_name m (ifname_text idx) Hm) as H.
    destruct (List.find _ _) as [im'|]; [by destruct H as [E' Hn]; destruct (Hno _ _ E')|].
    cbn [fst]. rewrite Hk0. by apply scan_ifname_text.
Qed.

(** ** The dump of the links *)

(** What a series of messages teaches. *)
Definition learn_all (fresh : option ll_cache) (rth : rtnl_handle) (l : list (sockaddr_nl * nlmsg))
    (c : gmap Z ll_cache) : option (gmap Z ll_cache) :=
  foldl (fun c x =>
    if dump_for rth x.1 x.2
    then match c with Some c => snd <$> learn fresh (msg_bytes x.2) c | None => None end
    else c) (Some c) l.

(** A message of a dump of links: for the dump it is neither an error nor the end, and
    a link covers the header the handler tests. *)
Definition link_message (rth : rtnl_handle) (from : sockaddr_nl) (m : nlmsg) : Prop :=
  msg_ok m /\ (dump_for rth from m = true ->
    m_type m <> NLMSG_DONE /\ m_type m <> NLMSG_ERROR /\ (m_type m = RTM_NEWLINK -> HDR + 8 <= msg_len m)).

Lemma own_message m : msg_ok m -> message_at (msg_bytes m) 0 m.
Proof. intros Hm. apply (drop_message_at _ _ _ []); [lia|done|]. by rewrite app_nil_r. Qed.

Lemma remember_filter_value malloc from m a :
  msg_ok m -> (m_type m = RTM_NEWLINK -> HDR + 8 <= msg_len m) ->
  0 <= (remember_filter malloc from (msg_bytes m) a).1.
Proof.
  intros Hm Hl. destruct a as [a|]; [|done]. cbn [remember_filter]. unfold ll_remember_index.
  destruct (own_message m Hm) as [E1 E2 _ _ _ _]. rewrite E1, E2.
  destruct (Z.eqb_spec (m_type m) RTM_NEWLINK) as [Ht|]; [|done]. cbn [negb].
  rewrite (proj2 (Z.ltb_ge _ _)) by (by apply Hl).
  destruct (link_attrs _ !!! _); [|done]. cbv zeta. by destruct (_ <=? _)%nat.
Qed.

Lemma link_message_dump_on malloc rth from m :
  link_message rth from m -> dump_on rth (remember_filter malloc) None from m.
Proof.
  intros [Hm Hl]. unfold dump_on. destruct (dump_for rth from m); [|done].
  destruct (Hl eq_refl) as (H1 & H2 & H3). split; [done|]. split; [done|].
  intros a. by apply remember_filter_value.
Qed.

(** The table and the map it stands for go through the messages together. *)
Lemma dump_learns fresh rth l : forall m c,
  match fresh with Some im => fresh_ok im | None => True end ->
  map_ok m -> learn_all fresh rth l (contents m) = Some c ->
  exists m', foldl (dump_step rth (remember_filter (fun _ => fresh)) None) (Some m) l = Some m' /\
             map_ok m' /\ contents m' = c /\ icache m' = icache m.
Proof.
  unfold learn_all. induction l as [|[from x] l IH]; intros m c Hf Hm Hl; cbn [foldl fst snd] in *.
  - injection Hl as <-. by exists m.
  - unfold dump_step at 2. cbn [fst snd].
    destruct (dump_for rth from x); [|by apply IH].
    cbn [remember_filter]. pose proof (ll_remember_index_ok fresh (msg_bytes x) m Hm Hf) as Hr.
    destruct (ll_remember_index fresh (msg_bytes x) m) as [[r m1]|].
    + destruct Hr as (Hm1 & E & Hi & _). rewrite E in Hl. cbn [fmap option_fmap option_map snd] in Hl. cbn [snd].
      destruct (IH m1 c Hf Hm1 Hl) as (m' & H1 & H2 & H3 & H4).
      exists m'. split; [done|]. split; [done|]. split; [done|]. by rewrite H4.
    + rewrite Hr in Hl. cbn [fmap option_fmap option_map] in Hl. exfalso. clear - Hl.
      assert (forall l, foldl (fun c (x : sockaddr_nl * nlmsg) =>
        if dump_for rth x.1 x.2
        then match c with Some c => snd <$> learn fresh (msg_bytes x.2) c | None => None end
        else c) None l = None) as Hn
        by (induction l0 as [|y l0 IH]; [done|]; cbn [foldl]; by destruct (dump_for _ _ _)).
      by rewrite Hn in Hl.
Qed.

Lemma empty_map_ok : map_ok empty_map.
Proof.
  constructor; [apply length_replicate|..]; intros h Hh;
    (assert (idx_head empty_map !!! h = []) as -> by (by apply lookup_total_replicate_2)); [apply Forall_nil_2|apply NoDup_nil_2].
Qed.

(** [ll_init_map] from the first program step to the last: when the kernel dumps the
    links, in any number of datagrams, interruptions and messages for others between
    them, the call returns 0 and the table holds exactly what the links teach, in
    order; a second call does nothing. *)
Theorem init_map_learns (fresh : option ll_cache) (sent : Z) (rth : rtnl_handle) (buf : list Z) (size : Z)
    before from ms1 m ms2 after (c : gmap Z ll_cache) :
  match fresh with Some im => fresh_ok im | None => True end ->
  0 <= sent -> size < 2 ^ 31 -> blen buf = size ->
  let rth' := (rtnl_wilddump_request rth 0 RTM_GETLINK).1 in
  Forall (event_ok size) (before ++ Ev from (ms1 ++ m :: ms2) :: after) ->
  Forall (passes (link_message rth')) before -> Forall (link_message rth' from) ms1 ->
  dump_for rth' from m = true -> m_type m = NLMSG_DONE ->
  learn_all fresh rth' (messages (before ++ [Ev from ms1])) ∅ = Some c ->
  exists m',
    ll_init_map (fun _ => fresh) sent rth buf (map deliver (before ++ Ev from (ms1 ++ m :: ms2) :: after)) empty_map =
      (rth', (Returned 0 (Some m'), map deliver after)) /\
    map_ok m' /\ contents m' = c /\
    forall sent' buf' inbox', ll_init_map (fun _ => fresh) sent' rth' buf' inbox' m' =
      (rth', (Returned 0 (Some m'), inbox')).
Proof.
  cbv zeta. intros Hf Hsent Hsize Hbuf Hok Hb H1 Hm Hd Hl. unfold ll_init_map at 1.
  change (initialized empty_map) with false. cbv iota. rewrite (proj2 (Z.ltb_ge sent 0)) by done.
  set (rth' := (rtnl_wilddump_request rth 0 RTM_GETLINK).1) in *.
  rewrite (dump_filter_complete rth' _ None size buf before from ms1 m ms2 after); try done.
  - change (0 <? 0) with false. cbv iota.
    assert (contents empty_map = ∅) as E0 by reflexivity. rewrite <- E0 in Hl.
    destruct (dump_learns fresh rth' _ empty_map c Hf empty_map_ok Hl) as (m' & -> & [Hm1 Hm2 Hm3] & Hc & _).
    exists (m' <| initialized := true |>). split; [done|]. split; [by constructor|]. by split.
  - eapply Forall_impl; [exact Hb|]. intros [n|f ms]; cbn [passes]; [done|]. intros [Hne Hms]. split; [done|].
    eapply Forall_impl; [exact Hms|]. intros x. apply link_message_dump_on.
  - eapply Forall_impl; [exact H1|]. intros x. apply link_message_dump_on.
Qed.

(** ** Examples *)

(** A link with a hardware address and a name, as the kernel sends it. *)
Definition demo_link (seq pid index : Z) (name : list Z) : nlmsg :=
  mk_msg RTM_NEWLINK 2 seq pid
    ([0; 0; 1; 0] ++ le_bytes 4 index ++ le_bytes 4 67 ++ le_bytes 4 0 ++
     le_bytes 2 10 ++ le_bytes 2 IFLA_ADDRESS ++ [2; 0; 0; 0; 0; 9; 0; 0] ++
     le_bytes 2 9 ++ le_bytes 2 IFLA_IFNAME ++ name ++ [0; 0; 0; 0]).

(** "eth0" and "wan0". *)
Definition eth0 : list Z := [101; 116; 104; 48].
Definition wan0 : list Z := [119; 97; 110; 48].
Definition demo_fresh : ll_cache := mk_cache 0 0 0 0 "" (replicate 20 255).

Definition demo_learn (m : nlmsg) (l : ll_map) : ll_map :=
  match ll_remember_index (Some demo_fresh) (msg_bytes m) l with Some (_, l) => l | None => l end.

Definition demo_map : ll_map := demo_learn (demo_link 6 77 2 eth0) empty_map.

Definition demo_entry : ll_cache := mk_cache 67 2 1 6 "eth0" ([2; 0; 0; 0; 0; 9] ++ replicate 14 255).

Example demo_map_contents : contents demo_map = {[2 := demo_entry]}.
Proof. reflexivity. Qed.


Lemma demo_map_ok : map_ok demo_map.
Proof.
  pose proof (ll_remember_index_ok (Some demo_fresh) (msg_bytes (demo_link 6 77 2 eth0)) empty_map
    empty_map_ok eq_refl) as H. exact (proj1 H).
Qed.

Lemma index_name_roundtrip_witness :
  (ll_name_to_index (fun _ => 0) (Some (ll_index_to_name demo_map 2)) demo_map).1 = 2.
Proof.
  apply index_name_roundtrip.
  - exact demo_map_ok.
  - reflexivity.
  - rewrite demo_map_contents. intros i j a b Hi Hj _.
    apply lookup_singleton_Some in Hi as [<- _], Hj as [<- _]. done.
  - lia.
  - rewrite demo_map_contents. done.
Defined.

Lemma init_map_learns_witness :
  exists m',
    ll_init_map (fun _ => Some demo_fresh) 20 demo_rth (replicate 1000 0)
      (map deliver ([EvErr EINTR; Ev kernel_addr [demo_other]] ++
        Ev kernel_addr ([demo_link 6 77 2 eth0; demo_link 6 77 1026 wan0] ++ demo_done :: []) :: [])) empty_map =
      ((rtnl_wilddump_request demo_rth 0 RTM_GETLINK).1, (Returned 0 (Some m'), [])) /\
    ll_index_to_name m' 2 = "eth0" /\ ll_index_to_name m' 1026 = "wan0".
Proof.
  destruct (init_map_learns (Some demo_fresh) 20 demo_rth (replicate 1000 0) 1000
    [EvErr EINTR; Ev kernel_addr [demo_other]] kernel_addr
    [demo_link 6 77 2 eth0; demo_link 6 77 1026 wan0] demo_done [] []
    {[1026 := mk_cache 67 1026 1 6 "wan0" ([2; 0; 0; 0; 0; 9] ++ replicate 14 255); 2 := demo_entry]})
    as (m' & E & Hm & Hc & _).
  - reflexivity.
  - lia.
  - lia.
  - unfold blen. by rewrite length_replicate.
  - repeat constructor; by vm_compute.
  - repeat constructor; by vm_compute.
  - repeat constructor; by vm_compute.
  - reflexivity.
  - reflexivity.
  - reflexivity.
  - exists m'. split; [exact E|]. unfold ll_index_to_name, ll_idx_n2a.
    rewrite (lookup_index_contents m' 2 Hm), (lookup_index_contents m' 1026 Hm), Hc by lia.
    split; reflexivity.
Defined.

(** A renamed interface keeps its old name in the cache of [ll_name_to_index]. *)
Example stale_name :
  let m := (ll_name_to_index (fun _ => 0) (Some "eth0") demo_map).2 in
  let m := demo_learn (demo_link 7 77 2 wan0) m in
  ll_index_to_name m 2 = "wan0" /\ (ll_name_to_index (fun _ => 0) (Some "eth0") m).1 = 2.
Proof. split; reflexivity. Qed.
