(* ===== verification/TcCore.v ===== *)
(** * Clock, rate and size tables (iproute2-3.1.0/tc/tc_core.c)

    The statics [tick_in_usec] and [clock_factor] are a record; every conversion
    between the clocks goes through doubles, as in the code. *)

From S2P Require Export Utils.

#[local] Open Scope list_scope.

Definition TIME_UNITS_PER_SEC : Z := 1000000.

(** [iproute2-3.1.0/tc/tc_core.h:9-13 link_layer] *)
Inductive link_layer := LINKLAYER_UNSPEC | LINKLAYER_ETHERNET | LINKLAYER_ATM.

Definition linklayer_code (l : link_layer) : Z :=
  match l with LINKLAYER_UNSPEC => 0 | LINKLAYER_ETHERNET => 1 | LINKLAYER_ATM => 2 end.

(** [iproute2-3.1.0/tc/tc_core.c:27-28 tick_in_usec] *)
Record core := mk_core { tick_in_usec : double; clock_factor : double }.

Definition core_default : core := mk_core d1 d1.

(** The conversion to [__u64]. *)
Definition d_to_u64 (x : double) : Z :=
  match d_trunc x with
  | Some z => if (0 <=? z) && (z <? 2 ^ 64) then z else 2 ^ 63
  | None => 2 ^ 63
  end.

(** [iproute2-3.1.0/tc/tc_core.c:30-36 tc_core_time2big] *)
Definition tc_core_time2big (c : core) (time : Z) : bool :=
  let t := d_to_u64 (d_of_Z time * tick_in_usec c)%D in
  negb (Z.shiftr t 32 =? 0).

(** [iproute2-3.1.0/tc/tc_core.c:39-42 tc_core_time2tick] *)
Definition tc_core_time2tick (c : core) (time : Z) : Z := d_to_u32 (d_of_Z time * tick_in_usec c)%D.

(** [iproute2-3.1.0/tc/tc_core.c:44-47 tc_core_tick2time] *)
Definition tc_core_tick2time (c : core) (tick : Z) : Z := d_to_u32 (d_of_Z tick / tick_in_usec c)%D.

(** [iproute2-3.1.0/tc/tc_core.c:49-52 tc_core_time2ktime] *)
Definition tc_core_time2ktime (c : core) (time : Z) : Z := d_to_u32 (d_of_Z time * clock_factor c)%D.

(** [iproute2-3.1.0/tc/tc_core.c:54-57 tc_core_ktime2time] *)
Definition tc_core_ktime2time (c : core) (ktime : Z) : Z := d_to_u32 (d_of_Z ktime / clock_factor c)%D.

(** [iproute2-3.1.0/tc/tc_core.c:59-62 tc_calc_xmittime] *)
Definition tc_calc_xmittime (c : core) (rate size : Z) : Z :=
  tc_core_time2tick c (d_to_u32 (d_of_Z TIME_UNITS_PER_SEC * (d_of_Z size / d_of_Z rate))%D).

(** [iproute2-3.1.0/tc/tc_core.c:64-67 tc_calc_xmitsize] *)
Definition tc_calc_xmitsize (c : core) (rate ticks : Z) : Z :=
  d_to_u32 (d_of_Z rate * d_of_Z (tc_core_tick2time c ticks) / d_of_Z TIME_UNITS_PER_SEC)%D.

(** From the system header linux/atm.h. *)
Definition ATM_CELL_PAYLOAD : Z := 48.
Definition ATM_CELL_SIZE : Z := 53.

(** [iproute2-3.1.0/tc/tc_core.c:79-88 tc_align_to_atm] *)
Definition tc_align_to_atm (size : Z) : Z :=
  let cells := s32 (size / ATM_CELL_PAYLOAD) in
  let cells := if 0 <? size mod ATM_CELL_PAYLOAD then s32 (cells + 1) else cells in
  u32 (s32 (cells * ATM_CELL_SIZE)).

(** [iproute2-3.1.0/tc/tc_core.c:90-103 tc_adjust_size] *)
Definition tc_adjust_size (sz mpu : Z) (linklayer : link_layer) : Z :=
  let sz := if sz <? mpu then mpu else sz in
  match linklayer with LINKLAYER_ATM => tc_align_to_atm sz | _ => sz end.

#[local] Set Primitive Projections.

(** [iproute2-3.1.0/include/linux/pkt_sched.h:76-83 tc_ratespec] *)
Record tc_ratespec := mk_ratespec {
  rs_cell_log : Z;
  rs_overhead : Z;
  rs_cell_align : Z;
  rs_mpu : Z;
  rs_rate : Z
}.

(** [iproute2-3.1.0/include/linux/pkt_sched.h:87-96 tc_sizespec] *)
Record tc_sizespec := mk_sizespec {
  sz_cell_log : Z;
  sz_size_log : Z;
  sz_cell_align : Z;
  sz_overhead : Z;
  sz_linklayer : link_layer;
  sz_mpu : Z;
  sz_mtu : Z;
  sz_tsize : Z
}.

#[local] Unset Primitive Projections.

(** [while ((mtu >> cell_log) > bound) cell_log++]: 32 rounds bring any word to 0. *)
Fixpoint find_cell_log (fuel : nat) (mtu bound cell_log : Z) : Z :=
  match fuel with
  | O => cell_log
  | S fuel =>
      if bound <? Z.shiftr mtu cell_log then find_cell_log fuel mtu bound (cell_log + 1) else cell_log
  end.

(** The return value, [*r] and [rtab].  [iproute2-3.1.0/tc/tc_core.c:109-135 tc_calc_rtable] *)
Definition tc_calc_rtable (c : core) (r : tc_ratespec) (rtab : list Z) (cell_log mtu : Z)
    (linklayer : link_layer) : Z * tc_ratespec * list Z :=
  let bps := rs_rate r in
  let mpu := rs_mpu r in
  let mtu := if mtu =? 0 then 2047 else mtu in
  let cell_log := if cell_log <? 0 then find_cell_log 32 mtu 255 0 else cell_log in
  let rtab := for_n 256 (fun i rtab =>
    let sz := tc_adjust_size (u32 (Z.shiftl (Z.of_nat i + 1) cell_log)) mpu linklayer in
    <[i := tc_calc_xmittime c bps sz]> rtab) rtab in
  (cell_log, r <| rs_cell_align := - 1 |> <| rs_cell_log := u8 cell_log |>, rtab).

(** One pass of the loop over the entries, from the last to the first: [None] when
    an entry does not fit 16 bits. *)
Fixpoint size_pass (i : nat) (s : tc_sizespec) (rest : list Z) : option (list Z) :=
  match i with
  | O => Some rest
  | S i =>
      let sz := tc_adjust_size (u32 (Z.shiftl (Z.of_nat i + 1) (sz_cell_log s))) (sz_mpu s) (sz_linklayer s) in
      if 65535 <? Z.shiftr sz (sz_size_log s) then None
      else size_pass i s (Z.shiftr sz (sz_size_log s) :: rest)
  end.

(** [again]: a shift of 16 makes every word fit. *)
Fixpoint size_again (fuel : nat) (s : tc_sizespec) : tc_sizespec * list Z :=
  match fuel with
  | O => (s, [])
  | S fuel =>
      match size_pass (Z.to_nat (sz_tsize s)) s [] with
      | Some stab => (s, stab)
      | None => size_again fuel (s <| sz_size_log := u8 (sz_size_log s + 1) |>)
      end
  end.

(** The return value, [*s] and [*stab]; [alloc] says whether [malloc] succeeds.
    [iproute2-3.1.0/tc/tc_core.c:141-182 tc_calc_size_table] *)
Definition tc_calc_size_table (alloc : bool) (s : tc_sizespec) : Z * tc_sizespec * option (list Z) :=
  if (linklayer_code (sz_linklayer s) <=? 1) && (sz_mpu s =? 0) then
    (0, s <| sz_mtu := 0 |> <| sz_tsize := 0 |> <| sz_cell_log := 0 |> <| sz_cell_align := 0 |>, None)
  else
    let s := if sz_mtu s =? 0 then s <| sz_mtu := 2047 |> else s in
    let s := if sz_tsize s =? 0 then s <| sz_tsize := 512 |> else s in
    let s := s <| sz_cell_log := find_cell_log 32 (sz_mtu s) (sz_tsize s - 1) 0 |> in
    if alloc then
      let '(s, stab) := size_again 17 s in
      (0, s <| sz_cell_align := - 1 |>, Some stab)
    else (- 1, s, None).

(** The return value and the statics, from the content of /proc/net/psched.
    [iproute2-3.1.0/tc/tc_core.c:184-211 tc_core_init] *)
Definition tc_core_init (psched : option string) (c : core) : Z * core :=
  match psched with
  | None => (- 1, c)
  | Some text =>
      match scanf_x8 text with
      | None => (- 1, c)
      | Some (t2us, text) =>
          match scanf_x8 text with
          | None => (- 1, c)
          | Some (us2t, text) =>
              match scanf_x8 text with
              | None => (- 1, c)
              | Some (clock_res, _) =>
                  let t2us := if clock_res =? 1000000000 then us2t else t2us in
                  let factor := (d_of_Z clock_res / d_of_Z TIME_UNITS_PER_SEC)%D in
                  (0, mk_core (d_of_Z t2us / d_of_Z us2t * factor)%D factor)
              end
          end
      end
  end.

(** ** Size tables *)

(** [tc_align_to_atm] is the room of the cells that hold the packet. *)
Lemma tc_align_to_atm_cells size :
  0 <= size < 2 ^ 30 -> tc_align_to_atm size = 53 * ((size + 47) / 48).
Proof.
  intros Hs. unfold tc_align_to_atm, ATM_CELL_PAYLOAD, ATM_CELL_SIZE.
  assert (0 <= size / 48 < 2 ^ 25) by (Z.div_mod_to_equations; lia).
  rewrite (s32_small (size / 48)) by lia.
  destruct (Z.ltb_spec 0 (size mod 48)) as [Hm|Hm].
  - rewrite (s32_small (size / 48 + 1)) by lia. rewrite s32_small, u32_small by lia.
    assert ((size + 47) / 48 = size / 48 + 1) as -> by (Z.div_mod_to_equations; lia). lia.
  - rewrite s32_small, u32_small by lia.
    assert ((size + 47) / 48 = size / 48) as -> by (Z.div_mod_to_equations; lia). lia.
Qed.

(** The shift found is the least one that brings the word to the bound. *)
Lemma find_cell_log_spec mtu bound : 0 <= mtu < 2 ^ 32 -> 0 <= bound ->
  forall fuel k, 0 <= k -> k + Z.of_nat fuel = 32 ->
  let r := find_cell_log fuel mtu bound k in
  k <= r <= 32 /\ Z.shiftr mtu r <= bound /\ forall j, k <= j < r -> bound < Z.shiftr mtu j.
Proof.
  intros Hm Hb. induction fuel as [|fuel IH]; intros k Hk Hf r; cbn [find_cell_log] in r.
  - unfold r. split; [lia|]. split; [|lia]. rewrite Z.shiftr_div_pow2 by lia.
    rewrite Z.div_small; [lia|]. assert (k = 32) as -> by lia. done.
  - destruct (Z.ltb_spec bound (Z.shiftr mtu k)) as [Hl|Hl].
    + destruct (IH (k + 1) ltac:(lia) ltac:(lia)) as (I1 & I2 & I3). fold r in I1, I2, I3.
      split; [lia|]. split; [done|]. intros j Hj. destruct (decide (j = k)) as [->|]; [done|]. apply I3. lia.
    + unfold r. split; [lia|]. split; [done|lia].
Qed.

(** What the entry [i] stands for: the size of the packets of its slot. *)
Definition slot_size (s : tc_sizespec) (i : nat) : Z :=
  tc_adjust_size (u32 (Z.shiftl (Z.of_nat i + 1) (sz_cell_log s))) (sz_mpu s) (sz_linklayer s).

Definition slots (s : tc_sizespec) (log : Z) (n : nat) : list Z :=
  (fun i => Z.shiftr (slot_size s i) log) <$> seq 0 n.

Definition all_fit (s : tc_sizespec) (log : Z) (n : nat) : Prop := Forall (fun z => z <= 65535) (slots s log n).

Lemma slots_S s log n : slots s log (S n) = slots s log n ++ [Z.shiftr (slot_size s n) log].
Proof. unfold slots. by rewrite seq_S, fmap_app. Qed.

Lemma all_fit_S s log n :
  all_fit s log (S n) <-> all_fit s log n /\ Z.shiftr (slot_size s n) log <= 65535.
Proof. unfold all_fit. by rewrite slots_S, Forall_app, Forall_singleton. Qed.

Lemma size_pass_spec s : forall i rest,
  match size_pass i s rest with
  | Some l => all_fit s (sz_size_log s) i /\ l = slots s (sz_size_log s) i ++ rest
  | None => ~ all_fit s (sz_size_log s) i
  end.
Proof.
  induction i as [|i IH]; intros rest; cbn [size_pass].
  { split; [constructor|done]. }
  fold (slot_size s i). rewrite slots_S.
  destruct (Z.ltb_spec 65535 (Z.shiftr (slot_size s i) (sz_size_log s))) as [Hl|Hl];
    [rewrite all_fit_S; intros [_ ?]; lia|].
  specialize (IH (Z.shiftr (slot_size s i) (sz_size_log s) :: rest)).
  destruct (size_pass i s _) as [l|].
  - destruct IH as [H ->]. rewrite all_fit_S, <- app_assoc. done.
  - rewrite all_fit_S. intros [H _]. by apply IH.
Qed.

Lemma slot_size_range s i : 0 <= sz_mpu s < 2 ^ 32 -> 0 <= slot_size s i < 2 ^ 32.
Proof.
  intros Hm. unfold slot_size, tc_adjust_size. pose proof (u32_range (Z.shiftl (Z.of_nat i + 1) (sz_cell_log s))).
  destruct (_ <? _); destruct (sz_linklayer s); try lia; unfold tc_align_to_atm; apply u32_range.
Qed.

Definition with_log (s : tc_sizespec) (log : Z) : tc_sizespec := s <| sz_size_log := log |>.

Lemma all_fit_16 s n : 0 <= sz_mpu s < 2 ^ 32 -> all_fit s 16 n.
Proof.
  intros Hm. unfold all_fit, slots. apply Forall_fmap, Forall_true. intros i. cbn.
  rewrite Z.shiftr_div_pow2 by lia. pose proof (slot_size_range s i Hm).
  assert (slot_size s i / 2 ^ 16 < 2 ^ 16) by (apply Z.div_lt_upper_bound; lia). lia.
Qed.

Lemma size_again_spec s n : 0 <= sz_mpu s < 2 ^ 32 -> Z.to_nat (sz_tsize s) = n ->
  forall fuel log, 0 <= log <= 16 -> log + Z.of_nat fuel = 17 ->
  exists L, log <= L <= 16 /\ size_again fuel (with_log s log) = (with_log s L, slots s L n) /\
    all_fit s L n /\ forall j, log <= j < L -> ~ all_fit s j n.
Proof.
  intros Hm Hn. induction fuel as [|fuel IH]; intros log Hl Hf.
  - lia.
  - cbn [size_again]. change (sz_tsize (with_log s log)) with (sz_tsize s). rewrite Hn.
    pose proof (size_pass_spec (with_log s log) n []) as Hp.
    change (sz_size_log (with_log s log)) with log in *.
    destruct (size_pass n (with_log s log) []) as [l|].
    + destruct Hp as [Hfit ->]. exists log. rewrite app_nil_r. split; [lia|]. split; [done|].
      split; [exact Hfit|lia].
    + change (~ all_fit s log n) in Hp. assert (log <> 16) by (intros ->; by apply Hp, all_fit_16).
      assert (u8 (log + 1) = log + 1) as E by machine_int. rewrite E.
      change ((with_log s log) <| sz_size_log := log + 1 |>) with (with_log s (log + 1)).
      destruct (IH (log + 1) ltac:(lia) ltac:(lia)) as (L & I1 & I2 & I3 & I4).
      exists L. split; [lia|]. split; [done|]. split; [done|]. intros j Hj.
      destruct (decide (j = log)) as [->|]; [done|]. apply I4. lia.
Qed.

(** The configured sizes with their defaults. *)
Definition or_default (z d : Z) : Z := if z =? 0 then d else z.

(** Unless only an overhead is set (a zero table is then requested), a size
    table is computed with the least cell size that covers the MTU with the slots
    and the least scaling that brings every slot into 16 bits; the entry of a slot
    is its adjusted size, scaled, and no entry is truncated.  The two searches of
    the code end within 32 and 17 rounds. *)
Theorem size_table_ok (s : tc_sizespec) :
  sz_linklayer s = LINKLAYER_ATM \/ sz_mpu s <> 0 ->
  0 <= sz_mpu s < 2 ^ 32 -> 0 <= sz_mtu s < 2 ^ 32 -> 0 <= sz_tsize s < 2 ^ 32 -> sz_size_log s = 0 ->
  let mtu := or_default (sz_mtu s) 2047 in
  let tsize := or_default (sz_tsize s) 512 in
  exists s' stab, tc_calc_size_table true s = (0, s', Some stab) /\
    (Z.shiftr mtu (sz_cell_log s') <= tsize - 1 /\
     forall k, 0 <= k < sz_cell_log s' -> tsize - 1 < Z.shiftr mtu k) /\
    stab = slots s' (sz_size_log s') (Z.to_nat tsize) /\
    Forall (fun z => 0 <= z <= 65535) stab /\ 0 <= sz_size_log s' <= 16 /\
    forall k, 0 <= k < sz_size_log s' -> ~ all_fit s' k (Z.to_nat tsize).
Proof.
  intros Hk Hm Hmtu Ht Hlog mtu tsize. unfold tc_calc_size_table.
  assert ((linklayer_code (sz_linklayer s) <=? 1) && (sz_mpu s =? 0) = false) as ->.
  { destruct Hk as [->|Hne]; [done|]. rewrite (proj2 (Z.eqb_neq _ 0) Hne). apply andb_false_r. }
  set (s1 := if sz_mtu s =? 0 then _ else s).
  assert (sz_mtu s1 = mtu /\ sz_tsize s1 = sz_tsize s /\ sz_mpu s1 = sz_mpu s /\ sz_size_log s1 = 0) as (E1 & E2 & E3 & E4).
  { unfold s1, mtu, or_default. by destruct (sz_mtu s =? 0). }
  set (s2 := if sz_tsize s1 =? 0 then _ else s1).
  assert (sz_mtu s2 = mtu /\ sz_tsize s2 = tsize /\ sz_mpu s2 = sz_mpu s /\ sz_size_log s2 = 0) as (F1 & F2 & F3 & F4).
  { unfold s2, tsize, or_default. rewrite E2. by destruct (sz_tsize s =? 0). }
  set (s3 := s2 <| sz_cell_log := _ |>).
  assert (0 < tsize < 2 ^ 32) as Hts by (unfold tsize, or_default; destruct (Z.eqb_spec (sz_tsize s) 0); lia).
  assert (0 <= mtu < 2 ^ 32) as Hmtu' by (unfold mtu, or_default; destruct (Z.eqb_spec (sz_mtu s) 0); lia).
  destruct (find_cell_log_spec mtu (tsize - 1) ltac:(lia) ltac:(lia) 32 0 ltac:(lia) ltac:(done)) as (C1 & C2 & C3).
  destruct (size_again_spec s3 (Z.to_nat tsize)) with (fuel := 17%nat) (log := 0) as (L & L1 & L2 & L3 & L4);
    [change (sz_mpu s3) with (sz_mpu s2); by rewrite F3|change (sz_tsize s3) with (sz_tsize s2); by rewrite F2|lia|done|].
  assert (with_log s3 0 = s3) as Ew by (unfold with_log; rewrite <- F4; done).
  rewrite Ew in L2. rewrite L2.
  set (s' := (with_log s3 L) <| sz_cell_align := - 1 |>).
  exists s', (slots s3 L (Z.to_nat tsize)). split; [reflexivity|].
  assert (sz_cell_log s' = find_cell_log 32 mtu (tsize - 1) 0) as -> by (by rewrite <- F1, <- F2).
  split; [split; [exact C2|intros k Hk'; apply C3; lia]|].
  change (sz_size_log s') with L. split; [done|]. split; [|split; [lia|intros k Hk'; apply L4; lia]].
  apply Forall_fmap. apply Forall_forall. intros i Hi. cbn. split.
  - apply Z.shiftr_nonneg. apply slot_size_range. change (sz_mpu s3) with (sz_mpu s2). by rewrite F3.
  - unfold all_fit, slots in L3. rewrite Forall_fmap, Forall_forall in L3. by apply (L3 i).
Qed.

Lemma size_table_ok_witness :
  let s := mk_sizespec 0 0 0 0 LINKLAYER_ATM 0 1500 128 in
  exists s' stab, tc_calc_size_table true s = (0, s', Some stab) /\
    (Z.shiftr 1500 (sz_cell_log s') <= 127 /\ forall k, 0 <= k < sz_cell_log s' -> 127 < Z.shiftr 1500 k) /\
    stab = slots s' (sz_size_log s') 128 /\
    Forall (fun z => 0 <= z <= 65535) stab /\ 0 <= sz_size_log s' <= 16 /\
    forall k, 0 <= k < sz_size_log s' -> ~ all_fit s' k 128.
Proof.
  apply (size_table_ok (mk_sizespec 0 0 0 0 LINKLAYER_ATM 0 1500 128)); cbn; try lia. by left.
Defined.

(** ** Rate tables *)

(** The rate table has the transmission time of every slot, with the least cell
    size for which 256 slots cover the MTU when none is given. *)
Lemma rate_table_ok c r rtab cell_log mtu linklayer :
  List.length rtab = 256%nat -> 0 <= mtu < 2 ^ 32 ->
  let '(log, r', t) := tc_calc_rtable c r rtab cell_log mtu linklayer in
  t = (fun i => tc_calc_xmittime c (rs_rate r)
         (tc_adjust_size (u32 (Z.shiftl (Z.of_nat i + 1) log)) (rs_mpu r) linklayer)) <$> seq 0 256 /\
  rs_cell_log r' = u8 log /\ rs_rate r' = rs_rate r /\
  (cell_log < 0 -> Z.shiftr (or_default mtu 2047) log <= 255) /\ (0 <= cell_log -> log = cell_log).
Proof.
  intros Hl Hm. unfold tc_calc_rtable.
  set (mtu' := if mtu =? 0 then 2047 else mtu). change (or_default mtu 2047) with mtu'.
  assert (0 <= mtu' < 2 ^ 32) as Hm' by (unfold mtu'; destruct (Z.eqb_spec mtu 0); lia).
  set (log := if cell_log <? 0 then _ else cell_log). cbv zeta.
  rewrite for_n_tabulate by done. split; [done|]. split; [done|]. split; [done|].
  unfold log. destruct (Z.ltb_spec cell_log 0) as [Hn|Hn]; (split; [|lia]).
  - intros _. by destruct (find_cell_log_spec mtu' 255 Hm' ltac:(lia) 32 0 ltac:(lia) ltac:(done)) as (_ & ? & _).
  - lia.
Qed.
