(* ===== verification/TcUtil.v ===== *)
(** * Parsing and printing of tc's quantities (iproute2-3.1.0/tc/tc_util.c)

    A parser that returns -1 is [None].  The printers write at most [len] - 1
    characters ([snprintf]); [sprint_*] use the 63 of [SPRINT_BSIZE] - 1.  A parser
    that cuts its argument at a slash also gives the argument as it leaves it. *)

From S2P Require Export TcCore Addr Netlink FloatExact.

#[local] Open Scope list_scope.

Definition SPRINT_BSIZE : Z := 64.

(** [snprintf(buf, len, ..)] of a text. *)
Definition snprintf (len : Z) (text : string) : string := substring 0 (Z.to_nat (len - 1)) text.

(** [iproute2-3.1.0/tc/tc_util.c:31-40 get_tc_lib] *)
Definition get_tc_lib (getenv : string -> option string) : string :=
  match getenv "TC_LIB_DIR" with Some d => d | None => "/usr/lib/" +:+ "/tc/" end.

(** ** Handles *)

(** [iproute2-3.1.0/include/linux/pkt_sched.h:66-68 TC_H_MAJ] *)
Definition TC_H_MAJ (h : Z) : Z := Z.land h 0xFFFF0000.
(** [iproute2-3.1.0/include/linux/pkt_sched.h:67-69 TC_H_MIN] *)
Definition TC_H_MIN (h : Z) : Z := Z.land h 0x0000FFFF.
Definition TC_H_UNSPEC : Z := 0.
Definition TC_H_ROOT : Z := 0xFFFFFFFF.

(** [iproute2-3.1.0/tc/tc_util.c:42-59 get_qdisc_handle] *)
Definition get_qdisc_handle (str : string) : option Z :=
  if String.eqb str "none" then Some TC_H_UNSPEC
  else
    match strtoul str 16 with
    | None => None
    | Some (maj, p) =>
        let maj := u32 (Z.shiftl (u32 maj) 16) in
        match p with
        | "" => Some maj
        | String c _ => if Ascii.eqb c ":" then Some maj else None
        end
    end.

(** What follows the colon: the minor number. *)
Definition classid_minor (maj : Z) (str : string) : option Z :=
  if 2 ^ 16 <=? maj then None
  else
    let maj := u32 (Z.shiftl maj 16) in
    let '(min, p) := match strtoul str 16 with Some (v, p) => (u32 v, p) | None => (0, str) end in
    if negb (String.eqb p "") then None
    else if 2 ^ 16 <=? min then None
    else Some (Z.lor maj min).

(** [iproute2-3.1.0/tc/tc_util.c:61-95 get_tc_classid] *)
Definition get_tc_classid (str : string) : option Z :=
  if String.eqb str "root" then Some TC_H_ROOT
  else if String.eqb str "none" then Some TC_H_UNSPEC
  else
    match strtoul str 16 with
    | None =>
        match str with
        | String c rest => if Ascii.eqb c ":" then classid_minor 0 rest else None
        | "" => None
        end
    | Some (maj, p) =>
        match p with
        | "" => Some (u32 maj)
        | String c rest => if Ascii.eqb c ":" then classid_minor (u32 maj) rest else None
        end
    end.

(** [iproute2-3.1.0/tc/tc_util.c:97-110 print_tc_classid] *)
Definition print_tc_classid (len h : Z) : string :=
  if h =? TC_H_ROOT then "root"
  else if h =? TC_H_UNSPEC then snprintf len "none"
  else if TC_H_MAJ h =? 0 then snprintf len (":" +:+ print_x (TC_H_MIN h))
  else if TC_H_MIN h =? 0 then snprintf len (print_x (Z.shiftr (TC_H_MAJ h) 16) +:+ ":")
  else snprintf len (print_x (Z.shiftr (TC_H_MAJ h) 16) +:+ ":" +:+ print_x (TC_H_MIN h)).

(** [iproute2-3.1.0/tc/tc_util.c:112-117 sprint_tc_classid] *)
Definition sprint_tc_classid (h : Z) : string := print_tc_classid (SPRINT_BSIZE - 1) h.

(** [iproute2-3.1.0/tc/tc_util.c:382-385 print_qdisc_handle] *)
Definition print_qdisc_handle (len h : Z) : string :=
  snprintf len (print_x (Z.shiftr (TC_H_MAJ h) 16) +:+ ":").

(** [iproute2-3.1.0/tc/tc_util.c:387-391 sprint_qdisc_handle] *)
Definition sprint_qdisc_handle (h : Z) : string := print_qdisc_handle (SPRINT_BSIZE - 1) h.

(** ** Rates *)

(** [iproute2-3.1.0/tc/tc_util.c:119-143 suffixes] *)
Definition suffixes : list (string * double) :=
  [("bit", d_of_Z 1); ("Kibit", d_of_Z 1024); ("kbit", d_of_Z 1000); ("mibit", d_of_Z (1024 ^ 2));
   ("mbit", d_of_Z 1000000); ("gibit", d_of_Z (1024 ^ 3)); ("gbit", d_of_Z 1000000000);
   ("tibit", d_of_Z (1024 ^ 4)); ("tbit", d_of_Z 1000000000000); ("Bps", d_of_Z 8);
   ("KiBps", d_of_Z (8 * 1024)); ("KBps", d_of_Z 8000); ("MiBps", d_of_Z (8 * 1024 ^ 2));
   ("MBps", d_of_Z 8000000); ("GiBps", d_of_Z (8 * 1024 ^ 3)); ("GBps", d_of_Z 8000000000);
   ("TiBps", d_of_Z (8 * 1024 ^ 4)); ("TBps", d_of_Z 8000000000000)].

Fixpoint find_suffix (l : list (string * double)) (p : string) : option double :=
  match l with
  | [] => None
  | (name, scale) :: l => if strcaseeq name p then Some scale else find_suffix l p
  end.

(** [iproute2-3.1.0/tc/tc_util.c:146-168 get_rate] *)
Definition get_rate (str : string) : option Z :=
  match strtod str with
  | None => None
  | Some (bps, p) =>
      if String.eqb p "" then Some (d_to_u32 (bps / d_of_Z 8)%D)
      else match find_suffix suffixes p with
           | Some scale => Some (d_to_u32 (bps * scale / d_of_Z 8)%D)
           | None => None
           end
  end.

(** [for (i = 0; i < 32; i++) if ((1<<i) == cell)]. *)
Fixpoint find_log (fuel : nat) (i cell : Z) : option Z :=
  match fuel with
  | O => None
  | S fuel => if s32 (Z.shiftl 1 i) =? cell then Some i else find_log fuel (i + 1) cell
  end.

(** The part of the two [_and_cell] parsers behind the slash: the logarithm of the
    cell size, and the argument, restored once the number is read. *)
Definition parse_cell (str : string) (value : option Z) : option (Z * option Z) * string :=
  match value with
  | None => (None, cut_at "/" str)
  | Some v =>
      match after "/" str with
      | None => (Some (v, None), str)
      | Some text =>
          match get_integer text 0 with
          | None => (None, cut_at "/" str)
          | Some cell =>
              match find_log 32 0 cell with
              | Some i => (Some (v, Some i), str)
              | None => (None, str)
              end
          end
      end
  end.

(** The rate, the logarithm if there is one, and the argument left.
    [iproute2-3.1.0/tc/tc_util.c:170-197 get_rate_and_cell] *)
Definition get_rate_and_cell (str : string) : option (Z * option Z) * string :=
  parse_cell str (get_rate (cut_at "/" str)).

(** [iproute2-3.1.0/tc/tc_util.c:199-219 print_rate] *)
Definition print_rate (use_iec : bool) (len rate : Z) : string :=
  let tmp := (d_of_Z rate * d_of_Z 8)%D in
  let k := d_of_Z 1000 in
  let ki := d_of_Z 1024 in
  if use_iec then
    if dge tmp (k * ki * ki)%D then snprintf len (fmt_fixed 0 (tmp / ki * ki)%D +:+ "Mibit")
    else if dge tmp (k * ki)%D then snprintf len (fmt_fixed 0 (tmp / ki)%D +:+ "Kibit")
    else snprintf len (fmt_fixed 0 tmp +:+ "bit")
  else
    if dge tmp (k * d_of_Z 1000000)%D then snprintf len (fmt_fixed 0 (tmp / d_of_Z 1000000)%D +:+ "Mbit")
    else if dge tmp (k * k)%D then snprintf len (fmt_fixed 0 (tmp / k)%D +:+ "Kbit")
    else snprintf len (fmt_fixed 0 tmp +:+ "bit").

(** [iproute2-3.1.0/tc/tc_util.c:221-225 sprint_rate] *)
Definition sprint_rate (use_iec : bool) (rate : Z) : string := print_rate use_iec (SPRINT_BSIZE - 1) rate.

(** ** Times *)

(** [iproute2-3.1.0/tc/tc_util.c:227-252 get_time] *)
Definition get_time (str : string) : option Z :=
  match strtod str with
  | None => None
  | Some (t, p) =>
      if String.eqb p "" then Some (d_to_u32 t)
      else if strcaseeq p "s" || strcaseeq p "sec" || strcaseeq p "secs"
      then Some (d_to_u32 (t * d_of_Z TIME_UNITS_PER_SEC)%D)
      else if strcaseeq p "ms" || strcaseeq p "msec" || strcaseeq p "msecs"
      then Some (d_to_u32 (t * d_of_Z (TIME_UNITS_PER_SEC / 1000))%D)
      else if strcaseeq p "us" || strcaseeq p "usec" || strcaseeq p "usecs"
      then Some (d_to_u32 (t * d_of_Z (TIME_UNITS_PER_SEC / 1000000))%D)
      else None
  end.

(** [iproute2-3.1.0/tc/tc_util.c:255-265 print_time] *)
Definition print_time (len time : Z) : string :=
  let tmp := d_of_Z time in
  if dge tmp (d_of_Z TIME_UNITS_PER_SEC)
  then snprintf len (fmt_fixed 1 (tmp / d_of_Z TIME_UNITS_PER_SEC)%D +:+ "s")
  else if dge tmp (d_of_Z (TIME_UNITS_PER_SEC / 1000))
  then snprintf len (fmt_fixed 1 (tmp / d_of_Z (TIME_UNITS_PER_SEC / 1000))%D +:+ "ms")
  else snprintf len (print_u time +:+ "us").

(** [iproute2-3.1.0/tc/tc_util.c:267-271 sprint_time] *)
Definition sprint_time (time : Z) : string := print_time (SPRINT_BSIZE - 1) time.

(** [iproute2-3.1.0/tc/tc_util.c:273-276 sprint_ticks] *)
Definition sprint_ticks (c : core) (ticks : Z) : string := sprint_time (tc_core_tick2time c ticks).

(** ** Sizes *)

(** [iproute2-3.1.0/tc/tc_util.c:278-306 get_size] *)
Definition get_size (str : string) : option Z :=
  match strtod str with
  | None => None
  | Some (sz, p) =>
      if String.eqb p "" then Some (d_to_u32 sz)
      else if strcaseeq p "kb" || strcaseeq p "k" then Some (d_to_u32 (sz * d_of_Z 1024)%D)
      else if strcaseeq p "gb" || strcaseeq p "g" then Some (d_to_u32 (sz * d_of_Z (1024 * 1024 * 1024))%D)
      else if strcaseeq p "gbit" then Some (d_to_u32 (sz * d_of_Z (1024 * 1024 * 1024 / 8))%D)
      else if strcaseeq p "mb" || strcaseeq p "m" then Some (d_to_u32 (sz * d_of_Z (1024 * 1024))%D)
      else if strcaseeq p "mbit" then Some (d_to_u32 (sz * d_of_Z (1024 * 1024 / 8))%D)
      else if strcaseeq p "kbit" then Some (d_to_u32 (sz * d_of_Z (1024 / 8))%D)
      else if strcaseeq p "b" then Some (d_to_u32 sz)
      else None
  end.

(** [iproute2-3.1.0/tc/tc_util.c:308-335 get_size_and_cell] *)
Definition get_size_and_cell (str : string) : option (Z * option Z) * string :=
  parse_cell str (get_size (cut_at "/" str)).

(** The C library's [rint]: the nearest integer, ties to even, with the sign of
    the argument; and its [fabs]. *)
Definition d_rint (x : double) : double :=
  match x with
  | S754_finite s m e =>
      if 0 <=? e then x
      else
        match round_half_even (Z.pos m) (2 ^ (- e)) with
        | Z.pos q => if s then dneg (d_of_Z (Z.pos q)) else d_of_Z (Z.pos q)
        | _ => S754_zero s
        end
  | _ => x
  end.

Definition d_fabs (x : double) : double := SFabs x.

(** [iproute2-3.1.0/tc/tc_util.c:337-347 print_size] *)
Definition print_size (len sz : Z) : string :=
  let tmp := d_of_Z sz in
  let mega := d_of_Z (1024 * 1024) in
  let kilo := d_of_Z 1024 in
  if (1024 * 1024 <=? sz) && dlt (d_fabs (mega * d_rint (tmp / mega) - d_of_Z sz)%D) kilo
  then snprintf len (fmt_g (d_rint (tmp / mega)%D) +:+ "Mb")
  else if (1024 <=? sz) && dlt (d_fabs (kilo * d_rint (tmp / kilo) - d_of_Z sz)%D) (d_of_Z 16)
  then snprintf len (fmt_g (d_rint (tmp / kilo)%D) +:+ "Kb")
  else snprintf len (print_u sz +:+ "b").

(** [iproute2-3.1.0/tc/tc_util.c:349-353 sprint_size] *)
Definition sprint_size (size : Z) : string := print_size (SPRINT_BSIZE - 1) size.

(** ** Percentages *)

(** [iproute2-3.1.0/tc/tc_util.c:355-355 max_percent_value] *)
Definition max_percent_value : double := d_of_Z 0xffffffff.

(** [iproute2-3.1.0/tc/tc_util.c:357-369 get_percent] *)
Definition get_percent (str : string) : option Z :=
  let '(v, p) := match strtod str with Some (v, p) => (v, p) | None => (d0, str) end in
  let per := (v / d_of_Z 100)%D in
  if dgt per d1 || dlt per d0 then None
  else if negb (String.eqb p "") && negb (String.eqb p "%") then None
  else Some (d_to_u32 (d_rint (per * max_percent_value)%D)).

(** [iproute2-3.1.0/tc/tc_util.c:371-374 print_percent] *)
Definition print_percent (len per : Z) : string :=
  snprintf len (fmt_g (d_of_Z 100 * d_of_Z per / max_percent_value)%D +:+ "%").

(** [iproute2-3.1.0/tc/tc_util.c:376-380 sprint_percent] *)
Definition sprint_percent (per : Z) : string := print_percent (SPRINT_BSIZE - 1) per.

(** ** Actions and link layers *)

Definition TC_ACT_OK : Z := 0.
Definition TC_ACT_RECLASSIFY : Z := 1.
Definition TC_ACT_SHOT : Z := 2.
Definition TC_ACT_PIPE : Z := 3.
Definition TC_ACT_STOLEN : Z := 4.

(** [iproute2-3.1.0/tc/tc_util.c:393-415 action_n2a] *)
Definition action_n2a (action len : Z) : string :=
  if action =? - 1 then "continue"
  else if action =? TC_ACT_OK then "pass"
  else if action =? TC_ACT_SHOT then "drop"
  else if action =? TC_ACT_RECLASSIFY then "reclassify"
  else if action =? TC_ACT_PIPE then "pipe"
  else if action =? TC_ACT_STOLEN then "stolen"
  else snprintf len (print_d action).

(** [iproute2-3.1.0/tc/tc_util.c:417-440 action_a2n] *)
Definition action_a2n (arg : string) : option Z :=
  if matches arg "continue" then Some (- 1)
  else if matches arg "drop" then Some TC_ACT_SHOT
  else if matches arg "shot" then Some TC_ACT_SHOT
  else if matches arg "pass" then Some TC_ACT_OK
  else if String.eqb arg "ok" then Some TC_ACT_OK
  else if matches arg "reclassify" then Some TC_ACT_RECLASSIFY
  else match strtol arg 10 with
       | Some (res, "") => Some (s32 res)
       | _ => None
       end.

(** [iproute2-3.1.0/tc/tc_util.c:442-457 get_linklayer] *)
Definition get_linklayer (arg : string) : option link_layer :=
  if matches arg "ethernet" then Some LINKLAYER_ETHERNET
  else if matches arg "atm" then Some LINKLAYER_ATM
  else if matches arg "adsl" then Some LINKLAYER_ATM
  else None.

(** [iproute2-3.1.0/tc/tc_util.c:459-475 print_linklayer] *)
Definition print_linklayer (len linklayer : Z) : string :=
  if linklayer =? linklayer_code LINKLAYER_UNSPEC then snprintf len "unspec"
  else if linklayer =? linklayer_code LINKLAYER_ETHERNET then snprintf len "ethernet"
  else if linklayer =? linklayer_code LINKLAYER_ATM then snprintf len "atm"
  else snprintf len "unknown".

(** [iproute2-3.1.0/tc/tc_util.c:477-481 sprint_linklayer] *)
Definition sprint_linklayer (linklayer : Z) : string := print_linklayer (SPRINT_BSIZE - 1) linklayer.

(** ** Statistics *)

#[local] Set Primitive Projections.

(** [iproute2-3.1.0/include/linux/pkt_cls.h:138-142 tcf_t] *)
Record tcf_t := mk_tcf { tm_install : Z; tm_lastuse : Z; tm_expires : Z }.

(** [iproute2-3.1.0/include/linux/pkt_sched.h:32-42 tc_stats] *)
Record tc_stats := mk_tc_stats {
  st_bytes : Z;
  st_packets : Z;
  st_drops : Z;
  st_overlimits : Z;
  st_bps : Z;
  st_pps : Z;
  st_qlen : Z;
  st_backlog : Z
}.

(** [iproute2-3.1.0/include/linux/gen_stats.h:48-54 gnet_stats_queue] *)
Record gnet_stats_queue := mk_gnet_queue {
  gq_qlen : Z;
  gq_backlog : Z;
  gq_drops : Z;
  gq_requeues : Z;
  gq_overlimits : Z
}.

#[local] Unset Primitive Projections.

(** [hz] is [get_user_hz()].  [iproute2-3.1.0/tc/tc_util.c:483-492 print_tm] *)
Definition print_tm (hz : Z) (tm : tcf_t) : string :=
  let part (label : string) (t : Z) :=
    if t =? 0 then "" else label +:+ print_u (u32 (t / u64 hz)) +:+ " sec" in
  part " installed " (tm_install tm) +:+ part " used " (tm_lastuse tm) +:+ part " expires " (tm_expires tm).

(** A zeroed structure of [size] bytes overwritten by the payload, cut to it; and
    its fields of 4 and 8 bytes. *)
Definition copy_payload (m : list Z) (rta size : Z) : list Z :=
  let n := Z.min (RTA_PAYLOAD m rta) size in
  load_bytes m (RTA_DATA rta) n ++ replicate (Z.to_nat (size - n)) 0.

Definition field32 (b : list Z) (off : Z) : Z := of_le_bytes (load_bytes b off 4).
Definition field64 (b : list Z) (off : Z) : Z := of_le_bytes (load_bytes b off 8).

Definition queue_of_bytes (b : list Z) : gnet_stats_queue :=
  mk_gnet_queue (field32 b 0) (field32 b 4) (field32 b 8) (field32 b 12) (field32 b 16).

Definition stats_of_bytes (b : list Z) : tc_stats :=
  mk_tc_stats (field64 b 0) (field32 b 8) (field32 b 12) (field32 b 16) (field32 b 20) (field32 b 24)
    (field32 b 28) (field32 b 32).

Definition TCA_STATS_BASIC : nat := 1.
Definition TCA_STATS_RATE_EST : nat := 2.
Definition TCA_STATS_QUEUE : nat := 3.
Definition TCA_STATS_APP : nat := 4.

(** The text and [*xstats].  [iproute2-3.1.0/tc/tc_util.c:494-533 print_tcstats2_attr] *)
Definition print_tcstats2_attr (use_iec : bool) (m : list Z) (rta : Z) (prefix : string) :
    string * option Z :=
  let tbs := (parse_rtattr_nested m 4 rta).1 in
  let basic :=
    match tbs !!! TCA_STATS_BASIC with
    | Some a =>
        let bs := copy_payload m a 16 in
        prefix +:+ "Sent " +:+ print_u (field64 bs 0) +:+ " bytes " +:+ print_u (field32 bs 8) +:+ " pkt"
    | None => ""
    end in
  let dropped :=
    match tbs !!! TCA_STATS_QUEUE with
    | Some a =>
        let q := queue_of_bytes (copy_payload m a 20) in
        " (dropped " +:+ print_u (gq_drops q) +:+ ", overlimits " +:+ print_u (gq_overlimits q) +:+
        " requeues " +:+ print_u (gq_requeues q) +:+ ") "
    | None => ""
    end in
  let rate :=
    match tbs !!! TCA_STATS_RATE_EST with
    | Some a =>
        let re := copy_payload m a 8 in
        newline +:+ prefix +:+ "rate " +:+ sprint_rate use_iec (field32 re 0) +:+ " " +:+
        print_u (field32 re 4) +:+ "pps "
    | None => ""
    end in
  let queue :=
    match tbs !!! TCA_STATS_QUEUE with
    | Some a =>
        let q := queue_of_bytes (copy_payload m a 20) in
        (match tbs !!! TCA_STATS_RATE_EST with None => newline +:+ prefix | Some _ => "" end) +:+
        "backlog " +:+ sprint_size (gq_backlog q) +:+ " " +:+ print_u (gq_qlen q) +:+ "p requeues " +:+
        print_u (gq_requeues q) +:+ " "
    | None => ""
    end in
  (basic +:+ dropped +:+ rate +:+ queue, tbs !!! TCA_STATS_APP).

Definition TCA_STATS : nat := 3.
Definition TCA_XSTATS : nat := 4.
Definition TCA_STATS2 : nat := 7.

(** The caller passes a pointer for [*xstats], initialised to [NULL].
    [iproute2-3.1.0/tc/tc_util.c:535-579 print_tcstats_attr] *)
Definition print_tcstats_attr (use_iec : bool) (m : list Z) (tb : list (option Z)) (prefix : string) :
    string * option Z :=
  let compat_xstats := tb !!! TCA_XSTATS in
  match tb !!! TCA_STATS2 with
  | Some a =>
      match print_tcstats2_attr use_iec m a prefix with
      | (text, None) => (text, compat_xstats)
      | r => r
      end
  | None =>
      match tb !!! TCA_STATS with
      | Some a =>
          let st := stats_of_bytes (copy_payload m a 40) in
          let nz z := negb (z =? 0) in
          let sent :=
            prefix +:+ "Sent " +:+ print_u (st_bytes st) +:+ " bytes " +:+ print_u (st_packets st) +:+
            " pkts (dropped " +:+ print_u (st_drops st) +:+ ", overlimits " +:+ print_u (st_overlimits st) +:+
            ") " in
          let rate :=
            if nz (st_bps st) || nz (st_pps st) then
              "rate " +:+ (if nz (st_bps st) then sprint_rate use_iec (st_bps st) +:+ " " else "") +:+
              (if nz (st_pps st) then print_u (st_pps st) +:+ "pps " else "")
            else "" in
          let queue :=
            if nz (st_qlen st) || nz (st_backlog st) then
              "backlog " +:+ (if nz (st_backlog st) then sprint_size (st_backlog st) +:+ " " else "") +:+
              (if nz (st_qlen st) then print_u (st_qlen st) +:+ "p " else "")
            else "" in
          let more :=
            if nz (st_bps st) || nz (st_pps st) || nz (st_qlen st) || nz (st_backlog st)
            then newline +:+ prefix +:+ rate +:+ queue else "" in
          (sent +:+ more, compat_xstats)
      | None => ("", compat_xstats)
      end
  end.

(** ** Handles are read back *)

Lemma snprintf_fits len s : Z.of_nat (String.length s) < len -> snprintf len s = s.
Proof. intros H. unfold snprintf. apply substring_all. lia. Qed.

Lemma print_x_length z k :
  0 <= z < 16 ^ Z.of_nat k -> (0 < k)%nat -> (String.length (print_x z) <= k)%nat.
Proof.
  intros Hz Hk. unfold print_x, print_base.
  destruct (print_digits_length 16 (S (Z.to_nat (Z.log2 z))) z k "") as [I _];
    [lia|split; [lia|apply print_base_fuel; lia]|done|]. apply I. lia.
Qed.

Lemma print_x_nonempty z : 0 <= z -> print_x z <> "".
Proof.
  intros Hz. unfold print_x, print_base.
  by destruct (print_digits_head 16 ltac:(lia) (Z.to_nat (Z.log2 z)) z "" Hz) as (d & s & -> & _).
Qed.

(** Hexadecimal digits and colons: what handles are made of. *)
Definition handle_char (c : ascii) : bool :=
  Ascii.eqb c ":" || match digit_in 16 c with Some _ => true | None => false end.

Lemma print_x_chars z : 0 <= z -> all_chars handle_char (print_x z) = true.
Proof.
  intros Hz. apply print_base_chars; [lia|done|]. intros d Hd. unfold handle_char.
  rewrite digit_in_char by lia. apply orb_true_r.
Qed.

Lemma not_a_handle s w : all_chars handle_char s = true -> all_chars handle_char w = false -> String.eqb s w = false.
Proof. intros Hs Hw. destruct (String.eqb_spec s w) as [->|]; [congruence|done]. Qed.

Lemma TC_H_parts h : 0 <= h < 2 ^ 32 ->
  TC_H_MIN h = h mod 2 ^ 16 /\ TC_H_MAJ h = h / 2 ^ 16 * 2 ^ 16 /\ Z.shiftr (TC_H_MAJ h) 16 = h / 2 ^ 16.
Proof.
  intros Hh. unfold TC_H_MIN, TC_H_MAJ.
  assert (Z.land h 0xFFFF = h mod 2 ^ 16) as E by (change 0xFFFF with (Z.ones 16); by apply Z.land_ones).
  assert (Z.land h 0xFFFF0000 = h / 2 ^ 16 * 2 ^ 16) as E'.
  { change 0xFFFF0000 with (Z.shiftl (Z.ones 16) 16). rewrite <- Z.shiftl_mul_pow2, <- Z.shiftr_div_pow2 by lia.
    apply Z.bits_inj'. intros i Hi. rewrite Z.land_spec, !Z.shiftl_spec by lia.
    destruct (Z.ltb_spec i 16) as [Hl|Hl].
    - rewrite (Z.testbit_neg_r _ (i - 16)), (Z.testbit_neg_r _ (i - 16)) by lia. by rewrite andb_false_r.
    - rewrite Z.shiftr_spec by lia. replace (i - 16 + 16) with i by lia.
      destruct (Z.ltb_spec i 32) as [H2|H2].
      + rewrite Z.ones_spec_low by lia. apply andb_true_r.
      + rewrite Z.ones_spec_high by lia. rewrite andb_false_r. symmetry.
        destruct (decide (h = 0)) as [->|]; [apply Z.bits_0|].
        apply Z.bits_above_log2; [lia|]. apply Z.log2_lt_pow2; [lia|].
        apply Z.lt_le_trans with (2 ^ 32); [lia|]. apply Z.pow_le_mono_r; lia. }
  split; [done|]. split; [done|]. rewrite E', Z.shiftr_div_pow2 by lia. apply Z.div_mul. lia.
Qed.

Lemma testbit_above z k i : 0 <= z < 2 ^ k -> 0 <= k <= i -> Z.testbit z i = false.
Proof.
  intros Hz Hk. destruct (decide (z = 0)) as [->|]; [apply Z.bits_0|].
  apply Z.bits_above_log2; [lia|]. apply Z.log2_lt_pow2; [lia|].
  apply Z.lt_le_trans with (2 ^ k); [lia|]. apply Z.pow_le_mono_r; lia.
Qed.

Lemma lor_range a b n : 0 <= n -> 0 <= a < 2 ^ n -> 0 <= b < 2 ^ n -> 0 <= Z.lor a b < 2 ^ n.
Proof.
  intros Hn Ha Hb. split; [apply Z.lor_nonneg; lia|].
  destruct (Z.eq_dec (Z.lor a b) 0) as [->|]; [lia|]. apply Z.log2_lt_pow2; [pose proof (proj2 (Z.lor_nonneg a b) ltac:(lia)); lia|].
  rewrite Z.log2_lor by lia. apply Z.max_lub_lt.
  - destruct (Z.eq_dec a 0) as [->|]; [|apply Z.log2_lt_pow2; lia]. destruct (Z.eq_dec n 0) as [->|]; [|cbn; lia].
    assert (b = 0) as -> by lia. done.
  - destruct (Z.eq_dec b 0) as [->|]; [|apply Z.log2_lt_pow2; lia]. destruct (Z.eq_dec n 0) as [->|]; [|cbn; lia].
    assert (a = 0) as -> by lia. done.
Qed.

Lemma classid_minor_range maj s v : classid_minor maj s = Some v -> 0 <= v < 2 ^ 32.
Proof.
  unfold classid_minor. destruct (2 ^ 16 <=? maj); [done|].
  destruct (match strtoul s 16 with Some (w, p) => (u32 w, p) | None => (0, s) end) as [min p] eqn:E.
  assert (0 <= min < 2 ^ 32) as Hm.
  { destruct (strtoul s 16) as [[w q]|]; injection E as <- _; [apply u32_range|lia]. }
  destruct (negb (String.eqb p "")); [done|]. destruct (2 ^ 16 <=? min); [done|]. intros [= <-].
  apply lor_range; [lia|apply u32_range|done].
Qed.

Lemma get_tc_classid_range arg v : get_tc_classid arg = Some v -> 0 <= v < 2 ^ 32.
Proof.
  unfold get_tc_classid. destruct (String.eqb arg "root"); [by intros [= <-]|]. destruct (String.eqb arg "none"); [by intros [= <-]|].
  destruct (strtoul arg 16) as [[maj p]|].
  - destruct p as [|c p]; [intros [= <-]; apply u32_range|]. destruct (Ascii.eqb c ":"); [|done]. apply classid_minor_range.
  - destruct arg as [|c p]; [done|]. destruct (Ascii.eqb c ":"); [|done]. apply classid_minor_range.
Qed.

Lemma lor_add a b k : 0 <= k -> 0 <= b < 2 ^ k -> Z.lor (a * 2 ^ k) b = a * 2 ^ k + b.
Proof.
  intros Hk Hb. assert (Z.land (a * 2 ^ k) b = 0) as E.
  { apply Z.bits_inj'. intros i Hi. rewrite Z.land_spec, Z.bits_0. destruct (Z.ltb_spec i k).
    - by rewrite Z.mul_pow2_bits_low by lia.
    - rewrite (testbit_above b k i) by lia. apply andb_false_r. }
  by rewrite <- Z.lxor_lor, <- Z.add_nocarry_lxor by done.
Qed.

Lemma classid_minor_text maj min :
  0 <= maj < 2 ^ 16 -> 0 <= min < 2 ^ 16 ->
  classid_minor maj (print_x min) = Some (maj * 2 ^ 16 + min) /\ classid_minor maj "" = Some (maj * 2 ^ 16).
Proof.
  intros Hj Hn. unfold classid_minor. rewrite (proj2 (Z.leb_gt _ maj)) by lia.
  rewrite Z.shiftl_mul_pow2 by lia. rewrite (u32_small (maj * 2 ^ 16)) by lia. split.
  - assert (strtoul (print_x min) 16 = Some (min, "")) as ->.
    { rewrite <- (append_empty (print_x min)) at 1. apply strtoul_print_x; [unfold ULONG_MAX; lia|done]. }
    rewrite (u32_small min) by lia. cbn [String.eqb negb].
    rewrite (proj2 (Z.leb_gt _ min)) by lia. by rewrite lor_add by lia.
  - change (strtoul "" 16) with (@None (Z * string)). cbn [String.eqb negb].
    change (2 ^ 16 <=? 0) with false. cbv iota. by rewrite Z.lor_0_r.
Qed.

Lemma strtoul_colon s : strtoul (String ":" s) 16 = None.
Proof. by destruct s. Qed.

(** Every class identifier is read back from what [sprint_tc_classid] prints,
    and every qdisc handle from what [sprint_qdisc_handle] prints. *)
Theorem classid_roundtrip (h : Z) :
  0 <= h < 2 ^ 32 ->
  get_tc_classid (sprint_tc_classid h) = Some h /\
  get_qdisc_handle (sprint_qdisc_handle h) = Some (TC_H_MAJ h).
Proof.
  intros Hh. destruct (TC_H_parts h Hh) as (En & Ej & Es).
  assert (0 <= h / 2 ^ 16 < 2 ^ 16) as Hj by (Z.div_mod_to_equations; lia).
  assert (0 <= h mod 2 ^ 16 < 2 ^ 16) as Hn by (apply Z.mod_pos_bound; lia).
  pose proof (print_x_length (h / 2 ^ 16) 4 ltac:(lia) ltac:(lia)) as Lj.
  pose proof (print_x_length (h mod 2 ^ 16) 4 ltac:(lia) ltac:(lia)) as Ln.
  pose proof (print_x_chars (h / 2 ^ 16) ltac:(lia)) as Cj.
  pose proof (print_x_chars (h mod 2 ^ 16) ltac:(lia)) as Cn.
  assert (forall rest, match rest with String c _ => is_space c || Ascii.eqb c ":" = true | "" => True end ->
    strtoul (print_x (h / 2 ^ 16) +:+ rest) 16 = Some (h / 2 ^ 16, rest)) as Hmaj.
  { intros rest Hr. apply strtoul_print_x; [unfold ULONG_MAX; lia|done]. }
  split.
  - unfold sprint_tc_classid, print_tc_classid, SPRINT_BSIZE.
    destruct (Z.eqb_spec h TC_H_ROOT) as [->|Hr]; [done|].
    destruct (Z.eqb_spec h TC_H_UNSPEC) as [->|Hu]; [done|].
    unfold TC_H_UNSPEC in Hu. rewrite Es, En.
    destruct (Z.eqb_spec (TC_H_MAJ h) 0) as [E0|E0]; [|destruct (Z.eqb_spec (h mod 2 ^ 16) 0) as [E1|E1]];
      (rewrite snprintf_fits by (rewrite ?length_append; cbn [String.length]; lia)); unfold get_tc_classid.
    + change (":" +:+ print_x (h mod 2 ^ 16)) with (String ":" (print_x (h mod 2 ^ 16))).
      assert (all_chars handle_char (String ":" (print_x (h mod 2 ^ 16))) = true) as C by exact Cn.
      rewrite !(not_a_handle _ _ C) by (vm_compute; reflexivity).
      rewrite strtoul_colon. rewrite Ascii.eqb_refl.
      destruct (classid_minor_text 0 (h mod 2 ^ 16) ltac:(lia) Hn) as [-> _]. f_equal. Z.div_mod_to_equations. lia.
    + assert (all_chars handle_char (print_x (h / 2 ^ 16) +:+ ":") = true) as C
        by (rewrite all_chars_app, Cj; reflexivity).
      rewrite !(not_a_handle _ _ C) by (vm_compute; reflexivity).
      rewrite Hmaj by done. rewrite Ascii.eqb_refl, u32_small by lia.
      destruct (classid_minor_text (h / 2 ^ 16) 0 Hj ltac:(lia)) as [_ ->]. f_equal. Z.div_mod_to_equations. lia.
    + change (print_x (h / 2 ^ 16) +:+ ":" +:+ print_x (h mod 2 ^ 16)) with
        (print_x (h / 2 ^ 16) +:+ String ":" (print_x (h mod 2 ^ 16))).
      assert (all_chars handle_char (print_x (h / 2 ^ 16) +:+ String ":" (print_x (h mod 2 ^ 16))) = true) as C
        by (rewrite all_chars_app, Cj; exact Cn).
      rewrite !(not_a_handle _ _ C) by (vm_compute; reflexivity).
      rewrite Hmaj by done. rewrite Ascii.eqb_refl, u32_small by lia.
      destruct (classid_minor_text (h / 2 ^ 16) (h mod 2 ^ 16) Hj Hn) as [-> _]. f_equal. Z.div_mod_to_equations. lia.
  - unfold sprint_qdisc_handle, print_qdisc_handle, SPRINT_BSIZE. rewrite Es.
    rewrite snprintf_fits by (rewrite length_append; cbn [String.length]; lia). unfold get_qdisc_handle.
    assert (all_chars handle_char (print_x (h / 2 ^ 16) +:+ ":") = true) as C
      by (rewrite all_chars_app, Cj; reflexivity).
    rewrite (not_a_handle _ _ C) by (vm_compute; reflexivity).
    rewrite Hmaj by done. rewrite Ascii.eqb_refl. rewrite (u32_small (h / 2 ^ 16)), Z.shiftl_mul_pow2 by lia.
    rewrite Ej. f_equal. apply u32_small. lia.
Qed.

Lemma classid_roundtrip_witness :
  get_tc_classid (sprint_tc_classid 0x8001000a) = Some 0x8001000a /\
  get_qdisc_handle (sprint_qdisc_handle 0x8001000a) = Some 0x80010000.
Proof. apply (classid_roundtrip 0x8001000a). lia. Defined.

(** The handle parser does not test the range: the high digits are lost. *)
Example get_qdisc_handle_wraps : get_qdisc_handle "12345:" = get_qdisc_handle "2345:".
Proof. reflexivity. Qed.

(** ** Sizes are read exactly *)

(** What may follow a number: nothing that a floating-point literal could use. *)
Definition number_end (rest : string) : Prop :=
  match rest with
  | "" => True
  | String c _ =>
      digit_in 10 c = None /\ Ascii.eqb c "." = false /\ Ascii.eqb (to_lower c) "e" = false /\
      Ascii.eqb (to_lower c) "x" = false
  end.

Lemma digit_char_lower d : 0 <= d < 16 ->
  to_lower (digit_char d) <> "i"%char /\ to_lower (digit_char d) <> "n"%char /\
  Ascii.eqb (to_lower (digit_char d)) "x" = false.
Proof.
  revert d. apply (all_digits (fun d => to_lower (digit_char d) <> "i"%char /\ to_lower (digit_char d) <> "n"%char /\
    Ascii.eqb (to_lower (digit_char d)) "x" = false)).
  repeat constructor; vm_compute; congruence.
Qed.

Lemma prefix_head a w c s : a <> c -> String.prefix (String a w) (String c s) = false.
Proof. intros H. cbn [String.prefix]. by destruct (ascii_dec a c). Qed.

(** No [0x]: the second character is not an [x]. *)
Lemma prefix_0x s : (forall c d r, s = String c (String d r) -> Ascii.eqb (to_lower d) "x" = false) ->
  String.prefix "0x" (lower s) = false.
Proof.
  intros H. destruct s as [|c [|d r]]; [done| |].
  - cbn [lower String.prefix]. by destruct (ascii_dec _ _).
  - cbn [lower]. cbn [String.prefix]. destruct (ascii_dec "0" (to_lower c)); [|done].
    specialize (H c d r eq_refl). destruct (ascii_dec "x" (to_lower d)) as [E|]; [|done].
    rewrite <- E in H. done.
Qed.

(** Digits are not an infinity, a NaN or a hexadecimal number. *)
Lemma scan_float_digits n rest :
  0 <= n -> number_end rest -> scan_float (print_u n +:+ rest) = Some (d_of_Z n, rest, true).
Proof.
  intros Hn Hr.
  assert (starts_digit 10 rest = false) as Hs.
  { destruct rest as [|c r]; [done|]. cbn [starts_digit]. by destruct Hr as (-> & _). }
  assert (all_chars (fun c => negb (Ascii.eqb (to_lower c) "x")) (print_u n) = true) as Hx.
  { apply print_base_chars; [lia|done|]. intros d Hd.
    by destruct (digit_char_lower d ltac:(lia)) as (_ & _ & ->). }
  destruct (print_base_scan 10 ltac:(lia) n rest Hn) as [Hd _]. change (print_base 10 n) with (print_u n) in Hd.
  assert (dec n 0 = d_of_Z n) as Edec by (unfold dec, d_of_Z; change (0 <=? 0) with true; cbv iota; by rewrite Z.mul_1_r).
  assert (exists d s, print_u n = String (digit_char d) s /\ 0 <= d < 10) as (d & s & E & Hd10)
    by (apply print_digits_head; lia).
  destruct (digit_char_lower d ltac:(lia)) as (Hi & Hnn & _).
  unfold scan_float, has_prefix.
  assert (lower (print_u n +:+ rest) = String (to_lower (digit_char d)) (lower (s +:+ rest))) as El by (by rewrite E).
  rewrite prefix_0x.
  2:{ intros c c' r Er. rewrite E in Er, Hx. change (String (digit_char d) s +:+ rest) with
        (String (digit_char d) (s +:+ rest)) in Er. injection Er as _ Er. cbn [all_chars] in Hx.
      apply andb_true_iff in Hx as [_ Hx]. destruct s as [|c2 s2].
      - change ("" +:+ rest) with rest in Er. subst rest. by destruct Hr as (_ & _ & _ & ?).
      - change (String c2 s2 +:+ rest) with (String c2 (s2 +:+ rest)) in Er. injection Er as -> _.
        cbn [all_chars] in Hx. apply andb_true_iff in Hx as [Hx _]. by apply negb_true_iff. }
  rewrite El, !prefix_head by congruence. cbn [andb]. cbv iota.
  unfold scan_fraction. rewrite Hd. change (print_u n) with (print_base 10 n).
  rewrite scan_print by (done || lia).
  destruct rest as [|c r]; cbv iota.
  - change (scan_exponent "e" "") with (0, "", true). cbv iota. by rewrite <- Edec.
  - destruct Hr as (_ & Hdot & He & _). rewrite Hdot. unfold scan_exponent. rewrite He. by rewrite <- Edec.
Qed.

(** Reading a decimal integer as a double. *)
Lemma strtod_print_u n rest :
  0 <= n -> number_end rest -> strtod (print_u n +:+ rest) = Some (d_of_Z n, rest).
Proof.
  intros Hn Hr. unfold strtod, scan_double.
  destruct (print_base_scan 10 ltac:(lia) n rest Hn) as [_ E]. change (print_base 10 n) with (print_u n) in E.
  rewrite E. by rewrite scan_float_digits.
Qed.

(** The units of [get_size] and their factors. *)
Definition size_units : list (string * Z) :=
  [("", 1); ("b", 1); ("k", 1024); ("kb", 1024); ("Kb", 1024); ("m", 1024 ^ 2); ("mb", 1024 ^ 2); ("Mb", 1024 ^ 2);
   ("g", 1024 ^ 3); ("gb", 1024 ^ 3); ("kbit", 128); ("mbit", 128 * 1024); ("gbit", 128 * 1024 ^ 2)].

(** A size written as an integer and a unit is read exactly, as long as it fits
    the 32-bit result: no rounding in the multiplication or the conversions. *)
Theorem get_size_exact (n : Z) (unit : string) (factor : Z) :
  In (unit, factor) size_units -> 0 <= n -> n * factor < 2 ^ 32 ->
  get_size (print_u n +:+ unit) = Some (n * factor).
Proof.
  intros Hu Hn Hf.
  assert (number_end unit /\ 0 < factor < 2 ^ 53) as [He Hfac].
  { repeat (destruct Hu as [Hu|Hu]; [injection Hu as <- <-; vm_compute; repeat split; congruence|]). done. }
  assert (0 <= n * factor) as H0 by nia.
  unfold get_size. rewrite strtod_print_u by done.
  assert (forall x, x = d_of_Z (n * factor) -> Some (d_to_u32 x) = Some (n * factor)) as Hx.
  { intros x ->. rewrite d_to_u32_of_Z by lia. by rewrite u32_small by lia. }
  assert (forall k, k = factor -> Some (d_to_u32 (d_of_Z n * d_of_Z k)%D) = Some (n * factor)) as Hk.
  { intros k ->. apply Hx, dmul_of_Z; lia. }
  repeat (destruct Hu as [Hu|Hu];
    [injection Hu as <- <-; first [apply Hk; reflexivity | apply Hx; by rewrite Z.mul_1_r]|]). done.
Qed.

Lemma get_size_exact_witness : get_size (print_u 500 +:+ "Kb") = Some 512000.
Proof. apply (get_size_exact 500 "Kb" 1024); [by do 4 right; left|lia|lia]. Defined.

(** ** Actions *)

Lemma matches_head c s d w : Ascii.eqb c d = false -> matches (String c s) (String d w) = false.
Proof.
  intros H. destruct (matches _ _) eqn:E; [|done]. exfalso.
  apply matches_prefix in E as [r E]. change (String c s +:+ r) with (String c (s +:+ r)) in E.
  injection E as -> _. by rewrite Ascii.eqb_refl in H.
Qed.

Lemma eqb_head c s d w : Ascii.eqb c d = false -> String.eqb (String c s) (String d w) = false.
Proof. intros H. cbn [String.eqb]. by rewrite H. Qed.

Lemma number_head z : exists c s, print_d z = String c s /\
  Ascii.eqb c "c" = false /\ Ascii.eqb c "d" = false /\ Ascii.eqb c "s" = false /\ Ascii.eqb c "p" = false /\
  Ascii.eqb c "o" = false /\ Ascii.eqb c "r" = false.
Proof.
  unfold print_d. destruct (Z.ltb_spec z 0) as [Hn|Hn]; [by eexists _, _|].
  assert (exists d s, print_u z = String (digit_char d) s /\ 0 <= d < 10) as (d & s & -> & Hd)
    by (apply print_digits_head; lia).
  exists (digit_char d), s. split; [done|]. revert d Hd.
  assert (forall d, 0 <= d < 16 -> d < 10 -> Ascii.eqb (digit_char d) "c" = false /\ Ascii.eqb (digit_char d) "d" = false /\
    Ascii.eqb (digit_char d) "s" = false /\ Ascii.eqb (digit_char d) "p" = false /\
    Ascii.eqb (digit_char d) "o" = false /\ Ascii.eqb (digit_char d) "r" = false) as H;
    [|intros d Hd; apply H; lia].
  apply (all_digits (fun d => d < 10 -> Ascii.eqb (digit_char d) "c" = false /\ Ascii.eqb (digit_char d) "d" = false /\
    Ascii.eqb (digit_char d) "s" = false /\ Ascii.eqb (digit_char d) "p" = false /\
    Ascii.eqb (digit_char d) "o" = false /\ Ascii.eqb (digit_char d) "r" = false)).
  repeat (constructor; [intros Hd; first [(vm_compute in Hd; discriminate Hd) | (vm_compute; repeat split)]|]).
  constructor.
Qed.

(** [action_a2n] reads back what [action_n2a] prints for every action but the
    two whose names it does not know, [pipe] and [stolen], which it refuses. *)
Theorem action_roundtrip (a : Z) :
  - 2 ^ 31 <= a < 2 ^ 31 ->
  action_a2n (action_n2a a SPRINT_BSIZE) =
    (if (a =? TC_ACT_PIPE) || (a =? TC_ACT_STOLEN) then None else Some a).
Proof.
  intros Ha. unfold action_n2a.
  destruct (Z.eqb_spec a (- 1)) as [->|H1]; [reflexivity|].
  destruct (Z.eqb_spec a TC_ACT_OK) as [->|H2]; [reflexivity|].
  destruct (Z.eqb_spec a TC_ACT_SHOT) as [->|H3]; [reflexivity|].
  destruct (Z.eqb_spec a TC_ACT_RECLASSIFY) as [->|H4]; [reflexivity|].
  destruct (Z.eqb_spec a TC_ACT_PIPE) as [->|H5]; [reflexivity|].
  destruct (Z.eqb_spec a TC_ACT_STOLEN) as [->|H6]; [reflexivity|]. cbn [orb].
  assert (LONG_MIN <= a <= LONG_MAX) as Hl by (unfold LONG_MIN, LONG_MAX; lia).
  pose proof (print_d_length a Hl). rewrite snprintf_fits by (unfold SPRINT_BSIZE; lia).
  unfold action_a2n. destruct (number_head a) as (c & s & E & N1 & N2 & N3 & N4 & N5 & N6). rewrite E.
  rewrite !matches_head, eqb_head by done. rewrite <- E.
  rewrite <- (append_empty (print_d a)). rewrite strtol_print_d by done. by rewrite s32_small by lia.
Qed.

Lemma action_roundtrip_witness : action_a2n (action_n2a 7 SPRINT_BSIZE) = Some 7.
Proof. apply (action_roundtrip 7). lia. Defined.
