(* ===== verification/RtNames.v ===== *)
(** * Names of routing numbers (lib/rt_names.c)

    Protocols, scopes, realms and service fields are tables of 256 names, routing
    tables and groups are hash tables; both are filled from a file the first time a
    name is missing, and every parser keeps its last answer.  The statics of a family of functions are a
    record; [db] is the text of its file, NUL-free, or [None] when it cannot be opened. *)

From S2P Require Export TcUtil.

#[local] Open Scope list_scope.

(** ** Reading a database *)

Definition LINE_SIZE : nat := 512.

(** [fgets(buf, sizeof(buf), fp)]: a line, or its first 511 characters. *)
Definition fgets (stream : string) : option (string * string) :=
  match stream with
  | "" => None
  | _ =>
      let '(line, rest) := read_line stream in
      if (String.length line <? LINE_SIZE)%nat then Some (line, rest)
      else Some (substring 0 (LINE_SIZE - 1) stream, drop_chars (LINE_SIZE - 1) stream)
  end.

(** [while ( *p == ' ' || *p == '\t') p++]. *)
Fixpoint skip_blanks (s : string) : string :=
  match s with String c s' => if Ascii.eqb c " " || Ascii.eqb c "009" then skip_blanks s' else s | "" => "" end.

(** The word a [%s] reads. *)
Fixpoint scan_word (s : string) : string :=
  match s with String c s' => if is_space c then "" else String c (scan_word s') | "" => "" end.

Definition scanf_s (s : string) : option string :=
  match scan_word (skip_space s) with "" => None | w => Some w end.

(** A [%x]; a [0x] without a digit behind it does not match. *)
Definition scanf_x (s : string) : option (Z * string) :=
  let t := (scan_sign (skip_space s)).2 in
  if has_prefix "0x" t && negb (starts_digit 16 (drop_chars 2 t)) then None
  else match strtoul s 16 with Some (v, rest) => Some (s32 v, rest) | None => None end.

Definition scanf_d (s : string) : option (Z * string) :=
  match strtol s 10 with Some (v, rest) => Some (s32 v, rest) | None => None end.

Definition number_and_name (number : option (Z * string)) : option (Z * string) :=
  match number with
  | Some (id, rest) => match scanf_s rest with Some name => Some (id, name) | None => None end
  | None => None
  end.

(** The number and the name of a line.  What a format has behind its two conversions
    does not change their count, so the second and the fourth [sscanf] never convert
    what the one before them does not.
    [iproute2-3.1.0/lib/rt_names.c:51-54 rtnl_hash_initialize] *)
Definition scan_entry (p : string) : option (Z * string) :=
  match (if String.prefix "0x" p then number_and_name (scanf_x (drop_chars 2 p)) else None) with
  | Some e => Some e
  | None => number_and_name (scanf_d p)
  end.

(** What a line is: nothing, an entry, or the end of the reading. *)
Inductive db_line := Blank | Entry (id : Z) (name : string) | Corrupted.

(** [iproute2-3.1.0/lib/rt_names.c:44-59 rtnl_hash_initialize] *)
Definition parse_line (line : string) : db_line :=
  let p := skip_blanks line in
  match p with
  | "" => Blank
  | String c _ =>
      if Ascii.eqb c "#" || Ascii.eqb c "010" then Blank
      else match scan_entry p with Some (id, name) => Entry id name | None => Corrupted end
  end.

(** The entries read until the end or a corrupted line; every round takes a character
    at least.  [iproute2-3.1.0/lib/rt_names.c:40-69 rtnl_hash_initialize] *)
Fixpoint read_db (fuel : nat) (stream : string) : list (Z * string) :=
  match fuel with
  | O => []
  | S fuel =>
      match fgets stream with
      | None => []
      | Some (line, stream) =>
          match parse_line line with
          | Blank => read_db fuel stream
          | Entry id name => (id, name) :: read_db fuel stream
          | Corrupted => []
          end
      end
  end.

Definition db_entries (db : option string) : list (Z * string) :=
  match db with Some text => read_db (S (String.length text)) text | None => [] end.

(** ** Tables of 256 names *)

Definition TAB_SIZE : Z := 256.

#[local] Abbreviation name_table := (list (option string)).

(** The test accepts the number 256, which is outside: [None].
    [iproute2-3.1.0/lib/rt_names.c:97-100 rtnl_tab_initialize] *)
Definition tab_put (entry : Z * string) (t : name_table) : option name_table :=
  let '(id, name) := entry in
  if (id <? 0) || (TAB_SIZE <? id) then Some t
  else if id =? TAB_SIZE then None
  else Some (<[Z.to_nat id := Some name]> t).

(** [iproute2-3.1.0/lib/rt_names.c:72-105 rtnl_tab_initialize] *)
Definition rtnl_tab_initialize (db : option string) (t : name_table) : option name_table :=
  fold_left (fun o e => match o with Some t => tab_put e t | None => None end) (db_entries db) (Some t).

(** The statics of a family: the names, whether the file has been read, the last name
    found and the last number. *)
#[local] Set Primitive Projections.
Record tab_state := mk_tab { t_names : name_table; t_init : bool; t_cache : option string; t_res : Z }.
#[local] Unset Primitive Projections.

(** What differs from family to family: the names put in before the file is read, the
    base of the numbers and how one is shown. *)
Record tab_kind := mk_kind { k_prepare : name_table -> name_table; k_base : Z; k_show : Z -> string }.

Section Tab.
Context (k : tab_kind) (db : option string).

(** [iproute2-3.1.0/lib/rt_names.c:129-134 rtnl_rtprot_initialize] *)
Definition tab_initialize (s : tab_state) : option tab_state :=
  match rtnl_tab_initialize db (k_prepare k (t_names s)) with
  | Some t => Some ((s <| t_names := t |>) <| t_init := true |>)
  | None => None
  end.

Definition tab_name (s : tab_state) (id : Z) : option string := t_names s !!! Z.to_nat id.

(** The name of a number, and the statics after the call; [None] when reading the file
    writes out of the table.  [iproute2-3.1.0/lib/rt_names.c:136-150 rtnl_rtprot_n2a] *)
Definition tab_n2a (id len : Z) (s : tab_state) : option (string * tab_state) :=
  if (id <? 0) || (TAB_SIZE <=? id) then Some (snprintf len (print_d id), s)
  else
    let s' :=
      match tab_name s id with
      | None => if t_init s then Some s else tab_initialize s
      | Some _ => Some s
      end in
    match s' with
    | None => None
    | Some s => Some (match tab_name s id with Some name => name | None => snprintf len (k_show k id) end, s)
    end.

(** The first number with a name. *)
Definition tab_find (t : name_table) (arg : string) : option Z :=
  match list_find (fun o => o = Some arg) t with Some (i, _) => Some (Z.of_nat i) | None => None end.

(** The number of a name or of a numeral; the numeral goes through the static [res].
    [iproute2-3.1.0/lib/rt_names.c:152-182 rtnl_rtprot_a2n] *)
Definition tab_a2n (arg : string) (s : tab_state) : option (option Z * tab_state) :=
  if match t_cache s with Some c => String.eqb c arg | None => false end then Some (Some (u32 (t_res s)), s)
  else
    match (if t_init s then Some s else tab_initialize s) with
    | None => None
    | Some s =>
        match tab_find (t_names s) arg with
        | Some i => Some (Some i, (s <| t_cache := Some arg |>) <| t_res := i |>)
        | None =>
            match strtoul arg (k_base k) with
            | None => Some (None, s <| t_res := 0 |>)
            | Some (res, rest) =>
                let s := s <| t_res := res |> in
                if negb (String.eqb rest "") || (255 <? res) then Some (None, s) else Some (Some res, s)
            end
        end
    end.
End Tab.

(** A table with some names given. *)
Definition with_names (l : list (Z * string)) (t : name_table) : name_table :=
  fold_left (fun t '(i, name) => <[Z.to_nat i := Some name]> t) l t.

Definition empty_table : name_table := replicate 256 None.

Definition start_tab (l : list (Z * string)) : tab_state := mk_tab (with_names l empty_table) false None 0.

(** [iproute2-3.1.0/lib/rt_names.c:107-123 rtnl_rtprot_tab] *)
Definition rtnl_rtprot_tab : tab_state :=
  start_tab [(0, "none"); (1, "redirect"); (2, "kernel"); (3, "boot"); (4, "static"); (8, "gated"); (9, "ra");
             (10, "mrt"); (11, "zebra"); (12, "bird"); (13, "dnrouted"); (14, "xorp"); (15, "ntk"); (16, "dhcp")].

Definition rtprot : tab_kind := mk_kind (fun t => t) 0 print_d.

(** [iproute2-3.1.0/lib/rt_names.c:136-150 rtnl_rtprot_n2a] *)
Definition rtnl_rtprot_n2a := tab_n2a rtprot.

(** [iproute2-3.1.0/lib/rt_names.c:152-182 rtnl_rtprot_a2n] *)
Definition rtnl_rtprot_a2n := tab_a2n rtprot.

(** [iproute2-3.1.0/lib/rt_names.c:186-188 rtnl_rtscope_tab] *)
Definition rtnl_rtscope_tab : tab_state := start_tab [(0, "global")].

(** [iproute2-3.1.0/lib/rt_names.c:192-201 rtnl_rtscope_initialize] *)
Definition rtscope : tab_kind :=
  mk_kind (with_names [(255, "nowhere"); (254, "host"); (253, "link"); (200, "site")]) 0 print_d.

(** [iproute2-3.1.0/lib/rt_names.c:203-217 rtnl_rtscope_n2a] *)
Definition rtnl_rtscope_n2a := tab_n2a rtscope.

(** [iproute2-3.1.0/lib/rt_names.c:219-249 rtnl_rtscope_a2n] *)
Definition rtnl_rtscope_a2n := tab_a2n rtscope.

(** [iproute2-3.1.0/lib/rt_names.c:253-255 rtnl_rtrealm_tab] *)
Definition rtnl_rtrealm_tab : tab_state := start_tab [(0, "unknown")].

(** [iproute2-3.1.0/lib/rt_names.c:259-264 rtnl_rtrealm_initialize] *)
Definition rtrealm : tab_kind := mk_kind (fun t => t) 0 print_d.

(** [iproute2-3.1.0/lib/rt_names.c:266-280 rtnl_rtrealm_n2a] *)
Definition rtnl_rtrealm_n2a := tab_n2a rtrealm.

(** [iproute2-3.1.0/lib/rt_names.c:283-313 rtnl_rtrealm_a2n] *)
Definition rtnl_rtrealm_a2n := tab_a2n rtrealm.

(** [iproute2-3.1.0/lib/rt_names.c:390-392 rtnl_rtdsfield_tab] *)
Definition rtnl_rtdsfield_tab : tab_state := start_tab [(0, "0")].

(** [iproute2-3.1.0/lib/rt_names.c:396-401 rtnl_rtdsfield_initialize] *)
Definition rtdsfield : tab_kind := mk_kind (fun t => t) 16 (fun id => "0x" +:+ pad_left 2 (print_x id)).

(** [iproute2-3.1.0/lib/rt_names.c:403-417 rtnl_dsfield_n2a] *)
Definition rtnl_dsfield_n2a := tab_n2a rtdsfield.

(** [iproute2-3.1.0/lib/rt_names.c:420-450 rtnl_dsfield_a2n] *)
Definition rtnl_dsfield_a2n := tab_a2n rtdsfield.

(** ** Hash tables *)

#[local] Abbreviation name_hash := (list (list (Z * string))).

(** The new entry is the head of its chain.  [iproute2-3.1.0/lib/rt_names.c:61-67 rtnl_hash_initialize] *)
Definition hash_put (h : name_hash) (entry : Z * string) : name_hash :=
  let bucket := Z.to_nat (Z.land entry.1 255) in
  if entry.1 <? 0 then h else <[bucket := entry :: h !!! bucket]> h.

(** [iproute2-3.1.0/lib/rt_names.c:32-70 rtnl_hash_initialize] *)
Definition rtnl_hash_initialize (db : option string) (h : name_hash) : name_hash :=
  fold_left hash_put (db_entries db) h.

#[local] Set Primitive Projections.
(** [iproute2-3.1.0/lib/rt_names.c:26-30 rtnl_hash_entry] *)
Record hash_state := mk_hash { h_table : name_hash; h_init : bool; h_cache : option string; h_res : Z }.
#[local] Unset Primitive Projections.

Section Hash.
Context (db : option string).

(** [iproute2-3.1.0/lib/rt_names.c:328-333 rtnl_rttable_initialize] *)
Definition hash_initialize (s : hash_state) : hash_state :=
  if h_init s then s else (s <| h_init := true |>) <| h_table := rtnl_hash_initialize db (h_table s) |>.

(** The name a chain has for a number. *)
Definition chain_name (id : Z) (chain : list (Z * string)) : option string :=
  match List.find (fun e => e.1 =? id) chain with Some e => Some e.2 | None => None end.

(** The first entry with a name in a chain, and in the chains in order. *)
Definition chain_id (arg : string) (chain : list (Z * string)) : option Z :=
  match List.find (fun e => String.eqb e.2 arg) chain with Some e => Some e.1 | None => None end.

Fixpoint hash_id (arg : string) (h : name_hash) : option Z :=
  match h with
  | [] => None
  | chain :: h => match chain_id arg chain with Some id => Some id | None => hash_id arg h end
  end.

Definition RT_TABLE_MAX : Z := 0xFFFFFFFF.

(** [iproute2-3.1.0/lib/rt_names.c:335-352 rtnl_rttable_n2a] *)
Definition rtnl_rttable_n2a (id len : Z) (s : hash_state) : string * hash_state :=
  if RT_TABLE_MAX <? id then (snprintf len (print_u id), s)
  else
    let s := hash_initialize s in
    (match chain_name id (h_table s !!! Z.to_nat (Z.land id 255)) with
     | Some name => name
     | None => snprintf len (print_u id)
     end, s).

(** The part the two parsers share: the cache and the names.
    [iproute2-3.1.0/lib/rt_names.c:362-380 rtnl_rttable_a2n] *)
Definition hash_a2n (number : string -> option Z) (arg : string) (s : hash_state) : option Z * hash_state :=
  if match h_cache s with Some c => String.eqb c arg | None => false end then (Some (u32 (h_res s)), s)
  else
    let s := hash_initialize s in
    match hash_id arg (h_table s) with
    | Some id => (Some id, (s <| h_cache := Some arg |>) <| h_res := id |>)
    | None => (number arg, s)
    end.

(** The number goes to 32 bits before it is compared.
    [iproute2-3.1.0/lib/rt_names.c:382-386 rtnl_rttable_a2n] *)
Definition table_number (arg : string) : option Z :=
  match strtoul arg 0 with
  | Some (v, rest) => if negb (String.eqb rest "") || (RT_TABLE_MAX <? u32 v) then None else Some (u32 v)
  | None => None
  end.

(** [iproute2-3.1.0/lib/rt_names.c:354-387 rtnl_rttable_a2n] *)
Definition rtnl_rttable_a2n := hash_a2n table_number.

(** [iproute2-3.1.0/lib/rt_names.c:496-500 rtnl_group_a2n] *)
Definition group_number (arg : string) : option Z :=
  match strtol arg 0 with
  | Some (v, rest) => if negb (String.eqb rest "") || (s32 v <? 0) then None else Some (s32 v)
  | None => None
  end.

(** [iproute2-3.1.0/lib/rt_names.c:468-501 rtnl_group_a2n] *)
Definition rtnl_group_a2n := hash_a2n group_number.
End Hash.

Definition empty_hash : name_hash := replicate 256 [].

(** [iproute2-3.1.0/lib/rt_names.c:316-326 rtnl_rttable_hash] *)
Definition rtnl_rttable_hash : hash_state :=
  mk_hash (fold_left hash_put [(253, "default"); (254, "main"); (255, "local")] empty_hash) false None 0.

(** [iproute2-3.1.0/lib/rt_names.c:453-459 rtnl_group_hash] *)
Definition rtnl_group_hash : hash_state := mk_hash (hash_put empty_hash (0, "default")) false None 0.

Example table_names :
  let db := Some ("# tables" +:+ newline +:+ "100 fast" +:+ newline +:+ "0x65 " +:+ newline +:+ "x" +:+ newline) in
  (rtnl_rttable_a2n db "fast" rtnl_rttable_hash).1 = Some 100 /\
  (rtnl_rttable_n2a db 0 64 rtnl_rttable_hash).1 = "x65".
Proof. vm_compute. split; reflexivity. Qed.

(** ** Reading back a database *)

Definition db_line_text (e : Z * string) : string := print_d e.1 +:+ tab +:+ e.2 +:+ newline.

Definition db_text (l : list (Z * string)) : string := foldr (fun e s => db_line_text e +:+ s) "" l.

(** A name that fits the buffer behind its number. *)
Definition db_name (name : string) : Prop :=
  name <> "" /\ all_chars (fun c => negb (is_space c)) name = true /\ (String.length name <= 480)%nat.

Lemma scan_word_name name rest :
  all_chars (fun c => negb (is_space c)) name = true -> scan_word (name +:+ newline +:+ rest) = name.
Proof.
  induction name as [|c name IH]; [done|]. cbn [all_chars]. intros [Hc Hn]%andb_prop.
  change (String c name +:+ newline +:+ rest) with (String c (name +:+ newline +:+ rest)). cbn [scan_word].
  apply negb_true_iff in Hc. by rewrite Hc, IH.
Qed.

Lemma read_line_name name rest :
  all_chars (fun c => negb (is_space c)) name = true -> read_line (name +:+ newline +:+ rest) = (name +:+ newline, rest).
Proof.
  induction name as [|c name IH]; [done|]. cbn [all_chars]. intros [Hc Hn]%andb_prop.
  change (String c name +:+ newline +:+ rest) with (String c (name +:+ newline +:+ rest)). cbn [read_line].
  destruct (Ascii.eqb_spec c "010") as [->|_]; [done|]. by rewrite IH.
Qed.

Definition digit_or_minus (c : ascii) : bool := Ascii.eqb c "-" || starts_digit 10 (String c "").

Lemma print_d_chars z : all_chars digit_or_minus (print_d z) = true /\ print_d z <> "".
Proof.
  assert (forall z, 0 <= z -> all_chars digit_or_minus (print_u z) = true /\ print_u z <> "") as Hu.
  { intros y Hy. split.
    - apply print_base_chars; [lia|done|]. intros d Hd. unfold digit_or_minus. cbn [starts_digit].
      rewrite digit_in_char by lia. apply orb_true_r.
    - intros E. destruct (print_base_scan 10 ltac:(lia) y "" Hy) as [H _]. change (print_base 10 y) with (print_u y) in H.
      by rewrite E in H. }
  unfold print_d. destruct (Z.ltb_spec z 0) as [Hz|Hz]; [|by apply Hu].
  split; [|done]. cbn [all_chars]. apply (Hu (- z)). lia.
Qed.

(** A printed number before a tabulator is neither a comment nor a hexadecimal number. *)
Lemma print_d_head t rest :
  all_chars digit_or_minus t = true -> t <> "" ->
  String.prefix "0x" (t +:+ tab +:+ rest) = false /\ skip_blanks (t +:+ tab +:+ rest) = t +:+ tab +:+ rest /\
  exists c u, t +:+ tab +:+ rest = String c u /\ Ascii.eqb c "#" || Ascii.eqb c "010" = false.
Proof.
  destruct t as [|c t]; [done|]. cbn [all_chars]. intros [Hc Ht]%andb_prop _.
  change (String c t +:+ tab +:+ rest) with (String c (t +:+ tab +:+ rest)).
  assert (forall d, digit_or_minus d = true -> d <> " "%char /\ d <> "009"%char /\ d <> "#"%char /\ d <> "010"%char /\
    d <> "x"%char) as Hd by (intros d H; split_and!; by intros ->).
  destruct (Hd c Hc) as (H1 & H2 & H3 & H4 & _). split; [|split].
  - cbn [String.prefix]. destruct (ascii_dec "0" c) as [_|]; [|done].
    destruct t as [|c' t].
    + change ("" +:+ tab +:+ rest) with (String "009" rest). done.
    + cbn [all_chars] in Ht. apply andb_prop in Ht as [Hc' _]. destruct (Hd c' Hc') as (_ & _ & _ & _ & Hx).
      change (String c' t +:+ tab +:+ rest) with (String c' (t +:+ tab +:+ rest)). cbn [String.prefix].
      by destruct (ascii_dec "x" c') as [<-|].
  - cbn [skip_blanks]. by rewrite (proj2 (Ascii.eqb_neq c " ") H1), (proj2 (Ascii.eqb_neq c "009") H2).
  - exists c, (t +:+ tab +:+ rest). split; [done|].
    by rewrite (proj2 (Ascii.eqb_neq c "#") H3), (proj2 (Ascii.eqb_neq c "010") H4).
Qed.

Lemma parse_db_line id name :
  int_range id -> db_name name -> parse_line (db_line_text (id, name)) = Entry id name.
Proof.
  intros Hid (Hne & Hs & _). destruct (print_d_chars id) as [Hc Hn]. unfold db_line_text. cbn [fst snd].
  destruct (print_d_head (print_d id) (name +:+ newline) Hc Hn) as (Hp & Hb & c & u & E & Hh).
  unfold parse_line. rewrite Hb, E, Hh, <- E. unfold scan_entry. rewrite Hp. unfold scanf_d.
  unfold int_range in Hid. rewrite strtol_print_d; [|unfold LONG_MIN, LONG_MAX; lia|done].
  rewrite s32_small by lia. unfold number_and_name, scanf_s.
  assert (skip_space (tab +:+ name +:+ newline) = name +:+ newline) as ->.
  { destruct name as [|c' name]; [done|]. cbn [all_chars] in Hs. apply andb_prop in Hs as [H _].
    change (skip_space (tab +:+ String c' name +:+ newline)) with
      (if is_space c' then skip_space (name +:+ newline) else String c' name +:+ newline).
    apply negb_true_iff in H. by rewrite H. }
  pose proof (scan_word_name name "" Hs) as W. rewrite append_empty in W. rewrite W. by destruct name.
Qed.

Lemma fgets_db_line e rest :
  int_range e.1 -> db_name e.2 -> fgets (db_line_text e +:+ rest) = Some (db_line_text e, rest).
Proof.
  intros Hid (Hne & Hs & Hl). destruct e as [id name]. unfold db_line_text. cbn [fst snd] in *.
  destruct (print_d_chars id) as [Hc Hn]. unfold int_range in Hid.
  assert (read_line ((print_d id +:+ tab +:+ name +:+ newline) +:+ rest) = (print_d id +:+ tab +:+ name +:+ newline, rest)) as E.
  { rewrite !append_assoc. clear - Hc Hs. induction (print_d id) as [|c t IH].
    - change ("" +:+ tab +:+ name +:+ newline +:+ rest) with (String "009" (name +:+ newline +:+ rest)).
      cbn [read_line]. change (Ascii.eqb "009" "010") with false. cbv iota. by rewrite read_line_name.
    - cbn [all_chars] in Hc. apply andb_prop in Hc as [H1 H2].
      change (String c t +:+ tab +:+ name +:+ newline +:+ rest) with (String c (t +:+ tab +:+ name +:+ newline +:+ rest)).
      cbn [read_line]. destruct (Ascii.eqb_spec c "010") as [->|_]; [done|]. by rewrite IH. }
  assert (String.length (print_d id +:+ tab +:+ name +:+ newline) < LINE_SIZE)%nat as Hlen.
  { rewrite !length_append. pose proof (print_d_length id ltac:(unfold LONG_MIN, LONG_MAX; lia)).
    unfold LINE_SIZE. change (String.length tab) with 1%nat. change (String.length newline) with 1%nat. lia. }
  unfold fgets. destruct (print_d id) as [|c t] eqn:Ep; [done|].
  change ((String c t +:+ tab +:+ name +:+ newline) +:+ rest) with (String c ((t +:+ tab +:+ name +:+ newline) +:+ rest)) in *.
  rewrite E. by rewrite (proj2 (Nat.ltb_lt _ _) Hlen).
Qed.

(** A database with one entry to a line is read to exactly its entries, in order. *)
Theorem db_roundtrip l :
  Forall (fun e => int_range e.1 /\ db_name e.2) l -> db_entries (Some (db_text l)) = l.
Proof.
  intros Hl. unfold db_entries. generalize (Nat.lt_succ_diag_r (String.length (db_text l))).
  generalize (S (String.length (db_text l))). induction Hl as [|e l [Hid Hn] _ IH]; intros [|fuel] Hf; try lia; [done|].
  change (db_text (e :: l)) with (db_line_text e +:+ db_text l) in *. rewrite length_append in Hf.
  cbn [read_db]. rewrite fgets_db_line by done. destruct e as [id name]. rewrite parse_db_line by done. f_equal.
  apply IH. enough (String.length (db_line_text (id, name)) <> 0)%nat by lia.
  unfold db_line_text. rewrite !length_append. change (String.length tab) with 1%nat. lia.
Qed.

(** ** Hash tables answer like the file *)

Lemma db_entries_int db : Forall (fun e => int_range e.1) (db_entries db).
Proof.
  destruct db as [text|]; [|constructor]. unfold db_entries. generalize (S (String.length text)) as fuel.
  intros fuel. revert text. induction fuel as [|fuel IH]; intros text; cbn [read_db]; [constructor|].
  destruct (fgets text) as [[line rest]|]; [|constructor].
  destruct (parse_line line) as [|id name|] eqn:E; [apply IH| |constructor]. constructor; [|apply IH].
  cbn [fst]. unfold parse_line in E. destruct (skip_blanks line) as [|c u]; [done|]. destruct (_ || _); [done|].
  destruct (scan_entry (String c u)) as [[i n]|] eqn:Es; [|done]. injection E as -> ->. unfold scan_entry in Es.
  assert (forall o, number_and_name o = Some (id, name) -> exists r, o = Some (id, r)) as Hn
    by (intros [[z r]|]; [|done]; cbn; destruct (scanf_s r); [|done]; intros H; injection H as -> _; by exists r).
  assert (forall p r, scanf_d p = Some (id, r) -> int_range id) as Hd
    by (intros p r; unfold scanf_d; destruct (strtol p 10) as [[v ?]|]; [|done]; intros H; injection H as <- _; apply s32_range).
  assert (forall p r, scanf_x p = Some (id, r) -> int_range id) as Hx
    by (intros p r; unfold scanf_x; destruct (_ && _); [done|]; destruct (strtoul p 16) as [[v ?]|]; [|done];
        intros H; injection H as <- _; apply s32_range).
  destruct (if String.prefix "0x" _ then _ else None) as [e|] eqn:Eh.
  - injection Es as ->. destruct (String.prefix _ _); [|done]. destruct (Hn _ Eh) as [r Hr]. by eapply Hx.
  - destruct (Hn _ Es) as [r Hr]. by eapply Hd.
Qed.

(** The entries of a table have numbers an [int] and a [__u32] share, each in the chain
    of its last eight bits. *)
Definition hash_ok (h : name_hash) : Prop :=
  List.length h = 256%nat /\
  forall b e, In e (h !!! b) -> 0 <= e.1 < 2 ^ 31 /\ b = Z.to_nat (Z.land e.1 255).

Lemma bucket_range id : 0 <= Z.land id 255 < 256.
Proof. change 255 with (Z.ones 8). rewrite Z.land_ones by lia. apply Z.mod_pos_bound. lia. Qed.

Lemma hash_put_ok h e : hash_ok h -> int_range e.1 -> hash_ok (hash_put h e).
Proof.
  intros [Hl Hh] He. unfold hash_put. destruct (Z.ltb_spec e.1 0) as [Hn|Hn]; [done|]. cbv zeta.
  pose proof (bucket_range e.1) as Hb. split; [by rewrite length_insert|]. intros b x Hx.
  destruct (decide (b = Z.to_nat (Z.land e.1 255))) as [->|Hne].
  - rewrite list_lookup_total_insert_eq in Hx by lia. apply in_inv in Hx as [<-|Hx]; [|by apply Hh].
    unfold int_range in He. split; [lia|done].
  - rewrite list_lookup_total_insert_ne in Hx by done. by apply Hh.
Qed.

Lemma hash_puts_ok l : Forall (fun e => int_range e.1) l -> forall h, hash_ok h -> hash_ok (fold_left hash_put l h).
Proof. induction 1 as [|e l He _ IH]; [done|]. intros h Hh. apply IH. by apply hash_put_ok. Qed.

Lemma empty_hash_ok : hash_ok empty_hash.
Proof.
  split; [done|]. intros b e He. unfold empty_hash in He.
  destruct (decide (b < 256)%nat) as [Hb|Hb]; [by rewrite lookup_total_replicate_2 in He|].
  by rewrite list_lookup_total_alt, lookup_ge_None_2 in He by (rewrite length_replicate; lia).
Qed.

Lemma rttable_hash_ok : hash_ok (h_table rtnl_rttable_hash).
Proof. apply (hash_puts_ok [(253, "default"); (254, "main"); (255, "local")]); [repeat (constructor; [done|])|apply empty_hash_ok]; constructor. Qed.

(** A table is searched as the list of its entries. *)
Lemma hash_id_concat arg h : hash_id arg h = chain_id arg (concat h).
Proof.
  induction h as [|chain h IH]; [done|]. cbn [hash_id concat]. rewrite IH. unfold chain_id. clear IH.
  induction chain as [|e chain IH]; [done|]. cbn [List.find app]. by destruct (String.eqb e.2 arg).
Qed.

Lemma hash_id_in arg h id : hash_ok h -> hash_id arg h = Some id -> 0 <= id < 2 ^ 31.
Proof.
  intros [Hl Hh]. rewrite hash_id_concat. unfold chain_id. destruct (List.find _ _) as [e|] eqn:E; [|done].
  intros H. injection H as <-. apply List.find_some in E as [Hi _]. apply in_concat in Hi as (chain & Hc & Hi).
  apply list_elem_of_In, list_elem_of_lookup in Hc as [b Hb]. apply list_lookup_total_correct in Hb. subst chain.
  by apply (Hh b).
Qed.

(** A call, and what it answers. *)
Inductive query := Name (id len : Z) | Number (arg : string).
Inductive answer := Text (name : string) | Id (id : option Z).

Section HashSession.
Context (db : option string) (number : string -> option Z) (start : name_hash).

Definition hash_call (q : query) (s : hash_state) : answer * hash_state :=
  match q with
  | Name id len => let '(name, s) := rtnl_rttable_n2a db id len s in (Text name, s)
  | Number arg => let '(id, s) := hash_a2n db number arg s in (Id id, s)
  end.

Fixpoint hash_session (qs : list query) (s : hash_state) : list answer * hash_state :=
  match qs with
  | [] => ([], s)
  | q :: qs => let '(a, s) := hash_call q s in let '(l, s) := hash_session qs s in (a :: l, s)
  end.

(** The answer of the file alone, without statics. *)
Definition file_answer (q : query) : answer :=
  let h := rtnl_hash_initialize db start in
  match q with
  | Name id len =>
      Text (match chain_name id (h !!! Z.to_nat (Z.land id 255)) with
            | Some name => name
            | None => snprintf len (print_u id)
            end)
  | Number arg => Id (match hash_id arg h with Some id => Some id | None => number arg end)
  end.

(** The statics hold the table before or after the file, and the cache an answer. *)
Definition coherent (s : hash_state) : Prop :=
  let h := rtnl_hash_initialize db start in
  (if h_init s then h_table s = h else h_table s = start) /\
  match h_cache s with Some c => h_init s = true /\ hash_id c h = Some (h_res s) | None => True end.

Lemma initialize_coherent s :
  coherent s -> coherent (hash_initialize db s) /\ h_table (hash_initialize db s) = rtnl_hash_initialize db start.
Proof.
  destruct s as [h init cache res]. unfold coherent, hash_initialize. cbn. destruct init; cbn; intros [H1 H2].
  - split; [split; [exact H1|exact H2]|exact H1].
  - rewrite H1. split; [split; [done|]|done]. destruct cache; [by destruct H2|done].
Qed.

Lemma hash_call_coherent q s :
  hash_ok start -> coherent s -> (forall id len, q = Name id len -> id <= RT_TABLE_MAX) ->
  (hash_call q s).1 = file_answer q /\ coherent (hash_call q s).2.
Proof.
  intros Hs Hc Hq. destruct (initialize_coherent s Hc) as [Hi Et]. destruct q as [id len|arg]; cbn [hash_call].
  - unfold rtnl_rttable_n2a. rewrite (proj2 (Z.ltb_ge RT_TABLE_MAX id)) by (by eapply Hq).
    cbv zeta. rewrite Et. by split.
  - unfold hash_a2n. destruct (h_cache s) as [c|] eqn:Ec; [destruct (String.eqb_spec c arg) as [->|_]|].
    + pose proof Hc as [_ H]. rewrite Ec in H. destruct H as [_ H]. cbn [fst snd file_answer]. rewrite H. split; [|done].
      assert (hash_ok (rtnl_hash_initialize db start)) as Hok by (apply hash_puts_ok; [apply db_entries_int|done]).
      pose proof (hash_id_in _ _ _ Hok H). by rewrite u32_small by lia.
    + cbv zeta. rewrite Et. cbn [file_answer]. destruct (hash_id arg _) as [i|] eqn:E; [|by split].
      split; [done|]. destruct Hi as [H1 H2]. split; [exact H1|]. split; [|exact E].
      unfold hash_initialize. by destruct (h_init s) eqn:E'.
    + cbv zeta. rewrite Et. cbn [file_answer]. destruct (hash_id arg _) as [i|] eqn:E; [|by split].
      split; [done|]. destruct Hi as [H1 H2]. split; [exact H1|]. split; [|exact E].
      unfold hash_initialize. by destruct (h_init s) eqn:E'.
Qed.

Definition in_range (q : query) : Prop := forall id len, q = Name id len -> id <= RT_TABLE_MAX.

Lemma session_answers qs : hash_ok start -> Forall in_range qs ->
  forall s, coherent s -> (hash_session qs s).1 = map file_answer qs.
Proof.
  intros Hs. induction 1 as [|q qs Hq _ IH]; [done|]. intros s Hc.
  destruct (hash_call_coherent q s Hs Hc Hq) as [H1 H2]. cbn [hash_session].
  destruct (hash_call q s) as [a s']. cbn [fst snd] in *. specialize (IH s' H2).
  destruct (hash_session qs s') as [l s'']. cbn [fst map] in *. by rewrite H1, IH.
Qed.

(** C38: Whatever the calls and their order, each answer is the answer of the file: neither
    the cache nor the moment of the reading shows. *)
Theorem hash_session_refines qs :
  hash_ok start -> Forall in_range qs -> (hash_session qs (mk_hash start false None 0)).1 = map file_answer qs.
Proof. intros Hs Hq. by apply session_answers. Qed.
End HashSession.

Lemma hash_session_refines_witness :
  (hash_session (Some ("7 main" +:+ newline)) table_number [Number "main"; Number "9"; Number "main"; Name 254 64]
     rtnl_rttable_hash).1 = [Id (Some 7); Id (Some 9); Id (Some 7); Text "main"].
Proof.
  change rtnl_rttable_hash with (mk_hash (h_table rtnl_rttable_hash) false None 0).
  rewrite (hash_session_refines (Some ("7 main" +:+ newline)) table_number (h_table rtnl_rttable_hash)
    [Number "main"; Number "9"; Number "main"; Name 254 64] rttable_hash_ok).
  - vm_compute. reflexivity.
  - repeat (apply Forall_cons; split; [first [done | intros id len H; injection H as <- <-; done]|]). by apply Forall_nil.
Defined.

Lemma chain_id_unique l : forall id name, NoDup (map snd l) -> In (id, name) l -> chain_id name l = Some id.
Proof.
  unfold chain_id. induction l as [|e l IH]; intros id name; [done|]. cbn [map]. rewrite NoDup_cons. intros [He Hn] [->|Hi].
  - cbn [List.find snd]. by rewrite String.eqb_refl.
  - cbn [List.find]. destruct (String.eqb_spec e.2 name) as [E|_]; [|by apply IH].
    destruct He. rewrite E. apply list_elem_of_In, in_map_iff. by exists (id, name).
Qed.

(** The name shown for a number is read back as this number when no name is used twice. *)
Theorem table_roundtrip db start number id len name :
  hash_ok start -> 0 <= id <= RT_TABLE_MAX ->
  let h := rtnl_hash_initialize db start in
  NoDup (map snd (concat h)) -> chain_name id (h !!! Z.to_nat (Z.land id 255)) = Some name ->
  (hash_session db number [Name id len; Number name] (mk_hash start false None 0)).1 = [Text name; Id (Some id)].
Proof.
  intros Hs Hid h Hn Hc.
  rewrite (session_answers db number start);
    [|done|apply Forall_cons; split; [intros ? ? H; injection H as <- <-; lia|by apply Forall_singleton]|done].
  cbn [map file_answer]. fold h. rewrite Hc. do 2 f_equal.
  rewrite hash_id_concat, (chain_id_unique _ id name); [done|exact Hn|].
  unfold chain_name in Hc. destruct (List.find _ _) as [e|] eqn:E; [|done]. injection Hc as <-.
  apply List.find_some in E as [Hi He]. apply Z.eqb_eq in He. destruct e as [i n]. cbn [fst snd] in *. subst i.
  apply in_concat. exists (h !!! Z.to_nat (Z.land id 255)). split; [|done].
  assert (hash_ok h) as [Hl _] by (apply hash_puts_ok; [apply db_entries_int|done]).
  apply list_elem_of_In, list_elem_of_lookup. exists (Z.to_nat (Z.land id 255)).
  pose proof (bucket_range id). apply list_lookup_lookup_total_lt. lia.
Qed.

Lemma table_roundtrip_witness :
  (hash_session (Some ("7 fast" +:+ newline)) table_number [Name 7 64; Number "fast"] rtnl_rttable_hash).1 =
    [Text "fast"; Id (Some 7)].
Proof.
  change rtnl_rttable_hash with (mk_hash (h_table rtnl_rttable_hash) false None 0).
  apply (table_roundtrip (Some ("7 fast" +:+ newline)) (h_table rtnl_rttable_hash) table_number 7 64 "fast").
  - exact rttable_hash_ok.
  - unfold RT_TABLE_MAX. lia.
  - apply (bool_decide_unpack _). vm_compute. exact I.
  - vm_compute. reflexivity.
Defined.

(** A table number is cut to 32 bits before it is compared: none is too great. *)
Example table_number_wraps : table_number "4294967297" = Some 1.
Proof. vm_compute. reflexivity. Qed.

(** ** The cache of a table of names *)

Section TabSession.
Context (k : tab_kind) (db : option string).

(** The static number is the one of the static name. *)
Definition cache_ok (s : tab_state) : Prop :=
  match t_cache s with Some c => t_init s = true /\ tab_find (t_names s) c = Some (t_res s) | None => True end.

Lemma tab_find_range t arg i : List.length t = 256%nat -> tab_find t arg = Some i -> 0 <= i < 256.
Proof.
  intros Hl. unfold tab_find. destruct (list_find _ t) as [[n o]|] eqn:E; [|done]. intros H. injection H as <-.
  apply list_find_Some in E as (E & _). apply lookup_lt_Some in E. lia.
Qed.

(** While only names are asked for, each gives its number, asked before or not. *)
Theorem named_session args : forall s,
  List.length (t_names s) = 256%nat -> t_init s = true -> cache_ok s ->
  Forall (fun arg => tab_find (t_names s) arg <> None) args ->
  exists s', fold_left (fun o arg => match o with
      | Some (l, s) => match tab_a2n k db arg s with Some (id, s) => Some (l ++ [id], s) | None => None end
      | None => None end) args (Some ([], s)) = Some (map (tab_find (t_names s)) args, s').
Proof.
  assert (forall args l s, List.length (t_names s) = 256%nat -> t_init s = true -> cache_ok s ->
    Forall (fun arg => tab_find (t_names s) arg <> None) args ->
    exists s', fold_left (fun o arg => match o with
      | Some (l, s) => match tab_a2n k db arg s with Some (id, s) => Some (l ++ [id], s) | None => None end
      | None => None end) args (Some (l, s)) = Some (l ++ map (tab_find (t_names s)) args, s')) as H.
  { intros a. induction a as [|arg a IH]; intros l s Hl Hi Hc Ha; [exists s; cbn; by rewrite app_nil_r|].
    rewrite Forall_cons in Ha. destruct Ha as [Harg Ha]. cbn [fold_left map].
    assert (exists s1, tab_a2n k db arg s = Some (tab_find (t_names s) arg, s1) /\ t_names s1 = t_names s /\
      t_init s1 = true /\ cache_ok s1) as (s1 & -> & En & Ei & Ec).
    { unfold tab_a2n. destruct (match t_cache s with Some c => _ | None => false end) eqn:E.
      - pose proof Hc as Hkeep. unfold cache_ok in Hc. destruct (t_cache s) as [c|] eqn:Ecache; [|done]. apply String.eqb_eq in E as ->.
        destruct Hc as [_ Hc]. pose proof (tab_find_range _ _ _ Hl Hc). exists s. rewrite u32_small by lia.
        by rewrite Hc.
      - rewrite Hi. destruct (tab_find (t_names s) arg) as [i|] eqn:Ef; [|done].
        eexists. split; [reflexivity|]. split_and!; done. }
    rewrite <- En. rewrite <- En in Hl, Ha. destruct (IH (l ++ [tab_find (t_names s1) arg]) s1 Hl Ei Ec Ha) as [s' Hs'].
    exists s'. rewrite Hs'. by rewrite <- app_assoc. }
  intros s. by apply (H args []).
Qed.

(** The number of a text that is no name is kept where the cache keeps that of the last
    name: this name then gives the number of the text, 0 if it has none. *)
Theorem cache_overwritten name arg id s :
  t_init s = true -> t_cache s <> Some name -> t_cache s <> Some arg ->
  tab_find (t_names s) name = Some id -> tab_find (t_names s) arg = None -> name <> arg ->
  exists s1 r s2, tab_a2n k db name s = Some (Some id, s1) /\ tab_a2n k db arg s1 = Some (r, s2) /\
    tab_a2n k db name s2 =
      Some (Some (match strtoul arg (k_base k) with Some (v, _) => u32 v | None => 0 end), s2).
Proof.
  destruct s as [t init cache res0]. cbn [t_init t_cache t_names]. intros -> Hc1 Hc2 Hn Ha Hne.
  set (s1 := fun res => mk_tab t true (Some name) res).
  assert (tab_a2n k db name (mk_tab t true cache res0) = Some (Some id, s1 id)) as E1.
  { unfold tab_a2n. cbn. destruct cache as [c|]; [destruct (String.eqb_spec c name) as [->|_]; [done|]|]; by rewrite Hn. }
  assert (forall r, tab_a2n k db name (s1 r) = Some (Some (u32 r), s1 r)) as E3
    by (intros r; unfold tab_a2n; cbn; by rewrite String.eqb_refl).
  set (res := match strtoul arg (k_base k) with Some (v, _) => v | None => 0 end).
  assert (exists r, tab_a2n k db arg (s1 id) = Some (r, s1 res)) as [r E2].
  { unfold tab_a2n. cbn. rewrite (proj2 (String.eqb_neq name arg) Hne), Ha. unfold res.
    destruct (strtoul arg (k_base k)) as [[v rest]|]; [destruct (_ || _)|]; by eexists. }
  exists (s1 id), r, (s1 res). split; [done|]. split; [done|]. rewrite E3. unfold res.
  by destruct (strtoul arg (k_base k)) as [[v rest]|].
Qed.
End TabSession.

(** Asking for the number 7 makes the protocol [kernel] the number 7. *)
Example kernel_is_seven :
  fold_left (fun o arg => match o with
    | Some (l, s) => match rtnl_rtprot_a2n None arg s with Some (id, s) => Some (l ++ [id], s) | None => None end
    | None => None end) ["kernel"; "7"; "kernel"] (Some ([], rtnl_rtprot_tab)) =
  Some ([Some 2; Some 7; Some 7], mk_tab (t_names rtnl_rtprot_tab) true (Some "kernel") 7).
Proof. vm_compute. reflexivity. Qed.

(** A line for the number 256 writes behind the table. *)
Example table_overrun : rtnl_rtprot_n2a (Some ("256 x" +:+ newline)) 99 64 rtnl_rtprot_tab = None.
Proof. vm_compute. reflexivity. Qed.

(** Reading a file without that line never leaves the table, and keeps its size. *)
Theorem tab_initialize_total db t :
  List.length t = 256%nat -> Forall (fun e => e.1 <> TAB_SIZE) (db_entries db) ->
  exists t', rtnl_tab_initialize db t = Some t' /\ List.length t' = 256%nat.
Proof.
  unfold rtnl_tab_initialize. intros Hl He. revert t Hl. induction He as [|[id name] l Hid _ IH]; intros t Hl; [by exists t|].
  cbn [fold_left]. unfold tab_put at 2. cbn [fst] in Hid.
  destruct ((id <? 0) || (TAB_SIZE <? id)); [by apply IH|]. rewrite (proj2 (Z.eqb_neq id TAB_SIZE) Hid).
  apply IH. by rewrite length_insert.
Qed.

(** The last line of a number gives its name. *)
Theorem tab_initialize_last db t id name l1 l2 :
  db_entries db = l1 ++ (id, name) :: l2 -> Forall (fun e => e.1 <> TAB_SIZE) (db_entries db) ->
  Forall (fun e => e.1 <> id) l2 -> 0 <= id < 256 -> List.length t = 256%nat ->
  exists t', rtnl_tab_initialize db t = Some t' /\ t' !!! Z.to_nat id = Some name.
Proof.
  unfold rtnl_tab_initialize. intros -> He Hl2 Hid Hl. rewrite fold_left_app.
  apply Forall_app in He as [H1 H2]. apply Forall_cons in H2 as [_ H2].
  assert (forall l t, Forall (fun e : Z * string => e.1 <> TAB_SIZE) l -> List.length t = 256%nat ->
    exists t', fold_left (fun o e => match o with Some t => tab_put e t | None => None end) l (Some t) = Some t' /\
      List.length t' = 256%nat /\ (Forall (fun e => e.1 <> id) l -> t' !!! Z.to_nat id = t !!! Z.to_nat id)) as Hf.
  { clear - Hid. intros l t Hl. revert t. induction Hl as [|[i n] l Hi _ IH]; intros t Ht; [by exists t|].
    cbn [fold_left]. unfold tab_put at 2. cbn [fst] in Hi.
    destruct (Z.ltb_spec i 0) as [Hneg|Hpos]; cbn [orb].
    - destruct (IH t Ht) as (t' & E & E1 & E2). exists t'. split_and!; [done|done|].
      intros [_ Hf]%Forall_cons. by apply E2.
    - destruct (Z.ltb_spec TAB_SIZE i) as [Hgt|Hle].
      + destruct (IH t Ht) as (t' & E & E1 & E2). exists t'. split_and!; [done|done|].
        intros [_ Hf]%Forall_cons. by apply E2.
      + rewrite (proj2 (Z.eqb_neq i TAB_SIZE) Hi).
        destruct (IH (<[Z.to_nat i := Some n]> t)) as (t' & E & E1 & E2); [by rewrite length_insert|].
        exists t'. split_and!; [done|done|]. intros [Hne Hf]%Forall_cons. cbn [fst] in Hne. rewrite E2 by done.
        rewrite list_lookup_total_insert_ne; [done|lia]. }
  destruct (Hf l1 t H1 Hl) as (t1 & -> & L1 & _). cbn [fold_left]. unfold tab_put at 2.
  rewrite (proj2 (Z.ltb_ge id 0)), (proj2 (Z.ltb_ge TAB_SIZE id)), (proj2 (Z.eqb_neq id TAB_SIZE)) by (unfold TAB_SIZE; lia).
  cbn [orb]. destruct (Hf l2 (<[Z.to_nat id := Some name]> t1) H2) as (t2 & -> & _ & E); [by rewrite length_insert|].
  exists t2. split; [done|]. rewrite (E Hl2), list_lookup_total_insert_eq; [done|lia].
Qed.
