(* ===== verification/LlNames.v ===== *)
(** * Names of the link layer (lib/ll_proto.c, ll_types.c, ll_addr.c, inet_proto.c)

    Protocols, device types and hardware addresses as text and back.  A buffer of [len]
    bytes holds [len - 1] characters. *)

From S2P Require Export RtNames Addr.

#[local] Open Scope list_scope.

(** ** Protocols of frames *)

(** [htons] and [ntohs] of a little-endian host. *)
Definition htons (z : Z) : Z := z mod 2 ^ 8 * 2 ^ 8 + z / 2 ^ 8 mod 2 ^ 8.

(** The numbers are those of if_ether.h.  [iproute2-3.1.0/lib/ll_proto.c:33-85 llproto_names] *)
Definition llproto_names : list (Z * string) :=
  [(96, "loop"); (512, "pup"); (513, "pupat"); (2048, "ip"); (2053, "x25"); (2054, "arp"); (2303, "bpq");
   (2560, "ieeepup"); (2561, "ieeepupat"); (24576, "dec"); (24577, "dna_dl"); (24578, "dna_rc");
   (24579, "dna_rt"); (24580, "lat"); (24581, "diag"); (24582, "cust"); (24583, "sca"); (32821, "rarp");
   (32923, "atalk"); (33011, "aarp"); (33079, "ipx"); (34525, "ipv6"); (34915, "ppp_disc"); (34916, "ppp_ses");
   (34892, "atmmpoa"); (34948, "atmfate"); (1, "802_3"); (2, "ax25"); (3, "all"); (4, "802_2"); (5, "snap");
   (6, "ddcmp"); (7, "wan_ppp"); (8, "ppp_mp"); (9, "localtalk"); (12, "can"); (16, "ppptalk");
   (17, "tr_802_2"); (21, "mobitex"); (22, "control"); (23, "irda"); (24, "econet"); (35018, "tipc");
   (34978, "aoe"); (33024, "802.1Q"); (35020, "LLDP"); (2048, "ipv4")].

(** [iproute2-3.1.0/lib/ll_proto.c:89-101 ll_proto_n2a] *)
Definition ll_proto_n2a (id len : Z) : string :=
  let id := htons id in
  match List.find (fun e => e.1 =? id) llproto_names with
  | Some e => e.2
  | None => snprintf len ("[" +:+ print_d id +:+ "]")
  end.

(** [iproute2-3.1.0/lib/ll_proto.c:103-116 ll_proto_a2n] *)
Definition ll_proto_a2n (buf : string) : option Z :=
  match List.find (fun e => strcaseeq e.2 buf) llproto_names with
  | Some e => Some (htons e.1)
  | None => match get_u16 buf 0 with Some id => Some (htons id) | None => None end
  end.

(** ** Types of devices *)

(** The numbers are those of if_arp.h.  [iproute2-3.1.0/lib/ll_types.c:33-109 arphrd_names] *)
Definition arphrd_names : list (Z * string) :=
  [(0, "generic"); (1, "ether"); (2, "eether"); (3, "ax25"); (4, "pronet"); (5, "chaos"); (6, "ieee802");
   (7, "arcnet"); (8, "atalk"); (15, "dlci"); (19, "atm"); (23, "metricom"); (24, "ieee1394");
   (32, "infiniband"); (256, "slip"); (257, "cslip"); (258, "slip6"); (259, "cslip6"); (260, "rsrvd");
   (264, "adapt"); (270, "rose"); (271, "x25"); (272, "hwx25"); (280, "can"); (512, "ppp"); (513, "hdlc");
   (516, "lapb"); (517, "ddcmp"); (518, "rawhdlc"); (768, "ipip"); (769, "tunnel6"); (770, "frad");
   (771, "skip"); (772, "loopback"); (773, "ltalk"); (774, "fddi"); (775, "bif"); (776, "sit");
   (777, "ip/ddp"); (778, "gre"); (779, "pimreg"); (780, "hippi"); (781, "ash"); (782, "econet");
   (783, "irda"); (784, "fcpp"); (785, "fcal"); (786, "fcpl"); (787, "fcfb0"); (788, "fcfb1"); (789, "fcfb2");
   (790, "fcfb3"); (791, "fcfb4"); (792, "fcfb5"); (793, "fcfb6"); (794, "fcfb7"); (795, "fcfb8");
   (796, "fcfb9"); (797, "fcfb10"); (798, "fcfb11"); (799, "fcfb12"); (800, "tr"); (801, "ieee802.11");
   (802, "ieee802.11/prism"); (803, "ieee802.11/radiotap"); (804, "ieee802.15.4"); (820, "phonet");
   (821, "phonet_pipe"); (822, "caif"); (65534, "none"); (65535, "void")].

(** [iproute2-3.1.0/lib/ll_types.c:30-119 ll_type_n2a] *)
Definition ll_type_n2a (type len : Z) : string :=
  match List.find (fun e => e.1 =? type) arphrd_names with
  | Some e => e.2
  | None => snprintf len ("[" +:+ print_d type +:+ "]")
  end.

(** ** Hardware addresses *)

Definition ARPHRD_TUNNEL : Z := 768.
Definition ARPHRD_TUNNEL6 : Z := 769.
Definition ARPHRD_SIT : Z := 776.
Definition ARPHRD_IPGRE : Z := 778.

Section LlAddr.
(** The C library's conversions of IPv6 addresses. *)
Context (inet_ntop6 : list Z -> string) (inet_pton6 : string -> option (list Z)).

(** [inet_ntop]: a null pointer when the text and its NUL do not fit. *)
Definition ntop_text (text : string) (blen : Z) : option string :=
  if Z.of_nat (String.length text) <? blen then Some text else None.

(** The bytes with colons between them; a size below 0 is a huge unsigned number, and
    the text goes on behind the buffer: [None].
    [iproute2-3.1.0/lib/ll_addr.c:44-55 ll_addr_n2a] *)
Fixpoint ll_octets (first : bool) (addr : list Z) (blen : Z) : option string :=
  match addr with
  | [] => Some ""
  | b :: addr =>
      let text := if first then print_02x b else ":" +:+ print_02x b in
      if blen <? 0 then None
      else
        match ll_octets false addr (blen - (if first then 2 else 3)) with
        | Some t => Some (snprintf blen text +:+ t)
        | None => None
        end
  end.

(** The text, with [None] inside for a null pointer; [buf] is what the buffer held,
    which is all there is for an address without bytes.  [blen] is not 0.
    [iproute2-3.1.0/lib/ll_addr.c:32-57 ll_addr_n2a] *)
Definition ll_addr_n2a (addr : list Z) (type : Z) (buf : string) (blen : Z) : option (option string) :=
  let alen := List.length addr in
  if (alen =? 4)%nat && ((type =? ARPHRD_TUNNEL) || (type =? ARPHRD_SIT) || (type =? ARPHRD_IPGRE)) then
    Some (ntop_text (quad (addr !!! 0%nat) (addr !!! 1%nat) (addr !!! 2%nat) (addr !!! 3%nat)) blen)
  else if (alen =? 16)%nat && (type =? ARPHRD_TUNNEL6) then Some (ntop_text (inet_ntop6 addr) blen)
  else
    match addr with
    | [] => Some (Some buf)
    | _ => match ll_octets true addr blen with Some t => Some (Some t) | None => None end
    end.

(** The bytes stored and whether the loop was left by its [break].
    [iproute2-3.1.0/lib/ll_addr.c:74-94 ll_addr_a2n] *)
Fixpoint read_octets (len : nat) (arg : string) : option (list Z * bool) :=
  match len with
  | O => Some ([], false)
  | S len =>
      match scanf_x (cut_at ":" arg) with
      | None => None
      | Some (temp, _) =>
          if (temp <? 0) || (255 <? temp) then None
          else
            match after ":" arg with
            | None => Some ([temp], true)
            | Some arg =>
                match read_octets len arg with Some (l, broke) => Some (temp :: l, broke) | None => None end
            end
      end
  end.

(** The bytes and what is returned, [i + 1]: one more than the bytes when the loop ran to
    its end.  [iproute2-3.1.0/lib/ll_addr.c:60-97 ll_addr_a2n] *)
Definition ll_addr_a2n (len : nat) (arg : string) : option (list Z * Z) :=
  if contains "." arg then
    match get_addr_1 inet_pton6 arg AF_INET with
    | None => None
    | Some pfx => if (len <? 4)%nat then None else Some (take 4 (data pfx), 4)
    end
  else
    match read_octets len arg with
    | Some (l, broke) => Some (l, Z.of_nat (List.length l) + (if broke then 0 else 1))
    | None => None
    end.
End LlAddr.

(** Too many bytes are not refused: the first ones are stored, and one more is returned. *)
Example too_many_octets : ll_addr_a2n (fun _ => None) 2 "1:2:3" = Some ([1; 2], 3).
Proof. vm_compute. reflexivity. Qed.

(** ** Protocols of IP *)

#[local] Set Primitive Projections.

(** The last number and name of each of the two functions; [- 1] for none. *)
Record proto_cache := mk_proto { n2a_number : Z; n2a_name : string; a2n_number : Z; a2n_name : string }.

#[local] Unset Primitive Projections.

Definition no_proto : proto_cache := mk_proto (- 1) "" (- 1) "".

(** [strncpy] into 16 bytes, read back as a string; a name of 16 bytes or more has no NUL. *)
Definition short_name (name : string) : Prop := (String.length name < 16)%nat.

Section InetProto.
(** The C library's database of protocols: the official name of a number, and of a name
    with its number. *)
Context (getprotobynumber : Z -> option string) (getprotobyname : string -> option (string * Z)).

(** [iproute2-3.1.0/lib/inet_proto.c:25-43 inet_proto_n2a] *)
Definition inet_proto_n2a (proto len : Z) (s : proto_cache) : string * proto_cache :=
  if proto =? n2a_number s then (n2a_name s, s)
  else
    match getprotobynumber proto with
    | Some name =>
        (substring 0 (Z.to_nat len) name, (s <| n2a_number := proto |>) <| n2a_name := substring 0 16 name |>)
    | None => (snprintf len ("ipproto-" +:+ print_d proto), s)
    end.

(** [None] is the result -1.  [iproute2-3.1.0/lib/inet_proto.c:45-68 inet_proto_a2n] *)
Definition inet_proto_a2n (buf : string) (s : proto_cache) : option Z * proto_cache :=
  if (0 <=? a2n_number s) && String.eqb (a2n_name s) buf then (Some (a2n_number s), s)
  else if starts_digit 10 buf then (get_u8 buf 10, s)
  else
    match getprotobyname buf with
    | Some (name, proto) => (Some proto, (s <| a2n_number := proto |>) <| a2n_name := substring 0 16 name |>)
    | None => (None, s)
    end.
End InetProto.

(** ** Round trips *)

Lemma htons_involutive z : 0 <= z < 2 ^ 16 -> htons (htons z) = z.
Proof. intros Hz. unfold htons. Z.div_mod_to_equations. lia. Qed.

Lemma htons_range z : 0 <= htons z < 2 ^ 16.
Proof. unfold htons. Z.div_mod_to_equations. lia. Qed.

(** Reading the name of an entry gives the number of the entry, though a name is taken in
    any case and two entries share a number. *)
Lemma proto_names_read :
  forallb (fun e => match ll_proto_a2n e.2 with Some z => z =? htons e.1 | None => false end) llproto_names = true.
Proof. vm_compute. reflexivity. Qed.

Lemma bracket_unread t : ll_proto_a2n (String "[" t) = None.
Proof.
  unfold ll_proto_a2n. destruct (List.find _ llproto_names) as [e|] eqn:E.
  - apply List.find_some in E as [Hi He]. exfalso. revert e Hi He.
    apply (proj1 (List.Forall_forall (fun e => strcaseeq e.2 (String "[" t) = true -> False) llproto_names)).
    assert (forall a n, negb (Ascii.eqb a "[") = true -> strcaseeq (String a n) (String "[" t) = true -> False) as H.
    { intros a n Ha Hs. unfold strcaseeq in Hs. apply String.eqb_eq in Hs. cbn [lower] in Hs. injection Hs as Hc _.
      apply negb_true_iff, Ascii.eqb_neq in Ha. apply Ha. clear Ha t n. change (to_lower "[") with "["%char in Hc.
      unfold to_lower in Hc. destruct (_ && _) eqn:E; [|done]. exfalso.
      apply (f_equal code) in Hc. unfold code, char_of in Hc. apply andb_true_iff in E as [E1 E2].
      apply Z.leb_le in E1, E2. unfold code in E1, E2. rewrite N_ascii_embedding in Hc by lia.
      change (Z.of_N (N_of_ascii "[")) with 91 in Hc. lia. }
    unfold llproto_names. repeat (apply List.Forall_cons; [cbn [snd]; apply H; reflexivity|]). apply List.Forall_nil.
  - by destruct t.
Qed.

(** The text of a protocol is read back to its number when the protocol has a name; the
    bracketed number of any other is refused. *)
Theorem proto_roundtrip id len :
  0 <= id < 2 ^ 16 -> 2 <= len ->
  ll_proto_a2n (ll_proto_n2a id len) =
    if existsb (fun e => e.1 =? htons id) llproto_names then Some id else None.
Proof.
  intros Hid Hlen. unfold ll_proto_n2a. destruct (List.find _ llproto_names) as [e|] eqn:E.
  - apply List.find_some in E as [Hi He].
    assert (existsb (fun e => e.1 =? htons id) llproto_names = true) as -> by (apply existsb_exists; by exists e).
    pose proof (proj1 (forallb_forall _ _) proto_names_read e Hi) as Hr. cbv beta in Hr.
    destruct (ll_proto_a2n e.2) as [z|]; [|done]. apply Z.eqb_eq in Hr, He. by rewrite Hr, He, htons_involutive.
  - assert (existsb (fun e => e.1 =? htons id) llproto_names = false) as ->.
    { apply not_true_is_false. intros (e & Hi & He)%existsb_exists. by rewrite (List.find_none _ _ E e Hi) in He. }
    unfold snprintf. destruct (Z.to_nat (len - 1)) as [|n] eqn:En; [lia|].
    change ("[" +:+ print_d (htons id) +:+ "]") with (String "[" (print_d (htons id) +:+ "]")).
    cbn [substring]. apply bracket_unread.
Qed.

Lemma proto_roundtrip_witness : ll_proto_a2n (ll_proto_n2a 8 64) = Some 8 /\ ll_proto_a2n (ll_proto_n2a 9 64) = None.
Proof.
  split.
  - refine (eq_trans (proto_roundtrip 8 64 _ _) _); [lia|lia|vm_compute; reflexivity].
  - refine (eq_trans (proto_roundtrip 9 64 _ _) _); [lia|lia|vm_compute; reflexivity].
Defined.

(** ** Hardware addresses *)

(** Two hexadecimal digits. *)
Lemma octet_read b : 0 <= b < 256 ->
  scanf_x (print_02x b) = Some (b, "") /\ String.length (print_02x b) = 2%nat /\
  all_chars (fun c => negb (Ascii.eqb c ":") && negb (Ascii.eqb c ".")) (print_02x b) = true.
Proof.
  intros Hb. set (f := fun b => match scanf_x (print_02x b) with Some (v, "") => v =? b | _ => false end &&
    ((String.length (print_02x b) =? 2)%nat &&
     all_chars (fun c => negb (Ascii.eqb c ":") && negb (Ascii.eqb c ".")) (print_02x b))).
  assert (f b = true) as H by (apply (all_bytes_b f); [vm_compute; reflexivity|done]). unfold f in H.
  apply andb_prop in H as [H1 [H2 H3]%andb_prop]. apply Nat.eqb_eq in H2. split_and!; [|done|done].
  destruct (scanf_x (print_02x b)) as [[v r]|]; [|done]. destruct r; [|done]. apply Z.eqb_eq in H1. by subst.
Qed.

(** The text of the bytes when there is room. *)
Fixpoint octets_text (l : list Z) : string :=
  match l with [] => "" | [b] => print_02x b | b :: l => print_02x b +:+ ":" +:+ octets_text l end.

Lemma snprintf_all len text : Z.of_nat (String.length text) < len -> snprintf len text = text.
Proof. intros H. unfold snprintf. apply substring_all. lia. Qed.

Lemma ll_octets_text l : Forall (fun b => 0 <= b < 256) l -> forall blen, 3 * Z.of_nat (List.length l) <= blen -> l <> [] ->
  ll_octets true l blen = Some (octets_text l) /\
  (3 * Z.of_nat (List.length l) < blen -> ll_octets false l blen = Some (":" +:+ octets_text l)).
Proof.
  induction 1 as [|b l Hb Hl IH]; intros blen Hlen Hne; [done|]. cbn [List.length] in *.
  destruct (octet_read b Hb) as (_ & H2 & _). cbn [ll_octets]. rewrite (proj2 (Z.ltb_ge blen 0)) by lia.
  split; [|intros Hlt]; (rewrite snprintf_all; [|rewrite ?length_append, H2; cbn [String.length List.length] in *; lia]);
    (destruct l as [|b' l]; [cbn [ll_octets octets_text]; by rewrite append_empty|]).
  - destruct (IH (blen - 2) ltac:(cbn [List.length] in *; lia) ltac:(done)) as [_ E].
    by rewrite E by (cbn [List.length] in *; lia).
  - destruct (IH (blen - 3) ltac:(cbn [List.length] in *; lia) ltac:(done)) as [_ E].
    by rewrite E by (cbn [List.length] in *; lia).
Qed.

Lemma cut_at_octet t rest :
  all_chars (fun c => negb (Ascii.eqb c ":") && negb (Ascii.eqb c ".")) t = true ->
  cut_at ":" t = t /\ after ":" t = None /\ cut_at ":" (t +:+ String ":" rest) = t /\
  after ":" (t +:+ String ":" rest) = Some rest.
Proof.
  induction t as [|c t IH]; [done|]. cbn [all_chars]. intros [Hc Ht]%andb_prop. apply andb_prop in Hc as [Hc _].
  apply negb_true_iff in Hc. destruct (IH Ht) as (E1 & E2 & E3 & E4).
  change (String c t +:+ String ":" rest) with (String c (t +:+ String ":" rest)).
  cbn [cut_at after]. by rewrite Hc, E1, E2, E3, E4.
Qed.

Lemma read_octets_text l : Forall (fun b => 0 <= b < 256) l -> l <> [] ->
  forall len, (List.length l <= len)%nat -> read_octets len (octets_text l) = Some (l, true).
Proof.
  induction 1 as [|b l Hb Hl IH]; intros Hne [|len] Hlen; cbn [List.length] in *; try lia; try done.
  destruct (octet_read b Hb) as (Hx & _ & Hc). destruct l as [|b' l].
  - cbn [octets_text read_octets]. destruct (cut_at_octet _ "" Hc) as (-> & -> & _). rewrite Hx.
    by rewrite (proj2 (Z.ltb_ge b 0)), (proj2 (Z.ltb_ge 255 b)) by lia.
  - change (octets_text (b :: b' :: l)) with (print_02x b +:+ String ":" (octets_text (b' :: l))).
    cbn [read_octets]. destruct (cut_at_octet _ (octets_text (b' :: l)) Hc) as (_ & _ & -> & ->). rewrite Hx.
    rewrite (proj2 (Z.ltb_ge b 0)), (proj2 (Z.ltb_ge 255 b)) by lia. cbn [orb]. by rewrite IH by (done || lia).
Qed.

Lemma octets_text_plain l : Forall (fun b => 0 <= b < 256) l -> contains "." (octets_text l) = false.
Proof.
  intros Hl. unfold contains. apply negb_false_iff. induction Hl as [|b l Hb _ IH]; [done|].
  destruct (octet_read b Hb) as (_ & _ & Hc).
  assert (all_chars (fun d => negb (Ascii.eqb d ".")) (print_02x b) = true) as Hp.
  { induction (print_02x b) as [|c t IHt]; [done|]. cbn [all_chars] in *. apply andb_prop in Hc as [Hc Ht].
    apply andb_prop in Hc as [_ Hc]. by rewrite Hc, IHt. }
  destruct l as [|b' l]; [done|].
  change (octets_text (b :: b' :: l)) with (print_02x b +:+ ":" +:+ octets_text (b' :: l)).
  by rewrite !all_chars_app, Hp, IH.
Qed.

(** A hardware address is read back from what is printed, when neither buffer is too
    small; an IPv4 address of a tunnel too. *)
Theorem ll_addr_roundtrip (inet_ntop6 : list Z -> string) (inet_pton6 : string -> option (list Z)) l type buf blen len :
  Forall (fun b => 0 <= b < 256) l -> l <> [] -> 3 * Z.of_nat (List.length l) <= blen -> 16 <= blen ->
  (List.length l <= len)%nat -> type <> ARPHRD_TUNNEL6 ->
  exists text, ll_addr_n2a inet_ntop6 l type buf blen = Some (Some text) /\
    ll_addr_a2n inet_pton6 len text = Some (l, Z.of_nat (List.length l)).
Proof.
  intros Hl Hne Hblen H16 Hlen Ht. unfold ll_addr_n2a. rewrite (proj2 (Z.eqb_neq type ARPHRD_TUNNEL6) Ht), andb_false_r.
  destruct ((List.length l =? 4)%nat && _) eqn:E4.
  - apply andb_true_iff in E4 as [E4 _]. apply Nat.eqb_eq in E4.
    destruct l as [|a [|b [|c [|d [|? ?]]]]]; cbn [List.length] in E4; try lia.
    repeat match goal with H : Forall _ (_ :: _) |- _ => apply Forall_cons in H as [? ?] end.
    change (([a; b; c; d] : list Z) !!! 0%nat) with a. change (([a; b; c; d] : list Z) !!! 1%nat) with b.
    change (([a; b; c; d] : list Z) !!! 2%nat) with c. change (([a; b; c; d] : list Z) !!! 3%nat) with d.
    exists (quad a b c d). split.
    + unfold ntop_text. assert (String.length (quad a b c d) <= 15)%nat as Hq.
      { unfold quad. rewrite !length_append. cbn [String.length]. rewrite !length_append. cbn [String.length].
        rewrite !length_append. cbn [String.length].
        assert (forall x, 0 <= x < 256 -> (String.length (print_u x) <= 3)%nat) as Hx
          by (intros x Hx; apply (print_u_length x 3); lia).
        pose proof (Hx a) as X1. pose proof (Hx b) as X2. pose proof (Hx c) as X3. pose proof (Hx d) as X4. lia. }
      by rewrite (proj2 (Z.ltb_lt _ _)) by lia.
    + unfold ll_addr_a2n. assert (contains "." (quad a b c d) = true) as ->.
      { unfold contains. apply negb_true_iff. unfold quad. rewrite all_chars_app. cbn [all_chars].
        change (Ascii.eqb "." ".") with true. cbn [negb andb]. apply andb_false_r. }
      unfold get_addr_1. pose proof (quad_head a b c d "") as Hh. rewrite append_empty in Hh. rewrite Hh by lia.
      assert (contains ":" (quad a b c d) = false) as ->.
      { unfold contains. apply negb_false_iff. apply quad_chars; try lia; reflexivity. }
      cbn [family_is]. rewrite get_addr_ipv4_quad by done. cbn [List.length] in Hlen.
      by rewrite (proj2 (Nat.ltb_ge len 4)) by lia.
  - destruct l as [|b l]; [done|]. destruct (ll_octets_text (b :: l) Hl blen Hblen Hne) as [-> _].
    exists (octets_text (b :: l)). split; [done|]. unfold ll_addr_a2n. rewrite octets_text_plain by done.
    rewrite read_octets_text by done. by rewrite Z.add_0_r.
Qed.

(** ** The caches of the IP protocols *)

(** What the C library's database gives: short official names, which are found again. *)
Class ProtocolLaws (getprotobynumber : Z -> option string) (getprotobyname : string -> option (string * Z)) : Prop := {
  number_short : forall p name, getprotobynumber p = Some name -> short_name name;
  name_short : forall buf name p, getprotobyname buf = Some (name, p) -> short_name name /\ 0 <= p;
  name_official : forall buf name p, getprotobyname buf = Some (name, p) ->
    getprotobyname name = Some (name, p) /\ starts_digit 10 name = false
}.

Section ProtoSession.
Context (getprotobynumber : Z -> option string) (getprotobyname : string -> option (string * Z)).
Context {Laws : ProtocolLaws getprotobynumber getprotobyname}.

Inductive proto_query := ProtoName (proto len : Z) | ProtoNumber (buf : string).

Definition proto_call (q : proto_query) (s : proto_cache) : answer * proto_cache :=
  match q with
  | ProtoName proto len => let '(name, s) := inet_proto_n2a getprotobynumber proto len s in (Text name, s)
  | ProtoNumber buf => let '(r, s) := inet_proto_a2n getprotobyname buf s in (Id r, s)
  end.

(** The answer of the database. *)
Definition proto_answer (q : proto_query) : answer :=
  match q with
  | ProtoName proto len =>
      Text (match getprotobynumber proto with Some name => name | None => snprintf len ("ipproto-" +:+ print_d proto) end)
  | ProtoNumber buf =>
      Id (if starts_digit 10 buf then get_u8 buf 10
          else match getprotobyname buf with Some (_, p) => Some p | None => None end)
  end.

Fixpoint proto_session (qs : list proto_query) (s : proto_cache) : list answer :=
  match qs with [] => [] | q :: qs => let '(a, s) := proto_call q s in a :: proto_session qs s end.

Definition proto_coherent (s : proto_cache) : Prop :=
  (0 <= n2a_number s -> getprotobynumber (n2a_number s) = Some (n2a_name s)) /\
  (0 <= a2n_number s -> getprotobyname (a2n_name s) = Some (a2n_name s, a2n_number s) /\
                        starts_digit 10 (a2n_name s) = false).

Definition query_ok (q : proto_query) : Prop := match q with ProtoName proto len => 0 <= proto /\ 15 <= len | _ => True end.

Lemma short_substring name n : short_name name -> (15 <= n)%nat -> substring 0 n name = name.
Proof. intros Hs Hn. apply substring_all. unfold short_name in Hs. lia. Qed.

Lemma proto_call_coherent q s :
  proto_coherent s -> query_ok q ->
  (proto_call q s).1 = proto_answer q /\ proto_coherent (proto_call q s).2.
Proof.
  destruct s as [nn nt an at']. intros [H1 H2] Hq. cbn in H1, H2. destruct q as [proto len|buf]; cbn [proto_call].
  - destruct Hq as [Hp Hlen]. unfold inet_proto_n2a. cbn. destruct (Z.eqb_spec proto nn) as [->|_].
    + rewrite (H1 Hp). by split.
    + destruct (getprotobynumber proto) as [name|] eqn:E; [|by split]. pose proof (number_short _ _ E) as Hs.
      rewrite !short_substring by (done || lia). split; [done|]. split; [by intros|exact H2].
  - unfold inet_proto_a2n. cbn. destruct ((0 <=? an) && String.eqb at' buf) eqn:E.
    + apply andb_true_iff in E as [E1 E2]. apply Z.leb_le in E1. apply String.eqb_eq in E2 as ->.
      destruct (H2 E1) as [E Ed]. rewrite E, Ed. by split.
    + destruct (starts_digit 10 buf); [by split|]. destruct (getprotobyname buf) as [[name p]|] eqn:Eb; [|by split].
      destruct (name_short _ _ _ Eb) as [Hs Hp]. destruct (name_official _ _ _ Eb) as [Ho Hd].
      split; [done|]. split; [exact H1|]. cbn. intros _. by rewrite short_substring by (done || lia).
Qed.

(** Whatever is asked in whatever order, the answers are those of the database. *)
Theorem proto_session_refines qs :
  Forall query_ok qs -> proto_session qs no_proto = map proto_answer qs.
Proof.
  intros Hq. assert (proto_coherent no_proto) as Hc by (split; cbn; lia). revert Hc. generalize no_proto.
  induction Hq as [|q qs Hq _ IH]; [done|]. intros s Hc. destruct (proto_call_coherent q s Hc Hq) as [H1 H2].
  cbn [proto_session map]. destruct (proto_call q s) as [a s']. cbn [fst snd] in *. by rewrite H1, IH.
Qed.
End ProtoSession.

(** A database of two protocols, one with an alias. *)
Definition demo_bynumber (p : Z) : option string := if p =? 6 then Some "tcp" else if p =? 17 then Some "udp" else None.
Definition demo_byname (buf : string) : option (string * Z) :=
  if String.eqb buf "tcp" || String.eqb buf "TCP" then Some ("tcp", 6)
  else if String.eqb buf "udp" then Some ("udp", 17) else None.

#[export] Instance demo_protocols : ProtocolLaws demo_bynumber demo_byname.
Proof.
  split.
  - intros p name. unfold demo_bynumber. destruct (p =? 6); [|destruct (p =? 17); [|done]];
      intros H; injection H as <-; unfold short_name; cbn; lia.
  - intros buf name p. unfold demo_byname. destruct (_ || _); [|destruct (String.eqb buf "udp"); [|done]];
      intros H; injection H as <- <-; (split; [unfold short_name; cbn; lia|lia]).
  - intros buf name p. unfold demo_byname. destruct (_ || _); [|destruct (String.eqb buf "udp"); [|done]];
      intros H; injection H as <- <-; by split.
Qed.

Lemma proto_session_refines_witness :
  proto_session demo_bynumber demo_byname [ProtoNumber "TCP"; ProtoNumber "tcp"; ProtoName 6 64; ProtoName 6 64; ProtoNumber "17"]
    no_proto = [Id (Some 6); Id (Some 6); Text "tcp"; Text "tcp"; Id (Some 17)].
Proof.
  refine (eq_trans (proto_session_refines demo_bynumber demo_byname
    [ProtoNumber "TCP"; ProtoNumber "tcp"; ProtoName 6 64; ProtoName 6 64; ProtoNumber "17"] _) _);
    [repeat (apply Forall_cons; split; [cbn; lia|]); by apply Forall_nil|vm_compute; reflexivity].
Defined.
