(* ===== verification/HostNames.v ===== *)
(** * Addresses of any family as text (lib/utils.c)

    [rt_addr_n2a] prints an address; [format_host] first asks the resolver for a name
    when the option of the program says so, through a hash table that remembers names
    and failures. *)

From S2P Require Export LlNames Ipx.

#[local] Open Scope list_scope.

Section Hosts.
(** The C library: IPv6 addresses as text, and the resolver. *)
Context (inet_ntop6 : list Z -> string) (gethostbyaddr : family -> list Z -> option string).

(** The first ten bytes as the structure. *)
Definition ipx_of_bytes (b : list Z) : Ipx.ipx_addr := Ipx.mk_ipx (data_word b 0) (take 6 (drop 4 b)).

(** [None] is a null pointer, for a buffer that is too small.
    [iproute2-3.1.0/lib/utils.c:502-519 rt_addr_n2a] *)
Definition rt_addr_n2a (af : family) (addr : list Z) (buflen : Z) : option string :=
  match af with
  | AF_INET => ntop_text (quad (addr !!! 0%nat) (addr !!! 1%nat) (addr !!! 2%nat) (addr !!! 3%nat)) buflen
  | AF_INET6 => ntop_text (inet_ntop6 (take 16 addr)) buflen
  | AF_IPX => Ipx.ipx_ntop AF_IPX (ipx_of_bytes addr) buflen
  | AF_DECnet => dnet_ntop AF_DECnet (take 2 addr) buflen
  | _ => Some "???"
  end.

(** ** The table of names *)

#[local] Set Primitive Projections.

(** [iproute2-3.1.0/lib/utils.c:522-527 namerec] *)
Record namerec := mk_name { nr_name : option string; nr_family : family; nr_addr : list Z }.

#[local] Unset Primitive Projections.

Definition NHASH : Z := 257.

(** The chains; [nht] is a static, empty at the start. *)
#[local] Abbreviation name_chains := (list (list namerec)).

Definition nht : name_chains := replicate 257 [].

(** An IPv4 address mapped into IPv6 counts as IPv4.
    [iproute2-3.1.0/lib/utils.c:540-545 resolve_address] *)
Definition unmap (af : family) (addr : list Z) : family * list Z :=
  if family_is af AF_INET6 && (data_word addr 0 =? 0) && (data_word addr 1 =? 0) && (data_word addr 2 =? ntohl 0xffff)
  then (AF_INET, drop 12 addr) else (af, addr).

(** The last four bytes.  [iproute2-3.1.0/lib/utils.c:547-547 resolve_address] *)
Definition addr_hash (addr : list Z) : nat :=
  Z.to_nat (data_word (drop (List.length addr - 4) addr) 0 mod NHASH).

Definition is_rec (af : family) (addr : list Z) (n : namerec) : bool :=
  family_is (nr_family n) af && bool_decide (nr_addr n = addr).

(** The name, and the table; [malloc] says whether there is memory for a new entry.  The
    addresses have four bytes at least: of a shorter one the hash reads what lies
    before it.  [iproute2-3.1.0/lib/utils.c:532-572 resolve_address] *)
Definition resolve_address (malloc : bool) (af : family) (addr : list Z) (t : name_chains) :
    option string * name_chains :=
  let '(af, addr) := unmap af addr in
  let hash := addr_hash addr in
  match List.find (is_rec af addr) (t !!! hash) with
  | Some n => (nr_name n, t)
  | None =>
      if malloc then
        let n := mk_name (gethostbyaddr af addr) af addr in
        (nr_name n, <[hash := n :: t !!! hash]> t)
      else (None, t)
  end.

(** The bytes of an address when the caller gives none, 0 for an unknown family.
    [iproute2-3.1.0/lib/utils.c:583-602 format_host] *)
Definition addr_length (af : family) (len : Z) : Z :=
  if len <=? 0 then
    match af with AF_INET => 4 | AF_INET6 => 16 | AF_IPX => 10 | AF_DECnet => 2 | _ => len end
  else len.

(** [addr] holds the bytes; [len] is what the caller says.
    [iproute2-3.1.0/lib/utils.c:576-610 format_host] *)
Definition format_host (resolve_hosts malloc : bool) (af : family) (len : Z) (addr : list Z) (buflen : Z)
    (t : name_chains) : option string * name_chains :=
  if resolve_hosts then
    let len := addr_length af len in
    if 0 <? len then
      match resolve_address malloc af (take (Z.to_nat len) addr) t with
      | (Some name, t) => (Some name, t)
      | (None, t) => (rt_addr_n2a af addr buflen, t)
      end
    else (rt_addr_n2a af addr buflen, t)
  else (rt_addr_n2a af addr buflen, t).

(** ** The table remembers the resolver *)

(** Every entry holds what the resolver says, in the chain of its hash. *)
Definition remembers (t : name_chains) : Prop :=
  List.length t = 257%nat /\
  forall h n, In n (t !!! h) -> nr_name n = gethostbyaddr (nr_family n) (nr_addr n) /\ h = addr_hash (nr_addr n).

Lemma nht_remembers : remembers nht.
Proof.
  split; [done|]. intros h n Hn. unfold nht in Hn. destruct (decide (h < 257)%nat).
  - by rewrite lookup_total_replicate_2 in Hn.
  - by rewrite list_lookup_total_alt, lookup_ge_None_2 in Hn by (rewrite length_replicate; lia).
Qed.

Lemma addr_hash_range addr : (addr_hash addr < 257)%nat.
Proof. unfold addr_hash, NHASH. pose proof (Z.mod_pos_bound (data_word (drop (List.length addr - 4) addr) 0) 257). lia. Qed.

Lemma resolve_remembers malloc af addr t :
  remembers t -> remembers (resolve_address malloc af addr t).2 /\
  (malloc = true -> (resolve_address malloc af addr t).1 = gethostbyaddr (unmap af addr).1 (unmap af addr).2).
Proof.
  intros [Hl Ht]. unfold resolve_address. destruct (unmap af addr) as [f a]. cbn [fst snd].
  destruct (List.find _ _) as [n|] eqn:E.
  - cbn [fst snd]. split; [by split|]. intros _. apply List.find_some in E as [Hi He].
    unfold is_rec, family_is in He. apply andb_true_iff in He as [H1 H2]. apply bool_decide_eq_true in H1, H2.
    destruct (Ht _ _ Hi) as [-> _]. by rewrite H1, H2.
  - destruct malloc; [|by split]. cbn [fst snd nr_name]. split; [|done]. split; [by rewrite length_insert|].
    intros h n Hn. destruct (decide (h = addr_hash a)) as [->|Hne].
    + rewrite list_lookup_total_insert_eq in Hn by (rewrite Hl; apply addr_hash_range).
      apply in_inv in Hn as [<-|Hn]; [done|by apply Ht].
    + rewrite list_lookup_total_insert_ne in Hn by done. by apply Ht.
Qed.

(** A series of questions. *)
Fixpoint resolve_session (l : list (family * list Z)) (t : name_chains) : list (option string) :=
  match l with
  | [] => []
  | (af, addr) :: l => let '(name, t) := resolve_address true af addr t in name :: resolve_session l t
  end.

(** Whatever is asked and in whatever order, each answer is the resolver's, for a mapped
    address that of the IPv4 address: entries of a chain are never confused and
    failures are remembered as failures. *)
Theorem resolve_session_refines l :
  resolve_session l nht = map (fun '(af, addr) => gethostbyaddr (unmap af addr).1 (unmap af addr).2) l.
Proof.
  generalize nht_remembers. generalize nht. induction l as [|[af addr] l IH]; intros t Ht; [done|].
  cbn [resolve_session map]. destruct (resolve_remembers true af addr t Ht) as [H1 H2].
  destruct (resolve_address true af addr t) as [name t']. cbn [fst snd] in *. by rewrite H2, IH.
Qed.

(** A host is shown by its name if it has one, else by its address. *)
Theorem format_host_shows af len addr buflen t :
  remembers t -> 0 < addr_length af len ->
  let bytes := take (Z.to_nat (addr_length af len)) addr in
  (format_host true true af len addr buflen t).1 =
    match gethostbyaddr (unmap af bytes).1 (unmap af bytes).2 with
    | Some name => Some name
    | None => rt_addr_n2a af addr buflen
    end /\
  remembers (format_host true true af len addr buflen t).2.
Proof.
  intros Ht Hlen bytes. unfold format_host. cbv zeta. rewrite (proj2 (Z.ltb_lt _ _) Hlen).
  fold bytes. destruct (resolve_remembers true af bytes t Ht) as [H1 H2]. specialize (H2 eq_refl).
  destruct (resolve_address true af bytes t) as [[name|] t']; cbn [fst snd] in *; by rewrite <- H2.
Qed.
End Hosts.
