(* ===== verification/TcRed.v ===== *)
(** * RED parameters (iproute2-3.1.0/tc/tc_red.c)

    [pow] and [log] of the mathematics library are parameters. *)

From S2P Require Export TcCore.

#[local] Open Scope list_scope.

(** [for (i=0; i<32; i++) { if (prob > 1.0) break; prob *= 2; }]: the counter. *)
Fixpoint red_P_loop (fuel : nat) (i : Z) (prob : double) : Z :=
  match fuel with
  | O => i
  | S fuel => if dgt prob d1 then i else red_P_loop fuel (i + 1) (prob * d2)%D
  end.

(** [iproute2-3.1.0/tc/tc_red.c:30-47 tc_red_eval_P] *)
Definition tc_red_eval_P (qmin qmax : Z) (prob : double) : Z :=
  let i := s32 (qmax - qmin) in
  if i <=? 0 then - 1
  else
    let i := red_P_loop 32 0 (prob / d_of_Z i)%D in
    if 32 <=? i then - 1 else i.

Section Maths.
Context (pow : double -> double -> double) (log : double -> double).

Fixpoint red_ewma_loop (fuel : nat) (wlog : Z) (W a burst : double) : Z :=
  match fuel with
  | O => - 1
  | S fuel =>
      if dle a ((d1 - pow (d1 - W) burst) / W)%D then wlog
      else red_ewma_loop fuel (wlog + 1) (W / d2)%D a burst
  end.

(** [iproute2-3.1.0/tc/tc_red.c:53-66 tc_red_eval_ewma] *)
Definition tc_red_eval_ewma (qmin burst avpkt : Z) : Z :=
  let a := (d_of_Z burst + d1 - d_of_Z qmin / d_of_Z avpkt)%D in
  if dlt a d1 then - 1 else red_ewma_loop 31 1 (d1 / d2)%D a (d_of_Z burst).

Fixpoint red_clog (fuel : nat) (clog : Z) (maxtime : double) : Z :=
  match fuel with
  | O => clog
  | S fuel =>
      if dlt (maxtime / d_of_Z (s32 (Z.shiftl 1 clog)))%D (d_of_Z 512) then clog
      else red_clog fuel (clog + 1) maxtime
  end.

(** The return value and [sbuf]; the conversion to a byte goes through an [int].
    [iproute2-3.1.0/tc/tc_red.c:72-95 tc_red_eval_idle_damping] *)
Definition tc_red_eval_idle_damping (c : core) (Wlog avpkt bps : Z) (sbuf : list Z) : Z * list Z :=
  let xmit_time := d_of_Z (tc_calc_xmittime c bps avpkt) in
  let lW := (- log (d1 - d1 / d_of_Z (s32 (Z.shiftl 1 Wlog))) / xmit_time)%D in
  let maxtime := (d_of_Z 31 / lW)%D in
  let clog := red_clog 32 0 maxtime in
  if 32 <=? clog then (- 1, sbuf)
  else
    let sbuf := <[0%nat := 0]> sbuf in
    let sbuf := for_from 1 255 (fun i sbuf =>
      let v := u8 (d_to_s32 (d_of_Z (s32 (Z.shiftl (Z.of_nat i) clog)) * lW)%D) in
      <[i := if 31 <? v then 31 else v]> sbuf) sbuf in
    (clog, <[255%nat := 31]> sbuf).

(** The damping shifts are at most 31 and the scale less than 32: the kernel can
    shift by every entry of the table it receives. *)
Lemma idle_damping_table c Wlog avpkt bps sbuf :
  List.length sbuf = 256%nat ->
  let '(clog, t) := tc_red_eval_idle_damping c Wlog avpkt bps sbuf in
  clog = - 1 /\ t = sbuf \/
  0 <= clog < 32 /\ List.length t = 256%nat /\ Forall (fun v => 0 <= v <= 31) t /\
    t !!! 0%nat = 0 /\ t !!! 255%nat = 31.
Proof.
  intros Hl. unfold tc_red_eval_idle_damping.
  match goal with |- context [red_clog 32 0 ?m] => set (maxtime := m) end.
  assert (forall fuel k, 0 <= k -> 0 <= red_clog fuel k maxtime) as Hk.
  { clear. induction fuel as [|fuel IH]; intros k Hk; cbn [red_clog]; [done|].
    destruct (dlt _ _); [done|]. apply IH. lia. }
  specialize (Hk 32%nat 0 ltac:(lia)). set (clog := red_clog 32 0 maxtime) in *. clearbody clog maxtime.
  destruct (Z.leb_spec 32 clog) as [Hc|Hc]; [by left|]. right. split; [lia|].
  match goal with |- context [for_from 1 255 ?b ?s] => set (body := b); set (s0 := s) end.
  assert (let t := for_from 1 255 body s0 in
    List.length t = 256%nat /\ t !!! 0%nat = 0 /\ forall j, (j < 255)%nat -> 0 <= t !!! j <= 31) as (H1 & H2 & H3).
  { apply (for_from_ind (fun k t => List.length t = 256%nat /\ t !!! 0%nat = 0 /\
      forall j, (j < k)%nat -> 0 <= t !!! j <= 31)); [lia| |].
    - unfold s0. rewrite length_insert, list_lookup_total_insert_eq by lia. split; [done|]. split; [done|].
      intros j Hj. assert (j = 0)%nat as -> by lia. rewrite list_lookup_total_insert_eq by lia. lia.
    - intros i t Hi (T1 & T2 & T3). unfold body.
      match goal with |- context [<[i := ?x]> t] => set (v := x) end.
      assert (0 <= v <= 31) as Hv.
      { unfold v. match goal with |- context [u8 ?z] => assert (0 <= u8 z) by (unfold u8; by apply Z.mod_pos_bound);
          destruct (Z.ltb_spec 31 (u8 z)); lia end. }
      clearbody v. rewrite length_insert. split; [done|]. split.
      + rewrite list_lookup_total_insert_ne by lia. done.
      + intros j Hj. destruct (decide (j = i)) as [->|].
        * by rewrite list_lookup_total_insert_eq by lia.
        * rewrite list_lookup_total_insert_ne by done. apply T3. lia. }
  cbv zeta in H1, H2, H3. set (t := for_from 1 255 body s0) in *. clearbody t.
  rewrite length_insert. split; [done|]. split; [|split].
  - refine (Forall_lookup_total_2 _ _ _). intros j Hj. rewrite length_insert in Hj.
    destruct (decide (j = 255)%nat) as [->|]; [rewrite list_lookup_total_insert_eq by lia; lia|].
    rewrite list_lookup_total_insert_ne by done. apply H3. lia.
  - by rewrite list_lookup_total_insert_ne by lia.
  - by rewrite list_lookup_total_insert_eq by lia.
Qed.

End Maths.
