(* ===== verification/TcStab.v ===== *)
(** * Size tables and estimators on the command line (iproute2-3.1.0/tc/tc_stab.c,
    tc_estimator.c, m_estimator.c)

    A parser gets the arguments from its keyword on, like the code, and gives back
    the arguments it leaves. *)

From S2P Require Export TcUtil.

#[local] Open Scope list_scope.

(** How a parser ends: with a value and the arguments left, with an error, or with the
    end of the program (a missing, a repeated or a wrong argument). *)
Inductive args_of (T : Type) := Args (v : T) (argv : list string) | ArgError | ArgExit.
Arguments Args {T} v argv.
Arguments ArgError {T}.
Arguments ArgExit {T}.

(** ** Size tables *)

Definition zero_sizespec : tc_sizespec := mk_sizespec 0 0 0 0 LINKLAYER_UNSPEC 0 0 0.

(** [iproute2-3.1.0/tc/tc_stab.c:42-46 check_size_table_opts] *)
Definition check_size_table_opts (s : tc_sizespec) : bool :=
  (linklayer_code LINKLAYER_ETHERNET <=? linklayer_code (sz_linklayer s)) ||
  negb (sz_mpu s =? 0) || negb (sz_overhead s =? 0).

(** A keyword of the table: whether its field is set already, and how its argument is
    stored.  [iproute2-3.1.0/tc/tc_stab.c:62-102 parse_size_table] *)
Definition stab_keyword (word : string) :
    option ((tc_sizespec -> bool) * (string -> tc_sizespec -> option tc_sizespec)) :=
  let set {T} (v : option T) (f : T -> tc_sizespec) := match v with Some v => Some (f v) | None => None end in
  if matches word "mtu" then
    Some (fun s => negb (sz_mtu s =? 0), fun arg s => set (get_u32 arg 10) (fun v => s <| sz_mtu := v |>))
  else if matches word "mpu" then
    Some (fun s => negb (sz_mpu s =? 0), fun arg s => set (get_u32 arg 10) (fun v => s <| sz_mpu := v |>))
  else if matches word "overhead" then
    Some (fun s => negb (sz_overhead s =? 0), fun arg s => set (get_integer arg 10) (fun v => s <| sz_overhead := v |>))
  else if matches word "tsize" then
    Some (fun s => negb (sz_tsize s =? 0), fun arg s => set (get_u32 arg 10) (fun v => s <| sz_tsize := v |>))
  else if matches word "linklayer" then
    Some (fun s => negb (linklayer_code (sz_linklayer s) =? linklayer_code LINKLAYER_UNSPEC),
          fun arg s => set (get_linklayer arg) (fun v => s <| sz_linklayer := v |>))
  else None.

Fixpoint stab_args (argv : list string) (s : tc_sizespec) : args_of tc_sizespec :=
  match argv with
  | [] => Args s []
  | word :: argv =>
      match stab_keyword word with
      | Some (is_set, set) =>
          match argv with
          | [] => ArgExit
          | arg :: argv =>
              if is_set s then ArgExit
              else match set arg s with Some s => stab_args argv s | None => ArgExit end
          end
      | None => Args s (word :: argv)
      end
  end.

(** The word [stab] is the head of [argv].
    [iproute2-3.1.0/tc/tc_stab.c:48-114 parse_size_table] *)
Definition parse_size_table (argv : list string) : args_of tc_sizespec :=
  match tail argv with
  | [] => ArgExit
  | (word :: _) as argv =>
      if matches word "help" then ArgError
      else
        match stab_args argv zero_sizespec with
        | Args s argv => if check_size_table_opts s then Args s argv else ArgError
        | r => r
        end
  end.

(** The 24 bytes of the structure. *)
Definition sizespec_bytes (s : tc_sizespec) : list Z :=
  le_bytes 1 (sz_cell_log s) ++ le_bytes 1 (sz_size_log s) ++ le_bytes 2 (sz_cell_align s) ++
  le_bytes 4 (sz_overhead s) ++ le_bytes 4 (linklayer_code (sz_linklayer s)) ++ le_bytes 4 (sz_mpu s) ++
  le_bytes 4 (sz_mtu s) ++ le_bytes 4 (sz_tsize s).

(** [iproute2-3.1.0/tc/tc_stab.c:116-159 print_size_table] *)
Definition print_size_table (m : list Z) (prefix : string) (rta : Z) : string :=
  match (parse_rtattr_nested m 2 rta).1 !!! 1%nat with
  | None => ""
  | Some a =>
      let b := copy_payload m a 24 in
      let nz z := negb (z =? 0) in
      prefix +:+
      (if nz (field32 b 8) then "linklayer " +:+ sprint_linklayer (field32 b 8) +:+ " " else "") +:+
      (if nz (s32 (field32 b 4)) then "overhead " +:+ print_d (s32 (field32 b 4)) +:+ " " else "") +:+
      (if nz (field32 b 12) then "mpu " +:+ print_u (field32 b 12) +:+ " " else "") +:+
      (if nz (field32 b 16) then "mtu " +:+ print_u (field32 b 16) +:+ " " else "") +:+
      (if nz (field32 b 20) then "tsize " +:+ print_u (field32 b 20) +:+ " " else "")
  end.

(** ** Estimators *)

(** [iproute2-3.1.0/include/linux/pkt_sched.h:44-47 tc_estimator] *)
Record tc_estimator := mk_estimator { est_interval : Z; est_ewma_log : Z }.

Section Estimator.
Context (log : double -> double).

(** Five doublings of a quarter of a second. *)
Fixpoint est_interval_loop (fuel : nat) (A interval : Z) : Z :=
  match fuel with
  | O => interval
  | S fuel => if A <=? Z.shiftl 1 interval * 250000 then interval else est_interval_loop fuel A (interval + 1)
  end.

Fixpoint est_ewma_loop (fuel : nat) (A time_const ewma_log : Z) : Z :=
  match fuel with
  | O => ewma_log
  | S fuel =>
      let w := (d1 - d1 / d_of_Z (s32 (Z.shiftl 1 ewma_log)))%D in
      if dgt (d_of_Z A / - log w)%D (d_of_Z time_const) then ewma_log
      else est_ewma_loop fuel A time_const (ewma_log + 1)
  end.

(** The return value and the structure; the second loop is not entered when the first
    finds no interval.
    [iproute2-3.1.0/tc/tc_estimator.c:25-44 tc_setup_estimator] *)
Definition tc_setup_estimator (A time_const : Z) (est : tc_estimator) : Z * tc_estimator :=
  let est := mk_estimator (est_interval_loop 6 A 0) (est_ewma_log est) in
  if 5 <? est_interval est then (- 1, est)
  else
    let est := mk_estimator (est_interval est - 2) (est_ewma_loop 31 A time_const 1 - 1) in
    if (est_ewma_log est =? 0) || (31 <=? est_ewma_log est) then (- 1, est) else (0, est).

(** The word [estimator] is the head of [argv]; the argument left at the head is the
    last one read.  [iproute2-3.1.0/tc/m_estimator.c:37-64 parse_estimator] *)
Definition parse_estimator (argv : list string) (est : tc_estimator) : args_of tc_estimator :=
  match tail argv with
  | [] => ArgExit
  | interval :: argv =>
      if negb (est_ewma_log est =? 0) then ArgExit
      else
        match get_time interval with
        | None => ArgExit
        | Some A =>
            match argv with
            | [] => ArgExit
            | time_const :: _ =>
                match get_time time_const with
                | None => ArgExit
                | Some t =>
                    let '(r, est) := tc_setup_estimator A t est in
                    if r <? 0 then ArgError else Args est argv
                end
            end
        end
  end.

End Estimator.

(** ** The interval of an estimator *)

Lemma est_interval_loop_spec A fuel : forall i,
  0 <= i -> let r := est_interval_loop fuel A i in
  i <= r <= i + Z.of_nat fuel /\ (forall k, i <= k < r -> Z.shiftl 1 k * 250000 < A) /\
  (r < i + Z.of_nat fuel -> A <= Z.shiftl 1 r * 250000).
Proof.
  induction fuel as [|fuel IH]; intros i Hi; cbn [est_interval_loop]; cbv zeta.
  - split; [lia|]. split; intros; lia.
  - destruct (Z.leb_spec A (Z.shiftl 1 i * 250000)) as [Hle|Hgt].
    + split; [lia|]. split; [intros; lia|done].
    + destruct (IH (i + 1)) as (H1 & H2 & H3); [lia|]. split; [lia|]. split.
      * intros k Hk. destruct (decide (k = i)) as [->|]; [done|]. apply H2. lia.
      * intros Hr. apply H3. lia.
Qed.

(** An accepted estimator has the least interval, among a quarter of a second and its
    doublings up to 8 seconds, that covers the one asked for, and an averaging weight
    between 1 and 30; everything above 8 seconds is refused. *)
Theorem estimator_interval (log : double -> double) (A time_const : Z) (est : tc_estimator) :
  0 <= A ->
  let '(r, e) := tc_setup_estimator log A time_const est in
  (8000000 < A -> r = - 1) /\
  (r = 0 ->
    - 2 <= est_interval e <= 3 /\ A <= 2 ^ (est_interval e + 2) * 250000 /\
    (forall k, - 2 <= k < est_interval e -> 2 ^ (k + 2) * 250000 < A) /\
    1 <= est_ewma_log e <= 30).
Proof.
  intros HA. unfold tc_setup_estimator. cbv zeta. cbn [est_interval est_ewma_log].
  destruct (est_interval_loop_spec A 6 0 ltac:(lia)) as (H1 & H2 & H3). cbv zeta in *.
  set (i := est_interval_loop 6 A 0) in *.
  assert (forall k, 0 <= k -> Z.shiftl 1 k = 2 ^ k) as Hs by (intros k Hk; rewrite Z.shiftl_mul_pow2 by done; lia).
  assert (forall n t k, 1 <= k -> k <= est_ewma_loop log n A t k) as Hew.
  { induction n as [|n IH]; intros t k Hk; cbn [est_ewma_loop]; [lia|].
    cbv zeta. destruct (dgt _ _); [lia|]. specialize (IH t (k + 1)). lia. }
  specialize (Hew 31%nat time_const 1 ltac:(lia)). set (e := est_ewma_loop log 31 A time_const 1) in *.
  destruct (Z.ltb_spec 5 i) as [Hi|Hi]; [split; [done|intros; lia]|].
  assert (A <= 2 ^ i * 250000) as Hcov by (rewrite <- Hs by lia; apply H3; lia).
  assert (A <= 8000000) as Hle.
  { pose proof (Z.pow_le_mono_r 2 i 5 ltac:(lia) ltac:(lia)). change (2 ^ 5) with 32 in *. lia. }
  destruct (Z.eqb_spec (e - 1) 0); cbn [orb]; [split; intros; lia|].
  destruct (Z.leb_spec 31 (e - 1)); cbn [est_interval est_ewma_log]; [split; intros; lia|].
  split; [lia|]. intros _. split; [lia|]. split; [by replace (i - 2 + 2) with i by lia|].
  split; [|lia]. intros k Hk. rewrite <- Hs by lia. apply H2. lia.
Qed.

(** With a logarithm that is constantly -1 the weight is the least one. *)
Lemma estimator_interval_witness :
  let '(r, e) := tc_setup_estimator (fun _ => (- d1)%D) 1000000 500000 (mk_estimator 0 0) in
  (8000000 < 1000000 -> r = - 1) /\
  (r = 0 ->
    - 2 <= est_interval e <= 3 /\ 1000000 <= 2 ^ (est_interval e + 2) * 250000 /\
    (forall k, - 2 <= k < est_interval e -> 2 ^ (k + 2) * 250000 < 1000000) /\
    1 <= est_ewma_log e <= 30).
Proof. apply (estimator_interval (fun _ => (- d1)%D) 1000000 500000 (mk_estimator 0 0)). lia. Defined.
