(* ===== verification/TcRbfgrad.v ===== *)
(** * The tc front end of the scheduler (iproute2-3.1.0/tc/q_rbfgrad.c)

    From the command line to the netlink request and back to text.  The locals the
    code reads without having written them ([p_init], [p_min], [sbuf]) are
    parameters. *)

From S2P Require Export KernelEnv TcUtil.

#[local] Open Scope list_scope.

(** ** Fixed point *)

(** [8*sizeof(int) - 1] = 31 rounds.  [iproute2-3.1.0/tc/q_rbfgrad.c:36-48 double2fixpoint] *)
Definition double2fixpoint (d : double) : Z :=
  (for_from 1 32 (fun _ '(d, ret) =>
    let ret := s32 (Z.shiftl ret 1) in
    let d := (d * d2)%D in
    if dge d d1 then ((d - d1)%D, Z.lor ret 1) else (d, ret)) (d, 0)).2.

(** [iproute2-3.1.0/tc/q_rbfgrad.c:50-61 fixpoint2double] *)
Definition fixpoint2double (f : Z) : double :=
  (for_from 1 32 (fun _ '(ret, f) =>
    let ret := if Z.testbit f 0 then (ret + d1)%D else ret in
    ((ret / d2)%D, Z.shiftr f 1)) (d0, f)).1.

(** ** The structures in memory *)

Definition double_bytes (x : double) : list Z := le_bytes 8 (bits_of_double x).
Definition int_bytes (z : Z) : list Z := le_bytes 4 z.

(** The 120 bytes of a [tc_rbfgrad_qopt], padding zeroed. *)
Definition qopt_bytes (o : tc_rbfgrad_qopt) : list Z :=
  int_bytes (o_q_ref o) ++ replicate 4 0 ++ double_bytes (o_p_init o) ++ double_bytes (o_p_min o) ++
  double_bytes (o_p_max o) ++ double_bytes (o_kp_k o) ++ double_bytes (o_ki_k o) ++ double_bytes (o_kd_k o) ++
  double_bytes (o_eta_p o) ++ double_bytes (o_eta_i o) ++ double_bytes (o_eta_d o) ++
  int_bytes (o_n o) ++ int_bytes (o_m o) ++ double_bytes (o_alpha o) ++ double_bytes (o_eta o) ++
  int_bytes (o_sampl_period o) ++ (u8 (o_Scell_log o) :: replicate 3 0) ++ int_bytes (o_limit o) ++
  int_bytes (o_flags o).

Definition QOPT_SIZE : Z := 120.

Definition field_int (b : list Z) (off : Z) : Z := s32 (of_le_bytes (load_bytes b off 4)).
Definition field_double (b : list Z) (off : Z) : double := double_of_bits (of_le_bytes (load_bytes b off 8)).
Definition field_byte (b : list Z) (off : Z) : Z := of_le_bytes (load_bytes b off 1).

Definition qopt_of_bytes (b : list Z) : tc_rbfgrad_qopt :=
  mk_qopt (field_int b 0) (field_double b 8) (field_double b 16) (field_double b 24) (field_double b 32)
    (field_double b 40) (field_double b 48) (field_double b 56) (field_double b 64) (field_double b 72)
    (field_int b 80) (field_int b 84) (field_double b 88) (field_double b 96) (field_int b 104)
    (field_byte b 108) (field32 b 112) (field32 b 116).

Definition zero_qopt : tc_rbfgrad_qopt := mk_qopt 0 d0 d0 d0 d0 d0 d0 d0 d0 d0 0 0 d0 d0 0 0 0 0.

(** ** The command line *)

(** How the argument of a keyword is stored; [None] for the message Illegal. *)
Definition setter : Type := string -> tc_rbfgrad_qopt -> option tc_rbfgrad_qopt.

Definition set_int (f : Z -> tc_rbfgrad_qopt -> tc_rbfgrad_qopt) : setter :=
  fun arg o => match sscanf_d arg with Some v => Some (f v o) | None => None end.

Definition set_double (f : double -> tc_rbfgrad_qopt -> tc_rbfgrad_qopt) : setter :=
  fun arg o => match sscanf_lf arg with Some v => Some (f v o) | None => None end.

(** The keywords that take an argument.  [iproute2-3.1.0/tc/q_rbfgrad.c:89-184 rbfgrad_parse_opt] *)
Definition keyword (word : string) : option setter :=
  if String.eqb word "limit" then
    Some (fun arg o => match get_size arg with Some v => Some (o <| o_limit := v |>) | None => None end)
  else if String.eqb word "q_ref" then Some (set_int (fun v o => o <| o_q_ref := v |>))
  else if String.eqb word "_n" then Some (set_int (fun v o => o <| o_n := v |>))
  else if String.eqb word "m" then Some (set_int (fun v o => o <| o_m := v |>))
  else if String.eqb word "p_init" then Some (set_double (fun v o => o <| o_p_init := v |>))
  else if String.eqb word "p_min" then Some (set_double (fun v o => o <| o_p_min := v |>))
  else if String.eqb word "p_max" then Some (set_double (fun v o => o <| o_p_max := v |>))
  else if String.eqb word "eta_p" then Some (set_double (fun v o => o <| o_eta_p := v |>))
  else if String.eqb word "eta_i" then Some (set_double (fun v o => o <| o_eta_i := v |>))
  else if String.eqb word "eta_d" then Some (set_double (fun v o => o <| o_eta_d := v |>))
  else if String.eqb word "alpha" then Some (set_double (fun v o => o <| o_alpha := v |>))
  else if String.eqb word "eta" then Some (set_double (fun v o => o <| o_eta := v |>))
  else if String.eqb word "kp_k" then Some (set_double (fun v o => o <| o_kp_k := v |>))
  else if String.eqb word "ki_k" then Some (set_double (fun v o => o <| o_ki_k := v |>))
  else if String.eqb word "kd_k" then Some (set_double (fun v o => o <| o_kd_k := v |>))
  else if String.eqb word "sampl_period" then Some (set_int (fun v o => o <| o_sampl_period := v |>))
  else None.

(** How the reading of the arguments ends: with the options and [ecn_ok], with the
    message Illegal, with the usage (for an unknown word or [help]), or with the
    program's exit for a missing argument. *)
Inductive args_result :=
  | Parsed (opt : tc_rbfgrad_qopt) (ecn_ok : bool)
  | Illegal (word : string)
  | Unknown (word : string)
  | Help
  | Incomplete.

(** [iproute2-3.1.0/tc/q_rbfgrad.c:88-196 rbfgrad_parse_opt] *)
Fixpoint parse_args (argv : list string) (opt : tc_rbfgrad_qopt) (ecn_ok : bool) : args_result :=
  match argv with
  | [] => Parsed opt ecn_ok
  | word :: argv =>
      match keyword word with
      | Some set =>
          match argv with
          | [] => Incomplete
          | arg :: argv =>
              match set arg opt with
              | Some opt => parse_args argv opt ecn_ok
              | None => Illegal word
              end
          end
      | None =>
          if String.eqb word "ecn" then parse_args argv opt true
          else if String.eqb word "help" then Help
          else Unknown word
      end
  end.

(** What [rbfgrad_parse_opt] does: return a value with the message and the number
    of the warnings printed, or end the program with a status. *)
Inductive parse_outcome :=
  | Return (r : Z) (n : nlmsghdr) (warnings : list nat)
  | Exit (status : Z).

Definition TCA_OPTIONS : Z := 2.
Definition TCA_PARMS : Z := 1.
Definition TCA_STAB : Z := 2.

Definition p_max_default : double := dec 2 (-2).

(** The four range warnings, numbered; they test the locals [p_init], [p_min] and
    [p_max], not the options.  [iproute2-3.1.0/tc/q_rbfgrad.c:209-216 rbfgrad_parse_opt] *)
Definition range_warnings (p_init p_min p_max : double) : list nat :=
  (if dlt p_init d0 || dgt p_init d1 then [0%nat] else []) ++
  (if dlt p_max d0 || dgt p_max d1 then [1%nat] else []) ++
  (if dlt p_min d0 || dgt p_min d1 then [2%nat] else []) ++
  (if dgt p_min p_max then [3%nat] else []).

(** [iproute2-3.1.0/tc/q_rbfgrad.c:63-233 rbfgrad_parse_opt] *)
Definition rbfgrad_parse_opt (p_init p_min : double) (sbuf : list Z) (argv : list string) (n : nlmsghdr) :
    parse_outcome :=
  match parse_args argv zero_qopt false with
  | Incomplete => Exit 255
  | Illegal _ | Unknown _ | Help => Return (- 1) n []
  | Parsed opt ecn_ok =>
      if o_q_ref opt <=? 0 then Return (- 1) n []
      else
        let warnings := range_warnings p_init p_min p_max_default in
        let opt := if ecn_ok then opt <| o_flags := Z.lor (o_flags opt) TC_RBFGRAD_ECN |> else opt in
        let tail := NLMSG_TAIL n in
        let n := (addattr_l n 1024 TCA_OPTIONS []).2 in
        let n := (addattr_l n 1024 TCA_PARMS (qopt_bytes opt)).2 in
        let n := (addattr_l n 1024 TCA_STAB sbuf).2 in
        let n := mk_nlmsg (nlmsg_len n) (set_rta_len tail (NLMSG_TAIL n - tail) (mem n)) in
        Return 0 n warnings
  end.

(** ** Printing *)

(** The details line.  [iproute2-3.1.0/tc/q_rbfgrad.c:260-263 rbfgrad_print_opt] *)
Definition details (o : tc_rbfgrad_qopt) : string :=
  "q_ref " +:+ print_d (o_q_ref o) +:+ " p_init " +:+ fmt_lf (o_p_init o) +:+ " p_min " +:+ fmt_lf (o_p_min o) +:+
  " p_max " +:+ fmt_lf (o_p_max o) +:+ " kp_k " +:+ fmt_lf (o_kp_k o) +:+ " ki_k " +:+ fmt_lf (o_ki_k o) +:+
  " kp_d " +:+ fmt_lf (o_kd_k o) +:+ " eta_p " +:+ fmt_lf (o_eta_p o) +:+ " eta_i " +:+ fmt_lf (o_eta_i o) +:+
  " eta_d " +:+ fmt_lf (o_eta_d o) +:+ " _n " +:+ print_d (o_n o) +:+ " m " +:+ print_d (o_m o) +:+
  " alpha " +:+ fmt_lf (o_alpha o) +:+ " eta " +:+ fmt_lf (o_eta o) +:+ " sampl_period " +:+
  print_d (o_sampl_period o).

Definition opt_text (show_details : bool) (o : tc_rbfgrad_qopt) : string :=
  "limit " +:+ sprint_size (o_limit o) +:+ (if Z.testbit (o_flags o) 0 then "ecn " else "") +:+
  (if show_details then details o else "").

(** [opt] is the offset of the options attribute; the return value and the text.
    [iproute2-3.1.0/tc/q_rbfgrad.c:235-265 rbfgrad_print_opt] *)
Definition rbfgrad_print_opt (show_details : bool) (m : list Z) (opt : option Z) : Z * string :=
  match opt with
  | None => (0, "")
  | Some opt =>
      let tb := (parse_rtattr_nested m TCA_STAB opt).1 in
      match tb !!! Z.to_nat TCA_PARMS with
      | None => (- 1, "")
      | Some a =>
          if RTA_PAYLOAD m a <? QOPT_SIZE then (- 1, "")
          else (0, opt_text show_details (qopt_of_bytes (load_bytes m (RTA_DATA a) QOPT_SIZE)))
      end
  end.

(** [iproute2-3.1.0/tc/q_rbfgrad.c:267-285 rbfgrad_print_xstats] *)
Definition rbfgrad_print_xstats (m : list Z) (xstats : option Z) : Z * string :=
  match xstats with
  | None => (0, "")
  | Some a =>
      if RTA_PAYLOAD m a <? 16 then (- 1, "")
      else
        let b := load_bytes m (RTA_DATA a) 16 in
        let st := mk_xstats (field32 b 0) (field32 b 4) (field32 b 8) (field32 b 12) in
        (0, "  marked " +:+ print_u (xs_marked st) +:+ " early " +:+ print_u (xs_early st) +:+
            " pdrop " +:+ print_u (xs_pdrop st) +:+ " other " +:+ print_u (xs_other st))
  end.

(** The operations registered under the id [rbfgrad].
    [iproute2-3.1.0/tc/q_rbfgrad.c:288-293 rbfgrad_qdisc_util] *)
Record qdisc_util := mk_util {
  id : string;
  parse_qopt : double -> double -> list Z -> list string -> nlmsghdr -> parse_outcome;
  print_qopt : bool -> list Z -> option Z -> Z * string;
  print_xstats : list Z -> option Z -> Z * string
}.

Definition rbfgrad_qdisc_util : qdisc_util :=
  mk_util "rbfgrad" rbfgrad_parse_opt rbfgrad_print_opt rbfgrad_print_xstats.

(** ** What the parsers give is representable *)

Record qopt_wf (o : tc_rbfgrad_qopt) : Prop := {
  qw_ints : Forall int_range [o_q_ref o; o_n o; o_m o; o_sampl_period o];
  qw_doubles : Forall valid [o_p_init o; o_p_min o; o_p_max o; o_kp_k o; o_ki_k o; o_kd_k o; o_eta_p o;
                             o_eta_i o; o_eta_d o; o_alpha o; o_eta o];
  qw_cell : 0 <= o_Scell_log o < 2 ^ 8;
  qw_limit : 0 <= o_limit o < 2 ^ 32;
  qw_flags : 0 <= o_flags o < 2 ^ 32
}.

Lemma scan_float_valid s x r ok : scan_float s = Some (x, r, ok) -> valid x.
Proof.
  unfold scan_float. intros E.
  destruct (has_prefix "infinity" s); [by injection E as <- _ _|].
  destruct (has_prefix "inf" s); [by injection E as <- _ _|].
  destruct (has_prefix "nan" s); [by injection E as <- _ _|].
  destruct (has_prefix "0x" s && _).
  - destruct (scan_fraction 16 _) as [[[m f] any] r']. destruct (scan_exponent "p" r') as [[e r''] ok'].
    injection E as <- _ _. unfold scale2. destruct (0 <=? _); apply binary_normalize_valid.
  - destruct (scan_fraction 10 s) as [[[m f] any] r']. destruct any; [|done].
    destruct (scan_exponent "e" r') as [[e r''] ok']. injection E as <- _ _. apply dec_valid.
Qed.

Lemma sscanf_lf_valid s x : sscanf_lf s = Some x -> valid x.
Proof.
  unfold sscanf_lf, scan_double. destruct (scan_sign _) as [neg s'].
  destruct (scan_float s') as [[[y r] []]|] eqn:E; intros H; try done.
  injection H as <-. apply scan_float_valid in E. destruct neg; [by apply dneg_valid|done].
Qed.

Lemma sscanf_d_range s z : sscanf_d s = Some z -> int_range z.
Proof.
  unfold sscanf_d. destruct (strtol s 10) as [[v r]|]; [|done]. intros E. injection E as <-. apply s32_range.
Qed.

Lemma get_size_range s z : get_size s = Some z -> 0 <= z < 2 ^ 32.
Proof.
  unfold get_size. destruct (strtod s) as [[x p]|]; [|done].
  repeat (match goal with |- context [if ?b then _ else _] => destruct b end);
    intros E; try done; injection E as <-; apply u32_range.
Qed.

(** Each element of a list is known to have the property. *)
#[local] Ltac all_known := repeat (apply Forall_cons; split; [assumption|]); by apply Forall_nil.

Lemma keyword_wf word set arg o o' :
  keyword word = Some set -> set arg o = Some o' -> qopt_wf o -> qopt_wf o'.
Proof.
  unfold keyword. intros Hk Hs [Wi Wd Wc Wl Wf]. rewrite !Forall_cons in Wi. rewrite !Forall_cons in Wd.
  destruct Wi as (I1 & I2 & I3 & I4 & _), Wd as (D1 & D2 & D3 & D4 & D5 & D6 & D7 & D8 & D9 & D10 & D11 & _).
  repeat (match goal with H : context [String.eqb word ?w] |- _ => destruct (String.eqb word w) end;
    [injection Hk as <-; unfold set_int, set_double in Hs; cbv beta in Hs;
     match type of Hs with match ?e with _ => _ end = _ => destruct e as [v|] eqn:E; [|done] end;
     injection Hs as <-;
     first [apply get_size_range in E | apply sscanf_d_range in E | apply sscanf_lf_valid in E];
     (constructor; [all_known|all_known|assumption|assumption|assumption])|]).
  done.
Qed.

Lemma parse_args_wf argv : forall o ecn o' ecn',
  parse_args argv o ecn = Parsed o' ecn' -> qopt_wf o -> qopt_wf o'.
Proof.
  assert (forall n argv, (List.length argv <= n)%nat -> forall o ecn o' ecn',
    parse_args argv o ecn = Parsed o' ecn' -> qopt_wf o -> qopt_wf o') as H.
  { induction n as [|n IH]; intros [|w l] Hl o ecn o' ecn' E W; cbn [List.length] in Hl; try lia;
      cbn [parse_args] in E; try (by injection E as <- <-).
    destruct (keyword w) as [set|] eqn:Ek.
    - destruct l as [|arg l]; [done|]. destruct (set arg o) as [o1|] eqn:Es; [|done].
      cbn [List.length] in Hl. eapply IH; [|exact E|eapply keyword_wf; eauto]. lia.
    - destruct (String.eqb w "ecn"); [eapply IH; [|exact E|done]; lia|].
      by destruct (String.eqb w "help"). }
  intros o ecn o' ecn'. by apply (H (List.length argv)).
Qed.

Lemma zero_qopt_wf : qopt_wf zero_qopt.
Proof. constructor; try (repeat (apply Forall_cons; split; [done|]); by apply Forall_nil); done. Qed.

(** ** The structure survives the message *)

Lemma int_field b off z : int_range z -> load_bytes b off 4 = int_bytes z -> field_int b off = z.
Proof.
  intros Hz E. unfold field_int. rewrite E. unfold int_bytes. rewrite of_le_bytes_le.
  change (2 ^ (8 * Z.of_nat 4)) with (2 ^ 32). unfold int_range in Hz. machine_int.
Qed.

Lemma double_field b off x : valid x -> load_bytes b off 8 = double_bytes x -> field_double b off = x.
Proof.
  intros V E. unfold field_double. rewrite E. unfold double_bytes. rewrite of_le_bytes_le.
  change (2 ^ (8 * Z.of_nat 8)) with (2 ^ 64).
  rewrite Z.mod_small by (by apply bits_of_double_range). by apply double_of_bits_of_double.
Qed.

Lemma word_field b off z : 0 <= z < 2 ^ 32 -> load_bytes b off 4 = int_bytes z -> field32 b off = z.
Proof.
  intros Hz E. unfold field32. rewrite E. unfold int_bytes. rewrite of_le_bytes_le. by apply Z.mod_small.
Qed.

Lemma qopt_bytes_length o : List.length (qopt_bytes o) = 120%nat.
Proof. reflexivity. Qed.

(** The kernel reads the very structure the program built. *)
Lemma qopt_of_bytes_ok o : qopt_wf o -> qopt_of_bytes (qopt_bytes o) = o.
Proof.
  intros [Wi Wd Wc Wl Wf]. rewrite !Forall_cons in Wi. rewrite !Forall_cons in Wd.
  destruct Wi as (I1 & I2 & I3 & I4 & _), Wd as (D1 & D2 & D3 & D4 & D5 & D6 & D7 & D8 & D9 & D10 & D11 & _).
  unfold qopt_of_bytes.
  rewrite (int_field _ 0 _ I1), (int_field _ 80 _ I2), (int_field _ 84 _ I3), (int_field _ 104 _ I4) by reflexivity.
  rewrite (double_field _ 8 _ D1), (double_field _ 16 _ D2), (double_field _ 24 _ D3), (double_field _ 32 _ D4),
    (double_field _ 40 _ D5), (double_field _ 48 _ D6), (double_field _ 56 _ D7), (double_field _ 64 _ D8),
    (double_field _ 72 _ D9), (double_field _ 88 _ D10), (double_field _ 96 _ D11) by reflexivity.
  rewrite (word_field _ 112 _ Wl), (word_field _ 116 _ Wf) by reflexivity.
  assert (field_byte (qopt_bytes o) 108 = o_Scell_log o) as ->.
  { change (field_byte (qopt_bytes o) 108) with (u8 (o_Scell_log o) + 2 ^ 8 * 0). unfold u8.
    rewrite Z.mod_small by done. lia. }
  reflexivity.
Qed.

(** The options as they are sent. *)
Definition sent_options (opt : tc_rbfgrad_qopt) (ecn_ok : bool) : tc_rbfgrad_qopt :=
  if ecn_ok then opt <| o_flags := Z.lor (o_flags opt) TC_RBFGRAD_ECN |> else opt.

Lemma lor_1_range z : 0 <= z < 2 ^ 32 -> 0 <= Z.lor z 1 < 2 ^ 32.
Proof.
  intros Hz. split; [apply Z.lor_nonneg; lia|].
  destruct (decide (Z.lor z 1 = 0)) as [->|Hne]; [lia|].
  assert (0 < Z.lor z 1) by (assert (0 <= Z.lor z 1) by (apply Z.lor_nonneg; lia); lia).
  apply Z.log2_lt_pow2; [lia|]. rewrite Z.log2_lor by lia. apply Z.max_lub_lt; [|done].
  destruct (decide (z = 0)) as [->|]; [done|]. apply Z.log2_lt_pow2; lia.
Qed.

Lemma sent_options_wf opt ecn : qopt_wf opt -> qopt_wf (sent_options opt ecn).
Proof.
  intros [Wi Wd Wc Wl Wf]. destruct ecn; [|by constructor].
  constructor; [exact Wi|exact Wd|exact Wc|exact Wl|]. change (0 <= Z.lor (o_flags opt) TC_RBFGRAD_ECN < 2 ^ 32).
  by apply lor_1_range.
Qed.

(** The two attributes inside the options. *)
Definition option_attrs (sent : tc_rbfgrad_qopt) (sbuf : list Z) : list (Z * list Z) :=
  [(TCA_PARMS, qopt_bytes sent); (TCA_STAB, sbuf)].

(** An options attribute at an offset of a memory. *)
Definition options_at (m : list Z) (off : Z) (sent : tc_rbfgrad_qopt) (sbuf : list Z) : Prop :=
  rta_len m off = 388 /\ rta_type m off = TCA_OPTIONS /\ attrs_at m (off + 4) (option_attrs sent sbuf).

Lemma option_attrs_span sent sbuf : List.length sbuf = 256%nat -> span (option_attrs sent sbuf) = 384.
Proof. intros Hs. cbn [span option_attrs]. unfold attr_span. rewrite qopt_bytes_length, Hs. reflexivity. Qed.

(** The end of a [parse_opt]: a nest of the parameters and of a table of 256 bytes. *)
Definition put_options (parms sbuf : list Z) (n : nlmsghdr) : nlmsghdr :=
  let tail := NLMSG_TAIL n in
  let n := (addattr_l n 1024 TCA_OPTIONS []).2 in
  let n := (addattr_l n 1024 TCA_PARMS parms).2 in
  let n := (addattr_l n 1024 TCA_STAB sbuf).2 in
  mk_nlmsg (nlmsg_len n) (set_rta_len tail (NLMSG_TAIL n - tail) (mem n)).

(** A nest of parameters and table at an offset of a memory. *)
Definition nest_at (m : list Z) (off : Z) (parms sbuf : list Z) : Prop :=
  rta_len m off = 4 + span [(TCA_PARMS, parms); (TCA_STAB, sbuf)] /\ rta_type m off = TCA_OPTIONS /\
  attrs_at m (off + 4) [(TCA_PARMS, parms); (TCA_STAB, sbuf)].

(** What is appended, and that nothing below changes. *)
Lemma put_options_ok parms sbuf n :
  room_for n 1024 (4 + span [(TCA_PARMS, parms); (TCA_STAB, sbuf)]) ->
  let n' := put_options parms sbuf n in
  nest_at (mem n') (NLMSG_TAIL n) parms sbuf /\
  nlmsg_len n' = NLMSG_TAIL n + 4 + span [(TCA_PARMS, parms); (TCA_STAB, sbuf)] /\
  List.length (mem n') = List.length (mem n) /\ same_below (NLMSG_TAIL n) (mem n) (mem n').
Proof.
  set (l := [(TCA_PARMS, parms); (TCA_STAB, sbuf)]). intros Hroom n'.
  pose proof (nested_ok n 1024 TCA_OPTIONS 2 l Hroom ltac:(vm_compute; split; congruence)) as H.
  assert (types_ok l) as Hty by (repeat constructor; vm_compute; congruence).
  specialize (H Hty).
  set (n3 := add_all 1024 l (addattr_l n 1024 TCA_OPTIONS []).2) in *.
  set (tail := NLMSG_TAIL n) in *.
  change (addattr_nest n 1024 TCA_OPTIONS) with (tail, (addattr_l n 1024 TCA_OPTIONS []).2) in H.
  change (addattr_nest_end (add_all 1024 l (addattr_l n 1024 TCA_OPTIONS []).2) tail) with (nlmsg_len n3, n') in H.
  destruct H as (_ & H2 & H3 & H4 & _ & H5 & H6 & H7). split; [|split; [|by split]].
  - by split.
  - by apply H7.
Qed.

(** How such a nest is read. *)
Lemma nest_read m off parms sbuf :
  nest_at m off parms sbuf ->
  parse_rtattr_nested m 2 off = ([None; Some (off + 4); Some (off + 4 + attr_span parms)], 0) /\
  RTA_PAYLOAD m (off + 4) = Z.of_nat (List.length parms) /\
  load_bytes m (RTA_DATA (off + 4)) (Z.of_nat (List.length parms)) = parms /\
  load_bytes m (RTA_DATA (off + 4 + attr_span parms)) (RTA_PAYLOAD m (off + 4 + attr_span parms)) = sbuf.
Proof.
  intros (Hlen & _ & Hat). split.
  - set (l := [(TCA_PARMS, parms); (TCA_STAB, sbuf)]) in *.
    unfold parse_rtattr_nested, parse_rtattr, RTA_DATA, RTA_PAYLOAD, RTA_LENGTH.
    change (RTA_ALIGN 4 + 0) with 4. rewrite Hlen. replace (4 + span l - 4) with (span l) by lia.
    rewrite rtattr_loop_ok; [done|exact Hat|]. pose proof (span_count l). lia.
  - destruct Hat as ((A1 & _ & A3) & (B1 & _ & B3) & _). unfold RTA_PAYLOAD. rewrite A1, B1.
    change (RTA_LENGTH 0) with 4. split; [lia|].
    replace (4 + Z.of_nat (List.length sbuf) - 4) with (Z.of_nat (List.length sbuf)) by lia. by split.
Qed.

Lemma options_nest m off sent sbuf :
  List.length sbuf = 256%nat -> options_at m off sent sbuf <-> nest_at m off (qopt_bytes sent) sbuf.
Proof.
  intros Hs. unfold options_at, nest_at. fold (option_attrs sent sbuf). by rewrite option_attrs_span.
Qed.

(** What [rbfgrad_parse_opt] appends. *)
Lemma parse_opt_appends p_init p_min sbuf argv n opt ecn_ok :
  parse_args argv zero_qopt false = Parsed opt ecn_ok -> 0 < o_q_ref opt ->
  List.length sbuf = 256%nat -> room_for n 1024 388 ->
  exists n', rbfgrad_parse_opt p_init p_min sbuf argv n =
      Return 0 n' (range_warnings p_init p_min p_max_default) /\
    options_at (mem n') (NLMSG_TAIL n) (sent_options opt ecn_ok) sbuf /\
    nlmsg_len n' = NLMSG_TAIL n + 388 /\ List.length (mem n') = List.length (mem n) /\
    same_below (NLMSG_TAIL n) (mem n) (mem n').
Proof.
  intros Hp Hq Hs Hroom. set (sent := sent_options opt ecn_ok).
  unfold rbfgrad_parse_opt. rewrite Hp. rewrite (proj2 (Z.leb_gt _ 0)) by lia.
  pose proof (option_attrs_span sent sbuf Hs) as Espan. unfold option_attrs in Espan.
  destruct (put_options_ok (qopt_bytes sent) sbuf n) as (H1 & H2 & H3 & H4); [by rewrite Espan|].
  exists (put_options (qopt_bytes sent) sbuf n). split; [reflexivity|].
  split; [by apply options_nest|]. split; [rewrite H2, Espan; lia|]. by split.
Qed.

(** How an options attribute is read, by the kernel and by [rbfgrad_print_opt]. *)
Lemma options_decode m off sent sbuf show_details :
  options_at m off sent sbuf -> qopt_wf sent -> List.length sbuf = 256%nat ->
  (let '(tb, deficit) := parse_rtattr_nested m 2 off in
   deficit = 0 /\ rta_type m off = TCA_OPTIONS /\
   exists a b, tb = [None; Some a; Some b] /\
     RTA_PAYLOAD m a = QOPT_SIZE /\
     qopt_of_bytes (load_bytes m (RTA_DATA a) QOPT_SIZE) = sent /\
     load_bytes m (RTA_DATA b) (RTA_PAYLOAD m b) = sbuf) /\
  rbfgrad_print_opt show_details m (Some off) = (0, opt_text show_details sent).
Proof.
  intros Hat W Hs. pose proof (proj1 (options_nest _ _ _ _ Hs) Hat) as Hn.
  destruct (nest_read _ _ _ _ Hn) as (H1 & Epay & Hd & Hb). change (Z.of_nat (List.length (qopt_bytes sent))) with QOPT_SIZE in *.
  assert (qopt_of_bytes (load_bytes m (RTA_DATA (off + 4)) QOPT_SIZE) = sent) as Edec
    by (rewrite Hd; by apply qopt_of_bytes_ok).
  split.
  - rewrite H1. split; [done|]. split; [apply Hat|]. eexists _, _. split; [done|]. by split.
  - unfold rbfgrad_print_opt. change TCA_STAB with 2. rewrite H1. cbn [fst].
    change ([None; Some (off + 4); Some (off + 4 + attr_span (qopt_bytes sent))] !!! Z.to_nat TCA_PARMS)
      with (Some (off + 4)). cbv iota. rewrite Epay. change (QOPT_SIZE <? QOPT_SIZE) with false. cbv iota.
    by rewrite Edec.
Qed.

(** C17: Whatever options the command line sets, the request that
    [rbfgrad_parse_opt] appends holds exactly them: the kernel's view of the nested
    attributes is the parameter structure, which decodes to the options as typed
    (with the ECN flag added by [ecn]), and a 256-byte table, which is the
    function's uninitialised buffer; [rbfgrad_print_opt] prints those options back.
    The number and text of the warnings change nothing. *)
Theorem request_roundtrip (p_init p_min : double) (sbuf : list Z) (argv : list string) (n : nlmsghdr)
    (opt : tc_rbfgrad_qopt) (ecn_ok show_details : bool) :
  parse_args argv zero_qopt false = Parsed opt ecn_ok -> 0 < o_q_ref opt ->
  List.length sbuf = 256%nat -> room_for n 1024 388 ->
  let sent := sent_options opt ecn_ok in
  exists n', rbfgrad_parse_opt p_init p_min sbuf argv n =
      Return 0 n' (range_warnings p_init p_min p_max_default) /\
    (let '(tb, deficit) := parse_rtattr_nested (mem n') 2 (NLMSG_TAIL n) in
     deficit = 0 /\ rta_type (mem n') (NLMSG_TAIL n) = TCA_OPTIONS /\
     exists a b, tb = [None; Some a; Some b] /\
       RTA_PAYLOAD (mem n') a = QOPT_SIZE /\
       qopt_of_bytes (load_bytes (mem n') (RTA_DATA a) QOPT_SIZE) = sent /\
       load_bytes (mem n') (RTA_DATA b) (RTA_PAYLOAD (mem n') b) = sbuf) /\
    rbfgrad_print_opt show_details (mem n') (Some (NLMSG_TAIL n)) = (0, opt_text show_details sent).
Proof.
  intros Hp Hq Hs Hroom sent.
  destruct (parse_opt_appends p_init p_min sbuf argv n opt ecn_ok Hp Hq Hs Hroom) as (n' & E & Hat & _).
  exists n'. split; [exact E|]. apply (options_decode _ _ _ _ show_details Hat); [|done].
  apply sent_options_wf. eapply parse_args_wf; [exact Hp|]. apply zero_qopt_wf.
Qed.

(** The command line of the demonstration script. *)
Definition demo_argv : list string :=
  ["limit"; "500kb"; "q_ref"; "300"; "p_max"; "0.5"; "_n"; "3"; "m"; "10"; "sampl_period"; "20"; "ecn"].

Definition demo_options : tc_rbfgrad_qopt :=
  mk_qopt 300 d0 d0 (d1 / d2)%D d0 d0 d0 d0 d0 d0 3 10 d0 d0 20 0 512000 0.

Lemma request_roundtrip_witness :
  exists n', rbfgrad_parse_opt d0 d0 (replicate 256 7) demo_argv (mk_nlmsg 36 (replicate 1024 0)) =
      Return 0 n' [] /\
    (let '(tb, deficit) := parse_rtattr_nested (mem n') 2 36 in
     deficit = 0 /\ rta_type (mem n') 36 = TCA_OPTIONS /\
     exists a b, tb = [None; Some a; Some b] /\
       RTA_PAYLOAD (mem n') a = QOPT_SIZE /\
       qopt_of_bytes (load_bytes (mem n') (RTA_DATA a) QOPT_SIZE) = sent_options demo_options true /\
       load_bytes (mem n') (RTA_DATA b) (RTA_PAYLOAD (mem n') b) = replicate 256 7) /\
    rbfgrad_print_opt true (mem n') (Some 36) = (0, opt_text true (sent_options demo_options true)).
Proof.
  apply (request_roundtrip d0 d0 (replicate 256 7) demo_argv (mk_nlmsg 36 (replicate 1024 0)) demo_options true true).
  - vm_compute. reflexivity.
  - reflexivity.
  - reflexivity.
  - constructor; vm_compute; congruence.
Defined.

(** ** Options that are not named *)

Definition same_unless (word w : string) {T} (field : tc_rbfgrad_qopt -> T) (o o' : tc_rbfgrad_qopt) : Prop :=
  word = w \/ field o' = field o.

Lemma keyword_frame word set arg o o' :
  keyword word = Some set -> set arg o = Some o' ->
  same_unless word "limit" o_limit o o' /\ same_unless word "q_ref" o_q_ref o o' /\
  same_unless word "_n" o_n o o' /\ same_unless word "m" o_m o o' /\
  same_unless word "p_max" o_p_max o o' /\ same_unless word "sampl_period" o_sampl_period o o' /\
  o_flags o' = o_flags o.
Proof.
  unfold keyword, same_unless. intros Hk Hs.
  repeat (match goal with H : context [String.eqb word ?w] |- _ => destruct (String.eqb_spec word w) as [->|] end;
    [injection Hk as <-; unfold set_int, set_double in Hs; cbv beta in Hs;
     match type of Hs with match ?e with _ => _ end = _ => destruct e as [v|]; [|done] end;
     injection Hs as <-; repeat split; first [by left | by right | done]|]).
  done.
Qed.

Section Unnamed.
Context {T : Type} (w : string) (field : tc_rbfgrad_qopt -> T).
Hypothesis frame : forall word set arg o o',
  keyword word = Some set -> set arg o = Some o' -> same_unless word w field o o'.

Lemma parse_args_frame argv o ecn o' ecn' :
  ~ In w argv -> parse_args argv o ecn = Parsed o' ecn' -> field o' = field o.
Proof.
  assert (forall n argv, (List.length argv <= n)%nat -> forall o ecn,
    ~ In w argv -> parse_args argv o ecn = Parsed o' ecn' -> field o' = field o) as H.
  { induction n as [|n IH]; intros [|x l] Hl o1 ecn1 Hn E; cbn [List.length] in Hl; try lia;
      cbn [parse_args] in E; try (by injection E as <- <-).
    destruct (keyword x) as [set|] eqn:Ek.
    - destruct l as [|arg l]; [done|]. destruct (set arg o1) as [o2|] eqn:Es; [|done].
      cbn [List.length] in Hl. rewrite (IH l ltac:(lia) o2 ecn1); [|by intros Hi; apply Hn; right; right|done].
      destruct (frame x set arg o1 o2 Ek Es) as [->|]; [|done]. exfalso. apply Hn. by left.
    - destruct (String.eqb x "ecn"); [eapply (IH l); [lia|by intros Hi; apply Hn; right|exact E]|].
      by destruct (String.eqb x "help"). }
  by apply (H (List.length argv)).
Qed.
End Unnamed.

(** An option the command line does not name is sent as zero: the defaults the
    function assigns to its locals ([sampl_period = 1], [_n = 1], [m = 3],
    [p_max = 0.02]) never reach the request; and the reference length has no
    default at all, so a command line without it is refused. *)
Theorem unnamed_options_zero (p_init p_min : double) (sbuf : list Z) (argv : list string) (n n' : nlmsghdr)
    (r : Z) (warnings : list nat) (opt : tc_rbfgrad_qopt) (ecn_ok : bool) :
  parse_args argv zero_qopt false = Parsed opt ecn_ok ->
  rbfgrad_parse_opt p_init p_min sbuf argv n = Return r n' warnings ->
  (~ In "sampl_period" argv -> o_sampl_period opt = 0) /\ (~ In "p_max" argv -> o_p_max opt = d0) /\
  (~ In "_n" argv -> o_n opt = 0) /\ (~ In "m" argv -> o_m opt = 0) /\ (~ In "limit" argv -> o_limit opt = 0) /\
  (~ In "q_ref" argv -> r = - 1 /\ n' = n).
Proof.
  intros Hp Hr.
  assert (forall T w (field : tc_rbfgrad_qopt -> T),
    (forall word set arg o o', keyword word = Some set -> set arg o = Some o' -> same_unless word w field o o') ->
    ~ In w argv -> field opt = field zero_qopt) as H.
  { intros T w field Hf Hn. by apply (parse_args_frame w field Hf argv _ false _ ecn_ok). }
  split; [|split; [|split; [|split; [|split]]]]; intros Hn.
  6:{ assert (o_q_ref opt = 0) as E.
      { apply (H Z "q_ref" o_q_ref); [|done]. intros * H1 H2. by destruct (keyword_frame _ _ _ _ _ H1 H2) as (_ & ? & _). }
      unfold rbfgrad_parse_opt in Hr. rewrite Hp, E in Hr. cbn in Hr. injection Hr as <- <- _. done. }
  all: first [apply (H Z "sampl_period" o_sampl_period) | apply (H double "p_max" o_p_max) | apply (H Z "_n" o_n) |
    apply (H Z "m" o_m) | apply (H Z "limit" o_limit)]; [|done];
    intros * H1 H2; by destruct (keyword_frame _ _ _ _ _ H1 H2) as (? & ? & ? & ? & ? & ? & ?).
Qed.

Lemma unnamed_options_zero_witness :
  exists n', rbfgrad_parse_opt d0 d0 [] ["ecn"; "limit"; "9k"] (mk_nlmsg 36 []) = Return (- 1) n' [] /\
  n' = mk_nlmsg 36 [].
Proof.
  eexists. split; [reflexivity|].
  apply (unnamed_options_zero d0 d0 [] ["ecn"; "limit"; "9k"] (mk_nlmsg 36 []) (mk_nlmsg 36 []) (- 1) []
    (zero_qopt <| o_limit := 9216 |>) true); [vm_compute; reflexivity|vm_compute; reflexivity|].
  vm_compute. intuition congruence.
Defined.

(** The usage text names the option [n]; the code calls it [_n]. *)
Example usage_n_unknown : parse_args ["n"; "3"] zero_qopt false = Unknown "n".
Proof. reflexivity. Qed.

(** A maximal probability of 7 passes without a warning. *)
Example range_check_blind : exists n',
  rbfgrad_parse_opt d0 d0 (replicate 256 0) ["q_ref"; "50"; "p_max"; "7"] (mk_nlmsg 36 (replicate 1024 0)) =
  Return 0 n' [].
Proof. eexists. vm_compute. reflexivity. Qed.

(** The fixed-point conversion gives a non-negative [int] for every double. *)
Lemma double2fixpoint_range d : 0 <= double2fixpoint d < 2 ^ 31.
Proof.
  unfold double2fixpoint.
  match goal with |- context [for_from 1 32 ?b ?s] => set (body := b); set (s0 := s) end.
  change (2 ^ 31) with (2 ^ (Z.of_nat 32 - 1)).
  apply (for_from_ind (fun k (s : double * Z) => 0 <= s.2 < 2 ^ (Z.of_nat k - 1)) 1 32 body s0); [lia|cbn; lia|].
  intros i [x ret] Hi Hr. cbn [snd] in Hr.
  assert (2 ^ (Z.of_nat (S i) - 1) = 2 * 2 ^ (Z.of_nat i - 1)) as E.
  { rewrite <- Z.pow_succ_r by lia. f_equal. lia. }
  assert (2 ^ (Z.of_nat i - 1) <= 2 ^ 30) as Hb by (apply Z.pow_le_mono_r; lia).
  assert (s32 (Z.shiftl ret 1) = ret * 2 ^ 1) as E2.
  { rewrite Z.shiftl_mul_pow2 by lia. rewrite s32_small by lia. done. }
  unfold body. rewrite E, E2. destruct (dge (x * d2) d1); cbn [snd]; [|lia].
  rewrite lor_add by lia. lia.
Qed.

(** It inverts [fixpoint2double] at the binary fractions. *)
Example fixpoint_roundtrip :
  map (fun f => double2fixpoint (fixpoint2double f)) [0; 1; 3; 2 ^ 30; 2 ^ 31 - 1] = [0; 1; 3; 2 ^ 30; 2 ^ 31 - 1].
Proof. vm_compute. reflexivity. Qed.
