(* ===== verification/TcWords.v ===== *)
(** * Reading the options of a discipline

    The loop over the words that the [parse_opt] functions share: a word takes an
    argument, sets a flag, or is refused.  A missing argument ends the program. *)

From S2P Require Export TcStab TcRbfgrad.

#[local] Open Scope list_scope.

Section Words.
Context {St : Type}.

(** What a word does.  An argument or a flag can be refused. *)
Inductive word_action :=
| Take (set : string -> St -> option St)
| Flag (set : St -> option St)
| Stop.

Context (keyword : string -> word_action).

Fixpoint read_words (argv : list string) (st : St) : args_of St :=
  match argv with
  | [] => Args st []
  | word :: argv =>
      match keyword word with
      | Take set =>
          match argv with
          | [] => ArgExit
          | arg :: argv =>
              match set arg st with
              | Some st => read_words argv st
              | None => ArgError
              end
          end
      | Flag set =>
          match set st with
          | Some st => read_words argv st
          | None => ArgError
          end
      | Stop => ArgError
      end
  end.

(** What every word keeps, the loop keeps. *)
Lemma read_words_inv (P : St -> Prop) :
  (forall word set arg st st', keyword word = Take set -> set arg st = Some st' -> P st -> P st') ->
  (forall word set st st', keyword word = Flag set -> set st = Some st' -> P st -> P st') ->
  forall argv st st' rest, read_words argv st = Args st' rest -> P st -> P st' /\ rest = [].
Proof.
  intros Ht Hf.
  assert (forall n argv, (List.length argv <= n)%nat -> forall st st' rest,
    read_words argv st = Args st' rest -> P st -> P st' /\ rest = []) as H.
  { induction n as [|n IH]; intros [|w l] Hl st st' rest E Hp; cbn [List.length] in Hl; try lia; cbn [read_words] in E;
      try (by injection E as <- <-).
    destruct (keyword w) as [set|set|] eqn:Ek; [| |done].
    - destruct l as [|arg l]; [done|]. destruct (set arg st) as [st1|] eqn:Es; [|done]. cbn [List.length] in Hl.
      eapply (IH l); [lia|exact E|eapply Ht; eauto].
    - destruct (set st) as [st1|] eqn:Es; [|done]. eapply (IH l); [lia|exact E|eapply Hf; eauto]. }
  intros argv. by apply (H (List.length argv)).
Qed.
End Words.
Arguments word_action : clear implicits.

(** The loop depends on what the words do only. *)
Section WordsExt.
Context {St : Type} (k k' : string -> word_action St).

Definition same_action (a b : word_action St) : Prop :=
  match a, b with
  | Take f, Take g => forall arg st, f arg st = g arg st
  | Flag f, Flag g => forall st, f st = g st
  | Stop, Stop => True
  | _, _ => False
  end.

Lemma read_words_ext :
  (forall word, same_action (k word) (k' word)) -> forall argv st, read_words k argv st = read_words k' argv st.
Proof.
  intros Hk argv. remember (List.length argv) as n eqn:E.
  assert (List.length argv <= n)%nat as Hn by lia. clear E. revert argv Hn.
  induction n as [|n IH]; intros [|w l] Hl st; cbn [List.length] in Hl; try lia; [done..|].
  cbn [read_words]. specialize (Hk w). destruct (k w) as [f|f|], (k' w) as [g|g|]; cbn [same_action] in Hk; try done.
  - destruct l as [|arg l]; [done|]. rewrite Hk. cbn [List.length] in Hl. destruct (g arg st); [|done]. apply IH. lia.
  - rewrite Hk. destruct (g st); [|done]. apply IH. lia.
Qed.
End WordsExt.
