(* ===== verification/TcBlue.v ===== *)
(** * The tc front end of BLUE (iproute2-3.1.0/tc/q_blue.c)

    The probabilities and the two steps are sent as fixed-point numbers of 31 binary
    places; the conversions of [q_rbfgrad.c] are the same two functions.  The first
    part proves what they compute. *)

From S2P Require Export FloatDyadic TcWords.

#[local] Open Scope list_scope.

(** ** Fixed point *)

(** The weight of the last place. *)
Definition place_ulps : Z := 2 ^ 1043.

Lemma unit_places : unit_ulps = 2 ^ 31 * place_ulps.
Proof. exact (unit_pow 31 ltac:(lia)). Qed.

Lemma place_pos : 0 < place_ulps.
Proof. reflexivity. Qed.

Lemma d1_ge x n : has_value x n -> dge x d1 = (unit_ulps <=? n).
Proof.
  intros (V & F & <-). destruct one_value as (V1 & F1 & E1). rewrite dge_dle.
  apply eq_true_iff_eq. rewrite (dle_ulps d1 x V1 V F1 F), Z.leb_le. by rewrite E1.
Qed.

(** One round of [double2fixpoint]: the value is doubled and its integer part, 0 or 1,
    becomes the next bit. *)
Definition fix_round (s : double * Z) : double * Z :=
  let '(d, ret) := s in
  let ret := s32 (Z.shiftl ret 1) in
  let d := (d * d2)%D in
  if dge d d1 then ((d - d1)%D, Z.lor ret 1) else (d, ret).

Lemma fix_round_value d ret n :
  has_value d n -> 0 <= n < unit_ulps -> 0 <= ret < 2 ^ 30 ->
  has_value (fix_round (d, ret)).1 ((2 * n) mod unit_ulps) /\
  (fix_round (d, ret)).2 = 2 * ret + (2 * n) / unit_ulps.
Proof.
  intros Hd Hn Hr. pose proof unit_pos as Hu. unfold fix_round. cbn [fst snd].
  pose proof (double_value d n Hd ltac:(lia)) as H2. rewrite (d1_ge _ _ H2).
  assert (s32 (Z.shiftl ret 1) = ret * 2 ^ 1) as E.
  { rewrite Z.shiftl_mul_pow2 by lia. apply s32_small. lia. }
  rewrite E. destruct (Z.leb_spec unit_ulps (2 * n)) as [Hge|Hlt]; cbn [fst snd].
  - rewrite <- (Z.mod_unique_pos (2 * n) unit_ulps 1 (2 * n - unit_ulps)) by lia.
    rewrite <- (Z.div_unique_pos (2 * n) unit_ulps 1 (2 * n - unit_ulps)) by lia.
    split; [apply minus_one_value; [done|lia]|]. rewrite lor_add by lia. lia.
  - rewrite Z.mod_small, Z.div_small by lia. split; [done|lia].
Qed.

(** Shifting a value left, its integer part and what remains. *)
Lemma shift_parts n u : 0 < u -> (2 * n) / u = 2 * (n / u) + (2 * (n mod u)) / u /\ (2 * n) mod u = (2 * (n mod u)) mod u.
Proof.
  intros Hu. pose proof (Z.div_mod n u ltac:(lia)) as E.
  assert (2 * n = 2 * (n mod u) + 2 * (n / u) * u) as -> by lia.
  split; [rewrite Z.div_add by lia; lia|by apply Z.mod_add; lia].
Qed.

(** Below 1 the first 31 binary places. *)
Lemma double2fixpoint_floor d n : has_value d n -> 0 <= n < unit_ulps -> double2fixpoint d = n / place_ulps.
Proof.
  intros Hd Hn. pose proof unit_pos as Hu. unfold double2fixpoint.
  assert (let s := for_from 1 32 (fun _ s => fix_round s) (d, 0) in
    has_value s.1 ((2 ^ (Z.of_nat 32 - 1) * n) mod unit_ulps) /\ s.2 = 2 ^ (Z.of_nat 32 - 1) * n / unit_ulps) as [_ H].
  { apply (for_from_ind (fun k s => has_value s.1 ((2 ^ (Z.of_nat k - 1) * n) mod unit_ulps) /\
      s.2 = 2 ^ (Z.of_nat k - 1) * n / unit_ulps)); [lia| |].
    - cbn [fst snd]. change (2 ^ (Z.of_nat 1 - 1)) with 1. rewrite Z.mul_1_l, Z.mod_small, Z.div_small by lia. done.
    - intros i [x ret] Hi [Hx Hr]. cbn [fst snd] in Hx, Hr.
      set (v := 2 ^ (Z.of_nat i - 1) * n) in *.
      assert (2 ^ (Z.of_nat (S i) - 1) * n = 2 * v) as ->.
      { unfold v. replace (Z.of_nat (S i) - 1) with (1 + (Z.of_nat i - 1)) by lia.
        rewrite (Z.pow_add_r 2 1) by lia. lia. }
      pose proof (Z.mod_pos_bound v unit_ulps Hu).
      assert (0 <= ret < 2 ^ 30) as Hb.
      { rewrite Hr. assert (0 <= v < 2 ^ 30 * unit_ulps) as Hv.
        { assert (1 <= 2 ^ (Z.of_nat i - 1) <= 2 ^ 30) as Hp.
          { split; [apply (Z.pow_le_mono_r 2 0); lia|apply Z.pow_le_mono_r; lia]. }
          unfold v. nia. }
        split; [apply Z.div_pos; lia|apply Z.div_lt_upper_bound; lia]. }
      destruct (fix_round_value x ret (v mod unit_ulps) Hx ltac:(lia) Hb) as [H1 H2].
      destruct (shift_parts v unit_ulps Hu) as [S1 S2]. rewrite S2. split; [done|]. by rewrite S1, H2, Hr. }
  change (for_from 1 32 _ (d, 0)) with (for_from 1 32 (fun _ s => fix_round s) (d, 0)). rewrite H.
  change (2 ^ (Z.of_nat 32 - 1)) with (2 ^ 31). rewrite unit_places. apply Z.div_mul_cancel_l; [|done].
  pose proof place_pos. lia.
Qed.

(** One round of [fixpoint2double]: the next bit is added and the result halved. *)
Definition unfix_round (s : double * Z) : double * Z :=
  let '(ret, f) := s in
  let ret := if Z.testbit f 0 then (ret + d1)%D else ret in
  ((ret / d2)%D, Z.shiftr f 1).

Lemma mod_pow_succ f k : 0 <= k -> f mod 2 ^ (k + 1) = f mod 2 ^ k + (if Z.testbit (Z.shiftr f k) 0 then 1 else 0) * 2 ^ k.
Proof.
  intros Hk. assert (0 < 2 ^ k) by (by apply Z.pow_pos_nonneg). rewrite Z.pow_add_r by lia. change (2 ^ 1) with 2.
  rewrite Z.rem_mul_r by lia. rewrite Z.shiftr_div_pow2 by done. rewrite Z.bit0_odd, Zmod_odd.
  destruct (Z.odd (f / 2 ^ k)); lia.
Qed.

Lemma unfix_round_value f k ret :
  0 <= f < 2 ^ 31 -> 0 <= k < 31 -> has_value ret (f mod 2 ^ k * 2 ^ (1074 - k)) ->
  has_value (unfix_round (ret, Z.shiftr f k)).1 (f mod 2 ^ (k + 1) * 2 ^ (1074 - (k + 1))).
Proof.
  intros Hf Hk Hr. unfold unfix_round. cbn [fst].
  assert (0 < 2 ^ k /\ 0 < 2 ^ (1074 - (k + 1)) /\ 2 ^ k <= 2 ^ 30) as (Hp & Hp2 & Hp3)
    by (split_and!; [apply Z.pow_pos_nonneg; lia|apply Z.pow_pos_nonneg; lia|apply Z.pow_le_mono_r; lia]).
  pose proof (Z.mod_pos_bound f (2 ^ k) Hp) as Hm.
  set (v := f mod 2 ^ (k + 1)). assert (0 <= v < 2 ^ (k + 1)) as Hv by (apply Z.mod_pos_bound, Z.pow_pos_nonneg; lia).
  rewrite Z.pow_add_r in Hv by lia. change (2 ^ 1) with 2 in Hv.
  assert (2 ^ (1074 - k) = 2 * 2 ^ (1074 - (k + 1))) as E2.
  { replace (1074 - k) with (1 + (1074 - (k + 1))) by lia. by rewrite (Z.pow_add_r 2 1) by lia. }
  set (ret' := if Z.testbit _ 0 then (ret + d1)%D else ret).
  assert (has_value ret' (2 * (v * 2 ^ (1074 - (k + 1))))) as Hr'.
  { replace (2 * (v * 2 ^ (1074 - (k + 1)))) with (v * 2 ^ (1074 - k)) by lia.
    pose proof (mod_pow_succ f k ltac:(lia)) as Hs. fold v in Hs. unfold ret'.
    destruct (Z.testbit (Z.shiftr f k) 0).
    - assert (v * 2 ^ (1074 - k) = f mod 2 ^ k * 2 ^ (1074 - k) + unit_ulps) as ->
        by (rewrite Hs, (unit_pow k) by lia; ring).
      apply dadd_value; [done|exact one_value|].
      assert (f mod 2 ^ k * 2 ^ (1074 - k) + unit_ulps = v * 2 ^ (1074 - k)) as ->
        by (rewrite Hs, (unit_pow k) by lia; ring).
      apply representable_pow; lia.
    - replace v with (f mod 2 ^ k) by lia. done. }
  apply halve_value; [done| |].
  - destruct (decide (v = 0)) as [->|]; [by left|right].
    assert (2 ^ 1000 <= 2 ^ (1074 - (k + 1))) by (apply Z.pow_le_mono_r; lia). nia.
  - rewrite (unit_pow (k + 1)) by lia. rewrite Z.pow_add_r by lia. change (2 ^ 1) with 2.
    apply Z.mul_lt_mono_pos_r; [done|lia].
Qed.

(** All 31 places. *)
Lemma fixpoint2double_exact f : 0 <= f < 2 ^ 31 -> has_value (fixpoint2double f) (f * place_ulps).
Proof.
  intros Hf. unfold fixpoint2double.
  change (for_from 1 32 _ (d0, f)) with (for_from 1 32 (fun _ s => unfix_round s) (d0, f)).
  assert (let s := for_from 1 32 (fun _ s => unfix_round s) (d0, f) in
    has_value s.1 (f mod 2 ^ (Z.of_nat 32 - 1) * 2 ^ (1074 - (Z.of_nat 32 - 1))) /\
    s.2 = Z.shiftr f (Z.of_nat 32 - 1)) as [H _].
  { apply (for_from_ind (fun k s => has_value s.1 (f mod 2 ^ (Z.of_nat k - 1) * 2 ^ (1074 - (Z.of_nat k - 1))) /\
      s.2 = Z.shiftr f (Z.of_nat k - 1))); [lia| |].
    - split; [|done]. cbn [fst]. change (2 ^ (Z.of_nat 1 - 1)) with 1. by rewrite Z.mod_1_r.
    - intros i [ret g] Hi [Hr Hg]. cbn [fst snd] in Hr, Hg. subst g.
      replace (Z.of_nat (S i) - 1) with (Z.of_nat i - 1 + 1) by lia.
      split; [apply unfix_round_value; [done|lia|done]|]. unfold unfix_round. cbn [snd].
      rewrite Z.shiftr_shiftr by lia. done. }
  change (Z.of_nat 32 - 1) with 31 in H. rewrite Z.mod_small in H by done. exact H.
Qed.

(** The two conversions are inverse on every fixed-point number. *)
Theorem fixpoint_roundtrip_all f : 0 <= f < 2 ^ 31 -> double2fixpoint (fixpoint2double f) = f.
Proof.
  intros Hf. pose proof place_pos. rewrite (double2fixpoint_floor _ (f * place_ulps)).
  - by rewrite Z.div_mul by lia.
  - by apply fixpoint2double_exact.
  - rewrite unit_places. split; [lia|]. apply Z.mul_lt_mono_pos_r; [exact place_pos|lia].
Qed.

(** From 1 on every place is set. *)
Lemma double_minus_one x : valid x -> dge x d1 = true ->
  dge (x * d2)%D d1 = true /\ dge (x * d2 - d1)%D d1 = true.
Proof.
  intros V. rewrite !dge_dle. destruct x as [[]|[]| |[] m e]; try done. intros H.
  apply dle_pos in H; [|reflexivity|done]. destruct (valid_bounded _ _ _ V) as [C _].
  assert (valid (dmul (S754_finite false m e) d2)) as Vm by (by apply dmul_valid).
  rewrite d2_eq in *.
  change (dmul (S754_finite false m e) (S754_finite false (Z.to_pos (2 ^ 52)) (-51)))
    with (binary_round_aux prec emax false (Z.pos (m * Z.to_pos (2 ^ 52))) (e + -51) loc_Exact) in *.
  assert (ple (2 ^ 52) (-51) (Z.pos (m * Z.to_pos (2 ^ 52))) (e + -51)) as Hp.
  { rewrite Pos2Z.inj_mul. change (Z.pos (Z.to_pos (2 ^ 52))) with (2 ^ 52).
    set (k := Z.min e (-52)). rewrite (ple_scale (k - 52)) in H by lia. rewrite (ple_scale (k - 52 + 1)) by lia.
    replace (-51 - (k - 52 + 1)) with (-52 - (k - 52)) by lia.
    replace (e + -51 - (k - 52 + 1)) with (e - (k - 52) + -52) by lia.
    assert (2 ^ 52 * 2 ^ (e - (k - 52) + -52) = 2 ^ (e - (k - 52))) as E.
    { rewrite <- Z.pow_add_r by lia. f_equal. lia. }
    change (Z.pos 4503599627370496) with (2 ^ 52) in H. lia. }
  destruct (round_ge false (Z.pos (m * Z.to_pos (2 ^ 52))) (e + -51) loc_Exact (2 ^ 52) (-51)) as [->|(p & e' & Er & Hpe)];
    [lia|rewrite Pos2Z.inj_mul; by apply mul_wide|done|done|done|done|].
  rewrite Er in *. assert (dle d2 (S754_finite false p e') = true) as Hd by (by apply dle_pos).
  split; [by apply (dle_trans d1 d2)|]. apply dle_ulps in Hd; [|done|done|done|done].
  change (dsub (S754_finite false p e') d1) with (dadd (S754_finite false p e') (dneg d1)).
  apply dadd_ge; try done. destruct one_value as (_ & _ & E1).
  assert (ulps (dneg d1) = - unit_ulps) as -> by reflexivity.
  assert (ulps d2 = 2 * unit_ulps) as E2 by reflexivity. lia.
Qed.

Lemma double2fixpoint_saturates d : valid d -> dge d d1 = true -> double2fixpoint d = 2 ^ 31 - 1.
Proof.
  intros V Hd. unfold double2fixpoint.
  change (for_from 1 32 _ (d, 0)) with (for_from 1 32 (fun _ s => fix_round s) (d, 0)).
  assert (let s := for_from 1 32 (fun _ s => fix_round s) (d, 0) in
    (valid s.1 /\ dge s.1 d1 = true) /\ s.2 = 2 ^ (Z.of_nat 32 - 1) - 1) as [_ H]; [|exact H].
  apply (for_from_ind (fun k s => (valid s.1 /\ dge s.1 d1 = true) /\ s.2 = 2 ^ (Z.of_nat k - 1) - 1)); [lia|done|].
  intros i [x ret] Hi [[Vx Hx] Hr]. cbn [fst snd] in *. unfold fix_round.
  destruct (double_minus_one x Vx Hx) as [H2 Hm]. rewrite H2. cbn [fst snd].
  split; [split; [by apply dsub_valid; [apply dmul_valid|]|done]|]. subst ret.
  set (k := Z.of_nat i - 1). replace (Z.of_nat (S i) - 1) with (1 + k) by lia.
  rewrite (Z.pow_add_r 2 1) by lia. change (2 ^ 1) with 2.
  assert (1 <= 2 ^ k <= 2 ^ 30) as Hk by (split; [apply (Z.pow_le_mono_r 2 0); lia|apply Z.pow_le_mono_r; lia]).
  rewrite Z.shiftl_mul_pow2, s32_small, lor_add by lia. lia.
Qed.

(** From 0 down, and for a NaN, no place is set. *)
Definition not_positive (x : double) : Prop :=
  match x with S754_zero _ | S754_nan | S754_infinity true | S754_finite true _ _ => True | _ => False end.

Lemma not_positive_double x : valid x -> not_positive x -> not_positive (x * d2)%D /\ dge (x * d2)%D d1 = false.
Proof.
  intros V Hx. assert (not_positive (x * d2)%D) as Hn.
  { destruct x as [[]|[]| |[] m e]; try done. destruct (valid_bounded _ _ _ V) as [C _]. rewrite d2_eq.
    change (dmul (S754_finite true m e) (S754_finite false (Z.to_pos (2 ^ 52)) (-51)))
      with (binary_round_aux prec emax true (Z.pos (m * Z.to_pos (2 ^ 52))) (e + -51) loc_Exact).
    destruct (round_aux_cases true (Z.pos (m * Z.to_pos (2 ^ 52))) (e + -51) loc_Exact)
      as (m2 & e1 & _ & _ & _ & Hr & _); [lia|by apply mul_wide|].
    destruct Hr as [[-> _]|[(p & -> & _)|(-> & _)]]; done. }
  split; [done|]. rewrite dge_dle. by destruct (x * d2)%D as [[]|[]| |[] ? ?].
Qed.

Lemma double2fixpoint_zero d : valid d -> not_positive d -> double2fixpoint d = 0.
Proof.
  intros V Hd. unfold double2fixpoint.
  change (for_from 1 32 _ (d, 0)) with (for_from 1 32 (fun _ s => fix_round s) (d, 0)).
  assert (let s := for_from 1 32 (fun _ s => fix_round s) (d, 0) in (valid s.1 /\ not_positive s.1) /\ s.2 = 0)
    as [_ H]; [|exact H].
  apply (for_from_ind (fun k s => (valid s.1 /\ not_positive s.1) /\ s.2 = 0)); [lia|done|].
  intros i [x ret] Hi [[Vx Hx] Hr]. cbn [fst snd] in *. subst ret. unfold fix_round.
  destruct (not_positive_double x Vx Hx) as [H2 ->]. cbn [fst snd].
  split; [split; [by apply dmul_valid|done]|done].
Qed.

(** The fixed-point number of a double is its first 31 binary places between 0 and
    1, the greatest number from 1 on, and 0 for a negative number or a NaN; read back it
    is below by less than a place. *)
Theorem double2fixpoint_spec d :
  valid d ->
  (not_positive d -> double2fixpoint d = 0) /\
  (dge d d1 = true -> double2fixpoint d = 2 ^ 31 - 1) /\
  forall n, has_value d n -> 0 <= n < unit_ulps ->
    double2fixpoint d = n / place_ulps /\
    exists v, has_value (fixpoint2double (double2fixpoint d)) v /\ v <= n < v + place_ulps.
Proof.
  intros V. split; [by apply double2fixpoint_zero|]. split; [by apply double2fixpoint_saturates|].
  intros n Hn Hr. pose proof (double2fixpoint_floor d n Hn Hr) as E. split; [done|].
  pose proof place_pos. exists (double2fixpoint d * place_ulps). split.
  - apply fixpoint2double_exact. apply double2fixpoint_range.
  - rewrite E. pose proof (Z.div_mod n place_ulps ltac:(lia)). pose proof (Z.mod_pos_bound n place_ulps ltac:(lia)). lia.
Qed.

(** ** The structures *)

#[local] Set Primitive Projections.

(** The fields carry the prefix [bo_].
    [iproute2-3.1.0/include/linux/pkt_sched.h:222-237 tc_blue_qopt] *)
Record tc_blue_qopt := mk_blue {
  bo_qold : Z; bo_qref : Z; bo_sampl_period : Z; bo_a : Z; bo_b : Z; bo_proba : Z; bo_proba_init : Z;
  bo_proba_max : Z; bo_Scell_log : Z; bo_limit : Z; bo_flags : Z
}.

(** The structure and the locals of the loop over the words. *)
Record blue_words := mk_blue_words {
  bw_opt : tc_blue_qopt; bw_ecn : bool; bw_a : double; bw_b : double; bw_proba : double;
  bw_proba_init : double; bw_proba_max : double
}.

#[local] Unset Primitive Projections.

(** [iproute2-3.1.0/include/linux/pkt_sched.h:235-235 TC_BLUE_ECN] *)
Definition TC_BLUE_ECN : Z := 1.

(** The 44 bytes, padding zeroed. *)
Definition blue_bytes (o : tc_blue_qopt) : list Z :=
  int_bytes (bo_qold o) ++ int_bytes (bo_qref o) ++ int_bytes (bo_sampl_period o) ++ int_bytes (bo_a o) ++
  int_bytes (bo_b o) ++ int_bytes (bo_proba o) ++ int_bytes (bo_proba_init o) ++ int_bytes (bo_proba_max o) ++
  (u8 (bo_Scell_log o) :: replicate 3 0) ++ int_bytes (bo_limit o) ++ int_bytes (bo_flags o).

Definition BLUE_SIZE : Z := 44.

Definition blue_of_bytes (b : list Z) : tc_blue_qopt :=
  mk_blue (field_int b 0) (field_int b 4) (field_int b 8) (field_int b 12) (field_int b 16) (field_int b 20)
    (field_int b 24) (field_int b 28) (field_byte b 32) (field32 b 36) (field32 b 40).

(** ** The command line *)

Definition blue_int (set : Z -> tc_blue_qopt -> tc_blue_qopt) : word_action blue_words :=
  Take (fun arg w => match sscanf_d arg with Some v => Some (w <| bw_opt := set v (bw_opt w) |>) | None => None end).

Definition blue_double (set : double -> blue_words -> blue_words) : word_action blue_words :=
  Take (fun arg w => match sscanf_lf arg with Some v => Some (set v w) | None => None end).

(** [iproute2-3.1.0/tc/q_blue.c:83-146 blue_parse_opt] *)
Definition blue_keyword (word : string) : word_action blue_words :=
  if String.eqb word "limit" then
    Take (fun arg w =>
      match get_size arg with Some v => Some (w <| bw_opt := ((bw_opt w) <| bo_limit := v |>) |>) | None => None end)
  else if String.eqb word "qref" then blue_int (fun v o => o <| bo_qref := v |>)
  else if String.eqb word "qold" then blue_int (fun v o => o <| bo_qold := v |>)
  else if String.eqb word "a" then blue_double (fun v w => w <| bw_a := v |>)
  else if String.eqb word "b" then blue_double (fun v w => w <| bw_b := v |>)
  else if String.eqb word "proba" then blue_double (fun v w => w <| bw_proba := v |>)
  else if String.eqb word "proba_init" then blue_double (fun v w => w <| bw_proba_init := v |>)
  else if String.eqb word "proba_max" then blue_double (fun v w => w <| bw_proba_max := v |>)
  else if String.eqb word "sampl_period" then blue_int (fun v o => o <| bo_sampl_period := v |>)
  else if String.eqb word "ecn" then Flag (fun w => Some (w <| bw_ecn := true |>))
  else Stop.

Definition zero_blue : tc_blue_qopt := mk_blue 0 0 0 0 0 0 0 0 0 0 0.

(** The defaults of the probabilities and the steps; those of the other locals are not
    used.  [iproute2-3.1.0/tc/q_blue.c:63-80 blue_parse_opt] *)
Definition blue_start : blue_words :=
  mk_blue_words zero_blue false (dec 1822 (-8)) (dec 1816 (-8)) (dec 2 (-2)) (dec 2 (-2)) d1.

(** The three range warnings, numbered; they test the fields of the structure, which are
    not written yet.  [iproute2-3.1.0/tc/q_blue.c:161-168 blue_parse_opt] *)
Definition blue_warnings (o : tc_blue_qopt) : list nat :=
  (if (bo_proba_init o <? 0) || (1 <? bo_proba_init o) then [0%nat] else []) ++
  (if (bo_proba_max o <? 0) || (1 <? bo_proba_max o) then [1%nat] else []) ++
  (if (bo_a o <? 0) || dgt (d_of_Z (bo_a o)) (dec 1 (-3)) then [2%nat] else []).

(** [iproute2-3.1.0/tc/q_blue.c:170-183 blue_parse_opt] *)
Definition blue_fixed (w : blue_words) : tc_blue_qopt :=
  let o := bw_opt w in
  let o := o <| bo_proba := double2fixpoint (bw_proba w) |> in
  let o := o <| bo_proba_init := double2fixpoint (bw_proba_init w) |> in
  let o := o <| bo_proba_max := double2fixpoint (bw_proba_max w) |> in
  let o := o <| bo_a := double2fixpoint (bw_a w) |> in
  let o := o <| bo_b := double2fixpoint (bw_b w) |> in
  if bw_ecn w then o <| bo_flags := Z.lor (bo_flags o) TC_BLUE_ECN |> else o.

(** [sbuf] is the array the function does not initialise.
    [iproute2-3.1.0/tc/q_blue.c:61-191 blue_parse_opt] *)
Definition blue_parse_opt (sbuf : list Z) (argv : list string) (n : nlmsghdr) : parse_outcome :=
  match read_words blue_keyword argv blue_start with
  | ArgExit => Exit 255
  | ArgError => Return (- 1) n []
  | Args w _ =>
      if bo_qref (bw_opt w) <=? 0 then Return (- 1) n []
      else Return 0 (put_options (blue_bytes (blue_fixed w)) sbuf n) (blue_warnings (bw_opt w))
  end.

(** ** Printing

    The details line passes the integer fields, not the doubles computed from them, to
    [%lg]: what [fprintf] then prints C does not determine.  It is the argument
    [details] of the printer. *)

Section Print.
Context (details : tc_blue_qopt -> string).

(** [iproute2-3.1.0/tc/q_blue.c:211-227 blue_print_opt] *)
Definition blue_text (show_details : bool) (o : tc_blue_qopt) : string :=
  "limit " +:+ sprint_size (bo_limit o) +:+ (if Z.testbit (bo_flags o) 0 then "ecn " else "") +:+
  (if show_details then details o else "").

(** [iproute2-3.1.0/tc/q_blue.c:193-229 blue_print_opt] *)
Definition blue_print_opt (show_details : bool) (m : list Z) (opt : option Z) : Z * string :=
  match opt with
  | None => (0, "")
  | Some opt =>
      let tb := (parse_rtattr_nested m TCA_STAB opt).1 in
      match tb !!! Z.to_nat TCA_PARMS with
      | None => (- 1, "")
      | Some a =>
          if RTA_PAYLOAD m a <? BLUE_SIZE then (- 1, "")
          else (0, blue_text show_details (blue_of_bytes (load_bytes m (RTA_DATA a) BLUE_SIZE)))
      end
  end.
End Print.

(** [iproute2-3.1.0/tc/q_blue.c:231-249 blue_print_xstats] *)
Definition blue_print_xstats (m : list Z) (xstats : option Z) : Z * string :=
  match xstats with
  | None => (0, "")
  | Some a =>
      if RTA_PAYLOAD m a <? 16 then (- 1, "")
      else
        let b := load_bytes m (RTA_DATA a) 16 in
        (0, "  marked " +:+ print_u (field32 b 12) +:+ " early " +:+ print_u (field32 b 0) +:+
            " pdrop " +:+ print_u (field32 b 4) +:+ " other " +:+ print_u (field32 b 8))
  end.

(** ** The request *)

Record blue_wf (o : tc_blue_qopt) : Prop := {
  bw_ints : Forall int_range [bo_qold o; bo_qref o; bo_sampl_period o; bo_a o; bo_b o; bo_proba o; bo_proba_init o;
                              bo_proba_max o];
  bw_cell : 0 <= bo_Scell_log o < 2 ^ 8;
  bw_limit : 0 <= bo_limit o < 2 ^ 32;
  bw_flags : 0 <= bo_flags o < 2 ^ 32
}.

Lemma blue_of_bytes_ok o : blue_wf o -> blue_of_bytes (blue_bytes o) = o.
Proof.
  intros [Wi Wc Wl Wf]. rewrite !Forall_cons in Wi. destruct Wi as (I1 & I2 & I3 & I4 & I5 & I6 & I7 & I8 & _).
  unfold blue_of_bytes.
  rewrite (int_field _ 0 _ I1), (int_field _ 4 _ I2), (int_field _ 8 _ I3), (int_field _ 12 _ I4),
    (int_field _ 16 _ I5), (int_field _ 20 _ I6), (int_field _ 24 _ I7), (int_field _ 28 _ I8) by reflexivity.
  rewrite (word_field _ 36 _ Wl), (word_field _ 40 _ Wf) by reflexivity.
  assert (field_byte (blue_bytes o) 32 = bo_Scell_log o) as ->.
  { change (field_byte (blue_bytes o) 32) with (u8 (bo_Scell_log o) + 2 ^ 8 * 0). unfold u8.
    rewrite Z.mod_small by done. lia. }
  reflexivity.
Qed.

Lemma blue_fixed_wf w : blue_wf (bw_opt w) -> blue_wf (blue_fixed w).
Proof.
  intros [Wi Wc Wl Wf]. rewrite !Forall_cons in Wi. destruct Wi as (I1 & I2 & I3 & _).
  assert (forall d, int_range (double2fixpoint d)) as Hd
    by (intros d; pose proof (double2fixpoint_range d); unfold int_range; lia).
  unfold blue_fixed. cbv zeta.
  destruct (bw_ecn w); (constructor;
    [repeat (apply Forall_cons; split; [first [exact (Hd _) | assumption]|]); by apply Forall_nil|exact Wc|exact Wl|]).
  - change (0 <= Z.lor (bo_flags (bw_opt w)) 1 < 2 ^ 32). by apply lor_1_range.
  - exact Wf.
Qed.

(** What the words leave untouched, and that what they set fits. *)
Definition blue_words_ok (w : blue_words) : Prop :=
  let o := bw_opt w in
  blue_wf o /\ bo_a o = 0 /\ bo_b o = 0 /\ bo_proba o = 0 /\ bo_proba_init o = 0 /\ bo_proba_max o = 0 /\
  bo_Scell_log o = 0 /\ bo_flags o = 0.

Lemma blue_keyword_ok word set arg w w' :
  blue_keyword word = Take set -> set arg w = Some w' -> blue_words_ok w -> blue_words_ok w'.
Proof.
  unfold blue_keyword, blue_int, blue_double, blue_words_ok. intros Hk Hs ([Wi Wc Wl Wf] & Hz).
  rewrite !Forall_cons in Wi. destruct Wi as (I1 & I2 & I3 & I4 & I5 & I6 & I7 & I8 & _).
  repeat (match goal with H : context [String.eqb word ?x] |- _ => destruct (String.eqb word x) end;
    [try discriminate; injection Hk as <-; cbv beta in Hs;
     match type of Hs with match ?e with _ => _ end = _ => destruct e as [v|] eqn:E; [|done] end;
     injection Hs as <-;
     first [apply get_size_range in E | apply sscanf_d_range in E | apply sscanf_lf_valid in E];
     (split; [constructor; first [assumption | repeat (apply Forall_cons; split; [assumption|]); by apply Forall_nil]|
       exact Hz])|]).
  done.
Qed.

Lemma blue_flag_ok word set w w' :
  blue_keyword word = Flag set -> set w = Some w' -> blue_words_ok w -> blue_words_ok w'.
Proof.
  unfold blue_keyword, blue_int, blue_double. intros Hk Hs Hw.
  repeat (match goal with H : context [String.eqb word ?x] |- _ => destruct (String.eqb word x) end;
    [try discriminate; injection Hk as <-; by injection Hs as <-|]).
  done.
Qed.

Lemma blue_start_ok : blue_words_ok blue_start.
Proof.
  split; [|done]. constructor; try done. repeat (apply Forall_cons; split; [done|]). by apply Forall_nil.
Qed.

(** What the request carries: integers and sizes as typed, probabilities and steps in fixed
    point, no cell size, and the ECN flag exactly when the word was given. *)
Record blue_sends (w : blue_words) (o : tc_blue_qopt) : Prop := {
  bs_ints : bo_limit o = bo_limit (bw_opt w) /\ bo_qref o = bo_qref (bw_opt w) /\ bo_qold o = bo_qold (bw_opt w) /\
            bo_sampl_period o = bo_sampl_period (bw_opt w);
  bs_steps : bo_a o = double2fixpoint (bw_a w) /\ bo_b o = double2fixpoint (bw_b w);
  bs_probabilities : bo_proba o = double2fixpoint (bw_proba w) /\
    bo_proba_init o = double2fixpoint (bw_proba_init w) /\ bo_proba_max o = double2fixpoint (bw_proba_max w);
  bs_flags : bo_Scell_log o = 0 /\ bo_flags o = if bw_ecn w then TC_BLUE_ECN else 0
}.

Lemma blue_fixed_sends w : blue_words_ok w -> blue_sends w (blue_fixed w).
Proof.
  intros (_ & _ & _ & _ & _ & _ & Hc & Hf). unfold blue_fixed. cbv zeta.
  destruct (bw_ecn w) eqn:E; (constructor; [by split_and!|by split_and!|by split_and!|rewrite E; split; [exact Hc|]]).
  - exact (f_equal (fun v => Z.lor v TC_BLUE_ECN) Hf).
  - exact Hf.
Qed.

(** Whatever the words, the request of BLUE decodes to exactly what they set, with the
    probabilities and steps in fixed point; the printer gives it back; and no warning
    is ever printed, because the range checks read fields that are still zero. *)
Theorem blue_request (sbuf : list Z) (argv : list string) (n : nlmsghdr) (w : blue_words) (rest : list string) :
  read_words blue_keyword argv blue_start = Args w rest -> 0 < bo_qref (bw_opt w) ->
  List.length sbuf = 256%nat -> room_for n 1024 312 ->
  exists n' sent, blue_parse_opt sbuf argv n = Return 0 n' [] /\ blue_sends w sent /\
    nlmsg_len n' = NLMSG_TAIL n + 312 /\ same_below (NLMSG_TAIL n) (mem n) (mem n') /\
    rta_type (mem n') (NLMSG_TAIL n) = TCA_OPTIONS /\
    (exists a b, parse_rtattr_nested (mem n') 2 (NLMSG_TAIL n) = ([None; Some a; Some b], 0) /\
       RTA_PAYLOAD (mem n') a = BLUE_SIZE /\
       blue_of_bytes (load_bytes (mem n') (RTA_DATA a) BLUE_SIZE) = sent /\
       load_bytes (mem n') (RTA_DATA b) (RTA_PAYLOAD (mem n') b) = sbuf) /\
    forall details show_details,
      blue_print_opt details show_details (mem n') (Some (NLMSG_TAIL n)) = (0, blue_text details show_details sent).
Proof.
  intros Hr Hq Hs Hroom. destruct (read_words_inv blue_keyword blue_words_ok blue_keyword_ok blue_flag_ok _ _ _ _ Hr
    blue_start_ok) as [Hok _]. pose proof (blue_fixed_sends w Hok) as Hsends.
  destruct Hok as (Hwf & Za & _ & _ & Zi & Zm & _).
  pose proof (blue_of_bytes_ok _ (blue_fixed_wf w Hwf)) as Edec. set (sent := blue_fixed w) in *.
  assert (span [(TCA_PARMS, blue_bytes sent); (TCA_STAB, sbuf)] = 308) as Espan
    by (cbn [span]; unfold attr_span; rewrite Hs; reflexivity).
  destruct (put_options_ok (blue_bytes sent) sbuf n) as (Hn & Hl & _ & Hb); [by rewrite Espan|].
  set (n' := put_options (blue_bytes sent) sbuf n) in *.
  destruct (nest_read _ _ _ _ Hn) as (H1 & Epay & Hd & Ht). rewrite Espan in Hl.
  change (Z.of_nat (List.length (blue_bytes sent))) with BLUE_SIZE in *.
  exists n', sent. split.
  { unfold blue_parse_opt. rewrite Hr, (proj2 (Z.leb_gt _ 0)) by lia. fold sent. fold n'. f_equal.
    unfold blue_warnings. by rewrite Za, Zi, Zm. }
  split; [done|]. split; [lia|]. split; [done|]. split; [apply Hn|]. split.
  - eexists _, _. split; [exact H1|]. split; [done|]. split; [by rewrite Hd|done].
  - intros details sd. unfold blue_print_opt. change TCA_STAB with 2. rewrite H1. cbn [fst].
    match goal with |- context [?l !!! Z.to_nat TCA_PARMS] =>
      change (l !!! Z.to_nat TCA_PARMS) with (Some (NLMSG_TAIL n + 4)) end.
    cbv iota. rewrite Epay. change (BLUE_SIZE <? BLUE_SIZE) with false. cbv iota. by rewrite Hd, Edec.
Qed.

Definition demo_blue : blue_words :=
  (blue_start <| bw_opt := zero_blue <| bo_qref := 50 |> |>) <| bw_proba_max := d2 |>.

Lemma blue_request_witness :
  exists n' sent, blue_parse_opt (replicate 256 0) ["qref"; "50"; "proba_max"; "2"] (mk_nlmsg 36 (replicate 1024 0)) =
    Return 0 n' [] /\ bo_qref sent = 50 /\ bo_proba_max sent = 2 ^ 31 - 1 /\
    forall details show_details,
      blue_print_opt details show_details (mem n') (Some 36) = (0, blue_text details show_details sent).
Proof.
  destruct (blue_request (replicate 256 0) ["qref"; "50"; "proba_max"; "2"] (mk_nlmsg 36 (replicate 1024 0))
    demo_blue []) as (n' & sent & H1 & [(_ & S1 & _) _ (_ & _ & S2) _] & _ & _ & _ & _ & H2).
  - vm_compute. reflexivity.
  - reflexivity.
  - reflexivity.
  - constructor; vm_compute; congruence.
  - exists n', sent. split; [exact H1|]. split; [exact S1|]. split; [|exact H2]. rewrite S2. vm_compute. reflexivity.
Defined.

Lemma double2fixpoint_spec_witness :
  double2fixpoint (dneg d1) = 0 /\ double2fixpoint d2 = 2 ^ 31 - 1 /\ double2fixpoint (d1 / d2)%D = 2 ^ 30.
Proof.
  split; [by apply (double2fixpoint_spec (dneg d1))|]. split; [by apply (double2fixpoint_spec d2)|].
  destruct (double2fixpoint_spec (d1 / d2)%D) as (_ & _ & H); [by vm_compute|].
  destruct (H (2 ^ 1073)) as [-> _]; [by vm_compute|by vm_compute|reflexivity].
Defined.

Lemma fixpoint_roundtrip_all_witness : double2fixpoint (fixpoint2double 12345) = 12345.
Proof. apply (fixpoint_roundtrip_all 12345). lia. Defined.

(** A probability of 2 is sent as the greatest number without a warning. *)
Example blue_probability_two : bo_proba_max (blue_fixed demo_blue) = 2 ^ 31 - 1.
Proof. vm_compute. reflexivity. Qed.

(** The default reference length never reaches the request: without [qref] the command is
    refused. *)
Example blue_needs_qref : blue_parse_opt [] ["limit"; "9k"] (mk_nlmsg 36 []) = Return (- 1) (mk_nlmsg 36 []) [].
Proof. vm_compute. reflexivity. Qed.
