(* ===== verification/TcDisc.v ===== *)
(** * Other disciplines of the front end (iproute2-3.1.0/tc)

    RED (q_red.c), whose options the kernel side of this project was derived from, and
    the FIFOs (q_fifo.c), SFQ (q_sfq.c) and PRIO (q_prio.c).  One Module each. *)

From S2P Require Export TcWords TcRed.

#[local] Open Scope list_scope.

(** The value of a parser stored, or the argument refused. *)
Definition store {T St} (parse : string -> option T) (set : T -> St -> St) : word_action St :=
  Take (fun arg st => match parse arg with Some v => Some (set v st) | None => None end).

(** ** RED *)

Module Red.

#[local] Set Primitive Projections.

(** [iproute2-3.1.0/include/linux/pkt_sched.h:189-199 tc_red_qopt] *)
Record tc_red_qopt := mk_red {
  limit : Z; qth_min : Z; qth_max : Z; Wlog : Z; Plog : Z; Scell_log : Z; flags : Z
}.

(** The structure and the locals of the loop. *)
Record red_words := mk_words {
  opt : tc_red_qopt; burst : Z; avpkt : Z; probability : double; rate : Z; ecn_ok : bool
}.

#[local] Unset Primitive Projections.

Definition red_bytes (o : tc_red_qopt) : list Z :=
  int_bytes (limit o) ++ int_bytes (qth_min o) ++ int_bytes (qth_max o) ++
  [u8 (Wlog o); u8 (Plog o); u8 (Scell_log o); u8 (flags o)].

Definition RED_SIZE : Z := 16.

Definition red_of_bytes (b : list Z) : tc_red_qopt :=
  mk_red (field32 b 0) (field32 b 4) (field32 b 8) (field_byte b 12) (field_byte b 13) (field_byte b 14)
    (field_byte b 15).

Definition upd_opt (f : Z -> tc_red_qopt -> tc_red_qopt) (v : Z) (w : red_words) : red_words :=
  w <| opt := f v (opt w) |>.

(** [iproute2-3.1.0/tc/q_red.c:49-100 red_parse_opt] *)
Definition red_keyword (word : string) : word_action red_words :=
  if String.eqb word "limit" then store get_size (upd_opt (fun v o => o <| limit := v |>))
  else if String.eqb word "min" then store get_size (upd_opt (fun v o => o <| qth_min := v |>))
  else if String.eqb word "max" then store get_size (upd_opt (fun v o => o <| qth_max := v |>))
  else if String.eqb word "burst" then store (fun arg => get_unsigned arg 0) (fun v w => w <| burst := v |>)
  else if String.eqb word "avpkt" then store get_size (fun v w => w <| avpkt := v |>)
  else if String.eqb word "probability" then store sscanf_lf (fun v w => w <| probability := v |>)
  else if String.eqb word "bandwidth" then store get_rate (fun v w => w <| rate := v |>)
  else if String.eqb word "ecn" then Flag (fun w => Some (w <| ecn_ok := true |>))
  else Stop.

Definition red_start : red_words := mk_words (mk_red 0 0 0 0 0 0 0) 0 0 (dec 2 (-2)) 0 false.

Section Request.
Context (c : core) (pow : double -> double -> double) (log : double -> double).

(** The fields computed from the words and the table, with the warning; [None] when one
    cannot be computed.  [iproute2-3.1.0/tc/q_red.c:104-135 red_parse_opt] *)
Definition red_compute (w : red_words) (sbuf : list Z) : option (tc_red_qopt * list Z * list nat) :=
  let rate := if rate w =? 0 then default 0 (get_rate "10Mbit") else rate w in
  let o := opt w in
  if (qth_min o =? 0) || (qth_max o =? 0) || (burst w =? 0) || (limit o =? 0) || (avpkt w =? 0) then None
  else
    let wlog := tc_red_eval_ewma pow (qth_min o) (burst w) (avpkt w) in
    if wlog <? 0 then None
    else
      let warnings := if 10 <=? wlog then [0%nat] else [] in
      let o := o <| Wlog := u8 wlog |> in
      let plog := tc_red_eval_P (qth_min o) (qth_max o) (probability w) in
      if plog <? 0 then None
      else
        let o := o <| Plog := u8 plog |> in
        let '(clog, sbuf) := tc_red_eval_idle_damping log c (Wlog o) (avpkt w) rate sbuf in
        if clog <? 0 then None
        else
          let o := o <| Scell_log := u8 clog |> in
          Some (if ecn_ok w then o <| flags := Z.lor (flags o) 1 |> else o, sbuf, warnings).

(** [iproute2-3.1.0/tc/q_red.c:34-144 red_parse_opt] *)
Definition red_parse_opt (sbuf : list Z) (argv : list string) (n : nlmsghdr) : parse_outcome :=
  match read_words red_keyword argv red_start with
  | ArgExit => Exit 255
  | ArgError => Return (- 1) n []
  | Args w _ =>
      match red_compute w sbuf with
      | None => Return (- 1) n []
      | Some (o, sbuf, warnings) => Return 0 (put_options (red_bytes o) sbuf n) warnings
      end
  end.
End Request.

(** [iproute2-3.1.0/tc/q_red.c:161-176 red_print_opt] *)
Definition red_text (show_details : bool) (o : tc_red_qopt) : string :=
  "limit " +:+ sprint_size (limit o) +:+ " min " +:+ sprint_size (qth_min o) +:+ " max " +:+ sprint_size (qth_max o) +:+
  " " +:+ (if Z.testbit (flags o) 0 then "ecn " else "") +:+
  (if show_details
   then "ewma " +:+ print_u (Wlog o) +:+ " Plog " +:+ print_u (Plog o) +:+ " Scell_log " +:+ print_u (Scell_log o)
   else "").

(** [iproute2-3.1.0/tc/q_red.c:146-177 red_print_opt] *)
Definition red_print_opt (show_details : bool) (m : list Z) (opt : option Z) : Z * string :=
  match opt with
  | None => (0, "")
  | Some opt =>
      let tb := (parse_rtattr_nested m TCA_STAB opt).1 in
      match tb !!! Z.to_nat TCA_PARMS with
      | None => (- 1, "")
      | Some a =>
          if RTA_PAYLOAD m a <? RED_SIZE then (- 1, "")
          else (0, red_text show_details (red_of_bytes (load_bytes m (RTA_DATA a) RED_SIZE)))
      end
  end.

(** [iproute2-3.1.0/tc/q_red.c:179-197 red_print_xstats] *)
Definition red_print_xstats (m : list Z) (xstats : option Z) : Z * string :=
  match xstats with
  | None => (0, "")
  | Some a =>
      if RTA_PAYLOAD m a <? 16 then (- 1, "")
      else
        let b := load_bytes m (RTA_DATA a) 16 in
        (0, "  marked " +:+ print_u (field32 b 12) +:+ " early " +:+ print_u (field32 b 0) +:+
            " pdrop " +:+ print_u (field32 b 4) +:+ " other " +:+ print_u (field32 b 8))
  end.
End Red.

(** ** FIFO *)

Module Fifo.

(** The limit and [ok], the number of times it was given.
    [iproute2-3.1.0/tc/q_fifo.c:38-52 fifo_parse_opt] *)
Definition fifo_keyword (word : string) : word_action (Z * Z) :=
  if String.eqb word "limit" then store get_size (fun v '(_, ok) => (v, ok + 1)) else Stop.

(** [iproute2-3.1.0/tc/q_fifo.c:31-59 fifo_parse_opt] *)
Definition fifo_parse_opt (argv : list string) (n : nlmsghdr) : parse_outcome :=
  match read_words fifo_keyword argv (0, 0) with
  | ArgExit => Exit 255
  | ArgError => Return (- 1) n []
  | Args (limit, ok) _ => Return 0 (if ok =? 0 then n else (addattr_l n 1024 TCA_OPTIONS (int_bytes limit)).2) []
  end.

(** [id] is the name of the discipline.  [iproute2-3.1.0/tc/q_fifo.c:61-77 fifo_print_opt] *)
Definition fifo_print_opt (id : string) (m : list Z) (opt : option Z) : Z * string :=
  match opt with
  | None => (0, "")
  | Some a =>
      if RTA_PAYLOAD m a <? 4 then (- 1, "")
      else
        let limit := field32 (load_bytes m (RTA_DATA a) 4) 0 in
        (0, "limit " +:+ (if String.eqb id "bfifo" then sprint_size limit else print_u limit +:+ "p"))
  end.
End Fifo.

(** ** SFQ *)

Module Sfq.

#[local] Set Primitive Projections.

(** [iproute2-3.1.0/include/linux/pkt_sched.h:157-163 tc_sfq_qopt] *)
Record tc_sfq_qopt := mk_sfq { quantum : Z; perturb_period : Z; limit : Z; divisor : Z; flows : Z }.

#[local] Unset Primitive Projections.

Definition sfq_bytes (o : tc_sfq_qopt) : list Z :=
  int_bytes (quantum o) ++ int_bytes (perturb_period o) ++ int_bytes (limit o) ++ int_bytes (divisor o) ++
  int_bytes (flows o).

Definition SFQ_SIZE : Z := 20.

Definition sfq_of_bytes (b : list Z) : tc_sfq_qopt :=
  mk_sfq (field32 b 0) (field_int b 4) (field32 b 8) (field32 b 12) (field32 b 16).

(** A word that counts as given. *)
Definition given {T} (parse : string -> option T) (set : T -> tc_sfq_qopt -> tc_sfq_qopt) :
    word_action (tc_sfq_qopt * Z) :=
  store parse (fun v '(o, ok) => (set v o, ok + 1)).

(** A limit below 2 is refused.  [iproute2-3.1.0/tc/q_sfq.c:40-79 sfq_parse_opt] *)
Definition sfq_keyword (word : string) : word_action (tc_sfq_qopt * Z) :=
  if String.eqb word "quantum" then given get_size (fun v o => o <| quantum := v |>)
  else if String.eqb word "perturb" then given (fun arg => get_integer arg 0) (fun v o => o <| perturb_period := v |>)
  else if String.eqb word "limit" then
    given (fun arg => match get_u32 arg 0 with Some v => if v <? 2 then None else Some v | None => None end)
      (fun v o => o <| limit := v |>)
  else if String.eqb word "divisor" then given (fun arg => get_u32 arg 0) (fun v o => o <| divisor := v |>)
  else Stop.

(** [iproute2-3.1.0/tc/q_sfq.c:32-86 sfq_parse_opt] *)
Definition sfq_parse_opt (argv : list string) (n : nlmsghdr) : parse_outcome :=
  match read_words sfq_keyword argv (mk_sfq 0 0 0 0 0, 0) with
  | ArgExit => Exit 255
  | ArgError => Return (- 1) n []
  | Args (o, ok) _ => Return 0 (if ok =? 0 then n else (addattr_l n 1024 TCA_OPTIONS (sfq_bytes o)).2) []
  end.

Definition sfq_text (show_details : bool) (o : tc_sfq_qopt) : string :=
  "limit " +:+ print_u (limit o) +:+ "p quantum " +:+ sprint_size (quantum o) +:+ " " +:+
  (if show_details then "flows " +:+ print_u (flows o) +:+ "/" +:+ print_u (divisor o) +:+ " " else "") +:+
  "divisor " +:+ print_u (divisor o) +:+ " " +:+
  (if perturb_period o =? 0 then "" else "perturb " +:+ print_d (perturb_period o) +:+ "sec ").

(** [iproute2-3.1.0/tc/q_sfq.c:88-108 sfq_print_opt] *)
Definition sfq_print_opt (show_details : bool) (m : list Z) (opt : option Z) : Z * string :=
  match opt with
  | None => (0, "")
  | Some a =>
      if RTA_PAYLOAD m a <? SFQ_SIZE then (- 1, "")
      else (0, sfq_text show_details (sfq_of_bytes (load_bytes m (RTA_DATA a) SFQ_SIZE)))
  end.

(** [iproute2-3.1.0/tc/q_sfq.c:110-124 sfq_print_xstats] *)
Definition sfq_print_xstats (m : list Z) (xstats : option Z) : Z * string :=
  match xstats with
  | None => (0, "")
  | Some a =>
      if RTA_PAYLOAD m a <? 4 then (- 1, "")
      else (0, " allot " +:+ print_d (field_int (load_bytes m (RTA_DATA a) 4) 0) +:+ " " +:+ newline)
  end.
End Sfq.

(** ** PRIO *)

Module Prio.

Definition TC_PRIO_MAX : Z := 15.

#[local] Set Primitive Projections.

(** [iproute2-3.1.0/include/linux/pkt_sched.h:118-121 tc_prio_qopt] *)
Record tc_prio_qopt := mk_prio { bands : Z; priomap : list Z }.

(** The structure and the locals of the loop. *)
Record prio_words := mk_words { opt : tc_prio_qopt; pmap_mode : bool; idx : Z; mq : bool }.

#[local] Unset Primitive Projections.

Definition prio_bytes (o : tc_prio_qopt) : list Z := int_bytes (bands o) ++ priomap o.

Definition PRIO_SIZE : Z := 20.

(** An element of the map; the comparison with the [int] is unsigned, and the element is
    stored in a byte.  [iproute2-3.1.0/tc/q_prio.c:60-78 prio_parse_opt] *)
Definition prio_element (word : string) (w : prio_words) : option prio_words :=
  if pmap_mode w then
    match get_unsigned word 10 with
    | None => None
    | Some band =>
        if u32 (bands (opt w)) <? band then None
        else if TC_PRIO_MAX <? idx w then None
        else Some ((w <| opt := ((opt w) <| priomap := <[Z.to_nat (idx w) := u8 band]> (priomap (opt w)) |>) |>)
                     <| idx := idx w + 1 |>)
    end
  else None.

(** [iproute2-3.1.0/tc/q_prio.c:40-79 prio_parse_opt] *)
Definition prio_keyword (word : string) : word_action prio_words :=
  if String.eqb word "bands" then
    store (fun arg => get_integer arg 10) (fun v w => w <| opt := ((opt w) <| bands := v |>) |>)
  else if String.eqb word "priomap" then Flag (fun w => if pmap_mode w then None else Some (w <| pmap_mode := true |>))
  else if String.eqb word "multiqueue" then Flag (fun w => Some (w <| mq := true |>))
  else if String.eqb word "help" then Stop
  else Flag (prio_element word).

Definition prio_start : prio_words :=
  mk_words (mk_prio 3 [1; 2; 2; 2; 1; 2; 0; 0; 1; 1; 1; 1; 1; 1; 1; 1]) false 0 false.

(** [iproute2-3.1.0/tc/q_prio.c:31-94 prio_parse_opt] *)
Definition prio_parse_opt (argv : list string) (n : nlmsghdr) : parse_outcome :=
  match read_words prio_keyword argv prio_start with
  | ArgExit => Exit 255
  | ArgError => Return (- 1) n []
  | Args w _ =>
      let '(nest, n) := addattr_nest_compat n 1024 TCA_OPTIONS (prio_bytes (opt w)) in
      let n := if mq w then (addattr_l n 1024 1 []).2 else n in
      Return 0 (addattr_nest_compat_end n nest).2 []
  end.

(** [iproute2-3.1.0/tc/q_prio.c:96-118 prio_print_opt] *)
Definition prio_print_opt (m : list Z) (opt : option Z) : Z * string :=
  match opt with
  | None => (0, "")
  | Some a =>
      match __parse_rtattr_nested_compat m 1 a PRIO_SIZE with
      | None => (- 1, "")
      | Some tb =>
          let b := load_bytes m (RTA_DATA a) PRIO_SIZE in
          (0, "bands " +:+ print_u (field32 b 0) +:+ " priomap " +:+
              String.concat "" (map (fun i => " " +:+ print_d (field_byte b (4 + Z.of_nat i))) (seq 0 16)) +:+
              match tb !!! 1%nat with
              | Some x => " multiqueue: " +:+ (if field_byte (load_bytes m (RTA_DATA x) 1) 0 =? 0 then "off" else "on") +:+ " "
              | None => ""
              end)
      end
  end.
End Prio.

(** ** What RED computes *)

Section RedRequest.
Import Red.
Context (c : core) (pow : double -> double -> double) (log : double -> double).

Lemma red_P_range qmin qmax prob : tc_red_eval_P qmin qmax prob < 0 \/ 0 <= tc_red_eval_P qmin qmax prob < 32.
Proof.
  unfold tc_red_eval_P. destruct (s32 (qmax - qmin) <=? 0); [by left|].
  set (i := red_P_loop _ _ _). assert (0 <= i) as Hi.
  { unfold i. generalize (prob / d_of_Z (s32 (qmax - qmin)))%D. generalize 32%nat.
    assert (forall n k x, 0 <= k -> 0 <= red_P_loop n k x) as H; [|intros; by apply H].
    induction n as [|n IH]; intros k x Hk; cbn [red_P_loop]; [done|]. destruct (dgt x d1); [done|]. apply IH. lia. }
  destruct (Z.leb_spec 32 i); [by left|]. right. lia.
Qed.

Lemma red_ewma_range qmin burst avpkt :
  tc_red_eval_ewma pow qmin burst avpkt < 0 \/ 1 <= tc_red_eval_ewma pow qmin burst avpkt <= 31.
Proof.
  unfold tc_red_eval_ewma. cbv zeta. destruct (dlt _ d1); [by left|].
  assert (forall n k W a b, 1 <= k -> k + Z.of_nat n <= 32 ->
    red_ewma_loop pow n k W a b < 0 \/ 1 <= red_ewma_loop pow n k W a b <= 31) as H.
  { induction n as [|n IH]; intros k W a b Hk Hn; cbn [red_ewma_loop]; [by left|].
    destruct (dle a _); [right; lia|]. apply IH; lia. }
  apply H; lia.
Qed.

Record red_wf (o : tc_red_qopt) : Prop := {
  rw_words : Forall (fun v => 0 <= v < 2 ^ 32) [limit o; qth_min o; qth_max o];
  rw_bytes : Forall (fun v => 0 <= v < 2 ^ 8) [Wlog o; Plog o; Scell_log o; flags o]
}.

Lemma byte_field b off v : 0 <= v < 2 ^ 8 -> load_bytes b off 1 = [u8 v] -> field_byte b off = v.
Proof. intros Hv E. unfold field_byte. rewrite E. cbn [of_le_bytes]. unfold u8. rewrite Z.mod_small by done. lia. Qed.

Lemma red_of_bytes_ok o : red_wf o -> red_of_bytes (red_bytes o) = o.
Proof.
  intros [Ww Wb]. rewrite !Forall_cons in Ww. rewrite !Forall_cons in Wb.
  destruct Ww as (W1 & W2 & W3 & _), Wb as (B1 & B2 & B3 & B4 & _). unfold red_of_bytes.
  rewrite (word_field _ 0 _ W1), (word_field _ 4 _ W2), (word_field _ 8 _ W3) by reflexivity.
  rewrite (byte_field _ 12 _ B1), (byte_field _ 13 _ B2), (byte_field _ 14 _ B3), (byte_field _ 15 _ B4) by reflexivity.
  reflexivity.
Qed.

(** What the words set. *)
Definition red_words_ok (w : red_words) : Prop :=
  let o := opt w in
  Forall (fun v => 0 <= v < 2 ^ 32) [limit o; qth_min o; qth_max o] /\ flags o = 0.

Lemma red_keyword_ok word set arg w w' :
  red_keyword word = Take set -> set arg w = Some w' -> red_words_ok w -> red_words_ok w'.
Proof.
  unfold red_keyword, store, red_words_ok. intros Hk Hs [Hw Hf]. rewrite !Forall_cons in Hw.
  destruct Hw as (W1 & W2 & W3 & _).
  repeat (match goal with H : context [String.eqb word ?x] |- _ => destruct (String.eqb word x) end;
    [try discriminate; injection Hk as <-; cbv beta in Hs;
     match type of Hs with match ?e with _ => _ end = _ => destruct e as [v|] eqn:E; [|done] end;
     injection Hs as <-; try apply get_size_range in E;
     (split; [repeat (apply Forall_cons; split; [assumption|]); by apply Forall_nil|exact Hf])|]).
  done.
Qed.

Lemma red_flag_ok word set w w' :
  red_keyword word = Flag set -> set w = Some w' -> red_words_ok w -> red_words_ok w'.
Proof.
  unfold red_keyword, store. intros Hk Hs Hw.
  repeat (match goal with H : context [String.eqb word ?x] |- _ => destruct (String.eqb word x) end;
    [try discriminate; injection Hk as <-; by injection Hs as <-|]).
  done.
Qed.

(** The computed fields and the table are in the ranges the kernel shifts by. *)
Lemma red_compute_ok w sbuf o tab warnings :
  red_words_ok w -> List.length sbuf = 256%nat -> red_compute c pow log w sbuf = Some (o, tab, warnings) ->
  red_wf o /\ 1 <= Wlog o <= 31 /\ 0 <= Plog o < 32 /\ 0 <= Scell_log o < 32 /\
  limit o = limit (opt w) /\ qth_min o = qth_min (opt w) /\ qth_max o = qth_max (opt w) /\ 0 < limit o /\
  List.length tab = 256%nat /\ Forall (fun v => 0 <= v <= 31) tab.
Proof.
  intros [Hw Hf] Hs. unfold red_compute. cbv zeta. rewrite !Forall_cons in Hw. destruct Hw as (W1 & W2 & W3 & _).
  destruct (_ || _) eqn:Ez; [done|]. rewrite !orb_false_iff, !Z.eqb_neq in Ez. destruct Ez as [[[[Z1 Z2] Z3] Z4] Z5].
  destruct (red_ewma_range (qth_min (opt w)) (burst w) (avpkt w)) as [Hl|Hr1];
    [by rewrite (proj2 (Z.ltb_lt _ 0)) by exact Hl|].
  set (wlog := tc_red_eval_ewma _ _ _ _) in *. rewrite (proj2 (Z.ltb_ge wlog 0)) by lia.
  match goal with |- context [tc_red_eval_P ?a ?b ?p <? 0] => change (tc_red_eval_P a b p) with
    (tc_red_eval_P (qth_min (opt w)) (qth_max (opt w)) (probability w)) end.
  destruct (red_P_range (qth_min (opt w)) (qth_max (opt w)) (probability w)) as [Hl|Hr2];
    [by rewrite (proj2 (Z.ltb_lt _ 0)) by exact Hl|].
  set (plog := tc_red_eval_P _ _ _) in *. rewrite (proj2 (Z.ltb_ge plog 0)) by lia.
  match goal with |- context [tc_red_eval_idle_damping log c ?a ?b ?r sbuf] =>
    pose proof (idle_damping_table log c a b r sbuf Hs) as Ht;
    destruct (tc_red_eval_idle_damping log c a b r sbuf) as [clog t] end.
  destruct Ht as [[-> _]|(Hc & Lt & Ft & _)]; [done|]. rewrite (proj2 (Z.ltb_ge clog 0)) by lia.
  assert (u8 wlog = wlog /\ u8 plog = plog /\ u8 clog = clog) as (E1 & E2 & E3)
    by (unfold u8; rewrite !Z.mod_small by lia; done).
  intros E. injection E as <- <- <-.
  assert (forall f, 0 <= f < 2 ^ 8 ->
    red_wf (mk_red (limit (opt w)) (qth_min (opt w)) (qth_max (opt w)) wlog plog clog f)) as Hwf.
  { intros f Hff. constructor; repeat (apply Forall_cons; split; [cbn; lia|]); by apply Forall_nil. }
  destruct (ecn_ok w).
  - change (red_wf (mk_red (limit (opt w)) (qth_min (opt w)) (qth_max (opt w)) (u8 wlog) (u8 plog) (u8 clog)
      (Z.lor (flags (opt w)) 1)) /\ 1 <= u8 wlog <= 31 /\ 0 <= u8 plog < 32 /\ 0 <= u8 clog < 32 /\
      limit (opt w) = limit (opt w) /\ qth_min (opt w) = qth_min (opt w) /\ qth_max (opt w) = qth_max (opt w) /\
      0 < limit (opt w) /\ List.length t = 256%nat /\ Forall (fun v => 0 <= v <= 31) t).
    rewrite E1, E2, E3, Hf. split_and!; try done; try lia. by apply Hwf.
  - change (red_wf (mk_red (limit (opt w)) (qth_min (opt w)) (qth_max (opt w)) (u8 wlog) (u8 plog) (u8 clog)
      (flags (opt w))) /\ 1 <= u8 wlog <= 31 /\ 0 <= u8 plog < 32 /\ 0 <= u8 clog < 32 /\
      limit (opt w) = limit (opt w) /\ qth_min (opt w) = qth_min (opt w) /\ qth_max (opt w) = qth_max (opt w) /\
      0 < limit (opt w) /\ List.length t = 256%nat /\ Forall (fun v => 0 <= v <= 31) t).
    rewrite E1, E2, E3, Hf. split_and!; try done; try lia. by apply Hwf.
Qed.
End RedRequest.

(** An accepted command for RED sends the thresholds as typed with an averaging weight
    between 1 and 31, a probability shift and a cell size below 32, and a damping table
    of 256 shifts of at most 31; the kernel decodes exactly these, and the printer
    gives them back. *)
Theorem red_request c pow log (sbuf : list Z) (argv : list string) (n : nlmsghdr) w rest o tab warnings :
  read_words Red.red_keyword argv Red.red_start = Args w rest ->
  Red.red_compute c pow log w sbuf = Some (o, tab, warnings) ->
  List.length sbuf = 256%nat -> room_for n 1024 284 ->
  (Red.limit o = Red.limit (Red.opt w) /\ Red.qth_min o = Red.qth_min (Red.opt w) /\
   Red.qth_max o = Red.qth_max (Red.opt w) /\ 0 < Red.limit o /\
   1 <= Red.Wlog o <= 31 /\ 0 <= Red.Plog o < 32 /\ 0 <= Red.Scell_log o < 32 /\
   List.length tab = 256%nat /\ Forall (fun v => 0 <= v <= 31) tab) /\
  exists n', Red.red_parse_opt c pow log sbuf argv n = Return 0 n' warnings /\
    nlmsg_len n' = NLMSG_TAIL n + 284 /\ same_below (NLMSG_TAIL n) (mem n) (mem n') /\
    (exists a b, parse_rtattr_nested (mem n') 2 (NLMSG_TAIL n) = ([None; Some a; Some b], 0) /\
       Red.red_of_bytes (load_bytes (mem n') (RTA_DATA a) Red.RED_SIZE) = o /\
       load_bytes (mem n') (RTA_DATA b) (RTA_PAYLOAD (mem n') b) = tab) /\
    forall show_details,
      Red.red_print_opt show_details (mem n') (Some (NLMSG_TAIL n)) = (0, Red.red_text show_details o).
Proof.
  intros Hr Hc Hs Hroom.
  destruct (read_words_inv Red.red_keyword red_words_ok red_keyword_ok red_flag_ok _ _ _ _ Hr) as [Hok _];
    [split; [|done]; repeat (apply Forall_cons; split; [done|]); by apply Forall_nil|].
  destruct (red_compute_ok c pow log w sbuf o tab warnings Hok Hs Hc)
    as (Hwf & R1 & R2 & R3 & L1 & L2 & L3 & L4 & Lt & Ft).
  split; [tauto|]. pose proof (red_of_bytes_ok o Hwf) as Edec.
  assert (span [(TCA_PARMS, Red.red_bytes o); (TCA_STAB, tab)] = 280) as Espan
    by (cbn [span]; unfold attr_span; rewrite Lt; reflexivity).
  destruct (put_options_ok (Red.red_bytes o) tab n) as (Hn & Hl & _ & Hb); [by rewrite Espan|].
  set (n' := put_options (Red.red_bytes o) tab n) in *. rewrite Espan in Hl.
  destruct (nest_read _ _ _ _ Hn) as (H1 & Epay & Hd & Ht).
  change (Z.of_nat (List.length (Red.red_bytes o))) with Red.RED_SIZE in *.
  exists n'. split; [unfold Red.red_parse_opt; by rewrite Hr, Hc|]. split; [lia|]. split; [done|]. split.
  - eexists _, _. split; [exact H1|]. split; [by rewrite Hd|done].
  - intros sd. unfold Red.red_print_opt. change TCA_STAB with 2. rewrite H1. cbn [fst].
    match goal with |- context [?l !!! Z.to_nat TCA_PARMS] =>
      change (l !!! Z.to_nat TCA_PARMS) with (Some (NLMSG_TAIL n + 4)) end.
    cbv iota. rewrite Epay. change (Red.RED_SIZE <? Red.RED_SIZE) with false. cbv iota. by rewrite Hd, Edec.
Qed.

Definition demo_red_argv : list string :=
  ["limit"; "400kb"; "min"; "10000"; "max"; "90000"; "avpkt"; "1000"; "burst"; "20"; "ecn"].

Definition demo_red : Red.tc_red_qopt := Red.mk_red 409600 10000 90000 4 22 6 1.

Lemma red_request_witness :
  exists n', Red.red_parse_opt core_default (fun _ _ => d0) (fun _ => dneg d1) (replicate 256 0) demo_red_argv
      (mk_nlmsg 36 (replicate 1024 0)) = Return 0 n' [] /\
    forall show_details, Red.red_print_opt show_details (mem n') (Some 36) = (0, Red.red_text show_details demo_red).
Proof.
  destruct (red_request core_default (fun _ _ => d0) (fun _ => dneg d1) (replicate 256 0) demo_red_argv
    (mk_nlmsg 36 (replicate 1024 0))
    (Red.mk_words (Red.mk_red 409600 10000 90000 0 0 0 0) 20 1000 (dec 2 (-2)) 0 true) [] demo_red
    (default [] (match Red.red_compute core_default (fun _ _ => d0) (fun _ => dneg d1)
      (Red.mk_words (Red.mk_red 409600 10000 90000 0 0 0 0) 20 1000 (dec 2 (-2)) 0 true) (replicate 256 0) with
      | Some (_, t, _) => Some t | None => None end)) [])
    as (_ & n' & H1 & _ & _ & _ & H2).
  - vm_compute. reflexivity.
  - vm_compute. reflexivity.
  - reflexivity.
  - constructor; vm_compute; congruence.
  - exists n'. split; [exact H1|exact H2].
Defined.

(** ** FIFO and PRIO *)

(** The state of the FIFO words: a limit that fits, and how often it was given. *)
Definition fifo_ok (min : Z) (w : Z * Z) : Prop := 0 <= w.1 < 2 ^ 32 /\ min <= w.2.

Lemma fifo_keyword_ok min word set arg w w' :
  0 <= min -> Fifo.fifo_keyword word = Take set -> set arg w = Some w' -> fifo_ok min w -> fifo_ok (min + 1) w'.
Proof.
  unfold Fifo.fifo_keyword, store, fifo_ok. intros Hm Hk Hs [_ Hw]. destruct (String.eqb word "limit"); [|done].
  injection Hk as <-. destruct (get_size arg) as [v|] eqn:E; [|done]. apply get_size_range in E. destruct w as [l k].
  injection Hs as <-. cbn [fst snd] in *. lia.
Qed.

Lemma fifo_no_flag word set : Fifo.fifo_keyword word = Flag set -> False.
Proof. unfold Fifo.fifo_keyword, store. by destruct (String.eqb word "limit"). Qed.

Lemma fifo_words_ok min argv st st' rest :
  0 <= min -> read_words Fifo.fifo_keyword argv st = Args st' rest -> fifo_ok min st -> fifo_ok min st'.
Proof.
  intros Hm E Hst. eapply (read_words_inv Fifo.fifo_keyword (fifo_ok min)); [..|exact E|exact Hst].
  - intros word set arg s1 s2 H1 H2 H3. destruct (fifo_keyword_ok _ _ _ _ _ _ Hm H1 H2 H3) as [? ?]. split; [done|lia].
  - intros word set s1 s2 H1. by destruct (fifo_no_flag _ _ H1).
Qed.

(** Any word at all is the limit. *)
Lemma fifo_given argv st' rest :
  argv <> [] -> read_words Fifo.fifo_keyword argv (0, 0) = Args st' rest -> fifo_ok 1 st'.
Proof.
  intros Hne Hr. destruct argv as [|w l]; [done|]. cbn [read_words] in Hr.
  destruct (Fifo.fifo_keyword w) as [set|set|] eqn:Ek; [|by destruct (fifo_no_flag _ _ Ek)|done].
  destruct l as [|arg l]; [done|]. destruct (set arg (0, 0)) as [st1|] eqn:Es; [|done].
  eapply (fifo_words_ok 1); [lia|exact Hr|]. by eapply (fifo_keyword_ok 0).
Qed.

(** A FIFO without a limit sends no options; with one, the last one given, which the
    printer shows. *)
Theorem fifo_request argv n limit ok rest :
  read_words Fifo.fifo_keyword argv (0, 0) = Args (limit, ok) rest -> room_for n 1024 8 ->
  (argv = [] -> Fifo.fifo_parse_opt argv n = Return 0 n []) /\
  (argv <> [] -> exists n', Fifo.fifo_parse_opt argv n = Return 0 n' [] /\ nlmsg_len n' = NLMSG_TAIL n + 8 /\
     attr_at (mem n') (NLMSG_TAIL n) TCA_OPTIONS (int_bytes limit) /\
     Fifo.fifo_print_opt "bfifo" (mem n') (Some (NLMSG_TAIL n)) = (0, "limit " +:+ sprint_size limit) /\
     Fifo.fifo_print_opt "pfifo" (mem n') (Some (NLMSG_TAIL n)) = (0, "limit " +:+ print_u limit +:+ "p")).
Proof.
  intros Hr Hroom. split; [by intros ->|]. intros Hne.
  destruct (fifo_given _ _ _ Hne Hr) as [Hlim Hok]. cbn [fst snd] in Hlim, Hok.
  unfold Fifo.fifo_parse_opt. rewrite Hr, (proj2 (Z.eqb_neq ok 0)) by lia.
  change 8 with (attr_span (int_bytes limit)) in Hroom.
  rewrite (addattr_l_ok n 1024 TCA_OPTIONS (int_bytes limit) Hroom) by done. cbn [snd].
  destruct Hroom as [R1 R2 R3 R4]. change (attr_span (int_bytes limit)) with 8 in *. pose proof (tail_bounds n).
  destruct (put_attr_at (NLMSG_TAIL n) TCA_OPTIONS (int_bytes limit) (mem n)) as (A1 & _ & _);
    [lia|change (Z.of_nat (List.length (int_bytes limit))) with 4; lia|done|done|].
  eexists. split; [reflexivity|]. split; [done|]. split; [exact A1|]. cbn [mem].
  destruct A1 as (L & _ & D). unfold Fifo.fifo_print_opt, RTA_PAYLOAD. rewrite L.
  change (4 + Z.of_nat (List.length (int_bytes limit)) - RTA_LENGTH 0 <? 4) with false. cbv iota.
  change (RTA_DATA (NLMSG_TAIL n)) with (NLMSG_TAIL n + 4). change (Z.of_nat (List.length (int_bytes limit))) with 4 in D.
  rewrite D, (word_field _ 0 limit Hlim) by reflexivity. done.
Qed.

Lemma fifo_request_witness :
  exists n', Fifo.fifo_parse_opt ["limit"; "9k"] (mk_nlmsg 36 (replicate 1024 0)) = Return 0 n' [] /\
    Fifo.fifo_print_opt "pfifo" (mem n') (Some 36) = (0, "limit 9216p").
Proof.
  destruct (proj2 (fifo_request ["limit"; "9k"] (mk_nlmsg 36 (replicate 1024 0)) 9216 1 [] ltac:(vm_compute; reflexivity)
    ltac:(constructor; vm_compute; congruence)) ltac:(done)) as (n' & H1 & _ & _ & _ & H2).
  exists n'. split; [exact H1|exact H2].
Defined.

(** The map of PRIO keeps its 16 bytes and the index stays inside. *)
Lemma prio_map_shape argv w rest :
  read_words Prio.prio_keyword argv Prio.prio_start = Args w rest ->
  List.length (Prio.priomap (Prio.opt w)) = 16%nat /\ Forall (fun b => 0 <= b < 2 ^ 8) (Prio.priomap (Prio.opt w)) /\
  0 <= Prio.idx w <= 16.
Proof.
  pose (P w := List.length (Prio.priomap (Prio.opt w)) = 16%nat /\
    Forall (fun b => 0 <= b < 2 ^ 8) (Prio.priomap (Prio.opt w)) /\ 0 <= Prio.idx w <= 16).
  intros Hr. eapply (read_words_inv Prio.prio_keyword P); [..|exact Hr|].
  - unfold Prio.prio_keyword, store, P. intros word set arg w0 w1 Hk Hs Hw.
    destruct (String.eqb word "bands"); [|by repeat (destruct (String.eqb word _); [done|])].
    injection Hk as <-. destruct (get_integer arg 10); [|done]. by injection Hs as <-.
  - unfold Prio.prio_keyword, store. intros word set w0 w1 Hk Hs Hw.
    destruct (String.eqb word "bands"); [done|].
    destruct (String.eqb word "priomap");
      [injection Hk as <-; destruct (Prio.pmap_mode w0); [done|by injection Hs as <-]|].
    destruct (String.eqb word "multiqueue"); [injection Hk as <-; by injection Hs as <-|].
    destruct (String.eqb word "help"); [done|]. injection Hk as <-. unfold Prio.prio_element in Hs.
    destruct (Prio.pmap_mode w0); [|done]. destruct (get_unsigned word 10) as [band|]; [|done].
    destruct (_ <? band); [done|]. destruct (Z.ltb_spec Prio.TC_PRIO_MAX (Prio.idx w0)) as [|Hi]; [done|].
    injection Hs as <-. destruct Hw as (H1 & H2 & H3). unfold Prio.TC_PRIO_MAX in Hi.
    unfold P. split; [|split].
    + transitivity (List.length (Prio.priomap (Prio.opt w0))); [apply length_insert|done].
    + change (Forall (fun b => 0 <= b < 2 ^ 8) (<[Z.to_nat (Prio.idx w0) := u8 band]> (Prio.priomap (Prio.opt w0)))).
      apply Forall_insert; [done|]. unfold u8. by apply Z.mod_pos_bound.
    + change (0 <= Prio.idx w0 + 1 <= 16). lia.
  - split; [done|]. split; [|done]. repeat (apply Forall_cons; split; [done|]). by apply Forall_nil.
Qed.

(** The element equal to the number of bands, which names no band, is accepted. *)
Example prio_band_out : exists w,
  read_words Prio.prio_keyword ["bands"; "3"; "priomap"; "3"] Prio.prio_start = Args w [] /\
  Prio.bands (Prio.opt w) = 3 /\ head (Prio.priomap (Prio.opt w)) = Some 3.
Proof. eexists. split; [vm_compute; reflexivity|]. done. Qed.
