(* ===== verification/TcTbf.v ===== *)
(** * TBF (iproute2-3.1.0/tc/q_tbf.c)

    The token bucket: from the words to the request, with its rate tables, and back to
    text. *)

From S2P Require Export TcDisc.

#[local] Open Scope list_scope.

#[local] Set Primitive Projections.

(** [iproute2-3.1.0/include/linux/pkt_sched.h:132-138 tc_tbf_qopt] *)
Record tc_tbf_qopt := mk_tbf {
  t_rate : tc_ratespec; t_peakrate : tc_ratespec; t_limit : Z; t_buffer : Z; t_mtu : Z
}.

(** The fields of the structure the words set, and the locals. *)
Record tbf_words := mk_tbf_words {
  tw_limit : Z; tw_rate : Z; tw_peakrate : Z; tw_ok : Z; tw_buffer : Z; tw_mtu : Z; tw_mpu : Z; tw_latency : Z;
  tw_Rcell_log : Z; tw_Pcell_log : Z; tw_overhead : Z; tw_linklayer : link_layer
}.

#[local] Unset Primitive Projections.

(** ** The words *)

(** An argument that must not be given twice; [ok] is counted for most words. *)
Definition once {T} (given : tbf_words -> bool) (parse : string -> option T) (set : T -> tbf_words -> tbf_words) :
    word_action tbf_words :=
  Take (fun arg w =>
    if given w then None
    else match parse arg with Some v => Some (set v (w <| tw_ok := tw_ok w + 1 |>)) | None => None end).

Definition parsed_cell (p : string -> option (Z * option Z) * string) (arg : string) : option (Z * option Z) := (p arg).1.

Definition nonzero (z : Z) : bool := negb (z =? 0).

(** [iproute2-3.1.0/tc/q_tbf.c:54-155 tbf_parse_opt] *)
Definition tbf_keyword (word : string) : word_action tbf_words :=
  if matches word "limit" then
    once (fun w => nonzero (tw_limit w) || nonzero (tw_latency w)) get_size (fun v w => w <| tw_limit := v |>)
  else if matches word "latency" then
    once (fun w => nonzero (tw_limit w) || nonzero (tw_latency w)) get_time (fun v w => w <| tw_latency := v |>)
  else if matches word "burst" || String.eqb word "buffer" || String.eqb word "maxburst" then
    once (fun w => nonzero (tw_buffer w)) (parsed_cell get_size_and_cell)
      (fun '(v, cell) w => (w <| tw_buffer := v |>) <| tw_Rcell_log := default (tw_Rcell_log w) cell |>)
  else if String.eqb word "mtu" || String.eqb word "minburst" then
    once (fun w => nonzero (tw_mtu w)) (parsed_cell get_size_and_cell)
      (fun '(v, cell) w => (w <| tw_mtu := v |>) <| tw_Pcell_log := default (tw_Pcell_log w) cell |>)
  else if String.eqb word "mpu" then
    once (fun w => nonzero (tw_mpu w)) get_size (fun v w => w <| tw_mpu := v |>)
  else if String.eqb word "rate" then
    once (fun w => nonzero (tw_rate w)) get_rate (fun v w => w <| tw_rate := v |>)
  else if matches word "peakrate" then
    once (fun w => nonzero (tw_peakrate w)) get_rate (fun v w => w <| tw_peakrate := v |>)
  else if matches word "overhead" then
    Take (fun arg w =>
      if nonzero (tw_overhead w) then None
      else match get_u16 arg 10 with Some v => Some (w <| tw_overhead := v |>) | None => None end)
  else if matches word "linklayer" then store get_linklayer (fun v w => w <| tw_linklayer := v |>)
  else Stop.

Definition tbf_start : tbf_words := mk_tbf_words 0 0 0 0 0 0 0 0 (- 1) (- 1) 0 LINKLAYER_ETHERNET.

(** ** The request *)

Definition ratespec_bytes (r : tc_ratespec) : list Z :=
  [u8 (rs_cell_log r); 0] ++ le_bytes 2 (rs_overhead r) ++ le_bytes 2 (rs_cell_align r) ++ le_bytes 2 (rs_mpu r) ++
  le_bytes 4 (rs_rate r).

Definition tbf_bytes (o : tc_tbf_qopt) : list Z :=
  ratespec_bytes (t_rate o) ++ ratespec_bytes (t_peakrate o) ++ le_bytes 4 (t_limit o) ++ le_bytes 4 (t_buffer o) ++
  le_bytes 4 (t_mtu o).

Definition ratespec_of_bytes (b : list Z) (off : Z) : tc_ratespec :=
  mk_ratespec (of_le_bytes (load_bytes b off 1)) (of_le_bytes (load_bytes b (off + 2) 2))
    (s16 (of_le_bytes (load_bytes b (off + 4) 2))) (of_le_bytes (load_bytes b (off + 6) 2)) (field32 b (off + 8)).

Definition tbf_of_bytes (b : list Z) : tc_tbf_qopt :=
  mk_tbf (ratespec_of_bytes b 0) (ratespec_of_bytes b 12) (field32 b 24) (field32 b 28) (field32 b 32).

Definition TBF_SIZE : Z := 36.

Section Tbf.
Context (c : core) (use_iec : bool).

(** The limit that gives the latency.  [iproute2-3.1.0/tc/q_tbf.c:180-188 tbf_parse_opt] *)
Definition tbf_limit (w : tbf_words) : Z :=
  if tw_limit w =? 0 then
    let bytes rate burst :=
      (d_of_Z rate * d_of_Z (tw_latency w) / d_of_Z TIME_UNITS_PER_SEC + d_of_Z burst)%D in
    let lim := bytes (tw_rate w) (tw_buffer w) in
    let lim :=
      if tw_peakrate w =? 0 then lim
      else let lim2 := bytes (tw_peakrate w) (tw_mtu w) in if dlt lim2 lim then lim2 else lim in
    d_to_u32 lim
  else tw_limit w.

Definition rate_start (w : tbf_words) (rate : Z) : tc_ratespec := mk_ratespec 0 (u16 (tw_overhead w)) 0 (u16 (tw_mpu w)) rate.

(** The structure, the rate table and the table of the peak rate if there is one; the
    arrays are 256 words whatever they held.  [iproute2-3.1.0/tc/q_tbf.c:159-207 tbf_parse_opt] *)
Definition tbf_compute (w : tbf_words) (rtab ptab : list Z) : option (tc_tbf_qopt * list Z * option (list Z)) :=
  if tw_ok w =? 0 then None
  else if (tw_rate w =? 0) || (tw_buffer w =? 0) then None
  else if nonzero (tw_peakrate w) && (tw_mtu w =? 0) then None
  else if (tw_limit w =? 0) && (tw_latency w =? 0) then None
  else
    let '(r, rate, rtab) := tc_calc_rtable c (rate_start w (tw_rate w)) rtab (tw_Rcell_log w) (tw_mtu w) (tw_linklayer w) in
    if r <? 0 then None
    else
      let o := mk_tbf rate (mk_ratespec 0 0 0 0 (tw_peakrate w)) (tbf_limit w) (tc_calc_xmittime c (rs_rate rate) (tw_buffer w)) 0 in
      if tw_peakrate w =? 0 then Some (o, rtab, None)
      else
        let '(r, peak, ptab) :=
          tc_calc_rtable c (rate_start w (tw_peakrate w)) ptab (tw_Pcell_log w) (tw_mtu w) (tw_linklayer w) in
        if r <? 0 then None
        else Some ((o <| t_peakrate := peak |>) <| t_mtu := tc_calc_xmittime c (rs_rate peak) (tw_mtu w) |>, rtab, Some ptab).

Definition TCA_TBF_RTAB : Z := 2.
Definition TCA_TBF_PTAB : Z := 3.

Definition words_bytes (l : list Z) : list Z := flat_map (le_bytes 4) l.

(** [iproute2-3.1.0/tc/q_tbf.c:208-215 tbf_parse_opt] *)
Definition tbf_append (o : tc_tbf_qopt) (rtab : list Z) (ptab : option (list Z)) (n : nlmsghdr) : nlmsghdr :=
  let tail := NLMSG_TAIL n in
  let n := (addattr_l n 1024 TCA_OPTIONS []).2 in
  let n := (addattr_l n 2024 TCA_PARMS (tbf_bytes o)).2 in
  let n := (addattr_l n 3024 TCA_TBF_RTAB (words_bytes rtab)).2 in
  let n := match ptab with Some p => (addattr_l n 4096 TCA_TBF_PTAB (words_bytes p)).2 | None => n end in
  mk_nlmsg (nlmsg_len n) (set_rta_len tail (NLMSG_TAIL n - tail) (mem n)).

(** [iproute2-3.1.0/tc/q_tbf.c:39-216 tbf_parse_opt] *)
Definition tbf_parse_opt (rtab ptab : list Z) (argv : list string) (n : nlmsghdr) : parse_outcome :=
  match read_words tbf_keyword argv tbf_start with
  | ArgExit => Exit 255
  | ArgError => Return (- 1) n []
  | Args w _ =>
      match tbf_compute w rtab ptab with
      | None => Return (- 1) n []
      | Some (o, rtab, ptab) => Return 0 (tbf_append o rtab ptab n) []
      end
  end.

(** ** Printing *)

Definition print_08x (z : Z) : string := pad_left 8 (print_x z).

(** The size of a bucket, with its cell in details, and the raw ticks.
    [iproute2-3.1.0/tc/q_tbf.c:239-261 tbf_print_opt] *)
Definition tbf_bucket (name plain : string) (show_details show_raw : bool) (r : tc_ratespec) (ticks : Z) : string :=
  let size := sprint_size (d_to_u32 (d_of_Z (tc_calc_xmitsize c (rs_rate r) ticks))) in
  (if show_details
   then name +:+ " " +:+ size +:+ "/" +:+ print_u (u32 (s32 (Z.shiftl 1 (rs_cell_log r)))) +:+ " mpu " +:+
        sprint_size (rs_mpu r) +:+ " "
   else plain +:+ " " +:+ size +:+ " ") +:+
  (if show_raw then "[" +:+ print_08x ticks +:+ "] " else "").

(** [iproute2-3.1.0/tc/q_tbf.c:266-272 tbf_print_opt] *)
Definition tbf_latency (o : tc_tbf_qopt) : double :=
  let lat r ticks :=
    (d_of_Z TIME_UNITS_PER_SEC * (d_of_Z (t_limit o) / d_of_Z (rs_rate r)) - d_of_Z (tc_core_tick2time c ticks))%D in
  let latency := lat (t_rate o) (t_buffer o) in
  if rs_rate (t_peakrate o) =? 0 then latency
  else let lat2 := lat (t_peakrate o) (t_mtu o) in if dgt lat2 latency then lat2 else latency.

(** [iproute2-3.1.0/tc/q_tbf.c:238-278 tbf_print_opt] *)
Definition tbf_text (show_details show_raw : bool) (o : tc_tbf_qopt) : string :=
  "rate " +:+ sprint_rate use_iec (rs_rate (t_rate o)) +:+ " " +:+
  tbf_bucket "burst" "burst" show_details show_raw (t_rate o) (t_buffer o) +:+
  (if rs_rate (t_peakrate o) =? 0 then ""
   else "peakrate " +:+ sprint_rate use_iec (rs_rate (t_peakrate o)) +:+ " " +:+
        (if (t_mtu o =? 0) && (rs_mpu (t_peakrate o) =? 0) then ""
         else tbf_bucket "mtu" "minburst" show_details show_raw (t_peakrate o) (t_mtu o))) +:+
  (if show_raw then "limit " +:+ sprint_size (t_limit o) +:+ " " else "") +:+
  "lat " +:+ sprint_time (d_to_u32 (tbf_latency o)) +:+ " " +:+
  (if rs_overhead (t_rate o) =? 0 then "" else "overhead " +:+ print_d (rs_overhead (t_rate o))).

(** [iproute2-3.1.0/tc/q_tbf.c:218-279 tbf_print_opt] *)
Definition tbf_print_opt (show_details show_raw : bool) (m : list Z) (opt : option Z) : Z * string :=
  match opt with
  | None => (0, "")
  | Some opt =>
      let tb := (parse_rtattr_nested m TCA_TBF_PTAB opt).1 in
      match tb !!! Z.to_nat TCA_PARMS with
      | None => (- 1, "")
      | Some a =>
          if RTA_PAYLOAD m a <? TBF_SIZE then (- 1, "")
          else (0, tbf_text show_details show_raw (tbf_of_bytes (load_bytes m (RTA_DATA a) TBF_SIZE)))
      end
  end.
End Tbf.

(** ** What is accepted *)

Lemma get_rate_range s z : get_rate s = Some z -> 0 <= z < 2 ^ 32.
Proof.
  unfold get_rate. destruct (strtod s) as [[x p]|]; [|done].
  destruct (String.eqb p ""); [intros E; injection E as <-; apply u32_range|].
  destruct (find_suffix suffixes p); [|done]. intros E. injection E as <-. apply u32_range.
Qed.

(** The fields that reach the structure unchanged fit. *)
Definition tbf_words_ok (w : tbf_words) : Prop :=
  0 <= tw_limit w < 2 ^ 32 /\ 0 <= tw_rate w < 2 ^ 32 /\ 0 <= tw_peakrate w < 2 ^ 32.

Lemma tbf_keyword_ok word set arg w w' :
  tbf_keyword word = Take set -> set arg w = Some w' -> tbf_words_ok w -> tbf_words_ok w'.
Proof.
  unfold tbf_keyword, once, store, tbf_words_ok. intros Hk Hs (W1 & W2 & W3).
  repeat (match goal with H : context [if ?b then Take _ else _] |- _ => destruct b end;
    [injection Hk as <-; cbv beta in Hs;
     repeat match type of Hs with
            | (if ?b then None else _) = _ => destruct b; [done|]
            | match ?e with _ => _ end = _ => let E := fresh "E" in destruct e eqn:E; [|done]
            end;
     try apply get_size_range in E; try apply get_rate_range in E;
     try match goal with p : (Z * option Z)%type |- _ => destruct p end;
     injection Hs as <-; (split; [assumption|split; assumption])|]).
  done.
Qed.

Lemma tbf_no_flag word set : tbf_keyword word = Flag set -> False.
Proof.
  unfold tbf_keyword, once, store.
  repeat (match goal with |- context [if ?b then Take _ else _] => destruct b; [done|] end). done.
Qed.

Record ratespec_wf (r : tc_ratespec) : Prop := {
  rs_wf_cell : 0 <= rs_cell_log r < 2 ^ 8;
  rs_wf_overhead : 0 <= rs_overhead r < 2 ^ 16;
  rs_wf_align : - 2 ^ 15 <= rs_cell_align r < 2 ^ 15;
  rs_wf_mpu : 0 <= rs_mpu r < 2 ^ 16;
  rs_wf_rate : 0 <= rs_rate r < 2 ^ 32
}.

Lemma field_bytes b off k n z :
  0 <= z < 2 ^ (8 * Z.of_nat n) -> load_bytes b off k = le_bytes n z -> of_le_bytes (load_bytes b off k) = z.
Proof. intros Hz ->. rewrite of_le_bytes_le. by apply Z.mod_small. Qed.

(** A rate specification at an offset of the structure. *)
Lemma ratespec_field b off r :
  ratespec_wf r ->
  load_bytes b off 1 = [u8 (rs_cell_log r)] -> load_bytes b (off + 2) 2 = le_bytes 2 (rs_overhead r) ->
  load_bytes b (off + 4) 2 = le_bytes 2 (rs_cell_align r) -> load_bytes b (off + 6) 2 = le_bytes 2 (rs_mpu r) ->
  load_bytes b (off + 8) 4 = le_bytes 4 (rs_rate r) ->
  ratespec_of_bytes b off = r.
Proof.
  intros [W1 W2 W3 W4 W5] H1 H2 H3 H4 H5. unfold ratespec_of_bytes, field32.
  rewrite (field_bytes b (off + 2) 2 2 _ W2 H2), (field_bytes b (off + 6) 2 2 _ W4 H4), (field_bytes b (off + 8) 4 4 _ W5 H5).
  rewrite H1, H3, of_le_bytes_le. cbn [of_le_bytes]. unfold u8. rewrite (Z.mod_small (rs_cell_log r)) by done.
  assert (s16 (rs_cell_align r mod 2 ^ (8 * Z.of_nat 2)) = rs_cell_align r) as ->.
  { unfold s16. change (2 ^ (8 * Z.of_nat 2)) with (2 ^ 16). Z.div_mod_to_equations; lia. }
  by rewrite Z.mul_0_r, Z.add_0_r.
Qed.

Record tbf_wf (o : tc_tbf_qopt) : Prop := {
  tb_rate : ratespec_wf (t_rate o);
  tb_peak : ratespec_wf (t_peakrate o);
  tb_words : 0 <= t_limit o < 2 ^ 32 /\ 0 <= t_buffer o < 2 ^ 32 /\ 0 <= t_mtu o < 2 ^ 32
}.

Lemma tbf_of_bytes_ok o : tbf_wf o -> tbf_of_bytes (tbf_bytes o) = o.
Proof.
  intros [W1 W2 (W3 & W4 & W5)]. unfold tbf_of_bytes.
  rewrite (ratespec_field _ 0 _ W1), (ratespec_field _ 12 _ W2) by reflexivity.
  rewrite (word_field _ 24 _ W3), (word_field _ 28 _ W4), (word_field _ 32 _ W5) by reflexivity. reflexivity.
Qed.

(** ** The tables *)

(** The ticks for each slot of a rate table. *)
Definition rate_slots (c : core) (rate mpu cell_log : Z) (layer : link_layer) : list Z :=
  (fun i => tc_calc_xmittime c rate (tc_adjust_size (u32 (Z.shiftl (Z.of_nat i + 1) cell_log)) mpu layer)) <$> seq 0 256.

Lemma find_cell_log_nonneg fuel mtu bound cell_log : 0 <= cell_log -> 0 <= find_cell_log fuel mtu bound cell_log.
Proof.
  revert cell_log. induction fuel as [|fuel IH]; intros k Hk; cbn [find_cell_log]; [done|].
  destruct (_ <? _); [apply IH; lia|done].
Qed.

(** A rate table is never refused, and fills every slot. *)
Lemma calc_rtable_ok c r rtab cell_log mtu layer :
  List.length rtab = 256%nat ->
  exists log, tc_calc_rtable c r rtab cell_log mtu layer =
    (log, r <| rs_cell_align := - 1 |> <| rs_cell_log := u8 log |>, rate_slots c (rs_rate r) (rs_mpu r) log layer) /\
    0 <= log /\ (0 <= cell_log -> log = cell_log).
Proof.
  intros Hl. unfold tc_calc_rtable. set (log := if cell_log <? 0 then _ else cell_log). exists log.
  rewrite for_n_tabulate by done. split; [done|]. unfold log.
  destruct (Z.ltb_spec cell_log 0); [|done]. split; [by apply find_cell_log_nonneg|lia].
Qed.

Lemma xmittime_range c rate size : 0 <= tc_calc_xmittime c rate size < 2 ^ 32.
Proof. unfold tc_calc_xmittime, tc_core_time2tick. apply u32_range. Qed.

Lemma rate_slots_length c rate mpu log layer : List.length (rate_slots c rate mpu log layer) = 256%nat.
Proof. unfold rate_slots. by rewrite length_fmap, length_seq. Qed.

Lemma words_bytes_length l : List.length (words_bytes l) = (4 * List.length l)%nat.
Proof. induction l as [|z l IH]; [done|]. change (words_bytes (z :: l)) with (le_bytes 4 z ++ words_bytes l).
  rewrite length_app, le_bytes_length, IH. cbn [List.length]. lia.
Qed.

(** The specification [tc_calc_rtable] completes. *)
Definition full_rate (w : tbf_words) (rate log : Z) : tc_ratespec :=
  mk_ratespec (u8 log) (u16 (tw_overhead w)) (- 1) (u16 (tw_mpu w)) rate.

Lemma full_rate_wf w rate log : 0 <= rate < 2 ^ 32 -> ratespec_wf (full_rate w rate log).
Proof. intros Hr. constructor; cbn; unfold u8, u16; try (apply Z.mod_pos_bound; lia); lia. Qed.

(** What is computed when the words are accepted. *)
Record tbf_result (c : core) (w : tbf_words) (o : tc_tbf_qopt) (rtab : list Z) (ptab : option (list Z)) : Prop := {
  tr_given : tw_rate w <> 0 /\ tw_buffer w <> 0 /\ (tw_limit w <> 0 \/ tw_latency w <> 0) /\
             (tw_peakrate w <> 0 -> tw_mtu w <> 0);
  tr_fields : t_limit o = tbf_limit w /\ t_buffer o = tc_calc_xmittime c (tw_rate w) (tw_buffer w);
  tr_rate : exists log, 0 <= log /\ (0 <= tw_Rcell_log w -> log = tw_Rcell_log w) /\
    t_rate o = full_rate w (tw_rate w) log /\
    rtab = rate_slots c (tw_rate w) (u16 (tw_mpu w)) log (tw_linklayer w);
  tr_peak : if tw_peakrate w =? 0 then ptab = None /\ t_peakrate o = mk_ratespec 0 0 0 0 0 /\ t_mtu o = 0
    else exists log, 0 <= log /\ (0 <= tw_Pcell_log w -> log = tw_Pcell_log w) /\
      t_peakrate o = full_rate w (tw_peakrate w) log /\ t_mtu o = tc_calc_xmittime c (tw_peakrate w) (tw_mtu w) /\
      ptab = Some (rate_slots c (tw_peakrate w) (u16 (tw_mpu w)) log (tw_linklayer w))
}.

Lemma tbf_compute_ok c w rtab0 ptab0 o rtab ptab :
  List.length rtab0 = 256%nat -> List.length ptab0 = 256%nat ->
  tbf_compute c w rtab0 ptab0 = Some (o, rtab, ptab) -> tbf_result c w o rtab ptab.
Proof.
  intros Hr Hp. unfold tbf_compute.
  destruct (tw_ok w =? 0); [done|]. destruct (_ || _) eqn:E1; [done|].
  destruct (nonzero (tw_peakrate w) && (tw_mtu w =? 0)) eqn:E2; [done|].
  destruct ((tw_limit w =? 0) && (tw_latency w =? 0)) eqn:E3; [done|].
  rewrite orb_false_iff, !Z.eqb_neq in E1. destruct E1 as [G1 G2].
  rewrite andb_false_iff, !Z.eqb_neq in E3. unfold nonzero in E2. rewrite andb_false_iff, negb_false_iff, Z.eqb_eq, Z.eqb_neq in E2.
  destruct (calc_rtable_ok c (rate_start w (tw_rate w)) rtab0 (tw_Rcell_log w) (tw_mtu w) (tw_linklayer w) Hr)
    as (log & -> & L1 & L2).
  rewrite (proj2 (Z.ltb_ge log 0)) by done. cbv zeta.
  assert (tw_rate w <> 0 /\ tw_buffer w <> 0 /\ (tw_limit w <> 0 \/ tw_latency w <> 0) /\
    (tw_peakrate w <> 0 -> tw_mtu w <> 0)) as Hg by (split_and!; [done|done|done|intros; destruct E2; [lia|done]]).
  destruct (Z.eqb_spec (tw_peakrate w) 0) as [Hz|Hz].
  - intros E. injection E as <- <- <-. constructor; [done|done|by exists log|].
    rewrite (proj2 (Z.eqb_eq _ 0)) by done. cbn. by rewrite Hz.
  - destruct (calc_rtable_ok c (rate_start w (tw_peakrate w)) ptab0 (tw_Pcell_log w) (tw_mtu w) (tw_linklayer w) Hp)
      as (plog & -> & P1 & P2).
    rewrite (proj2 (Z.ltb_ge plog 0)) by done. intros E. injection E as <- <- <-.
    constructor; [done|done|by exists log|]. rewrite (proj2 (Z.eqb_neq _ 0)) by done. by exists plog.
Qed.

Lemma tbf_result_wf c w o rtab ptab : tbf_words_ok w -> tbf_result c w o rtab ptab -> tbf_wf o.
Proof.
  intros (W1 & W2 & W3) [_ [F1 F2] (log & _ & _ & Er & _) Hp].
  assert (0 <= t_limit o < 2 ^ 32) as Hl.
  { rewrite F1. unfold tbf_limit. destruct (tw_limit w =? 0); [apply u32_range|done]. }
  assert (0 <= t_buffer o < 2 ^ 32) as Hb by (rewrite F2; apply xmittime_range).
  destruct (tw_peakrate w =? 0).
  - destruct Hp as (_ & Ep & Em). constructor; [rewrite Er; by apply full_rate_wf|rewrite Ep; by constructor|].
    rewrite Em. done.
  - destruct Hp as (plog & _ & _ & Ep & Em & _).
    constructor; [rewrite Er; by apply full_rate_wf|rewrite Ep; by apply full_rate_wf|].
    rewrite Em. split; [done|]. split; [done|]. apply xmittime_range.
Qed.

(** ** The message *)

Definition tbf_attrs (o : tc_tbf_qopt) (rtab : list Z) (ptab : option (list Z)) : list (Z * list Z) :=
  (TCA_PARMS, tbf_bytes o) :: (TCA_TBF_RTAB, words_bytes rtab) ::
  match ptab with Some p => [(TCA_TBF_PTAB, words_bytes p)] | None => [] end.

(** The bound given to [addattr_l] does not matter while there is room. *)
Lemma addattr_l_bound n m1 m2 type data :
  0 <= nlmsg_len n -> NLMSG_TAIL n + attr_span data <= m1 < 2 ^ 32 -> NLMSG_TAIL n + attr_span data <= m2 < 2 ^ 32 ->
  addattr_l n m1 type data = addattr_l n m2 type data.
Proof. intros H0 H1 H2. by rewrite !addattr_l_fits. Qed.

Lemma addattr_l_tail n maxlen type data :
  0 <= nlmsg_len n -> NLMSG_TAIL n + attr_span data <= maxlen < 2 ^ 32 ->
  0 <= nlmsg_len (addattr_l n maxlen type data).2 /\
  NLMSG_TAIL (addattr_l n maxlen type data).2 = NLMSG_TAIL n + attr_span data.
Proof.
  intros H0 H1. rewrite addattr_l_fits by done. pose proof (tail_bounds n). pose proof (attr_span_bounds data).
  cbn [snd nlmsg_len]. split; [lia|]. unfold NLMSG_TAIL at 1. cbn [nlmsg_len]. apply RTA_ALIGN_aligned.
  Z.div_mod_to_equations; lia.
Qed.

Lemma tbf_append_eq o rtab ptab n :
  0 <= nlmsg_len n -> NLMSG_TAIL n <= 1020 -> List.length rtab = 256%nat ->
  (forall p, ptab = Some p -> List.length p = 256%nat) ->
  tbf_append o rtab ptab n =
    (addattr_nest_end (add_all 4096 (tbf_attrs o rtab ptab) (addattr_nest n 4096 TCA_OPTIONS).2) (NLMSG_TAIL n)).2.
Proof.
  intros Hl Ht Hr Hp. unfold tbf_append, addattr_nest_end, addattr_nest, add_all, tbf_attrs. cbn [snd].
  assert (attr_span [] = 4 /\ attr_span (tbf_bytes o) = 40) as [S0 S1] by done.
  assert (forall l : list Z, List.length l = 256%nat -> attr_span (words_bytes l) = 1028) as S2
    by (intros l E; unfold attr_span; rewrite words_bytes_length, E; reflexivity).
  rewrite (addattr_l_bound n 1024 4096) by (rewrite ?S0; lia).
  destruct (addattr_l_tail n 4096 TCA_OPTIONS []) as [L1 T1]; [done|rewrite S0; lia|]. rewrite S0 in T1.
  set (n1 := (addattr_l n 4096 TCA_OPTIONS []).2) in *.
  cbn [foldl fst snd].
  rewrite (addattr_l_bound n1 2024 4096) by (rewrite ?S1; lia).
  destruct (addattr_l_tail n1 4096 TCA_PARMS (tbf_bytes o)) as [L2 T2]; [done|rewrite S1; lia|]. rewrite S1 in T2.
  set (n2 := (addattr_l n1 4096 TCA_PARMS (tbf_bytes o)).2) in *.
  rewrite (addattr_l_bound n2 3024 4096) by (rewrite ?(S2 rtab Hr); lia).
  by destruct ptab.
Qed.

(** What the message then holds. *)
Lemma tbf_nest o rtab ptab n :
  0 <= nlmsg_len n -> NLMSG_TAIL n <= 1020 -> 4096 <= Z.of_nat (List.length (mem n)) ->
  List.length rtab = 256%nat -> (forall p, ptab = Some p -> List.length p = 256%nat) ->
  let m := mem (tbf_append o rtab ptab n) in
  let off := NLMSG_TAIL n in
  same_below off (mem n) m /\ rta_type m off = TCA_OPTIONS /\
  parse_rtattr_nested m TCA_TBF_PTAB off =
    ([None; Some (off + 4); Some (off + 44); match ptab with Some _ => Some (off + 1072) | None => None end], 0) /\
  attr_at m (off + 4) TCA_PARMS (tbf_bytes o) /\ attr_at m (off + 44) TCA_TBF_RTAB (words_bytes rtab) /\
  match ptab with Some p => attr_at m (off + 1072) TCA_TBF_PTAB (words_bytes p) | None => True end.
Proof.
  intros Hl Ht Hm Hr Hp m off. unfold m. rewrite tbf_append_eq by done. fold off.
  assert (forall l : list Z, List.length l = 256%nat -> attr_span (words_bytes l) = 1028) as S2
    by (intros l E; unfold attr_span; rewrite words_bytes_length, E; reflexivity).
  set (l := tbf_attrs o rtab ptab).
  assert (0 <= span l <= 2096) as Hsp.
  { pose proof (span_bounds l). unfold l, tbf_attrs. cbn [span]. change (attr_span (tbf_bytes o)) with 40. rewrite (S2 rtab Hr).
    destruct ptab as [p|]; cbn [span]; [rewrite (S2 p (Hp p eq_refl))|]; lia. }
  assert (types_ok l) as Hty by (unfold l, tbf_attrs; destruct ptab; repeat constructor; vm_compute; congruence).
  pose proof (nested_ok n 4096 TCA_OPTIONS TCA_TBF_PTAB l) as H.
  specialize (H ltac:(constructor; lia) ltac:(done) Hty).
  change (addattr_nest n 4096 TCA_OPTIONS) with (off, (addattr_nest n 4096 TCA_OPTIONS).2) in H. cbv iota beta in H.
  destruct (addattr_nest_end (add_all 4096 l (addattr_nest n 4096 TCA_OPTIONS).2) off) as [r n'] eqn:E. cbn [snd].
  destruct H as (H1 & H2 & H3 & _ & _ & _ & H4 & _). split; [done|]. split; [done|].
  unfold l, tbf_attrs in H1, H2. cbn [attrs_at fill_table] in H1, H2.
  change (attr_span (tbf_bytes o)) with 40 in *. rewrite (S2 rtab Hr) in *. replace (off + 4 + 40) with (off + 44) in * by lia.
  replace (off + 44 + 1028) with (off + 1072) in * by lia.
  destruct H2 as (A1 & A2 & A3). split; [rewrite H1; by destruct ptab|]. split; [done|]. split; [done|].
  destruct ptab; [apply A3|done].
Qed.

(** An accepted command for TBF gives rate, burst and limit or latency; the tables hold
    the ticks of every slot of both rates; and a message with room for 4 kilobytes holds
    exactly the structure and the tables, which the printer shows. *)
Theorem tbf_request c (rtab0 ptab0 : list Z) argv n w rest o rtab ptab :
  read_words tbf_keyword argv tbf_start = Args w rest -> tbf_compute c w rtab0 ptab0 = Some (o, rtab, ptab) ->
  List.length rtab0 = 256%nat -> List.length ptab0 = 256%nat ->
  0 <= nlmsg_len n -> NLMSG_TAIL n <= 1020 -> 4096 <= Z.of_nat (List.length (mem n)) ->
  tbf_result c w o rtab ptab /\
  exists n', tbf_parse_opt c rtab0 ptab0 argv n = Return 0 n' [] /\
    same_below (NLMSG_TAIL n) (mem n) (mem n') /\ rta_type (mem n') (NLMSG_TAIL n) = TCA_OPTIONS /\
    (exists a b tp, parse_rtattr_nested (mem n') TCA_TBF_PTAB (NLMSG_TAIL n) = ([None; Some a; Some b; tp], 0) /\
       tbf_of_bytes (load_bytes (mem n') (RTA_DATA a) TBF_SIZE) = o /\
       load_bytes (mem n') (RTA_DATA b) 1024 = words_bytes rtab /\
       match ptab, tp with
       | Some p, Some t => load_bytes (mem n') (RTA_DATA t) 1024 = words_bytes p
       | None, None => True
       | _, _ => False
       end) /\
    forall use_iec show_details show_raw,
      tbf_print_opt c use_iec show_details show_raw (mem n') (Some (NLMSG_TAIL n)) =
        (0, tbf_text c use_iec show_details show_raw o).
Proof.
  intros Hrd Hc Hr Hp Hl Ht Hm. pose proof (tbf_compute_ok _ _ _ _ _ _ _ Hr Hp Hc) as Hres. split; [done|].
  assert (tbf_words_ok w) as Hw.
  { apply (read_words_inv tbf_keyword tbf_words_ok tbf_keyword_ok
      (fun word set _ _ E _ => match tbf_no_flag word set E with end) _ _ _ _ Hrd). done. }
  pose proof (tbf_of_bytes_ok o (tbf_result_wf _ _ _ _ _ Hw Hres)) as Edec.
  assert (List.length rtab = 256%nat) as Lr by (destruct Hres as [_ _ (? & _ & _ & _ & ->) _]; apply rate_slots_length).
  assert (forall p, ptab = Some p -> List.length p = 256%nat) as Lp.
  { intros p ->. destruct Hres as [_ _ _ Hpk]. destruct (tw_peakrate w =? 0); [by destruct Hpk|].
    destruct Hpk as (? & _ & _ & _ & _ & E). injection E as ->. apply rate_slots_length. }
  destruct (tbf_nest o rtab ptab n Hl Ht Hm Lr Lp) as (N1 & N2 & N3 & (P1 & _ & P3) & (_ & _ & R3) & Np).
  set (n' := tbf_append o rtab ptab n) in *. set (off := NLMSG_TAIL n) in *.
  change (Z.of_nat (List.length (tbf_bytes o))) with TBF_SIZE in P1, P3.
  assert (forall l : list Z, List.length l = 256%nat -> Z.of_nat (List.length (words_bytes l)) = 1024) as Lw
    by (intros l E; rewrite words_bytes_length, E; reflexivity).
  rewrite (Lw rtab Lr) in R3.
  exists n'. split; [unfold tbf_parse_opt; by rewrite Hrd, Hc|]. split; [done|]. split; [done|]. split.
  - eexists _, _, _. split; [exact N3|]. change (RTA_DATA (off + 4)) with (off + 4 + 4). rewrite P3.
    split; [done|]. split; [exact R3|]. destruct ptab as [p|]; [|done]. destruct Np as (_ & _ & D).
    by rewrite (Lw p (Lp p eq_refl)) in D.
  - intros iec sd sr. unfold tbf_print_opt. rewrite N3. cbn [fst].
    match goal with |- context [?l !!! Z.to_nat TCA_PARMS] => change (l !!! Z.to_nat TCA_PARMS) with (Some (off + 4)) end.
    cbv iota. unfold RTA_PAYLOAD. rewrite P1. change (4 + TBF_SIZE - RTA_LENGTH 0 <? TBF_SIZE) with false. cbv iota.
    change (RTA_DATA (off + 4)) with (off + 4 + 4). by rewrite P3, Edec.
Qed.

Definition demo_tbf_words : tbf_words := mk_tbf_words 0 125000 0 3 10240 0 0 50000 (- 1) (- 1) 0 LINKLAYER_ETHERNET.

Definition demo_tbf : tc_tbf_qopt :=
  mk_tbf (full_rate demo_tbf_words 125000 3) (mk_ratespec 0 0 0 0 0) 16490 81920 0.

Lemma tbf_request_witness :
  exists n', tbf_parse_opt core_default (replicate 256 0) (replicate 256 0)
      ["rate"; "1mbit"; "burst"; "10k"; "latency"; "50ms"] (mk_nlmsg 36 (replicate (Z.to_nat 4096) 0)) = Return 0 n' [] /\
    tbf_print_opt core_default false true false (mem n') (Some 36) = (0, tbf_text core_default false true false demo_tbf).
Proof.
  destruct (tbf_request core_default (replicate 256 0) (replicate 256 0)
    ["rate"; "1mbit"; "burst"; "10k"; "latency"; "50ms"] (mk_nlmsg 36 (replicate (Z.to_nat 4096) 0))
    demo_tbf_words [] demo_tbf (rate_slots core_default 125000 0 3 LINKLAYER_ETHERNET) None)
    as (_ & n' & H1 & _ & _ & _ & H2).
  - vm_compute. reflexivity.
  - vm_compute. reflexivity.
  - reflexivity.
  - reflexivity.
  - done.
  - vm_compute. discriminate.
  - vm_compute. discriminate.
  - exists n'. split; [exact H1|exact (H2 false true false)].
Defined.

Example tbf_shown :
  tbf_text core_default false false false demo_tbf = "rate 1000Kbit burst 10Kb lat 50.0ms ".
Proof. vm_compute. reflexivity. Qed.
