(* ===== verification/TcHtb.v ===== *)
(** * HTB (iproute2-3.1.0/tc/q_htb.c)

    The hierarchical token bucket: the options of the discipline and of its classes, with
    their two rate tables, and back to text. *)

From S2P Require Export TcTbf AttrTree.

#[local] Open Scope list_scope.

#[local] Set Primitive Projections.

(** [iproute2-3.1.0/include/linux/pkt_sched.h:380-388 tc_htb_glob] *)
Record tc_htb_glob := mk_glob { version : Z; rate2quantum : Z; defcls : Z; debug : Z; direct_pkts : Z }.

(** [iproute2-3.1.0/include/linux/pkt_sched.h:371-379 tc_htb_opt] *)
Record tc_htb_opt := mk_htb {
  h_rate : tc_ratespec; h_ceil : tc_ratespec; h_buffer : Z; h_cbuffer : Z; h_quantum : Z; h_level : Z; h_prio : Z
}.

(** The fields the words set, and the locals.  [iproute2-3.1.0/tc/q_htb.c:103-114 htb_parse_class_opt] *)
Record htb_words := mk_htb_words {
  hw_prio : Z; hw_quantum : Z; hw_rate : Z; hw_ceil : Z; hw_buffer : Z; hw_cbuffer : Z; hw_cell_log : Z;
  hw_ccell_log : Z; hw_mtu : Z; hw_mpu : Z; hw_overhead : Z; hw_linklayer : link_layer
}.

#[local] Unset Primitive Projections.

Definition TCA_HTB_PARMS : Z := 1.
Definition TCA_HTB_INIT : Z := 2.
Definition TCA_HTB_CTAB : Z := 3.
Definition TCA_HTB_RTAB : Z := 4.

Definition GLOB_SIZE : Z := 20.
Definition HTB_SIZE : Z := 44.

Definition glob_bytes (o : tc_htb_glob) : list Z :=
  int_bytes (version o) ++ int_bytes (rate2quantum o) ++ int_bytes (defcls o) ++ int_bytes (debug o) ++
  int_bytes (direct_pkts o).

Definition glob_of_bytes (b : list Z) : tc_htb_glob :=
  mk_glob (field32 b 0) (field32 b 4) (field32 b 8) (field32 b 12) (field32 b 16).

Definition htb_bytes (o : tc_htb_opt) : list Z :=
  ratespec_bytes (h_rate o) ++ ratespec_bytes (h_ceil o) ++ int_bytes (h_buffer o) ++ int_bytes (h_cbuffer o) ++
  int_bytes (h_quantum o) ++ int_bytes (h_level o) ++ int_bytes (h_prio o).

Definition htb_of_bytes (b : list Z) : tc_htb_opt :=
  mk_htb (ratespec_of_bytes b 0) (ratespec_of_bytes b 12) (field32 b 24) (field32 b 28) (field32 b 32) (field32 b 36)
    (field32 b 40).

(** ** The discipline *)

(** Two bits for each of the first 16 digits from 0 to 3; the string ends the loop too.
    [iproute2-3.1.0/tc/q_htb.c:83-86 htb_parse_opt] *)
Fixpoint debug_bits (n : nat) (i : Z) (p : string) (d : Z) : Z :=
  match n, p with
  | S n, String ch p =>
      let v := Z.of_nat (nat_of_ascii ch) - 48 in
      if (v <? 0) || (3 <? v) then d else debug_bits n (i + 1) p (Z.lor d (u32 (Z.shiftl v (2 * i))))
  | _, _ => d
  end.

(** [iproute2-3.1.0/tc/q_htb.c:71-91 htb_parse_opt] *)
Definition htb_keyword (word : string) : word_action tc_htb_glob :=
  if matches word "r2q" then store (fun arg => get_u32 arg 10) (fun v o => o <| rate2quantum := v |>)
  else if matches word "default" then store (fun arg => get_u32 arg 16) (fun v o => o <| defcls := v |>)
  else if matches word "debug" then Take (fun arg o => Some (o <| debug := debug_bits 16 0 arg (debug o) |>))
  else Stop.

(** [iproute2-3.1.0/tc/q_htb.c:61-99 htb_parse_opt] *)
Definition htb_parse_opt (argv : list string) (n : nlmsghdr) : parse_outcome :=
  match read_words htb_keyword argv (mk_glob 3 10 0 0 0) with
  | ArgExit => Exit 255
  | ArgError => Return (- 1) n []
  | Args o _ =>
      let tail := NLMSG_TAIL n in
      let n := (addattr_l n 1024 TCA_OPTIONS []).2 in
      let n := (addattr_l n 2024 TCA_HTB_INIT (glob_bytes o)).2 in
      Return 0 (mk_nlmsg (nlmsg_len n) (set_rta_len tail (NLMSG_TAIL n - tail) (mem n))) []
  end.

(** ** The classes *)

(** A rate that must not be given twice. *)
Definition rate_once (given : htb_words -> Z) (set : Z -> htb_words -> htb_words) : word_action htb_words :=
  Take (fun arg w =>
    if nonzero (given w) then None else match get_rate arg with Some v => Some (set v w) | None => None end).

(** [iproute2-3.1.0/tc/q_htb.c:117-195 htb_parse_class_opt] *)
Definition htb_class_keyword (word : string) : word_action htb_words :=
  if matches word "prio" then store (fun arg => get_u32 arg 10) (fun v w => w <| hw_prio := v |>)
  else if matches word "mtu" then store (fun arg => get_u32 arg 10) (fun v w => w <| hw_mtu := v |>)
  else if matches word "mpu" then store (fun arg => get_u16 arg 10) (fun v w => w <| hw_mpu := v |>)
  else if matches word "overhead" then store (fun arg => get_u16 arg 10) (fun v w => w <| hw_overhead := v |>)
  else if matches word "linklayer" then store get_linklayer (fun v w => w <| hw_linklayer := v |>)
  else if matches word "quantum" then store (fun arg => get_u32 arg 10) (fun v w => w <| hw_quantum := v |>)
  else if matches word "burst" || String.eqb word "buffer" || String.eqb word "maxburst" then
    store (parsed_cell get_size_and_cell)
      (fun '(v, cell) w => (w <| hw_buffer := v |>) <| hw_cell_log := default (hw_cell_log w) cell |>)
  else if matches word "cburst" || String.eqb word "cbuffer" || String.eqb word "cmaxburst" then
    store (parsed_cell get_size_and_cell)
      (fun '(v, cell) w => (w <| hw_cbuffer := v |>) <| hw_ccell_log := default (hw_ccell_log w) cell |>)
  else if String.eqb word "ceil" then rate_once hw_ceil (fun v w => w <| hw_ceil := v |>)
  else if String.eqb word "rate" then rate_once hw_rate (fun v w => w <| hw_rate := v |>)
  else Stop.

Definition htb_class_start : htb_words := mk_htb_words 0 0 0 0 0 0 (- 1) (- 1) 1600 0 0 LINKLAYER_ETHERNET.

Section Htb.
Context (c : core) (use_iec : bool) (hz : Z).

(** [hz] is [get_hz()].  [iproute2-3.1.0/tc/q_htb.c:202-230 htb_parse_class_opt] *)
Definition htb_compute (w : htb_words) (rtab ctab : list Z) : option (tc_htb_opt * list Z * list Z) :=
  if hw_rate w =? 0 then None
  else
    let ceil := if hw_ceil w =? 0 then hw_rate w else hw_ceil w in
    let buffer := if hw_buffer w =? 0 then u32 (hw_rate w / hz + hw_mtu w) else hw_buffer w in
    let cbuffer := if hw_cbuffer w =? 0 then u32 (ceil / hz + hw_mtu w) else hw_cbuffer w in
    let '(r, rs, rtab) :=
      tc_calc_rtable c (mk_ratespec 0 (hw_overhead w) 0 (hw_mpu w) (hw_rate w)) rtab (hw_cell_log w) (hw_mtu w) (hw_linklayer w) in
    if r <? 0 then None
    else
      let '(r, cs, ctab) :=
        tc_calc_rtable c (mk_ratespec 0 (hw_overhead w) 0 (hw_mpu w) ceil) ctab (hw_ccell_log w) (hw_mtu w) (hw_linklayer w) in
      if r <? 0 then None
      else
        Some (mk_htb rs cs (tc_calc_xmittime c (rs_rate rs) buffer) (tc_calc_xmittime c (rs_rate cs) cbuffer)
                (hw_quantum w) 0 (hw_prio w), rtab, ctab).

(** [iproute2-3.1.0/tc/q_htb.c:232-237 htb_parse_class_opt] *)
Definition htb_append (o : tc_htb_opt) (rtab ctab : list Z) (n : nlmsghdr) : nlmsghdr :=
  let tail := NLMSG_TAIL n in
  let n := (addattr_l n 1024 TCA_OPTIONS []).2 in
  let n := (addattr_l n 2024 TCA_HTB_PARMS (htb_bytes o)).2 in
  let n := (addattr_l n 3024 TCA_HTB_RTAB (words_bytes rtab)).2 in
  let n := (addattr_l n 4024 TCA_HTB_CTAB (words_bytes ctab)).2 in
  mk_nlmsg (nlmsg_len n) (set_rta_len tail (NLMSG_TAIL n - tail) (mem n)).

(** [rtab] and [ctab] are what the two arrays held.
    [iproute2-3.1.0/tc/q_htb.c:101-239 htb_parse_class_opt] *)
Definition htb_parse_class_opt (rtab ctab : list Z) (argv : list string) (n : nlmsghdr) : parse_outcome :=
  match read_words htb_class_keyword argv htb_class_start with
  | ArgExit => Exit 255
  | ArgError => Return (- 1) n []
  | Args w _ =>
      match htb_compute w rtab ctab with
      | None => Return (- 1) n []
      | Some (o, rtab, ctab) => Return 0 (htb_append o rtab ctab n) []
      end
  end.

(** A bucket with its details; the part called overhead is the upper byte of the minimal
    unit.  [iproute2-3.1.0/tc/q_htb.c:271-280 htb_print_opt] *)
Definition htb_bucket (name : string) (size : Z) (r : tc_ratespec) : string :=
  name +:+ " " +:+ sprint_size size +:+ "/" +:+ print_u (u32 (s32 (Z.shiftl 1 (rs_cell_log r)))) +:+ " mpu " +:+
  sprint_size (Z.land (rs_mpu r) 0xFF) +:+ " overhead " +:+ sprint_size (Z.land (Z.shiftr (rs_mpu r) 8) 0xFF) +:+ " ".

(** [iproute2-3.1.0/tc/q_htb.c:261-288 htb_print_opt] *)
Definition htb_text (show_details show_raw : bool) (o : tc_htb_opt) : string :=
  let buffer := d_to_u32 (d_of_Z (tc_calc_xmitsize c (rs_rate (h_rate o)) (h_buffer o))) in
  let cbuffer := d_to_u32 (d_of_Z (tc_calc_xmitsize c (rs_rate (h_ceil o)) (h_cbuffer o))) in
  (if h_level o =? 0 then
     "prio " +:+ print_d (s32 (h_prio o)) +:+ " " +:+
     (if show_details then "quantum " +:+ print_d (s32 (h_quantum o)) +:+ " " else "")
   else "") +:+
  "rate " +:+ sprint_rate use_iec (rs_rate (h_rate o)) +:+ " " +:+
  "ceil " +:+ sprint_rate use_iec (rs_rate (h_ceil o)) +:+ " " +:+
  (if show_details
   then htb_bucket "burst" buffer (h_rate o) +:+ htb_bucket "cburst" cbuffer (h_ceil o) +:+
        "level " +:+ print_d (s32 (h_level o)) +:+ " "
   else "burst " +:+ sprint_size buffer +:+ " " +:+ "cburst " +:+ sprint_size cbuffer +:+ " ") +:+
  (if show_raw then "buffer [" +:+ print_08x (h_buffer o) +:+ "] cbuffer [" +:+ print_08x (h_cbuffer o) +:+ "] " else "").

(** [iproute2-3.1.0/tc/q_htb.c:294-297 htb_print_opt] *)
Definition glob_text (show_details : bool) (g : tc_htb_glob) : string :=
  "r2q " +:+ print_d (s32 (rate2quantum g)) +:+ " default " +:+ print_x (defcls g) +:+ " direct_packets_stat " +:+
  print_u (direct_pkts g) +:+
  (if show_details
   then " ver " +:+ print_d (s32 (Z.shiftr (version g) 16)) +:+ "." +:+ print_d (s32 (Z.land (version g) 0xffff))
   else "").

(** [iproute2-3.1.0/tc/q_htb.c:241-300 htb_print_opt] *)
Definition htb_print_opt (show_details show_raw : bool) (m : list Z) (opt : option Z) : Z * string :=
  match opt with
  | None => (0, "")
  | Some opt =>
      let tb := (parse_rtattr_nested m TCA_HTB_RTAB opt).1 in
      let '(r, out) :=
        match tb !!! Z.to_nat TCA_HTB_PARMS with
        | None => (0, "")
        | Some a =>
            if RTA_PAYLOAD m a <? HTB_SIZE then (- 1, "")
            else (0, htb_text show_details show_raw (htb_of_bytes (load_bytes m (RTA_DATA a) HTB_SIZE)))
        end in
      if r <? 0 then (r, out)
      else
        match tb !!! Z.to_nat TCA_HTB_INIT with
        | None => (0, out)
        | Some a =>
            if RTA_PAYLOAD m a <? GLOB_SIZE then (- 1, out)
            else (0, out +:+ glob_text show_details (glob_of_bytes (load_bytes m (RTA_DATA a) GLOB_SIZE)))
        end
  end.
End Htb.

(** [iproute2-3.1.0/tc/q_htb.c:302-316 htb_print_xstats] *)
Definition htb_print_xstats (m : list Z) (xstats : option Z) : Z * string :=
  match xstats with
  | None => (0, "")
  | Some a =>
      if RTA_PAYLOAD m a <? 20 then (- 1, "")
      else
        let b := load_bytes m (RTA_DATA a) 20 in
        (0, " lended: " +:+ print_u (field32 b 0) +:+ " borrowed: " +:+ print_u (field32 b 4) +:+
            " giants: " +:+ print_u (field32 b 8) +:+ newline +:+
            " tokens: " +:+ print_d (s32 (field32 b 12)) +:+ " ctokens: " +:+ print_d (s32 (field32 b 16)) +:+ newline)
  end.

(** ** What the words allow *)

Definition htb_words_ok (w : htb_words) : Prop :=
  0 <= hw_prio w < 2 ^ 32 /\ 0 <= hw_quantum w < 2 ^ 32 /\ 0 <= hw_rate w < 2 ^ 32 /\ 0 <= hw_ceil w < 2 ^ 32 /\
  0 <= hw_mpu w < 2 ^ 16 /\ 0 <= hw_overhead w < 2 ^ 16.

Lemma htb_class_keyword_ok word set arg w w' :
  htb_class_keyword word = Take set -> set arg w = Some w' -> htb_words_ok w -> htb_words_ok w'.
Proof.
  unfold htb_class_keyword, rate_once, store, htb_words_ok. intros Hk Hs (W1 & W2 & W3 & W4 & W5 & W6).
  repeat (match goal with H : context [if ?b then Take _ else _] |- _ => destruct b end;
    [injection Hk as <-; cbv beta in Hs;
     repeat match type of Hs with
            | (if ?b then None else _) = _ => destruct b; [done|]
            | match ?e with _ => _ end = _ => let E := fresh "E" in destruct e eqn:E; [|done]
            end;
     try apply get_u32_range in E; try apply get_u16_range in E; try apply get_rate_range in E;
     try match goal with p : (Z * option Z)%type |- _ => destruct p end;
     injection Hs as <-; repeat (split; [assumption|]); assumption|]).
  done.
Qed.

Lemma htb_no_flag word set : htb_class_keyword word = Flag set -> False.
Proof.
  unfold htb_class_keyword, rate_once, store.
  repeat (match goal with |- context [if ?b then Take _ else _] => destruct b; [done|] end). done.
Qed.

(** ** The structure *)

Record htb_wf (o : tc_htb_opt) : Prop := {
  hb_rate : ratespec_wf (h_rate o);
  hb_ceil : ratespec_wf (h_ceil o);
  hb_words : Forall (fun z => 0 <= z < 2 ^ 32) [h_buffer o; h_cbuffer o; h_quantum o; h_level o; h_prio o]
}.

Lemma htb_of_bytes_ok o : htb_wf o -> htb_of_bytes (htb_bytes o) = o.
Proof.
  intros [W1 W2 W3]. rewrite !Forall_cons in W3. destruct W3 as (B1 & B2 & B3 & B4 & B5 & _). unfold htb_of_bytes.
  rewrite (ratespec_field _ 0 _ W1), (ratespec_field _ 12 _ W2) by reflexivity.
  rewrite (word_field _ 24 _ B1), (word_field _ 28 _ B2), (word_field _ 32 _ B3), (word_field _ 36 _ B4),
    (word_field _ 40 _ B5) by reflexivity. reflexivity.
Qed.

(** What is computed: the ceiling is the rate unless it was given, and a bucket that was not
    given holds what the rate sends in one clock tick of the kernel and one packet more. *)
Record htb_result (c : core) (hz : Z) (w : htb_words) (o : tc_htb_opt) (rtab ctab : list Z) : Prop := {
  hr_given : hw_rate w <> 0;
  hr_plain : h_prio o = hw_prio w /\ h_quantum o = hw_quantum w /\ h_level o = 0;
  hr_rate : exists log, 0 <= log /\ h_rate o = mk_ratespec (u8 log) (hw_overhead w) (- 1) (hw_mpu w) (hw_rate w) /\
    rtab = rate_slots c (hw_rate w) (hw_mpu w) log (hw_linklayer w);
  hr_ceil : exists log, 0 <= log /\
    h_ceil o = mk_ratespec (u8 log) (hw_overhead w) (- 1) (hw_mpu w) (or_default (hw_ceil w) (hw_rate w)) /\
    ctab = rate_slots c (or_default (hw_ceil w) (hw_rate w)) (hw_mpu w) log (hw_linklayer w);
  hr_buckets :
    h_buffer o = tc_calc_xmittime c (hw_rate w) (or_default (hw_buffer w) (u32 (hw_rate w / hz + hw_mtu w))) /\
    h_cbuffer o = tc_calc_xmittime c (or_default (hw_ceil w) (hw_rate w))
      (or_default (hw_cbuffer w) (u32 (or_default (hw_ceil w) (hw_rate w) / hz + hw_mtu w)))
}.

Lemma htb_compute_ok c hz w rtab0 ctab0 o rtab ctab :
  List.length rtab0 = 256%nat -> List.length ctab0 = 256%nat ->
  htb_compute c hz w rtab0 ctab0 = Some (o, rtab, ctab) -> htb_result c hz w o rtab ctab.
Proof.
  intros Hr Hc. unfold htb_compute. destruct (Z.eqb_spec (hw_rate w) 0) as [|Hz]; [done|]. cbv zeta.
  fold (or_default (hw_ceil w) (hw_rate w)). set (ceil := or_default (hw_ceil w) (hw_rate w)).
  fold (or_default (hw_buffer w) (u32 (hw_rate w / hz + hw_mtu w))). fold (or_default (hw_cbuffer w) (u32 (ceil / hz + hw_mtu w))).
  destruct (calc_rtable_ok c (mk_ratespec 0 (hw_overhead w) 0 (hw_mpu w) (hw_rate w)) rtab0 (hw_cell_log w) (hw_mtu w)
    (hw_linklayer w) Hr) as (l1 & -> & L1 & _). rewrite (proj2 (Z.ltb_ge l1 0)) by done.
  destruct (calc_rtable_ok c (mk_ratespec 0 (hw_overhead w) 0 (hw_mpu w) ceil) ctab0 (hw_ccell_log w) (hw_mtu w)
    (hw_linklayer w) Hc) as (l2 & -> & L2 & _). rewrite (proj2 (Z.ltb_ge l2 0)) by done.
  intros [= <- <- <-]. constructor; [done|done|by exists l1|by exists l2|done].
Qed.

Lemma or_default_range z d k : 0 <= z < k -> 0 <= d < k -> 0 <= or_default z d < k.
Proof. unfold or_default. by destruct (z =? 0). Qed.

Lemma htb_result_wf c hz w o rtab ctab : htb_words_ok w -> htb_result c hz w o rtab ctab -> htb_wf o.
Proof.
  intros (W1 & W2 & W3 & W4 & W5 & W6) [_ (P1 & P2 & P3) (l1 & L1 & E1 & _) (l2 & L2 & E2 & _) [B1 B2]].
  pose proof (or_default_range (hw_ceil w) (hw_rate w) (2 ^ 32) W4 W3).
  constructor.
  - rewrite E1. by constructor; cbn; try (by apply Z.mod_pos_bound); try lia.
  - rewrite E2. by constructor; cbn; try (by apply Z.mod_pos_bound); try lia.
  - rewrite B1, B2, P1, P2, P3. repeat (apply Forall_cons; split; [first [apply xmittime_range|done]|]). by apply Forall_nil.
Qed.

(** ** The messages *)

Definition htb_attrs (o : tc_htb_opt) (rtab ctab : list Z) : list (Z * Z * list Z) :=
  [(2024, TCA_HTB_PARMS, htb_bytes o); (3024, TCA_HTB_RTAB, words_bytes rtab); (4024, TCA_HTB_CTAB, words_bytes ctab)].


Definition demo_htb_words : htb_words := mk_htb_words 1 0 125000 0 0 0 (- 1) (- 1) 1600 0 20 LINKLAYER_ETHERNET.

Definition demo_htb : option (tc_htb_opt * list Z * list Z) :=
  htb_compute core_default 100 demo_htb_words (replicate 256 0) (replicate 256 0).


(** The overhead given is not the overhead shown: the printer takes it from the upper byte of
    the minimal unit. *)
Example htb_overhead_not_shown :
  htb_bucket "burst" 1600 (mk_ratespec 3 20 (- 1) 0 125000) = "burst 1600b/8 mpu 0b overhead 0b ".
Proof. vm_compute. reflexivity. Qed.

(** Two bits of the debug flags for a digit. *)
Example debug_digits : debug_bits 16 0 "123x3" 0 = 1 + 2 * 4 + 3 * 16.
Proof. reflexivity. Qed.
