(* ===== verification/TcHfsc.v ===== *)
(** * HFSC (iproute2-3.1.0/tc/q_hfsc.c)

    The hierarchical fair service curve: two ways to type a curve, the classes with up to
    three of them, and back to text. *)

From S2P Require Export TcTbf AttrTree.

#[local] Open Scope list_scope.

(** The C library's [ceil]. *)
Definition d_ceil (x : double) : double :=
  match x with
  | S754_finite s m e =>
      if 0 <=? e then x
      else if s then dneg (d_of_Z (Z.pos m / 2 ^ (- e)))
      else d_of_Z (- ((- Z.pos m) / 2 ^ (- e)))
  | _ => x
  end.

#[local] Set Primitive Projections.

(** [iproute2-3.1.0/include/linux/pkt_sched.h:414-418 tc_service_curve] *)
Record tc_service_curve := mk_sc { m1 : Z; d : Z; m2 : Z }.

(** The curves and whether each was given.  [iproute2-3.1.0/tc/q_hfsc.c:149-156 hfsc_parse_class_opt] *)
Record hfsc_words := mk_hfsc_words {
  rsc : tc_service_curve; fsc : tc_service_curve; usc : tc_service_curve; rsc_ok : bool; fsc_ok : bool; usc_ok : bool
}.

#[local] Unset Primitive Projections.

Definition sc_bytes (s : tc_service_curve) : list Z := int_bytes (m1 s) ++ int_bytes (d s) ++ int_bytes (m2 s).
Definition sc_of_bytes (b : list Z) : tc_service_curve := mk_sc (field32 b 0) (field32 b 4) (field32 b 8).
Definition SC_SIZE : Z := 12.

Definition TCA_HFSC_RSC : Z := 1.
Definition TCA_HFSC_FSC : Z := 2.
Definition TCA_HFSC_USC : Z := 3.
Definition TCA_HFSC_MAX : Z := 3.

(** ** The discipline *)

(** [iproute2-3.1.0/tc/q_hfsc.c:81-98 hfsc_parse_opt] *)
Definition hfsc_keyword (word : string) : word_action Z :=
  if matches word "default" then
    Take (fun arg defcls => if negb (defcls =? 0) then None else get_u16 arg 16)
  else Stop.

(** [iproute2-3.1.0/tc/q_hfsc.c:73-104 hfsc_parse_opt] *)
Definition hfsc_parse_opt (argv : list string) (n : nlmsghdr) : parse_outcome :=
  match read_words hfsc_keyword argv 0 with
  | ArgExit => Exit 255
  | ArgError => Return (- 1) n []
  | Args defcls _ => Return 0 (addattr_l n 1024 TCA_OPTIONS (le_bytes 2 defcls)).2 []
  end.

(** [iproute2-3.1.0/tc/q_hfsc.c:106-121 hfsc_print_opt] *)
Definition hfsc_print_opt (m : list Z) (opt : option Z) : Z * string :=
  match opt with
  | None => (0, "")
  | Some a =>
      if RTA_PAYLOAD m a <? 2 then (- 1, "")
      else
        let defcls := load16 m (RTA_DATA a) in
        (0, if defcls =? 0 then "" else "default " +:+ print_x defcls +:+ " ")
  end.

(** [iproute2-3.1.0/tc/q_hfsc.c:123-143 hfsc_print_xstats] *)
Definition hfsc_print_xstats (m : list Z) (xstats : option Z) : Z * string :=
  match xstats with
  | None => (0, "")
  | Some a =>
      if RTA_PAYLOAD m a <? 24 then (- 1, "")
      else
        let b := load_bytes m (RTA_DATA a) 24 in
        (0, " period " +:+ print_u (field32 b 16) +:+ " " +:+
            (if field64 b 0 =? 0 then "" else "work " +:+ print_u (field64 b 0) +:+ " bytes ") +:+
            (if field64 b 8 =? 0 then "" else "rtwork " +:+ print_u (field64 b 8) +:+ " bytes ") +:+
            "level " +:+ print_u (field32 b 20) +:+ " " +:+ newline)
  end.

(** ** Service curves *)

(** A curve is read with the words from its last argument on; it is refused; a word is
    missing, which ends the program; or a number is divided by zero. *)
Inductive curve := Curve (s : tc_service_curve) (argv : list string) | NoCurve | CurveExit | CurveCrash.

(** An optional pair of words: the value, 0 if the word is another one, and the words from
    the next one on, which must be there.  [iproute2-3.1.0/tc/q_hfsc.c:299-306 hfsc_get_sc1] *)
Inductive pair := Pair (v : Z) (argv : list string) | NoPair | PairExit.

Definition optional (name : string) (parse : string -> option Z) (argv : list string) : pair :=
  match argv with
  | word :: rest =>
      if matches word name then
        match rest with
        | [] => PairExit
        | arg :: rest =>
            match parse arg with
            | None => NoPair
            | Some v => match rest with [] => PairExit | _ => Pair v rest end
            end
        end
      else Pair 0 argv
  | [] => PairExit
  end.

(** The last word and its argument, which the words start with afterwards. *)
Definition required (name : string) (parse : string -> option Z) (argv : list string) : pair :=
  match argv with
  | word :: rest =>
      if matches word name then
        match rest with
        | [] => PairExit
        | arg :: _ => match parse arg with None => NoPair | Some v => Pair v rest end
        end
      else NoPair
  | [] => PairExit
  end.

Section Hfsc.
Context (c : core) (use_iec : bool).

Definition bind (p : pair) (f : Z -> list string -> curve) : curve :=
  match p with Pair v argv => f v argv | NoPair => NoCurve | PairExit => CurveExit end.

(** [iproute2-3.1.0/tc/q_hfsc.c:292-333 hfsc_get_sc1] *)
Definition hfsc_get_sc1 (argv : list string) : curve :=
  bind (optional "m1" get_rate argv) (fun m1 argv =>
  bind (optional "d" get_time argv) (fun d argv =>
  bind (required "m2" get_rate argv) (fun m2 argv =>
  Curve (mk_sc m1 (tc_core_time2ktime c d) m2) argv))).

(** The slope of the first segment. *)
Definition first_slope (umax dmax : Z) : double :=
  d_ceil (d1 * d_of_Z umax * d_of_Z TIME_UNITS_PER_SEC / d_of_Z dmax)%D.

(** The curve of a unit of work, a delay and a rate; the second kind is computed in 32 bits.
    [iproute2-3.1.0/tc/q_hfsc.c:369-390 hfsc_get_sc2] *)
Definition sc2_curve (umax dmax rate : Z) (argv : list string) : curve :=
  if negb (umax =? 0) && (dmax =? 0) then NoCurve
  else if negb (dmax =? 0) && dgt (first_slope umax dmax) (d_of_Z rate) then
    Curve (mk_sc (d_to_u32 (first_slope umax dmax)) (tc_core_time2ktime c dmax) rate) argv
  else if rate =? 0 then CurveCrash
  else
    let d := u32 (dmax - u32 (umax * TIME_UNITS_PER_SEC) / rate) in
    Curve (mk_sc 0 (tc_core_time2ktime c (d_to_u32 (d_ceil (d_of_Z d)))) rate) argv.

(** [iproute2-3.1.0/tc/q_hfsc.c:335-395 hfsc_get_sc2] *)
Definition hfsc_get_sc2 (argv : list string) : curve :=
  bind (optional "umax" get_size argv) (fun umax argv =>
  bind (optional "dmax" get_time argv) (fun dmax argv =>
  bind (required "rate" get_rate argv) (fun rate argv =>
  sc2_curve umax dmax rate argv))).

(** [iproute2-3.1.0/tc/q_hfsc.c:397-410 hfsc_get_sc] *)
Definition hfsc_get_sc (argv : list string) : curve :=
  let r := match hfsc_get_sc1 argv with NoCurve => hfsc_get_sc2 argv | r => r end in
  match r with
  | Curve s argv => if (m1 s =? 0) && (m2 s =? 0) then NoCurve else Curve s argv
  | r => r
  end.

(** ** The classes *)

(** What a word does with the curve after it.
    [iproute2-3.1.0/tc/q_hfsc.c:159-196 hfsc_parse_class_opt] *)
Definition hfsc_class_keyword (word : string) : option (tc_service_curve -> hfsc_words -> hfsc_words) :=
  if matches word "rt" then Some (fun s w => (w <| rsc := s |>) <| rsc_ok := true |>)
  else if matches word "ls" then Some (fun s w => (w <| fsc := s |>) <| fsc_ok := true |>)
  else if matches word "sc" then
    Some (fun s w => mk_hfsc_words s s (usc w) true true (usc_ok w))
  else if matches word "ul" then Some (fun s w => (w <| usc := s |>) <| usc_ok := true |>)
  else None.

Inductive hfsc_end := HfscArgs (w : hfsc_words) | HfscError | HfscExit | HfscCrash.

(** Every round takes a word, so the number of words is fuel enough.
    [iproute2-3.1.0/tc/q_hfsc.c:158-198 hfsc_parse_class_opt] *)
Fixpoint hfsc_class_loop (fuel : nat) (argv : list string) (w : hfsc_words) : hfsc_end :=
  match fuel, argv with
  | _, [] => HfscArgs w
  | O, _ => HfscError
  | S fuel, word :: argv =>
      match hfsc_class_keyword word with
      | None => HfscError
      | Some set =>
          match argv with
          | [] => HfscExit
          | _ =>
              match hfsc_get_sc argv with
              | Curve s rest => hfsc_class_loop fuel (tail rest) (set s w)
              | NoCurve => HfscError
              | CurveExit => HfscExit
              | CurveCrash => HfscCrash
              end
          end
      end
  end.

Definition no_sc : tc_service_curve := mk_sc 0 0 0.
Definition hfsc_start : hfsc_words := mk_hfsc_words no_sc no_sc no_sc false false false.

(** [iproute2-3.1.0/tc/q_hfsc.c:215-220 hfsc_parse_class_opt] *)
Definition hfsc_attrs (w : hfsc_words) (n : nlmsghdr) : nlmsghdr :=
  let n := if rsc_ok w then (addattr_l n 1024 TCA_HFSC_RSC (sc_bytes (rsc w))).2 else n in
  let n := if fsc_ok w then (addattr_l n 1024 TCA_HFSC_FSC (sc_bytes (fsc w))).2 else n in
  if usc_ok w then (addattr_l n 1024 TCA_HFSC_USC (sc_bytes (usc w))).2 else n.

(** [None] when the program divides by zero.
    [iproute2-3.1.0/tc/q_hfsc.c:145-224 hfsc_parse_class_opt] *)
Definition hfsc_parse_class_opt (argv : list string) (n : nlmsghdr) : option parse_outcome :=
  match hfsc_class_loop (List.length argv) argv hfsc_start with
  | HfscCrash => None
  | HfscExit => Some (Exit 255)
  | HfscError => Some (Return (- 1) n [])
  | HfscArgs w =>
      if negb (rsc_ok w || fsc_ok w || usc_ok w) then Some (Return (- 1) n [])
      else if usc_ok w && negb (fsc_ok w) then Some (Return (- 1) n [])
      else Some (Return 0 (with_nest 1024 TCA_OPTIONS (hfsc_attrs w) n) [])
  end.

(** [iproute2-3.1.0/tc/q_hfsc.c:226-235 hfsc_print_sc] *)
Definition hfsc_print_sc (name : string) (s : tc_service_curve) : string :=
  name +:+ " m1 " +:+ sprint_rate use_iec (m1 s) +:+ " d " +:+ sprint_time (tc_core_ktime2time c (d s)) +:+
  " m2 " +:+ sprint_rate use_iec (m2 s) +:+ " ".

(** A curve in an attribute; one that is too short is passed over. *)
Definition attr_curve (m : list Z) (a : option Z) : option tc_service_curve :=
  match a with
  | Some a => if RTA_PAYLOAD m a <? SC_SIZE then None else Some (sc_of_bytes (load_bytes m (RTA_DATA a) SC_SIZE))
  | None => None
  end.

Definition sc_eqb (s t : tc_service_curve) : bool := (m1 s =? m1 t) && (d s =? d t) && (m2 s =? m2 t).

(** Equal curves are shown as one.  [iproute2-3.1.0/tc/q_hfsc.c:268-278 hfsc_print_class_opt] *)
Definition curves_text (rsc fsc usc : option tc_service_curve) : string :=
  let show name s := match s with Some s => hfsc_print_sc name s | None => "" end in
  (match rsc, fsc with
   | Some r, Some f => if sc_eqb r f then hfsc_print_sc "sc" r else hfsc_print_sc "rt" r +:+ hfsc_print_sc "ls" f
   | _, _ => show "rt" rsc +:+ show "ls" fsc
   end) +:+ show "ul" usc.

(** [iproute2-3.1.0/tc/q_hfsc.c:237-281 hfsc_print_class_opt] *)
Definition hfsc_print_class_opt (m : list Z) (opt : option Z) : Z * string :=
  match opt with
  | None => (0, "")
  | Some a =>
      let tb := (parse_rtattr_nested m TCA_HFSC_MAX a).1 in
      (0, curves_text (attr_curve m (tb !!! 1%nat)) (attr_curve m (tb !!! 2%nat)) (attr_curve m (tb !!! 3%nat)))
  end.
End Hfsc.

(** ** Ranges *)

Definition sc_ok (s : tc_service_curve) : Prop :=
  0 <= m1 s < 2 ^ 32 /\ 0 <= d s < 2 ^ 32 /\ 0 <= m2 s < 2 ^ 32.

Lemma d_to_u32_range x : 0 <= d_to_u32 x < 2 ^ 32.
Proof. apply u32_range. Qed.

Lemma ktime_range c t : 0 <= tc_core_time2ktime c t < 2 ^ 32.
Proof. apply d_to_u32_range. Qed.

Lemma optional_range name parse argv v rest :
  (forall s z, parse s = Some z -> 0 <= z < 2 ^ 32) -> optional name parse argv = Pair v rest -> 0 <= v < 2 ^ 32.
Proof.
  intros Hp. unfold optional. destruct argv as [|word [|arg [|w l]]]; [done|..]; destruct (matches word name); try done;
    try (by intros [= <- <-]).
  - by destruct (parse arg).
  - destruct (parse arg) as [z|] eqn:E; [|done]. intros [= <- _]. eauto.
Qed.

Lemma required_range name parse argv v rest :
  (forall s z, parse s = Some z -> 0 <= z < 2 ^ 32) -> required name parse argv = Pair v rest -> 0 <= v < 2 ^ 32.
Proof.
  intros Hp. unfold required. destruct argv as [|word [|arg l]]; [done|..]; destruct (matches word name); try done.
  destruct (parse arg) as [z|] eqn:E; [|done]. intros [= <- _]. eauto.
Qed.

Lemma bind_curve p f s rest : bind p f = Curve s rest -> exists v argv, p = Pair v argv /\ f v argv = Curve s rest.
Proof. destruct p as [v argv| |]; [|done..]. intros E. by exists v, argv. Qed.

(** What the first form reads is what was typed. *)
Lemma sc1_ok c argv s rest : hfsc_get_sc1 c argv = Curve s rest -> sc_ok s.
Proof.
  unfold hfsc_get_sc1. intros (v1 & a1 & E1 & (v2 & a2 & E2 & (v3 & a3 & E3 & E)%bind_curve)%bind_curve)%bind_curve.
  injection E as <- <-. unfold sc_ok. cbn. split_and!; try apply ktime_range.
  all: first [eapply optional_range; [|exact E1]|eapply required_range; [|exact E3]]; apply get_rate_range.
Qed.

Lemma sc2_ok c argv s rest : hfsc_get_sc2 c argv = Curve s rest -> sc_ok s.
Proof.
  unfold hfsc_get_sc2. intros (v1 & a1 & E1 & (v2 & a2 & E2 & (v3 & a3 & E3 & E)%bind_curve)%bind_curve)%bind_curve.
  apply (required_range _ _ _ _ _ get_rate_range) in E3. unfold sc2_curve in E.
  destruct (negb (v1 =? 0) && (v2 =? 0)); [done|].
  destruct (negb (v2 =? 0) && _); [|destruct (v3 =? 0); [done|]]; injection E as <- <-; unfold sc_ok; cbn;
    split_and!; try done; first [apply ktime_range|apply d_to_u32_range|lia].
Qed.

(** A curve that is accepted has a slope. *)
Lemma hfsc_get_sc_ok c argv s rest : hfsc_get_sc c argv = Curve s rest -> sc_ok s /\ (m1 s <> 0 \/ m2 s <> 0).
Proof.
  unfold hfsc_get_sc. destruct (hfsc_get_sc1 c argv) as [s0 r0| | |] eqn:E1; [| |done..].
  - destruct (Z.eqb_spec (m1 s0) 0), (Z.eqb_spec (m2 s0) 0); cbn [andb]; intros E; try done; injection E as <- <-;
      apply sc1_ok in E1; auto.
  - destruct (hfsc_get_sc2 c argv) as [s0 r0| | |] eqn:E2; [|done..].
    destruct (Z.eqb_spec (m1 s0) 0), (Z.eqb_spec (m2 s0) 0); cbn [andb]; intros E; try done; injection E as <- <-;
      apply sc2_ok in E2; auto.
Qed.

(** The given curves are in range and have a slope. *)
Definition curve_if (given : bool) (s : tc_service_curve) : Prop :=
  given = true -> sc_ok s /\ (m1 s <> 0 \/ m2 s <> 0).

Definition hfsc_wf (w : hfsc_words) : Prop :=
  curve_if (rsc_ok w) (rsc w) /\ curve_if (fsc_ok w) (fsc w) /\ curve_if (usc_ok w) (usc w).

Lemma hfsc_keyword_ok word set s w :
  hfsc_class_keyword word = Some set -> sc_ok s /\ (m1 s <> 0 \/ m2 s <> 0) -> hfsc_wf w -> hfsc_wf (set s w).
Proof.
  unfold hfsc_class_keyword, hfsc_wf, curve_if. intros E Hs (W1 & W2 & W3).
  repeat (match goal with H : context [if matches ?a ?b then _ else _] |- _ => destruct (matches a b) end;
    [injection E as <-; cbn; auto|]). done.
Qed.

Lemma hfsc_loop_ok c fuel : forall argv w w', hfsc_class_loop c fuel argv w = HfscArgs w' -> hfsc_wf w -> hfsc_wf w'.
Proof.
  induction fuel as [|fuel IH]; intros [|word argv] w w' E Hw; cbn [hfsc_class_loop] in E; try done;
    try (by injection E as <-).
  destruct (hfsc_class_keyword word) as [set|] eqn:Ek; [|done]. destruct argv as [|a argv]; [done|].
  destruct (hfsc_get_sc c (a :: argv)) as [s rest| | |] eqn:Es; [|done..].
  eapply IH; [exact E|]. eapply hfsc_keyword_ok; [exact Ek| |done]. by eapply hfsc_get_sc_ok.
Qed.

(** ** The messages of a class *)

Definition leaf_if (given : bool) (type : Z) (s : tc_service_curve) : list atree :=
  if given then [Leaf type (sc_bytes s)] else [].

Definition hfsc_trees (w : hfsc_words) : list atree :=
  leaf_if (rsc_ok w) TCA_HFSC_RSC (rsc w) ++ (leaf_if (fsc_ok w) TCA_HFSC_FSC (fsc w) ++
    leaf_if (usc_ok w) TCA_HFSC_USC (usc w)).

Lemma appends_if (given : bool) type s :
  0 <= type < 2 ^ 16 ->
  appends 1024 (fun n => if given then (addattr_l n 1024 type (sc_bytes s)).2 else n) (leaf_if given type s).
Proof. intros Ht. destruct given; [by apply appends_leaf|apply appends_id]. Qed.

Lemma hfsc_appends w : appends 1024 (hfsc_attrs w) (hfsc_trees w).
Proof.
  apply (appends_seq 1024 (fun n => if rsc_ok w then (addattr_l n 1024 TCA_HFSC_RSC (sc_bytes (rsc w))).2 else n)
    (fun n => let n := if fsc_ok w then (addattr_l n 1024 TCA_HFSC_FSC (sc_bytes (fsc w))).2 else n in
      if usc_ok w then (addattr_l n 1024 TCA_HFSC_USC (sc_bytes (usc w))).2 else n)); [by apply appends_if|].
  apply (appends_seq 1024 (fun n => if fsc_ok w then (addattr_l n 1024 TCA_HFSC_FSC (sc_bytes (fsc w))).2 else n)
    (fun n => if usc_ok w then (addattr_l n 1024 TCA_HFSC_USC (sc_bytes (usc w))).2 else n)); by apply appends_if.
Qed.

Lemma hfsc_table off w :
  tree_table TCA_HFSC_MAX off (hfsc_trees w) (replicate (Z.to_nat (TCA_HFSC_MAX + 1)) None) =
  let off2 := if rsc_ok w then off + 16 else off in
  let off3 := if fsc_ok w then off2 + 16 else off2 in
  [None; (if rsc_ok w then Some off else None); (if fsc_ok w then Some off2 else None);
   (if usc_ok w then Some off3 else None)].
Proof. unfold hfsc_trees. by destruct (rsc_ok w), (fsc_ok w), (usc_ok w). Qed.

Definition given_curve (given : bool) (s : tc_service_curve) : option tc_service_curve := if given then Some s else None.

Lemma sc_of_bytes_ok s : sc_ok s -> sc_of_bytes (sc_bytes s) = s.
Proof.
  intros (H1 & H2 & H3). unfold sc_of_bytes. rewrite (word_field _ 0 _ H1), (word_field _ 4 _ H2), (word_field _ 8 _ H3)
    by reflexivity. reflexivity.
Qed.

Lemma attr_curve_leaf m off type given s :
  curve_if given s -> trees_at m off (leaf_if given type s) ->
  attr_curve m (if given then Some off else None) = given_curve given s.
Proof.
  destruct given; [|done]. intros Hs [(L & _ & D) _]. destruct (Hs eq_refl) as [Hok _]. unfold attr_curve, RTA_PAYLOAD.
  rewrite L. change (_ <? SC_SIZE) with false. cbv iota. change (RTA_DATA off) with (off + 4).
  change (Z.of_nat (List.length (sc_bytes s))) with SC_SIZE in D. by rewrite D, sc_of_bytes_ok.
Qed.

Lemma leaf_if_span given type s : tspan (leaf_if given type s) = if given then 16 else 0.
Proof. by destruct given. Qed.

(** The curves of an accepted class each have a slope, an upper limit comes with a link share,
    the message holds exactly the given curves, and the printer shows them, equal ones as one. *)
Theorem hfsc_class_roundtrip c argv n w :
  hfsc_class_loop c (List.length argv) argv hfsc_start = HfscArgs w ->
  rsc_ok w || fsc_ok w || usc_ok w = true -> (usc_ok w = true -> fsc_ok w = true) -> room_for n 1024 52 ->
  hfsc_wf w /\
  exists n', hfsc_parse_class_opt c argv n = Some (Return 0 n' []) /\
    same_below (NLMSG_TAIL n) (mem n) (mem n') /\
    tree_at (mem n') (NLMSG_TAIL n) (Nest TCA_OPTIONS (hfsc_trees w)) /\
    forall use_iec, hfsc_print_class_opt c use_iec (mem n') (Some (NLMSG_TAIL n)) =
      (0, curves_text c use_iec (given_curve (rsc_ok w) (rsc w)) (given_curve (fsc_ok w) (fsc w))
            (given_curve (usc_ok w) (usc w))).
Proof.
  intros E Hany Hul Hroom. assert (hfsc_wf w) as Hw by (eapply hfsc_loop_ok; [exact E|done]). split; [done|].
  unfold hfsc_parse_class_opt. rewrite E, Hany. cbn [negb].
  replace (usc_ok w && negb (fsc_ok w)) with false by (by destruct (usc_ok w); [rewrite Hul|]).
  eexists. split; [reflexivity|].
  assert (tspan [Nest TCA_OPTIONS (hfsc_trees w)] <= 52) as Hs.
  { unfold hfsc_trees. by destruct (rsc_ok w), (fsc_ok w), (usc_ok w). }
  destruct (appends_nest 1024 TCA_OPTIONS (hfsc_attrs w) (hfsc_trees w) ltac:(done) (hfsc_appends w) n)
    as ([T _] & _ & _ & _ & B & _); [destruct Hroom; constructor; lia|].
  split; [exact B|]. split; [exact T|]. intros use_iec. set (m := mem _) in *. unfold hfsc_print_class_opt.
  rewrite (parse_nest _ _ _ _ _ T). apply tree_at_nest in T as (_ & _ & T). rewrite hfsc_table. cbv zeta. cbn [fst].
  unfold hfsc_trees in T. rewrite !trees_at_app, !leaf_if_span in T. destruct T as (T1 & T2 & T3).
  destruct Hw as (W1 & W2 & W3). set (off := NLMSG_TAIL n + 4) in *.
  change (_ !!! 1%nat) with (if rsc_ok w then Some off else None).
  set (off2 := if rsc_ok w then off + 16 else off). set (off3 := if fsc_ok w then off2 + 16 else off2).
  change ([_; _; _; _] !!! 2%nat) with (if fsc_ok w then Some off2 else None).
  change ([_; _; _; _] !!! 3%nat) with (if usc_ok w then Some off3 else None).
  assert (off + (if rsc_ok w then 16 else 0) = off2) as E2 by (unfold off2; destruct (rsc_ok w); lia). rewrite E2 in *.
  assert (off2 + (if fsc_ok w then 16 else 0) = off3) as E3 by (unfold off3; destruct (fsc_ok w); lia). rewrite E3 in *.
  rewrite (attr_curve_leaf _ _ _ _ _ W1 T1), (attr_curve_leaf _ _ _ _ _ W2 T2), (attr_curve_leaf _ _ _ _ _ W3 T3). done.
Qed.

Lemma hfsc_class_roundtrip_witness :
  exists n', hfsc_parse_class_opt core_default ["sc"; "m1"; "1mbit"; "d"; "10ms"; "m2"; "800kbit"; "ul"; "m2"; "2mbit"]
      (mk_nlmsg 36 (replicate 1024 0)) = Some (Return 0 n' []) /\
    hfsc_print_class_opt core_default false (mem n') (Some 36) =
      (0, "sc m1 1000Kbit d 10.0ms m2 800000bit ul m1 0bit d 0us m2 2000Kbit ").
Proof.
  destruct (hfsc_class_roundtrip core_default
    ["sc"; "m1"; "1mbit"; "d"; "10ms"; "m2"; "800kbit"; "ul"; "m2"; "2mbit"] (mk_nlmsg 36 (replicate 1024 0))
    (mk_hfsc_words (mk_sc 125000 10000 100000) (mk_sc 125000 10000 100000) (mk_sc 0 0 250000) true true true)
    ltac:(vm_compute; reflexivity) eq_refl (fun _ => eq_refl) ltac:(constructor; vm_compute; congruence))
    as (_ & n' & H1 & _ & _ & H2).
  exists n'. split; [exact H1|]. refine (eq_trans (H2 false) _). vm_compute. reflexivity.
Defined.

(** A rate of zero is divided by. *)
Example hfsc_divides_by_zero :
  hfsc_parse_class_opt core_default ["rt"; "rate"; "0"] (mk_nlmsg 36 []) = None.
Proof. vm_compute. reflexivity. Qed.

(** The delay of a convex curve is computed in 32 bits: 5000 bytes at 1000 bytes a second take
    five of the six seconds of the delay, and 5.3 are left instead of one. *)
Example hfsc_umax_wraps :
  hfsc_get_sc2 core_default ["umax"; "5000"; "dmax"; "6s"; "rate"; "8000bit"] =
    Curve (mk_sc 0 5294968 1000) ["8000bit"].
Proof. vm_compute. reflexivity. Qed.
