(* ===== verification/TcNetem.v ===== *)
(** * NETEM (iproute2-3.1.0/tc/q_netem.c)

    The network emulator: files of distribution data, the words with their optional
    correlations, the request, and back to text. *)

From S2P Require Export TcDisc AttrTree.

#[local] Open Scope list_scope.

(** ** Distribution data *)

Definition MAX_DIST : Z := 16 * 1024.

(** The numbers of a line, added to what was read; [None] when there are too many.  A number
    takes a character at least.  [iproute2-3.1.0/tc/q_netem.c:78-90 get_distribution] *)
Fixpoint line_numbers (fuel : nat) (p : string) (maxdata : Z) (data : list Z) : option (list Z) :=
  match fuel with
  | O => Some data
  | S fuel =>
      match strtol p 0 with
      | None => Some data
      | Some (x, endp) =>
          if maxdata <=? Z.of_nat (List.length data) then None
          else line_numbers fuel endp maxdata (data ++ [s16 x])
      end
  end.

(** The lines of the file; those that are empty or a comment are skipped.
    [iproute2-3.1.0/tc/q_netem.c:73-91 get_distribution] *)
Fixpoint file_numbers (fuel : nat) (stream : string) (maxdata : Z) (data : list Z) : option (list Z) :=
  match fuel with
  | O => Some data
  | S fuel =>
      match getline stream with
      | None => Some data
      | Some (line, stream) =>
          if String.prefix newline line || String.prefix "#" line then file_numbers fuel stream maxdata data
          else
            match line_numbers (S (String.length line)) line maxdata data with
            | None => None
            | Some data => file_numbers fuel stream maxdata data
            end
      end
  end.

(** The numbers, or [None] for the result -1.
    [iproute2-3.1.0/tc/q_netem.c:56-96 get_distribution] *)
Definition get_distribution (getenv fopen : string -> option string) (type : string) (maxdata : Z) : option (list Z) :=
  match fopen (snprintf 128 (get_tc_lib getenv +:+ "/" +:+ type +:+ ".dist")) with
  | None => None
  | Some text => file_numbers (S (String.length text)) text maxdata []
  end.

(** [iproute2-3.1.0/tc/q_netem.c:98-103 isnumber] *)
Definition isnumber (arg : string) : bool := match strtod arg with Some _ => true | None => false end.

(** [iproute2-3.1.0/tc/q_netem.c:109-123 get_ticks] *)
Definition get_ticks (c : core) (str : string) : option Z :=
  match get_time str with
  | None => None
  | Some t => if tc_core_time2big c t then None else Some (tc_core_time2tick c t)
  end.

(** ** The words *)

#[local] Set Primitive Projections.

(** [iproute2-3.1.0/include/linux/pkt_sched.h:560-567 tc_netem_qopt] *)
Record tc_netem_qopt := mk_netem { latency : Z; limit : Z; loss : Z; gap : Z; duplicate : Z; jitter : Z }.

(** [iproute2-3.1.0/include/linux/pkt_sched.h:569-573 tc_netem_corr] *)
Record tc_netem_corr := mk_corr { delay_corr : Z; loss_corr : Z; dup_corr : Z }.

(** [tc_netem_reorder] and [tc_netem_corrupt] have the same fields.
    [iproute2-3.1.0/include/linux/pkt_sched.h:575-583 tc_netem_reorder] *)
Record tc_netem_prob := mk_prob { probability : Z; correlation : Z }.

(** The data of a distribution that was read, or the result -1. *)
Inductive distribution := NoDist | Dist (data : list Z) | FailedDist.

(** The structures, and whether each is present.
    [iproute2-3.1.0/tc/q_netem.c:128-142 netem_parse_opt] *)
Record netem_words := mk_netem_words {
  opt : tc_netem_qopt; cor : tc_netem_corr; reorder : tc_netem_prob; corrupt : tc_netem_prob;
  has_cor : bool; has_reorder : bool; has_corrupt : bool; dist_data : distribution
}.

#[local] Unset Primitive Projections.

Definition netem_start : netem_words :=
  mk_netem_words (mk_netem 0 1000 0 0 0 0) (mk_corr 0 0 0) (mk_prob 0 0) (mk_prob 0 0) false false false NoDist.

(** A parser of one argument and the update it makes; [None] refuses. *)
Definition arg_step := string -> netem_words -> option netem_words.

Definition parsed {T} (parse : string -> option T) (set : T -> netem_words -> netem_words) : arg_step :=
  fun arg w => match parse arg with Some v => Some (set v w) | None => None end.

(** [NEXT_IS_NUMBER]: the argument is taken if it looks like a number. *)
Definition number_next (argv : list string) : option (string * list string) :=
  match argv with arg :: rest => if isnumber arg then Some (arg, rest) else None | [] => None end.

(** An argument, and more as long as they are numbers. *)
Fixpoint take_steps (steps : list arg_step) (argv : list string) (w : netem_words) : option (list string * netem_words) :=
  match steps with
  | [] => Some (argv, w)
  | step :: steps =>
      match number_next argv with
      | None => Some (argv, w)
      | Some (arg, rest) => match step arg w with Some w => take_steps steps rest w | None => None end
      end
  end.

Section Netem.
Context (c : core) (getenv fopen : string -> option string).

Definition set_opt {T} (f : T -> tc_netem_qopt -> tc_netem_qopt) (v : T) (w : netem_words) : netem_words :=
  w <| opt := f v (opt w) |>.

Definition set_cor (f : Z -> tc_netem_corr -> tc_netem_corr) (v : Z) (w : netem_words) : netem_words :=
  (w <| cor := f v (cor w) |>) <| has_cor := true |>.

(** The steps of a word: the first argument is needed, the others are optional.  The
    correlation of duplicates does not mark the structure as present.
    [iproute2-3.1.0/tc/q_netem.c:145-246 netem_parse_opt] *)
Definition netem_keyword (word : string) : option (arg_step * list arg_step) :=
  if matches word "limit" then Some (parsed get_size (set_opt (fun v o => o <| limit := v |>)), [])
  else if matches word "latency" || matches word "delay" then
    Some (parsed (get_ticks c) (set_opt (fun v o => o <| latency := v |>)),
      [parsed (get_ticks c) (set_opt (fun v o => o <| jitter := v |>));
       parsed get_percent (set_cor (fun v r => r <| delay_corr := v |>))])
  else if matches word "loss" || matches word "drop" then
    Some (parsed get_percent (set_opt (fun v o => o <| loss := v |>)),
      [parsed get_percent (set_cor (fun v r => r <| loss_corr := v |>))])
  else if matches word "reorder" then
    Some (parsed get_percent (fun v w => (w <| reorder := ((reorder w) <| probability := v |>) |>) <| has_reorder := true |>),
      [parsed get_percent (fun v w => (w <| reorder := ((reorder w) <| correlation := v |>) |>) <| has_cor := true |>)])
  else if matches word "corrupt" then
    Some (parsed get_percent (fun v w => (w <| corrupt := ((corrupt w) <| probability := v |>) |>) <| has_corrupt := true |>),
      [parsed get_percent (fun v w => (w <| corrupt := ((corrupt w) <| correlation := v |>) |>) <| has_cor := true |>)])
  else if matches word "gap" then Some (parsed (fun arg => get_u32 arg 0) (set_opt (fun v o => o <| gap := v |>)), [])
  else if matches word "duplicate" then
    Some (parsed get_percent (set_opt (fun v o => o <| duplicate := v |>)),
      [parsed get_percent (fun v w => w <| cor := ((cor w) <| dup_corr := v |>) |>)])
  else if matches word "distribution" then
    Some ((fun arg w =>
      match get_distribution getenv fopen arg MAX_DIST with
      | Some [] => None
      | Some data => Some (w <| dist_data := Dist data |>)
      | None => Some (w <| dist_data := FailedDist |>)
      end), [])
  else None.

(** Every round takes a word, so the number of words is fuel enough.
    [iproute2-3.1.0/tc/q_netem.c:144-256 netem_parse_opt] *)
Fixpoint netem_loop (fuel : nat) (argv : list string) (w : netem_words) : args_of netem_words :=
  match fuel, argv with
  | _, [] => Args w []
  | O, _ => ArgError
  | S fuel, word :: argv =>
      match netem_keyword word with
      | None => ArgError
      | Some (first, more) =>
          match argv with
          | [] => ArgExit
          | arg :: argv =>
              match first arg w with
              | None => ArgError
              | Some w =>
                  match take_steps more argv w with None => ArgError | Some (argv, w) => netem_loop fuel argv w end
              end
          end
      end
  end.

(** ** The request *)

Definition TCA_NETEM_CORR : Z := 1.
Definition TCA_NETEM_DELAY_DIST : Z := 2.
Definition TCA_NETEM_REORDER : Z := 3.
Definition TCA_NETEM_CORRUPT : Z := 4.
Definition TCA_NETEM_MAX : Z := 5.

Definition NETEM_SIZE : Z := 24.

Definition netem_bytes (o : tc_netem_qopt) : list Z :=
  int_bytes (latency o) ++ int_bytes (limit o) ++ int_bytes (loss o) ++ int_bytes (gap o) ++ int_bytes (duplicate o) ++
  int_bytes (jitter o).

Definition corr_bytes (o : tc_netem_corr) : list Z :=
  int_bytes (delay_corr o) ++ int_bytes (loss_corr o) ++ int_bytes (dup_corr o).

Definition prob_bytes (o : tc_netem_prob) : list Z := int_bytes (probability o) ++ int_bytes (correlation o).

(** The gap that reordering needs; a gap without reordering, or a distribution without a
    delay, is refused.  [iproute2-3.1.0/tc/q_netem.c:260-276 netem_parse_opt] *)
Definition netem_check (w : netem_words) : option netem_words :=
  let checked :=
    if negb (probability (reorder w) =? 0) then
      Some (if gap (opt w) =? 0 then w <| opt := ((opt w) <| gap := 1 |>) |> else w)
    else if 0 <? gap (opt w) then None
    else Some w in
  match checked with
  | None => None
  | Some w =>
      match dist_data w with
      | NoDist => Some w
      | _ => if (latency (opt w) =? 0) || (jitter (opt w) =? 0) then None else Some w
      end
  end.

(** An attribute that is appended only if present; [None] when there is no room. *)
Definition put_if (present : bool) (type : Z) (data : list Z) (n : nlmsghdr) : option nlmsghdr :=
  if present then let '(r, n) := addattr_l n 1024 type data in if r <? 0 then None else Some n else Some n.

(** [None] is the copy of a length that is negative, when the data could not be read: the
    size is unsigned, so the test after reading misses the result -1.
    [iproute2-3.1.0/tc/q_netem.c:293-299 netem_parse_opt] *)
Definition put_distribution (d : distribution) (n : nlmsghdr) : option (option nlmsghdr) :=
  match d with
  | NoDist => Some (Some n)
  | Dist data =>
      let '(r, n) := addattr_l n (MAX_DIST * 2) TCA_NETEM_DELAY_DIST (flat_map (le_bytes 2) data) in
      Some (if r <? 0 then None else Some n)
  | FailedDist => if MAX_DIST * 2 <? RTA_ALIGN (nlmsg_len n) + RTA_ALIGN (RTA_LENGTH (- 2)) then Some None else None
  end.

(** [iproute2-3.1.0/tc/q_netem.c:278-300 netem_parse_opt] *)
Definition netem_append (w : netem_words) (n : nlmsghdr) : option (option nlmsghdr) :=
  let tail := NLMSG_TAIL n in
  match put_if true TCA_OPTIONS (netem_bytes (opt w)) n with
  | None => Some None
  | Some n =>
      match put_if (has_cor w) TCA_NETEM_CORR (corr_bytes (cor w)) n with
      | None => Some None
      | Some n =>
          match put_if (has_reorder w) TCA_NETEM_REORDER (prob_bytes (reorder w)) n with
          | None => Some None
          | Some n =>
              match put_if (has_corrupt w) TCA_NETEM_CORRUPT (prob_bytes (corrupt w)) n with
              | None => Some None
              | Some n =>
                  match put_distribution (dist_data w) n with
                  | None => None
                  | Some None => Some None
                  | Some (Some n) =>
                      Some (Some (mk_nlmsg (nlmsg_len n) (set_rta_len tail (NLMSG_TAIL n - tail) (mem n))))
                  end
              end
          end
      end
  end.

(** [None] when the program copies a negative length.
    [iproute2-3.1.0/tc/q_netem.c:125-302 netem_parse_opt] *)
Definition netem_parse_opt (argv : list string) (n : nlmsghdr) : option parse_outcome :=
  match netem_loop (List.length argv) argv netem_start with
  | ArgExit => Some (Exit 255)
  | ArgError => Some (Return (- 1) n [])
  | Args w _ =>
      match netem_check w with
      | None => Some (Return (- 1) n [])
      | Some w =>
          match netem_append w n with
          | None => None
          | Some None => Some (Return (- 1) n [])
          | Some (Some n) => Some (Return 0 n [])
          end
      end
  end.

(** ** Printing *)

Definition netem_of_bytes (b : list Z) : tc_netem_qopt :=
  mk_netem (field32 b 0) (field32 b 4) (field32 b 8) (field32 b 12) (field32 b 16) (field32 b 20).

Definition corr_of_bytes (b : list Z) : tc_netem_corr := mk_corr (field32 b 0) (field32 b 4) (field32 b 8).
Definition prob_of_bytes (b : list Z) : tc_netem_prob := mk_prob (field32 b 0) (field32 b 4).

Definition percent_if (v : Z) : string := if v =? 0 then "" else " " +:+ sprint_percent v.

Definition prob_text (name : string) (p : option tc_netem_prob) : string :=
  match p with
  | Some p => if probability p =? 0 then ""
      else " " +:+ name +:+ " " +:+ sprint_percent (probability p) +:+ percent_if (correlation p)
  | None => ""
  end.

(** [iproute2-3.1.0/tc/q_netem.c:344-386 netem_print_opt] *)
Definition netem_text (o : tc_netem_qopt) (cor : option tc_netem_corr) (reorder corrupt : option tc_netem_prob) : string :=
  let corr f := match cor with Some r => percent_if (f r) | None => "" end in
  "limit " +:+ print_d (s32 (limit o)) +:+
  (if latency o =? 0 then ""
   else " delay " +:+ sprint_ticks c (latency o) +:+
        (if jitter o =? 0 then "" else "  " +:+ sprint_ticks c (jitter o) +:+ corr delay_corr)) +:+
  (if loss o =? 0 then "" else " loss " +:+ sprint_percent (loss o) +:+ corr loss_corr) +:+
  (if duplicate o =? 0 then "" else " duplicate " +:+ sprint_percent (duplicate o) +:+ corr dup_corr) +:+
  prob_text "reorder" reorder +:+ prob_text "corrupt" corrupt +:+
  (if gap o =? 0 then "" else " gap " +:+ print_u (gap o)).

(** A structure in an attribute that may be missing; [None] if it is too short. *)
Definition attr_struct {T} (m : list Z) (a : option Z) (size : Z) (f : list Z -> T) : option (option T) :=
  match a with
  | None => Some None
  | Some a => if RTA_PAYLOAD m a <? size then None else Some (Some (f (load_bytes m (RTA_DATA a) size)))
  end.

(** The length is read before the pointer is tested: without the attribute the program reads
    at address 0.  [iproute2-3.1.0/tc/q_netem.c:304-389 netem_print_opt] *)
Definition netem_print_opt (m : list Z) (opt : option Z) : option (Z * string) :=
  match opt with
  | None => None
  | Some a =>
      let len := RTA_PAYLOAD m a - NETEM_SIZE in
      if len <? 0 then Some (- 1, "")
      else
        let qopt := netem_of_bytes (load_bytes m (RTA_DATA a) NETEM_SIZE) in
        let tb := if 0 <? len then (parse_rtattr m TCA_NETEM_MAX (RTA_DATA a + NETEM_SIZE) len).1 else replicate 6 None in
        match attr_struct m (tb !!! 1%nat) 12 corr_of_bytes with
        | None => Some (- 1, "")
        | Some cor =>
            match attr_struct m (tb !!! 3%nat) 8 prob_of_bytes with
            | None => Some (- 1, "")
            | Some reorder =>
                match attr_struct m (tb !!! 4%nat) 8 prob_of_bytes with
                | None => Some (- 1, "")
                | Some corrupt => Some (0, netem_text qopt cor reorder corrupt)
                end
            end
        end
  end.
End Netem.

(** ** The data of a file *)

Lemma line_numbers_ok fuel : forall p maxdata data data',
  line_numbers fuel p maxdata data = Some data' -> Z.of_nat (List.length data) <= maxdata ->
  Forall (fun x => - 2 ^ 15 <= x < 2 ^ 15) data ->
  Z.of_nat (List.length data') <= maxdata /\ Forall (fun x => - 2 ^ 15 <= x < 2 ^ 15) data'.
Proof.
  induction fuel as [|fuel IH]; intros p maxdata data data' E Hl Hd; cbn [line_numbers] in E; [by injection E as <-|].
  destruct (strtol p 0) as [[x endp]|]; [|by injection E as <-].
  destruct (Z.leb_spec maxdata (Z.of_nat (List.length data))); [done|].
  eapply IH; [exact E|rewrite length_app; cbn [List.length]; lia|]. apply Forall_app. split; [done|].
  apply Forall_cons. split; [|by apply Forall_nil]. unfold s16. pose proof (Z.mod_pos_bound (x + 2 ^ 15) (2 ^ 16) ltac:(lia)). lia.
Qed.

Lemma file_numbers_ok fuel : forall stream maxdata data data',
  file_numbers fuel stream maxdata data = Some data' -> Z.of_nat (List.length data) <= maxdata ->
  Forall (fun x => - 2 ^ 15 <= x < 2 ^ 15) data ->
  Z.of_nat (List.length data') <= maxdata /\ Forall (fun x => - 2 ^ 15 <= x < 2 ^ 15) data'.
Proof.
  induction fuel as [|fuel IH]; intros stream maxdata data data' E Hl Hd; cbn [file_numbers] in E; [by injection E as <-|].
  destruct (getline stream) as [[line rest]|]; [|by injection E as <-].
  destruct (_ || _); [by eapply IH|]. destruct (line_numbers _ line maxdata data) as [data1|] eqn:E1; [|done].
  destruct (line_numbers_ok _ _ _ _ _ E1 Hl Hd). by eapply IH.
Qed.

(** The array is never written past its end, and holds 16-bit numbers. *)
Lemma distribution_bounds getenv fopen type maxdata data :
  0 <= maxdata -> get_distribution getenv fopen type maxdata = Some data ->
  Z.of_nat (List.length data) <= maxdata /\ Forall (fun x => - 2 ^ 15 <= x < 2 ^ 15) data.
Proof.
  intros Hm. unfold get_distribution. destruct (fopen _) as [text|]; [|done]. intros E.
  eapply file_numbers_ok; [exact E|done|by apply Forall_nil].
Qed.

(** ** What is accepted *)

Definition word_ok (z : Z) : Prop := 0 <= z < 2 ^ 32.

Definition netem_wf (o : tc_netem_qopt) : Prop :=
  Forall word_ok [latency o; limit o; loss o; gap o; duplicate o; jitter o].
Definition corr_wf (o : tc_netem_corr) : Prop := Forall word_ok [delay_corr o; loss_corr o; dup_corr o].
Definition prob_wf (o : tc_netem_prob) : Prop := Forall word_ok [probability o; correlation o].

Lemma netem_of_bytes_ok o : netem_wf o -> netem_of_bytes (netem_bytes o) = o.
Proof.
  unfold netem_wf, word_ok. rewrite !Forall_cons. intros (W1 & W2 & W3 & W4 & W5 & W6 & _). unfold netem_of_bytes.
  by rewrite (word_field _ 0 _ W1), (word_field _ 4 _ W2), (word_field _ 8 _ W3), (word_field _ 12 _ W4),
    (word_field _ 16 _ W5), (word_field _ 20 _ W6) by reflexivity.
Qed.

Lemma corr_of_bytes_ok o : corr_wf o -> corr_of_bytes (corr_bytes o) = o.
Proof.
  unfold corr_wf, word_ok. rewrite !Forall_cons. intros (W1 & W2 & W3 & _). unfold corr_of_bytes.
  by rewrite (word_field _ 0 _ W1), (word_field _ 4 _ W2), (word_field _ 8 _ W3) by reflexivity.
Qed.

Lemma prob_of_bytes_ok o : prob_wf o -> prob_of_bytes (prob_bytes o) = o.
Proof.
  unfold prob_wf, word_ok. rewrite !Forall_cons. intros (W1 & W2 & _). unfold prob_of_bytes.
  by rewrite (word_field _ 0 _ W1), (word_field _ 4 _ W2) by reflexivity.
Qed.

Record words_ok (w : netem_words) : Prop := {
  wo_opt : netem_wf (opt w);
  wo_cor : corr_wf (cor w);
  wo_reorder : prob_wf (reorder w);
  wo_corrupt : prob_wf (corrupt w)
}.

(** A step that keeps the fields in range. *)
Definition keeps (step : arg_step) : Prop := forall arg w w', step arg w = Some w' -> words_ok w -> words_ok w'.

Lemma parsed_keeps {T} (parse : string -> option T) (set : T -> netem_words -> netem_words) (P : T -> Prop) :
  (forall arg v, parse arg = Some v -> P v) -> (forall v w, P v -> words_ok w -> words_ok (set v w)) ->
  keeps (parsed parse set).
Proof.
  intros Hp Hs arg w w' E Hw. unfold parsed in E. destruct (parse arg) as [v|] eqn:Ev; [|done]. injection E as <-.
  apply Hs; [|done]. by eapply Hp.
Qed.

Lemma get_percent_range s v : get_percent s = Some v -> word_ok v.
Proof.
  unfold get_percent. destruct (match strtod s with Some _ => _ | None => _ end) as [x p].
  destruct (_ || _); [done|]. destruct (_ && _); [done|]. intros [= <-]. apply u32_range.
Qed.

Lemma get_ticks_range c s v : get_ticks c s = Some v -> word_ok v.
Proof. unfold get_ticks. destruct (get_time s); [|done]. destruct (tc_core_time2big _ _); [done|]. intros [= <-]. apply u32_range. Qed.

(** A field is set: the others are as they were. *)
Ltac set_field :=
  intros ? w ? [H1 H2 H3 H4]; unfold netem_wf, corr_wf, prob_wf in *; rewrite !Forall_cons in H1; rewrite !Forall_cons in H2;
  rewrite !Forall_cons in H3; rewrite !Forall_cons in H4;
  destruct H1 as (? & ? & ? & ? & ? & ? & _), H2 as (? & ? & ? & _), H3 as (? & ? & _), H4 as (? & ? & _);
  constructor; repeat (apply Forall_cons; split; [assumption|]); apply Forall_nil; exact I.

Ltac steps_keep :=
  split; [|repeat (apply Forall_cons; split); try (by apply Forall_nil)];
  (eapply parsed_keeps; [first [apply get_ticks_range|apply get_percent_range]|set_field]).

Lemma keyword_keeps c getenv fopen word first more :
  netem_keyword c getenv fopen word = Some (first, more) -> keeps first /\ Forall keeps more.
Proof.
  unfold netem_keyword. intros E.
  destruct (matches word "limit").
  { injection E as <- <-. split; [|by apply Forall_nil]. apply (parsed_keeps _ _ word_ok); [apply get_size_range|set_field]. }
  destruct (_ || _).
  { injection E as <- <-. steps_keep. }
  destruct (_ || _).
  { injection E as <- <-. steps_keep. }
  destruct (matches word "reorder").
  { injection E as <- <-. steps_keep. }
  destruct (matches word "corrupt").
  { injection E as <- <-. steps_keep. }
  destruct (matches word "gap").
  { injection E as <- <-. split; [|by apply Forall_nil]. apply (parsed_keeps _ _ word_ok); [intros ? ?; apply get_u32_range|set_field]. }
  destruct (matches word "duplicate").
  { injection E as <- <-. steps_keep. }
  destruct (matches word "distribution"); [|done]. injection E as <- <-. split; [|by apply Forall_nil].
  intros arg w w' E [H1 H2 H3 H4]. destruct (get_distribution getenv fopen arg MAX_DIST) as [[|x l]|]; [done|..]; by injection E as <-.
Qed.

Lemma take_steps_keeps steps : Forall keeps steps -> forall argv w argv' w',
  take_steps steps argv w = Some (argv', w') -> words_ok w -> words_ok w'.
Proof.
  induction 1 as [|step steps Hs _ IH]; intros argv w argv' w' E Hw; cbn [take_steps] in E; [by injection E as <- <-|].
  destruct (number_next argv) as [[arg rest]|]; [|by injection E as <- <-].
  destruct (step arg w) as [w1|] eqn:E1; [|done]. eapply IH; [exact E|]. by eapply Hs.
Qed.

Lemma netem_loop_ok c getenv fopen fuel : forall argv w w' rest,
  netem_loop c getenv fopen fuel argv w = Args w' rest -> words_ok w -> words_ok w'.
Proof.
  induction fuel as [|fuel IH]; intros [|word argv] w w' rest E Hw; cbn [netem_loop] in E; try done; try (by injection E as <- _).
  destruct (netem_keyword c getenv fopen word) as [[first more]|] eqn:Ek; [|done].
  destruct (keyword_keeps _ _ _ _ _ _ Ek) as [K1 K2]. destruct argv as [|arg argv]; [done|].
  destruct (first arg w) as [w1|] eqn:E1; [|done].
  destruct (take_steps more argv w1) as [[argv' w2]|] eqn:E2; [|done].
  eapply IH; [exact E|]. eapply take_steps_keeps; [exact K2|exact E2|]. by eapply K1.
Qed.

(** ** The message *)

Definition leaf_if (present : bool) (type : Z) (data : list Z) : list atree := if present then [Leaf type data] else [].

Definition put (present : bool) (type : Z) (data : list Z) (n : nlmsghdr) : nlmsghdr :=
  if present then (addattr_l n 1024 type data).2 else n.

Lemma put_appends present type data : 0 <= type < 2 ^ 16 -> appends 1024 (put present type data) (leaf_if present type data).
Proof. intros Ht. destruct present; [by apply appends_leaf|apply appends_id]. Qed.

Lemma put_if_ok present type data n :
  room_for n 1024 (attr_span data) -> 0 <= type < 2 ^ 16 ->
  put_if present type data n = Some (put present type data n) /\
  0 <= nlmsg_len (put present type data n) /\
  NLMSG_TAIL n <= NLMSG_TAIL (put present type data n) <= NLMSG_TAIL n + attr_span data /\
  List.length (mem (put present type data n)) = List.length (mem n).
Proof.
  intros Hr Ht. pose proof (attr_span_bounds data). unfold put_if, put. destruct present; [|destruct Hr; split_and!; done || lia].
  rewrite addattr_l_ok by done. split; [done|]. 
  destruct (appends_leaf 1024 type data Ht n) as (_ & T & L & M & _).
  { destruct Hr; constructor; cbn [tspan tspan1]; lia. }
  rewrite addattr_l_ok in T, L, M by done. cbn [snd tspan tspan1] in *. split_and!; lia || done.
Qed.

(** The attributes after the structure. *)
Definition netem_rest (w : netem_words) : list atree :=
  leaf_if (has_cor w) TCA_NETEM_CORR (corr_bytes (cor w)) ++
  (leaf_if (has_reorder w) TCA_NETEM_REORDER (prob_bytes (reorder w)) ++
   leaf_if (has_corrupt w) TCA_NETEM_CORRUPT (prob_bytes (corrupt w))).

Lemma netem_append_ok w n :
  dist_data w = NoDist -> room_for n 1024 68 ->
  exists n', netem_append w n = Some (Some n') /\ same_below (NLMSG_TAIL n) (mem n) (mem n') /\
    rta_len (mem n') (NLMSG_TAIL n) = 28 + tspan (netem_rest w) /\ rta_type (mem n') (NLMSG_TAIL n) = TCA_OPTIONS /\
    load_bytes (mem n') (NLMSG_TAIL n + 4) NETEM_SIZE = netem_bytes (opt w) /\
    trees_at (mem n') (NLMSG_TAIL n + 28) (netem_rest w).
Proof.
  intros Hd Hr. unfold netem_append. rewrite Hd. cbn [put_distribution].
  assert (attr_span (netem_bytes (opt w)) = 28 /\ attr_span (corr_bytes (cor w)) = 16 /\
    attr_span (prob_bytes (reorder w)) = 12 /\ attr_span (prob_bytes (corrupt w)) = 12) as (S1 & S2 & S3 & S4) by done.
  pose proof Hr as [R0 R1 R2 R3].
  destruct (put_if_ok true TCA_OPTIONS (netem_bytes (opt w)) n) as (-> & A1 & A2 & A3); [constructor; lia|done|].
  set (n1 := put true TCA_OPTIONS _ n) in *.
  destruct (put_if_ok (has_cor w) TCA_NETEM_CORR (corr_bytes (cor w)) n1) as (-> & B1 & B2 & B3); [constructor; lia|done|].
  set (n2 := put (has_cor w) _ _ n1) in *.
  destruct (put_if_ok (has_reorder w) TCA_NETEM_REORDER (prob_bytes (reorder w)) n2) as (-> & C1 & C2 & C3);
    [constructor; lia|done|].
  set (n3 := put (has_reorder w) _ _ n2) in *.
  destruct (put_if_ok (has_corrupt w) TCA_NETEM_CORRUPT (prob_bytes (corrupt w)) n3) as (-> & D1 & D2 & D3);
    [constructor; lia|done|].
  set (n4 := put (has_corrupt w) _ _ n3) in *.
  pose proof (appends_seq 1024 _ _ _ _ (put_appends true TCA_OPTIONS (netem_bytes (opt w)) ltac:(done))
    (appends_seq 1024 _ _ _ _ (put_appends (has_cor w) TCA_NETEM_CORR (corr_bytes (cor w)) ltac:(done))
      (appends_seq 1024 _ _ _ _ (put_appends (has_reorder w) TCA_NETEM_REORDER (prob_bytes (reorder w)) ltac:(done))
        (put_appends (has_corrupt w) TCA_NETEM_CORRUPT (prob_bytes (corrupt w)) ltac:(done))))) as Happ.
  fold (netem_rest w) in Happ.
  assert (0 <= tspan (netem_rest w) <= 40) as Hrest
    by (unfold netem_rest; by destruct (has_cor w), (has_reorder w), (has_corrupt w)).
  destruct (Happ n) as (T & T2 & T3 & T4 & T5 & _).
  { change (tspan (leaf_if true TCA_OPTIONS (netem_bytes (opt w)) ++ netem_rest w)) with (28 + tspan (netem_rest w)).
    constructor; lia. }
  change (put (has_corrupt w) _ _ _) with n4 in T, T2, T3, T4, T5. cbv zeta in T2.
  change (tspan (leaf_if true TCA_OPTIONS (netem_bytes (opt w)) ++ netem_rest w)) with (28 + tspan (netem_rest w)) in T2.
  destruct T as [(L1 & L2 & L3) T]. change (tspan1 (Leaf TCA_OPTIONS (netem_bytes (opt w)))) with 28 in T.
  eexists. split; [reflexivity|]. cbn [mem]. set (tail := NLMSG_TAIL n) in *. pose proof (tail_bounds n).
  set (m := set_rta_len tail (NLMSG_TAIL n4 - tail) (mem n4)).
  assert (forall o k, tail + 2 <= o -> 0 <= k -> load_bytes m o k = load_bytes (mem n4) o k) as Habove
    by (intros; apply load_store_other; rewrite ?le_bytes_length; lia).
  split_and!.
  - intros o k Ho Hk Hok. unfold m, set_rta_len. rewrite load_store_other by (rewrite ?le_bytes_length; lia). by apply T5.
  - unfold rta_len, load16, m, set_rta_len. rewrite load_store_same by (rewrite ?le_bytes_length; lia).
    rewrite of_le_bytes_le. change (2 ^ (8 * Z.of_nat 2)) with (2 ^ 16). rewrite Z.mod_small; lia.
  - unfold rta_type, load16. rewrite Habove by lia. exact L2.
  - rewrite Habove by (unfold NETEM_SIZE; lia). exact L3.
  - eapply trees_at_range; [|exact T]. intros; apply Habove; lia.
Qed.

Lemma attr_struct_ok {T} m off type data (f : list Z -> T) :
  attr_at m off type data -> attr_struct m (Some off) (Z.of_nat (List.length data)) f = Some (Some (f data)).
Proof.
  intros (L & _ & D). unfold attr_struct, RTA_PAYLOAD. rewrite L, (proj2 (Z.ltb_ge _ _)) by (change (RTA_LENGTH 0) with 4; lia).
  change (RTA_DATA off) with (off + 4). by rewrite D.
Qed.

Definition present_if {T} (b : bool) (v : T) : option T := if b then Some v else None.

Lemma netem_check_ok w w' : netem_check w = Some w' -> words_ok w ->
  words_ok w' /\ dist_data w' = dist_data w /\ (probability (reorder w') <> 0 -> gap (opt w') <> 0) /\
  (probability (reorder w') = 0 -> gap (opt w') = 0) /\
  (dist_data w' <> NoDist -> latency (opt w') <> 0 /\ jitter (opt w') <> 0).
Proof.
  intros E Hw. pose (w1 := w <| opt := ((opt w) <| gap := 1 |>) |>).
  assert (exists w0, (w0 = w \/ w0 = w1) /\ (probability (reorder w) <> 0 -> gap (opt w0) <> 0) /\
    (probability (reorder w) = 0 -> w0 = w /\ gap (opt w0) <= 0) /\
    match dist_data w0 with
    | NoDist => Some w0
    | _ => if (latency (opt w0) =? 0) || (jitter (opt w0) =? 0) then None else Some w0
    end = Some w') as (w0 & Hor & G1 & G2 & E').
  { unfold netem_check in E. destruct (Z.eqb_spec (probability (reorder w)) 0) as [Hp|Hp]; cbn [negb] in E.
    - destruct (Z.ltb_spec 0 (gap (opt w))); [done|]. exists w. by auto.
    - destruct (Z.eqb_spec (gap (opt w)) 0) as [Hg|Hg]; [exists w1|exists w]; (split; [auto|]); by auto. }
  assert (words_ok w0 /\ dist_data w0 = dist_data w /\ reorder w0 = reorder w) as (Hw0 & Hd & Hre).
  { destruct Hor as [->| ->]; [by auto|]. split; [|done]. destruct Hw as [H1 H2 H3 H4]. constructor; try done.
    unfold netem_wf in *. rewrite !Forall_cons in H1. destruct H1 as (? & ? & ? & ? & ? & ? & _).
    repeat (apply Forall_cons; split; [first [assumption|done]|]). by apply Forall_nil. }
  assert (w' = w0 /\ (dist_data w0 <> NoDist -> latency (opt w0) <> 0 /\ jitter (opt w0) <> 0)) as [-> Hn].
  { destruct (dist_data w0); [by injection E' as ->|..];
      (destruct (_ || _) eqn:Eb; [done|]; apply orb_false_iff in Eb as [E1 E2]; injection E' as ->;
       split; [done|intros _; lia]). }
  rewrite Hre. split_and!; try done.
  intros Hp. destruct (G2 Hp) as [-> Hg]. destruct Hw as [H1 _ _ _]. unfold netem_wf in H1. rewrite !Forall_cons in H1.
  unfold word_ok in H1. lia.
Qed.

(** An accepted command for NETEM without a distribution: the message holds the structure and
    the attributes given, the gap is there exactly with reordering, and the printer shows it
    all. *)
Theorem netem_roundtrip c getenv fopen argv n w0 rest w :
  netem_loop c getenv fopen (List.length argv) argv netem_start = Args w0 rest -> netem_check w0 = Some w ->
  dist_data w = NoDist -> room_for n 1024 68 ->
  (probability (reorder w) <> 0 <-> gap (opt w) <> 0) /\
  exists n', netem_parse_opt c getenv fopen argv n = Some (Return 0 n' []) /\
    same_below (NLMSG_TAIL n) (mem n) (mem n') /\
    netem_print_opt c (mem n') (Some (NLMSG_TAIL n)) =
      Some (0, netem_text c (opt w) (present_if (has_cor w) (cor w)) (present_if (has_reorder w) (reorder w))
                 (present_if (has_corrupt w) (corrupt w))).
Proof.
  intros Hl Hc Hd Hr.
  assert (words_ok netem_start) as Hs by (constructor; repeat constructor; done).
  destruct (netem_check_ok _ _ Hc (netem_loop_ok _ _ _ _ _ _ _ _ Hl Hs)) as ([W1 W2 W3 W4] & _ & G1 & G2 & _).
  split; [split; [done|]; intros Hg Hp; by apply Hg, G2|].
  destruct (netem_append_ok w n Hd Hr) as (n' & E & Hb & HL & HT & HD & HR).
  exists n'. split; [unfold netem_parse_opt; by rewrite Hl, Hc, E|]. split; [done|].
  unfold netem_print_opt, RTA_PAYLOAD. rewrite HL. change (RTA_LENGTH 0) with 4.
  replace (28 + tspan (netem_rest w) - 4 - NETEM_SIZE) with (tspan (netem_rest w)) by (unfold NETEM_SIZE; lia).
  pose proof (tspan_bounds (netem_rest w)) as Hsp. rewrite (proj2 (Z.ltb_ge (tspan _) 0)) by lia.
  change (RTA_DATA (NLMSG_TAIL n)) with (NLMSG_TAIL n + 4). rewrite HD, netem_of_bytes_ok by done.
  replace (NLMSG_TAIL n + 4 + NETEM_SIZE) with (NLMSG_TAIL n + 28) by (unfold NETEM_SIZE; lia).
  set (off := NLMSG_TAIL n + 28) in *. set (m := mem n') in *.
  assert ((if 0 <? tspan (netem_rest w) then (parse_rtattr m TCA_NETEM_MAX off (tspan (netem_rest w))).1 else replicate 6 None) =
    tree_table TCA_NETEM_MAX off (netem_rest w) (replicate 6 None)) as ->.
  { destruct (Z.ltb_spec 0 (tspan (netem_rest w))); [by rewrite parse_trees|].
    assert (netem_rest w = []) as -> by (destruct (netem_rest w); [done|cbn [List.length] in Hsp; lia]). done. }
  unfold netem_rest in *. 
  assert (forall o b t (v : tc_netem_prob) l, trees_at m o (leaf_if b t (prob_bytes v) ++ l) -> prob_wf v ->
    attr_struct m (if b then Some o else None) 8 prob_of_bytes = Some (present_if b v)) as Hprob.
  { intros o b t v l Ht Hv. destruct b; [|done]. destruct Ht as [Ht _].
    pose proof (attr_struct_ok m o t (prob_bytes v) prob_of_bytes Ht) as E1. by rewrite prob_of_bytes_ok in E1. }
  assert (attr_struct m (if has_cor w then Some off else None) 12 corr_of_bytes = Some (present_if (has_cor w) (cor w))) as Ecor.
  { destruct (has_cor w); [|done]. destruct HR as [Ht _].
    pose proof (attr_struct_ok m off _ (corr_bytes (cor w)) corr_of_bytes Ht) as E1. by rewrite corr_of_bytes_ok in E1. }
  apply trees_at_app in HR as [_ HR]. pose proof (Hprob _ _ _ _ _ HR W3) as Ere.
  apply trees_at_app in HR as [_ HR]. rewrite <- (app_nil_r (leaf_if (has_corrupt w) _ _)) in HR. pose proof (Hprob _ _ _ _ _ HR W4) as Eco.
  set (tb := tree_table _ _ _ _).
  assert (tb !!! 1%nat = (if has_cor w then Some off else None) /\
    tb !!! 3%nat = (if has_reorder w then Some (off + tspan (leaf_if (has_cor w) TCA_NETEM_CORR (corr_bytes (cor w)))) else None) /\
    tb !!! 4%nat = (if has_corrupt w then Some (off + tspan (leaf_if (has_cor w) TCA_NETEM_CORR (corr_bytes (cor w))) +
      tspan (leaf_if (has_reorder w) TCA_NETEM_REORDER (prob_bytes (reorder w)))) else None)) as (-> & -> & ->).
  { unfold tb. destruct (has_cor w), (has_reorder w), (has_corrupt w); split_and!; cbn; rewrite ?Z.add_0_r; reflexivity. }
  by rewrite Ecor, Ere, Eco.
Qed.

Definition no_file (_ : string) : option string := None.

Lemma netem_roundtrip_witness :
  exists n', netem_parse_opt core_default no_file no_file
      ["delay"; "100ms"; "10ms"; "25%"; "reorder"; "50%"; "duplicate"; "1%"] (mk_nlmsg 36 (replicate 1024 0)) = Some (Return 0 n' []) /\
    netem_print_opt core_default (mem n') (Some 36) =
      Some (0, "limit 1000 delay 100.0ms  10.0ms 25% duplicate 1% reorder 50% gap 1").
Proof.
  destruct (netem_roundtrip core_default no_file no_file
    ["delay"; "100ms"; "10ms"; "25%"; "reorder"; "50%"; "duplicate"; "1%"] (mk_nlmsg 36 (replicate 1024 0))
    (mk_netem_words (mk_netem 100000 1000 0 0 42949673 10000) (mk_corr 1073741824 0 0) (mk_prob 2147483648 0) (mk_prob 0 0)
      true true false NoDist) []
    (mk_netem_words (mk_netem 100000 1000 0 1 42949673 10000) (mk_corr 1073741824 0 0) (mk_prob 2147483648 0) (mk_prob 0 0)
      true true false NoDist) ltac:(vm_compute; reflexivity) ltac:(vm_compute; reflexivity) eq_refl
    ltac:(constructor; vm_compute; congruence)) as (_ & n' & H1 & _ & H2).
  exists n'. split; [exact H1|]. refine (eq_trans H2 _). vm_compute. reflexivity.
Defined.

(** Without the file of a distribution the program goes on and copies a length of -2. *)
Example missing_distribution :
  netem_parse_opt core_default no_file no_file ["delay"; "100ms"; "10ms"; "distribution"; "normal"]
    (mk_nlmsg 36 (replicate 1024 0)) = None.
Proof. vm_compute. reflexivity. Qed.

(** The correlation of duplicates alone is read and not sent. *)
Example duplicate_correlation_lost : forall w rest,
  netem_loop core_default no_file no_file 3 ["duplicate"; "1%"; "25%"] netem_start = Args w rest ->
  dup_corr (cor w) = 1073741824 /\ netem_rest w = [].
Proof. intros w rest E. vm_compute in E. injection E as <- <-. done. Qed.

(** A file with a comment line and two lines of numbers. *)
Example distribution_file :
  get_distribution no_file (fun name => if String.eqb name "/usr/lib//tc//normal.dist"
    then Some ("# data" +:+ newline +:+ " -32768 -28307" +:+ newline +:+ newline +:+ "12 40000" +:+ newline) else None)
    "normal" MAX_DIST = Some [-32768; -28307; 12; -25536].
Proof. vm_compute. reflexivity. Qed.
