(* ===== verification/NetemDist.v ===== *)
(** * The generators of distribution tables (iproute2-3.1.0/netem)

    [maketable] (maketable.c) makes a table from observed values, [stats] (stats.c) reports
    their statistics, and normal.c, pareto.c and paretonormal.c print the tables of known
    distributions.  What they print is what [get_distribution] of q_netem.c reads. *)

From S2P Require Export TcNetem FloatExact FloatDyadic.

#[local] Open Scope list_scope.

Definition dsqrt (x : double) : double := SFsqrt prec emax x.

(** ** Reading values *)

Section Reading.
(** What [fscanf] leaves of a text, not blank, that is no number. *)
Context (bad : string -> string).

(** [fscanf(fp, "%lf", &x)]: the value if there is one, what is left, and whether the end of
    the file was met. *)
Definition fscanf_lf (stream : string) : option double * string * bool :=
  match skip_space stream with
  | "" => (None, "", true)
  | s =>
      match scan_double s with
      | Some (x, rest, true) => (Some x, rest, String.eqb rest "")
      | _ => (None, bad s, String.eqb (bad s) "")
      end
  end.

(** The number of places: twice the size of the file over the size of a [double]. *)
Definition read_limit (st_size : Z) : Z := if 0 <? st_size then s32 (u64 (2 * st_size) / 8) else 10000.

(** The values counted: a place that is not written holds 0, and the value that meets the end
    of the file is not counted.  [iproute2-3.1.0/netem/maketable.c:40-45 readdoubles] *)
Fixpoint read_loop (limit : nat) (stream : string) : list double :=
  match limit with
  | O => []
  | S limit =>
      let '(x, stream, eof) := fscanf_lf stream in
      if eof then [] else default d0 x :: read_loop limit stream
  end.

(** [iproute2-3.1.0/netem/maketable.c:19-48 readdoubles] *)
Definition readdoubles (st_size : Z) (stream : string) : list double :=
  read_loop (Z.to_nat (read_limit st_size)) stream.
End Reading.

(** ** Statistics *)

(** The sums of the squares and of the values.
    [iproute2-3.1.0/netem/maketable.c:57-61 arraystats] *)
Definition sums (x : list double) : double * double :=
  foldl (fun '(sumsquare, sum) v => ((sumsquare + v * v)%D, (sum + v)%D)) (d0, d0) x.

(** [iproute2-3.1.0/netem/maketable.c:65-69 arraystats] *)
Definition cross_sums (x : list double) (mu : double) : double * double :=
  foldl (fun '(top, sigma2) '(prev, v) =>
    ((top + (v - mu) * (prev - mu))%D, (sigma2 + (prev - mu) * (prev - mu))%D)) (d0, d0) (combine x (tail x)).

(** The mean, the deviation and the correlation.
    [iproute2-3.1.0/netem/maketable.c:50-71 arraystats] *)
Definition arraystats (x : list double) : double * double * double :=
  let n := d_of_Z (Z.of_nat (List.length x)) in
  let '(sumsquare, sum) := sums x in
  let mu := (sum / n)%D in
  let sigma := dsqrt ((sumsquare - n * mu * mu) / d_of_Z (Z.of_nat (List.length x) - 1))%D in
  let '(top, sigma2) := cross_sums x mu in
  (mu, sigma, (top / sigma2)%D).

Fixpoint pad_blank (n : nat) (s : string) : string :=
  match n with O => s | S n => if (String.length s <? S n)%nat then String " " (pad_blank n s) else s end.

(** The places are not cleared here: [garbage] is what a place that is not written holds.
    [iproute2-3.1.0/netem/stats.c:35-40 stats] *)
Fixpoint stats_loop (bad : string -> string) (garbage : nat -> double) (limit i : nat) (stream : string) : list double :=
  match limit with
  | O => []
  | S limit =>
      let '(x, stream, eof) := fscanf_lf bad stream in
      if eof then [] else default (garbage i) x :: stats_loop bad garbage limit (S i) stream
  end.

(** [iproute2-3.1.0/netem/stats.c:17-58 stats] *)
Definition stats (bad : string -> string) (garbage : nat -> double) (st_size : Z) (stream : string) : string :=
  let x := stats_loop bad garbage (Z.to_nat (read_limit st_size)) 0 stream in
  let '(mu, sigma, rho) := arraystats x in
  "mu =    " +:+ pad_blank 12 (fmt_fixed 6 mu) +:+ newline +:+
  "sigma = " +:+ pad_blank 12 (fmt_fixed 6 sigma) +:+ newline +:+
  "rho =   " +:+ pad_blank 12 (fmt_fixed 6 rho) +:+ newline.

(** ** The table of observed values *)

Definition TABLESIZE : Z := 16384 / 4.
Definition TABLEFACTOR : Z := 8192.
Definition MINSHORT : Z := -32768.
Definition MAXSHORT : Z := 32767.
Definition DISTTABLEDOMAIN : Z := MAXSHORT / TABLEFACTOR + 1.
Definition DISTTABLEGRANULARITY : Z := 50000.
Definition DISTTABLESIZE : Z := DISTTABLEDOMAIN * DISTTABLEGRANULARITY * 2.

(** The slot of a value, in bounds whatever it is.
    [iproute2-3.1.0/netem/maketable.c:107-111 makedist] *)
Definition dist_index (mu sigma v : double) : Z :=
  let input := ((v - mu) / sigma)%D in
  let index := d_to_s32 (d_rint ((input + d_of_Z DISTTABLEDOMAIN) * d_of_Z DISTTABLEGRANULARITY)%D) in
  let index := if index <? 0 then 0 else index in
  if DISTTABLESIZE <=? index then DISTTABLESIZE - 1 else index.

(** The number of values in each slot; [first] and [last] are not used.
    [iproute2-3.1.0/netem/maketable.c:92-119 makedist] *)
Definition makedist (x : list double) (mu sigma : double) : list Z :=
  foldl (fun table v => alter Z.succ (Z.to_nat (dist_index mu sigma v)) table)
    (replicate (Z.to_nat DISTTABLESIZE) 0) x.

(** [iproute2-3.1.0/netem/maketable.c:121-132 cumulativedist] *)
Fixpoint cumulate (accum : Z) (table : list Z) : list Z * Z :=
  match table with
  | [] => ([], accum)
  | v :: table => let '(l, total) := cumulate (accum + v) table in (accum + v :: l, total)
  end.

(** [iproute2-3.1.0/netem/maketable.c:121-132 cumulativedist] *)
Definition cumulativedist (table : list Z) : list Z * Z := cumulate 0 table.

(** The index of the inverse that an entry is written to.
    [iproute2-3.1.0/netem/maketable.c:147-148 inverttable] *)
Definition inverse_index (v inversesize cumulative : Z) : Z :=
  d_to_s32 (d_rint (d_of_Z v / d_of_Z cumulative * d_of_Z inversesize)%D).

(** [iproute2-3.1.0/netem/maketable.c:146-151 inverttable] *)
Definition inverse_value (i : nat) : Z :=
  let findex := (d_of_Z (Z.of_nat i) / d_of_Z DISTTABLEGRANULARITY - d_of_Z DISTTABLEDOMAIN)%D in
  let v := d_to_s32 (d_rint (findex * d_of_Z TABLEFACTOR)%D) in
  let v := if v <=? MINSHORT then MINSHORT + 1 else v in
  if MAXSHORT <? v then MAXSHORT else v.

(** The inverse, and the writes that fall outside it.
    [iproute2-3.1.0/netem/maketable.c:145-153 inverttable] *)
Fixpoint invert_loop (table : list Z) (i : nat) (inversesize cumulative : Z) (s : list Z * list (Z * Z)) :
    list Z * list (Z * Z) :=
  match table with
  | [] => s
  | v :: table =>
      let '(inverse, outside) := s in
      let index := inverse_index v inversesize cumulative in
      let s := if (0 <=? index) && (index <? inversesize)
               then (<[Z.to_nat index := inverse_value i]> inverse, outside)
               else (inverse, outside ++ [(index, inverse_value i)]) in
      invert_loop table (S i) inversesize cumulative s
  end.

(** [iproute2-3.1.0/netem/maketable.c:134-156 inverttable] *)
Definition inverttable (table : list Z) (inversesize cumulative : Z) : list Z * list (Z * Z) :=
  invert_loop table 0 inversesize cumulative (replicate (Z.to_nat inversesize) MINSHORT, []).

(** The first entry from [j] on that is not missing.
    [iproute2-3.1.0/netem/maketable.c:167-169 interpolatetable] *)
Fixpoint find_known (table : list Z) (j : Z) : option (Z * Z) :=
  match table with
  | [] => None
  | v :: table => if v =? MINSHORT then find_known table (j + 1) else Some (j, v)
  end.

(** The entries from index [i] on; [/] of C truncates.
    [iproute2-3.1.0/netem/maketable.c:165-179 interpolatetable] *)
Fixpoint interpolate (table : list Z) (i limit last lasti : Z) : list Z :=
  match table with
  | [] => []
  | v :: table =>
      if v =? MINSHORT then
        s16 (match find_known table (i + 1) with
             | Some (j, w) => last + Z.quot ((i - lasti) * (w - last)) (j - lasti)
             | None => last + Z.quot ((i - lasti) * (MAXSHORT - last)) (limit - lasti)
             end) :: interpolate table (i + 1) limit last lasti
      else v :: interpolate table (i + 1) limit v i
  end.

(** [iproute2-3.1.0/netem/maketable.c:158-180 interpolatetable] *)
Definition interpolatetable (table : list Z) : list Z :=
  interpolate table 0 (Z.of_nat (List.length table)) MINSHORT (- 1).

(** [iproute2-3.1.0/netem/maketable.c:189-192 printtable] *)
Fixpoint print_entries (i : Z) (table : list Z) : string :=
  match table with
  | [] => ""
  | v :: table => print_d v +:+ (if i mod 8 =? 7 then newline else " ") +:+ print_entries (i + 1) table
  end.

(** [iproute2-3.1.0/netem/maketable.c:182-193 printtable] *)
Definition printtable (table : list Z) : string :=
  "# This is the distribution table for the experimental distribution." +:+ newline +:+ print_entries 0 table.

(** What the program prints, or its exit status; [fp] is the file, [None] when it cannot be
    opened.  [iproute2-3.1.0/netem/maketable.c:195-232 main] *)
Definition maketable (bad : string -> string) (fp : option (Z * string)) : string + Z :=
  match fp with
  | None => inr 1
  | Some (st_size, stream) =>
      match readdoubles bad st_size stream with
      | [] => inr 2
      | x =>
          let '(mu, sigma, _) := arraystats x in
          let '(table, total) := cumulativedist (makedist x mu sigma) in
          let inverse := (inverttable table TABLESIZE total).1 in
          inl (printtable (interpolatetable inverse))
      end
  end.

(** ** Known distributions *)

(** A value on a line of eight.  [iproute2-3.1.0/netem/normal.c:43-47 main] *)
Fixpoint print_lines (n : Z) (values : list Z) : string :=
  match values with
  | [] => ""
  | v :: values =>
      " " +:+ print_d v +:+
      (if n + 1 =? 8 then newline +:+ print_lines 0 values else print_lines (n + 1) values)
  end.

Definition SHRT_MIN : Z := -32768.
Definition SHRT_MAX : Z := 32767.
Definition NORMAL_SIZE : Z := 16384.

(** [iproute2-3.1.0/netem/normal.c:40-41 main] *)
Definition clamp_short (value : Z) : Z :=
  let value := if value <? SHRT_MIN then SHRT_MIN else value in
  if SHRT_MAX <? value then SHRT_MAX else value.

(** The multiples of 4 below the size of the table. *)
Definition quarters : list nat := map (fun i => (4 * i)%nat) (seq 0 4096).

Section Normal.
Context (erf : double -> double).

(** [iproute2-3.1.0/netem/normal.c:17-21 normal] *)
Definition normal (x mu sigma : double) : double :=
  let half := dec 5 (-1) in
  (half + half * erf ((x - mu) / (dsqrt d2 * sigma)))%D.

Definition x_start : double := dneg (d_of_Z 10).
Definition x_end : double := Eval vm_compute in dec 1005 (-2).
Definition x_step : double := Eval vm_compute in dec 5 (-5).

(** The loop over [x]; [None] when it needs more rounds than [fuel].  A write outside of the
    table is kept apart.  [iproute2-3.1.0/netem/normal.c:31-34 main] *)
Fixpoint normal_loop (fuel : nat) (x : double) (table : list double) : option (list double) :=
  if dlt x x_end then
    match fuel with
    | O => None
    | S fuel =>
        let i := d_to_s32 (d_rint (d_of_Z NORMAL_SIZE * normal x d0 d1)%D) in
        normal_loop fuel (x + x_step)%D (if 0 <=? i then <[Z.to_nat i := x]> table else table)
    end
  else Some table.

(** Rounds enough for the loop. *)
Definition x_rounds : nat := Z.to_nat 401002.

(** [iproute2-3.1.0/netem/normal.c:38-41 main] *)
Definition normal_value (table : list double) (i : nat) : Z :=
  clamp_short (d_to_s32 (d_rint (default d0 (table !! i) * d_of_Z TABLEFACTOR)%D)).

(** [garbage] is what the table holds before.  [iproute2-3.1.0/netem/normal.c:24-51 main] *)
Definition normal_main (garbage : list double) : option string :=
  option_map (fun table =>
    "# This is the distribution table for the normal distribution." +:+ newline +:+
    print_lines 0 (map (normal_value table) quarters)) (normal_loop x_rounds x_start garbage).
End Normal.

Section Pareto.
Context (pow : double -> double -> double).

(** The value for a probability of [i] in 65536.
    [iproute2-3.1.0/netem/pareto.c:26-33 main] *)
Definition pareto_value (i : Z) : Z :=
  let dvalue := (d_of_Z i / d_of_Z 65536)%D in
  let dvalue := (d1 / pow dvalue (d1 / d_of_Z 3))%D in
  let dvalue := (dvalue - dec 15 (-1))%D in
  let dvalue := (dvalue * (d_of_Z 4 / d_of_Z 3 * d_of_Z TABLEFACTOR))%D in
  d_to_s32 (d_rint (if dgt dvalue (d_of_Z 32767) then d_of_Z 32767 else dvalue)).

(** [iproute2-3.1.0/netem/pareto.c:17-41 main] *)
Definition pareto_main : string :=
  "# This is the distribution table for the pareto distribution." +:+ newline +:+
  print_lines 0 (map (fun k => pareto_value (65536 - 16 * Z.of_nat k)) (seq 0 4096)).

(** [iproute2-3.1.0/netem/paretonormal.c:35-47 paretovalue] *)
Definition paretovalue (i : Z) : Z := pareto_value (65536 - 4 * i).

(** One quarter normal and three quarters Pareto.
    [iproute2-3.1.0/netem/paretonormal.c:66-73 main] *)
Definition paretonormal_value (table : list double) (i : nat) : Z :=
  let normvalue := d_to_s32 (d_rint (default d0 (table !! i) * d_of_Z TABLEFACTOR)%D) in
  clamp_short (Z.quot (s32 (normvalue + 3 * paretovalue (Z.of_nat i))) 4).

(** [iproute2-3.1.0/netem/paretonormal.c:50-82 main] *)
Definition paretonormal_main (erf : double -> double) (garbage : list double) : option string :=
  option_map (fun table =>
    "# This is the distribution table for the paretonormal distribution." +:+ newline +:+
    print_lines 0 (map (paretonormal_value table) quarters)) (normal_loop erf x_rounds x_start garbage).
End Pareto.

(** ** The loop over [x] ends *)

(** The same rounds without the table. *)
Fixpoint x_ends (fuel : nat) (x : double) : bool :=
  if dlt x x_end then match fuel with O => false | S fuel => x_ends fuel (x + x_step)%D end else true.

(** A double between two finite ones is finite. *)
Lemma finite_between a x b :
  is_finite a = true -> is_finite b = true -> dle a x = true -> dle x b = true -> is_finite x = true.
Proof. by destruct a as [[]|[]| |[] ma ea], b as [[]|[]| |[] mb eb], x as [[]|[]| |[] mx ex]. Qed.

(** A unit that divides the bounds below: 2^-40. *)
Definition grain : Z := 2 ^ 1034.

(** What [x] has at least after [k] rounds, in grains. *)
Definition x_least (k : Z) : Z := - 10 * 2 ^ 40 + k * 54975581.

Lemma x_least_rep k : 0 <= k <= 401002 -> representable (x_least k * grain).
Proof.
  intros Hk. unfold x_least, grain. destruct (Z.le_gt_cases 0 (- 10 * 2 ^ 40 + k * 54975581)) as [H|H].
  - apply representable_pow; lia.
  - destruct (representable_pow (10 * 2 ^ 40 - k * 54975581) 1034) as [z Hz]; [lia|lia|].
    exists (dneg z). apply dneg_value in Hz.
    replace ((-10 * 2 ^ 40 + k * 54975581) * 2 ^ 1034) with (- ((10 * 2 ^ 40 - k * 54975581) * 2 ^ 1034)) by ring. done.
Qed.

(** The constants of the loop in grains. *)
Lemma x_constants :
  valid x_step /\ is_finite x_step = true /\ 54975581 * grain <= ulps x_step <= grain * 2 ^ 30 /\
  valid x_end /\ is_finite x_end = true /\ ulps x_end <= x_least 401001 * grain /\ ulps x_end <= 11 * 2 ^ 40 * grain.
Proof. split_and!; first [reflexivity|apply Z.leb_le; reflexivity]. Qed.

Lemma x_ends_from fuel : forall k x,
  valid x -> is_finite x = true -> x_least k * grain <= ulps x -> 0 <= k -> 401001 <= k + Z.of_nat fuel -> k <= 401001 ->
  x_ends fuel x = true.
Proof.
  destruct x_constants as (S1 & S2 & [S3 S3'] & E1 & E2 & E3 & E4).
  induction fuel as [|fuel IH]; intros k x Vx Fx Hx Hk Hf Hk2; cbn [x_ends].
  - assert (k = 401001) as -> by lia. destruct (dlt x x_end) eqn:Elt; [|done].
    apply (dlt_ulps x x_end Vx E1 Fx E2) in Elt. lia.
  - destruct (dlt x x_end) eqn:Elt; [|done]. apply (dlt_ulps x x_end Vx E1 Fx E2) in Elt.
    assert (k < 401001) as Hlt.
    { destruct (Z.eq_dec k 401001) as [->|]; lia. }
    destruct (x_least_rep (k + 1)) as (lo & V1 & F1 & U1); [lia|].
    destruct (representable_pow 12 1074) as (hi & V2 & F2 & U2); [lia|lia|].
    assert (x_least (k + 1) * grain = x_least k * grain + 54975581 * grain) as Estep by (unfold x_least; ring).
    assert (dle lo (dadd x x_step) = true) as Hlo by (apply dadd_ge; try done; lia).
    assert (grain * 2 ^ 30 + 11 * 2 ^ 40 * grain <= 12 * 2 ^ 1074) as Hhi by (apply Z.leb_le; reflexivity).
    assert (dle (dadd x x_step) hi = true) as Hle by (apply dadd_le; try done; lia).
    pose proof (finite_between lo _ hi F1 F2 Hlo Hle) as Fs. pose proof (dadd_valid x x_step Vx S1) as Vs.
    apply (IH (k + 1)); try done; try lia. apply (dle_ulps lo _ V1 Vs F1 Fs) in Hlo. lia.
Qed.

Lemma x_rounds_enough : 401001 <= 0 + Z.of_nat x_rounds.
Proof. unfold x_rounds. rewrite Z2Nat.id; lia. Qed.

Lemma x_ends_start : x_ends x_rounds x_start = true.
Proof.
  assert (x_least 0 * grain <= ulps x_start) as Hs by (apply Z.leb_le; reflexivity).
  exact (x_ends_from x_rounds 0 x_start eq_refl eq_refl Hs ltac:(lia) x_rounds_enough ltac:(lia)).
Qed.

(** The loop that fills the table of the normal distribution ends, whatever the error function
    and the table were: the programs print. *)
Lemma normal_loop_ends erf fuel : forall x table, x_ends fuel x = true -> exists table', normal_loop erf fuel x table = Some table'.
Proof.
  induction fuel as [|fuel IH]; intros x table; cbn [x_ends normal_loop]; destruct (dlt x x_end); try done; eauto.
Qed.

Theorem normal_table_printed erf garbage :
  exists text, normal_main erf garbage = Some ("# This is the distribution table for the normal distribution." +:+ newline +:+ text).
Proof.
  unfold normal_main. destruct (normal_loop_ends erf x_rounds x_start garbage x_ends_start) as [table E].
  eexists. exact (f_equal (option_map _) E).
Qed.

(** ** The inverse is written past its end *)

(** A number divided by itself. *)
Lemma ddiv_self n : 0 < n < 2 ^ 53 -> ddiv (d_of_Z n) (d_of_Z n) = d1.
Proof.
  intros Hn. destruct (d_of_Z_value n Hn) as (m & e & -> & C & He & _).
  unfold ddiv, SFdiv. destruct (SFdiv_core_binary prec emax (Z.pos m) e (Z.pos m) e) as [[q e'] l] eqn:E.
  pose proof (div_wide _ _ _ _ _ _ _ E) as [_ Hw]. apply div_core_spec in E as (s & Hs & He' & Hq & _ & Hl).
  rewrite Z.mul_comm, Z.div_mul in Hq by lia. rewrite Z.mul_comm, Z.mod_mul in Hl by lia. rewrite new_location_0 in Hl.
  subst l. cbn [xorb]. change d1 with (S754_finite false (Z.to_pos (2 ^ 52)) (-52)).
  assert (0 < q) as Hpos by (rewrite Hq; by apply Z.pow_pos_nonneg).
  replace (Z.to_pos (2 ^ 52)) with (Z.to_pos (2 ^ 52)) by done.
  assert (e' = - s) as -> by lia. subst q.
  apply (round_exact false (2 ^ s) (- s) (2 ^ 52) (-52)); try done.
  - rewrite (ple_scale (- s - 52)) by lia. rewrite <- !Z.pow_add_r by lia. apply Z.pow_le_mono_r; lia.
  - rewrite (ple_scale (- s - 52)) by lia. rewrite <- !Z.pow_add_r by lia. apply Z.pow_le_mono_r; lia.
Qed.

(** The entry that reaches the total is written at the index [inversesize]. *)
Lemma index_of_total total : 0 < total < 2 ^ 31 -> inverse_index total TABLESIZE total = TABLESIZE.
Proof. intros Ht. unfold inverse_index. rewrite ddiv_self by lia. reflexivity. Qed.

Lemma round_half_even_bounds num den k : 0 <= num <= k * den -> 0 < den -> 0 <= round_half_even num den <= k.
Proof.
  intros Hn Hd. unfold round_half_even. pose proof (Z.div_mod num den ltac:(lia)) as E.
  pose proof (Z.mod_pos_bound num den Hd) as Hm. assert (0 <= num / den) by (apply Z.div_pos; lia).
  assert (num / den <= k) by nia.
  assert (0 < num mod den -> num / den < k) as Hlt by (intros; nia).
  destruct (Z.compare_spec (2 * (num mod den)) den); [destruct (Z.even _)|..]; lia.
Qed.

(** Rounding a double up to 4096 to an integer. *)
Lemma rint_bounds x : valid x -> nonneg_finite x -> dle x (d_of_Z TABLESIZE) = true ->
  0 <= d_to_s32 (d_rint x) <= TABLESIZE.
Proof.
  intros Vx Hx Hle. destruct x as [s|[]| |[] m e]; try contradiction; [by destruct s|].
  apply dle_ulps in Hle; [|done|apply d_of_Z_valid|done|reflexivity].
  change (ulps (d_of_Z TABLESIZE)) with (4096 * 2 ^ 1074) in Hle. cbn [ulps] in Hle. pose proof (valid_exp _ _ _ Vx) as He.
  unfold d_rint. destruct (Z.leb_spec 0 e) as [H0|H0].
  - rewrite Z.pow_add_r in Hle by lia. assert (0 < 2 ^ 1074 /\ 0 < 2 ^ e) as [P1 P2] by (split; apply Z.pow_pos_nonneg; lia).
    assert (Z.pos m * 2 ^ e <= 4096) by nia. unfold d_to_s32. cbn [d_trunc]. rewrite (proj2 (Z.leb_le 0 e)) by done.
    rewrite (proj2 (Z.leb_le (- 2 ^ 31) _)), (proj2 (Z.ltb_lt _ (2 ^ 31))) by lia. cbn [andb]. unfold TABLESIZE. change (16384 / 4) with 4096. lia.
  - assert (Z.pos m <= 4096 * 2 ^ (- e)) as Hm.
    { replace (2 ^ 1074) with (2 ^ (- e) * 2 ^ (e + 1074)) in Hle by (rewrite <- Z.pow_add_r by lia; f_equal; lia).
      assert (0 < 2 ^ (e + 1074)) by (apply Z.pow_pos_nonneg; lia). nia. }
    destruct (round_half_even_bounds (Z.pos m) (2 ^ (- e)) 4096) as [B1 B2]; [lia|apply Z.pow_pos_nonneg; lia|].
    change TABLESIZE with 4096.
    destruct (round_half_even (Z.pos m) (2 ^ (- e))) as [|q|q] eqn:Eq; [done| |lia].
    unfold d_to_s32. rewrite d_trunc_of_Z by lia.
    rewrite (proj2 (Z.leb_le (- 2 ^ 31) _)), (proj2 (Z.ltb_lt _ (2 ^ 31))) by lia. cbn [andb]. lia.
Qed.

Lemma index_bounds v total : 0 <= v <= total -> 0 < total < 2 ^ 31 -> 0 <= inverse_index v TABLESIZE total <= TABLESIZE.
Proof.
  intros Hv Ht. unfold inverse_index.
  destruct (d_of_Z_value total ltac:(lia)) as (mt & et & Et & Ct & Het & Vt).
  assert (exists r, ddiv (d_of_Z v) (d_of_Z total) = r /\ valid r /\ nonneg_finite r /\ dle r d1 = true) as (r & -> & Vr & Nr & Lr).
  { eexists. split; [reflexivity|]. split; [apply ddiv_valid; apply d_of_Z_valid|].
    destruct (Z.eq_dec v 0) as [->|Hn0]; [rewrite Et; done|].
    destruct (d_of_Z_value v ltac:(lia)) as (mv & ev & Ev & Cv & Hev & Vv). rewrite Et, Ev.
    apply (ddiv_le mv ev mt et (Z.to_pos (2 ^ 52)) (-52)); [reflexivity|].
    rewrite (ple_scale (-105)) by lia. change (Z.pos (Z.to_pos (2 ^ 52))) with (2 ^ 52).
    rewrite Vv, Vt, <- !Z.mul_assoc, <- !Z.pow_add_r by lia.
    replace (- ev + (ev - -105)) with 105 by lia.
    rewrite (Z.mul_assoc (2 ^ 52)), (Z.mul_comm (2 ^ 52) total), <- Z.mul_assoc, <- Z.pow_add_r by lia.
    replace (52 + (- et + (-52 + et - -105))) with 105 by lia. lia. }
  assert (match r with S754_finite _ m e => ple (Z.pos m * 2 ^ 52) (e + -40) (2 ^ 52) (-40) | _ => True end) as Hp.
  { destruct r as [s|s| |[] m e]; try done. apply dle_ulps in Lr; [|done|reflexivity|done|reflexivity].
    change (ulps d1) with (2 ^ 1074) in Lr. cbn [ulps] in Lr. pose proof (valid_exp _ _ _ Vr) as He.
    change (cond_Zopp false (Z.pos m)) with (Z.pos m) in Lr.
    rewrite (ple_scale (-1200)) by lia.
    replace (e + -40 - -1200) with ((e + 1074) + 86) by lia. rewrite (Z.pow_add_r 2 (e + 1074)) by lia.
    replace (2 ^ (-40 - -1200)) with (2 ^ 1074 * 2 ^ 86) by (rewrite <- Z.pow_add_r by lia; done).
    assert (0 < 2 ^ 86 /\ 0 < 2 ^ 52) as [P1 P2] by done.
    transitivity (2 ^ 52 * 2 ^ 86 * (Z.pos m * 2 ^ (e + 1074))); [lia|].
    transitivity (2 ^ 52 * 2 ^ 86 * 2 ^ 1074); [|lia]. apply Z.mul_le_mono_nonneg_l; [done|lia]. }
  destruct (dmul_le r (d_of_Z TABLESIZE) (d_of_Z TABLESIZE) Vr (d_of_Z_valid _) (d_of_Z_valid _) Nr) as [H1 H2];
    [exact I| |apply rint_bounds; [apply dmul_valid; [done|apply d_of_Z_valid]|done|done]].
  change (d_of_Z TABLESIZE) with (S754_finite false (Z.to_pos (2 ^ 52)) (-40)).
  destruct r as [s|s| |[] m e]; try done; exact Hp.
Qed.

(** ** The counts *)

Definition lsum (l : list Z) : Z := foldr Z.add 0 l.

Lemma alter_succ l i :
  (i < List.length l)%nat -> Forall (fun v => 0 <= v) l ->
  lsum (alter Z.succ i l) = lsum l + 1 /\ Forall (fun v => 0 <= v) (alter Z.succ i l) /\
  List.length (alter Z.succ i l) = List.length l.
Proof.
  revert i. induction l as [|v l IH]; intros [|i] Hi Hl; cbn [List.length] in Hi; try lia; apply Forall_cons in Hl as [Hv Hl].
  - cbn. split; [lia|]. split; [|done]. apply Forall_cons. split; [lia|done].
  - destruct (IH i ltac:(lia) Hl) as (I1 & I2 & I3). change (alter Z.succ (S i) (v :: l)) with (v :: alter Z.succ i l).
    cbn [lsum foldr List.length] in *. fold (lsum (alter Z.succ i l)). fold (lsum l). rewrite I1, I3.
    split; [lia|]. split; [by apply Forall_cons|done].
Qed.

Lemma dist_index_bounds mu sigma v : 0 <= dist_index mu sigma v < DISTTABLESIZE.
Proof.
  unfold dist_index. set (index := d_to_s32 _). change DISTTABLESIZE with 400000.
  destruct (Z.ltb_spec index 0); [done|]. destruct (Z.leb_spec 400000 index); lia.
Qed.

(** Every value is counted once. *)
Lemma count_values x mu sigma : forall table,
  List.length table = Z.to_nat DISTTABLESIZE -> Forall (fun v => 0 <= v) table ->
  let t := foldl (fun table v => alter Z.succ (Z.to_nat (dist_index mu sigma v)) table) table x in
  lsum t = lsum table + Z.of_nat (List.length x) /\ Forall (fun v => 0 <= v) t /\ List.length t = Z.to_nat DISTTABLESIZE.
Proof.
  induction x as [|v x IH]; intros table Hl Hf; cbn [foldl List.length]; [split; [lia|done]|].
  pose proof (dist_index_bounds mu sigma v) as Hi.
  destruct (alter_succ table (Z.to_nat (dist_index mu sigma v))) as (A1 & A2 & A3); [rewrite Hl; lia|done|].
  destruct (IH (alter Z.succ (Z.to_nat (dist_index mu sigma v)) table)) as (I1 & I2 & I3); [congruence|done|].
  split; [rewrite I1, A1; lia|done].
Qed.

Lemma replicate_0 n : lsum (replicate n 0) = 0 /\ Forall (fun v => 0 <= v) (replicate n 0).
Proof. induction n as [|n [I1 I2]]; [split; [done|by apply Forall_nil]|]. split; [exact I1|]. by apply Forall_cons. Qed.

Lemma makedist_counts x mu sigma :
  let t := makedist x mu sigma in
  lsum t = Z.of_nat (List.length x) /\ Forall (fun v => 0 <= v) t /\ List.length t = Z.to_nat DISTTABLESIZE.
Proof.
  destruct (replicate_0 (Z.to_nat DISTTABLESIZE)) as [R1 R2].
  pose proof (count_values x mu sigma (replicate (Z.to_nat DISTTABLESIZE) 0) (length_replicate _ _) R2) as H.
  rewrite R1 in H. exact H.
Qed.

(** The size of the table stays folded. *)
#[local] Opaque DISTTABLESIZE.

(** The running sums stay below the total, which the last one is. *)
Lemma cumulate_ok table : forall accum l total,
  cumulate accum table = (l, total) -> 0 <= accum -> Forall (fun v => 0 <= v) table ->
  total = accum + lsum table /\ List.length l = List.length table /\ Forall (fun v => accum <= v <= total) l /\
  (table <> [] -> exists l0, l = l0 ++ [total]).
Proof.
  induction table as [|v table IH]; intros accum l total E Ha Hf; cbn [cumulate] in E.
  - injection E as <- <-. split; [cbn; lia|]. split; [done|]. split; [by apply Forall_nil|done].
  - apply Forall_cons in Hf as [Hv Hf]. destruct (cumulate (accum + v) table) as [l1 t] eqn:E1. injection E as <- <-.
    destruct (IH _ _ _ E1 ltac:(lia) Hf) as (I1 & I2 & I3 & I4).
    assert (0 <= lsum table) as Hs.
    { clear -Hf. induction Hf as [|w l Hw _ IH]; [done|]. cbn [lsum foldr]. fold (lsum l). lia. }
    cbn [lsum foldr List.length]. fold (lsum table). split; [lia|]. split; [by rewrite I2|]. split.
    + apply Forall_cons. split; [lia|]. eapply Forall_impl; [exact I3|]. intros w Hw. cbn in Hw. lia.
    + intros _. destruct table as [|w table].
      * cbn [cumulate] in E1. injection E1 as <- <-. by exists [].
      * destruct (I4 ltac:(done)) as [l0 ->]. by exists (accum + v :: l0).
Qed.

(** ** What [maketable] writes *)

Lemma invert_loop_ok table total : forall i inverse outside inverse' outside',
  0 < total < 2 ^ 31 -> Forall (fun v => 0 <= v <= total) table ->
  invert_loop table i TABLESIZE total (inverse, outside) = (inverse', outside') ->
  Forall (fun w : Z * Z => w.1 = TABLESIZE) outside ->
  List.length inverse' = List.length inverse /\ Forall (fun w : Z * Z => w.1 = TABLESIZE) outside' /\
  (List.length outside <= List.length outside')%nat /\
  (In total table -> (List.length outside < List.length outside')%nat).
Proof.
  induction table as [|v table IH]; intros i inverse outside inverse' outside' Ht Hf E Ho; cbn [invert_loop] in E.
  - injection E as <- <-. split; [done|]. split; [done|]. split; [lia|done].
  - apply Forall_cons in Hf as [Hv Hf]. pose proof (index_bounds v total Hv Ht) as Hi.
    destruct ((0 <=? inverse_index v TABLESIZE total) && (inverse_index v TABLESIZE total <? TABLESIZE)) eqn:Eb.
    + destruct (IH _ _ _ _ _ Ht Hf E Ho) as (I1 & I2 & I3 & I4). rewrite length_insert in I1.
      split; [done|]. split; [done|]. split; [done|]. intros [<-|Hin]; [|auto].
      rewrite (index_of_total v) in Eb by done. done.
    + apply andb_false_iff in Eb. assert (inverse_index v TABLESIZE total = TABLESIZE) as Eq by lia.
      destruct (IH _ _ _ _ _ Ht Hf E) as (I1 & I2 & I3 & I4).
      { apply Forall_app. split; [done|]. by apply Forall_cons. }
      rewrite length_app in I3. cbn [List.length] in I3. split; [done|]. split; [done|]. split; lia.
Qed.

Lemma counts_overrun counts n table total inverse outside :
  counts <> [] -> lsum counts = n -> Forall (fun v => 0 <= v) counts -> 0 < n < 2 ^ 31 ->
  cumulativedist counts = (table, total) -> inverttable table TABLESIZE total = (inverse, outside) ->
  total = n /\ List.length inverse = Z.to_nat TABLESIZE /\ outside <> [] /\
  Forall (fun w : Z * Z => w.1 = TABLESIZE) outside.
Proof.
  intros Hne Hs Hc Hn Ec Ei. destruct (cumulate_ok _ _ _ _ Ec ltac:(lia) Hc) as (C1 & C2 & C3 & C4).
  destruct (C4 Hne) as [l0 El]. rewrite Hs in C1. split; [lia|]. unfold inverttable in Ei.
  destruct (invert_loop_ok table total 0 _ _ _ _ ltac:(lia) C3 Ei (List.Forall_nil _)) as (I1 & I2 & _ & I4).
  rewrite length_replicate in I1. split; [exact I1|]. split; [|exact I2]. intros ->.
  assert (In total table) as Hin by (rewrite El; apply in_or_app; right; by left).
  specialize (I4 Hin). cbn [List.length] in I4. lia.
Qed.

Lemma nonempty_length {A} (l : list A) : (0 < List.length l)%nat -> l <> [].
Proof. by destruct l; [intros H; cbn in H; lia|]. Qed.

(** For every list of values the program writes one place past the end of the array it
    allocates, and nowhere else outside. *)
Theorem maketable_overrun x mu sigma table total inverse outside :
  x <> [] -> Z.of_nat (List.length x) < 2 ^ 31 -> cumulativedist (makedist x mu sigma) = (table, total) ->
  inverttable table TABLESIZE total = (inverse, outside) ->
  total = Z.of_nat (List.length x) /\ List.length inverse = Z.to_nat TABLESIZE /\
  outside <> [] /\ Forall (fun w : Z * Z => w.1 = TABLESIZE) outside.
Proof.
  intros Hx Hl Ec Ei.
  assert (0 < Z.of_nat (List.length x)) as Hpos by (destruct x; [congruence|cbn [List.length]; lia]).
  destruct (makedist_counts x mu sigma) as (M1 & M2 & M3).
  apply (counts_overrun (makedist x mu sigma) _ table total inverse outside); [|exact M1|exact M2|lia|exact Ec|exact Ei].
  apply nonempty_length. rewrite M3. clear. apply (Nat2Z.inj_lt 0). rewrite Z2Nat.id; [|apply Z.leb_le; reflexivity].
  apply Z.ltb_lt. reflexivity.
Qed.

Lemma maketable_overrun_witness :
  let '(table, total) := cumulativedist (makedist [d0; d1; d2] d1 d1) in
  total = 3 /\ (inverttable table TABLESIZE total).2 <> [].
Proof.
  rewrite (surjective_pairing (cumulativedist (makedist [d0; d1; d2] d1 d1))).
  destruct (maketable_overrun [d0; d1; d2] d1 d1 _ _ _ _ ltac:(discriminate) ltac:(cbn; lia)
    (surjective_pairing _) (surjective_pairing _)) as (H1 & _ & H2 & _).
  split; [exact H1|exact H2].
Defined.

(** ** The gaps *)

(** Entries that are not missing, as 16-bit numbers. *)
Definition known (v : Z) : Prop := MINSHORT < v <= MAXSHORT.

Lemma find_known_ok table : forall j k w, find_known table j = Some (k, w) ->
  exists n, k = j + Z.of_nat n /\ table !! n = Some w /\ w <> MINSHORT /\ forall m, (m < n)%nat -> table !! m = Some MINSHORT.
Proof.
  induction table as [|v table IH]; intros j k w E; cbn [find_known] in E; [done|].
  destruct (Z.eqb_spec v MINSHORT) as [->|Hv].
  - destruct (IH _ _ _ E) as (n & -> & H1 & H2 & H3). exists (S n). split; [lia|]. split; [done|]. split; [done|].
    intros [|m] Hm; [done|]. apply H3. lia.
  - injection E as <- <-. exists 0%nat. split; [lia|]. split; [done|]. split; [done|]. intros m Hm. lia.
Qed.

(** A step of the way from one value to another lies between them. *)
Lemma quot_between a b p q : a <= b -> 0 <= p <= q -> 0 < q -> a <= a + Z.quot (p * (b - a)) q <= b.
Proof.
  intros Hab Hp Hq. rewrite Z.quot_div_nonneg by nia.
  assert (0 <= p * (b - a) / q) by (apply Z.div_pos; nia).
  assert (p * (b - a) / q <= b - a) by (apply Z.div_le_upper_bound; nia). lia.
Qed.

(** The known entries in order. *)
Fixpoint ascending (last : Z) (table : list Z) : Prop :=
  match table with
  | [] => True
  | v :: table => if v =? MINSHORT then ascending last table else last <= v /\ ascending v table
  end.

Lemma find_known_ge table : forall last j k w, ascending last table -> find_known table j = Some (k, w) -> last <= w.
Proof.
  induction table as [|v table IH]; intros last j k w Ha E; cbn [find_known ascending] in *; [done|].
  destruct (v =? MINSHORT); [by eapply IH|]. injection E as <- <-. tauto.
Qed.

Lemma interpolate_ok table : forall i limit last lasti,
  ascending last table -> Forall (fun v => MINSHORT <= v <= MAXSHORT) table -> MINSHORT <= last <= MAXSHORT ->
  lasti < i -> limit = i + Z.of_nat (List.length table) ->
  let t := interpolate table i limit last lasti in
  List.length t = List.length table /\ Forall (fun v => last <= v <= MAXSHORT) t /\
  forall n v, table !! n = Some v -> v <> MINSHORT -> t !! n = Some v.
Proof.
  induction table as [|v table IH]; intros i limit last lasti Ha Hf Hl Hi Hlim; cbn [interpolate].
  - split; [done|]. split; [by apply Forall_nil|done].
  - apply Forall_cons in Hf as [Hv Hf]. cbn [ascending] in Ha. cbn [List.length] in Hlim.
    destruct (Z.eqb_spec v MINSHORT) as [->|Hne].
    + destruct (IH (i + 1) limit last lasti Ha Hf Hl ltac:(lia) ltac:(lia)) as (I1 & I2 & I3).
      split; [cbn [List.length]; by rewrite I1|]. split.
      * apply Forall_cons. split; [|done].
        assert (forall w, last <= w <= MAXSHORT -> last <= s16 w <= MAXSHORT) as Hs
          by (intros w Hw; unfold MINSHORT, MAXSHORT in *; unfold s16; rewrite Z.mod_small; lia).
        apply Hs. destruct (find_known table (i + 1)) as [[j w]|] eqn:Ef.
        -- pose proof (find_known_ge _ _ _ _ _ Ha Ef). destruct (find_known_ok _ _ _ _ Ef) as (n & -> & Hn & _).
           pose proof (proj1 (Forall_lookup _ _) Hf n w Hn) as Hw. cbn in Hw.
           pose proof (quot_between last w (i - lasti) (i + 1 + Z.of_nat n - lasti)). lia.
        -- pose proof (quot_between last MAXSHORT (i - lasti) (limit - lasti)). lia.
      * intros [|n] u Hu Hn; [by injection Hu as <-|]. by apply I3.
    + destruct Ha as [Hge Ha]. destruct (IH (i + 1) limit v i Ha Hf Hv ltac:(lia) ltac:(lia)) as (I1 & I2 & I3).
      split; [cbn [List.length]; by rewrite I1|]. split.
      * apply Forall_cons. split; [lia|]. eapply Forall_impl; [exact I2|]. intros w Hw. cbn in Hw. lia.
      * intros [|n] u Hu Hn; [done|]. by apply I3.
Qed.

(** The table that is printed keeps the entries that were known, and fills the others between
    their neighbours. *)
Theorem interpolate_fills table :
  ascending MINSHORT table -> Forall (fun v => MINSHORT <= v <= MAXSHORT) table ->
  let t := interpolatetable table in
  List.length t = List.length table /\ Forall (fun v => MINSHORT <= v <= MAXSHORT) t /\
  forall n v, table !! n = Some v -> v <> MINSHORT -> t !! n = Some v.
Proof. intros Ha Hf. apply interpolate_ok; try done; unfold MINSHORT, MAXSHORT; lia. Qed.

Lemma interpolate_fills_witness :
  interpolatetable [MINSHORT; MINSHORT; -100; MINSHORT; MINSHORT; 50; MINSHORT] = [-21879; -10990; -100; -50; 0; 50; 16408] /\
  interpolatetable [MINSHORT; MINSHORT; -100; MINSHORT; MINSHORT; 50; MINSHORT] !! 5%nat = Some 50.
Proof.
  split; [reflexivity|].
  apply (interpolate_fills [MINSHORT; MINSHORT; -100; MINSHORT; MINSHORT; 50; MINSHORT]); [|repeat constructor; unfold MINSHORT, MAXSHORT; lia|done|done].
  cbn. unfold MINSHORT. lia.
Defined.

(** ** What is printed is read *)

Lemma print_digits_first fuel : forall z acc, 0 < z -> z < 10 ^ Z.of_nat (S fuel) ->
  exists d s, print_digits (S fuel) 10 z acc = String (digit_char d) s /\ 0 < d < 10.
Proof.
  induction fuel as [|fuel IH]; intros z acc Hz Hf; cbn [print_digits].
  - change (10 ^ Z.of_nat 1) with 10 in Hf. rewrite (proj2 (Z.ltb_lt z 10)), Z.mod_small by lia. by exists z, acc.
  - destruct (Z.ltb_spec z 10); [exists z, acc; rewrite Z.mod_small by lia; done|].
    rewrite Nat2Z.inj_succ, Z.pow_succ_r in Hf by lia.
    apply (IH (z / 10)); [apply Z.div_str_pos; lia|apply Z.div_lt_upper_bound; lia].
Qed.

(** A blank or the end. *)
Definition at_blank (s : string) : bool := match s with String c _ => is_space c | "" => true end.

Lemma blank_no_digit base s : 2 <= base <= 16 -> at_blank s = true -> starts_digit base s = false.
Proof.
  intros Hb. destruct s as [|c s]; [done|]. cbn [at_blank starts_digit]. unfold is_space, digit_in, digit_value. intros Hc.
  destruct (Z.leb_spec 48 (code c)), (Z.leb_spec (code c) 57); cbn [andb]; try lia;
  destruct (Z.leb_spec 97 (code c)); cbn [andb]; try lia;
  destruct (Z.leb_spec 65 (code c)); cbn [andb]; try lia; done.
Qed.

Lemma blank_tests c : is_space c = true ->
  Ascii.eqb c "x" = false /\ Ascii.eqb c "X" = false /\ Ascii.eqb c "-" = false /\ Ascii.eqb c "+" = false.
Proof.
  intros Hc. split_and!;
    match goal with |- Ascii.eqb c ?d = false => destruct (Ascii.eqb_spec c d) as [->|]; [done|done] end.
Qed.

Lemma digit_char_nonzero d : 0 < d < 10 -> Ascii.eqb (digit_char d) "0" = false.
Proof.
  intros Hd. assert (forall d, 0 <= d < 16 -> d = 0 \/ Ascii.eqb (digit_char d) "0" = false) as H.
  { apply all_digits. repeat (constructor; [first [by left|by right]|]). constructor. }
  destruct (H d ltac:(lia)); [lia|done].
Qed.

(** A number in base 0 whose first digit tells the base. *)
Lemma scan_base_0 z rest :
  0 <= z -> at_blank rest = true ->
  scan_base 0 (print_u z +:+ rest) = (if z =? 0 then 8 else 10, print_u z +:+ rest).
Proof.
  intros Hz Hr. destruct (Z.eqb_spec z 0) as [->|Hn].
  - change (print_u 0 +:+ rest) with (String "0" rest). unfold scan_base. destruct rest as [|c rest]; [done|].
    cbn [at_blank] in Hr. destruct (blank_tests c Hr) as (-> & -> & _). done.
  - unfold print_u, print_base. pose proof (print_base_fuel 10 ltac:(lia) z Hz) as Hf.
    destruct (print_digits_first (Z.to_nat (Z.log2 z)) z "" ltac:(lia) Hf) as (d & s & -> & Hd).
    change (String (digit_char d) s +:+ rest) with (String (digit_char d) (s +:+ rest)).
    unfold scan_base. rewrite (digit_char_nonzero d Hd). cbn [andb]. destruct (s +:+ rest); done.
Qed.

Lemma scan_zero rest : at_blank rest = true -> scan_digits 8 (String "0" rest) 0 = (0, rest).
Proof.
  intros Hr. pose proof (blank_no_digit 8 rest ltac:(lia) Hr) as Hd. cbn [scan_digits]. change (digit_in 8 "0") with (Some 0).
  cbv iota. destruct rest as [|c rest]; [done|]. cbn [scan_digits starts_digit] in *. by destruct (digit_in 8 c).
Qed.

Lemma strtol_0 z rest :
  LONG_MIN <= z <= LONG_MAX -> at_blank rest = true -> strtol (print_d z +:+ rest) 0 = Some (z, rest).
Proof.
  intros Hz Hr. unfold strtol, scan_int, LONG_MIN, LONG_MAX in *.
  assert (forall y, 0 <= y -> exists b, scan_base 0 (print_u y +:+ rest) = (b, print_u y +:+ rest) /\
    starts_digit b (print_u y +:+ rest) = true /\ scan_digits b (print_u y +:+ rest) 0 = (y, rest)) as Hu.
  { intros y Hy. rewrite scan_base_0 by done. destruct (Z.eqb_spec y 0) as [->|Hn].
    - exists 8. split; [done|]. split; [done|]. exact (scan_zero rest Hr).
    - exists 10. split; [done|]. destruct (print_base_scan 10 ltac:(lia) y rest Hy) as [H1 _].
      split; [exact H1|]. apply scan_print; [lia|done|]. by apply blank_no_digit. }
  unfold print_d. destruct (Z.ltb_spec z 0) as [Hn|Hn].
  - change (String "-" (print_u (- z)) +:+ rest) with (String "-" (print_u (- z) +:+ rest)).
    cbn [skip_space]. change (is_space "-") with false. cbn iota.
    change (scan_sign (String "-" (print_u (- z) +:+ rest))) with (true, print_u (- z) +:+ rest). cbn iota.
    destruct (Hu (- z) ltac:(lia)) as (b & -> & H1 & H2). cbn iota. rewrite H1, H2. cbn iota. do 2 f_equal. lia.
  - destruct (print_base_scan 10 ltac:(lia) z rest ltac:(lia)) as [_ E].
    change (print_base 10 z) with (print_u z) in E. rewrite E. cbn iota.
    destruct (Hu z ltac:(lia)) as (b & -> & H1 & H2). cbn iota. rewrite H1, H2. cbn iota. do 2 f_equal. lia.
Qed.

Lemma skip_space_blanks pre s : all_chars is_space pre = true -> skip_space (pre +:+ s) = skip_space s.
Proof.
  induction pre as [|c pre IH]; [done|]. change (String c pre +:+ s) with (String c (pre +:+ s)).
  cbn [all_chars skip_space]. intros [-> Hp]%andb_prop. by apply IH.
Qed.

Definition short (v : Z) : Prop := - 2 ^ 15 <= v < 2 ^ 15.

(** Numbers between blanks. *)
Inductive spaced : string -> list Z -> Prop :=
| spaced_end b : all_chars is_space b = true -> spaced b []
| spaced_number b v s l : all_chars is_space b = true -> short v -> at_blank s = true -> spaced s l ->
    spaced (b +:+ print_d v +:+ s) (v :: l).

Lemma spaced_reads s l : spaced s l -> forall fuel maxdata data,
  (String.length s < fuel)%nat -> Z.of_nat (List.length data + List.length l) <= maxdata ->
  line_numbers fuel s maxdata data = Some (data ++ l).
Proof.
  induction 1 as [b Hb|b v s l Hb Hv Hs _ IH]; intros [|fuel] maxdata data Hf Hm; try lia; cbn [line_numbers].
  - assert (strtol b 0 = None) as ->; [|by rewrite app_nil_r]. unfold strtol, scan_int.
    rewrite <- (append_empty b), skip_space_blanks by done. done.
  - assert (strtol (b +:+ print_d v +:+ s) 0 = Some (v, s)) as ->.
    { rewrite <- (strtol_0 v s); [|unfold short, LONG_MIN, LONG_MAX in *; lia|done].
      unfold strtol, scan_int. by rewrite skip_space_blanks. }
    cbn [List.length] in Hm. rewrite (proj2 (Z.leb_gt _ _)) by lia.
    rewrite !length_append in Hf. pose proof (print_d_length v ltac:(unfold short, LONG_MIN, LONG_MAX in *; lia)).
    rewrite IH; [|lia|rewrite length_app; cbn [List.length]; lia].
    unfold s16. unfold short in Hv. rewrite Z.mod_small by lia. rewrite <- app_assoc. cbn [app].
    by replace (v + 2 ^ 15 - 2 ^ 15) with v by lia.
Qed.

Definition skipped (line : string) : bool := String.prefix newline line || String.prefix "#" line.

(** The lines of a file and their numbers. *)
Inductive file_text : string -> list Z -> Prop :=
| file_end : file_text "" []
| file_line line rest l l' :
    line <> "" -> read_line (line +:+ rest) = (line, rest) -> (if skipped line then l = [] else spaced line l) ->
    file_text rest l' -> file_text (line +:+ rest) (l ++ l').

Lemma file_text_reads s l : file_text s l -> forall fuel maxdata data,
  (String.length s < fuel)%nat -> Z.of_nat (List.length data + List.length l) <= maxdata ->
  file_numbers fuel s maxdata data = Some (data ++ l).
Proof.
  induction 1 as [|line rest l l' Hne Hrd Hl _ IH]; intros [|fuel] maxdata data Hf Hm; try lia; cbn [file_numbers].
  - by rewrite app_nil_r.
  - assert (getline (line +:+ rest) = Some (line, rest)) as ->.
    { unfold getline. destruct (line +:+ rest) eqn:E; [|by rewrite Hrd]. by destruct line. }
    rewrite length_append in Hf. rewrite length_app in Hm.
    assert (0 < String.length line)%nat by (destruct line; [done|cbn; lia]).
    fold (skipped line). destruct (skipped line).
    + rewrite Hl in *. apply IH; [lia|cbn [List.length] in Hm; lia].
    + rewrite (spaced_reads line l Hl) by lia. rewrite IH; [by rewrite <- app_assoc|lia|rewrite length_app; lia].
Qed.

Lemma spaced_blanks b s l : all_chars is_space b = true -> spaced s l -> spaced (b +:+ s) l.
Proof.
  intros Hb. destruct 1 as [b' Hb'|b' v s l Hb' Hv Hs Hl].
  - apply spaced_end. by rewrite all_chars_app, Hb, Hb'.
  - rewrite <- append_assoc. apply spaced_number; [by rewrite all_chars_app, Hb, Hb'|done..].
Qed.

(** The two ways the programs print a table. *)
Fixpoint printed (pre sep : string) (i : Z) (l : list Z) : string :=
  match l with
  | [] => ""
  | v :: l => pre +:+ print_d v +:+ (if i mod 8 =? 7 then newline else sep) +:+ printed pre sep (i + 1) l
  end.

Definition format (pre sep : string) : Prop := (pre = " " /\ sep = "") \/ (pre = "" /\ sep = " ").

Definition not_newline (c : ascii) : bool := negb (Ascii.eqb c "010").

Lemma read_line_newline body rest :
  all_chars not_newline body = true -> read_line ((body +:+ newline) +:+ rest) = (body +:+ newline, rest).
Proof.
  induction body as [|c body IH]; [done|]. cbn [all_chars]. intros [Hc Hb]%andb_prop.
  change ((String c body +:+ newline) +:+ rest) with (String c ((body +:+ newline) +:+ rest)). cbn [read_line].
  unfold not_newline in Hc. apply negb_true_iff in Hc. by rewrite Hc, IH.
Qed.

Lemma read_line_last body : all_chars not_newline body = true -> read_line (body +:+ "") = (body, "").
Proof.
  induction body as [|c body IH]; [done|]. cbn [all_chars]. intros [Hc Hb]%andb_prop.
  change (String c body +:+ "") with (String c (body +:+ "")). cbn [read_line].
  unfold not_newline in Hc. apply negb_true_iff in Hc. by rewrite Hc, IH.
Qed.

Lemma print_d_no_newline v : all_chars not_newline (print_d v) = true.
Proof.
  assert (forall z, 0 <= z -> all_chars not_newline (print_u z) = true) as Hu.
  { intros z Hz. apply print_base_chars; [lia|done|]. intros d Hd. unfold not_newline. by rewrite digit_char_newline by lia. }
  unfold print_d. destruct (Z.ltb_spec v 0); [|by apply Hu]. cbn [all_chars]. rewrite Hu by lia. done.
Qed.

(** A number is no comment. *)
Lemma skipped_number v s : skipped (print_d v +:+ s) = false.
Proof.
  unfold skipped. unfold print_d. destruct (Z.ltb_spec v 0) as [Hn|Hn]; [done|].
  unfold print_u, print_base. destruct (print_digits_head 10 ltac:(lia) (Z.to_nat (Z.log2 v)) v "" Hn) as (d & t & -> & Hd).
  change (String (digit_char d) t +:+ s) with (String (digit_char d) (t +:+ s)).
  assert (Ascii.eqb (digit_char d) "010" = false /\ Ascii.eqb (digit_char d) "#" = false) as [H1 H2].
  { split; [by apply digit_char_newline; lia|]. revert d Hd. 
    assert (forall d, 0 <= d < 16 -> Ascii.eqb (digit_char d) "#" = false) as H by (apply all_digits; repeat constructor).
    intros d Hd. apply H. lia. }
  cbn [String.prefix newline]. rewrite (Ascii.eqb_sym) in H1. rewrite Ascii.eqb_sym in H2.
  unfold newline. cbn [String.prefix]. 
  destruct (ascii_dec "010" (digit_char d)) as [e|]; [by rewrite e, Ascii.eqb_refl in H1|].
  destruct (ascii_dec "#" (digit_char d)) as [e|]; [by rewrite e, Ascii.eqb_refl in H2|]. done.
Qed.

(** What is left of a line, and the lines after it. *)
Record first_line (text : string) (l : list Z) (line rest : string) (l1 l2 : list Z) : Prop := {
  fl_text : text = line +:+ rest;
  fl_numbers : l = l1 ++ l2;
  fl_line : spaced line l1;
  fl_nonempty : line <> "";
  fl_kept : skipped line = false;
  fl_rest : file_text rest l2;
  fl_read : read_line (line +:+ rest) = (line, rest);
  fl_body : exists body, all_chars not_newline body = true /\ (line = body +:+ newline \/ (line = body /\ rest = ""))
}.

Lemma first_line_file text l line rest l1 l2 : first_line text l line rest l1 l2 -> file_text text l.
Proof. intros [-> -> H1 H2 H3 H4 H5 _]. apply file_line; [done|done|by rewrite H3|done]. Qed.

Lemma print_d_nonempty v s pre : short v -> pre +:+ print_d v +:+ s <> "".
Proof.
  intros Hv E. apply (f_equal String.length) in E. rewrite !length_append in E. cbn [String.length] in E.
  pose proof (print_d_length v ltac:(unfold short, LONG_MIN, LONG_MAX in *; lia)). lia.
Qed.

Section Printed.
Context (pre sep : string) (Hfmt : format pre sep).

Lemma format_facts : all_chars is_space pre = true /\ all_chars is_space sep = true /\ all_chars not_newline pre = true /\
  all_chars not_newline sep = true /\ (forall v s, skipped (pre +:+ print_d v +:+ s) = false) /\
  (forall s, s = "" \/ (exists t, s = pre +:+ t) -> at_blank (sep +:+ s) = true).
Proof.
  destruct Hfmt as [[-> ->]|[-> ->]]; split_and!; try done; try (intros; apply skipped_number).
  intros s [->|[t ->]]; done.
Qed.

Lemma printed_shape i l : printed pre sep i l = "" \/ exists t, printed pre sep i l = pre +:+ t.
Proof. destruct l; [by left|right]. by eexists. Qed.

Lemma printed_lines l : Forall short l -> forall i, l <> [] ->
  exists line rest l1 l2, first_line (printed pre sep i l) l line rest l1 l2.
Proof.
  destruct format_facts as (B1 & B2 & B3 & B4 & Hskip & Hblank).
  induction 1 as [|v l Hv Hs IH]; intros i Hne; [done|]. cbn [printed].
  assert (all_chars not_newline (pre +:+ print_d v) = true) as Hb by (by rewrite all_chars_app, B3, print_d_no_newline).
  destruct (i mod 8 =? 7).
  - exists ((pre +:+ print_d v) +:+ newline), (printed pre sep (i + 1) l), [v], l.
    constructor; [by rewrite !append_assoc|done|..].
    + rewrite append_assoc. apply spaced_number; [done|done|done|]. by apply spaced_end.
    + rewrite append_assoc. by apply print_d_nonempty.
    + rewrite append_assoc. apply Hskip.
    + destruct l as [|w l]; [apply file_end|]. destruct (IH (i + 1) ltac:(done)) as (? & ? & ? & ? & H).
      by eapply first_line_file.
    + by apply read_line_newline.
    + exists (pre +:+ print_d v). by auto.
  - assert (all_chars not_newline (pre +:+ print_d v +:+ sep) = true) as Hb2 by (by rewrite <- append_assoc, all_chars_app, Hb, B4).
    destruct l as [|w l].
    + exists (pre +:+ print_d v +:+ sep), "", [v], []. cbn [printed].
      constructor; [by rewrite !append_assoc|done|..].
      * apply spaced_number; [done|done| |by apply spaced_end]. rewrite <- (append_empty sep). apply Hblank. by left.
      * by apply print_d_nonempty.
      * apply Hskip.
      * apply file_end.
      * rewrite (read_line_last _ Hb2). done.
      * eexists. split; [exact Hb2|]. by right.
    + destruct (IH (i + 1) ltac:(done)) as (line & rest & l1 & l2 & [E1 E2 H1 H2 H3 H4 H5 (body & Hbo & H6)]).
      assert (at_blank (sep +:+ line) = true) as Hab.
      { destruct (printed_shape (i + 1) (w :: l)) as [E|[t E]]; rewrite E in E1.
        - symmetry in E1. by destruct line.
        - destruct Hfmt as [[Ep Es]|[Ep Es]]; rewrite ?Es; [|done]. rewrite Ep in E1. destruct line as [|ch line]; [done|].
          change (String ch line +:+ rest) with (String ch (line +:+ rest)) in E1. by injection E1 as <- _. }
      assert (all_chars not_newline (pre +:+ print_d v +:+ sep +:+ body) = true) as Hb3
        by (by rewrite !all_chars_app, B3, print_d_no_newline, B4, Hbo).
      exists (pre +:+ print_d v +:+ sep +:+ line), rest, (v :: l1), l2. constructor.
      * rewrite !append_assoc. by rewrite E1.
      * by rewrite E2.
      * apply spaced_number; [done|done|exact Hab|]. by apply spaced_blanks.
      * by apply print_d_nonempty.
      * apply Hskip.
      * done.
      * destruct H6 as [->|[-> ->]].
        -- replace (pre +:+ print_d v +:+ sep +:+ body +:+ newline) with ((pre +:+ print_d v +:+ sep +:+ body) +:+ newline)
             by (by rewrite !append_assoc).
           apply read_line_newline. exact Hb3.
        -- apply read_line_last. exact Hb3.
      * exists (pre +:+ print_d v +:+ sep +:+ body). split.
        { exact Hb3. }
        destruct H6 as [->|[-> ->]]; [left; by rewrite !append_assoc|by right].
Qed.

(** A table with its comment line is read back. *)
Lemma printed_file title l i :
  all_chars not_newline title = true -> Forall short l ->
  file_text (String "#" title +:+ newline +:+ printed pre sep i l) l.
Proof.
  intros Ht Hl. rewrite <- append_assoc. change l with ([] ++ l).
  apply file_line; [done| | |].
  - apply read_line_newline. cbn [all_chars]. by rewrite Ht.
  - assert (skipped (String "#" title +:+ newline) = true) as ->; [|done]. unfold skipped.
    change (String "#" title +:+ newline) with (String "#" (title +:+ newline)). cbn [String.prefix newline].
    destruct (ascii_dec "#" "#"); [|done]. rewrite orb_true_iff. right. by destruct (title +:+ newline).
  - destruct l as [|v l]; [apply file_end|]. destruct (printed_lines (v :: l) Hl i ltac:(done)) as (? & ? & ? & ? & H).
    by eapply first_line_file.
Qed.
End Printed.

Lemma print_entries_printed l : forall i, print_entries i l = printed "" " " i l.
Proof. induction l as [|v l IH]; intros i; [done|]. cbn [print_entries printed]. by rewrite IH. Qed.

Lemma print_lines_printed l : forall n, 0 <= n < 8 -> print_lines n l = printed " " "" n l.
Proof.
  assert (forall m l i, i mod 8 = m mod 8 -> printed " " "" i l = printed " " "" m l) as Hmod.
  { intros m l0. revert m. induction l0 as [|v l0 IH]; intros m i E; [done|]. cbn [printed]. rewrite E.
    do 3 f_equal. apply IH. rewrite (Z.add_mod i), (Z.add_mod m), E by lia. done. }
  induction l as [|v l IH]; intros n Hn; [done|]. cbn [print_lines printed]. rewrite (Z.mod_small n) by lia.
  destruct (Z.eqb_spec (n + 1) 8) as [E|E].
  - rewrite (proj2 (Z.eqb_eq n 7)) by lia. rewrite IH, (Hmod 0 l (n + 1)) by (lia || by rewrite E). done.
  - rewrite (proj2 (Z.eqb_neq n 7)) by lia. rewrite IH by lia. done.
Qed.

(** C18: What the generators print is what the emulator reads: the file that [maketable] writes and
    the lines the other three print give the table back, whole. *)
Theorem distribution_roundtrip getenv fopen type title l :
  Forall short l -> Z.of_nat (List.length l) <= MAX_DIST -> all_chars not_newline title = true ->
  (fopen (snprintf 128 (get_tc_lib getenv +:+ "/" +:+ type +:+ ".dist")) = Some (printtable l) ->
   get_distribution getenv fopen type MAX_DIST = Some l) /\
  (fopen (snprintf 128 (get_tc_lib getenv +:+ "/" +:+ type +:+ ".dist")) =
     Some (String "#" title +:+ newline +:+ print_lines 0 l) ->
   get_distribution getenv fopen type MAX_DIST = Some l).
Proof.
  intros Hl Hm Ht.
  assert (forall text, file_text text l -> file_numbers (S (String.length text)) text MAX_DIST [] = Some l) as H
    by (intros text Hf; rewrite (file_text_reads _ _ Hf) by (cbn [List.length]; lia); done).
  split; intros E; unfold get_distribution; rewrite E; apply H.
  - unfold printtable. rewrite print_entries_printed. apply (printed_file "" " "); [by right|done|done].
  - rewrite print_lines_printed by lia. apply (printed_file " " ""); [by left|done|done].
Qed.

Lemma distribution_roundtrip_witness :
  get_distribution no_file (fun _ => Some (printtable [-32768; -5; 0; 7; 8; 9; 10; 11; 32767])) "experimental" MAX_DIST
    = Some [-32768; -5; 0; 7; 8; 9; 10; 11; 32767].
Proof.
  refine (proj1 (distribution_roundtrip no_file (fun _ => Some (printtable [-32768; -5; 0; 7; 8; 9; 10; 11; 32767])) "experimental"
    "" [-32768; -5; 0; 7; 8; 9; 10; 11; 32767] _ _ _) eq_refl); [|cbn; unfold MAX_DIST; lia|done].
  repeat constructor; unfold short; lia.
Defined.

(** The last number of a file that does not end with a newline is not counted. *)
Example last_number_lost : forall bad,
  List.length (read_loop bad 10 "1 2 3") = 2%nat /\ List.length (read_loop bad 10 ("1 2 3" +:+ newline)) = 3%nat.
Proof. intros bad. vm_compute. done. Qed.
