(* ===== verification/TcMulti.v ===== *)
(** * Disciplines with several queues or marks (iproute2-3.1.0/tc)

    INGRESS (q_ingress.c), MULTIQ (q_multiq.c), RR (q_rr.c), MQPRIO (q_mqprio.c) and
    DSMARK (q_dsmark.c).  One Module each. *)

From S2P Require Export TcDisc AttrTree.

#[local] Open Scope list_scope.

(** ** INGRESS *)

Module Ingress.

(** [iproute2-3.1.0/tc/q_ingress.c:39-50 ingress_parse_opt] *)
Definition ingress_keyword (word : string) : word_action unit :=
  if String.eqb word "handle" then Take (fun _ st => Some st) else Stop.

(** [iproute2-3.1.0/tc/q_ingress.c:35-54 ingress_parse_opt] *)
Definition ingress_parse_opt (argv : list string) (n : nlmsghdr) : parse_outcome :=
  match read_words ingress_keyword argv tt with
  | ArgExit => Exit 255
  | ArgError => Return (- 1) n []
  | Args _ _ => Return 0 (addattr_l n 1024 TCA_OPTIONS []).2 []
  end.

(** [iproute2-3.1.0/tc/q_ingress.c:56-61 ingress_print_opt] *)
Definition ingress_print_opt (m : list Z) (opt : option Z) : Z * string := (0, "---------------- ").
End Ingress.

(** ** MULTIQ *)

Module Multiq.

(** The structure that is sent is never written: [stack] is what its four bytes held.
    [iproute2-3.1.0/tc/q_multiq.c:44-62 multiq_parse_opt] *)
Definition multiq_parse_opt (stack : list Z) (argv : list string) (n : nlmsghdr) : parse_outcome :=
  match argv with
  | [] => Return 0 (addattr_l n 1024 TCA_OPTIONS stack).2 []
  | _ => Return (- 1) n []
  end.

(** [iproute2-3.1.0/tc/q_multiq.c:64-78 multiq_print_opt] *)
Definition multiq_print_opt (m : list Z) (opt : option Z) : Z * string :=
  match opt with
  | None => (0, "")
  | Some a =>
      if RTA_PAYLOAD m a <? 4 then (0, "")
      else (0, "bands " +:+ print_u (load16 m (RTA_DATA a)) +:+ "/" +:+ print_u (load16 m (RTA_DATA a + 2)) +:+ " ")
  end.
End Multiq.

(** ** RR *)

Module Rr.
Import Prio.

(** [iproute2-3.1.0/tc/q_rr.c:61-79 rr_parse_opt] *)
Definition rr_element (word : string) (w : prio_words) : option prio_words :=
  if negb (pmap_mode w) then None
  else
    match get_unsigned word 10 with
    | None => None
    | Some band =>
        if u32 (bands (opt w)) <? band then None
        else if TC_PRIO_MAX <? idx w then None
        else Some ((w <| opt := ((opt w) <| priomap := <[Z.to_nat (idx w) := u8 band]> (priomap (opt w)) |>) |>)
                     <| idx := idx w + 1 |>)
    end.

(** [iproute2-3.1.0/tc/q_rr.c:40-82 rr_parse_opt] *)
Definition rr_keyword (word : string) : word_action prio_words :=
  if String.eqb word "bands" then
    store (fun arg => get_integer arg 10) (fun v w => w <| opt := ((opt w) <| bands := v |>) |>)
  else if String.eqb word "priomap" then Flag (fun w => if pmap_mode w then None else Some (w <| pmap_mode := true |>))
  else if String.eqb word "help" then Stop
  else if String.eqb word "multiqueue" then Flag (fun w => Some (w <| mq := true |>))
  else Flag (rr_element word).

(** [iproute2-3.1.0/tc/q_rr.c:32-89 rr_parse_opt] *)
Definition rr_parse_opt (argv : list string) (n : nlmsghdr) : parse_outcome :=
  match read_words rr_keyword argv prio_start with
  | ArgExit => Exit 255
  | ArgError => Return (- 1) n []
  | Args w _ =>
      let '(nest, n) := addattr_nest_compat n 1024 TCA_OPTIONS (prio_bytes (opt w)) in
      let n := if mq w then (addattr_l n 1024 1 []).2 else n in
      Return 0 (addattr_nest_compat_end n nest).2 []
  end.

(** [iproute2-3.1.0/tc/q_rr.c:91-113 rr_print_opt] *)
Definition rr_print_opt (m : list Z) (opt : option Z) : Z * string :=
  match opt with
  | None => (0, "")
  | Some a =>
      match __parse_rtattr_nested_compat m 1 a PRIO_SIZE with
      | None => (- 1, "")
      | Some tb =>
          let b := load_bytes m (RTA_DATA a) PRIO_SIZE in
          (0, "bands " +:+ print_u (field32 b 0) +:+ " priomap " +:+
              String.concat "" (map (fun i => " " +:+ print_d (field_byte b (4 + Z.of_nat i))) (seq 0 16)) +:+
              match tb !!! 1%nat with
              | Some x => " multiqueue: " +:+ (if field_byte (load_bytes m (RTA_DATA x) 1) 0 =? 0 then "off" else "on") +:+ " "
              | None => ""
              end)
      end
  end.
End Rr.

(** ** MQPRIO *)

Module Mqprio.

Definition TC_QOPT_MAX_QUEUE : nat := 16.

#[local] Set Primitive Projections.

(** [iproute2-3.1.0/include/linux/pkt_sched.h:631-637 tc_mqprio_qopt] *)
Record tc_mqprio_qopt := mk_mqprio {
  num_tc : Z; prio_tc_map : list Z; hw : Z; count : list Z; offset : list Z
}.

#[local] Unset Primitive Projections.

Definition mqprio_start : tc_mqprio_qopt :=
  mk_mqprio 8 [0; 1; 2; 3; 4; 5; 6; 7; 0; 1; 1; 1; 3; 3; 3; 3] 1 (replicate 16 0) (replicate 16 0).

Definition mqprio_bytes (o : tc_mqprio_qopt) : list Z :=
  le_bytes 1 (num_tc o) ++ flat_map (le_bytes 1) (prio_tc_map o) ++ le_bytes 1 (hw o) ++
  flat_map (le_bytes 2) (count o) ++ flat_map (le_bytes 2) (offset o).

(** Numbers are taken while they are numbers and there is a place for them.
    [iproute2-3.1.0/tc/q_mqprio.c:51-58 mqprio_parse_opt] *)
Fixpoint read_map (idx : nat) (argv : list string) (l : list Z) : nat * list string * list Z :=
  match argv with
  | [] => (idx, [], l)
  | arg :: rest =>
      if (TC_QOPT_MAX_QUEUE <=? idx)%nat then (idx, argv, l)
      else match get_u8 arg 10 with
           | None => (idx, argv, l)
           | Some v => read_map (S idx) rest (<[idx := v]> l)
           end
  end.

(** [strtok] with the separator [@]: the token, if there is one, and what is left. *)
Fixpoint skip_at (s : string) : string :=
  match s with String c s' => if Ascii.eqb c "@" then skip_at s' else s | "" => "" end.

Fixpoint until_at (s : string) : string * string :=
  match s with
  | "" => ("", "")
  | String c s' => if Ascii.eqb c "@" then ("", s') else let '(t, r) := until_at s' in (String c t, r)
  end.

Definition strtok_at (s : string) : option string * string :=
  match skip_at s with "" => (None, "") | s' => let '(t, r) := until_at s' in (Some t, r) end.

Definition get_u16_tok (tok : option string) : option Z :=
  match tok with Some t => get_u16 t 10 | None => None end.

(** A count whose offset is wrong has been stored already.
    [iproute2-3.1.0/tc/q_mqprio.c:64-85 mqprio_parse_opt] *)
Fixpoint read_queues (idx : nat) (argv : list string) (o : tc_mqprio_qopt) : list string * tc_mqprio_qopt :=
  match argv with
  | [] => ([], o)
  | arg :: rest =>
      if (TC_QOPT_MAX_QUEUE <=? idx)%nat then (argv, o)
      else
        let '(tok, tmp) := strtok_at arg in
        match get_u16_tok tok with
        | None => (argv, o)
        | Some c =>
            let o := o <| count := <[idx := c]> (count o) |> in
            match get_u16_tok (strtok_at tmp).1 with
            | None => (argv, o)
            | Some f => read_queues (S idx) rest (o <| offset := <[idx := f]> (offset o) |>)
            end
        end
  end.

(** A word is taken at least, so the number of words is fuel enough.
    [iproute2-3.1.0/tc/q_mqprio.c:42-101 mqprio_parse_opt] *)
Fixpoint mqprio_words (fuel : nat) (argv : list string) (o : tc_mqprio_qopt) : args_of tc_mqprio_qopt :=
  match fuel, argv with
  | _, [] => Args o []
  | O, _ => ArgError
  | S fuel, word :: rest =>
      if String.eqb word "num_tc" then
        match rest with
        | [] => ArgExit
        | arg :: rest => match get_u8 arg 10 with None => ArgError | Some v => mqprio_words fuel rest (o <| num_tc := v |>) end
        end
      else if String.eqb word "map" then
        let '(idx, rest, l) := read_map 0 rest (prio_tc_map o) in
        mqprio_words fuel rest (o <| prio_tc_map := take idx l ++ replicate (TC_QOPT_MAX_QUEUE - idx) 0 |>)
      else if String.eqb word "queues" then
        let '(rest, o) := read_queues 0 rest o in mqprio_words fuel rest o
      else if String.eqb word "hw" then
        match rest with
        | [] => ArgExit
        | arg :: rest => match get_u8 arg 10 with None => ArgError | Some v => mqprio_words fuel rest (o <| hw := v |>) end
        end
      else ArgError
  end.

(** [iproute2-3.1.0/tc/q_mqprio.c:32-105 mqprio_parse_opt] *)
Definition mqprio_parse_opt (argv : list string) (n : nlmsghdr) : parse_outcome :=
  match mqprio_words (List.length argv) argv mqprio_start with
  | ArgExit => Exit 255
  | ArgError => Return (- 1) n []
  | Args o _ => Return 0 (addattr_l n 1024 TCA_OPTIONS (mqprio_bytes o)).2 []
  end.

(** The fields are read where they lie; neither the length of the payload nor the number of
    classes is looked at.  [iproute2-3.1.0/tc/q_mqprio.c:107-125 mqprio_print_opt] *)
Definition mqprio_print_opt (m : list Z) (opt : option Z) : Z * string :=
  match opt with
  | None => (0, "")
  | Some a =>
      let q := RTA_DATA a in
      let byte o := of_le_bytes (load_bytes m (q + o) 1) in
      let off i := load16 m (q + 50 + 2 * Z.of_nat i) in
      let cnt i := load16 m (q + 18 + 2 * Z.of_nat i) in
      (0, " tc " +:+ print_u (byte 0) +:+ " map " +:+
          String.concat "" (map (fun i => print_d (byte (1 + Z.of_nat i)) +:+ " ") (seq 0 16)) +:+
          newline +:+ "             queues:" +:+
          String.concat "" (map (fun i => "(" +:+ print_d (off i) +:+ ":" +:+ print_d (off i + cnt i - 1) +:+ ") ")
            (seq 0 (Z.to_nat (byte 0)))))
  end.
End Mqprio.

(** ** DSMARK *)

Module Dsmark.

Definition TCA_DSMARK_INDICES : Z := 1.
Definition TCA_DSMARK_DEFAULT_INDEX : Z := 2.
Definition TCA_DSMARK_SET_TC_INDEX : Z := 3.
Definition TCA_DSMARK_MASK : Z := 4.
Definition TCA_DSMARK_VALUE : Z := 5.
Definition TCA_DSMARK_MAX : Z := 5.

(** [strtoul] with base 0 when nothing may follow the number: no digits at all give 0,
    and then the end is the whole word. *)
Definition strtoul_whole (arg : string) : option Z :=
  match strtoul arg 0 with
  | Some (v, "") => Some v
  | Some _ => None
  | None => if String.eqb arg "" then Some 0 else None
  end.

#[local] Set Primitive Projections.

(** The locals of the loop: [ind] has 16 bits, [dflt] is an [int].
    [iproute2-3.1.0/tc/q_dsmark.c:33-38 dsmark_parse_opt] *)
Record dsmark_words := mk_words { ind : Z; dflt : Z; set_tc_index : bool }.

#[local] Unset Primitive Projections.

(** [iproute2-3.1.0/tc/q_dsmark.c:40-65 dsmark_parse_opt] *)
Definition dsmark_keyword (word : string) : word_action dsmark_words :=
  if String.eqb word "indices" then store strtoul_whole (fun v w => w <| ind := u16 v |>)
  else if String.eqb word "default_index" || String.eqb word "default" then
    store strtoul_whole (fun v w => w <| dflt := s32 v |>)
  else if String.eqb word "set_tc_index" then Flag (fun w => Some (w <| set_tc_index := true |>))
  else Stop.

(** [iproute2-3.1.0/tc/q_dsmark.c:73-79 dsmark_parse_opt] *)
Definition dsmark_attrs (w : dsmark_words) (n : nlmsghdr) : nlmsghdr :=
  let n := (addattr_l n 1024 TCA_DSMARK_INDICES (le_bytes 2 (ind w))).2 in
  let n := if dflt w =? - 1 then n else (addattr_l n 1024 TCA_DSMARK_DEFAULT_INDEX (le_bytes 2 (u16 (dflt w)))).2 in
  if set_tc_index w then (addattr_l n 1024 TCA_DSMARK_SET_TC_INDEX []).2 else n.

(** [iproute2-3.1.0/tc/q_dsmark.c:29-82 dsmark_parse_opt] *)
Definition dsmark_parse_opt (argv : list string) (n : nlmsghdr) : parse_outcome :=
  match read_words dsmark_keyword argv (mk_words 0 (- 1) false) with
  | ArgExit => Exit 255
  | ArgError => Return (- 1) n []
  | Args w _ => if ind w =? 0 then Return (- 1) n [] else Return 0 (with_nest 1024 TCA_OPTIONS (dsmark_attrs w) n) []
  end.

(** A word appends its attribute at once.
    [iproute2-3.1.0/tc/q_dsmark.c:101-123 dsmark_parse_class_opt] *)
Definition dsmark_class_keyword (word : string) : word_action nlmsghdr :=
  if String.eqb word "mask" then
    store strtoul_whole (fun v n => (addattr_l n 1024 TCA_DSMARK_MASK [u8 v]).2)
  else if String.eqb word "value" then
    store strtoul_whole (fun v n => (addattr_l n 1024 TCA_DSMARK_VALUE [u8 v]).2)
  else Stop.

(** What was appended before a word is refused is never sent.
    [iproute2-3.1.0/tc/q_dsmark.c:91-128 dsmark_parse_class_opt] *)
Definition dsmark_parse_class_opt (argv : list string) (n : nlmsghdr) : parse_outcome :=
  let tail := NLMSG_TAIL n in
  match read_words dsmark_class_keyword argv (addattr_l n 1024 TCA_OPTIONS []).2 with
  | ArgExit => Exit 255
  | ArgError => Return (- 1) n []
  | Args n _ => Return 0 (mk_nlmsg (nlmsg_len n) (set_rta_len tail (NLMSG_TAIL n - tail) (mem n))) []
  end.

(** An attribute of at least [size] bytes is shown, a shorter one is not. *)
Definition dsmark_field (m : list Z) (a : option Z) (size : Z) (name : string) (width : nat) : string :=
  match a with
  | Some a => if RTA_PAYLOAD m a <? size then "" else
      name +:+ " 0x" +:+ pad_left width (print_x (of_le_bytes (load_bytes m (RTA_DATA a) size))) +:+ " "
  | None => ""
  end.

(** [iproute2-3.1.0/tc/q_dsmark.c:132-165 dsmark_print_opt] *)
Definition dsmark_print_opt (m : list Z) (opt : option Z) : Z * string :=
  match opt with
  | None => (0, "")
  | Some a =>
      let tb := (parse_rtattr_nested m TCA_DSMARK_MAX a).1 in
      (0, dsmark_field m (tb !!! 4%nat) 1 "mask" 2 +:+ dsmark_field m (tb !!! 5%nat) 1 "value" 2 +:+
          dsmark_field m (tb !!! 1%nat) 2 "indices" 4 +:+ dsmark_field m (tb !!! 2%nat) 2 "default_index" 4 +:+
          match tb !!! 3%nat with Some _ => "set_tc_index " | None => "" end)
  end.
End Dsmark.

(** ** RR is PRIO *)

(** The two disciplines share one front end: RR builds the request PRIO builds and shows what
    PRIO shows. *)
Theorem rr_is_prio argv n m opt :
  Rr.rr_parse_opt argv n = Prio.prio_parse_opt argv n /\ Rr.rr_print_opt m opt = Prio.prio_print_opt m opt.
Proof.
  split; [|done]. unfold Rr.rr_parse_opt, Prio.prio_parse_opt.
  rewrite (read_words_ext Rr.rr_keyword Prio.prio_keyword); [done|]. intros word.
  unfold Rr.rr_keyword, Prio.prio_keyword.
  destruct (String.eqb word "bands"); [done|]. destruct (String.eqb word "priomap"); [done|].
  destruct (String.eqb_spec word "help") as [->|]; [done|]. destruct (String.eqb word "multiqueue"); [done|].
  intros st. unfold Rr.rr_element, Prio.prio_element. by destruct (Prio.pmap_mode st).
Qed.

(** ** What MQPRIO sends *)

Import Mqprio.

(** The values fit their fields, and the arrays have their lengths. *)
Definition mqprio_wf (o : tc_mqprio_qopt) : Prop :=
  0 <= num_tc o < 2 ^ 8 /\ 0 <= hw o < 2 ^ 8 /\
  List.length (prio_tc_map o) = 16%nat /\ Forall (fun z => 0 <= z < 2 ^ 8) (prio_tc_map o) /\
  List.length (count o) = 16%nat /\ Forall (fun z => 0 <= z < 2 ^ 16) (count o) /\
  List.length (offset o) = 16%nat /\ Forall (fun z => 0 <= z < 2 ^ 16) (offset o).

Lemma mqprio_bytes_length o : mqprio_wf o -> List.length (mqprio_bytes o) = 82%nat.
Proof.
  intros (_ & _ & H1 & _ & H2 & _ & H3 & _). unfold mqprio_bytes.
  rewrite !length_app, !flat_map_length_const, !le_bytes_length, H1, H2, H3. done.
Qed.

(** Storing keeps the arrays. *)
Lemma insert_ok k i v (l : list Z) :
  0 <= v < k -> List.length l = 16%nat /\ Forall (fun z => 0 <= z < k) l ->
  List.length (<[i := v]> l) = 16%nat /\ Forall (fun z => 0 <= z < k) (<[i := v]> l).
Proof. intros Hv [H1 H2]. rewrite length_insert. split; [done|]. by apply Forall_insert. Qed.

Lemma read_map_ok argv : forall idx l idx' rest l',
  read_map idx argv l = (idx', rest, l') -> (idx <= 16)%nat ->
  List.length l = 16%nat /\ Forall (fun z => 0 <= z < 2 ^ 8) l ->
  (idx' <= 16)%nat /\ List.length l' = 16%nat /\ Forall (fun z => 0 <= z < 2 ^ 8) l'.
Proof.
  induction argv as [|arg argv IH]; cbn [read_map]; intros idx l idx' rest l' E Hi Hl; [by injection E as <- <- <-|].
  destruct (Nat.leb_spec TC_QOPT_MAX_QUEUE idx) as [|Hlt]; [by injection E as <- <- <-|].
  destruct (get_u8 arg 10) as [v|] eqn:Ev; [|by injection E as <- <- <-].
  eapply IH; [exact E|unfold TC_QOPT_MAX_QUEUE in Hlt; lia|]. eapply insert_ok, Hl. by eapply get_u8_range.
Qed.

Lemma get_u16_tok_range tok v : get_u16_tok tok = Some v -> 0 <= v < 2 ^ 16.
Proof. destruct tok; [|done]. apply get_u16_range. Qed.

Lemma read_queues_ok argv : forall idx o rest o',
  read_queues idx argv o = (rest, o') -> mqprio_wf o -> mqprio_wf o'.
Proof.
  induction argv as [|arg argv IH]; cbn [read_queues]; intros idx o rest o' E Ho; [by injection E as <- <-|].
  destruct (TC_QOPT_MAX_QUEUE <=? idx)%nat; [by injection E as <- <-|].
  destruct (strtok_at arg) as [tok tmp]. destruct (get_u16_tok tok) as [c|] eqn:Ec; [|by injection E as <- <-].
  destruct Ho as (H1 & H2 & H3 & H4 & H5 & H6 & H7 & H8). apply get_u16_tok_range in Ec.
  destruct (insert_ok (2 ^ 16) idx c (count o) Ec (conj H5 H6)).
  destruct (get_u16_tok (strtok_at tmp).1) as [f|] eqn:Ef; [|by injection E as <- <-].
  apply get_u16_tok_range in Ef. destruct (insert_ok (2 ^ 16) idx f (offset o) Ef (conj H7 H8)).
  eapply IH; [exact E|]. repeat (split; [done|]); done.
Qed.

Lemma map_fill_ok idx l :
  (idx <= 16)%nat -> List.length l = 16%nat /\ Forall (fun z => 0 <= z < 2 ^ 8) l ->
  let l' := take idx l ++ replicate (TC_QOPT_MAX_QUEUE - idx) 0 in
  List.length l' = 16%nat /\ Forall (fun z => 0 <= z < 2 ^ 8) l'.
Proof.
  intros Hi [H1 H2] l'. split.
  - unfold l'. rewrite length_app, length_replicate, length_take, H1. unfold TC_QOPT_MAX_QUEUE. lia.
  - apply Forall_app. split; [by apply Forall_take|]. apply Forall_forall. intros x Hx.
    apply elem_of_replicate_inv in Hx. subst x. lia.
Qed.

Lemma mqprio_words_ok fuel : forall argv o o' rest,
  mqprio_words fuel argv o = Args o' rest -> mqprio_wf o -> mqprio_wf o'.
Proof.
  induction fuel as [|fuel IH]; intros [|word argv] o o' rest E Ho; cbn [mqprio_words] in E; try done;
    try (by injection E as <- <-).
  pose proof Ho as (H1 & H2 & H3 & H4 & H5 & H6 & H7 & H8).
  destruct (String.eqb word "num_tc").
  { destruct argv as [|arg argv]; [done|]. destruct (get_u8 arg 10) as [v|] eqn:Ev; [|done].
    apply get_u8_range in Ev. eapply IH; [exact E|]. repeat (split; [done|]); done. }
  destruct (String.eqb word "map").
  { destruct (read_map 0 argv (prio_tc_map o)) as [[idx rest'] l] eqn:Em.
    destruct (read_map_ok _ _ _ _ _ _ Em ltac:(lia) (conj H3 H4)) as (Hi & L1 & L2).
    destruct (map_fill_ok idx l Hi (conj L1 L2)) as [M1 M2]. eapply IH; [exact E|]. repeat (split; [done|]); done. }
  destruct (String.eqb word "queues").
  { destruct (read_queues 0 argv o) as [rest' o1] eqn:Eq. eapply IH; [exact E|]. by eapply read_queues_ok. }
  destruct (String.eqb word "hw"); [|done].
  destruct argv as [|arg argv]; [done|]. destruct (get_u8 arg 10) as [v|] eqn:Ev; [|done].
  apply get_u8_range in Ev. eapply IH; [exact E|]. repeat (split; [done|]); done.
Qed.

Lemma mqprio_start_wf : mqprio_wf mqprio_start.
Proof. unfold mqprio_wf. split_and!; try done; cbn; repeat constructor; lia. Qed.

Definition mqprio_shown (o : tc_mqprio_qopt) : string :=
  " tc " +:+ print_u (num_tc o) +:+ " map " +:+
  String.concat "" (map (fun z => print_d z +:+ " ") (prio_tc_map o)) +:+ newline +:+ "             queues:" +:+
  String.concat "" (map (fun '(f, c) => "(" +:+ print_d f +:+ ":" +:+ print_d (f + c - 1) +:+ ") ")
    (take (Z.to_nat (num_tc o)) (combine (offset o) (count o)))).

Lemma nth_range k l i : Forall (fun z => 0 <= z < k) l -> (i < List.length l)%nat -> nth i l 0 mod k = nth i l 0.
Proof.
  intros Hl Hi. apply Z.mod_small. rewrite Forall_forall in Hl. apply Hl. apply list_elem_of_In. by apply nth_In.
Qed.

(** The fields where the printer reads them. *)
Lemma mqprio_fields o :
  mqprio_wf o ->
  let b := mqprio_bytes o in
  of_le_bytes (load_bytes b 0 1) = num_tc o /\
  (forall i, (i < 16)%nat -> of_le_bytes (load_bytes b (1 + Z.of_nat i) 1) = nth i (prio_tc_map o) 0) /\
  (forall i, (i < 16)%nat -> of_le_bytes (load_bytes b (18 + 2 * Z.of_nat i) 2) = nth i (count o) 0) /\
  (forall i, (i < 16)%nat -> of_le_bytes (load_bytes b (50 + 2 * Z.of_nat i) 2) = nth i (offset o) 0).
Proof.
  intros (H1 & H2 & H3 & H4 & H5 & H6 & H7 & H8) b. unfold b, mqprio_bytes. split_and!.
  - change (load_bytes _ 0 1) with (le_bytes 1 (num_tc o)). rewrite of_le_bytes_le. by apply Z.mod_small.
  - intros i Hi. rewrite load_skip by (done || lia). rewrite <- (Z.mul_1_l (Z.of_nat i)).
    rewrite (load_element 1), of_le_bytes_le by lia. apply nth_range; [done|lia].
  - intros i Hi. replace (18 + 2 * Z.of_nat i) with (1 + (16 + (1 + 2 * Z.of_nat i))) by lia.
    rewrite load_skip by (done || lia).
    rewrite load_skip by (rewrite ?flat_map_length_const, ?H3; done || lia).
    rewrite load_skip by (done || lia). rewrite (load_element 2), of_le_bytes_le by lia.
    apply nth_range; [done|lia].
  - intros i Hi. replace (50 + 2 * Z.of_nat i) with (1 + (16 + (1 + (32 + 2 * Z.of_nat i)))) by lia.
    rewrite load_skip by (done || lia).
    rewrite load_skip by (rewrite ?flat_map_length_const, ?H3; done || lia).
    rewrite load_skip by (done || lia).
    rewrite load_skip by (rewrite ?flat_map_length_const, ?H5; done || lia).
    rewrite <- (app_nil_r (flat_map _ (offset o))). rewrite (load_element 2), of_le_bytes_le by lia. apply nth_range; [done|lia].
Qed.

Lemma map_nth_seq {A} (f : Z -> A) l : map (fun i => f (nth i l 0)) (seq 0 (List.length l)) = map f l.
Proof.
  induction l as [|x l IH]; [done|]. cbn [List.length seq map nth]. f_equal. rewrite <- seq_shift, map_map. exact IH.
Qed.

Lemma map_nth_pairs {A} (f : Z * Z -> A) l l' k :
  List.length l = List.length l' -> (k <= List.length l)%nat ->
  map (fun i => f (nth i l 0, nth i l' 0)) (seq 0 k) = map f (take k (combine l l')).
Proof.
  revert l l'. induction k as [|k IH]; intros [|x l] [|y l'] Hl Hk; cbn [List.length] in *; try lia; [done..|].
  cbn [combine firstn map seq nth]. f_equal. rewrite <- seq_shift, map_map. apply IH; lia.
Qed.

(** What MQPRIO is given is what the kernel is told, and the printer shows it: the classes, the
    map, and the first and last queue of every class. *)
Theorem mqprio_roundtrip argv n o rest :
  mqprio_words (List.length argv) argv mqprio_start = Args o rest -> num_tc o <= 16 -> room_for n 1024 88 ->
  exists n', mqprio_parse_opt argv n = Return 0 n' [] /\ nlmsg_len n' = NLMSG_TAIL n + 88 /\
    attr_at (mem n') (NLMSG_TAIL n) TCA_OPTIONS (mqprio_bytes o) /\
    mqprio_print_opt (mem n') (Some (NLMSG_TAIL n)) = (0, mqprio_shown o).
Proof.
  intros E Hn Hroom. pose proof (mqprio_words_ok _ _ _ _ _ E mqprio_start_wf) as Ho.
  pose proof (mqprio_bytes_length o Ho) as Hlen. unfold mqprio_parse_opt. rewrite E.
  assert (attr_span (mqprio_bytes o) = 88) as Hspan by (unfold attr_span; by rewrite Hlen).
  rewrite <- Hspan in Hroom. pose proof Hroom as [R0 R1 R2 R3].
  pose proof (tail_bounds n). rewrite addattr_l_ok by done. cbn [snd].
  destruct (put_attr_at (NLMSG_TAIL n) TCA_OPTIONS (mqprio_bytes o) (mem n)) as (A1 & _ & _); [lia..|done|lia|].
  rewrite Hspan. eexists. split; [reflexivity|]. split; [done|]. split; [exact A1|]. cbn [mem].
  destruct A1 as (_ & _ & D). rewrite Hlen in D. set (m := put_attr _ _ _ _) in *.
  destruct (mqprio_fields o Ho) as (F1 & F2 & F3 & F4). cbv zeta in F1, F2, F3, F4.
  destruct Ho as (H1 & H2 & H3 & H4 & H5 & H6 & H7 & H8).
  assert (forall k w, 0 <= k -> 0 <= w -> k + w <= 82 ->
    load_bytes m (NLMSG_TAIL n + 4 + k) w = load_bytes (mqprio_bytes o) k w) as Hload.
  { intros k w Hk Hw Hkw. rewrite <- D. by apply load_load; lia. }
  unfold mqprio_print_opt, mqprio_shown. change (RTA_DATA (NLMSG_TAIL n)) with (NLMSG_TAIL n + 4). cbv zeta.
  rewrite !Hload by lia. rewrite F1. f_equal. f_equal. f_equal. f_equal. f_equal.
  - f_equal. rewrite <- map_nth_seq, H3. apply map_ext_in. intros i Hi%in_seq.
    rewrite Hload, F2 by lia. done.
  - f_equal. f_equal. f_equal. rewrite <- map_nth_pairs by lia. apply map_ext_in. intros i Hi%in_seq.
    unfold load16. rewrite <- !Z.add_assoc. rewrite !(Z.add_assoc (NLMSG_TAIL n) 4), !Hload, F3, F4 by lia. done.
Qed.

Lemma mqprio_roundtrip_witness :
  exists n', mqprio_parse_opt ["num_tc"; "2"; "map"; "0"; "1"; "queues"; "4@0"; "4@4"; "hw"; "0"] (mk_nlmsg 36 (replicate 1024 0))
      = Return 0 n' [] /\ nlmsg_len n' = 124 /\
    mqprio_print_opt (mem n') (Some 36) =
      (0, " tc 2 map 0 1 0 0 0 0 0 0 0 0 0 0 0 0 0 0 " +:+ newline +:+ "             queues:(0:3) (4:7) ").
Proof.
  destruct (mqprio_roundtrip ["num_tc"; "2"; "map"; "0"; "1"; "queues"; "4@0"; "4@4"; "hw"; "0"]
    (mk_nlmsg 36 (replicate 1024 0))
    (mk_mqprio 2 (0 :: 1 :: replicate 14 0) 0 (4 :: 4 :: replicate 14 0) (0 :: 4 :: replicate 14 0)) []
    ltac:(vm_compute; reflexivity) ltac:(vm_compute; congruence) ltac:(constructor; vm_compute; congruence))
    as (n' & H1 & H2 & _ & H4).
  exists n'. split; [exact H1|]. split; [exact H2|]. exact H4.
Defined.

(** ** What DSMARK sends *)

Import Dsmark.

Definition dsmark_trees (w : dsmark_words) : list atree :=
  [Leaf TCA_DSMARK_INDICES (le_bytes 2 (ind w))] ++
  ((if dflt w =? - 1 then [] else [Leaf TCA_DSMARK_DEFAULT_INDEX (le_bytes 2 (u16 (dflt w)))]) ++
   (if set_tc_index w then [Leaf TCA_DSMARK_SET_TC_INDEX []] else [])).

Lemma dsmark_appends w : appends 1024 (dsmark_attrs w) (dsmark_trees w).
Proof.
  unfold dsmark_attrs, dsmark_trees.
  apply (appends_seq 1024 (fun n => (addattr_l n 1024 TCA_DSMARK_INDICES (le_bytes 2 (ind w))).2)
    (fun n => let n := if dflt w =? - 1 then n else (addattr_l n 1024 TCA_DSMARK_DEFAULT_INDEX (le_bytes 2 (u16 (dflt w)))).2 in
      if set_tc_index w then (addattr_l n 1024 TCA_DSMARK_SET_TC_INDEX []).2 else n)); [by apply appends_leaf|].
  apply (appends_seq 1024
    (fun n => if dflt w =? - 1 then n else (addattr_l n 1024 TCA_DSMARK_DEFAULT_INDEX (le_bytes 2 (u16 (dflt w)))).2)
    (fun n => if set_tc_index w then (addattr_l n 1024 TCA_DSMARK_SET_TC_INDEX []).2 else n)).
  - destruct (dflt w =? - 1); [apply appends_id|by apply appends_leaf].
  - destruct (set_tc_index w); [by apply appends_leaf|apply appends_id].
Qed.

Definition print_04x (z : Z) : string := pad_left 4 (print_x z).

Definition dsmark_shown (w : dsmark_words) : string :=
  "indices 0x" +:+ print_04x (ind w) +:+ " " +:+
  (if dflt w =? - 1 then "" else "default_index 0x" +:+ print_04x (u16 (dflt w)) +:+ " ") +:+
  (if set_tc_index w then "set_tc_index " else "").

(** The table the printer finds. *)
Lemma dsmark_table off w :
  tree_table TCA_DSMARK_MAX off (dsmark_trees w) (replicate (Z.to_nat (TCA_DSMARK_MAX + 1)) None) =
  [None; Some off; (if dflt w =? - 1 then None else Some (off + 8));
   (if set_tc_index w then Some (if dflt w =? - 1 then off + 8 else off + 8 + 8) else None); None; None].
Proof. unfold dsmark_trees. by destruct (dflt w =? - 1), (set_tc_index w). Qed.

Lemma dsmark_field_leaf m off type k z name width :
  attr_at m off type (le_bytes k z) -> 0 <= z < 2 ^ (8 * Z.of_nat k) ->
  dsmark_field m (Some off) (Z.of_nat k) name width = name +:+ " 0x" +:+ pad_left width (print_x z) +:+ " ".
Proof.
  intros (L & _ & D) Hz. unfold dsmark_field, RTA_PAYLOAD, RTA_DATA. rewrite L, le_bytes_length in *.
  rewrite (proj2 (Z.ltb_ge _ _)) by (change (RTA_LENGTH 0) with 4; lia).
  change (off + RTA_LENGTH 0) with (off + 4). by rewrite D, of_le_bytes_le, Z.mod_small.
Qed.

Lemma dsmark_words_ok argv w rest :
  read_words dsmark_keyword argv (mk_words 0 (- 1) false) = Args w rest -> 0 <= ind w < 2 ^ 16.
Proof.
  intros Hr. eapply (read_words_inv dsmark_keyword (fun w => 0 <= ind w < 2 ^ 16)); [..|exact Hr|done].
  - unfold dsmark_keyword, store. intros word set arg w0 w1 Hk Hs Hw.
    destruct (String.eqb word "indices"); [injection Hk as <-; destruct (strtoul_whole arg); [|done];
      injection Hs as <-; by apply Z.mod_pos_bound|].
    destruct (_ || _); [injection Hk as <-; destruct (strtoul_whole arg); [|done]; by injection Hs as <-|].
    by destruct (String.eqb word _).
  - unfold dsmark_keyword, store. intros word set w0 w1 Hk Hs Hw.
    destruct (String.eqb word "indices"); [done|]. destruct (_ || _); [done|].
    destruct (String.eqb word _); [|done]. injection Hk as <-. by injection Hs as <-.
Qed.

(** The options of DSMARK are one nest with the given attributes, and the printer shows them. *)
Theorem dsmark_roundtrip argv n w rest :
  read_words dsmark_keyword argv (mk_words 0 (- 1) false) = Args w rest -> ind w <> 0 -> room_for n 1024 24 ->
  exists n', dsmark_parse_opt argv n = Return 0 n' [] /\
    tree_at (mem n') (NLMSG_TAIL n) (Nest TCA_OPTIONS (dsmark_trees w)) /\
    dsmark_print_opt (mem n') (Some (NLMSG_TAIL n)) = (0, dsmark_shown w).
Proof.
  intros Hr Hi Hroom. pose proof (dsmark_words_ok _ _ _ Hr) as Hw. unfold dsmark_parse_opt.
  rewrite Hr, (proj2 (Z.eqb_neq _ _) Hi). eexists. split; [reflexivity|].
  assert (tspan [Nest TCA_OPTIONS (dsmark_trees w)] <= 24) as Hs.
  { unfold dsmark_trees. by destruct (dflt w =? - 1), (set_tc_index w). }
  destruct (appends_nest 1024 TCA_OPTIONS (dsmark_attrs w) (dsmark_trees w) ltac:(done) (dsmark_appends w) n)
    as ([T _] & _); [destruct Hroom; constructor; lia|].
  split; [exact T|]. set (m := mem _) in *. unfold dsmark_print_opt. rewrite (parse_nest _ _ _ _ _ T).
  pose proof (Z.mod_pos_bound (dflt w) (2 ^ 16) ltac:(lia)) as Hd.
  apply tree_at_nest in T as (_ & _ & T). rewrite dsmark_table. cbn [fst].
  unfold dsmark_shown, dsmark_trees, print_04x in *. cbn [app trees_at] in T. destruct T as (T1 & T).
  change (tspan1 (Leaf TCA_DSMARK_INDICES (le_bytes 2 (ind w)))) with 8 in T.
  f_equal. transitivity (dsmark_field m (Some (NLMSG_TAIL n + 4)) (Z.of_nat 2) "indices" 4 +:+
    dsmark_field m (if dflt w =? - 1 then None else Some (NLMSG_TAIL n + 4 + 8)) (Z.of_nat 2) "default_index" 4 +:+
    (if set_tc_index w then "set_tc_index " else "")).
  { by destruct (set_tc_index w). }
  rewrite (dsmark_field_leaf _ _ _ 2 (ind w) "indices" 4 T1 Hw).
  destruct (dflt w =? - 1); [by rewrite !append_assoc|]. cbn [app trees_at] in T. destruct T as (T2 & _).
  rewrite (dsmark_field_leaf _ _ _ 2 (u16 (dflt w)) "default_index" 4 T2 Hd). by rewrite !append_assoc.
Qed.

Lemma dsmark_roundtrip_witness :
  exists n', dsmark_parse_opt ["indices"; "0x40"; "default"; "7"; "set_tc_index"] (mk_nlmsg 36 (replicate 1024 0))
      = Return 0 n' [] /\
    dsmark_print_opt (mem n') (Some 36) = (0, "indices 0x0040 default_index 0x0007 set_tc_index ").
Proof.
  destruct (dsmark_roundtrip ["indices"; "0x40"; "default"; "7"; "set_tc_index"] (mk_nlmsg 36 (replicate 1024 0))
    (mk_words 64 7 true) [] ltac:(vm_compute; reflexivity) ltac:(vm_compute; congruence)
    ltac:(constructor; vm_compute; congruence)) as (n' & H1 & _ & H2).
  exists n'. split; [exact H1|exact H2].
Defined.
