(* ===== verification/TcQdisc.v ===== *)
(** * The command [tc qdisc] (iproute2-3.1.0/tc/tc_qdisc.c, tc.c)

    From the words of a command to the datagram sent, the answer read and the exit
    status; and the dump that is printed.  The world is what the program keeps and
    what it exchanges with the kernel. *)

From S2P Require Export TcRbfgrad TcStab LlMap.

#[local] Open Scope list_scope.

(** ** Queueing disciplines *)

#[local] Set Primitive Projections.

(** The operations of a discipline; an operation the discipline does not have is
    [None].  [show_details] is an argument of the printer.  [iproute2-3.1.0/tc/tc_util.h:22-28 qdisc_util] *)
Record tc_util := mk_tc_util {
  u_id : string;
  u_parse_qopt : option (list string -> nlmsghdr -> parse_outcome);
  u_print_qopt : bool -> list Z -> option Z -> Z * string;
  u_print_xstats : option (list Z -> option Z -> Z * string);
  u_parse_copt : option (list string -> nlmsghdr -> parse_outcome);
  u_print_copt : option (list Z -> option Z -> Z * string)
}.

(** What [tc class] remembers between commands: the globals [filter_ifindex],
    [filter_qdisc] and [filter_classid] of tc_class.c. *)
Record class_filters := mk_filters { cf_ifindex : Z; cf_qdisc : Z; cf_classid : Z }.

(** A classifier: its parser of options, with the handle if one was given, and its printer,
    which reads the global [f_proto].  [iproute2-3.1.0/tc/tc_util.h:35-42 filter_util] *)
Record filter_util := mk_filter_util {
  f_id : string;
  f_parse_fopt : option string -> list string -> nlmsghdr -> parse_outcome;
  f_print_fopt : Z -> list Z -> option Z -> Z -> Z * string
}.

(** What [tc filter] remembers between commands: the globals of tc_filter.c and the
    classifiers registered.  [iproute2-3.1.0/tc/tc_filter.c:178-182 filter_parent] *)
Record filter_state := mk_fstate {
  ff_parent : Z; ff_ifindex : Z; ff_prio : Z; ff_protocol : Z; f_proto : Z; f_kinds : list filter_util
}.

(** How a parser of the options of an action ends: with a value, the message and the words
    left, or with the end of the program. *)
Inductive aopt_outcome := AReturn (r : Z) (n : nlmsghdr) (argv : list string) | AExit (status : Z).

(** An action: its parser, which is given the type of its attribute, and its printer, which
    reads the global [show_stats].  [iproute2-3.1.0/tc/tc_util.h:44-52 action_util] *)
Record action_util := mk_action_util {
  ac_id : string;
  ac_parse_aopt : list string -> Z -> nlmsghdr -> aopt_outcome;
  ac_print_aopt : bool -> list Z -> option Z -> Z * string
}.

(** The globals of m_action.c: the actions registered, the number of the next action
    listed and whether a table was flushed.  [iproute2-3.1.0/tc/m_action.c:31-36 action_list] *)
Record action_state := mk_astate { as_kinds : list action_util; batch_c : Z; tab_flush : bool }.

(** What the program keeps: the netlink handle, the datagrams to come and those sent,
    the interfaces, the disciplines registered, the interface asked for, what the
    listing of classes is limited to, and the states of the filters and the actions. *)
Record tc_world := mk_tc {
  w_rth : rtnl_handle; w_inbox : list recv; w_outbox : list (list Z);
  w_links : ll_map; w_kinds : list tc_util; filter_ifindex : Z;
  w_class : class_filters; w_filter : filter_state; w_action : action_state
}.

#[local] Unset Primitive Projections.

(** Nothing is filtered at the start. *)
Definition no_filters : class_filters := mk_filters 0 0 0.
Definition no_fstate : filter_state := mk_fstate 0 0 0 0 0 [].
Definition no_astate : action_state := mk_astate [] 0 false.

(** [iproute2-3.1.0/tc/tc.c:47-54 print_noqopt] *)
Definition print_noqopt (show_details : bool) (m : list Z) (opt : option Z) : Z * string :=
  (0, match opt with
      | Some a =>
          if RTA_PAYLOAD m a =? 0 then ""
          else "[Unknown qdisc, optlen=" +:+ print_u (RTA_PAYLOAD m a) +:+ "] "
      | None => ""
      end).

(** [iproute2-3.1.0/tc/tc.c:56-63 parse_noqopt] *)
Definition parse_noqopt (argv : list string) (n : nlmsghdr) : parse_outcome :=
  match argv with [] => Return 0 n [] | _ => Return (- 1) n [] end.

(** The discipline of [q_rbfgrad.c], with the contents of its locals. *)
Definition rbfgrad_util (p_init p_min : double) (sbuf : list Z) : tc_util :=
  mk_tc_util (id rbfgrad_qdisc_util) (Some (parse_qopt rbfgrad_qdisc_util p_init p_min sbuf))
    (print_qopt rbfgrad_qdisc_util) (Some (print_xstats rbfgrad_qdisc_util)) None None.

(** What stays fixed while the program runs: what [dlopen] and [dlsym] find under a
    name, the status of sending a datagram, [malloc] for the map of interfaces,
    [if_nametoindex], [log], the options of the program and the initial bytes of
    the receive buffers. *)
Record tc_env := mk_env {
  e_load : string -> option tc_util;
  e_load_filter : string -> option filter_util;
  e_load_action : string -> option action_util;
  e_send : list Z -> Z;
  e_malloc : ll_map -> option ll_cache;
  e_nametoindex : string -> Z;
  e_log : double -> double;
  e_details : bool; e_stats : bool; e_iec : bool;
  e_buf : list Z
}.

Section Tc.
Context (env : tc_env).

(** The list is searched before the libraries; what is found there or made up is
    registered.  [iproute2-3.1.0/tc/tc.c:105-148 get_qdisc_kind] *)
Definition get_qdisc_kind (str : string) (kinds : list tc_util) : tc_util * list tc_util :=
  match List.find (fun q => String.eqb (u_id q) str) kinds with
  | Some q => (q, kinds)
  | None =>
      let q := match e_load env str with
               | Some q => q
               | None => mk_tc_util str (Some parse_noqopt) print_noqopt None None None
               end in
      (q, q :: kinds)
  end.

(** ** The words of a command *)

Definition TC_H_INGRESS : Z := 0xFFFFFFF1.
Definition NAME_SIZE : nat := 15.

(** [strncpy(d, s, sizeof(d)-1)] into a cleared array of 16. *)
Definition strncpy16 (s : string) : string := substring 0 NAME_SIZE s.

#[local] Set Primitive Projections.

Record modify_args := mk_modify {
  a_dev : string; a_kind : string; a_handle : Z; a_parent : Z; a_est : tc_estimator; a_stab : tc_sizespec
}.

#[local] Unset Primitive Projections.

Definition no_args : modify_args := mk_modify "" "" 0 0 (mk_estimator 0 0) zero_sizespec.

(** The loop over the words; it ends at the name of a discipline, whose options are
    the words left.  A word is taken at least, so the number of words is fuel
    enough.  [iproute2-3.1.0/tc/tc_qdisc.c:74-133 tc_qdisc_modify] *)
Fixpoint modify_words (fuel : nat) (argv : list string) (a : modify_args) : args_of modify_args :=
  match fuel, argv with
  | _, [] => Args a []
  | O, _ => Args a argv
  | S fuel, word :: rest =>
      if String.eqb word "dev" then
        match rest with
        | [] => ArgExit
        | arg :: rest =>
            if negb (String.eqb (a_dev a) "") then ArgExit
            else modify_words fuel rest (a <| a_dev := strncpy16 arg |>)
        end
      else if String.eqb word "handle" then
        if negb (a_handle a =? 0) then ArgExit
        else match rest with
             | [] => ArgExit
             | arg :: rest =>
                 match get_qdisc_handle arg with
                 | None => ArgExit
                 | Some handle => modify_words fuel rest (a <| a_handle := handle |>)
                 end
             end
      else if String.eqb word "root" then
        if negb (a_parent a =? 0) then ArgError
        else modify_words fuel rest (a <| a_parent := TC_H_ROOT |>)
      else if String.eqb word "ingress" then
        if negb (a_parent a =? 0) then ArgError
        else Args (((a <| a_parent := TC_H_INGRESS |>) <| a_kind := "ingress" |>) <| a_handle := 0xFFFF0000 |>) rest
      else if String.eqb word "parent" then
        match rest with
        | [] => ArgExit
        | arg :: rest =>
            if negb (a_parent a =? 0) then ArgExit
            else match get_tc_classid arg with
                 | None => ArgExit
                 | Some handle => modify_words fuel rest (a <| a_parent := handle |>)
                 end
        end
      else if matches word "estimator" then
        match parse_estimator (e_log env) argv (a_est a) with
        | Args est argv => modify_words fuel (tl argv) (a <| a_est := est |>)
        | ArgError => ArgError
        | ArgExit => ArgExit
        end
      else if matches word "stab" then
        match parse_size_table argv with
        | Args s argv => modify_words fuel argv (a <| a_stab := s |>)
        | ArgError => ArgError
        | ArgExit => ArgExit
        end
      else if matches word "help" then modify_words fuel rest a
      else Args (a <| a_kind := strncpy16 word |>) rest
  end.

(** ** The request *)

Definition string_bytes (s : string) : list Z := (code <$> list_ascii_of_string s).

Definition TCA_KIND : Z := 1.
Definition TCA_RATE : Z := 5.
Definition TCA_STAB_ATTR : Z := 8.
Definition TCA_STAB_BASE : Z := 1.
Definition TCA_STAB_DATA : Z := 2.
Definition RTM_NEWQDISC : Z := 36.
Definition RTM_DELQDISC : Z := 37.
Definition RTM_GETQDISC : Z := 38.
Definition NLM_F_REPLACE : Z := 256.
Definition NLM_F_EXCL : Z := 512.
Definition NLM_F_CREATE : Z := 1024.

(** The size of the request: header, [struct tcmsg] and 65536 bytes. *)
Definition REQ_SIZE : Z := 65572.

Definition store16 (off v : Z) (m : list Z) : list Z := store_at off (le_bytes 2 v) m.
Definition store32 (off v : Z) (m : list Z) : list Z := store_at off (le_bytes 4 v) m.

(** The header and [struct tcmsg], all else zero.
    [iproute2-3.1.0/tc/tc_qdisc.c:63-72 tc_qdisc_modify] *)
Definition tc_request (cmd flags : Z) : nlmsghdr :=
  mk_nlmsg 36 (store16 4 cmd (store16 6 (Z.lor NLM_F_REQUEST flags) (replicate (Z.to_nat REQ_SIZE) 0))).

(** [iproute2-3.1.0/include/linux/rtnetlink.h:467-475 tcmsg] *)
Definition set_tcm_ifindex (v : Z) (n : nlmsghdr) : nlmsghdr := n <| mem := store32 20 v (mem n) |>.
Definition set_tcm_handle (v : Z) (n : nlmsghdr) : nlmsghdr := n <| mem := store32 24 v (mem n) |>.
Definition set_tcm_parent (v : Z) (n : nlmsghdr) : nlmsghdr := n <| mem := store32 28 v (mem n) |>.

(** The attributes before the options.
    [iproute2-3.1.0/tc/tc_qdisc.c:135-138 tc_qdisc_modify] *)
Definition add_kind (a : modify_args) (n : nlmsghdr) : nlmsghdr :=
  let n := if String.eqb (a_kind a) "" then n
           else (addattr_l n REQ_SIZE TCA_KIND (string_bytes (a_kind a) ++ [0])).2 in
  if est_ewma_log (a_est a) =? 0 then n
  else (addattr_l n REQ_SIZE TCA_RATE
          (le_bytes 1 (est_interval (a_est a)) ++ le_bytes 1 (est_ewma_log (a_est a)))).2.

(** The size table, when its options ask for one; [None] when it cannot be computed.
    [iproute2-3.1.0/tc/tc_qdisc.c:157-175 tc_qdisc_modify] *)
Definition add_stab (s : tc_sizespec) (n : nlmsghdr) : option nlmsghdr :=
  if check_size_table_opts s then
    let '(r, s, data) := tc_calc_size_table true s in
    if r <? 0 then None
    else
      let tail := NLMSG_TAIL n in
      let n := (addattr_l n REQ_SIZE TCA_STAB_ATTR []).2 in
      let n := (addattr_l n REQ_SIZE TCA_STAB_BASE (sizespec_bytes s)).2 in
      let n := match data with
               | Some data => (addattr_l n REQ_SIZE TCA_STAB_DATA (flat_map (le_bytes 2) data)).2
               | None => n
               end in
      Some (n <| mem := set_rta_len tail (NLMSG_TAIL n - tail) (mem n) |>)
  else Some n.

(** How reading the options ends: the request, a status to return or to exit with. *)
Inductive request := Ready (n : nlmsghdr) | Refused (r : Z) | Ended (status : Z).

(** [iproute2-3.1.0/tc/tc_qdisc.c:135-175 tc_qdisc_modify] *)
Definition build_request (cmd flags : Z) (a : modify_args) (argv : list string) (kinds : list tc_util) :
    request * list tc_util :=
  let n := set_tcm_parent (a_parent a) (set_tcm_handle (a_handle a) (tc_request cmd flags)) in
  let n := add_kind a n in
  let finish n := match add_stab (a_stab a) n with Some n => Ready n | None => Refused (- 1) end in
  if String.eqb (a_kind a) "" then (match argv with [] => finish n | _ => Refused (- 1) end, kinds)
  else
    let '(q, kinds) := get_qdisc_kind (a_kind a) kinds in
    (match u_parse_qopt q with
     | None => Refused (- 1)
     | Some parse =>
         match parse argv n with
         | Return r n _ => if r =? 0 then finish n else Refused 1
         | Exit status => Ended status
         end
     end, kinds).

(** ** Commands *)

(** The links are dumped by the first command that needs them.
    [iproute2-3.1.0/tc/tc_qdisc.c:180-180 tc_qdisc_modify] *)
Definition init_links (w : tc_world) : outcome Z tc_world :=
  let req := (rtnl_wilddump_request (w_rth w) 0 RTM_GETLINK).2 in
  let '(rth, (o, inbox)) :=
    ll_init_map (e_malloc env) (e_send env req) (w_rth w) (e_buf env) (w_inbox w) (w_links w) in
  let w := if initialized (w_links w) then w else w <| w_outbox := w_outbox w ++ [req] |> in
  let w := (w <| w_rth := rth |>) <| w_inbox := inbox |> in
  match o with
  | Returned r (Some links) => Returned r (w <| w_links := links |>)
  | Returned _ None | Wild => Wild
  | Exited status => Exited status
  | Waiting _ => Waiting w
  end.

(** The index of an interface, 0 for none.
    [iproute2-3.1.0/tc/tc_qdisc.c:178-187 tc_qdisc_modify] *)
Definition find_device (d : string) (w : tc_world) : outcome Z tc_world :=
  match init_links w with
  | Returned _ w =>
      let '(idx, links) := ll_name_to_index (e_nametoindex env) (Some d) (w_links w) in
      Returned idx (w <| w_links := links |>)
  | o => o
  end.

(** The request sent and its answer; 2 for an error.
    [iproute2-3.1.0/tc/tc_qdisc.c:189-192 tc_qdisc_modify] *)
Definition send_request (n : nlmsghdr) (w : tc_world) : outcome Z tc_world :=
  let dgram := wire (talk_request (w_rth w) n false).2 in
  let '(rth, _, (o, inbox)) :=
    rtnl_talk (A := unit) (e_send env dgram) (w_rth w) n 0 false None (w_inbox w) tt in
  let w := ((w <| w_rth := rth |>) <| w_inbox := inbox |>) <| w_outbox := w_outbox w ++ [dgram] |> in
  match o with
  | Returned r _ => Returned (if r_value r <? 0 then 2 else 0) w
  | Exited status => Exited status
  | Waiting _ => Waiting w
  | Wild => Wild
  end.

(** [iproute2-3.1.0/tc/tc_qdisc.c:47-193 tc_qdisc_modify] *)
Definition tc_qdisc_modify (cmd flags : Z) (argv : list string) (w : tc_world) : outcome Z tc_world :=
  match modify_words (S (List.length argv)) argv no_args with
  | ArgError => Returned (- 1) w
  | ArgExit => Exited 255
  | Args a argv =>
      let '(req, kinds) := build_request cmd flags a argv (w_kinds w) in
      let w := w <| w_kinds := kinds |> in
      match req with
      | Refused r => Returned r w
      | Ended status => Exited status
      | Ready n =>
          if String.eqb (a_dev a) "" then send_request n w
          else
            match find_device (a_dev a) w with
            | Returned idx w => if idx =? 0 then Returned 1 w else send_request (set_tcm_ifindex idx n) w
            | o => o
            end
      end
  end.

(** ** Showing *)

(** The text printed and the disciplines registered on the way. *)
Definition print_state : Type := string * list tc_util.

Definition tcm_ifindex (msg : list Z) : Z := s32 (load32 msg 20).
Definition tcm_handle (msg : list Z) : Z := load32 msg 24.
Definition tcm_parent (msg : list Z) : Z := load32 msg 28.
Definition tcm_info (msg : list Z) : Z := load32 msg 32.

(** The discipline of the message, without its attributes.
    [iproute2-3.1.0/tc/tc_qdisc.c:229-243 print_qdisc] *)
Definition qdisc_head (links : ll_map) (ifindex : Z) (msg : list Z) (kind : string) : string :=
  (if h_type msg 0 =? RTM_DELQDISC then "deleted " else "") +:+
  "qdisc " +:+ kind +:+ " " +:+ print_x (Z.shiftr (tcm_handle msg) 16) +:+ ": " +:+
  (if ifindex =? 0 then "dev " +:+ ll_index_to_name links (u32 (tcm_ifindex msg)) +:+ " " else "") +:+
  (if tcm_parent msg =? TC_H_ROOT then "root "
   else if tcm_parent msg =? 0 then ""
   else "parent " +:+ print_tc_classid 256 (tcm_parent msg) +:+ " ") +:+
  (if tcm_info msg =? 1 then "" else "refcnt " +:+ print_d (s32 (tcm_info msg)) +:+ " ").

(** [iproute2-3.1.0/tc/tc_qdisc.c:262-274 print_qdisc] *)
Definition qdisc_stats (q : tc_util) (msg : list Z) (tb : list (option Z)) : string :=
  let present k := match tb !!! k with Some _ => true | None => false end in
  let '(text, xstats) :=
    if present TCA_STATS || present TCA_STATS2 || present TCA_XSTATS
    then let '(t, x) := print_tcstats_attr (e_iec env) msg tb " " in (t +:+ newline, x)
    else ("", None) in
  match xstats, u_print_xstats q with
  | Some _, Some p => text +:+ (p msg xstats).2 +:+ newline
  | _, _ => text
  end.

(** [iproute2-3.1.0/tc/tc_qdisc.c:197-277 print_qdisc] *)
Definition print_qdisc (links : ll_map) (ifindex : Z) : @rtnl_filter_t print_state :=
  fun _ msg '(out, kinds) =>
    if negb (h_type msg 0 =? RTM_NEWQDISC) && negb (h_type msg 0 =? RTM_DELQDISC) then (0, (out, kinds))
    else
      let len := s32 (h_len msg 0 - 36) in
      if len <? 0 then (- 1, (out, kinds))
      else if negb (ifindex =? 0) && negb (ifindex =? tcm_ifindex msg) then (0, (out, kinds))
      else
        let tb := (parse_rtattr msg 8 36 len).1 in
        match tb !!! Z.to_nat TCA_KIND with
        | None => (- 1, (out, kinds))
        | Some a =>
            let kind := cstring (drop (Z.to_nat (RTA_DATA a)) msg) in
            let '(q, kinds) :=
              get_qdisc_kind (if String.eqb "pfifo_fast" kind then "prio" else kind) kinds in
            let options :=
              match tb !!! Z.to_nat TCA_OPTIONS with
              | Some _ as o => (u_print_qopt q (e_details env) msg o).2
              | None => ""
              end in
            let stab :=
              match tb !!! Z.to_nat TCA_STAB_ATTR with
              | Some a => if e_details env then print_size_table msg " " a +:+ newline else ""
              | None => ""
              end in
            let stats := if e_stats env then qdisc_stats q msg tb else "" in
            (0, (out +:+ qdisc_head links ifindex msg kind +:+ options +:+ newline +:+ stab +:+ stats, kinds))
        end.

(** The words of [tc qdisc show]: the device and whether [ingress] is asked for.
    [iproute2-3.1.0/tc/tc_qdisc.c:289-309 tc_qdisc_list] *)
Fixpoint list_words (argv : list string) (d : string) (parent : Z) : args_of (string * Z) :=
  match argv with
  | [] => Args (d, parent) []
  | word :: argv =>
      if String.eqb word "dev" then
        match argv with
        | [] => ArgExit
        | arg :: argv => list_words argv (strncpy16 arg) parent
        end
      else if String.eqb word "ingress" then list_words argv d TC_H_INGRESS
      else if matches word "help" then list_words argv d parent
      else ArgError
  end.

(** The dump of the disciplines, through [print_qdisc].
    [iproute2-3.1.0/tc/tc_qdisc.c:321-331 tc_qdisc_list] *)
Definition dump_qdiscs (ifindex parent : Z) (w : tc_world) : outcome Z tc_world * string :=
  let tcm := [0; 0; 0; 0] ++ le_bytes 4 ifindex ++ le_bytes 4 0 ++ le_bytes 4 parent ++ le_bytes 4 0 in
  let '(rth, req) := rtnl_dump_request (w_rth w) RTM_GETQDISC tcm in
  let w := (w <| w_rth := rth |>) <| w_outbox := w_outbox w ++ [req] |> in
  if e_send env req <? 0 then (Returned 1 w, "")
  else
    let '(o, inbox) :=
      rtnl_dump_filter rth (print_qdisc (w_links w) (filter_ifindex w)) None (e_buf env) (w_inbox w) ("", w_kinds w) in
    let w := w <| w_inbox := inbox |> in
    match o with
    | Returned r (out, kinds) => (Returned (if r <? 0 then 1 else 0) (w <| w_kinds := kinds |>), out)
    | Exited status => (Exited status, "")
    | Waiting (out, kinds) => (Waiting (w <| w_kinds := kinds |>), out)
    | Wild => (Wild, "")
    end.

(** The exit status and what is printed.  [filter_ifindex] is only written when a
    device is named.  [iproute2-3.1.0/tc/tc_qdisc.c:280-332 tc_qdisc_list] *)
Definition tc_qdisc_list (argv : list string) (w : tc_world) : outcome Z tc_world * string :=
  match list_words argv "" 0 with
  | ArgError => (Returned (- 1) w, "")
  | ArgExit => (Exited 255, "")
  | Args (d, parent) _ =>
      if String.eqb d "" then
        match init_links w with Returned _ w => dump_qdiscs 0 parent w | o => (o, "") end
      else
        match find_device d w with
        | Returned idx w =>
            if idx =? 0 then (Returned 1 w, "")
            else dump_qdiscs idx parent (w <| filter_ifindex := s32 idx |>)
        | o => (o, "")
        end
  end.

(** ** The program *)

(** The exit status, or how else the command ends, and what is printed. *)
Definition result : Type := outcome Z tc_world * string.

(** [iproute2-3.1.0/tc/tc_qdisc.c:334-361 do_qdisc] *)
Definition do_qdisc (argv : list string) (w : tc_world) : result :=
  match argv with
  | [] => tc_qdisc_list [] w
  | cmd :: argv =>
      if matches cmd "add" then (tc_qdisc_modify RTM_NEWQDISC (Z.lor NLM_F_EXCL NLM_F_CREATE) argv w, "")
      else if matches cmd "change" then (tc_qdisc_modify RTM_NEWQDISC 0 argv w, "")
      else if matches cmd "replace" then (tc_qdisc_modify RTM_NEWQDISC (Z.lor NLM_F_CREATE NLM_F_REPLACE) argv w, "")
      else if matches cmd "link" then (tc_qdisc_modify RTM_NEWQDISC NLM_F_REPLACE argv w, "")
      else if matches cmd "delete" then (tc_qdisc_modify RTM_DELQDISC 0 argv w, "")
      else if matches cmd "list" || matches cmd "show" || matches cmd "lst" then tc_qdisc_list argv w
      else if matches cmd "help" then (Returned 0 w, "")
      else (Returned (- 1) w, "")
  end.

(** The other objects, by name: see [TcMonitor.tc_objects]. *)
Context (other : string -> list string -> tc_world -> result).

(** The Python fragment in the middle of the function is left out.
    [iproute2-3.1.0/tc/tc.c:201-237 do_cmd] *)
Definition do_cmd (argv : list string) (w : tc_world) : result :=
  match argv with
  | [] => (Returned (- 1) w, "")
  | object :: argv =>
      if matches object "qdisc" then do_qdisc argv w
      else if matches object "class" then other "class" argv w
      else if matches object "filter" then other "filter" argv w
      else if matches object "actions" then other "actions" argv w
      else if matches object "monitor" then other "monitor" argv w
      else if matches object "help" then (Returned 0 w, "")
      else (Returned (- 1) w, "")
  end.

(** The commands of a batch; a round reads a character at least.
    [iproute2-3.1.0/tc/tc.c:260-275 batch] *)
Fixpoint batch_loop (fuel : nat) (force : bool) (stream : string) (cmdlineno ret : Z) (w : tc_world) (out : string) :
    result :=
  match fuel with
  | O => (Returned ret w, out)
  | S fuel =>
      match getcmdline stream cmdlineno with
      | (None, _, _) => (Returned ret w, out)
      | (Some (line, _), stream, cmdlineno) =>
          match makeargs line 100 with
          | None => (Exited 1, out)
          | Some [] => batch_loop fuel force stream cmdlineno ret w out
          | Some argv =>
              let '(o, text) := do_cmd argv w in
              let out := out +:+ text in
              match o with
              | Returned r w =>
                  if r =? 0 then batch_loop fuel force stream cmdlineno ret w out
                  else if force then batch_loop fuel force stream cmdlineno 1 w out
                  else (Returned 1 w, out)
              | o => (o, out)
              end
          end
      end
  end.

(** The session around the commands; [freopen] gives the text of the file.
    [iproute2-3.1.0/tc/tc.c:239-281 batch] *)
Definition batch (calls : open_calls) (freopen : string -> option string) (stdin : string) (force : bool)
    (name : option string) (w : tc_world) : result :=
  let stream :=
    match name with
    | Some name => if String.eqb name "-" then Some stdin else freopen name
    | None => Some stdin
    end in
  match stream with
  | None => (Returned (- 1) w, "")
  | Some stream =>
      let '(r, rth) := rtnl_open calls 0 in
      let w := w <| w_rth := rth |> in
      if r <? 0 then (Returned (- 1) w, "")
      else
        match batch_loop (S (String.length stream)) force stream 0 0 w "" with
        | (Returned ret w, out) => (Returned ret (w <| w_rth := rtnl_close (w_rth w) |>), out)
        | r => r
        end
  end.

(** [iproute2-3.1.0/tc/tc.c:332-341 main] *)
Definition run_command (calls : open_calls) (argv : list string) (w : tc_world) : result :=
  let '(r, rth) := rtnl_open calls 0 in
  let w := w <| w_rth := rth |> in
  if r <? 0 then (Exited 1, "")
  else
    match do_cmd argv w with
    | (Returned ret w, out) => (Returned ret (w <| w_rth := rtnl_close (w_rth w) |>), out)
    | r => r
    end.

End Tc.

(** The options of the program; the counters are only tested against 0. *)
Record tc_options := mk_options {
  show_stats : Z; show_details : Z; show_raw : Z; show_pretty : Z; use_iec : Z; force : Z;
  batching : option (option string)
}.

Definition no_options : tc_options := mk_options 0 0 0 0 0 0 None.

Inductive options_result := Options (o : tc_options) (argv : list string) | Quit (status : Z) (text : string).

(** The word after [-batch], whatever it is, is the name of the file.
    [iproute2-3.1.0/tc/tc.c:290-322 main] *)
Fixpoint parse_options (version : string) (fuel : nat) (argv : list string) (o : tc_options) : options_result :=
  match fuel, argv with
  | S fuel, word :: rest =>
      if negb (String.prefix "-" word) then Options o argv
      else if matches word "-stats" || matches word "-statistics" then
        parse_options version fuel rest (o <| show_stats := s32 (show_stats o + 1) |>)
      else if matches word "-details" then parse_options version fuel rest (o <| show_details := s32 (show_details o + 1) |>)
      else if matches word "-raw" then parse_options version fuel rest (o <| show_raw := s32 (show_raw o + 1) |>)
      else if matches word "-pretty" then parse_options version fuel rest (o <| show_pretty := s32 (show_pretty o + 1) |>)
      else if matches word "-Version" then Quit 0 ("tc utility, iproute2-ss" +:+ version +:+ newline)
      else if matches word "-iec" then parse_options version fuel rest (o <| use_iec := s32 (use_iec o + 1) |>)
      else if matches word "-help" then Quit 0 ""
      else if matches word "-force" then parse_options version fuel rest (o <| force := s32 (force o + 1) |>)
      else if matches word "-batch" then
        match rest with
        | [] => Options (o <| batching := Some (match batching o with Some f => f | None => None end) |>) []
        | file :: rest => parse_options version fuel rest (o <| batching := Some (Some file) |>)
        end
      else Quit (- 1) ""
  | _, _ => Options o argv
  end.

(** What the options change in the environment. *)
Definition with_options (o : tc_options) (env : tc_env) : tc_env :=
  mk_env (e_load env) (e_load_filter env) (e_load_action env) (e_send env) (e_malloc env) (e_nametoindex env) (e_log env)
    (negb (show_details o =? 0)) (negb (show_stats o =? 0)) (negb (use_iec o =? 0)) (e_buf env).

(** [argv] without the program's name; the clock parameters of [tc_core_init] are
    not read by the commands modelled here.
    [iproute2-3.1.0/tc/tc.c:284-342 main] *)
Definition main (env : tc_env) (other : tc_env -> string -> list string -> tc_world -> result) (version : string)
    (calls : open_calls) (freopen : string -> option string) (stdin : string) (argv : list string) (w : tc_world) :
    result :=
  match parse_options version (List.length argv) argv no_options with
  | Quit status text => (Returned status w, text)
  | Options o argv =>
      let env := with_options o env in
      match batching o with
      | Some name => batch env (other env) calls freopen stdin (negb (force o =? 0)) name w
      | None =>
          match argv with
          | [] => (Returned 0 w, "")
          | _ => run_command env (other env) calls argv w
          end
      end
  end.
