(* ===== verification/TcAqm.v ===== *)
(** * Disciplines that manage their queue (iproute2-3.1.0/tc)

    SFB (q_sfb.c), CHOKe (q_choke.c) and GRED (q_gred.c).  One Module each; the last two
    compute their fields with the functions of RED. *)

From S2P Require Export TcDisc AttrTree TcQdisc.

#[local] Open Scope list_scope.

(** [%.5f] of a fraction of a largest value. *)
Definition fraction5 (v max : Z) : string := fmt_fixed 5 (d_of_Z v / d_of_Z max)%D.

(** ** SFB *)

Module Sfb.

Definition SFB_MAX_PROB : Z := 0xFFFF.
Definition TCA_SFB_PARMS : Z := 1.

(** A probability between 0 and 1 in units of 1/65535.
    [iproute2-3.1.0/tc/q_sfb.c:37-49 get_prob] *)
Definition get_prob (arg : string) : option Z :=
  if String.eqb arg "" then None
  else
    match strtod arg with
    | None => None
    | Some (d, _) =>
        if dlt d d0 || dgt d d1 then None
        else Some (d_to_u32 (d * d_of_Z SFB_MAX_PROB + dec 5 (- 1))%D)
    end.

#[local] Set Primitive Projections.

(** [iproute2-3.1.0/include/linux/pkt_sched.h:652-662 tc_sfb_qopt] *)
Record tc_sfb_qopt := mk_sfb {
  rehash_interval : Z; warmup_time : Z; max : Z; bin_size : Z; increment : Z; decrement : Z; limit : Z;
  penalty_rate : Z; penalty_burst : Z
}.

#[local] Unset Primitive Projections.

Definition SFB_SIZE : Z := 36.

Definition sfb_bytes (o : tc_sfb_qopt) : list Z :=
  int_bytes (rehash_interval o) ++ int_bytes (warmup_time o) ++ int_bytes (max o) ++ int_bytes (bin_size o) ++
  int_bytes (increment o) ++ int_bytes (decrement o) ++ int_bytes (limit o) ++ int_bytes (penalty_rate o) ++
  int_bytes (penalty_burst o).

Definition sfb_of_bytes (b : list Z) : tc_sfb_qopt :=
  mk_sfb (field32 b 0) (field32 b 4) (field32 b 8) (field32 b 12) (field32 b 16) (field32 b 20) (field32 b 24)
    (field32 b 28) (field32 b 32).

(** [iproute2-3.1.0/tc/q_sfb.c:57-63 sfb_parse_opt] *)
Definition sfb_start : tc_sfb_qopt :=
  mk_sfb (600 * 1000) (60 * 1000) 0 0 ((SFB_MAX_PROB + 1000) / 2000) ((SFB_MAX_PROB + 10000) / 20000) 0 10 20.

Definition word0 (arg : string) : option Z := get_u32 arg 0.

(** [iproute2-3.1.0/tc/q_sfb.c:66-124 sfb_parse_opt] *)
Definition sfb_keyword (word : string) : word_action tc_sfb_qopt :=
  if String.eqb word "rehash" then store word0 (fun v o => o <| rehash_interval := v |>)
  else if String.eqb word "db" then store word0 (fun v o => o <| warmup_time := v |>)
  else if String.eqb word "limit" then store word0 (fun v o => o <| limit := v |>)
  else if String.eqb word "max" then store word0 (fun v o => o <| max := v |>)
  else if String.eqb word "target" then store word0 (fun v o => o <| bin_size := v |>)
  else if String.eqb word "increment" then store get_prob (fun v o => o <| increment := v |>)
  else if String.eqb word "decrement" then store get_prob (fun v o => o <| decrement := v |>)
  else if String.eqb word "penalty_rate" then store word0 (fun v o => o <| penalty_rate := v |>)
  else if String.eqb word "penalty_burst" then store word0 (fun v o => o <| penalty_burst := v |>)
  else Stop.

(** A length that was not given is computed from the other one, in 32 bits.
    [iproute2-3.1.0/tc/q_sfb.c:128-135 sfb_parse_opt] *)
Definition sfb_defaults (o : tc_sfb_qopt) : tc_sfb_qopt :=
  let o := if max o =? 0 then
             (if 1 <=? bin_size o then o <| max := u32 (u32 (bin_size o * 5) + 1) / 4 |> else o <| max := 25 |>)
           else o in
  if bin_size o =? 0 then o <| bin_size := u32 (u32 (max o * 4) + 3) / 5 |> else o.

(** [iproute2-3.1.0/tc/q_sfb.c:51-142 sfb_parse_opt] *)
Definition sfb_parse_opt (argv : list string) (n : nlmsghdr) : parse_outcome :=
  match read_words sfb_keyword argv sfb_start with
  | ArgExit => Exit 255
  | ArgError => Return (- 1) n []
  | Args o _ =>
      Return 0 (with_nest 1024 TCA_OPTIONS (fun n => (addattr_l n 1024 TCA_SFB_PARMS (sfb_bytes (sfb_defaults o))).2) n) []
  end.

(** [iproute2-3.1.0/tc/q_sfb.c:159-167 sfb_print_opt] *)
Definition sfb_text (o : tc_sfb_qopt) : string :=
  "limit " +:+ print_d (s32 (limit o)) +:+ " max " +:+ print_d (s32 (max o)) +:+ " target " +:+
  print_d (s32 (bin_size o)) +:+ newline +:+ "  increment " +:+ fraction5 (increment o) SFB_MAX_PROB +:+
  " decrement " +:+ fraction5 (decrement o) SFB_MAX_PROB +:+ " penalty rate " +:+ print_d (s32 (penalty_rate o)) +:+
  " burst " +:+ print_d (s32 (penalty_burst o)) +:+ " (" +:+ print_u (rehash_interval o) +:+ "ms " +:+
  print_u (warmup_time o) +:+ "ms)".

(** [iproute2-3.1.0/tc/q_sfb.c:144-170 sfb_print_opt] *)
Definition sfb_print_opt (m : list Z) (opt : option Z) : Z * string :=
  match opt with
  | None => (0, "")
  | Some opt =>
      match (parse_rtattr_nested m TCA_SFB_PARMS opt).1 !!! Z.to_nat TCA_SFB_PARMS with
      | None => (- 1, "")
      | Some a =>
          if RTA_PAYLOAD m a <? SFB_SIZE then (- 1, "")
          else (0, sfb_text (sfb_of_bytes (load_bytes m (RTA_DATA a) SFB_SIZE)))
      end
  end.

(** [iproute2-3.1.0/tc/q_sfb.c:172-193 sfb_print_xstats] *)
Definition sfb_print_xstats (m : list Z) (xstats : option Z) : Z * string :=
  match xstats with
  | None => (0, "")
  | Some a =>
      if RTA_PAYLOAD m a <? 36 then (- 1, "")
      else
        let b := load_bytes m (RTA_DATA a) 36 in
        (0, "  earlydrop " +:+ print_u (field32 b 0) +:+ " penaltydrop " +:+ print_u (field32 b 4) +:+
            " bucketdrop " +:+ print_u (field32 b 8) +:+ " queuedrop " +:+ print_u (field32 b 12) +:+
            " childdrop " +:+ print_u (field32 b 16) +:+ " marked " +:+ print_u (field32 b 20) +:+ newline +:+
            "  maxqlen " +:+ print_u (field32 b 24) +:+ " maxprob " +:+ fraction5 (field32 b 28) SFB_MAX_PROB +:+
            " avgprob " +:+ fraction5 (field32 b 32) SFB_MAX_PROB +:+ " ")
  end.
End Sfb.

(** ** CHOKe *)

Module Choke.
Import Red.

Definition choke_start : red_words := mk_words (mk_red 0 0 0 0 0 0 0) 0 1000 (dec 2 (-2)) 0 false.

Definition unsigned0 (arg : string) : option Z := get_unsigned arg 0.

(** [iproute2-3.1.0/tc/q_choke.c:49-100 choke_parse_opt] *)
Definition choke_keyword (word : string) : word_action red_words :=
  if String.eqb word "limit" then store unsigned0 (upd_opt (fun v o => o <| limit := v |>))
  else if String.eqb word "bandwidth" then store get_rate (fun v w => w <| rate := v |>)
  else if String.eqb word "ecn" then Flag (fun w => Some (w <| ecn_ok := true |>))
  else if String.eqb word "min" then store unsigned0 (upd_opt (fun v o => o <| qth_min := v |>))
  else if String.eqb word "max" then store unsigned0 (upd_opt (fun v o => o <| qth_max := v |>))
  else if String.eqb word "burst" then store unsigned0 (fun v w => w <| burst := v |>)
  else if String.eqb word "avpkt" then store get_size (fun v w => w <| avpkt := v |>)
  else if String.eqb word "probability" then store sscanf_lf (fun v w => w <| probability := v |>)
  else Stop.

Section Request.
Context (c : core) (pow : double -> double -> double) (log : double -> double).

(** The thresholds and the burst that were not given.
    [iproute2-3.1.0/tc/q_choke.c:113-118 choke_parse_opt] *)
Definition choke_defaults (w : red_words) : Z * Z * Z :=
  let o := opt w in
  let qmax := if qth_max o =? 0 then limit o / 4 else qth_max o in
  let qmin := if qth_min o =? 0 then qmax / 3 else qth_min o in
  let b := if burst w =? 0 then u32 (u32 (2 * qmin) + qmax) / 3 else burst w in
  (qmin, qmax, b).

(** The thresholds count packets; the functions of RED get them in bytes, in 32 bits.
    [iproute2-3.1.0/tc/q_choke.c:104-153 choke_parse_opt] *)
Definition choke_compute (w : red_words) (sbuf : list Z) : option (tc_red_qopt * list Z * list nat) :=
  let o := opt w in
  if (rate w =? 0) || (limit o =? 0) then None
  else
    let '(qmin, qmax, burst) := choke_defaults w in
    if limit o <? qmax then None
    else if qmax <=? qmin then None
    else
      let wlog := tc_red_eval_ewma pow (u32 (qmin * avpkt w)) burst (avpkt w) in
      if wlog <? 0 then None
      else
        let warnings := if 10 <=? wlog then [0%nat] else [] in
        let plog := tc_red_eval_P (u32 (qmin * avpkt w)) (u32 (qmax * avpkt w)) (probability w) in
        if plog <? 0 then None
        else
          let '(clog, sbuf) := tc_red_eval_idle_damping log c (u8 wlog) (avpkt w) (rate w) sbuf in
          if clog <? 0 then None
          else
            Some (mk_red (limit o) qmin qmax (u8 wlog) (u8 plog) (u8 clog)
                    (if ecn_ok w then Z.lor (flags o) 1 else flags o), sbuf, warnings).

(** [iproute2-3.1.0/tc/q_choke.c:33-161 choke_parse_opt] *)
Definition choke_parse_opt (sbuf : list Z) (argv : list string) (n : nlmsghdr) : parse_outcome :=
  match read_words choke_keyword argv choke_start with
  | ArgExit => Exit 255
  | ArgError => Return (- 1) n []
  | Args w _ =>
      match choke_compute w sbuf with
      | None => Return (- 1) n []
      | Some (o, sbuf, warnings) => Return 0 (put_options (red_bytes o) sbuf n) warnings
      end
  end.
End Request.

(** [iproute2-3.1.0/tc/q_choke.c:179-188 choke_print_opt] *)
Definition choke_text (show_details : bool) (o : tc_red_qopt) : string :=
  "limit " +:+ print_u (limit o) +:+ "p min " +:+ print_u (qth_min o) +:+ "p max " +:+ print_u (qth_max o) +:+ "p " +:+
  (if Z.testbit (flags o) 0 then "ecn " else "") +:+
  (if show_details
   then "ewma " +:+ print_u (Wlog o) +:+ " Plog " +:+ print_u (Plog o) +:+ " Scell_log " +:+ print_u (Scell_log o)
   else "").

(** [iproute2-3.1.0/tc/q_choke.c:163-190 choke_print_opt] *)
Definition choke_print_opt (show_details : bool) (m : list Z) (opt : option Z) : Z * string :=
  match opt with
  | None => (0, "")
  | Some opt =>
      match (parse_rtattr_nested m TCA_STAB opt).1 !!! Z.to_nat TCA_PARMS with
      | None => (- 1, "")
      | Some a =>
          if RTA_PAYLOAD m a <? RED_SIZE then (- 1, "")
          else (0, choke_text show_details (red_of_bytes (load_bytes m (RTA_DATA a) RED_SIZE)))
      end
  end.

(** [iproute2-3.1.0/tc/q_choke.c:192-208 choke_print_xstats] *)
Definition choke_print_xstats (m : list Z) (xstats : option Z) : Z * string :=
  match xstats with
  | None => (0, "")
  | Some a =>
      if RTA_PAYLOAD m a <? 20 then (- 1, "")
      else
        let b := load_bytes m (RTA_DATA a) 20 in
        (0, "  marked " +:+ print_u (field32 b 12) +:+ " early " +:+ print_u (field32 b 0) +:+
            " pdrop " +:+ print_u (field32 b 4) +:+ " other " +:+ print_u (field32 b 8) +:+
            " matched " +:+ print_u (field32 b 16))
  end.
End Choke.

(** ** GRED *)

Module Gred.

Definition MAX_DPs : Z := 16.
Definition TCA_GRED_DPS : Z := 3.

(** [strtol] with base 10 whose end is not looked at. *)
Definition strtol10 (arg : string) : Z := match strtol arg 10 with Some (v, _) => v | None => 0 end.

#[local] Set Primitive Projections.

(** [iproute2-3.1.0/include/linux/pkt_sched.h:329-335 tc_gred_sopt] *)
Record tc_gred_sopt := mk_sopt { DPs : Z; def_DP : Z; grio : Z }.

(** The structure and the locals of [init_gred].  [iproute2-3.1.0/tc/q_gred.c:54-56 init_gred] *)
Record setup_words := mk_setup { s_dps : Z; s_def_dp : Z; s_grio : bool }.

(** [iproute2-3.1.0/include/linux/pkt_sched.h:309-326 tc_gred_qopt] *)
Record tc_gred_qopt := mk_gred {
  limit : Z; qth_min : Z; qth_max : Z; DP : Z; backlog : Z; qave : Z; forced : Z; early : Z; other : Z; pdrop : Z;
  Wlog : Z; Plog : Z; Scell_log : Z; prio : Z; packets : Z; bytesin : Z
}.

(** The structure and the locals of the loop; [ok] counts the words taken.
    [iproute2-3.1.0/tc/q_gred.c:119-124 gred_parse_opt] *)
Record gred_words := mk_words {
  ok : Z; opt : tc_gred_qopt; burst : Z; avpkt : Z; probability : double; rate : Z
}.

#[local] Unset Primitive Projections.

Definition sopt_bytes (o : tc_gred_sopt) : list Z := int_bytes (DPs o) ++ int_bytes (def_DP o) ++ [grio o; 0; 0; 0].

Definition GRED_SIZE : Z := 52.

Definition gred_bytes (o : tc_gred_qopt) : list Z :=
  int_bytes (limit o) ++ int_bytes (qth_min o) ++ int_bytes (qth_max o) ++ int_bytes (DP o) ++ int_bytes (backlog o) ++
  int_bytes (qave o) ++ int_bytes (forced o) ++ int_bytes (early o) ++ int_bytes (other o) ++ int_bytes (pdrop o) ++
  [u8 (Wlog o); u8 (Plog o); u8 (Scell_log o); u8 (prio o)] ++ int_bytes (packets o) ++ int_bytes (bytesin o).

Definition gred_of_bytes (b : list Z) : tc_gred_qopt :=
  mk_gred (field32 b 0) (field32 b 4) (field32 b 8) (field32 b 12) (field32 b 16) (field32 b 20) (field32 b 24)
    (field32 b 28) (field32 b 32) (field32 b 36) (field_byte b 40) (field_byte b 41) (field_byte b 42) (field_byte b 43)
    (field32 b 44) (field32 b 48).

(** [iproute2-3.1.0/tc/q_gred.c:60-94 init_gred] *)
Definition setup_keyword (word : string) : word_action setup_words :=
  if String.eqb word "DPs" then
    Take (fun arg w =>
      let dps := s32 (strtol10 arg) in
      if (dps <? 0) || (MAX_DPs <? dps) then None else Some (w <| s_dps := dps |>))
  else if String.eqb word "default" then
    Take (fun arg w =>
      let def_dp := s32 (strtol10 arg) in
      if s_dps w =? 0 then None
      else if (def_dp <? 0) || (s_dps w <? def_dp) then None
      else Some (w <| s_def_dp := def_dp |>))
  else if String.eqb word "grio" then Flag (fun w => Some (w <| s_grio := true |>))
  else Stop.

(** The flag [NLM_F_CREATE] set in the header.  [iproute2-3.1.0/tc/q_gred.c:107-107 init_gred] *)
Definition add_create (n : nlmsghdr) : nlmsghdr :=
  mk_nlmsg (nlmsg_len n) (store_at 6 (le_bytes 2 (Z.lor (load16 (mem n) 6) NLM_F_CREATE)) (mem n)).

(** [iproute2-3.1.0/tc/q_gred.c:49-113 init_gred] *)
Definition init_gred (argv : list string) (n : nlmsghdr) : parse_outcome :=
  match read_words setup_keyword argv (mk_setup 0 (- 1) false) with
  | ArgExit => Exit 255
  | ArgError => Return (- 1) n []
  | Args w _ =>
      if (s_dps w =? 0) || (s_def_dp w =? - 1) then Return (- 1) n []
      else
        let o := mk_sopt (u32 (s_dps w)) (u32 (s_def_dp w)) (if s_grio w then 1 else 0) in
        Return 0 (with_nest 1024 TCA_OPTIONS (fun n => (addattr_l n 1024 TCA_GRED_DPS (sopt_bytes o)).2) (add_create n)) []
  end.

Definition no_gred : tc_gred_qopt := mk_gred 0 0 0 0 0 0 0 0 0 0 0 0 0 0 0 0.

Definition gred_start : gred_words := mk_words 0 no_gred 0 0 (dec 2 (-2)) 0.

Definition set_opt (f : Z -> tc_gred_qopt -> tc_gred_qopt) (v : Z) (w : gred_words) : gred_words :=
  w <| opt := f v (opt w) |>.

(** A word that is taken is counted. *)
Definition counted {T} (parse : string -> option T) (set : T -> gred_words -> gred_words) : word_action gred_words :=
  store parse (fun v w => (set v w) <| ok := ok w + 1 |>).

(** [iproute2-3.1.0/tc/q_gred.c:132-211 gred_parse_opt] *)
Definition gred_keyword (word : string) : word_action gred_words :=
  if String.eqb word "limit" then counted get_size (set_opt (fun v o => o <| limit := v |>))
  else if String.eqb word "min" then counted get_size (set_opt (fun v o => o <| qth_min := v |>))
  else if String.eqb word "max" then counted get_size (set_opt (fun v o => o <| qth_max := v |>))
  else if String.eqb word "DP" then
    counted (fun arg => let dp := u32 (strtol10 arg) in if MAX_DPs <? dp then None else Some dp)
      (set_opt (fun v o => o <| DP := v |>))
  else if String.eqb word "burst" then counted (fun arg => get_unsigned arg 0) (fun v w => w <| burst := v |>)
  else if String.eqb word "avpkt" then counted get_size (fun v w => w <| avpkt := v |>)
  else if String.eqb word "probability" then counted sscanf_lf (fun v w => w <| probability := v |>)
  else if String.eqb word "prio" then
    counted (fun arg => Some (u8 (strtol10 arg))) (set_opt (fun v o => o <| prio := v |>))
  else if String.eqb word "bandwidth" then counted get_rate (fun v w => w <| rate := v |>)
  else Stop.

(** How the loop ends: [setup] hands the words after it over, if none came before.
    [iproute2-3.1.0/tc/q_gred.c:131-213 gred_parse_opt] *)
Inductive gred_end := GredArgs (w : gred_words) | GredError | GredExit | GredSetup (argv : list string).

(** [iproute2-3.1.0/tc/q_gred.c:131-213 gred_parse_opt] *)
Fixpoint gred_loop (argv : list string) (w : gred_words) : gred_end :=
  match argv with
  | [] => GredArgs w
  | word :: argv =>
      if String.eqb word "setup" then (if ok w =? 0 then GredSetup argv else GredError)
      else
        match gred_keyword word with
        | Take set =>
            match argv with
            | [] => GredExit
            | arg :: argv => match set arg w with Some w => gred_loop argv w | None => GredError end
            end
        | Flag set => match set w with Some w => gred_loop argv w | None => GredError end
        | Stop => GredError
        end
  end.

Section Request.
Context (c : core) (pow : double -> double -> double) (log : double -> double).

(** The test [opt.DP<0] of an unsigned field is left out of the conditions: it never holds.
    [iproute2-3.1.0/tc/q_gred.c:215-244 gred_parse_opt] *)
Definition gred_compute (w : gred_words) (sbuf : list Z) : option (tc_gred_qopt * list Z * list nat) :=
  let rate := if rate w =? 0 then default 0 (get_rate "10Mbit") else rate w in
  let o := opt w in
  if (qth_min o =? 0) || (qth_max o =? 0) || (burst w =? 0) || (limit o =? 0) || (avpkt w =? 0) then None
  else
    let wlog := tc_red_eval_ewma pow (qth_min o) (burst w) (avpkt w) in
    if wlog <? 0 then None
    else
      let warnings := if 10 <=? wlog then [0%nat] else [] in
      let plog := tc_red_eval_P (qth_min o) (qth_max o) (probability w) in
      if plog <? 0 then None
      else
        let '(clog, sbuf) := tc_red_eval_idle_damping log c (u8 wlog) (avpkt w) rate sbuf in
        if clog <? 0 then None
        else
          Some (mk_gred (limit o) (qth_min o) (qth_max o) (DP o) (backlog o) (qave o) (forced o) (early o) (other o)
                  (pdrop o) (u8 wlog) (u8 plog) (u8 clog) (prio o) (packets o) (bytesin o), sbuf, warnings).

(** [iproute2-3.1.0/tc/q_gred.c:117-252 gred_parse_opt] *)
Definition gred_parse_opt (sbuf : list Z) (argv : list string) (n : nlmsghdr) : parse_outcome :=
  match gred_loop argv gred_start with
  | GredExit => Exit 255
  | GredError => Return (- 1) n []
  | GredSetup argv => init_gred argv n
  | GredArgs w =>
      match gred_compute w sbuf with
      | None => Return (- 1) n []
      | Some (o, sbuf, warnings) => Return 0 (put_options (gred_bytes o) sbuf n) warnings
      end
  end.
End Request.

(** One virtual queue.  The line with the weight is not inside the [if].
    [iproute2-3.1.0/tc/q_gred.c:282-302 gred_print_opt] *)
Definition gred_queue_text (show_details : bool) (q : tc_gred_qopt) : string :=
  if MAX_DPs <=? DP q then ""
  else
    newline +:+ " DP:" +:+ print_d (s32 (DP q)) +:+ " (prio " +:+ print_d (prio q) +:+ ") Average Queue " +:+
    sprint_size (qave q) +:+ " Measured Queue " +:+ sprint_size (backlog q) +:+ "  " +:+
    newline +:+ tab +:+ " Packet drops: " +:+ print_d (s32 (forced q + early q)) +:+ " (forced " +:+
    print_d (s32 (forced q)) +:+ " early " +:+ print_d (s32 (early q)) +:+ ")  " +:+
    newline +:+ tab +:+ " Packet totals: " +:+ print_u (packets q) +:+ " (bytes " +:+ print_u (bytesin q) +:+ ")  " +:+
    (if show_details
     then newline +:+ " limit " +:+ sprint_size (limit q) +:+ " min " +:+ sprint_size (qth_min q) +:+
          " max " +:+ sprint_size (qth_max q) +:+ " "
     else "") +:+
    "ewma " +:+ print_u (Wlog q) +:+ " Plog " +:+ print_u (Plog q) +:+ " Scell_log " +:+ print_u (Scell_log q).

(** [iproute2-3.1.0/tc/q_gred.c:254-305 gred_print_opt] *)
Definition gred_print_opt (show_details : bool) (m : list Z) (opt : option Z) : Z * string :=
  match opt with
  | None => (0, "")
  | Some opt =>
      match (parse_rtattr_nested m TCA_STAB opt).1 !!! Z.to_nat TCA_PARMS with
      | None => (- 1, "")
      | Some a =>
          if RTA_PAYLOAD m a <? GRED_SIZE * MAX_DPs
          then (- 1, newline +:+ " GRED received message smaller than expected" +:+ newline)
          else (0, String.concat "" (map (fun i =>
                 gred_queue_text show_details
                   (gred_of_bytes (load_bytes m (RTA_DATA a + GRED_SIZE * Z.of_nat i) GRED_SIZE))) (seq 0 16)))
      end
  end.
End Gred.

(** ** What SFB sends *)

Section SfbRequest.
Import Sfb.

Definition sfb_fields (o : tc_sfb_qopt) : list Z :=
  [rehash_interval o; warmup_time o; max o; bin_size o; increment o; decrement o; limit o; penalty_rate o; penalty_burst o].

Definition sfb_wf (o : tc_sfb_qopt) : Prop := Forall (fun v => 0 <= v < 2 ^ 32) (sfb_fields o).

Lemma sfb_of_bytes_ok o : sfb_wf o -> sfb_of_bytes (sfb_bytes o) = o.
Proof.
  unfold sfb_wf, sfb_fields. rewrite !Forall_cons. intros (W1 & W2 & W3 & W4 & W5 & W6 & W7 & W8 & W9 & _).
  unfold sfb_of_bytes.
  rewrite (word_field _ 0 _ W1), (word_field _ 4 _ W2), (word_field _ 8 _ W3), (word_field _ 12 _ W4),
    (word_field _ 16 _ W5), (word_field _ 20 _ W6), (word_field _ 24 _ W7), (word_field _ 28 _ W8),
    (word_field _ 32 _ W9) by reflexivity. done.
Qed.

Lemma get_prob_range arg v : get_prob arg = Some v -> 0 <= v < 2 ^ 32.
Proof.
  unfold get_prob. destruct (String.eqb arg ""); [done|]. destruct (strtod arg) as [[d rest]|]; [|done].
  destruct (_ || _); [done|]. intros [= <-]. apply u32_range.
Qed.

Lemma sfb_keyword_ok word set arg o o' :
  sfb_keyword word = Take set -> set arg o = Some o' -> sfb_wf o -> sfb_wf o'.
Proof.
  unfold sfb_keyword, store, word0. intros Hk Hs Hw. unfold sfb_wf, sfb_fields in Hw. rewrite !Forall_cons in Hw.
  destruct Hw as (W1 & W2 & W3 & W4 & W5 & W6 & W7 & W8 & W9 & _).
  repeat (destruct (String.eqb word _); [injection Hk as <-;
    first [destruct (get_u32 arg 0) as [v|] eqn:E; [apply get_u32_range in E|done]
          |destruct (get_prob arg) as [v|] eqn:E; [apply get_prob_range in E|done]];
    injection Hs as <-; repeat (apply Forall_cons; split; [done|]); by apply Forall_nil|]). done.
Qed.

Lemma sfb_no_flag word set : sfb_keyword word = Flag set -> False.
Proof. unfold sfb_keyword, store. by repeat (destruct (String.eqb word _); [done|]). Qed.

Lemma sfb_defaults_ok o : sfb_wf o -> sfb_wf (sfb_defaults o).
Proof.
  unfold sfb_wf, sfb_fields. intros Hw. rewrite !Forall_cons in Hw.
  destruct Hw as (W1 & W2 & W3 & W4 & W5 & W6 & W7 & W8 & W9 & _).
  pose proof (u32_range (u32 (bin_size o * 5) + 1)) as U1.
  assert (forall z, 0 <= z < 2 ^ 32 -> 0 <= z / 4 < 2 ^ 32 /\ 0 <= z / 5 < 2 ^ 32) as Hdiv
    by (intros z Hz; Z.div_mod_to_equations; lia).
  assert (exists mx, 0 <= mx < 2 ^ 32 /\ sfb_defaults o =
    (let o := mk_sfb (rehash_interval o) (warmup_time o) mx (bin_size o) (increment o) (decrement o) (limit o)
       (penalty_rate o) (penalty_burst o) in
     if bin_size o =? 0 then o <| bin_size := u32 (u32 (max o * 4) + 3) / 5 |> else o)) as (mx & Hm & ->).
  { unfold sfb_defaults. destruct (max o =? 0); [destruct (1 <=? bin_size o)|]; eexists; (split; [|reflexivity]);
      [by apply Hdiv|lia|done]. }
  pose proof (u32_range (u32 (mx * 4) + 3)) as U2. cbv zeta.
  destruct (bin_size _ =? 0); repeat (apply Forall_cons; split; [first [done|by apply Hdiv]|]); by apply Forall_nil.
Qed.
(** A length given alone fixes the other one. *)
Lemma sfb_max_given o :
  max o = 0 -> 1 <= bin_size o -> bin_size o * 5 + 1 < 2 ^ 32 ->
  max (sfb_defaults o) = (bin_size o * 5 + 1) / 4 /\ bin_size (sfb_defaults o) = bin_size o.
Proof.
  destruct o as [a b mx bin e f g h i]. cbn [max bin_size]. intros -> Hb Hw. unfold sfb_defaults.
  cbn -[u32 Z.mul Z.add Z.div Z.leb]. rewrite (proj2 (Z.leb_le 1 _) Hb). cbn -[u32 Z.mul Z.add Z.div].
  assert ((bin =? 0) = false) as E by lia. rewrite E. cbn -[u32 Z.mul Z.add Z.div].
  by rewrite !u32_small by (rewrite ?u32_small; lia).
Qed.

Lemma sfb_target_given o :
  0 <= max o -> max o <> 0 -> bin_size o = 0 -> max o * 4 + 3 < 2 ^ 32 ->
  max (sfb_defaults o) = max o /\ bin_size (sfb_defaults o) = (max o * 4 + 3) / 5.
Proof.
  destruct o as [a b mx bin e f g h i]. cbn [max bin_size]. intros H0 Hm -> Hw. unfold sfb_defaults. cbn -[u32 Z.mul Z.add Z.div].
  assert ((mx =? 0) = false) as E by lia. rewrite E. cbn -[u32 Z.mul Z.add Z.div].
  by rewrite !u32_small by (rewrite ?u32_small; lia).
Qed.
End SfbRequest.

(** The request of SFB carries the options with the lengths completed, and the printer shows
    what the kernel decodes.  Unless it wraps, a length given alone fixes the other one at
    five to four. *)
Theorem sfb_request argv n o rest :
  read_words Sfb.sfb_keyword argv Sfb.sfb_start = Args o rest -> room_for n 1024 44 ->
  let sent := Sfb.sfb_defaults o in
  exists n', Sfb.sfb_parse_opt argv n = Return 0 n' [] /\
    tree_at (mem n') (NLMSG_TAIL n) (Nest TCA_OPTIONS [Leaf Sfb.TCA_SFB_PARMS (Sfb.sfb_bytes sent)]) /\
    Sfb.sfb_print_opt (mem n') (Some (NLMSG_TAIL n)) = (0, Sfb.sfb_text sent) /\
    Sfb.sfb_of_bytes (Sfb.sfb_bytes sent) = sent /\
    (Sfb.max o = 0 -> 1 <= Sfb.bin_size o -> Sfb.bin_size o * 5 + 1 < 2 ^ 32 ->
       Sfb.max sent = (Sfb.bin_size o * 5 + 1) / 4 /\ Sfb.bin_size sent = Sfb.bin_size o) /\
    (Sfb.max o <> 0 -> Sfb.bin_size o = 0 -> Sfb.max o * 4 + 3 < 2 ^ 32 ->
       Sfb.max sent = Sfb.max o /\ Sfb.bin_size sent = (Sfb.max o * 4 + 3) / 5).
Proof.
  intros Hr Hroom sent.
  assert (sfb_wf o) as Ho.
  { eapply (read_words_inv Sfb.sfb_keyword sfb_wf sfb_keyword_ok); [|exact Hr|repeat constructor; done].
    intros word set st st' Hk _ _. by destruct (sfb_no_flag _ _ Hk). }
  pose proof (sfb_of_bytes_ok _ (sfb_defaults_ok o Ho)) as Edec. fold sent in Edec.
  unfold Sfb.sfb_parse_opt. rewrite Hr. fold sent.
  destruct (appends_nest 1024 TCA_OPTIONS _ _ ltac:(done) (appends_leaf 1024 Sfb.TCA_SFB_PARMS (Sfb.sfb_bytes sent) ltac:(done)) n
    Hroom) as ([T _] & _).
  eexists. split; [reflexivity|]. split; [exact T|]. split; [|split; [done|]].
  - unfold Sfb.sfb_print_opt. rewrite (parse_nest _ _ _ _ _ T). apply tree_at_nest in T as (_ & _ & [T1 _]).
    set (m := mem _) in *. cbn [fst tree_table]. 
    change (_ !!! Z.to_nat Sfb.TCA_SFB_PARMS) with (Some (NLMSG_TAIL n + 4)). cbv iota.
    destruct T1 as (L & _ & D). unfold RTA_PAYLOAD. rewrite L.
    change (4 + Z.of_nat (List.length (Sfb.sfb_bytes sent)) - RTA_LENGTH 0 <? Sfb.SFB_SIZE) with false. cbv iota.
    change (Z.of_nat (List.length (Sfb.sfb_bytes sent))) with Sfb.SFB_SIZE in D.
    change (RTA_DATA (NLMSG_TAIL n + 4)) with (NLMSG_TAIL n + 4 + 4). by rewrite D, Edec.
  - split; [by apply sfb_max_given|]. apply sfb_target_given. unfold sfb_wf, sfb_fields in Ho.
    rewrite !Forall_cons in Ho. lia.
Qed.

Lemma sfb_request_witness :
  exists n', Sfb.sfb_parse_opt ["target"; "20"; "increment"; "0.001"] (mk_nlmsg 36 (replicate 1024 0)) = Return 0 n' [] /\
    Sfb.sfb_print_opt (mem n') (Some 36) =
      (0, "limit 0 max 25 target 20" +:+ newline +:+
          "  increment 0.00101 decrement 0.00005 penalty rate 10 burst 20 (600000ms 60000ms)").
Proof.
  destruct (sfb_request ["target"; "20"; "increment"; "0.001"] (mk_nlmsg 36 (replicate 1024 0))
    (Sfb.mk_sfb 600000 60000 0 20 66 3 0 10 20) [] ltac:(vm_compute; reflexivity)
    ltac:(constructor; vm_compute; congruence)) as (n' & H1 & _ & H2 & _).
  exists n'. split; [exact H1|]. refine (eq_trans H2 _). vm_compute. reflexivity.
Defined.

(** A target near 2^32/5 makes the default maximum wrap to 0. *)
Example sfb_wraps : Sfb.max (Sfb.sfb_defaults (Sfb.mk_sfb 0 0 0 858993459 0 0 0 0 0)) = 0.
Proof. reflexivity. Qed.

(** ** What CHOKe and GRED compute *)

Section AqmRequest.
Context (c : core) (pow : double -> double -> double) (log : double -> double).

(** The three shifts of a RED-like discipline, as both compute them. *)
Definition red_shifts (lo hi burst avpkt rate : Z) (prob : double) (sbuf : list Z) : option (Z * Z * Z * list Z) :=
  let wlog := tc_red_eval_ewma pow lo burst avpkt in
  if wlog <? 0 then None
  else
    let plog := tc_red_eval_P lo hi prob in
    if plog <? 0 then None
    else
      let '(clog, sbuf) := tc_red_eval_idle_damping log c (u8 wlog) avpkt rate sbuf in
      if clog <? 0 then None else Some (u8 wlog, u8 plog, u8 clog, sbuf).

Lemma red_shifts_ok lo hi burst avpkt rate prob sbuf wlog plog clog tab :
  red_shifts lo hi burst avpkt rate prob sbuf = Some (wlog, plog, clog, tab) -> List.length sbuf = 256%nat ->
  1 <= wlog <= 31 /\ 0 <= plog < 32 /\ 0 <= clog < 32 /\ List.length tab = 256%nat /\ Forall (fun v => 0 <= v <= 31) tab.
Proof.
  unfold red_shifts. cbv zeta. intros E Hs.
  destruct (red_ewma_range pow lo burst avpkt) as [H|Hw]; [by rewrite (proj2 (Z.ltb_lt _ 0) H) in E|].
  set (w := tc_red_eval_ewma pow lo burst avpkt) in *. rewrite (proj2 (Z.ltb_ge w 0)) in E by lia.
  destruct (red_P_range lo hi prob) as [H|Hp]; [by rewrite (proj2 (Z.ltb_lt _ 0) H) in E|].
  set (p := tc_red_eval_P lo hi prob) in *. rewrite (proj2 (Z.ltb_ge p 0)) in E by lia.
  pose proof (idle_damping_table log c (u8 w) avpkt rate sbuf Hs) as Ht.
  destruct (tc_red_eval_idle_damping log c (u8 w) avpkt rate sbuf) as [cl t].
  destruct Ht as [[-> _]|(Hc & Lt & Ft & _)]; [done|]. rewrite (proj2 (Z.ltb_ge cl 0)) in E by lia.
  injection E as <- <- <- <-. unfold u8. rewrite !Z.mod_small by lia. split_and!; try lia; done.
Qed.

Import Choke.

Lemma choke_compute_shifts w sbuf :
  choke_compute c pow log w sbuf =
  (if (Red.rate w =? 0) || (Red.limit (Red.opt w) =? 0) then None
   else
     let '(qmin, qmax, burst) := choke_defaults w in
     if Red.limit (Red.opt w) <? qmax then None
     else if qmax <=? qmin then None
     else
       match red_shifts (u32 (qmin * Red.avpkt w)) (u32 (qmax * Red.avpkt w)) burst (Red.avpkt w) (Red.rate w)
               (Red.probability w) sbuf with
       | None => None
       | Some (wlog, plog, clog, tab) =>
           Some (Red.mk_red (Red.limit (Red.opt w)) qmin qmax wlog plog clog
                   (if Red.ecn_ok w then Z.lor (Red.flags (Red.opt w)) 1 else Red.flags (Red.opt w)), tab,
                 if 10 <=? tc_red_eval_ewma pow (u32 (qmin * Red.avpkt w)) burst (Red.avpkt w) then [0%nat] else [])
       end).
Proof.
  unfold choke_compute, red_shifts. cbv zeta. destruct (_ || _); [done|]. destruct (choke_defaults w) as [[qmin qmax] b].
  destruct (_ <? qmax); [done|]. destruct (qmax <=? qmin); [done|].
  destruct (tc_red_eval_ewma _ _ _ _ <? 0); [done|]. destruct (tc_red_eval_P _ _ _ <? 0); [done|].
  destruct (tc_red_eval_idle_damping _ _ _ _ _ _) as [cl t]. by destruct (cl <? 0).
Qed.

Definition choke_words_ok (w : Red.red_words) : Prop :=
  0 <= Red.limit (Red.opt w) < 2 ^ 32 /\ 0 <= Red.qth_min (Red.opt w) < 2 ^ 32 /\ 0 <= Red.qth_max (Red.opt w) < 2 ^ 32 /\
  Red.flags (Red.opt w) = 0.

Lemma choke_keyword_ok word set arg w w' :
  choke_keyword word = Take set -> set arg w = Some w' -> choke_words_ok w -> choke_words_ok w'.
Proof.
  unfold choke_keyword, store, unsigned0. intros Hk Hs (W1 & W2 & W3 & W4).
  repeat (match goal with H : context [String.eqb word ?x] |- _ => destruct (String.eqb word x) end;
    [try discriminate; injection Hk as <-; cbv beta in Hs;
     match type of Hs with match ?e with _ => _ end = _ => destruct e as [v|] eqn:E; [|done] end;
     injection Hs as <-; try apply get_unsigned_range in E; done|]).
  done.
Qed.

Lemma choke_flag_ok word set w w' :
  choke_keyword word = Flag set -> set w = Some w' -> choke_words_ok w -> choke_words_ok w'.
Proof.
  unfold choke_keyword, store. intros Hk Hs Hw.
  repeat (match goal with H : context [String.eqb word ?x] |- _ => destruct (String.eqb word x) end;
    [try discriminate; injection Hk as <-; by injection Hs as <-|]).
  done.
Qed.

Lemma choke_compute_ok w sbuf o tab warnings :
  choke_words_ok w -> List.length sbuf = 256%nat -> choke_compute c pow log w sbuf = Some (o, tab, warnings) ->
  red_wf o /\ 0 <= Red.qth_min o < Red.qth_max o /\ Red.qth_max o <= Red.limit o /\ Red.limit o = Red.limit (Red.opt w) /\
  1 <= Red.Wlog o <= 31 /\ 0 <= Red.Plog o < 32 /\ 0 <= Red.Scell_log o < 32 /\ List.length tab = 256%nat.
Proof.
  intros (W1 & W2 & W3 & W4) Hs. rewrite choke_compute_shifts. destruct (_ || _); [done|].
  destruct (choke_defaults w) as [[qmin qmax] b] eqn:Ed.
  destruct (Z.ltb_spec (Red.limit (Red.opt w)) qmax) as [|Hq]; [done|]. destruct (Z.leb_spec qmax qmin) as [|Hm]; [done|].
  destruct (red_shifts _ _ _ _ _ _ _) as [[[[wl pl] cl] t]|] eqn:E; [|done].
  apply red_shifts_ok in E as (R1 & R2 & R3 & R4 & R5); [|done]. intros [= <- <- <-].
  assert (0 <= qmin) as H0.
  { unfold choke_defaults in Ed. injection Ed as <- <- _. destruct (Red.qth_min (Red.opt w) =? 0); [|lia].
    apply Z.div_pos; [|lia]. destruct (Red.qth_max (Red.opt w) =? 0); [apply Z.div_pos; lia|lia]. }
  cbn [Red.limit Red.qth_min Red.qth_max Red.Wlog Red.Plog Red.Scell_log]. split; [|split_and!; lia || done].
  assert (0 <= (if Red.ecn_ok w then Z.lor (Red.flags (Red.opt w)) 1 else Red.flags (Red.opt w)) < 2 ^ 8)
    by (rewrite W4; by destruct (Red.ecn_ok w)).
  constructor; repeat (apply Forall_cons; split; [cbn [Red.limit Red.qth_min Red.qth_max Red.Wlog Red.Plog Red.Scell_log Red.flags]; lia|]);
    by apply Forall_nil.
Qed.
End AqmRequest.

(** An accepted command for CHOKe sends thresholds in order: the smaller below the larger, and
    this not above the limit; with shifts the kernel can use and a whole damping table.  The
    printer shows what the kernel decodes. *)
Theorem choke_request c pow log (sbuf : list Z) argv n w rest o tab warnings :
  read_words Choke.choke_keyword argv Choke.choke_start = Args w rest ->
  Choke.choke_compute c pow log w sbuf = Some (o, tab, warnings) ->
  List.length sbuf = 256%nat -> room_for n 1024 284 ->
  (0 <= Red.qth_min o < Red.qth_max o /\ Red.qth_max o <= Red.limit o /\ Red.limit o = Red.limit (Red.opt w) /\
   1 <= Red.Wlog o <= 31 /\ 0 <= Red.Plog o < 32 /\ 0 <= Red.Scell_log o < 32) /\
  exists n', Choke.choke_parse_opt c pow log sbuf argv n = Return 0 n' warnings /\
    nest_at (mem n') (NLMSG_TAIL n) (Red.red_bytes o) tab /\ same_below (NLMSG_TAIL n) (mem n) (mem n') /\
    forall show_details,
      Choke.choke_print_opt show_details (mem n') (Some (NLMSG_TAIL n)) = (0, Choke.choke_text show_details o).
Proof.
  intros Hr Hc Hs Hroom.
  destruct (read_words_inv Choke.choke_keyword choke_words_ok choke_keyword_ok choke_flag_ok _ _ _ _ Hr) as [Hok _];
    [done|].
  destruct (choke_compute_ok c pow log w sbuf o tab warnings Hok Hs Hc) as (Hwf & R1 & R2 & R3 & R4 & R5 & R6 & Lt).
  split; [tauto|]. pose proof (red_of_bytes_ok o Hwf) as Edec.
  assert (span [(TCA_PARMS, Red.red_bytes o); (TCA_STAB, tab)] = 280) as Espan
    by (cbn [span]; unfold attr_span; rewrite Lt; reflexivity).
  destruct (put_options_ok (Red.red_bytes o) tab n) as (Hn & _ & _ & Hb); [by rewrite Espan|].
  destruct (nest_read _ _ _ _ Hn) as (H1 & Epay & Hd & _).
  change (Z.of_nat (List.length (Red.red_bytes o))) with Red.RED_SIZE in *.
  eexists. split; [unfold Choke.choke_parse_opt; rewrite Hr, Hc; reflexivity|]. split; [exact Hn|]. split; [exact Hb|].
  intros sd. unfold Choke.choke_print_opt. change TCA_STAB with 2. rewrite H1. cbn [fst].
  match goal with |- context [?l !!! Z.to_nat TCA_PARMS] =>
    change (l !!! Z.to_nat TCA_PARMS) with (Some (NLMSG_TAIL n + 4)) end.
  cbv iota. rewrite Epay. change (Red.RED_SIZE <? Red.RED_SIZE) with false. cbv iota. by rewrite Hd, Edec.
Qed.

Definition demo_choke_words : Red.red_words := Red.mk_words (Red.mk_red 1000 0 0 0 0 0 0) 0 1000 (dec 2 (-2)) 1250000 false.

Definition demo_choke : option (Red.tc_red_qopt * list Z * list nat) :=
  Choke.choke_compute core_default (fun _ _ => d0) (fun _ => dneg d1) demo_choke_words (replicate 256 0).

Lemma choke_request_witness :
  exists n', Choke.choke_parse_opt core_default (fun _ _ => d0) (fun _ => dneg d1) (replicate 256 0)
      ["limit"; "1000"; "bandwidth"; "10mbit"] (mk_nlmsg 36 (replicate 1024 0)) = Return 0 n' [] /\
    Choke.choke_print_opt false (mem n') (Some 36) = (0, "limit 1000p min 83p max 250p ").
Proof.
  destruct (choke_request core_default (fun _ _ => d0) (fun _ => dneg d1) (replicate 256 0)
    ["limit"; "1000"; "bandwidth"; "10mbit"] (mk_nlmsg 36 (replicate 1024 0)) demo_choke_words []
    (match demo_choke with Some (o, _, _) => o | None => Red.mk_red 0 0 0 0 0 0 0 end)
    (match demo_choke with Some (_, t, _) => t | None => [] end) []) as (_ & n' & H1 & _ & _ & H2).
  - vm_compute. reflexivity.
  - vm_compute. reflexivity.
  - reflexivity.
  - constructor; vm_compute; congruence.
  - exists n'. split; [exact H1|]. refine (eq_trans (H2 false) _). vm_compute. reflexivity.
Defined.

(** ** GRED *)

Section GredRequest.
Import Gred.

Record gred_wf (o : tc_gred_qopt) : Prop := {
  gw_words : Forall (fun v => 0 <= v < 2 ^ 32) [limit o; qth_min o; qth_max o; DP o; backlog o; qave o; forced o;
    early o; other o; pdrop o; packets o; bytesin o];
  gw_bytes : Forall (fun v => 0 <= v < 2 ^ 8) [Wlog o; Plog o; Scell_log o; prio o]
}.

Lemma gred_of_bytes_ok o : gred_wf o -> gred_of_bytes (gred_bytes o) = o.
Proof.
  intros [Ww Wb]. rewrite !Forall_cons in Ww. rewrite !Forall_cons in Wb.
  destruct Ww as (W1 & W2 & W3 & W4 & W5 & W6 & W7 & W8 & W9 & W10 & W11 & W12 & _), Wb as (B1 & B2 & B3 & B4 & _).
  unfold gred_of_bytes.
  rewrite (word_field _ 0 _ W1), (word_field _ 4 _ W2), (word_field _ 8 _ W3), (word_field _ 12 _ W4),
    (word_field _ 16 _ W5), (word_field _ 20 _ W6), (word_field _ 24 _ W7), (word_field _ 28 _ W8),
    (word_field _ 32 _ W9), (word_field _ 36 _ W10), (word_field _ 44 _ W11), (word_field _ 48 _ W12),
    (byte_field _ 40 _ B1), (byte_field _ 41 _ B2), (byte_field _ 42 _ B3), (byte_field _ 43 _ B4) by reflexivity.
  reflexivity.
Qed.

(** [setup] after another word is refused, whatever follows. *)
Lemma setup_first : forall argv w, 1 <= ok w -> forall rest, gred_loop argv w <> GredSetup rest.
Proof.
  assert (forall n argv w, (List.length argv <= n)%nat -> 1 <= ok w -> forall rest, gred_loop argv w <> GredSetup rest) as H.
  { induction n as [|n IH]; intros [|word argv] w Hl Hok rest; cbn [List.length] in Hl; try lia; cbn [gred_loop]; try done.
    destruct (String.eqb word "setup"); [by rewrite (proj2 (Z.eqb_neq _ 0)) by lia|].
    assert (forall set, gred_keyword word = Flag set -> False) as Hno
      by (intros set; unfold gred_keyword, counted, store; by repeat (destruct (String.eqb word _); [done|])).
    assert (forall set arg w', gred_keyword word = Take set -> set arg w = Some w' -> ok w' = ok w + 1) as Hok'.
    { intros set arg w'. unfold gred_keyword, counted, store.
      repeat (destruct (String.eqb word _);
        [intros [= <-]; cbv beta zeta; try (match goal with |- match ?e with _ => _ end = _ -> _ => destruct e end);
         first [intros [= <-]; done|done]|]). done. }
    destruct (gred_keyword word) as [set|set|] eqn:Ek; [| |done].
    - destruct argv as [|arg argv]; [done|]. destruct (set arg w) as [w'|] eqn:Es; [|done]. cbn [List.length] in Hl.
      apply IH; [lia|]. rewrite (Hok' set arg w' eq_refl Es). lia.
    - by destruct (Hno set). }
  intros argv w. by apply (H (List.length argv)).
Qed.

Definition setup_ok (w : setup_words) : Prop := 0 <= s_dps w <= 16 /\ - 1 <= s_def_dp w <= 16.

Lemma setup_keyword_ok word set arg w w' :
  setup_keyword word = Take set -> set arg w = Some w' -> setup_ok w -> setup_ok w'.
Proof.
  unfold setup_keyword. intros Hk Hs [H1 H2]. destruct (String.eqb word "DPs").
  { injection Hk as <-. cbv zeta in Hs. destruct (_ || _) eqn:E; [done|]. apply orb_false_iff in E as [E1 E2].
    injection Hs as <-. split; [|done]. cbn [s_dps]. unfold MAX_DPs in *. 
    change (0 <= s32 (strtol10 arg) <= 16). lia. }
  destruct (String.eqb word "default"); [|by destruct (String.eqb word _)].
  injection Hk as <-. cbv zeta in Hs. destruct (s_dps w =? 0); [done|]. destruct (_ || _) eqn:E; [done|].
  apply orb_false_iff in E as [E1 E2]. injection Hs as <-. split; [done|]. change (-1 <= s32 (strtol10 arg) <= 16). lia.
Qed.

Lemma setup_flag_ok word set w w' :
  setup_keyword word = Flag set -> set w = Some w' -> setup_ok w -> setup_ok w'.
Proof.
  unfold setup_keyword. intros Hk Hs Hw. destruct (String.eqb word "DPs"); [done|].
  destruct (String.eqb word "default"); [done|]. destruct (String.eqb word "grio"); [|done].
  injection Hk as <-. by injection Hs as <-.
Qed.
End GredRequest.

(** [gred setup] creates the table of virtual queues: between 1 and 16 of them, a default not
    above their number, and the create flag of the header set. *)
Theorem gred_setup c pow log sbuf argv n w rest :
  read_words Gred.setup_keyword argv (Gred.mk_setup 0 (- 1) false) = Args w rest ->
  Gred.s_dps w <> 0 -> Gred.s_def_dp w <> - 1 -> room_for n 1024 20 -> 8 <= nlmsg_len n ->
  1 <= Gred.s_dps w <= 16 /\ 0 <= Gred.s_def_dp w <= 16 /\
  exists n', Gred.gred_parse_opt c pow log sbuf ("setup" :: argv) n = Return 0 n' [] /\
    Z.land (load16 (mem n') 6) NLM_F_CREATE = NLM_F_CREATE /\
    tree_at (mem n') (NLMSG_TAIL n) (Nest TCA_OPTIONS [Leaf Gred.TCA_GRED_DPS
      (int_bytes (Gred.s_dps w) ++ int_bytes (Gred.s_def_dp w) ++ [if Gred.s_grio w then 1 else 0; 0; 0; 0])]).
Proof.
  intros Hr Hd Hf Hroom Hlen.
  destruct (read_words_inv Gred.setup_keyword setup_ok setup_keyword_ok setup_flag_ok _ _ _ _ Hr) as [[H1 H2] _];
    [split; cbn; lia|].
  split; [lia|]. split; [lia|]. unfold Gred.gred_parse_opt.
  change (Gred.gred_loop ("setup" :: argv) Gred.gred_start) with (Gred.GredSetup argv). cbv iota.
  unfold Gred.init_gred. rewrite Hr.
  rewrite (proj2 (Z.eqb_neq _ _) Hd), (proj2 (Z.eqb_neq _ _) Hf). cbn [orb].
  set (o := Gred.mk_sopt _ _ _). set (n1 := Gred.add_create n).
  assert (NLMSG_TAIL n1 = NLMSG_TAIL n) as Etail by done. destruct Hroom as [R0 R1 R2 R3].
  pose proof (tail_bounds n) as Htl.
  assert (List.length (mem n1) = List.length (mem n)) as Elen
    by (unfold n1, Gred.add_create; cbn [mem]; apply store_at_length; rewrite ?le_bytes_length; lia).
  destruct (appends_nest 1024 TCA_OPTIONS _ _ ltac:(done) (appends_leaf 1024 Gred.TCA_GRED_DPS (Gred.sopt_bytes o) ltac:(done)) n1)
    as ([T _] & _ & _ & _ & S & _); [constructor; rewrite ?Etail, ?Elen; done|].
  eexists. split; [reflexivity|]. rewrite Etail in T, S. split.
  - unfold load16. rewrite S by lia. unfold n1, Gred.add_create. cbn [mem].
    rewrite load_store_same by (rewrite ?le_bytes_length; lia). rewrite of_le_bytes_le.
    change (2 ^ (8 * Z.of_nat 2)) with (2 ^ 16). rewrite <- Z.land_ones by lia.
    apply Z.bits_inj'. intros i Hi. rewrite !Z.land_spec, Z.lor_spec.
    change NLM_F_CREATE with (2 ^ 10). rewrite Z.pow2_bits_eqb by lia. destruct (Z.eqb_spec 10 i) as [<-|]; [|by rewrite andb_false_r].
    rewrite Z.ones_spec_low by lia. by rewrite !andb_true_r, orb_true_r.
  - assert (Gred.sopt_bytes o = int_bytes (Gred.s_dps w) ++ int_bytes (Gred.s_def_dp w) ++
      [if Gred.s_grio w then 1 else 0; 0; 0; 0]) as <-; [|exact T].
    unfold o, Gred.sopt_bytes. cbn [Gred.DPs Gred.def_DP Gred.grio]. by rewrite !u32_small by lia.
Qed.

Lemma gred_setup_witness :
  exists n', Gred.gred_parse_opt core_default (fun _ _ => d0) (fun _ => d0) [] ["setup"; "DPs"; "3"; "default"; "1"; "grio"]
      (mk_nlmsg 36 (replicate 1024 0)) = Return 0 n' [] /\ Z.land (load16 (mem n') 6) NLM_F_CREATE = NLM_F_CREATE.
Proof.
  destruct (gred_setup core_default (fun _ _ => d0) (fun _ => d0) [] ["DPs"; "3"; "default"; "1"; "grio"]
    (mk_nlmsg 36 (replicate 1024 0)) (Gred.mk_setup 3 1 true) [] ltac:(vm_compute; reflexivity)
    ltac:(vm_compute; congruence) ltac:(vm_compute; congruence) ltac:(constructor; vm_compute; congruence)
    ltac:(vm_compute; congruence)) as (_ & _ & n' & H1 & H2 & _).
  exists n'. split; [exact H1|exact H2].
Defined.

(** A default equal to the number of queues, which names none of them, is accepted. *)
Example gred_default_out : read_words Gred.setup_keyword ["DPs"; "3"; "default"; "3"] (Gred.mk_setup 0 (- 1) false) =
  Args (Gred.mk_setup 3 3 false) [].
Proof. reflexivity. Qed.

(** The weight is shown without the details, and after them on the same line. *)
Example gred_weight_shown : Gred.gred_queue_text false Gred.no_gred =
  newline +:+ " DP:0 (prio 0) Average Queue 0b Measured Queue 0b  " +:+ newline +:+ tab +:+
  " Packet drops: 0 (forced 0 early 0)  " +:+ newline +:+ tab +:+ " Packet totals: 0 (bytes 0)  ewma 0 Plog 0 Scell_log 0".
Proof. vm_compute. reflexivity. Qed.
