(* ===== verification/TcCbq.v ===== *)
(** * CBQ (iproute2-3.1.0/tc/q_cbq.c, tc_cbq.c)

    The class based queue: the link sharing parameters computed from bursts and packet
    sizes, the options of the discipline and of its classes, and back to text.  [pow] is a
    parameter. *)

From S2P Require Export TcHtb TcNetem.

#[local] Open Scope list_scope.

(** ** Link sharing (tc_cbq.c) *)

Section LinkSharing.
Context (c : core) (pow : double -> double -> double).

(** [1.0 - 1.0/(1<<ewma_log)]. *)
Definition ewma_gain (ewma_log : Z) : double := (d1 - d1 / d_of_Z (s32 (Z.shiftl 1 ewma_log)))%D.

(** [iproute2-3.1.0/tc/tc_cbq.c:27-42 tc_cbq_calc_maxidle] *)
Definition tc_cbq_calc_maxidle (bndw rate avpkt ewma_log maxburst : Z) : Z :=
  let g := ewma_gain ewma_log in
  let xmt := (d_of_Z avpkt / d_of_Z bndw)%D in
  let maxidle := (xmt * (d1 - g))%D in
  let maxidle :=
    if negb (bndw =? rate) && negb (maxburst =? 0) then
      let vxmt := (d_of_Z avpkt / d_of_Z rate - xmt)%D in
      let vxmt := (vxmt * (pow g (- d_of_Z maxburst) - d1))%D in
      if dgt vxmt maxidle then vxmt else maxidle
    else maxidle in
  tc_core_time2tick c (d_to_u32 (maxidle * d_of_Z (s32 (Z.shiftl 1 ewma_log)) * d_of_Z TIME_UNITS_PER_SEC)%D).

(** [iproute2-3.1.0/tc/tc_cbq.c:44-57 tc_cbq_calc_offtime] *)
Definition tc_cbq_calc_offtime (bndw rate avpkt ewma_log minburst : Z) : Z :=
  let g := ewma_gain ewma_log in
  let offtime := (d_of_Z avpkt / d_of_Z rate - d_of_Z avpkt / d_of_Z bndw)%D in
  if minburst =? 0 then 0
  else
    let offtime :=
      if minburst =? 1 then (offtime * (pow g (- d_of_Z minburst) - d1))%D
      else (offtime * (d1 + (pow g (- d_of_Z (minburst - 1)) - d1) / (d1 - g)))%D in
    tc_core_time2tick c (d_to_u32 (offtime * d_of_Z TIME_UNITS_PER_SEC)%D).
End LinkSharing.

(** ** The structures *)

#[local] Set Primitive Projections.

(** [iproute2-3.1.0/include/linux/pkt_sched.h:444-461 tc_cbq_lssopt] *)
Record tc_cbq_lssopt := mk_lss {
  l_change : Z; l_flags : Z; l_ewma_log : Z; l_level : Z; l_maxidle : Z; l_minidle : Z; l_offtime : Z; l_avpkt : Z
}.

(** [iproute2-3.1.0/include/linux/pkt_sched.h:463-470 tc_cbq_wrropt] *)
Record tc_cbq_wrropt := mk_wrr { r_flags : Z; r_priority : Z; r_cpriority : Z; r_reserved : Z; r_allot : Z; r_weight : Z }.

(** [iproute2-3.1.0/include/linux/pkt_sched.h:490-494 tc_cbq_fopt] *)
Record tc_cbq_fopt := mk_fopt { f_split : Z; f_defmap : Z; f_defchange : Z }.

(** The locals of the discipline.  [iproute2-3.1.0/tc/q_cbq.c:52-60 cbq_parse_opt] *)
Record cbq_words := mk_cbq_words {
  cw_rate : Z; cw_mpu : Z; cw_avpkt : Z; cw_allot : Z; cw_overhead : Z; cw_linklayer : link_layer; cw_cell_log : Z;
  cw_ewma_log : Z
}.

(** The structures and the locals of a class.  [iproute2-3.1.0/tc/q_cbq.c:183-203 cbq_parse_class_opt] *)
Record cbq_class := mk_cbq_class {
  cc_wrr_ok : bool; cc_fopt_ok : bool; cc_rate : Z; cc_lss : tc_cbq_lssopt; cc_wrr : tc_cbq_wrropt; cc_fopt : tc_cbq_fopt;
  cc_mpu : Z; cc_cell_log : Z; cc_ewma_log : Z; cc_bndw : Z; cc_minburst : Z; cc_maxburst : Z; cc_overhead : Z;
  cc_linklayer : link_layer
}.

#[local] Unset Primitive Projections.

Definition TC_CBQ_MAXPRIO : Z := 8.
Definition TC_CBQ_DEF_EWMA : Z := 5.
Definition TCF_CBQ_LSS_BOUNDED : Z := 1.
Definition TCF_CBQ_LSS_ISOLATED : Z := 2.
Definition TCF_CBQ_LSS_FLAGS : Z := 1.
Definition TCF_CBQ_LSS_EWMA : Z := 2.
Definition TCF_CBQ_LSS_MAXIDLE : Z := 4.
Definition TCF_CBQ_LSS_MINIDLE : Z := 8.
Definition TCF_CBQ_LSS_OFFTIME : Z := 0x10.
Definition TCF_CBQ_LSS_AVPKT : Z := 0x20.

Definition TCA_CBQ_LSSOPT : Z := 1.
Definition TCA_CBQ_WRROPT : Z := 2.
Definition TCA_CBQ_FOPT : Z := 3.
Definition TCA_CBQ_OVL_STRATEGY : Z := 4.
Definition TCA_CBQ_RATE : Z := 5.
Definition TCA_CBQ_RTAB : Z := 6.
Definition TCA_CBQ_MAX : Z := 7.

Definition LSS_SIZE : Z := 20.
Definition WRR_SIZE : Z := 12.
Definition FOPT_SIZE : Z := 12.
Definition RATESPEC_SIZE : Z := 12.

Definition lss_bytes (l : tc_cbq_lssopt) : list Z :=
  [u8 (l_change l); u8 (l_flags l); u8 (l_ewma_log l); u8 (l_level l)] ++ int_bytes (l_maxidle l) ++ int_bytes (l_minidle l) ++
  int_bytes (l_offtime l) ++ int_bytes (l_avpkt l).

Definition lss_of_bytes (b : list Z) : tc_cbq_lssopt :=
  mk_lss (field_byte b 0) (field_byte b 1) (field_byte b 2) (field_byte b 3) (field32 b 4) (field32 b 8) (field32 b 12)
    (field32 b 16).

Definition wrr_bytes (w : tc_cbq_wrropt) : list Z :=
  [u8 (r_flags w); u8 (r_priority w); u8 (r_cpriority w); u8 (r_reserved w)] ++ int_bytes (r_allot w) ++ int_bytes (r_weight w).

Definition wrr_of_bytes (b : list Z) : tc_cbq_wrropt :=
  mk_wrr (field_byte b 0) (field_byte b 1) (field_byte b 2) (field_byte b 3) (field32 b 4) (field32 b 8).

Definition fopt_bytes (f : tc_cbq_fopt) : list Z := int_bytes (f_split f) ++ int_bytes (f_defmap f) ++ int_bytes (f_defchange f).

Definition fopt_of_bytes (b : list Z) : tc_cbq_fopt := mk_fopt (field32 b 0) (field32 b 4) (field32 b 8).

(** ** The discipline *)

(** The size of a cell is a power of two: its logarithm.
    [iproute2-3.1.0/tc/q_cbq.c:83-98 cbq_parse_opt] *)
Definition get_cell (arg : string) : option Z :=
  match get_size arg with
  | Some cell => List.find (fun i => u32 (Z.shiftl 1 i) =? cell) (map Z.of_nat (seq 0 32))
  | None => None
  end.

(** [iproute2-3.1.0/tc/q_cbq.c:73-82 cbq_parse_opt] *)
Definition get_ewma (arg : string) : option Z :=
  match get_integer arg 0 with Some v => if 31 <? v then None else Some v | None => None end.

(** [iproute2-3.1.0/tc/q_cbq.c:65-137 cbq_parse_opt] *)
Definition cbq_keyword (word : string) : word_action cbq_words :=
  if matches word "bandwidth" || matches word "rate" then store get_rate (fun v w => w <| cw_rate := v |>)
  else if matches word "ewma" then store get_ewma (fun v w => w <| cw_ewma_log := v |>)
  else if matches word "cell" then store get_cell (fun v w => w <| cw_cell_log := v |>)
  else if matches word "avpkt" then store get_size (fun v w => w <| cw_avpkt := v |>)
  else if matches word "mpu" then store get_size (fun v w => w <| cw_mpu := v |>)
  else if matches word "allot" then store get_size (fun v w => w <| cw_allot := v |>)
  else if matches word "overhead" then store (fun arg => get_u16 arg 10) (fun v w => w <| cw_overhead := v |>)
  else if matches word "linklayer" then store get_linklayer (fun v w => w <| cw_linklayer := v |>)
  else Stop.

Definition cbq_start : cbq_words := mk_cbq_words 0 0 0 0 0 LINKLAYER_ETHERNET (- 1) (- 1).

(** One and a half packets, in 32 bits. *)
Definition packets_allot (avpkt : Z) : Z := u32 (avpkt * 3) / 2.

(** The table as it is shown.  [iproute2-3.1.0/tc/q_cbq.c:171-176 cbq_parse_opt] *)
Definition table_text (show_raw : bool) (rtab : list Z) : string :=
  if show_raw then String.concat "" (map (fun v => print_u v +:+ " ") rtab) +:+ newline else "".

Section Cbq.
Context (c : core) (pow : double -> double -> double) (use_iec show_raw : bool).

(** The rate, the parameters and the table.  [iproute2-3.1.0/tc/q_cbq.c:141-164 cbq_parse_opt] *)
Definition cbq_compute (w : cbq_words) (rtab : list Z) : option (tc_ratespec * tc_cbq_lssopt * list Z) :=
  if cw_rate w =? 0 then None
  else if cw_avpkt w =? 0 then None
  else
    let allot := if cw_allot w <? packets_allot (cw_avpkt w) then packets_allot (cw_avpkt w) else cw_allot w in
    let '(r, rate, rtab) :=
      tc_calc_rtable c (mk_ratespec 0 (cw_overhead w) 0 (u16 (cw_mpu w)) (cw_rate w)) rtab (cw_cell_log w) allot
        (cw_linklayer w) in
    if r <? 0 then None
    else
      let ewma_log := if cw_ewma_log w <? 0 then TC_CBQ_DEF_EWMA else cw_ewma_log w in
      Some (rate,
            mk_lss (Z.lor (Z.lor TCF_CBQ_LSS_MAXIDLE TCF_CBQ_LSS_EWMA) TCF_CBQ_LSS_AVPKT) 0 (u8 ewma_log) 0
              (tc_calc_xmittime c (rs_rate rate) (cw_avpkt w)) 0 0 (cw_avpkt w), rtab).

(** The attributes with the bounds they are added under.
    [iproute2-3.1.0/tc/q_cbq.c:166-170 cbq_parse_opt] *)
Definition cbq_attrs (rate : tc_ratespec) (lss : tc_cbq_lssopt) (rtab : list Z) : list (Z * Z * list Z) :=
  [(1024, TCA_CBQ_RATE, ratespec_bytes rate); (1024, TCA_CBQ_LSSOPT, lss_bytes lss); (3024, TCA_CBQ_RTAB, words_bytes rtab)].

(** The outcome, and what is written to the output; [rtab] is what the array held.
    [iproute2-3.1.0/tc/q_cbq.c:50-179 cbq_parse_opt] *)
Definition cbq_parse_opt (rtab : list Z) (argv : list string) (n : nlmsghdr) : parse_outcome * string :=
  match read_words cbq_keyword argv cbq_start with
  | ArgExit => (Exit 255, "")
  | ArgError => (Return (- 1) n [], "")
  | Args w _ =>
      match cbq_compute w rtab with
      | None => (Return (- 1) n [], "")
      | Some (rate, lss, rtab) =>
          (Return 0 (nest_bounded 1024 TCA_OPTIONS (cbq_attrs rate lss rtab) n) [], table_text show_raw rtab)
      end
  end.

(** ** The classes *)

Definition upd_lss (f : tc_cbq_lssopt -> tc_cbq_lssopt) (w : cbq_class) : cbq_class := w <| cc_lss := f (cc_lss w) |>.

Definition upd_wrr (f : tc_cbq_wrropt -> tc_cbq_wrropt) (w : cbq_class) : cbq_class := w <| cc_wrr := f (cc_wrr w) |>.
Definition upd_fopt (f : tc_cbq_fopt -> tc_cbq_fopt) (w : cbq_class) : cbq_class := w <| cc_fopt := f (cc_fopt w) |>.

(** A bit of the set of what was given. *)
Definition changes (bit : Z) (w : cbq_class) : cbq_class := upd_lss (fun l => l <| l_change := Z.lor (l_change l) bit |>) w.

(** A flag set or cleared, which counts as given. *)
Definition set_flag (flag : Z) (on : bool) (w : cbq_class) : cbq_class :=
  changes TCF_CBQ_LSS_FLAGS
    (upd_lss (fun l => l <| l_flags := if on then Z.lor (l_flags l) flag else Z.ldiff (l_flags l) flag |>) w).

(** [sscanf] of [%08x/%08x]: the map, and its mask if there is one.
    [iproute2-3.1.0/tc/q_cbq.c:324-334 cbq_parse_class_opt] *)
Definition get_defmap (arg : string) : option (Z * Z) :=
  match scanf_x8 arg with
  | None => None
  | Some (defmap, rest) =>
      match rest with
      | String "/" rest => match scanf_x8 rest with Some (defchange, _) => Some (defmap, defchange) | None => Some (defmap, 0xFFFFFFFF) end
      | _ => Some (defmap, 0xFFFFFFFF)
      end
  end.

(** [iproute2-3.1.0/tc/q_cbq.c:278-288 cbq_parse_class_opt] *)
Definition get_prio (arg : string) : option Z :=
  match get_u32 arg 0 with Some v => if TC_CBQ_MAXPRIO <? v then None else Some v | None => None end.

(** [iproute2-3.1.0/tc/q_cbq.c:205-354 cbq_parse_class_opt] *)
Definition cbq_class_keyword (word : string) : word_action cbq_class :=
  if matches word "rate" then store get_rate (fun v w => w <| cc_rate := v |>)
  else if matches word "bandwidth" then store get_rate (fun v w => w <| cc_bndw := v |>)
  else if matches word "minidle" then
    store (fun arg => get_u32 arg 0) (fun v w => changes TCF_CBQ_LSS_MINIDLE (upd_lss (fun l => l <| l_minidle := v |>) w))
  else if matches word "minburst" then
    store (fun arg => get_u32 arg 0) (fun v w => changes TCF_CBQ_LSS_OFFTIME (w <| cc_minburst := v |>))
  else if matches word "maxburst" then
    store (fun arg => get_u32 arg 0) (fun v w => changes TCF_CBQ_LSS_MAXIDLE (w <| cc_maxburst := v |>))
  else if matches word "bounded" then Flag (fun w => Some (set_flag TCF_CBQ_LSS_BOUNDED true w))
  else if matches word "borrow" then Flag (fun w => Some (set_flag TCF_CBQ_LSS_BOUNDED false w))
  else if matches word "isolated" then Flag (fun w => Some (set_flag TCF_CBQ_LSS_ISOLATED true w))
  else if matches word "sharing" then Flag (fun w => Some (set_flag TCF_CBQ_LSS_ISOLATED false w))
  else if matches word "ewma" then
    store get_ewma (fun v w => changes TCF_CBQ_LSS_EWMA (w <| cc_ewma_log := v |>))
  else if matches word "cell" then store get_cell (fun v w => w <| cc_cell_log := v |>)
  else if matches word "prio" then
    store get_prio (fun v w => (upd_wrr (fun r => r <| r_priority := v |>) w) <| cc_wrr_ok := true |>)
  else if matches word "allot" then store get_size (fun v => upd_wrr (fun r => r <| r_allot := v |>))
  else if matches word "avpkt" then
    store get_size (fun v w => changes TCF_CBQ_LSS_AVPKT (upd_lss (fun l => l <| l_avpkt := v |>) w))
  else if matches word "mpu" then store get_size (fun v w => w <| cc_mpu := v |>)
  else if matches word "weight" then
    store get_size (fun v w => (upd_wrr (fun r => r <| r_weight := v |>) w) <| cc_wrr_ok := true |>)
  else if matches word "split" then
    store get_tc_classid (fun v w => (upd_fopt (fun f => f <| f_split := v |>) w) <| cc_fopt_ok := true |>)
  else if matches word "defmap" then
    store get_defmap (fun '(m, k) w =>
      (upd_fopt (fun f => (f <| f_defmap := m |>) <| f_defchange := k |>) w) <| cc_fopt_ok := true |>)
  else if matches word "overhead" then store (fun arg => get_u16 arg 10) (fun v w => w <| cc_overhead := v |>)
  else if matches word "linklayer" then store get_linklayer (fun v w => w <| cc_linklayer := v |>)
  else Stop.

Definition cbq_class_start : cbq_class :=
  mk_cbq_class false false 0 (mk_lss 0 0 0 0 0 0 0 0) (mk_wrr 0 0 0 0 0 0) (mk_fopt 0 0 0) 0 (- 1) (- 1) 0 0 0 0
    LINKLAYER_ETHERNET.

Definition NLM_F_EXCL : Z := 0x200.

(** The table for the size of the rounds as it was given, and the allotment completed; the
    rate and the table are there only with a rate.  [iproute2-3.1.0/tc/q_cbq.c:359-369 cbq_parse_class_opt] *)
Definition class_table (w : cbq_class) (rtab : list Z) : option (option (tc_ratespec * list Z) * cbq_class) :=
  if cc_rate w =? 0 then Some (None, w)
  else
    let pktsize := r_allot (cc_wrr w) in
    let least := packets_allot (l_avpkt (cc_lss w)) in
    let w := if r_allot (cc_wrr w) <? least then upd_wrr (fun r => r <| r_allot := least |>) w else w in
    let '(r, rate, rtab) :=
      tc_calc_rtable c (mk_ratespec 0 (cc_overhead w) 0 (u16 (cc_mpu w)) (cc_rate w)) rtab (cc_cell_log w) pktsize
        (cc_linklayer w) in
    if r <? 0 then None else Some (Some (rate, rtab), w).

(** The round robin parameters of a class that is new are always sent.
    [iproute2-3.1.0/tc/q_cbq.c:383-396 cbq_parse_class_opt] *)
Definition class_rounds (excl : bool) (w : cbq_class) : option cbq_class :=
  let w :=
    if (r_priority (cc_wrr w) =? 0) && excl then
      let wrr := (cc_wrr w) <| r_priority := TC_CBQ_MAXPRIO |> in
      let wrr := if r_allot wrr =? 0 then wrr <| r_allot := packets_allot (l_avpkt (cc_lss w)) |> else wrr in
      (w <| cc_wrr := wrr |>) <| cc_wrr_ok := true |>
    else w in
  if cc_wrr_ok w then
    let wrr := cc_wrr w in
    let wrr :=
      if r_weight wrr =? 0 then wrr <| r_weight := if r_priority wrr =? TC_CBQ_MAXPRIO then 1 else cc_rate w |> else wrr in
    if r_allot wrr =? 0 then None else Some (w <| cc_wrr := wrr |>)
  else Some w.

Definition has_bits (z bits : Z) : bool := negb (Z.land z bits =? 0).

(** The bursts, if they were given, become times; the least idle time is scaled.
    [iproute2-3.1.0/tc/q_cbq.c:397-410 cbq_parse_class_opt] *)
Definition class_bursts (w : cbq_class) (ewma_log : Z) (l : tc_cbq_lssopt) : tc_cbq_lssopt :=
  let l :=
    if has_bits (l_change l) TCF_CBQ_LSS_MAXIDLE then
      (l <| l_maxidle := tc_cbq_calc_maxidle c pow (cc_bndw w) (cc_rate w) (l_avpkt l) ewma_log (cc_maxburst w) |>)
        <| l_change := Z.lor (l_change l) (Z.lor TCF_CBQ_LSS_MAXIDLE (Z.lor TCF_CBQ_LSS_EWMA TCF_CBQ_LSS_AVPKT)) |>
    else l in
  let l :=
    if has_bits (l_change l) TCF_CBQ_LSS_OFFTIME then
      (l <| l_offtime := tc_cbq_calc_offtime c pow (cc_bndw w) (cc_rate w) (l_avpkt l) ewma_log (cc_minburst w) |>)
        <| l_change := Z.lor (l_change l) (Z.lor TCF_CBQ_LSS_OFFTIME (Z.lor TCF_CBQ_LSS_EWMA TCF_CBQ_LSS_AVPKT)) |>
    else l in
  if has_bits (l_change l) TCF_CBQ_LSS_MINIDLE then
    (l <| l_minidle := u32 (Z.shiftl (l_minidle l) (l_ewma_log l)) |>) <| l_change := Z.lor (l_change l) TCF_CBQ_LSS_EWMA |>
  else l.

(** Bursts need the size of a packet, the bandwidth and the rate.
    [iproute2-3.1.0/tc/q_cbq.c:373-382 cbq_parse_class_opt] *)
Definition bursts_refused (w : cbq_class) : bool :=
  has_bits (l_change (cc_lss w)) (Z.lor TCF_CBQ_LSS_OFFTIME TCF_CBQ_LSS_MAXIDLE) &&
  ((l_avpkt (cc_lss w) =? 0) || (cc_bndw w =? 0) || (cc_rate w =? 0)).

(** [iproute2-3.1.0/tc/q_cbq.c:356-410 cbq_parse_class_opt] *)
Definition cbq_class_compute (excl : bool) (w : cbq_class) (rtab : list Z) : option (option (tc_ratespec * list Z) * cbq_class) :=
  match class_table w rtab with
  | None => None
  | Some (rate, w) =>
      let ewma_log := if cc_ewma_log w <? 0 then TC_CBQ_DEF_EWMA else cc_ewma_log w in
      let w := upd_lss (fun l => l <| l_ewma_log := u8 ewma_log |>) w in
      if bursts_refused w then None
      else
        match class_rounds excl w with
        | None => None
        | Some w => Some (rate, upd_lss (class_bursts w ewma_log) w)
        end
  end.

(** A part of the message, if it is given. *)
Definition attr_if (given : bool) (bound type : Z) (data : list Z) : list (Z * Z * list Z) :=
  if given then [(bound, type, data)] else [].

Definition rate_attrs (rate : option (tc_ratespec * list Z)) : list (Z * Z * list Z) :=
  match rate with
  | Some (r, rtab) => [(1024, TCA_CBQ_RATE, ratespec_bytes r); (3024, TCA_CBQ_RTAB, words_bytes rtab)]
  | None => []
  end.

(** What is sent of the link sharing parameters: the flags always count as given. *)
Definition lss_sent (l : tc_cbq_lssopt) : tc_cbq_lssopt := l <| l_change := Z.lor (l_change l) TCF_CBQ_LSS_FLAGS |>.

(** [iproute2-3.1.0/tc/q_cbq.c:412-424 cbq_parse_class_opt] *)
Definition cbq_class_attrs (rate : option (tc_ratespec * list Z)) (w : cbq_class) : list (Z * Z * list Z) :=
  attr_if (negb (l_change (cc_lss w) =? 0)) 1024 TCA_CBQ_LSSOPT (lss_bytes (lss_sent (cc_lss w))) ++
  attr_if (cc_wrr_ok w) 1024 TCA_CBQ_WRROPT (wrr_bytes (cc_wrr w)) ++
  attr_if (cc_fopt_ok w) 1024 TCA_CBQ_FOPT (fopt_bytes (cc_fopt w)) ++ rate_attrs rate.

(** The flags of the request are read from its header.
    [iproute2-3.1.0/tc/q_cbq.c:181-434 cbq_parse_class_opt] *)
Definition cbq_parse_class_opt (rtab : list Z) (argv : list string) (n : nlmsghdr) : parse_outcome * string :=
  match read_words cbq_class_keyword argv cbq_class_start with
  | ArgExit => (Exit 255, "")
  | ArgError => (Return (- 1) n [], "")
  | Args w _ =>
      match cbq_class_compute (has_bits (load16 (mem n) 6) NLM_F_EXCL) w rtab with
      | None => (Return (- 1) n [], "")
      | Some (rate, w) =>
          (Return 0 (nest_bounded 1024 TCA_OPTIONS (cbq_class_attrs rate w) n) [],
           match rate with Some (_, rtab) => table_text show_raw rtab | None => "" end)
      end
  end.

(** ** Printing *)

Definition with_details (show_details : bool) (s : string) : string := if show_details then s else "".

(** A raw word behind its text. *)
Definition raw_word (z : Z) : string := if show_raw then "[" +:+ print_08x z +:+ "] " else "".

(** [iproute2-3.1.0/tc/q_cbq.c:485-496 cbq_print_opt] *)
Definition cbq_rate_text (show_details : bool) (r : tc_ratespec) : string :=
  "rate " +:+ print_rate use_iec 64 (rs_rate r) +:+ " " +:+
  with_details show_details
    ("cell " +:+ print_u (u32 (s32 (Z.shiftl 1 (rs_cell_log r)))) +:+ "b " +:+
     (if rs_mpu r =? 0 then "" else "mpu " +:+ print_u (rs_mpu r) +:+ "b ") +:+
     (if rs_overhead r =? 0 then "" else "overhead " +:+ print_u (rs_overhead r) +:+ "b ")).

(** [iproute2-3.1.0/tc/q_cbq.c:497-510 cbq_print_opt] *)
Definition cbq_flags_text (l : tc_cbq_lssopt) : string :=
  if l_flags l =? 0 then ""
  else
    let bounded := has_bits (l_flags l) TCF_CBQ_LSS_BOUNDED in
    "(" +:+ (if bounded then "bounded" else "") +:+
    (if has_bits (l_flags l) TCF_CBQ_LSS_ISOLATED then (if bounded then "," else "") +:+ "isolated" else "") +:+ ") ".

(** [iproute2-3.1.0/tc/q_cbq.c:511-526 cbq_print_opt] *)
Definition cbq_wrr_text (show_details : bool) (w : tc_cbq_wrropt) : string :=
  (if r_priority w =? TC_CBQ_MAXPRIO then "prio no-transmit" else "prio " +:+ print_u (r_priority w)) +:+
  with_details show_details
    ("/" +:+ print_u (r_cpriority w) +:+ " " +:+
     (if r_weight w =? 1 then "" else "weight " +:+ print_rate use_iec 64 (r_weight w) +:+ " ") +:+
     (if r_allot w =? 0 then "" else "allot " +:+ print_u (r_allot w) +:+ "b ")).

(** The times are shifted by the logarithm, which is below 32 in what the parser sends.
    [iproute2-3.1.0/tc/q_cbq.c:527-544 cbq_print_opt] *)
Definition cbq_lss_text (l : tc_cbq_lssopt) : string :=
  newline +:+ "level " +:+ print_u (l_level l) +:+ " ewma " +:+ print_u (l_ewma_log l) +:+ " avpkt " +:+ print_u (l_avpkt l) +:+
  "b " +:+
  (if l_maxidle l =? 0 then ""
   else "maxidle " +:+ sprint_ticks c (Z.shiftr (l_maxidle l) (l_ewma_log l)) +:+ " " +:+ raw_word (l_maxidle l)) +:+
  (if l_minidle l =? 0x7fffffff then ""
   else "minidle " +:+ sprint_ticks c (Z.shiftr (l_minidle l) (l_ewma_log l)) +:+ " " +:+ raw_word (l_minidle l)) +:+
  (if l_offtime l =? 0 then "" else "offtime " +:+ sprint_ticks c (l_offtime l) +:+ " " +:+ raw_word (l_offtime l)).

(** [iproute2-3.1.0/tc/q_cbq.c:545-552 cbq_print_opt] *)
Definition cbq_fopt_text (f : tc_cbq_fopt) : string :=
  newline +:+ "split " +:+ print_tc_classid 64 (f_split f) +:+ " " +:+
  (if f_defmap f =? 0 then "" else "defmap " +:+ print_08x (f_defmap f)).

(** [iproute2-3.1.0/tc/q_cbq.c:485-552 cbq_print_opt] *)
Definition cbq_text (show_details : bool) (r : option tc_ratespec) (l : option tc_cbq_lssopt) (w : option tc_cbq_wrropt)
    (f : option tc_cbq_fopt) : string :=
  from_option (cbq_rate_text show_details) "" r +:+ from_option cbq_flags_text "" l +:+
  from_option (cbq_wrr_text show_details) "" w +:+ with_details show_details (from_option cbq_lss_text "" l) +:+
  with_details show_details (from_option cbq_fopt_text "" f).

(** The structure in an attribute; one that is too short is as none.
    [iproute2-3.1.0/tc/q_cbq.c:452-457 cbq_print_opt] *)
Definition sized_struct {T} (m : list Z) (a : option Z) (size : Z) (f : list Z -> T) : option T :=
  match a with
  | Some a => if RTA_PAYLOAD m a <? size then None else Some (f (load_bytes m (RTA_DATA a) size))
  | None => None
  end.

(** Nothing is shown of the strategy.  [iproute2-3.1.0/tc/q_cbq.c:437-554 cbq_print_opt] *)
Definition cbq_print_opt (show_details : bool) (m : list Z) (opt : option Z) : Z * string :=
  match opt with
  | None => (0, "")
  | Some opt =>
      let tb := (parse_rtattr_nested m TCA_CBQ_MAX opt).1 in
      (0, cbq_text show_details
            (sized_struct m (tb !!! Z.to_nat TCA_CBQ_RATE) RATESPEC_SIZE (fun b => ratespec_of_bytes b 0))
            (sized_struct m (tb !!! Z.to_nat TCA_CBQ_LSSOPT) LSS_SIZE lss_of_bytes)
            (sized_struct m (tb !!! Z.to_nat TCA_CBQ_WRROPT) WRR_SIZE wrr_of_bytes)
            (sized_struct m (tb !!! Z.to_nat TCA_CBQ_FOPT) FOPT_SIZE fopt_of_bytes))
  end.
End Cbq.

(** *** A whole number as [%g] shows it *)

(** The digits without the zeros at their end. *)
Fixpoint drop_zeros (s : string) : string :=
  match s with
  | "" => ""
  | String c s => match drop_zeros s with "" => if Ascii.eqb c "0" then "" else String c "" | r => String c r end
  end.

(** [a / 10^k] to the nearest, ties to even. *)
Definition div_half_even (a b : Z) : Z :=
  let q := a / b in
  let r := a mod b in
  if 2 * r <? b then q else if b <? 2 * r then q + 1 else if Z.even q then q else q + 1.

(** Six significant digits, in the form with an exponent from a million on; an [int] has ten
    digits at most. *)
Definition fmt_g_int (z : Z) : string :=
  let a := Z.abs z in
  let sign := if z <? 0 then "-" else "" in
  if a <? 1000000 then sign +:+ print_u a
  else
    let x := Z.of_nat (String.length (print_u a)) - 1 in
    let q := div_half_even a (10 ^ (x - 5)) in
    let '(q, x) := if q =? 1000000 then (100000, x + 1) else (q, x) in
    let rest := drop_zeros (drop_chars 1 (print_u q)) in
    sign +:+ substring 0 1 (print_u q) +:+ (if String.eqb rest "" then "" else "." +:+ rest) +:+ "e+" +:+
    pad_left 2 (print_u x).

(** [iproute2-3.1.0/tc/q_cbq.c:556-570 cbq_print_xstats] *)
Definition cbq_print_xstats (m : list Z) (xstats : option Z) : Z * string :=
  match xstats with
  | None => (0, "")
  | Some a =>
      if RTA_PAYLOAD m a <? 16 then (- 1, "")
      else
        let b := load_bytes m (RTA_DATA a) 16 in
        (0, "  borrowed " +:+ print_u (field32 b 0) +:+ " overactions " +:+ print_u (field32 b 4) +:+
            " avgidle " +:+ fmt_g_int (s32 (field32 b 8)) +:+ " undertime " +:+ fmt_g_int (s32 (field32 b 12)))
  end.

Example fmt_g_values :
  map fmt_g_int [0; 999999; 1000000; -1234565; 1234575; 2147483647; 9999999; -2147483648] =
    ["0"; "999999"; "1e+06"; "-1.23456e+06"; "1.23458e+06"; "2.14748e+09"; "1e+07"; "-2.14748e+09"].
Proof. vm_compute. reflexivity. Qed.

(** ** What the structures hold *)

Definition byte_range (z : Z) : Prop := 0 <= z < 2 ^ 8.
Definition word_range (z : Z) : Prop := 0 <= z < 2 ^ 32.

Record lss_wf (l : tc_cbq_lssopt) : Prop := {
  lw_bytes : Forall byte_range [l_change l; l_flags l; l_ewma_log l; l_level l];
  lw_words : Forall word_range [l_maxidle l; l_minidle l; l_offtime l; l_avpkt l]
}.

Record wrr_wf (w : tc_cbq_wrropt) : Prop := {
  ww_bytes : Forall byte_range [r_flags w; r_priority w; r_cpriority w; r_reserved w];
  ww_words : Forall word_range [r_allot w; r_weight w]
}.

Definition fopt_wf (f : tc_cbq_fopt) : Prop := Forall word_range [f_split f; f_defmap f; f_defchange f].

Lemma lss_of_bytes_ok l : lss_wf l -> lss_of_bytes (lss_bytes l) = l.
Proof.
  intros [B W]. rewrite !Forall_cons in B. rewrite !Forall_cons in W. destruct B as (B1 & B2 & B3 & B4 & _), W as (W1 & W2 & W3 & W4 & _).
  unfold lss_of_bytes.
  rewrite (byte_field _ 0 _ B1), (byte_field _ 1 _ B2), (byte_field _ 2 _ B3), (byte_field _ 3 _ B4) by reflexivity.
  rewrite (word_field _ 4 _ W1), (word_field _ 8 _ W2), (word_field _ 12 _ W3), (word_field _ 16 _ W4) by reflexivity.
  reflexivity.
Qed.

Lemma wrr_of_bytes_ok w : wrr_wf w -> wrr_of_bytes (wrr_bytes w) = w.
Proof.
  intros [B W]. rewrite !Forall_cons in B. rewrite !Forall_cons in W. destruct B as (B1 & B2 & B3 & B4 & _), W as (W1 & W2 & _). unfold wrr_of_bytes.
  rewrite (byte_field _ 0 _ B1), (byte_field _ 1 _ B2), (byte_field _ 2 _ B3), (byte_field _ 3 _ B4) by reflexivity.
  rewrite (word_field _ 4 _ W1), (word_field _ 8 _ W2) by reflexivity. reflexivity.
Qed.

Lemma fopt_of_bytes_ok f : fopt_wf f -> fopt_of_bytes (fopt_bytes f) = f.
Proof.
  unfold fopt_wf. rewrite !Forall_cons. intros (W1 & W2 & W3 & _). unfold fopt_of_bytes.
  rewrite (word_field _ 0 _ W1), (word_field _ 4 _ W2), (word_field _ 8 _ W3) by reflexivity. reflexivity.
Qed.

(** What the words of a class keep. *)
Record class_ok (w : cbq_class) : Prop := {
  co_lss : lss_wf (cc_lss w);
  co_wrr : wrr_wf (cc_wrr w);
  co_prio : r_priority (cc_wrr w) <= TC_CBQ_MAXPRIO;
  co_fopt : fopt_wf (cc_fopt w);
  co_rate : word_range (cc_rate w);
  co_overhead : 0 <= cc_overhead w < 2 ^ 16;
  co_ewma : cc_ewma_log w <= 31
}.

Lemma scanf_x8_range s v rest : scanf_x8 s = Some (v, rest) -> word_range v.
Proof. unfold scanf_x8. destruct (strtoul _ _) as [[z r]|]; [|done]. intros [= <- _]. apply u32_range. Qed.

Lemma get_defmap_range arg m k : get_defmap arg = Some (m, k) -> word_range m /\ word_range k.
Proof.
  unfold get_defmap. destruct (scanf_x8 arg) as [[v rest]|] eqn:E; [|done]. apply scanf_x8_range in E.
  assert (word_range 0xFFFFFFFF) by done. repeat case_match; intros [= <- <-]; (split; [exact E|]); try done.
  by eapply scanf_x8_range.
Qed.

Lemma get_ewma_range arg v : get_ewma arg = Some v -> v <= 31.
Proof. unfold get_ewma. destruct (get_integer arg 0); [|done]. destruct (Z.ltb_spec 31 z); [done|]. by intros [= <-]. Qed.

Lemma get_prio_range arg v : get_prio arg = Some v -> 0 <= v <= TC_CBQ_MAXPRIO.
Proof.
  unfold get_prio. destruct (get_u32 arg 0) as [z|] eqn:E; [|done]. apply get_u32_range in E.
  destruct (Z.ltb_spec TC_CBQ_MAXPRIO z); [done|]. intros [= <-]. lia.
Qed.

Lemma changes_ok bit w : byte_range bit -> class_ok w -> class_ok (changes bit w).
Proof.
  intros Hb [[B W] ? ? ? ? ? ?]. constructor; try done. constructor; [|exact W]. rewrite Forall_cons in B.
  destruct B as [B1 B]. apply Forall_cons. split; [by apply lor_range|exact B].
Qed.

Lemma ldiff_byte a b : byte_range a -> byte_range (Z.ldiff a b).
Proof.
  intros Ha. assert (Z.land (Z.ldiff a b) (Z.ones 8) = Z.ldiff a b) as <-.
  { assert (Z.land a (Z.ones 8) = a) as <- by (rewrite Z.land_ones by done; by apply Z.mod_small).
    apply Z.bits_inj'. intros i Hi. rewrite !Z.land_spec, !Z.ldiff_spec, Z.land_spec.
    by destruct (Z.testbit a i), (Z.testbit b i), (Z.testbit (Z.ones 8) i). }
  rewrite Z.land_ones by done. by apply Z.mod_pos_bound.
Qed.

Lemma set_flag_ok flag on w : byte_range flag -> class_ok w -> class_ok (set_flag flag on w).
Proof.
  intros Hf [[B W] ? ? ? ? ? ?]. apply changes_ok; [done|]. constructor; try done. constructor; [|exact W].
  rewrite !Forall_cons in B. destruct B as (B1 & B2 & B). apply Forall_cons. split; [exact B1|]. apply Forall_cons.
  split; [|rewrite !Forall_cons; exact B]. cbn. destruct on; [by apply lor_range|]. by apply ldiff_byte.
Qed.

(** The structures are changed apart from each other. *)
Lemma upd_lss_ok f w : (lss_wf (cc_lss w) -> lss_wf (f (cc_lss w))) -> class_ok w -> class_ok (upd_lss f w).
Proof. intros Hf [? ? ? ? ? ? ?]. constructor; try done. by apply Hf. Qed.

Lemma upd_wrr_ok f w : (wrr_wf (cc_wrr w) -> wrr_wf (f (cc_wrr w))) -> r_priority (f (cc_wrr w)) <= TC_CBQ_MAXPRIO ->
  class_ok w -> class_ok (upd_wrr f w).
Proof. intros Hf Hp [? ? ? ? ? ? ?]. constructor; try done. by apply Hf. Qed.

Lemma upd_fopt_ok f w : (fopt_wf (cc_fopt w) -> fopt_wf (f (cc_fopt w))) -> class_ok w -> class_ok (upd_fopt f w).
Proof. intros Hf [? ? ? ? ? ? ?]. constructor; try done. by apply Hf. Qed.

(** The fields outside the structures. *)
Lemma class_same w w' : class_ok w -> cc_lss w' = cc_lss w -> cc_wrr w' = cc_wrr w -> cc_fopt w' = cc_fopt w ->
  word_range (cc_rate w') -> 0 <= cc_overhead w' < 2 ^ 16 -> cc_ewma_log w' <= 31 -> class_ok w'.
Proof. intros [? ? ? ? ? ? ?] E1 E2 E3 ? ? ?. constructor; rewrite ?E1, ?E2, ?E3; done. Qed.

Lemma lss_word l v : lss_wf l -> word_range v -> lss_wf (l <| l_minidle := v |>) /\ lss_wf (l <| l_avpkt := v |>).
Proof.
  intros [B W] Hv. rewrite !Forall_cons in W. split; (constructor; [exact B|]); rewrite !Forall_cons; cbn; tauto.
Qed.

Lemma wrr_prio r v : wrr_wf r -> byte_range v -> wrr_wf (r <| r_priority := v |>).
Proof. intros [B W] Hv. constructor; [|exact W]. rewrite !Forall_cons in B. rewrite !Forall_cons. cbn. tauto. Qed.

Lemma wrr_words r v : wrr_wf r -> word_range v -> wrr_wf (r <| r_allot := v |>) /\ wrr_wf (r <| r_weight := v |>).
Proof.
  intros [B W] Hv. rewrite !Forall_cons in W. split; (constructor; [exact B|]); rewrite !Forall_cons; cbn; tauto.
Qed.

Ltac class_scalar := let H := fresh in intros H; destruct H; eapply class_same; [by constructor|done..].

Lemma cbq_keyword_ok word set arg w w' :
  cbq_class_keyword word = Take set -> set arg w = Some w' -> class_ok w -> class_ok w'.
Proof.
  unfold cbq_class_keyword. intros Hk Hs.
  assert (forall {T} (parse : string -> option T) put (P : T -> Prop), store parse put = Take set ->
    (forall v, parse arg = Some v -> P v) -> (forall v, P v -> class_ok w -> class_ok (put v w)) -> class_ok w -> class_ok w') as K.
  { intros T parse put P [= <-] HP Hset Hw. destruct (parse arg) as [v|]; [|done]. injection Hs as <-. by apply Hset; [apply HP|]. }
  clear Hs. repeat match type of Hk with (if ?b then _ else _) = _ => destruct b end; try done.
  - refine (K _ _ _ _ Hk (fun v => get_rate_range arg v) _). intros v Hv. class_scalar.
  - refine (K _ _ _ _ Hk (fun v => get_rate_range arg v) _). intros v Hv. class_scalar.
  - refine (K _ _ _ _ Hk (fun v => get_u32_range arg 0 v) _). intros v Hv Hw. apply changes_ok; [done|].
    apply upd_lss_ok; [|done]. intros Hl. by apply lss_word.
  - refine (K _ _ _ _ Hk (fun v => get_u32_range arg 0 v) _). intros v Hv Hw. apply changes_ok; [done|]. revert Hw. class_scalar.
  - refine (K _ _ _ _ Hk (fun v => get_u32_range arg 0 v) _). intros v Hv Hw. apply changes_ok; [done|]. revert Hw. class_scalar.
  - refine (K _ _ _ _ Hk (get_ewma_range arg) _). intros v Hv Hw. apply changes_ok; [done|]. revert Hw. class_scalar.
  - refine (K _ _ _ (fun _ => True) Hk (fun _ _ => I) _). intros v Hv. class_scalar.
  - refine (K _ _ _ _ Hk (get_prio_range arg) _). intros v [H0 Hv] Hw.
    apply (upd_wrr_ok (fun r => r <| r_priority := v |>)) in Hw; [revert Hw; class_scalar| |done].
    intros H. apply wrr_prio; [done|]. unfold TC_CBQ_MAXPRIO, byte_range in *. lia.
  - refine (K _ _ _ _ Hk (fun v => get_size_range arg v) _). intros v Hv Hw. pose proof (co_prio w Hw) as Hp.
    apply upd_wrr_ok; [|done|done]. intros H. by apply wrr_words.
  - refine (K _ _ _ _ Hk (fun v => get_size_range arg v) _). intros v Hv Hw. apply changes_ok; [done|].
    apply upd_lss_ok; [|done]. intros Hl. by apply lss_word.
  - refine (K _ _ _ _ Hk (fun v => get_size_range arg v) _). intros v Hv. class_scalar.
  - refine (K _ _ _ _ Hk (fun v => get_size_range arg v) _). intros v Hv Hw. pose proof (co_prio w Hw) as Hp.
    apply (upd_wrr_ok (fun r => r <| r_weight := v |>)) in Hw; [revert Hw; class_scalar| |done]. intros H. by apply wrr_words.
  - refine (K _ _ _ _ Hk (fun v => get_tc_classid_range arg v) _). intros v Hv Hw. change (word_range v) in Hv.
    apply (upd_fopt_ok (fun f => f <| f_split := v |>)) in Hw; [revert Hw; class_scalar|].
    intros H. unfold fopt_wf in *. rewrite !Forall_cons in H. rewrite !Forall_cons. cbn. tauto.
  - refine (K _ _ _ (fun '(m, k) => word_range m /\ word_range k) Hk _ _); [intros [m k]; apply get_defmap_range|].
    intros [m k] [Hm Hd] Hw. apply (upd_fopt_ok (fun f => (f <| f_defmap := m |>) <| f_defchange := k |>)) in Hw;
      [revert Hw; class_scalar|]. intros H. unfold fopt_wf in *. rewrite !Forall_cons in H. rewrite !Forall_cons. cbn. tauto.
  - refine (K _ _ _ _ Hk (fun v => get_u16_range arg 10 v) _). intros v Hv. class_scalar.
  - refine (K _ _ _ (fun _ => True) Hk (fun _ _ => I) _). intros v Hv. class_scalar.
Qed.

Lemma cbq_flag_ok word set w w' : cbq_class_keyword word = Flag set -> set w = Some w' -> class_ok w -> class_ok w'.
Proof.
  unfold cbq_class_keyword, store. intros Hk Hs Hw.
  repeat match type of Hk with (if ?b then _ else _) = _ => destruct b end; try done;
    injection Hk as <-; injection Hs as <-; by apply set_flag_ok.
Qed.

(** ** What is computed *)

(** A priority is there only if the parameters of the rounds are given. *)
Definition prio_given (w : cbq_class) : Prop := r_priority (cc_wrr w) <> 0 -> cc_wrr_ok w = true.

Lemma keyword_prio word set arg w w' :
  cbq_class_keyword word = Take set -> set arg w = Some w' -> prio_given w -> prio_given w'.
Proof.
  unfold cbq_class_keyword, prio_given. intros Hk Hs.
  repeat match type of Hk with (if ?b then _ else _) = _ => destruct b end; try done;
    injection Hk as <-; cbv beta in Hs; match type of Hs with match ?e with _ => _ end = _ => destruct e as [v|]; [|done] end;
    try destruct v; injection Hs as <-; cbn; auto.
Qed.

Lemma flag_prio word set w w' : cbq_class_keyword word = Flag set -> set w = Some w' -> prio_given w -> prio_given w'.
Proof.
  unfold cbq_class_keyword, store. intros Hk Hs Hw.
  repeat match type of Hk with (if ?b then _ else _) = _ => destruct b end; try done;
    injection Hk as <-; injection Hs as <-; exact Hw.
Qed.

Lemma has_bits_lor z b k : Z.land b k = 0 -> has_bits (Z.lor z b) k = has_bits z k.
Proof. intros E. unfold has_bits. by rewrite Z.land_lor_distr_l, E, Z.lor_0_r. Qed.

Lemma time2tick_range c t : word_range (tc_core_time2tick c t).
Proof. apply u32_range. Qed.

Lemma lss_change l k : lss_wf l -> byte_range k -> lss_wf (l <| l_change := k |>).
Proof. intros [B W] Hk. constructor; [|exact W]. rewrite !Forall_cons in B. rewrite !Forall_cons. cbn. tauto. Qed.

Lemma lss_bits l bits : lss_wf l -> byte_range bits -> byte_range (Z.lor (l_change l) bits).
Proof. intros [B _] Hb. rewrite !Forall_cons in B. destruct B as (B & _). by apply lor_range. Qed.

Lemma lss_times l v : lss_wf l -> word_range v -> lss_wf (l <| l_maxidle := v |>) /\ lss_wf (l <| l_offtime := v |>).
Proof.
  intros [B W] Hv. rewrite !Forall_cons in W. split; (constructor; [exact B|]); rewrite !Forall_cons; cbn; tauto.
Qed.

(** The times of the bursts, each only if its burst was given. *)
Lemma class_bursts_ok c pow w e l : lss_wf l ->
  let l' := class_bursts c pow w e l in
  lss_wf l' /\ l_flags l' = l_flags l /\ l_avpkt l' = l_avpkt l /\
  l_maxidle l' = (if has_bits (l_change l) TCF_CBQ_LSS_MAXIDLE
    then tc_cbq_calc_maxidle c pow (cc_bndw w) (cc_rate w) (l_avpkt l) e (cc_maxburst w) else l_maxidle l) /\
  l_offtime l' = (if has_bits (l_change l) TCF_CBQ_LSS_OFFTIME
    then tc_cbq_calc_offtime c pow (cc_bndw w) (cc_rate w) (l_avpkt l) e (cc_minburst w) else l_offtime l).
Proof.
  intros Hl. unfold class_bursts. cbv zeta.
  set (l1 := if has_bits (l_change l) TCF_CBQ_LSS_MAXIDLE then _ else l).
  assert (lss_wf l1 /\ l_flags l1 = l_flags l /\ l_avpkt l1 = l_avpkt l /\ l_offtime l1 = l_offtime l /\
    has_bits (l_change l1) TCF_CBQ_LSS_OFFTIME = has_bits (l_change l) TCF_CBQ_LSS_OFFTIME /\
    l_maxidle l1 = (if has_bits (l_change l) TCF_CBQ_LSS_MAXIDLE
      then tc_cbq_calc_maxidle c pow (cc_bndw w) (cc_rate w) (l_avpkt l) e (cc_maxburst w) else l_maxidle l))
    as (W1 & F1 & A1 & O1 & B1 & M1).
  { unfold l1. destruct (has_bits (l_change l) TCF_CBQ_LSS_MAXIDLE); [|done]. cbn [l_change l_flags l_avpkt l_offtime l_maxidle].
    split_and!; try done; [|by apply has_bits_lor]. apply lss_change; [|by apply lss_bits].
    apply lss_times; [done|apply time2tick_range]. }
  clearbody l1. rewrite B1.
  set (l2 := if has_bits (l_change l) TCF_CBQ_LSS_OFFTIME then _ else l1).
  assert (lss_wf l2 /\ l_flags l2 = l_flags l1 /\ l_avpkt l2 = l_avpkt l1 /\ l_maxidle l2 = l_maxidle l1 /\
    l_offtime l2 = (if has_bits (l_change l) TCF_CBQ_LSS_OFFTIME
      then tc_cbq_calc_offtime c pow (cc_bndw w) (cc_rate w) (l_avpkt l1) e (cc_minburst w) else l_offtime l1))
    as (W2 & F2 & A2 & M2 & O2).
  { unfold l2. destruct (has_bits (l_change l) TCF_CBQ_LSS_OFFTIME); [|done]. split_and!; try done.
    apply lss_change; [|by apply lss_bits]. apply lss_times; [done|]. unfold tc_cbq_calc_offtime. cbv zeta.
    destruct (_ =? 0); [done|apply time2tick_range]. }
  clearbody l2. rewrite O1, A1 in O2. rewrite M1 in M2. rewrite F1 in F2. rewrite A1 in A2.
  destruct (has_bits (l_change l2) TCF_CBQ_LSS_MINIDLE); [|by split_and!]. split_and!; try done.
  apply lss_change; [|by apply lss_bits]. apply lss_word; [done|apply u32_range].
Qed.

Lemma packets_range avpkt : word_range (packets_allot avpkt).
Proof. unfold packets_allot, word_range. pose proof (u32_range (avpkt * 3)). Z.div_mod_to_equations. lia. Qed.

(** The rate completed and its table, if there is a rate. *)
Definition rate_result (c : core) (w : cbq_class) (rate : option (tc_ratespec * list Z)) : Prop :=
  if cc_rate w =? 0 then rate = None
  else exists log, 0 <= log /\
    rate = Some (mk_ratespec (u8 log) (cc_overhead w) (- 1) (u16 (cc_mpu w)) (cc_rate w),
                 rate_slots c (cc_rate w) (u16 (cc_mpu w)) log (cc_linklayer w)).

Lemma class_table_ok c w0 rtab rate w : class_ok w0 -> List.length rtab = 256%nat -> class_table c w0 rtab = Some (rate, w) ->
  rate_result c w0 rate /\ exists a, word_range a /\ w = upd_wrr (fun r => r <| r_allot := a |>) w0.
Proof.
  intros Hw Hr. unfold class_table, rate_result. destruct (Z.eqb_spec (cc_rate w0) 0) as [E0|E0].
  - intros [= <- <-]. split; [done|]. exists (r_allot (cc_wrr w0)). split; [|done]. destruct (co_wrr w0 Hw) as [_ W].
    by apply Forall_cons in W as [? _].
  - cbv zeta. set (w1 := if _ <? _ then _ else w0).
    assert (exists a, word_range a /\ w1 = upd_wrr (fun r => r <| r_allot := a |>) w0) as (a & Ha & E1).
    { unfold w1. destruct (_ <? _); [eexists; split; [|reflexivity]; apply packets_range|]. exists (r_allot (cc_wrr w0)).
      split; [|done]. destruct (co_wrr w0 Hw) as [_ W]. by apply Forall_cons in W as [? _]. }
    rewrite E1. cbn [cc_overhead cc_mpu cc_rate cc_cell_log cc_linklayer upd_wrr].
    match goal with |- context [tc_calc_rtable c ?r rtab ?k ?m ?y] => destruct (calc_rtable_ok c r rtab k m y Hr) as (log & -> & Hl & _) end.
    rewrite (proj2 (Z.ltb_ge log 0)) by done. intros [= <- <-]. split; [by exists log|]. by exists a.
Qed.

(** The rounds are sent of every new class, and never without an allotment. *)
Lemma class_rounds_ok excl w w' : wrr_wf (cc_wrr w) -> r_priority (cc_wrr w) <= TC_CBQ_MAXPRIO -> word_range (cc_rate w) ->
  prio_given w -> class_rounds excl w = Some w' ->
  exists r ok, w' = (w <| cc_wrr := r |>) <| cc_wrr_ok := ok |> /\ wrr_wf r /\ r_priority r <= TC_CBQ_MAXPRIO /\
    (ok = true -> r_allot r <> 0 /\ (r_weight r = 0 -> cc_rate w = 0)) /\
    (excl = true -> ok = true /\ 1 <= r_priority r).
Proof.
  intros Hw Hp Hrate Hg. unfold class_rounds.
  set (w1 := if _ && excl then _ else w).
  assert (exists r ok, w1 = (w <| cc_wrr := r |>) <| cc_wrr_ok := ok |> /\ wrr_wf r /\ r_priority r <= TC_CBQ_MAXPRIO /\
    (excl = true -> ok = true /\ 1 <= r_priority r)) as (r & ok & E & Hr & Hrp & He).
  { unfold w1. destruct (Z.eqb_spec (r_priority (cc_wrr w)) 0) as [E0|E0]; [destruct excl|]; cbn [andb].
    - eexists _, true. split; [reflexivity|]. destruct (_ =? 0); [|by split_and!; [apply wrr_prio|..]].
      split_and!; try done. apply (wrr_words ((cc_wrr w) <| r_priority := TC_CBQ_MAXPRIO |>)); [by apply wrr_prio|apply packets_range].
    - by exists (cc_wrr w), (cc_wrr_ok w).
    - exists (cc_wrr w), (cc_wrr_ok w). split_and!; try done. intros _. split; [by apply Hg|].
      destruct Hw as [B _]. rewrite !Forall_cons in B. unfold byte_range in B. lia. }
  rewrite E. destruct ok; [|intros [= <-]; exists r, false; by split_and!].
  cbv zeta. set (r1 := if r_weight r =? 0 then r <| r_weight := if r_priority r =? TC_CBQ_MAXPRIO then 1 else cc_rate w |> else r).
  change ((if r_allot r1 =? 0 then None else Some ((w <| cc_wrr := r1 |>) <| cc_wrr_ok := true |>)) = Some w' ->
    exists r ok, w' = (w <| cc_wrr := r |>) <| cc_wrr_ok := ok |> /\ wrr_wf r /\
    r_priority r <= TC_CBQ_MAXPRIO /\ (ok = true -> r_allot r <> 0 /\ (r_weight r = 0 -> cc_rate w = 0)) /\
    (excl = true -> ok = true /\ 1 <= r_priority r)).
  assert (wrr_wf r1 /\ r_priority r1 = r_priority r /\ (r_weight r1 = 0 -> cc_rate w = 0)) as (W1 & P1 & Z1).
  { unfold r1. destruct (Z.eqb_spec (r_weight r) 0); [|done]. split; [|split; [done|]].
    - apply wrr_words; [done|]. by destruct (r_priority r =? TC_CBQ_MAXPRIO).
    - cbn. by destruct (r_priority r =? TC_CBQ_MAXPRIO). }
  clearbody r1. destruct (Z.eqb_spec (r_allot r1) 0) as [|Ha]; [done|]. intros [= <-]. exists r1, true. rewrite P1. by split_and!.
Qed.

(** What an accepted command gives: the rate and its table, the rounds, and the times of the
    bursts that were given, which need the size of a packet, the bandwidth and the rate. *)
Record class_result (c : core) (pow : double -> double -> double) (excl : bool) (w0 : cbq_class)
    (rate : option (tc_ratespec * list Z)) (w : cbq_class) : Prop := {
  cr_rate : rate_result c w0 rate;
  cr_lss : lss_wf (cc_lss w) /\ l_flags (cc_lss w) = l_flags (cc_lss w0) /\ l_avpkt (cc_lss w) = l_avpkt (cc_lss w0);
  cr_wrr : wrr_wf (cc_wrr w) /\ r_priority (cc_wrr w) <= TC_CBQ_MAXPRIO;
  cr_rounds : cc_wrr_ok w = true -> r_allot (cc_wrr w) <> 0 /\ (r_weight (cc_wrr w) = 0 -> cc_rate w0 = 0);
  cr_new : excl = true -> cc_wrr_ok w = true /\ 1 <= r_priority (cc_wrr w);
  cr_fopt : fopt_wf (cc_fopt w) /\ cc_fopt w = cc_fopt w0 /\ cc_fopt_ok w = cc_fopt_ok w0;
  cr_bursts : let l0 := cc_lss w0 in
    let ewma := if cc_ewma_log w0 <? 0 then TC_CBQ_DEF_EWMA else cc_ewma_log w0 in
    let max_given := has_bits (l_change l0) TCF_CBQ_LSS_MAXIDLE in
    let min_given := has_bits (l_change l0) TCF_CBQ_LSS_OFFTIME in
    (max_given || min_given = true -> l_avpkt l0 <> 0 /\ cc_bndw w0 <> 0 /\ cc_rate w0 <> 0) /\
    (max_given = true ->
      l_maxidle (cc_lss w) = tc_cbq_calc_maxidle c pow (cc_bndw w0) (cc_rate w0) (l_avpkt l0) ewma (cc_maxburst w0)) /\
    (min_given = true ->
      l_offtime (cc_lss w) = tc_cbq_calc_offtime c pow (cc_bndw w0) (cc_rate w0) (l_avpkt l0) ewma (cc_minburst w0))
}.

Lemma has_bits_either z a b : has_bits z (Z.lor a b) = has_bits z a || has_bits z b.
Proof.
  unfold has_bits. rewrite Z.land_lor_distr_r. destruct (Z.eqb_spec (Z.lor (Z.land z a) (Z.land z b)) 0) as [E|E].
  - apply Z.lor_eq_0_iff in E as [-> ->]. done.
  - destruct (Z.eqb_spec (Z.land z a) 0) as [Ea|], (Z.eqb_spec (Z.land z b) 0) as [Eb|]; try done. by rewrite Ea, Eb in E.
Qed.

Lemma class_compute_ok c pow excl w0 rtab rate w : class_ok w0 -> prio_given w0 -> List.length rtab = 256%nat ->
  cbq_class_compute c pow excl w0 rtab = Some (rate, w) -> class_result c pow excl w0 rate w.
Proof.
  intros Hw Hg Hr. unfold cbq_class_compute. destruct (class_table c w0 rtab) as [[rate1 w1]|] eqn:Et; [|done].
  destruct (class_table_ok _ _ _ _ _ Hw Hr Et) as (HR & a & Ha & ->). cbv zeta.
  set (ewma := if cc_ewma_log _ <? 0 then _ else _). set (w2 := upd_lss _ (upd_wrr _ w0)).
  assert (lss_wf (cc_lss w2)) as Hl2.
  { destruct (co_lss w0 Hw) as [B W]. constructor; [|exact W]. rewrite !Forall_cons in B. rewrite !Forall_cons. cbn.
    destruct B as (? & ? & _ & ?). split_and!; try tauto. by apply Z.mod_pos_bound. }
  destruct (bursts_refused w2) eqn:Eb; [done|]. destruct (class_rounds excl w2) as [w3|] eqn:Ew; [|done].
  destruct (class_rounds_ok excl w2 w3 (proj1 (wrr_words _ _ (co_wrr w0 Hw) Ha)) (co_prio w0 Hw) (co_rate w0 Hw) Hg Ew)
    as (r & ok & -> & W & P & R1 & R2).
  intros [= <- <-]. destruct (class_bursts_ok c pow (w2 <| cc_wrr := r |> <| cc_wrr_ok := ok |>) ewma (cc_lss w2) Hl2)
    as (L1 & L2 & L3 & L4 & L5).
  constructor; try done.
  - split; [apply (co_fopt w0 Hw)|done].
  - cbv zeta. unfold bursts_refused in Eb. rewrite has_bits_either in Eb.
    change (l_change (cc_lss w2)) with (l_change (cc_lss w0)) in *. split; [|split].
    + intros H. rewrite orb_comm in H. rewrite H in Eb. cbn [andb] in Eb. rewrite !orb_false_iff, !Z.eqb_neq in Eb. tauto.
    + intros H. rewrite H in L4. exact L4.
    + intros H. rewrite H in L5. exact L5.
Qed.

(** ** The message *)

Lemma cbq_attrs_fit rate w off :
  (forall r t, rate = Some (r, t) -> List.length t = 256%nat) -> off <= 904 ->
  within 3024 off (cbq_class_attrs rate w) /\ tspan (leaves (cbq_class_attrs rate w)) <= 1100 /\
  Forall (fun '(_, t, _) => 0 <= t < 2 ^ 16) (cbq_class_attrs rate w) /\ all_leaves (leaves (cbq_class_attrs rate w)).
Proof.
  intros Hr Ho. unfold cbq_class_attrs, attr_if, rate_attrs.
  assert (forall t : list Z, List.length t = 256%nat -> attr_span (words_bytes t) = 1028) as St
    by (intros t E; unfold attr_span; by rewrite words_bytes_length, E).
  assert (attr_span (lss_bytes (lss_sent (cc_lss w))) = 24 /\ attr_span (wrr_bytes (cc_wrr w)) = 16 /\
    attr_span (fopt_bytes (cc_fopt w)) = 16) as (S1 & S2 & S3) by done.
  assert (forall r, attr_span (ratespec_bytes r) = 16) as S4 by done.
  destruct rate as [[r t]|]; [specialize (St t (Hr r t eq_refl))|];
    destruct (negb (l_change (cc_lss w) =? 0)), (cc_wrr_ok w), (cc_fopt_ok w); cbn [app within leaves map tspan tspan1];
    rewrite ?S1, ?S2, ?S3, ?S4, ?St; (split; [lia|]; split; [lia|]; split; [by repeat constructor|]);
    repeat (apply Forall_cons; split; [eexists _, _; split; [reflexivity|done]|]); by apply Forall_nil.
Qed.

(** A structure is read where its leaf is. *)
Lemma sized_struct_ok {T} m off ty l k max size (f : list Z -> T) (o : option (list Z)) :
  tree_at m off (Nest ty l) -> all_leaves l -> 0 <= k <= max -> 0 <= off ->
  leaf_bytes k l = o -> (forall d, o = Some d -> Z.of_nat (List.length d) = size) ->
  sized_struct m ((parse_rtattr_nested m max off).1 !!! Z.to_nat k) size f = option_map f o.
Proof.
  intros Ht Hl Hk Ho Hb Hd. pose proof (nest_leaf m max off ty l k Ht Hl Hk Ho) as H. rewrite Hb in H.
  unfold sized_struct. destruct o as [d|]; [|by rewrite H]. destruct H as (a & -> & _ & Hp & Hload).
  rewrite Hp, (Hd d eq_refl), (proj2 (Z.ltb_ge size size)) by lia. rewrite (Hd d eq_refl) in Hload. by rewrite Hload.
Qed.

(** The leaves of the message. *)
Lemma class_leaves rate w : let l := leaves (cbq_class_attrs rate w) in
  leaf_bytes TCA_CBQ_RATE l = option_map (fun x => ratespec_bytes (fst x)) rate /\
  leaf_bytes TCA_CBQ_LSSOPT l = present_if (negb (l_change (cc_lss w) =? 0)) (lss_bytes (lss_sent (cc_lss w))) /\
  leaf_bytes TCA_CBQ_WRROPT l = present_if (cc_wrr_ok w) (wrr_bytes (cc_wrr w)) /\
  leaf_bytes TCA_CBQ_FOPT l = present_if (cc_fopt_ok w) (fopt_bytes (cc_fopt w)).
Proof.
  unfold cbq_class_attrs, attr_if, rate_attrs.
  by destruct rate as [[r t]|], (negb (l_change (cc_lss w) =? 0)), (cc_wrr_ok w), (cc_fopt_ok w).
Qed.

(** What is shown of a class: the parts that were sent. *)
Definition class_text (c : core) (use_iec show_raw show_details : bool) (rate : option (tc_ratespec * list Z)) (w : cbq_class) : string :=
  cbq_text c use_iec show_raw show_details (option_map fst rate)
    (present_if (negb (l_change (cc_lss w) =? 0)) (lss_sent (cc_lss w))) (present_if (cc_wrr_ok w) (cc_wrr w))
    (present_if (cc_fopt_ok w) (cc_fopt w)).


Definition demo_cbq_words : list string :=
  ["rate"; "1mbit"; "bandwidth"; "10mbit"; "avpkt"; "1000"; "prio"; "3"; "maxburst"; "20"; "bounded"].

(** A power that needs no library. *)
Definition demo_pow (x y : double) : double := d2.

Definition demo_cbq (excl : bool) : option (option (tc_ratespec * list Z) * cbq_class) :=
  match read_words cbq_class_keyword demo_cbq_words cbq_class_start with
  | Args w _ => cbq_class_compute core_default demo_pow excl w (replicate 256 0)
  | _ => None
  end.

Definition demo_cbq_class : cbq_class :=
  match read_words cbq_class_keyword demo_cbq_words cbq_class_start with Args w _ => w | _ => cbq_class_start end.


(** ** The request of the discipline *)

Definition cbq_words_ok (w : cbq_words) : Prop :=
  word_range (cw_rate w) /\ word_range (cw_avpkt w) /\ 0 <= cw_overhead w < 2 ^ 16.

Lemma cbq_word_ok word set arg w w' :
  cbq_keyword word = Take set -> set arg w = Some w' -> cbq_words_ok w -> cbq_words_ok w'.
Proof.
  unfold cbq_keyword, store, cbq_words_ok, word_range. intros Hk Hs (W1 & W2 & W3).
  repeat match type of Hk with (if ?b then _ else _) = _ => destruct b end; try done;
    injection Hk as <-; cbv beta in Hs;
    match type of Hs with match ?e with _ => _ end = _ => let E := fresh "E" in destruct e eqn:E; [|done];
      try apply get_rate_range in E; try apply get_size_range in E; try apply get_u16_range in E end;
    injection Hs as <-; (split; [|split]); assumption.
Qed.

Lemma cbq_no_flag word set : cbq_keyword word = Flag set -> False.
Proof. unfold cbq_keyword, store. intros Hk. by repeat match type of Hk with (if ?b then _ else _) = _ => destruct b end. Qed.

(** An accepted command for the discipline gives the bandwidth and the size of a packet; its
    table is that of the bandwidth, for at least one and a half packets; the idle time is that
    of a packet; the message holds the three parts, which the printer shows. *)
Theorem cbq_request c show_raw (rtab0 : list Z) argv n w rest rate lss rtab :
  read_words cbq_keyword argv cbq_start = Args w rest -> cbq_compute c w rtab0 = Some (rate, lss, rtab) ->
  List.length rtab0 = 256%nat -> 0 <= nlmsg_len n -> NLMSG_TAIL n <= 900 -> 3024 <= Z.of_nat (List.length (mem n)) ->
  cw_rate w <> 0 /\ cw_avpkt w <> 0 /\
  (exists log, 0 <= log /\ rate = mk_ratespec (u8 log) (cw_overhead w) (- 1) (u16 (cw_mpu w)) (cw_rate w) /\
    rtab = rate_slots c (cw_rate w) (u16 (cw_mpu w)) log (cw_linklayer w)) /\
  l_maxidle lss = tc_calc_xmittime c (cw_rate w) (cw_avpkt w) /\ l_avpkt lss = cw_avpkt w /\
  exists n' out, cbq_parse_opt c show_raw rtab0 argv n = (Return 0 n' [], out) /\
    same_below (NLMSG_TAIL n) (mem n) (mem n') /\
    tree_at (mem n') (NLMSG_TAIL n) (Nest TCA_OPTIONS (leaves (cbq_attrs rate lss rtab))) /\
    forall use_iec show_details,
      cbq_print_opt c use_iec show_raw show_details (mem n') (Some (NLMSG_TAIL n)) =
        (0, cbq_text c use_iec show_raw show_details (Some rate) (Some lss) None None).
Proof.
  intros Hrd Hcp Hr Hl Ht Hm.
  assert (cbq_words_ok w) as (W1 & W2 & W3).
  { apply (read_words_inv cbq_keyword cbq_words_ok cbq_word_ok
      (fun word set _ _ E _ => match cbq_no_flag word set E with end) _ _ _ _ Hrd). done. }
  pose proof Hcp as Hc. unfold cbq_compute in Hc. destruct (Z.eqb_spec (cw_rate w) 0) as [|Hz]; [done|].
  destruct (Z.eqb_spec (cw_avpkt w) 0) as [|Hz']; [done|]. cbv zeta in Hc.
  match type of Hc with context [tc_calc_rtable c ?r rtab0 ?k ?m ?y] =>
    destruct (calc_rtable_ok c r rtab0 k m y Hr) as (log & E & Hlog & _); rewrite E in Hc end.
  rewrite (proj2 (Z.ltb_ge log 0)) in Hc by done. injection Hc as <- <- <-.
  split; [done|]. split; [done|]. split; [by exists log|]. split; [done|]. split; [done|].
  match goal with |- context [leaves (cbq_attrs ?r ?l ?t)] => set (rate := r); set (lss := l); set (rtab := t) end.
  assert (attr_span (words_bytes rtab) = 1028) as S by (unfold attr_span, rtab; by rewrite words_bytes_length, rate_slots_length).
  assert (attr_span (ratespec_bytes rate) = 16 /\ attr_span (lss_bytes lss) = 24) as [S1 S2] by done.
  assert (tspan (leaves (cbq_attrs rate lss rtab)) = 1068) as Hs by (cbn [cbq_attrs leaves map tspan tspan1]; lia).
  assert (all_leaves (leaves (cbq_attrs rate lss rtab))) as Hlv
    by (repeat (apply Forall_cons; split; [eexists _, _; split; [reflexivity|done]|]); by apply Forall_nil).
  destruct (nest_bounded_ok 3024 1024 TCA_OPTIONS (cbq_attrs rate lss rtab) n) as (T & _ & Hb);
    [constructor; lia|done|by repeat constructor|lia|cbn [within cbq_attrs]; lia|].
  exists (nest_bounded 1024 TCA_OPTIONS (cbq_attrs rate lss rtab) n), (table_text show_raw rtab).
  split; [unfold cbq_parse_opt; rewrite Hrd, Hcp; reflexivity|]. split; [exact Hb|]. split; [exact T|].
  clear E Hcp Hrd. clearbody rtab. intros iec sd. unfold cbq_print_opt. match type of T with tree_at ?x _ _ => set (m := x) in * end. set (off := NLMSG_TAIL n) in *.
  assert (0 <= off) as Ho by (pose proof (tail_bounds n); lia).
  rewrite (sized_struct_ok m off _ _ TCA_CBQ_RATE TCA_CBQ_MAX RATESPEC_SIZE (fun b => ratespec_of_bytes b 0)
    (Some (ratespec_bytes rate)) T Hlv) by (done || by intros d [= <-]).
  rewrite (sized_struct_ok m off _ _ TCA_CBQ_LSSOPT TCA_CBQ_MAX LSS_SIZE lss_of_bytes (Some (lss_bytes lss)) T Hlv)
    by (done || by intros d [= <-]).
  rewrite (sized_struct_ok m off _ _ TCA_CBQ_WRROPT TCA_CBQ_MAX WRR_SIZE wrr_of_bytes None T Hlv) by done.
  rewrite (sized_struct_ok m off _ _ TCA_CBQ_FOPT TCA_CBQ_MAX FOPT_SIZE fopt_of_bytes None T Hlv) by done.
  cbn [option_map]. rewrite lss_of_bytes_ok.
  - assert (ratespec_wf rate) as Hwf by (constructor; cbn; try (by apply Z.mod_pos_bound); try done; lia).
    by rewrite (ratespec_field _ 0 _ Hwf).
  - constructor; rewrite !Forall_cons; cbn; split_and!; try done; by apply Z.mod_pos_bound.
Qed.

(** ** Limits *)

(** A weight is read as a size, not as the rate the usage announces. *)
Example cbq_weight_size : get_size "1mbit" = Some 131072 /\ get_rate "1mbit" = Some 125000.
Proof. vm_compute. done. Qed.

(** Whatever else is changed of a class, its flags count as given: they are cleared unless
    they are repeated. *)
Lemma cbq_flags_sent l : has_bits (l_change (lss_sent l)) TCF_CBQ_LSS_FLAGS = true.
Proof.
  unfold has_bits. cbn. rewrite negb_true_iff. apply Z.eqb_neq. intros E.
  assert (Z.testbit (Z.land (Z.lor (l_change l) TCF_CBQ_LSS_FLAGS) TCF_CBQ_LSS_FLAGS) 0 = false) as H by (by rewrite E).
  rewrite Z.land_spec, Z.lor_spec in H. cbn in H. by rewrite orb_true_r in H.
Qed.

(** The priority 0, which the message about the range excludes, is accepted; a new class then
    has the one that is shown as no-transmit. *)
Example cbq_prio_zero :
  get_prio "0" = Some 0 /\
  option_map (fun w => cbq_wrr_text false false (cc_wrr w))
    (class_rounds true (cbq_class_start <| cc_wrr := mk_wrr 0 0 0 0 1500 0 |>)) = Some "prio no-transmit".
Proof. vm_compute. done. Qed.
