(* ===== verification/TcQdiscProps.v ===== *)
(** * What [tc qdisc] sends

    The datagram of a command that configures the scheduler, read as the kernel reads
    it; the exit status; and the commands that send nothing. *)

From S2P Require Export TcQdisc.

#[local] Open Scope list_scope.

(** ** Memory *)

Lemma load_prefix m n o k :
  0 <= o -> 0 <= k -> o + k <= n -> load_bytes (load_bytes m 0 n) o k = load_bytes m o k.
Proof.
  intros Ho Hk Hn. unfold load_bytes. rewrite drop_0, !take_drop_commute, take_take.
  do 2 f_equal. lia.
Qed.

(** Memories that agree on an interval hold the same attributes there. *)
Definition agree (bot top : Z) (m m' : list Z) : Prop :=
  forall o k, bot <= o -> 0 <= k -> o + k <= top -> load_bytes m' o k = load_bytes m o k.

Lemma attr_at_agree bot top m m' off type data :
  agree bot top m m' -> bot <= off -> off + 4 + Z.of_nat (List.length data) <= top ->
  attr_at m off type data -> attr_at m' off type data.
Proof.
  intros Ha Hb Ht (H1 & H2 & H3). unfold attr_at, rta_len, rta_type, load16.
  rewrite !Ha by lia. done.
Qed.

Lemma attrs_at_agree bot top m m' l : forall off,
  agree bot top m m' -> bot <= off -> off + span l <= top -> attrs_at m off l -> attrs_at m' off l.
Proof.
  induction l as [|[t d] l IH]; intros off Ha Hb Ht; cbn [attrs_at span] in *; [done|].
  intros [H1 H2]. pose proof (attr_span_bounds d). pose proof (span_bounds l).
  split; [eapply attr_at_agree; eauto; lia|]. apply IH; [done|lia|lia|done].
Qed.

Lemma options_at_agree bot top m m' off sent sbuf :
  agree bot top m m' -> bot <= off -> off + 388 <= top -> List.length sbuf = 256%nat ->
  options_at m off sent sbuf -> options_at m' off sent sbuf.
Proof.
  intros Ha Hb Ht Hs (H1 & H2 & H3). unfold options_at, rta_len, rta_type, load16.
  rewrite !Ha by lia. split; [done|]. split; [done|].
  eapply attrs_at_agree; [done|lia| |done]. rewrite option_attrs_span by done. lia.
Qed.

(** ** The request for the scheduler *)

Definition rbfgrad_kind : list Z := string_bytes "rbfgrad" ++ [0].

(** Header and parameters of the request, before the attributes. *)
Definition head_mem (cmd flags : Z) (a : modify_args) : list Z :=
  store32 28 (a_parent a) (store32 24 (a_handle a)
    (store16 4 cmd (store16 6 (Z.lor NLM_F_REQUEST flags) (replicate (Z.to_nat REQ_SIZE) 0)))).

Lemma store_len off b m n :
  0 <= off -> Z.of_nat (List.length m) = n -> off + Z.of_nat (List.length b) <= n ->
  Z.of_nat (List.length (store_at off b m)) = n.
Proof. intros H0 H1 H2. rewrite store_at_length; lia. Qed.

Lemma head_mem_length cmd flags a : Z.of_nat (List.length (head_mem cmd flags a)) = REQ_SIZE.
Proof.
  unfold head_mem, store32, store16.
  repeat (apply store_len; [lia| |rewrite le_bytes_length; unfold REQ_SIZE; lia]).
  rewrite length_replicate. done.
Qed.

(** Reading a field through the stores of others. *)
Ltac read_field :=
  repeat first
    [ rewrite load_store_same by (rewrite ?le_bytes_length; lia)
    | rewrite load_store_other by (rewrite ?le_bytes_length; lia) ].

Lemma load16_store off v m :
  0 <= off -> off + 2 <= Z.of_nat (List.length m) -> load16 (store16 off v m) off = u16 v.
Proof.
  intros H0 H1. unfold load16, store16. rewrite load_store_same by (rewrite ?le_bytes_length; lia).
  apply of_le_bytes_le.
Qed.

Lemma load32_store off v m :
  0 <= off -> off + 4 <= Z.of_nat (List.length m) -> load32 (store32 off v m) off = u32 v.
Proof.
  intros H0 H1. unfold load32, store32. rewrite load_store_same by (rewrite ?le_bytes_length; lia).
  apply of_le_bytes_le.
Qed.

(** The memory of a request, and reading it behind a chain of stores. *)
Definition req_mem (m : list Z) : Prop := Z.of_nat (List.length m) = REQ_SIZE.

Lemma req_mem_store off b m :
  req_mem m -> 0 <= off -> off + Z.of_nat (List.length b) <= REQ_SIZE -> req_mem (store_at off b m).
Proof. intros H1 H2 H3. by apply store_len. Qed.

Lemma load_bytes_store off b m o k :
  req_mem m -> 0 <= off -> off + Z.of_nat (List.length b) <= REQ_SIZE -> 0 <= o -> 0 <= k ->
  (o + k <=? off) || (off + Z.of_nat (List.length b) <=? o) = true ->
  load_bytes (store_at off b m) o k = load_bytes m o k.
Proof.
  unfold req_mem. intros Hm H0 H1 H2 H3 H4. apply load_store_other; lia.
Qed.

Ltac request_memory :=
  unfold store16, store32;
  repeat (apply req_mem_store; [|lia|rewrite le_bytes_length; unfold REQ_SIZE; lia]); assumption.

Ltac solve_memory := rewrite ?le_bytes_length; first [request_memory | reflexivity | unfold REQ_SIZE; lia].

(** Past a store elsewhere; at the store itself. *)
Ltac skip_store := rewrite load_bytes_store by solve_memory.

Lemma load_at_store off b m n :
  req_mem m -> 0 <= off -> off + Z.of_nat (List.length b) <= REQ_SIZE -> n = Z.of_nat (List.length b) ->
  load_bytes (store_at off b m) off n = b.
Proof. unfold req_mem. intros. apply load_store_same; lia. Qed.

Ltac at_store := rewrite load_at_store by solve_memory; apply of_le_bytes_le.

Section Command.
Context (env : tc_env) (p_init p_min : double) (sbuf : list Z).
Hypothesis Hsbuf : List.length sbuf = 256%nat.

(** The words of a command for the scheduler, without estimator and size table. *)
Record plain_args (a : modify_args) : Prop := {
  pa_kind : a_kind a = "rbfgrad";
  pa_est : a_est a = mk_estimator 0 0;
  pa_stab : a_stab a = zero_sizespec
}.

(** The request of a command for the scheduler: the name and the options stand behind
    the header, in this order. *)
Record request_mem (cmd flags : Z) (a : modify_args) (sent : tc_rbfgrad_qopt) (n : nlmsghdr) : Prop := {
  rm_len : nlmsg_len n = 436;
  rm_size : Z.of_nat (List.length (mem n)) = REQ_SIZE;
  rm_head : same_below 36 (head_mem cmd flags a) (mem n);
  rm_kind : attr_at (mem n) 36 TCA_KIND rbfgrad_kind;
  rm_options : options_at (mem n) 48 sent sbuf
}.

Lemma build_request_ok cmd flags a argv kinds opt ecn_ok :
  plain_args a -> (get_qdisc_kind env "rbfgrad" kinds).1 = rbfgrad_util p_init p_min sbuf ->
  parse_args argv zero_qopt false = Parsed opt ecn_ok -> 0 < o_q_ref opt ->
  exists n, build_request env cmd flags a argv kinds = (Ready n, (get_qdisc_kind env "rbfgrad" kinds).2) /\
            request_mem cmd flags a (sent_options opt ecn_ok) n.
Proof.
  intros [Hk He Hs] Hkind Hp Hq. unfold build_request, add_kind. rewrite Hk, He, Hs.
  change (String.eqb "rbfgrad" "") with false. change (est_ewma_log (mk_estimator 0 0) =? 0) with true. cbv iota.
  set (n0 := set_tcm_parent _ _).
  assert (nlmsg_len n0 = 36) as L0 by reflexivity.
  assert (mem n0 = head_mem cmd flags a) as M0 by reflexivity.
  assert (NLMSG_TAIL n0 = 36) as T0 by (unfold NLMSG_TAIL; rewrite L0; reflexivity).
  change (string_bytes "rbfgrad" ++ [0]) with rbfgrad_kind.
  assert (attr_span rbfgrad_kind = 12) as Esp by reflexivity.
  rewrite (addattr_l_fits n0 REQ_SIZE TCA_KIND rbfgrad_kind) by (rewrite ?L0, ?T0, ?Esp; unfold REQ_SIZE; lia).
  cbn [snd]. rewrite T0, Esp, M0.
  pose proof (head_mem_length cmd flags a) as Lh. unfold REQ_SIZE in Lh.
  assert (Z.of_nat (List.length rbfgrad_kind) = 8) as Ekl by reflexivity.
  destruct (put_attr_at 36 TCA_KIND rbfgrad_kind (head_mem cmd flags a)) as (A1 & A2 & A3);
    [lia|lia|unfold TCA_KIND; lia|lia|].
  set (m1 := put_attr 36 TCA_KIND rbfgrad_kind (head_mem cmd flags a)) in *.
  set (n1 := mk_nlmsg (36 + 12) m1).
  assert (NLMSG_TAIL n1 = 48) as T1 by reflexivity.
  destruct (get_qdisc_kind env "rbfgrad" kinds) as [q kinds'] eqn:Eq. cbn [fst snd] in *. subst q.
  destruct (parse_opt_appends p_init p_min sbuf argv n1 opt ecn_ok Hp Hq Hsbuf) as (n2 & E & B1 & B2 & B3 & B4).
  { constructor; [cbn [nlmsg_len n1]; lia|rewrite T1; lia|cbn [mem n1]; lia|lia]. }
  rewrite T1 in *. cbn [mem n1] in B3, B4.
  change (u_parse_qopt (rbfgrad_util p_init p_min sbuf)) with (Some (rbfgrad_parse_opt p_init p_min sbuf)).
  cbv iota beta. rewrite E. cbv iota. unfold add_stab.
  change (check_size_table_opts zero_sizespec) with false. cbv iota.
  exists n2. split; [reflexivity|]. constructor.
  - lia.
  - unfold REQ_SIZE. lia.
  - intros o k Ho Hk0 Hok. rewrite B4 by lia. by apply A3.
  - eapply attr_at_same; [exact B4|lia|lia|exact A1].
  - exact B1.
Qed.

(** ** The datagram *)

(** The fields of the header and of [struct tcmsg], the table of the attributes, and
    the attributes of the options. *)
Record configures (d : list Z) (type flags seq ifindex handle parent : Z) (sent : tc_rbfgrad_qopt) : Prop := {
  cf_len : h_len d 0 = 436 /\ List.length d = 436%nat;
  cf_type : h_type d 0 = type;
  cf_flags : load16 d 6 = flags;
  cf_seq : h_seq d 0 = seq;
  cf_tcm : tcm_ifindex d = ifindex /\ tcm_handle d = handle /\ tcm_parent d = parent;
  cf_attrs : parse_rtattr d 8 36 400 =
    ([None; Some 36; Some 48; None; None; None; None; None; None], 0);
  cf_kind : cstring (drop 40 d) = "rbfgrad";
  cf_options : options_at d 48 sent sbuf
}.

Lemma cstring_bytes s rest :
  all_chars (fun c => negb (code c =? 0)) s = true -> cstring (string_bytes s ++ 0 :: rest) = s.
Proof.
  induction s as [|c s IH]; [done|]. cbn [all_chars]. intros [Hc Hs]%andb_true_iff.
  change (string_bytes (String c s)) with (code c :: string_bytes s). cbn [app cstring].
  apply negb_true_iff in Hc. rewrite Hc. f_equal; [|by apply IH].
  unfold char_of, code. by rewrite N2Z.id, ascii_N_embedding.
Qed.

Lemma head_mem_fields cmd flags a :
  h_type (head_mem cmd flags a) 0 = u16 cmd /\
  load16 (head_mem cmd flags a) 6 = u16 (Z.lor NLM_F_REQUEST flags) /\
  tcm_handle (head_mem cmd flags a) = u32 (a_handle a) /\
  tcm_parent (head_mem cmd flags a) = u32 (a_parent a).
Proof.
  unfold head_mem. set (m0 := replicate (Z.to_nat REQ_SIZE) 0).
  assert (req_mem m0) as L0 by (unfold req_mem, m0; by rewrite length_replicate). clearbody m0.
  unfold h_type, tcm_handle, tcm_parent, load16, load32, store32, store16. change (0 + 4) with 4.
  split; [|split; [|split]].
  - do 2 skip_store. at_store.
  - do 3 skip_store. at_store.
  - skip_store. at_store.
  - at_store.
Qed.

(** The datagram of a request with a device. *)
Lemma request_datagram cmd flags a sent n rth idx :
  request_mem cmd flags a sent n -> 0 <= cmd < 2 ^ 16 ->
  configures (wire (talk_request rth (set_tcm_ifindex idx n) false).2)
    cmd (u16 (Z.lor (u16 (Z.lor NLM_F_REQUEST flags)) NLM_F_ACK)) (request_seq rth)
    (s32 (u32 idx)) (u32 (a_handle a)) (u32 (a_parent a)) sent.
Proof.
  intros [Rl Rs Rh Rk Ro] Hcmd.
  destruct (head_mem_fields cmd flags a) as (F1 & F2 & F3 & F4).
  assert (wire (talk_request rth (set_tcm_ifindex idx n) false).2 =
    let m4 := store_at 8 (le_bytes 4 (request_seq rth)) (store32 20 idx (mem n)) in
    load_bytes (store_at 0 (le_bytes 4 (nlmsg_len n))
      (store_at 6 (le_bytes 2 (Z.lor (load16 m4 6) NLM_F_ACK)) m4)) 0 (nlmsg_len n)) as -> by reflexivity.
  cbv zeta.
  rewrite Rl. set (m2 := mem n) in *. assert (req_mem m2) as L2 by exact Rs.
  assert (forall o k, 0 <= o -> 0 <= k -> o + k <= 36 ->
    load_bytes m2 o k = load_bytes (head_mem cmd flags a) o k) as Hhead by exact Rh.
  clearbody m2. set (m3 := store32 20 idx m2). set (m4 := store_at 8 (le_bytes 4 (request_seq rth)) m3).
  set (fl := Z.lor (load16 m4 6) NLM_F_ACK).
  assert (fl = Z.lor (u16 (Z.lor NLM_F_REQUEST flags)) NLM_F_ACK) as Efl.
  { unfold fl, m4, m3, load16, store32. do 2 skip_store. rewrite Hhead by lia. by rewrite <- F2. }
  clearbody fl. subst fl. set (fl := Z.lor (u16 _) NLM_F_ACK).
  set (m6 := store_at 0 (le_bytes 4 436) (store_at 6 (le_bytes 2 fl) m4)).
  assert (req_mem m6) as L6 by (unfold m6, m4, m3; request_memory).
  set (d := load_bytes m6 0 436).
  assert (forall o k, 0 <= o -> 0 <= k -> o + k <= 436 -> load_bytes d o k = load_bytes m6 o k) as Hd
    by (intros; by apply load_prefix).
  assert (agree 36 436 m2 d) as Hag.
  { intros o k Ho Hk Hok. rewrite Hd by lia. unfold m6, m4, m3, store32.
    do 4 (rewrite load_bytes_store by
      (rewrite ?le_bytes_length; first [request_memory | unfold REQ_SIZE; lia |
         apply orb_true_iff; right; apply Z.leb_le; lia])). done. }
  assert (attr_at d 36 TCA_KIND rbfgrad_kind) as Hkind
    by (eapply attr_at_agree; [exact Hag|lia|cbn; lia|exact Rk]).
  assert (options_at d 48 sent sbuf) as Hopt by (eapply options_at_agree; [exact Hag|lia|lia|exact Hsbuf|exact Ro]).
  assert (List.length d = 436%nat) as Hlen.
  { unfold d, load_bytes. unfold req_mem, REQ_SIZE in L6. rewrite length_take, length_drop. lia. }
  constructor.
  - split; [|done]. unfold h_len, load32. rewrite Hd by lia. unfold m6.
    rewrite load_at_store by (unfold m4, m3; solve_memory). reflexivity.
  - unfold h_type, load16. rewrite Hd by lia. unfold m6, m4, m3, store32. do 4 skip_store.
    rewrite Hhead by lia. transitivity (u16 cmd); [exact F1|]. unfold u16. by apply Z.mod_small.
  - unfold load16. rewrite Hd by lia. unfold m6. skip_store.
    rewrite load_at_store by (unfold m4, m3; solve_memory). apply of_le_bytes_le.
  - unfold h_seq, load32. rewrite Hd by lia. unfold m6, m4. do 2 skip_store.
    rewrite load_at_store by (unfold m3; solve_memory). rewrite of_le_bytes_le. apply Z.mod_small. apply u32_range.
  - unfold tcm_ifindex, tcm_handle, tcm_parent, load32. rewrite !Hd by lia. unfold m6, m4, m3, store32.
    split; [|split].
    + do 3 skip_store. rewrite load_at_store by solve_memory. f_equal. apply of_le_bytes_le.
    + do 4 skip_store. rewrite Hhead by lia. exact F3.
    + do 4 skip_store. rewrite Hhead by lia. exact F4.
  - destruct Hopt as (O1 & O2 & _).
    set (payload := load_bytes d 52 384).
    assert (List.length payload = 384%nat) as Lp
      by (unfold payload, load_bytes; rewrite length_take, length_drop, Hlen; reflexivity).
    assert (attr_span payload = 388) as Ep by (unfold attr_span; rewrite Lp; reflexivity).
    assert (attrs_at d 36 [(TCA_KIND, rbfgrad_kind); (TCA_OPTIONS, payload)]) as Hat.
    { split; [exact Hkind|]. split; [|done]. change (36 + attr_span rbfgrad_kind) with 48.
      unfold attr_at. rewrite Lp. done. }
    unfold parse_rtattr.
    assert (span [(TCA_KIND, rbfgrad_kind); (TCA_OPTIONS, payload)] = 400) as Es
      by (cbn [span]; rewrite Ep; reflexivity).
    rewrite <- Es at 2. rewrite rtattr_loop_ok by (done || cbn; lia). reflexivity.
  - destruct Hkind as (_ & _ & Hk). change (36 + 4) with 40 in Hk.
    rewrite <- (take_drop 8 (drop 40 d)). change (take 8 (drop 40 d)) with (load_bytes d 40 8).
    change (Z.of_nat (List.length rbfgrad_kind)) with 8 in Hk. rewrite Hk. unfold rbfgrad_kind.
    rewrite <- app_assoc. by apply cstring_bytes.
  - exact Hopt.
Qed.

(** ** The command *)

Context (other : string -> list string -> tc_world -> result).

(** The verbs that create or change a discipline, with the flags of the request. *)
Definition verbs : list (string * Z) :=
  [("add", Z.lor NLM_F_EXCL NLM_F_CREATE); ("change", 0); ("replace", Z.lor NLM_F_CREATE NLM_F_REPLACE);
   ("link", NLM_F_REPLACE)].

Lemma do_cmd_verb verb flags argv w :
  In (verb, flags) verbs ->
  do_cmd env other ("qdisc" :: verb :: argv) w = (tc_qdisc_modify env RTM_NEWQDISC flags argv w, "").
Proof.
  intros Hv. cbn [In verbs] in Hv.
  repeat (destruct Hv as [Hv|Hv]; [injection Hv as <- <-; reflexivity|]). done.
Qed.

(** The words before the options. *)
Lemma modify_words_root dev opts :
  dev <> "" -> (String.length dev <= NAME_SIZE)%nat ->
  modify_words env (S (List.length ("dev" :: dev :: "root" :: "rbfgrad" :: opts)))
    ("dev" :: dev :: "root" :: "rbfgrad" :: opts) no_args =
  Args (mk_modify dev "rbfgrad" 0 TC_H_ROOT (mk_estimator 0 0) zero_sizespec) opts.
Proof.
  intros Hne Hlen. transitivity (Args (mk_modify (strncpy16 dev) "rbfgrad" 0 TC_H_ROOT (mk_estimator 0 0)
    zero_sizespec) opts); [reflexivity|]. unfold strncpy16. by rewrite substring_all.
Qed.

Definition root_args (dev : string) : modify_args :=
  mk_modify dev "rbfgrad" 0 TC_H_ROOT (mk_estimator 0 0) zero_sizespec.

(** The answer of the kernel: an error message for the request, whatever comes before
    it. *)
Record answered (w : tc_world) (ack : nlmsg) (after : list event) : Prop := {
  an_error : m_type ack = NLMSG_ERROR /\ ERR_LENGTH <= msg_len ack;
  an_inbox : exists before from ms1 ms2,
    w_inbox w = map deliver (before ++ Ev from (ms1 ++ ack :: ms2) :: after) /\
    Forall (event_ok 16384) (before ++ Ev from (ms1 ++ ack :: ms2) :: after) /\
    let local := nl_pid (rth_local (w_rth w)) in
    let seq := request_seq (w_rth w) in
    Forall (passes (passed_over local 0 seq false)) before /\
    Forall (passed_over local 0 seq false from) ms1 /\
    talk_for local 0 seq from ack = true
}.

Lemma error_value m :
  m_type m = NLMSG_ERROR -> ERR_LENGTH <= msg_len m ->
  (if r_value (reply_to false m) <? 0 then 2 else 0) = (if m_error m =? 0 then 0 else 2).
Proof.
  intros Ht Hl. unfold reply_to, talk_error. rewrite Ht. change (NLMSG_ERROR =? NLMSG_ERROR) with true. cbv iota.
  rewrite (proj2 (Z.ltb_ge (msg_len m) ERR_LENGTH)) by exact Hl.
  assert ((s32 (- m_error m) =? 0) = (m_error m =? 0)) as ->; [|by destruct (m_error m =? 0)].
  unfold m_error. apply eq_true_iff_eq. rewrite !Z.eqb_eq. unfold s32. split; intros; Z.div_mod_to_equations; lia.
Qed.

Lemma send_request_ok n w ack after :
  (forall d, 0 <= e_send env d) -> answered w ack after ->
  exists w', send_request env n w = Returned (if m_error ack =? 0 then 0 else 2) w' /\
    w_outbox w' = w_outbox w ++ [wire (talk_request (w_rth w) n false).2] /\ w_inbox w' = map deliver after.
Proof.
  intros Hsend [[Ht Hl] (before & from & ms1 & ms2 & Hin & Hok & Hb & H1 & Hm)]. unfold send_request.
  rewrite Hin. set (d := wire _).
  destruct (talk_returns (A := unit) (e_send env d) (w_rth w) n 0 false None before from ms1 ack ms2 after tt
    (Hsend d) I Hok Hb H1 Hm (or_introl Ht)) as [a' E].
  destruct (rtnl_talk (e_send env d) (w_rth w) n 0 false None _ tt) as [[rth n'] [o inbox]].
  cbn [snd] in E. injection E as -> ->. eexists. split; [by rewrite <- error_value|]. done.
Qed.

Lemma modify_ok flags dev opts opt ecn_ok idx w ack after :
  0 <= flags < 2 ^ 16 -> dev <> "" -> (String.length dev <= NAME_SIZE)%nat ->
  (get_qdisc_kind env "rbfgrad" (w_kinds w)).1 = rbfgrad_util p_init p_min sbuf ->
  initialized (w_links w) = true ->
  (ll_name_to_index (e_nametoindex env) (Some dev) (w_links w)).1 = idx -> 0 < idx < 2 ^ 31 ->
  (forall d, 0 <= e_send env d) -> answered w ack after ->
  parse_args opts zero_qopt false = Parsed opt ecn_ok -> 0 < o_q_ref opt ->
  exists d w',
    tc_qdisc_modify env RTM_NEWQDISC flags ("dev" :: dev :: "root" :: "rbfgrad" :: opts) w =
      Returned (if m_error ack =? 0 then 0 else 2) w' /\
    w_outbox w' = w_outbox w ++ [d] /\ w_inbox w' = map deliver after /\
    configures d RTM_NEWQDISC (u16 (Z.lor (u16 (Z.lor NLM_F_REQUEST flags)) NLM_F_ACK)) (request_seq (w_rth w))
      idx 0 TC_H_ROOT (sent_options opt ecn_ok).
Proof.
  intros Hfl Hne Hlen Hkind Hinit Hidx Hir Hsend Han Hp Hq. unfold tc_qdisc_modify.
  rewrite modify_words_root by done. fold (root_args dev).
  destruct (build_request_ok RTM_NEWQDISC flags (root_args dev) opts (w_kinds w) opt ecn_ok) as (n & E & Hn);
    [by constructor|done|done|done|].
  rewrite E. cbv iota. change (a_dev (root_args dev)) with dev.
  rewrite (proj2 (String.eqb_neq dev "")) by done.
  unfold find_device, init_links, ll_init_map.
  change (w_links (w <| w_kinds := ?k |>)) with (w_links w). rewrite Hinit.
  cbv iota beta zeta.
  set (w1 := set_field w_inbox _ _).
  change (w_links (w1 <| w_links := w_links w |>)) with (w_links w).
  destruct (ll_name_to_index (e_nametoindex env) (Some dev) (w_links w)) as [i links] eqn:El. cbn [fst] in Hidx. subst i.
  rewrite (proj2 (Z.eqb_neq idx 0)) by lia.
  set (w2 := set_field w_links _ _).
  assert (answered w2 ack after) as Han2 by (destruct Han as [A1 A2]; by split).
  destruct (send_request_ok (set_tcm_ifindex idx n) w2 ack after Hsend Han2) as (w' & E' & Ho & Hi).
  eexists _, w'. split; [exact E'|]. split; [exact Ho|]. split; [exact Hi|].
  pose proof (request_datagram RTM_NEWQDISC flags (root_args dev) (sent_options opt ecn_ok) n (w_rth w2) idx Hn) as Hd.
  change (w_rth w2) with (w_rth w) in *.
  replace (s32 (u32 idx)) with idx in Hd by (unfold s32, u32; Z.div_mod_to_equations; lia).
  apply Hd. unfold RTM_NEWQDISC. lia.
Qed.

(** The datagram a verb sends, and the result. *)
Lemma command_sends verb flags dev opts opt ecn_ok idx w ack after :
  In (verb, flags) verbs -> dev <> "" -> (String.length dev <= NAME_SIZE)%nat ->
  (get_qdisc_kind env "rbfgrad" (w_kinds w)).1 = rbfgrad_util p_init p_min sbuf ->
  initialized (w_links w) = true ->
  (ll_name_to_index (e_nametoindex env) (Some dev) (w_links w)).1 = idx -> 0 < idx < 2 ^ 31 ->
  (forall d, 0 <= e_send env d) -> answered w ack after ->
  parse_args opts zero_qopt false = Parsed opt ecn_ok -> 0 < o_q_ref opt ->
  exists d w',
    do_cmd env other ("qdisc" :: verb :: "dev" :: dev :: "root" :: "rbfgrad" :: opts) w =
      (Returned (if m_error ack =? 0 then 0 else 2) w', "") /\
    w_outbox w' = w_outbox w ++ [d] /\ w_inbox w' = map deliver after /\
    configures d RTM_NEWQDISC (Z.lor (Z.lor NLM_F_REQUEST flags) NLM_F_ACK) (request_seq (w_rth w))
      idx 0 TC_H_ROOT (sent_options opt ecn_ok).
Proof.
  intros Hv Hne Hlen Hkind Hinit Hidx Hir Hsend Han Hp Hq. rewrite (do_cmd_verb _ _ _ _ Hv).
  assert (0 <= flags < 2 ^ 16 /\ u16 (Z.lor (u16 (Z.lor NLM_F_REQUEST flags)) NLM_F_ACK) =
    Z.lor (Z.lor NLM_F_REQUEST flags) NLM_F_ACK) as [Hfl Ef].
  { cbn [In verbs] in Hv. repeat (destruct Hv as [Hv|Hv]; [injection Hv as _ <-; done|]). done. }
  destruct (modify_ok flags dev opts opt ecn_ok idx w ack after) as (d & w' & E & Ho & Hi & Hd); try done.
  rewrite Ef in Hd. exists d, w'. by rewrite E.
Qed.

Lemma parsed_wf opts opt ecn_ok :
  parse_args opts zero_qopt false = Parsed opt ecn_ok -> qopt_wf (sent_options opt ecn_ok).
Proof. intros Hp. apply sent_options_wf. eapply parse_args_wf; [exact Hp|]. apply zero_qopt_wf. Qed.


(** C22: A command whose options are refused sends nothing, asks nothing and keeps the
    world, up to the registration of the discipline: an illegal value, an unknown
    word, [help] or a reference queue length that is not positive give 1, a missing
    value ends the program with 255. *)
Theorem command_refused verb flags dev opts w :
  In (verb, flags) verbs -> dev <> "" -> (String.length dev <= NAME_SIZE)%nat ->
  (get_qdisc_kind env "rbfgrad" (w_kinds w)).1 = rbfgrad_util p_init p_min sbuf ->
  let command := "qdisc" :: verb :: "dev" :: dev :: "root" :: "rbfgrad" :: opts in
  let w' := w <| w_kinds := (get_qdisc_kind env "rbfgrad" (w_kinds w)).2 |> in
  match parse_args opts zero_qopt false with
  | Parsed opt _ => o_q_ref opt <= 0 -> do_cmd env other command w = (Returned 1 w', "")
  | Incomplete => do_cmd env other command w = (Exited 255, "")
  | _ => do_cmd env other command w = (Returned 1 w', "")
  end.
Proof.
  intros Hv Hne Hlen Hkind command w'. unfold command. rewrite (do_cmd_verb _ _ _ _ Hv).
  unfold tc_qdisc_modify. rewrite modify_words_root by done. fold (root_args dev).
  unfold build_request. change (a_kind (root_args dev)) with "rbfgrad". change (String.eqb "rbfgrad" "") with false.
  cbv iota. unfold w'. destruct (get_qdisc_kind env "rbfgrad" (w_kinds w)) as [q kinds]. cbn [fst snd] in *. subst q.
  change (u_parse_qopt (rbfgrad_util p_init p_min sbuf)) with (Some (rbfgrad_parse_opt p_init p_min sbuf)).
  cbv iota beta. unfold rbfgrad_parse_opt. destruct (parse_args opts zero_qopt false) as [opt ecn| | | |]; try done.
  intros Hq. by rewrite (proj2 (Z.leb_le _ _) Hq).
Qed.

End Command.

(** ** Batches *)

Lemma continue_line_rest fuel : forall line cc stream no,
  (String.length (continue_line fuel line cc stream no).1.2 <= String.length stream)%nat.
Proof.
  induction fuel as [|fuel IH]; intros line cc stream no; cbn [continue_line]; [done|].
  destruct (cut_continuation line) as [cut|]; [|done].
  destruct (getline stream) as [[l rest]|] eqn:E; [|done].
  pose proof (getline_shorter _ _ _ E). etransitivity; [apply IH|]. lia.
Qed.

Lemma getcmdline_shorter stream no line rest no' :
  getcmdline stream no = (Some line, rest, no') -> (String.length rest < String.length stream)%nat.
Proof.
  unfold getcmdline. destruct (getline stream) as [[l r]|] eqn:E; [|done]. intros H.
  pose proof (getline_shorter _ _ _ E) as Hs.
  pose proof (continue_line_rest (S (String.length stream)) (cut_at "#" l) (Z.of_nat (String.length l)) r
    (s32 (no + 1))) as Hc. rewrite H in Hc. cbn [fst snd] in Hc. lia.
Qed.

(** A batch ends whatever it contains: every round takes at least a character of the
    file, so the fuel given is enough, and any larger amount gives the same result. *)
Theorem batch_terminates env other fuel force stream no ret w out :
  (String.length stream < fuel)%nat ->
  batch_loop env other fuel force stream no ret w out =
  batch_loop env other (S (String.length stream)) force stream no ret w out.
Proof.
  assert (forall n fuel fuel' stream no ret w out,
    (String.length stream <= n)%nat -> (String.length stream < fuel)%nat -> (String.length stream < fuel')%nat ->
    batch_loop env other fuel force stream no ret w out = batch_loop env other fuel' force stream no ret w out) as H.
  { clear. induction n as [|n IH]; intros [|fuel] [|fuel'] stream no ret w out Hn H1 H2; try lia;
      cbn [batch_loop]; destruct (getcmdline stream no) as [[[[line len]|] rest] no'] eqn:E; try done;
      apply getcmdline_shorter in E; [lia|].
    destruct (makeargs line 100) as [[|word words]|]; [apply IH; lia| |done].
    destruct (do_cmd env other (word :: words) w) as [[r w1|s|w1|] text]; try done.
    destruct (r =? 0); [apply IH; lia|]. destruct force; [apply IH; lia|done]. }
  intros Hl. by apply (H (String.length stream)); [|done|lia].
Qed.

Lemma batch_terminates_witness :
  batch_loop (mk_env (fun _ => None) (fun _ => None) (fun _ => None) (fun _ => 0) (fun _ => None) (fun _ => 0) (fun x => x) false false false [])
    (fun _ _ w => (Returned 0 w, "")) 50 false ("class show" +:+ newline +:+ "nothing") 0 0
    (mk_tc demo_rth [] [] empty_map [] 0 no_filters no_fstate no_astate) "" =
  (Returned 1 (mk_tc demo_rth [] [] empty_map [] 0 no_filters no_fstate no_astate), "").
Proof. rewrite batch_terminates by (apply Nat.ltb_lt; reflexivity). reflexivity. Defined.

(** ** Examples *)

Definition demo_env : tc_env :=
  mk_env (fun s => if String.eqb s "rbfgrad" then Some (rbfgrad_util d0 d0 (replicate 256 7)) else None)
    (fun _ => None) (fun _ => None) (fun _ => 36) (fun _ => Some demo_fresh) (fun _ => 0) (fun x => x) true false false (replicate BUF_SIZE 0).

Definition demo_objects : string -> list string -> tc_world -> result := fun _ _ w => (Returned (- 1) w, "").

(** The map after the links were read. *)
Definition demo_links : ll_map := demo_map <| initialized := true |>.

(** A world after the links were read, with an answer waiting behind the message of
    somebody else. *)
Definition demo_world : tc_world :=
  mk_tc demo_rth (map deliver [Ev kernel_addr [Rtnl.demo_other; demo_ack]]) [] demo_links [] 0 no_filters no_fstate no_astate.

Lemma demo_answered : answered demo_world demo_ack [].
Proof.
  split; [split; [done|by vm_compute]|]. exists [], kernel_addr, [Rtnl.demo_other], []. split; [done|].
  split; [repeat constructor; by vm_compute|]. split; [done|]. split; [|done]. repeat constructor.
Qed.


Lemma command_refused_witness :
  do_cmd demo_env demo_objects ["qdisc"; "change"; "dev"; "eth0"; "root"; "rbfgrad"; "q_ref"; "0"; "ecn"] demo_world =
    (Returned 1 (demo_world <| w_kinds := [rbfgrad_util d0 d0 (replicate 256 7)] |>), "").
Proof.
  pose proof (command_refused demo_env d0 d0 (replicate 256 7) demo_objects "change" 0 "eth0" ["q_ref"; "0"; "ecn"]
    demo_world) as H. cbv zeta in H.
  change (parse_args ["q_ref"; "0"; "ecn"] zero_qopt false) with (Parsed (zero_qopt <| o_q_ref := 0 |>) true) in H.
  cbv iota in H. apply H.
  - right. by left.
  - done.
  - unfold NAME_SIZE. cbn. lia.
  - reflexivity.
  - unfold NAME_SIZE. cbn. lia.
Defined.

(** [tc qdisc show] keeps the interface of an earlier [tc qdisc show dev] of the same
    batch: nothing but a device on the command line writes it. *)
Lemma list_keeps_filter env w :
  match (tc_qdisc_list env [] w).1 with
  | Returned _ w' => filter_ifindex w' = filter_ifindex w
  | _ => True
  end.
Proof.
  unfold tc_qdisc_list. cbn [list_words]. change (String.eqb "" "") with true. cbv iota.
  assert (match init_links env w with Returned _ w' => filter_ifindex w' = filter_ifindex w | _ => True end) as Hi.
  { unfold init_links. destruct (ll_init_map _ _ _ _ _ _) as [rth [[r [l|]|s|a|] inbox]]; try done.
    by destruct (initialized (w_links w)). }
  destruct (init_links env w) as [r w1|s|a|]; try done. rewrite <- Hi. unfold dump_qdiscs.
  destruct (rtnl_dump_request _ _ _) as [rth req]. destruct (e_send env req <? 0); [done|].
  by destruct (rtnl_dump_filter _ _ _ _ _ _) as [[r' [out kinds]|s|[out kinds]|] inbox].
Qed.
