(* ===== verification/TcClass.v ===== *)
(** * The command [tc class] (iproute2-3.1.0/tc/tc_class.c)

    Classes are changed and listed like disciplines; what they are limited to in a listing
    is remembered by the program.  Also the two disciplines whose classes take options of
    their own here: DRR (q_drr.c) and QFQ (q_qfq.c). *)

From S2P Require Export TcQdiscProps TcDisc.

#[local] Open Scope list_scope.

(** ** Disciplines with classes *)

Module Drr.

Definition TCA_DRR_QUANTUM : Z := 1.

(** [iproute2-3.1.0/tc/q_drr.c:37-50 drr_parse_opt] *)
Definition drr_parse_opt (argv : list string) (n : nlmsghdr) : parse_outcome :=
  match argv with [] => Return 0 n [] | _ => Return (- 1) n [] end.

(** The attributes are appended while the words are read, so that a refused word leaves
    those before it in the message.  [iproute2-3.1.0/tc/q_drr.c:61-78 drr_parse_class_opt] *)
Fixpoint drr_words (argv : list string) (n : nlmsghdr) : parse_outcome :=
  match argv with
  | [] => Return 0 n []
  | word :: argv =>
      if String.eqb word "quantum" then
        match argv with
        | [] => Exit 255
        | arg :: argv =>
            match get_size arg with
            | None => Return (- 1) n []
            | Some v => drr_words argv (addattr_l n 1024 TCA_DRR_QUANTUM (le_bytes 4 v)).2
            end
        end
      else Return (- 1) n []
  end.

(** [iproute2-3.1.0/tc/q_drr.c:52-82 drr_parse_class_opt] *)
Definition drr_parse_class_opt (argv : list string) (n : nlmsghdr) : parse_outcome :=
  let tail := NLMSG_TAIL n in
  match drr_words argv (addattr_l n 1024 TCA_OPTIONS []).2 with
  | Return r n w =>
      if r =? 0 then Return 0 (mk_nlmsg (nlmsg_len n) (set_rta_len tail (NLMSG_TAIL n - tail) (mem n))) w
      else Return r n w
  | o => o
  end.

(** [iproute2-3.1.0/tc/q_drr.c:84-98 drr_print_opt] *)
Definition drr_print_opt (m : list Z) (opt : option Z) : Z * string :=
  match opt with
  | None => (0, "")
  | Some opt =>
      let tb := (parse_rtattr_nested m TCA_DRR_QUANTUM opt).1 in
      (0, match tb !!! Z.to_nat TCA_DRR_QUANTUM with
          | Some a => "quantum " +:+ sprint_size (field32 (load_bytes m (RTA_DATA a) 4) 0) +:+ " "
          | None => ""
          end)
  end.

(** [iproute2-3.1.0/tc/q_drr.c:100-113 drr_print_xstats] *)
Definition drr_print_xstats (m : list Z) (xstats : option Z) : Z * string :=
  match xstats with
  | None => (0, "")
  | Some a =>
      if RTA_PAYLOAD m a <? 4 then (- 1, "")
      else (0, " deficit " +:+ sprint_size (field32 (load_bytes m (RTA_DATA a) 4) 0) +:+ " ")
  end.

(** [iproute2-3.1.0/tc/q_drr.c:115-122 drr_qdisc_util] *)
Definition drr_qdisc_util : tc_util :=
  mk_tc_util "drr" (Some drr_parse_opt) (fun _ => drr_print_opt) (Some drr_print_xstats)
    (Some drr_parse_class_opt) (Some drr_print_opt).
End Drr.

Module Qfq.

Definition TCA_QFQ_WEIGHT : Z := 1.
Definition TCA_QFQ_LMAX : Z := 2.

(** [iproute2-3.1.0/tc/q_qfq.c:38-54 qfq_parse_opt] *)
Definition qfq_parse_opt (argv : list string) (n : nlmsghdr) : parse_outcome :=
  match argv with [] => Return 0 n [] | _ => Return (- 1) n [] end.

(** [iproute2-3.1.0/tc/q_qfq.c:65-87 qfq_parse_class_opt] *)
Fixpoint qfq_words (argv : list string) (n : nlmsghdr) : parse_outcome :=
  match argv with
  | [] => Return 0 n []
  | word :: argv =>
      if matches word "weight" || matches word "maxpkt" then
        match argv with
        | [] => Exit 255
        | arg :: argv =>
            match get_u32 arg 10 with
            | None => Return (- 1) n []
            | Some v => qfq_words argv (addattr32 n 4096 (if matches word "weight" then TCA_QFQ_WEIGHT else TCA_QFQ_LMAX) v).2
            end
        end
      else Return (- 1) n []
  end.

(** [iproute2-3.1.0/tc/q_qfq.c:56-92 qfq_parse_class_opt] *)
Definition qfq_parse_class_opt (argv : list string) (n : nlmsghdr) : parse_outcome :=
  let tail := NLMSG_TAIL n in
  match qfq_words argv (addattr_l n 4096 TCA_OPTIONS []).2 with
  | Return r n w =>
      if r =? 0 then Return 0 (mk_nlmsg (nlmsg_len n) (set_rta_len tail (NLMSG_TAIL n - tail) (mem n))) w
      else Return r n w
  | o => o
  end.

(** [iproute2-3.1.0/tc/q_qfq.c:94-114 qfq_print_opt] *)
Definition qfq_print_opt (m : list Z) (opt : option Z) : Z * string :=
  match opt with
  | None => (0, "")
  | Some opt =>
      let tb := (parse_rtattr_nested m TCA_QFQ_LMAX opt).1 in
      let show name k :=
        match tb !!! Z.to_nat k with
        | Some a => name +:+ " " +:+ print_u (field32 (load_bytes m (RTA_DATA a) 4) 0) +:+ " "
        | None => ""
        end in
      (0, show "weight" TCA_QFQ_WEIGHT +:+ show "maxpkt" TCA_QFQ_LMAX)
  end.

(** [iproute2-3.1.0/tc/q_qfq.c:116-122 qfq_qdisc_util] *)
Definition qfq_qdisc_util : tc_util :=
  mk_tc_util "qfq" (Some qfq_parse_opt) (fun _ => qfq_print_opt) None (Some qfq_parse_class_opt) (Some qfq_print_opt).
End Qfq.

(** ** Changing a class *)

Definition nonzero_filter (z : Z) : bool := negb (z =? 0).

Section Class.
Context (env : tc_env).

Definition RTM_NEWTCLASS : Z := 40.
Definition RTM_DELTCLASS : Z := 41.
Definition RTM_GETTCLASS : Z := 42.

(** Header, [struct tcmsg] and 4096 bytes. *)
Definition CLASS_SIZE : Z := 4132.

(** The words before the options; the argument [handle] of the record is the class.
    [iproute2-3.1.0/tc/tc_class.c:65-109 tc_class_modify] *)
Fixpoint class_words (fuel : nat) (argv : list string) (a : modify_args) : args_of modify_args :=
  match fuel, argv with
  | _, [] => Args a []
  | O, _ => Args a argv
  | S fuel, word :: rest =>
      let with_arg (given : bool) (f : string -> option modify_args) :=
        match rest with
        | [] => ArgExit
        | arg :: rest =>
            if given then ArgExit
            else match f arg with Some a => class_words fuel rest a | None => ArgExit end
        end in
      if String.eqb word "dev" then
        with_arg (negb (String.eqb (a_dev a) "")) (fun arg => Some (a <| a_dev := strncpy16 arg |>))
      else if String.eqb word "classid" then
        with_arg (negb (a_handle a =? 0))
          (fun arg => match get_tc_classid arg with Some h => Some (a <| a_handle := h |>) | None => None end)
      else if String.eqb word "handle" then ArgError
      else if String.eqb word "root" then
        if negb (a_parent a =? 0) then ArgError else class_words fuel rest (a <| a_parent := TC_H_ROOT |>)
      else if String.eqb word "parent" then
        with_arg (negb (a_parent a =? 0))
          (fun arg => match get_tc_classid arg with Some h => Some (a <| a_parent := h |>) | None => None end)
      else if matches word "estimator" then
        match parse_estimator (e_log env) argv (a_est a) with
        | Args est argv => class_words fuel (tl argv) (a <| a_est := est |>)
        | ArgError => ArgError
        | ArgExit => ArgExit
        end
      else if matches word "help" then class_words fuel rest a
      else Args (a <| a_kind := strncpy16 word |>) rest
  end.

(** Header, parent and class, name and estimator.
    [iproute2-3.1.0/tc/tc_class.c:55-63 tc_class_modify] *)
Definition class_start (cmd flags : Z) (a : modify_args) : nlmsghdr :=
  set_tcm_parent (a_parent a) (set_tcm_handle (a_handle a)
    (mk_nlmsg 36 (store16 4 cmd (store16 6 (Z.lor NLM_F_REQUEST flags) (replicate (Z.to_nat CLASS_SIZE) 0))))).

(** [iproute2-3.1.0/tc/tc_class.c:111-114 tc_class_modify] *)
Definition class_kind (a : modify_args) (n : nlmsghdr) : nlmsghdr :=
  let n := if String.eqb (a_kind a) "" then n
           else (addattr_l n CLASS_SIZE TCA_KIND (string_bytes (a_kind a) ++ [0])).2 in
  if est_ewma_log (a_est a) =? 0 then n
  else (addattr_l n CLASS_SIZE TCA_RATE
          (le_bytes 1 (est_interval (a_est a)) ++ le_bytes 1 (est_ewma_log (a_est a)))).2.

(** The discipline is looked up where its name is read.
    [iproute2-3.1.0/tc/tc_class.c:111-130 tc_class_modify] *)
Definition class_request (cmd flags : Z) (a : modify_args) (argv : list string) (kinds : list tc_util) :
    request * list tc_util :=
  let n := class_kind a (class_start cmd flags a) in
  if String.eqb (a_kind a) "" then (match argv with [] => Ready n | _ => Refused (- 1) end, kinds)
  else
    let '(q, kinds) := get_qdisc_kind env (a_kind a) kinds in
    (match u_parse_copt q with
     | None => Refused 1
     | Some parse =>
         match parse argv n with
         | Return r n _ => if r =? 0 then Ready n else Refused 1
         | Exit status => Ended status
         end
     end, kinds).

(** [iproute2-3.1.0/tc/tc_class.c:43-145 tc_class_modify] *)
Definition tc_class_modify (cmd flags : Z) (argv : list string) (w : tc_world) : outcome Z tc_world :=
  match class_words (S (List.length argv)) argv no_args with
  | ArgError => Returned (- 1) w
  | ArgExit => Exited 255
  | Args a argv =>
      let '(req, kinds) := class_request cmd flags a argv (w_kinds w) in
      let w := w <| w_kinds := kinds |> in
      match req with
      | Refused r => Returned r w
      | Ended status => Exited status
      | Ready n =>
          if String.eqb (a_dev a) "" then send_request env n w
          else
            match find_device env (a_dev a) w with
            | Returned idx w => if idx =? 0 then Returned 1 w else send_request env (set_tcm_ifindex idx n) w
            | o => o
            end
      end
  end.

(** ** Listing classes *)

(** The class of a handle: without its major number when one discipline is listed. *)
Definition class_name (f : class_filters) (handle : Z) : string :=
  print_tc_classid 256 (if cf_qdisc f =? 0 then handle else TC_H_MIN handle).

(** The class of the message, without its attributes.
    [iproute2-3.1.0/tc/tc_class.c:184-209 print_class] *)
Definition class_head (links : ll_map) (f : class_filters) (msg : list Z) (kind : string) : string :=
  (if h_type msg 0 =? RTM_DELTCLASS then "deleted " else "") +:+
  "class " +:+ kind +:+ " " +:+ (if tcm_handle msg =? 0 then "" else class_name f (tcm_handle msg)) +:+ " " +:+
  (if cf_ifindex f =? 0 then "dev " +:+ ll_index_to_name links (u32 (tcm_ifindex msg)) +:+ " " else "") +:+
  (if tcm_parent msg =? TC_H_ROOT then "root " else "parent " +:+ class_name f (tcm_parent msg) +:+ " ") +:+
  (if tcm_info msg =? 0 then "" else "leaf " +:+ print_x (Z.shiftr (tcm_info msg) 16) +:+ ": ").

(** [iproute2-3.1.0/tc/tc_class.c:218-229 print_class] *)
Definition class_stats (q : tc_util) (msg : list Z) (tb : list (option Z)) : string :=
  let present k := match tb !!! k with Some _ => true | None => false end in
  let '(text, xstats) :=
    if present TCA_STATS || present TCA_STATS2
    then let '(t, x) := print_tcstats_attr (e_iec env) msg tb " " in (t +:+ newline, x)
    else ("", None) in
  let shown := match xstats with Some _ => xstats | None => tb !!! TCA_XSTATS end in
  match shown, u_print_xstats q with
  | Some _, Some p => text +:+ (p msg shown).2 +:+ newline
  | _, _ => text
  end.

(** Whether a message is outside what is listed: another discipline or another class.
    [iproute2-3.1.0/tc/tc_class.c:170-174 print_class] *)
Definition class_skipped (f : class_filters) (msg : list Z) : bool :=
  (nonzero_filter (cf_qdisc f) && negb (TC_H_MAJ (Z.lxor (tcm_handle msg) (cf_qdisc f)) =? 0)) ||
  (nonzero_filter (cf_classid f) && negb (tcm_handle msg =? cf_classid f)).

(** [iproute2-3.1.0/tc/tc_class.c:151-232 print_class] *)
Definition print_class (links : ll_map) (f : class_filters) : @rtnl_filter_t print_state :=
  fun _ msg '(out, kinds) =>
    if negb (h_type msg 0 =? RTM_NEWTCLASS) && negb (h_type msg 0 =? RTM_DELTCLASS) then (0, (out, kinds))
    else
      let len := s32 (h_len msg 0 - 36) in
      if len <? 0 then (- 1, (out, kinds))
      else if class_skipped f msg then (0, (out, kinds))
      else
        let tb := (parse_rtattr msg 8 36 len).1 in
        match tb !!! Z.to_nat TCA_KIND with
        | None => (- 1, (out, kinds))
        | Some a =>
            let kind := cstring (drop (Z.to_nat (RTA_DATA a)) msg) in
            let '(q, kinds) := get_qdisc_kind env kind kinds in
            let options :=
              match tb !!! Z.to_nat TCA_OPTIONS with
              | Some _ as o =>
                  match u_print_copt q with Some p => (p msg o).2 | None => "[cannot parse class parameters]" end
              | None => ""
              end in
            let stats := if e_stats env then class_stats q msg tb else "" in
            (0, (out +:+ class_head links f msg kind +:+ options +:+ newline +:+ stats, kinds))
        end.

(** The words of a listing.  The filters are globals: they are written as the words are
    read, and one that is still set from an earlier command counts as given.
    [iproute2-3.1.0/tc/tc_class.c:244-284 tc_class_list] *)
Fixpoint class_list_words (argv : list string) (d : string) (parent : Z) (f : class_filters) :
    args_of (string * Z) * class_filters :=
  match argv with
  | [] => (Args (d, parent) [], f)
  | word :: argv =>
      if String.eqb word "dev" then
        match argv with
        | [] => (ArgExit, f)
        | arg :: argv => if String.eqb d "" then class_list_words argv (strncpy16 arg) parent f else (ArgExit, f)
        end
      else if String.eqb word "qdisc" then
        match argv with
        | [] => (ArgExit, f)
        | arg :: argv =>
            if nonzero_filter (cf_qdisc f) then (ArgExit, f)
            else match get_qdisc_handle arg with
                 | Some h => class_list_words argv d parent (f <| cf_qdisc := h |>)
                 | None => (ArgExit, f)
                 end
        end
      else if String.eqb word "classid" then
        match argv with
        | [] => (ArgExit, f)
        | arg :: argv =>
            if nonzero_filter (cf_classid f) then (ArgExit, f)
            else match get_tc_classid arg with
                 | Some h => class_list_words argv d parent (f <| cf_classid := h |>)
                 | None => (ArgExit, f)
                 end
        end
      else if String.eqb word "root" then
        if nonzero_filter parent then (ArgError, f) else class_list_words argv d TC_H_ROOT f
      else if String.eqb word "parent" then
        if nonzero_filter parent then (ArgExit, f)
        else match argv with
             | [] => (ArgExit, f)
             | arg :: argv =>
                 match get_tc_classid arg with
                 | Some h => class_list_words argv d h f
                 | None => (ArgExit, f)
                 end
             end
      else if matches word "help" then class_list_words argv d parent f
      else (ArgError, f)
  end.

(** The dump of the classes, through [print_class].
    [iproute2-3.1.0/tc/tc_class.c:296-306 tc_class_list] *)
Definition dump_classes (ifindex parent : Z) (w : tc_world) : result :=
  let tcm := [0; 0; 0; 0] ++ le_bytes 4 ifindex ++ le_bytes 4 0 ++ le_bytes 4 parent ++ le_bytes 4 0 in
  let '(rth, req) := rtnl_dump_request (w_rth w) RTM_GETTCLASS tcm in
  let w := (w <| w_rth := rth |>) <| w_outbox := w_outbox w ++ [req] |> in
  if e_send env req <? 0 then (Returned 1 w, "")
  else
    let '(o, inbox) :=
      rtnl_dump_filter rth (print_class (w_links w) (w_class w)) None (e_buf env) (w_inbox w) ("", w_kinds w) in
    let w := w <| w_inbox := inbox |> in
    match o with
    | Returned r (out, kinds) => (Returned (if r <? 0 then 1 else 0) (w <| w_kinds := kinds |>), out)
    | Exited status => (Exited status, "")
    | Waiting (out, kinds) => (Waiting (w <| w_kinds := kinds |>), out)
    | Wild => (Wild, "")
    end.

(** [iproute2-3.1.0/tc/tc_class.c:235-307 tc_class_list] *)
Definition tc_class_list (argv : list string) (w : tc_world) : result :=
  let '(words, f) := class_list_words argv "" 0 (w_class w) in
  let w := w <| w_class := f |> in
  match words with
  | ArgError => (Returned (- 1) w, "")
  | ArgExit => (Exited 255, "")
  | Args (d, parent) _ =>
      if String.eqb d "" then
        match init_links env w with Returned _ w => dump_classes 0 parent w | o => (o, "") end
      else
        match find_device env d w with
        | Returned idx w =>
            if idx =? 0 then (Returned 1 w, "")
            else dump_classes idx parent (w <| w_class := ((w_class w) <| cf_ifindex := s32 idx |>) |>)
        | o => (o, "")
        end
  end.

(** [iproute2-3.1.0/tc/tc_class.c:309-334 do_class] *)
Definition do_class (argv : list string) (w : tc_world) : result :=
  match argv with
  | [] => tc_class_list [] w
  | cmd :: argv =>
      if matches cmd "add" then (tc_class_modify RTM_NEWTCLASS (Z.lor NLM_F_EXCL NLM_F_CREATE) argv w, "")
      else if matches cmd "change" then (tc_class_modify RTM_NEWTCLASS 0 argv w, "")
      else if matches cmd "replace" then (tc_class_modify RTM_NEWTCLASS NLM_F_CREATE argv w, "")
      else if matches cmd "delete" then (tc_class_modify RTM_DELTCLASS 0 argv w, "")
      else if matches cmd "list" || matches cmd "show" || matches cmd "lst" then tc_class_list argv w
      else if matches cmd "help" then (Returned 0 w, "")
      else (Returned (- 1) w, "")
  end.
End Class.

(** ** What a listing shows *)

(** Two handles with the same major number. *)
Lemma same_major a b : 0 <= a < 2 ^ 32 -> 0 <= b < 2 ^ 32 ->
  TC_H_MAJ (Z.lxor a b) = 0 <-> TC_H_MAJ a = TC_H_MAJ b.
Proof.
  intros Ha Hb. unfold TC_H_MAJ. split; intros H.
  - apply Z.bits_inj'. intros k Hk. assert (Z.testbit (Z.land (Z.lxor a b) 4294901760) k = false) as E
      by (rewrite H; apply Z.bits_0).
    rewrite Z.land_spec, Z.lxor_spec in E. rewrite !Z.land_spec.
    destruct (Z.testbit a k), (Z.testbit b k), (Z.testbit 4294901760 k); done.
  - apply Z.bits_inj'. intros k Hk. rewrite Z.bits_0.
    assert (Z.testbit (Z.land a 4294901760) k = Z.testbit (Z.land b 4294901760) k) as E by (by rewrite H).
    rewrite !Z.land_spec in E. rewrite Z.land_spec, Z.lxor_spec.
    destruct (Z.testbit a k), (Z.testbit b k), (Z.testbit 4294901760 k); done.
Qed.

Lemma tcm_handle_range msg : Forall (fun b => 0 <= b < 2 ^ 8) msg -> 0 <= tcm_handle msg < 2 ^ 32.
Proof.
  intros Hm. unfold tcm_handle, load32, load_bytes.
  assert (forall l, Forall (fun b => 0 <= b < 2 ^ 8) l -> 0 <= of_le_bytes l < 2 ^ (8 * Z.of_nat (List.length l))) as H.
  { induction 1 as [|b l Hb _ IH]; [done|]. cbn [of_le_bytes List.length].
    replace (8 * Z.of_nat (S (List.length l))) with (8 + 8 * Z.of_nat (List.length l)) by lia.
    rewrite Z.pow_add_r by lia. assert (0 < 2 ^ (8 * Z.of_nat (List.length l))) by (apply Z.pow_pos_nonneg; lia). lia. }
  set (l := take _ _). assert (Forall (fun b => 0 <= b < 2 ^ 8) l) as Hl by (by apply Forall_take, Forall_drop).
  pose proof (H l Hl) as Hr. assert (List.length l <= 4)%nat as Hle by (unfold l; rewrite length_take; lia).
  assert (2 ^ (8 * Z.of_nat (List.length l)) <= 2 ^ 32) by (apply Z.pow_le_mono_r; lia). lia.
Qed.

(** A listing limited to a discipline or a class shows nothing else: a message whose
    major number, or whose handle, is another leaves the output as it was. *)
Theorem class_listing_limited env links f who msg out kinds :
  Forall (fun b => 0 <= b < 2 ^ 8) msg -> 0 <= cf_qdisc f < 2 ^ 32 ->
  (cf_qdisc f <> 0 /\ TC_H_MAJ (tcm_handle msg) <> TC_H_MAJ (cf_qdisc f)) \/
  (cf_classid f <> 0 /\ tcm_handle msg <> cf_classid f) ->
  (print_class env links f who msg (out, kinds)).2 = (out, kinds).
Proof.
  intros Hm Hf H. pose proof (tcm_handle_range msg Hm) as Hh. unfold print_class.
  destruct (negb _ && negb _); [done|]. cbv zeta. destruct (_ <? 0); [done|].
  assert (class_skipped f msg = true) as ->; [|done]. unfold class_skipped, nonzero_filter. apply orb_true_iff.
  destruct H as [[H1 H2]|[H1 H2]]; [left|right]; apply andb_true_iff; rewrite !negb_true_iff, !Z.eqb_neq; (split; [done|]).
  - by rewrite same_major.
  - done.
Qed.

(** A discipline without classes: the command sends nothing and returns 1.  That is the
    case of the scheduler of this repository. *)
Theorem class_of_classless env cmd flags words argv a w :
  class_words env (S (List.length words)) words no_args = Args a argv -> a_kind a <> "" ->
  u_parse_copt (get_qdisc_kind env (a_kind a) (w_kinds w)).1 = None ->
  tc_class_modify env cmd flags words w =
    Returned 1 (w <| w_kinds := (get_qdisc_kind env (a_kind a) (w_kinds w)).2 |>).
Proof.
  intros Hw Hk Hp. unfold tc_class_modify. rewrite Hw. unfold class_request. rewrite (proj2 (String.eqb_neq _ "") Hk).
  destruct (get_qdisc_kind env (a_kind a) (w_kinds w)) as [q kinds]. cbn [fst snd] in *. by rewrite Hp.
Qed.

(** The filter of an earlier listing counts as given: the second [class show qdisc] of a
    batch ends the program. *)
Theorem class_list_twice env handle rest w :
  cf_qdisc (w_class w) <> 0 -> do_class env ("show" :: "qdisc" :: handle :: rest) w = (Exited 255, "").
Proof.
  intros Hf. change (do_class env ("show" :: "qdisc" :: handle :: rest) w) with
    (tc_class_list env ("qdisc" :: handle :: rest) w).
  unfold tc_class_list. cbn [class_list_words]. change (String.eqb "qdisc" "dev") with false.
  change (String.eqb "qdisc" "qdisc") with true. cbv iota. unfold nonzero_filter.
  by rewrite (proj2 (Z.eqb_neq _ 0) Hf).
Qed.

(** ** The options of a DRR class *)

(** The quantum sent is the one typed, and is printed. *)
Theorem drr_quantum n arg v :
  get_size arg = Some v -> room_for n 1024 12 ->
  exists n', Drr.drr_parse_class_opt ["quantum"; arg] n = Return 0 n' [] /\ nlmsg_len n' = NLMSG_TAIL n + 12 /\
    same_below (NLMSG_TAIL n) (mem n) (mem n') /\
    Drr.drr_print_opt (mem n') (Some (NLMSG_TAIL n)) = (0, "quantum " +:+ sprint_size v +:+ " ").
Proof.
  intros Hv Hroom. pose proof (get_size_range _ _ Hv) as Hr. set (l := [(Drr.TCA_DRR_QUANTUM, le_bytes 4 v)]).
  change 12 with (4 + span l) in Hroom.
  pose proof (nested_ok n 1024 TCA_OPTIONS Drr.TCA_DRR_QUANTUM l Hroom ltac:(done)) as H.
  assert (types_ok l) as Hty by (repeat constructor; vm_compute; congruence). specialize (H Hty).
  set (off := NLMSG_TAIL n) in *.
  change (addattr_nest n 1024 TCA_OPTIONS) with (off, (addattr_l n 1024 TCA_OPTIONS []).2) in H. cbv iota beta in H.
  unfold Drr.drr_parse_class_opt. cbn [Drr.drr_words]. change (String.eqb "quantum" "quantum") with true. cbv iota.
  rewrite Hv. cbv iota. change (0 =? 0) with true. cbv iota. fold off.
  set (n1 := (addattr_l (addattr_l n 1024 TCA_OPTIONS []).2 1024 Drr.TCA_DRR_QUANTUM (le_bytes 4 v)).2).
  change (add_all 1024 l (addattr_l n 1024 TCA_OPTIONS []).2) with n1 in H.
  set (n' := mk_nlmsg (nlmsg_len n1) (set_rta_len off (NLMSG_TAIL n1 - off) (mem n1))).
  change (addattr_nest_end n1 off) with (nlmsg_len n1, n') in H.
  destruct H as (H1 & (A & _) & _ & _ & _ & _ & H4 & H5). exists n'. split; [done|].
  split; [rewrite H5 by done; change (span l) with 8; lia|]. split; [done|].
  unfold Drr.drr_print_opt. rewrite H1. destruct A as (_ & _ & D). change (Z.of_nat (List.length (le_bytes 4 v))) with 4 in D.
  cbn [fst].
  match goal with |- context [?t !!! Z.to_nat Drr.TCA_DRR_QUANTUM] =>
    change (t !!! Z.to_nat Drr.TCA_DRR_QUANTUM) with (Some (off + 4)) end.
  cbv iota. change (RTA_DATA (off + 4)) with (off + 4 + 4). rewrite D.
  by rewrite (word_field _ 0 v Hr) by reflexivity.
Qed.
