(* ===== verification/TcFilter.v ===== *)
(** * Filters (iproute2-3.1.0/tc/tc_filter.c)

    The object [filter] of the program: from the words to the request of a classifier,
    and the listing.  The classifiers are found by name, as the disciplines are. *)

From S2P Require Export TcQdiscProps LlNames.

#[local] Open Scope list_scope.

(** ** Classifiers *)

(** [iproute2-3.1.0/tc/tc.c:65-73 print_nofopt] *)
Definition print_nofopt (f_proto : Z) (m : list Z) (opt : option Z) (fhandle : Z) : Z * string :=
  let fh := "fh " +:+ pad_left 8 (print_x fhandle) +:+ " " in
  let unknown a := fh +:+ "[Unknown filter, optlen=" +:+ print_u (RTA_PAYLOAD m a) +:+ "] " in
  (0, match opt with
      | Some a => if negb (RTA_PAYLOAD m a =? 0) then unknown a else if negb (fhandle =? 0) then fh else ""
      | None => if negb (fhandle =? 0) then fh else ""
      end).

(** The Python fragment in the middle of the function is left out.
    [iproute2-3.1.0/tc/tc.c:75-103 parse_nofopt] *)
Definition parse_nofopt (fhandle : option string) (argv : list string) (n : nlmsghdr) : parse_outcome :=
  match argv with
  | _ :: _ => Return (- 1) n []
  | [] =>
      match fhandle with
      | None => Return 0 n []
      | Some h =>
          match get_u32 h 16 with
          | None => Return (- 1) n []
          | Some handle => Return 0 (set_tcm_handle handle n) []
          end
      end
  end.

Section Filter.
Context (env : tc_env).

(** A classifier that is made up keeps 15 characters of its name.
    [iproute2-3.1.0/tc/tc.c:151-191 get_filter_kind] *)
Definition get_filter_kind (str : string) (kinds : list filter_util) : filter_util * list filter_util :=
  match List.find (fun q => String.eqb (f_id q) str) kinds with
  | Some q => (q, kinds)
  | None =>
      let q := match e_load_filter env str with
               | Some q => q
               | None => mk_filter_util (strncpy16 str) parse_nofopt print_nofopt
               end in
      (q, q :: kinds)
  end.

(** ** The words of a command *)

Definition RTM_NEWTFILTER : Z := 44.
Definition RTM_DELTFILTER : Z := 45.
Definition RTM_GETTFILTER : Z := 46.
Definition ETH_P_ALL : Z := 3.

(** Header, [struct tcmsg] and [MAX_MSG] bytes. *)
Definition FILTER_SIZE : Z := 16420.

#[local] Set Primitive Projections.

(** The locals of the loop; [fa_set] is [protocol_set]. *)
Record filter_args := mk_fargs {
  fa_dev : string; fa_parent : Z; fa_handle : option string; fa_prio : Z; fa_protocol : Z; fa_set : bool;
  fa_est : tc_estimator; fa_kind : option string
}.

#[local] Unset Primitive Projections.

(** [protocol] starts as every protocol for a command that can create a filter.
    [iproute2-3.1.0/tc/tc_filter.c:55-76 tc_filter_modify] *)
Definition no_fargs (cmd flags : Z) : filter_args :=
  mk_fargs "" 0 None 0 (if (cmd =? RTM_NEWTFILTER) && negb (Z.land flags NLM_F_CREATE =? 0) then htons ETH_P_ALL else 0)
    false (mk_estimator 0 0) None.

(** How reading the words ends: as the other loops do, or with the help text and status 0. *)
Inductive filter_words_end := Words (w : args_of filter_args) | Helped.

(** A word is taken at least, so the number of words is fuel enough.
    [iproute2-3.1.0/tc/tc_filter.c:78-136 tc_filter_modify] *)
Fixpoint filter_words (fuel : nat) (argv : list string) (a : filter_args) : filter_words_end :=
  match fuel, argv with
  | _, [] => Words (Args a [])
  | O, _ => Words (Args a argv)
  | S fuel, word :: rest =>
      let with_arg (given : bool) (f : string -> option filter_args) :=
        match rest with
        | [] => Words ArgExit
        | arg :: rest =>
            if given then Words ArgExit
            else match f arg with Some a => filter_words fuel rest a | None => Words ArgExit end
        end in
      if String.eqb word "dev" then
        with_arg (negb (String.eqb (fa_dev a) "")) (fun arg => Some (a <| fa_dev := strncpy16 arg |>))
      else if String.eqb word "root" then
        if negb (fa_parent a =? 0) then Words ArgError else filter_words fuel rest (a <| fa_parent := TC_H_ROOT |>)
      else if String.eqb word "parent" then
        with_arg (negb (fa_parent a =? 0))
          (fun arg => match get_tc_classid arg with Some h => Some (a <| fa_parent := h |>) | None => None end)
      else if String.eqb word "handle" then
        with_arg (match fa_handle a with Some _ => true | None => false end)
          (fun arg => Some (a <| fa_handle := Some arg |>))
      else if matches word "preference" || matches word "priority" then
        with_arg (negb (fa_prio a =? 0))
          (fun arg => match get_u32 arg 0 with Some p => Some (a <| fa_prio := p |>) | None => None end)
      else if matches word "protocol" then
        with_arg (fa_set a)
          (fun arg => match ll_proto_a2n arg with
             | Some id => Some ((a <| fa_protocol := id |>) <| fa_set := true |>)
             | None => None end)
      else if matches word "estimator" then
        match parse_estimator (e_log env) argv (fa_est a) with
        | Args est argv => filter_words fuel (tl argv) (a <| fa_est := est |>)
        | ArgError => Words ArgError
        | ArgExit => Words ArgExit
        end
      else if matches word "help" then Helped
      else Words (Args (a <| fa_kind := Some (strncpy16 word) |>) rest)
  end.

(** ** The request *)

(** [iproute2-3.1.0/include/linux/pkt_sched.h:70-70 TC_H_MAKE] *)
Definition TC_H_MAKE (maj min : Z) : Z := Z.lor (TC_H_MAJ maj) (TC_H_MIN min).

(** [prio<<16] and the protocol.  [iproute2-3.1.0/tc/tc_filter.c:138-138 tc_filter_modify] *)
Definition filter_info (prio protocol : Z) : Z := TC_H_MAKE (u32 (Z.shiftl prio 16)) protocol.

Definition set_tcm_info (v : Z) (n : nlmsghdr) : nlmsghdr := n <| mem := store32 32 v (mem n) |>.

(** Header, parent and information.  [iproute2-3.1.0/tc/tc_filter.c:64-73 tc_filter_modify] *)
Definition filter_start (cmd flags : Z) (a : filter_args) : nlmsghdr :=
  set_tcm_info (filter_info (fa_prio a) (fa_protocol a)) (set_tcm_parent (fa_parent a)
    (mk_nlmsg 36 (store16 4 cmd (store16 6 (Z.lor NLM_F_REQUEST flags) (replicate (Z.to_nat FILTER_SIZE) 0))))).

(** [iproute2-3.1.0/tc/tc_filter.c:140-141 tc_filter_modify] *)
Definition filter_kind (a : filter_args) (n : nlmsghdr) : nlmsghdr :=
  match fa_kind a with
  | Some "" | None => n
  | Some k => (addattr_l n FILTER_SIZE TCA_KIND (string_bytes k ++ [0])).2
  end.

(** The estimator goes behind the options.  [iproute2-3.1.0/tc/tc_filter.c:159-160 tc_filter_modify] *)
Definition filter_rate (a : filter_args) (n : nlmsghdr) : nlmsghdr :=
  if est_ewma_log (fa_est a) =? 0 then n
  else (addattr_l n FILTER_SIZE TCA_RATE
          (le_bytes 1 (est_interval (fa_est a)) ++ le_bytes 1 (est_ewma_log (fa_est a)))).2.

(** [iproute2-3.1.0/tc/tc_filter.c:138-160 tc_filter_modify] *)
Definition filter_request (cmd flags : Z) (a : filter_args) (argv : list string) (kinds : list filter_util) :
    request * list filter_util :=
  let n := filter_kind a (filter_start cmd flags a) in
  match fa_kind a with
  | Some k =>
      let '(q, kinds) := get_filter_kind k kinds in
      (match f_parse_fopt q (fa_handle a) argv n with
       | Return r n _ => if r =? 0 then Ready (filter_rate a n) else Refused 1
       | Exit status => Ended status
       end, kinds)
  | None =>
      (match fa_handle a, argv with None, [] => Ready (filter_rate a n) | _, _ => Refused (- 1) end, kinds)
  end.

Definition with_kinds (kinds : list filter_util) (w : tc_world) : tc_world :=
  w <| w_filter := ((w_filter w) <| f_kinds := kinds |>) |>.

(** [iproute2-3.1.0/tc/tc_filter.c:48-176 tc_filter_modify] *)
Definition tc_filter_modify (cmd flags : Z) (argv : list string) (w : tc_world) : outcome Z tc_world :=
  match filter_words (S (List.length argv)) argv (no_fargs cmd flags) with
  | Helped => Returned 0 w
  | Words ArgError => Returned (- 1) w
  | Words ArgExit => Exited 255
  | Words (Args a argv) =>
      let '(req, kinds) := filter_request cmd flags a argv (f_kinds (w_filter w)) in
      let w := with_kinds kinds w in
      match req with
      | Refused r => Returned r w
      | Ended status => Exited status
      | Ready n =>
          if String.eqb (fa_dev a) "" then send_request env n w
          else
            match find_device env (fa_dev a) w with
            | Returned idx w => if idx =? 0 then Returned 1 w else send_request env (set_tcm_ifindex idx n) w
            | o => o
            end
      end
  end.

(** ** Listing filters *)

(** The text printed and the state of the filters. *)
Definition filter_output : Type := string * filter_state.

(** [!f || f != v]: a field is shown unless the listing is limited to its value. *)
Definition not_limited (f v : Z) : bool := (f =? 0) || negb (f =? v).

(** Where a filter is.  [iproute2-3.1.0/tc/tc_filter.c:213-227 print_filter] *)
Definition filter_place (links : ll_map) (s : filter_state) (msg : list Z) : string :=
  (if h_type msg 0 =? RTM_DELTFILTER then "deleted " else "") +:+
  "filter " +:+
  (if not_limited (ff_ifindex s) (tcm_ifindex msg)
   then "dev " +:+ ll_index_to_name links (u32 (tcm_ifindex msg)) +:+ " " else "") +:+
  (if not_limited (ff_parent s) (tcm_parent msg) then
     if tcm_parent msg =? TC_H_ROOT then "root " else "parent " +:+ print_tc_classid 256 (tcm_parent msg) +:+ " "
   else "").

(** The filter of the message, without its attributes; [s] holds the protocol of this
    message already.  [iproute2-3.1.0/tc/tc_filter.c:213-243 print_filter] *)
Definition filter_head (links : ll_map) (s : filter_state) (msg : list Z) (kind : string) : string :=
  filter_place links s msg +:+
  (if tcm_info msg =? 0 then "" else
     let prio := Z.shiftr (TC_H_MAJ (tcm_info msg)) 16 in
     (if not_limited (ff_protocol s) (f_proto s) && negb (f_proto s =? 0)
      then "protocol " +:+ ll_proto_n2a (f_proto s) 64 +:+ " " else "") +:+
     (if not_limited (ff_prio s) prio && negb (prio =? 0) then "pref " +:+ print_u prio +:+ " " else "")) +:+
  kind +:+ " ".

(** [iproute2-3.1.0/tc/tc_filter.c:184-260 print_filter] *)
Definition print_filter (links : ll_map) : @rtnl_filter_t filter_output :=
  fun _ msg '(out, s) =>
    if negb (h_type msg 0 =? RTM_NEWTFILTER) && negb (h_type msg 0 =? RTM_DELTFILTER) then (0, (out, s))
    else
      let len := s32 (h_len msg 0 - 36) in
      if len <? 0 then (- 1, (out, s))
      else
        let tb := (parse_rtattr msg 8 36 len).1 in
        match tb !!! Z.to_nat TCA_KIND with
        | None => (- 1, (out, s))
        | Some a =>
            let kind := cstring (drop (Z.to_nat (RTA_DATA a)) msg) in
            let s := if tcm_info msg =? 0 then s else s <| f_proto := TC_H_MIN (tcm_info msg) |> in
            let '(q, kinds) := get_filter_kind kind (f_kinds s) in
            let s := s <| f_kinds := kinds |> in
            let options :=
              match tb !!! Z.to_nat TCA_OPTIONS with
              | Some _ as o => (f_print_fopt q (f_proto s) msg o (tcm_handle msg)).2
              | None => ""
              end in
            let present k := match tb !!! k with Some _ => true | None => false end in
            let stats :=
              if e_stats env && (present TCA_STATS || present TCA_STATS2)
              then (print_tcstats_attr (e_iec env) msg tb " ").1 +:+ newline else "" in
            (0, (out +:+ filter_head links s msg kind +:+ options +:+ newline +:+ stats, s))
        end.

(** The locals of the loop over the words of a listing. *)
Record list_args := mk_largs { la_dev : string; la_parent : Z; la_handle : bool; la_prio : Z; la_protocol : Z }.

(** The globals are written as the words are read; the handle is read and not used.
    [iproute2-3.1.0/tc/tc_filter.c:274-325 tc_filter_list] *)
Fixpoint filter_list_words (argv : list string) (l : list_args) (s : filter_state) :
    args_of list_args * filter_state :=
  match argv with
  | [] => (Args l [], s)
  | word :: argv =>
      if String.eqb word "dev" then
        match argv with
        | [] => (ArgExit, s)
        | arg :: argv =>
            if negb (String.eqb (la_dev l) "") then (ArgExit, s)
            else filter_list_words argv (mk_largs (strncpy16 arg) (la_parent l) (la_handle l) (la_prio l) (la_protocol l)) s
        end
      else if String.eqb word "root" then
        if negb (la_parent l =? 0) then (ArgError, s)
        else filter_list_words argv (mk_largs (la_dev l) TC_H_ROOT (la_handle l) (la_prio l) (la_protocol l))
               (s <| ff_parent := TC_H_ROOT |>)
      else if String.eqb word "parent" then
        match argv with
        | [] => (ArgExit, s)
        | arg :: argv =>
            if negb (la_parent l =? 0) then (ArgExit, s)
            else match get_tc_classid arg with
                 | None => (ArgExit, s)
                 | Some h =>
                     filter_list_words argv (mk_largs (la_dev l) h (la_handle l) (la_prio l) (la_protocol l))
                       (s <| ff_parent := h |>)
                 end
        end
      else if String.eqb word "handle" then
        match argv with
        | [] => (ArgExit, s)
        | _ :: argv =>
            if la_handle l then (ArgExit, s)
            else filter_list_words argv (mk_largs (la_dev l) (la_parent l) true (la_prio l) (la_protocol l)) s
        end
      else if matches word "preference" || matches word "priority" then
        match argv with
        | [] => (ArgExit, s)
        | arg :: argv =>
            if negb (la_prio l =? 0) then (ArgExit, s)
            else match get_u32 arg 0 with
                 | None => (ArgExit, s)
                 | Some p =>
                     filter_list_words argv (mk_largs (la_dev l) (la_parent l) (la_handle l) p (la_protocol l))
                       (s <| ff_prio := p |>)
                 end
        end
      else if matches word "protocol" then
        match argv with
        | [] => (ArgExit, s)
        | arg :: argv =>
            if negb (la_protocol l =? 0) then (ArgExit, s)
            else match ll_proto_a2n arg with
                 | None => (ArgExit, s)
                 | Some id =>
                     filter_list_words argv (mk_largs (la_dev l) (la_parent l) (la_handle l) (la_prio l) id)
                       (s <| ff_protocol := id |>)
                 end
        end
      else if matches word "help" then filter_list_words argv l s
      else (ArgError, s)
  end.

(** The dump of the filters of a device, through [print_filter].
    [iproute2-3.1.0/tc/tc_filter.c:338-347 tc_filter_list] *)
Definition dump_filter_list (ifindex : Z) (l : list_args) (w : tc_world) : result :=
  let tcm := [0; 0; 0; 0] ++ le_bytes 4 ifindex ++ le_bytes 4 0 ++ le_bytes 4 (la_parent l) ++
             le_bytes 4 (filter_info (la_prio l) (la_protocol l)) in
  let '(rth, req) := rtnl_dump_request (w_rth w) RTM_GETTFILTER tcm in
  let w := (w <| w_rth := rth |>) <| w_outbox := w_outbox w ++ [req] |> in
  if e_send env req <? 0 then (Returned 1 w, "")
  else
    let '(o, inbox) := rtnl_dump_filter rth (print_filter (w_links w)) None (e_buf env) (w_inbox w) ("", w_filter w) in
    let w := w <| w_inbox := inbox |> in
    match o with
    | Returned r (out, s) => (Returned (if r <? 0 then 1 else 0) (w <| w_filter := s |>), out)
    | Exited status => (Exited status, "")
    | Waiting (out, s) => (Waiting (w <| w_filter := s |>), out)
    | Wild => (Wild, "")
    end.

(** [iproute2-3.1.0/tc/tc_filter.c:263-350 tc_filter_list] *)
Definition tc_filter_list (argv : list string) (w : tc_world) : result :=
  let '(words, s) := filter_list_words argv (mk_largs "" 0 false 0 0) (w_filter w) in
  let w := w <| w_filter := s |> in
  match words with
  | ArgError => (Returned (- 1) w, "")
  | ArgExit => (Exited 255, "")
  | Args l _ =>
      if String.eqb (la_dev l) "" then
        match init_links env w with Returned _ w => dump_filter_list 0 l w | o => (o, "") end
      else
        match find_device env (la_dev l) w with
        | Returned idx w =>
            if idx =? 0 then (Returned 1 w, "")
            else dump_filter_list idx l (w <| w_filter := ((w_filter w) <| ff_ifindex := s32 idx |>) |>)
        | o => (o, "")
        end
  end.

(** [iproute2-3.1.0/tc/tc_filter.c:352-377 do_filter] *)
Definition do_filter (argv : list string) (w : tc_world) : result :=
  match argv with
  | [] => tc_filter_list [] w
  | cmd :: argv =>
      if matches cmd "add" then (tc_filter_modify RTM_NEWTFILTER (Z.lor NLM_F_EXCL NLM_F_CREATE) argv w, "")
      else if matches cmd "change" then (tc_filter_modify RTM_NEWTFILTER 0 argv w, "")
      else if matches cmd "replace" then (tc_filter_modify RTM_NEWTFILTER NLM_F_CREATE argv w, "")
      else if matches cmd "delete" then (tc_filter_modify RTM_DELTFILTER 0 argv w, "")
      else if matches cmd "list" || matches cmd "show" || matches cmd "lst" then tc_filter_list argv w
      else if matches cmd "help" then (Returned 0 w, "")
      else (Returned (- 1) w, "")
  end.
End Filter.

(** ** What a filter shows of what was typed *)

(** Priority and protocol share a word: the protocol is kept, of the priority the last
    16 bits are. *)
Lemma filter_info_fields prio protocol :
  0 <= protocol < 2 ^ 16 -> 0 <= prio < 2 ^ 32 ->
  TC_H_MIN (filter_info prio protocol) = protocol /\
  Z.shiftr (TC_H_MAJ (filter_info prio protocol)) 16 = prio mod 2 ^ 16.
Proof.
  intros Hp Hr. unfold filter_info, TC_H_MAKE.
  assert (u32 (Z.shiftl prio 16) = prio mod 2 ^ 16 * 2 ^ 16) as ->.
  { rewrite Z.shiftl_mul_pow2 by lia. unfold u32. change (2 ^ 32) with (2 ^ 16 * 2 ^ 16). rewrite Z.mul_mod_distr_r by lia.
    reflexivity. }
  pose proof (Z.mod_pos_bound prio (2 ^ 16) ltac:(lia)) as Hm. set (k := prio mod 2 ^ 16) in *.
  destruct (TC_H_parts (k * 2 ^ 16) ltac:(lia)) as (_ & -> & _). rewrite Z.div_mul by lia.
  destruct (TC_H_parts protocol ltac:(lia)) as (-> & _ & _). rewrite (Z.mod_small protocol) by lia.
  assert (Z.lor (k * 2 ^ 16) protocol = k * 2 ^ 16 + protocol) as ->.
  { pose proof (Z.add_lor_land (k * 2 ^ 16) protocol) as E. enough (Z.land (k * 2 ^ 16) protocol = 0) as E0
      by (rewrite E0, Z.add_0_r in E; exact E).
    apply Z.bits_inj'. intros i Hi. rewrite Z.land_spec, Z.bits_0.
    destruct (Z.ltb_spec i 16) as [H16|H16]; [by rewrite Z.mul_pow2_bits_low by lia|].
    replace protocol with (protocol mod 2 ^ 16) by (apply Z.mod_small; lia).
    rewrite Z.mod_pow2_bits_high by lia. apply andb_false_r. }
  destruct (TC_H_parts (k * 2 ^ 16 + protocol) ltac:(lia)) as (-> & _ & ->).
  split; [rewrite Z.add_comm, Z.mod_add by lia; by apply Z.mod_small|].
  rewrite Z.add_comm, Z.div_add by lia. rewrite (Z.div_small protocol) by lia. lia.
Qed.

(** A priority of 65536 is sent as none. *)
Example priority_lost : filter_info 65536 8 = filter_info 0 8.
Proof. vm_compute. reflexivity. Qed.

(** A filter added with a known protocol and a priority of 16 bits is listed with both, and the name
    shown is read back to the protocol. *)
Theorem filter_shown links s msg kind prio protocol :
  0 < prio < 2 ^ 16 -> 0 < protocol < 2 ^ 16 -> existsb (fun e => e.1 =? htons protocol) llproto_names = true ->
  tcm_info msg = filter_info prio protocol -> f_proto s = TC_H_MIN (tcm_info msg) ->
  ff_protocol s = 0 -> ff_prio s = 0 ->
  filter_head links s msg kind =
    filter_place links s msg +:+ "protocol " +:+ ll_proto_n2a protocol 64 +:+ " pref " +:+ print_u prio +:+ " " +:+ kind +:+ " " /\
  ll_proto_a2n (ll_proto_n2a protocol 64) = Some protocol.
Proof.
  intros Hr Hp Hk Hi Hf H1 H2. destruct (filter_info_fields prio protocol ltac:(lia) ltac:(lia)) as [E1 E2].
  rewrite Z.mod_small in E2 by lia. split.
  - unfold filter_head. rewrite Hf, H1, H2, Hi, E1, E2.
    assert ((filter_info prio protocol =? 0) = false) as ->.
    { apply Z.eqb_neq. intros E. rewrite E in E1. change (TC_H_MIN 0) with 0 in E1. lia. }
    unfold not_limited. change (0 =? 0) with true.
    rewrite (proj2 (Z.eqb_neq protocol 0)), (proj2 (Z.eqb_neq prio 0)) by lia. cbn [orb andb negb]. cbv zeta.
    by rewrite !append_assoc.
  - pose proof (proto_roundtrip protocol 64 ltac:(lia) ltac:(lia)) as E. by rewrite Hk in E.
Qed.

(** A command whose words are accepted and whose device is in the map sends one datagram,
    the request for that device, and returns 0 or 2 by the answer of the kernel; the
    classifier it names is registered. *)
Theorem filter_modify_sends env cmd flags argv a rest n kinds idx w ack after :
  filter_words env (S (List.length argv)) argv (no_fargs cmd flags) = Words (Args a rest) ->
  filter_request env cmd flags a rest (f_kinds (w_filter w)) = (Ready n, kinds) ->
  fa_dev a <> "" -> initialized (w_links w) = true ->
  (ll_name_to_index (e_nametoindex env) (Some (fa_dev a)) (w_links w)).1 = idx -> idx <> 0 ->
  (forall d, 0 <= e_send env d) -> answered w ack after ->
  exists w', tc_filter_modify env cmd flags argv w = Returned (if m_error ack =? 0 then 0 else 2) w' /\
    w_outbox w' = w_outbox w ++ [wire (talk_request (w_rth w) (set_tcm_ifindex idx n) false).2] /\
    w_inbox w' = map deliver after.
Proof.
  intros Hw Hr Hd Hinit Hidx Hne Hsend Han. unfold tc_filter_modify. rewrite Hw, Hr.
  rewrite (proj2 (String.eqb_neq (fa_dev a) "") Hd). unfold find_device, init_links, ll_init_map.
  change (w_links (with_kinds kinds w)) with (w_links w). rewrite Hinit. cbv iota beta zeta.
  set (w1 := set_field w_inbox _ _). change (w_links (w1 <| w_links := w_links w |>)) with (w_links w).
  destruct (ll_name_to_index (e_nametoindex env) (Some (fa_dev a)) (w_links w)) as [i links]. cbn [fst] in Hidx. subst i.
  rewrite (proj2 (Z.eqb_neq idx 0) Hne). set (w2 := set_field w_links _ _).
  assert (answered w2 ack after) as Han2 by (destruct Han as [A1 A2]; by split).
  destruct (send_request_ok env (replicate 256 0) eq_refl (set_tcm_ifindex idx n) w2 ack after Hsend Han2) as (w' & E & Ho & Hi).
  exists w'. split; [exact E|]. split; [exact Ho|exact Hi].
Qed.

(** A handle without a classifier is refused: nothing is sent. *)
Theorem filter_needs_kind env cmd flags argv a rest w :
  filter_words env (S (List.length argv)) argv (no_fargs cmd flags) = Words (Args a rest) ->
  fa_kind a = None -> fa_handle a <> None -> exists w',
    tc_filter_modify env cmd flags argv w = Returned (- 1) w' /\ w_outbox w' = w_outbox w /\ w_inbox w' = w_inbox w.
Proof.
  intros Hw Hk Hh. unfold tc_filter_modify. rewrite Hw. unfold filter_request. rewrite Hk.
  destruct (fa_handle a); [|done]. by eexists.
Qed.
