(* ===== verification/TcAction.v ===== *)
(** * Actions (iproute2-3.1.0/tc/m_action.c)

    The object [actions] of the program, and the parser and the printer of actions that
    filters use.  An action that cannot be found is taken to be [gact]: its name is
    overwritten where it stands, in a local array, in a message, or in a literal. *)

From S2P Require Export TcFilter AttrTree.

#[local] Open Scope list_scope.

(** ** Kinds *)

(** [iproute2-3.1.0/tc/m_action.c:65-71 print_noaopt] *)
Definition print_noaopt (show_stats : bool) (m : list Z) (opt : option Z) : Z * string :=
  (0, match opt with
      | Some a =>
          if RTA_PAYLOAD m a =? 0 then ""
          else "[Unknown action, optlen=" +:+ print_u (RTA_PAYLOAD m a) +:+ "] "
      | None => ""
      end).

(** [iproute2-3.1.0/tc/m_action.c:73-84 parse_noaopt] *)
Definition parse_noaopt (argv : list string) (code : Z) (n : nlmsghdr) : aopt_outcome := AReturn (- 1) n argv.

Definition noact : action_util := mk_action_util "noact" parse_noaopt print_noaopt.

Section Action.
Context (env : tc_env).

(** The list is searched before the libraries.
    [iproute2-3.1.0/tc/m_action.c:96-120 get_action_kind] *)
Definition find_action (str : string) (kinds : list action_util) : option (action_util * list action_util) :=
  match List.find (fun a => String.eqb (ac_id a) str) kinds with
  | Some a => Some (a, kinds)
  | None => match e_load_action env str with Some a => Some (a, a :: kinds) | None => None end
  end.

(** With [str] as it is afterwards: a name that is not found is overwritten by [gact].
    [iproute2-3.1.0/tc/m_action.c:86-139 get_action_kind] *)
Definition get_action_kind (str : string) (kinds : list action_util) : action_util * string * list action_util :=
  match find_action str kinds with
  | Some (a, kinds) => (a, str, kinds)
  | None =>
      match find_action "gact" kinds with
      | Some (a, kinds) => (a, "gact", kinds)
      | None => (noact, "gact", noact :: kinds)
      end
  end.

(** The call with the literal [gact], which must not be written to: [None] if it would be. *)
Definition load_gact (kinds : list action_util) : option (list action_util) :=
  match find_action "gact" kinds with Some (_, kinds) => Some kinds | None => None end.

(** [iproute2-3.1.0/tc/m_action.c:141-152 new_cmd] *)
Definition new_cmd (word : string) : bool :=
  matches word "change" || matches word "replace" || matches word "delete" || matches word "add".

(** ** Parsing *)

Definition MAX_MSG : Z := 16384.
Definition TCA_ACT_TAB : Z := 1.

(** [iproute2-3.1.0/include/linux/pkt_cls.h:78-85 TCA_ACT_KIND] *)
Definition TCA_ACT_KIND : Z := 1.
Definition TCA_ACT_OPTIONS : Z := 2.
Definition TCA_ACT_INDEX : Z := 3.
Definition TCA_ACT_STATS : Z := 4.
Definition TCA_ACT_MAX : Z := 5.
Definition TCA_ACT_MAX_PRIO : Z := 32.

#[local] Set Primitive Projections.

(** The locals of the loop, with the message and the kinds registered. *)
Record parse_locals := mk_plocals { pl_prio : Z; pl_ok : Z; pl_eap : Z; pl_kinds : list action_util; pl_n : nlmsghdr }.

#[local] Unset Primitive Projections.

(** How the loop ends: the words are used up or [break]; [goto done]; a value is bad; the
    program ends; a literal is written to; the words do not get fewer. *)
Inductive words_end :=
| LoopEnd (argv : list string) (p : parse_locals)
| LoopDone (argv : list string) (p : parse_locals)
| LoopBad (kinds : list action_util)
| LoopExit (status : Z)
| LoopWild
| LoopMore.

(** One action: its attribute is opened, named and filled by its parser.
    [iproute2-3.1.0/tc/m_action.c:193-222 parse_action] *)
Definition parse_one_action (argv : list string) (p : parse_locals) (word : string) : words_end :=
  let '(a, k, kinds) := get_action_kind (strncpy16 word) (pl_kinds p) in
  let n := pl_n p in
  let tail := NLMSG_TAIL n in
  let prio := pl_prio p + 1 in
  let n := (addattr_l n MAX_MSG prio []).2 in
  let n := (addattr_l n MAX_MSG TCA_ACT_KIND (string_bytes k ++ [0])).2 in
  match ac_parse_aopt a argv TCA_ACT_OPTIONS n with
  | AExit status => LoopExit status
  | AReturn ret n argv =>
      if ret <? 0 then LoopBad kinds
      else
        let n := mk_nlmsg (nlmsg_len n) (set_rta_len tail (NLMSG_TAIL n - tail) (mem n)) in
        LoopEnd argv (mk_plocals prio (pl_ok p + 1) 0 kinds n)
  end.

(** [iproute2-3.1.0/tc/m_action.c:174-224 parse_action] *)
Fixpoint action_words (fuel : nat) (argv : list string) (p : parse_locals) : words_end :=
  match fuel, argv with
  | _, [] => LoopEnd [] p
  | O, _ => LoopMore
  | S fuel, word :: rest =>
      if String.eqb word "action" then
        match load_gact (pl_kinds p) with
        | Some kinds => action_words fuel rest (mk_plocals (pl_prio p) (pl_ok p) 1 kinds (pl_n p))
        | None => LoopWild
        end
      else if String.eqb word "help" then LoopBad (pl_kinds p)
      else if new_cmd word then if pl_ok p =? 0 then LoopDone argv p else LoopEnd argv p
      else
        match parse_one_action argv p word with
        | LoopEnd argv p => action_words fuel argv p
        | e => e
        end
  end.

(** How [parse_action] ends. *)
Inductive parse_end :=
| Parsed (argv : list string) (n : nlmsghdr) (kinds : list action_util)
| Unparsed (kinds : list action_util)
| ParseExit (status : Z)
| ParseWild
| ParseMore.

(** A parser that returns takes a word at least, so the number of words is fuel enough.
    [iproute2-3.1.0/tc/m_action.c:154-242 parse_action] *)
Definition parse_action (argv : list string) (tca_id : Z) (n : nlmsghdr) (kinds : list action_util) : parse_end :=
  match argv with
  | [] => Unparsed kinds
  | _ =>
      let tail2 := NLMSG_TAIL n in
      let n := (addattr_l n MAX_MSG tca_id []).2 in
      match action_words (List.length argv) argv (mk_plocals 0 0 0 kinds n) with
      | LoopEnd argv p =>
          if 0 <? pl_eap p then Unparsed (pl_kinds p)
          else
            let n := pl_n p in
            Parsed argv (mk_nlmsg (nlmsg_len n) (set_rta_len tail2 (NLMSG_TAIL n - tail2) (mem n))) (pl_kinds p)
      | LoopDone argv p => Parsed argv (pl_n p) (pl_kinds p)
      | LoopBad kinds => Unparsed kinds
      | LoopExit status => ParseExit status
      | LoopWild => ParseWild
      | LoopMore => ParseMore
      end
  end.

(** ** Printing *)

(** The value, the text, the message, in which the name may have been overwritten, and
    the globals.  [iproute2-3.1.0/tc/m_action.c:244-285 tc_print_one_action] *)
Definition tc_print_one_action (msg : list Z) (arg : Z) (s : action_state) : Z * string * (list Z * action_state) :=
  let tb := (parse_rtattr_nested msg TCA_ACT_MAX arg).1 in
  match tb !!! Z.to_nat TCA_ACT_KIND with
  | None => (- 1, "", (msg, s))
  | Some ka =>
      let name := cstring (drop (Z.to_nat (RTA_DATA ka)) msg) in
      let '(a, name', kinds) := get_action_kind name (as_kinds s) in
      let msg := if String.eqb name' name then msg else store_at (RTA_DATA ka) (string_bytes name' ++ [0]) msg in
      let s := s <| as_kinds := kinds |> in
      if tab_flush s then (0, " " +:+ ac_id a +:+ " " +:+ newline, (msg, s <| tab_flush := false |>))
      else
        let '(err, text) := ac_print_aopt a (e_stats env) msg (tb !!! Z.to_nat TCA_ACT_OPTIONS) in
        if err <? 0 then (err, text, (msg, s))
        else
          let stats :=
            match tb !!! Z.to_nat TCA_ACT_STATS with
            | Some st =>
                if e_stats env
                then tab +:+ "Action statistics:" +:+ newline +:+
                     (print_tcstats2_attr (e_iec env) msg st tab).1 +:+ newline
                else ""
            | None => ""
            end in
          (0, text +:+ stats, (msg, s))
  end.

(** The entries of the table from the order [i] on.
    [iproute2-3.1.0/tc/m_action.c:304-312 tc_print_action] *)
Fixpoint print_orders (k : nat) (i : Z) (tb : list (option Z)) (msg : list Z) (s : action_state) (out : string) :
    string * (list Z * action_state) :=
  match k with
  | O => (out, (msg, s))
  | S k =>
      match tb !!! Z.to_nat i with
      | None => print_orders k (i + 1) tb msg s out
      | Some a =>
          let '(err, text, (msg, s)) := tc_print_one_action msg a s in
          let out := out +:+ newline +:+ tab +:+ "action order " +:+ print_d (s32 (i + batch_c s)) +:+ ": " +:+ text +:+
                     (if err <? 0 then "Error printing action" +:+ newline else "") in
          print_orders k (i + 1) tb msg s out
      end
  end.

(** [iproute2-3.1.0/tc/m_action.c:287-316 tc_print_action] *)
Definition tc_print_action (msg : list Z) (arg : option Z) (s : action_state) : Z * string * (list Z * action_state) :=
  match arg with
  | None => (0, "", (msg, s))
  | Some arg =>
      let tb := (parse_rtattr_nested msg TCA_ACT_MAX_PRIO arg).1 in
      match tab_flush s, tb !!! 0%nat, tb !!! 1%nat with
      | true, Some a, None => tc_print_one_action msg a s
      | _, _, _ =>
          let '(out, (msg, s)) := print_orders (Z.to_nat TCA_ACT_MAX_PRIO) 0 tb msg s "" in
          (0, out, (msg, s <| batch_c := s32 (batch_c s + TCA_ACT_MAX_PRIO) |>))
      end
  end.

Definition RTM_NEWACTION : Z := 48.
Definition RTM_DELACTION : Z := 49.
Definition RTM_GETACTION : Z := 50.
Definition NLM_F_ROOT : Z := 256.

(** The text printed and the globals. *)
Definition action_output : Type := string * action_state.

(** The handler works on a copy of its message: what it overwrites there is not seen by the
    messages behind it.  [iproute2-3.1.0/tc/m_action.c:318-356 print_action] *)
Definition print_action : @rtnl_filter_t action_output :=
  fun _ msg '(out, s) =>
    let len := s32 (h_len msg 0 - 20) in
    if len <? 0 then (- 1, (out, s))
    else
      let tb := (parse_rtattr msg 1 20 len).1 in
      match tb !!! Z.to_nat TCA_ACT_TAB with
      | None => (- 1, (out, s))
      | Some _ as arg =>
          let type := h_type msg 0 in
          let '(out, s) :=
            if type =? RTM_DELACTION then
              if negb (Z.land (load16 msg 6) NLM_F_ROOT =? 0) then (out +:+ "Flushed table ", s <| tab_flush := true |>)
              else (out +:+ "deleted action ", s)
            else (out, s) in
          let out := if type =? RTM_NEWACTION then out +:+ "Added action " else out in
          let '(_, text, (_, s)) := tc_print_action msg arg s in
          (0, (out +:+ text, s))
      end.

(** ** Commands *)

(** Header, [struct tcamsg] and [MAX_MSG] bytes. *)
Definition ACTION_SIZE : Z := 16404.

(** [iproute2-3.1.0/tc/m_action.c:378-387 tc_action_gd] *)
Definition action_request (cmd flags : Z) : nlmsghdr :=
  mk_nlmsg 20 (store16 4 cmd (store16 6 flags (replicate (Z.to_nat ACTION_SIZE) 0))).

Definition with_akinds (kinds : list action_util) (w : tc_world) : tc_world :=
  w <| w_action := ((w_action w) <| as_kinds := kinds |>) |>.

(** A command ends with a value and the words left. *)
Definition command_end : Type := outcome (Z * list string) tc_world.

(** [iproute2-3.1.0/tc/m_action.c:470-508 tc_action_modify] *)
Definition tc_action_modify (cmd flags : Z) (argv0 : list string) (w : tc_world) : command_end :=
  let n := action_request cmd (Z.lor NLM_F_REQUEST flags) in
  let tail := NLMSG_TAIL n in
  match parse_action (tl argv0) TCA_ACT_TAB n (as_kinds (w_action w)) with
  | Unparsed kinds => Returned (- 1, argv0) (with_akinds kinds w)
  | ParseExit status => Exited status
  | ParseWild | ParseMore => Wild
  | Parsed argv n kinds =>
      let n := mk_nlmsg (nlmsg_len n) (set_rta_len tail (NLMSG_TAIL n - tail) (mem n)) in
      match send_request env n (with_akinds kinds w) with
      | Returned r w => Returned (if r =? 0 then 0 else - 1, argv) w
      | Exited status => Exited status
      | Waiting w => Waiting w
      | Wild => Wild
      end
  end.

(** The last byte of the local name is never written: a name of 15 characters or more has
    no end that is known. *)
Definition unterminated (word : string) : bool := (15 <=? String.length word)%nat.

(** How the loop over the actions to get or delete ends. *)
Inductive gd_end :=
| GdEnd (n : nlmsghdr) (kinds : list action_util)
| GdBad (kinds : list action_util)
| GdExit
| GdWild.

(** [iproute2-3.1.0/tc/m_action.c:440-444 tc_action_gd] *)
Definition add_index (prio : Z) (k : string) (i : Z) (n : nlmsghdr) : nlmsghdr :=
  let tail2 := NLMSG_TAIL n in
  let n := (addattr_l n MAX_MSG prio []).2 in
  let n := (addattr_l n MAX_MSG TCA_ACT_KIND (string_bytes k ++ [0])).2 in
  let n := (addattr32 n MAX_MSG TCA_ACT_INDEX i).2 in
  mk_nlmsg (nlmsg_len n) (set_rta_len tail2 (NLMSG_TAIL n - tail2) (mem n)).

(** [iproute2-3.1.0/tc/m_action.c:395-446 tc_action_gd] *)
Fixpoint gd_words (argv : list string) (prio : Z) (kinds : list action_util) (n : nlmsghdr) : gd_end :=
  match argv with
  | [] => GdEnd n kinds
  | word :: argv =>
      if String.eqb word "action" then gd_words argv prio kinds n
      else if String.eqb word "help" then GdBad kinds
      else if unterminated word then GdWild
      else
        let '(a, k, kinds) := get_action_kind word kinds in
        if negb (String.eqb (ac_id a) k) then GdBad kinds
        else
          match argv with
          | [] => GdBad kinds
          | word :: argv =>
              if matches word "index" then
                match argv with
                | [] => GdExit
                | arg :: argv =>
                    match get_u32 arg 10 with
                    | None => GdBad kinds
                    | Some i => gd_words argv (prio + 1) kinds (add_index (prio + 1) k i n)
                    end
                end
              else GdBad kinds
          end
  end.

(** The request sent; the answer to [RTM_GETACTION] is written over it and printed.
    [iproute2-3.1.0/tc/m_action.c:450-468 tc_action_gd] *)
Definition gd_talk (cmd : Z) (n : nlmsghdr) (argv0 : list string) (w : tc_world) : command_end * string :=
  let wanted := cmd =? RTM_GETACTION in
  let rth := start_dump (w_rth w) in
  let n := n <| mem := store32 8 (rth_seq rth) (mem n) |> in
  let dgram := wire (talk_request rth n wanted).2 in
  let '(rth, n, (o, inbox)) := rtnl_talk (A := unit) (e_send env dgram) rth n 0 wanted None (w_inbox w) tt in
  let w := ((w <| w_rth := rth |>) <| w_inbox := inbox |>) <| w_outbox := w_outbox w ++ [dgram] |> in
  match o with
  | Returned r _ =>
      if r_value r <? 0 then (Returned (1, argv0) w, "")
      else if wanted then
        let msg := store_at 0 (default [] (r_answer r)) (mem n) in
        let '(r, (text, s)) := print_action zero_addr msg ("", w_action w) in
        let w := w <| w_action := s |> in
        if r <? 0 then (Returned (1, argv0) w, text) else (Returned (0, []) w, text)
      else (Returned (0, []) w, "")
  | Exited status => (Exited status, "")
  | Waiting _ => (Waiting w, "")
  | Wild => (Wild, "")
  end.

(** [iproute2-3.1.0/tc/m_action.c:358-468 tc_action_gd] *)
Definition tc_action_gd (cmd flags : Z) (argv0 : list string) (w : tc_world) : command_end * string :=
  let n := action_request cmd (Z.lor NLM_F_REQUEST flags) in
  let tail := NLMSG_TAIL n in
  let n := (addattr_l n MAX_MSG TCA_ACT_TAB []).2 in
  match gd_words (tl argv0) 0 (as_kinds (w_action w)) n with
  | GdBad kinds => (Returned (- 1, argv0) (with_akinds kinds w), "")
  | GdExit => (Exited 255, "")
  | GdWild => (Wild, "")
  | GdEnd n kinds =>
      let n := mk_nlmsg (nlmsg_len n) (set_rta_len tail (NLMSG_TAIL n - tail) (mem n)) in
      gd_talk cmd n argv0 (with_akinds kinds w)
  end.

(** The request of a listing or a flush: the name is copied again after the kind was
    looked for.  [iproute2-3.1.0/tc/m_action.c:526-552 tc_act_list_or_flush] *)
Definition list_request (k : string) : nlmsghdr :=
  let n := action_request 0 0 in
  let tail := NLMSG_TAIL n in
  let n := (addattr_l n MAX_MSG TCA_ACT_TAB []).2 in
  let tail2 := NLMSG_TAIL n in
  let n := (addattr_l n MAX_MSG 1 []).2 in
  let n := (addattr_l n MAX_MSG TCA_ACT_KIND (string_bytes k ++ [0])).2 in
  let m := set_rta_len tail2 (NLMSG_TAIL n - tail2) (mem n) in
  mk_nlmsg (nlmsg_len n) (set_rta_len tail (NLMSG_TAIL n - tail) m).

(** [iproute2-3.1.0/tc/m_action.c:554-562 tc_act_list_or_flush] *)
Definition dump_actions (n : nlmsghdr) (w : tc_world) : result :=
  let body := load_bytes (mem n) 16 (NLMSG_ALIGN (nlmsg_len n) - 16) in
  let '(rth, req) := rtnl_dump_request (w_rth w) RTM_GETACTION body in
  let w := (w <| w_rth := rth |>) <| w_outbox := w_outbox w ++ [req] |> in
  if e_send env req <? 0 then (Returned 1 w, "")
  else
    let '(o, inbox) := rtnl_dump_filter rth print_action None (e_buf env) (w_inbox w) ("", w_action w) in
    let w := w <| w_inbox := inbox |> in
    match o with
    | Returned r (out, s) => (Returned r (w <| w_action := s |>), out)
    | Exited status => (Exited status, "")
    | Waiting (out, s) => (Waiting (w <| w_action := s |>), out)
    | Wild => (Wild, "")
    end.

(** A kind that cannot be used is reported, and the value is 0.
    [iproute2-3.1.0/tc/m_action.c:510-579 tc_act_list_or_flush] *)
Definition tc_act_list_or_flush (word : string) (event : Z) (w : tc_world) : result :=
  if unterminated word then (Wild, "")
  else
    match load_gact (as_kinds (w_action w)) with
    | None => (Wild, "")
    | Some kinds =>
        let '(a, k, kinds) := get_action_kind word kinds in
        let w := with_akinds kinds w in
        if negb (String.eqb (ac_id a) k) then (Returned 0 w, "")
        else
          let n := list_request word in
          if event =? RTM_GETACTION then dump_actions n w
          else
            let n := mk_nlmsg (NLMSG_ALIGN (nlmsg_len n))
                       (store16 4 RTM_DELACTION (store16 6 (Z.lor NLM_F_ROOT NLM_F_REQUEST) (mem n))) in
            match send_request env n w with
            | Returned r w => (Returned (if r =? 0 then 0 else 1) w, "")
            | o => (o, "")
            end
    end.

(** Commands can follow one another; each takes a word at least.
    [iproute2-3.1.0/tc/m_action.c:581-629 do_action] *)
Fixpoint action_loop (fuel : nat) (argv : list string) (w : tc_world) (out : string) : result :=
  match fuel, argv with
  | _, [] => (Returned 0 w, out)
  | O, _ => (Wild, out)
  | S fuel, cmd :: rest =>
      let next '(o, text) :=
        match o with
        | Returned (ret, argv) w =>
            if ret <? 0 then (Returned (- 1) w, out +:+ text) else action_loop fuel argv w (out +:+ text)
        | Exited status => (Exited status, out +:+ text)
        | Waiting w => (Waiting w, out +:+ text)
        | Wild => (Wild, out +:+ text)
        end in
      let listing event :=
        match rest with
        | _ :: word :: _ => let '(o, text) := tc_act_list_or_flush word event w in (o, out +:+ text)
        | _ => (Exited 255, out)
        end in
      if matches cmd "add" then next (tc_action_modify RTM_NEWACTION (Z.lor NLM_F_EXCL NLM_F_CREATE) argv w, "")
      else if matches cmd "change" || matches cmd "replace" then
        next (tc_action_modify RTM_NEWACTION (Z.lor NLM_F_CREATE NLM_F_REPLACE) argv w, "")
      else if matches cmd "delete" then next (tc_action_gd RTM_DELACTION 0 rest w)
      else if matches cmd "get" then next (tc_action_gd RTM_GETACTION 0 rest w)
      else if matches cmd "list" || matches cmd "show" || matches cmd "lst" then listing RTM_GETACTION
      else if matches cmd "flush" then listing RTM_DELACTION
      else if matches cmd "help" then (Exited 255, out)
      else (Returned (- 1) w, out)
  end.

(** [iproute2-3.1.0/tc/m_action.c:581-629 do_action] *)
Definition do_action (argv : list string) (w : tc_world) : result :=
  action_loop (List.length argv) argv w "".

End Action.

(** ** What the words append *)

Section Words.
Context (env : tc_env).

(** A parser of an action turns words into trees and leaves the rest of the words. *)
Definition parses (a : action_util) (argv rest : list string) (l : list atree) : Prop :=
  exists f, appends MAX_MSG f l /\ forall n, ac_parse_aopt a argv TCA_ACT_OPTIONS n = AReturn 0 (f n) rest.

(** The words of the actions from the order [i] on, with the nests they stand for, the words
    left and the kinds registered. *)
Inductive actions_of : Z -> list action_util -> list string -> list atree -> list string -> list action_util -> Prop :=
| actions_end i kinds : actions_of i kinds [] [] [] kinds
| actions_command i kinds word argv :
    0 < i -> word <> "action" -> word <> "help" -> new_cmd word = true ->
    actions_of i kinds (word :: argv) [] (word :: argv) kinds
| actions_keyword i kinds kinds1 argv t l rest kinds2 :
    load_gact env kinds = Some kinds1 -> actions_of i kinds1 argv (t :: l) rest kinds2 ->
    actions_of i kinds ("action" :: argv) (t :: l) rest kinds2
| actions_one i kinds word argv a k kinds1 rest l ts rest' kinds2 :
    word <> "action" -> word <> "help" -> new_cmd word = false ->
    get_action_kind env (strncpy16 word) kinds = (a, k, kinds1) ->
    parses a (word :: argv) rest ts -> (List.length rest <= List.length argv)%nat ->
    actions_of (i + 1) kinds1 rest l rest' kinds2 ->
    actions_of i kinds (word :: argv)
      (Nest (i + 1) (Leaf TCA_ACT_KIND (string_bytes k ++ [0]) :: ts) :: l) rest' kinds2.

Lemma one_action i kinds ok eap word argv a k kinds1 rest ts n f :
  get_action_kind env (strncpy16 word) kinds = (a, k, kinds1) ->
  (forall n, ac_parse_aopt a (word :: argv) TCA_ACT_OPTIONS n = AReturn 0 (f n) rest) ->
  appends MAX_MSG f ts ->
  parse_one_action env (word :: argv) (mk_plocals i ok eap kinds n) word =
    LoopEnd rest (mk_plocals (i + 1) (ok + 1) 0 kinds1
      (with_nest MAX_MSG (i + 1) (fun n => f (addattr_l n MAX_MSG TCA_ACT_KIND (string_bytes k ++ [0])).2) n)).
Proof.
  intros Hk Hf _. unfold parse_one_action. cbn [pl_kinds pl_n pl_prio pl_ok]. rewrite Hk. rewrite Hf.
  change (0 <? 0) with false. reflexivity.
Qed.

(** Orders fit the type of an attribute. *)
Lemma action_words_ok i kinds argv l rest kinds2 :
  actions_of i kinds argv l rest kinds2 -> 0 <= i -> i + Z.of_nat (List.length l) < 2 ^ 16 ->
  forall fuel eap, (List.length argv <= fuel)%nat -> (l = [] -> eap = 0) ->
  exists f, appends MAX_MSG f l /\ forall n,
    action_words env fuel argv (mk_plocals i i eap kinds n) =
      LoopEnd rest (mk_plocals (i + Z.of_nat (List.length l)) (i + Z.of_nat (List.length l)) 0 kinds2 (f n)).
Proof.
  induction 1 as [i kinds|i kinds word argv Hi Hna Hnh Hnc|i kinds kinds1 argv t l rest kinds2 Hg _ IH
    |i kinds word argv a k kinds1 rest l ts rest' kinds2 Hna Hnh Hnc Hk Hp Hlen _ IH];
    intros H0 Hmax fuel eap Hfuel He; cbn [List.length] in *.
  - exists (fun n => n). split; [apply appends_id|]. intros n. rewrite Z.add_0_r, (He eq_refl). by destruct fuel.
  - destruct fuel as [|fuel]; [lia|]. exists (fun n => n). split; [apply appends_id|]. intros n.
    cbn [action_words]. rewrite (proj2 (String.eqb_neq _ _) Hna), (proj2 (String.eqb_neq _ _) Hnh), Hnc.
    cbn [pl_ok]. rewrite (proj2 (Z.eqb_neq i 0)) by lia. by rewrite Z.add_0_r, (He eq_refl).
  - destruct fuel as [|fuel]; [lia|].
    destruct (IH H0 Hmax fuel 1 ltac:(lia) ltac:(done)) as (f & Hf & E). exists f. split; [done|]. intros n.
    cbn [action_words]. cbn [String.eqb Ascii.eqb Bool.eqb]. cbn [pl_kinds pl_prio pl_ok pl_n]. rewrite Hg. apply E.
  - destruct fuel as [|fuel]; [lia|]. destruct Hp as (g & Hg & Eg).
    destruct (IH ltac:(lia) ltac:(lia) fuel 0 ltac:(lia) ltac:(done)) as (f & Hf & E).
    eexists (fun n => f (with_nest MAX_MSG (i + 1)
      (fun n => g (addattr_l n MAX_MSG TCA_ACT_KIND (string_bytes k ++ [0])).2) n)). split.
    + apply (appends_seq MAX_MSG _ f [_] l); [|exact Hf]. apply appends_nest; [lia|].
      apply (appends_seq MAX_MSG _ g [_] ts); [|exact Hg]. by apply appends_leaf.
    + intros n. cbn [action_words]. rewrite (proj2 (String.eqb_neq _ _) Hna), (proj2 (String.eqb_neq _ _) Hnh), Hnc.
      rewrite (one_action _ _ _ _ _ _ _ _ _ _ _ _ _ Hk Eg Hg). rewrite E. do 2 f_equal; lia.
Qed.

(** [parse_action] appends one attribute that holds the actions in their order. *)
Lemma parse_action_ok kinds argv l rest kinds2 tca_id :
  actions_of 0 kinds argv l rest kinds2 -> argv <> [] -> Z.of_nat (List.length l) < 2 ^ 16 -> l <> [] ->
  0 <= tca_id < 2 ^ 16 ->
  exists f, appends MAX_MSG f [Nest tca_id l] /\ forall n,
    parse_action env argv tca_id n kinds = Parsed rest (f n) kinds2.
Proof.
  intros Ha Hne Hlen Hl Hid.
  destruct (action_words_ok 0 kinds argv l rest kinds2 Ha ltac:(lia) ltac:(lia) (List.length argv) 0 ltac:(lia) ltac:(done))
    as (f & Hf & E).
  exists (with_nest MAX_MSG tca_id f). split; [by apply appends_nest|]. intros n. unfold parse_action.
  destruct argv as [|word argv]; [done|]. by rewrite E.
Qed.
End Words.

(** ** The request *)

(** A datagram that holds a table of actions and nothing else. *)
Record action_datagram (d : list Z) (type flags seq : Z) (l : list atree) : Prop := {
  ad_len : h_len d 0 = 24 + tspan l /\ Z.of_nat (List.length d) = 24 + tspan l;
  ad_type : h_type d 0 = type;
  ad_flags : load16 d 6 = flags;
  ad_seq : h_seq d 0 = seq;
  ad_tab : tree_at d 20 (Nest TCA_ACT_TAB l)
}.

(** A message that holds it, with the header of [action_request]. *)
Record action_message (cmd flags : Z) (n : nlmsghdr) (l : list atree) : Prop := {
  am_len : nlmsg_len n = 24 + tspan l;
  am_fits : nlmsg_len n <= MAX_MSG;
  am_size : Z.of_nat (List.length (mem n)) = ACTION_SIZE;
  am_head : same_below 20 (mem (action_request cmd flags)) (mem n);
  am_tab : tree_at (mem n) 20 (Nest TCA_ACT_TAB l)
}.

Lemma request_head cmd flags :
  0 <= cmd < 2 ^ 16 -> Z.of_nat (List.length (mem (action_request cmd flags))) = ACTION_SIZE /\
  h_type (mem (action_request cmd flags)) 0 = cmd /\ load16 (mem (action_request cmd flags)) 6 = u16 flags.
Proof.
  intros Hc. unfold action_request. cbn [mem].
  assert (Z.of_nat (List.length (replicate (Z.to_nat ACTION_SIZE) 0)) = ACTION_SIZE) as L0
    by (rewrite length_replicate; reflexivity).
  revert L0. generalize (replicate (Z.to_nat ACTION_SIZE) 0). intros m L0. unfold ACTION_SIZE in *.
  assert (Z.of_nat (List.length (store16 6 flags m)) = 16404) as L1
    by (unfold store16; rewrite store_at_length; rewrite ?le_bytes_length; lia).
  split_and!.
  - unfold store16 at 1. rewrite store_at_length; rewrite ?le_bytes_length; lia.
  - unfold h_type, load16. change (0 + 4) with 4. unfold store16 at 1.
    rewrite load_store_same by (rewrite ?le_bytes_length; lia). rewrite of_le_bytes_le. by apply Z.mod_small.
  - unfold load16. unfold store16 at 1. rewrite load_store_other by (rewrite ?le_bytes_length; lia).
    unfold store16. rewrite load_store_same by (rewrite ?le_bytes_length; lia). apply of_le_bytes_le.
Qed.

Lemma action_request_ok cmd flags f l :
  0 <= cmd < 2 ^ 16 -> appends MAX_MSG f [Nest TCA_ACT_TAB l] -> 24 + tspan l <= MAX_MSG ->
  action_message cmd flags (f (action_request cmd flags)) l.
Proof.
  intros Hc Hf Hfit. destruct (request_head cmd flags Hc) as (L & _ & _). set (n := action_request cmd flags) in *.
  pose proof (tspan_bounds l) as Hl. assert (NLMSG_TAIL n = 20) as Et by reflexivity.
  assert (tspan [Nest TCA_ACT_TAB l] = 4 + tspan l) as Es by (cbn [tspan]; rewrite tspan_nest; lia).
  assert (room_for n MAX_MSG (tspan [Nest TCA_ACT_TAB l])) as Hr.
  { rewrite Es. unfold MAX_MSG, ACTION_SIZE in *. constructor; [done|lia|lia|lia]. }
  pose proof (appends_len _ _ _ n Hf Hr eq_refl) as Elen. destruct (Hf n Hr) as ([F1 _] & F2 & F3 & F4 & F5 & F6).
  rewrite Et in *. change (nlmsg_len n) with 20 in Elen. constructor; [lia|lia|by rewrite F4|exact F5|exact F1].
Qed.

(** What is sent of it. *)
Lemma action_datagram_ok cmd flags n l rth :
  0 <= cmd < 2 ^ 16 -> action_message cmd flags n l ->
  action_datagram (wire (talk_request rth n false).2) cmd (u16 (Z.lor (u16 flags) NLM_F_ACK)) (request_seq rth) l.
Proof.
  intros Hc [Hlen Hfit Hsize Hhead Htab]. destruct (request_head cmd flags Hc) as (L & Rt & Rf).
  pose proof (tspan_bounds l) as Hl. unfold MAX_MSG, ACTION_SIZE in *.
  assert (wire (talk_request rth n false).2 =
    let m4 := store_at 8 (le_bytes 4 (request_seq rth)) (mem n) in
    load_bytes (store_at 0 (le_bytes 4 (nlmsg_len n))
      (store_at 6 (le_bytes 2 (Z.lor (load16 m4 6) NLM_F_ACK)) m4)) 0 (nlmsg_len n)) as -> by reflexivity.
  cbv zeta. set (m4 := store_at 8 _ (mem n)).
  assert (Z.of_nat (List.length m4) = 16404) as L4 by (unfold m4; rewrite store_at_length; rewrite ?le_bytes_length; lia).
  set (m6 := store_at 6 _ m4).
  assert (Z.of_nat (List.length m6) = 16404) as L6 by (unfold m6; rewrite store_at_length; rewrite ?le_bytes_length; lia).
  set (m0 := store_at 0 _ m6).
  assert (Z.of_nat (List.length m0) = 16404) as L0 by (unfold m0; rewrite store_at_length; rewrite ?le_bytes_length; lia).
  assert (forall o k, 0 <= o -> 0 <= k -> o + k <= nlmsg_len n ->
    load_bytes (load_bytes m0 0 (nlmsg_len n)) o k = load_bytes m0 o k) as Hd by (intros; by apply load_prefix).
  assert (load16 m4 6 = u16 flags) as E6.
  { unfold load16, m4. rewrite load_store_other by (rewrite ?le_bytes_length; lia).
    rewrite Hhead by lia. exact Rf. }
  assert (load16 m4 4 = cmd) as E4.
  { unfold load16, m4. rewrite load_store_other by (rewrite ?le_bytes_length; lia).
    rewrite Hhead by lia. exact Rt. }
  assert (load_bytes m4 8 4 = le_bytes 4 (request_seq rth)) as E8
    by (unfold m4; rewrite load_store_same by (rewrite ?le_bytes_length; lia); done).
  constructor.
  - split; [|unfold load_bytes at 1; rewrite length_take, length_drop; lia].
    unfold h_len, load32. rewrite Hd by lia. unfold m0. rewrite load_store_same by (rewrite ?le_bytes_length; lia).
    rewrite of_le_bytes_le. rewrite Z.mod_small; [lia|]. change (2 ^ (8 * Z.of_nat 4)) with (2 ^ 32). lia.
  - unfold h_type, load16. rewrite Hd by lia. change (0 + 4) with 4. unfold m0.
    rewrite load_store_other by (rewrite ?le_bytes_length; lia). unfold m6.
    rewrite load_store_other by (rewrite ?le_bytes_length; lia). exact E4.
  - unfold load16. rewrite Hd by lia. unfold m0. rewrite load_store_other by (rewrite ?le_bytes_length; lia).
    unfold m6. rewrite load_store_same by (rewrite ?le_bytes_length; lia). rewrite E6. apply of_le_bytes_le.
  - unfold h_seq, load32. rewrite Hd by lia. change (0 + 8) with 8. unfold m0.
    rewrite load_store_other by (rewrite ?le_bytes_length; lia). unfold m6.
    rewrite load_store_other by (rewrite ?le_bytes_length; lia). rewrite E8, of_le_bytes_le.
    unfold request_seq, u32. apply Z.mod_mod. lia.
  - eapply tree_at_range; [|exact Htab]. rewrite tspan_nest. intros o k Ho Hk Hok. rewrite Hd by lia.
    unfold m0. rewrite load_store_other by (rewrite ?le_bytes_length; lia).
    unfold m6. rewrite load_store_other by (rewrite ?le_bytes_length; lia).
    unfold m4. by rewrite load_store_other by (rewrite ?le_bytes_length; lia).
Qed.

(** ** Adding actions *)

Section Added.
Context (env : tc_env).

Lemma actions_words i kinds argv l rest kinds2 : actions_of env i kinds argv l rest kinds2 -> l <> [] -> argv <> [].
Proof. by destruct 1. Qed.

(** The message [tc_action_modify] sends. *)
Lemma modify_message cmd flags argv0 l rest kinds kinds2 :
  actions_of env 0 kinds (tl argv0) l rest kinds2 -> l <> [] -> 24 + tspan l <= MAX_MSG -> 0 <= cmd < 2 ^ 16 ->
  exists n, parse_action env (tl argv0) TCA_ACT_TAB (action_request cmd flags) kinds = Parsed rest n kinds2 /\
    action_message cmd flags
      (mk_nlmsg (nlmsg_len n) (set_rta_len 20 (NLMSG_TAIL n - 20) (mem n))) l.
Proof.
  intros Ha Hl Hfit Hc. pose proof (tspan_bounds l) as Hsp.
  destruct (parse_action_ok env kinds (tl argv0) l rest kinds2 TCA_ACT_TAB Ha) as (f & Hf & E);
    [by eapply actions_words|unfold MAX_MSG in *; lia|done|done|].
  destruct (action_request_ok cmd flags f l Hc Hf Hfit) as [M1 M2 M3 M4 M5].
  rewrite E. eexists. split; [reflexivity|]. unfold MAX_MSG, ACTION_SIZE in *.
  set (n := f (action_request cmd flags)) in *.
  assert (NLMSG_TAIL n - 20 = 4 + tspan l) as ->.
  { unfold NLMSG_TAIL. rewrite RTA_ALIGN_aligned; [lia|]. rewrite M1. Z.div_mod_to_equations. lia. }
  destruct (set_len_again (mem n) 20 TCA_ACT_TAB l M5) as (S1 & S2 & S3); [lia..|].
  constructor; cbn [nlmsg_len mem]; [done|done|by rewrite S2| |exact S1].
  eapply same_below_trans; [|exact M4|exact S3]. lia.
Qed.

Definition action_verbs : list (string * Z) :=
  [("add", Z.lor NLM_F_EXCL NLM_F_CREATE); ("change", Z.lor NLM_F_CREATE NLM_F_REPLACE);
   ("replace", Z.lor NLM_F_CREATE NLM_F_REPLACE)].

(** C11: The words of one command to add or change actions become one datagram whose table
    holds, in the order of the words, one nest per action with its order, its kind and what
    its parser made of its words; with the acknowledgement of the kernel the next command
    is run, and with an error the program stops with -1. *)
Theorem actions_added verb flags argv l rest kinds2 w ack after :
  In (verb, flags) action_verbs ->
  actions_of env 0 (as_kinds (w_action w)) argv l rest kinds2 -> l <> [] -> 24 + tspan l <= MAX_MSG ->
  (forall d, 0 <= e_send env d) -> answered w ack after ->
  exists d w',
    action_datagram d RTM_NEWACTION (Z.lor (Z.lor NLM_F_REQUEST flags) NLM_F_ACK) (request_seq (w_rth w)) l /\
    w_outbox w' = w_outbox w ++ [d] /\ w_inbox w' = map deliver after /\ as_kinds (w_action w') = kinds2 /\
    do_action env (verb :: argv) w =
      if m_error ack =? 0 then action_loop env (List.length argv) rest w' "" else (Returned (- 1) w', "").
Proof.
  intros Hv Ha Hl Hfit Hsend Han.
  assert (do_action env (verb :: argv) w =
    match tc_action_modify env RTM_NEWACTION flags (verb :: argv) w with
    | Returned (ret, argv') w' =>
        if ret <? 0 then (Returned (- 1) w', "") else action_loop env (List.length argv) argv' w' ""
    | Exited status => (Exited status, "")
    | Waiting w' => (Waiting w', "")
    | Wild => (Wild, "")
    end) as ->.
  { cbn [In action_verbs] in Hv. repeat (destruct Hv as [Hv|Hv]; [injection Hv as <- <-; reflexivity|]). done. }
  assert (u16 (Z.lor (u16 (Z.lor NLM_F_REQUEST flags)) NLM_F_ACK) = Z.lor (Z.lor NLM_F_REQUEST flags) NLM_F_ACK) as Ef.
  { cbn [In action_verbs] in Hv. repeat (destruct Hv as [Hv|Hv]; [injection Hv as _ <-; reflexivity|]). done. }
  clear Hv. unfold tc_action_modify. change (NLMSG_TAIL (action_request RTM_NEWACTION _)) with 20. cbv zeta.
  destruct (modify_message RTM_NEWACTION (Z.lor NLM_F_REQUEST flags) (verb :: argv) l rest _ kinds2 Ha Hl Hfit)
    as (n & -> & Hm); [done|].
  set (w1 := with_akinds kinds2 w). set (n1 := mk_nlmsg _ _) in *.
  assert (answered w1 ack after) as Han1 by (destruct Han as [A1 A2]; by split).
  destruct (send_request_ok env (replicate 256 0) eq_refl n1 w1 ack after Hsend Han1) as (w' & E & Ho & Hi).
  exists (wire (talk_request (w_rth w1) n1 false).2), w'. rewrite E.
  assert (as_kinds (w_action w') = kinds2) as Ek.
  { unfold send_request in E. destruct (rtnl_talk _ _ _ _ _ _ _ _) as [[rth n'] [o inbox]].
    destruct o; [|done..]. injection E as _ <-. reflexivity. }
  split; [|split; [exact Ho|split; [exact Hi|split; [exact Ek|]]]].
  - rewrite <- Ef. by apply action_datagram_ok.
  - destruct (m_error ack =? 0); reflexivity.
Qed.
End Added.

(** ** The words are used up *)

Section Terminates.
Context (env : tc_env).

(** A parser that does not fail takes a word at least. *)
Definition consumes (a : action_util) : Prop :=
  forall argv code n r n' rest, ac_parse_aopt a argv code n = AReturn r n' rest -> 0 <= r -> argv <> [] ->
    (List.length rest < List.length argv)%nat.

Hypothesis Hload : forall s a, e_load_action env s = Some a -> consumes a.

#[local] Abbreviation all kinds := (Forall consumes kinds).

Lemma find_action_all s kinds a kinds' :
  all kinds -> find_action env s kinds = Some (a, kinds') -> consumes a /\ all kinds'.
Proof.
  intros Hk. unfold find_action. destruct (List.find _ kinds) as [b|] eqn:E.
  - intros [= <- <-]. split; [|done]. apply find_some in E as [Hin _]. rewrite Forall_forall in Hk.
    by apply Hk, list_elem_of_In.
  - destruct (e_load_action env s) as [b|] eqn:El; [|done]. intros [= <- <-]. split; [by eapply Hload|].
    constructor; [by eapply Hload|done].
Qed.

Lemma get_action_kind_all s kinds a k kinds' :
  all kinds -> get_action_kind env s kinds = (a, k, kinds') -> consumes a /\ all kinds'.
Proof.
  intros Hk. unfold get_action_kind. destruct (find_action env s kinds) as [[b l]|] eqn:E.
  { intros [= <- <- <-]. by eapply find_action_all. }
  destruct (find_action env "gact" kinds) as [[b l]|] eqn:E2.
  { intros [= <- <- <-]. by eapply find_action_all. }
  intros [= <- <- <-]. assert (consumes noact) as Hn; [|by split; [|constructor]].
  intros argv code n r n' rest [= <- <- <-]. lia.
Qed.

Lemma load_gact_all kinds kinds' : all kinds -> load_gact env kinds = Some kinds' -> all kinds'.
Proof.
  intros Hk. unfold load_gact. destruct (find_action env "gact" kinds) as [[b l]|] eqn:E; [|done].
  intros [= <-]. by eapply find_action_all.
Qed.

Definition words_left (bound : nat) (e : words_end) : Prop :=
  match e with
  | LoopEnd argv p | LoopDone argv p => (List.length argv <= bound)%nat /\ all (pl_kinds p)
  | LoopBad kinds => all kinds
  | LoopExit _ | LoopWild => True
  | LoopMore => False
  end.

Lemma one_action_left argv p word :
  all (pl_kinds p) -> argv <> [] -> words_left (List.length argv - 1) (parse_one_action env argv p word).
Proof.
  intros Hk Hne. unfold parse_one_action.
  destruct (get_action_kind env (strncpy16 word) (pl_kinds p)) as [[a k] kinds] eqn:Ek.
  destruct (get_action_kind_all _ _ _ _ _ Hk Ek) as [Ha Hk']. cbv zeta.
  match goal with |- context [ac_parse_aopt a argv ?c ?n] =>
    destruct (ac_parse_aopt a argv c n) as [r n' rest|status] eqn:E; [|done] end.
  destruct (Z.ltb_spec r 0); [done|]. specialize (Ha _ _ _ _ _ _ E ltac:(lia) Hne). split; [lia|done].
Qed.

(** Any fuel from the number of words on gives the same end. *)
Lemma action_words_fuel argv p : forall fuel,
  all (pl_kinds p) -> (List.length argv <= fuel)%nat ->
  action_words env fuel argv p = action_words env (List.length argv) argv p /\
  words_left (List.length argv) (action_words env fuel argv p).
Proof.
  remember (List.length argv) as m eqn:Em. revert argv p Em.
  induction m as [m IH] using (well_founded_induction lt_wf). intros argv p -> fuel Hk Hf.
  destruct argv as [|word rest]; [destruct fuel; (split; [done|split; [cbn; lia|exact Hk]])|].
  destruct fuel as [|fuel]; [cbn in Hf; lia|]. cbn [List.length action_words] in *.
  destruct (String.eqb word "action").
  { destruct (load_gact env (pl_kinds p)) as [kinds|] eqn:Eg; [|done].
    pose proof (load_gact_all _ _ Hk Eg) as Hk'.
    destruct (IH (List.length rest) ltac:(lia) rest (mk_plocals (pl_prio p) (pl_ok p) 1 kinds (pl_n p)) eq_refl fuel Hk' ltac:(lia))
      as [E Hw]. split; [exact E|].
    revert Hw. unfold words_left. destruct (action_words _ _ _ _); try done; (intros [? ?]; split; [lia|done]). }
  destruct (String.eqb word "help"); [done|].
  destruct (new_cmd word); [destruct (pl_ok p =? 0); (split; [done|split; [cbn; lia|done]])|].
  pose proof (one_action_left (word :: rest) p word Hk ltac:(done)) as H1. cbn [List.length] in H1.
  destruct (parse_one_action env (word :: rest) p word) as [argv' p'|argv' p'| | | |]; try done;
    [|split; [done|]; destruct H1; split; [lia|done]].
  destruct H1 as [Hl Hk'].
  destruct (IH (List.length argv') ltac:(lia) argv' p' eq_refl fuel Hk' ltac:(lia)) as [E1 Hw].
  destruct (IH (List.length argv') ltac:(lia) argv' p' eq_refl (List.length rest) Hk' ltac:(lia)) as [E2 _].
  rewrite E2. split; [done|]. revert Hw. unfold words_left.
  destruct (action_words env fuel argv' p'); try done; (intros [? ?]; split; [lia|done]).
Qed.

(** *** Commands *)

Lemma send_keeps_actions n w r w' : send_request env n w = Returned r w' -> w_action w' = w_action w.
Proof.
  unfold send_request. destruct (rtnl_talk _ _ _ _ _ _ _ _) as [[rth n'] [o inbox]].
  destruct o; [|done..]. intros [= _ <-]. reflexivity.
Qed.

Lemma modify_left cmd flags argv0 w r rest w' :
  all (as_kinds (w_action w)) -> tc_action_modify env cmd flags argv0 w = Returned (r, rest) w' -> 0 <= r ->
  (List.length rest <= List.length (tl argv0))%nat /\ all (as_kinds (w_action w')).
Proof.
  intros Hk. unfold tc_action_modify. cbv zeta.
  destruct (parse_action env (tl argv0) TCA_ACT_TAB _ _) as [argv n kinds|kinds| | |] eqn:E; try done;
    [|intros [= <- _ _]; lia].
  destruct (send_request _ _ _) as [r' w1| | |] eqn:Es; try done. intros [= _ <- <-] _.
  apply send_keeps_actions in Es. rewrite Es. clear Es. change (as_kinds (w_action (with_akinds kinds w))) with kinds.
  unfold parse_action in E. destruct (tl argv0) as [|word argv1]; [done|].
  match type of E with context [action_words env ?fu ?a ?p] => pose proof (action_words_fuel a p fu Hk ltac:(lia)) as [_ Hw];
    destruct (action_words env fu a p) as [a' p'|a' p'| | | |]; try done end.
  - destruct (0 <? pl_eap p'); [done|]. injection E as <- _ <-. exact Hw.
  - injection E as <- _ <-. exact Hw.
Qed.

Lemma print_one_all msg arg s : all (as_kinds s) -> all (as_kinds (tc_print_one_action env msg arg s).2.2).
Proof.
  intros Hk. unfold tc_print_one_action. cbv zeta. destruct (_ !!! Z.to_nat TCA_ACT_KIND) as [ka|]; [|done].
  match goal with |- context [get_action_kind env ?n ?k] => destruct (get_action_kind env n k) as [[a k'] kinds] eqn:Ek end.
  destruct (get_action_kind_all _ _ _ _ _ Hk Ek) as [_ Hk'].
  destruct (tab_flush _); [done|]. destruct (ac_print_aopt _ _ _ _) as [err text]. by destruct (err <? 0).
Qed.

Lemma print_orders_all k : forall i tb msg s out,
  all (as_kinds s) -> all (as_kinds (print_orders env k i tb msg s out).2.2).
Proof.
  induction k as [|k IH]; intros i tb msg s out Hk; cbn [print_orders]; [done|].
  destruct (tb !!! Z.to_nat i) as [a|]; [|by apply IH].
  pose proof (print_one_all msg a s Hk) as H1.
  destruct (tc_print_one_action env msg a s) as [[err text] [msg' s']]. by apply IH.
Qed.

Lemma print_table_all msg arg s : all (as_kinds s) -> all (as_kinds (tc_print_action env msg arg s).2.2).
Proof.
  intros Hk. unfold tc_print_action. destruct arg as [arg|]; [|done]. cbv zeta.
  assert (forall tb, all (as_kinds (let '(out, (msg', s')) :=
    print_orders env (Z.to_nat TCA_ACT_MAX_PRIO) 0 tb msg s "" in
    (0, out, (msg', s' <| batch_c := s32 (batch_c s' + TCA_ACT_MAX_PRIO) |>))).2.2)) as H1.
  { intros tb. pose proof (print_orders_all (Z.to_nat TCA_ACT_MAX_PRIO) 0 tb msg s "" Hk) as H2.
    destruct (print_orders _ _ _ _ _ _ _) as [out [msg' s']]. exact H2. }
  destruct (tab_flush s); [|apply H1].
  destruct (_ !!! 0%nat) as [a|]; [|apply H1]. destruct (_ !!! 1%nat); [apply H1|by apply print_one_all].
Qed.

Lemma print_action_all who msg out s : all (as_kinds s) -> all (as_kinds (print_action env who msg (out, s)).2.2).
Proof.
  intros Hk. unfold print_action. destruct (s32 _ <? 0); [done|]. cbv zeta.
  destruct (_ !!! Z.to_nat TCA_ACT_TAB) as [a|]; [|done].
  assert (forall out1 s1, all (as_kinds s1) ->
    all (as_kinds (let '(_, text, (_, s')) := tc_print_action env msg (Some a) s1 in (0, (out1 +:+ text, s'))).2.2)) as H1.
  { intros out1 s1 H1. pose proof (print_table_all msg (Some a) s1 H1) as H2.
    destruct (tc_print_action env msg (Some a) s1) as [[r text] [msg' s']]. exact H2. }
  destruct (h_type msg 0 =? RTM_DELACTION); [destruct (negb _)|]; destruct (h_type msg 0 =? RTM_NEWACTION); by apply H1.
Qed.

Lemma gd_words_all argv prio kinds n :
  all kinds -> match gd_words env argv prio kinds n with GdEnd _ k | GdBad k => all k | _ => True end.
Proof.
  remember (List.length argv) as m eqn:Em. revert argv prio kinds n Em.
  induction m as [m IH] using (well_founded_induction lt_wf). intros argv prio kinds n -> Hk.
  destruct argv as [|word argv]; [done|]. cbn [gd_words List.length] in *.
  destruct (String.eqb word "action"); [by apply (IH (List.length argv) ltac:(lia))|].
  destruct (String.eqb word "help"); [done|]. destruct (unterminated word); [done|].
  destruct (get_action_kind env word kinds) as [[a k] kinds'] eqn:Ek.
  destruct (get_action_kind_all _ _ _ _ _ Hk Ek) as [_ Hk']. destruct (negb _); [done|].
  destruct argv as [|w1 argv]; [done|]. destruct (matches w1 "index"); [|done].
  destruct argv as [|w2 argv]; [done|]. destruct (get_u32 w2 10); [|done].
  apply (IH (List.length argv) ltac:(cbn; lia)); done.
Qed.

Lemma gd_left cmd flags argv0 w r rest w' text :
  all (as_kinds (w_action w)) -> tc_action_gd env cmd flags argv0 w = (Returned (r, rest) w', text) ->
  (List.length rest <= List.length argv0)%nat /\ all (as_kinds (w_action w')).
Proof.
  intros Hk. unfold tc_action_gd. cbv zeta.
  match goal with |- context [gd_words env ?a ?p ?k ?n] => pose proof (gd_words_all a p k n Hk) as Hg;
    destruct (gd_words env a p k n) as [n1 kinds|kinds| |]; [| |done|done] end; [|by intros [= _ <- <- _]].
  unfold gd_talk. cbv zeta. destruct (rtnl_talk _ _ _ _ _ _ _ _) as [[rth n2] [o inbox]].
  destruct o as [r0 u| | |]; [|done..]. destruct (r_value r0 <? 0); [by intros [= _ <- <- _]|].
  destruct (cmd =? RTM_GETACTION); [|intros [= _ <- <- _]; split; [cbn; lia|done]].
  match goal with |- context [print_action env ?who ?m (?o, ?s)] => pose proof (print_action_all who m o s Hg) as Hp;
    destruct (print_action env who m (o, s)) as [r1 [t1 s1]] end. cbn [fst snd] in Hp.
  destruct (r1 <? 0); intros [= _ <- <- _]; (split; [cbn; lia|exact Hp]).
Qed.

End Terminates.
