(* ===== verification/TcGact.v ===== *)
(** * The generic action (iproute2-3.1.0/tc/m_gact.c)

    From the words of [gact] to its attributes and back to text; and [tc actions] with it. *)

From S2P Require Export TcAction.

#[local] Open Scope list_scope.

(** ** The attributes *)

#[local] Set Primitive Projections.

(** [iproute2-3.1.0/include/linux/tc_act/tc_gact.h:13-21 tc_gact_p] *)
Record tc_gact_p := mk_gact_p { ptype : Z; pval : Z; paction : Z }.

(** What the words set of a [tc_gact], whose other fields are 0, and of the random part. *)
Record gact_words := mk_gact { g_index : Z; g_action : Z; g_random : option tc_gact_p }.

#[local] Unset Primitive Projections.

Definition PGACT_NETRAND : Z := 1.
Definition PGACT_DETERM : Z := 2.

Definition TCA_GACT_TM : Z := 1.
Definition TCA_GACT_PARMS : Z := 2.
Definition TCA_GACT_PROB : Z := 3.
Definition TCA_GACT_MAX : Z := 3.

(** [index], [capab], [action], [refcnt] and [bindcnt].
    [iproute2-3.1.0/include/linux/pkt_cls.h:149-154 tc_gen] *)
Definition gact_bytes (g : gact_words) : list Z :=
  le_bytes 4 (g_index g) ++ le_bytes 4 0 ++ le_bytes 4 (g_action g) ++ le_bytes 4 0 ++ le_bytes 4 0.

Definition gact_p_bytes (p : tc_gact_p) : list Z := le_bytes 2 (ptype p) ++ le_bytes 2 (pval p) ++ le_bytes 4 (paction p).

(** ** Parsing *)

(** [None] for -10.  [iproute2-3.1.0/tc/m_gact.c:71-90 get_act] *)
Definition get_act (word : string) : option Z :=
  if matches word "reclassify" then Some TC_ACT_RECLASSIFY
  else if matches word "drop" || matches word "shot" then Some TC_ACT_SHOT
  else if matches word "continue" then Some (- 1)
  else if matches word "pipe" then Some TC_ACT_PIPE
  else if matches word "pass" || matches word "ok" then Some TC_ACT_OK
  else None.

(** How a part of the words ends: with what it sets and the words left, with a value to
    return, or with the end of the program. *)
Inductive part_end (T : Type) := Part (v : T) (argv : list string) | PartError (r : Z) | PartExit.
Arguments Part {T} v argv.
Arguments PartError {T} r.
Arguments PartExit {T}.

(** The name [gact], which leaves the action as it is, or an action.
    [iproute2-3.1.0/tc/m_gact.c:113-129 parse_gact] *)
Definition gact_action (argv : list string) : part_end Z :=
  match argv with
  | [] => PartError (- 1)
  | word :: argv =>
      if matches word "gact" then Part TC_ACT_RECLASSIFY argv
      else match get_act word with Some a => Part a argv | None => PartError (- 10) end
  end.

(** [iproute2-3.1.0/tc/m_gact.c:131-170 parse_gact] *)
Definition gact_random (argv : list string) : part_end (option tc_gact_p) :=
  match argv with
  | [] => Part None []
  | word :: rest =>
      if matches word "random" then
        match rest with
        | [] => PartExit
        | kind :: rest =>
            let value ptype :=
              match rest with
              | [] => PartExit
              | act :: rest =>
                  match get_act act with
                  | None => PartError (- 1)
                  | Some paction =>
                      match rest with
                      | [] => PartError (- 1)
                      | val :: rest =>
                          match get_u16 val 10 with
                          | None => PartError (- 1)
                          | Some pval =>
                              if 10000 <? pval then PartError (- 1) else Part (Some (mk_gact_p ptype pval paction)) rest
                          end
                      end
                  end
              end in
            if matches kind "netrand" then value PGACT_NETRAND
            else if matches kind "determ" then value PGACT_DETERM
            else PartError (- 1)
        end
      else if matches word "help" then PartExit
      else Part None argv
  end.

(** [iproute2-3.1.0/tc/m_gact.c:172-185 parse_gact] *)
Definition gact_index (argv : list string) : part_end Z :=
  match argv with
  | [] => Part 0 []
  | word :: rest =>
      if matches word "index" then
        match rest with
        | [] => PartExit
        | arg :: rest => match get_u32 arg 10 with None => PartError (- 1) | Some i => Part i rest end
        end
      else if matches word "help" then PartExit
      else Part 0 argv
  end.

(** [iproute2-3.1.0/tc/m_gact.c:112-188 parse_gact] *)
Definition read_gact (argv : list string) : part_end gact_words :=
  match gact_action argv with
  | PartError r => PartError r
  | PartExit => PartExit
  | Part action argv =>
      match gact_random argv with
      | PartError r => PartError r
      | PartExit => PartExit
      | Part random argv =>
          match gact_index argv with
          | PartError r => PartError r
          | PartExit => PartExit
          | Part index argv => Part (mk_gact index action random) argv
          end
      end
  end.

(** [iproute2-3.1.0/tc/m_gact.c:190-198 parse_gact] *)
Definition put_gact (g : gact_words) (tca_id : Z) (n : nlmsghdr) : nlmsghdr :=
  let tail := NLMSG_TAIL n in
  let n := (addattr_l n MAX_MSG tca_id []).2 in
  let n := (addattr_l n MAX_MSG TCA_GACT_PARMS (gact_bytes g)).2 in
  let n := match g_random g with
           | Some p => (addattr_l n MAX_MSG TCA_GACT_PROB (gact_p_bytes p)).2
           | None => n
           end in
  mk_nlmsg (nlmsg_len n) (set_rta_len tail (NLMSG_TAIL n - tail) (mem n)).

(** [parse_action] never calls it without a word.
    [iproute2-3.1.0/tc/m_gact.c:92-203 parse_gact] *)
Definition parse_gact (argv : list string) (tca_id : Z) (n : nlmsghdr) : aopt_outcome :=
  match read_gact argv with
  | Part g argv => AReturn 0 (put_gact g tca_id n) argv
  | PartError r => AReturn r n argv
  | PartExit => AExit 255
  end.

(** ** Printing *)

(** [iproute2-3.1.0/tc/m_gact.c:29-40 prob_n2a] *)
Definition prob_n2a (p : Z) : string :=
  if p =? 0 then "none" else if p =? PGACT_NETRAND then "netrand" else if p =? PGACT_DETERM then "determ" else "none".

(** The text between the attributes: action, random part, index and counters. *)
Definition gact_text (action : Z) (p : tc_gact_p) (index refcnt bindcnt : Z) : string :=
  "gact action " +:+ action_n2a action 64 +:+
  newline +:+ tab +:+ " random type " +:+ prob_n2a (ptype p) +:+ " " +:+ action_n2a (paction p) 64 +:+
  " val " +:+ print_d (pval p) +:+
  newline +:+ tab +:+ " index " +:+ print_d index +:+ " ref " +:+ print_d refcnt +:+ " bind " +:+ print_d bindcnt.

(** [hz] is [get_user_hz()].  [iproute2-3.1.0/tc/m_gact.c:205-248 print_gact] *)
Definition print_gact (hz : Z) (show_stats : bool) (m : list Z) (arg : option Z) : Z * string :=
  match arg with
  | None => (- 1, "")
  | Some arg =>
      let tb := (parse_rtattr_nested m TCA_GACT_MAX arg).1 in
      match tb !!! Z.to_nat TCA_GACT_PARMS with
      | None => (- 1, "[NULL gact parameters]")
      | Some pa =>
          let p := RTA_DATA pa in
          let pp :=
            match tb !!! Z.to_nat TCA_GACT_PROB with
            | Some a => mk_gact_p (load16 m (RTA_DATA a)) (load16 m (RTA_DATA a + 2)) (s32 (load32 m (RTA_DATA a + 4)))
            | None => mk_gact_p 0 0 0
            end in
          let tm :=
            match tb !!! Z.to_nat TCA_GACT_TM with
            | Some a =>
                let t := load_bytes m (RTA_DATA a) 24 in
                if show_stats then print_tm hz (mk_tcf (field64 t 0) (field64 t 8) (field64 t 16)) else ""
            | None => ""
            end in
          (0, gact_text (s32 (load32 m (p + 8))) pp (s32 (load32 m p)) (s32 (load32 m (p + 12))) (s32 (load32 m (p + 16)))
              +:+ tm +:+ newline +:+ " ")
      end
  end.

(** [iproute2-3.1.0/tc/m_gact.c:250-254 gact_action_util] *)
Definition gact_action_util (hz : Z) : action_util := mk_action_util "gact" parse_gact (print_gact hz).

(** ** The attributes of the words *)

(** What [parse_gact] appends. *)
Definition gact_trees (g : gact_words) : list atree :=
  Leaf TCA_GACT_PARMS (gact_bytes g) ::
  match g_random g with Some p => [Leaf TCA_GACT_PROB (gact_p_bytes p)] | None => [] end.

Lemma put_gact_appends g tca_id :
  0 <= tca_id < 2 ^ 16 -> appends MAX_MSG (put_gact g tca_id) [Nest tca_id (gact_trees g)].
Proof.
  intros Hid. unfold gact_trees.
  apply (appends_nest MAX_MSG tca_id (fun n => match g_random g with
    | Some p => (addattr_l (addattr_l n MAX_MSG TCA_GACT_PARMS (gact_bytes g)).2 MAX_MSG TCA_GACT_PROB (gact_p_bytes p)).2
    | None => (addattr_l n MAX_MSG TCA_GACT_PARMS (gact_bytes g)).2 end)); [done|].
  destruct (g_random g) as [p|]; [|by apply appends_leaf].
  apply (appends_seq MAX_MSG (fun n => (addattr_l n MAX_MSG TCA_GACT_PARMS (gact_bytes g)).2)
    (fun n => (addattr_l n MAX_MSG TCA_GACT_PROB (gact_p_bytes p)).2) [_] [_]); by apply appends_leaf.
Qed.

Lemma gact_parses hz argv g rest :
  read_gact argv = Part g rest ->
  parses (gact_action_util hz) argv rest [Nest TCA_ACT_OPTIONS (gact_trees g)].
Proof.
  intros E. exists (put_gact g TCA_ACT_OPTIONS). split; [by apply put_gact_appends|].
  intros n. cbn [ac_parse_aopt gact_action_util]. unfold parse_gact. by rewrite E.
Qed.

(** ** The parts *)

Lemma get_act_range word a : get_act word = Some a -> -1 <= a <= 3.
Proof.
  unfold get_act, TC_ACT_RECLASSIFY, TC_ACT_SHOT, TC_ACT_PIPE, TC_ACT_OK.
  repeat match goal with |- (if ?b then _ else _) = _ -> _ => destruct b; [intros [= <-]; lia|] end. done.
Qed.

Definition random_ok (r : option tc_gact_p) : Prop :=
  match r with
  | Some p => (ptype p = PGACT_NETRAND \/ ptype p = PGACT_DETERM) /\ 0 <= pval p <= 10000 /\ -1 <= paction p <= 3
  | None => True
  end.

(** What the words can set. *)
Record gact_ok (g : gact_words) : Prop := {
  go_index : 0 <= g_index g < 2 ^ 32;
  go_action : -1 <= g_action g <= 3;
  go_random : random_ok (g_random g)
}.

Lemma action_part argv a rest :
  gact_action argv = Part a rest -> (List.length rest < List.length argv)%nat /\ -1 <= a <= 3.
Proof.
  destruct argv as [|word argv]; [done|]. cbn [gact_action].
  destruct (matches word "gact"); [intros [= <- <-]; unfold TC_ACT_RECLASSIFY; cbn; lia|].
  destruct (get_act word) as [b|] eqn:E; [|done]. intros [= <- <-]. split; [cbn; lia|by eapply get_act_range].
Qed.

Lemma random_part argv r rest :
  gact_random argv = Part r rest -> (List.length rest <= List.length argv)%nat /\ random_ok r.
Proof.
  destruct argv as [|word argv]; [by intros [= <- <-]|]. cbn [gact_random].
  destruct (matches word "random"); [|destruct (matches word "help"); [done|by intros [= <- <-]]].
  destruct argv as [|kind argv]; [done|].
  assert (forall pt, (pt = PGACT_NETRAND \/ pt = PGACT_DETERM) ->
    match argv with
    | [] => PartExit
    | act :: rest =>
        match get_act act with
        | Some paction =>
            match rest with
            | [] => PartError (- 1)
            | val :: rest0 =>
                match get_u16 val 10 with
                | Some pval => if 10000 <? pval then PartError (- 1) else Part (Some (mk_gact_p pt pval paction)) rest0
                | None => PartError (- 1)
                end
            end
        | None => PartError (- 1)
        end
    end = Part r rest -> (List.length rest <= List.length argv)%nat /\ random_ok r) as Hv.
  { intros pt Hpt. destruct argv as [|act argv]; [done|]. destruct (get_act act) as [a|] eqn:Ea; [|done].
    destruct argv as [|val argv]; [done|]. destruct (get_u16 val 10) as [v|] eqn:Ev; [|done].
    destruct (Z.ltb_spec 10000 v); [done|]. intros [= <- <-]. split; [cbn; lia|]. cbn. apply get_u16_range in Ev.
    apply get_act_range in Ea. split; [done|]. split; [lia|lia]. }
  destruct (matches kind "netrand"); [intros E; destruct (Hv PGACT_NETRAND (or_introl eq_refl) E); split; [cbn; lia|done]|].
  destruct (matches kind "determ"); [|done].
  intros E. destruct (Hv PGACT_DETERM (or_intror eq_refl) E). split; [cbn; lia|done].
Qed.

Lemma index_part argv i rest :
  gact_index argv = Part i rest -> (List.length rest <= List.length argv)%nat /\ 0 <= i < 2 ^ 32.
Proof.
  destruct argv as [|word argv]; [by intros [= <- <-]|]. cbn [gact_index].
  destruct (matches word "index"); [|destruct (matches word "help"); [done|by intros [= <- <-]]].
  destruct argv as [|arg argv]; [done|]. destruct (get_u32 arg 10) as [z|] eqn:E; [|done]. intros [= <- <-].
  split; [cbn; lia|by eapply get_u32_range].
Qed.

Lemma read_gact_ok argv g rest :
  read_gact argv = Part g rest -> (List.length rest < List.length argv)%nat /\ gact_ok g.
Proof.
  unfold read_gact. destruct (gact_action argv) as [a l1| |] eqn:E1; [|done..].
  destruct (gact_random l1) as [r l2| |] eqn:E2; [|done..].
  destruct (gact_index l2) as [i l3| |] eqn:E3; [|done..]. intros [= <- <-].
  apply action_part in E1 as [L1 A]. apply random_part in E2 as [L2 R]. apply index_part in E3 as [L3 I].
  split; [lia|by constructor].
Qed.

(** The errors of the parts are negative. *)
Lemma read_gact_error argv r : read_gact argv = PartError r -> r < 0.
Proof.
  unfold read_gact, gact_action, gact_random, gact_index. repeat (case_match; try done); intros [= <-]; simplify_eq; lia.
Qed.

Lemma gact_consumes hz : consumes (gact_action_util hz).
Proof.
  intros argv code n r n' rest. cbn [ac_parse_aopt gact_action_util]. unfold parse_gact.
  destruct (read_gact argv) as [g l|e|] eqn:E; [|intros [= <- _ _] Hr; apply read_gact_error in E; lia|done].
  intros [= _ _ <-] _ _. by apply read_gact_ok in E as [? _].
Qed.

(** ** From the words to the text *)

Lemma load_inside m off n o k :
  0 <= off -> 0 <= o -> 0 <= k -> o + k <= n -> load_bytes m (off + o) k = load_bytes (load_bytes m off n) o k.
Proof.
  intros H1 H2 H3 H4. unfold load_bytes. rewrite (Z2Nat.inj_add off o) by lia.
  rewrite <- drop_drop, skipn_firstn_comm, take_take. f_equal. lia.
Qed.

Definition no_random : tc_gact_p := mk_gact_p 0 0 0.

(** What [gact] shows of what its words set. *)
Definition gact_shows (g : gact_words) : string :=
  gact_text (g_action g) (default no_random (g_random g)) (s32 (g_index g)) 0 0 +:+ newline +:+ " ".

Lemma load_le m off n l o k z :
  load_bytes m off n = l -> 0 <= off -> 0 <= o -> o + Z.of_nat k <= n -> load_bytes l o (Z.of_nat k) = le_bytes k z ->
  of_le_bytes (load_bytes m (off + o) (Z.of_nat k)) = z mod 2 ^ (8 * Z.of_nat k).
Proof. intros <- H1 H2 H3 E. rewrite (load_inside m off n) by lia. rewrite E. apply of_le_bytes_le. Qed.

Lemma shown_fields m off g :
  0 <= off -> load_bytes m off 20 = gact_bytes g ->
  load32 m off = u32 (g_index g) /\ load32 m (off + 8) = u32 (g_action g) /\ load32 m (off + 12) = 0 /\
  load32 m (off + 16) = 0.
Proof.
  intros Ho E. unfold load32. rewrite <- (Z.add_0_r off) at 1.
  split_and!.
  - exact (load_le m off 20 _ 0 4 (g_index g) E Ho ltac:(lia) ltac:(lia) eq_refl).
  - exact (load_le m off 20 _ 8 4 (g_action g) E Ho ltac:(lia) ltac:(lia) eq_refl).
  - exact (load_le m off 20 _ 12 4 0 E Ho ltac:(lia) ltac:(lia) eq_refl).
  - exact (load_le m off 20 _ 16 4 0 E Ho ltac:(lia) ltac:(lia) eq_refl).
Qed.

Lemma shown_random m off p :
  0 <= off -> load_bytes m off 8 = gact_p_bytes p ->
  load16 m off = u16 (ptype p) /\ load16 m (off + 2) = u16 (pval p) /\ load32 m (off + 4) = u32 (paction p).
Proof.
  intros Ho E. unfold load16, load32. rewrite <- (Z.add_0_r off) at 1.
  split_and!.
  - exact (load_le m off 8 _ 0 2 (ptype p) E Ho ltac:(lia) ltac:(lia) eq_refl).
  - exact (load_le m off 8 _ 2 2 (pval p) E Ho ltac:(lia) ltac:(lia) eq_refl).
  - exact (load_le m off 8 _ 4 4 (paction p) E Ho ltac:(lia) ltac:(lia) eq_refl).
Qed.

Lemma print_trees hz show_stats m off g :
  gact_ok g -> 0 <= off -> tree_at m off (Nest TCA_ACT_OPTIONS (gact_trees g)) ->
  print_gact hz show_stats m (Some off) = (0, gact_shows g).
Proof.
  intros [Hi Ha Hr] Ho Ht. unfold print_gact. rewrite (parse_nest _ TCA_GACT_MAX _ _ _ Ht). cbn [fst].
  apply tree_at_nest in Ht as (_ & _ & Ht). unfold gact_trees in *. cbn [trees_at] in Ht. destruct Ht as [(_ & _ & D1) Ht].
  assert (load_bytes m (RTA_DATA (off + 4)) 20 = gact_bytes g) as E1 by exact D1. 
  destruct (shown_fields m (RTA_DATA (off + 4)) g ltac:(change (0 <= off + 4 + 4); lia) E1) as (F1 & F2 & F3 & F4).
  assert (s32 (g_action g) = g_action g) as Ea by (apply s32_small; lia).
  unfold gact_shows. destruct (g_random g) as [p|].
  - destruct Ht as [(_ & _ & D2) _]. cbn [tspan1] in D2. change (attr_span (gact_bytes g)) with 24 in D2.
    assert (load_bytes m (RTA_DATA (off + 4 + 24)) 8 = gact_p_bytes p) as E2 by exact D2.
    destruct (shown_random m (RTA_DATA (off + 4 + 24)) p ltac:(change (0 <= off + 4 + 24 + 4); lia) E2) as (G1 & G2 & G3).
    destruct Hr as (Hp & Hv & Hpa).
    match goal with |- context [?t !!! Z.to_nat TCA_GACT_PARMS] =>
      change (t !!! Z.to_nat TCA_GACT_PARMS) with (Some (off + 4));
      change (t !!! Z.to_nat TCA_GACT_PROB) with (Some (off + 4 + 24));
      change (t !!! Z.to_nat TCA_GACT_TM) with (@None Z) end. cbv iota zeta.
    rewrite F1, F2, F3, F4, G1, G2, G3, !s32_u32, Ea, (s32_small (paction p)) by lia.
    assert (u16 (ptype p) = ptype p) as -> by (destruct Hp as [-> | ->]; reflexivity).
    assert (u16 (pval p) = pval p) as -> by (unfold u16; apply Z.mod_small; lia).
    destruct p. reflexivity.
  - match goal with |- context [?t !!! Z.to_nat TCA_GACT_PARMS] =>
      change (t !!! Z.to_nat TCA_GACT_PARMS) with (Some (off + 4));
      change (t !!! Z.to_nat TCA_GACT_PROB) with (@None Z);
      change (t !!! Z.to_nat TCA_GACT_TM) with (@None Z) end. cbv iota zeta.
    rewrite F1, F2, F3, F4, !s32_u32, Ea. reflexivity.
Qed.

(** What [gact] takes from the words of an action is what a listing of that action shows:
    the attributes it appends to a message are read back as the action, the random part and
    the index given, with no references, and the parser takes a word at least. *)
Theorem gact_roundtrip hz show_stats argv g rest n :
  read_gact argv = Part g rest -> room_for n MAX_MSG (4 + tspan (gact_trees g)) ->
  exists n', parse_gact argv TCA_ACT_OPTIONS n = AReturn 0 n' rest /\
    print_gact hz show_stats (mem n') (Some (NLMSG_TAIL n)) = (0, gact_shows g) /\
    NLMSG_TAIL n' = NLMSG_TAIL n + 4 + tspan (gact_trees g) /\
    (List.length rest < List.length argv)%nat.
Proof.
  intros E Hr. destruct (read_gact_ok _ _ _ E) as [Hlen Hok]. exists (put_gact g TCA_ACT_OPTIONS n).
  unfold parse_gact. rewrite E. split; [done|].
  assert (tspan [Nest TCA_ACT_OPTIONS (gact_trees g)] = 4 + tspan (gact_trees g)) as Es
    by (cbn [tspan]; rewrite tspan_nest; lia).
  destruct (put_gact_appends g TCA_ACT_OPTIONS ltac:(done) n) as ([F1 _] & F2 & _); [by rewrite Es|].
  rewrite Es in F2. split; [|split; [lia|done]]. apply print_trees; [done| |exact F1].
  destruct Hr as [H0 _ _ _]. pose proof (tail_bounds n). lia.
Qed.

Lemma gact_roundtrip_witness :
  exists n', parse_gact ["drop"; "random"; "determ"; "pass"; "5"; "index"; "7"] TCA_ACT_OPTIONS
      (mk_nlmsg 20 (replicate (Z.to_nat ACTION_SIZE) 0)) = AReturn 0 n' [] /\
    print_gact 100 false (mem n') (Some 20) = (0, gact_shows (mk_gact 7 2 (Some (mk_gact_p 2 5 0)))) /\
    NLMSG_TAIL n' = 60 /\ (0 < 7)%nat.
Proof.
  apply (gact_roundtrip 100 false ["drop"; "random"; "determ"; "pass"; "5"; "index"; "7"]
    (mk_gact 7 2 (Some (mk_gact_p 2 5 0))) [] (mk_nlmsg 20 (replicate (Z.to_nat ACTION_SIZE) 0))).
  - vm_compute. reflexivity.
  - split; [cbn; lia|vm_compute; congruence|cbn [mem]; rewrite length_replicate; vm_compute; congruence|done].
Defined.

(** ** [tc actions] with [gact] *)

(** The program with [gact] alone among the actions. *)
Definition gact_env : tc_env :=
  mk_env (e_load demo_env) (e_load_filter demo_env)
    (fun s => if String.eqb s "gact" then Some (gact_action_util 100) else None)
    (e_send demo_env) (e_malloc demo_env) (e_nametoindex demo_env) (e_log demo_env) false false false (replicate BUF_SIZE 0).

(** The words of the usage message: the action after [gact] is taken for another action. *)
Lemma gact_then_action :
  actions_of gact_env 0 [] ["action"; "gact"; "drop"; "index"; "5"]
    [Nest 1 [Leaf TCA_ACT_KIND (string_bytes "gact" ++ [0]); Nest TCA_ACT_OPTIONS (gact_trees (mk_gact 0 1 None))];
     Nest 2 [Leaf TCA_ACT_KIND (string_bytes "gact" ++ [0]); Nest TCA_ACT_OPTIONS (gact_trees (mk_gact 5 2 None))]]
    [] [gact_action_util 100].
Proof.
  eapply actions_keyword; [reflexivity|].
  eapply (actions_one _ 0 _ "gact" ["drop"; "index"; "5"] _ "gact" _ ["drop"; "index"; "5"]); [done|done|done|reflexivity| |done|].
  { by apply gact_parses. }
  eapply (actions_one _ 1 _ "drop" ["index"; "5"] _ "gact" _ []); [done|done|done|reflexivity| |cbn; lia|].
  { by apply gact_parses. }
  constructor.
Qed.

(** An action that does not exist is taken for [gact]: to delete it is to delete the
    [gact] of that index. *)
Lemma unknown_deletes_gact i :
  gd_words gact_env ["action"; "nonsense"; "index"; i] 0 [gact_action_util 100] (action_request RTM_DELACTION 1) =
  gd_words gact_env ["action"; "gact"; "index"; i] 0 [gact_action_util 100] (action_request RTM_DELACTION 1).
Proof. cbn. destruct (get_u32 i 10); reflexivity. Qed.

Lemma actions_added_witness :
  let l := [Nest 1 [Leaf TCA_ACT_KIND (string_bytes "gact" ++ [0]); Nest TCA_ACT_OPTIONS (gact_trees (mk_gact 0 1 None))];
            Nest 2 [Leaf TCA_ACT_KIND (string_bytes "gact" ++ [0]); Nest TCA_ACT_OPTIONS (gact_trees (mk_gact 5 2 None))]] in
  exists d w',
    action_datagram d RTM_NEWACTION 1541 (request_seq (w_rth demo_world)) l /\
    w_outbox w' = w_outbox demo_world ++ [d] /\ w_inbox w' = map deliver [] /\
    as_kinds (w_action w') = [gact_action_util 100] /\
    do_action gact_env ["add"; "action"; "gact"; "drop"; "index"; "5"] demo_world =
      if m_error demo_ack =? 0 then action_loop gact_env 5 [] w' "" else (Returned (- 1) w', "").
Proof.
  apply (actions_added gact_env "add" (Z.lor NLM_F_EXCL NLM_F_CREATE) ["action"; "gact"; "drop"; "index"; "5"] _ []
    [gact_action_util 100] demo_world demo_ack [] (or_introl eq_refl) gact_then_action).
  - discriminate.
  - vm_compute. congruence.
  - intros d. cbn. lia.
  - exact demo_answered.
Defined.


(** ** A listing of [gact] actions *)

Section Listing.
Context (env : tc_env) (hz : Z).

Definition gact_kind : list Z := string_bytes "gact" ++ [0].

Definition listed (i : Z) (g : gact_words) : atree :=
  Nest i [Leaf TCA_ACT_KIND gact_kind; Nest TCA_ACT_OPTIONS (gact_trees g)].

(** The actions with their orders. *)
Fixpoint listed_from (i : Z) (l : list gact_words) : list atree :=
  match l with [] => [] | g :: l => listed i g :: listed_from (i + 1) l end.

Fixpoint list_text (i : Z) (l : list gact_words) : string :=
  match l with
  | [] => ""
  | g :: l => newline +:+ tab +:+ "action order " +:+ print_d i +:+ ": " +:+ gact_shows g +:+ list_text (i + 1) l
  end.

(** The action [gact] is registered, and no table was flushed. *)
Definition knows_gact (s : action_state) : Prop :=
  find_action env "gact" (as_kinds s) = Some (gact_action_util hz, as_kinds s) /\ tab_flush s = false.

Lemma cstring_loaded m off w :
  all_chars (fun c => negb (code c =? 0)) w = true ->
  load_bytes m off (Z.of_nat (List.length (string_bytes w ++ [0]))) = string_bytes w ++ [0] ->
  cstring (drop (Z.to_nat off) m) = w.
Proof.
  intros Hw E. unfold load_bytes in E. rewrite Nat2Z.id in E.
  rewrite <- (firstn_skipn (List.length (string_bytes w ++ [0])) (drop (Z.to_nat off) m)).
  change (firstn ?n ?l) with (take n l). rewrite E, <- app_assoc. by apply cstring_bytes.
Qed.

Lemma print_one msg off i g s :
  knows_gact s -> gact_ok g -> 0 <= off -> tree_at msg off (listed i g) ->
  tc_print_one_action env msg off s = (0, gact_shows g, (msg, s)).
Proof.
  intros [Hk Hf] Hg Ho Ht. unfold tc_print_one_action. unfold listed in Ht.
  rewrite (parse_nest _ TCA_ACT_MAX _ _ _ Ht). cbn [fst].
  apply tree_at_nest in Ht as (_ & _ & (_ & _ & D1) & D2 & _).
  match goal with |- context [?t !!! Z.to_nat TCA_ACT_KIND] =>
    change (t !!! Z.to_nat TCA_ACT_KIND) with (Some (off + 4));
    change (t !!! Z.to_nat TCA_ACT_OPTIONS) with (Some (off + 4 + 12));
    change (t !!! Z.to_nat TCA_ACT_STATS) with (@None Z) end. cbv iota zeta.
  assert (cstring (drop (Z.to_nat (RTA_DATA (off + 4))) msg) = "gact") as -> by (apply cstring_loaded; [done|exact D1]).
  unfold get_action_kind. rewrite Hk. change (String.eqb "gact" "gact") with true. cbv iota.
  assert (s <| as_kinds := as_kinds s |> = s) as -> by reflexivity. rewrite Hf.
  cbn [ac_print_aopt gact_action_util]. rewrite (print_trees hz _ _ _ g Hg) by (lia || exact D2).
  change (0 <? 0) with false. cbv iota. by rewrite append_empty.
Qed.

(** The table of the orders: those below the first are as they were. *)
Lemma table_below max l : forall i off tb j,
  0 <= j < i -> tree_table max off (listed_from i l) tb !!! Z.to_nat j = tb !!! Z.to_nat j.
Proof.
  induction l as [|g l IH]; intros i off tb j Hj; cbn [listed_from tree_table tree_type listed]; [done|].
  rewrite IH by lia. destruct (i <=? max); [|done]. destruct (tb !!! Z.to_nat i); [done|].
  apply list_lookup_total_insert_ne. lia.
Qed.

Lemma print_none k : forall i tb msg s out,
  0 <= i -> (forall j, i <= j < i + Z.of_nat k -> tb !!! Z.to_nat j = None) ->
  print_orders env k i tb msg s out = (out, (msg, s)).
Proof.
  induction k as [|k IH]; intros i tb msg s out Hi Hn; cbn [print_orders]; [done|].
  rewrite (Hn i) by lia. apply IH; [lia|]. intros j Hj. apply Hn. lia.
Qed.

Lemma print_listed msg s l : forall k i off tb out,
  knows_gact s -> Forall gact_ok l -> 0 <= off -> 0 <= i -> trees_at msg off (listed_from i l) ->
  i + Z.of_nat k = TCA_ACT_MAX_PRIO -> (List.length l <= k)%nat -> List.length tb = 33%nat ->
  (forall j, i <= j < TCA_ACT_MAX_PRIO -> tb !!! Z.to_nat j = None) -> 0 <= batch_c s -> batch_c s + 32 < 2 ^ 31 ->
  print_orders env k i (tree_table TCA_ACT_MAX_PRIO off (listed_from i l) tb) msg s out =
    (out +:+ list_text (i + batch_c s) l, (msg, s)).
Proof.
  unfold TCA_ACT_MAX_PRIO.
  induction l as [|g l IH]; intros k i off tb out Hk Hg Ho Hi Ht Hik Hlen Htb Hn Hb1 Hb2;
    cbn [listed_from list_text tree_table] in *.
  - rewrite append_empty. apply print_none; [done|]. intros j Hj. apply Hn. lia.
  - destruct k as [|k]; [cbn in Hlen; lia|]. apply Forall_cons in Hg as [Hg Hl]. destruct Ht as [Ht1 Ht2].
    cbn [print_orders]. change (tree_type (listed i g)) with i. rewrite (proj2 (Z.leb_le i 32)) by lia. rewrite Hn by lia.
    set (tb' := <[Z.to_nat i := Some off]> tb).
    rewrite table_below by lia.
    assert (tb' !!! Z.to_nat i = Some off) as -> by (apply list_lookup_total_insert_eq; lia).
    rewrite (print_one _ _ _ _ _ Hk Hg Ho Ht1). change (0 <? 0) with false. cbv iota.
    pose proof (tspan1_bounds (listed i g)).
    rewrite IH; [|done|done|lia|lia|exact Ht2|lia|cbn in Hlen; lia|by unfold tb'; rewrite length_insert| |done|done].
    + rewrite s32_small by lia. rewrite append_empty, <- !append_assoc.
      replace (i + 1 + batch_c s) with (i + batch_c s + 1) by lia. reflexivity.
    + intros j Hj. unfold tb'. rewrite list_lookup_total_insert_ne by lia. apply Hn. lia.
Qed.

(** The head of the text. *)
Definition list_head (msg : list Z) : string :=
  if h_type msg 0 =? RTM_NEWACTION then "Added action " else "".

(** A message of the kernel with a table of up to 31 [gact] actions, numbered from [i] on,
    is shown action by action in their order, each with the text of its options, and the
    next table is numbered 32 higher. *)
Theorem actions_listed who msg i l out s :
  knows_gact s -> Forall gact_ok l -> 0 <= i -> i + Z.of_nat (List.length l) <= TCA_ACT_MAX_PRIO ->
  0 <= batch_c s -> batch_c s + 32 < 2 ^ 31 -> h_type msg 0 <> RTM_DELACTION ->
  h_len msg 0 = 24 + tspan (listed_from i l) -> h_len msg 0 < 2 ^ 31 ->
  tree_at msg 20 (Nest TCA_ACT_TAB (listed_from i l)) ->
  print_action env who msg (out, s) =
    (0, (out +:+ list_head msg +:+ list_text (i + batch_c s) l, s <| batch_c := batch_c s + 32 |>)).
Proof.
  intros Hk Hg Hi Hlen Hb1 Hb2 Hty Hl Hl2 Ht. unfold print_action. pose proof (tspan_bounds (listed_from i l)).
  rewrite s32_small by lia. rewrite (proj2 (Z.ltb_ge _ 0)) by lia.
  assert (h_len msg 0 - 20 = tspan [Nest TCA_ACT_TAB (listed_from i l)]) as -> by (cbn [tspan]; rewrite tspan_nest; lia).
  rewrite (parse_trees msg 1 20 [Nest TCA_ACT_TAB (listed_from i l)]) by (by split). cbn [fst].
  match goal with |- context [?t !!! Z.to_nat TCA_ACT_TAB] => change (t !!! Z.to_nat TCA_ACT_TAB) with (Some 20) end.
  cbv iota zeta. rewrite (proj2 (Z.eqb_neq _ _) Hty). unfold tc_print_action.
  rewrite (parse_nest _ TCA_ACT_MAX_PRIO _ _ _ Ht). cbn [fst]. rewrite (proj2 Hk).
  apply tree_at_nest in Ht as (_ & _ & Ht). unfold TCA_ACT_MAX_PRIO in *.
  change (Z.to_nat (32 + 1)) with 33%nat. set (tb := replicate 33 None).
  assert (forall j, 0 <= j < 33 -> tb !!! Z.to_nat j = None) as Hn
    by (intros j Hj; unfold tb; apply lookup_total_replicate_2; lia).
  assert (print_orders env (Z.to_nat 32) 0 (tree_table 32 (20 + 4) (listed_from i l) tb) msg s "" =
    (list_text (i + batch_c s) l, (msg, s))) as ->.
  { assert (forall d j, 0 <= j -> j + Z.of_nat d = i ->
      print_orders env (d + Z.to_nat (32 - i)) j (tree_table 32 (20 + 4) (listed_from i l) tb) msg s "" =
      print_orders env (Z.to_nat (32 - i)) i (tree_table 32 (20 + 4) (listed_from i l) tb) msg s "") as Hskip.
    { induction d as [|d IH]; intros j Hj Hd; [by replace j with i by lia|]. cbn [Nat.add print_orders].
      rewrite table_below, Hn by lia. apply IH; lia. }
    replace (Z.to_nat 32) with (Z.to_nat i + Z.to_nat (32 - i))%nat by lia. rewrite (Hskip (Z.to_nat i) 0) by lia.
    rewrite print_listed; [done|done|done|lia|done|exact Ht|unfold TCA_ACT_MAX_PRIO; lia|lia|done| |done|done].
    intros j Hj. apply Hn. unfold TCA_ACT_MAX_PRIO in Hj. lia. }
  unfold list_head. rewrite s32_small by lia.
  destruct (h_type msg 0 =? RTM_NEWACTION); [|done]. by rewrite <- !append_assoc.
Qed.
End Listing.

(** A dump of two actions. *)
Definition demo_gacts : list gact_words := [mk_gact 7 2 (Some (mk_gact_p 2 5 0)); mk_gact 8 (- 1) None].

Definition demo_table : list Z :=
  let put i g := with_nest MAX_MSG i (fun n => put_gact g TCA_ACT_OPTIONS (addattr_l n MAX_MSG TCA_ACT_KIND gact_kind).2) in
  let n := with_nest MAX_MSG TCA_ACT_TAB (fun n => put 1 (mk_gact 8 (- 1) None) (put 0 (mk_gact 7 2 (Some (mk_gact_p 2 5 0))) n))
             (mk_nlmsg 20 (replicate 200 0)) in
  take 160 (store32 0 (24 + tspan (listed_from 0 demo_gacts)) (store16 4 RTM_GETACTION (mem n))).

Definition demo_astate : action_state := mk_astate [gact_action_util 100] 0 false.

Lemma actions_listed_witness :
  print_action gact_env zero_addr demo_table ("", demo_astate) =
    (0, (list_head demo_table +:+ list_text 0 demo_gacts, mk_astate [gact_action_util 100] 32 false)).
Proof.
  apply (actions_listed gact_env 100 zero_addr demo_table 0 demo_gacts "" demo_astate).
  - split; reflexivity.
  - constructor; [|constructor; [|constructor]]; (split; cbn; [lia|lia|]); [split; [by right|lia]|done].
  - lia.
  - cbn. unfold TCA_ACT_MAX_PRIO. lia.
  - cbn. lia.
  - cbn. lia.
  - vm_compute. discriminate.
  - vm_compute. reflexivity.
  - vm_compute. reflexivity.
  - apply tree_at_nest. split; [vm_compute; reflexivity|]. split; [vm_compute; reflexivity|].
    split; [|split; [|done]]; apply tree_at_nest;
      (split; [vm_compute; reflexivity|]; split; [vm_compute; reflexivity|]; split;
       [vm_compute; done|split; [|done]]; apply tree_at_nest;
       split; [vm_compute; reflexivity|]; split; [vm_compute; reflexivity|]; vm_compute; done).
Defined.

(** The 32nd action of a table is not shown. *)
Lemma order_32_not_shown env off msg s :
  print_orders env (Z.to_nat TCA_ACT_MAX_PRIO) 0 (<[32%nat := Some off]> (replicate 33 None)) msg s "" = ("", (msg, s)).
Proof. reflexivity. Qed.
