(* ===== verification/TcActs.v ===== *)
(** * Further actions (iproute2-3.1.0/tc/m_mirred.c, m_nat.c, m_skbedit.c, m_csum.c)

    Four actions from their words to their attributes and back to text; what such an action
    is, a class with its laws, against which the round trip is proved once. *)

From S2P Require Export TcGact HostNames.

#[local] Open Scope list_scope.

(** ** The words they share *)

(** [continue]. *)
Definition TC_ACT_UNSPEC : Z := - 1.

(** [iproute2-3.1.0/tc/m_nat.c:121-142 parse_nat] *)
Definition control (word : string) : option Z :=
  if matches word "reclassify" then Some TC_ACT_RECLASSIFY
  else if matches word "pipe" then Some TC_ACT_PIPE
  else if matches word "drop" || matches word "shot" then Some TC_ACT_SHOT
  else if matches word "continue" then Some TC_ACT_UNSPEC
  else if matches word "pass" then Some TC_ACT_OK
  else None.

(** The word of the action, if there is one; [more] when a word must follow it. *)
Definition take_control (more : bool) (old : Z) (argv : list string) : part_end Z :=
  match argv with
  | [] => Part old []
  | word :: rest =>
      match control word with
      | None => Part old argv
      | Some a => if more && bool_decide (rest = []) then PartExit else Part a rest
      end
  end.

(** The index, if there is one; [given] is what an earlier word set.
    [iproute2-3.1.0/tc/m_nat.c:145-155 parse_nat] *)
Definition take_index (given : option Z) (argv : list string) : part_end (option Z) :=
  match argv with
  | [] => Part given []
  | word :: rest =>
      if matches word "index" then
        match rest with
        | [] => PartExit
        | arg :: rest => match get_u32 arg 10 with None => PartError (- 1) | Some i => Part (Some i) rest end
        end
      else Part given argv
  end.

(** The head of the structures: index, capabilities, action and counters.
    [iproute2-3.1.0/include/linux/pkt_cls.h:149-154 tc_gen] *)
Definition gen_bytes (index action : Z) : list Z :=
  le_bytes 4 index ++ le_bytes 4 0 ++ le_bytes 4 action ++ le_bytes 4 0 ++ le_bytes 4 0.

Definition GEN_SIZE : Z := 20.

(** The times of an action, with statistics. *)
Definition times (hz : Z) (show_stats : bool) (m : list Z) (a : option Z) : string :=
  match a with
  | Some a =>
      let t := load_bytes m (RTA_DATA a) 24 in
      if show_stats then print_tm hz (mk_tcf (field64 t 0) (field64 t 8) (field64 t 16)) else ""
  | None => ""
  end.

(** The parser of an action: its words are read, and its attributes put in a nest. *)
Definition action_parser {T} (read : list string -> part_end T) (put : T -> nlmsghdr -> nlmsghdr)
    (argv : list string) (tca_id : Z) (n : nlmsghdr) : aopt_outcome :=
  match read argv with
  | Part g rest => AReturn 0 (with_nest MAX_MSG tca_id (put g) n) rest
  | PartError r => AReturn r n argv
  | PartExit => AExit 255
  end.

Definition then_part {S T} (p : part_end S) (f : S -> list string -> part_end T) : part_end T :=
  match p with Part v argv => f v argv | PartError r => PartError r | PartExit => PartExit end.

#[local] Set Primitive Projections.

(** [iproute2-3.1.0/include/linux/tc_act/tc_mirred.h:13-17 tc_mirred] *)
Record tc_mirred := mk_mirred { mi_index : Z; mi_action : Z; eaction : Z; mi_ifindex : Z }.

(** The locals of the loop and the structure.  [iproute2-3.1.0/tc/m_mirred.c:70-73 parse_egress] *)
Record egress := mk_egress { eg_ok : bool; eg_iok : bool; eg_mirror : bool; eg_redir : bool; eg_p : tc_mirred; eg_dev : string }.

(** [iproute2-3.1.0/include/linux/tc_act/tc_nat.h:18-24 tc_nat] *)
Record tc_nat := mk_nat { na_index : Z; na_action : Z; old_addr : list Z; new_addr : list Z; na_mask : Z; na_flags : Z }.

(** What the words set.  [iproute2-3.1.0/tc/m_skbedit.c:59-62 parse_skbedit] *)
Record skbedit := mk_skbedit {
  sk_index : Z; sk_action : Z; sk_queue : option Z; sk_priority : option Z; sk_mark : option Z
}.

(** [iproute2-3.1.0/include/linux/tc_act/tc_csum.h:26-30 tc_csum] *)
Record tc_csum := mk_csum { cs_index : Z; cs_action : Z; update_flags : Z }.

#[local] Unset Primitive Projections.

(** ** Mirroring and redirection *)

Definition TCA_EGRESS_REDIR : Z := 1.
Definition TCA_EGRESS_MIRROR : Z := 2.
Definition TCA_INGRESS_REDIR : Z := 3.
Definition TCA_INGRESS_MIRROR : Z := 4.
Definition TCA_MIRRED_TM : Z := 1.
Definition TCA_MIRRED_PARMS : Z := 2.
Definition TCA_MIRRED_MAX : Z := 2.

(** [iproute2-3.1.0/tc/m_mirred.c:48-62 mirred_n2a] *)
Definition mirred_n2a (action : Z) : string :=
  if action =? TCA_EGRESS_REDIR then "Egress Redirect"
  else if action =? TCA_INGRESS_REDIR then "Ingress Redirect"
  else if action =? TCA_EGRESS_MIRROR then "Egress Mirror"
  else if action =? TCA_INGRESS_MIRROR then "Ingress Mirror"
  else "unknown".

Section Mirred.
(** [lookup] is what [ll_name_to_index] gives after [ll_init_map].  The last byte of the
    buffer of the name is never written: [after] is what stands from it on. *)
Context (lookup : string -> Z) (after : string).

Definition dev_text (arg : string) : string :=
  if (15 <=? String.length arg)%nat then substring 0 15 arg +:+ after else arg.

(** The words up to the device.  A word that is none of them is passed over, and after most
    of them another must come.  [iproute2-3.1.0/tc/m_mirred.c:78-137 parse_egress] *)
Fixpoint egress_words (argv : list string) (e : egress) : part_end egress :=
  match argv with
  | [] => Part e []
  | word :: rest =>
      let next e := match rest with [] => PartExit | _ => egress_words rest e end in
      if matches word "action" then Part e argv
      else if matches word "egress" then next (e <| eg_ok := true |>)
      else if matches word "index" then
        match rest with
        | [] => PartExit
        | arg :: rest =>
            match get_u32 arg 10 with
            | None => PartError (- 1)
            | Some i =>
                let e := (e <| eg_p := (eg_p e) <| mi_index := i |> |>) <| eg_iok := true |> in
                if negb (eg_ok e) then Part e rest
                else match rest with [] => PartExit | _ => egress_words rest e end
            end
        end
      else if negb (eg_ok e) then Part e argv
      else if negb (eg_mirror e) && matches word "mirror" then
        if eg_redir e then PartError (- 1)
        else next (e <| eg_mirror := true |> <| eg_p := (eg_p e) <| eaction := TCA_EGRESS_MIRROR |> <| mi_action := TC_ACT_PIPE |> |>)
      else if negb (eg_redir e) && matches word "redirect" then
        if eg_mirror e then PartError (- 1)
        else next (e <| eg_redir := true |> <| eg_p := (eg_p e) <| eaction := TCA_EGRESS_REDIR |> <| mi_action := TC_ACT_STOLEN |> |>)
      else if (eg_redir e || eg_mirror e) && matches word "dev" then
        match rest with
        | [] => PartExit
        | arg :: rest => Part (e <| eg_dev := dev_text arg |>) rest
        end
      else next e
  end.

Definition egress_start : egress := mk_egress false false false false (mk_mirred 0 0 0 0) "".

(** [iproute2-3.1.0/tc/m_mirred.c:145-155 parse_egress] *)
Definition egress_device (e : egress) : option tc_mirred :=
  if String.eqb (eg_dev e) "" then Some (eg_p e)
  else let idx := lookup (eg_dev e) in if idx =? 0 then None else Some ((eg_p e) <| mi_ifindex := idx |>).

(** [iproute2-3.1.0/tc/m_mirred.c:180-195 parse_egress] *)
Definition egress_index (iok : bool) (argv : list string) : part_end (option Z) :=
  match argv with
  | word :: _ => if iok && matches word "index" then PartError (- 1) else take_index None argv
  | [] => Part None []
  end.

(** [iproute2-3.1.0/tc/m_mirred.c:64-205 parse_egress] *)
Definition read_egress (argv : list string) : part_end tc_mirred :=
  then_part (egress_words argv egress_start) (fun e argv =>
  if negb (eg_ok e) && negb (eg_iok e) then PartError (- 1)
  else
    match egress_device e with
    | None => PartError (- 1)
    | Some p =>
        then_part (if eaction p =? TCA_EGRESS_MIRROR then take_control true (mi_action p) argv else Part (mi_action p) argv)
          (fun a argv =>
        then_part (egress_index (eg_iok e) argv) (fun i argv =>
        Part ((p <| mi_action := a |>) <| mi_index := default (mi_index p) i |>) argv))
    end).

(** Every failure is -1.  [iproute2-3.1.0/tc/m_mirred.c:208-246 parse_mirred] *)
Definition read_mirred (argv : list string) : part_end tc_mirred :=
  match argv with
  | word :: rest =>
      if matches word "mirred" then
        match rest with
        | [] => PartExit
        | word :: _ =>
            if matches word "egress" || matches word "index" then
              match read_egress rest with PartError _ => PartError (- 1) | p => p end
            else if matches word "ingress" then PartError (- 1)
            else if matches word "help" then PartExit
            else PartError (- 1)
        end
      else PartError (- 1)
  | [] => PartError (- 1)
  end.

Definition mirred_bytes (p : tc_mirred) : list Z :=
  gen_bytes (mi_index p) (mi_action p) ++ le_bytes 4 (eaction p) ++ le_bytes 4 (mi_ifindex p).

Definition put_mirred (p : tc_mirred) (n : nlmsghdr) : nlmsghdr := (addattr_l n MAX_MSG TCA_MIRRED_PARMS (mirred_bytes p)).2.

(** [iproute2-3.1.0/tc/m_mirred.c:197-200 parse_egress] *)
Definition parse_mirred : list string -> Z -> nlmsghdr -> aopt_outcome := action_parser read_mirred put_mirred.

Definition mirred_text (links : ll_map) (e ifindex a index refcnt bindcnt : Z) (tm : string) : string :=
  "mirred (" +:+ mirred_n2a e +:+ " to device " +:+ ll_index_to_name links ifindex +:+ ") " +:+ action_n2a a 64 +:+
  newline +:+ " " +:+ tab +:+ "index " +:+ print_d index +:+ " ref " +:+ print_d refcnt +:+ " bind " +:+ print_d bindcnt +:+
  tm +:+ newline +:+ " ".

(** [links] is the table of devices; a device that is not in it is shown by its number.
    [iproute2-3.1.0/tc/m_mirred.c:248-290 print_mirred] *)
Definition print_mirred (links : ll_map) (hz : Z) (show_stats : bool) (m : list Z) (arg : option Z) : Z * string :=
  match arg with
  | None => (- 1, "")
  | Some arg =>
      let tb := (parse_rtattr_nested m TCA_MIRRED_MAX arg).1 in
      match tb !!! Z.to_nat TCA_MIRRED_PARMS with
      | None => (- 1, "[NULL mirred parameters]")
      | Some a =>
          let p := RTA_DATA a in
          (0, mirred_text links (s32 (load32 m (p + 20))) (load32 m (p + 24)) (s32 (load32 m (p + 8))) (s32 (load32 m p))
                (s32 (load32 m (p + 12))) (s32 (load32 m (p + 16)))
                (times hz show_stats m (tb !!! Z.to_nat TCA_MIRRED_TM)))
      end
  end.
End Mirred.

(** ** Address translation *)

Definition TCA_NAT_PARMS : Z := 1.
Definition TCA_NAT_TM : Z := 2.
Definition TCA_NAT_MAX : Z := 2.
Definition TCA_NAT_FLAG_EGRESS : Z := 1.

(** [ffs]: the place of the lowest bit, from 1 on, of a word of 32 bits; 0 if there is none. *)
Fixpoint ffs_from (n : nat) (i z : Z) : Z :=
  match n with
  | O => 0
  | S n => if Z.testbit z i then i + 1 else ffs_from n (i + 1) z
  end.
Definition ffs (z : Z) : Z := ffs_from 32 0 z.

Section Nat.
(** [shifted] is what the machine makes of a shift by all 32 bits, which C leaves open. *)
Context (inet_pton6 : string -> option (list Z)) (inet_ntop6 : list Z -> string) (shifted : Z).

(** [~0u << (32 - bitlen)] in the order of the network.  [iproute2-3.1.0/tc/m_nat.c:66-66 parse_nat_args] *)
Definition nat_mask (bitlen : Z) : Z :=
  ntohl (if bitlen =? 0 then u32 shifted else u32 (Z.shiftl 0xffffffff (32 - bitlen))).

(** The words after [nat]: direction, prefix and address.
    [iproute2-3.1.0/tc/m_nat.c:43-82 parse_nat_args] *)
Definition parse_nat_args (argv : list string) (sel : tc_nat) : part_end tc_nat :=
  match argv with
  | [] => PartError (- 1)
  | dir :: rest =>
      let egress := matches dir "egress" in
      if negb egress && negb (matches dir "ingress") then PartError (- 1)
      else
        match rest with
        | [] => PartExit
        | old :: rest =>
            match get_prefix_1 inet_pton6 old AF_INET with
            | None => PartError (- 1)
            | Some addr =>
                match rest with
                | [] => PartExit
                | new :: rest =>
                    match get_prefix_1 inet_pton6 new AF_INET with
                    | None => PartError (- 1)
                    | Some addr' =>
                        Part (mk_nat (na_index sel) (na_action sel) (take 4 (data addr)) (take 4 (data addr'))
                                (nat_mask (bitlen addr))
                                (if egress then Z.lor (na_flags sel) TCA_NAT_FLAG_EGRESS else na_flags sel)) rest
                    end
                end
            end
        end
  end.

(** A round takes four words; the flag says whether there was one.
    [iproute2-3.1.0/tc/m_nat.c:96-113 parse_nat] *)
Fixpoint nat_words (fuel : nat) (argv : list string) (ok : bool) (sel : tc_nat) : part_end (bool * tc_nat) :=
  match fuel, argv with
  | _, [] => Part (ok, sel) []
  | O, _ => Part (ok, sel) argv
  | S fuel, word :: rest =>
      if matches word "nat" then
        match rest with
        | [] => PartExit
        | _ => then_part (parse_nat_args rest sel) (fun sel argv => nat_words fuel argv true sel)
        end
      else if matches word "help" then PartExit
      else Part (ok, sel) argv
  end.

Definition nat_start : tc_nat := mk_nat 0 0 (replicate 4 0) (replicate 4 0) 0 0.

(** [iproute2-3.1.0/tc/m_nat.c:84-165 parse_nat] *)
Definition read_nat (argv : list string) : part_end tc_nat :=
  then_part (nat_words (List.length argv) argv false nat_start) (fun '(ok, sel) argv =>
  if negb ok then PartError (- 1)
  else
    then_part (take_control false (na_action sel) argv) (fun a argv =>
    then_part (take_index None argv) (fun i argv =>
    Part ((sel <| na_action := a |>) <| na_index := default (na_index sel) i |>) argv))).

Definition nat_bytes (p : tc_nat) : list Z :=
  gen_bytes (na_index p) (na_action p) ++ old_addr p ++ new_addr p ++ le_bytes 4 (na_mask p) ++ le_bytes 4 (na_flags p).

Definition put_nat (p : tc_nat) (n : nlmsghdr) : nlmsghdr := (addattr_l n MAX_MSG TCA_NAT_PARMS (nat_bytes p)).2.

(** [iproute2-3.1.0/tc/m_nat.c:157-160 parse_nat] *)
Definition parse_nat : list string -> Z -> nlmsghdr -> aopt_outcome := action_parser read_nat put_nat.

(** The length of the prefix as it is computed back.  [iproute2-3.1.0/tc/m_nat.c:188-189 print_nat] *)
Definition mask_len (mask : Z) : Z := let len := ffs mask in if len =? 0 then 0 else 33 - len.

(** [resolve_hosts] is never set in this program.  [iproute2-3.1.0/tc/m_nat.c:191-197 print_nat] *)
Definition nat_text (flags mask : Z) (old new : list Z) (a : Z) : string :=
  let host addr := match rt_addr_n2a inet_ntop6 AF_INET addr 256 with Some s => s | None => "(null)" end in
  " nat " +:+ (if negb (Z.land flags TCA_NAT_FLAG_EGRESS =? 0) then "egress" else "ingress") +:+ " " +:+
  host old +:+ "/" +:+ print_d (mask_len mask) +:+ " " +:+ host new +:+ " " +:+ action_n2a a 64.

(** [iproute2-3.1.0/tc/m_nat.c:167-206 print_nat] *)
Definition print_nat (hz : Z) (show_stats : bool) (m : list Z) (arg : option Z) : Z * string :=
  match arg with
  | None => (- 1, "")
  | Some arg =>
      let tb := (parse_rtattr_nested m TCA_NAT_MAX arg).1 in
      match tb !!! Z.to_nat TCA_NAT_PARMS with
      | None => (- 1, "[NULL nat parameters]")
      | Some a =>
          let p := RTA_DATA a in
          (0, nat_text (load32 m (p + 32)) (load32 m (p + 28)) (load_bytes m (p + 20) 4) (load_bytes m (p + 24) 4)
                (s32 (load32 m (p + 8))) +:+
              times hz show_stats m (tb !!! Z.to_nat TCA_NAT_TM))
      end
  end.
End Nat.

(** ** Marks and queues *)

Definition TCA_SKBEDIT_TM : Z := 1.
Definition TCA_SKBEDIT_PARMS : Z := 2.
Definition TCA_SKBEDIT_PRIORITY : Z := 3.
Definition TCA_SKBEDIT_QUEUE_MAPPING : Z := 4.
Definition TCA_SKBEDIT_MARK : Z := 5.
Definition TCA_SKBEDIT_MAX : Z := 5.

(** The words that set something; the first other word ends them.
    [iproute2-3.1.0/tc/m_skbedit.c:68-101 parse_skbedit] *)
Fixpoint skbedit_words (argv : list string) (w : skbedit) : part_end skbedit :=
  match argv with
  | [] => Part w []
  | word :: rest =>
      let value (parse : string -> option Z) (set : Z -> skbedit) :=
        match rest with
        | [] => PartExit
        | arg :: rest => match parse arg with None => PartError (- 1) | Some v => skbedit_words rest (set v) end
        end in
      if matches word "queue_mapping" then
        value (fun arg => match get_unsigned arg 10 with Some v => if 65535 <? v then None else Some v | None => None end)
          (fun v => w <| sk_queue := Some v |>)
      else if matches word "priority" then value get_tc_classid (fun v => w <| sk_priority := Some v |>)
      else if matches word "mark" then value (fun arg => get_u32 arg 0) (fun v => w <| sk_mark := Some v |>)
      else if matches word "help" then PartExit
      else Part w argv
  end.

Definition given {A} (o : option A) : bool := match o with Some _ => true | None => false end.

(** [iproute2-3.1.0/tc/m_skbedit.c:50-159 parse_skbedit] *)
Definition read_skbedit (argv : list string) : part_end skbedit :=
  match argv with
  | word :: rest =>
      if matches word "skbedit" then
        match rest with
        | [] => PartExit
        | _ =>
            then_part (skbedit_words rest (mk_skbedit 0 0 None None None)) (fun w argv =>
            then_part (take_control true (sk_action w) argv) (fun a argv =>
            then_part (take_index None argv) (fun i argv =>
            if given (sk_queue w) || given (sk_priority w) || given (sk_mark w) || given i
            then Part ((w <| sk_action := a |>) <| sk_index := default 0 i |>) argv
            else PartError (- 1))))
        end
      else PartError (- 1)
  | [] => PartError (- 1)
  end.

(** [iproute2-3.1.0/tc/m_skbedit.c:144-153 parse_skbedit] *)
Definition put_skbedit (w : skbedit) (n : nlmsghdr) : nlmsghdr :=
  let n := (addattr_l n MAX_MSG TCA_SKBEDIT_PARMS (gen_bytes (sk_index w) (sk_action w))).2 in
  let n := add_value MAX_MSG TCA_SKBEDIT_QUEUE_MAPPING 2 (sk_queue w) n in
  let n := add_value MAX_MSG TCA_SKBEDIT_PRIORITY 4 (sk_priority w) n in
  add_value MAX_MSG TCA_SKBEDIT_MARK 4 (sk_mark w) n.

(** [iproute2-3.1.0/tc/m_skbedit.c:142-154 parse_skbedit] *)
Definition parse_skbedit : list string -> Z -> nlmsghdr -> aopt_outcome := action_parser read_skbedit put_skbedit.

(** Neither the action nor the index are shown.  [iproute2-3.1.0/tc/m_skbedit.c:179-192 print_skbedit] *)
Definition skbedit_text (queue priority mark : option Z) : string :=
  let part (label : string) (f : Z -> string) (o : option Z) := match o with Some v => label +:+ f v | None => "" end in
  " skbedit" +:+ part " queue_mapping " print_u queue +:+ part " priority " sprint_tc_classid priority +:+
  part " mark " (fun v => print_d (s32 v)) mark.

(** [iproute2-3.1.0/tc/m_skbedit.c:161-202 print_skbedit] *)
Definition print_skbedit (hz : Z) (show_stats : bool) (m : list Z) (arg : option Z) : Z * string :=
  match arg with
  | None => (- 1, "")
  | Some arg =>
      let tb := (parse_rtattr_nested m TCA_SKBEDIT_MAX arg).1 in
      match tb !!! Z.to_nat TCA_SKBEDIT_PARMS with
      | None => (- 1, "[NULL skbedit parameters]")
      | Some _ =>
          let value load type := option_map (fun a => load m (RTA_DATA a)) (tb !!! Z.to_nat type) in
          (0, skbedit_text (value load16 TCA_SKBEDIT_QUEUE_MAPPING) (value load32 TCA_SKBEDIT_PRIORITY)
                (value load32 TCA_SKBEDIT_MARK) +:+
              times hz show_stats m (tb !!! Z.to_nat TCA_SKBEDIT_TM))
      end
  end.

(** ** Checksums *)

Definition TCA_CSUM_PARMS : Z := 1.
Definition TCA_CSUM_TM : Z := 2.
Definition TCA_CSUM_MAX : Z := 2.

(** The flag of a word; 0 for the words between.  [iproute2-3.1.0/tc/m_csum.c:49-75 parse_csum_args] *)
Definition csum_flag (word : string) : option Z :=
  if matches word "iph" || matches word "ip4h" || matches word "ipv4h" then Some 1
  else if matches word "icmp" then Some 2
  else if matches word "igmp" then Some 4
  else if matches word "tcp" then Some 8
  else if matches word "udp" then Some 16
  else if matches word "udplite" then Some 32
  else if matches word "and" || matches word "or" || matches word "+" then Some 0
  else None.

(** [iproute2-3.1.0/tc/m_csum.c:39-83 parse_csum_args] *)
Fixpoint parse_csum_args (argv : list string) (flags : Z) : Z * list string :=
  match argv with
  | word :: rest => match csum_flag word with Some f => parse_csum_args rest (Z.lor flags f) | None => (flags, argv) end
  | [] => (flags, [])
  end.

(** [iproute2-3.1.0/tc/m_csum.c:98-115 parse_csum] *)
Fixpoint csum_words (fuel : nat) (argv : list string) (ok : bool) (flags : Z) : part_end (bool * Z) :=
  match fuel, argv with
  | _, [] => Part (ok, flags) []
  | O, _ => Part (ok, flags) argv
  | S fuel, word :: rest =>
      if matches word "csum" then
        match rest with
        | [] => PartExit
        | _ => let '(flags, argv) := parse_csum_args rest flags in csum_words fuel argv true flags
        end
      else if matches word "help" then PartExit
      else Part (ok, flags) argv
  end.

(** [iproute2-3.1.0/tc/m_csum.c:85-174 parse_csum] *)
Definition read_csum (argv : list string) : part_end tc_csum :=
  then_part (csum_words (List.length argv) argv false 0) (fun '(ok, flags) argv =>
  if negb ok then PartError (- 1)
  else if flags =? 0 then PartError (- 1)
  else
    then_part (take_control false 0 argv) (fun a argv =>
    then_part (take_index None argv) (fun i argv => Part (mk_csum (default 0 i) a flags) argv))).

Definition csum_bytes (p : tc_csum) : list Z := gen_bytes (cs_index p) (cs_action p) ++ le_bytes 4 (update_flags p).

Definition put_csum (p : tc_csum) (n : nlmsghdr) : nlmsghdr := (addattr_l n MAX_MSG TCA_CSUM_PARMS (csum_bytes p)).2.

(** [iproute2-3.1.0/tc/m_csum.c:165-168 parse_csum] *)
Definition parse_csum : list string -> Z -> nlmsghdr -> aopt_outcome := action_parser read_csum put_csum.

(** The names, TCP among them as it is spelled.  [iproute2-3.1.0/tc/m_csum.c:204-223 print_csum] *)
Definition csum_flags_text (flags : Z) : string :=
  let names :=
    flat_map (fun '(f, name) => if Z.land flags f =? 0 then [] else [name])
      [(1, "iph"); (2, "icmp"); (4, "igmp"); (8, "tdp"); (16, "udp"); (32, "udplite")] in
  match names with [] => "?empty" | _ => String.concat ", " names end.

Definition csum_text (flags a index refcnt bindcnt : Z) (tm : string) : string :=
  "csum (" +:+ csum_flags_text flags +:+ ") action " +:+ action_n2a a 64 +:+ newline +:+ tab +:+ "index " +:+
  print_d index +:+ " ref " +:+ print_d refcnt +:+ " bind " +:+ print_d bindcnt +:+ tm +:+ newline.

(** [iproute2-3.1.0/tc/m_csum.c:176-240 print_csum] *)
Definition print_csum (hz : Z) (show_stats : bool) (m : list Z) (arg : option Z) : Z * string :=
  match arg with
  | None => (- 1, "")
  | Some arg =>
      let tb := (parse_rtattr_nested m TCA_CSUM_MAX arg).1 in
      match tb !!! Z.to_nat TCA_CSUM_PARMS with
      | None => (- 1, "[NULL csum parameters]")
      | Some a =>
          let p := RTA_DATA a in
          (0, csum_text (load32 m (p + 20)) (s32 (load32 m (p + 8))) (s32 (load32 m p)) (s32 (load32 m (p + 12)))
                (s32 (load32 m (p + 16))) (times hz show_stats m (tb !!! Z.to_nat TCA_CSUM_TM)))
      end
  end.

(** ** What an action promises *)

(** An action by its parts: what its words set, the trees of its attributes, what may be set,
    and the text for it. *)
Class Action (T : Type) := {
  a_read : list string -> part_end T;
  a_put : T -> nlmsghdr -> nlmsghdr;
  a_trees : T -> list atree;
  a_ok : T -> Prop;
  a_print : bool -> list Z -> option Z -> Z * string;
  a_shows : T -> string
}.

Class ActionLaws (T : Type) `{Action T} : Prop := {
  al_appends g : appends MAX_MSG (a_put g) (a_trees g);
  al_read argv g rest : a_read argv = Part g rest -> (List.length rest < List.length argv)%nat /\ a_ok g;
  al_error argv r : a_read argv = PartError r -> r < 0;
  al_print show_stats m off g :
    a_ok g -> 0 <= off -> tree_at m off (Nest TCA_ACT_OPTIONS (a_trees g)) ->
    a_print show_stats m (Some off) = (0, a_shows g)
}.

Section Laws.
Context `{ActionLaws T}.

Definition action_of (name : string) : action_util := mk_action_util name (action_parser a_read a_put) a_print.

Lemma action_parses name argv g rest :
  a_read argv = Part g rest -> parses (action_of name) argv rest [Nest TCA_ACT_OPTIONS (a_trees g)].
Proof.
  intros E. exists (with_nest MAX_MSG TCA_ACT_OPTIONS (a_put g)).
  split; [apply appends_nest; [done|apply al_appends]|]. intros n. cbn. unfold action_parser. by rewrite E.
Qed.

Lemma action_consumes name : consumes (action_of name).
Proof.
  intros argv code n r n' rest. cbn. unfold action_parser.
  destruct (a_read argv) as [g l|e|] eqn:E; [|intros [= <- _ _] Hr; apply al_error in E; lia|done].
  intros [= _ _ <-] _ _. by apply al_read in E as [? _].
Qed.

(** Whatever the parser accepts, it takes words, appends one nest and is shown. *)
Lemma action_nest_roundtrip argv g rest n :
  a_read argv = Part g rest -> room_for n MAX_MSG (4 + tspan (a_trees g)) ->
  (List.length rest < List.length argv)%nat /\
  exists n', action_parser a_read a_put argv TCA_ACT_OPTIONS n = AReturn 0 n' rest /\
    same_below (NLMSG_TAIL n) (mem n) (mem n') /\
    tree_at (mem n') (NLMSG_TAIL n) (Nest TCA_ACT_OPTIONS (a_trees g)) /\
    forall show_stats, a_print show_stats (mem n') (Some (NLMSG_TAIL n)) = (0, a_shows g).
Proof.
  intros E Hr. destruct (al_read _ _ _ E) as [Hlen Hok]. split; [done|].
  exists (with_nest MAX_MSG TCA_ACT_OPTIONS (a_put g) n). unfold action_parser. rewrite E. split; [done|].
  assert (tspan [Nest TCA_ACT_OPTIONS (a_trees g)] = 4 + tspan (a_trees g)) as Es
    by (cbn [tspan]; rewrite tspan_nest; lia).
  destruct (appends_nest MAX_MSG TCA_ACT_OPTIONS _ _ ltac:(done) (al_appends g) n) as ([F1 _] & _ & _ & _ & F2 & _);
    [by rewrite Es|].
  split; [exact F2|]. split; [exact F1|]. intros ss. apply al_print; [done| |exact F1].
  destruct Hr as [Hn _ _ _]. pose proof (tail_bounds n). lia.
Qed.
End Laws.

(** ** The shared parts *)

Lemma control_range word a : control word = Some a -> - 1 <= a <= 3.
Proof. unfold control. repeat (case_match; try done); intros [= <-]; unfold TC_ACT_RECLASSIFY, TC_ACT_PIPE, TC_ACT_SHOT, TC_ACT_UNSPEC, TC_ACT_OK; lia. Qed.

Lemma take_control_part more old argv a rest :
  take_control more old argv = Part a rest ->
  (List.length rest <= List.length argv)%nat /\ (a = old \/ - 1 <= a <= 3).
Proof.
  destruct argv as [|word argv]; cbn [take_control]; [intros [= <- <-]; auto|].
  destruct (control word) as [b|] eqn:E; [|intros [= <- <-]; auto]. apply control_range in E.
  destruct (more && _); [done|]. intros [= <- <-]. cbn. split; [lia|auto].
Qed.

Lemma take_control_error more old argv r : take_control more old argv = PartError r -> False.
Proof. destruct argv as [|word argv]; cbn [take_control]; [done|]. by repeat case_match. Qed.

Lemma take_index_part given argv i rest :
  take_index given argv = Part i rest ->
  (List.length rest <= List.length argv)%nat /\ (i = given \/ exists z, i = Some z /\ 0 <= z < 2 ^ 32).
Proof.
  destruct argv as [|word argv]; cbn [take_index]; [intros [= <- <-]; auto|].
  destruct (matches word "index"); [|intros [= <- <-]; auto]. destruct argv as [|arg argv]; [done|].
  destruct (get_u32 arg 10) as [z|] eqn:E; [|done]. intros [= <- <-]. apply get_u32_range in E. cbn.
  split; [lia|eauto].
Qed.

Lemma take_index_error given argv r : take_index given argv = PartError r -> r < 0.
Proof. destruct argv as [|word argv]; cbn [take_index]; [done|]. repeat case_match; try done. by intros [= <-]. Qed.

Lemma then_value {S T} (p : part_end S) (f : S -> list string -> part_end T) v rest :
  then_part p f = Part v rest -> exists x argv, p = Part x argv /\ f x argv = Part v rest.
Proof. destruct p as [x argv| |]; [eauto|done..]. Qed.

Lemma then_error {S T} (p : part_end S) (f : S -> list string -> part_end T) r :
  then_part p f = PartError r -> p = PartError r \/ exists x argv, p = Part x argv /\ f x argv = PartError r.
Proof. destruct p as [x argv|e|]; [eauto|intros [= ->]; auto|done]. Qed.

(** A nest of one attribute, where the printers look for it. *)
Lemma one_leaf m off ty max t b :
  tree_at m off (Nest ty [Leaf t b]) -> 0 <= t <= max ->
  (parse_rtattr_nested m max off).1 = <[Z.to_nat t := Some (off + 4)]> (replicate (Z.to_nat (max + 1)) None) /\
  load_bytes m (RTA_DATA (off + 4)) (Z.of_nat (List.length b)) = b.
Proof.
  intros Ht Hm. rewrite (parse_nest _ _ _ _ _ Ht). cbn [fst tree_table tree_type].
  rewrite (proj2 (Z.leb_le t max)) by lia. apply tree_at_nest in Ht as (_ & _ & [(_ & _ & D) _]). split; [|exact D].
  rewrite lookup_total_replicate_2; [done|lia].
Qed.

(** A word at an offset of a structure. *)
Lemma word_at m off n l o z :
  load_bytes m off n = l -> 0 <= off -> 0 <= o -> o + 4 <= n -> load_bytes l o 4 = le_bytes 4 z ->
  load32 m (off + o) = u32 z.
Proof. intros E H1 H2 H3 H4. unfold load32. exact (load_le m off n l o 4 z E H1 H2 H3 H4). Qed.

Lemma gen_fields m off n index action l :
  0 <= off -> GEN_SIZE <= n -> load_bytes m off n = gen_bytes index action ++ l ->
  load32 m off = u32 index /\ load32 m (off + 8) = u32 action /\ load32 m (off + 12) = 0 /\ load32 m (off + 16) = 0.
Proof.
  intros Ho Hn E. unfold GEN_SIZE in Hn. rewrite <- (Z.add_0_r off) at 1. split_and!.
  3-4: transitivity (u32 0); [|done].
  all: eapply word_at; [exact E|done|lia|lia|reflexivity].
Qed.

(** ** The four actions *)

Definition action_range (a : Z) : Prop := - 1 <= a <= 4.

Lemma action_shown a : action_range a -> s32 (u32 a) = a.
Proof. intros Ha. rewrite s32_u32. apply s32_small. unfold action_range in Ha. lia. Qed.

Section Instances.
Context (lookup : string -> Z) (after : string) (links : ll_map) (hz : Z).
Context (inet_pton6 : string -> option (list Z)) (inet_ntop6 : list Z -> string) (shifted : Z).

(** *** mirred *)

Definition mirred_ok (p : tc_mirred) : Prop :=
  0 <= mi_index p < 2 ^ 32 /\ action_range (mi_action p) /\ 0 <= eaction p <= 2 /\ 0 <= mi_ifindex p < 2 ^ 32.

#[export] Instance mirred_action : Action tc_mirred := {|
  a_read := read_mirred lookup after;
  a_put := put_mirred;
  a_trees p := [Leaf TCA_MIRRED_PARMS (mirred_bytes p)];
  a_ok := mirred_ok;
  a_print := print_mirred links hz;
  a_shows p := mirred_text links (eaction p) (mi_ifindex p) (mi_action p) (s32 (mi_index p)) 0 0 ""
|}.

Hypothesis Hlookup : forall d, 0 <= lookup d < 2 ^ 32.

Lemma egress_part argv : forall e e' rest,
  egress_words after argv e = Part e' rest -> mirred_ok (eg_p e) ->
  mirred_ok (eg_p e') /\ (List.length rest <= List.length argv)%nat.
Proof.
  assert (forall n argv, (List.length argv <= n)%nat -> forall e e' rest,
    egress_words after argv e = Part e' rest -> mirred_ok (eg_p e) ->
    mirred_ok (eg_p e') /\ (List.length rest <= List.length argv)%nat) as H.
  { clear argv. induction n as [|n IH]; intros [|word argv] Hn e e' rest; cbn [List.length] in Hn; try lia;
      cbn [egress_words]; try (by intros [= <- <-]); intros E Hok.
    assert (forall e1, mirred_ok (eg_p e1) -> match argv with [] => PartExit | _ => egress_words after argv e1 end = Part e' rest ->
      mirred_ok (eg_p e') /\ (List.length rest <= S (List.length argv))%nat) as Hnext.
    { intros e1 H1 E1. destruct argv as [|w l]; [done|].
      destruct (IH (w :: l) ltac:(lia) _ _ _ E1 H1) as [A B]. split; [done|]. lia. }
    destruct (matches word "action"); [injection E as <- <-; split; [done|cbn; lia]|].
    destruct (matches word "egress"); [by apply Hnext in E|].
    destruct (matches word "index").
    { destruct argv as [|arg argv]; [done|]. destruct (get_u32 arg 10) as [i|] eqn:Ei; [|done].
      apply get_u32_range in Ei. destruct Hok as (H1 & H2 & H3 & H4).
      assert (mirred_ok ((eg_p e) <| mi_index := i |>)) as Hok' by (repeat (split; [done|]); done).
      cbv zeta in E. destruct (negb (eg_ok _)); [injection E as <- <-; split; [done|cbn; lia]|].
      destruct argv as [|w l]; [done|]. cbn [List.length] in Hn.
      destruct (IH (w :: l) ltac:(cbn [List.length]; lia) _ _ _ E Hok') as [A B]. split; [done|]. cbn [List.length] in *. lia. }
    destruct (negb (eg_ok e)); [injection E as <- <-; split; [done|cbn; lia]|].
    destruct Hok as (H1 & H2 & H3 & H4).
    destruct (negb (eg_mirror e) && matches word "mirror").
    { destruct (eg_redir e); [done|]. apply Hnext in E; [done|].
      split; [exact H1|]. split; [by vm_compute|]. split; [by vm_compute|exact H4]. }
    destruct (negb (eg_redir e) && matches word "redirect").
    { destruct (eg_mirror e); [done|]. apply Hnext in E; [done|].
      split; [exact H1|]. split; [by vm_compute|]. split; [by vm_compute|exact H4]. }
    destruct (_ && matches word "dev"); [|apply Hnext in E; [done|]; repeat (split; [done|]); done].
    destruct argv as [|arg argv]; [done|]. injection E as <- <-. split; [repeat (split; [done|]); done|cbn; lia]. }
  intros e e' rest. by apply (H (List.length argv)).
Qed.

Lemma egress_error argv : forall e r, egress_words after argv e = PartError r -> r = - 1.
Proof.
  assert (forall n argv, (List.length argv <= n)%nat -> forall e r, egress_words after argv e = PartError r -> r = - 1) as H.
  { clear argv. induction n as [|n IH]; intros [|word argv] Hn e r; cbn [List.length] in Hn; try lia; cbn [egress_words]; try done.
    intros E. repeat (case_match; try done); simplify_eq; try done; eapply IH; try exact E; cbn [List.length] in *; lia. }
  intros e r. by apply (H (List.length argv)).
Qed.

Lemma read_egress_ok argv p rest :
  read_egress lookup after argv = Part p rest -> mirred_ok p /\ (List.length rest <= List.length argv)%nat.
Proof.
  unfold read_egress. intros (e & l1 & E1 & E)%then_value.
  apply egress_part in E1 as [Hp L1]; [|by vm_compute].
  destruct (negb (eg_ok e) && negb (eg_iok e)); [done|].
  assert (forall q, egress_device lookup e = Some q -> mirred_ok q) as Hd.
  { unfold egress_device. destruct (String.eqb (eg_dev e) ""); [by intros q [= <-]|].
    destruct (lookup (eg_dev e) =? 0); [done|]. intros q [= <-]. destruct Hp as (A & B & C & D).
    split; [exact A|]. split; [exact B|]. split; [exact C|apply Hlookup]. }
  destruct (egress_device lookup e) as [q|]; [|done]. specialize (Hd q eq_refl).
  apply then_value in E as (a & l2 & E2 & (i & l3 & E3 & E)%then_value). injection E as <- <-.
  destruct Hd as (A & B & C & D).
  assert ((List.length l2 <= List.length l1)%nat /\ action_range a) as [L2 Ha].
  { destruct (eaction q =? TCA_EGRESS_MIRROR); [|by injection E2 as <- <-].
    apply take_control_part in E2 as [? [-> | ?]]; split; try done. unfold action_range. lia. }
  assert ((List.length l3 <= List.length l2)%nat /\ (i = None \/ exists z, i = Some z /\ 0 <= z < 2 ^ 32)) as [L3 Hi].
  { destruct l2 as [|word l2]; [injection E3 as <- <-; auto|]. cbn [egress_index] in E3.
    destruct (eg_iok e && matches word "index"); [done|]. by apply take_index_part in E3. }
  split; [|lia]. split; [|split; [exact Ha|split; [exact C|exact D]]].
  destruct Hi as [-> |(z & -> & Hz)]; [exact A|exact Hz].
Qed.

#[export] Instance mirred_laws : ActionLaws tc_mirred.
Proof.
  constructor.
  - intros p. cbn. by apply appends_leaf.
  - intros [|word argv] p rest; cbn; [done|]. destruct (matches word "mirred"); [|done].
    destruct argv as [|word' argv]; [done|]. destruct (matches word' "egress" || matches word' "index").
    + destruct (read_egress lookup after (word' :: argv)) as [q l| |] eqn:E; [|done..]. intros [= <- <-].
      apply read_egress_ok in E as [? L]. split; [cbn in *; lia|done].
    + by repeat case_match.
  - intros [|word argv] r; cbn; [by intros [= <-]|]. destruct (matches word "mirred"); [|by intros [= <-]].
    destruct argv as [|word' argv]; [done|]. repeat case_match; try done; by intros [= <-].
  - intros ss m off p (H1 & H2 & H3 & H4) Ho Ht.
    change (print_mirred links hz ss m (Some off) =
      (0, mirred_text links (eaction p) (mi_ifindex p) (mi_action p) (s32 (mi_index p)) 0 0 "")).
    destruct (one_leaf _ _ _ TCA_MIRRED_MAX _ _ Ht ltac:(by vm_compute)) as [Htb Hb]. unfold print_mirred. rewrite Htb.
    change (<[_ := _]> _ !!! Z.to_nat TCA_MIRRED_PARMS) with (Some (off + 4)).
    change (<[_ := _]> _ !!! Z.to_nat TCA_MIRRED_TM) with (@None Z). cbv iota zeta.
    set (q := RTA_DATA (off + 4)) in *. assert (0 <= q) as Hq by (unfold q; change (0 <= off + 4 + 4); lia).
    change (Z.of_nat (List.length (mirred_bytes p))) with 28 in Hb.
    destruct p as [index action e ifindex]. cbn [mi_index mi_action eaction mi_ifindex] in *.
    destruct (gen_fields _ _ 28 _ _ _ Hq ltac:(by vm_compute) Hb) as (F1 & F2 & F3 & F4).
    rewrite (word_at _ _ _ _ 20 e Hb), (word_at _ _ _ _ 24 ifindex Hb) by (lia || reflexivity).
    cbn [mi_index mi_action] in F1, F2. rewrite F1, F2, F3, F4, (action_shown action), !s32_u32, (s32_small e) by (done || lia).
    unfold u32. by rewrite Z.mod_small.
Qed.

(** *** nat *)

Definition nat_ok (p : tc_nat) : Prop :=
  0 <= na_index p < 2 ^ 32 /\ action_range (na_action p) /\ List.length (old_addr p) = 4%nat /\
  List.length (new_addr p) = 4%nat /\ 0 <= na_mask p < 2 ^ 32 /\ 0 <= na_flags p <= 1.

#[export] Instance nat_action : Action tc_nat := {|
  a_read := read_nat inet_pton6 shifted;
  a_put := put_nat;
  a_trees p := [Leaf TCA_NAT_PARMS (nat_bytes p)];
  a_ok := nat_ok;
  a_print := print_nat inet_ntop6 hz;
  a_shows p := nat_text inet_ntop6 (na_flags p) (na_mask p) (old_addr p) (new_addr p) (na_action p)
|}.

(** An IPv4 prefix holds four bytes at least. *)
Lemma prefix4_data arg addr : get_prefix_1 inet_pton6 arg AF_INET = Some addr -> (4 <= List.length (data addr))%nat.
Proof.
  assert (forall name a, get_addr_1 inet_pton6 name AF_INET = Some a -> (4 <= List.length (data a))%nat) as Ha.
  { intros name a. unfold get_addr_1. destruct (any_name name); [by intros [= <-]; cbn; lia|].
    destruct (contains ":" name); [done|]. cbn [family_is]. destruct (get_addr_ipv4 4 name) as [b|]; [|done].
    intros [= <-]. change (4 <= List.length (store_bytes b (replicate 32 0%Z)))%nat. unfold store_bytes.
    rewrite length_app, length_drop, length_replicate. lia. }
  unfold get_prefix_1. destruct (any_name arg); [by intros [= <-]; cbn; lia|].
  destruct (get_addr_1 _ _ _) as [a|] eqn:E; [|done]. apply Ha in E.
  repeat (case_match; try done); by intros [= <-].
Qed.

Lemma nat_args_ok argv sel sel' rest :
  parse_nat_args inet_pton6 shifted argv sel = Part sel' rest -> nat_ok sel ->
  nat_ok sel' /\ (List.length rest <= List.length argv)%nat.
Proof.
  destruct argv as [|dir argv]; [done|]. cbn [parse_nat_args].
  destruct (negb (matches dir "egress") && _); [done|]. destruct argv as [|old argv]; [done|].
  destruct (get_prefix_1 _ old _) as [a|] eqn:Ea; [|done]. destruct argv as [|new argv]; [done|].
  destruct (get_prefix_1 _ new _) as [b|] eqn:Eb; [|done]. apply prefix4_data in Ea, Eb.
  intros [= <- <-] (H1 & H2 & H3 & H4 & H5 & H6). split; [|cbn; lia].
  split; [exact H1|]. split; [exact H2|]. cbn [old_addr new_addr na_mask na_flags].
  split; [rewrite length_take; lia|]. split; [rewrite length_take; lia|]. split; [apply ntohl_range|].
  destruct (matches dir "egress"); [|done]. assert (na_flags sel = 0 \/ na_flags sel = 1) as [-> | ->] by lia; done.
Qed.

Lemma nat_words_ok fuel : forall argv ok sel ok' sel' rest,
  nat_words inet_pton6 shifted fuel argv ok sel = Part (ok', sel') rest -> nat_ok sel ->
  nat_ok sel' /\ (List.length rest <= List.length argv)%nat /\
  (ok' = true -> ok = true \/ (List.length rest < List.length argv)%nat).
Proof.
  induction fuel as [|fuel IH]; intros [|word argv] ok sel ok' sel' rest; cbn [nat_words]; try (by intros [= <- <- <-]; auto).
  destruct (matches word "nat"); [|destruct (matches word "help"); [done|by intros [= <- <- <-]; auto]].
  destruct argv as [|w l]; [done|]. intros (s1 & l1 & E1 & E)%then_value Hok.
  destruct (nat_args_ok _ _ _ _ E1 Hok) as [Hok1 L1]. destruct (IH _ _ _ _ _ _ E Hok1) as (A & B & _).
  cbn [List.length] in *. split; [done|]. split; [lia|]. intros _. right. lia.
Qed.

Lemma nat_words_error fuel : forall argv ok sel r, nat_words inet_pton6 shifted fuel argv ok sel = PartError r -> r < 0.
Proof.
  induction fuel as [|fuel IH]; intros [|word argv] ok sel r; cbn [nat_words]; try done.
  destruct (matches word "nat"); [|by destruct (matches word "help")]. destruct argv as [|w l]; [done|].
  intros [E|(s1 & l1 & _ & E)]%then_error; [|by eapply IH].
  unfold parse_nat_args in E. repeat (case_match; try done); by simplify_eq.
Qed.

(** The end the parsers share. *)
Lemma tail_part {T} old argv (f : Z -> option Z -> T) g rest :
  then_part (take_control false old argv) (fun a argv => then_part (take_index None argv) (fun i argv => Part (f a i) argv))
    = Part g rest ->
  exists a i, g = f a i /\ (List.length rest <= List.length argv)%nat /\ (a = old \/ - 1 <= a <= 3) /\
    (i = None \/ exists z, i = Some z /\ 0 <= z < 2 ^ 32).
Proof.
  intros (a & l2 & E2 & (i & l3 & E3 & [= <- <-])%then_value)%then_value.
  apply take_control_part in E2 as [L2 Ha]. apply take_index_part in E3 as [L3 Hi]. exists a, i.
  split; [done|]. split; [lia|]. done.
Qed.

Lemma tail_error {T} old argv (f : Z -> option Z -> T) r :
  then_part (take_control false old argv) (fun a argv => then_part (take_index None argv) (fun i argv => Part (f a i) argv))
    = PartError r -> r < 0.
Proof.
  intros [E|(a & l2 & E2 & [E|(i & l3 & _ & E)]%then_error)]%then_error; [by apply take_control_error in E| |done].
  by eapply take_index_error.
Qed.

#[export] Instance nat_laws : ActionLaws tc_nat.
Proof.
  constructor.
  - intros p. cbn. by apply appends_leaf.
  - intros argv p rest. cbn [a_read nat_action]. unfold read_nat. intros ([ok sel] & l1 & E1 & E)%then_value.
    destruct (nat_words_ok _ _ _ _ _ _ _ E1) as ((H1 & H2 & H3 & H4 & H5 & H6) & L1 & Hok); [by vm_compute|].
    destruct ok; [|done]. destruct (Hok eq_refl) as [[=]|L1']. cbn [negb] in E.
    apply (tail_part _ _ (fun a i => (sel <| na_action := a |>) <| na_index := default (na_index sel) i |>)) in E
      as (a & i & -> & L2 & Ha & Hi). split; [lia|].
    split; [by destruct Hi as [-> |(z & -> & Hz)]|]. split; [|done].
    destruct Ha as [-> | ?]; [done|]. cbn. unfold action_range. lia.
  - intros argv r. cbn [a_read nat_action]. unfold read_nat.
    intros [E|([ok sel] & l1 & _ & E)]%then_error; [by eapply nat_words_error|]. destruct ok; cbn [negb] in E.
    + by apply (tail_error _ _ (fun a i => (sel <| na_action := a |>) <| na_index := default (na_index sel) i |>)) in E.
    + by injection E as <-.
  - intros ss m off p (H1 & H2 & H3 & H4 & H5 & H6) Ho Ht.
    change (print_nat inet_ntop6 hz ss m (Some off) =
      (0, nat_text inet_ntop6 (na_flags p) (na_mask p) (old_addr p) (new_addr p) (na_action p))).
    destruct (one_leaf _ _ _ TCA_NAT_MAX _ _ Ht ltac:(by vm_compute)) as [Htb Hb]. unfold print_nat. rewrite Htb.
    change (<[_ := _]> _ !!! Z.to_nat TCA_NAT_PARMS) with (Some (off + 4)).
    change (<[_ := _]> _ !!! Z.to_nat TCA_NAT_TM) with (@None Z). cbv iota zeta.
    set (q := RTA_DATA (off + 4)) in *. assert (0 <= q) as Hq by (unfold q; change (0 <= off + 4 + 4); lia).
    destruct p as [index action old new mask flags]. cbn [na_index na_action old_addr new_addr na_mask na_flags] in *.
    destruct old as [|o1 [|o2 [|o3 [|o4 [|]]]]]; try done. destruct new as [|n1 [|n2 [|n3 [|n4 [|]]]]]; try done.
    match type of Hb with load_bytes _ _ ?n = _ => change n with 36 in Hb end.
    destruct (gen_fields _ _ 36 _ _ _ Hq ltac:(by vm_compute) Hb) as (_ & F2 & _ & _).
    rewrite (word_at _ _ _ _ 28 mask Hb), (word_at _ _ _ _ 32 flags Hb) by (lia || reflexivity).
    rewrite !(load_inside m q 36) by lia. rewrite Hb, F2, action_shown by done.
    unfold u32. rewrite !Z.mod_small by lia. f_equal. apply append_empty.
Qed.

(** *** skbedit *)

Definition skbedit_ok (w : skbedit) : Prop :=
  byte_sized 2 (sk_queue w) /\ byte_sized 4 (sk_priority w) /\ byte_sized 4 (sk_mark w).

#[export] Instance skbedit_action : Action skbedit := {|
  a_read := read_skbedit;
  a_put := put_skbedit;
  a_trees w := [Leaf TCA_SKBEDIT_PARMS (gen_bytes (sk_index w) (sk_action w))] ++
    (opt_leaf TCA_SKBEDIT_QUEUE_MAPPING 2 (sk_queue w) ++ (opt_leaf TCA_SKBEDIT_PRIORITY 4 (sk_priority w) ++
     opt_leaf TCA_SKBEDIT_MARK 4 (sk_mark w)));
  a_ok := skbedit_ok;
  a_print := print_skbedit hz;
  a_shows w := skbedit_text (sk_queue w) (sk_priority w) (sk_mark w)
|}.

Lemma put_skbedit_appends w : appends MAX_MSG (put_skbedit w) (a_trees w).
Proof.
  apply (appends_seq MAX_MSG (fun n => (addattr_l n MAX_MSG TCA_SKBEDIT_PARMS (gen_bytes (sk_index w) (sk_action w))).2)
    (fun n => add_value MAX_MSG TCA_SKBEDIT_MARK 4 (sk_mark w) (add_value MAX_MSG TCA_SKBEDIT_PRIORITY 4 (sk_priority w)
      (add_value MAX_MSG TCA_SKBEDIT_QUEUE_MAPPING 2 (sk_queue w) n)))); [by apply appends_leaf|].
  apply (appends_seq MAX_MSG (add_value MAX_MSG TCA_SKBEDIT_QUEUE_MAPPING 2 (sk_queue w))
    (fun n => add_value MAX_MSG TCA_SKBEDIT_MARK 4 (sk_mark w) (add_value MAX_MSG TCA_SKBEDIT_PRIORITY 4 (sk_priority w) n)));
    [by apply appends_value|].
  apply (appends_seq MAX_MSG (add_value MAX_MSG TCA_SKBEDIT_PRIORITY 4 (sk_priority w))); by apply appends_value.
Qed.

Lemma skbedit_words_ok argv : forall w w' rest,
  skbedit_words argv w = Part w' rest -> skbedit_ok w -> skbedit_ok w' /\ (List.length rest <= List.length argv)%nat.
Proof.
  assert (forall n argv, (List.length argv <= n)%nat -> forall w w' rest,
    skbedit_words argv w = Part w' rest -> skbedit_ok w -> skbedit_ok w' /\ (List.length rest <= List.length argv)%nat) as H.
  { clear argv. induction n as [|n IH]; intros [|word argv] Hn w w' rest; cbn [List.length] in Hn; try lia;
      cbn [skbedit_words]; try (by intros [= <- <-]); intros E (H1 & H2 & H3).
    destruct (matches word "queue_mapping").
    { destruct argv as [|arg argv]; [done|]. destruct (get_unsigned arg 10) as [v|] eqn:Ev; [|done].
      destruct (Z.ltb_spec 65535 v); [done|]. apply get_unsigned_range in Ev. cbn [List.length] in Hn.
      apply IH in E; [cbn [List.length]; destruct E; split; [done|lia]|lia|].
      split; [cbn; lia|]. by split. }
    destruct (matches word "priority").
    { destruct argv as [|arg argv]; [done|]. destruct (get_tc_classid arg) as [v|] eqn:Ev; [|done].
      apply get_tc_classid_range in Ev. cbn [List.length] in Hn.
      apply IH in E; [cbn [List.length]; destruct E; split; [done|lia]|lia|].
      split; [exact H1|]. by split. }
    destruct (matches word "mark").
    { destruct argv as [|arg argv]; [done|]. destruct (get_u32 arg 0) as [v|] eqn:Ev; [|done].
      apply get_u32_range in Ev. cbn [List.length] in Hn.
      apply IH in E; [cbn [List.length]; destruct E; split; [done|lia]|lia|].
      split; [exact H1|]. by split. }
    destruct (matches word "help"); [done|]. injection E as <- <-. split; [by split|done]. }
  by apply (H (List.length argv)).
Qed.

Lemma skbedit_words_error argv : forall w r, skbedit_words argv w = PartError r -> r < 0.
Proof.
  assert (forall n argv, (List.length argv <= n)%nat -> forall w r, skbedit_words argv w = PartError r -> r < 0) as H.
  { clear argv. induction n as [|n IH]; intros [|word argv] Hn w r; cbn [List.length] in Hn; try lia; cbn [skbedit_words]; try done.
    intros E. repeat (case_match; try done); simplify_eq; try lia; eapply IH; try exact E; cbn [List.length] in *; lia. }
  by apply (H (List.length argv)).
Qed.

#[export] Instance skbedit_laws : ActionLaws skbedit.
Proof.
  constructor.
  - apply put_skbedit_appends.
  - intros [|word argv] w rest; cbn [a_read skbedit_action read_skbedit]; [done|].
    destruct (matches word "skbedit"); [|done]. destruct argv as [|w0 l0]; [done|].
    intros (w1 & l1 & E1 & (a & l2 & E2 & (i & l3 & E3 & E)%then_value)%then_value)%then_value.
    destruct (skbedit_words_ok _ _ _ _ E1 ltac:(done)) as [(H1 & H2 & H3) L1].
    apply take_control_part in E2 as [L2 _]. apply take_index_part in E3 as [L3 _].
    destruct (_ || given i); [|done]. injection E as <- <-. cbn [List.length] in *. split; [lia|]. by split.
  - intros [|word argv] r; cbn [a_read skbedit_action read_skbedit]; [by intros [= <-]|].
    destruct (matches word "skbedit"); [|by intros [= <-]]. destruct argv as [|w0 l0]; [done|].
    intros [E|(w1 & l1 & _ & [E|(a & l2 & _ & [E|(i & l3 & _ & E)]%then_error)]%then_error)]%then_error.
    + by eapply skbedit_words_error.
    + by apply take_control_error in E.
    + by eapply take_index_error.
    + destruct (_ || given i); [done|]. by injection E as <-.
  - intros ss m off w (H1 & H2 & H3) Ho Ht.
    change (print_skbedit hz ss m (Some off) = (0, skbedit_text (sk_queue w) (sk_priority w) (sk_mark w))).
    unfold print_skbedit.
    assert (all_leaves (a_trees w)) as Hl by (destruct w as [? ? [] [] []]; repeat constructor; eexists _, _; (split; [reflexivity|done])).
    pose proof (nest_leaf _ TCA_SKBEDIT_MAX _ _ _ TCA_SKBEDIT_PARMS Ht Hl ltac:(done) Ho) as (o & Eo & _).
    pose proof (nest_leaf _ TCA_SKBEDIT_MAX _ _ _ TCA_SKBEDIT_TM Ht Hl ltac:(done) Ho) as Em.
    replace (leaf_bytes TCA_SKBEDIT_TM (a_trees w)) with (@None (list Z)) in Em by (by destruct w as [? ? [] [] []]).
    cbv zeta. rewrite Eo, Em.
    rewrite (nest_value m TCA_SKBEDIT_MAX off _ _ TCA_SKBEDIT_QUEUE_MAPPING 2 load16 (sk_queue w) Ht Hl),
      (nest_value m TCA_SKBEDIT_MAX off _ _ TCA_SKBEDIT_PRIORITY 4 load32 (sk_priority w) Ht Hl),
      (nest_value m TCA_SKBEDIT_MAX off _ _ TCA_SKBEDIT_MARK 4 load32 (sk_mark w) Ht Hl)
      by (done || by destruct w as [? ? [] [] []]).
    f_equal. apply append_empty.
Qed.

(** *** csum *)

Definition csum_ok (p : tc_csum) : Prop :=
  0 <= cs_index p < 2 ^ 32 /\ action_range (cs_action p) /\ 0 < update_flags p < 2 ^ 6.

#[export] Instance csum_action : Action tc_csum := {|
  a_read := read_csum;
  a_put := put_csum;
  a_trees p := [Leaf TCA_CSUM_PARMS (csum_bytes p)];
  a_ok := csum_ok;
  a_print := print_csum hz;
  a_shows p := csum_text (update_flags p) (cs_action p) (s32 (cs_index p)) 0 0 ""
|}.

Lemma csum_flag_range word f : csum_flag word = Some f -> 0 <= f < 2 ^ 6.
Proof. unfold csum_flag. repeat (case_match; try done); by intros [= <-]. Qed.

Lemma csum_args_ok argv : forall flags flags' rest,
  parse_csum_args argv flags = (flags', rest) -> 0 <= flags < 2 ^ 6 ->
  0 <= flags' < 2 ^ 6 /\ (List.length rest <= List.length argv)%nat.
Proof.
  induction argv as [|word argv IH]; cbn [parse_csum_args]; intros flags flags' rest; [by intros [= <- <-]|].
  destruct (csum_flag word) as [f|] eqn:Ef; [|by intros [= <- <-]]. apply csum_flag_range in Ef. intros E Hf.
  apply IH in E as [A B]; [|by apply lor_range]. split; [done|]. cbn. lia.
Qed.

Lemma csum_words_ok fuel : forall argv ok flags ok' flags' rest,
  csum_words fuel argv ok flags = Part (ok', flags') rest -> 0 <= flags < 2 ^ 6 ->
  0 <= flags' < 2 ^ 6 /\ (List.length rest <= List.length argv)%nat /\
  (ok' = true -> ok = true \/ (List.length rest < List.length argv)%nat).
Proof.
  induction fuel as [|fuel IH]; intros [|word argv] ok flags ok' flags' rest; cbn [csum_words]; try (by intros [= <- <- <-]; auto).
  destruct (matches word "csum"); [|destruct (matches word "help"); [done|by intros [= <- <- <-]; auto]].
  destruct argv as [|w l]; [done|]. destruct (parse_csum_args (w :: l) flags) as [f1 l1] eqn:E1. intros E Hf.
  destruct (csum_args_ok _ _ _ _ E1 Hf) as [Hf1 L1]. destruct (IH _ _ _ _ _ _ E Hf1) as (A & B & _).
  cbn [List.length] in *. split; [done|]. split; [lia|]. intros _. right. lia.
Qed.

Lemma csum_words_error fuel : forall argv ok flags r, csum_words fuel argv ok flags = PartError r -> False.
Proof.
  induction fuel as [|fuel IH]; intros [|word argv] ok flags r; cbn [csum_words]; try done.
  destruct (matches word "csum"); [|by destruct (matches word "help")]. destruct argv as [|w l]; [done|].
  destruct (parse_csum_args (w :: l) flags). apply IH.
Qed.

#[export] Instance csum_laws : ActionLaws tc_csum.
Proof.
  constructor.
  - intros p. cbn. by apply appends_leaf.
  - intros argv p rest. cbn [a_read csum_action]. unfold read_csum. intros ([ok flags] & l1 & E1 & E)%then_value.
    destruct (csum_words_ok _ _ _ _ _ _ _ E1 ltac:(done)) as (Hf & L1 & Hok). destruct ok; [|done].
    destruct (Hok eq_refl) as [[=]|L1']. cbn [negb] in E. destruct (Z.eqb_spec flags 0); [done|].
    apply (tail_part _ _ (fun a i => mk_csum (default 0 i) a flags)) in E as (a & i & -> & L2 & Ha & Hi). split; [lia|].
    split; [by destruct Hi as [-> |(z & -> & Hz)]|]. split; [|cbn; lia].
    destruct Ha as [-> | ?]; unfold action_range; cbn; lia.
  - intros argv r. cbn [a_read csum_action]. unfold read_csum.
    intros [E|([ok flags] & l1 & _ & E)]%then_error; [by apply csum_words_error in E|]. destruct ok; cbn [negb] in E; [|by injection E as <-].
    destruct (flags =? 0); [by injection E as <-|]. by apply (tail_error _ _ (fun a i => mk_csum (default 0 i) a flags)) in E.
  - intros ss m off p (H1 & H2 & H3) Ho Ht.
    change (print_csum hz ss m (Some off) = (0, csum_text (update_flags p) (cs_action p) (s32 (cs_index p)) 0 0 "")).
    destruct (one_leaf _ _ _ TCA_CSUM_MAX _ _ Ht ltac:(by vm_compute)) as [Htb Hb]. unfold print_csum. rewrite Htb.
    change (<[_ := _]> _ !!! Z.to_nat TCA_CSUM_PARMS) with (Some (off + 4)).
    change (<[_ := _]> _ !!! Z.to_nat TCA_CSUM_TM) with (@None Z). cbv iota zeta.
    set (q := RTA_DATA (off + 4)) in *. assert (0 <= q) as Hq by (unfold q; change (0 <= off + 4 + 4); lia).
    change (Z.of_nat (List.length (csum_bytes p))) with 24 in Hb.
    destruct p as [index action flags]. cbn [cs_index cs_action update_flags] in *.
    destruct (gen_fields _ _ 24 _ _ _ Hq ltac:(by vm_compute) Hb) as (F1 & F2 & F3 & F4).
    rewrite (word_at _ _ _ _ 20 flags Hb) by (lia || reflexivity).
    cbn [cs_index cs_action] in F1, F2. rewrite F1, F2, F3, F4, (action_shown action), s32_u32 by done.
    unfold u32. by rewrite Z.mod_small by lia.
Qed.
End Instances.

(** ** What the code does not do *)

(** The length of a prefix is computed from the mask in the order of the network: from eight
    bits on it is shown as 32. *)
Lemma nat_length_lost shifted bitlen : 8 <= bitlen <= 32 -> mask_len (nat_mask shifted bitlen) = 32.
Proof.
  intros H. unfold nat_mask. rewrite (proj2 (Z.eqb_neq bitlen 0)) by lia.
  assert (exists n, (n <= 24)%nat /\ bitlen = 8 + Z.of_nat n) as (n & Hn & ->) by (exists (Z.to_nat (bitlen - 8)); lia).
  do 25 (destruct n as [|n]; [by vm_compute|]). lia.
Qed.

Lemma nat_shows_32 :
  nat_text (fun _ => "") 0 (nat_mask 0 24) [10; 0; 0; 0] [192; 168; 0; 1] 0 = " nat ingress 10.0.0.0/32 192.168.0.1 pass".
Proof. by vm_compute. Qed.

(** After the word of the action another word must come. *)
Lemma mirred_action_last :
  read_mirred (fun _ => 2) "" ["mirred"; "egress"; "mirror"; "dev"; "eth0"; "pipe"] = PartExit /\
  read_mirred (fun _ => 2) "" ["mirred"; "egress"; "mirror"; "dev"; "eth0"; "pipe"; "index"; "1"] =
    Part (mk_mirred 1 TC_ACT_PIPE TCA_EGRESS_MIRROR 2) [] /\
  read_skbedit ["skbedit"; "mark"; "1"; "pipe"] = PartExit.
Proof. by vm_compute. Qed.

(** A word that is none of those expected is passed over. *)
Lemma mirred_ignores :
  read_mirred (fun _ => 2) "" ["mirred"; "egress"; "nonsense"; "redirect"; "dev"; "eth0"] =
    Part (mk_mirred 0 TC_ACT_STOLEN TCA_EGRESS_REDIR 2) [].
Proof. by vm_compute. Qed.

(** The checksum of TCP is shown under another name. *)
Lemma csum_tcp_name : csum_flags_text 9 = "iph, tdp".
Proof. by vm_compute. Qed.
