(* ===== verification/TcPolice.v ===== *)
(** * The policer (iproute2-3.1.0/tc/m_police.c)

    From the words to the structure and its tables, and back to text; an action, and a part
    of the classifiers. *)

From S2P Require Export TcActs TcTbf.

#[local] Open Scope list_scope.

(** [iproute2-3.1.0/tc/m_police.c:53-73 police_action_n2a] *)
Definition police_action_n2a (action len : Z) : string :=
  if action =? - 1 then "continue"
  else if action =? TC_ACT_OK then "pass"
  else if action =? TC_ACT_SHOT then "drop"
  else if action =? TC_ACT_RECLASSIFY then "reclassify"
  else if action =? TC_ACT_PIPE then "pipe"
  else snprintf len (print_d action).

(** [iproute2-3.1.0/tc/m_police.c:75-100 police_action_a2n] *)
Definition police_action_a2n (arg : string) : option Z :=
  if matches arg "continue" then Some (- 1)
  else if matches arg "drop" then Some TC_ACT_SHOT
  else if matches arg "shot" then Some TC_ACT_SHOT
  else if matches arg "pass" then Some TC_ACT_OK
  else if String.eqb arg "ok" then Some TC_ACT_OK
  else if matches arg "reclassify" then Some TC_ACT_RECLASSIFY
  else if matches arg "pipe" then Some TC_ACT_PIPE
  else match strtol arg 10 with
       | Some (res, "") => Some (s32 res)
       | _ => None
       end.

(** The action of a packet above the rate and, behind a slash, of one below it; the latter
    stays as it was if there is none.  [iproute2-3.1.0/tc/m_police.c:103-122 get_police_result] *)
Definition get_police_result (arg : string) (result : Z) : option (Z * Z) :=
  match police_action_a2n (cut_at "/" arg) with
  | None => None
  | Some action =>
      match Addr.after "/" arg with
      | None => Some (action, result)
      | Some arg => match police_action_a2n arg with Some result => Some (action, result) | None => None end
      end
  end.

#[local] Set Primitive Projections.

(** The structure, without the fields that are always 0.
    [iproute2-3.1.0/include/linux/pkt_cls.h:119-136 tc_police] *)
Record tc_police := mk_police { po_index : Z; po_action : Z; po_burst : Z; po_mtu : Z; po_rate : tc_ratespec; po_peakrate : tc_ratespec }.

(** The locals.  [iproute2-3.1.0/tc/m_police.c:129-139 act_parse_police] *)
Record police_words := mk_police_words {
  pw_index : Z; pw_action : Z; pw_presult : Z; pw_rate : Z; pw_peakrate : Z; pw_avrate : Z; pw_buffer : Z; pw_mtu : Z;
  pw_mpu : Z; pw_overhead : Z; pw_linklayer : link_layer; pw_Rcell_log : Z; pw_Pcell_log : Z; pw_ok : bool
}.

(** What is sent: the structure, the tables and the two numbers. *)
Record police := mk_policer { p_tbf : tc_police; p_rtab : option (list Z); p_ptab : option (list Z); p_avrate : Z; p_presult : Z }.

#[local] Unset Primitive Projections.

(** ** The words *)

Definition once_p {T} (had : Z) (parse : string -> option T) (set : T -> police_words -> police_words) (w : police_words) (arg : string) :
    option police_words :=
  if negb (had =? 0) then None else option_map (fun v => set v w) (parse arg).

(** The words without an argument.  [iproute2-3.1.0/tc/m_police.c:222-232 act_parse_police] *)
Definition police_flag (word : string) : option Z :=
  if matches word "reclassify" then Some TC_ACT_RECLASSIFY
  else if matches word "drop" || matches word "shot" then Some TC_ACT_SHOT
  else if matches word "continue" then Some TC_ACT_UNSPEC
  else if matches word "pass" then Some TC_ACT_OK
  else if matches word "pipe" then Some TC_ACT_PIPE
  else None.

(** What a word does with its argument, for the words that are tried before those without one.
    [iproute2-3.1.0/tc/m_police.c:153-219 act_parse_police] *)
Definition police_value (word : string) : option (police_words -> string -> option police_words) :=
  if matches word "index" then Some (fun w arg => option_map (fun v => w <| pw_index := v |>) (get_u32 arg 10))
  else if matches word "burst" || String.eqb word "buffer" || String.eqb word "maxburst" then
    Some (fun w => once_p (pw_buffer w) (parsed_cell get_size_and_cell)
      (fun '(v, cell) w => (w <| pw_buffer := v |>) <| pw_Rcell_log := default (pw_Rcell_log w) cell |>) w)
  else if String.eqb word "mtu" || String.eqb word "minburst" then
    Some (fun w => once_p (pw_mtu w) (parsed_cell get_size_and_cell)
      (fun '(v, cell) w => (w <| pw_mtu := v |>) <| pw_Pcell_log := default (pw_Pcell_log w) cell |>) w)
  else if String.eqb word "mpu" then Some (fun w => once_p (pw_mpu w) get_size (fun v w => w <| pw_mpu := v |>) w)
  else if String.eqb word "rate" then Some (fun w => once_p (pw_rate w) get_rate (fun v w => w <| pw_rate := v |>) w)
  else if String.eqb word "avrate" then Some (fun w => once_p (pw_avrate w) get_rate (fun v w => w <| pw_avrate := v |>) w)
  else if matches word "peakrate" then Some (fun w => once_p (pw_peakrate w) get_rate (fun v w => w <| pw_peakrate := v |>) w)
  else None.

(** The words after those.  [iproute2-3.1.0/tc/m_police.c:233-249 act_parse_police] *)
Definition police_late (word : string) : option (police_words -> string -> option police_words) :=
  if String.eqb word "action" || String.eqb word "conform-exceed" then
    Some (fun w arg => option_map (fun '(a, r) => (w <| pw_action := a |>) <| pw_presult := r |>) (get_police_result arg (pw_presult w)))
  else if matches word "overhead" then Some (fun w arg => option_map (fun v => w <| pw_overhead := v |>) (get_u16 arg 10))
  else if matches word "linklayer" then Some (fun w arg => option_map (fun v => w <| pw_linklayer := v |>) (get_linklayer arg))
  else None.

(** The words up to one that is none of the policer's.
    [iproute2-3.1.0/tc/m_police.c:151-257 act_parse_police] *)
Fixpoint police_loop (argv : list string) (w : police_words) : part_end police_words :=
  match argv with
  | [] => Part w []
  | word :: rest =>
      let value (set : police_words -> string -> option police_words) :=
        match rest with
        | [] => PartExit
        | arg :: rest =>
            match set w arg with
            | None => PartError (- 1)
            | Some w => police_loop rest (w <| pw_ok := true |>)
            end
        end in
      match police_value word, police_flag word, police_late word with
      | Some set, _, _ => value set
      | None, Some a, _ => police_loop rest ((w <| pw_action := a |>) <| pw_ok := true |>)
      | None, None, Some set => value set
      | None, None, None => if String.eqb word "help" then PartExit else Part w argv
      end
  end.

Definition police_start : police_words :=
  mk_police_words 0 TC_ACT_RECLASSIFY 0 0 0 0 0 0 0 0 LINKLAYER_ETHERNET (- 1) (- 1) false.

Section Police.
Context (c : core) (use_iec show_raw : bool) (rtab0 ptab0 : list Z).

Definition no_rate : tc_ratespec := mk_ratespec 0 0 0 0 0.

(** A rate with its table, if it was given. *)
Definition police_rate (w : police_words) (rate cell : Z) (tab : list Z) : option (tc_ratespec * option (list Z)) :=
  if rate =? 0 then Some (no_rate, None)
  else
    let '(r, rs, tab) :=
      tc_calc_rtable c (mk_ratespec 0 (pw_overhead w) 0 (u16 (pw_mpu w)) rate) tab cell (pw_mtu w) (pw_linklayer w) in
    if r <? 0 then None else Some (rs, Some tab).

(** The arrays are 256 words whatever they held.
    [iproute2-3.1.0/tc/m_police.c:259-294 act_parse_police] *)
Definition police_compute (w : police_words) : option police :=
  if negb (pw_ok w) then None
  else if negb (pw_rate w =? 0) && (pw_buffer w =? 0) then None
  else if negb (pw_peakrate w =? 0) && ((pw_rate w =? 0) || (pw_mtu w =? 0)) then None
  else
    match police_rate w (pw_rate w) (pw_Rcell_log w) rtab0 with
    | None => None
    | Some (rate, rtab) =>
        let burst := if pw_rate w =? 0 then 0 else tc_calc_xmittime c (rs_rate rate) (pw_buffer w) in
        match police_rate w (pw_peakrate w) (pw_Pcell_log w) ptab0 with
        | None => None
        | Some (peak, ptab) =>
            Some (mk_policer (mk_police (pw_index w) (pw_action w) burst (pw_mtu w) rate peak) rtab ptab (pw_avrate w) (pw_presult w))
        end
    end.

(** Without the name of the action before them.
    [iproute2-3.1.0/tc/m_police.c:316-319 parse_police] *)
Definition read_police (argv : list string) : part_end police :=
  match argv with
  | [] => PartError (- 1)
  | _ =>
      then_part (police_loop argv police_start) (fun w argv =>
      match police_compute w with None => PartError (- 1) | Some p => Part p argv end)
  end.

(** With the name.  [iproute2-3.1.0/tc/m_police.c:145-149 act_parse_police] *)
Definition read_police_action (argv : list string) : part_end police :=
  match argv with
  | _ :: (_ :: _) as rest => read_police rest
  | _ => PartExit
  end.

Definition TCA_POLICE_TBF : Z := 1.
Definition TCA_POLICE_RATE : Z := 2.
Definition TCA_POLICE_PEAKRATE : Z := 3.
Definition TCA_POLICE_AVRATE : Z := 4.
Definition TCA_POLICE_RESULT : Z := 5.
Definition TCA_POLICE_MAX : Z := 5.

Definition police_bytes (p : tc_police) : list Z :=
  le_bytes 4 (po_index p) ++ le_bytes 4 (po_action p) ++ le_bytes 4 0 ++ le_bytes 4 (po_burst p) ++ le_bytes 4 (po_mtu p) ++
  ratespec_bytes (po_rate p) ++ ratespec_bytes (po_peakrate p) ++ le_bytes 4 0 ++ le_bytes 4 0 ++ le_bytes 4 0.

Definition POLICE_SIZE : Z := 56.

Definition add_table (type : Z) (t : option (list Z)) (n : nlmsghdr) : nlmsghdr :=
  match t with Some t => (addattr_l n MAX_MSG type (words_bytes t)).2 | None => n end.

Definition nonzero_value (z : Z) : option Z := if z =? 0 then None else Some z.

(** [iproute2-3.1.0/tc/m_police.c:298-306 act_parse_police] *)
Definition put_police (p : police) (n : nlmsghdr) : nlmsghdr :=
  let n := (addattr_l n MAX_MSG TCA_POLICE_TBF (police_bytes (p_tbf p))).2 in
  let n := add_table TCA_POLICE_RATE (p_rtab p) n in
  let n := add_table TCA_POLICE_PEAKRATE (p_ptab p) n in
  let n := add_value MAX_MSG TCA_POLICE_AVRATE 4 (nonzero_value (p_avrate p)) n in
  add_value MAX_MSG TCA_POLICE_RESULT 4 (nonzero_value (p_presult p)) n.

(** [iproute2-3.1.0/tc/m_police.c:125-314 act_parse_police] *)
Definition act_parse_police : list string -> Z -> nlmsghdr -> aopt_outcome := action_parser read_police_action put_police.

Definition parse_police : list string -> Z -> nlmsghdr -> aopt_outcome := action_parser read_police put_police.

(** [iproute2-3.1.0/tc/m_police.c:346-363 print_police] *)
Definition police_text (index burst mtu : Z) (rate peak : tc_ratespec) (avrate : option Z) (action : Z) (presult : option Z)
    (refcnt bindcnt : Z) : string :=
  " police 0x" +:+ print_x index +:+ " rate " +:+ sprint_rate use_iec (rs_rate rate) +:+ " burst " +:+
  sprint_size (tc_calc_xmitsize c (rs_rate rate) burst) +:+ " mtu " +:+ sprint_size mtu +:+ " " +:+
  (if show_raw then "[" +:+ print_08x burst +:+ "] " else "") +:+
  (if rs_rate peak =? 0 then "" else "peakrate " +:+ sprint_rate use_iec (rs_rate peak) +:+ " ") +:+
  match avrate with Some r => "avrate " +:+ sprint_rate use_iec r +:+ " " | None => "" end +:+
  "action " +:+ police_action_n2a action 64 +:+
  match presult with Some r => "/" +:+ police_action_n2a r 64 +:+ " " | None => " " end +:+
  "overhead " +:+ print_u (rs_overhead rate) +:+ "b " +:+ newline +:+
  "ref " +:+ print_d refcnt +:+ " bind " +:+ print_d bindcnt +:+ newline.

(** [iproute2-3.1.0/tc/m_police.c:321-366 print_police] *)
Definition print_police (m : list Z) (arg : option Z) : Z * string :=
  match arg with
  | None => (0, "")
  | Some arg =>
      let tb := (parse_rtattr_nested m TCA_POLICE_MAX arg).1 in
      match tb !!! Z.to_nat TCA_POLICE_TBF with
      | None => (0, "[NULL police tbf]")
      | Some a =>
          if RTA_PAYLOAD m a <? POLICE_SIZE then (- 1, "[truncated police tbf]")
          else
            let b := load_bytes m (RTA_DATA a) POLICE_SIZE in
            let value type := option_map (fun a => load32 m (RTA_DATA a)) (tb !!! Z.to_nat type) in
            (0, police_text (field32 b 0) (field32 b 12) (field32 b 16) (ratespec_of_bytes b 20) (ratespec_of_bytes b 32)
                  (value TCA_POLICE_AVRATE) (s32 (field32 b 4)) (option_map s32 (value TCA_POLICE_RESULT))
                  (s32 (field32 b 44)) (s32 (field32 b 48)))
      end
  end.

(** [iproute2-3.1.0/tc/m_police.c:29-33 police_action_util] *)
Definition police_action_util : action_util := mk_action_util "police" act_parse_police (fun _ => print_police).
End Police.

(** ** What is accepted *)

Definition int_value (z : Z) : Prop := - 2 ^ 31 <= z < 2 ^ 31.

Definition police_words_ok (w : police_words) : Prop :=
  0 <= pw_index w < 2 ^ 32 /\ int_value (pw_action w) /\ int_value (pw_presult w) /\ 0 <= pw_rate w < 2 ^ 32 /\
  0 <= pw_peakrate w < 2 ^ 32 /\ 0 <= pw_avrate w < 2 ^ 32 /\ 0 <= pw_mtu w < 2 ^ 32 /\ 0 <= pw_overhead w < 2 ^ 16.

Lemma size_and_cell_range arg v cell : parsed_cell get_size_and_cell arg = Some (v, cell) -> 0 <= v < 2 ^ 32.
Proof.
  unfold parsed_cell, get_size_and_cell, parse_cell. destruct (get_size _) as [z|] eqn:E; [|done]. apply get_size_range in E.
  destruct (after "/" arg) as [text|]; [|intros [= <- _]; exact E]. destruct (get_integer text 0) as [k|]; [|done].
  destruct (find_log 32 0 k) as [i|]; [|done]. intros [= <- _]. exact E.
Qed.

Lemma action_a2n_range arg a : police_action_a2n arg = Some a -> int_value a.
Proof.
  unfold police_action_a2n.
  repeat (match goal with |- (if ?b then _ else _) = _ -> _ => destruct b; [by intros [= <-]|] end).
  destruct (strtol arg 10) as [[res [|]]|]; [|done..]. intros [= <-]. apply s32_range.
Qed.

Lemma police_result_range arg r a r' :
  get_police_result arg r = Some (a, r') -> int_value r -> int_value a /\ int_value r'.
Proof.
  unfold get_police_result. destruct (police_action_a2n (cut_at "/" arg)) as [b|] eqn:E; [|done]. apply action_a2n_range in E.
  destruct (Addr.after "/" arg) as [s|]; [|by intros [= <- <-]].
  destruct (police_action_a2n s) as [r1|] eqn:E1; [|done]. apply action_a2n_range in E1. by intros [= <- <-].
Qed.

Ltac police_set :=
  match goal with
  | H : option_map _ ?e = Some _ |- _ => let E := fresh "E" in destruct e as [?|] eqn:E; [|done]; injection H as <-
  end.

Lemma police_value_ok word set w arg w' :
  police_value word = Some set -> set w arg = Some w' -> police_words_ok w -> police_words_ok w'.
Proof.
  unfold police_value, once_p. intros Hk Hs (W1 & W2 & W3 & W4 & W5 & W6 & W7 & W8).
  repeat (match type of Hk with (if ?b then _ else _) = _ => destruct b end;
    [injection Hk as <-; cbv beta in Hs; repeat match type of Hs with (if ?b then None else _) = _ => destruct b; [done|] end;
     police_set;
     repeat match goal with p : (Z * option Z)%type |- _ => destruct p end;
     first [apply get_u32_range in E|apply size_and_cell_range in E|apply get_size_range in E|apply get_rate_range in E];
     repeat (split; [assumption|]); assumption|]).
  done.
Qed.

Lemma police_late_ok word set w arg w' :
  police_late word = Some set -> set w arg = Some w' -> police_words_ok w -> police_words_ok w'.
Proof.
  unfold police_late. intros Hk Hs (W1 & W2 & W3 & W4 & W5 & W6 & W7 & W8).
  destruct (String.eqb word "action" || _).
  { injection Hk as <-. cbv beta in Hs. police_set. destruct p as [a r]. apply police_result_range in E as [? ?]; [|done].
    repeat (split; [assumption|]); assumption. }
  destruct (matches word "overhead").
  { injection Hk as <-. cbv beta in Hs. police_set. apply get_u16_range in E. repeat (split; [assumption|]); assumption. }
  destruct (matches word "linklayer"); [|done].
  injection Hk as <-. cbv beta in Hs. police_set. repeat (split; [assumption|]); assumption.
Qed.

Lemma police_flag_range word a : police_flag word = Some a -> int_value a.
Proof.
  unfold police_flag. repeat (match goal with |- (if ?b then _ else _) = _ -> _ => destruct b; [by intros [= <-]|] end). done.
Qed.

(** The loop keeps the ranges and never gives words back; nothing is accepted without a word. *)
Lemma police_loop_ok argv : forall w w' rest,
  police_loop argv w = Part w' rest -> police_words_ok w ->
  police_words_ok w' /\ (List.length rest <= List.length argv)%nat /\
  (pw_ok w = false -> pw_ok w' = true -> (List.length rest < List.length argv)%nat).
Proof.
  assert (forall n argv, (List.length argv <= n)%nat -> forall w w' rest,
    police_loop argv w = Part w' rest -> police_words_ok w ->
    police_words_ok w' /\ (List.length rest <= List.length argv)%nat /\
    (pw_ok w = false -> pw_ok w' = true -> (List.length rest < List.length argv)%nat)) as H.
  { clear argv. induction n as [|n IH]; intros [|word argv] Hn w w' rest; cbn [List.length] in Hn; try lia;
      cbn [police_loop]; try (intros [= <- <-] Hw; split; [done|split; [done|congruence]]); intros E Hw.
    assert (forall set, (forall arg w1, set w arg = Some w1 -> police_words_ok w1) ->
      match argv with
      | [] => PartExit
      | arg :: rest => match set w arg with None => PartError (- 1) | Some w => police_loop rest (w <| pw_ok := true |>) end
      end = Part w' rest -> police_words_ok w' /\ (List.length rest < S (List.length argv))%nat) as Hv.
    { intros set Hs E1. destruct argv as [|arg argv]; [done|]. destruct (set w arg) as [w1|] eqn:Es; [|done].
      apply Hs in Es. cbn [List.length] in *. destruct (IH argv ltac:(lia) _ _ _ E1 Es) as (A & B & _). split; [done|lia]. }
    destruct (police_value word) as [set|] eqn:E1.
    { destruct (Hv set) as [A B]; [intros; by eapply police_value_ok|exact E|]. cbn [List.length]. split; [done|]. split; [lia|intros; lia]. }
    destruct (police_flag word) as [a|] eqn:E2.
    { apply police_flag_range in E2. destruct Hw as (W1 & W2 & W3 & W). 
      destruct (IH argv ltac:(lia) _ _ _ E) as (A & B & _); [split; [exact W1|]; split; [exact E2|]; by split|].
      cbn [List.length]. split; [done|]. split; [lia|intros; lia]. }
    destruct (police_late word) as [set|] eqn:E3.
    { destruct (Hv set) as [A B]; [intros; by eapply police_late_ok|exact E|]. cbn [List.length]. split; [done|]. split; [lia|intros; lia]. }
    destruct (String.eqb word "help"); [done|]. injection E as <- <-. split; [done|]. split; [done|congruence]. }
  by apply (H (List.length argv)).
Qed.

Lemma police_loop_error argv : forall w r, police_loop argv w = PartError r -> r = - 1.
Proof.
  assert (forall n argv, (List.length argv <= n)%nat -> forall w r, police_loop argv w = PartError r -> r = - 1) as H.
  { clear argv. induction n as [|n IH]; intros [|word argv] Hn w r; cbn [List.length] in Hn; try lia; cbn [police_loop]; try done.
    intros E. repeat (case_match; try done); simplify_eq; try done; eapply IH; try exact E; cbn [List.length] in *; lia. }
  by apply (H (List.length argv)).
Qed.

(** ** The action *)

Section PoliceAction.
Context (c : core) (use_iec show_raw : bool) (rtab0 ptab0 : list Z).
Hypothesis Hr : List.length rtab0 = 256%nat.
Hypothesis Hp : List.length ptab0 = 256%nat.

(** A rate is sent with the table of its slots, or neither is. *)
Definition rate_with_table (layer : link_layer) (r : tc_ratespec) (t : option (list Z)) : Prop :=
  match t with
  | None => r = no_rate
  | Some t => rs_rate r <> 0 /\ rs_cell_align r = - 1 /\ exists log, 0 <= log /\ rs_cell_log r = u8 log /\
      t = rate_slots c (rs_rate r) (rs_mpu r) log layer
  end.

Record police_ok (p : police) : Prop := {
  pk_index : 0 <= po_index (p_tbf p) < 2 ^ 32;
  pk_action : int_value (po_action (p_tbf p));
  pk_times : 0 <= po_burst (p_tbf p) < 2 ^ 32 /\ 0 <= po_mtu (p_tbf p) < 2 ^ 32;
  pk_rates : ratespec_wf (po_rate (p_tbf p)) /\ ratespec_wf (po_peakrate (p_tbf p));
  pk_tables : exists layer, rate_with_table layer (po_rate (p_tbf p)) (p_rtab p) /\
    rate_with_table layer (po_peakrate (p_tbf p)) (p_ptab p);
  pk_peak : p_ptab p <> None -> p_rtab p <> None /\ po_mtu (p_tbf p) <> 0;
  pk_rest : 0 <= p_avrate p < 2 ^ 32 /\ int_value (p_presult p)
}.

Lemma police_rate_ok w rate cell tab :
  0 <= rate < 2 ^ 32 -> 0 <= pw_overhead w < 2 ^ 16 -> List.length tab = 256%nat ->
  exists rs t, police_rate c w rate cell tab = Some (rs, t) /\ ratespec_wf rs /\ rate_with_table (pw_linklayer w) rs t /\
    (t = None <-> rate = 0).
Proof.
  intros Hrate Ho Hl. unfold police_rate. destruct (Z.eqb_spec rate 0) as [->|Hne].
  { exists no_rate, None. split; [done|]. split; [by constructor|done]. }
  destruct (calc_rtable_ok c (mk_ratespec 0 (pw_overhead w) 0 (u16 (pw_mpu w)) rate) tab cell (pw_mtu w) (pw_linklayer w) Hl)
    as (log & -> & Hlog & _). rewrite (proj2 (Z.ltb_ge log 0)) by done.
  eexists _, _. split; [reflexivity|]. split.
  - constructor; cbn; try (by apply Z.mod_pos_bound); try lia; try done.
  - split; [|done]. split; [done|]. split; [done|]. by exists log.
Qed.

Lemma police_compute_ok w p : police_words_ok w -> police_compute c rtab0 ptab0 w = Some p -> police_ok p /\ pw_ok w = true.
Proof.
  intros (W1 & W2 & W3 & W4 & W5 & W6 & W7 & W8). unfold police_compute. destruct (pw_ok w); [|done]. cbn [negb].
  destruct (negb (pw_rate w =? 0) && _); [done|].
  destruct (negb (pw_peakrate w =? 0) && _) eqn:Epk; [done|].
  destruct (police_rate_ok w (pw_rate w) (pw_Rcell_log w) rtab0 W4 W8 Hr) as (rs & t & -> & A1 & A2 & A3).
  destruct (police_rate_ok w (pw_peakrate w) (pw_Pcell_log w) ptab0 W5 W8 Hp) as (ps & pt & -> & B1 & B2 & B3).
  intros [= <-]. split; [|done]. constructor; cbn; try done.
  - split; [|done]. destruct (pw_rate w =? 0); [lia|apply xmittime_range].
  - by exists (pw_linklayer w).
  - intros Hpt. destruct (Z.eqb_spec (pw_peakrate w) 0); [tauto|]. cbn [negb andb] in Epk.
    apply orb_false_iff in Epk as [E1 E2]. apply Z.eqb_neq in E1, E2. tauto.
Qed.

Lemma read_police_ok argv p rest :
  read_police c rtab0 ptab0 argv = Part p rest -> police_ok p /\ (List.length rest < List.length argv)%nat.
Proof.
  destruct argv as [|word argv]; [done|]. unfold read_police. intros (w & l & E1 & E)%then_value.
  destruct (police_compute c rtab0 ptab0 w) as [q|] eqn:Ec; [|done]. injection E as <- <-.
  apply police_loop_ok in E1 as (Hw & _ & L); [|by vm_compute]. destruct (police_compute_ok _ _ Hw Ec) as [? Hok].
  split; [done|]. by apply L.
Qed.

Lemma read_police_error argv r : read_police c rtab0 ptab0 argv = PartError r -> r = - 1.
Proof.
  destruct argv as [|word argv]; [by intros [= <-]|]. unfold read_police. intros [E|(w & l & _ & E)]%then_error.
  - by apply police_loop_error in E.
  - destruct (police_compute c rtab0 ptab0 w); [done|]. by injection E as <-.
Qed.

Definition table_leaf (type : Z) (t : option (list Z)) : list atree :=
  match t with Some t => [Leaf type (words_bytes t)] | None => [] end.

Definition police_trees (p : police) : list atree :=
  [Leaf TCA_POLICE_TBF (police_bytes (p_tbf p))] ++ (table_leaf TCA_POLICE_RATE (p_rtab p) ++
    (table_leaf TCA_POLICE_PEAKRATE (p_ptab p) ++ (opt_leaf TCA_POLICE_AVRATE 4 (nonzero_value (p_avrate p)) ++
      opt_leaf TCA_POLICE_RESULT 4 (nonzero_value (p_presult p))))).

Lemma appends_table type t : 0 <= type < 2 ^ 16 -> appends MAX_MSG (add_table type t) (table_leaf type t).
Proof. intros Ht. destruct t; [by apply appends_leaf|apply appends_id]. Qed.

Lemma put_police_appends p : appends MAX_MSG (put_police p) (police_trees p).
Proof.
  set (f5 := add_value MAX_MSG TCA_POLICE_RESULT 4 (nonzero_value (p_presult p))).
  set (f4 := add_value MAX_MSG TCA_POLICE_AVRATE 4 (nonzero_value (p_avrate p))).
  set (f3 := add_table TCA_POLICE_PEAKRATE (p_ptab p)). set (f2 := add_table TCA_POLICE_RATE (p_rtab p)).
  apply (appends_seq MAX_MSG (fun n => (addattr_l n MAX_MSG TCA_POLICE_TBF (police_bytes (p_tbf p))).2)
    (fun n => f5 (f4 (f3 (f2 n))))); [by apply appends_leaf|].
  apply (appends_seq MAX_MSG f2 (fun n => f5 (f4 (f3 n)))); [by apply appends_table|].
  apply (appends_seq MAX_MSG f3 (fun n => f5 (f4 n))); [by apply appends_table|].
  apply (appends_seq MAX_MSG f4 f5); by apply appends_value.
Qed.

Definition police_shows (p : police) : string :=
  police_text c use_iec show_raw (po_index (p_tbf p)) (po_burst (p_tbf p)) (po_mtu (p_tbf p)) (po_rate (p_tbf p))
    (po_peakrate (p_tbf p)) (nonzero_value (p_avrate p)) (po_action (p_tbf p)) (nonzero_value (p_presult p)) 0 0.

#[export] Instance police_action : Action police := {|
  a_read := read_police_action c rtab0 ptab0;
  a_put := put_police;
  a_trees := police_trees;
  a_ok := police_ok;
  a_print _ := print_police c use_iec show_raw;
  a_shows := police_shows
|}.

Lemma police_leaves p : all_leaves (police_trees p).
Proof.
  unfold police_trees, all_leaves. rewrite !Forall_app.
  split_and!; [|destruct (p_rtab p)|destruct (p_ptab p)|destruct (nonzero_value _)|destruct (nonzero_value _)];
    repeat constructor; eexists _, _; (split; [reflexivity|done]).
Qed.

Lemma police_values p :
  leaf_bytes TCA_POLICE_TBF (police_trees p) = Some (police_bytes (p_tbf p)) /\
  leaf_bytes TCA_POLICE_AVRATE (police_trees p) = option_map (le_bytes 4) (nonzero_value (p_avrate p)) /\
  leaf_bytes TCA_POLICE_RESULT (police_trees p) = option_map (le_bytes 4) (nonzero_value (p_presult p)).
Proof.
  unfold police_trees. by destruct (p_rtab p), (p_ptab p), (nonzero_value (p_avrate p)), (nonzero_value (p_presult p)).
Qed.

Lemma print_police_ok m off ty p :
  police_ok p -> 0 <= off -> tree_at m off (Nest ty (police_trees p)) ->
  print_police c use_iec show_raw m (Some off) = (0, police_shows p).
Proof.
  intros [W1 W2 [W3 W4] [W5 W6] _ _ [W7 W8]] Ho Ht. pose proof (police_leaves p) as Hl.
  destruct (police_values p) as (V1 & V2 & V3). unfold print_police.
  pose proof (nest_leaf _ TCA_POLICE_MAX _ _ _ TCA_POLICE_TBF Ht Hl ltac:(done) Ho) as Hb. rewrite V1 in Hb.
  destruct Hb as (a & Ea & Ha & L & D). cbv zeta. rewrite Ea, L.
  change (Z.of_nat (List.length (police_bytes (p_tbf p)))) with POLICE_SIZE in *. rewrite Z.ltb_irrefl, D.
  rewrite (nest_value m TCA_POLICE_MAX off _ _ TCA_POLICE_AVRATE 4 load32 (nonzero_value (p_avrate p)) Ht Hl)
    by first [done|unfold nonzero_value; by destruct (_ =? 0)].
  rewrite (nest_mod m TCA_POLICE_MAX off _ _ TCA_POLICE_RESULT 4 load32 (nonzero_value (p_presult p)) Ht Hl) by done.
  rewrite (word_field _ 0 _ W1), (word_field _ 12 _ W3), (word_field _ 16 _ W4), (ratespec_field _ 20 _ W5), (ratespec_field _ 32 _ W6)
    by reflexivity.
  replace (s32 (field32 (police_bytes (p_tbf p)) 4)) with (po_action (p_tbf p)).
  2:{ unfold field32. change (load_bytes _ 4 4) with (le_bytes 4 (po_action (p_tbf p))). rewrite of_le_bytes_le.
      change (2 ^ (8 * Z.of_nat 4)) with (2 ^ 32). fold (u32 (po_action (p_tbf p))). rewrite s32_u32. by rewrite s32_small. }
  replace (option_map s32 (option_map _ (nonzero_value (p_presult p)))) with (nonzero_value (p_presult p)).
  2:{ unfold nonzero_value. destruct (p_presult p =? 0); [done|]. cbn [option_map]. f_equal.
      change (2 ^ (8 * Z.of_nat 4)) with (2 ^ 32). fold (u32 (p_presult p)). rewrite s32_u32. by rewrite s32_small. }
  reflexivity.
Qed.

#[export] Instance police_laws : ActionLaws police.
Proof.
  constructor.
  - apply put_police_appends.
  - intros [|w0 [|w1 argv]] p rest E; [done..|]. cbn [a_read police_action read_police_action] in E.
    apply read_police_ok in E as [? L]. cbn [List.length] in *. split; [lia|done].
  - intros [|w0 [|w1 argv]] r E; [done..|]. cbn [a_read police_action read_police_action] in E.
    apply read_police_error in E. lia.
  - intros ss m off p. apply print_police_ok.
Qed.
End PoliceAction.
