(* ===== verification/TcPedit.v ===== *)
(** * Packet editing (iproute2-3.1.0/tc/m_pedit.c, p_ip.c, p_icmp.c, p_tcp.c, p_udp.c)

    The action that edits packets: from its words to keys, what a key does to a packet, and
    back to text.  The lines the program prints while it parses, a trace, are left out. *)

From S2P Require Export TcActs.

#[local] Open Scope list_scope.

#[local] Set Primitive Projections.

(** [iproute2-3.1.0/include/linux/tc_act/tc_pedit.h:17-24 tc_pedit_key] *)
Record tc_pedit_key := mk_key { k_mask : Z; k_val : Z; k_off : Z; k_at : Z; k_offmask : Z; k_shift : Z }.

(** The structure: the number of keys is their number, the flags are 0.
    [iproute2-3.1.0/include/linux/tc_act/tc_pedit.h:26-31 tc_pedit_sel] *)
Record tc_pedit_sel := mk_sel { se_index : Z; se_action : Z; se_keys : list tc_pedit_key }.

#[local] Unset Primitive Projections.

(** [iproute2-3.1.0/tc/m_pedit.h:29-29 MAX_OFFS] *)
Definition MAX_OFFS : Z := 128.

Inductive val_type := TIPV4 | TIPV6 | TINT | TU32.

Definition RU32 : Z := 0xFFFFFFFF.
Definition RU16 : Z := 0xFFFF.
Definition RU8 : Z := 0xFF.

(** ** Keys *)

(** [iproute2-3.1.0/tc/m_pedit.c:121-142 pack_key] *)
Definition pack_key (keys : list tc_pedit_key) (k : tc_pedit_key) : option (list tc_pedit_key) :=
  if MAX_OFFS <=? Z.of_nat (List.length keys) then None
  else if negb (k_off k mod 4 =? 0) then None
  else Some (keys ++ [k]).

Definition align4 (off : Z) : Z := off - off mod 4.

(** [iproute2-3.1.0/tc/m_pedit.c:145-159 pack_key32] *)
Definition pack_key32 (retain : Z) (keys : list tc_pedit_key) (k : tc_pedit_key) : option (list tc_pedit_key) :=
  if align4 (k_off k) <? k_off k then None
  else
    pack_key keys
      (((k <| k_val := ntohl (Z.land (k_val k) retain) |>) <| k_mask := ntohl (u32 (Z.lor (k_mask k) (Z.lnot retain))) |>)
         <| k_off := align4 (k_off k) |>).

(** The bytes of a 16-bit number exchanged. *)
Definition htons (z : Z) : Z := z mod 2 ^ 8 * 2 ^ 8 + z / 2 ^ 8 mod 2 ^ 8.

(** [iproute2-3.1.0/tc/m_pedit.c:161-202 pack_key16] *)
Definition pack_key16 (retain : Z) (keys : list tc_pedit_key) (k : tc_pedit_key) : option (list tc_pedit_key) :=
  if (0xFFFF <? k_val k) || (0xFFFF <? k_mask k) then None
  else
    let ind := k_off k mod 4 in
    if 2 <? ind then None
    else
      let m := nth (Z.to_nat ind) [0xFFFF0000; 0xFF0000FF; 0x0000FFFF; 0] 0 in
      let stride := 8 * ind in
      pack_key keys
        (((k <| k_val := u32 (Z.shiftl (htons (k_val k)) stride) |>)
            <| k_mask := Z.lor (u32 (Z.shiftl retain stride)) m |>) <| k_off := align4 (k_off k) |>).

(** [iproute2-3.1.0/tc/m_pedit.c:204-234 pack_key8] *)
Definition pack_key8 (retain : Z) (keys : list tc_pedit_key) (k : tc_pedit_key) : option (list tc_pedit_key) :=
  if (0xFF <? k_val k) || (0xFF <? k_mask k) then None
  else
    let ind := k_off k mod 4 in
    let m := nth (Z.to_nat ind) [0xFFFFFF00; 0xFFFF00FF; 0xFF00FFFF; 0x00FFFFFF] 0 in
    let stride := 8 * ind in
    pack_key keys
      (((k <| k_val := u32 (Z.shiftl (k_val k) stride) |>)
          <| k_mask := Z.lor (u32 (Z.shiftl retain stride)) m |>) <| k_off := align4 (k_off k) |>).

(** ** Words *)

Section Words.
(** [after] is what stands behind the buffer of a name of fifteen characters or more. *)
Context (inet_pton6 : string -> option (list Z)) (after : string).

(** [iproute2-3.1.0/tc/m_pedit.c:236-265 parse_val] *)
Definition parse_val (arg : string) (type : val_type) : option Z :=
  match type with
  | TINT => option_map u32 (get_integer arg 0)
  | TU32 => get_u32 arg 0
  | TIPV4 => option_map (fun a => data_word (data a) 0) (get_prefix_1 inet_pton6 arg AF_INET)
  | TIPV6 => None
  end.

Definition packed (k : option (list tc_pedit_key)) (argv : list string) : part_end (list tc_pedit_key) :=
  match k with Some keys => Part keys argv | None => PartError (- 1) end.

(** The word [retain], if it is there, and the key.
    [iproute2-3.1.0/tc/m_pedit.c:302-327 parse_cmd] *)
Definition cmd_end (len retain mask val : Z) (keys : list tc_pedit_key) (k : tc_pedit_key) (argv : list string) :
    part_end (list tc_pedit_key) :=
  let pack retain argv :=
    if len =? 1 then packed (pack_key8 retain keys ((k <| k_val := val |>) <| k_mask := 0xFF |>)) argv
    else if len =? 2 then packed (pack_key16 retain keys ((k <| k_val := val |>) <| k_mask := mask |>)) argv
    else if len =? 4 then packed (pack_key32 retain keys ((k <| k_val := val |>) <| k_mask := mask |>)) argv
    else PartError (- 1) in
  match argv with
  | word :: rest =>
      if matches word "retain" then
        match rest with
        | [] => PartExit
        | arg :: rest => match parse_val arg TU32 with None => PartError (- 1) | Some retain => pack retain rest end
        end
      else pack retain argv
  | [] => pack retain []
  end.

(** [iproute2-3.1.0/tc/m_pedit.c:267-335 parse_cmd] *)
Definition parse_cmd (argv : list string) (len : Z) (type : val_type) (retain : Z) (keys : list tc_pedit_key) (k : tc_pedit_key) :
    part_end (list tc_pedit_key) :=
  match argv with
  | [] => PartError (- 1)
  | word :: rest =>
      let o := if len =? 2 then 0xFFFF else if len =? 4 then 0xFFFFFFFF else 0xFF in
      if matches word "invert" then cmd_end len o o o keys k rest
      else if matches word "set" then
        match rest with
        | [] => PartExit
        | arg :: rest => match parse_val arg type with None => PartError (- 1) | Some v => cmd_end len retain 0 v keys k rest end
        end
      else if matches word "preserve" then cmd_end len o o 0 keys k rest
      else if matches word "clear" then cmd_end len retain 0 0 keys k rest
      else PartError (- 1)
  end.

(** The words for an offset taken from the packet: three numbers, after each of which a word
    must come.  [iproute2-3.1.0/tc/m_pedit.c:383-404 parse_offset] *)
Definition offset_at (argv : list string) (k : tc_pedit_key) : part_end tc_pedit_key :=
  match argv with
  | word :: rest =>
      if matches word "at" then
        let number arg base rest (f : Z -> part_end tc_pedit_key) :=
          match get_u32 arg base with
          | None => PartError (- 1)
          | Some v => match rest with [] => PartExit | _ => f v end
          end in
        match rest with
        | [] => PartExit
        | a :: rest1 =>
            number a 0 rest1 (fun atv =>
            match rest1 with
            | [] => PartExit
            | b :: rest2 =>
                number b 16 rest2 (fun offmask =>
                match rest2 with
                | [] => PartExit
                | d :: rest3 =>
                    number d 0 rest3 (fun shift =>
                    Part (((k <| k_at := atv |>) <| k_offmask := offmask |>) <| k_shift := shift |>) rest3)
                end)
            end)
        end
      else Part k argv
  | [] => Part k []
  end.

(** The width of the field and what is kept of it.  [iproute2-3.1.0/tc/m_pedit.c:360-374 parse_offset] *)
Definition offset_width (word : string) : option (Z * Z) :=
  if matches word "u32" then Some (4, 0xFFFFFFFF)
  else if matches word "u16" then Some (2, 0)
  else if matches word "u8" then Some (1, 0)
  else None.

(** [iproute2-3.1.0/tc/m_pedit.c:337-412 parse_offset] *)
Definition parse_offset (argv : list string) (keys : list tc_pedit_key) (k : tc_pedit_key) : part_end (list tc_pedit_key) :=
  match argv with
  | [] => PartError (- 1)
  | arg :: rest =>
      match get_integer arg 0 with
      | None => PartError (- 1)
      | Some off =>
          let k := k <| k_off := u32 off |> in
          match rest with
          | [] => PartError (- 1)
          | word :: rest =>
              match offset_width word with
              | None => PartError (- 1)
              | Some (len, retain) =>
                  match rest with
                  | [] => PartExit
                  | _ => then_part (offset_at rest k) (fun k argv => parse_cmd argv len TU32 retain keys k)
                  end
              end
          end
      end
  end.

(** A parser of one layer. *)
Definition peopt := list string -> list tc_pedit_key -> tc_pedit_key -> part_end (list tc_pedit_key).

(** There is a word when it is called.  [iproute2-3.1.0/tc/m_pedit.c:61-74 pedit_parse_nopopt] *)
Definition pedit_parse_nopopt : peopt := fun argv keys _ => match argv with [] => Part keys [] | _ => PartError (- 1) end.

(** [load] finds what is linked or in a shared object; a name that is not found is remembered
    as refusing its words, so that the list of the kinds registered changes no answer.
    [iproute2-3.1.0/tc/m_pedit.c:76-119 get_pedit_kind] *)
Definition get_pedit_kind (load : string -> option peopt) (str : string) : peopt := default pedit_parse_nopopt (load str).

(** [iproute2-3.1.0/tc/m_pedit.c:414-458 parse_munge] *)
Definition parse_munge (load : string -> option peopt) (argv : list string) (keys : list tc_pedit_key) : part_end (list tc_pedit_key) :=
  let k := mk_key 0 0 0 0 0 0 in
  match argv with
  | [] => PartError (- 1)
  | word :: rest =>
      if matches word "offset" then
        match rest with [] => PartExit | _ => parse_offset rest keys k end
      else
        match get_pedit_kind load (dev_text after word) argv keys k with
        | PartError r => PartError (if r <? 0 then - 1 else r)
        | p => p
        end
  end.

(** ** The layers *)

(** Whether a word may be cut, its offset, width, type and what is kept.
    [iproute2-3.1.0/tc/p_ip.c:36-132 parse_ip] *)
Definition ip_fields : list (bool * string * (Z * Z * val_type * Z)) :=
  [(false, "src", (12, 4, TIPV4, RU32)); (false, "dst", (16, 4, TIPV4, RU32)); (false, "tos", (1, 1, TU32, RU8));
   (true, "dsfield", (1, 1, TU32, RU8)); (false, "ihl", (0, 1, TU32, RU8)); (false, "protocol", (9, 1, TU32, RU8));
   (true, "precedence", (1, 1, TU32, RU8)); (false, "nofrag", (6, 1, TU32, 0x3F)); (false, "firstfrag", (6, 1, TU32, 0x1F));
   (false, "ce", (6, 1, TU32, 0x80)); (false, "df", (6, 1, TU32, 0x40)); (false, "mf", (6, 1, TU32, 0x20));
   (false, "dport", (22, 2, TU32, RU16)); (false, "sport", (20, 2, TU32, RU16));
   (false, "icmp_type", (20, 1, TU32, RU8)); (false, "icmp_code", (20, 1, TU32, RU8))].

Fixpoint ip_field (word : string) (l : list (bool * string * (Z * Z * val_type * Z))) : option (Z * Z * val_type * Z) :=
  match l with
  | [] => None
  | (cut, name, f) :: l => if (if cut : bool then matches word name else String.eqb word name) then Some f else ip_field word l
  end.

(** [iproute2-3.1.0/tc/p_ip.c:26-139 parse_ip] *)
Definition parse_ip : peopt := fun argv keys k =>
  match argv with
  | word :: (_ :: _) as rest =>
      match ip_field word ip_fields with
      | Some (off, len, type, retain) => parse_cmd rest len type retain keys (k <| k_off := off |>)
      | None => PartError (- 1)
      end
  | _ => PartError (- 1)
  end.

(** [iproute2-3.1.0/tc/p_ip.c:141-146 parse_ip6] *)
Definition parse_ip6 : peopt := fun _ _ _ => PartError (- 1).
(** [iproute2-3.1.0/tc/p_icmp.c:27-55 parse_icmp] *)
Definition parse_icmp : peopt := fun _ _ _ => PartError (- 1).
(** [iproute2-3.1.0/tc/p_tcp.c:26-31 parse_tcp] *)
Definition parse_tcp : peopt := fun _ _ _ => PartError (- 1).
(** [iproute2-3.1.0/tc/p_udp.c:26-31 parse_udp] *)
Definition parse_udp : peopt := fun _ _ _ => PartError (- 1).

(** The layers linked into the program. *)
Definition linked_layers (str : string) : option peopt :=
  if String.eqb str "ip" then Some parse_ip
  else if String.eqb str "ip6" then Some parse_ip6
  else if String.eqb str "icmp" then Some parse_icmp
  else if String.eqb str "tcp" then Some parse_tcp
  else if String.eqb str "udp" then Some parse_udp
  else None.

(** ** The action *)

Section Action.
Context (load : string -> option peopt).

(** Every round takes a word.  [iproute2-3.1.0/tc/m_pedit.c:475-501 parse_pedit] *)
Fixpoint pedit_words (fuel : nat) (argv : list string) (ok : bool) (keys : list tc_pedit_key) : part_end (bool * list tc_pedit_key) :=
  match fuel, argv with
  | _, [] => Part (ok, keys) []
  | O, _ => Part (ok, keys) argv
  | S fuel, word :: rest =>
      if matches word "pedit" then
        match rest with [] => PartExit | _ => pedit_words fuel rest true keys end
      else if matches word "help" then PartExit
      else if matches word "munge" then
        if negb ok then PartError (- 1)
        else
          match rest with
          | [] => PartExit
          | _ =>
              match parse_munge load rest keys with
              | Part keys argv => pedit_words fuel argv true keys
              | PartError _ => PartError (- 1)
              | PartExit => PartExit
              end
          end
      else Part (ok, keys) argv
  end.

(** [iproute2-3.1.0/tc/m_pedit.c:460-549 parse_pedit] *)
Definition read_pedit (argv : list string) : part_end tc_pedit_sel :=
  then_part (pedit_words (List.length argv) argv false []) (fun '(ok, keys) argv =>
  if negb ok then PartError (- 1)
  else
    then_part (take_control true 0 argv) (fun a argv =>
    then_part (take_index None argv) (fun i argv => Part (mk_sel (default 0 i) a keys) argv))).
End Action.
End Words.

Definition key_bytes (k : tc_pedit_key) : list Z :=
  le_bytes 4 (k_mask k) ++ le_bytes 4 (k_val k) ++ le_bytes 4 (k_off k) ++ le_bytes 4 (k_at k) ++
  le_bytes 4 (k_offmask k) ++ le_bytes 4 (k_shift k).

Definition KEY_SIZE : Z := 24.

(** The number of keys, no flags, and two bytes of padding. *)
Definition sel_bytes (s : tc_pedit_sel) : list Z :=
  gen_bytes (se_index s) (se_action s) ++ [u8 (Z.of_nat (List.length (se_keys s))); 0; 0; 0] ++ flat_map key_bytes (se_keys s).

Definition TCA_PEDIT_TM : Z := 1.
Definition TCA_PEDIT_PARMS : Z := 2.
Definition TCA_PEDIT_MAX : Z := 2.

Definition put_pedit (s : tc_pedit_sel) (n : nlmsghdr) : nlmsghdr := (addattr_l n MAX_MSG TCA_PEDIT_PARMS (sel_bytes s)).2.

(** [iproute2-3.1.0/tc/m_pedit.c:541-544 parse_pedit] *)
Definition parse_pedit (inet_pton6 : string -> option (list Z)) (after : string) (load : string -> option peopt) :
    list string -> Z -> nlmsghdr -> aopt_outcome := action_parser (read_pedit inet_pton6 after load) put_pedit.

Definition key_text (i off val mask : Z) : string :=
  newline +:+ tab +:+ " key #" +:+ print_d i +:+ "  at " +:+ print_d (s32 off) +:+ ": val " +:+ pad_left 8 (print_x (ntohl val)) +:+
  " mask " +:+ pad_left 8 (print_x (ntohl mask)).

(** [iproute2-3.1.0/tc/m_pedit.c:570-594 print_pedit] *)
Definition pedit_text (a index refcnt bindcnt nkeys : Z) (tm : string) (keys : list string) : string :=
  " pedit action " +:+ action_n2a a 64 +:+ " keys " +:+ print_d nkeys +:+ newline +:+ " " +:+ tab +:+ " index " +:+
  print_d (s32 index) +:+ " ref " +:+ print_d refcnt +:+ " bind " +:+ print_d bindcnt +:+ tm +:+
  (if nkeys =? 0 then newline +:+ "pedit " +:+ print_x index +:+ " keys " +:+ print_d nkeys +:+ " is not LEGIT"
   else String.concat "" keys) +:+ newline +:+ " ".

(** [iproute2-3.1.0/tc/m_pedit.c:551-596 print_pedit] *)
Definition print_pedit (hz : Z) (show_stats : bool) (m : list Z) (arg : option Z) : Z * string :=
  match arg with
  | None => (- 1, "")
  | Some arg =>
      let tb := (parse_rtattr_nested m TCA_PEDIT_MAX arg).1 in
      match tb !!! Z.to_nat TCA_PEDIT_PARMS with
      | None => (- 1, "[NULL pedit parameters]")
      | Some a =>
          let p := RTA_DATA a in
          let nkeys := of_le_bytes (load_bytes m (p + 20) 1) in
          let key i :=
            let q := p + 24 + KEY_SIZE * Z.of_nat i in
            key_text (Z.of_nat i) (load32 m (q + 8)) (load32 m (q + 4)) (load32 m q) in
          (0, pedit_text (s32 (load32 m (p + 8))) (load32 m p) (s32 (load32 m (p + 12))) (s32 (load32 m (p + 16))) nkeys
                (times hz show_stats m (tb !!! Z.to_nat TCA_PEDIT_TM)) (map key (seq 0 (Z.to_nat nkeys))))
      end
  end.

(** [iproute2-3.1.0/tc/m_pedit.c:598-602 pedit_print_xstats] *)
Definition pedit_print_xstats : Z := 0.

(** ** Words of the layers are refused *)

Lemma length_substring n : forall s, String.length (substring 0 n s) = Nat.min n (String.length s).
Proof. induction n as [|n IH]; intros [|c s]; cbn [substring String.length Nat.min]; [done..|]. by rewrite IH. Qed.

(** The word of the layer is handed on with the others, and no field has that name: only the
    words after [offset] can be accepted. *)
Theorem layered_refused inet_pton6 word rest keys :
  matches word "offset" = false ->
  parse_munge inet_pton6 "" (linked_layers inet_pton6) (word :: rest) keys = PartError (- 1).
Proof.
  intros Hw. unfold parse_munge. rewrite Hw.
  assert (get_pedit_kind (linked_layers inet_pton6) (dev_text "" word) (word :: rest) keys (mk_key 0 0 0 0 0 0) = PartError (- 1)) as ->;
    [|done].
  unfold get_pedit_kind, linked_layers. destruct (String.eqb_spec (dev_text "" word) "ip") as [E|].
  - assert (word = "ip") as ->.
    { unfold dev_text in E. destruct (Nat.leb_spec 15 (String.length word)) as [Hl|]; [|done].
      apply (f_equal String.length) in E. rewrite append_empty, length_substring in E.
      change (String.length "ip") with 2%nat in E. lia. }
    by destruct rest.
  - by repeat (match goal with |- context [String.eqb ?a ?b] => destruct (String.eqb a b); [done|] end).
Qed.

Lemma layered_refused_witness :
  parse_munge (fun _ => None) "" (linked_layers (fun _ => None)) ["ip"; "src"; "set"; "10.0.0.1"] [] = PartError (- 1).
Proof. apply layered_refused. reflexivity. Defined.

(** The words of the usage are refused, too: no word stands before the mask and the shift. *)
Lemma at_without_words k :
  offset_at ["at"; "20"; "offmask"; "0f00"; "shift"; "6"; "clear"] k = PartError (- 1) /\
  offset_at ["at"; "20"; "0f00"; "6"; "clear"] k = Part (((k <| k_at := 20 |>) <| k_offmask := 0xf00 |>) <| k_shift := 6 |>) ["clear"].
Proof. by vm_compute. Qed.

(** ** What a key does *)

(** The word at the offset, masked and added: what the header says of [mask] and [val], for
    keys with an offset of their own. *)
Definition apply_key (k : tc_pedit_key) (pkt : list Z) : list Z :=
  store_at (k_off k) (le_bytes 4 (Z.lxor (Z.land (load32 pkt (k_off k)) (k_mask k)) (k_val k))) pkt.

(** The commands, on the bytes of a field. *)
Inductive edit := Set_to (v : Z) | Clear | Invert | Preserve.

Definition be_bytes (n : nat) (z : Z) : list Z := rev (le_bytes n z).

Definition edit_field (e : edit) (old : list Z) : list Z :=
  match e with
  | Set_to v => be_bytes (List.length old) v
  | Clear => replicate (List.length old) 0
  | Invert => map (fun b => 255 - b) old
  | Preserve => old
  end.

(** The command the words give for a field of [len] bytes, and the words left. *)
Definition command (len : Z) (argv : list string) : option (edit * list string) :=
  match argv with
  | word :: rest =>
      if matches word "invert" then Some (Invert, rest)
      else if matches word "set" then
        match rest with
        | arg :: rest => match get_u32 arg 0 with Some v => if v <? 2 ^ (8 * len) then Some (Set_to v, rest) else None | None => None end
        | [] => None
        end
      else if matches word "preserve" then Some (Preserve, rest)
      else if matches word "clear" then Some (Clear, rest)
      else None
  | [] => None
  end.

(** *** Words by their bytes *)

Definition byte (b : Z) : Prop := 0 <= b < 2 ^ 8.

Lemma testbit_join a A i : byte a -> 0 <= i -> Z.testbit (a + 2 ^ 8 * A) i = if i <? 8 then Z.testbit a i else Z.testbit A (i - 8).
Proof.
  intros Ha Hi. assert ((a + 2 ^ 8 * A) mod 2 ^ 8 = a /\ (a + 2 ^ 8 * A) / 2 ^ 8 = A) as [E1 E2]
    by (unfold byte in Ha; split; Z.div_mod_to_equations; lia).
  destruct (Z.ltb_spec i 8).
  - rewrite <- E1 at 2. symmetry. by apply Z.mod_pow2_bits_low.
  - rewrite <- E2 at 2. rewrite Z.div_pow2_bits by lia. f_equal. lia.
Qed.

Section Bytewise.
Context (op : Z -> Z -> Z) (f : bool -> bool -> bool).
Hypothesis Hop : forall a b i, Z.testbit (op a b) i = f (Z.testbit a i) (Z.testbit b i).
Hypothesis Hbyte : forall a b, byte a -> byte b -> byte (op a b).
Hypothesis Hzero : op 0 0 = 0.

Lemma bytewise l l' :
  List.length l = List.length l' -> Forall byte l -> Forall byte l' ->
  op (of_le_bytes l) (of_le_bytes l') = of_le_bytes (zip_with op l l').
Proof.
  revert l'. induction l as [|a l IH]; intros [|b l'] Hl Ha Hb; try done. cbn [of_le_bytes zip_with].
  apply Forall_cons in Ha as [Ha Hla], Hb as [Hb Hlb]. rewrite <- IH by (cbn in Hl; lia || done).
  apply Z.bits_inj'. intros i Hi. rewrite Hop, !testbit_join by auto. destruct (i <? 8); by rewrite Hop.
Qed.
End Bytewise.

Lemma land_byte a b : byte a -> byte b -> byte (Z.land a b).
Proof.
  intros Ha Hb. unfold byte in *. split; [apply Z.land_nonneg; lia|].
  destruct (Z.eq_dec (Z.land a b) 0) as [->|]; [lia|]. apply Z.log2_lt_pow2.
  { assert (0 <= Z.land a b) by (apply Z.land_nonneg; lia). lia. }
  pose proof (Z.log2_land a b ltac:(lia) ltac:(lia)). destruct (Z.eq_dec a 0) as [->|]; [cbn in *; lia|].
  assert (Z.log2 a < 8) by (apply Z.log2_lt_pow2; lia). lia.
Qed.

Lemma lxor_byte a b : byte a -> byte b -> byte (Z.lxor a b).
Proof.
  intros Ha Hb. unfold byte in *. split; [apply Z.lxor_nonneg; lia|].
  destruct (Z.eq_dec (Z.lxor a b) 0) as [->|]; [lia|]. apply Z.log2_lt_pow2.
  { assert (0 <= Z.lxor a b) by (apply Z.lxor_nonneg; lia). lia. }
  pose proof (Z.log2_lxor a b ltac:(lia) ltac:(lia)).
  assert (forall z, 0 <= z < 2 ^ 8 -> Z.log2 z < 8) as Hlog.
  { intros z Hz. destruct (Z.eq_dec z 0) as [->|]; [done|]. apply Z.log2_lt_pow2; lia. }
  pose proof (Hlog a Ha). pose proof (Hlog b Hb). lia.
Qed.

Lemma le_of_le l : Forall byte l -> le_bytes (List.length l) (of_le_bytes l) = l.
Proof.
  induction 1 as [|b l Hb _ IH]; [done|]. cbn [of_le_bytes List.length le_bytes]. unfold byte in Hb.
  replace ((b + 2 ^ 8 * of_le_bytes l) mod 2 ^ 8) with b by (Z.div_mod_to_equations; lia).
  replace ((b + 2 ^ 8 * of_le_bytes l) / 2 ^ 8) with (of_le_bytes l) by (Z.div_mod_to_equations; lia).
  by rewrite IH.
Qed.

(** One byte masked and added. *)
Definition masked (b m v : Z) : Z := Z.lxor (Z.land b m) v.

Fixpoint mask_bytes (b m v : list Z) : list Z :=
  match b, m, v with x :: b, y :: m, z :: v => masked x y z :: mask_bytes b m v | _, _, _ => [] end.

(** A word masked and added, byte by byte. *)
Lemma word_masked b m v :
  List.length b = 4%nat -> List.length m = 4%nat -> List.length v = 4%nat -> Forall byte b -> Forall byte m -> Forall byte v ->
  le_bytes 4 (Z.lxor (Z.land (of_le_bytes b) (of_le_bytes m)) (of_le_bytes v)) = mask_bytes b m v.
Proof.
  intros Lb Lm Lv Hb Hm Hv.
  rewrite (bytewise Z.land andb Z.land_spec land_byte) by (done || congruence).
  assert (Forall byte (zip_with Z.land b m)) as Hbm.
  { clear - Hb Hm. revert m Hm. induction Hb as [|x b Hx _ IH]; intros [|y m] Hm; cbn; constructor; apply Forall_cons in Hm as [? ?];
      [by apply land_byte|by apply IH]. }
  rewrite (bytewise Z.lxor xorb Z.lxor_spec lxor_byte) by (done || rewrite length_zip_with; lia).
  destruct b as [|b0 [|b1 [|b2 [|b3 [|]]]]]; try done. destruct m as [|m0 [|m1 [|m2 [|m3 [|]]]]]; try done.
  destruct v as [|v0 [|v1 [|v2 [|v3 [|]]]]]; try done. cbn [zip_with] in *.
  rewrite !Forall_cons in Hbm, Hv.
  change 4%nat with (List.length [Z.lxor (Z.land b0 m0) v0; Z.lxor (Z.land b1 m1) v1; Z.lxor (Z.land b2 m2) v2; Z.lxor (Z.land b3 m3) v3]).
  apply le_of_le. repeat (apply Forall_cons; split; [apply lxor_byte; tauto|]). constructor.
Qed.

Lemma mask_bytes_app b m v b' m' v' :
  List.length b = List.length m -> List.length m = List.length v ->
  mask_bytes (b ++ b') (m ++ m') (v ++ v') = mask_bytes b m v ++ mask_bytes b' m' v'.
Proof.
  revert m v. induction b as [|x b IH]; intros [|y m] [|z v] H1 H2; try done. cbn. f_equal. apply IH; cbn in *; lia.
Qed.

Lemma masked_all b : byte b -> masked b 255 0 = b /\ masked b 255 255 = 255 - b.
Proof.
  intros Hb. assert (forallb (fun n => (masked (Z.of_nat n) 255 0 =? Z.of_nat n) && (masked (Z.of_nat n) 255 255 =? 255 - Z.of_nat n)) (seq 0 256) = true)
    as H by (vm_compute; reflexivity).
  rewrite forallb_forall in H. specialize (H (Z.to_nat b)). rewrite Z2Nat.id in H by (unfold byte in Hb; lia).
  destruct (proj1 (andb_true_iff _ _) (H ltac:(apply in_seq; unfold byte in Hb; lia))) as [E1 E2]. by apply Z.eqb_eq in E1, E2.
Qed.

(** What a command does to the mask and the value of a field. *)
Definition edit_mask (e : edit) (len : nat) : list Z :=
  match e with Set_to _ | Clear => replicate len 0 | Invert | Preserve => replicate len 255 end.

Definition edit_val (e : edit) (len : nat) : list Z :=
  match e with Set_to v => be_bytes len v | Clear | Preserve => replicate len 0 | Invert => replicate len 255 end.

Lemma be_bytes_length n z : List.length (be_bytes n z) = n.
Proof. unfold be_bytes. by rewrite length_rev, le_bytes_length. Qed.

Lemma mask_const (x y : Z) (g : Z -> Z) l :
  (forall b, byte b -> masked b x y = g b) -> Forall byte l ->
  mask_bytes l (replicate (List.length l) x) (replicate (List.length l) y) = map g l.
Proof. intros Hg. induction 1 as [|b l Hb _ IH]; [done|]. cbn. by rewrite Hg, IH. Qed.

Lemma mask_edit e old : Forall byte old -> mask_bytes old (edit_mask e (List.length old)) (edit_val e (List.length old)) = edit_field e old.
Proof.
  intros Ho. destruct e as [v| | |]; cbn [edit_mask edit_val edit_field].
  - pose proof (be_bytes_length (List.length old) v) as Hl. revert Hl. generalize (be_bytes (List.length old) v). clear.
    induction old as [|b old IH]; intros [|y l] Hl; try done. cbn. unfold masked at 1. rewrite Z.land_0_r, Z.lxor_0_l. f_equal.
    apply IH. cbn in Hl. lia.
  - rewrite (mask_const 0 0 (fun _ => 0)); [|by intros b _; unfold masked; rewrite Z.land_0_r|done]. clear. by induction old as [|b l IH]; [|cbn; rewrite IH].
  - by apply (mask_const 255 255); [intros b Hb; apply masked_all|].
  - rewrite (mask_const 255 0 (fun b => b)); [apply map_id|intros b Hb; by apply masked_all|done].
Qed.

Lemma mask_outside l : Forall byte l -> mask_bytes l (replicate (List.length l) 255) (replicate (List.length l) 0) = l.
Proof. intros Hl. rewrite (mask_const 255 0 (fun b => b)); [apply map_id|intros b Hb; by apply masked_all|done]. Qed.

(** *** Keys by their bytes *)

Lemma of_le_app l l' : of_le_bytes (l ++ l') = of_le_bytes l + 2 ^ (8 * Z.of_nat (List.length l)) * of_le_bytes l'.
Proof.
  induction l as [|b l IH]; cbn [of_le_bytes app List.length]; [change (2 ^ (8 * Z.of_nat 0)) with 1; lia|]. rewrite IH.
  replace (8 * Z.of_nat (S (List.length l))) with (8 + 8 * Z.of_nat (List.length l)) by lia. rewrite Z.pow_add_r by lia. ring.
Qed.

Lemma of_le_zeros n : of_le_bytes (replicate n 0) = 0.
Proof. induction n as [|n IH]; [done|]. cbn [replicate of_le_bytes]. rewrite IH. lia. Qed.

Lemma of_le_range l : Forall byte l -> 0 <= of_le_bytes l < 2 ^ (8 * Z.of_nat (List.length l)).
Proof.
  induction 1 as [|b l Hb _ IH]; [done|]. cbn [of_le_bytes List.length]. unfold byte in Hb.
  replace (8 * Z.of_nat (S (List.length l))) with (8 + 8 * Z.of_nat (List.length l)) by lia. rewrite Z.pow_add_r by lia. lia.
Qed.

(** A number shifted to its place in the word. *)
Lemma shifted_bytes i l j :
  (i + List.length l + j = 4)%nat -> Forall byte l ->
  u32 (Z.shiftl (of_le_bytes l) (8 * Z.of_nat i)) = of_le_bytes (replicate i 0 ++ l ++ replicate j 0).
Proof.
  intros Hl Hb. rewrite !of_le_app, of_le_zeros, of_le_zeros, length_replicate, Z.shiftl_mul_pow2 by lia.
  pose proof (of_le_range l Hb). rewrite Z.mul_0_r, Z.add_0_r, Z.add_0_l, Z.mul_comm. apply u32_small.
  split; [apply Z.mul_nonneg_nonneg; lia|].
  apply Z.lt_le_trans with (2 ^ (8 * Z.of_nat i) * 2 ^ (8 * Z.of_nat (List.length l))); [apply Z.mul_lt_mono_pos_l; lia|].
  rewrite <- Z.pow_add_r by lia. apply Z.pow_le_mono_r; lia.
Qed.

Lemma be_bytes_bytes n z : Forall byte (be_bytes n z).
Proof.
  unfold be_bytes. apply Forall_rev. revert z. induction n as [|n IH]; intros z; cbn; constructor; [apply Z.mod_pos_bound; lia|apply IH].
Qed.

Lemma htons_bytes v : htons v = of_le_bytes (be_bytes 2 v).
Proof. unfold htons, be_bytes. cbn [le_bytes rev app of_le_bytes]. lia. Qed.

Lemma ntohl_bytes v : ntohl v = of_le_bytes (be_bytes 4 v).
Proof.
  unfold ntohl, be_bytes. cbn [le_bytes rev app of_le_bytes]. rewrite !Z.div_div by lia.
  change (2 ^ 8 * 2 ^ 8) with (2 ^ 16). change (2 ^ 16 * 2 ^ 8) with (2 ^ 24). change (2 ^ 8 * (2 ^ 16)) with (2 ^ 24). lia.
Qed.

(** What the commands hand to [cmd_end]: what is kept, mask and value. *)
Definition edit_args (e : edit) (len : nat) : Z * Z * Z :=
  let o := 2 ^ (8 * Z.of_nat len) - 1 in
  let keep := if (len =? 4)%nat then 0xFFFFFFFF else 0 in
  match e with Set_to v => (keep, 0, v) | Clear => (keep, 0, 0) | Invert => (o, o, o) | Preserve => (o, o, 0) end.

(** A field of [len] bytes at the [i]th byte of a word. *)
Definition edit_key (e : edit) (i len : nat) (off : Z) : tc_pedit_key :=
  mk_key (of_le_bytes (replicate i 255 ++ edit_mask e len ++ replicate (4 - i - len) 255))
    (of_le_bytes (replicate i 0 ++ edit_val e len ++ replicate (4 - i - len) 0)) off 0 0 0.

Definition fits (e : edit) (len : nat) : Prop := match e with Set_to v => 0 <= v < 2 ^ (8 * Z.of_nat len) | _ => True end.

Definition no_retain (argv : list string) : Prop := match argv with word :: _ => matches word "retain" = false | [] => True end.

Lemma pack_key_ok keys k :
  Z.of_nat (List.length keys) < MAX_OFFS -> k_off k mod 4 = 0 -> pack_key keys k = Some (keys ++ [k]).
Proof. intros H1 H2. unfold pack_key. rewrite (proj2 (Z.leb_gt _ _)) by done. by rewrite H2. Qed.

Lemma align4_ok off : align4 off mod 4 = 0 /\ align4 (align4 off) = align4 off.
Proof. unfold align4. assert ((off - off mod 4) mod 4 = 0) as E by (Z.div_mod_to_equations; lia). rewrite E. split; [done|lia]. Qed.

Lemma be_bytes_value n v : 0 <= v < 2 ^ (8 * Z.of_nat n) -> (n = 1)%nat -> v = of_le_bytes (be_bytes n v).
Proof. intros Hv ->. unfold be_bytes. cbn. change (2 ^ (8 * Z.of_nat 1)) with (2 ^ 8) in Hv. rewrite Z.mod_small by done. lia. Qed.

(** The values the packing functions compute, for a field at the [i]th byte. *)
Lemma packed_val e len i :
  (len = 1 \/ len = 2)%nat -> (i + len <= 4)%nat -> fits e len ->
  u32 (Z.shiftl (if (len =? 1)%nat then (edit_args e len).2 else htons (edit_args e len).2) (8 * Z.of_nat i)) =
  of_le_bytes (replicate i 0 ++ edit_val e len ++ replicate (4 - i - len) 0).
Proof.
  intros Hlen Hi Hf. rewrite <- (shifted_bytes i (edit_val e len) (4 - i - len)).
  - f_equal. f_equal. destruct e as [v| | |]; cbn [edit_args edit_val snd fits] in *;
      destruct Hlen as [-> | ->]; try reflexivity; cbn [Nat.eqb]; [by apply be_bytes_value|apply htons_bytes].
  - destruct e; cbn [edit_val]; rewrite ?length_replicate, ?be_bytes_length; lia.
  - destruct e; cbn [edit_val]; try apply be_bytes_bytes; apply Forall_replicate; done.
Qed.

Lemma key_eq m v m' v' off : m = m' -> v = v' -> mk_key m v off 0 0 0 = mk_key m' v' off 0 0 0.
Proof. by intros -> ->. Qed.

Lemma pack8_ok e keys off i :
  off mod 4 = Z.of_nat i -> (i + 1 <= 4)%nat -> fits e 1 -> Z.of_nat (List.length keys) < MAX_OFFS ->
  pack_key8 (edit_args e 1).1.1 keys (mk_key 0xFF (edit_args e 1).2 off 0 0 0) =
    Some (keys ++ [edit_key e i 1 (align4 off)]).
Proof.
  intros Ho Hi Hf Hk. unfold pack_key8. cbn [k_val k_mask k_off].
  assert ((0xFF <? (edit_args e 1).2) = false) as ->.
  { destruct e; cbn [edit_args snd fits] in *; try reflexivity. change (2 ^ (8 * Z.of_nat 1)) with 256 in Hf. apply Z.ltb_ge. lia. }
  change (0xFF <? 0xFF) with false. cbn [orb]. rewrite Ho. rewrite pack_key_ok; [|done|apply align4_ok].
  f_equal. f_equal. apply (f_equal (fun k => [k])). unfold edit_key. pose proof (packed_val e 1 i ltac:(auto) Hi Hf) as Ev. cbn [Nat.eqb] in Ev.
  apply key_eq; [|exact Ev]. assert (i = 0 \/ i = 1 \/ i = 2 \/ i = 3)%nat as [-> |[-> |[-> | ->]]] by lia; by destruct e.
Qed.

Lemma pack16_ok e keys off i :
  off mod 4 = Z.of_nat i -> (i + 2 <= 4)%nat -> fits e 2 -> Z.of_nat (List.length keys) < MAX_OFFS ->
  pack_key16 (edit_args e 2).1.1 keys (mk_key (edit_args e 2).1.2 (edit_args e 2).2 off 0 0 0) =
    Some (keys ++ [edit_key e i 2 (align4 off)]).
Proof.
  intros Ho Hi Hf Hk. unfold pack_key16. cbn [k_val k_mask k_off].
  assert ((0xFFFF <? (edit_args e 2).2) = false) as ->.
  { destruct e; cbn [edit_args snd fits] in *; try reflexivity. change (2 ^ (8 * Z.of_nat 2)) with 65536 in Hf. apply Z.ltb_ge. lia. }
  assert ((0xFFFF <? (edit_args e 2).1.2) = false) as -> by (by destruct e). cbn [orb]. rewrite Ho, (proj2 (Z.ltb_ge 2 _)) by lia.
  rewrite pack_key_ok; [|done|apply align4_ok].
  f_equal. f_equal. apply (f_equal (fun k => [k])). unfold edit_key. pose proof (packed_val e 2 i ltac:(auto) Hi Hf) as Ev. cbn [Nat.eqb] in Ev.
  apply key_eq; [|exact Ev]. assert (i = 0 \/ i = 1 \/ i = 2)%nat as [-> |[-> | ->]] by lia; by destruct e.
Qed.

Lemma pack32_ok e keys off :
  off mod 4 = 0 -> fits e 4 -> Z.of_nat (List.length keys) < MAX_OFFS ->
  pack_key32 (edit_args e 4).1.1 keys (mk_key (edit_args e 4).1.2 (edit_args e 4).2 off 0 0 0) =
    Some (keys ++ [edit_key e 0 4 (align4 off)]).
Proof.
  intros Ho Hf Hk. unfold pack_key32. cbn [k_val k_mask k_off].
  assert (align4 off = off) as Ea by (unfold align4; lia). rewrite Ea, Z.ltb_irrefl.
  rewrite pack_key_ok; [|done|exact Ho]. f_equal. f_equal. apply (f_equal (fun k => [k])). unfold edit_key. apply key_eq; [by destruct e|].
  destruct e as [v| | |]; [|reflexivity..]. cbn [edit_args snd fst Nat.eqb edit_val replicate app Nat.sub] in *. rewrite app_nil_r.
  rewrite <- ntohl_bytes. f_equal. change 0xFFFFFFFF with (Z.ones 32). rewrite Z.land_ones by lia. by apply Z.mod_small.
Qed.

(** ** The words of a command edit the field *)

Lemma cmd_end_no_retain pton len retain mask val keys k argv :
  no_retain argv ->
  cmd_end pton len retain mask val keys k argv =
    if len =? 1 then packed (pack_key8 retain keys ((k <| k_val := val |>) <| k_mask := 0xFF |>)) argv
    else if len =? 2 then packed (pack_key16 retain keys ((k <| k_val := val |>) <| k_mask := mask |>)) argv
    else if len =? 4 then packed (pack_key32 retain keys ((k <| k_val := val |>) <| k_mask := mask |>)) argv
    else PartError (- 1).
Proof. destruct argv as [|word argv]; [done|]. intros H. cbn [no_retain] in H. unfold cmd_end. by rewrite H. Qed.

Lemma cmd_end_ok pton e len i off keys argv :
  (len = 1 \/ len = 2 \/ len = 4)%nat -> off mod 4 = Z.of_nat i -> (i + len <= 4)%nat -> fits e len ->
  Z.of_nat (List.length keys) < MAX_OFFS -> no_retain argv ->
  let '(retain, mask, val) := edit_args e len in
  cmd_end pton (Z.of_nat len) retain mask val keys (mk_key 0 0 off 0 0 0) argv = Part (keys ++ [edit_key e i len (align4 off)]) argv.
Proof.
  intros Hlen Ho Hi Hf Hk Hn.
  destruct (edit_args e len) as [[retain mask] val] eqn:E. rewrite cmd_end_no_retain by done.
  assert (retain = (edit_args e len).1.1 /\ mask = (edit_args e len).1.2 /\ val = (edit_args e len).2) as (-> & -> & ->)
    by (by rewrite E).
  destruct Hlen as [-> | [-> | ->]].
  - change (Z.of_nat 1 =? 1) with true. cbv iota. change (packed (pack_key8 (edit_args e 1).1.1 keys (mk_key 0xFF (edit_args e 1).2 off 0 0 0)) argv = Part (keys ++ [edit_key e i 1 (align4 off)]) argv).
    by rewrite (pack8_ok e keys off i).
  - change (Z.of_nat 2 =? 1) with false. change (Z.of_nat 2 =? 2) with true. cbv iota.
    change (packed (pack_key16 (edit_args e 2).1.1 keys (mk_key (edit_args e 2).1.2 (edit_args e 2).2 off 0 0 0)) argv = Part (keys ++ [edit_key e i 2 (align4 off)]) argv).
    by rewrite (pack16_ok e keys off i).
  - change (Z.of_nat 4 =? 1) with false. change (Z.of_nat 4 =? 2) with false. change (Z.of_nat 4 =? 4) with true. cbv iota.
    change (packed (pack_key32 (edit_args e 4).1.1 keys (mk_key (edit_args e 4).1.2 (edit_args e 4).2 off 0 0 0)) argv = Part (keys ++ [edit_key e i 4 (align4 off)]) argv).
    assert (i = 0)%nat as -> by lia. by rewrite (pack32_ok e keys off).
Qed.

Lemma command_fits len argv e rest : command (Z.of_nat len) argv = Some (e, rest) -> fits e len.
Proof.
  destruct argv as [|word argv]; [done|]. cbn [command].
  destruct (matches word "invert"); [by intros [= <- _]|]. destruct (matches word "set").
  - destruct argv as [|arg argv]; [done|]. destruct (get_u32 arg 0) as [v|] eqn:Ev; [|done]. apply get_u32_range in Ev.
    destruct (Z.ltb_spec v (2 ^ (8 * Z.of_nat len))); [|done]. intros [= <- _]. cbn. lia.
  - destruct (matches word "preserve"); [by intros [= <- _]|]. by destruct (matches word "clear"); [intros [= <- _]|].
Qed.

Lemma parse_cmd_ok pton argv e rest len i off keys :
  (len = 1 \/ len = 2 \/ len = 4)%nat -> off mod 4 = Z.of_nat i -> (i + len <= 4)%nat ->
  Z.of_nat (List.length keys) < MAX_OFFS -> command (Z.of_nat len) argv = Some (e, rest) -> no_retain rest ->
  parse_cmd pton argv (Z.of_nat len) TU32 (if (len =? 4)%nat then 0xFFFFFFFF else 0) keys (mk_key 0 0 off 0 0 0) =
    Part (keys ++ [edit_key e i len (align4 off)]) rest.
Proof.
  intros Hlen Ho Hi Hk Hc Hn. pose proof (command_fits len argv e rest Hc) as Hf.
  pose proof (cmd_end_ok pton e len i off keys rest Hlen Ho Hi Hf Hk Hn) as Hend.
  assert ((if Z.of_nat len =? 2 then 0xFFFF else if Z.of_nat len =? 4 then 0xFFFFFFFF else 0xFF) = 2 ^ (8 * Z.of_nat len) - 1) as Eo
    by (by destruct Hlen as [-> | [-> | ->]]).
  destruct argv as [|word argv]; [done|]. cbn [command] in Hc. unfold parse_cmd. rewrite Eo.
  destruct (matches word "invert"); [by injection Hc as <- <-|]. destruct (matches word "set").
  - destruct argv as [|arg argv]; [done|]. cbn [parse_val]. destruct (get_u32 arg 0) as [v|]; [|done].
    destruct (v <? _); [|done]. by injection Hc as <- <-.
  - destruct (matches word "preserve"); [by injection Hc as <- <-|]. destruct (matches word "clear"); [|done]. by injection Hc as <- <-.
Qed.

(** *** On the packet *)

Lemma store_mid pre old new post :
  List.length new = List.length old ->
  store_at (Z.of_nat (List.length pre)) new (pre ++ old ++ post) = pre ++ new ++ post.
Proof.
  intros Hl. unfold store_at. rewrite Nat2Z.id, take_app_length. f_equal. f_equal.
  rewrite drop_app_ge by lia. replace (_ - _)%nat with (List.length old) by lia. by rewrite drop_app_length.
Qed.

Lemma load_mid pre old post n :
  Z.of_nat (List.length old) = n -> load_bytes (pre ++ old ++ post) (Z.of_nat (List.length pre)) n = old.
Proof. intros <-. unfold load_bytes. by rewrite !Nat2Z.id, drop_app_length, take_app_length. Qed.

Lemma apply_edit e pre h old t post :
  (List.length h + List.length old + List.length t = 4)%nat -> Forall byte (h ++ old ++ t) ->
  apply_key (edit_key e (List.length h) (List.length old) (Z.of_nat (List.length pre))) (pre ++ (h ++ old ++ t) ++ post) =
    pre ++ (h ++ edit_field e old ++ t) ++ post.
Proof.
  intros Hl Hb. rewrite !Forall_app in Hb. destruct Hb as (Bh & Bo & Bt). unfold apply_key, edit_key. cbn [k_off k_mask k_val].
  unfold load32. rewrite load_mid by (rewrite !length_app; lia).
  replace (4 - List.length h - List.length old)%nat with (List.length t) by lia.
  assert (List.length (edit_mask e (List.length old)) = List.length old) as Lm by (destruct e; apply length_replicate).
  assert (List.length (edit_val e (List.length old)) = List.length old) as Lv
    by (destruct e; cbn [edit_val]; rewrite ?length_replicate, ?be_bytes_length; done).
  assert (List.length (edit_field e old) = List.length old) as Lf
    by (destruct e; cbn [edit_field]; rewrite ?length_map, ?length_replicate, ?be_bytes_length; done).
  assert (forall n, Forall byte (replicate n 0)) as B0 by (intros; by apply Forall_replicate).
  assert (forall n, Forall byte (replicate n 255)) as B255 by (intros; by apply Forall_replicate).
  rewrite word_masked; [|rewrite !length_app, ?length_replicate; lia..| | |].
  - rewrite mask_bytes_app, mask_bytes_app by (rewrite ?length_replicate; lia).
    rewrite !mask_outside, mask_edit by done. apply store_mid. rewrite !length_app. lia.
  - rewrite !Forall_app. auto.
  - rewrite !Forall_app. split_and!; auto. by destruct e; cbn [edit_mask].
  - rewrite !Forall_app. split_and!; auto. destruct e; cbn [edit_val]; auto. apply be_bytes_bytes.
Qed.

Lemma packet_split (pkt : list Z) a i len :
  (a + 4 <= List.length pkt)%nat -> (i + len <= 4)%nat ->
  exists pre h old t post, pkt = pre ++ (h ++ old ++ t) ++ post /\ List.length pre = a /\ List.length h = i /\
    List.length old = len /\ (List.length h + List.length old + List.length t = 4)%nat.
Proof.
  intros Ha Hi. set (r := drop a pkt).
  exists (take a pkt), (take i r), (take len (drop i r)), (take (4 - i - len) (drop (i + len) r)), (drop 4 r).
  assert (List.length r = List.length pkt - a)%nat as Hr by apply length_drop.
  split_and!; rewrite ?length_take, ?length_drop, ?Hr; try lia.
  rewrite <- (take_drop a pkt) at 1. f_equal. fold r. rewrite <- (take_drop i r) at 1. rewrite <- !app_assoc. f_equal.
  rewrite <- (take_drop len (drop i r)) at 1. f_equal. rewrite drop_drop.
  rewrite <- (take_drop (4 - i - len) (drop (i + len) r)) at 1. f_equal. rewrite drop_drop. f_equal. lia.
Qed.

Lemma get_integer_range arg base z : get_integer arg base = Some z -> - 2 ^ 31 <= z < 2 ^ 31.
Proof.
  unfold get_integer. destruct (String.eqb arg ""); [done|]. destruct (strtol arg base) as [[r [|]]|]; [|done..].
  destruct (_ || _); [done|]. intros [= <-]. apply s32_range.
Qed.



(** ** The action *)

Definition word32 (z : Z) : Prop := 0 <= z < 2 ^ 32.

Definition key_ok (k : tc_pedit_key) : Prop :=
  word32 (k_mask k) /\ word32 (k_val k) /\ word32 (k_off k) /\ word32 (k_at k) /\ word32 (k_offmask k) /\ word32 (k_shift k).

Definition keys_ok (l : list tc_pedit_key) : Prop := Forall key_ok l /\ Z.of_nat (List.length l) <= MAX_OFFS.

(** What the packing functions need of the key they complete. *)
Definition key_base (k : tc_pedit_key) : Prop := word32 (k_off k) /\ word32 (k_at k) /\ word32 (k_offmask k) /\ word32 (k_shift k).

Lemma pack_key_keys keys k keys' : pack_key keys k = Some keys' -> keys_ok keys -> key_ok k -> keys_ok keys'.
Proof.
  unfold pack_key. destruct (Z.leb_spec MAX_OFFS (Z.of_nat (List.length keys))); [done|]. destruct (negb _); [done|].
  intros [= <-] [Hk Hl] H1. split; [apply Forall_app; auto|]. rewrite length_app. cbn. lia.
Qed.

Lemma align4_word off : word32 off -> word32 (align4 off).
Proof. unfold word32, align4. intros H. Z.div_mod_to_equations. lia. Qed.

Lemma nth_word l i : Forall word32 l -> word32 (nth i l 0).
Proof. intros Hl. destruct (nth_in_or_default i l 0) as [H| ->]; [|done]. rewrite Forall_forall in Hl. by apply Hl, list_elem_of_In. Qed.

Lemma mask_word retain stride l i : Forall word32 l -> word32 (Z.lor (u32 (Z.shiftl retain stride)) (nth i l 0)).
Proof. intros Hl. apply lor_range; [lia|apply u32_range|by apply nth_word]. Qed.

Lemma pack_keys retain keys k keys' :
  (pack_key8 retain keys k = Some keys' \/ pack_key16 retain keys k = Some keys' \/ pack_key32 retain keys k = Some keys') ->
  keys_ok keys -> key_base k -> keys_ok keys'.
Proof.
  intros H Hk (B1 & B2 & B3 & B4). pose proof (align4_word _ B1) as Ha.
  destruct H as [H|[H|H]]; [unfold pack_key8 in H|unfold pack_key16 in H|unfold pack_key32 in H].
  - destruct (_ || _); [done|]. eapply pack_key_keys; [exact H|done|].
    split; [apply mask_word; repeat (apply Forall_cons; split; [done|]); by apply Forall_nil|]. split; [apply u32_range|]. by split.
  - destruct (_ || _); [done|]. destruct (2 <? _); [done|]. eapply pack_key_keys; [exact H|done|].
    split; [apply mask_word; repeat (apply Forall_cons; split; [done|]); by apply Forall_nil|]. split; [apply u32_range|]. by split.
  - destruct (_ <? _); [done|]. eapply pack_key_keys; [exact H|done|].
    split; [apply ntohl_range|]. split; [apply ntohl_range|]. by split.
Qed.

(** What a parser of keys keeps: it never gives back more words than it was given. *)
Definition keeps (p : part_end (list tc_pedit_key)) (argv : list string) : Prop :=
  match p with Part keys rest => keys_ok keys /\ (List.length rest <= List.length argv)%nat | _ => True end.

Lemma cmd_end_keeps pton len retain mask val keys k argv : keys_ok keys -> key_base k -> keeps (cmd_end pton len retain mask val keys k argv) argv.
Proof.
  intros Hk Hb.
  assert (forall retain argv', (List.length argv' <= List.length argv)%nat ->
    keeps (if len =? 1 then packed (pack_key8 retain keys ((k <| k_val := val |>) <| k_mask := 0xFF |>)) argv'
      else if len =? 2 then packed (pack_key16 retain keys ((k <| k_val := val |>) <| k_mask := mask |>)) argv'
      else if len =? 4 then packed (pack_key32 retain keys ((k <| k_val := val |>) <| k_mask := mask |>)) argv'
      else PartError (- 1)) argv) as H.
  { intros r l Hl. destruct (len =? 1); [|destruct (len =? 2); [|destruct (len =? 4); [|done]]].
    all: match goal with |- keeps (packed ?e _) _ => destruct e as [keys'|] eqn:E; [|done] end; (split; [|exact Hl]);
      eapply pack_keys; [eauto|done|exact Hb]. }
  destruct argv as [|word rest]; [by apply H|]. unfold cmd_end. destruct (matches word "retain"); [|by apply H].
  destruct rest as [|arg rest]; [done|]. destruct (parse_val pton arg TU32); [|done]. apply H. cbn. lia.
Qed.

Lemma keeps_more p argv argv' : keeps p argv -> (List.length argv <= List.length argv')%nat -> keeps p argv'.
Proof. destruct p; [|done..]. intros [A B] H. split; [done|lia]. Qed.

Lemma parse_cmd_keeps pton argv len type retain keys k : keys_ok keys -> key_base k -> keeps (parse_cmd pton argv len type retain keys k) argv.
Proof.
  intros Hk Hb. destruct argv as [|word rest]; [done|]. cbn [parse_cmd].
  assert (forall r m v l, (List.length l <= S (List.length rest))%nat -> keeps (cmd_end pton len r m v keys k l) (word :: rest)) as H
    by (intros; eapply keeps_more; [by apply cmd_end_keeps|done]).
  destruct (matches word "invert"); [apply H; lia|]. destruct (matches word "set").
  - destruct rest as [|arg rest]; [done|]. destruct (parse_val pton arg type); [|done]. apply H. cbn. lia.
  - destruct (matches word "preserve"); [apply H; lia|]. destruct (matches word "clear"); [apply H; lia|done].
Qed.

Lemma offset_at_keeps argv k k' rest :
  offset_at argv k = Part k' rest -> key_base k -> key_base k' /\ (List.length rest <= List.length argv)%nat.
Proof.
  destruct argv as [|word argv]; [by intros [= <- <-]|]. cbn [offset_at]. destruct (matches word "at"); [|by intros [= <- <-]].
  destruct argv as [|a argv]; [done|]. destruct (get_u32 a 0) as [va|] eqn:Ea; [|done].
  destruct argv as [|b argv]; [done|]. destruct (get_u32 b 16) as [vb|] eqn:Eb; [|done].
  destruct argv as [|d argv]; [done|]. destruct (get_u32 d 0) as [vd|] eqn:Ed; [|done].
  destruct argv as [|w argv]; [done|]. apply get_u32_range in Ea, Eb, Ed. intros [= <- <-] (H1 & H2 & H3 & H4).
  split; [|cbn; lia]. split; [exact H1|]. split; [exact Ea|]. split; [exact Eb|exact Ed].
Qed.

Lemma parse_offset_keeps pton argv keys k : keys_ok keys -> key_base k -> keeps (parse_offset pton argv keys k) argv.
Proof.
  intros Hk (B1 & B2 & B3 & B4). destruct argv as [|arg argv]; [done|]. cbn [parse_offset].
  destruct (get_integer arg 0) as [off|]; [|done]. destruct argv as [|word argv]; [done|].
  destruct (offset_width word) as [[len retain]|]; [|done]. destruct argv as [|w argv]; [done|].
  assert (key_base (k <| k_off := u32 off |>)) as Hb by (split; [apply u32_range|by split]).
  destruct (offset_at (w :: argv) (k <| k_off := u32 off |>)) as [k' l| |] eqn:E; [|done..]. cbn [then_part].
  apply offset_at_keeps in E as [Hb' L]; [|done]. eapply keeps_more; [by apply parse_cmd_keeps|]. cbn in *. lia.
Qed.

Section PeditAction.
Context (inet_pton6 : string -> option (list Z)) (after : string) (load : string -> option peopt) (hz : Z).

(** What a layer must keep, linked or in a shared object. *)
Hypothesis Hload : forall s p, load s = Some p -> forall argv keys k, keys_ok keys -> key_base k -> keeps (p argv keys k) argv.

Lemma munge_keeps argv keys : keys_ok keys -> keeps (parse_munge inet_pton6 after load argv keys) argv.
Proof.
  intros Hk. assert (key_base (mk_key 0 0 0 0 0 0)) as Hb by done. destruct argv as [|word argv]; [done|]. unfold parse_munge.
  destruct (matches word "offset").
  - destruct argv as [|w l]; [done|]. eapply keeps_more; [by apply parse_offset_keeps|cbn; lia].
  - assert (keeps (get_pedit_kind load (dev_text after word) (word :: argv) keys (mk_key 0 0 0 0 0 0)) (word :: argv)) as H.
    { unfold get_pedit_kind. destruct (load (dev_text after word)) as [p|] eqn:E; [by eapply Hload|done]. }
    by destruct (get_pedit_kind load (dev_text after word) (word :: argv) keys (mk_key 0 0 0 0 0 0)).
Qed.

Lemma pedit_words_ok fuel : forall argv ok keys ok' keys' rest,
  pedit_words inet_pton6 after load fuel argv ok keys = Part (ok', keys') rest -> keys_ok keys ->
  keys_ok keys' /\ (List.length rest <= List.length argv)%nat /\
  (ok' = true -> ok = true \/ (List.length rest < List.length argv)%nat).
Proof.
  induction fuel as [|fuel IH]; intros [|word argv] ok keys ok' keys' rest; cbn [pedit_words]; try (by intros [= <- <- <-]; auto).
  destruct (matches word "pedit").
  { destruct argv as [|w l]; [done|]. intros E Hk. destruct (IH _ _ _ _ _ _ E Hk) as (A & B & _). cbn [List.length] in *.
    split; [done|]. split; [lia|]. intros _. right. lia. }
  destruct (matches word "help"); [done|]. destruct (matches word "munge"); [|by intros [= <- <- <-]; auto].
  destruct ok; [|done]. cbn [negb]. destruct argv as [|w l]; [done|].
  intros E Hk. pose proof (munge_keeps (w :: l) keys Hk) as Hm.
  destruct (parse_munge inet_pton6 after load (w :: l) keys) as [keys1 l1| |]; [|done..]. destruct Hm as [Hk1 L1].
  destruct (IH _ _ _ _ _ _ E Hk1) as (A & B & _). cbn [List.length] in *. split; [done|]. split; [lia|auto].
Qed.

Lemma pedit_words_error fuel : forall argv ok keys r, pedit_words inet_pton6 after load fuel argv ok keys = PartError r -> r = - 1.
Proof.
  induction fuel as [|fuel IH]; intros [|word argv] ok keys r; cbn [pedit_words]; try done.
  destruct (matches word "pedit"); [destruct argv; [done|apply IH]|]. destruct (matches word "help"); [done|].
  destruct (matches word "munge"); [|done]. destruct (negb ok); [by intros [= <-]|]. destruct argv as [|w l]; [done|].
  destruct (parse_munge inet_pton6 after load (w :: l) keys); [apply IH|by intros [= <-]|done].
Qed.

Definition pedit_ok (s : tc_pedit_sel) : Prop := word32 (se_index s) /\ action_range (se_action s) /\ keys_ok (se_keys s).

Fixpoint key_texts (i : Z) (l : list tc_pedit_key) : list string :=
  match l with [] => [] | k :: l => key_text i (k_off k) (k_val k) (k_mask k) :: key_texts (i + 1) l end.

#[export] Instance pedit_action : Action tc_pedit_sel := {|
  a_read := read_pedit inet_pton6 after load;
  a_put := put_pedit;
  a_trees s := [Leaf TCA_PEDIT_PARMS (sel_bytes s)];
  a_ok := pedit_ok;
  a_print := print_pedit hz;
  a_shows s := pedit_text (se_action s) (se_index s) 0 0 (Z.of_nat (List.length (se_keys s))) "" (key_texts 0 (se_keys s))
|}.

Lemma key_bytes_length k : List.length (key_bytes k) = 24%nat.
Proof. reflexivity. Qed.

Lemma keys_length l : List.length (flat_map key_bytes l) = (24 * List.length l)%nat.
Proof. induction l as [|k l IH]; [done|]. cbn [flat_map List.length]. rewrite length_app, key_bytes_length, IH. lia. Qed.

(** The texts of the keys from one on, read where they stand. *)
Lemma keys_shown m p pre : forall l i,
  Forall key_ok l -> 0 <= p ->
  load_bytes m p (Z.of_nat (List.length pre + 24 * List.length l)) = pre ++ flat_map key_bytes l ->
  map (fun j => let q := p + Z.of_nat (List.length pre) + KEY_SIZE * (Z.of_nat j - Z.of_nat i) in
                key_text (Z.of_nat j) (load32 m (q + 8)) (load32 m (q + 4)) (load32 m q)) (seq i (List.length l)) =
  key_texts (Z.of_nat i) l.
Proof.
  intros l. revert pre. induction l as [|k l IH]; intros pre i Hl Hp Hb; [done|]. cbn [List.length seq map key_texts].
  apply Forall_cons in Hl as [(W1 & W2 & W3 & _) Hl].
  assert (forall o z, 0 <= o -> o + 4 <= 24 -> load_bytes (key_bytes k) o 4 = le_bytes 4 z -> word32 z ->
    load32 m (p + Z.of_nat (List.length pre) + KEY_SIZE * (Z.of_nat i - Z.of_nat i) + o) = z) as Hw.
  { intros o z Ho Ho' E Hz. replace (p + _ + _ + o) with (p + (Z.of_nat (List.length pre) + o)) by (unfold KEY_SIZE; lia).
    erewrite word_at; [| exact Hb|done|lia|cbn [List.length]; lia|].
    - apply u32_small. exact Hz.
    - rewrite load_skip by lia. cbn [flat_map]. unfold load_bytes in *. rewrite drop_app_le by (rewrite key_bytes_length; lia).
      rewrite take_app_le by (rewrite length_drop, key_bytes_length; lia). exact E. }
  f_equal.
  - cbv zeta. f_equal; [by apply (Hw 8)|by apply (Hw 4)|]. rewrite <- (Z.add_0_r (_ + _ + _)). by apply (Hw 0).
  - replace (Z.of_nat i + 1) with (Z.of_nat (S i)) by lia. rewrite <- (IH (pre ++ key_bytes k) (S i) Hl Hp).
    + apply map_ext. intros j. rewrite length_app, key_bytes_length. cbv zeta.
      replace (p + Z.of_nat (List.length pre + 24) + KEY_SIZE * (Z.of_nat j - Z.of_nat (S i)))
        with (p + Z.of_nat (List.length pre) + KEY_SIZE * (Z.of_nat j - Z.of_nat i)) by (unfold KEY_SIZE; lia). done.
    + rewrite length_app, key_bytes_length, <- app_assoc. cbn [flat_map List.length] in Hb. rewrite <- Hb. f_equal. lia.
Qed.

Lemma sel_bytes_length s : Z.of_nat (List.length (sel_bytes s)) = 24 + 24 * Z.of_nat (List.length (se_keys s)).
Proof. unfold sel_bytes. rewrite !length_app, keys_length. cbn [List.length]. change (List.length (gen_bytes _ _)) with 20%nat. lia. Qed.

#[export] Instance pedit_laws : ActionLaws tc_pedit_sel.
Proof.
  constructor.
  - intros s. cbn. by apply appends_leaf.
  - intros argv s rest. cbn [a_read pedit_action]. unfold read_pedit. intros ([ok keys] & l1 & E1 & E)%then_value.
    destruct (pedit_words_ok _ _ _ _ _ _ _ E1) as (Hk & L1 & Hok); [by split; [apply Forall_nil|vm_compute]|]. destruct ok; [|done].
    destruct (Hok eq_refl) as [[=]|L1']. cbn [negb] in E.
    apply then_value in E as (a & l2 & E2 & (i & l3 & E3 & [= <- <-])%then_value).
    apply take_control_part in E2 as [L2 Ha]. apply take_index_part in E3 as [L3 Hi]. split; [lia|].
    split; [by destruct Hi as [-> |(z & -> & Hz)]|]. split; [|exact Hk]. cbn [se_action]. unfold action_range.
    destruct Ha as [-> | ?]; lia.
  - intros argv r. cbn [a_read pedit_action]. unfold read_pedit.
    intros [E|([ok keys] & l1 & _ & E)]%then_error; [apply pedit_words_error in E; lia|]. destruct ok; cbn [negb] in E; [|by injection E as <-].
    apply then_error in E as [E|(a & l2 & _ & [E|(i & l3 & _ & E)]%then_error)]; [by apply take_control_error in E| |done].
    by eapply take_index_error.
  - intros ss m off s (H1 & H2 & H3 & H4) Ho Ht.
    change (print_pedit hz ss m (Some off) = (0, pedit_text (se_action s) (se_index s) 0 0 (Z.of_nat (List.length (se_keys s))) "" (key_texts 0 (se_keys s)))).
    destruct (one_leaf _ _ _ TCA_PEDIT_MAX _ _ Ht ltac:(by vm_compute)) as [Htb Hb]. unfold print_pedit. rewrite Htb.
    change (<[_ := _]> _ !!! Z.to_nat TCA_PEDIT_PARMS) with (Some (off + 4)).
    change (<[_ := _]> _ !!! Z.to_nat TCA_PEDIT_TM) with (@None Z). cbv iota zeta.
    set (q := RTA_DATA (off + 4)) in *. assert (0 <= q) as Hq by (unfold q; change (0 <= off + 4 + 4); lia).
    rewrite sel_bytes_length in Hb. destruct s as [index action keys]. cbn [se_index se_action se_keys] in *.
    unfold MAX_OFFS in H4.
    destruct (gen_fields _ _ (24 + 24 * Z.of_nat (List.length keys)) index action ([u8 (Z.of_nat (List.length keys)); 0; 0; 0] ++ flat_map key_bytes keys)
      Hq ltac:(unfold GEN_SIZE; lia) Hb) as (F1 & F2 & F3 & F4).
    assert (of_le_bytes (load_bytes m (q + 20) 1) = Z.of_nat (List.length keys)) as En.
    { rewrite (load_load m q (24 + 24 * Z.of_nat (List.length keys))) by lia. rewrite Hb.
      change (load_bytes (sel_bytes (mk_sel index action keys)) 20 1) with [u8 (Z.of_nat (List.length keys))].
      cbn [of_le_bytes]. unfold u8. rewrite Z.mod_small; lia. }
    rewrite F1, F2, F3, F4, En, (action_shown action) by done. rewrite (u32_small index) by done. rewrite Nat2Z.id.
    f_equal. f_equal.
    pose proof (keys_shown m q (gen_bytes index action ++ [u8 (Z.of_nat (List.length keys)); 0; 0; 0]) keys 0 H3 Hq) as Hs.
    change (List.length (gen_bytes index action ++ [_; _; _; _])) with 24%nat in Hs.
    change (key_texts 0 keys) with (key_texts (Z.of_nat 0) keys). rewrite <- Hs.
    + apply map_ext. intros j. cbv zeta.
      replace (q + Z.of_nat 24 + KEY_SIZE * (Z.of_nat j - Z.of_nat 0)) with (q + 24 + KEY_SIZE * Z.of_nat j) by (unfold KEY_SIZE; lia). done.
    + rewrite <- app_assoc. refine (eq_trans _ Hb). f_equal. lia.
Qed.
End PeditAction.

(** The layers linked into the program keep what they must. *)
Lemma linked_keeps inet_pton6 s p :
  linked_layers inet_pton6 s = Some p -> forall argv keys k, keys_ok keys -> key_base k -> keeps (p argv keys k) argv.
Proof.
  unfold linked_layers. destruct (String.eqb s "ip").
  - intros [= <-] [|word [|w l]] keys k Hk Hb; [done..|]. unfold parse_ip.
    assert (forall l', Forall (fun f => word32 f.2.1.1.1) l' -> match ip_field word l' with Some (off, _, _, _) => word32 off | None => True end) as Hf.
    { induction 1 as [|[[cut name] f] l' H1 _ IH]; [done|]. cbn [ip_field]. destruct (if cut then _ else _); [|done].
      by destruct f as [[[off len] ty] r]. }
    specialize (Hf ip_fields ltac:(repeat (apply Forall_cons; split; [done|]); by apply Forall_nil)).
    destruct (ip_field word ip_fields) as [[[[off len] ty] r]|]; [|done].
    eapply keeps_more; [apply parse_cmd_keeps; [done|]|cbn; lia]. destruct Hb as (_ & Hb). by split.
  - repeat (match goal with |- context [String.eqb ?a ?b] => destruct (String.eqb a b); [by intros [= <-]|] end). done.
Qed.
