(* ===== verification/TcStock.v ===== *)
(** * The actions of the program together

    The actions linked into [tc] besides the generic one, each with its laws; the round trip
    of all of them; and the environment of [tc actions] that has them. *)

From S2P Require Export TcPolice TcPedit.

#[local] Open Scope list_scope.

(** Packet editing, mirroring, translation, marking, checksums and the policer. *)
Inductive stock := Pedit | Mirred | Nat_ | Skbedit | Csum | Police.

Section Stock.
Context (lookup : string -> Z) (after : string) (links : ll_map) (hz : Z).
Context (inet_pton6 : string -> option (list Z)) (inet_ntop6 : list Z -> string) (shifted : Z).
Context (c : core) (use_iec show_raw : bool) (rtab0 ptab0 : list Z).
Hypothesis Hlookup : forall d, 0 <= lookup d < 2 ^ 32.
Hypothesis Hr : List.length rtab0 = 256%nat.
Hypothesis Hp : List.length ptab0 = 256%nat.

(** What the words of an action set. *)
Definition words_of (s : stock) : Type :=
  match s with
  | Pedit => tc_pedit_sel | Mirred => tc_mirred | Nat_ => tc_nat | Skbedit => skbedit | Csum => tc_csum | Police => police
  end.

#[export] Instance stock_action (s : stock) : Action (words_of s) :=
  match s with
  | Pedit => pedit_action inet_pton6 after (linked_layers inet_pton6) hz
  | Mirred => mirred_action lookup after links hz
  | Nat_ => nat_action hz inet_pton6 inet_ntop6 shifted
  | Skbedit => skbedit_action hz
  | Csum => csum_action hz
  | Police => police_action c use_iec show_raw rtab0 ptab0
  end.

#[export] Instance stock_laws (s : stock) : ActionLaws (words_of s).
Proof using Hlookup Hr Hp.
  destruct s; cbn [words_of stock_action].
  - apply pedit_laws. apply linked_keeps.
  - by apply mirred_laws.
  - apply nat_laws.
  - apply skbedit_laws.
  - apply csum_laws.
  - by apply police_laws.
Qed.

(** The table of operations of each.  [iproute2-3.1.0/tc/m_pedit.c:604-608 pedit_action_util] *)
Definition stock_util (s : stock) : action_util :=
  match s with
  | Pedit => mk_action_util "pedit" (parse_pedit inet_pton6 after (linked_layers inet_pton6)) (print_pedit hz)
  | Mirred => mk_action_util "mirred" (parse_mirred lookup after) (print_mirred links hz)
  | Nat_ => mk_action_util "nat" (parse_nat inet_pton6 shifted) (print_nat inet_ntop6 hz)
  | Skbedit => mk_action_util "skbedit" parse_skbedit (print_skbedit hz)
  | Csum => mk_action_util "csum" parse_csum (print_csum hz)
  | Police => police_action_util c use_iec show_raw rtab0 ptab0
  end.

Lemma stock_is (s : stock) : stock_util s = action_of (T := words_of s) (ac_id (stock_util s)).
Proof. by destruct s. Qed.

Lemma stock_consumes s : consumes (stock_util s).
Proof using Hlookup Hr Hp. rewrite stock_is. apply action_consumes. Qed.


(** The actions by name, the generic one with them. *)
Definition linked_actions (str : string) : option action_util :=
  if String.eqb str "gact" then Some (gact_action_util hz)
  else option_map stock_util (List.find (fun s => String.eqb str (ac_id (stock_util s))) [Pedit; Mirred; Nat_; Skbedit; Csum; Police]).

(** With these the program of the actions uses its words up. *)
Lemma linked_consume str a : linked_actions str = Some a -> consumes a.
Proof using Hlookup Hr Hp.
  unfold linked_actions. destruct (String.eqb str "gact"); [intros [= <-]; apply gact_consumes|].
  destruct (List.find _ _) as [s|]; [|done]. intros [= <-]. apply stock_consumes.
Qed.
End Stock.

(** A policer and an edit at work. *)
Definition demo_table : list Z := replicate 256 0.

Definition demo_stock : stock -> action_util :=
  stock_util (fun _ => 2) "" (mk_map [] "" 0 false) 100 (fun _ => None) (fun _ => "") 0 core_default false false demo_table demo_table.


(** Two keys of an edit, a policer, and their texts. *)
Example pedit_shown :
  pedit_text 3 0 0 0 1 "" (key_texts 0 [edit_key (Set_to 0x1234) 2 2 0]) =
    " pedit action pipe keys 1" +:+ newline +:+ " " +:+ tab +:+ " index 0 ref 0 bind 0" +:+ newline +:+ tab +:+
    " key #0  at 0: val 00001234 mask ffff0000" +:+ newline +:+ " ".
Proof. vm_compute. reflexivity. Qed.
