(* ===== verification/TcOpts.v ===== *)
(** * The options of classifiers

    The loop over option words that the classifiers share: words that add attributes, and
    words behind which the policer, the actions or the extended matches read on.  Each
    classifier gives the table of its words.  What a run of the loop accepts is a derivation,
    and a derivation says what the message is given. *)

From S2P Require Export TcStock RtNames.

#[local] Open Scope list_scope.

(** ** Words *)

Section Words.
Context {St : Type}.

(** What a word does: it sets locals and adds attributes, each with the bound it is added
    under; or -1 is returned, the program ends, or memory is written that is not the
    program's. *)
Inductive taken := Took (s : St) (l : list (Z * Z * list Z)) | Illegal | Ends (status : Z) | Crash.

(** The words of a classifier.  After [WithArg] the program ends when there is no argument;
    after [OrIllegal] -1 is returned.  [Several] takes as many of the words as it likes, of which
    there is one at least. *)
Inductive option_word :=
| Plain (t : taken)
| WithArg (f : string -> taken)
| OrIllegal (f : string -> taken)
| Several (f : list string -> taken * list string)
| Police (type : Z)
| Actions (type : Z)
| Matches (type : Z).

(** How the loop ends; [OptsMore] if there was not fuel enough. *)
Inductive opts_end :=
| Opts (s : St) (n : nlmsghdr) (kinds : list action_util)
| OptsError
| OptsExit (status : Z)
| OptsWild
| OptsMore.

Section Loop.
(** The policer and the extended matches are given with their words and types. *)
Context (env : tc_env) (police ematch : list string -> Z -> nlmsghdr -> aopt_outcome).
Context (keyword : St -> string -> option option_word).

(** A word and its arguments; the words behind [police], [action] and [match] are taken by
    their parsers.  [iproute2-3.1.0/tc/f_basic.c:62-103 basic_parse_opt] *)
Fixpoint filter_opts (fuel : nat) (argv : list string) (s : St) (n : nlmsghdr) (kinds : list action_util) : opts_end :=
  match fuel, argv with
  | _, [] => Opts s n kinds
  | O, _ => OptsMore
  | S fuel, word :: rest =>
      let take (t : taken) (rest : list string) :=
        match t with
        | Took s l => filter_opts fuel rest s (add_bounded l n) kinds
        | Illegal => OptsError
        | Ends status => OptsExit status
        | Crash => OptsWild
        end in
      let part (o : aopt_outcome) :=
        match o with
        | AReturn r n rest => if r =? 0 then filter_opts fuel rest s n kinds else OptsError
        | AExit status => OptsExit status
        end in
      match keyword s word with
      | None => OptsError
      | Some (Plain t) => take t rest
      | Some (WithArg f) => match rest with [] => OptsExit 255 | arg :: rest => take (f arg) rest end
      | Some (OrIllegal f) => match rest with [] => OptsError | arg :: rest => take (f arg) rest end
      | Some (Several f) => match rest with [] => OptsExit 255 | _ => let '(t, rest) := f rest in take t rest end
      | Some (Police type) => match rest with [] => OptsExit 255 | _ => part (police rest type n) end
      | Some (Matches type) => match rest with [] => OptsExit 255 | _ => part (ematch rest type n) end
      | Some (Actions type) =>
          match rest with
          | [] => OptsExit 255
          | _ =>
              match parse_action env rest type n kinds with
              | Parsed rest n kinds => filter_opts fuel rest s n kinds
              | Unparsed _ => OptsError
              | ParseExit status => OptsExit status
              | ParseWild => OptsWild
              | ParseMore => OptsMore
              end
          end
      end
  end.
End Loop.
End Words.

Arguments taken St : clear implicits.
Arguments option_word St : clear implicits.
Arguments opts_end St : clear implicits.

(** How a parser of options ends: with a value, the message and the actions registered, with
    the end of the program, or with memory written that is not the program's. *)
Inductive fopt_end := FReturn (r : Z) (n : nlmsghdr) (kinds : list action_util) | FExit (status : Z) | FWild.

(** What is made of the end of the loop. *)
Definition finish {St} (o : opts_end St) (n : nlmsghdr) (kinds : list action_util)
    (f : St -> nlmsghdr -> list action_util -> fopt_end) : fopt_end :=
  match o with
  | Opts s n kinds => f s n kinds
  | OptsError => FReturn (- 1) n kinds
  | OptsExit status => FExit status
  | OptsWild | OptsMore => FWild
  end.

(** The length of the attribute opened at [tail] is set. *)
Definition close_nest (tail : Z) (n : nlmsghdr) : nlmsghdr :=
  mk_nlmsg (nlmsg_len n) (set_rta_len tail (NLMSG_TAIL n - tail) (mem n)).

(** ** What is accepted *)

(** What a word adds: attributes, each with its bound; a policer; actions; extended matches. *)
Inductive piece :=
| Attrs (l : list (Z * Z * list Z))
| Policer (type : Z) (p : police)
| Acting (type : Z) (acts : list atree)
| Matching (type : Z) (l : list atree).

Definition piece_trees (p : piece) : list atree :=
  match p with
  | Attrs l => leaves l
  | Policer type p => [Nest type (police_trees p)]
  | Acting type l | Matching type l => [Nest type l]
  end.

Definition trees_of (ps : list piece) : list atree := flat_map piece_trees ps.

(** ** The shape of what is added *)

Section Shapes.
Context {St : Type} (c : core) (leaf_ok : Z -> list Z -> Prop) (police_type action_type match_type : Z).

(** What the words of a classifier may add. *)
Definition piece_ok (p : piece) : Prop :=
  match p with
  | Attrs l => Forall (fun '(_, t, d) => 0 <= t /\ leaf_ok t d) l
  | Policer type p => type = police_type /\ police_ok c p
  | Acting type _ => type = action_type
  | Matching type _ => type = match_type
  end.

(** The table of words gives only these. *)
Definition word_ok (w : option_word St) : Prop :=
  let ok t := match t with Took _ l => Forall (fun '(_, t, d) => 0 <= t /\ leaf_ok t d) l | _ => True end in
  match w with
  | Plain t => ok t
  | WithArg f | OrIllegal f => forall arg, ok (f arg)
  | Several f => forall argv, ok (f argv).1
  | Police type => type = police_type
  | Actions type => type = action_type
  | Matches type => type = match_type
  end.

(** The first policer, and the first actions and matches. *)
Definition first_police (ps : list piece) : option police :=
  head (omap (fun p => match p with Policer _ p => Some p | _ => None end) ps).
Definition first_actions (ps : list piece) : option (list atree) :=
  head (omap (fun p => match p with Acting _ l => Some l | _ => None end) ps).
Definition first_matches (ps : list piece) : option (list atree) :=
  head (omap (fun p => match p with Matching _ l => Some l | _ => None end) ps).

Lemma leaves_get k l : tree_get k (leaves l) = None \/ exists d b, tree_get k (leaves l) = Some (Leaf k d) /\ In (b, k, d) l.
Proof.
  induction l as [|[[b t] d] l IH]; [by left|]. cbn [leaves map tree_get tree_type].
  destruct (Z.eqb_spec t k) as [->|]; [right; exists d, b; split; [done|by left]|].
  destruct IH as [IH|(d' & b' & IH & Hin)]; [by left|]. right. exists d', b'. split; [done|by right].
Qed.

Lemma pieces_types ps : Forall piece_ok ps -> 0 <= police_type -> 0 <= action_type -> 0 <= match_type ->
  Forall (fun t => 0 <= tree_type t) (trees_of ps).
Proof.
  intros Hps H1 H2 H3. induction Hps as [|p ps Hpk _ IH]; cbn [trees_of flat_map]; [constructor|].
  apply Forall_app. split; [|exact IH]. destruct p as [l|ty p|ty l|ty l]; cbn [piece_trees piece_ok] in *.
  - clear -Hpk. induction Hpk as [|[[b t] d] l [Ht _] _ IH]; constructor; done.
  - destruct Hpk as [-> _]. by constructor.
  - rewrite Hpk. by constructor.
  - rewrite Hpk. by constructor.
Qed.

(** At the type of the policer stands the first policer. *)
Lemma get_police ps : Forall piece_ok ps -> (forall d, ~ leaf_ok police_type d) -> action_type <> police_type ->
  match_type <> police_type ->
  tree_get police_type (trees_of ps) = option_map (fun p => Nest police_type (police_trees p)) (first_police ps).
Proof.
  intros Hps Hl Ha Hm. induction Hps as [|p ps Hpk _ IH]; [done|]. cbn [trees_of flat_map]. rewrite tree_get_app.
  destruct p as [l|ty p|ty l|ty l]; cbn [piece_trees piece_ok] in *.
  - destruct (leaves_get police_type l) as [->|(d & b & -> & Hin)]; [exact IH|].
    apply (proj1 (List.Forall_forall _ _) Hpk) in Hin as [_ Hin]. by apply Hl in Hin.
  - destruct Hpk as [-> _]. cbn [tree_get tree_type]. by rewrite Z.eqb_refl.
  - cbn [tree_get tree_type]. rewrite Hpk, (proj2 (Z.eqb_neq _ _) Ha). exact IH.
  - cbn [tree_get tree_type]. rewrite Hpk, (proj2 (Z.eqb_neq _ _) Hm). exact IH.
Qed.

(** At the type of a leaf stands a leaf, of the shape the words give. *)
Lemma get_leaf ps k : Forall piece_ok ps -> k <> police_type -> k <> action_type -> k <> match_type ->
  tree_get k (trees_of ps) = None \/ exists d, tree_get k (trees_of ps) = Some (Leaf k d) /\ leaf_ok k d.
Proof.
  intros Hps Hk Ha Hm. induction Hps as [|p ps Hpk _ IH]; [by left|]. cbn [trees_of flat_map]. rewrite tree_get_app.
  destruct p as [l|ty p|ty l|ty l]; cbn [piece_trees piece_ok] in *.
  - destruct (leaves_get k l) as [->|(d & b & -> & Hin)]; [exact IH|].
    apply (proj1 (List.Forall_forall _ _) Hpk) in Hin as [_ Hin]. right. by exists d.
  - destruct Hpk as [-> _]. cbn [tree_get tree_type]. rewrite (proj2 (Z.eqb_neq _ _)) by done. exact IH.
  - cbn [tree_get tree_type]. rewrite Hpk, (proj2 (Z.eqb_neq _ _)) by done. exact IH.
  - cbn [tree_get tree_type]. rewrite Hpk, (proj2 (Z.eqb_neq _ _)) by done. exact IH.
Qed.

(** What a printer reads of the nest. *)
Section Reading.
Context (m : list Z) (max off ty : Z) (pre : list atree) (ps : list piece).
Hypothesis Htree : tree_at m off (Nest ty (pre ++ trees_of ps)).
Hypothesis Htypes : Forall (fun t => 0 <= tree_type t) (pre ++ trees_of ps).
Hypothesis Hoff : 0 <= off.
Hypothesis Hps : Forall piece_ok ps.
Let tb := (parse_rtattr_nested m max off).1.

Lemma police_found show_raw iec : 0 <= police_type <= max -> tree_get police_type pre = None ->
  (forall d, ~ leaf_ok police_type d) -> action_type <> police_type -> match_type <> police_type ->
  match first_police ps with
  | Some p => exists a, tb !!! Z.to_nat police_type = Some a /\
      print_police c iec show_raw m (Some a) = (0, police_shows c iec show_raw p)
  | None => tb !!! Z.to_nat police_type = None
  end.
Proof using Htree Htypes Hoff Hps.
  intros Hk Hpre Hl Ha Hm. pose proof (nest_get m max off ty _ police_type Htree Htypes Hk Hoff) as H.
  rewrite tree_get_app, Hpre, (get_police ps Hps Hl Ha Hm) in H. destruct (first_police ps) as [p|] eqn:Ep; cbn [option_map] in H; [|exact H].
  destruct H as (o & E & Ho & Ht). exists o. split; [exact E|]. apply (print_police_ok c iec show_raw m o police_type); [|lia|exact Ht].
  clear -Hps Ep. unfold first_police in Ep. induction Hps as [|q qs Hq Hqs IH]; [done|].
  destruct q as [l|t q|t l|t l]; [by apply IH| |by apply IH..]. injection Ep as <-. by destruct Hq.
Qed.

Lemma leaf_found k : 0 <= k <= max -> tree_get k pre = None -> k <> police_type -> k <> action_type -> k <> match_type ->
  match leaf_bytes k (trees_of ps) with
  | Some d => leaf_ok k d /\ exists a, tb !!! Z.to_nat k = Some a /\ 0 <= RTA_DATA a /\ RTA_PAYLOAD m a = Z.of_nat (List.length d) /\
      load_bytes m (RTA_DATA a) (Z.of_nat (List.length d)) = d
  | None => tb !!! Z.to_nat k = None
  end.
Proof using Htree Htypes Hoff Hps.
  intros Hk Hpre H1 H2 H3. pose proof (nest_get m max off ty _ k Htree Htypes Hk Hoff) as H.
  rewrite tree_get_app, Hpre in H. unfold leaf_bytes.
  destruct (get_leaf ps k Hps H1 H2 H3) as [E|(d & E & Hd)]; rewrite E in *; [exact H|].
  split; [exact Hd|]. destruct H as (o & Eo & Ho & Ht). apply leaf_data in Ht as [Hlen Hdata]. exists o.
  split; [exact Eo|]. change (RTA_DATA o) with (o + 4) in *. split; [lia|]. by split.
Qed.
End Reading.
End Shapes.

(** ** What is derived *)

Section Derivations.
Context {St : Type} (env : tc_env) (c : core) (rtab0 ptab0 : list Z).
Context (ematch : list string -> Z -> nlmsghdr -> aopt_outcome) (matched : list string -> list string -> list atree -> Prop).
Context (keyword : St -> string -> option (option_word St)) (maxlen : Z).
(** The extended matches take words and append a nest. *)
Hypothesis Hmatch : forall argv rest l type, 0 <= type < 2 ^ 16 -> matched argv rest l ->
  (List.length rest <= List.length argv)%nat /\
  exists f, appends MAX_MSG f [Nest type l] /\ forall n, ematch argv type n = AReturn 0 (f n) rest.

(** Attributes whose bound is not below the one of the message. *)
Definition bounded_by (l : list (Z * Z * list Z)) : Prop :=
  Forall (fun '(b, t, _) => maxlen <= b < 2 ^ 32 /\ 0 <= t < 2 ^ 16) l.

(** The words, the locals and the actions before, what is added, and the locals and
    actions after. *)
Inductive opts : list string -> St -> list action_util -> list piece -> St -> list action_util -> Prop :=
| opts_done s kinds : opts [] s kinds [] s kinds
| opts_plain word rest s kinds s1 l ps s2 kinds2 :
    keyword s word = Some (Plain (Took s1 l)) -> bounded_by l -> opts rest s1 kinds ps s2 kinds2 ->
    opts (word :: rest) s kinds (Attrs l :: ps) s2 kinds2
| opts_arg word arg rest s kinds f s1 l ps s2 kinds2 :
    keyword s word = Some (WithArg f) \/ keyword s word = Some (OrIllegal f) -> f arg = Took s1 l -> bounded_by l ->
    opts rest s1 kinds ps s2 kinds2 ->
    opts (word :: arg :: rest) s kinds (Attrs l :: ps) s2 kinds2
| opts_several word argv rest s kinds f s1 l ps s2 kinds2 :
    keyword s word = Some (Several f) -> argv <> [] -> f argv = (Took s1 l, rest) -> (List.length rest <= List.length argv)%nat ->
    bounded_by l -> opts rest s1 kinds ps s2 kinds2 ->
    opts (word :: argv) s kinds (Attrs l :: ps) s2 kinds2
| opts_police word argv rest s kinds type p ps s2 kinds2 :
    keyword s word = Some (Police type) -> 0 <= type < 2 ^ 16 -> argv <> [] ->
    read_police c rtab0 ptab0 argv = Part p rest -> opts rest s kinds ps s2 kinds2 ->
    opts (word :: argv) s kinds (Policer type p :: ps) s2 kinds2
| opts_match word argv rest s kinds type l ps s2 kinds2 :
    keyword s word = Some (Matches type) -> 0 <= type < 2 ^ 16 -> argv <> [] ->
    matched argv rest l -> opts rest s kinds ps s2 kinds2 ->
    opts (word :: argv) s kinds (Matching type l :: ps) s2 kinds2
| opts_action word argv rest s kinds type l kinds1 ps s2 kinds2 :
    keyword s word = Some (Actions type) -> 0 <= type < 2 ^ 16 -> argv <> [] -> l <> [] -> Z.of_nat (List.length l) < 2 ^ 16 ->
    actions_of env 0 kinds argv l rest kinds1 -> (List.length rest <= List.length argv)%nat ->
    opts rest s kinds1 ps s2 kinds2 ->
    opts (word :: argv) s kinds (Acting type l :: ps) s2 kinds2.

Hypothesis Hmax : maxlen < 2 ^ 14.

(** A smaller bound leaves less room. *)
Lemma appends_weaken f l : appends MAX_MSG f l -> appends maxlen f l.
Proof using Hmax. intros Hf n [R0 R1 R2 R3]. apply Hf. unfold MAX_MSG. constructor; lia. Qed.

(** Attributes under greater bounds are those under the bound of the message. *)
Lemma bounded_same l : bounded_by l -> forall n, room_for n maxlen (tspan (leaves l)) ->
  add_bounded l n = add_bounded (same_bound maxlen l) n.
Proof using Hmax.
  intros Hl n [R0 R1 R2 R3]. apply add_bounded_eq; [lia|done|]. clear R0 R2. revert R1. generalize (NLMSG_TAIL n) as off.
  induction Hl as [|[[b t] d] l [Hb Ht] Hl IH]; intros off R1; cbn [within]; [done|].
  cbn [leaves map tspan tspan1] in R1. pose proof (tspan_bounds (leaves l)). pose proof (attr_span_bounds d).
  change (map _ l) with (leaves l) in R1.
  split; [lia|]. split; [lia|]. apply IH. lia.
Qed.

Lemma bounded_adds l : bounded_by l -> appends maxlen (add_bounded l) (leaves l).
Proof using Hmax.
  intros Hl n Hn. cbv zeta. rewrite (bounded_same l Hl n Hn).
  apply bounded_appends; [|done]. eapply Forall_impl; [exact Hl|]. by intros [[b t] d] [_ ?].
Qed.

(** The policer behind its word. *)
Lemma police_part argv rest type p : 0 <= type < 2 ^ 16 -> read_police c rtab0 ptab0 argv = Part p rest ->
  appends maxlen (with_nest MAX_MSG type (put_police p)) [Nest type (police_trees p)] /\
  forall n, parse_police c rtab0 ptab0 argv type n = AReturn 0 (with_nest MAX_MSG type (put_police p) n) rest.
Proof using Hmax.
  intros Ht E. split; [apply appends_weaken; apply appends_nest; [done|apply put_police_appends]|].
  intros n. unfold parse_police, action_parser. by rewrite E.
Qed.

Hypothesis Hr : List.length rtab0 = 256%nat.
Hypothesis Hp : List.length ptab0 = 256%nat.

(** What is derived is what the loop does, with as much fuel as there are words. *)
Lemma filter_opts_ok argv s kinds ps s2 kinds2 :
  opts argv s kinds ps s2 kinds2 -> forall fuel, (List.length argv <= fuel)%nat ->
  exists f, appends maxlen f (trees_of ps) /\
    forall n, filter_opts env (parse_police c rtab0 ptab0) ematch keyword fuel argv s n kinds = Opts s2 (f n) kinds2.
Proof using Hmax Hmatch Hr Hp.
  induction 1 as [s kinds|word rest s kinds s1 l ps s2 kinds2 Hk Hb _ IH
    |word arg rest s kinds f0 s1 l ps s2 kinds2 Hk Hf Hb _ IH|word argv rest s kinds f0 s1 l ps s2 kinds2 Hk Hne Hf Hle Hb _ IH
    |word argv rest s kinds type p ps s2 kinds2 Hk Ht Hne E0 _ IH
    |word argv rest s kinds type l ps s2 kinds2 Hk Ht Hne E0 _ IH
    |word argv rest s kinds type l kinds1 ps s2 kinds2 Hk Ht Hne Hl Hlen E0 Hle _ IH]; intros fuel Hfuel;
    cbn [List.length] in Hfuel.
  - exists (fun n => n). split; [apply appends_id|]. by destruct fuel.
  - destruct fuel as [|fuel]; [lia|]. destruct (IH fuel ltac:(lia)) as (f & Hf & E).
    exists (fun n => f (add_bounded l n)). split; [by apply appends_seq; [apply bounded_adds|]|].
    intros n. cbn [filter_opts]. by rewrite Hk, E.
  - destruct fuel as [|fuel]; [lia|]. destruct (IH fuel ltac:(lia)) as (f & Hf' & E).
    exists (fun n => f (add_bounded l n)). split; [by apply appends_seq; [apply bounded_adds|]|].
    intros n. cbn [filter_opts]. destruct Hk as [-> | ->]; by rewrite Hf, E.
  - destruct fuel as [|fuel]; [lia|]. destruct (IH fuel ltac:(lia)) as (f & Hf' & E).
    exists (fun n => f (add_bounded l n)). split; [by apply appends_seq; [apply bounded_adds|]|].
    intros n. cbn [filter_opts]. rewrite Hk. destruct argv as [|w argv]; [done|]. by rewrite Hf, E.
  - destruct fuel as [|fuel]; [lia|]. destruct (read_police_ok c rtab0 ptab0 Hr Hp _ _ _ E0) as [_ L].
    destruct (IH fuel ltac:(lia)) as (f & Hf & E). destruct (police_part argv rest type p Ht E0) as [Hg Eg].
    eexists (fun n => f (with_nest MAX_MSG type (put_police p) n)). split; [by apply (appends_seq maxlen _ f [_] (trees_of ps))|].
    intros n. cbn [filter_opts]. rewrite Hk. destruct argv as [|w argv]; [done|]. by rewrite Eg, E.
  - destruct fuel as [|fuel]; [lia|]. destruct (Hmatch _ _ _ _ Ht E0) as (L & g & Hg & Eg).
    destruct (IH fuel ltac:(lia)) as (f & Hf & E). apply appends_weaken in Hg.
    exists (fun n => f (g n)). split; [by apply (appends_seq maxlen _ f [_] (trees_of ps))|].
    intros n. cbn [filter_opts]. rewrite Hk. destruct argv as [|w argv]; [done|]. by rewrite Eg, E.
  - destruct fuel as [|fuel]; [lia|]. destruct (IH fuel ltac:(lia)) as (f & Hf & E).
    destruct (parse_action_ok env kinds argv l rest kinds1 type E0 Hne Hlen Hl Ht) as (g & Hg & Eg). apply appends_weaken in Hg.
    exists (fun n => f (g n)). split; [by apply (appends_seq maxlen _ f [_] (trees_of ps))|].
    intros n. cbn [filter_opts]. rewrite Hk. destruct argv as [|w argv]; [done|]. by rewrite Eg, E.
Qed.

(** An invariant of the locals that every word keeps. *)
Lemma opts_keep (P : St -> Prop) argv s kinds l s2 kinds2 :
  (forall s word s1 l, keyword s word = Some (Plain (Took s1 l)) -> P s -> P s1) ->
  (forall s word f arg s1 l, keyword s word = Some (WithArg f) \/ keyword s word = Some (OrIllegal f) ->
    f arg = Took s1 l -> P s -> P s1) ->
  (forall s word f argv s1 l rest, keyword s word = Some (Several f) -> f argv = (Took s1 l, rest) -> P s -> P s1) ->
  opts argv s kinds l s2 kinds2 -> P s -> P s2.
Proof. intros H1 H2 H3. induction 1; eauto. Qed.

Lemma opts_pieces leaf_ok police_type action_type match_type argv s kinds ps s2 kinds2 :
  (forall s word w, keyword s word = Some w -> word_ok leaf_ok police_type action_type match_type w) ->
  opts argv s kinds ps s2 kinds2 -> Forall (piece_ok c leaf_ok police_type action_type match_type) ps.
Proof using Hr Hp.
  intros Hw. induction 1 as [|word rest s kinds s1 l ps s2 kinds2 Hk Hb _ IH
    |word arg rest s kinds f0 s1 l ps s2 kinds2 Hk Hf Hb _ IH|word argv rest s kinds f0 s1 l ps s2 kinds2 Hk Hne Hf Hle Hb _ IH
    |word argv rest s kinds type p ps s2 kinds2 Hk Ht Hne E0 _ IH
    |word argv rest s kinds type l ps s2 kinds2 Hk Ht Hne E0 _ IH
    |word argv rest s kinds type l kinds1 ps s2 kinds2 Hk Ht Hne Hl Hlen E0 Hle _ IH]; constructor; try done.
  - exact (Hw _ _ _ Hk).
  - destruct Hk as [Hk|Hk]; pose proof (Hw _ _ _ Hk arg) as H; cbn in H; by rewrite Hf in H.
  - pose proof (Hw _ _ _ Hk argv) as H. cbn in H. by rewrite Hf in H.
  - split; [exact (Hw _ _ _ Hk)|]. by destruct (read_police_ok c rtab0 ptab0 Hr Hp _ _ _ E0).
  - exact (Hw _ _ _ Hk).
  - exact (Hw _ _ _ Hk).
Qed.

End Derivations.
