(* ===== verification/TcClassify.v ===== *)
(** * Five classifiers (iproute2-3.1.0/tc/f_fw.c, f_basic.c, f_cgroup.c, f_route.c, f_tcindex.c)

    Each with the table of its words, its request and its printer; and that what the words
    add is what the printer shows. *)

From S2P Require Export TcOpts.

#[local] Open Scope list_scope.

(** ** What the printers share *)

(** The attribute of a type. *)
Definition attr_of (tb : list (option Z)) (k : Z) : option Z := tb !!! Z.to_nat k.

Definition shown {T} (o : option T) (f : T -> string) : string := match o with Some v => f v | None => "" end.

(** The words of an attribute. *)
Definition word_of (m : list Z) (tb : list (option Z)) (k : Z) : option Z :=
  option_map (fun a => load32 m (RTA_DATA a)) (attr_of tb k).

(** The text printed, and the message and the globals of the actions after it. *)
Definition print_end : Type := Z * string * (list Z * action_state).

(** A class, and a handle, in their words. *)
Definition class_word {St} (s : St) (b type : Z) (arg : string) : taken St :=
  match get_tc_classid arg with
  | Some h => Took s [(b, type, le_bytes 4 h)]
  | None => Illegal
  end.

Section Classifiers.
Context (env : tc_env) (c : core) (show_raw : bool) (rtab0 ptab0 : list Z).
Context (ematch : list string -> Z -> nlmsghdr -> aopt_outcome) (print_ematch : list Z -> Z -> string).

(** [iproute2-3.1.0/tc/m_police.c:368-371 tc_print_police] *)
Definition tc_print_police (m : list Z) (a : Z) : string := (print_police c (e_iec env) show_raw m (Some a)).2.

(** The actions come last. *)
Definition then_actions (m : list Z) (a : option Z) (text pre : string) (s : action_state) : print_end :=
  match a with
  | None => (0, text, (m, s))
  | Some _ => let '(_, actions, ms) := tc_print_action env m a s in (0, text +:+ pre +:+ actions, ms)
  end.

Definition police_parser : list string -> Z -> nlmsghdr -> aopt_outcome := parse_police c rtab0 ptab0.

Definition loop {St} (keyword : St -> string -> option (option_word St)) (argv : list string) :=
  filter_opts env police_parser ematch keyword (List.length argv) argv.

(** ** fw *)

Definition TCA_FW_CLASSID : Z := 1.
Definition TCA_FW_POLICE : Z := 2.
Definition TCA_FW_INDEV : Z := 3.
Definition TCA_FW_ACT : Z := 4.
Definition TCA_FW_MASK : Z := 5.
Definition TCA_FW_MAX : Z := 5.
Definition IFNAMSIZ : nat := 16.

(** The handle and, behind a slash, the mask.  [iproute2-3.1.0/tc/f_fw.c:44-59 fw_parse_opt] *)
Definition fw_handle (handle : string) : option (Z * option Z) :=
  match get_u32 (cut_at "/" handle) 0 with
  | None => None
  | Some h =>
      match Addr.after "/" handle with
      | None => Some (h, None)
      | Some arg => match get_u32 arg 0 with Some mask => Some (h, Some mask) | None => None end
      end
  end.

(** [iproute2-3.1.0/tc/f_fw.c:70-114 fw_parse_opt] *)
Definition fw_word (s : unit) (word : string) : option (option_word unit) :=
  if matches word "classid" || matches word "flowid" then Some (WithArg (class_word s 4096 TCA_FW_CLASSID))
  else if matches word "police" then Some (Police TCA_FW_POLICE)
  else if matches word "action" then Some (Actions TCA_FW_ACT)
  else if String.eqb word "indev" then
    Some (OrIllegal (fun arg => Took s [(MAX_MSG, TCA_FW_INDEV, string_bytes (substring 0 IFNAMSIZ arg) ++ [0])]))
  else None.

(** The nest with the mask, if there is one, and what the words add.
    [iproute2-3.1.0/tc/f_fw.c:64-116 fw_parse_opt] *)
Definition fw_nest (mask : option Z) (argv : list string) (n : nlmsghdr) (kinds : list action_util) : fopt_end :=
  let tail := NLMSG_TAIL n in
  let n := (addattr_l n 4096 TCA_OPTIONS []).2 in
  let n := match mask with Some m => (addattr32 n MAX_MSG TCA_FW_MASK m).2 | None => n end in
  finish (loop fw_word argv tt n kinds) n kinds (fun _ n kinds => FReturn 0 (close_nest tail n) kinds).

(** [iproute2-3.1.0/tc/f_fw.c:34-117 fw_parse_opt] *)
Definition fw_parse_opt (handle : option string) (argv : list string) (n : nlmsghdr) (kinds : list action_util) : fopt_end :=
  match option_map fw_handle handle with
  | Some None => FReturn (- 1) n kinds
  | h =>
      let '(n, mask) := match h with Some (Some (h, mask)) => (set_tcm_handle h n, mask) | _ => (n, None) end in
      match argv with [] => FReturn 0 n kinds | _ => fw_nest mask argv n kinds end
  end.

(** [iproute2-3.1.0/tc/f_fw.c:128-137 fw_print_opt] *)
Definition fw_handle_text (handle : Z) (mask : option Z) : string :=
  match mask with
  | Some mask =>
      if negb (mask =? 0xFFFFFFFF) then "handle 0x" +:+ print_x handle +:+ "/0x" +:+ print_x mask +:+ " "
      else "handle 0x" +:+ print_x handle +:+ " "
  | None => if negb (handle =? 0) then "handle 0x" +:+ print_x handle +:+ " " else ""
  end.

(** [iproute2-3.1.0/tc/f_fw.c:119-156 fw_print_opt] *)
Definition fw_print_opt (m : list Z) (opt : option Z) (handle : Z) (s : action_state) : print_end :=
  match opt with
  | None => (0, "", (m, s))
  | Some opt =>
      let tb := (parse_rtattr_nested m TCA_FW_MAX opt).1 in
      let text :=
        fw_handle_text handle (word_of m tb TCA_FW_MASK) +:+
        shown (word_of m tb TCA_FW_CLASSID) (fun h => "classid " +:+ sprint_tc_classid h +:+ " ") +:+
        shown (attr_of tb TCA_FW_POLICE) (tc_print_police m) +:+
        shown (attr_of tb TCA_FW_INDEV) (fun a => "input dev " +:+ cstring (drop (Z.to_nat (RTA_DATA a)) m) +:+ " ") in
      then_actions m (attr_of tb TCA_FW_ACT) text newline s
  end.

(** ** basic and cgroup *)

Definition TCA_BASIC_CLASSID : Z := 1.
Definition TCA_BASIC_EMATCHES : Z := 2.
Definition TCA_BASIC_ACT : Z := 3.
Definition TCA_BASIC_POLICE : Z := 4.
Definition TCA_BASIC_MAX : Z := 4.
Definition TCA_CGROUP_ACT : Z := 1.
Definition TCA_CGROUP_POLICE : Z := 2.
Definition TCA_CGROUP_EMATCHES : Z := 3.
Definition TCA_CGROUP_MAX : Z := 3.

(** [h == LONG_MIN || h == LONG_MAX]; what follows the number is not looked at, and the
    number is cut to 32 bits.  [iproute2-3.1.0/tc/f_basic.c:48-57 basic_parse_opt] *)
Definition long_handle (handle : string) : option Z :=
  let h := match strtol handle 0 with Some (h, _) => h | None => 0 end in
  if (h =? LONG_MIN) || (h =? LONG_MAX) then None else Some (u32 h).

(** [iproute2-3.1.0/tc/f_basic.c:62-103 basic_parse_opt] *)
Definition basic_word (s : unit) (word : string) : option (option_word unit) :=
  if matches word "match" then Some (Matches TCA_BASIC_EMATCHES)
  else if matches word "classid" || String.eqb word "flowid" then Some (WithArg (class_word s MAX_MSG TCA_BASIC_CLASSID))
  else if matches word "action" then Some (Actions TCA_BASIC_ACT)
  else if matches word "police" then Some (Police TCA_BASIC_POLICE)
  else None.

(** [n->nlmsg_len] is the end, not [NLMSG_TAIL(n)].
    [iproute2-3.1.0/tc/f_basic.c:105-105 basic_parse_opt] *)
Definition close_exact (tail : Z) (n : nlmsghdr) : nlmsghdr :=
  mk_nlmsg (nlmsg_len n) (set_rta_len tail (nlmsg_len n - tail) (mem n)).

(** The handle, and the nest of what the words add. *)
Definition long_parse_opt (word : unit -> string -> option (option_word unit)) (handle : option string) (argv : list string)
    (n : nlmsghdr) (kinds : list action_util) : fopt_end :=
  match option_map long_handle handle with
  | Some None => FReturn (- 1) n kinds
  | h =>
      let n := set_tcm_handle (match h with Some (Some h) => h | _ => 0 end) n in
      let tail := NLMSG_TAIL n in
      let n := (addattr_l n MAX_MSG TCA_OPTIONS []).2 in
      finish (loop word argv tt n kinds) n kinds (fun _ n kinds => FReturn 0 (close_exact tail n) kinds)
  end.

(** [iproute2-3.1.0/tc/f_basic.c:38-107 basic_parse_opt] *)
Definition basic_parse_opt (handle : option string) (argv : list string) (n : nlmsghdr) (kinds : list action_util) : fopt_end :=
  match argv with [] => FReturn 0 n kinds | _ => long_parse_opt basic_word handle argv n kinds end.

(** [iproute2-3.1.0/tc/f_basic.c:109-141 basic_print_opt] *)
Definition basic_print_opt (m : list Z) (opt : option Z) (handle : Z) (s : action_state) : print_end :=
  match opt with
  | None => (0, "", (m, s))
  | Some opt =>
      let tb := (parse_rtattr_nested m TCA_BASIC_MAX opt).1 in
      let text :=
        (if handle =? 0 then "" else "handle 0x" +:+ print_x handle +:+ " ") +:+
        shown (word_of m tb TCA_BASIC_CLASSID) (fun h => "flowid " +:+ sprint_tc_classid h +:+ " ") +:+
        shown (attr_of tb TCA_BASIC_EMATCHES) (print_ematch m) +:+
        shown (attr_of tb TCA_BASIC_POLICE) (fun a => newline +:+ tc_print_police m a) in
      then_actions m (attr_of tb TCA_BASIC_ACT) text "" s
  end.

(** No word of this one takes an argument of its own.
    [iproute2-3.1.0/tc/f_cgroup.c:46-77 cgroup_parse_opt] *)
Definition cgroup_word (s : unit) (word : string) : option (option_word unit) :=
  if matches word "match" then Some (Matches TCA_CGROUP_EMATCHES)
  else if matches word "action" then Some (Actions TCA_CGROUP_ACT)
  else if matches word "police" then Some (Police TCA_CGROUP_POLICE)
  else None.

(** [iproute2-3.1.0/tc/f_cgroup.c:25-81 cgroup_parse_opt] *)
Definition cgroup_parse_opt : option string -> list string -> nlmsghdr -> list action_util -> fopt_end :=
  long_parse_opt cgroup_word.

(** [iproute2-3.1.0/tc/f_cgroup.c:83-108 cgroup_print_opt] *)
Definition cgroup_print_opt (m : list Z) (opt : option Z) (handle : Z) (s : action_state) : print_end :=
  match opt with
  | None => (0, "", (m, s))
  | Some opt =>
      let tb := (parse_rtattr_nested m TCA_CGROUP_MAX opt).1 in
      let text :=
        (if handle =? 0 then "" else "handle 0x" +:+ print_x handle +:+ " ") +:+
        shown (attr_of tb TCA_CGROUP_EMATCHES) (print_ematch m) +:+
        shown (attr_of tb TCA_CGROUP_POLICE) (fun a => newline +:+ tc_print_police m a) in
      then_actions m (attr_of tb TCA_CGROUP_ACT) text "" s
  end.

(** ** tcindex *)

Definition TCA_TCINDEX_HASH : Z := 1.
Definition TCA_TCINDEX_MASK : Z := 2.
Definition TCA_TCINDEX_SHIFT : Z := 3.
Definition TCA_TCINDEX_FALL_THROUGH : Z := 4.
Definition TCA_TCINDEX_CLASSID : Z := 5.
Definition TCA_TCINDEX_POLICE : Z := 6.
Definition TCA_TCINDEX_MAX : Z := 7.

(** [strtoul] and [*end]: the number if nothing follows it; the empty string is 0. *)
Definition whole_number (arg : string) : option Z :=
  match strtoul arg 0 with
  | Some (v, "") => Some v
  | Some _ => None
  | None => if String.eqb arg "" then Some 0 else None
  end.

(** The hash is an [int], the mask 16 bits.
    [iproute2-3.1.0/tc/f_tcindex.c:44-115 tcindex_parse_opt] *)
Definition tcindex_word (s : unit) (word : string) : option (option_word unit) :=
  let number (f : Z -> taken unit) := Some (WithArg (fun arg => match whole_number arg with Some v => f v | None => Illegal end)) in
  let through v := Some (Plain (Took s [(4096, TCA_TCINDEX_FALL_THROUGH, le_bytes 4 v)])) in
  if String.eqb word "hash" then
    number (fun v => let hash := s32 v in
      if (hash =? 0) || (0x10000 <? hash) then Illegal else Took s [(4096, TCA_TCINDEX_HASH, le_bytes 4 hash)])
  else if String.eqb word "mask" then number (fun v => Took s [(4096, TCA_TCINDEX_MASK, le_bytes 2 v)])
  else if String.eqb word "shift" then number (fun v => Took s [(4096, TCA_TCINDEX_SHIFT, le_bytes 4 v)])
  else if String.eqb word "fall_through" then through 1
  else if String.eqb word "pass_on" then through 0
  else if String.eqb word "classid" then Some (WithArg (class_word s 4096 TCA_TCINDEX_CLASSID))
  else if String.eqb word "police" then Some (Police TCA_TCINDEX_POLICE)
  else None.

(** [iproute2-3.1.0/tc/f_tcindex.c:27-118 tcindex_parse_opt] *)
Definition tcindex_parse_opt (handle : option string) (argv : list string) (n : nlmsghdr) (kinds : list action_util) : fopt_end :=
  match option_map whole_number handle with
  | Some None => FReturn (- 1) n kinds
  | h =>
      let n := match h with Some (Some h) => set_tcm_handle (u32 h) n | _ => n end in
      match argv with
      | [] => FReturn 0 n kinds
      | _ =>
          let tail := NLMSG_TAIL n in
          let n := (addattr_l n 4096 TCA_OPTIONS []).2 in
          finish (loop tcindex_word argv tt n kinds) n kinds (fun _ n kinds => FReturn 0 (close_nest tail n) kinds)
      end
  end.

(** The number of an attribute that must have [size] bytes, and what is printed of it; -1 ends
    the printing. *)
Definition sized_text (m : list Z) (tb : list (option Z)) (k size : Z) (f : Z -> string) (next : string -> Z * string)
    (text : string) : Z * string :=
  match attr_of tb k with
  | None => next text
  | Some a => if RTA_PAYLOAD m a <? size then (- 1, text) else next (text +:+ f (RTA_DATA a))
  end.

(** [iproute2-3.1.0/tc/f_tcindex.c:121-175 tcindex_print_opt] *)
Definition tcindex_print_opt (m : list Z) (opt : option Z) (handle : Z) : Z * string :=
  match opt with
  | None => (0, "")
  | Some opt =>
      let tb := (parse_rtattr_nested m TCA_TCINDEX_MAX opt).1 in
      sized_text m tb TCA_TCINDEX_HASH 2 (fun a => "hash " +:+ print_d (load16 m a) +:+ " ") (
      sized_text m tb TCA_TCINDEX_MASK 2 (fun a => "mask 0x" +:+ pad_left 4 (print_x (load16 m a)) +:+ " ") (
      sized_text m tb TCA_TCINDEX_SHIFT 4 (fun a => "shift " +:+ print_d (s32 (load32 m a)) +:+ " ") (
      sized_text m tb TCA_TCINDEX_FALL_THROUGH 4 (fun a => if load32 m a =? 0 then "pass_on " else "fall_through ") (
      fun text => (0, text +:+
        shown (word_of m tb TCA_TCINDEX_CLASSID) (fun h => "classid " +:+ sprint_tc_classid h +:+ " ") +:+
        shown (attr_of tb TCA_TCINDEX_POLICE) (fun a => newline +:+ tc_print_police m a))))))
        (if handle =? 0xFFFFFFFF then "" else "handle 0x" +:+ pad_left 4 (print_x handle) +:+ " ")
  end.

(** ** route *)

Definition TCA_ROUTE4_CLASSID : Z := 1.
Definition TCA_ROUTE4_TO : Z := 2.
Definition TCA_ROUTE4_FROM : Z := 3.
Definition TCA_ROUTE4_IIF : Z := 4.
Definition TCA_ROUTE4_POLICE : Z := 5.
Definition TCA_ROUTE4_MAX : Z := 6.

(** [lookup] is what [ll_name_to_index] gives after [ll_init_map]; [realms] is the file of
    realms, read when a name is first looked for. *)
Context (lookup : string -> Z) (realms : option string) (links : ll_map).

#[local] Set Primitive Projections.

(** The locals, and the table of realms.  [iproute2-3.1.0/tc/f_route.c:42-43 route_parse_opt] *)
Record route_locals := mk_route { rt_fh : Z; rt_order : Z; rt_tab : tab_state }.

#[local] Unset Primitive Projections.

(** A realm by its name or number, its attribute, and the handle with it. *)
Definition realm_word (s : route_locals) (type : Z) (fh : Z -> Z) (arg : string) : taken route_locals :=
  match rtnl_rtrealm_a2n realms arg (rt_tab s) with
  | None => Crash
  | Some (None, _) => Illegal
  | Some (Some id, tab) => Took ((s <| rt_fh := fh id |>) <| rt_tab := tab |>) [(4096, type, le_bytes 4 id)]
  end.

(** The fields of the handle.  [iproute2-3.1.0/tc/f_route.c:69-70 route_parse_opt] *)
Definition to_handle (fh id : Z) : Z := Z.lor (Z.land fh 0xFFFF7F00) (Z.land id 0xFF).

(** [iproute2-3.1.0/tc/f_route.c:79-80 route_parse_opt] *)
Definition from_handle (fh id : Z) : Z := Z.lor (Z.land fh 0xFFFF) (u32 (Z.shiftl id 16)).

(** [iproute2-3.1.0/tc/f_route.c:125-128 route_parse_opt] *)
Definition order_handle (fh order : Z) : Z :=
  if order =? 0 then fh else Z.lor (Z.land fh 0xFFFF80FF) (Z.land (u32 (Z.shiftl order 8)) 0x7F00).

(** [iproute2-3.1.0/tc/f_route.c:60-123 route_parse_opt] *)
Definition route_word (s : route_locals) (word : string) : option (option_word route_locals) :=
  if matches word "to" then Some (WithArg (realm_word s TCA_ROUTE4_TO (to_handle (rt_fh s))))
  else if matches word "from" then Some (WithArg (realm_word s TCA_ROUTE4_FROM (from_handle (rt_fh s))))
  else if matches word "fromif" then
    Some (WithArg (fun arg =>
      let id := u32 (lookup arg) in
      if id =? 0 then Illegal
      else Took (s <| rt_fh := from_handle (rt_fh s) (Z.lor 0x8000 id) |>) [(4096, TCA_ROUTE4_IIF, le_bytes 4 id)]))
  else if matches word "classid" || String.eqb word "flowid" then Some (WithArg (class_word s 4096 TCA_ROUTE4_CLASSID))
  else if matches word "police" then Some (Police TCA_ROUTE4_POLICE)
  else if matches word "order" then
    Some (WithArg (fun arg => match get_u32 arg 0 with Some o => Took (s <| rt_order := o |>) [] | None => Illegal end))
  else None.

Definition route_start (tab : tab_state) : route_locals := mk_route 0xFFFF8000 0 tab.

Definition tcm_handle_of (n : nlmsghdr) : Z := load32 (mem n) 24.

(** The handle that the words make, if none was given.
    [iproute2-3.1.0/tc/f_route.c:125-130 route_parse_opt] *)
Definition set_route_handle (s : route_locals) (n : nlmsghdr) : nlmsghdr :=
  if tcm_handle_of n =? 0 then set_tcm_handle (order_handle (rt_fh s) (rt_order s)) n else n.

(** [iproute2-3.1.0/tc/f_route.c:37-132 route_parse_opt] *)
Definition route_parse_opt (tab : tab_state) (handle : option string) (argv : list string) (n : nlmsghdr)
    (kinds : list action_util) : fopt_end :=
  match option_map (fun h => get_u32 h 0) handle with
  | Some None => FReturn (- 1) n kinds
  | h =>
      let n := match h with Some (Some h) => set_tcm_handle h n | _ => n end in
      match argv with
      | [] => FReturn 0 n kinds
      | _ =>
          let tail := NLMSG_TAIL n in
          let n := (addattr_l n 4096 TCA_OPTIONS []).2 in
          finish (loop route_word argv (route_start tab) n kinds) n kinds
            (fun s n kinds => FReturn 0 (set_route_handle s (close_nest tail n)) kinds)
      end
  end.

(** The name of the realm of an attribute; the table may be read first.
    [iproute2-3.1.0/tc/f_route.c:153-156 route_print_opt] *)
Definition realm_text (m : list Z) (tb : list (option Z)) (k : Z) (label : string) (tab : tab_state) :
    option (string * tab_state) :=
  match word_of m tb k with
  | None => Some ("", tab)
  | Some id =>
      match rtnl_rtrealm_n2a realms (s32 id) SPRINT_BSIZE tab with
      | Some (name, tab) => Some (label +:+ name +:+ " ", tab)
      | None => None
      end
  end.

(** [None] when reading the file of realms writes out of the table.
    [iproute2-3.1.0/tc/f_route.c:134-162 route_print_opt] *)
Definition route_print_opt (m : list Z) (opt : option Z) (handle : Z) (tab : tab_state) : option (string * tab_state) :=
  match opt with
  | None => Some ("", tab)
  | Some opt =>
      let tb := (parse_rtattr_nested m TCA_ROUTE4_MAX opt).1 in
      let head :=
        (if handle =? 0 then "" else "fh 0x" +:+ print_08x handle +:+ " ") +:+
        (if Z.land handle 0x7F00 =? 0 then "" else "order " +:+ print_d (Z.land (Z.shiftr handle 8) 0x7F) +:+ " ") +:+
        shown (word_of m tb TCA_ROUTE4_CLASSID) (fun h => "flowid " +:+ sprint_tc_classid h +:+ " ") in
      match realm_text m tb TCA_ROUTE4_TO "to " tab with
      | None => None
      | Some (to, tab) =>
          match realm_text m tb TCA_ROUTE4_FROM "from " tab with
          | None => None
          | Some (from, tab) =>
              Some (head +:+ to +:+ from +:+
                shown (word_of m tb TCA_ROUTE4_IIF) (fun i => "fromif " +:+ ll_index_to_name links i) +:+
                shown (attr_of tb TCA_ROUTE4_POLICE) (tc_print_police m), tab)
          end
      end
  end.
End Classifiers.

(** ** What a request holds *)

Lemma addattr32_l n b t v : addattr32 n b t v = addattr_l n b t (le_bytes 4 v).
Proof. reflexivity. Qed.

Lemma set_handle_keeps h n l maxlen : 36 <= nlmsg_len n -> 0 <= l -> room_for n maxlen l ->
  let n' := set_tcm_handle h n in
  room_for n' maxlen l /\ NLMSG_TAIL n' = NLMSG_TAIL n /\ load32 (mem n') 24 = u32 h.
Proof.
  intros Hn Hl [R0 R1 R2 R3] n'. assert (NLMSG_TAIL n' = NLMSG_TAIL n) as Et by done. pose proof (tail_bounds n).
  assert (List.length (mem n') = List.length (mem n)) as El by (apply store_at_length; rewrite ?le_bytes_length; lia).
  split; [constructor; rewrite ?Et, ?El; done|]. split; [done|]. apply load32_store; lia.
Qed.

Section Requests.
Context (env : tc_env) (c : core) (show_raw : bool) (rtab0 ptab0 : list Z).
Context (ematch : list string -> Z -> nlmsghdr -> aopt_outcome) (matched : list string -> list string -> list atree -> Prop).
Hypothesis Hr : List.length rtab0 = 256%nat.
Hypothesis Hp : List.length ptab0 = 256%nat.
Hypothesis Hmatch : forall argv rest l type, 0 <= type < 2 ^ 16 -> matched argv rest l ->
  (List.length rest <= List.length argv)%nat /\
  exists f, appends MAX_MSG f [Nest type l] /\ forall n, ematch argv type n = AReturn 0 (f n) rest.

Definition accepts {St} (keyword : St -> string -> option (option_word St)) :=
  opts env c rtab0 ptab0 matched keyword 4096.

(** The options behind attributes of the classifier's own. *)
Lemma classifier_nest {St} (keyword : St -> string -> option (option_word St)) (pre : nlmsghdr -> nlmsghdr) l argv s kinds ps s2 kinds2 n :
  accepts keyword argv s kinds ps s2 kinds2 -> appends 4096 pre l ->
  room_for n 4096 (4 + tspan (l ++ trees_of ps)) ->
  exists n', loop env c rtab0 ptab0 ematch keyword argv s (pre (addattr_l n 4096 TCA_OPTIONS []).2) kinds = Opts s2 n' kinds2 /\
    let n' := close_nest (NLMSG_TAIL n) n' in
    tree_at (mem n') (NLMSG_TAIL n) (Nest TCA_OPTIONS (l ++ trees_of ps)) /\
    NLMSG_TAIL n' = NLMSG_TAIL n + 4 + tspan (l ++ trees_of ps) /\ same_below (NLMSG_TAIL n) (mem n) (mem n').
Proof using Hr Hp Hmatch.
  intros Ho Hpre Hroom.
  destruct (filter_opts_ok env c rtab0 ptab0 ematch matched keyword 4096 Hmatch ltac:(lia) Hr Hp _ _ _ _ _ _ Ho (List.length argv)
    ltac:(lia)) as (f & Hf & E).
  exists (f (pre (addattr_l n 4096 TCA_OPTIONS []).2)). split; [apply E|].
  assert (tspan [Nest TCA_OPTIONS (l ++ trees_of ps)] = 4 + tspan (l ++ trees_of ps)) as Es
    by (cbn [tspan]; rewrite tspan_nest; lia).
  destruct (appends_nest 4096 TCA_OPTIONS (fun n => f (pre n)) (l ++ trees_of ps) ltac:(done) ltac:(by apply appends_seq) n)
    as ([F1 _] & F2 & _ & _ & F3 & _); [by rewrite Es|].
  rewrite Es in F2. split; [exact F1|]. split; [rewrite Z.add_assoc in F2; exact F2|exact F3].
Qed.

(** A value of four bytes, as it is printed. *)
Lemma word_found m max off pre (ps : list piece) leaf_ok pt at_ mt k :
  tree_at m off (Nest TCA_OPTIONS (pre ++ trees_of ps)) -> Forall (fun t => 0 <= tree_type t) (pre ++ trees_of ps) -> 0 <= off ->
  Forall (piece_ok c leaf_ok pt at_ mt) ps -> 0 <= k <= max -> tree_get k pre = None -> k <> pt -> k <> at_ -> k <> mt ->
  (forall d, leaf_ok k d -> List.length d = 4%nat) ->
  word_of m (parse_rtattr_nested m max off).1 k = option_map of_le_bytes (leaf_bytes k (trees_of ps)).
Proof using.
  intros Ht Hty Ho Hps Hk Hpre H1 H2 H3 Hd.
  pose proof (leaf_found c leaf_ok pt at_ mt m max off TCA_OPTIONS pre ps Ht Hty Ho Hps k Hk Hpre H1 H2 H3) as H.
  unfold word_of, attr_of. destruct (leaf_bytes k (trees_of ps)) as [d|]; [|by rewrite H].
  destruct H as (Hd' & a & -> & _ & _ & E). rewrite (Hd d Hd') in E. change (Z.of_nat 4) with 4 in E. cbn [option_map]. unfold load32. by rewrite E.
Qed.

Lemma cstring_prefix d rest : In 0 d -> cstring (d ++ rest) = cstring d.
Proof using.
  induction d as [|b d IH]; [done|]. intros H. cbn [app cstring]. destruct (Z.eqb_spec b 0) as [|Hb]; [done|].
  rewrite IH; [done|]. by destruct H.
Qed.

(** *** fw *)

Definition fw_leaf (ty : Z) (d : list Z) : Prop :=
  (ty = TCA_FW_CLASSID /\ List.length d = 4%nat) \/ (ty = TCA_FW_INDEV /\ In 0 d).

Lemma class_word_ok {St} (s : St) b type arg :
  match class_word s b type arg with Took _ l => Forall (fun '(_, t, d) => t = type /\ List.length d = 4%nat) l | _ => True end.
Proof using. unfold class_word. destruct (get_tc_classid arg); [|done]. by repeat constructor. Qed.

Lemma fw_words s word w : fw_word s word = Some w -> word_ok fw_leaf TCA_FW_POLICE TCA_FW_ACT 0 w.
Proof using.
  unfold fw_word. destruct (_ || _).
  { intros [= <-] arg. pose proof (class_word_ok s 4096 TCA_FW_CLASSID arg) as H. destruct (class_word _ _ _ _); try done.
    eapply Forall_impl; [exact H|]. intros [[b t] d] [-> ?]. split; [done|by left]. }
  destruct (matches word "police"); [by intros [= <-]|]. destruct (matches word "action"); [by intros [= <-]|].
  destruct (String.eqb word "indev"); [|done]. intros [= <-] arg. constructor; [|done]. split; [done|]. right. split; [done|].
  apply in_or_app. right. by left.
Qed.

Definition mask_leaf (mask : option Z) : list atree := opt_leaf TCA_FW_MASK 4 mask.

(** What is printed of a mark, a mask and what the words added, but the actions. *)
Definition fw_text (handle : Z) (mask : option Z) (ps : list piece) : string :=
  fw_handle_text handle mask +:+
  shown (option_map of_le_bytes (leaf_bytes TCA_FW_CLASSID (trees_of ps))) (fun h => "classid " +:+ sprint_tc_classid h +:+ " ") +:+
  shown (first_police ps) (police_shows c (e_iec env) show_raw) +:+
  shown (leaf_bytes TCA_FW_INDEV (trees_of ps)) (fun d => "input dev " +:+ cstring d +:+ " ").

Lemma fw_nest_shown m off mask ps s handle :
  tree_at m off (Nest TCA_OPTIONS (mask_leaf mask ++ trees_of ps)) -> 0 <= off -> byte_sized 4 mask ->
  Forall (piece_ok c fw_leaf TCA_FW_POLICE TCA_FW_ACT 0) ps ->
  fw_print_opt env c show_raw m (Some off) handle s =
    then_actions env m (attr_of (parse_rtattr_nested m TCA_FW_MAX off).1 TCA_FW_ACT) (fw_text handle mask ps) newline s.
Proof using.
  intros Ht Ho Hm Hps.
  assert (Forall (fun t => 0 <= tree_type t) (mask_leaf mask ++ trees_of ps)) as Hty.
  { apply Forall_app. split; [destruct mask; by repeat constructor|]. by apply (pieces_types c _ _ _ _ ps Hps). }
  unfold fw_print_opt. cbv zeta. f_equal. unfold fw_text. f_equal; [f_equal|f_equal; [|f_equal]].
  - unfold word_of, attr_of. pose proof (nest_get m TCA_FW_MAX off _ _ TCA_FW_MASK Ht Hty ltac:(done) Ho) as H.
    rewrite tree_get_app in H. destruct mask as [v|]; cbn [mask_leaf opt_leaf tree_get tree_type] in H.
    + change (TCA_FW_MASK =? TCA_FW_MASK) with true in H. destruct H as (a & -> & _ & L%leaf_data). cbn [option_map].
      f_equal. unfold load32. rewrite le_bytes_length in L. change (Z.of_nat 4) with 4 in L. destruct L as [_ ->]. rewrite of_le_bytes_le. by apply Z.mod_small.
    + assert (tree_get TCA_FW_MASK (trees_of ps) = None) as E.
      { destruct (get_leaf c fw_leaf TCA_FW_POLICE TCA_FW_ACT 0 ps TCA_FW_MASK Hps) as [E|(d & _ & [[? _]|[? _]])]; done. }
      rewrite E in H. by rewrite H.
  - rewrite (word_found m TCA_FW_MAX off _ ps fw_leaf TCA_FW_POLICE TCA_FW_ACT 0 TCA_FW_CLASSID Ht Hty Ho Hps);
      [done|done|by destruct mask|done|done|done|]. by intros d [[_ ?]|[? _]].
  - pose proof (police_found c fw_leaf TCA_FW_POLICE TCA_FW_ACT 0 m TCA_FW_MAX off TCA_OPTIONS _ ps Ht Hty Ho Hps show_raw (e_iec env)
      ltac:(done) ltac:(by destruct mask) ltac:(by intros d [[? _]|[? _]]) ltac:(done) ltac:(done)) as H.
    unfold attr_of. destruct (first_police ps) as [p|]; [|by rewrite H]. destruct H as (a & -> & H). cbn [shown].
    unfold tc_print_police. by rewrite H.
  - pose proof (leaf_found c fw_leaf TCA_FW_POLICE TCA_FW_ACT 0 m TCA_FW_MAX off TCA_OPTIONS _ ps Ht Hty Ho Hps TCA_FW_INDEV
      ltac:(done) ltac:(by destruct mask) ltac:(done) ltac:(done) ltac:(done)) as H.
    unfold attr_of. destruct (leaf_bytes TCA_FW_INDEV (trees_of ps)) as [d|]; [|by rewrite H].
    destruct H as ([[? _]|[_ Hz]] & a & -> & _ & _ & E); [done|]. cbn [shown]. do 2 f_equal.
    unfold load_bytes in E. rewrite Nat2Z.id in E. rewrite <- (firstn_skipn (List.length d) (drop _ m)).
    change (firstn ?n ?l) with (take n l). rewrite E. by apply cstring_prefix.
Qed.

End Requests.

(** ** The handle of a route *)

(** [x] lies within a mask: masking keeps it. *)
Lemma land_inside x mask all : Z.land x mask = x -> Z.land mask all = mask -> Z.land x all = x.
Proof. intros Hx Hm. rewrite <- Hx at 1. rewrite <- Z.land_assoc, Hm. exact Hx. Qed.

(** And outside it, nothing is left. *)
Lemma land_outside x mask all : Z.land x mask = x -> Z.land mask all = 0 -> Z.land x all = 0.
Proof. intros Hx Hm. rewrite <- Hx. rewrite <- Z.land_assoc, Hm. apply Z.land_0_r. Qed.

Lemma land_byte_id x : 0 <= x < 256 -> Z.land x 0xFF = x.
Proof. intros Hx. change 0xFF with (Z.ones 8). rewrite Z.land_ones by lia. by apply Z.mod_small. Qed.

Lemma land_field x k mask : 0 <= k -> Z.land x mask = x -> Z.land (Z.shiftl x k) (Z.shiftl mask k) = Z.shiftl x k.
Proof. intros Hk Hx. by rewrite <- Z.shiftl_land, Hx. Qed.

(** Realms below 256 and an order below 128 get fields of their own, and the order is read
    back from the handle as it is printed. *)
Lemma route_handle_fields to from order : 0 <= to < 256 -> 0 <= from < 256 -> 0 < order < 128 ->
  let h := order_handle (from_handle (to_handle 0xFFFF8000 to) from) order in
  h = Z.lor (Z.lor to (Z.shiftl from 16)) (Z.shiftl order 8) /\ Z.land (Z.shiftr h 8) 0x7F = order.
Proof.
  intros Ht Hf Ho h. assert (Z.land order 0x7F = order) as Ko.
  { change 0x7F with (Z.ones 7). rewrite Z.land_ones by lia. apply Z.mod_small. lia. }
  pose proof (land_byte_id to Ht) as Kt. pose proof (land_byte_id from Hf) as Kf.
  assert (h = Z.lor (Z.lor to (Z.shiftl from 16)) (Z.shiftl order 8)) as E.
  { unfold h, order_handle. rewrite (proj2 (Z.eqb_neq order 0)) by lia. unfold from_handle, to_handle.
    change (Z.land 0xFFFF8000 0xFFFF7F00) with 0xFFFF0000. rewrite Kt.
    rewrite (Z.land_lor_distr_l 0xFFFF0000 to 0xFFFF). change (Z.land 0xFFFF0000 0xFFFF) with 0. rewrite Z.lor_0_l.
    rewrite (land_inside to 0xFF) by done. rewrite u32_small by (rewrite Z.shiftl_mul_pow2; lia).
    rewrite Z.land_lor_distr_l, (land_inside to 0xFF) by done.
    rewrite (land_inside (Z.shiftl from 16) (Z.shiftl 0xFF 16)) by (done || by apply land_field).
    rewrite u32_small by (rewrite Z.shiftl_mul_pow2; lia).
    by rewrite (land_inside (Z.shiftl order 8) (Z.shiftl 0x7F 8)) by (done || by apply land_field). }
  split; [exact E|]. rewrite E, !Z.shiftr_lor, !Z.land_lor_distr_l.
  rewrite (Z.shiftr_div_pow2 to), Z.div_small, Z.land_0_l by lia.
  rewrite !Z.shiftr_shiftl_l by lia. change (16 - 8) with 8. change (8 - 8) with 0. rewrite Z.shiftl_0_r, Z.lor_0_l, Ko.
  rewrite (land_outside (Z.shiftl from 8) (Z.shiftl 0xFF 8)); [done|by apply land_field|done].
Qed.

(** An order from 128 on loses its upper bits, and 128 is none. *)
Lemma route_order_cut : order_handle 0 128 = 0 /\ order_handle 0 129 = order_handle 0 1.
Proof. by vm_compute. Qed.

(** ** What the numbers of tcindex become *)

(** The greatest hash accepted is shown as 0, a negative one passes the test, and a mask is
    cut to 16 bits. *)
Lemma tcindex_numbers :
  match tcindex_word tt "hash" with
  | Some (WithArg f) => f "0x10000" = Took tt [(4096, TCA_TCINDEX_HASH, le_bytes 4 0x10000)] /\
      f "0x80000000" = Took tt [(4096, TCA_TCINDEX_HASH, le_bytes 4 0x80000000)] /\ f "0x10001" = Illegal
  | _ => False
  end /\
  match tcindex_word tt "mask" with
  | Some (WithArg f) => f "0x1ffff" = Took tt [(4096, TCA_TCINDEX_MASK, [255; 255])]
  | _ => False
  end.
Proof. by vm_compute. Qed.

Definition demo_tcindex : list Z := le_bytes 2 12 ++ le_bytes 2 2 ++ le_bytes 2 8 ++ le_bytes 2 TCA_TCINDEX_HASH ++ le_bytes 4 0x10000.

Example tcindex_hash_shown :
  tcindex_print_opt gact_env core_default false demo_tcindex (Some 0) 0xFFFFFFFF = (0, "hash 0 ").
Proof. by vm_compute. Qed.

