(* ===== verification/TcFlow.v ===== *)
(** * The flow classifier (iproute2-3.1.0/tc/f_flow.c)

    Keys, an arithmetic on them, and the limits of the result.  The operations [and], [or] and
    [xor] are folded into one mask and one value as they are read; that these mean the
    operations in their order is shown here, and that those printed mean the same. *)

From S2P Require Export TcClassify.

#[local] Open Scope list_scope.

(** [iproute2-3.1.0/include/linux/pkt_cls.h:317-337 FLOW_KEY_SRC] *)
Definition FLOW_KEY_SRC : Z := 0.
Definition FLOW_KEY_DST : Z := 1.
Definition FLOW_KEY_NFCT_SRC : Z := 9.
Definition FLOW_KEY_NFCT_DST : Z := 10.

(** [iproute2-3.1.0/include/linux/pkt_cls.h:341-344 FLOW_MODE_MAP] *)
Definition FLOW_MODE_MAP : Z := 0.
Definition FLOW_MODE_HASH : Z := 1.

Definition TCA_FLOW_KEYS : Z := 1.
Definition TCA_FLOW_MODE : Z := 2.
Definition TCA_FLOW_BASECLASS : Z := 3.
Definition TCA_FLOW_RSHIFT : Z := 4.
Definition TCA_FLOW_ADDEND : Z := 5.
Definition TCA_FLOW_MASK : Z := 6.
Definition TCA_FLOW_XOR : Z := 7.
Definition TCA_FLOW_DIVISOR : Z := 8.
Definition TCA_FLOW_ACT : Z := 9.
Definition TCA_FLOW_POLICE : Z := 10.
Definition TCA_FLOW_EMATCHES : Z := 11.
Definition TCA_FLOW_PERTURB : Z := 12.
Definition TCA_FLOW_MAX : Z := 12.

(** The names in the order of their numbers.  [iproute2-3.1.0/tc/f_flow.c:42-61 flow_keys] *)
Definition flow_keys : list string :=
  ["src"; "dst"; "proto"; "proto-src"; "proto-dst"; "iif"; "priority"; "mark"; "nfct"; "nfct-src"; "nfct-dst";
   "nfct-proto-src"; "nfct-proto-dst"; "rt-classid"; "sk-uid"; "sk-gid"; "vlan-tag"; "rxhash"].

(** The parts of a text between commas; there is always one. *)
Fixpoint split_commas (s : string) : list string :=
  match s with
  | "" => [""]
  | String c s =>
      if Ascii.eqb c "," then "" :: split_commas s
      else match split_commas s with p :: l => String c p :: l | [] => [String c ""] end
  end.

Fixpoint find_key (s : string) (names : list string) (i : Z) : option Z :=
  match names with [] => None | name :: names => if matches s name then Some i else find_key s names (i + 1) end.

(** The bits of the keys and their number, counted with repetitions.
    [iproute2-3.1.0/tc/f_flow.c:63-90 flow_parse_keys] *)
Definition flow_parse_keys (arg : string) : option (Z * Z) :=
  foldl (fun o s =>
    match o with
    | None => None
    | Some (keys, nkeys) =>
        match find_key s flow_keys 0 with Some i => Some (Z.lor keys (Z.shiftl 1 i), nkeys + 1) | None => None end
    end) (Some (0, 0)) (split_commas arg).

(** An operation on a key of 32 bits, as a mask and a value to be combined by [xor]:
    the mask and the value after it.  [iproute2-3.1.0/tc/f_flow.c:92-96 transfer_bitop] *)
Definition transfer_bitop (mask xor m x : Z) : Z * Z := (Z.land mask m, Z.lxor x (Z.land xor m)).

Section Flow.
Context (env : tc_env) (c : core) (show_raw : bool) (rtab0 ptab0 : list Z).
Context (ematch : list string -> Z -> nlmsghdr -> aopt_outcome) (print_ematch : list Z -> Z -> string).
Context (inet_pton6 : string -> option (list Z)).

(** A number, or an address if the bits of [keys] meet those of the numbers of four keys;
    [inl] when the program ends.  [iproute2-3.1.0/tc/f_flow.c:98-131 get_addend] *)
Definition get_addend (arg : string) (keys : Z) : Z + option Z :=
  let '(sign, arg) := match arg with String "-" arg => (true, arg) | _ => (false, arg) end in
  let out tmp := inr (Some (if sign then u32 (- tmp) else tmp)) in
  match get_u32 arg 0 with
  | Some tmp => out tmp
  | None =>
      if Z.land keys (Z.lor (Z.lor FLOW_KEY_SRC FLOW_KEY_DST) (Z.lor FLOW_KEY_NFCT_SRC FLOW_KEY_NFCT_DST)) =? 0 then inr None
      else
        match get_addr inet_pton6 arg AF_UNSPEC with
        | inl status => inl status
        | inr addr =>
            match pf_family addr with
            | AF_INET => out (ntohl (data_word (data addr) 0))
            | AF_INET6 => out (ntohl (data_word (data addr) 3))
            | _ => inr None
            end
        end
  end.

#[local] Set Primitive Projections.

(** [iproute2-3.1.0/tc/f_flow.c:139-142 flow_parse_opt] *)
Record flow_locals := mk_flow { fl_mask : Z; fl_xor : Z; fl_keys : Z; fl_nkeys : Z; fl_mode : Z }.

#[local] Unset Primitive Projections.

Definition flow_start : flow_locals := mk_flow 0xFFFFFFFF 0 0 0 FLOW_MODE_MAP.

(** [iproute2-3.1.0/tc/f_flow.c:166-186 flow_parse_opt] *)
Definition flow_bitop (word : string) : option (Z -> Z * Z) :=
  if matches word "and" then Some (fun v => (v, 0))
  else if matches word "or" then Some (fun v => (u32 (Z.lnot v), v))
  else if matches word "xor" then Some (fun v => (0xFFFFFFFF, v))
  else None.

Definition bitop (s : flow_locals) (op : Z * Z) : flow_locals :=
  let '(mask, xor) := transfer_bitop (fl_mask s) (fl_xor s) op.1 op.2 in (s <| fl_mask := mask |>) <| fl_xor := xor |>.

(** [iproute2-3.1.0/tc/f_flow.c:156-252 flow_parse_opt] *)
Definition flow_word (s : flow_locals) (word : string) : option (option_word flow_locals) :=
  let number type := Some (WithArg (fun arg =>
    match get_u32 arg 0 with Some v => Took s [(4096, type, le_bytes 4 v)] | None => Illegal end)) in
  if matches word "map" then Some (Plain (Took (s <| fl_mode := FLOW_MODE_MAP |>) []))
  else if matches word "hash" then Some (Plain (Took (s <| fl_mode := FLOW_MODE_HASH |>) []))
  else if matches word "keys" then
    Some (WithArg (fun arg =>
      match flow_parse_keys arg with
      | Some (keys, nkeys) => Took ((s <| fl_keys := keys |>) <| fl_nkeys := nkeys |>) [(4096, TCA_FLOW_KEYS, le_bytes 4 keys)]
      | None => Illegal
      end))
  else
    match flow_bitop word with
    | Some op => Some (WithArg (fun arg => match get_u32 arg 0 with Some v => Took (bitop s (op v)) [] | None => Illegal end))
    | None =>
        if matches word "rshift" then number TCA_FLOW_RSHIFT
        else if matches word "addend" then
          Some (WithArg (fun arg =>
            match get_addend arg (fl_keys s) with
            | inl status => Ends status
            | inr (Some v) => Took s [(4096, TCA_FLOW_ADDEND, le_bytes 4 v)]
            | inr None => Illegal
            end))
        else if matches word "divisor" then number TCA_FLOW_DIVISOR
        else if matches word "baseclass" then
          Some (WithArg (fun arg =>
            match get_tc_classid arg with
            | Some v => if TC_H_MIN v =? 0 then Illegal else Took s [(4096, TCA_FLOW_BASECLASS, le_bytes 4 v)]
            | None => Illegal
            end))
        else if matches word "perturb" then number TCA_FLOW_PERTURB
        else if matches word "police" then Some (Police TCA_FLOW_POLICE)
        else if matches word "action" then Some (Actions TCA_FLOW_ACT)
        else if matches word "match" then Some (Matches TCA_FLOW_EMATCHES)
        else None
    end.

(** The mode, and the mask and the value if there are any.
    [iproute2-3.1.0/tc/f_flow.c:258-263 flow_parse_opt] *)
Definition add_flow (s : flow_locals) (n : nlmsghdr) : nlmsghdr :=
  let n := (addattr32 n 4096 TCA_FLOW_MODE (fl_mode s)).2 in
  if negb (fl_mask s =? 0xFFFFFFFF) || negb (fl_xor s =? 0) then
    let n := (addattr32 n 4096 TCA_FLOW_MASK (fl_mask s)).2 in
    (addattr32 n 4096 TCA_FLOW_XOR (fl_xor s)).2
  else n.

(** [iproute2-3.1.0/tc/f_flow.c:133-267 flow_parse_opt] *)
Definition flow_parse_opt (handle : option string) (argv : list string) (n : nlmsghdr) (kinds : list action_util) : fopt_end :=
  match option_map (fun h => get_u32 h 0) handle with
  | Some None => FReturn (- 1) n kinds
  | h =>
      let n := match h with Some (Some h) => set_tcm_handle h n | _ => n end in
      let tail := NLMSG_TAIL n in
      let n := (addattr_l n 4096 TCA_OPTIONS []).2 in
      finish (loop env c rtab0 ptab0 ematch flow_word argv flow_start n kinds) n kinds (fun s n kinds =>
        if (1 <? fl_nkeys s) && negb (fl_mode s =? FLOW_MODE_HASH) then FReturn (- 1) n kinds
        else FReturn 0 (close_nest tail (add_flow s n)) kinds)
  end.

(** ** Printing *)

Inductive bit_op := And (v : Z) | Or (v : Z) | Xor (v : Z).

(** The operations shown for a mask and a value.
    [iproute2-3.1.0/tc/f_flow.c:316-326 flow_print_opt] *)
Definition shown_ops (mask val : Z) : list bit_op :=
  (if mask =? 0xFFFFFFFF then [] else [And mask]) ++
  (let xor := Z.land mask val in if xor =? 0 then [] else [Xor xor]) ++
  (let or := Z.lxor (Z.land mask val) val in if or =? 0 then [] else [Or or]).

Definition op_text (o : bit_op) : string :=
  match o with
  | And v => "and 0x" +:+ print_08x v +:+ " "
  | Xor v => "xor 0x" +:+ print_08x v +:+ " "
  | Or v => "or 0x" +:+ print_08x v +:+ " "
  end.

(** [iproute2-3.1.0/tc/f_flow.c:297-309 flow_print_opt] *)
Definition keys_text (keymask : Z) : string :=
  "keys " +:+
  String.concat "," (omap (fun '(i, name) => if Z.testbit keymask (Z.of_nat i) then Some name else None) (imap pair flow_keys)) +:+ " ".

(** [iproute2-3.1.0/tc/f_flow.c:269-355 flow_print_opt] *)
Definition flow_print_opt (m : list Z) (opt : option Z) (handle : Z) (s : action_state) : print_end :=
  match opt with
  | None => (- EINVAL, "", (m, s))
  | Some opt =>
      let tb := (parse_rtattr_nested m TCA_FLOW_MAX opt).1 in
      let number k pre post := shown (word_of m tb k) (fun v => pre +:+ print_u v +:+ post) in
      let text :=
        "handle 0x" +:+ print_x handle +:+ " " +:+
        shown (word_of m tb TCA_FLOW_MODE)
          (fun mode => if mode =? FLOW_MODE_MAP then "map " else if mode =? FLOW_MODE_HASH then "hash " else "") +:+
        shown (word_of m tb TCA_FLOW_KEYS) keys_text +:+
        String.concat "" (map op_text
          (shown_ops (default 0xFFFFFFFF (word_of m tb TCA_FLOW_MASK)) (default 0 (word_of m tb TCA_FLOW_XOR)))) +:+
        number TCA_FLOW_RSHIFT "rshift " " " +:+
        shown (word_of m tb TCA_FLOW_ADDEND) (fun v => "addend 0x" +:+ print_x v +:+ " ") +:+
        number TCA_FLOW_DIVISOR "divisor " " " +:+
        shown (word_of m tb TCA_FLOW_BASECLASS) (fun h => "baseclass " +:+ sprint_tc_classid h +:+ " ") +:+
        number TCA_FLOW_PERTURB "perturb " "sec " +:+
        shown (attr_of tb TCA_FLOW_EMATCHES) (print_ematch m) +:+
        shown (attr_of tb TCA_FLOW_POLICE) (tc_print_police env c show_raw m) in
      then_actions env m (attr_of tb TCA_FLOW_ACT) text newline s
  end.
End Flow.

(** ** What the operations mean *)

Lemma word32_bits a b : word32 a -> word32 b -> (forall i, 0 <= i < 32 -> Z.testbit a i = Z.testbit b i) -> a = b.
Proof.
  intros Ha Hb H. apply Z.bits_inj'. intros i Hi. destruct (Z.lt_ge_cases i 32); [by apply H|].
  by rewrite !(testbit_above _ 32) by (done || lia).
Qed.

Lemma word32_of_bits z : 0 <= z -> (forall i, 32 <= i -> Z.testbit z i = false) -> word32 z.
Proof.
  intros Hz H. assert (z = Z.land z (Z.ones 32)) as ->.
  { apply Z.bits_inj'. intros i Hi. rewrite Z.land_spec. destruct (Z.lt_ge_cases i 32).
    - rewrite Z.ones_spec_low by lia. by rewrite andb_true_r.
    - by rewrite H by lia. }
  rewrite Z.land_ones by lia. apply Z.mod_pos_bound. lia.
Qed.

Lemma word32_land a b : word32 a -> word32 b -> word32 (Z.land a b).
Proof.
  intros Ha Hb. apply word32_of_bits; [apply Z.land_nonneg; left; apply Ha|]. intros i Hi.
  by rewrite Z.land_spec, (testbit_above a 32) by (done || lia).
Qed.

Lemma word32_lor a b : word32 a -> word32 b -> word32 (Z.lor a b).
Proof. intros Ha Hb. by apply lor_range. Qed.

Lemma word32_lxor a b : word32 a -> word32 b -> word32 (Z.lxor a b).
Proof.
  intros Ha Hb. apply word32_of_bits; [apply Z.lxor_nonneg; destruct Ha, Hb; tauto|]. intros i Hi.
  by rewrite Z.lxor_spec, !(testbit_above _ 32) by (done || lia).
Qed.

Lemma word32_u32 z : word32 (u32 z).
Proof. apply u32_range. Qed.

#[local] Hint Resolve word32_land word32_lor word32_lxor word32_u32 : core.

Lemma u32_testbit z i : 0 <= i < 32 -> Z.testbit (u32 z) i = Z.testbit z i.
Proof. intros Hi. unfold u32. by rewrite Z.mod_pow2_bits_low by lia. Qed.

Lemma all_ones_testbit i : 0 <= i < 32 -> Z.testbit 0xFFFFFFFF i = true.
Proof. intros Hi. change 0xFFFFFFFF with (Z.ones 32). by apply Z.ones_spec_low. Qed.

(** Equality of words, bit by bit. *)
Ltac bitwise :=
  apply word32_bits; [by eauto 10|by eauto 10|]; let i := fresh "i" in let Hi := fresh "Hi" in intros i Hi;
  rewrite ?Z.land_spec, ?Z.lor_spec, ?Z.lxor_spec, ?Z.land_spec, ?Z.lor_spec, ?Z.lxor_spec, ?u32_testbit, ?Z.lnot_spec,
    ?all_ones_testbit, ?Z.bits_0 by lia;
  repeat match goal with |- context [Z.testbit ?a i] => destruct (Z.testbit a i) end; reflexivity.

Definition apply_op (key : Z) (o : bit_op) : Z :=
  match o with And v => Z.land key v | Or v => Z.lor key v | Xor v => Z.lxor key v end.

Definition run_ops (ops : list bit_op) (key : Z) : Z := foldl apply_op key ops.

(** What the kernel makes of a mask and a value. *)
Definition masked_key (mask xor key : Z) : Z := Z.lxor (Z.land key mask) xor.

Definition op_value (o : bit_op) : Z := match o with And v | Or v | Xor v => v end.

(** The operation of a word and its argument. *)
Definition op_of (word arg : string) (o : bit_op) : Prop :=
  get_u32 arg 0 = Some (op_value o) /\
  match o with
  | And _ => matches word "and" = true
  | Or _ => matches word "and" = false /\ matches word "or" = true
  | Xor _ => matches word "and" = false /\ matches word "or" = false /\ matches word "xor" = true
  end /\ matches word "map" = false /\ matches word "hash" = false /\ matches word "keys" = false.

Lemma op_of_bitop word arg o : op_of word arg o -> word32 (op_value o) /\ exists f, flow_bitop word = Some f /\
  forall mask xor key, word32 mask -> word32 xor -> word32 key ->
    let '(m, x) := f (op_value o) in
    word32 (Z.land mask m) /\ word32 (Z.lxor x (Z.land xor m)) /\
    masked_key (Z.land mask m) (Z.lxor x (Z.land xor m)) key = apply_op (masked_key mask xor key) o.
Proof.
  intros (Hv & Hw & _). apply get_u32_range in Hv. split; [exact Hv|]. unfold flow_bitop.
  assert (word32 0) by done. assert (word32 0xFFFFFFFF) by done.
  destruct o as [v|v|v]; cbn [op_value] in *; [rewrite Hw|destruct Hw as [-> ->]|destruct Hw as (-> & -> & ->)];
    eexists; (split; [reflexivity|]); intros mask xor key Hm Hx Hk; cbn [apply_op];
    (split; [by auto|]); (split; [by eauto 10|]); unfold masked_key; bitwise.
Qed.

(** What is shown of a mask and a value means the same. *)
Lemma shown_ops_mean mask val key : word32 mask -> word32 val -> word32 key ->
  run_ops (shown_ops mask val) key = masked_key mask val key.
Proof.
  intros Hm Hv Hk. unfold run_ops, shown_ops. rewrite !foldl_app.
  assert (foldl apply_op key (if mask =? 0xFFFFFFFF then [] else [And mask]) = Z.land key mask) as ->.
  { destruct (Z.eqb_spec mask 0xFFFFFFFF) as [->|]; [|done]. cbn [foldl]. assert (word32 0xFFFFFFFF) by done. bitwise. }
  assert (forall z, foldl apply_op z (if Z.land mask val =? 0 then [] else [Xor (Z.land mask val)]) = Z.lxor z (Z.land mask val)) as ->.
  { intros z. destruct (Z.eqb_spec (Z.land mask val) 0) as [->|]; [by rewrite Z.lxor_0_r|done]. }
  assert (forall z w, foldl apply_op z (if w =? 0 then [] else [Or w]) = Z.lor z w) as E.
  { intros z w. destruct (Z.eqb_spec w 0) as [->|]; [by rewrite Z.lor_0_r|done]. }
  rewrite E. unfold masked_key. bitwise.
Qed.

Section Operations.
Context (env : tc_env) (c : core) (rtab0 ptab0 : list Z) (ematch : list string -> Z -> nlmsghdr -> aopt_outcome).
Context (inet_pton6 : string -> option (list Z)).

Lemma bitop_words words ops : Forall2 (fun w o => op_of w.1 w.2 o) words ops -> forall fuel s n kinds,
  (2 * List.length words <= fuel)%nat -> word32 (fl_mask s) -> word32 (fl_xor s) ->
  exists s', filter_opts env (parse_police c rtab0 ptab0) ematch (flow_word inet_pton6) fuel
      (flat_map (fun w => [w.1; w.2]) words) s n kinds = Opts s' n kinds /\
    word32 (fl_mask s') /\ word32 (fl_xor s') /\ fl_mode s' = fl_mode s /\ fl_keys s' = fl_keys s /\ fl_nkeys s' = fl_nkeys s /\
    forall key, word32 key ->
      masked_key (fl_mask s') (fl_xor s') key = run_ops ops (masked_key (fl_mask s) (fl_xor s) key).
Proof.
  induction 1 as [|[word arg] o words ops Ho _ IH]; intros fuel s n kinds Hf Hm Hx.
  { exists s. cbn [flat_map]. by destruct fuel. }
  destruct fuel as [|fuel]; [cbn in Hf; lia|]. destruct (op_of_bitop _ _ _ Ho) as (Hv & f & Ef & Hmean).
  destruct Ho as (Ev & _ & Kmap & Khash & Kkeys). cbn [fst snd] in *.
  set (s1 := bitop s (f (op_value o))).
  assert (word32 (fl_mask s1) /\ word32 (fl_xor s1) /\
    forall key, word32 key -> masked_key (fl_mask s1) (fl_xor s1) key = apply_op (masked_key (fl_mask s) (fl_xor s) key) o) as (M1 & X1 & E1).
  { unfold s1, bitop, transfer_bitop. destruct (f (op_value o)) as [m x]. cbn [fst snd fl_mask fl_xor].
    pose proof (Hmean _ _ 0 Hm Hx ltac:(done)) as (? & ? & _). split; [done|]. split; [done|].
    intros key Hk. by destruct (Hmean _ _ key Hm Hx Hk) as (_ & _ & ?). }
  destruct (IH fuel s1 n kinds ltac:(cbn [List.length] in Hf; lia) M1 X1) as (s' & E & M & X & S1 & S2 & S3 & H).
  exists s'. split.
  - cbn [flat_map app filter_opts fst snd]. unfold flow_word at 1. rewrite Kmap, Khash, Kkeys, Ef, Ev. cbn [add_bounded foldl].
    exact E.
  - assert (fl_mode s1 = fl_mode s /\ fl_keys s1 = fl_keys s /\ fl_nkeys s1 = fl_nkeys s) as (T1 & T2 & T3).
    { unfold s1, bitop. by destruct (transfer_bitop _ _ _ _). }
    split; [exact M|]. split; [exact X|]. split; [congruence|]. split; [congruence|]. split; [congruence|].
    intros key Hk. rewrite (H key Hk), (E1 key Hk). reflexivity.
Qed.

End Operations.


(** The keys for which an address may be added are looked for by their numbers, not by their
    bits: it may be added to the source port and not to a translated source. *)
Lemma addend_keys :
  get_addend (fun _ => None) "10.0.0.1" (Z.shiftl 1 3) = inr (Some 0x0a000001) /\
  get_addend (fun _ => None) "10.0.0.1" (Z.shiftl 1 FLOW_KEY_NFCT_SRC) = inr None.
Proof. by vm_compute. Qed.
