(* ===== verification/TcU32.v ===== *)
(** * The u32 classifier (iproute2-3.1.0/tc/f_u32.c)

    Handles, the selector with its keys, the words of the samples, the request and the
    printer.  A selector is the conjunction of its keys: what packing a field adds to it is
    shown in [TcU32Match]. *)

From S2P Require Export TcFlow.

#[local] Open Scope list_scope.

(** ** Handles *)

Definition TC_U32_HTID (h : Z) : Z := Z.land h 0xFFF00000.
(** [iproute2-3.1.0/include/linux/pkt_cls.h:171-177 TC_U32_HTID] *)
Definition TC_U32_USERHTID (h : Z) : Z := Z.shiftr (TC_U32_HTID h) 20.
Definition TC_U32_HASH (h : Z) : Z := Z.land (Z.shiftr h 12) 0xFF.
Definition TC_U32_NODE (h : Z) : Z := Z.land h 0xFFF.

(** A number in a handle: the value, what follows it, and whether there is one. *)
Definition handle_part (str : string) : Z * string * bool :=
  match strtoul str 16 with Some (v, rest) => (u32 v, rest, true) | None => (0, str, false) end.

Definition head_is (c : ascii) (s : string) : bool := match s with String d _ => Ascii.eqb d c | "" => false end.
Definition tail_of (s : string) : string := match s with String _ s => s | "" => "" end.

(** Between the numbers any one character may stand, and anything behind the last.
    [iproute2-3.1.0/tc/f_u32.c:48-81 get_u32_handle] *)
Definition get_u32_handle (str : string) : option Z :=
  match Addr.after ":" str with
  | None => if String.prefix "0x" str then get_u32 str 16 else None
  | Some _ =>
      let '(htid, tmp, read) := handle_part str in
      if negb read && negb (head_is ":" str) && negb (String.eqb str "") then None
      else if 0x1000 <=? htid then None
      else if String.eqb tmp "" then Some (Z.shiftl htid 20)
      else
        let str := tail_of tmp in
        let '(hash, tmp, read) := handle_part str in
        if negb read && negb (head_is ":" str) && negb (String.eqb str "") then None
        else if 0x100 <=? hash then None
        else if String.eqb tmp "" then Some (Z.lor (Z.shiftl htid 20) (Z.shiftl hash 12))
        else
          let str := tail_of tmp in
          let '(nodeid, tmp, read) := handle_part str in
          if negb read && negb (String.eqb str "") then None
          else if 0x1000 <=? nodeid then None
          else Some (Z.lor (Z.lor (Z.shiftl htid 20) (Z.shiftl hash 12)) nodeid)
  end.

(** The buffer holds every handle.  [iproute2-3.1.0/tc/f_u32.c:83-115 sprint_u32_handle] *)
Definition sprint_u32_handle (show_raw : bool) (handle : Z) : string :=
  let htid := TC_U32_HTID handle in
  let hash := TC_U32_HASH handle in
  let nodeid := TC_U32_NODE handle in
  if handle =? 0 then "none"
  else
    (if htid =? 0 then "" else print_x (Z.shiftr htid 20) +:+ ":") +:+
    (if Z.lor nodeid hash =? 0 then ""
     else (if hash =? 0 then "" else print_x hash) +:+ (if nodeid =? 0 then "" else ":" +:+ print_x nodeid)) +:+
    (if show_raw then "[" +:+ print_08x handle +:+ "] " else "").

(** ** Selectors *)

#[local] Set Primitive Projections.

(** The mask and the value are in the order of the network, as a word of the host.
    [iproute2-3.1.0/include/linux/pkt_cls.h:196-201 tc_u32_key] *)
Record tc_u32_key := mk_ukey { uk_mask : Z; uk_val : Z; uk_off : Z; uk_offmask : Z }.

(** The number of keys is their number.  [iproute2-3.1.0/include/linux/pkt_cls.h:203-215 tc_u32_sel] *)
Record tc_u32_sel := mk_usel {
  us_flags : Z; us_offshift : Z; us_offmask : Z; us_off : Z; us_offoff : Z; us_hoff : Z; us_hmask : Z; us_keys : list tc_u32_key
}.

#[local] Unset Primitive Projections.

Definition no_sel : tc_u32_sel := mk_usel 0 0 0 0 0 0 0 [].

(** [iproute2-3.1.0/include/linux/pkt_cls.h:231-234 TC_U32_TERMINAL] *)
Definition TC_U32_TERMINAL : Z := 1.
Definition TC_U32_OFFSET : Z := 2.
Definition TC_U32_VAROFFSET : Z := 4.
Definition TC_U32_EAT : Z := 8.

(** A key at the same place takes what is new; [None] if the two contradict each other.
    [iproute2-3.1.0/tc/f_u32.c:122-132 pack_key] *)
Fixpoint merge_key (keys : list tc_u32_key) (key mask off offmask : Z) : option (option (list tc_u32_key)) :=
  match keys with
  | [] => None
  | k :: keys =>
      if (uk_off k =? off) && (uk_offmask k =? offmask) then
        let intersect := Z.land mask (uk_mask k) in
        if negb (Z.land (Z.lxor key (uk_val k)) intersect =? 0) then Some None
        else Some (Some ((k <| uk_val := Z.lor (uk_val k) key |>) <| uk_mask := Z.lor (uk_mask k) mask |> :: keys))
      else option_map (option_map (cons k)) (merge_key keys key mask off offmask)
  end.

(** [iproute2-3.1.0/tc/f_u32.c:117-147 pack_key] *)
Definition pack_key (sel : list tc_u32_key) (key mask off offmask : Z) : option (list tc_u32_key) :=
  let key := Z.land key mask in
  match merge_key sel key mask off offmask with
  | Some o => o
  | None =>
      if 128 <=? Z.of_nat (List.length sel) then None
      else if negb (Z.rem off 4 =? 0) then None
      else Some (sel ++ [mk_ukey mask key off offmask])
  end.

(** [iproute2-3.1.0/tc/f_u32.c:149-155 pack_key32] *)
Definition pack_key32 (sel : list tc_u32_key) (key mask off offmask : Z) : option (list tc_u32_key) :=
  pack_key sel (ntohl key) (ntohl mask) off offmask.

(** [off & ~3]. *)
Definition word_start (off : Z) : Z := off - off mod 4.

(** [iproute2-3.1.0/tc/f_u32.c:157-172 pack_key16] *)
Definition pack_key16 (sel : list tc_u32_key) (key mask off offmask : Z) : option (list tc_u32_key) :=
  if (0xFFFF <? key) || (0xFFFF <? mask) then None
  else
    let shift := if off mod 4 =? 0 then 16 else 0 in
    pack_key sel (ntohl (Z.shiftl key shift)) (ntohl (Z.shiftl mask shift)) (word_start off) offmask.

(** [iproute2-3.1.0/tc/f_u32.c:174-194 pack_key8] *)
Definition pack_key8 (sel : list tc_u32_key) (key mask off offmask : Z) : option (list tc_u32_key) :=
  if (0xFF <? key) || (0xFF <? mask) then None
  else
    let shift := if off mod 4 =? 0 then 24 else if off mod 4 =? 1 then 16 else if off mod 4 =? 2 then 8 else 0 in
    pack_key sel (ntohl (Z.shiftl key shift)) (ntohl (Z.shiftl mask shift)) (word_start off) offmask.

(** ** The words of a sample *)

(** The offset, and -1 for its mask when it counts from the next header.
    [iproute2-3.1.0/tc/f_u32.c:197-223 parse_at] *)
Definition parse_at (argv : list string) (offmask : Z) : part_end (Z * Z) :=
  match argv with
  | [] => PartError (- 1)
  | p :: rest =>
      let number p offmask rest := match get_integer p 0 with Some off => Part (off, offmask) rest | None => PartError (- 1) end in
      if (8 <? String.length p)%nat && String.prefix "nexthdr+" p then number (substring 8 (String.length p - 8) p) (- 1) rest
      else if matches p "nexthdr+" then match rest with [] => PartExit | p :: rest => number p (- 1) rest end
      else number p offmask rest
  end.

(** The word [at] and what follows it, if it stands there.
    [iproute2-3.1.0/tc/f_u32.c:244-248 parse_u32] *)
Definition take_at (argv : list string) (off offmask : Z) : part_end (Z * Z) :=
  match argv with
  | "at" :: rest => match rest with [] => PartExit | _ => parse_at rest offmask end
  | _ => Part (off, offmask) argv
  end.

(** A key and a mask.  [iproute2-3.1.0/tc/f_u32.c:233-242 parse_u32] *)
Definition key_and_mask (argv : list string) : part_end (Z * Z) :=
  match argv with
  | k :: m :: rest =>
      match get_u32 k 0, get_u32 m 16 with Some key, Some mask => Part (key, mask) rest | _, _ => PartError (- 1) end
  | _ => PartError (- 1)
  end.

(** The result of packing, and the words left. *)
Definition packed (o : option (list tc_u32_key)) (argv : list string) : part_end (list tc_u32_key) :=
  match o with Some keys => Part keys argv | None => PartError (- 1) end.

(** [iproute2-3.1.0/tc/f_u32.c:226-256 parse_u32] *)
Definition parse_u32 (argv : list string) (sel : list tc_u32_key) (off offmask : Z) : part_end (list tc_u32_key) :=
  then_part (key_and_mask argv) (fun '(key, mask) argv =>
  then_part (take_at argv off offmask) (fun '(off, offmask) argv =>
  packed (pack_key32 sel key mask off offmask) argv)).

(** [iproute2-3.1.0/tc/f_u32.c:258-287 parse_u16] *)
Definition parse_u16 (argv : list string) (sel : list tc_u32_key) (off offmask : Z) : part_end (list tc_u32_key) :=
  then_part (key_and_mask argv) (fun '(key, mask) argv =>
  then_part (take_at argv off offmask) (fun '(off, offmask) argv =>
  packed (pack_key16 sel key mask off offmask) argv)).

(** [iproute2-3.1.0/tc/f_u32.c:289-322 parse_u8] *)
Definition parse_u8 (argv : list string) (sel : list tc_u32_key) (off offmask : Z) : part_end (list tc_u32_key) :=
  then_part (key_and_mask argv) (fun '(key, mask) argv =>
  if (0xFF <? key) || (0xFF <? mask) then PartError (- 1)
  else
    then_part (take_at argv off offmask) (fun '(off, offmask) argv =>
    packed (pack_key8 sel key mask off offmask) argv)).

Section Samples.
(** [success] is what stands in the field of the mark that is never set. *)
Context (inet_pton6 : string -> option (list Z)) (success : Z).

(** [iproute2-3.1.0/tc/f_u32.c:324-357 parse_ip_addr] *)
Definition parse_ip_addr (argv : list string) (sel : list tc_u32_key) (off : Z) : part_end (list tc_u32_key) :=
  match argv with
  | [] => PartError (- 1)
  | word :: argv =>
      match get_prefix_1 inet_pton6 word AF_INET with
      | None => PartError (- 1)
      | Some addr =>
          then_part (take_at argv off 0) (fun '(off, offmask) argv =>
          let mask := if bitlen addr =? 0 then 0 else ntohl (u32 (Z.shiftl 0xFFFFFFFF (32 - bitlen addr))) in
          packed (pack_key sel (data_word (data addr) 0) mask off offmask) argv)
      end
  end.

(** The mask of the word from bit [i] on: whole words first; a word of which 31 bits are left
    counts as whole.  [iproute2-3.1.0/tc/f_u32.c:387-394 parse_ip6_addr] *)
Definition ip6_mask (plen i : Z) : Z :=
  if i + 31 <=? plen then 0xFFFFFFFF else ntohl (u32 (Z.shiftl 0xFFFFFFFF (32 - (plen - i)))).

(** The words of the address below the length of the prefix.
    [iproute2-3.1.0/tc/f_u32.c:384-400 parse_ip6_addr] *)
Fixpoint ip6_keys (fuel : nat) (i : Z) (addr : inet_prefix) (off offmask : Z) (sel : list tc_u32_key) : option (list tc_u32_key) :=
  match fuel with
  | O => Some sel
  | S fuel =>
      if i <? bitlen addr then
        match pack_key sel (data_word (data addr) (Z.to_nat (i / 32))) (ip6_mask (bitlen addr) i) (off + 4 * (i / 32)) offmask with
        | None => None
        | Some sel => ip6_keys fuel (i + 32) addr off offmask sel
        end
      else Some sel
  end.

(** A prefix has at most 128 bits: four words.
    [iproute2-3.1.0/tc/f_u32.c:359-404 parse_ip6_addr] *)
Definition parse_ip6_addr (argv : list string) (sel : list tc_u32_key) (off : Z) : part_end (list tc_u32_key) :=
  match argv with
  | [] => PartError (- 1)
  | word :: argv =>
      match get_prefix_1 inet_pton6 word AF_INET6 with
      | None => PartError (- 1)
      | Some addr =>
          then_part (take_at argv off 0) (fun '(off, offmask) argv =>
          packed (ip6_keys 4 0 addr off offmask sel) argv)
      end
  end.

(** [iproute2-3.1.0/tc/f_u32.c:406-442 parse_ip6_class] *)
Definition parse_ip6_class (argv : list string) (sel : list tc_u32_key) : part_end (list tc_u32_key) :=
  then_part (key_and_mask argv) (fun '(key, mask) argv =>
  if (0xFF <? key) || (0xFF <? mask) then PartError (- 1)
  else packed (pack_key sel (ntohl (Z.shiftl key 20)) (ntohl (Z.shiftl mask 20)) 0 0) argv).

(** [n] bytes in hexadecimal with colons between; what follows is not looked at. *)
Fixpoint scan_ether (n : nat) (s : string) : option (list Z) :=
  match n with
  | O => Some []
  | S n =>
      match scanf_x s with
      | None => None
      | Some (v, rest) =>
          match n with
          | O => Some [u8 v]
          | S _ => if head_is ":" rest then option_map (cons (u8 v)) (scan_ether n (tail_of rest)) else None
          end
      end
  end.

Fixpoint ether_keys (addr : list Z) (off offmask : Z) (sel : list tc_u32_key) : option (list tc_u32_key) :=
  match addr with
  | [] => Some sel
  | b :: addr => match pack_key8 sel b 0xFF off offmask with None => None | Some sel => ether_keys addr (off + 1) offmask sel end
  end.

(** [iproute2-3.1.0/tc/f_u32.c:444-481 parse_ether_addr] *)
Definition parse_ether_addr (argv : list string) (sel : list tc_u32_key) (off : Z) : part_end (list tc_u32_key) :=
  match argv with
  | [] => PartError (- 1)
  | word :: argv =>
      match scan_ether 6 word with
      | None => PartError (- 1)
      | Some addr => then_part (take_at argv off 0) (fun '(off, offmask) argv => packed (ether_keys addr off offmask sel) argv)
      end
  end.

(** A word with something behind it: with fewer than two words -1 is returned. *)
Definition two_words (argv : list string) (f : string -> list string -> part_end (list tc_u32_key)) : part_end (list tc_u32_key) :=
  match argv with word :: (_ :: _) as rest => f word rest | _ => PartError (- 1) end.

(** [iproute2-3.1.0/tc/f_u32.c:483-541 parse_ip] *)
Definition parse_ip (argv : list string) (sel : list tc_u32_key) : part_end (list tc_u32_key) :=
  two_words argv (fun word argv =>
  if String.eqb word "src" then parse_ip_addr argv sel 12
  else if String.eqb word "dst" then parse_ip_addr argv sel 16
  else if String.eqb word "tos" || matches word "dsfield" then parse_u8 argv sel 1 0
  else if String.eqb word "ihl" then parse_u8 argv sel 0 0
  else if String.eqb word "protocol" then parse_u8 argv sel 9 0
  else if matches word "precedence" then parse_u8 argv sel 1 0
  else if String.eqb word "nofrag" then packed (pack_key16 sel 0 0x3FFF 6 0) argv
  else if String.eqb word "firstfrag" then packed (pack_key16 sel 0 0x1FFF 6 0) argv
  else if String.eqb word "df" then packed (pack_key16 sel 0x4000 0x4000 6 0) argv
  else if String.eqb word "mf" then packed (pack_key16 sel 0x2000 0x2000 6 0) argv
  else if String.eqb word "dport" then parse_u16 argv sel 22 0
  else if String.eqb word "sport" then parse_u16 argv sel 20 0
  else if String.eqb word "icmp_type" then parse_u8 argv sel 20 0
  else if String.eqb word "icmp_code" then parse_u8 argv sel 20 1
  else PartError (- 1)).

(** [iproute2-3.1.0/tc/f_u32.c:543-585 parse_ip6] *)
Definition parse_ip6 (argv : list string) (sel : list tc_u32_key) : part_end (list tc_u32_key) :=
  two_words argv (fun word argv =>
  if String.eqb word "src" then parse_ip6_addr argv sel 8
  else if String.eqb word "dst" then parse_ip6_addr argv sel 24
  else if String.eqb word "priority" then parse_ip6_class argv sel
  else if String.eqb word "protocol" then parse_u8 argv sel 6 0
  else if String.eqb word "flowlabel" then parse_u32 argv sel 0 0
  else if String.eqb word "dport" then parse_u16 argv sel 42 0
  else if String.eqb word "sport" then parse_u16 argv sel 40 0
  else if String.eqb word "icmp_type" then parse_u8 argv sel 40 0
  else if String.eqb word "icmp_code" then parse_u8 argv sel 41 1
  else PartError (- 1)).

(** [iproute2-3.1.0/tc/f_u32.c:587-610 parse_ether] *)
Definition parse_ether (argv : list string) (sel : list tc_u32_key) : part_end (list tc_u32_key) :=
  two_words argv (fun word argv =>
  if String.eqb word "src" then parse_ether_addr argv sel (- 8)
  else if String.eqb word "dst" then parse_ether_addr argv sel (- 14)
  else PartError (- 1)).

(** [parse_tcp] is another name of it.  [iproute2-3.1.0/tc/f_u32.c:613-634 parse_udp] *)
Definition parse_udp (argv : list string) (sel : list tc_u32_key) : part_end (list tc_u32_key) :=
  two_words argv (fun word argv =>
  if String.eqb word "src" then parse_u16 argv sel 0 (- 1)
  else if String.eqb word "dst" then parse_u16 argv sel 2 (- 1)
  else PartError (- 1)).

(** [iproute2-3.1.0/tc/f_u32.c:637-658 parse_icmp] *)
Definition parse_icmp (argv : list string) (sel : list tc_u32_key) : part_end (list tc_u32_key) :=
  two_words argv (fun word argv =>
  if String.eqb word "type" then parse_u8 argv sel 0 (- 1)
  else if String.eqb word "code" then parse_u8 argv sel 1 (- 1)
  else PartError (- 1)).

Definition TCA_U32_MARK : Z := 10.

(** A value and a mask; a word must follow them.
    [iproute2-3.1.0/tc/f_u32.c:660-693 parse_mark] *)
Definition parse_mark (argv : list string) (n : nlmsghdr) : part_end nlmsghdr :=
  match argv with
  | v :: m :: rest =>
      match get_u32 v 0 with
      | None => PartError (- 1)
      | Some val =>
          match get_u32 m 0 with
          | None => PartError (- 1)
          | Some mask =>
              match rest with
              | [] => PartExit
              | _ =>
                  if negb (Z.land val mask =? val) then PartError (- 1)
                  else Part (addattr_l n MAX_MSG TCA_U32_MARK (le_bytes 4 val ++ le_bytes 4 mask ++ le_bytes 4 success)).2 rest
              end
          end
      end
  | _ => PartError (- 1)
  end.

(** [iproute2-3.1.0/tc/f_u32.c:695-741 parse_selector] *)
Definition parse_selector (argv : list string) (sel : list tc_u32_key) (n : nlmsghdr) : part_end (list tc_u32_key * nlmsghdr) :=
  match argv with
  | [] => PartError (- 1)
  | word :: argv =>
      let into (p : part_end (list tc_u32_key)) := match argv with [] => PartExit | _ => then_part p (fun sel argv => Part (sel, n) argv) end in
      if matches word "u32" then into (parse_u32 argv sel 0 0)
      else if matches word "u16" then into (parse_u16 argv sel 0 0)
      else if matches word "u8" then into (parse_u8 argv sel 0 0)
      else if matches word "ip" then into (parse_ip argv sel)
      else if matches word "ip6" then into (parse_ip6 argv sel)
      else if matches word "udp" then into (parse_udp argv sel)
      else if matches word "tcp" then into (parse_udp argv sel)
      else if matches word "icmp" then into (parse_icmp argv sel)
      else if matches word "mark" then
        match argv with [] => PartExit | _ => then_part (parse_mark argv n) (fun n argv => Part (sel, n) argv) end
      else if matches word "ether" then into (parse_ether argv sel)
      else PartError (- 1)
  end.
End Samples.

(** [iproute2-3.1.0/tc/f_u32.c:743-792 parse_offset] *)
Fixpoint parse_offset (argv : list string) (sel : tc_u32_sel) : part_end tc_u32_sel :=
  match argv with
  | [] => Part sel []
  | word :: rest =>
      let with_arg {T} (parse : string -> option T) (f : T -> option tc_u32_sel) :=
        match rest with
        | [] => PartExit
        | arg :: rest =>
            match parse arg with
            | None => PartError (- 1)
            | Some v => match f v with Some sel => parse_offset rest sel | None => PartError (- 1) end
            end
        end in
      let flag f (sel : tc_u32_sel) := sel <| us_flags := Z.lor (us_flags sel) f |> in
      if matches word "plus" then
        with_arg (fun a => get_integer a 0) (fun off => Some (flag TC_U32_OFFSET (sel <| us_off := u16 off |>)))
      else if matches word "at" then
        with_arg (fun a => get_integer a 0) (fun off =>
          if negb (off mod 2 =? 0) then None else Some (flag TC_U32_VAROFFSET (sel <| us_offoff := s16 off |>)))
      else if matches word "mask" then
        with_arg (fun a => get_u16 a 16) (fun mask => Some (flag TC_U32_VAROFFSET (sel <| us_offmask := htons mask |>)))
      else if matches word "shift" then
        with_arg (fun a => get_integer a 0) (fun shift => Some (flag TC_U32_VAROFFSET (sel <| us_offshift := u8 shift |>)))
      else if matches word "eat" then parse_offset rest (flag TC_U32_EAT sel)
      else Part sel argv
  end.

(** [iproute2-3.1.0/tc/f_u32.c:794-823 parse_hashkey] *)
Fixpoint parse_hashkey (argv : list string) (sel : tc_u32_sel) : part_end tc_u32_sel :=
  match argv with
  | [] => Part sel []
  | word :: rest =>
      if matches word "mask" then
        match rest with
        | [] => PartExit
        | arg :: rest =>
            match get_u32 arg 16 with None => PartError (- 1) | Some mask => parse_hashkey rest (sel <| us_hmask := ntohl mask |>) end
        end
      else if matches word "at" then
        match rest with
        | [] => PartExit
        | arg :: rest =>
            match get_integer arg 0 with
            | None => PartError (- 1)
            | Some num => if negb (num mod 4 =? 0) then PartError (- 1) else parse_hashkey rest (sel <| us_hoff := s16 num |>)
            end
        end
      else Part sel argv
  end.

(** ** The options *)

Definition TCA_U32_CLASSID : Z := 1.
Definition TCA_U32_HASH : Z := 2.
Definition TCA_U32_LINK : Z := 3.
Definition TCA_U32_DIVISOR : Z := 4.
Definition TCA_U32_SEL : Z := 5.
Definition TCA_U32_POLICE : Z := 6.
Definition TCA_U32_ACT : Z := 7.
Definition TCA_U32_INDEV : Z := 8.
Definition TCA_U32_PCNT : Z := 9.
Definition TCA_U32_MAX : Z := 10.

#[local] Set Primitive Projections.

(** The locals of the loop, with the message and the actions registered.
    [iproute2-3.1.0/tc/f_u32.c:978-987 u32_parse_opt] *)
Record u32_locals := mk_ul {
  ul_sel : tc_u32_sel; ul_sel_ok : bool; ul_terminal : bool; ul_sample : bool; ul_htid : Z; ul_order : Z;
  ul_n : nlmsghdr; ul_kinds : list action_util
}.

#[local] Unset Primitive Projections.

(** How the loop ends; it runs out of fuel only if a word is not taken. *)
Inductive u32_end := U32Done (l : u32_locals) | U32Error | U32Exit (status : Z) | U32Wild | U32More.

(** A power of two up to 256.  [iproute2-3.1.0/tc/f_u32.c:1036-1043 u32_parse_opt] *)
Definition get_divisor (arg : string) : option Z :=
  match get_unsigned arg 0 with
  | Some d => if (d =? 0) || (0x100 <? d) || negb (Z.land (d - 1) d =? 0) then None else Some d
  | None => None
  end.

(** The handle of a hash table.  [iproute2-3.1.0/tc/f_u32.c:1052-1061 u32_parse_opt] *)
Definition table_handle (arg : string) : option Z :=
  match get_u32_handle arg with
  | Some h => if negb (h =? 0) && negb (TC_U32_NODE h =? 0) then None else Some h
  | None => None
  end.

(** The bucket of a sample: the masked word folded to a byte.
    [iproute2-3.1.0/tc/f_u32.c:1106-1109 u32_parse_opt] *)
Definition sample_bucket (k : tc_u32_key) (divisor : Z) : Z :=
  let hash := Z.land (uk_val k) (uk_mask k) in
  let hash := Z.lxor hash (Z.shiftr hash 16) in
  let hash := Z.lxor hash (Z.shiftr hash 8) in
  hash mod divisor.

Section U32.
Context (env : tc_env) (c : core) (show_raw : bool) (rtab0 ptab0 : list Z).
Context (inet_pton6 : string -> option (list Z)) (success : Z).

(** A sample has one key; a divisor may follow, and then another word must.
    [iproute2-3.1.0/tc/f_u32.c:1078-1111 u32_parse_opt] *)
Definition take_sample (argv : list string) (l : u32_locals) : part_end u32_locals :=
  then_part (parse_selector inet_pton6 success argv [] (ul_n l)) (fun '(keys, n) argv =>
  match keys with
  | [k] =>
      then_part
        match argv with
        | "divisor" :: rest =>
            match rest with
            | [] => PartExit
            | arg :: rest =>
                match get_divisor arg with
                | None => PartError (- 1)
                | Some d => match rest with [] => PartExit | _ => Part d rest end
                end
            end
        | _ => Part 0x100 argv
        end
        (fun divisor argv =>
           let htid := Z.lor (Z.shiftl (sample_bucket k divisor) 12) (Z.land (ul_htid l) 0xFFF00000) in
           Part (((l <| ul_htid := htid |>) <| ul_sample := true |>) <| ul_n := n |>) argv)
  | _ => PartError (- 1)
  end).

Definition u32_flags (f : Z) (l : u32_locals) : u32_locals :=
  l <| ul_sel := (ul_sel l) <| us_flags := Z.lor (us_flags (ul_sel l)) f |> |>.

Definition u32_add (type : Z) (data : list Z) (l : u32_locals) : u32_locals :=
  l <| ul_n := (addattr_l (ul_n l) MAX_MSG type data).2 |>.

(** The words that take one argument.  [iproute2-3.1.0/tc/f_u32.c:1025-1077 u32_parse_opt] *)
Definition u32_value (word : string) : option (string -> u32_locals -> option u32_locals) :=
  if matches word "classid" || String.eqb word "flowid" then
    Some (fun arg l => option_map (fun h => u32_flags TC_U32_TERMINAL (u32_add TCA_U32_CLASSID (le_bytes 4 h) l)) (get_tc_classid arg))
  else if matches word "divisor" then
    Some (fun arg l => option_map (fun d => u32_add TCA_U32_DIVISOR (le_bytes 4 d) l) (get_divisor arg))
  else if matches word "order" then Some (fun arg l => option_map (fun o => l <| ul_order := o |>) (get_u32 arg 0))
  else if String.eqb word "link" then
    Some (fun arg l => option_map (fun h => u32_add TCA_U32_LINK (le_bytes 4 h) l) (table_handle arg))
  else if String.eqb word "ht" then
    Some (fun arg l =>
      option_map (fun h =>
        l <| ul_htid := if ul_sample l then Z.lor (Z.land (ul_htid l) 0xFF000) (Z.land h 0xFFF00000) else Z.land h 0xFFFFF000 |>)
        (table_handle arg))
  else None.

(** [iproute2-3.1.0/tc/f_u32.c:1002-1150 u32_parse_opt] *)
Fixpoint u32_words (fuel : nat) (argv : list string) (l : u32_locals) : u32_end :=
  match fuel, argv with
  | _, [] => U32Done l
  | O, _ => U32More
  | S fuel, word :: rest =>
      let part (p : part_end u32_locals) :=
        match rest with
        | [] => U32Exit 255
        | _ =>
            match p with
            | Part l argv => u32_words fuel argv l
            | PartError _ => U32Error
            | PartExit => U32Exit 255
            end
        end in
      let in_sel (f : list string -> tc_u32_sel -> part_end tc_u32_sel) :=
        part (then_part (f rest (ul_sel l)) (fun sel argv => Part (l <| ul_sel := sel |>) argv)) in
      if matches word "match" then
        part (then_part (parse_selector inet_pton6 success rest (us_keys (ul_sel l)) (ul_n l)) (fun '(keys, n) argv =>
          Part (((l <| ul_sel := (ul_sel l) <| us_keys := keys |> |>) <| ul_n := n |>) <| ul_sel_ok := true |>) argv))
      else if matches word "offset" then in_sel parse_offset
      else if matches word "hashkey" then in_sel parse_hashkey
      else
        match u32_value word with
        | Some f =>
            match rest with
            | [] => U32Exit 255
            | arg :: rest => match f arg l with Some l => u32_words fuel rest l | None => U32Error end
            end
        | None =>
            if String.eqb word "sample" then part (take_sample rest l)
            else if String.eqb word "indev" then
              match rest with
              | [] => U32Error
              | arg :: rest => u32_words fuel rest (u32_add TCA_U32_INDEV (string_bytes (substring 0 IFNAMSIZ arg) ++ [0]) l)
              end
            else if matches word "action" then
              match rest with
              | [] => U32Exit 255
              | _ =>
                  match parse_action env rest TCA_U32_ACT (ul_n l) (ul_kinds l) with
                  | Parsed rest n kinds =>
                      u32_words fuel rest (((l <| ul_n := n |>) <| ul_kinds := kinds |>) <| ul_terminal := true |>)
                  | Unparsed _ => U32Error
                  | ParseExit status => U32Exit status
                  | ParseWild => U32Wild
                  | ParseMore => U32More
                  end
              end
            else if matches word "police" then
              match rest with
              | [] => U32Exit 255
              | _ =>
                  match parse_police c rtab0 ptab0 rest TCA_U32_POLICE (ul_n l) with
                  | AReturn r n rest => if r =? 0 then u32_words fuel rest ((l <| ul_n := n |>) <| ul_terminal := true |>) else U32Error
                  | AExit status => U32Exit status
                  end
              end
            else U32Error
        end
  end.

Definition key_bytes (k : tc_u32_key) : list Z :=
  le_bytes 4 (uk_mask k) ++ le_bytes 4 (uk_val k) ++ le_bytes 4 (uk_off k) ++ le_bytes 4 (uk_offmask k).

(** With a byte of padding behind the three bytes.
    [iproute2-3.1.0/include/linux/pkt_cls.h:203-215 tc_u32_sel] *)
Definition sel_bytes (s : tc_u32_sel) : list Z :=
  le_bytes 1 (us_flags s) ++ le_bytes 1 (us_offshift s) ++ le_bytes 1 (Z.of_nat (List.length (us_keys s))) ++ [0] ++
  le_bytes 2 (us_offmask s) ++ le_bytes 2 (us_off s) ++ le_bytes 2 (us_offoff s) ++ le_bytes 2 (us_hoff s) ++
  le_bytes 4 (us_hmask s) ++ flat_map key_bytes (us_keys s).

(** The order goes into the handle, which it must not contradict.
    [iproute2-3.1.0/tc/f_u32.c:1156-1162 u32_parse_opt] *)
Definition order_in_handle (order : Z) (n : nlmsghdr) : option nlmsghdr :=
  if order =? 0 then Some n
  else
    let h := tcm_handle_of n in
    if negb (TC_U32_NODE h =? 0) && negb (order =? TC_U32_NODE h) then None
    else Some (set_tcm_handle (Z.lor h order) n).

(** What is added once the words are read.  [iproute2-3.1.0/tc/f_u32.c:1152-1169 u32_parse_opt] *)
Definition u32_finish (tail : Z) (l : u32_locals) : option nlmsghdr :=
  let sel := ul_sel (if ul_terminal l then u32_flags TC_U32_TERMINAL l else l) in
  match order_in_handle (ul_order l) (ul_n l) with
  | None => None
  | Some n =>
      let n := if ul_htid l =? 0 then n else (addattr_l n MAX_MSG TCA_U32_HASH (le_bytes 4 (ul_htid l))).2 in
      let n := if ul_sel_ok l then (addattr_l n MAX_MSG TCA_U32_SEL (sel_bytes sel)).2 else n in
      Some (close_nest tail n)
  end.

(** A round takes a word at least: their number is fuel enough.
    [iproute2-3.1.0/tc/f_u32.c:975-1171 u32_parse_opt] *)
Definition u32_parse_opt (handle : option string) (argv : list string) (n : nlmsghdr) (kinds : list action_util) : fopt_end :=
  match option_map get_u32_handle handle with
  | Some None => FReturn (- 1) n kinds
  | h =>
      let n := match h with Some (Some h) => set_tcm_handle h n | _ => n end in
      match argv with
      | [] => FReturn 0 n kinds
      | _ =>
          let tail := NLMSG_TAIL n in
          let n := (addattr_l n MAX_MSG TCA_OPTIONS []).2 in
          match u32_words (List.length argv) argv (mk_ul no_sel false false false 0 0 n kinds) with
          | U32Done l =>
              match u32_finish tail l with Some n => FReturn 0 n (ul_kinds l) | None => FReturn (- 1) n (ul_kinds l) end
          | U32Error => FReturn (- 1) n kinds
          | U32Exit status => FExit status
          | U32Wild | U32More => FWild
          end
      end
  end.

(** ** Printing *)

(** [%#x]: nothing in front of 0. *)
Definition print_sharp_x (z : Z) : string := if z =? 0 then "0" else "0x" +:+ print_x z.

Definition ipv4_text (w : Z) : string :=
  let b := le_bytes 4 w in quad (b !!! 0%nat) (b !!! 1%nat) (b !!! 2%nat) (b !!! 3%nat).

(** The parts that the printers of IPv4 and of IPv6 have in common.
    [iproute2-3.1.0/tc/f_u32.c:829-878 print_ipv4] *)
Definition print_fields (k : tc_u32_key) (ports : string * string) : string :=
  let mask := ntohl (uk_mask k) in
  let val := ntohl (uk_val k) in
  let line := newline +:+ "  match " in
  if uk_off k =? 0 then
    if mask =? 0x0f000000 then line +:+ "IP ihl " +:+ print_u (Z.shiftr val 24)
    else if mask =? 0x00ff0000 then line +:+ "IP dsfield " +:+ print_sharp_x (Z.shiftr val 16)
    else ""
  else if uk_off k =? 8 then if mask =? 0x00ff0000 then line +:+ "IP protocol " +:+ print_d (Z.shiftr val 16) else ""
  else if (uk_off k =? 12) || (uk_off k =? 16) then
    let bits := mask2bits (uk_mask k) in
    if 0 <=? bits then
      newline +:+ "  " +:+ (if uk_off k =? 12 then "match IP src" else "match IP dst") +:+ " " +:+ ipv4_text (uk_val k) +:+ "/" +:+
      print_d bits
    else ""
  else if uk_off k =? 20 then
    let low := ports.1 +:+ " " +:+ print_u (Z.land val 0xffff) in
    let high := ports.2 +:+ " " +:+ print_u (Z.shiftr val 16) in
    if mask =? 0x0000ffff then line +:+ low
    else if mask =? 0xffff0000 then line +:+ high
    else if mask =? 0xffffffff then line +:+ low +:+ ", match " +:+ high
    else ""
  else "".

(** [iproute2-3.1.0/tc/f_u32.c:825-879 print_ipv4] *)
Definition print_ipv4 (k : tc_u32_key) : string := print_fields k ("dport", "sport").

(** The fields are those of IPv4, with the ports exchanged.
    [iproute2-3.1.0/tc/f_u32.c:881-935 print_ipv6] *)
Definition print_ipv6 (k : tc_u32_key) : string := print_fields k ("sport", "dport").

(** [iproute2-3.1.0/tc/f_u32.c:937-944 print_raw] *)
Definition print_raw (k : tc_u32_key) : string :=
  newline +:+ "  match " +:+ print_08x (ntohl (uk_val k)) +:+ "/" +:+ print_08x (ntohl (uk_mask k)) +:+ " at " +:+
  (if uk_offmask k =? 0 then "" else "nexthdr+") +:+ print_d (uk_off k).

(** [show_pretty] is a global of tc.c; [f_proto] is in the order of the network.
    [iproute2-3.1.0/tc/f_u32.c:956-973 show_keys] *)
Definition show_keys (show_pretty : bool) (f_proto : Z) (k : tc_u32_key) : string :=
  if negb show_pretty then print_raw k
  else if htons f_proto =? 0x0800 then print_ipv4 k
  else if htons f_proto =? 0x86DD then print_ipv6 k
  else print_raw k.

Definition key_at (m : list Z) (off : Z) : tc_u32_key :=
  mk_ukey (load32 m off) (load32 m (off + 4)) (s32 (load32 m (off + 8))) (s32 (load32 m (off + 12))).

(** The selector of an attribute: its fixed part, with the keys behind it. *)
Definition sel_at (m : list Z) (off : Z) : tc_u32_sel :=
  let byte i := nth i (load_bytes m off 3) 0 in
  mk_usel (byte 0%nat) (byte 1%nat) (load16 m (off + 4)) (load16 m (off + 6)) (s16 (load16 m (off + 8))) (s16 (load16 m (off + 10)))
    (load32 m (off + 12)) (map (fun i => key_at m (off + 16 + 16 * Z.of_nat i)) (seq 0 (Z.to_nat (byte 2%nat)))).

(** The class.  [iproute2-3.1.0/tc/f_u32.c:1209-1216 u32_print_opt] *)
Definition u32_class_text (sel : option tc_u32_sel) (classid : option Z) : string :=
  let terminal := match sel with Some s => negb (Z.land (us_flags s) TC_U32_TERMINAL =? 0) | None => false end in
  match classid with
  | Some h => (if terminal then "" else "*") +:+ "flowid " +:+ sprint_tc_classid h +:+ " "
  | None => if terminal then "terminal flowid ??? " else ""
  end.

(** The keys, with their counters if there are any, and the offset and the hash.
    [iproute2-3.1.0/tc/f_u32.c:1247-1274 u32_print_opt] *)
Definition u32_sel_text (show_pretty : bool) (f_proto : Z) (s : tc_u32_sel) (count : option (nat -> Z)) : string :=
  String.concat "" (imap (fun i k =>
    show_keys show_pretty f_proto k +:+ shown count (fun f => " (success " +:+ print_u (f i) +:+ " ) ")) (us_keys s)) +:+
  (if Z.land (us_flags s) (Z.lor TC_U32_VAROFFSET TC_U32_OFFSET) =? 0 then ""
   else newline +:+ "    offset " +:+
     (if Z.land (us_flags s) TC_U32_VAROFFSET =? 0 then ""
      else pad_left 4 (print_x (htons (us_offmask s))) +:+ ">>" +:+ print_d (us_offshift s) +:+ " at " +:+ print_d (us_offoff s) +:+ " ") +:+
     (if us_off s =? 0 then "" else "plus " +:+ print_d (us_off s) +:+ " ")) +:+
  (if Z.land (us_flags s) TC_U32_EAT =? 0 then "" else " eat ") +:+
  (if us_hmask s =? 0 then ""
   else newline +:+ "    hash mask " +:+ print_08x (ntohl (us_hmask s)) +:+ " at " +:+ print_d (us_hoff s) +:+ " ").

(** The data of an attribute, if there is one, which must have [size] bytes. *)
Definition sized_attr (m : list Z) (tb : list (option Z)) (k size : Z) : option (option Z) :=
  match attr_of tb k with
  | Some a => if RTA_PAYLOAD m a <? size then None else Some (Some (RTA_DATA a))
  | None => Some None
  end.

(** [iproute2-3.1.0/tc/f_u32.c:1173-1288 u32_print_opt] *)
Definition u32_print_opt (show_pretty : bool) (f_proto : Z) (m : list Z) (opt : option Z) (handle : Z) (s : action_state) : print_end :=
  match opt with
  | None => (0, "", (m, s))
  | Some opt =>
      let tb := (parse_rtattr_nested m TCA_U32_MAX opt).1 in
      let head :=
        (if handle =? 0 then "" else "fh " +:+ sprint_u32_handle show_raw handle +:+ " ") +:+
        (if TC_U32_NODE handle =? 0 then "" else "order " +:+ print_d (TC_U32_NODE handle) +:+ " ") in
      match sized_attr m tb TCA_U32_SEL 16 with
      | None => (- 1, head, (m, s))
      | Some sel =>
          let sel := option_map (sel_at m) sel in
          let text :=
            head +:+
            match word_of m tb TCA_U32_DIVISOR, word_of m tb TCA_U32_HASH with
            | Some d, _ => "ht divisor " +:+ print_d (s32 d) +:+ " "
            | None, Some htid => "key ht " +:+ print_x (TC_U32_USERHTID htid) +:+ " bkt " +:+ print_x (TC_U32_HASH htid) +:+ " "
            | None, None => "??? "
            end +:+
            u32_class_text sel (word_of m tb TCA_U32_CLASSID) +:+
            shown (word_of m tb TCA_U32_LINK) (fun h => "link " +:+ sprint_u32_handle show_raw h +:+ " ") in
          match sized_attr m tb TCA_U32_PCNT 16 with
          | None => (- 1, text +:+ "Broken perf counters " +:+ newline, (m, s))
          | Some pf =>
              let pf := if e_stats env then pf else None in
              let counter a i := of_le_bytes (load_bytes m (a + 8 * i) 8) in
              let text :=
                text +:+
                match sel, pf with
                | Some _, Some a => " (rule hit " +:+ print_u (counter a 0) +:+ " success " +:+ print_u (counter a 1) +:+ ")"
                | _, _ => ""
                end +:+
                shown (attr_of tb TCA_U32_MARK) (fun a =>
                  newline +:+
                  if RTA_PAYLOAD m a <? 12 then "  Invalid mark (kernel&iproute2 mismatch)" +:+ newline
                  else "  mark 0x" +:+ pad_left 4 (print_x (load32 m (RTA_DATA a))) +:+ " 0x" +:+
                       pad_left 4 (print_x (load32 m (RTA_DATA a + 4))) +:+ " (success " +:+
                       print_d (s32 (load32 m (RTA_DATA a + 8))) +:+ ")") +:+
                shown sel (fun s => u32_sel_text show_pretty f_proto s (option_map (fun a i => counter a (2 + Z.of_nat i)) pf)) +:+
                shown (attr_of tb TCA_U32_POLICE) (fun a => newline +:+ tc_print_police env c show_raw m a) +:+
                shown (attr_of tb TCA_U32_INDEV) (fun a =>
                  newline +:+ "  input dev " +:+ cstring (drop (Z.to_nat (RTA_DATA a)) m) +:+ newline) in
              then_actions env m (attr_of tb TCA_U32_ACT) text "" s
          end
      end
  end.
End U32.
