(* ===== verification/TcU32Match.v ===== *)
(** * What a selector of the u32 classifier selects

    Packets are functions from addresses to bytes; a selector is the conjunction of its keys,
    and packing a field of one, two or four bytes adds exactly that field to the conjunction,
    whether it gets a key of its own or is merged into one at the same place. *)

From S2P Require Export TcU32.

#[local] Open Scope list_scope.

(** ** Packets and keys *)

(** The bytes at an address and behind it. *)
Definition bytes_at (pkt : Z -> Z) (addr : Z) (n : nat) : list Z := map (fun i => pkt (addr + Z.of_nat i)) (seq 0 n).

(** The word a key is compared with, and a number in the order of the network. *)
Definition word_at (pkt : Z -> Z) (addr : Z) : Z := of_le_bytes (bytes_at pkt addr 4).
Definition field_at (n : nat) (pkt : Z -> Z) (addr : Z) : Z := of_le_bytes (rev (bytes_at pkt addr n)).

(** The masked word is the value of the key; [nexthdr] is where the next header begins. *)
Definition key_matches (pkt : Z -> Z) (nexthdr : Z) (k : tc_u32_key) : Prop :=
  Z.land (word_at pkt (uk_off k + Z.land nexthdr (uk_offmask k))) (uk_mask k) = uk_val k.

Definition selects (pkt : Z -> Z) (nexthdr : Z) (sel : list tc_u32_key) : Prop := Forall (key_matches pkt nexthdr) sel.

Definition packet (pkt : Z -> Z) : Prop := forall a, byte (pkt a).

(** No key has a value outside its mask, and there are at most 128, each at a word. *)
Definition key_ok (k : tc_u32_key) : Prop :=
  word32 (uk_mask k) /\ Z.land (uk_val k) (uk_mask k) = uk_val k /\ uk_off k mod 4 = 0.
Definition sel_ok (sel : list tc_u32_key) : Prop := Forall key_ok sel /\ Z.of_nat (List.length sel) <= 128.

(** ** Merging *)

Lemma land_bits a b c : Z.land a b = c <-> forall i, 0 <= i -> Z.testbit a i && Z.testbit b i = Z.testbit c i.
Proof.
  split; [intros <- i _; by rewrite Z.land_spec|]. intros H. apply Z.bits_inj'. intros i Hi. rewrite Z.land_spec. by apply H.
Qed.

(** Two masked values that agree where both masks have a bit. *)
Lemma masks_join w M V m k :
  Z.land V M = V -> Z.land k m = k -> Z.land (Z.lxor k V) (Z.land m M) = 0 ->
  Z.land w (Z.lor M m) = Z.lor V k <-> Z.land w M = V /\ Z.land w m = k.
Proof.
  rewrite !land_bits. intros HV Hk Hx.
  assert (forall i, 0 <= i -> (Z.testbit k i <> Z.testbit V i -> Z.testbit m i && Z.testbit M i = false)) as Hc.
  { intros i Hi Hne. specialize (Hx i Hi). rewrite Z.lxor_spec, Z.land_spec, Z.bits_0 in Hx.
    destruct (Z.testbit k i), (Z.testbit V i), (Z.testbit m i), (Z.testbit M i); done. }
  split.
  - intros H. split; intros i Hi; specialize (H i Hi); specialize (HV i Hi); specialize (Hk i Hi); specialize (Hc i Hi);
      rewrite !Z.lor_spec in H; destruct (Z.testbit w i), (Z.testbit M i), (Z.testbit m i), (Z.testbit V i), (Z.testbit k i);
      cbn in *; try done; by specialize (Hc ltac:(done)).
  - intros [H1 H2] i Hi. specialize (H1 i Hi). specialize (H2 i Hi). rewrite !Z.lor_spec. rewrite <- H1, <- H2.
    by destruct (Z.testbit w i), (Z.testbit M i), (Z.testbit m i).
Qed.

(** Values that differ where both masks have a bit cannot both be matched. *)
Lemma masks_contradict w M V m k :
  Z.land w M = V -> Z.land w m = k -> Z.land (Z.lxor k V) (Z.land m M) = 0.
Proof.
  intros <- <-. apply Z.bits_inj'. intros i Hi. rewrite !Z.land_spec, Z.lxor_spec, !Z.land_spec, Z.bits_0.
  by destruct (Z.testbit w i), (Z.testbit M i), (Z.testbit m i).
Qed.

(** A key merged into the keys means both; one that is refused contradicts them; and one that
    finds no place shares its place with none. *)
Lemma merge_key_ok keys key mask off offmask : Forall key_ok keys -> word32 mask -> Z.land key mask = key ->
  match merge_key keys key mask off offmask with
  | Some (Some keys') => Forall key_ok keys' /\ List.length keys' = List.length keys /\ forall pkt nexthdr,
      selects pkt nexthdr keys' <-> selects pkt nexthdr keys /\ key_matches pkt nexthdr (mk_ukey mask key off offmask)
  | Some None => forall pkt nexthdr, selects pkt nexthdr keys -> ~ key_matches pkt nexthdr (mk_ukey mask key off offmask)
  | None => Forall (fun k => ~ (uk_off k = off /\ uk_offmask k = offmask)) keys
  end.
Proof.
  intros Hkeys Hm Hk. induction Hkeys as [|k keys (Km & Kv & Ko) Hkeys IH]; cbn [merge_key]; [constructor|].
  destruct (Z.eqb_spec (uk_off k) off) as [Eo|Hne]; cbn [andb].
  - destruct (Z.eqb_spec (uk_offmask k) offmask) as [Em|Hne].
    + destruct (Z.eqb_spec (Z.land (Z.lxor key (uk_val k)) (Z.land mask (uk_mask k))) 0) as [E|E]; cbn [negb].
      * split; [|split; [done|]].
        { constructor; [|done]. split; [by apply word32_lor|]. split; [|exact Ko]. cbn.
          apply Z.bits_inj'. intros i Hi. rewrite Z.land_spec, !Z.lor_spec.
          pose proof (proj1 (land_bits _ _ _) Kv i Hi). pose proof (proj1 (land_bits _ _ _) Hk i Hi).
          by destruct (Z.testbit (uk_val k) i), (Z.testbit key i), (Z.testbit (uk_mask k) i), (Z.testbit mask i). }
        intros pkt nexthdr. unfold selects. rewrite !Forall_cons. unfold key_matches at 1 3 5. cbn. rewrite <- Eo, <- Em.
        rewrite (masks_join _ _ _ _ _ Kv Hk E). tauto.
      * intros pkt nexthdr Hs Hn. unfold selects in Hs. rewrite Forall_cons in Hs. destruct Hs as [Hs _]. apply E.
        unfold key_matches in Hs, Hn. cbn in Hn. rewrite <- Eo, <- Em in Hn. exact (masks_contradict _ _ _ _ _ Hs Hn).
    + destruct (merge_key keys key mask off offmask) as [[keys'|]|]; cbn [option_map].
      * destruct IH as (I1 & I2 & I3). split; [by constructor|]. split; [cbn; lia|]. intros pkt nexthdr. unfold selects in *.
        rewrite !Forall_cons, I3. tauto.
      * intros pkt nexthdr Hs. unfold selects in Hs. rewrite Forall_cons in Hs. destruct Hs as [_ Hs]. by apply IH.
      * constructor; [by intros [_ ?]|exact IH].
  - destruct (merge_key keys key mask off offmask) as [[keys'|]|]; cbn [option_map].
    + destruct IH as (I1 & I2 & I3). split; [by constructor|]. split; [cbn; lia|]. intros pkt nexthdr. unfold selects in *.
      rewrite !Forall_cons, I3. tauto.
    + intros pkt nexthdr Hs. unfold selects in Hs. rewrite Forall_cons in Hs. destruct Hs as [_ Hs]. by apply IH.
    + constructor; [by intros [? _]|exact IH].
Qed.

(** Packing adds the masked word to the conjunction; it is refused only when nothing could be
    selected, when there are 128 keys, or when the offset is none of a word. *)
Lemma u32_pack_ok sel key mask off offmask : sel_ok sel -> word32 mask ->
  match pack_key sel key mask off offmask with
  | Some sel' => sel_ok sel' /\ forall pkt nexthdr, selects pkt nexthdr sel' <->
      selects pkt nexthdr sel /\ Z.land (word_at pkt (off + Z.land nexthdr offmask)) mask = Z.land key mask
  | None => (forall pkt nexthdr, selects pkt nexthdr sel ->
        Z.land (word_at pkt (off + Z.land nexthdr offmask)) mask <> Z.land key mask) \/
      Z.of_nat (List.length sel) = 128 \/ off mod 4 <> 0
  end.
Proof.
  intros [Hs Hl] Hm. unfold pack_key.
  assert (Z.land (Z.land key mask) mask = Z.land key mask) as Hk by (by rewrite <- Z.land_assoc, Z.land_diag).
  pose proof (merge_key_ok sel (Z.land key mask) mask off offmask Hs Hm Hk) as H.
  destruct (merge_key sel (Z.land key mask) mask off offmask) as [[sel'|]|].
  - destruct H as (H1 & H2 & H3). split; [split; [done|lia]|]. exact H3.
  - left. exact H.
  - destruct (Z.leb_spec 128 (Z.of_nat (List.length sel))); [right; left; lia|].
    destruct (Z.eqb_spec (Z.rem off 4) 0) as [E|E]; cbn [negb].
    + apply Z.rem_divide in E as [q ->]; [|done]. assert (q * 4 mod 4 = 0) as E4 by (by rewrite Z.mod_mul).
      split; [split|].
      * apply Forall_app. split; [done|]. constructor; [|done]. by split.
      * rewrite length_app. cbn. lia.
      * intros pkt nexthdr. unfold selects. rewrite Forall_app, Forall_cons. unfold key_matches at 2. cbn.
        split; [intros (? & ? & _); by split|intros [? ?]; split; [done|split; [done|constructor]]].
    + right. right. intros E4. apply E. apply Z.rem_divide; [done|]. by apply Z.mod_divide.
Qed.

(** ** Fields *)

(** A number within a mask is the number a byte list within a list of masks. *)
Lemma of_le_zero l : Forall byte l -> of_le_bytes l = 0 <-> Forall (fun b => b = 0) l.
Proof.
  induction 1 as [|b l Hb Hl IH]; [by split|]. cbn [of_le_bytes]. pose proof (of_le_range l Hl). unfold byte in Hb.
  rewrite Forall_cons, <- IH. lia.
Qed.

(** Bytes that agree under masks, one by one. *)
Definition agree (b v m : list Z) : Prop := Forall (fun x => x = 0) (zip_with Z.land (zip_with Z.lxor b v) m).

Lemma zip_bytes op l l' : (forall a b, byte a -> byte b -> byte (op a b)) -> Forall byte l -> Forall byte l' ->
  Forall byte (zip_with op l l').
Proof.
  intros Hop Hl. revert l'. induction Hl as [|a l Ha _ IH]; intros [|b l'] H; cbn; constructor; apply Forall_cons in H as [? ?];
    [by apply Hop|by apply IH].
Qed.

Lemma land_lxor_distr a b m : Z.land (Z.lxor a b) m = Z.lxor (Z.land a m) (Z.land b m).
Proof.
  apply Z.bits_inj'. intros i Hi. rewrite Z.land_spec, !Z.lxor_spec, !Z.land_spec.
  by destruct (Z.testbit a i), (Z.testbit b i), (Z.testbit m i).
Qed.

Lemma agree_land b v m :
  List.length b = List.length v -> List.length v = List.length m -> Forall byte b -> Forall byte v -> Forall byte m ->
  Z.land (of_le_bytes b) (of_le_bytes m) = Z.land (of_le_bytes v) (of_le_bytes m) <-> agree b v m.
Proof.
  intros L1 L2 Hb Hv Hm. unfold agree.
  assert (Forall byte (zip_with Z.lxor b v)) as Hx by (by apply zip_bytes; [apply lxor_byte|..]).
  rewrite <- of_le_zero by (by apply zip_bytes; [apply land_byte|..]).
  rewrite <- (bytewise Z.land andb Z.land_spec land_byte) by (done || rewrite length_zip_with; lia).
  rewrite <- (bytewise Z.lxor xorb Z.lxor_spec lxor_byte) by done.
  rewrite land_lxor_distr. symmetry. apply Z.lxor_eq_0_iff.
Qed.

Lemma agree_app b v m b' v' m' : List.length b = List.length v -> List.length v = List.length m ->
  agree (b ++ b') (v ++ v') (m ++ m') <-> agree b v m /\ agree b' v' m'.
Proof.
  intros L1 L2. unfold agree. rewrite zip_with_app by done. rewrite zip_with_app by (rewrite length_zip_with; lia).
  by rewrite Forall_app.
Qed.

Lemma agree_zeros b v n : agree b v (replicate n 0).
Proof.
  unfold agree. generalize (zip_with Z.lxor b v). induction n as [|n IH]; intros [|x l]; cbn; constructor; [apply Z.land_0_r|apply IH].
Qed.

Lemma agree_rev b v m : List.length b = List.length v -> List.length v = List.length m -> agree (rev b) (rev v) (rev m) <-> agree b v m.
Proof.
  revert v m. induction b as [|x b IH]; intros [|y v] [|z m] L1 L2; try done. cbn [rev]. rewrite agree_app by (rewrite !length_rev; cbn in *; lia).
  rewrite IH by (cbn in *; lia). unfold agree. cbn [zip_with]. rewrite !Forall_cons. split; [intros (? & ? & _); by split|].
  intros [? ?]. split; [done|]. split; [done|constructor].
Qed.

(** The number in front of a word: its bytes in the order of the network. *)
Lemma shifted_be n k v : (n + k <= 4)%nat -> 0 <= v < 2 ^ (8 * Z.of_nat n) ->
  be_bytes 4 (Z.shiftl v (8 * Z.of_nat k)) = replicate (4 - n - k) 0 ++ be_bytes n v ++ replicate k 0.
Proof.
  intros Hn Hv. assert (of_le_bytes (le_bytes n v) = v) as Ev by (rewrite of_le_bytes_le; by apply Z.mod_small).
  assert (Forall byte (le_bytes n v)) as Hb.
  { clear. revert v. induction n as [|n IH]; intros v; cbn; constructor; [apply Z.mod_pos_bound; lia|apply IH]. }
  pose proof (shifted_bytes k (le_bytes n v) (4 - n - k) ltac:(rewrite le_bytes_length; lia) Hb) as E. rewrite Ev in E.
  assert (0 <= Z.shiftl v (8 * Z.of_nat k) < 2 ^ 32) as Hr.
  { rewrite Z.shiftl_mul_pow2 by lia. split; [apply Z.mul_nonneg_nonneg; lia|].
    apply Z.lt_le_trans with (2 ^ (8 * Z.of_nat n) * 2 ^ (8 * Z.of_nat k)); [apply Z.mul_lt_mono_pos_r; lia|].
    rewrite <- Z.pow_add_r by lia. apply Z.pow_le_mono_r; lia. }
  rewrite u32_small in E by done. rewrite E. unfold be_bytes.
  assert (Forall byte (replicate k 0 ++ le_bytes n v ++ replicate (4 - n - k) 0)) as Hall.
  { rewrite !Forall_app. split; [by apply Forall_replicate|]. split; [done|by apply Forall_replicate]. }
  pose proof (le_of_le _ Hall) as El. rewrite !length_app, !length_replicate, le_bytes_length in El.
  replace (k + (n + (4 - n - k)))%nat with 4%nat in El by lia. rewrite El, !rev_app_distr.
  rewrite <- app_assoc. assert (forall j, rev (replicate j 0) = replicate j 0) as Er; [|by rewrite !Er].
  intros j. rewrite rev_alt. apply reverse_replicate.
Qed.

Lemma bytes_at_length pkt a n : List.length (bytes_at pkt a n) = n.
Proof. unfold bytes_at. by rewrite length_map, length_seq. Qed.

Lemma bytes_at_bytes pkt a n : packet pkt -> Forall byte (bytes_at pkt a n).
Proof. intros Hp. unfold bytes_at. apply Forall_map. apply Forall_true. intros i. apply Hp. Qed.

Lemma bytes_at_split pkt a n n' : bytes_at pkt a (n + n') = bytes_at pkt a n ++ bytes_at pkt (a + Z.of_nat n) n'.
Proof.
  unfold bytes_at. rewrite seq_app, map_app. f_equal. replace (0 + n)%nat with (n + 0)%nat by lia.
  rewrite <- fmap_add_seq. rewrite map_map. apply map_ext. intros i. f_equal. lia.
Qed.

Lemma be_bytes_rev n v : 0 <= v < 2 ^ (8 * Z.of_nat n) -> of_le_bytes (rev (be_bytes n v)) = v.
Proof. intros Hv. unfold be_bytes. rewrite rev_involutive, of_le_bytes_le. by apply Z.mod_small. Qed.

(** A field inside a word is compared as the number it is. *)
Lemma field_in_word n j pkt w key mask : (n + j <= 4)%nat -> packet pkt ->
  0 <= key < 2 ^ (8 * Z.of_nat n) -> 0 <= mask < 2 ^ (8 * Z.of_nat n) ->
  let k := 8 * Z.of_nat (4 - n - j) in
  Z.land (word_at pkt w) (ntohl (Z.shiftl mask k)) = Z.land (ntohl (Z.shiftl key k)) (ntohl (Z.shiftl mask k)) <->
  Z.land (field_at n pkt (w + Z.of_nat j)) mask = Z.land key mask.
Proof.
  intros Hn Hp Hk Hm k. unfold k. rewrite !ntohl_bytes, (shifted_be n (4 - n - j) mask), (shifted_be n (4 - n - j) key) by (lia || done).
  replace (4 - n - (4 - n - j))%nat with j by lia.
  assert (bytes_at pkt w 4 = bytes_at pkt w j ++ bytes_at pkt (w + Z.of_nat j) n ++ bytes_at pkt (w + Z.of_nat j + Z.of_nat n) (4 - n - j)) as E.
  { rewrite <- !bytes_at_split. f_equal. lia. }
  assert (forall z, Forall byte (replicate z 0)) as Hz by (intros; by apply Forall_replicate).
  unfold word_at. rewrite agree_land.
  2,3: rewrite ?E, !length_app, !length_replicate, ?bytes_at_length, !be_bytes_length; lia.
  2: by apply bytes_at_bytes.
  2,3: rewrite !Forall_app; auto using be_bytes_bytes.
  rewrite E. rewrite agree_app by (rewrite ?bytes_at_length, !length_replicate; done).
  rewrite agree_app by (rewrite ?bytes_at_length, !be_bytes_length; done).
  unfold field_at. rewrite <- (be_bytes_rev n mask Hm) at 2. rewrite <- (be_bytes_rev n key Hk) at 2.
  rewrite <- (be_bytes_rev n mask Hm) at 3.
  rewrite agree_land by (first [rewrite !length_rev, ?bytes_at_length, !be_bytes_length; done
    |apply Forall_rev; first [by apply bytes_at_bytes|apply be_bytes_bytes]]).
  rewrite agree_rev by (rewrite ?bytes_at_length, !be_bytes_length; done).
  split; [tauto|]. intros H. split; [apply agree_zeros|]. split; [exact H|apply agree_zeros].
Qed.

(** ** The packing functions *)

(** The widths of the samples. *)
Definition pack_field (n : nat) : list tc_u32_key -> Z -> Z -> Z -> Z -> option (list tc_u32_key) :=
  match n with 1%nat => pack_key8 | 2%nat => pack_key16 | _ => pack_key32 end.

(** Where the functions put a field as it is meant: within a word, a half word at its even
    bytes. *)
Definition placed (n : nat) (off : Z) : Prop :=
  n = 1%nat \/ (n = 2%nat /\ off mod 2 = 0) \/ (n = 4%nat /\ off mod 4 = 0).

Lemma word_start_ok off : word_start off + off mod 4 = off.
Proof. unfold word_start. lia. Qed.

(** What a packing function hands on: the field at its place in the word. *)
Lemma pack_field_word n sel key mask off offmask sel' :
  placed n off -> word32 key -> word32 mask -> pack_field n sel key mask off offmask = Some sel' ->
  exists j, (n + j <= 4)%nat /\ off mod 4 = Z.of_nat j /\ 0 <= key < 2 ^ (8 * Z.of_nat n) /\ 0 <= mask < 2 ^ (8 * Z.of_nat n) /\
    let k := 8 * Z.of_nat (4 - n - j) in
    pack_key sel (ntohl (Z.shiftl key k)) (ntohl (Z.shiftl mask k)) (word_start off) offmask = Some sel'.
Proof.
  intros Hp Hk Hm E. unfold word32 in *. pose proof (Z.mod_pos_bound off 4 ltac:(lia)) as Hj. exists (Z.to_nat (off mod 4)).
  destruct Hp as [->|[[-> He]|[-> He]]]; cbn [pack_field] in E.
  - unfold pack_key8 in E. destruct (Z.ltb_spec 0xFF key), (Z.ltb_spec 0xFF mask); try done. cbn [orb] in E.
    split; [lia|]. split; [lia|]. change (2 ^ (8 * Z.of_nat 1)) with 256. split; [lia|]. split; [lia|].
    assert (off mod 4 = 0 \/ off mod 4 = 1 \/ off mod 4 = 2 \/ off mod 4 = 3) as [Ej|[Ej|[Ej|Ej]]] by lia; rewrite Ej in *; exact E.
  - unfold pack_key16 in E. destruct (Z.ltb_spec 0xFFFF key), (Z.ltb_spec 0xFFFF mask); try done. cbn [orb] in E.
    assert (off mod 4 = 0 \/ off mod 4 = 2) as [Ej|Ej] by (Z.div_mod_to_equations; lia); rewrite Ej in *;
      (split; [lia|]; split; [lia|]; change (2 ^ (8 * Z.of_nat 2)) with 65536; split; [lia|]; split; [lia|]; exact E).
  - unfold pack_key32 in E. unfold word_start. rewrite He, Z.sub_0_r. split; [lia|]. split; [lia|]. split; [exact Hk|].
    split; [exact Hm|]. change (8 * Z.of_nat (4 - 4 - Z.to_nat 0)) with 0. cbv zeta. rewrite !Z.shiftl_0_r. exact E.
Qed.


