(* ===== verification/TcU32Facts.v ===== *)
(** * Handles and limits of the u32 classifier

    What a handle printed is read back as, and the places where a sample of f_u32.c does not
    ask for what its words say. *)

From S2P Require Export TcU32Match.

#[local] Open Scope list_scope.

(** ** Handles *)

(** The parts of a handle: table, bucket and node. *)
Lemma u32_parts h : 0 <= h < 2 ^ 32 ->
  Z.shiftr (TC_U32_HTID h) 20 = h / 2 ^ 20 /\ TC_U32_HASH h = h / 2 ^ 12 mod 2 ^ 8 /\ TC_U32_NODE h = h mod 2 ^ 12.
Proof.
  intros Hh. unfold TC_U32_HTID, TC_U32_HASH, TC_U32_NODE.
  change 0xFFF with (Z.ones 12). change 0xFF with (Z.ones 8). rewrite Z.shiftr_land.
  change (Z.shiftr 0xFFF00000 20) with (Z.ones 12). rewrite !Z.land_ones, !Z.shiftr_div_pow2 by lia.
  split; [|done]. apply Z.mod_small. Z.div_mod_to_equations. lia.
Qed.

Lemma handle_part_x z rest : 0 <= z < 2 ^ 32 ->
  match rest with String c _ => Ascii.eqb c ":" = true | "" => True end ->
  handle_part (print_x z +:+ rest) = (z, rest, true).
Proof.
  intros Hz Hr. unfold handle_part. rewrite strtoul_print_x; [by rewrite u32_small|unfold ULONG_MAX; lia|].
  destruct rest; [done|]. by rewrite Hr, orb_true_r.
Qed.

Lemma after_found c s t : exists r, Addr.after c (s +:+ String c t) = Some r.
Proof.
  induction s as [|d s [r IH]].
  - exists t. change (Addr.after c ("" +:+ String c t)) with (if Ascii.eqb c c then Some t else Addr.after c t).
    by rewrite Ascii.eqb_refl.
  - change (Addr.after c (String d s +:+ String c t)) with
      (if Ascii.eqb d c then Some (s +:+ String c t) else Addr.after c (s +:+ String c t)).
    destruct (Ascii.eqb d c); [by exists (s +:+ String c t)|by exists r].
Qed.

(** The text behind the colon of a handle: bucket and node. *)
Lemma handle_tail hash node : 0 <= hash < 2 ^ 8 -> 0 <= node < 2 ^ 12 ->
  let text := (if Z.lor node hash =? 0 then ""
     else (if hash =? 0 then "" else print_x hash) +:+ (if node =? 0 then "" else ":" +:+ print_x node)) in
  exists tmp read, handle_part text = (hash, tmp, read) /\
    (negb read && negb (head_is ":" text) && negb (String.eqb text "") = false) /\
    tmp = (if node =? 0 then "" else ":" +:+ print_x node).
Proof.
  intros Hh Hn text. unfold text.
  destruct (Z.eqb_spec (Z.lor node hash) 0) as [E|E].
  { apply Z.lor_eq_0_iff in E as [-> ->]. by exists "", false. }
  destruct (Z.eqb_spec hash 0) as [->|Eh].
  - destruct (Z.eqb_spec node 0) as [->|En]; [by rewrite Z.lor_0_l in E|].
    change ("" +:+ (":" +:+ print_x node)) with (String ":" (print_x node)).
    eexists _, _. unfold handle_part. rewrite strtoul_colon. split; [reflexivity|]. by split.
  - eexists _, true. split; [apply handle_part_x; [lia|by destruct (node =? 0)]|]. by split.
Qed.

(** Every handle in a table is read back from what is printed of it.  A handle without a table
    is not: see [u32_handle_no_table]. *)
Theorem u32_handle_roundtrip h : 2 ^ 20 <= h < 2 ^ 32 -> get_u32_handle (sprint_u32_handle false h) = Some h.
Proof.
  intros Hh. destruct (u32_parts h ltac:(lia)) as (Et & Eh & En). unfold sprint_u32_handle. rewrite Et, Eh, En.
  assert (0 < h / 2 ^ 20 < 2 ^ 12) as Ht by (Z.div_mod_to_equations; lia).
  pose proof (Z.mod_pos_bound (h / 2 ^ 12) (2 ^ 8) ltac:(lia)) as Hb. pose proof (Z.mod_pos_bound h (2 ^ 12) ltac:(lia)) as Hn.
  destruct (Z.eqb_spec h 0); [lia|]. destruct (Z.eqb_spec (TC_U32_HTID h) 0) as [E|_]; [rewrite E in Et; change (Z.shiftr 0 20) with 0 in Et; lia|].
  destruct (handle_tail _ _ Hb Hn) as (tmp & read & E & Ec & Etmp). cbv zeta in E, Ec.
  set (tail := if Z.lor (h mod 2 ^ 12) _ =? 0 then "" else _) in *. rewrite append_empty, append_assoc.
  unfold get_u32_handle. change (":" +:+ tail) with (String ":" tail).
  destruct (after_found ":" (print_x (h / 2 ^ 20)) tail) as [r ->].
  rewrite handle_part_x by (done || lia). cbn [negb andb]. destruct (Z.leb_spec 0x1000 (h / 2 ^ 20)); [lia|].
  cbn [tail_of String.eqb]. rewrite E, Ec. destruct (Z.leb_spec 0x100 (h / 2 ^ 12 mod 2 ^ 8)); [lia|].
  rewrite !Z.shiftl_mul_pow2 by lia. rewrite lor_add by lia. subst tmp.
  destruct (Z.eqb_spec (h mod 2 ^ 12) 0) as [E0|E0].
  - cbn [String.eqb]. f_equal. Z.div_mod_to_equations. lia.
  - change (":" +:+ print_x (h mod 2 ^ 12)) with (String ":" (print_x (h mod 2 ^ 12))). cbn [tail_of String.eqb].
    rewrite <- (append_empty (print_x (h mod 2 ^ 12))), handle_part_x by (done || lia). cbn [negb andb].
    destruct (Z.leb_spec 0x1000 (h mod 2 ^ 12)); [lia|].
    replace (h / 2 ^ 20 * 2 ^ 20 + (h / 2 ^ 12 mod 2 ^ 8) * 2 ^ 12) with (h / 2 ^ 12 * 2 ^ 12) by (Z.div_mod_to_equations; lia).
    rewrite lor_add by lia. f_equal. Z.div_mod_to_equations. lia.
Qed.

Lemma u32_handle_roundtrip_witness : get_u32_handle "800:1a:5" = Some 0x8001a005 /\ get_u32_handle (sprint_u32_handle false 0x80000805) = Some 0x80000805.
Proof. split; [by vm_compute|]. apply (u32_handle_roundtrip 0x80000805). lia. Defined.

(** A handle with neither table nor bucket is printed as a colon and its node, and read back as
    a bucket. *)
Example u32_handle_no_table : sprint_u32_handle false 5 = ":5" /\ get_u32_handle ":5" = Some 0x5000.
Proof. by vm_compute. Qed.

(** Any character separates the parts, and anything may follow them. *)
Example u32_handle_junk : get_u32_handle "800x1:2" = get_u32_handle "800:1:2" /\ get_u32_handle "1:2:3junk" = get_u32_handle "1:2:3".
Proof. by vm_compute. Qed.

(** A table number is cut to 32 bits before its range is tested. *)
Example u32_table_wraps : get_u32_handle "100000001:" = get_u32_handle "1:".
Proof. by vm_compute. Qed.

(** ** Samples that ask for something else *)

(** One bit short of a whole word is a whole word: of a prefix of 31 bits 32 are compared. *)
Lemma ip6_mask_31 plen i : i + 31 = plen -> ip6_mask plen i = 0xFFFFFFFF.
Proof. intros <-. unfold ip6_mask. by destruct (Z.leb_spec (i + 31) (i + 31)); [|lia]. Qed.

(** The offset of the code of an ICMP message is written as the mask of an offset: over IPv4 the
    byte of the type is looked at, or that of the code if the next header begins at an odd
    place; over IPv6 the right byte, unless it begins at an odd place. *)
Lemma icmp_code_place inet_pton6 k m k' m' sel :
  get_u32 k 0 = Some k' -> get_u32 m 16 = Some m' -> (0xFF <? k') || (0xFF <? m') = false ->
  parse_ip inet_pton6 ["icmp_code"; k; m] sel = packed (pack_key8 sel k' m' 20 1) [] /\
  parse_ip6 inet_pton6 ["icmp_code"; k; m] sel = packed (pack_key8 sel k' m' 41 1) [].
Proof.
  intros Ek Em Er. unfold parse_ip, parse_ip6, two_words. cbn [String.eqb Ascii.eqb Bool.eqb orb matches String.prefix ascii_dec].
  split; cbn; unfold parse_u8, key_and_mask; rewrite Ek, Em; cbn [then_part]; rewrite Er; done.
Qed.

(** A half word at an odd offset is looked for at the end of its word. *)
Example pack_key16_odd : pack_key16 [] 0xabcd 0xffff 1 0 = pack_key16 [] 0xabcd 0xffff 2 0.
Proof. by vm_compute. Qed.

(** The samples without a value are refused when they end the command. *)
Example flags_end_refused inet_pton6 :
  (forall w, w = "df" \/ w = "mf" \/ w = "nofrag" \/ w = "firstfrag" -> parse_ip inet_pton6 [w] [] = PartError (- 1)) /\
  exists sel, parse_ip inet_pton6 ["df"; "flowid"] [] = Part sel ["flowid"].
Proof. split; [by intros w [->|[->|[->| ->]]]|]. eexists. by vm_compute. Qed.

(** A mark must be followed by another word, or the program exits. *)
Example mark_end_exits success n : parse_mark success ["1"; "0xff"] n = PartExit.
Proof. by vm_compute. Qed.
