(* ===== verification/TcRsvp.v ===== *)
(** * The resource reservation classifier (iproute2-3.1.0/tc/f_rsvp.c)

    Sessions and senders with the ports or the generalised ports behind them, the request
    and the printer; which packets a generalised port selects.  The reading of protocol
    names is that of [LlNames]; its cache is an argument, and what the words leave in it is
    not kept, which no answer shows ([proto_session_refines]). *)

From S2P Require Export TcU32Match LlNames.

#[local] Open Scope list_scope.

#[local] Set Primitive Projections.

(** The key and the mask in the order of the network, as words of the host.
    [iproute2-3.1.0/include/linux/pkt_cls.h:254-258 tc_rsvp_gpi] *)
Record tc_rsvp_gpi := mk_gpi { g_key : Z; g_mask : Z; g_offset : Z }.

(** [iproute2-3.1.0/include/linux/pkt_cls.h:260-267 tc_rsvp_pinfo] *)
Record tc_rsvp_pinfo := mk_pinfo { p_dpi : tc_rsvp_gpi; p_spi : tc_rsvp_gpi; p_protocol : Z; p_tunnelid : Z; p_tunnelhdr : Z }.

(** The structure, whether anything of it was given, and the cache of protocols.
    [iproute2-3.1.0/tc/f_rsvp.c:172-176 rsvp_parse_opt] *)
Record rsvp_locals := mk_rsvp { rv_info : tc_rsvp_pinfo; rv_ok : bool; rv_cache : proto_cache }.

#[local] Unset Primitive Projections.

Definition no_gpi : tc_rsvp_gpi := mk_gpi 0 0 0.
Definition no_pinfo : tc_rsvp_pinfo := mk_pinfo no_gpi no_gpi 0 0 0.

Definition IPPROTO_AH : Z := 51.
Definition IPPROTO_ESP : Z := 50.

Definition TCA_RSVP_CLASSID : Z := 1.
Definition TCA_RSVP_DST : Z := 2.
Definition TCA_RSVP_SRC : Z := 3.
Definition TCA_RSVP_PINFO : Z := 4.
Definition TCA_RSVP_POLICE : Z := 5.
Definition TCA_RSVP_MAX : Z := 6.

Definition gpi_bytes (g : tc_rsvp_gpi) : list Z := le_bytes 4 (g_key g) ++ le_bytes 4 (g_mask g) ++ le_bytes 4 (g_offset g).

Definition pinfo_bytes (p : tc_rsvp_pinfo) : list Z :=
  gpi_bytes (p_dpi p) ++ gpi_bytes (p_spi p) ++ [u8 (p_protocol p); u8 (p_tunnelid p); u8 (p_tunnelhdr p); 0].

Definition gpi_of_bytes (b : list Z) (off : Z) : tc_rsvp_gpi :=
  mk_gpi (field32 b off) (field32 b (off + 4)) (s32 (field32 b (off + 8))).

Definition PINFO_SIZE : Z := 28.

Definition pinfo_of_bytes (b : list Z) : tc_rsvp_pinfo :=
  mk_pinfo (gpi_of_bytes b 0) (gpi_of_bytes b 12) (field_byte b 24) (field_byte b 25) (field_byte b 26).

(** ** Ports and generalised ports *)

(** A port behind a slash: the two bytes at the begin of the header of the transport, or the
    two behind them.  [iproute2-3.1.0/tc/f_rsvp.c:54-63 get_addr_and_pi] *)
Definition port_gpi (dst : bool) (port : Z) : tc_rsvp_gpi :=
  if dst then mk_gpi (ntohl port) (ntohl 0x0000FFFF) 0
  else mk_gpi (ntohl (u32 (Z.shiftl port 16))) (ntohl 0xFFFF0000) 0.

(** The sizes of the words [u32], [u16] and [u8] and the masks they begin with.
    [iproute2-3.1.0/tc/f_rsvp.c:114-123 get_addr_and_pi] *)
Definition gpi_size (word : string) : option (Z * Z) :=
  if String.eqb word "u32" then Some (4, 0xffff)
  else if String.eqb word "u16" then Some (2, 0xffffffff)
  else if String.eqb word "u8" then Some (1, 0xff)
  else None.

(** How far a value of a size is shifted at an offset.
    [iproute2-3.1.0/tc/f_rsvp.c:140-156 get_addr_and_pi] *)
Definition gpi_shift (sz off : Z) : Z :=
  if sz =? 1 then if off mod 4 =? 0 then 24 else if off mod 4 =? 1 then 16 else if off mod 4 =? 3 then 8 else 0
  else if sz =? 2 then if off mod 4 =? 0 then 16 else 0
  else 0.

(** [iproute2-3.1.0/tc/f_rsvp.c:140-159 get_addr_and_pi] *)
Definition sized_gpi (sz value mask off : Z) : tc_rsvp_gpi :=
  let k := gpi_shift sz off in
  let m := ntohl (u32 (Z.shiftl mask k)) in
  mk_gpi (Z.land (ntohl (u32 (Z.shiftl value k))) m) m (word_start off).

(** The end of a part, or [None] when the null pointer behind the words is read. *)
Definition null_part (T : Type) : Type := option (part_end T).

(** A word that may stand there with an argument.
    [iproute2-3.1.0/tc/f_rsvp.c:128-139 get_addr_and_pi] *)
Definition may_take (name : string) (parse : string -> option Z) (dflt : Z) (argv : list string) : null_part Z :=
  match argv with
  | [] => None
  | word :: rest =>
      if String.eqb word name then
        match rest with
        | [] => Some PartExit
        | arg :: rest => match parse arg with Some v => Some (Part v rest) | None => Some (PartError (- 1)) end
        end
      else Some (Part dflt argv)
  end.

Definition null_then {T U} (p : null_part T) (f : T -> list string -> null_part U) : null_part U :=
  match p with
  | Some (Part v rest) => f v rest
  | Some (PartError r) => Some (PartError r)
  | Some PartExit => Some PartExit
  | None => None
  end.

(** A number behind its word.  [iproute2-3.1.0/tc/f_rsvp.c:79-81 get_addr_and_pi] *)
Definition next_u32 (argv : list string) : null_part Z :=
  match argv with
  | [] => Some PartExit
  | arg :: rest => match get_u32 arg 0 with Some v => Some (Part v rest) | None => Some (PartError (- 1)) end
  end.

Section Rsvp.
Context (env : tc_env) (c : core) (show_raw : bool) (rtab0 ptab0 : list Z).
Context (inet_pton6 : string -> option (list Z)) (inet_ntop6 : list Z -> string).
Context (getprotobynumber : Z -> option string) (getprotobyname : string -> option (string * Z)).

(** The generalised port of a side, and the protocol it stands for if none is given yet.
    [iproute2-3.1.0/tc/f_rsvp.c:76-160 get_addr_and_pi] *)
Definition gpi_words (v6 : bool) (argv : list string) (pi : tc_rsvp_gpi) (protocol : Z) : null_part (tc_rsvp_gpi * Z) :=
  match argv with
  | [] => Some (Part (pi, protocol) [])
  | word :: rest =>
      let assumed p := if protocol =? 0 then p else protocol in
      if String.eqb word "spi/ah" || String.eqb word "gpi/ah" then
        null_then (next_u32 rest) (fun v rest =>
          Some (Part (mk_gpi (ntohl v) (ntohl 0xFFFFFFFF) 4, assumed IPPROTO_AH) rest))
      else if String.eqb word "spi/esp" || String.eqb word "gpi/esp" then
        null_then (next_u32 rest) (fun v rest =>
          Some (Part (mk_gpi (ntohl v) (ntohl 0xFFFFFFFF) 0, assumed IPPROTO_ESP) rest))
      else if String.eqb word "flowlabel" then
        null_then (next_u32 rest) (fun v rest =>
          if v6 then
            Some (Part (mk_gpi (Z.land (ntohl v) (ntohl 0x000FFFFF)) (ntohl 0x000FFFFF) (- 40), protocol) rest)
          else Some (PartError (- 1)))
      else
        match gpi_size word with
        | None => Some (Part (pi, protocol) argv)
        | Some (sz, mask) =>
            null_then (next_u32 rest) (fun v rest =>
            null_then (may_take "mask" (fun a => get_u32 a 16) mask rest) (fun mask rest =>
            null_then (may_take "at" (fun a => get_integer a 0) (g_offset pi) rest) (fun off rest =>
            Some (Part (sized_gpi sz v mask off, protocol) rest))))
        end
  end.

Definition side (dst : bool) (p : tc_rsvp_pinfo) : tc_rsvp_gpi := if dst then p_dpi p else p_spi p.
Definition with_side (dst : bool) (pi : tc_rsvp_gpi) (p : tc_rsvp_pinfo) : tc_rsvp_pinfo :=
  if dst then p <| p_dpi := pi |> else p <| p_spi := pi |>.

(** The address, and the port behind it; a generalised port is looked for only if there is
    none, from this word or an earlier one.  [iproute2-3.1.0/tc/f_rsvp.c:40-166 get_addr_and_pi] *)
Definition get_addr_and_pi (dst v6 : bool) (argv : list string) (p : tc_rsvp_pinfo) : null_part (inet_prefix * tc_rsvp_pinfo) :=
  match argv with
  | [] => None
  | word :: rest =>
      let port :=
        match Addr.after "/" word with
        | None => Some (side dst p)
        | Some text => option_map (port_gpi dst) (get_u16 text 0)
        end in
      match port with
      | None => Some (PartError (- 1))
      | Some pi =>
          match get_addr_1 inet_pton6 (cut_at "/" word) (if v6 then AF_INET6 else AF_INET) with
          | None => Some (PartError (- 1))
          | Some addr =>
              if negb (g_mask pi =? 0) then Some (Part (addr, with_side dst pi p) rest)
              else
                null_then (gpi_words v6 rest pi (p_protocol p)) (fun '(pi, protocol) rest =>
                  Some (Part (addr, (with_side dst pi p) <| p_protocol := protocol |>) rest))
          end
      end
  end.

(** ** The words *)

(** A session or a sender: the address is added, the rest goes into the structure.
    [iproute2-3.1.0/tc/f_rsvp.c:195-217 rsvp_parse_opt] *)
Definition address_words (dst v6 : bool) (s : rsvp_locals) (argv : list string) : taken rsvp_locals * list string :=
  match get_addr_and_pi dst v6 argv (rv_info s) with
  | None => (Crash, [])
  | Some PartExit => (Ends 255, [])
  | Some (PartError _) => (Illegal, [])
  | Some (Part (addr, p) rest) =>
      let given := negb (g_mask (side dst p) =? 0) || negb (p_protocol p =? 0) in
      (Took ((s <| rv_info := p |>) <| rv_ok := rv_ok s || given |>)
         [(4096, if dst then TCA_RSVP_DST else TCA_RSVP_SRC, take (Z.to_nat (bytelen addr)) (data addr))], rest)
  end.

Definition set_info (f : tc_rsvp_pinfo -> tc_rsvp_pinfo) (s : rsvp_locals) : rsvp_locals :=
  (s <| rv_info := f (rv_info s) |>) <| rv_ok := true |>.

(** A tunnel and what is skipped in it; the word [skip] may be left out.
    [iproute2-3.1.0/tc/f_rsvp.c:246-263 rsvp_parse_opt] *)
Definition tunnel_words (s : rsvp_locals) (argv : list string) : taken rsvp_locals * list string :=
  let skip tid argv :=
    match argv with
    | [] => (Ends 255, [])
    | arg :: rest =>
        match get_unsigned arg 0 with
        | None => (Illegal, [])
        | Some n => (Took (set_info (fun p => p <| p_tunnelhdr := u8 n |>) s) [(4096, TCA_RSVP_CLASSID, le_bytes 4 tid)], rest)
        end
    end in
  match argv with
  | [] => (Ends 255, [])
  | arg :: rest =>
      match get_unsigned arg 0 with
      | None => (Illegal, [])
      | Some tid => match rest with "skip" :: rest => skip tid rest | _ => skip tid rest end
      end
  end.

(** The word of the protocol is compared the other way round: no shorter form is known, but
    longer ones are.  [iproute2-3.1.0/tc/f_rsvp.c:194-280 rsvp_parse_opt] *)
Definition rsvp_word (v6 : bool) (s : rsvp_locals) (word : string) : option (option_word rsvp_locals) :=
  if matches word "session" then Some (Several (address_words true v6 s))
  else if matches word "sender" || matches word "flowspec" then Some (Several (address_words false v6 s))
  else if matches "ipproto" word then
    Some (WithArg (fun arg =>
      let '(num, cache) := inet_proto_a2n getprotobyname arg (rv_cache s) in
      match num with
      | None => Illegal
      | Some num => Took (set_info (fun p => p <| p_protocol := u8 num |>) (s <| rv_cache := cache |>)) []
      end))
  else if matches word "classid" || String.eqb word "flowid" then Some (WithArg (class_word s 4096 TCA_RSVP_CLASSID))
  else if String.eqb word "tunnelid" then
    Some (WithArg (fun arg =>
      match get_unsigned arg 0 with
      | None => Illegal
      | Some tid => Took (set_info (fun p => p <| p_tunnelid := u8 tid |>) s) []
      end))
  else if String.eqb word "tunnel" then Some (Several (tunnel_words s))
  else if matches word "police" then Some (Police TCA_RSVP_POLICE)
  else None.

Definition no_matches : list string -> Z -> nlmsghdr -> aopt_outcome := fun argv _ n => AReturn (- 1) n argv.

(** [iproute2-3.1.0/tc/f_rsvp.c:282-283 rsvp_parse_opt] *)
Definition add_pinfo (s : rsvp_locals) (n : nlmsghdr) : nlmsghdr :=
  if rv_ok s then (addattr_l n 4096 TCA_RSVP_PINFO (pinfo_bytes (rv_info s))).2 else n.

(** The handle; [rsvp6] is the other name.  [iproute2-3.1.0/tc/f_rsvp.c:169-286 rsvp_parse_opt] *)
Definition rsvp_parse_opt (v6 : bool) (cache : proto_cache) (handle : option string) (argv : list string) (n : nlmsghdr)
    (kinds : list action_util) : fopt_end :=
  match option_map (fun h => get_u32 h 0) handle with
  | Some None => FReturn (- 1) n kinds
  | h =>
      let n := match h with Some (Some h) => set_tcm_handle h n | _ => n end in
      match argv with
      | [] => FReturn 0 n kinds
      | _ =>
          let tail := NLMSG_TAIL n in
          let n := (addattr_l n 4096 TCA_OPTIONS []).2 in
          finish (loop env c rtab0 ptab0 no_matches (rsvp_word v6) argv (mk_rsvp no_pinfo false cache) n kinds) n kinds
            (fun s n kinds => FReturn 0 (close_nest tail (add_pinfo s n)) kinds)
      end
  end.

(** ** Printing *)

Definition hex_8 (z : Z) : string := "0x" +:+ print_08x z.

(** [iproute2-3.1.0/tc/f_rsvp.c:288-313 sprint_spi] *)
Definition sprint_spi (pi : tc_rsvp_gpi) (dst : bool) : string :=
  let key := ntohl (g_key pi) in
  let raw := " u32 " +:+ hex_8 key +:+ " mask " +:+ print_08x (ntohl (g_mask pi)) +:+ " at " +:+ print_d (g_offset pi) in
  if g_offset pi =? 0 then
    if dst && (g_mask pi =? ntohl 0xFFFF) then "/" +:+ print_d (s32 key)
    else if negb dst && (g_mask pi =? ntohl 0xFFFF0000) then "/" +:+ print_d (s32 (Z.shiftr key 16))
    else if g_mask pi =? ntohl 0xFFFFFFFF then " spi/esp " +:+ hex_8 key
    else raw
  else if (g_offset pi =? 4) && (g_mask pi =? ntohl 0xFFFFFFFF) then " spi/ah " +:+ hex_8 key
  else if (g_offset pi =? - 40) && (g_mask pi =? ntohl 0x000FFFFF) then
    " flowlabel 0x" +:+ pad_left 5 (print_x key)
  else raw.

Definition addr_size (v6 : bool) : Z := if v6 then 16 else 4.

(** [inet_ntop] into a buffer of 128 bytes. *)
Definition inet_text (v6 : bool) (b : list Z) : option string :=
  ntop_text (if v6 then inet_ntop6 b else quad (b !!! 0%nat) (b !!! 1%nat) (b !!! 2%nat) (b !!! 3%nat)) 128.

(** The text of the address in an attribute. *)
Definition addr_text (v6 : bool) (m : list Z) (a : Z) : option string := inet_text v6 (load_bytes m (RTA_DATA a) (addr_size v6)).

Definition gpi_text (p : option tc_rsvp_pinfo) (dst : bool) (none : string) : string :=
  match p with Some p => if g_mask (side dst p) =? 0 then none else sprint_spi (side dst p) dst +:+ " " | None => none end.

(** [iproute2-3.1.0/tc/f_rsvp.c:336-343 rsvp_print_opt] *)
Definition tunnel_text (classid : option Z) (p : option tc_rsvp_pinfo) : string :=
  let hdr := match p with Some p => p_tunnelhdr p | None => 0 end in
  match classid with
  | Some h =>
      if hdr =? 0 then "flowid " +:+ sprint_tc_classid h +:+ " "
      else "tunnel " +:+ print_d (s32 h) +:+ " skip " +:+ print_d hdr +:+ " "
  | None => if hdr =? 0 then "" else "tunnel [BAD] skip " +:+ print_d hdr +:+ " "
  end.

(** [iproute2-3.1.0/tc/f_rsvp.c:345-363 rsvp_print_opt] *)
Definition session_text (addr : option (option string)) (p : option tc_rsvp_pinfo) : string :=
  match addr with
  | Some t => "session " +:+ default " [INVALID DADDR] " t +:+ gpi_text p true " "
  | None =>
      match p with
      | Some p => if g_mask (p_dpi p) =? 0 then "session NONE " else "session [NONE]" +:+ sprint_spi (p_dpi p) true +:+ " "
      | None => "session NONE "
      end
  end.

(** [iproute2-3.1.0/tc/f_rsvp.c:371-387 rsvp_print_opt] *)
Definition sender_text (addr : option (option string)) (p : option tc_rsvp_pinfo) : string :=
  match addr with
  | Some t => "sender " +:+ match t with Some t => " " +:+ t | None => "[BAD]" end +:+ gpi_text p false " "
  | None =>
      match p with
      | Some p => if g_mask (p_spi p) =? 0 then "" else "sender [NONE]" +:+ sprint_spi (p_spi p) false +:+ " "
      | None => ""
      end
  end.

(** The name of the protocol, with the cache.  [iproute2-3.1.0/tc/f_rsvp.c:365-368 rsvp_print_opt] *)
Definition proto_text (p : option tc_rsvp_pinfo) (cache : proto_cache) : string * proto_cache :=
  match p with
  | Some p =>
      if p_protocol p =? 0 then ("", cache)
      else let '(name, cache) := inet_proto_n2a getprotobynumber (p_protocol p) 64 cache in ("ipproto " +:+ name +:+ " ", cache)
  | None => ("", cache)
  end.

(** [iproute2-3.1.0/tc/f_rsvp.c:369-370 rsvp_print_opt] *)
Definition tunnelid_text (p : option tc_rsvp_pinfo) : string :=
  match p with Some p => if p_tunnelid p =? 0 then "" else "tunnelid " +:+ print_d (p_tunnelid p) +:+ " " | None => "" end.

(** What is printed of the handle, the structure, the class, the addresses and the policer.
    [iproute2-3.1.0/tc/f_rsvp.c:336-389 rsvp_print_opt] *)
Definition rsvp_text (handle : Z) (p : option tc_rsvp_pinfo) (classid : option Z) (dst src : option (option string))
    (police : string) (cache : proto_cache) : string * proto_cache :=
  let '(proto, cache) := proto_text p cache in
  ((if handle =? 0 then "" else "fh " +:+ hex_8 handle +:+ " ") +:+ tunnel_text classid p +:+ session_text dst p +:+ proto +:+
   tunnelid_text p +:+ sender_text src p +:+ police, cache).

(** [iproute2-3.1.0/tc/f_rsvp.c:315-391 rsvp_print_opt] *)
Definition rsvp_print_opt (v6 : bool) (m : list Z) (opt : option Z) (handle : Z) (cache : proto_cache) : Z * (string * proto_cache) :=
  match opt with
  | None => (0, ("", cache))
  | Some opt =>
      let tb := (parse_rtattr_nested m TCA_RSVP_MAX opt).1 in
      match sized_attr m tb TCA_RSVP_PINFO PINFO_SIZE with
      | None => (- 1, (if handle =? 0 then "" else "fh " +:+ hex_8 handle +:+ " ", cache))
      | Some a =>
          (0, rsvp_text handle (option_map (fun a => pinfo_of_bytes (load_bytes m a PINFO_SIZE)) a)
                (word_of m tb TCA_RSVP_CLASSID) (option_map (addr_text v6 m) (attr_of tb TCA_RSVP_DST))
                (option_map (addr_text v6 m) (attr_of tb TCA_RSVP_SRC))
                (shown (attr_of tb TCA_RSVP_POLICE) (tc_print_police env c show_raw m)) cache)
      end
  end.
End Rsvp.

(** ** What a generalised port selects *)

(** The address of a packet counts from the header of the transport. *)
Definition gpi_matches (pkt : Z -> Z) (g : tc_rsvp_gpi) : Prop :=
  Z.land (word_at pkt (g_offset g)) (g_mask g) = g_key g.

Lemma rev_zip_with (f : Z -> Z -> Z) l l' : List.length l = List.length l' ->
  rev (zip_with f l l') = zip_with f (rev l) (rev l').
Proof.
  revert l'. induction l as [|a l IH]; intros [|b l'] E; try done. cbn [zip_with rev].
  rewrite zip_with_app by (rewrite !length_rev; cbn in E; lia). cbn in E. rewrite IH by lia. done.
Qed.

(** The order of the network exchanges bytes, so a mask may be put on before or after. *)
Lemma ntohl_land a b : word32 a -> word32 b -> Z.land (ntohl a) (ntohl b) = ntohl (Z.land a b).
Proof.
  intros Ha Hb. assert (Forall byte (le_bytes 4 a) /\ Forall byte (le_bytes 4 b)) as [Ba Bb]
    by (split; repeat constructor; by apply Z.mod_pos_bound).
  assert (zip_with Z.land (le_bytes 4 a) (le_bytes 4 b) = le_bytes 4 (Z.land a b)) as E.
  { assert (of_le_bytes (zip_with Z.land (le_bytes 4 a) (le_bytes 4 b)) = Z.land a b) as <-.
    { rewrite <- (bytewise Z.land andb Z.land_spec land_byte) by done. rewrite !of_le_bytes_le. by rewrite !Z.mod_small. }
    symmetry. apply (le_of_le (zip_with Z.land (le_bytes 4 a) (le_bytes 4 b))). by apply zip_bytes; [apply land_byte|..]. }
  rewrite !ntohl_bytes. unfold be_bytes. rewrite <- E, rev_zip_with by done.
  apply (bytewise Z.land andb Z.land_spec land_byte); first [by apply Forall_rev|by rewrite !length_rev|done].
Qed.

(** A value under a mask, shifted to its place in a word. *)
Lemma gpi_field n j pkt w key mask :
  (n + j <= 4)%nat -> packet pkt -> 0 <= key < 2 ^ (8 * Z.of_nat n) -> 0 <= mask < 2 ^ (8 * Z.of_nat n) ->
  let k := 8 * Z.of_nat (4 - n - j) in
  gpi_matches pkt (mk_gpi (Z.land (ntohl (Z.shiftl key k)) (ntohl (Z.shiftl mask k))) (ntohl (Z.shiftl mask k)) w) <->
  Z.land (field_at n pkt (w + Z.of_nat j)) mask = Z.land key mask.
Proof. intros. by apply field_in_word. Qed.

Lemma land_all n v : 0 <= v < 2 ^ (8 * Z.of_nat n) -> Z.land v (Z.ones (8 * Z.of_nat n)) = v.
Proof. intros Hv. rewrite Z.land_ones by lia. by apply Z.mod_small. Qed.

Lemma field_range n pkt a : packet pkt -> 0 <= field_at n pkt a < 2 ^ (8 * Z.of_nat n).
Proof.
  intros Hp. unfold field_at. pose proof (of_le_range (rev (bytes_at pkt a n)) (Forall_rev (bytes_at_bytes pkt a n Hp))) as H.
  rewrite length_rev, bytes_at_length in H. exact H.
Qed.

(** A field that is compared in all its bits. *)
Lemma gpi_whole n j pkt w key :
  (n + j <= 4)%nat -> packet pkt -> 0 <= key < 2 ^ (8 * Z.of_nat n) ->
  let k := 8 * Z.of_nat (4 - n - j) in
  gpi_matches pkt (mk_gpi (ntohl (Z.shiftl key k)) (ntohl (Z.shiftl (Z.ones (8 * Z.of_nat n)) k)) w) <->
  field_at n pkt (w + Z.of_nat j) = key.
Proof.
  intros Hn Hp Hk k.
  assert (0 <= Z.ones (8 * Z.of_nat n) < 2 ^ (8 * Z.of_nat n)) as Ho by (rewrite Z.ones_equiv; lia).
  assert (forall v, 0 <= v < 2 ^ (8 * Z.of_nat n) -> word32 (Z.shiftl v k)) as Hw.
  { intros v Hv. unfold word32, k. rewrite Z.shiftl_mul_pow2 by lia. split; [apply Z.mul_nonneg_nonneg; lia|].
    apply Z.lt_le_trans with (2 ^ (8 * Z.of_nat n) * 2 ^ (8 * Z.of_nat (4 - n - j))); [apply Z.mul_lt_mono_pos_r; lia|].
    rewrite <- Z.pow_add_r by lia. apply Z.pow_le_mono_r; lia. }
  pose proof (gpi_field n j pkt w key _ Hn Hp Hk Ho) as H. cbv zeta in H. fold k in H.
  rewrite ntohl_land, <- Z.shiftl_land, !land_all in H by first [done|by apply field_range|by apply Hw]. exact H.
Qed.

(** Where a generalised port of a size is put as it is meant. *)
Definition gpi_placed (n : nat) (off : Z) : Prop :=
  (n = 1%nat /\ (off mod 4 = 0 \/ off mod 4 = 1)) \/ (n = 2%nat /\ off mod 2 = 0) \/ (n = 4%nat /\ off mod 4 = 0).

Lemma sized_gpi_field n v mask off pkt : gpi_placed n off -> packet pkt ->
  0 <= v < 2 ^ (8 * Z.of_nat n) -> 0 <= mask < 2 ^ (8 * Z.of_nat n) ->
  gpi_matches pkt (sized_gpi (Z.of_nat n) v mask off) <-> Z.land (field_at n pkt off) mask = Z.land v mask.
Proof.
  intros Hpl Hp Hv Hm. pose proof (word_start_ok off) as Eo. unfold sized_gpi, gpi_shift.
  assert (exists j, (n + j <= 4)%nat /\ off mod 4 = Z.of_nat j /\
    (if Z.of_nat n =? 1 then if off mod 4 =? 0 then 24 else if off mod 4 =? 1 then 16 else if off mod 4 =? 3 then 8 else 0
     else if Z.of_nat n =? 2 then if off mod 4 =? 0 then 16 else 0 else 0) = 8 * Z.of_nat (4 - n - j)) as (j & Hj & Ej & ->).
  { destruct Hpl as [[-> [E|E]]|[[-> E]|[-> E]]].
    - exists 0%nat. rewrite E. by split_and!; [lia|..].
    - exists 1%nat. rewrite E. by split_and!; [lia|..].
    - assert (off mod 4 = 0 \/ off mod 4 = 2) as [E4|E4] by (Z.div_mod_to_equations; lia); rewrite E4;
        [exists 0%nat|exists 2%nat]; by split_and!; [lia|..].
    - exists 0%nat. by rewrite E. }
  rewrite Ej in Eo.
  assert (forall x, 0 <= x < 2 ^ (8 * Z.of_nat n) -> u32 (Z.shiftl x (8 * Z.of_nat (4 - n - j))) = Z.shiftl x (8 * Z.of_nat (4 - n - j))) as Hu.
  { intros x Hx. apply u32_small. rewrite Z.shiftl_mul_pow2 by lia. split; [apply Z.mul_nonneg_nonneg; lia|].
    apply Z.lt_le_trans with (2 ^ (8 * Z.of_nat n) * 2 ^ (8 * Z.of_nat (4 - n - j))); [apply Z.mul_lt_mono_pos_r; lia|].
    rewrite <- Z.pow_add_r by lia. apply Z.pow_le_mono_r; lia. }
  rewrite !Hu by done. cbv zeta. rewrite (gpi_field n j pkt (word_start off) v mask Hj Hp Hv Hm). by rewrite Eo.
Qed.


(** A packet from port 7 to port 80 of a host that counts from one elsewhere. *)
Definition demo_packet (a : Z) : Z := if a =? 1 then 7 else if a =? 3 then 80 else 0.


(** A byte at the end of a word and the one before it are exchanged. *)
Lemma gpi_bytes_exchanged v pkt off : 0 <= v < 2 ^ 8 -> packet pkt -> off mod 4 = 2 ->
  (gpi_matches pkt (sized_gpi 1 v 0xff off) <-> field_at 1 pkt (off + 1) = v) /\
  (gpi_matches pkt (sized_gpi 1 v 0xff (off + 1)) <-> field_at 1 pkt off = v).
Proof.
  intros Hv Hp E. assert ((off + 1) mod 4 = 3) as E' by (Z.div_mod_to_equations; lia).
  pose proof (word_start_ok off) as S1. pose proof (word_start_ok (off + 1)) as S2.
  assert (forall k, 0 <= k <= 24 -> word32 (Z.shiftl v k)) as Hw.
  { intros k Hk. unfold word32. rewrite Z.shiftl_mul_pow2 by lia. split; [apply Z.mul_nonneg_nonneg; lia|].
    apply Z.lt_le_trans with (2 ^ 8 * 2 ^ k); [apply Z.mul_lt_mono_pos_r; lia|]. rewrite <- Z.pow_add_r by lia. apply Z.pow_le_mono_r; lia. }
  assert (Z.land v 0xFF = v) as Hl by (change 0xFF with (Z.ones 8); rewrite Z.land_ones by lia; by apply Z.mod_small).
  unfold sized_gpi, gpi_shift. rewrite E, E'. cbn [Z.eqb Pos.eqb].
  rewrite !u32_small by (done || by apply Hw). rewrite !ntohl_land by (done || by apply Hw). split.
  - replace (off + 1) with (word_start off + Z.of_nat 3) by lia. rewrite !Z.shiftl_0_r, Hl.
    pose proof (gpi_whole 1 3 pkt (word_start off) v ltac:(lia) Hp Hv) as H. cbv zeta in H.
    change (8 * Z.of_nat (4 - 1 - 3)) with 0 in H. rewrite !Z.shiftl_0_r in H. exact H.
  - replace off with (word_start (off + 1) + Z.of_nat 2) at 2 by lia. rewrite <- Z.shiftl_land, Hl.
    exact (gpi_whole 1 2 pkt (word_start (off + 1)) v ltac:(lia) Hp Hv).
Qed.

(** Without a mask of their own the sizes of two and four bytes have each other's: of a word
    its upper half is not looked at. *)
Example gpi_default_masks :
  gpi_size "u32" = Some (4, 0xffff) /\ gpi_size "u16" = Some (2, 0xffffffff) /\
  sized_gpi 4 0x12345678 0xffff 0 = sized_gpi 4 0x5678 0xffff 0.
Proof. by vm_compute. Qed.

(** The words [mask] and [at] are looked for behind the end of the command. *)
Example gpi_end_null inet_pton6 : get_addr_and_pi inet_pton6 true false ["10.0.0.1"; "u32"; "5"] no_pinfo = None.
Proof. by vm_compute. Qed.

(** ** The request *)

Definition gpi_wf (g : tc_rsvp_gpi) : Prop := word32 (g_key g) /\ word32 (g_mask g) /\ - 2 ^ 31 <= g_offset g < 2 ^ 31.

Record info_ok (p : tc_rsvp_pinfo) : Prop := {
  io_dpi : gpi_wf (p_dpi p);
  io_spi : gpi_wf (p_spi p);
  io_bytes : byte (p_protocol p) /\ byte (p_tunnelid p) /\ byte (p_tunnelhdr p)
}.

Lemma gpi_of_bytes_ok b off g : gpi_wf g ->
  load_bytes b off 4 = le_bytes 4 (g_key g) -> load_bytes b (off + 4) 4 = le_bytes 4 (g_mask g) ->
  load_bytes b (off + 8) 4 = le_bytes 4 (g_offset g) -> gpi_of_bytes b off = g.
Proof.
  intros (W1 & W2 & W3) E1 E2 E3. unfold gpi_of_bytes. rewrite (word_field _ _ _ W1 E1), (word_field _ _ _ W2 E2).
  unfold field32. rewrite E3, of_le_bytes_le. change (2 ^ (8 * Z.of_nat 4)) with (2 ^ 32).
  change (g_offset g mod 2 ^ 32) with (u32 (g_offset g)). by rewrite s32_u32, s32_small.
Qed.

Lemma pinfo_of_bytes_ok p : info_ok p -> pinfo_of_bytes (pinfo_bytes p) = p.
Proof.
  intros [W1 W2 (W3 & W4 & W5)]. unfold pinfo_of_bytes.
  rewrite (gpi_of_bytes_ok _ 0 _ W1), (gpi_of_bytes_ok _ 12 _ W2) by reflexivity.
  rewrite (byte_field _ 24 _ W3), (byte_field _ 25 _ W4), (byte_field _ 26 _ W5) by reflexivity. reflexivity.
Qed.

Lemma sized_gpi_wf sz v mask off : - 2 ^ 31 <= off < 2 ^ 31 -> gpi_wf (sized_gpi sz v mask off).
Proof.
  intros Ho. unfold sized_gpi. split; [apply word32_land; apply ntohl_range|]. split; [apply ntohl_range|]. cbn.
  unfold word_start. Z.div_mod_to_equations. lia.
Qed.

Lemma port_gpi_wf dst port : gpi_wf (port_gpi dst port).
Proof. unfold port_gpi. destruct dst; (split; [apply ntohl_range|]; split; [apply ntohl_range|]; done). Qed.

(** What a part gives, if it gives anything. *)
Lemma null_then_part {T U} (p : null_part T) (f : T -> list string -> null_part U) v rest :
  null_then p f = Some (Part v rest) -> exists x r, p = Some (Part x r) /\ f x r = Some (Part v rest).
Proof. destruct p as [[x r|r|]|]; cbn; try done. by exists x, r. Qed.

Lemma may_take_part name parse dflt argv v rest : may_take name parse dflt argv = Some (Part v rest) ->
  v = dflt \/ exists arg, parse arg = Some v.
Proof.
  unfold may_take. destruct argv as [|w l]; [done|]. destruct (String.eqb w name); [|intros [= <- _]; by left].
  destruct l as [|arg l]; [done|]. destruct (parse arg) as [z|] eqn:E; [|done]. intros [= <- _]. right. by exists arg.
Qed.

Lemma gpi_words_ok v6 argv pi protocol pi' protocol' rest : gpi_wf pi -> byte protocol ->
  gpi_words v6 argv pi protocol = Some (Part (pi', protocol') rest) -> gpi_wf pi' /\ byte protocol'.
Proof.
  intros Hg Hb. unfold gpi_words. destruct argv as [|word l]; [by intros [= <- <- _]|]. cbv zeta.
  destruct (_ || _); [|destruct (_ || _); [|destruct (String.eqb word "flowlabel")]].
  - intros (v & r & _ & [= <- <- _])%null_then_part. split; [|by destruct (protocol =? 0)].
    split; [apply ntohl_range|]. by split; [apply ntohl_range|].
  - intros (v & r & _ & [= <- <- _])%null_then_part. split; [|by destruct (protocol =? 0)].
    split; [apply ntohl_range|]. by split; [apply ntohl_range|].
  - intros (v & r & _ & E)%null_then_part. destruct v6; [|done]. injection E as <- <- _. split; [|done].
    split; [apply word32_land; apply ntohl_range|]. by split; [apply ntohl_range|].
  - destruct (gpi_size word) as [[sz mask]|]; [|by intros [= <- <- _]].
    intros (v & r & _ & (m & r1 & _ & (off & r2 & Eo & [= <- <- _])%null_then_part)%null_then_part)%null_then_part.
    split; [|done]. apply sized_gpi_wf. apply may_take_part in Eo as [->|[arg Eo]]; [apply Hg|by apply get_integer_range in Eo].
Qed.

(** The address of a family has its bytes. *)
Lemma address_size inet_pton6 name (v6 : bool) addr :
  get_addr_1 inet_pton6 name (if v6 then AF_INET6 else AF_INET) = Some addr ->
  Z.of_nat (List.length (take (Z.to_nat (bytelen addr)) (data addr))) = addr_size v6.
Proof.
  assert (forall b, (32 <= List.length (store_bytes b (replicate 32 0%Z)))%nat) as Hs.
  { intros b. unfold store_bytes. rewrite length_app, length_drop, length_replicate. lia. }
  intros E. assert (bytelen addr = addr_size v6 /\ (32 <= List.length (data addr))%nat) as [-> Hl].
  { revert E. unfold get_addr_1. destruct (any_name name).
    - destruct v6; intros [= <-]; (split; [done|]); cbn; lia.
    - destruct (contains ":" name); [|destruct v6; cbn [family_is negb andb]; [done|]].
      + destruct v6; cbn [family_is negb andb]; [|done]. destruct (inet_pton6 name) as [b|]; [|done]. intros [= <-].
        split; [done|apply Hs].
      + destruct (get_addr_ipv4 4 name) as [b|]; [|done]. intros [= <-]. split; [done|apply Hs]. }
  rewrite length_take. destruct v6; cbn [addr_size]; lia.
Qed.

Lemma with_side_ok dst pi p : info_ok p -> gpi_wf pi -> info_ok (with_side dst pi p).
Proof. intros [? ? ?] ?. by destruct dst. Qed.

Lemma addr_and_pi_ok inet_pton6 dst v6 argv p addr p' rest : info_ok p ->
  get_addr_and_pi inet_pton6 dst v6 argv p = Some (Part (addr, p') rest) ->
  info_ok p' /\ Z.of_nat (List.length (take (Z.to_nat (bytelen addr)) (data addr))) = addr_size v6.
Proof.
  intros Hp. unfold get_addr_and_pi. destruct argv as [|word l]; [done|]. cbv zeta.
  destruct (match Addr.after "/" word with None => _ | Some _ => _ end) as [pi|] eqn:Epi; [|done].
  assert (gpi_wf pi) as Hpi.
  { destruct (Addr.after "/" word) as [text|]; [|injection Epi as <-; destruct Hp, dst; done].
    destruct (get_u16 text 0); [|done]. injection Epi as <-. apply port_gpi_wf. }
  destruct (get_addr_1 _ _ _) as [a|] eqn:Ea; [|done]. apply address_size in Ea.
  destruct (negb (g_mask pi =? 0)).
  - intros [= <- <- _]. split; [by apply with_side_ok|done].
  - intros ([pi' protocol] & r & Ew & [= <- <- _])%null_then_part. split; [|done].
    destruct (io_bytes p Hp) as (B1 & B2 & B3). apply gpi_words_ok in Ew as [Hg Hb]; [|done|done].
    destruct (with_side_ok dst pi' p Hp Hg) as [W1 W2 (W3 & W4 & W5)]. constructor; [exact W1|exact W2|]. by destruct dst.
Qed.

(** The shapes of what the words add; the structure comes behind them. *)
Definition rsvp_leaf (v6 : bool) (ty : Z) (d : list Z) : Prop :=
  (ty = TCA_RSVP_CLASSID /\ List.length d = 4%nat) \/
  ((ty = TCA_RSVP_DST \/ ty = TCA_RSVP_SRC) /\ Z.of_nat (List.length d) = addr_size v6).

Section Request.
Context (env : tc_env) (c : core) (show_raw : bool) (rtab0 ptab0 : list Z).
Context (inet_pton6 : string -> option (list Z)) (inet_ntop6 : list Z -> string).
Context (getprotobynumber : Z -> option string) (getprotobyname : string -> option (string * Z)).
Hypothesis Hr : List.length rtab0 = 256%nat.
Hypothesis Hp : List.length ptab0 = 256%nat.

Definition locals_ok (s : rsvp_locals) : Prop := info_ok (rv_info s).

Definition word_for (v6 : bool) := rsvp_word inet_pton6 getprotobyname v6.

Lemma class_leaf (v6 : bool) (s : rsvp_locals) arg :
  match class_word s 4096 TCA_RSVP_CLASSID arg with
  | Took s' l => s' = s /\ Forall (fun '(_, t, d) => 0 <= t /\ rsvp_leaf v6 t d) l
  | _ => True
  end.
Proof using. unfold class_word. destruct (get_tc_classid arg); [|done]. split; [done|]. repeat constructor; done. Qed.

(** A word keeps the structure well formed and adds leaves of these shapes, provided it was
    well formed; the shapes do not depend on it. *)
Lemma address_words_ok dst v6 s argv s' l rest :
  address_words inet_pton6 dst v6 s argv = (Took s' l, rest) -> locals_ok s ->
  locals_ok s' /\ Forall (fun '(_, t, d) => 0 <= t /\ rsvp_leaf v6 t d) l.
Proof using.
  unfold address_words. destruct (get_addr_and_pi inet_pton6 dst v6 argv (rv_info s)) as [[[addr p] r|r|]|] eqn:E; try done.
  intros [= <- <- _] Hs. apply addr_and_pi_ok in E as [H1 H2]; [|exact Hs]. split; [exact H1|].
  constructor; [|done]. split; [by destruct dst|]. right. split; [destruct dst; [by left|by right]|exact H2].
Qed.

Lemma tunnel_words_ok v6 s argv s' l rest : tunnel_words s argv = (Took s' l, rest) -> locals_ok s ->
  locals_ok s' /\ Forall (fun '(_, t, d) => 0 <= t /\ rsvp_leaf v6 t d) l.
Proof using.
  intros E [W1 W2 (W3 & W4 & W5)].
  assert (exists n tid, s' = set_info (fun p => p <| p_tunnelhdr := u8 n |>) s /\ l = [(4096, TCA_RSVP_CLASSID, le_bytes 4 tid)])
    as (n & tid & -> & ->).
  { revert E. unfold tunnel_words. destruct argv as [|arg argv]; [done|]. destruct (get_unsigned arg 0) as [tid|]; [|done].
    repeat case_match; try done; intros [= <- <- _]; by eexists _, _. }
  split; [constructor; [exact W1|exact W2|]|].
  - split; [exact W3|]. split; [exact W4|]. by apply Z.mod_pos_bound.
  - constructor; [|done]. split; [done|]. by left.
Qed.

(** What the words of a run keep and add. *)
Lemma rsvp_run v6 matched argv s kinds ps s2 kinds2 :
  opts env c rtab0 ptab0 matched (word_for v6) 4096 argv s kinds ps s2 kinds2 -> locals_ok s ->
  locals_ok s2 /\ Forall (piece_ok c (rsvp_leaf v6) TCA_RSVP_POLICE 0 0) ps.
Proof using Hr Hp.
  induction 1 as [s kinds|word rest s kinds s1 l ps s2 kinds2 Hk Hb _ IH
    |word arg rest s kinds f0 s1 l ps s2 kinds2 Hk Hf Hb _ IH|word argv rest s kinds f0 s1 l ps s2 kinds2 Hk Hne Hf Hle Hb _ IH
    |word argv rest s kinds type p ps s2 kinds2 Hk Ht Hne E0 _ IH
    |word argv rest s kinds type l ps s2 kinds2 Hk Ht Hne E0 _ IH
    |word argv rest s kinds type l kinds1 ps s2 kinds2 Hk Ht Hne Hl Hlen E0 Hle _ IH]; intros Hs;
    [by split| | | | | |]; unfold word_for, rsvp_word in Hk.
  - by repeat match type of Hk with (if ?b then _ else _) = _ => destruct b end.
  - destruct Hk as [Hk|Hk]; [|by repeat match type of Hk with (if ?b then _ else _) = _ => destruct b end].
    assert (locals_ok s1 /\ Forall (fun '(_, t, d) => 0 <= t /\ rsvp_leaf v6 t d) l) as [H1 H2].
    { destruct Hs as [W1 W2 (W3 & W4 & W5)].
      repeat match type of Hk with (if ?b then _ else _) = _ => destruct b end; try done; injection Hk as <-.
      - destruct (inet_proto_a2n getprotobyname arg (rv_cache s)) as [[num|] cache]; [|done]. injection Hf as <- <-.
        split; [constructor; [exact W1|exact W2|]|constructor]. split_and!; [by apply Z.mod_pos_bound|exact W4|exact W5].
      - pose proof (class_leaf v6 s arg) as H. rewrite Hf in H. destruct H as [-> H]. by split.
      - destruct (get_unsigned arg 0); [|done]. injection Hf as <- <-.
        split; [constructor; [exact W1|exact W2|]|constructor]. split_and!; [exact W3|by apply Z.mod_pos_bound|exact W5]. }
    destruct (IH H1) as [H3 H4]. split; [exact H3|]. by constructor.
  - assert (locals_ok s1 /\ Forall (fun '(_, t, d) => 0 <= t /\ rsvp_leaf v6 t d) l) as [H1 H2].
    { repeat match type of Hk with (if ?b then _ else _) = _ => destruct b end; try done; injection Hk as <-;
        first [exact (address_words_ok _ _ _ _ _ _ _ Hf Hs)|exact (tunnel_words_ok _ _ _ _ _ _ Hf Hs)]. }
    destruct (IH H1) as [H3 H4]. split; [exact H3|]. by constructor.
  - destruct (IH Hs) as [H3 H4]. split; [exact H3|]. constructor; [|done].
    repeat match type of Hk with (if ?b then _ else _) = _ => destruct b end; try done; injection Hk as <-.
    split; [done|]. by destruct (read_police_ok c rtab0 ptab0 Hr Hp _ _ _ E0).
  - by repeat match type of Hk with (if ?b then _ else _) = _ => destruct b end.
  - by repeat match type of Hk with (if ?b then _ else _) = _ => destruct b end.
Qed.

(** The trees of a request: what the words add, and the structure if anything of it was
    given. *)
Definition info_attrs (s : rsvp_locals) : list (Z * Z * list Z) :=
  if rv_ok s then [(4096, TCA_RSVP_PINFO, pinfo_bytes (rv_info s))] else [].
Definition rsvp_trees (ps : list piece) (s : rsvp_locals) : list atree := trees_of (ps ++ [Attrs (info_attrs s)]).

Definition info_leaf (v6 : bool) (ty : Z) (d : list Z) : Prop :=
  rsvp_leaf v6 ty d \/ (ty = TCA_RSVP_PINFO /\ List.length d = 28%nat).

Lemma first_police_app ps l : first_police (ps ++ [Attrs l]) = first_police ps.
Proof using. unfold first_police. rewrite omap_app. cbn. by rewrite app_nil_r. Qed.

Lemma trees_app ps l : trees_of (ps ++ [Attrs l]) = trees_of ps ++ leaves l.
Proof using. unfold trees_of. rewrite flat_map_app. cbn [flat_map piece_trees]. by rewrite app_nil_r. Qed.

(** The structure is found where it is, and the other leaves where the words put them. *)
Lemma rsvp_leaves v6 ps s : Forall (piece_ok c (rsvp_leaf v6) TCA_RSVP_POLICE 0 0) ps ->
  leaf_bytes TCA_RSVP_PINFO (rsvp_trees ps s) = (if rv_ok s then Some (pinfo_bytes (rv_info s)) else None) /\
  forall k, k <> TCA_RSVP_PINFO -> leaf_bytes k (rsvp_trees ps s) = leaf_bytes k (trees_of ps).
Proof using.
  intros Hps. unfold rsvp_trees. rewrite trees_app. unfold leaf_bytes. split.
  - rewrite tree_get_app. destruct (get_leaf c (rsvp_leaf v6) TCA_RSVP_POLICE 0 0 ps TCA_RSVP_PINFO Hps) as [->|(d & _ & H)];
      [done|done|done|unfold info_attrs; by destruct (rv_ok s)|]. by destruct H as [[? _]|[[?|?] _]].
  - intros k Hk. rewrite tree_get_app. destruct (tree_get k (trees_of ps)) as [t|]; [done|]. unfold info_attrs.
    destruct (rv_ok s); [|done]. cbn [leaves map tree_get tree_type]. by destruct (Z.eqb_spec TCA_RSVP_PINFO k).
Qed.

(** What is shown of such a nest. *)
Lemma rsvp_shown v6 m off ps s handle cache :
  tree_at m off (Nest TCA_OPTIONS (rsvp_trees ps s)) -> 0 <= off -> locals_ok s ->
  Forall (piece_ok c (rsvp_leaf v6) TCA_RSVP_POLICE 0 0) ps ->
  rsvp_print_opt env c show_raw inet_ntop6 getprotobynumber v6 m (Some off) handle cache =
    (0, rsvp_text getprotobynumber handle (if rv_ok s then Some (rv_info s) else None)
          (option_map of_le_bytes (leaf_bytes TCA_RSVP_CLASSID (trees_of ps)))
          (option_map (inet_text inet_ntop6 v6) (leaf_bytes TCA_RSVP_DST (trees_of ps)))
          (option_map (inet_text inet_ntop6 v6) (leaf_bytes TCA_RSVP_SRC (trees_of ps)))
          (shown (first_police ps) (police_shows c (e_iec env) show_raw)) cache).
Proof using Hr Hp.
  intros Ht Ho Hs Hps. set (ps' := ps ++ [Attrs (info_attrs s)]).
  assert (Forall (piece_ok c (info_leaf v6) TCA_RSVP_POLICE 0 0) ps') as Hps'.
  { apply Forall_app. split.
    - eapply Forall_impl; [exact Hps|]. intros [l|ty p|ty l|ty l] H; try exact H. cbn in *. eapply Forall_impl; [exact H|].
      intros [[b t] d] [? ?]. split; [done|by left].
    - constructor; [|done]. unfold info_attrs. cbn. destruct (rv_ok s); repeat constructor; done. }
  change (tree_at m off (Nest TCA_OPTIONS ([] ++ trees_of ps'))) in Ht.
  pose proof (pieces_types c _ _ _ _ ps' Hps' ltac:(done) ltac:(done) ltac:(done)) as Hty.
  destruct (rsvp_leaves v6 ps s Hps) as [Ei Ek].
  assert (forall k, 0 <= k <= TCA_RSVP_MAX -> k <> TCA_RSVP_POLICE -> k <> 0 ->
    match leaf_bytes k (trees_of ps') with
    | Some d => info_leaf v6 k d /\ exists a, attr_of (parse_rtattr_nested m TCA_RSVP_MAX off).1 k = Some a /\ 0 <= RTA_DATA a /\
        RTA_PAYLOAD m a = Z.of_nat (List.length d) /\ load_bytes m (RTA_DATA a) (Z.of_nat (List.length d)) = d
    | None => attr_of (parse_rtattr_nested m TCA_RSVP_MAX off).1 k = None
    end) as Hleaf.
  { intros k H1 H2 H3. exact (leaf_found c _ _ _ _ m TCA_RSVP_MAX off TCA_OPTIONS [] ps' Ht Hty Ho Hps' k H1 eq_refl H2 H3 H3). }
  unfold rsvp_print_opt, sized_attr, word_of. cbv zeta.
  assert (forall k, k = TCA_RSVP_DST \/ k = TCA_RSVP_SRC ->
    option_map (addr_text inet_ntop6 v6 m) (attr_of (parse_rtattr_nested m TCA_RSVP_MAX off).1 k) =
    option_map (inet_text inet_ntop6 v6) (leaf_bytes k (trees_of ps))) as Haddr.
  { intros k Hk. rewrite <- (Ek k) by (by destruct Hk as [->| ->]). pose proof (Hleaf k) as H. fold ps' in H.
    change (rsvp_trees ps s) with (trees_of ps'). destruct (leaf_bytes k (trees_of ps')) as [d|].
    - destruct H as (Hd & a & -> & _ & _ & E); [by destruct Hk as [->| ->]..|]. cbn [option_map]. unfold addr_text.
      assert (Z.of_nat (List.length d) = addr_size v6) as <-; [|by rewrite E].
      destruct Hd as [[[-> _]|[_ Hd]]|[-> _]]; [by destruct Hk|exact Hd|by destruct Hk].
    - rewrite H; [done|by destruct Hk as [->| ->]..]. }
  rewrite (Haddr TCA_RSVP_DST), (Haddr TCA_RSVP_SRC) by auto.
  pose proof (Hleaf TCA_RSVP_PINFO ltac:(done) ltac:(done) ltac:(done)) as Hi. change (trees_of ps') with (rsvp_trees ps s) in Hi.
  rewrite Ei in Hi.
  pose proof (Hleaf TCA_RSVP_CLASSID ltac:(done) ltac:(done) ltac:(done)) as Hc. change (trees_of ps') with (rsvp_trees ps s) in Hc.
  rewrite (Ek TCA_RSVP_CLASSID) in Hc by done.
  assert (option_map (fun a => load32 m (RTA_DATA a)) (attr_of (parse_rtattr_nested m TCA_RSVP_MAX off).1 TCA_RSVP_CLASSID) =
    option_map of_le_bytes (leaf_bytes TCA_RSVP_CLASSID (trees_of ps))) as ->.
  { destruct (leaf_bytes TCA_RSVP_CLASSID (trees_of ps)) as [d|]; [|by rewrite Hc]. destruct Hc as (Hd & a & -> & _ & _ & E).
    assert (List.length d = 4%nat) as El by (destruct Hd as [[[_ Hd]|[[Hd|Hd] _]]|[Hd _]]; done).
    rewrite El in E. change (Z.of_nat 4) with 4 in E. cbn [option_map]. unfold load32. by rewrite E. }
  pose proof (police_found c _ _ _ _ m TCA_RSVP_MAX off TCA_OPTIONS [] ps' Ht Hty Ho Hps' show_raw (e_iec env)
    ltac:(done) eq_refl ltac:(by intros d [[[? _]|[[?|?] _]]|[? _]]) ltac:(done) ltac:(done)) as Hpol.
  unfold ps' in Hpol. rewrite first_police_app in Hpol.
  assert (shown (attr_of (parse_rtattr_nested m TCA_RSVP_MAX off).1 TCA_RSVP_POLICE) (tc_print_police env c show_raw m) =
    shown (first_police ps) (police_shows c (e_iec env) show_raw)) as ->.
  { unfold attr_of. destruct (first_police ps) as [p|]; [|by rewrite Hpol]. destruct Hpol as (a & -> & H). cbn [shown].
    unfold tc_print_police. by rewrite H. }
  destruct (rv_ok s).
  - destruct Hi as (_ & a & -> & _ & El & E). rewrite El. change (Z.of_nat (List.length (pinfo_bytes (rv_info s)))) with PINFO_SIZE in *.
    rewrite (proj2 (Z.ltb_ge PINFO_SIZE PINFO_SIZE)) by lia. cbn [option_map]. rewrite E, pinfo_of_bytes_ok by exact Hs. done.
  - rewrite Hi. done.
Qed.

(** A filter of a session: the words become one nest with what they add, in order, and the
    structure of ports, protocol and tunnel; the handle is stored; and the printer shows the
    class, the addresses, the ports and the policer that were typed. *)
Theorem rsvp_roundtrip v6 cache handle h matched argv kinds ps s kinds2 n cache' :
  get_u32 handle 0 = Some h -> argv <> [] ->
  opts env c rtab0 ptab0 matched (word_for v6) 4096 argv (mk_rsvp no_pinfo false cache) kinds ps s kinds2 ->
  (forall argv rest l, ~ matched argv rest l) ->
  36 <= nlmsg_len n -> room_for n 4096 (4 + tspan (rsvp_trees ps s)) ->
  exists n', rsvp_parse_opt env c rtab0 ptab0 inet_pton6 getprotobyname v6 cache (Some handle) argv n kinds = FReturn 0 n' kinds2 /\
    tree_at (mem n') (NLMSG_TAIL n) (Nest TCA_OPTIONS (rsvp_trees ps s)) /\ load32 (mem n') 24 = h /\
    rsvp_print_opt env c show_raw inet_ntop6 getprotobynumber v6 (mem n') (Some (NLMSG_TAIL n)) h cache' =
      (0, rsvp_text getprotobynumber h (if rv_ok s then Some (rv_info s) else None)
            (option_map of_le_bytes (leaf_bytes TCA_RSVP_CLASSID (trees_of ps)))
            (option_map (inet_text inet_ntop6 v6) (leaf_bytes TCA_RSVP_DST (trees_of ps)))
            (option_map (inet_text inet_ntop6 v6) (leaf_bytes TCA_RSVP_SRC (trees_of ps)))
            (shown (first_police ps) (police_shows c (e_iec env) show_raw)) cache').
Proof using Hr Hp.
  intros Eh Hne Ho Hno Hn Hroom. pose proof (get_u32_range _ _ _ Eh) as Hh.
  assert (locals_ok (mk_rsvp no_pinfo false cache)) as H0 by (repeat constructor; done).
  destruct (rsvp_run v6 _ _ _ _ _ _ _ Ho H0) as [Hs Hps].
  destruct (set_handle_keeps h n (4 + tspan (rsvp_trees ps s)) 4096 Hn ltac:(pose proof (tspan_bounds (rsvp_trees ps s)); lia) Hroom)
    as (Hroom' & Et & El). rewrite u32_small in El by done.
  destruct (filter_opts_ok env c rtab0 ptab0 no_matches matched (word_for v6) 4096
    (fun a r l t _ H => match Hno a r l H with end) ltac:(lia) Hr Hp _ _ _ _ _ _ Ho (List.length argv) ltac:(lia)) as (f & Hf & E).
  assert (appends 4096 (add_pinfo s) (leaves (info_attrs s))) as Hpost.
  { unfold add_pinfo, info_attrs. destruct (rv_ok s); [by apply appends_leaf|apply appends_id]. }
  assert (appends 4096 (fun n => add_pinfo s (f n)) (rsvp_trees ps s)) as Happ.
  { unfold rsvp_trees. rewrite trees_app. by apply appends_seq. }
  assert (tspan [Nest TCA_OPTIONS (rsvp_trees ps s)] = 4 + tspan (rsvp_trees ps s)) as Es by (cbn [tspan]; rewrite tspan_nest; lia).
  destruct (appends_nest 4096 TCA_OPTIONS _ _ ltac:(done) Happ (set_tcm_handle h n)) as ([T _] & _ & _ & _ & T3 & _); [by rewrite Es|].
  rewrite Et in *. eexists. split.
  - unfold rsvp_parse_opt. cbn [option_map]. rewrite Eh. destruct argv as [|word argv]; [done|]. unfold loop, police_parser.
    unfold word_for in E. rewrite E. cbn [finish]. reflexivity.
  - unfold close_nest. rewrite Et. split; [exact T|]. split.
    + unfold load32 in *. etransitivity; [|exact El]. f_equal. apply T3; [lia|lia|]. pose proof (tail_bounds n). lia.
    + apply rsvp_shown; [exact T| |exact Hs|exact Hps]. pose proof (tail_bounds n). lia.
Qed.
End Request.
