(* ===== verification/TcEmatch.v ===== *)
(** * Extended matches: the expression (iproute2-3.1.0/tc/m_ematch.c, m_ematch.h, emp_ematch.l,
    emp_ematch.y)

    An expression is scanned out of the words of the command, parsed into nodes that point at
    each other, flattened by relinking the nodes, and sent as a numbered list; the printer
    follows the references back.  The scanner and the parser are what flex and bison make of
    the two grammars: the longest match and the first rule, one token of look-ahead, and an
    error taken for the end behind a whole expression.  Not modelled are what one expression
    of a command leaves in the scanner for the next, and the limits of flex and bison on the
    length of a word and on depth; a string that [realloc] moves is taken to keep its place. *)

From S2P Require Export TcOpts.

#[local] Open Scope list_scope.

(** ** Strings of the scanner *)

#[local] Set Primitive Projections.

(** The static buffer of quoted strings: what has been written to it, its size and the place
    of the next character.  [iproute2-3.1.0/tc/emp_ematch.l:37-39 strbuf] *)
Record strbuf := mk_strbuf { sb_data : list ascii; sb_size : nat; sb_index : nat }.

(** An argument: its text, or the length of a string that is in the buffer.
    [iproute2-3.1.0/tc/m_ematch.h:13-19 bstr] *)
Inductive bstr := Text (s : string) | Quoted (len : nat).

(** [iproute2-3.1.0/tc/emp_ematch.l:7-8 ematch_argv] *)
Record scanner := mk_scanner {
  sc_pending : string;
  sc_last : option string;
  sc_words : list string;
  sc_buf : strbuf
}.

#[local] Unset Primitive Projections.

Inductive token := TEof | TError | TAttr (b : bstr) | TAnd | TOr | TNot | TOpen | TClose | TWild.

(** [iproute2-3.1.0/tc/emp_ematch.l:41-45 strbuf_enlarge] *)
Definition strbuf_enlarge (b : strbuf) : strbuf :=
  if (sb_size b <=? sb_index b)%nat then b <| sb_size := (sb_size b + 512)%nat |> else b.

Definition strbuf_put (c : ascii) (b : strbuf) : strbuf :=
  (b <| sb_data := take (sb_index b) (sb_data b) ++ [c] ++ drop (S (sb_index b)) (sb_data b) |>)
    <| sb_index := S (sb_index b) |>.

(** [iproute2-3.1.0/tc/emp_ematch.l:47-52 strbuf_append_char] *)
Definition strbuf_append_char (c : ascii) (b : strbuf) : strbuf := strbuf_put c (strbuf_enlarge b).

(** A character of a run, which is copied in one piece: the buffer is enlarged before the
    first only, and [None] is a character behind its end.
    [iproute2-3.1.0/tc/emp_ematch.l:54-60 strbuf_append_charp] *)
Definition strbuf_append_run (inside : bool) (c : ascii) (b : strbuf) : option strbuf :=
  let b := if inside then b else strbuf_enlarge b in
  if (sb_size b <=? sb_index b)%nat then None else Some (strbuf_put c b).

(** [iproute2-3.1.0/tc/emp_ematch.l:71-81 ematch_lex] *)
Definition strbuf_start (b : strbuf) : strbuf :=
  (if (sb_size b =? 0)%nat then b <| sb_size := 512%nat |> else b) <| sb_index := 0%nat |>.

(** ** Escapes *)

(** The number of digits at the front, at most [n]. *)
Fixpoint digits_in (base : Z) (n : nat) (s : string) : nat :=
  match n, s with
  | S n, String c s => if digit_in base c is Some _ then S (digits_in base n s) else 0%nat
  | _, _ => 0%nat
  end.

Definition digits_value (base : Z) (n : nat) (s : string) : Z := (scan_digits base (substring 0 n s) 0).1.

(** What stands for the letters of C.  [iproute2-3.1.0/tc/emp_ematch.l:115-123 ematch_lex] *)
Definition escape_char (c : ascii) : ascii :=
  if Ascii.eqb c "n" then "010" else if Ascii.eqb c "r" then "013" else if Ascii.eqb c "t" then "009"
  else if Ascii.eqb c "v" then "011" else if Ascii.eqb c "b" then "008" else if Ascii.eqb c "f" then "012"
  else if Ascii.eqb c "a" then "007" else c.

(** The character behind a backslash and the number of characters that stand for it, or
    [None] for the token ERROR: of the two rules for digits the longer match counts, and the
    first when they are equal.  [iproute2-3.1.0/tc/emp_ematch.l:90-123 ematch_lex] *)
Definition escape (s : string) : option (ascii * nat) :=
  let all := digits_in 10 (String.length s) s in
  let octal := digits_in 8 3 s in
  if (all =? 0)%nat then
    match s with
    | String c s' =>
        let hex := digits_in 16 2 s' in
        if Ascii.eqb c "x" && negb (hex =? 0)%nat then Some (char_of (digits_value 16 hex s'), S hex)
        else Some (escape_char c, 1%nat)
    | "" => None
    end
  else if (octal =? all)%nat then
    let v := digits_value 8 octal s in if 255 <? v then None else Some (char_of v, octal)
  else None.

(** ** Scanning *)

(** What [YY_INPUT] gives of a word: the word and a space; an empty word is passed over.
    [iproute2-3.1.0/tc/emp_ematch.l:14-32 YY_INPUT] *)
Definition chunk (w : string) : string := match w with "" => "" | _ => w +:+ " " end.

Definition is_blank (c : ascii) : bool :=
  Ascii.eqb c " " || Ascii.eqb c "009" || Ascii.eqb c "013" || Ascii.eqb c "010".

Fixpoint skip_white (s : string) : string :=
  match s with String c s' => if is_blank c then skip_white s' else s | "" => "" end.

Definition is_text (c : ascii) : bool := negb (is_blank c || Ascii.eqb c "(" || Ascii.eqb c ")").

(** The longest match of the last rule, and the rest. *)
Fixpoint span_text (s : string) : string * string :=
  match s with
  | String c s' => if is_text c then let '(t, r) := span_text s' in (String c t, r) else ("", s)
  | "" => ("", "")
  end.

Definition quote : ascii := "034".

(** A quoted string, up to its end: [skip] characters more belong to an escape, and [inside]
    is the state of a run.  A newline has no rule and is shown instead.
    [iproute2-3.1.0/tc/emp_ematch.l:83-124 ematch_lex] *)
Fixpoint string_token (words : list string) (last : option string) : nat -> string -> bool -> strbuf -> token * scanner :=
  fix go skip s inside buf :=
    match s with
    | "" =>
        match words with
        | [] => (TEof, mk_scanner "" last [] buf)
        | w :: words => string_token words (Some w) skip (chunk w) inside buf
        end
    | String c s =>
        match skip with
        | S skip => go skip s inside buf
        | O =>
            if Ascii.eqb c quote then (TAttr (Quoted (sb_index buf)), mk_scanner s last words buf)
            else if Ascii.eqb c "\" then
              match escape s with
              | Some (c, n) => go n s false (strbuf_append_char c buf)
              | None => (TError, mk_scanner s last words buf)
              end
            else if Ascii.eqb c "010" then go 0%nat s false buf
            else
              match strbuf_append_run inside c buf with
              | Some buf => go 0%nat s true buf
              | None => (TWild, mk_scanner s last words buf)
              end
        end
    end.

(** [iproute2-3.1.0/tc/emp_ematch.l:126-132 ematch_lex] *)
Definition keyword_token (t : string) : token :=
  if strcaseeq t "and" then TAnd else if strcaseeq t "or" then TOr else if strcaseeq t "not" then TNot else TAttr (Text t).

(** The next token.  A quotation mark opens a string only where the rule for text matches no
    more than it.  [iproute2-3.1.0/tc/emp_ematch.l:67-139 ematch_lex] *)
Fixpoint next_token (words : list string) (last : option string) (s : string) (buf : strbuf) : token * scanner :=
  match skip_white s with
  | "" =>
      match words with
      | [] => (TEof, mk_scanner "" last [] buf)
      | w :: words => next_token words (Some w) (chunk w) buf
      end
  | String c s' as s =>
      if Ascii.eqb c "(" then (TOpen, mk_scanner s' last words buf)
      else if Ascii.eqb c ")" then (TClose, mk_scanner s' last words buf)
      else
        let '(t, r) := span_text s in
        if String.eqb t (String quote "") then string_token words last 0%nat r false (strbuf_start buf)
        else (keyword_token t, mk_scanner r last words buf)
  end.

Definition ematch_lex (sc : scanner) : token * scanner :=
  next_token (sc_words sc) (sc_last sc) (sc_pending sc) (sc_buf sc).

Definition scan_start (argv : list string) : scanner := mk_scanner "" None argv (mk_strbuf [] 0 0).

Example scan_tokens :
  (let '(t1, sc) := ematch_lex (scan_start ["cmp(u8"; "at"; "NOT)"]) in
   let '(t2, sc) := ematch_lex sc in
   let '(t3, sc) := ematch_lex sc in let '(t4, sc) := ematch_lex sc in let '(t5, sc) := ematch_lex sc in
   let '(t6, sc) := ematch_lex sc in [t1; t2; t3; t4; t5; t6; (ematch_lex sc).1]) =
  [TAttr (Text "cmp"); TOpen; TAttr (Text "u8"); TAttr (Text "at"); TNot; TClose; TEof].
Proof. reflexivity. Qed.

(** ** Nodes *)

#[local] Set Primitive Projections.

(** A node; pointers are places in the store.  [iproute2-3.1.0/tc/m_ematch.h:56-65 ematch] *)
Record ematch := mk_ematch {
  em_args : list bstr;
  em_index : Z;
  em_inverted : Z;
  em_relation : Z;
  em_child_ref : Z;
  em_child : option nat;
  em_next : option nat
}.

#[local] Unset Primitive Projections.

#[export] Instance ematch_inhabited : Inhabited ematch := populate (mk_ematch [] 0 0 0 0 None None).

#[local] Abbreviation store := (list ematch).

(** [iproute2-3.1.0/tc/m_ematch.h:67-78 new_ematch] *)
Definition new_ematch (args : list bstr) (inverted : Z) : ematch := mk_ematch args 0 inverted 0 0 None None.

Definition TCF_EM_REL_AND : Z := 1.
Definition TCF_EM_REL_OR : Z := 2.
Definition TCF_EM_INVERT : Z := 4.
Definition TCF_EM_REL_MASK : Z := 3.

(** ** The parser *)

(** [iproute2-3.1.0/tc/emp_ematch.y:82-87 relation] *)
Definition relation_of (tok : token) : option Z :=
  match tok with TAnd => Some TCF_EM_REL_AND | TOr => Some TCF_EM_REL_OR | _ => None end.

(** [iproute2-3.1.0/tc/emp_ematch.y:89-94 invert] *)
Definition invert (tok : token) (sc : scanner) : Z * token * scanner :=
  match tok with TNot => let '(tok, sc) := ematch_lex sc in (1, tok, sc) | _ => (0, tok, sc) end.

(** The arguments and the token behind them; [None] without fuel.
    [iproute2-3.1.0/tc/emp_ematch.y:75-80 args] *)
Fixpoint args (fuel : nat) (sc : scanner) : option (list bstr * token * scanner) :=
  match fuel with
  | O => None
  | S fuel =>
      let '(tok, sc) := ematch_lex sc in
      match tok with
      | TAttr b => match args fuel sc with Some (l, tok, sc) => Some (b :: l, tok, sc) | None => None end
      | _ => Some ([], tok, sc)
      end
  end.

(** An expression: its first node, the token behind it and the store; or a syntax error, or
    a string that overran its buffer. *)
Inductive expr_end := Expr (a : nat) (tok : token) (sc : scanner) (st : store) | NoExpr | WildExpr | MoreExpr.

Definition link (a : nat) (r : Z) (b : nat) (st : store) : store :=
  alter (fun e => (e <| em_relation := r |>) <| em_next := Some b |>) a st.

(** A match becomes a node, and what is behind a relation is linked to it.
    [iproute2-3.1.0/tc/emp_ematch.y:47-56 expr] *)
Definition expr_behind (expr : token -> scanner -> store -> expr_end) (e : ematch) (sc : scanner) (st : store) : expr_end :=
  let a := List.length st in
  let st := st ++ [e] in
  let '(tok, sc) := ematch_lex sc in
  match relation_of tok with
  | Some r =>
      let '(tok, sc) := ematch_lex sc in
      match expr tok sc st with Expr b tok sc st => Expr a tok sc (link a r b st) | e => e end
  | None => match tok with TWild => WildExpr | _ => Expr a tok sc st end
  end.

(** The token [tok] has been read.  [iproute2-3.1.0/tc/emp_ematch.y:47-73 expr] *)
Fixpoint expr (fuel : nat) (tok : token) (sc : scanner) (st : store) : expr_end :=
  match fuel with
  | O => MoreExpr
  | S fuel =>
      let '(inv, tok, sc) := invert tok sc in
      match tok with
      | TAttr b =>
          let '(tok, sc) := ematch_lex sc in
          match tok with
          | TOpen =>
              match args fuel sc with
              | Some (b' :: l, TClose, sc) => expr_behind (expr fuel) (new_ematch (b :: b' :: l) inv) sc st
              | Some (_, TWild, _) => WildExpr
              | Some _ => NoExpr
              | None => MoreExpr
              end
          | TWild => WildExpr
          | _ => NoExpr
          end
      | TOpen =>
          let '(tok, sc) := ematch_lex sc in
          match expr fuel tok sc st with
          | Expr c TClose sc st => expr_behind (expr fuel) ((new_ematch [] inv) <| em_child := Some c |>) sc st
          | Expr _ _ _ _ => NoExpr
          | e => e
          end
      | TWild => WildExpr
      | _ => NoExpr
      end
  end.

(** The characters that are left to the scanner, a space for every word counted. *)
Definition scan_size (sc : scanner) : nat :=
  String.length (sc_pending sc) + list_sum (map (fun w => S (String.length w)) (sc_words sc)).

(** What the parser accepts: nothing, or a root; then the scanner is where the token of
    look-ahead ends.  An error behind an expression is taken for its end. *)
Inductive root_end := Root (root : option nat) (st : store) (sc : scanner) | RootError | RootWild | RootMore.

(** [iproute2-3.1.0/tc/emp_ematch.y:36-45 input] *)
Definition ematch_parse (argv : list string) : root_end :=
  let '(tok, sc) := ematch_lex (scan_start argv) in
  match tok with
  | TEof => Root None [] sc
  | _ =>
      match expr (S (scan_size (scan_start argv))) tok sc [] with
      | Expr a _ sc st => Root (Some a) st sc
      | NoExpr => RootError
      | WildExpr => RootWild
      | MoreExpr => RootMore
      end
  end.

(** ** Flattening *)

(** The nodes from a pointer on; the fuel is the size of the store. *)
Fixpoint walk (fuel : nat) (st : store) (t : option nat) : list nat :=
  match fuel, t with
  | S fuel, Some a => a :: walk fuel st (em_next (st !!! a))
  | _, _ => []
  end.

Definition nodes (st : store) (head : nat) : list nat := walk (List.length st) st (Some head).

(** The last of the nodes is made to point at [c].
    [iproute2-3.1.0/tc/m_ematch.c:236-237 flatten_tree] *)
Definition append_nodes (st : store) (head c : nat) : store :=
  alter (fun e => e <| em_next := Some c |>) (List.last (nodes st head) head) st.

(** Every node gets its place, and every parent that of its first child.
    [iproute2-3.1.0/tc/m_ematch.c:247-252 flatten_tree] *)
Definition number_nodes (st : store) (head : nat) : store :=
  let l := nodes st head in
  let st := foldl (fun st '(i, t) => alter (fun e => e <| em_index := Z.of_nat i |>) t st) st (imap pair l) in
  foldl (fun st t =>
    match em_child (st !!! t) with
    | Some c => alter (fun e => e <| em_child_ref := em_index (st !!! c) |>) t st
    | None => st
    end) st l.

(** The loop from the node [tree] on, with the count so far; [None] without fuel, or where a
    null pointer is followed.  [iproute2-3.1.0/tc/m_ematch.c:227-255 flatten_tree] *)
Fixpoint flatten_tree (fuel : nat) (st : store) (head tree : nat) (count : Z) : option (Z * store) :=
  match fuel with
  | O => None
  | S fuel =>
      let count := count + 1 in
      let go (count : Z) (st : store) :=
        if em_relation (st !!! tree) =? 0 then Some (count, number_nodes st head)
        else match em_next (st !!! tree) with Some tree => flatten_tree fuel st head tree count | None => None end in
      match em_child (st !!! tree) with
      | Some c =>
          match flatten_tree fuel (append_nodes st head c) head c 0 with
          | Some (k, st) => go (count + k) st
          | None => None
          end
      | None => go count st
      end
  end.

(** ** Kinds *)

(** An argument as a module sees it: its bytes, whether it was quoted, and the C string that
    starts with it. *)
Record em_arg := mk_emarg { b_data : string; b_quoted : bool; b_cstr : string }.

(** The text up to the first NUL of the buffer; nothing behind what was written was ever
    set. *)
Fixpoint c_string (l : list ascii) : string :=
  match l with [] => "" | c :: l => if Ascii.eqb c "000" then "" else String c (c_string l) end.

(** Read when the whole expression has been scanned: of two quoted strings the later has
    overwritten the earlier.  [iproute2-3.1.0/tc/m_ematch.h:23-34 bstr_new] *)
Definition bstr_arg (buf : strbuf) (b : bstr) : em_arg :=
  match b with
  | Text s => mk_emarg s false s
  | Quoted len => mk_emarg (string_of_list_ascii (take len (sb_data buf))) true (c_string (sb_data buf))
  end.

(** [bstrcmp(b, text) == 0].  [iproute2-3.1.0/tc/m_ematch.h:36-45 bstrcmp] *)
Definition bstreq (b : em_arg) (text : string) : bool := String.eqb (b_data b) text.

(** [None] for [ULONG_MAX].  [iproute2-3.1.0/tc/m_ematch.c:513-527 bstrtoul] *)
Definition bstrtoul (b : em_arg) : option Z :=
  match strtoul (b_data b) 0 with
  | Some (l, _) => if l =? ULONG_MAX then None else Some l
  | None => None
  end.

(** [None] for [INT_MAX].  [iproute2-3.1.0/tc/m_ematch.h:94-104 parse_layer] *)
Definition parse_layer (b : em_arg) : option Z :=
  match b_cstr b with
  | String c _ =>
      if Ascii.eqb c "l" then Some 0 else if Ascii.eqb c "n" then Some 1 else if Ascii.eqb c "t" then Some 2 else None
  | "" => None
  end.

(** How the parser of a module ends: it has added its data, or refused, or read what is not
    its own. *)
Inductive em_end := EmAdded (n : nlmsghdr) | EmRefused | EmWild.

(** The header of a node.  [iproute2-3.1.0/include/linux/pkt_cls.h:406-411 tcf_ematch_hdr] *)
Record tcf_ematch_hdr := mk_emhdr { h_matchid : Z; h_kind : Z; h_flags : Z }.

Definition emhdr_bytes (h : tcf_ematch_hdr) : list Z :=
  le_bytes 2 (h_matchid h) ++ le_bytes 2 (h_kind h) ++ le_bytes 2 (h_flags h) ++ le_bytes 2 0.

Definition EMHDR_SIZE : Z := 8.

(** The printer gets the place and the length of the data behind the header.
    [iproute2-3.1.0/tc/m_ematch.h:83-92 ematch_util] *)
Record ematch_util := mk_ematch_util {
  em_kind : string;
  em_kind_num : Z;
  em_parse_eopt : nlmsghdr -> tcf_ematch_hdr -> list em_arg -> em_end;
  em_print_eopt : list Z -> Z -> Z -> Z * string
}.

(** ** The map of kinds *)

Definition ENOENT : Z := 2.

(** The first line whose entry is wanted; [None] for an error.
    [iproute2-3.1.0/tc/m_ematch.c:99-127 lookup_map_id] *)
Fixpoint map_search {A} (fuel : nat) (wanted : Z -> string -> option A) (stream : string) : option A :=
  match fuel with
  | O => None
  | S fuel =>
      match fgets stream with
      | None => None
      | Some (line, stream) =>
          match skip_blanks line with
          | "" => map_search fuel wanted stream
          | String c _ as p =>
              if Ascii.eqb c "#" || Ascii.eqb c "010" then map_search fuel wanted stream
              else
                match number_and_name (scanf_d p) with
                | None => None
                | Some (id, name) => match wanted id name with Some a => Some a | None => map_search fuel wanted stream end
                end
          end
      end
  end.

Section Ematch.
(** The text of the file of kinds, the symbols of the libraries, what stands behind the
    end of a buffer of a name, and what becomes of a program that reads or writes memory that
    is not its own, or runs on without an end. *)
Context (map_file : option string) (load : string -> option ematch_util) (behind : string) (wild : aopt_outcome).

Definition in_map {A} (wanted : Z -> string -> option A) : option A :=
  match map_file with Some text => map_search (S (String.length text)) wanted text | None => None end.

(** [iproute2-3.1.0/tc/m_ematch.c:90-127 lookup_map_id] *)
Definition lookup_map_id (kind : string) : option Z :=
  in_map (fun id name => if strcaseeq name kind then Some id else None).

(** [strncpy] into a buffer of [size] bytes that leaves the last as it is. *)
Definition name_buffer (size : nat) (s : string) : string :=
  if (String.length s <? size - 1)%nat then s else substring 0 (size - 1) s +:+ behind.

(** [iproute2-3.1.0/tc/m_ematch.c:52-88 lookup_map] *)
Definition lookup_map (num : Z) : option string :=
  in_map (fun id name => if id =? num then Some (name_buffer 32 name) else None).

(** The list of the kinds that have been found gives what the libraries give.
    [iproute2-3.1.0/tc/m_ematch.c:129-161 get_ematch_kind] *)
Definition get_ematch_kind (kind : string) : option ematch_util := load kind.

(** [iproute2-3.1.0/tc/m_ematch.c:163-171 get_ematch_kind_num] *)
Definition get_ematch_kind_num (kind : Z) : option ematch_util :=
  match lookup_map kind with Some name => get_ematch_kind name | None => None end.

(** ** The request *)

Definition TCA_EMATCH_TREE_HDR : Z := 1.
Definition TCA_EMATCH_TREE_LIST : Z := 2.
Definition TCA_EMATCH_TREE_MAX : Z := 2.

(** [iproute2-3.1.0/tc/m_ematch.c:180-186 parse_tree] *)
Definition node_flags (t : ematch) : Z :=
  if em_inverted t =? 0 then em_relation t else Z.lor (em_relation t) TCF_EM_INVERT.

(** The data of a node, behind the header of its attribute.
    [iproute2-3.1.0/tc/m_ematch.c:190-218 parse_tree] *)
Definition parse_node (buf : strbuf) (t : ematch) (n : nlmsghdr) : em_end :=
  match em_child t with
  | Some _ =>
      let n := (addraw_l n MAX_MSG (emhdr_bytes (mk_emhdr 0 0 (node_flags t)))).2 in
      EmAdded (addraw_l n MAX_MSG (le_bytes 4 (em_child_ref t))).2
  | None =>
      match map (bstr_arg buf) (em_args t) with
      | [] => EmRefused
      | arg :: args =>
          let name := name_buffer 64 (b_cstr arg) in
          match get_ematch_kind name with
          | None => EmRefused
          | Some e =>
              match lookup_map_id name with
              | None => EmRefused
              | Some num => em_parse_eopt e n (mk_emhdr 0 (u16 num) (node_flags t)) args
              end
          end
      end
  end.

(** [iproute2-3.1.0/tc/m_ematch.c:173-225 parse_tree] *)
Fixpoint parse_tree (buf : strbuf) (l : list ematch) (index : Z) (n : nlmsghdr) : em_end :=
  match l with
  | [] => EmAdded n
  | t :: l =>
      let tail := NLMSG_TAIL n in
      match parse_node buf t (addattr_l n MAX_MSG index []).2 with
      | EmAdded n => parse_tree buf l (index + 1) (close_nest tail n)
      | e => e
      end
  end.

(** The number of nodes and the program.
    [iproute2-3.1.0/include/linux/pkt_cls.h:393-396 tcf_ematch_tree_hdr] *)
Definition tree_hdr_bytes (nmatches : Z) : list Z := le_bytes 2 nmatches ++ le_bytes 2 0.

(** The words from the last one read on: one word of look-ahead is given back.
    [iproute2-3.1.0/tc/m_ematch.c:334-336 parse_ematch] *)
Definition undo_words (sc : scanner) : list string :=
  match sc_last sc with Some w => w :: sc_words sc | None => sc_words sc end.

(** [iproute2-3.1.0/tc/m_ematch.c:320-364 parse_ematch] *)
Definition parse_ematch (argv : list string) (tca_id : Z) (n : nlmsghdr) : aopt_outcome :=
  match ematch_parse argv with
  | RootError => AReturn (- EINVAL) n argv
  | RootWild | RootMore => wild
  | Root None _ sc => AReturn 0 n (undo_words sc)
  | Root (Some root) st sc =>
      match flatten_tree (List.length st) st root root 0 with
      | None => wild
      | Some (count, st) =>
          let tail := NLMSG_TAIL n in
          let n := (addattr_l n MAX_MSG tca_id []).2 in
          let n := (addattr_l n MAX_MSG TCA_EMATCH_TREE_HDR (tree_hdr_bytes count)).2 in
          let tail_list := NLMSG_TAIL n in
          let n := (addattr_l n MAX_MSG TCA_EMATCH_TREE_LIST []).2 in
          match parse_tree (sc_buf sc) (map (fun a => st !!! a) (nodes st root)) 1 n with
          | EmRefused => AReturn (- 1) n argv
          | EmWild => wild
          | EmAdded n => AReturn 0 (close_nest tail (close_nest tail_list n)) (undo_words sc)
          end
      end
  end.

(** ** Printing *)

(** How printing ends: with 0, with -1, where the table is left, or without fuel. *)
Inductive seq_end := SeqOk | SeqBad | SeqWild | SeqMore.

Fixpoint indent (n : nat) : string := match n with O => "" | S n => "  " +:+ indent n end.

(** [iproute2-3.1.0/tc/m_ematch.c:421-435 print_ematch_seq] *)
Definition relation_text (flags : Z) : option string :=
  let r := Z.land flags TCF_EM_REL_MASK in
  if r =? TCF_EM_REL_AND then Some "AND " else if r =? TCF_EM_REL_OR then Some "OR " else None.

(** The nodes from the place [i] of the table on; the fuel is for the steps to a next node or
    to a child.  [iproute2-3.1.0/tc/m_ematch.c:366-440 print_ematch_seq] *)
Fixpoint print_ematch_seq (fuel : nat) (m : list Z) (tb : list (option Z)) (i : Z) (prefix : nat) : seq_end * string :=
  match fuel with
  | O => (SeqMore, "")
  | S fuel =>
      match (if i <? 0 then None else tb !! Z.to_nat i) with
      | None => (SeqWild, "")
      | Some None => (SeqBad, "")
      | Some (Some rta) =>
          let dlen := RTA_PAYLOAD m rta - EMHDR_SIZE in
          let data := RTA_DATA rta + EMHDR_SIZE in
          if dlen <? 0 then (SeqBad, "")
          else
            let kind := load16 m (RTA_DATA rta + 2) in
            let flags := load16 m (RTA_DATA rta + 4) in
            let not := if Z.land flags TCF_EM_INVERT =? 0 then "" else "NOT " in
            let next (text : string) :=
              match relation_text flags with
              | None => (SeqOk, text)
              | Some r => let '(e, t) := print_ematch_seq fuel m tb (i + 1) prefix in (e, text +:+ r +:+ t)
              end in
            let behind := if Z.land flags TCF_EM_REL_MASK =? 0 then "" else indent prefix in
            if kind =? 0 then
              if dlen <? 4 then (SeqBad, not)
              else
                let ref := of_le_bytes (load_bytes m data 4) in
                let open := not +:+ "(" +:+ newline +:+ indent (S prefix) in
                match print_ematch_seq fuel m tb (s32 (ref + 1)) (S prefix) with
                | (SeqOk, t) => next (open +:+ t +:+ indent prefix +:+ ") ")
                | (e, t) => (e, open +:+ t)
                end
            else
              match get_ematch_kind_num kind with
              | None => next (not +:+ "[unknown ematch " +:+ print_d kind +:+ "]" +:+ newline +:+ behind)
              | Some e =>
                  let '(r, t) := em_print_eopt e m data dlen in
                  let text := not +:+ em_kind e +:+ "(" +:+ t in
                  if r <? 0 then (SeqBad, text) else next (text +:+ ")" +:+ newline +:+ behind)
              end
      end
  end.

(** With a step for every node of the list there is fuel enough for what the program sends.
    [iproute2-3.1.0/tc/m_ematch.c:442-465 print_ematch_list] *)
Definition print_ematch_list (m : list Z) (nmatches rta : Z) : seq_end * string :=
  if 0 <? nmatches then
    let '(e, t) :=
      print_ematch_seq (S (Z.to_nat nmatches)) m (parse_rtattr_nested m nmatches rta).1 1 1 in
    (e, newline +:+ "  " +:+ t)
  else (SeqOk, "").

(** [iproute2-3.1.0/tc/m_ematch.c:467-493 print_ematch] *)
Definition print_ematch (m : list Z) (rta : Z) : seq_end * string :=
  let tb := (parse_rtattr_nested m TCA_EMATCH_TREE_MAX rta).1 in
  match tb !!! Z.to_nat TCA_EMATCH_TREE_HDR, tb !!! Z.to_nat TCA_EMATCH_TREE_LIST with
  | Some hdr, Some list =>
      if RTA_PAYLOAD m hdr <? 4 then (SeqBad, "") else print_ematch_list m (load16 m (RTA_DATA hdr)) list
  | _, _ => (SeqBad, "")
  end.
End Ematch.
