(* ===== verification/TcEmods.v ===== *)
(** * Extended matches: the modules (em_cmp.c, em_nbyte.c, em_u32.c, em_meta.c of
    iproute2-3.1.0/tc)

    Comparison of a field, of a string of bytes, of a masked word, and of data about a packet:
    their arguments, their bytes in a message, and their text. *)

From S2P Require Export TcEmatch TcU32Match.

#[local] Open Scope list_scope.

(** ** What the modules share *)

Definition TCF_EM_OPND_EQ : Z := 0.
Definition TCF_EM_OPND_GT : Z := 1.
Definition TCF_EM_OPND_LT : Z := 2.
Definition TCF_LAYER_NETWORK : Z := 1.
Definition TCF_LAYER_MAX : Z := 2.

(** [iproute2-3.1.0/tc/em_cmp.c:82-94 cmp_parse_eopt] *)
Definition layer_arg (a : em_arg) : option Z :=
  match parse_layer a with
  | Some l => Some l
  | None => match bstrtoul a with Some l => if TCF_LAYER_MAX <? l then None else Some l | None => None end
  end.

(** The width of a field.  [iproute2-3.1.0/tc/em_cmp.c:57-64 cmp_parse_eopt] *)
Definition align_arg (a : em_arg) : option Z :=
  if bstreq a "u8" then Some 1 else if bstreq a "u16" then Some 2 else if bstreq a "u32" then Some 4 else None.

(** The operands.  [iproute2-3.1.0/tc/em_meta.c:382-389 meta_parse_eopt] *)
Definition opnd_arg (a : em_arg) : option Z :=
  if bstreq a "eq" then Some TCF_EM_OPND_EQ
  else if bstreq a "gt" then Some TCF_EM_OPND_GT
  else if bstreq a "lt" then Some TCF_EM_OPND_LT
  else None.

(** [iproute2-3.1.0/tc/em_cmp.c:169-174 cmp_print_eopt] *)
Definition opnd_text (op : Z) : string :=
  if op =? TCF_EM_OPND_EQ then "eq " else if op =? TCF_EM_OPND_LT then "lt " else if op =? TCF_EM_OPND_GT then "gt " else "".

(** [isprint] of the C locale, and what is shown of a byte. *)
Definition isprint (b : Z) : bool := (32 <=? b) && (b <=? 126).
Definition shown_char (b : Z) : string := String (if isprint b then char_of b else "."%char) "".

Definition chars_text (l : list Z) : string := foldr (fun b s => shown_char b +:+ s) "" l.
Definition bytes_text (l : list Z) : string := foldr (fun b s => print_02x b +:+ " " +:+ s) "" l.

(** The bytes of a string. *)
Definition data_bytes (s : string) : list Z := map code (list_ascii_of_string s).

(** Pieces are added one behind the other, each aligned. *)
Definition add_pieces (n : nlmsghdr) (l : list (list Z)) : nlmsghdr := foldl (fun n d => (addraw_l n MAX_MSG d).2) n l.

(** ** cmp *)

Module Cmp.
Definition TCF_EM_CMP : Z := 1.
Definition TCF_EM_CMP_TRANS : Z := 1.

#[local] Set Primitive Projections.
(** [iproute2-3.1.0/include/linux/tc_ematch/tc_em_cmp.h:7-15 tcf_em_cmp] *)
Record tcf_em_cmp := mk_cmp { cm_val : Z; cm_mask : Z; cm_off : Z; cm_align : Z; cm_flags : Z; cm_layer : Z; cm_opnd : Z }.

(** What the words set. *)
Record words := mk_words { w_offset : option Z; w_layer : Z; w_mask : Z; w_value : option Z; w_opnd : Z; w_trans : bool }.
#[local] Unset Primitive Projections.

Definition cmp_bytes (c : tcf_em_cmp) : list Z :=
  le_bytes 4 (cm_val c) ++ le_bytes 4 (cm_mask c) ++ le_bytes 2 (cm_off c) ++
  [cm_align c + 16 * cm_flags c; cm_layer c + 16 * cm_opnd c].

(** The bit fields of a byte. *)
Definition low4 (b : Z) : Z := b mod 16.
Definition high4 (b : Z) : Z := b / 16.

Definition cmp_of_bytes (b : list Z) : tcf_em_cmp :=
  let at8 o := of_le_bytes (load_bytes b o 1) in
  mk_cmp (of_le_bytes (load_bytes b 0 4)) (of_le_bytes (load_bytes b 4 4)) (of_le_bytes (load_bytes b 8 2))
    (low4 (at8 10)) (high4 (at8 10)) (low4 (at8 11)) (high4 (at8 11)).

Definition CMP_SIZE : Z := 12.

(** [iproute2-3.1.0/tc/em_cmp.c:66-124 cmp_parse_eopt] *)
Fixpoint cmp_words (l : list em_arg) (w : words) : option words :=
  match l with
  | [] => Some w
  | a :: l =>
      let number (set : Z -> words) :=
        match l with
        | [] => None
        | v :: l => match bstrtoul v with Some z => cmp_words l (set z) | None => None end
        end in
      if bstreq a "at" then number (fun z => w <| w_offset := Some z |>)
      else if bstreq a "layer" then
        match l with
        | [] => None
        | v :: l => match layer_arg v with Some z => cmp_words l (w <| w_layer := z |>) | None => None end
        end
      else if bstreq a "mask" then number (fun z => w <| w_mask := z |>)
      else if bstreq a "trans" then cmp_words l (w <| w_trans := true |>)
      else
        match opnd_arg a with
        | Some op => number (fun z => (w <| w_opnd := op |>) <| w_value := Some z |>)
        | None => None
        end
  end.

(** Without the offset or the value the arguments are refused.
    [iproute2-3.1.0/tc/em_cmp.c:40-136 cmp_parse_eopt] *)
Definition cmp_of_args (args : list em_arg) : option tcf_em_cmp :=
  match args with
  | [] => None
  | a :: l =>
      match align_arg a with
      | None => None
      | Some align =>
          match cmp_words l (mk_words None TCF_LAYER_NETWORK 0 None 0 false) with
          | Some (mk_words (Some offset) layer mask (Some value) opnd trans) =>
              Some (mk_cmp (u32 value) (u32 mask) (u16 offset) align (if trans then TCF_EM_CMP_TRANS else 0) layer opnd)
          | _ => None
          end
      end
  end.

(** [iproute2-3.1.0/tc/em_cmp.c:40-142 cmp_parse_eopt] *)
Definition cmp_parse_eopt (n : nlmsghdr) (hdr : tcf_ematch_hdr) (args : list em_arg) : em_end :=
  match cmp_of_args args with
  | Some c => EmAdded (add_pieces n [emhdr_bytes hdr; cmp_bytes c])
  | None => EmRefused
  end.

(** [iproute2-3.1.0/tc/em_cmp.c:154-176 cmp_print_eopt] *)
Definition cmp_text (c : tcf_em_cmp) : string :=
  (if cm_align c =? 1 then "u8 " else if cm_align c =? 2 then "u16 " else if cm_align c =? 4 then "u32 " else "") +:+
  "at " +:+ print_d (cm_off c) +:+ " layer " +:+ print_d (cm_layer c) +:+ " " +:+
  (if cm_mask c =? 0 then "" else "mask 0x" +:+ print_x (cm_mask c) +:+ " ") +:+
  (if Z.land (cm_flags c) TCF_EM_CMP_TRANS =? 0 then "" else "trans ") +:+
  opnd_text (cm_opnd c) +:+ print_d (s32 (cm_val c)).

(** [iproute2-3.1.0/tc/em_cmp.c:144-179 cmp_print_eopt] *)
Definition cmp_print_eopt (m : list Z) (data data_len : Z) : Z * string :=
  if data_len <? CMP_SIZE then (- 1, "") else (0, cmp_text (cmp_of_bytes (load_bytes m data CMP_SIZE))).

(** [iproute2-3.1.0/tc/em_cmp.c:181-187 cmp_ematch_util] *)
Definition cmp_ematch_util : ematch_util := mk_ematch_util "cmp" TCF_EM_CMP cmp_parse_eopt cmp_print_eopt.
End Cmp.

(** ** nbyte *)

Module Nbyte.
Definition TCF_EM_NBYTE : Z := 2.

#[local] Set Primitive Projections.
(** [iproute2-3.1.0/include/linux/tc_ematch/tc_em_nbyte.h:7-11 tcf_em_nbyte] *)
Record tcf_em_nbyte := mk_nbyte { nb_off : Z; nb_len : Z; nb_layer : Z }.
#[local] Unset Primitive Projections.

Definition nbyte_bytes (b : tcf_em_nbyte) : list Z := le_bytes 2 (nb_off b) ++ le_bytes 2 (nb_len b + 4096 * nb_layer b).

Definition nbyte_of_bytes (b : list Z) : tcf_em_nbyte :=
  let w := of_le_bytes (load_bytes b 2 2) in mk_nbyte (of_le_bytes (load_bytes b 0 2)) (w mod 4096) (w / 4096).

Definition NBYTE_SIZE : Z := 4.

(** The offset, if it was given, and the layer.
    [iproute2-3.1.0/tc/em_nbyte.c:60-92 nbyte_parse_eopt] *)
Fixpoint nbyte_words (l : list em_arg) (offset : option Z) (layer : Z) : option (option Z * Z) :=
  match l with
  | [] => Some (offset, layer)
  | a :: l =>
      if bstreq a "at" then
        match l with
        | [] => None
        | v :: l => match bstrtoul v with Some z => nbyte_words l (Some z) layer | None => None end
        end
      else if bstreq a "layer" then
        match l with
        | [] => None
        | v :: l => match layer_arg v with Some z => nbyte_words l offset z | None => None end
        end
      else None
  end.

(** The length is kept in 12 bits, the bytes are all sent.
    [iproute2-3.1.0/tc/em_nbyte.c:40-105 nbyte_parse_eopt] *)
Definition nbyte_of_args (args : list em_arg) : option (tcf_em_nbyte * list Z) :=
  match args with
  | [] => None
  | needle :: l =>
      let data := data_bytes (b_data needle) in
      if Z.of_nat (List.length data) =? 0 then None
      else
        match nbyte_words l None TCF_LAYER_NETWORK with
        | Some (Some offset, layer) =>
            Some (mk_nbyte (u16 offset) (Z.of_nat (List.length data) mod 4096) layer, data)
        | _ => None
        end
  end.

(** [iproute2-3.1.0/tc/em_nbyte.c:40-105 nbyte_parse_eopt] *)
Definition nbyte_parse_eopt (n : nlmsghdr) (hdr : tcf_ematch_hdr) (args : list em_arg) : em_end :=
  match nbyte_of_args args with
  | Some (nb, data) => EmAdded (add_pieces n [emhdr_bytes hdr; nbyte_bytes nb; data])
  | None => EmRefused
  end.

(** [iproute2-3.1.0/tc/em_nbyte.c:124-132 nbyte_print_eopt] *)
Definition nbyte_text (nb : tcf_em_nbyte) (needle : list Z) : string :=
  bytes_text needle +:+ String quote "" +:+ chars_text needle +:+ String quote "" +:+ " at " +:+ print_d (nb_off nb) +:+
  " layer " +:+ print_d (nb_layer nb).

(** [iproute2-3.1.0/tc/em_nbyte.c:107-135 nbyte_print_eopt] *)
Definition nbyte_print_eopt (m : list Z) (data data_len : Z) : Z * string :=
  if data_len <? NBYTE_SIZE then (- 1, "")
  else
    let nb := nbyte_of_bytes (load_bytes m data NBYTE_SIZE) in
    if data_len <? NBYTE_SIZE + nb_len nb then (- 1, "")
    else (0, nbyte_text nb (load_bytes m (data + NBYTE_SIZE) (nb_len nb))).

(** [iproute2-3.1.0/tc/em_nbyte.c:137-143 nbyte_ematch_util] *)
Definition nbyte_ematch_util : ematch_util := mk_ematch_util "nbyte" TCF_EM_NBYTE nbyte_parse_eopt nbyte_print_eopt.
End Nbyte.

(** ** u32 *)

Module Emu32.
Definition TCF_EM_U32 : Z := 3.

Section Word.
(** What stands behind the copy of the digits, which is not terminated. *)
Context (behind : string).

Definition nexthdr_plus : string := "nexthdr+".

(** The offset, whether it counts from the next header, and what follows; [None] for
    [ULONG_MAX].  Written apart, the word for the next header is not stored.
    [iproute2-3.1.0/tc/em_u32.c:88-107 u32_parse_eopt] *)
Definition offset_arg (a : em_arg) (rest : list em_arg) : option (Z * bool * list em_arg) :=
  let bounded (o : option Z) (nh : bool) (rest : list em_arg) :=
    match o with Some z => if z =? ULONG_MAX then None else Some (z, nh, rest) | None => None end in
  if (8 <? String.length (b_data a))%nat && String.prefix nexthdr_plus (b_data a) then
    bounded (Some (match strtoul (drop_chars 8 (b_data a) +:+ behind) 0 with Some (z, _) => z | None => 0 end)) true rest
  else if bstreq a nexthdr_plus then
    match rest with [] => None | v :: rest => bounded (bstrtoul v) false rest end
  else bounded (bstrtoul a) false rest.

(** The key and the mask moved to their place in the word, and the offset of the word; [None]
    where they are out of range.  [iproute2-3.1.0/tc/em_u32.c:109-138 u32_parse_eopt] *)
Definition place_key (align key mask offset : Z) : option (Z * Z * Z) :=
  let start := Z.land offset (Z.lnot 3) in
  if align =? 1 then
    if (0xFF <? key) || (0xFF <? mask) then None
    else let k := 24 - Z.land offset 3 * 8 in Some (Z.shiftl key k, Z.shiftl mask k, start)
  else if align =? 2 then
    if (0xFFFF <? key) || (0xFFFF <? mask) then None
    else if Z.land offset 3 =? 0 then Some (Z.shiftl key 16, Z.shiftl mask 16, start)
    else Some (key, mask, start)
  else if offset mod 4 =? 0 then Some (key, mask, offset) else None.

(** [iproute2-3.1.0/tc/em_u32.c:40-146 u32_parse_eopt] *)
Definition u32_of_args (args : list em_arg) : option tc_u32_key :=
  match args with
  | a :: k :: v :: at_ :: o :: rest =>
      match align_arg a, bstrtoul k, bstrtoul v with
      | Some align, Some key, Some mask =>
          if bstreq at_ "at" then
            match offset_arg o rest with
            | Some (offset, nh, []) =>
                match place_key align key mask offset with
                | Some (key, mask, offset) =>
                    let mask := ntohl (u32 mask) in
                    Some (mk_ukey mask (Z.land (ntohl (u32 key)) mask) (s32 offset) (if nh then - 1 else 0))
                | None => None
                end
            | _ => None
            end
          else None
      | _, _, _ => None
      end
  | _ => None
  end.

(** [iproute2-3.1.0/tc/em_u32.c:36-150 u32_parse_eopt] *)
Definition u32_parse_eopt (n : nlmsghdr) (hdr : tcf_ematch_hdr) (args : list em_arg) : em_end :=
  match u32_of_args args with
  | Some k => EmAdded (add_pieces n [emhdr_bytes hdr; key_bytes k])
  | None => EmRefused
  end.
End Word.

Definition UKEY_SIZE : Z := 16.

Definition ukey_of_bytes (b : list Z) : tc_u32_key :=
  mk_ukey (of_le_bytes (load_bytes b 0 4)) (of_le_bytes (load_bytes b 4 4)) (s32 (of_le_bytes (load_bytes b 8 4)))
    (s32 (of_le_bytes (load_bytes b 12 4))).

(** [iproute2-3.1.0/tc/em_u32.c:162-166 u32_print_eopt] *)
Definition u32_text (k : tc_u32_key) : string :=
  print_08x (ntohl (uk_val k)) +:+ "/" +:+ print_08x (ntohl (uk_mask k)) +:+ " at " +:+
  (if uk_offmask k =? 0 then "" else nexthdr_plus) +:+ print_d (uk_off k).

(** [iproute2-3.1.0/tc/em_u32.c:152-169 u32_print_eopt] *)
Definition u32_print_eopt (m : list Z) (data data_len : Z) : Z * string :=
  if data_len <? UKEY_SIZE then (- 1, "") else (0, u32_text (ukey_of_bytes (load_bytes m data UKEY_SIZE))).

(** [iproute2-3.1.0/tc/em_u32.c:171-177 u32_ematch_util] *)
Definition u32_ematch_util (behind : string) : ematch_util :=
  mk_ematch_util "u32" TCF_EM_U32 (u32_parse_eopt behind) u32_print_eopt.
End Emu32.

(** ** meta *)

Module Meta.
Definition TCF_EM_META : Z := 4.
Definition TCF_META_TYPE_VAR : Z := 0.
Definition TCF_META_TYPE_INT : Z := 1.
Definition TCF_META_ID_VALUE : Z := 0.
Definition TCA_EM_META_HDR : Z := 1.
Definition TCA_EM_META_LVALUE : Z := 2.
Definition TCA_EM_META_RVALUE : Z := 3.
Definition TCA_EM_META_MAX : Z := 3.

#[local] Set Primitive Projections.
(** [iproute2-3.1.0/tc/em_meta.c:42-47 meta_entry] *)
Record meta_entry := mk_entry { me_id : Z; me_kind : string; me_mask : string }.

(** [iproute2-3.1.0/include/linux/tc_ematch/tc_em_meta.h:16-20 tcf_meta_val] *)
Record tcf_meta_val := mk_mval { mv_kind : Z; mv_shift : Z; mv_op : Z }.
#[local] Unset Primitive Projections.

(** The section heads have the number 0; descriptions are left out.
    [iproute2-3.1.0/tc/em_meta.c:47-112 meta_table] *)
Definition meta_table : list meta_entry :=
  [mk_entry 0 "Generic" ""; mk_entry 1 "random" "i"; mk_entry 2 "loadavg_1" "i"; mk_entry 3 "loadavg_5" "i";
   mk_entry 4 "loadavg_15" "i";
   mk_entry 0 "Interfaces" ""; mk_entry 5 "dev" "iv";
   mk_entry 0 "Packet attributes" ""; mk_entry 6 "priority" "i"; mk_entry 7 "protocol" "i"; mk_entry 8 "pkt_type" "i";
   mk_entry 9 "pkt_len" "i"; mk_entry 10 "data_len" "i"; mk_entry 11 "mac_len" "i";
   mk_entry 0 "Netfilter" ""; mk_entry 12 "nf_mark" "i"; mk_entry 12 "fwmark" "i";
   mk_entry 0 "Traffic Control" ""; mk_entry 13 "tc_index" "i";
   mk_entry 0 "Routing" ""; mk_entry 14 "rt_classid" "i"; mk_entry 15 "rt_iif" "i"; mk_entry 46 "vlan" "i";
   mk_entry 0 "Sockets" ""; mk_entry 16 "sk_family" "i"; mk_entry 17 "sk_state" "i"; mk_entry 18 "sk_reuse" "i";
   mk_entry 19 "sk_bind_if" "iv"; mk_entry 20 "sk_refcnt" "i"; mk_entry 21 "sk_shutdown" "i"; mk_entry 22 "sk_proto" "i";
   mk_entry 23 "sk_type" "i"; mk_entry 24 "sk_rcvbuf" "i"; mk_entry 25 "sk_rmem" "i"; mk_entry 26 "sk_wmem" "i";
   mk_entry 27 "sk_omem" "i"; mk_entry 28 "sk_wmem_queue" "i"; mk_entry 30 "sk_snd_queue" "i"; mk_entry 29 "sk_rcv_queue" "i";
   mk_entry 31 "sk_err_queue" "i"; mk_entry 32 "sk_fwd_alloc" "i"; mk_entry 33 "sk_sndbuf" "i"].

(** [iproute2-3.1.0/include/linux/tc_ematch/tc_em_meta.h:22-25 TCF_META_TYPE] *)
Definition TCF_META_TYPE (kind : Z) : Z := Z.shiftr (Z.land kind 0xf000) 12.
Definition TCF_META_ID (kind : Z) : Z := Z.land kind 0x7ff.
Definition meta_kind (type id : Z) : Z := Z.lor (Z.shiftl type 12) id.

(** [None] for a character that means no type.  [iproute2-3.1.0/tc/em_meta.c:114-123 map_type] *)
Definition map_type (c : ascii) : option Z :=
  if Ascii.eqb c "i" then Some TCF_META_TYPE_INT else if Ascii.eqb c "v" then Some TCF_META_TYPE_VAR else None.

(** [iproute2-3.1.0/tc/em_meta.c:125-135 lookup_meta_entry] *)
Definition lookup_meta_entry (kind : em_arg) : option meta_entry :=
  List.find (fun e => bstreq kind (me_kind e) && negb (me_id e =? 0)) meta_table.

(** [iproute2-3.1.0/tc/em_meta.c:137-146 lookup_meta_entry_byid] *)
Definition lookup_meta_entry_byid (id : Z) : option meta_entry := List.find (fun e => me_id e =? id) meta_table.

Fixpoint mask_has (mask : string) (type : Z) : bool :=
  match mask with
  | String c mask => match map_type c with Some t => (t =? type) || mask_has mask type | None => mask_has mask type end
  | "" => false
  end.

(** The loop tests the pointer, not the character: where the type is not among those of the
    entry it runs on behind the text, [None].  [iproute2-3.1.0/tc/em_meta.c:168-184 is_compatible] *)
Definition is_compatible (what needed : tcf_meta_val) : option bool :=
  match lookup_meta_entry_byid (TCF_META_ID (mv_kind what)) with
  | None => Some false
  | Some e => if mask_has (me_mask e) (TCF_META_TYPE (mv_kind needed)) then Some true else None
  end.

(** [iproute2-3.1.0/tc/em_meta.c:236-239 can_adopt] *)
Definition can_adopt (v : tcf_meta_val) : bool := negb (TCF_META_ID (mv_kind v) =? 0).

(** [iproute2-3.1.0/tc/em_meta.c:241-245 overwrite_type] *)
Definition overwrite_type (src dst : tcf_meta_val) : Z := meta_kind (TCF_META_TYPE (mv_kind dst)) (TCF_META_ID (mv_kind src)).

(** The types of both sides made one: the left and the right, or not compatible, or a read
    behind the text of an entry.  [iproute2-3.1.0/tc/em_meta.c:280-306 parse_object] *)
Definition adopt (left right : tcf_meta_val) : option (option (tcf_meta_val * tcf_meta_val)) :=
  let as_left := (left <| mv_kind := overwrite_type left right |>, right) in
  let as_right := (left, right <| mv_kind := overwrite_type right left |>) in
  if TCF_META_TYPE (mv_kind right) =? TCF_META_TYPE (mv_kind left) then Some (Some (left, right))
  else if can_adopt left then
    match is_compatible left right with
    | None => None
    | Some true => Some (Some as_left)
    | Some false =>
        if can_adopt right then
          match is_compatible right left with None => None | Some true => Some (Some as_right) | Some false => Some None end
        else Some None
    end
  else if can_adopt right then
    match is_compatible right left with None => None | Some true => Some (Some as_right) | Some false => Some None end
  else Some None.

(** What the second result of [parse_object] is: a number or a pointer to an argument. *)
Inductive meta_dst := Number (z : Z) | Bytes (a : em_arg).

(** [iproute2-3.1.0/tc/em_meta.c:311-347 parse_object] *)
Fixpoint shift_mask (l : list em_arg) (obj : tcf_meta_val) (dst : meta_dst) : option (list em_arg * tcf_meta_val * meta_dst) :=
  match l with
  | [] => Some ([], obj, dst)
  | a :: l' =>
      if bstreq a "shift" then
        match l' with
        | [] => None
        | v :: l => match bstrtoul v with Some z => shift_mask l (obj <| mv_shift := u8 z |>) dst | None => None end
        end
      else if bstreq a "mask" then
        match l' with
        | [] => None
        | v :: l => match bstrtoul v with Some z => shift_mask l obj (Number z) | None => None end
        end
      else Some (l, obj, dst)
  end.

(** An object: the arguments behind it, itself, its value and the left side as it is then. *)
Inductive object_end :=
| Object (rest : list em_arg) (obj : tcf_meta_val) (dst : meta_dst) (left : option tcf_meta_val)
| NoObject
| WildObject.

(** [iproute2-3.1.0/tc/em_meta.c:248-356 parse_object] *)
Definition parse_object (arg : em_arg) (rest : list em_arg) (obj : tcf_meta_val) (left : option tcf_meta_val) : object_end :=
  if b_quoted arg then Object rest (obj <| mv_kind := meta_kind TCF_META_TYPE_VAR TCF_META_ID_VALUE |>) (Bytes arg) left
  else
    match bstrtoul arg with
    | Some num => Object rest (obj <| mv_kind := meta_kind TCF_META_TYPE_INT TCF_META_ID_VALUE |>) (Number num) left
    | None =>
        match lookup_meta_entry arg with
        | None => NoObject
        | Some e =>
            let type := match me_mask e with String c _ => default INT_MAX (map_type c) | "" => INT_MAX end in
            let obj := obj <| mv_kind := u16 (Z.lor (me_id e) (Z.shiftl type 12)) |> in
            let sides :=
              match left with
              | None => Some (Some (None, obj))
              | Some l =>
                  match adopt l obj with
                  | Some (Some (l, obj)) => Some (Some (Some l, obj))
                  | Some None => Some None
                  | None => None
                  end
              end in
            match sides with
            | None => WildObject
            | Some None => NoObject
            | Some (Some (lf, obj)) =>
                match shift_mask rest obj (Number 0) with Some (rest, obj, dst) => Object rest obj dst lf | None => NoObject end
            end
        end
    end.

(** Both sides and their values.  [iproute2-3.1.0/tc/em_meta.c:365-400 meta_parse_eopt] *)
Inductive meta_end := MetaOf (left right : tcf_meta_val) (lvalue rvalue : meta_dst) | NoMeta | WildMeta.

(** The list of the identifiers goes to the standard error, and the match is refused.
    [iproute2-3.1.0/tc/em_meta.c:358-400 meta_parse_eopt] *)
Definition meta_of_args (args : list em_arg) : meta_end :=
  let none := mk_mval 0 0 0 in
  match args with
  | [] => NoMeta
  | a :: rest =>
      if bstreq a "list" then NoMeta
      else
        match parse_object a rest none None with
        | NoObject => NoMeta
        | WildObject => WildMeta
        | Object [] _ _ _ => NoMeta
        | Object (o :: rest) lf lvalue _ =>
            match opnd_arg o with
            | None => NoMeta
            | Some op =>
                let lf := lf <| mv_op := op |> in
                match rest with
                | [] => NoMeta
                | a :: rest =>
                    match parse_object a rest none (Some lf) with
                    | NoObject => NoMeta
                    | WildObject => WildMeta
                    | Object [] rt rvalue l => MetaOf (default lf l) rt lvalue rvalue
                    | Object _ _ _ _ => NoMeta
                    end
                end
            end
        end
  end.

Definition mval_bytes (v : tcf_meta_val) : list Z := le_bytes 2 (mv_kind v) ++ le_bytes 1 (mv_shift v) ++ le_bytes 1 (mv_op v).

(** The value of a side as an attribute, if it has one; [None] where a number is followed as a
    pointer.  [iproute2-3.1.0/tc/em_meta.c:148-166 dump_value] *)
Definition dump_value (tlv : Z) (val : meta_dst) (hdr : tcf_meta_val) : option (list (Z * Z * list Z)) :=
  if TCF_META_TYPE (mv_kind hdr) =? TCF_META_TYPE_INT then
    match val with Number z => Some [(MAX_MSG, tlv, le_bytes 4 (u32 z))] | Bytes _ => None end
  else if TCF_META_TYPE (mv_kind hdr) =? TCF_META_TYPE_VAR then
    if TCF_META_ID (mv_kind hdr) =? TCF_META_ID_VALUE then
      match val with Bytes a => Some [(MAX_MSG, tlv, data_bytes (b_data a))] | Number _ => None end
    else Some []
  else Some [].

(** [iproute2-3.1.0/tc/em_meta.c:403-410 meta_parse_eopt] *)
Definition meta_attrs (left right : tcf_meta_val) (lvalue rvalue : meta_dst) : option (list (Z * Z * list Z)) :=
  match dump_value TCA_EM_META_LVALUE lvalue left, dump_value TCA_EM_META_RVALUE rvalue right with
  | Some l, Some r => Some ((MAX_MSG, TCA_EM_META_HDR, mval_bytes left ++ mval_bytes right) :: l ++ r)
  | _, _ => None
  end.

(** [iproute2-3.1.0/tc/em_meta.c:358-412 meta_parse_eopt] *)
Definition meta_parse_eopt (n : nlmsghdr) (hdr : tcf_ematch_hdr) (args : list em_arg) : em_end :=
  match meta_of_args args with
  | NoMeta => EmRefused
  | WildMeta => EmWild
  | MetaOf l r lvalue rvalue =>
      match meta_attrs l r lvalue rvalue with
      | Some l => EmAdded (add_bounded l (add_pieces n [emhdr_bytes hdr]))
      | None => EmWild
      end
  end.

(** [iproute2-3.1.0/tc/em_meta.c:415-435 print_binary] *)
Definition binary_text (l : list Z) : string :=
  if forallb isprint l then chars_text l else bytes_text l +:+ String quote "" +:+ chars_text l +:+ String quote "".

(** What is shown of a side, given the bytes of its value, and the value returned.
    [iproute2-3.1.0/tc/em_meta.c:437-498 print_object] *)
Definition object_text (obj : tcf_meta_val) (value : option (list Z)) : Z * string :=
  let id := TCF_META_ID (mv_kind obj) in
  let type := TCF_META_TYPE (mv_kind obj) in
  if id =? TCF_META_ID_VALUE then
    match value with
    | None => (- 1, "")
    | Some d =>
        if type =? TCF_META_TYPE_INT then
          if Z.of_nat (List.length d) <? 4 then (- 1, "") else (0, print_d (s32 (of_le_bytes (load_bytes d 0 4))))
        else if type =? TCF_META_TYPE_VAR then (0, binary_text d)
        else (0, "")
    end
  else
    let name := match lookup_meta_entry_byid id with Some e => me_kind e | None => "[unknown meta id " +:+ print_d id +:+ "]" end in
    let shift := if mv_shift obj =? 0 then "" else " shift " +:+ print_d (mv_shift obj) in
    match (if type =? TCF_META_TYPE_INT then value else None) with
    | None => (0, name +:+ shift)
    | Some d =>
        if Z.of_nat (List.length d) <? 4 then (- 1, name +:+ shift)
        else (0, name +:+ shift +:+ " mask 0x" +:+ print_08x (of_le_bytes (load_bytes d 0 4)))
    end.

(** [iproute2-3.1.0/tc/em_meta.c:525-535 meta_print_eopt] *)
Definition meta_op_text (op : Z) : string :=
  if op =? TCF_EM_OPND_EQ then " eq " else if op =? TCF_EM_OPND_LT then " lt " else if op =? TCF_EM_OPND_GT then " gt " else "".

(** Both sides; the second is only shown when the first could be.
    [iproute2-3.1.0/tc/em_meta.c:521-537 meta_print_eopt] *)
Definition meta_text (lf rt : tcf_meta_val) (lvalue rvalue : option (list Z)) : Z * string :=
  let '(r, l) := object_text lf lvalue in
  if r <? 0 then (- 1, l)
  else let '(r, t) := object_text rt rvalue in (r, l +:+ meta_op_text (mv_op lf) +:+ t).

Definition mval_of_bytes (b : list Z) : tcf_meta_val :=
  mk_mval (of_le_bytes (load_bytes b 0 2)) (of_le_bytes (load_bytes b 2 1)) (of_le_bytes (load_bytes b 3 1)).

Definition META_HDR_SIZE : Z := 8.

(** [iproute2-3.1.0/tc/em_meta.c:501-538 meta_print_eopt] *)
Definition meta_print_eopt (m : list Z) (data data_len : Z) : Z * string :=
  let tb := (parse_rtattr m TCA_EM_META_MAX data data_len).1 in
  let bytes (k : Z) := option_map (fun a => load_bytes m (RTA_DATA a) (RTA_PAYLOAD m a)) (tb !!! Z.to_nat k) in
  match tb !!! Z.to_nat TCA_EM_META_HDR with
  | None => (- 1, "")
  | Some a =>
      if RTA_PAYLOAD m a <? META_HDR_SIZE then (- 1, "")
      else
        meta_text (mval_of_bytes (load_bytes m (RTA_DATA a) 4)) (mval_of_bytes (load_bytes m (RTA_DATA a + 4) 4))
          (bytes TCA_EM_META_LVALUE) (bytes TCA_EM_META_RVALUE)
  end.

(** [iproute2-3.1.0/tc/em_meta.c:540-546 meta_ematch_util] *)
Definition meta_ematch_util : ematch_util := mk_ematch_util "meta" TCF_EM_META meta_parse_eopt meta_print_eopt.
End Meta.

(** The modules linked into the program. *)
Definition linked_ematches (behind : string) : list ematch_util :=
  [Cmp.cmp_ematch_util; Nbyte.nbyte_ematch_util; Emu32.u32_ematch_util behind; Meta.meta_ematch_util].

Definition load_ematch (behind : string) (kind : string) : option ematch_util :=
  List.find (fun e => String.eqb (em_kind e) kind) (linked_ematches behind).
