(* ===== verification/TcEmatchFacts.v ===== *)
(** * Extended matches: what is parsed, sent and shown

    Scanning and parsing end; the tokens of an expression are parsed into nodes that stand for
    it; flattening lays the nodes out group by group and refers to each group by its place;
    and the printer finds in the message the expression that was typed. *)

From S2P Require Export TcEmods.

#[local] Open Scope list_scope.

#[export] Instance bstr_eq_dec : EqDecision bstr.
Proof. solve_decision. Defined.

#[export] Instance token_eq_dec : EqDecision token.
Proof. solve_decision. Defined.

(** ** Scanning ends *)

Definition words_size (words : list string) : nat := list_sum (map (fun w => S (String.length w)) words).

Lemma words_size_cons w words : words_size (w :: words) = (S (String.length w) + words_size words)%nat.
Proof. reflexivity. Qed.

Lemma chunk_size w : (String.length (chunk w) <= S (String.length w))%nat.
Proof. destruct w as [|c w]; cbn [chunk]; [cbn; lia|]. rewrite length_append. cbn. lia. Qed.

Lemma skip_white_size s : (String.length (skip_white s) <= String.length s)%nat.
Proof. induction s as [|c s IH]; cbn [skip_white]; [done|]. destruct (is_blank c); cbn; lia. Qed.

Lemma span_text_size s : let '(t, r) := span_text s in String.length s = (String.length t + String.length r)%nat.
Proof.
  induction s as [|c s IH]; cbn [span_text]; [done|]. destruct (is_text c); [|done].
  destruct (span_text s) as [t r]. cbn. lia.
Qed.

Lemma string_token_size words : forall last skip s inside buf,
  (scan_size (string_token words last skip s inside buf).2 <= String.length s + words_size words)%nat.
Proof.
  induction words as [|w words IHw]; intros last skip s; revert skip; induction s as [|c s IH]; intros skip inside buf;
    cbn [string_token].
  - cbn. lia.
  - destruct skip as [|skip]; [|etransitivity; [apply IH|cbn; lia]].
    repeat case_match; try (etransitivity; [apply IH|cbn; lia]); unfold scan_size, words_size; cbn [snd sc_pending sc_words String.length]; lia.
  - etransitivity; [apply IHw|]. pose proof (chunk_size w). rewrite words_size_cons. cbn [String.length]. lia.
  - destruct skip as [|skip]; [|etransitivity; [apply IH|cbn; lia]].
    repeat case_match; try (etransitivity; [apply IH|cbn; lia]); unfold scan_size, words_size; cbn [snd sc_pending sc_words String.length]; lia.
Qed.

(** A token that is not the end takes a character at least. *)
Lemma next_token_size words : forall last s buf, let '(tok, sc) := next_token words last s buf in
  (scan_size sc <= String.length s + words_size words)%nat /\
  (tok <> TEof -> (scan_size sc < String.length s + words_size words)%nat).
Proof.
  assert (forall last s buf words,
    (forall last s buf, skip_white s = "" -> let '(tok, sc) := next_token words last s buf in
      (scan_size sc <= String.length s + words_size words)%nat /\
      (tok <> TEof -> (scan_size sc < String.length s + words_size words)%nat)) ->
    let '(tok, sc) := next_token words last s buf in
    (scan_size sc <= String.length s + words_size words)%nat /\
    (tok <> TEof -> (scan_size sc < String.length s + words_size words)%nat)) as Hstep.
  { clear words. intros last s buf words H. destruct (skip_white s) as [|c s'] eqn:E; [by apply H|].
    pose proof (skip_white_size s) as Hs. rewrite E in Hs. cbn [String.length] in Hs.
    assert (next_token words last s buf = next_token words last (String c s') buf) as ->.
    { assert (is_blank c = false) as Hc.
      { clear -E. induction s as [|d s IH]; cbn [skip_white] in E; [done|]. destruct (is_blank d) eqn:Hd; [by apply IH|].
        by injection E as -> _. }
      destruct words; cbn [next_token]; rewrite E; cbn [skip_white]; by rewrite Hc. }
    assert (is_blank c = false) as Hc.
    { clear -E. induction s as [|d s IH]; cbn [skip_white] in E; [done|]. destruct (is_blank d) eqn:Hd; [by apply IH|].
      by injection E as -> _. }
    assert (next_token words last (String c s') buf =
      if Ascii.eqb c "(" then (TOpen, mk_scanner s' last words buf)
      else if Ascii.eqb c ")" then (TClose, mk_scanner s' last words buf)
      else let '(t, r) := span_text (String c s') in
        if String.eqb t (String quote "") then string_token words last 0%nat r false (strbuf_start buf)
        else (keyword_token t, mk_scanner r last words buf)) as ->.
    { destruct words; cbn [next_token skip_white]; by rewrite Hc. }
    destruct (Ascii.eqb c "(") eqn:E1; [split; [|intros _]; unfold scan_size; cbn [sc_pending sc_words String.length]; fold (words_size words); lia|].
    destruct (Ascii.eqb c ")") eqn:E2; [split; [|intros _]; unfold scan_size; cbn [sc_pending sc_words String.length]; fold (words_size words); lia|].
    pose proof (span_text_size (String c s')) as Hsp. destruct (span_text (String c s')) as [t r] eqn:Et.
    assert (1 <= String.length t)%nat as Ht.
    { cbn [span_text] in Et. unfold is_text in Et. rewrite Hc, E1, E2 in Et. cbn [negb orb] in Et. destruct (span_text s').
      injection Et as <- _. cbn. lia. }
    cbn [String.length] in Hsp. destruct (String.eqb t _).
    - pose proof (string_token_size words last 0 r false (strbuf_start buf)) as Hz. destruct (string_token _ _ _ _ _ _) as [tok sc].
      cbn [snd] in Hz. split; [|intros _]; lia.
    - unfold scan_size. cbn [sc_pending sc_words]. fold (words_size words). split; [|intros _]; lia. }
  induction words as [|w words IH]; intros last s buf; apply Hstep; clear last s buf; intros last s buf E; cbn [next_token]; rewrite E.
  - split; [cbn; lia|done].
  - specialize (IH (Some w) (chunk w) buf). pose proof (chunk_size w). destruct (next_token words _ _ _) as [tok sc].
    rewrite words_size_cons. destruct IH as [I1 I2]. split; [lia|]. intros Ht. specialize (I2 Ht). lia.
Qed.

Lemma lex_size sc tok sc' : ematch_lex sc = (tok, sc') ->
  (scan_size sc' <= scan_size sc)%nat /\ (tok <> TEof -> (scan_size sc' < scan_size sc)%nat).
Proof.
  intros E. pose proof (next_token_size (sc_words sc) (sc_last sc) (sc_pending sc) (sc_buf sc)) as H.
  unfold ematch_lex in E. by rewrite E in H.
Qed.

Lemma args_ends fuel : forall sc, (scan_size sc < fuel)%nat ->
  exists l tok sc', args fuel sc = Some (l, tok, sc') /\ (scan_size sc' <= scan_size sc)%nat.
Proof.
  induction fuel as [|fuel IH]; intros sc Hf; [lia|]. cbn [args]. destruct (ematch_lex sc) as [tok sc1] eqn:E.
  apply lex_size in E as [E1 E2]. destruct tok; try (eexists _, _, _; split; [done|lia]).
  specialize (E2 ltac:(done)). destruct (IH sc1 ltac:(lia)) as (l & tok & sc' & -> & H). eexists _, _, _. split; [done|lia].
Qed.

(** An expression comes to an end, and takes characters only. *)
Lemma expr_ends fuel : forall tok sc st, (S (scan_size sc) < fuel)%nat ->
  match expr fuel tok sc st with
  | Expr _ _ sc' _ => (scan_size sc' <= scan_size sc)%nat
  | MoreExpr => False
  | _ => True
  end.
Proof.
  induction fuel as [|fuel IH]; intros tok sc st Hf; [lia|]. cbn [expr].
  assert (forall e sc1 st, (scan_size sc1 < fuel)%nat -> (scan_size sc1 <= scan_size sc)%nat ->
    match expr_behind (expr fuel) e sc1 st with Expr _ _ sc' _ => (scan_size sc' <= scan_size sc)%nat | MoreExpr => False | _ => True end) as Hb.
  { intros e sc1 st1 H1 H2. unfold expr_behind. destruct (ematch_lex sc1) as [t sc2] eqn:E. apply lex_size in E as [E1 E2].
    destruct (relation_of t) as [r|] eqn:Er; [|destruct t; try done; lia].
    specialize (E2 ltac:(by intros ->)). destruct (ematch_lex sc2) as [t' sc3] eqn:E'. apply lex_size in E' as [E3 _].
    specialize (IH t' sc3 (st1 ++ [e]) ltac:(lia)). destruct (expr fuel t' sc3 _); try done. lia. }
  destruct (invert tok sc) as [[inv tok1] sc1] eqn:Ei.
  assert (scan_size sc1 <= scan_size sc)%nat as H1.
  { unfold invert in Ei. destruct tok; try (injection Ei as <- <- <-; lia). destruct (ematch_lex sc) as [t s] eqn:E.
    injection Ei as <- <- <-. by apply lex_size in E as [E1 _]. }
  destruct tok1; try done.
  - destruct (ematch_lex sc1) as [t sc2] eqn:E. apply lex_size in E as [E1 E2]. destruct t; try done.
    specialize (E2 ltac:(done)). destruct (args_ends fuel sc2 ltac:(lia)) as (l & t & sc3 & -> & H).
    destruct l as [|b' l]; [by destruct t|]. destruct t; try done. apply Hb; lia.
  - destruct (ematch_lex sc1) as [t sc2] eqn:E. apply lex_size in E as [E1 E2].
    destruct fuel as [|fuel']; [lia|]. destruct (decide (t = TEof)) as [->|Hne]; [done|]. specialize (E2 Hne).
    specialize (IH t sc2 st ltac:(lia)). destruct (expr (S fuel') t sc2 st) as [a t' sc3 st'| | |]; try done.
    destruct t'; try done. apply Hb; lia.
Qed.

(** C31: The parser comes to an end whatever the words are. *)
Theorem ematch_parse_ends argv : ematch_parse argv <> RootMore.
Proof.
  unfold ematch_parse. destruct (ematch_lex (scan_start argv)) as [tok sc] eqn:E. apply lex_size in E as [_ E].
  destruct (decide (tok = TEof)) as [->|Hne]; [done|]. specialize (E Hne).
  pose proof (expr_ends (S (scan_size (scan_start argv))) tok sc [] ltac:(lia)) as H.
  destruct tok; try done; by destruct (expr _ _ sc []).
Qed.

(** ** Expressions *)

(** The matches of an expression, each with the relation to the next. *)
Inductive etree :=
| EDone
| ECall (inverted : bool) (args : list bstr) (rel : Z) (next : etree)
| EGroup (inverted : bool) (child : etree) (rel : Z) (next : etree).

#[export] Instance etree_eq_dec : EqDecision etree.
Proof. solve_decision. Defined.

Definition rel_ok (rel : Z) (next : etree) : Prop :=
  match next with EDone => rel = 0 | _ => rel = TCF_EM_REL_AND \/ rel = TCF_EM_REL_OR end.

(** What the grammar gives: a module with an argument at least, no empty parentheses, and a
    relation exactly where another match follows. *)
Fixpoint expr_ok (t : etree) : Prop :=
  match t with
  | EDone => True
  | ECall _ args rel next => (2 <= List.length args)%nat /\ rel_ok rel next /\ expr_ok next
  | EGroup _ child rel next => child <> EDone /\ expr_ok child /\ rel_ok rel next /\ expr_ok next
  end.

Definition rel_tokens (rel : Z) : list token :=
  if rel =? TCF_EM_REL_AND then [TAnd] else if rel =? TCF_EM_REL_OR then [TOr] else [].

Definition not_tokens (inverted : bool) : list token := if inverted then [TNot] else [].

Fixpoint tokens (t : etree) : list token :=
  match t with
  | EDone => []
  | ECall inv args rel next =>
      not_tokens inv ++ match args with b :: l => TAttr b :: TOpen :: map TAttr l ++ [TClose] | [] => [] end ++
      rel_tokens rel ++ tokens next
  | EGroup inv child rel next => not_tokens inv ++ (TOpen :: tokens child ++ [TClose]) ++ rel_tokens rel ++ tokens next
  end.

(** The scanner gives these tokens one after the other. *)
Inductive lexes : scanner -> list token -> scanner -> Prop :=
| lexes_nil sc : lexes sc [] sc
| lexes_cons sc tok sc1 l sc' : ematch_lex sc = (tok, sc1) -> lexes sc1 l sc' -> lexes sc (tok :: l) sc'.

Lemma lexes_app l l' : forall sc sc', lexes sc (l ++ l') sc' -> exists sc1, lexes sc l sc1 /\ lexes sc1 l' sc'.
Proof.
  induction l as [|t l IH]; intros sc sc' H; cbn [app] in H; [exists sc; split; [constructor|done]|].
  inversion H as [|? ? sc1 ? ? E H']; subst. destruct (IH _ _ H') as (sc2 & H1 & H2). exists sc2. split; [by econstructor|done].
Qed.

(** The expression of a store: the nodes of the first group, and those of the groups in it,
    each with its own nodes first. *)
Inductive heap (st : list ematch) : option nat -> etree -> list nat -> list nat -> Prop :=
| heap_done : heap st None EDone [] []
| heap_call a e inv args rel next sib kids :
    st !! a = Some e -> em_args e = args -> em_inverted e = Z.b2z inv -> em_relation e = rel -> em_child e = None ->
    heap st (em_next e) next sib kids -> heap st (Some a) (ECall inv args rel next) (a :: sib) kids
| heap_group a e c inv child rel next csib ckids sib kids :
    st !! a = Some e -> em_inverted e = Z.b2z inv -> em_relation e = rel -> em_child e = Some c ->
    heap st (Some c) child csib ckids -> heap st (em_next e) next sib kids ->
    heap st (Some a) (EGroup inv child rel next) (a :: sib) (csib ++ ckids ++ kids).

Lemma heap_same st st' p t sib kids :
  heap st p t sib kids -> (forall a, In a (sib ++ kids) -> st' !! a = st !! a) -> heap st' p t sib kids.
Proof.
  induction 1 as [|a e inv args rel next sib kids Ha E1 E2 E3 E4 _ IH
    |a e c inv child rel next csib ckids sib kids Ha E1 E2 E3 _ IHc _ IHn]; intros Hs; [constructor| |].
  - econstructor; try done; [rewrite Hs; [done|by left]|]. apply IH. intros x Hx. apply Hs. by right.
  - econstructor; try done; [rewrite Hs; [done|by left]| |].
    + apply IHc. intros x Hx. apply Hs. right. rewrite !in_app_iff in *. tauto.
    + apply IHn. intros x Hx. apply Hs. right. rewrite !in_app_iff in *. tauto.
Qed.

(** A store that only has nodes of its own added to another. *)
Definition fresh (n n' : nat) (l : list nat) : Prop := NoDup l /\ forall a, In a l -> (n <= a < n')%nat.

Lemma fresh_app n m n' l l' : (n <= m)%nat -> (m <= n')%nat -> fresh n m l -> fresh m n' l' -> fresh n n' (l ++ l').
Proof.
  intros H1 H2 [D B] [D' B']. split.
  - apply NoDup_app. split_and!; [done| |done]. intros x Hx Hx'. apply list_elem_of_In in Hx, Hx'. specialize (B x Hx). specialize (B' x Hx'). lia.
  - intros a [Ha|Ha]%in_app_iff; [specialize (B a Ha)|specialize (B' a Ha)]; lia.
Qed.

Lemma fresh_perm n n' l l' : l ≡ₚ l' -> fresh n n' l -> fresh n n' l'.
Proof. intros Hp [D B]. split; [by rewrite <- Hp|]. intros a Ha. apply B. apply list_elem_of_In. rewrite Hp. by apply list_elem_of_In. Qed.

(** ** Parsing *)

(** A token an expression ends at. *)
Definition stops (tok : token) : Prop := relation_of tok = None /\ tok <> TWild.

(** What the parser makes of the tokens of an expression. *)
Definition parses (t : etree) : Prop := forall fuel tok toks stop sc sc' st,
  tokens t = tok :: toks -> lexes sc (toks ++ [stop]) sc' -> stops stop -> (List.length (tokens t) <= fuel)%nat ->
  exists a st' sib kids, expr fuel tok sc st = Expr a stop sc' st' /\
    (forall x, (x < List.length st)%nat -> st' !! x = st !! x) /\ (List.length st <= List.length st')%nat /\
    heap st' (Some a) t sib kids /\ fresh (List.length st) (List.length st') (sib ++ kids).

Lemma link_lookup a r b st e : st !! a = Some e ->
  link a r b st !! a = Some ((e <| em_relation := r |>) <| em_next := Some b |>) /\
  List.length (link a r b st) = List.length st /\ forall x, x <> a -> link a r b st !! x = st !! x.
Proof.
  intros E. unfold link. split; [by rewrite list_lookup_alter_eq, E|]. split; [apply length_alter|].
  intros x Hx. by apply list_lookup_alter_ne.
Qed.

Lemma rel_tokens_next rel next : rel_ok rel next ->
  (next = EDone /\ rel = 0) \/ (next <> EDone /\ exists tok, rel_tokens rel = [tok] /\ relation_of tok = Some rel).
Proof.
  destruct next; cbn; [intros ->; by left|..]; intros [-> | ->]; right; (split; [done|eexists; split; reflexivity]).
Qed.

Lemma tokens_some t : t <> EDone -> expr_ok t -> tokens t <> [].
Proof.
  destruct t as [|[] [|b l] rel next|[] child rel next]; try done. intros _ [H _]. cbn in H. lia.
Qed.

(** A node and what is behind it. *)
Lemma behind_parses fuel e rel next stop sc sc' st :
  rel_ok rel next -> (next <> EDone -> parses next) -> em_relation e = 0 -> em_next e = None ->
  lexes sc (rel_tokens rel ++ tokens next ++ [stop]) sc' -> stops stop -> (List.length (tokens next) <= fuel)%nat ->
  expr_ok next ->
  exists st' e' sib kids, expr_behind (expr fuel) e sc st = Expr (List.length st) stop sc' st' /\
    st' !! List.length st = Some e' /\ em_args e' = em_args e /\ em_inverted e' = em_inverted e /\ em_child e' = em_child e /\
    em_relation e' = rel /\ (forall x, (x < List.length st)%nat -> st' !! x = st !! x) /\
    (S (List.length st) <= List.length st')%nat /\ heap st' (em_next e') next sib kids /\
    fresh (S (List.length st)) (List.length st') (sib ++ kids).
Proof.
  intros Hrel IH E0 En Hl [Hs Hw] Hf Hok. unfold expr_behind.
  destruct (rel_tokens_next rel next Hrel) as [[-> ->]|(Hne & tok & Et & Er)].
  - change (rel_tokens 0 ++ tokens EDone ++ [stop]) with [stop] in Hl. inversion Hl as [|? ? sc1 ? ? E H]; subst.
    inversion H; subst. rewrite E, Hs. exists (st ++ [e]), e, [], []. split; [by destruct stop|].
    rewrite length_app. cbn [List.length]. split; [by rewrite lookup_app_r, Nat.sub_diag by lia|]. rewrite En.
    split_and!; try done; [|lia|apply heap_done|].
    + intros x Hx. by rewrite lookup_app_l.
    + split; [constructor|done].
  - rewrite Et in Hl. inversion Hl as [|? ? sc1 ? ? E H]; subst. rewrite E, Er.
    destruct (tokens next) as [|tok' toks] eqn:En'.
    { by destruct (tokens_some next Hne Hok). }
    inversion H as [|? ? sc2 ? ? E' H']; subst. rewrite E'.
    destruct (IH Hne fuel tok' toks stop sc2 sc' (st ++ [e]) En' H' (conj Hs Hw) ltac:(by rewrite En'))
      as (b & st' & sib & kids & -> & Hp & Hlen & Hh & Hfr).
    rewrite length_app in Hp, Hlen, Hfr. cbn [List.length] in Hp, Hlen, Hfr. rewrite Nat.add_1_r in Hp, Hlen, Hfr.
    assert (st' !! List.length st = Some e) as Ee by (rewrite Hp, lookup_app_r, Nat.sub_diag by lia; done).
    destruct (link_lookup (List.length st) rel b st' e Ee) as (L1 & L2 & L3).
    exists (link (List.length st) rel b st'), ((e <| em_relation := rel |>) <| em_next := Some b |>), sib, kids.
    rewrite L2. cbn. split_and!; try done.
    + intros x Hx. rewrite L3, Hp by lia. by rewrite lookup_app_l.
    + eapply heap_same; [exact Hh|]. intros x Hx. apply L3. destruct Hfr as [_ B]. specialize (B x Hx). lia.
Qed.

Lemma args_parse l : forall fuel sc sc', lexes sc (map TAttr l ++ [TClose]) sc' -> (List.length l < fuel)%nat ->
  args fuel sc = Some (l, TClose, sc').
Proof.
  induction l as [|b l IH]; intros fuel sc sc' H Hf; (destruct fuel as [|fuel]; [lia|]); cbn [args];
    inversion H as [|? ? sc1 ? ? E H']; subst; rewrite E.
  - by inversion H'; subst.
  - cbn in Hf. by rewrite (IH fuel sc1 sc') by (done || lia).
Qed.

(** A sign of inversion in front of a match. *)
Lemma invert_parses inv rest tok toks sc sc' : not_tokens inv ++ rest = tok :: toks -> lexes sc toks sc' ->
  match rest with TNot :: _ => False | _ => True end -> rest <> [] ->
  exists tok1 toks1 sc1, rest = tok1 :: toks1 /\ invert tok sc = (Z.b2z inv, tok1, sc1) /\ lexes sc1 toks1 sc'.
Proof.
  intros E Hl Hr Hne. destruct inv; cbn in E.
  - injection E as <- <-. destruct rest as [|tok1 toks1]; [done|]. inversion Hl as [|? ? sc1 ? ? E' H']; subst.
    eexists _, _, sc1. split; [done|]. split; [|done]. unfold invert. by rewrite E'.
  - subst rest. eexists _, _, sc. split; [done|]. split; [|done]. destruct tok; done.
Qed.

Lemma expr_parses t : t <> EDone -> expr_ok t -> parses t.
Proof.
  induction t as [|inv args rel next IH|inv child IHc rel next IHn]; [done| |]; intros _ Hok fuel tok toks stop sc sc' st Et Hl Hs Hf;
    (destruct fuel as [|fuel]; [rewrite Et in Hf; cbn in Hf; lia|]); cbn [tokens] in Et, Hf.
  - destruct Hok as (Hlen & Hrel & Hok). destruct args as [|b [|b' l]]; [cbn in Hlen; lia..|].
    destruct (invert_parses inv ((TAttr b :: TOpen :: map TAttr (b' :: l) ++ [TClose]) ++ rel_tokens rel ++ tokens next ++ [stop])
      tok (toks ++ [stop]) sc sc') as (t1 & ts1 & sc1 & E1 & E2 & H1); [|done|done|done|].
    { change (tok :: toks ++ [stop]) with ((tok :: toks) ++ [stop]). rewrite <- Et. by rewrite <- !app_assoc. }
    cbn [app] in E1. injection E1 as <- <-. cbn [expr]. rewrite E2.
    inversion H1 as [|? ? sc2 ? ? E3 H2]; subst. rewrite E3.
    apply (lexes_app (map TAttr (b' :: l) ++ [TClose])) in H2 as (sc3 & H3 & H4).
    rewrite !length_app in Hf. cbn [List.length] in Hf. rewrite length_app, length_map in Hf. cbn [List.length] in Hf.
    rewrite (args_parse _ fuel sc2 sc3 H3) by (cbn [List.length]; lia).
    destruct (behind_parses fuel (new_ematch (b :: b' :: l) (Z.b2z inv)) rel next stop sc3 sc' st Hrel (fun H => IH H Hok) eq_refl
      eq_refl H4 Hs ltac:(lia) Hok) as (st' & e' & sib & kids & -> & A1 & A2 & A3 & A4 & A5 & A6 & A7 & A8 & A9).
    eexists _, st', _, kids. split; [done|]. split; [done|]. split; [lia|]. split; [by eapply heap_call|].
    apply (fresh_app _ (S (List.length st)) _ [_] (sib ++ kids)); [lia|lia| |done].
    split; [apply NoDup_singleton|]. intros x [<-|[]]. lia.
  - destruct Hok as (Hc & Hokc & Hrel & Hok).
    destruct (invert_parses inv ((TOpen :: tokens child ++ [TClose]) ++ rel_tokens rel ++ tokens next ++ [stop])
      tok (toks ++ [stop]) sc sc') as (t1 & ts1 & sc1 & E1 & E2 & H1); [|done|done|done|].
    { change (tok :: toks ++ [stop]) with ((tok :: toks) ++ [stop]). rewrite <- Et. by rewrite <- !app_assoc. }
    cbn [app] in E1. injection E1 as <- <-. cbn [expr]. rewrite E2.
    rewrite !length_app in Hf. cbn [List.length] in Hf. rewrite length_app in Hf. cbn [List.length] in Hf.
    destruct (tokens child) as [|tok2 toks2] eqn:Ec.
    { by destruct (tokens_some child Hc Hokc). }
    cbn [app] in H1. inversion H1 as [|? ? sc2 ? ? E3 H2]; subst. rewrite E3.
    apply (lexes_app (toks2 ++ [TClose])) in H2 as (sc3 & H3 & H4).
    destruct (IHc Hc Hokc fuel tok2 toks2 TClose sc2 sc3 st Ec H3 ltac:(done) ltac:(rewrite Ec; lia))
      as (c & st1 & csib & ckids & -> & B1 & B2 & B3 & B4).
    match goal with |- context [expr_behind _ ?e _ _] => set (node := e) end.
    destruct (behind_parses fuel node rel next stop sc3 sc' st1 Hrel
      (fun H => IHn H Hok) ltac:(reflexivity) ltac:(reflexivity) H4 Hs ltac:(lia) Hok)
      as (st' & e' & sib & kids & -> & A1 & A2 & A3 & A4 & A5 & A6 & A7 & A8 & A9).
    eexists _, st', _, _. split; [done|]. split; [intros x Hx; rewrite A6, B1 by lia; done|]. split; [lia|]. split.
    + eapply heap_group; try done. eapply heap_same; [exact B3|]. intros x Hx. apply A6. destruct B4 as [_ B4]. specialize (B4 x Hx). lia.
    + apply (fresh_perm _ _ ((csib ++ ckids) ++ [List.length st1] ++ (sib ++ kids))).
      * cbn [app]. solve_Permutation.
      * apply (fresh_app _ (List.length st1)); [lia|lia|done|].
        apply (fresh_app _ (S (List.length st1)) _ [_] (sib ++ kids)); [lia|lia| |done].
        split; [apply NoDup_singleton|]. intros x [<-|[]]. lia.
Qed.

(** ** Flattening *)

(** The nodes from a pointer to the end. *)
Fixpoint linked (st : list ematch) (p : option nat) (l : list nat) : Prop :=
  match l with
  | [] => p = None
  | a :: l => p = Some a /\ exists e, st !! a = Some e /\ linked st (em_next e) l
  end.

Lemma linked_bounds st l : forall p, linked st p l -> Forall (fun a => (a < List.length st)%nat) l.
Proof.
  induction l as [|a l IH]; intros p H; [done|]. destruct H as (_ & e & E & H). constructor; [by eapply lookup_lt_Some|by eapply IH].
Qed.

Lemma bounded_nodup n (l : list nat) : NoDup l -> Forall (fun a => (a < n)%nat) l -> (List.length l <= n)%nat.
Proof.
  intros Hd Hb. rewrite <- (length_seq n 0). apply NoDup_incl_length; [by apply NoDup_ListNoDup|].
  intros a Ha. apply in_seq. rewrite List.Forall_forall in Hb. specialize (Hb a Ha). lia.
Qed.

Lemma walk_linked st l : forall fuel p, linked st p l -> (List.length l <= fuel)%nat -> walk fuel st p = l.
Proof.
  induction l as [|a l IH]; intros fuel p H Hf.
  - cbn in H. subst p. by destruct fuel.
  - destruct H as (-> & e & E & H). destruct fuel as [|fuel]; [cbn in Hf; lia|]. cbn [walk].
    rewrite (list_lookup_total_correct _ _ _ E). f_equal. apply IH; [done|]. cbn in Hf. lia.
Qed.

Lemma nodes_linked st h l : linked st (Some h) l -> NoDup l -> nodes st h = l.
Proof. intros H Hd. apply walk_linked; [done|]. apply bounded_nodup; [done|by eapply linked_bounds]. Qed.

(** Another list of nodes leaves a chain as it is. *)
Lemma linked_same st st' l : forall p, linked st p l -> (forall a, In a l -> st' !! a = st !! a) -> linked st' p l.
Proof.
  induction l as [|a l IH]; intros p H Hs; [done|]. destruct H as (-> & e & E & H). split; [done|]. exists e.
  rewrite Hs by (by left). split; [done|]. apply IH; [done|]. intros b Hb. apply Hs. by right.
Qed.

Lemma linked_snoc st l p x c l' : linked st p (l ++ [x]) -> NoDup (l ++ [x] ++ l') -> linked st (Some c) l' ->
  linked (alter (fun e => e <| em_next := Some c |>) x st) p (l ++ [x] ++ l').
Proof.
  revert p. induction l as [|a l IH]; intros p H Hd Hl'.
  - destruct H as (-> & e & E & H). cbn [app] in Hd. apply NoDup_cons in Hd as [Hx _]. split; [done|].
    exists (e <| em_next := Some c |>). rewrite list_lookup_alter_eq, E. split; [done|].
    eapply linked_same; [exact Hl'|]. intros a Ha. apply list_lookup_alter_ne. intros ->. apply Hx. by apply list_elem_of_In.
  - destruct H as (-> & e & E & H). cbn [app] in Hd. apply NoDup_cons in Hd as [Ha Hd]. split; [done|]. exists e.
    rewrite list_lookup_alter_ne; [|intros ->; apply Ha; apply elem_of_app; right; by left]. split; [done|]. by apply IH.
Qed.

(** What flattening leaves of a node. *)
Definition alike (e e' : ematch) : Prop :=
  em_args e' = em_args e /\ em_inverted e' = em_inverted e /\ em_relation e' = em_relation e /\ em_child e' = em_child e.

(** The nodes of a list change, but only the last of a group gets another next. *)
Definition evolves (l : list nat) (st st' : list ematch) : Prop :=
  (forall a, ~ In a l -> st' !! a = st !! a) /\
  forall a e, st !! a = Some e -> exists e', st' !! a = Some e' /\ alike e e' /\ (em_relation e <> 0 -> em_next e' = em_next e).

Lemma evolves_refl l st : evolves l st st.
Proof. split; [done|]. intros a e E. by exists e. Qed.

Lemma evolves_trans l st st1 st' : evolves l st st1 -> evolves l st1 st' -> evolves l st st'.
Proof.
  intros [A1 B1] [A2 B2]. split; [intros a Ha; by rewrite A2, A1|]. intros a e E.
  destruct (B1 a e E) as (e1 & E1 & (K1 & K2 & K3 & K4) & N1). destruct (B2 a e1 E1) as (e' & E' & (K5 & K6 & K7 & K8) & N2).
  exists e'. split; [done|]. split; [repeat split; congruence|]. intros H. rewrite N2 by congruence. by apply N1.
Qed.

Lemma evolves_more l l' st st' : (forall a, In a l -> In a l') -> evolves l st st' -> evolves l' st st'.
Proof. intros Hi [A B]. split; [|done]. intros a Ha. apply A. intros H. apply Ha. by apply Hi. Qed.

(** An update of one node that keeps what is looked at. *)
Lemma evolves_alter l st x (f : ematch -> ematch) : In x l ->
  (forall e, st !! x = Some e -> alike e (f e) /\ (em_relation e <> 0 -> em_next (f e) = em_next e)) ->
  evolves l st (alter f x st).
Proof.
  intros Hx Hf. split.
  - intros a Ha. apply list_lookup_alter_ne. by intros ->.
  - intros a e E. destruct (decide (a = x)) as [->|Hne].
    + rewrite list_lookup_alter_eq, E. eexists. split; [done|]. by apply Hf.
    + rewrite list_lookup_alter_ne by done. by exists e.
Qed.

(** The chain stays the same under updates that keep every next. *)
Lemma linked_nexts st st' l : forall p, linked st p l ->
  (forall a e, st !! a = Some e -> exists e', st' !! a = Some e' /\ em_next e' = em_next e) -> linked st' p l.
Proof.
  induction l as [|a l IH]; intros p H Hs; [done|]. destruct H as (-> & e & E & H). split; [done|].
  destruct (Hs a e E) as (e' & E' & Hn). exists e'. rewrite Hn. split; [done|]. by apply IH.
Qed.

(** Numbering keeps the chain and everything that was parsed. *)
Definition renumbers (l : list nat) (st st' : list ematch) : Prop :=
  (forall a, ~ In a l -> st' !! a = st !! a) /\
  forall a e, st !! a = Some e -> exists e', st' !! a = Some e' /\ alike e e' /\ em_next e' = em_next e.

Lemma renumbers_trans l st st1 st' : renumbers l st st1 -> renumbers l st1 st' -> renumbers l st st'.
Proof.
  intros [A1 B1] [A2 B2]. split; [intros a Ha; by rewrite A2, A1|]. intros a e E.
  destruct (B1 a e E) as (e1 & E1 & (K1 & K2 & K3 & K4) & N1). destruct (B2 a e1 E1) as (e' & E' & (K5 & K6 & K7 & K8) & N2).
  exists e'. split; [done|]. split; [repeat split; congruence|congruence].
Qed.

Lemma renumbers_evolves l st st' : renumbers l st st' -> evolves l st st'.
Proof. intros [A B]. split; [done|]. intros a e E. destruct (B a e E) as (e' & E' & K & N). by exists e'. Qed.

Lemma renumbers_alter l st x (f : ematch -> ematch) : In x l -> (forall e, alike e (f e) /\ em_next (f e) = em_next e) ->
  renumbers l st (alter f x st).
Proof.
  intros Hx Hf. split.
  - intros a Ha. apply list_lookup_alter_ne. by intros ->.
  - intros a e E. destruct (decide (a = x)) as [->|Hne].
    + rewrite list_lookup_alter_eq, E. exists (f e). by destruct (Hf e).
    + rewrite list_lookup_alter_ne by done. by exists e.
Qed.

Lemma renumbers_more l l' st st' : (forall a, In a l -> In a l') -> renumbers l st st' -> renumbers l' st st'.
Proof. intros Hi [A B]. split; [|done]. intros a Ha. apply A. intros H. apply Ha. by apply Hi. Qed.

Lemma renumbers_refl l st : renumbers l st st.
Proof. split; [done|]. intros a e E. by exists e. Qed.

Lemma renumbers_bound l st st' a : renumbers l st st' -> (a < List.length st)%nat -> (a < List.length st')%nat.
Proof. intros [_ B] Ha. destruct (lookup_lt_is_Some_2 st a Ha) as [e E]. destruct (B a e E) as (e' & E' & _). by eapply lookup_lt_Some. Qed.

Lemma index_fold l : forall k st, NoDup l -> Forall (fun a => (a < List.length st)%nat) l ->
  let st' := foldl (fun st '(i, t) => alter (fun e => e <| em_index := Z.of_nat i |>) t st) st (imap (fun i t => ((k + i)%nat, t)) l) in
  renumbers l st st' /\ forall i a, l !! i = Some a -> em_index (st' !!! a) = Z.of_nat (k + i).
Proof.
  induction l as [|x l IH]; intros k st Hd Hb; [split; [apply renumbers_refl|done]|].
  apply NoDup_cons in Hd as [Hx Hd]. apply Forall_cons in Hb as [Hxb Hb]. rewrite imap_cons. cbn [foldl]. rewrite Nat.add_0_r.
  set (st1 := alter _ x st).
  assert (renumbers (x :: l) st st1) as R1 by (apply renumbers_alter; [by left|by intros e]).
  assert (Forall (fun a => (a < List.length st1)%nat) l) as Hb1
    by (eapply Forall_impl; [exact Hb|]; intros a Ha; by eapply renumbers_bound).
  destruct (IH (S k) st1 Hd Hb1) as [R2 H2]. cbv zeta in *.
  assert (imap ((fun i t => ((k + i)%nat, t)) ∘ S) l = imap (fun i t => ((S k + i)%nat, t)) l) as ->.
  { apply imap_ext. intros i y _. cbn. f_equal. lia. }
  set (st2 := foldl _ st1 _) in *. split.
  - eapply renumbers_trans; [exact R1|]. eapply renumbers_more; [|exact R2]. by right.
  - intros [|i] a Hi.
    + injection Hi as <-. destruct R2 as [F2 _]. assert (st2 !! x = st1 !! x) as E by (apply F2; by rewrite <- list_elem_of_In).
      destruct (lookup_lt_is_Some_2 st x Hxb) as [e Ee]. unfold st1 in E. rewrite list_lookup_alter_eq, Ee in E.
      rewrite (list_lookup_total_correct _ _ _ E). cbn. lia.
    + rewrite (H2 i a Hi). lia.
Qed.

Definition set_refs (st : list ematch) (l : list nat) : list ematch :=
  foldl (fun st t =>
    match em_child (st !!! t) with
    | Some c => alter (fun e => e <| em_child_ref := em_index (st !!! c) |>) t st
    | None => st
    end) st l.

Lemma refs_fold l : forall st, NoDup l -> Forall (fun a => (a < List.length st)%nat) l ->
  let st' := set_refs st l in
  renumbers l st st' /\ (forall a, em_index (st' !!! a) = em_index (st !!! a)) /\
  forall a c, In a l -> em_child (st !!! a) = Some c -> em_child_ref (st' !!! a) = em_index (st !!! c).
Proof.
  induction l as [|x l IH]; intros st Hd Hb; [split_and!; [apply renumbers_refl|done..]|].
  apply NoDup_cons in Hd as [Hx Hd]. apply Forall_cons in Hb as [Hxb Hb]. cbn [set_refs foldl]. fold (set_refs st l).
  destruct (lookup_lt_is_Some_2 st x Hxb) as [e Ee]. pose proof (list_lookup_total_correct _ _ _ Ee) as Et. rewrite Et.
  set (st1 := match em_child e with Some c => _ | None => st end). fold (set_refs st1 l).
  assert (renumbers (x :: l) st st1 /\ (forall a, em_index (st1 !!! a) = em_index (st !!! a)) /\
    (forall a, em_child (st1 !!! a) = em_child (st !!! a)) /\
    (forall c, em_child e = Some c -> em_child_ref (st1 !!! x) = em_index (st !!! c))) as (R1 & I1 & C1 & V1).
  { subst st1. destruct (em_child e) as [c|] eqn:Ec; [|split_and!; [apply renumbers_refl|done..]].
    split; [apply renumbers_alter; [by left|by intros]|].
    assert (forall a, a <> x -> alter (fun e => e <| em_child_ref := em_index (st !!! c) |>) x st !!! a = st !!! a) as Hne
      by (intros a Ha; by rewrite list_lookup_total_alter_ne).
    assert (alter (fun e => e <| em_child_ref := em_index (st !!! c) |>) x st !!! x = e <| em_child_ref := em_index (st !!! c) |>) as Heq
      by (by rewrite list_lookup_total_alter_eq, Et).
    split; [|split]; [intros a; destruct (decide (a = x)) as [->|Ha]; [by rewrite Heq, Et|by rewrite Hne]..|].
    intros c' [= <-]. by rewrite Heq. }
  assert (Forall (fun a => (a < List.length st1)%nat) l) as Hb1
    by (eapply Forall_impl; [exact Hb|]; intros a Ha; by eapply renumbers_bound).
  clearbody st1. destruct (IH st1 Hd Hb1) as (R2 & I2 & V2). cbv zeta in *. split_and!.
  - eapply renumbers_trans; [exact R1|]. eapply renumbers_more; [|exact R2]. by right.
  - intros a. by rewrite I2, I1.
  - intros a c [<-|Ha] Hc.
    + rewrite Et in Hc. destruct R2 as [F2 _].
      assert (set_refs st1 l !! x = st1 !! x) as E by (apply F2; by rewrite <- list_elem_of_In).
      rewrite !list_lookup_total_alt, E, <- !list_lookup_total_alt. by apply V1.
    + rewrite (V2 a c Ha), I1; [done|]. by rewrite C1.
Qed.

(** Numbering the nodes of a chain: every node gets its place, every parent that of its
    child. *)
Lemma number_nodes_ok st h l : linked st (Some h) l -> NoDup l ->
  let st' := number_nodes st h in
  renumbers l st st' /\ linked st' (Some h) l /\ (forall i a, l !! i = Some a -> em_index (st' !!! a) = Z.of_nat i) /\
  forall a c j, In a l -> em_child (st !!! a) = Some c -> l !! j = Some c -> em_child_ref (st' !!! a) = Z.of_nat j.
Proof.
  intros Hl Hd. unfold number_nodes. rewrite (nodes_linked st h l Hl Hd). pose proof (linked_bounds _ _ _ Hl) as Hb.
  destruct (index_fold l 0 st Hd Hb) as [R1 I1]. cbv zeta in *.
  change (imap (fun i t => ((0 + i)%nat, t)) l) with (imap pair l) in R1, I1. set (st1 := foldl _ st (imap pair l)) in *.
  assert (Forall (fun a => (a < List.length st1)%nat) l) as Hb1
    by (eapply Forall_impl; [exact Hb|]; intros a Ha; by eapply renumbers_bound).
  destruct (refs_fold l st1 Hd Hb1) as (R2 & I2 & V2). cbv zeta in *. fold (set_refs st1 l).
  pose proof (renumbers_trans _ _ _ _ R1 R2) as R. split; [done|]. split.
  - eapply linked_nexts; [exact Hl|]. intros a e E. destruct R as [_ B]. destruct (B a e E) as (e' & E' & _ & N). by exists e'.
  - split; [intros i a Hi; rewrite I2, (I1 i a Hi); lia|]. intros a c j Ha Hc Hj. rewrite (V2 a c Ha), (I1 j c Hj); [lia|].
    rewrite List.Forall_forall in Hb. destruct (lookup_lt_is_Some_2 st a (Hb a Ha)) as [e E].
    rewrite (list_lookup_total_correct _ _ _ E) in Hc. destruct R1 as [_ B]. destruct (B a e E) as (e' & E' & (_ & _ & _ & K) & _).
    rewrite (list_lookup_total_correct _ _ _ E'). congruence.
Qed.

(** The nodes of an expression that is being flattened: where a group ends is told by its last
    relation, what its last node points at does not count. *)
Inductive wheap (st : list ematch) : option nat -> etree -> list nat -> list nat -> Prop :=
| wheap_done p : wheap st p EDone [] []
| wheap_call a e inv args rel next sib kids :
    st !! a = Some e -> em_args e = args -> em_inverted e = Z.b2z inv -> em_relation e = rel -> em_child e = None ->
    wheap st (em_next e) next sib kids -> wheap st (Some a) (ECall inv args rel next) (a :: sib) kids
| wheap_group a e c inv child rel next csib ckids sib kids :
    st !! a = Some e -> em_inverted e = Z.b2z inv -> em_relation e = rel -> em_child e = Some c ->
    heap st (Some c) child csib ckids -> wheap st (em_next e) next sib kids ->
    wheap st (Some a) (EGroup inv child rel next) (a :: sib) (csib ++ ckids ++ kids).

Lemma heap_wheap st p t sib kids : heap st p t sib kids -> wheap st p t sib kids.
Proof. induction 1; [constructor|by eapply wheap_call|by eapply wheap_group]. Qed.

Lemma heap_linked st p t sib kids : heap st p t sib kids -> linked st p sib.
Proof. induction 1; cbn [linked]; [done| |]; (split; [done|]); by eexists. Qed.

Lemma wheap_evolves st st' l p t sib kids : wheap st p t sib kids -> expr_ok t -> evolves l st st' ->
  (forall a, In a kids -> ~ In a l) -> wheap st' p t sib kids.
Proof.
  intros H. induction H as [p|a e inv args rel next sib kids Ha E1 E2 E3 E4 _ IH
    |a e c inv child rel next csib ckids sib kids Ha E1 E2 E3 Hc _ IH]; intros Hok Hev Hk; [constructor| |];
    destruct Hev as [Fr Ev]; destruct (Ev a e Ha) as (e' & Ha' & (K1 & K2 & K3 & K4) & Kn).
  - destruct Hok as (_ & Hrel & Hok). eapply wheap_call; [exact Ha'|congruence..|].
    specialize (IH Hok (conj Fr Ev) Hk). destruct next; [inversion IH; subst; constructor| |];
      (rewrite Kn; [exact IH|cbn in Hrel; unfold TCF_EM_REL_AND, TCF_EM_REL_OR in Hrel; lia]).
  - destruct Hok as (_ & _ & Hrel & Hok). eapply (wheap_group st' a e' c); [exact Ha'|congruence|congruence|congruence| |].
    + eapply heap_same; [exact Hc|]. intros x Hx. apply Fr. apply Hk. rewrite !in_app_iff in *. tauto.
    + specialize (IH Hok (conj Fr Ev) ltac:(intros x Hx; apply Hk; rewrite !in_app_iff; tauto)).
      destruct next; [inversion IH; subst; constructor| |];
        (rewrite Kn; [exact IH|cbn in Hrel; unfold TCF_EM_REL_AND, TCF_EM_REL_OR in Hrel; lia]).
Qed.

(** The last node of every group has no relation. *)
Lemma wheap_ends st p t sib kids : wheap st p t sib kids -> expr_ok t -> forall d e,
  t <> EDone -> st !! List.last sib d = Some e -> em_relation e = 0.
Proof.
  induction 1 as [p|a e inv args rel next sib kids Ha E1 E2 E3 E4 H IH
    |a e c inv child rel next csib ckids sib kids Ha E1 E2 E3 Hc H IH]; intros Hok d e' Hne He; [done| |].
  - destruct Hok as (_ & Hrel & Hok). destruct (decide (sib = [])) as [->|Hs].
    + inversion H; subst; cbn in Hrel, He; congruence.
    + apply (IH Hok d e'); [by intros ->; inversion H|]. by destruct sib.
  - destruct Hok as (_ & _ & Hrel & Hok). destruct (decide (sib = [])) as [->|Hs].
    + inversion H; subst; cbn in Hrel, He; congruence.
    + apply (IH Hok d e'); [by intros ->; inversion H|]. by destruct sib.
Qed.

Lemma last_split (l : list nat) d : l <> [] -> exists l', l = l' ++ [List.last l d].
Proof. intros H. destruct (exists_last H) as (l' & x & ->). exists l'. by rewrite last_last. Qed.

(** The children of a node are put behind the nodes there are. *)
Lemma append_nodes_ok st h l c csib : linked st (Some h) l -> l <> [] -> NoDup (l ++ csib) -> linked st (Some c) csib ->
  (forall e, st !! List.last l h = Some e -> em_relation e = 0) ->
  let st' := append_nodes st h c in linked st' (Some h) (l ++ csib) /\ evolves l st st'.
Proof.
  intros Hl Hne Hd Hc Hlast. unfold append_nodes.
  rewrite (nodes_linked st h l Hl) by (by apply NoDup_app in Hd as (? & _ & _)).
  destruct (last_split l h Hne) as [l' El]. set (x := List.last l h) in *. split.
  - rewrite El, <- app_assoc. apply linked_snoc; [by rewrite <- El|by rewrite app_assoc, <- El|done].
  - apply evolves_alter; [rewrite El; apply in_app_iff; right; by left|].
    intros e He. split; [done|]. intros Hr. by specialize (Hlast e He).
Qed.

Lemma linked_last st p l d : linked st p l -> l <> [] -> exists e, st !! List.last l d = Some e.
Proof.
  intros Hl Hne. destruct (last_split l d Hne) as [l0 El]. pose proof (linked_bounds _ _ _ Hl) as Hb.
  rewrite List.Forall_forall in Hb. apply lookup_lt_is_Some_2. apply Hb. rewrite El at 2. apply in_app_iff. right. by left.
Qed.

(** The chain while it grows. *)
Definition chain (st : list ematch) (h : nat) (l : list nat) : Prop :=
  linked st (Some h) l /\ l <> [] /\ forall e, st !! List.last l h = Some e -> em_relation e = 0.

Lemma chain_evolves st st' h l l' : chain st h l -> evolves l' st st' -> linked st' (Some h) l -> chain st' h l.
Proof.
  intros (Hl & Hne & Hr) [_ B] Hl'. split_and!; [done|done|]. intros e' He'.
  destruct (linked_last st _ l h Hl Hne) as [e E].
  destruct (B _ e E) as (e1 & E1 & (_ & _ & K & _) & _). rewrite He' in E1. injection E1 as <-. rewrite K. by apply Hr.
Qed.

Lemma last_app_ne (l l' : list nat) d : l' <> [] -> List.last (l ++ l') d = List.last l' d.
Proof.
  intros H. destruct (exists_last H) as (m & x & ->). by rewrite app_assoc, !last_last.
Qed.

Lemma last_default (l : list nat) d d' : l <> [] -> List.last l d = List.last l d'.
Proof. intros H. destruct (exists_last H) as (m & x & ->). by rewrite !last_last. Qed.

Lemma chain_append st h l p c t csib ckids : chain st h l -> heap st (Some c) t csib ckids -> expr_ok t -> p = Some c ->
  t <> EDone -> NoDup (l ++ csib) ->
  chain (append_nodes st h c) h (l ++ csib) /\ evolves l st (append_nodes st h c).
Proof.
  intros (Hl & Hne & Hr) Hc Hok _ Ht Hd. destruct (append_nodes_ok st h l c csib Hl Hne Hd (heap_linked _ _ _ _ _ Hc) Hr) as [A1 A2].
  assert (csib <> []) as Hcs by (by inversion Hc; subst).
  split; [|done]. split_and!; [done|by destruct l|]. intros e' He'. rewrite last_app_ne in He' by done.
  destruct (linked_last st _ csib h (heap_linked _ _ _ _ _ Hc) Hcs) as [e E]. destruct A2 as [_ B]. destruct (B _ e E) as (e1 & E1 & (_ & _ & K & _) & _).
  rewrite He' in E1. injection E1 as <-. rewrite K. by eapply wheap_ends; [apply heap_wheap|..].
Qed.

(** What flattening makes of an expression whose first group is in the chain. *)
Definition flattens (t : etree) : Prop := forall fuel st h a sib kids l count,
  wheap st (Some a) t sib kids -> chain st h l -> incl sib l -> NoDup (l ++ kids) -> (List.length (sib ++ kids) <= fuel)%nat ->
  exists st', flatten_tree fuel st h a count = Some (count + Z.of_nat (List.length (sib ++ kids)), number_nodes st' h) /\
    chain st' h (l ++ kids) /\ evolves (l ++ kids) st st'.

(** What is left behind a node. *)
Lemma flatten_next fuel st h a e count next sib kids l :
  (next <> EDone -> flattens next) -> st !! a = Some e -> rel_ok (em_relation e) next ->
  wheap st (em_next e) next sib kids -> chain st h l -> incl sib l -> NoDup (l ++ kids) -> (List.length (sib ++ kids) <= fuel)%nat ->
  exists st', (if em_relation (st !!! a) =? 0 then Some (count, number_nodes st h)
     else match em_next (st !!! a) with Some b => flatten_tree fuel st h b count | None => None end) =
      Some (count + Z.of_nat (List.length (sib ++ kids)), number_nodes st' h) /\
    chain st' h (l ++ kids) /\ evolves (l ++ kids) st st'.
Proof.
  intros IH Ea Hrel Hw Hch Hin Hd Hf. rewrite (list_lookup_total_correct _ _ _ Ea).
  destruct (decide (next = EDone)) as [->|Hne].
  - inversion Hw; subst. cbn in Hrel. rewrite Hrel. exists st. cbn. rewrite Z.add_0_r, app_nil_r.
    split_and!; [done|done|apply evolves_refl].
  - assert ((em_relation e =? 0) = false) as -> by (apply Z.eqb_neq; destruct next; [done|..]; cbn in Hrel;
      unfold TCF_EM_REL_AND, TCF_EM_REL_OR in Hrel; lia).
    destruct (em_next e) as [b|]; [by eapply IH|]. by inversion Hw; subst.
Qed.

Lemma flatten_ok t : t <> EDone -> expr_ok t -> flattens t.
Proof.
  induction t as [|inv args rel next IH|inv child IHc rel next IHn]; [done| |]; intros _ Hok fuel st h a sib kids l count Hw Hch Hin Hd Hf;
    inversion Hw as [|? e ? ? ? ? sib' ? Ea E1 E2 E3 E4 Hw'|? e c ? ? ? ? csib ckids sib' kids' Ea E1 E2 E3 Hc Hw']; subst;
    (destruct fuel as [|fuel]; [cbn in Hf; lia|]); cbn [flatten_tree]; rewrite (list_lookup_total_correct _ _ _ Ea).
  - destruct Hok as (_ & Hrel & Hok). rewrite E4, <- (list_lookup_total_correct _ _ _ Ea).
    destruct (flatten_next fuel st h a e (count + 1) next sib' kids l (fun H => IH H Hok) Ea Hrel Hw' Hch) as (st' & E & H1 & H2);
      [intros x Hx; apply Hin; by right|done|cbn in Hf; lia|].
    exists st'. rewrite E. split; [|done]. do 2 f_equal. cbn [app List.length]. lia.
  - destruct Hok as (Hcd & Hokc & Hrel & Hok). rewrite E3.
    rewrite !app_assoc in Hd. apply NoDup_app in Hd as (Hd1 & Hx1 & Hd2). pose proof Hd1 as Hd1'.
    rewrite <- app_assoc in Hd1. pose proof Hd1' as (Hdl & _ & _)%NoDup_app.
    destruct (chain_append st h l (Some c) c child csib ckids Hch Hc Hokc eq_refl Hcd Hdl) as [Hch1 Hev1].
    assert (wheap (append_nodes st h c) (Some c) child csib ckids) as Hw1.
    { apply heap_wheap. eapply heap_same; [exact Hc|]. intros x Hx. apply Hev1. intros Hxl.
      apply NoDup_app in Hd1 as (_ & Hd1 & _). apply (Hd1 x); by apply list_elem_of_In. }
    rewrite !length_app in Hf. cbn [List.length] in Hf.
    destruct (IHc Hcd Hokc fuel (append_nodes st h c) h c csib ckids (l ++ csib) 0 Hw1 Hch1) as (st2 & E & Hch2 & Hev2);
      [intros x Hx; apply in_app_iff; by right|done|rewrite length_app; lia|].
    rewrite E. cbv zeta. set (l2 := (l ++ csib) ++ ckids) in *. set (st3 := number_nodes st2 h).
    destruct (number_nodes_ok st2 h l2 (proj1 Hch2) Hd1') as (R3 & L3 & _). fold st3 in R3, L3. apply renumbers_evolves in R3.
    assert (evolves l2 st st3) as Hev3.
    { eapply evolves_trans; [|eapply evolves_trans; [exact Hev2|exact R3]]. eapply evolves_more; [|exact Hev1].
      intros x Hx. unfold l2. rewrite !in_app_iff. tauto. }
    pose proof (chain_evolves _ _ _ _ _ Hch2 R3 L3) as Hch3.
    destruct Hev3 as [F3 B3]. destruct (B3 a e Ea) as (e3 & Ea3 & (K1 & K2 & K3 & K4) & K5).
    assert (wheap st3 (em_next e3) next sib' kids') as Hw3.
    { destruct (decide (next = EDone)) as [->|Hne]; [inversion Hw'; subst; constructor|].
      rewrite K5 by (destruct next; [done|..]; cbn in Hrel; unfold TCF_EM_REL_AND, TCF_EM_REL_OR in Hrel; lia).
      eapply wheap_evolves; [exact Hw'|done|exact (conj F3 B3)|]. intros x Hx Hx2. apply (Hx1 x); by apply list_elem_of_In. }
    destruct (flatten_next fuel st3 h a e3 (count + 1 + (0 + Z.of_nat (List.length (csib ++ ckids)))) next sib' kids' l2 (fun H => IHn H Hok) Ea3)
      as (st' & E' & Hch' & Hev'); [by rewrite K3|done|done| | |rewrite length_app; lia|].
    { intros x Hx. unfold l2. rewrite !in_app_iff. left. left. apply Hin. by right. }
    { unfold l2. apply NoDup_app. split_and!; [done| |done]. intros x Hx Hx'. by apply (Hx1 x). }
    exists st'. rewrite E'. unfold l2 in *. rewrite <- !app_assoc in *. split; [|split; [done|]].
    + do 2 f_equal. rewrite !length_app. cbn [List.length]. lia.
    + eapply evolves_trans; [|exact Hev']. eapply evolves_more; [|exact (conj F3 B3)]. intros x Hx. rewrite !in_app_iff in *. tauto.
Qed.

(** ** The layout *)

(** A node of the list: a module with its arguments, or a reference to the first node of a
    group. *)
Inductive row := RCall (inverted : bool) (rel : Z) (args : list bstr) | RGroup (inverted : bool) (rel : Z) (ref : nat).

(** The nodes of the first group, and of all its nodes. *)
Fixpoint sibs (t : etree) : nat :=
  match t with EDone => 0%nat | ECall _ _ _ next | EGroup _ _ _ next => S (sibs next) end.

Fixpoint total (t : etree) : nat :=
  match t with
  | EDone => 0%nat
  | ECall _ _ _ next => S (total next)
  | EGroup _ child _ next => S (total child + total next)
  end.

(** The rows of a group, and of the groups in it, which are laid out from the place [kb] on,
    each with its own groups before the next. *)
Fixpoint rows (kb : nat) (t : etree) : list row * list row :=
  match t with
  | EDone => ([], [])
  | ECall inv args rel next => let '(h, k) := rows kb next in (RCall inv rel args :: h, k)
  | EGroup inv child rel next =>
      let '(ch, ck) := rows (kb + sibs child) child in
      let '(h, k) := rows (kb + total child) next in
      (RGroup inv rel kb :: h, ch ++ ck ++ k)
  end.

Lemma rows_length t : forall kb,
  List.length (rows kb t).1 = sibs t /\ (List.length (rows kb t).1 + List.length (rows kb t).2 = total t)%nat.
Proof.
  induction t as [|inv args rel next IH|inv child IHc rel next IHn]; intros kb; cbn [rows sibs total]; [done| |].
  - destruct (IH kb) as [I1 I2]. destruct (rows kb next) as [h k]. cbn [fst snd List.length] in *. lia.
  - destruct (IHc (kb + sibs child)%nat) as [I1 I2]. destruct (IHn (kb + total child)%nat) as [I3 I4].
    destruct (rows _ child) as [ch ck]. destruct (rows _ next) as [h k]. cbn [fst snd List.length] in *. rewrite !length_app. lia.
Qed.

Definition layout (t : etree) : list row := let '(h, k) := rows (sibs t) t in h ++ k.

Definition row_is (e : ematch) (r : row) : Prop :=
  match r with
  | RCall inv rel args => em_child e = None /\ em_args e = args /\ em_inverted e = Z.b2z inv /\ em_relation e = rel
  | RGroup inv rel ref =>
      (exists c, em_child e = Some c) /\ em_child_ref e = Z.of_nat ref /\ em_inverted e = Z.b2z inv /\ em_relation e = rel
  end.

Lemma heap_sizes st p t sib kids : heap st p t sib kids -> List.length sib = sibs t /\ List.length (sib ++ kids) = total t.
Proof.
  induction 1 as [|a e inv args rel next sib kids _ _ _ _ _ _ [I1 I2]
    |a e c inv child rel next csib ckids sib kids _ _ _ _ _ [I1 I2] _ [I3 I4]]; cbn [sibs total]; [done| |];
    rewrite !length_app in *; cbn [List.length] in *; rewrite ?length_app in *; lia.
Qed.

(** The nodes of a numbered list are the rows of the layout. *)
Lemma rows_nodes (st0 st : list ematch) l p t sib kids : heap st0 p t sib kids -> expr_ok t ->
  (forall a e, st0 !! a = Some e -> exists e', st !! a = Some e' /\ alike e e') ->
  (forall a c j, In a l -> em_child (st !!! a) = Some c -> l !! j = Some c -> em_child_ref (st !!! a) = Z.of_nat j) ->
  forall kb, incl sib l -> (forall i a, kids !! i = Some a -> l !! (kb + i)%nat = Some a) ->
  Forall2 (fun a => row_is (st !!! a)) sib (rows kb t).1 /\ Forall2 (fun a => row_is (st !!! a)) kids (rows kb t).2.
Proof.
  intros H Hok Ha Href. induction H as [|a e inv args rel next sib kids Ea E1 E2 E3 E4 _ IH
    |a e c inv child rel next csib ckids sib kids Ea E1 E2 E3 Hc IHc _ IHn]; intros kb Hs Hk; cbn [rows].
  - split; constructor.
  - destruct Hok as (_ & _ & Hok). destruct (Ha a e Ea) as (e' & Ea' & K1 & K2 & K3 & K4).
    destruct (IH Hok kb ltac:(intros x Hx; apply Hs; by right) Hk) as [I1 I2]. destruct (rows kb next) as [h k]. cbn [fst snd] in *.
    split; [|done]. constructor; [|done]. rewrite (list_lookup_total_correct _ _ _ Ea'). cbn. by rewrite K1, K2, K3, K4.
  - destruct Hok as (Hcd & Hokc & _ & Hok). destruct (Ha a e Ea) as (e' & Ea' & K1 & K2 & K3 & K4).
    destruct (heap_sizes _ _ _ _ _ Hc) as [Z1 Z2]. rewrite length_app in Z2.
    assert (forall i x, csib !! i = Some x -> l !! (kb + i)%nat = Some x) as Hk1.
    { intros i x Hx. apply Hk. by apply lookup_app_l_Some. }
    destruct (IHc Hokc (kb + sibs child)%nat) as [C1 C2].
    { intros x Hx. apply list_elem_of_In, list_elem_of_lookup in Hx as [i Hx]. apply list_elem_of_In, list_elem_of_lookup.
      eexists. by apply Hk1. }
    { intros i x Hx. rewrite <- Nat.add_assoc. apply Hk. rewrite lookup_app_r by lia. apply lookup_app_l_Some.
      rewrite <- Z1. by replace (List.length csib + i - List.length csib)%nat with i by lia. }
    destruct (IHn Hok (kb + total child)%nat) as [I1 I2].
    { intros x Hx. apply Hs. by right. }
    { intros i x Hx. rewrite <- Nat.add_assoc. apply Hk. rewrite app_assoc, lookup_app_r by (rewrite length_app; lia).
      rewrite length_app. by replace (total child + i - _)%nat with i by lia. }
    destruct (rows (kb + sibs child) child) as [ch ck]. destruct (rows (kb + total child) next) as [h k]. cbn [fst snd] in *.
    split; [|by repeat apply Forall2_app]. constructor; [|done]. rewrite (list_lookup_total_correct _ _ _ Ea'). cbn.
    split; [rewrite K4; by eexists|]. split; [|by rewrite K2, K3].
    assert (l !! kb = Some c) as Hl.
    { rewrite <- (Nat.add_0_r kb). apply Hk1. by inversion Hc; subst. }
    assert (In a l) as Hal by (apply Hs; by left).
    pose proof (Href a c kb Hal) as Hr. rewrite (list_lookup_total_correct _ _ _ Ea') in Hr. by rewrite Hr, ?K4 by (done || congruence).
Qed.

(** Flattening from the root: the count, and nodes that are the rows of the layout. *)
Lemma flatten_layout st root t sib kids : heap st (Some root) t sib kids -> t <> EDone -> expr_ok t -> NoDup (sib ++ kids) ->
  exists st', flatten_tree (List.length st) st root root 0 = Some (Z.of_nat (total t), st') /\
    Forall2 row_is (map (fun a => st' !!! a) (nodes st' root)) (layout t).
Proof.
  intros Hh Hne Hok Hd. pose proof (heap_wheap _ _ _ _ _ Hh) as Hw. destruct (heap_sizes _ _ _ _ _ Hh) as [Z1 Z2].
  pose proof (heap_linked _ _ _ _ _ Hh) as Hl.
  assert (sib <> []) as Hs by (by inversion Hh; subst).
  assert (chain st root sib) as Hch.
  { split_and!; [done|done|]. intros e He. by eapply wheap_ends. }
  assert (List.length (sib ++ kids) <= List.length st)%nat as Hlen.
  { apply bounded_nodup; [done|]. clear -Hh. assert (forall a, In a (sib ++ kids) -> exists e, st !! a = Some e) as H.
    { induction Hh as [|a e inv args rel next sib kids Ea _ _ _ _ _ IH|a e c inv child rel next csib ckids sib kids Ea _ _ _ _ IHc _ IHn];
        intros x Hx; [done| |]; cbn [app] in Hx; destruct Hx as [<-|Hx]; [by eexists|by apply IH|by eexists|].
      rewrite !in_app_iff in *. destruct Hx as [Hx|[Hx|[Hx|Hx]]]; [apply IHn|apply IHc|apply IHc|apply IHn]; rewrite in_app_iff; tauto. }
    apply List.Forall_forall. intros a Ha. destruct (H a Ha) as [e E]. by eapply lookup_lt_Some. }
  destruct (flatten_ok t Hne Hok (List.length st) st root root sib kids sib 0 Hw Hch (List.incl_refl sib) Hd Hlen) as (st1 & E & Hch1 & Hev).
  destruct (number_nodes_ok st1 root (sib ++ kids) (proj1 Hch1) Hd) as (R & L & _ & Href). set (st2 := number_nodes st1 root) in *.
  exists st2. rewrite E, Z2. split; [done|]. rewrite (nodes_linked _ _ _ L Hd).
  assert (forall a e, st !! a = Some e -> exists e', st2 !! a = Some e' /\ alike e e') as Ha.
  { intros a e Ea. destruct (proj2 (evolves_trans _ _ _ _ Hev (renumbers_evolves _ _ _ R)) a e Ea) as (e' & Ea' & K & _). by exists e'. }
  destruct (rows_nodes st st2 (sib ++ kids) (Some root) t sib kids Hh Hok Ha) with (kb := sibs t) as [H1 H2].
  - intros a c j Hin Hc. apply Href; [done|]. pose proof (linked_bounds _ _ _ (proj1 Hch1)) as Hb. rewrite List.Forall_forall in Hb.
    destruct (lookup_lt_is_Some_2 st1 a (Hb a Hin)) as [e Ea]. destruct (proj2 R a e Ea) as (e' & Ea' & (_ & _ & _ & K) & _).
    rewrite (list_lookup_total_correct _ _ _ Ea') in Hc. rewrite (list_lookup_total_correct _ _ _ Ea). congruence.
  - intros x Hx. apply in_app_iff. by left.
  - intros i a Hi. rewrite lookup_app_r by lia. by replace (sibs t + i - List.length sib)%nat with i by lia.
  - apply (Forall2_fmap_l (fun a => st2 !!! a)). unfold layout. destruct (rows (sibs t) t) as [h k]. by apply Forall2_app.
Qed.
