(* ===== verification/TcEmatchTrip.v ===== *)
(** * Extended matches: from the words to the message and back

    The list an expression is sent as holds its nodes in the order of the layout, each with the
    data its module adds; the printer, following the references, shows the expression. *)

From S2P Require Export TcEmatchFacts.

#[local] Open Scope list_scope.

(** ** Data added to a message *)

(** Aligned data at the end of a message. *)
Definition raw_added (n n' : nlmsghdr) (d : list Z) : Prop :=
  load_bytes (mem n') (NLMSG_TAIL n) (Z.of_nat (List.length d)) = d /\
  NLMSG_TAIL n' = NLMSG_TAIL n + Z.of_nat (List.length d) /\ 0 <= nlmsg_len n' /\
  List.length (mem n') = List.length (mem n) /\ same_below (NLMSG_TAIL n) (mem n) (mem n').

(** Trees at the end of a message. *)
Definition after (n n' : nlmsghdr) (l : list atree) : Prop :=
  trees_at (mem n') (NLMSG_TAIL n) l /\ NLMSG_TAIL n' = NLMSG_TAIL n + tspan l /\ 0 <= nlmsg_len n' /\
  List.length (mem n') = List.length (mem n) /\ same_below (NLMSG_TAIL n) (mem n) (mem n').

Definition padded (d : list Z) : list Z :=
  d ++ replicate (Z.to_nat (RTA_ALIGN (Z.of_nat (List.length d)) - Z.of_nat (List.length d))) 0.

Lemma padding_length d : Z.of_nat (List.length (padded d)) = RTA_ALIGN (Z.of_nat (List.length d)).
Proof. unfold padded. rewrite length_app, length_replicate. pose proof (RTA_ALIGN_bounds (Z.of_nat (List.length d))). lia. Qed.

Lemma padded_aligned d : Z.of_nat (List.length d) mod 4 = 0 -> padded d = d.
Proof. intros H. unfold padded. rewrite RTA_ALIGN_aligned, Z.sub_diag by done. by rewrite app_nil_r. Qed.

Lemma load_app m off a b : 0 <= off -> load_bytes m off (Z.of_nat (List.length a)) = a ->
  load_bytes m (off + Z.of_nat (List.length a)) (Z.of_nat (List.length b)) = b ->
  load_bytes m off (Z.of_nat (List.length (a ++ b))) = a ++ b.
Proof.
  intros Ho Ha Hb. unfold load_bytes in *. rewrite Nat2Z.id in *. rewrite length_app, <- take_take_drop, drop_drop, Ha.
  by replace (Z.to_nat off + List.length a)%nat with (Z.to_nat (off + Z.of_nat (List.length a))) by lia; rewrite Hb.
Qed.

Lemma addraw_l_ok n maxlen d : room_for n maxlen (RTA_ALIGN (Z.of_nat (List.length d))) ->
  raw_added n (addraw_l n maxlen d).2 (padded d).
Proof.
  intros [H0 H1 H2 H3]. pose proof (RTA_ALIGN_bounds (Z.of_nat (List.length d))) as Hb. pose proof (tail_bounds n) as Ht.
  unfold addraw_l. fold (NLMSG_TAIL n). rewrite u32_small by lia. rewrite (proj2 (Z.ltb_ge maxlen _)) by lia. cbn [snd].
  set (pad := replicate _ 0). assert (Z.of_nat (List.length pad) = RTA_ALIGN (Z.of_nat (List.length d)) - Z.of_nat (List.length d)) as Hp
    by (unfold pad; rewrite length_replicate; lia).
  assert (List.length (store_at (NLMSG_TAIL n) d (mem n)) = List.length (mem n)) as Hl by (apply store_at_length; lia).
  split_and!; cbn [mem nlmsg_len].
  - apply load_app; [lia| |].
    + rewrite load_store_other by lia. by apply load_store_same; lia.
    + fold pad. apply load_store_same; lia.
  - unfold NLMSG_TAIL at 1. cbn [nlmsg_len]. rewrite padding_length. apply RTA_ALIGN_aligned. Z.div_mod_to_equations. lia.
  - lia.
  - rewrite store_at_length; lia.
  - intros o k Ho Hk Hok. rewrite load_store_other by lia. by rewrite load_store_other by lia.
Qed.

Lemma raw_seq n n1 n2 a b : 0 <= nlmsg_len n -> raw_added n n1 a -> raw_added n1 n2 b -> raw_added n n2 (a ++ b).
Proof.
  intros Hn (A1 & A2 & A3 & A4 & A5) (B1 & B2 & B3 & B4 & B5). pose proof (tail_bounds n) as Ht.
  split_and!; [|rewrite length_app; lia|done|congruence|].
  - apply load_app; [lia| |by rewrite <- A2]. by rewrite B5 by lia.
  - eapply same_below_trans; [|exact A5|exact B5]. lia.
Qed.

(** Pieces one behind the other. *)
Definition pieces_size (l : list (list Z)) : Z := foldr (fun d z => RTA_ALIGN (Z.of_nat (List.length d)) + z) 0 l.

Lemma pieces_size_pos l : 0 <= pieces_size l.
Proof. induction l as [|d l IH]; cbn; [done|]. pose proof (RTA_ALIGN_bounds (Z.of_nat (List.length d))). fold (pieces_size l). lia. Qed.

Lemma room_after n n' maxlen a b : room_for n maxlen (a + b) -> NLMSG_TAIL n' = NLMSG_TAIL n + a -> 0 <= nlmsg_len n' ->
  List.length (mem n') = List.length (mem n) -> room_for n' maxlen b.
Proof. intros [H0 H1 H2 H3] Ht Hl Hm. constructor; rewrite ?Hm, ?Ht; lia. Qed.

Lemma room_less n maxlen a b : room_for n maxlen a -> b <= a -> room_for n maxlen b.
Proof. intros [H0 H1 H2 H3] Hb. constructor; lia. Qed.

Lemma add_pieces_ok l : forall n, room_for n MAX_MSG (pieces_size l) ->
  raw_added n (add_pieces n l) (concat (map padded l)).
Proof.
  induction l as [|d l IH]; intros n Hr; cbn [add_pieces foldl map concat].
  - destruct Hr as [H0 H1 H2 H3]. split_and!; try done. cbn. lia.
  - cbn [pieces_size foldr] in Hr. fold (pieces_size l) in Hr. pose proof (pieces_size_pos l).
    pose proof (addraw_l_ok n MAX_MSG d ltac:(eapply room_less; [exact Hr|lia])) as A. pose proof A as (_ & A2 & A3 & A4 & _).
    eapply raw_seq; [by destruct Hr|exact A|]. apply IH. eapply room_after; [exact Hr|by rewrite A2, padding_length|done|done].
Qed.

(** An attribute that is opened, filled with [k] bytes and given its length. *)
Lemma close_ok n ty k n2 : 0 <= ty < 2 ^ 16 -> room_for n MAX_MSG (4 + k) -> 0 <= k -> k mod 4 = 0 ->
  let tail := NLMSG_TAIL n in
  NLMSG_TAIL n2 = tail + 4 + k -> 0 <= nlmsg_len n2 -> List.length (mem n2) = List.length (mem n) ->
  same_below (tail + 4) (mem (addattr_l n MAX_MSG ty []).2) (mem n2) ->
  let n' := close_nest tail n2 in
  rta_len (mem n') tail = 4 + k /\ rta_type (mem n') tail = ty /\
  (forall o j, tail + 4 <= o -> 0 <= j -> load_bytes (mem n') o j = load_bytes (mem n2) o j) /\
  NLMSG_TAIL n' = tail + (4 + k) /\ 0 <= nlmsg_len n' /\ List.length (mem n') = List.length (mem n) /\
  same_below tail (mem n) (mem n').
Proof.
  intros Hty [H0 H1 H2 H3] Hk Hk4 tail B2 B3 B4 B5 n'. pose proof (tail_bounds n) as Ht. fold tail in H1, H2, Ht.
  destruct (appends_leaf MAX_MSG ty [] Hty n) as ([L1 _] & L2 & L3 & L4 & L5 & _);
    [change (tspan [Leaf ty []]) with 4; constructor; fold tail; lia|].
  cbv zeta in *. set (n1 := (addattr_l n MAX_MSG ty []).2) in *. fold tail in L1, L5. cbn [tree_at] in L1.
  assert (mem n' = set_rta_len tail (4 + k) (mem n2)) as Em by (unfold n', close_nest; cbn [mem]; f_equal; lia).
  assert (forall o j, tail + 2 <= o -> 0 <= j -> load_bytes (mem n') o j = load_bytes (mem n2) o j) as Habove
    by (intros; rewrite Em; apply load_store_other; rewrite ?le_bytes_length; lia).
  split_and!; [| |intros; apply Habove; lia| |done| |].
  - unfold rta_len, load16. rewrite Em. unfold set_rta_len. rewrite load_store_same by (rewrite ?le_bytes_length; lia).
    rewrite of_le_bytes_le. change (2 ^ (8 * Z.of_nat 2)) with (2 ^ 16). rewrite Z.mod_small; lia.
  - unfold rta_type, load16. rewrite Habove by lia. rewrite (B5 (tail + 2) 2) by lia. by destruct L1 as (_ & ? & _).
  - change (NLMSG_TAIL n') with (NLMSG_TAIL n2). lia.
  - rewrite Em. unfold set_rta_len. rewrite store_at_length; rewrite ?le_bytes_length; [congruence|lia|lia].
  - intros o j Ho Hj Hok. rewrite Em. unfold set_rta_len. rewrite load_store_other by (rewrite ?le_bytes_length; lia).
    rewrite B5 by lia. by apply L5.
Qed.

Lemma open_tail n ty k : 0 <= ty < 2 ^ 16 -> room_for n MAX_MSG (4 + k) -> 0 <= k ->
  let n1 := (addattr_l n MAX_MSG ty []).2 in
  NLMSG_TAIL n1 = NLMSG_TAIL n + 4 /\ List.length (mem n1) = List.length (mem n) /\ room_for n1 MAX_MSG k.
Proof.
  intros Hty Hr Hk. destruct (appends_leaf MAX_MSG ty [] Hty n) as (_ & L2 & L3 & L4 & _);
    [change (tspan [Leaf ty []]) with 4; eapply room_less; [exact Hr|lia]|].
  change (tspan [Leaf ty []]) with 4 in L2. cbv zeta in *. split; [done|]. split; [done|]. by eapply (room_after n).
Qed.

Lemma leaf_raw n ty d n2 : 0 <= ty < 2 ^ 16 -> room_for n MAX_MSG (4 + Z.of_nat (List.length d)) -> Z.of_nat (List.length d) mod 4 = 0 ->
  raw_added (addattr_l n MAX_MSG ty []).2 n2 d -> after n (close_nest (NLMSG_TAIL n) n2) [Leaf ty d].
Proof.
  intros Hty Hr Hd (B1 & B2 & B3 & B4 & B5). destruct (open_tail n ty _ Hty Hr ltac:(lia)) as (O1 & O2 & _). rewrite O1, O2 in *.
  destruct (close_ok n ty _ n2 Hty Hr ltac:(lia) Hd B2 B3 B4 B5) as (C1 & C2 & C3 & C4 & C5 & C6 & C7).
  assert (tspan [Leaf ty d] = 4 + Z.of_nat (List.length d)) as Es
    by (cbn [tspan tspan1]; unfold attr_span; rewrite RTA_ALIGN_aligned by (Z.div_mod_to_equations; lia); lia).
  unfold after. rewrite Es. cbn [trees_at tree_at]. unfold attr_at. split_and!; try done. by rewrite C3 by lia.
Qed.

Lemma after_seq n n1 n2 l l' : 0 <= nlmsg_len n -> after n n1 l -> after n1 n2 l' -> after n n2 (l ++ l').
Proof.
  intros Hn (A1 & A2 & A3 & A4 & A5) (B1 & B2 & B3 & B4 & B5). pose proof (tail_bounds n). pose proof (tspan_bounds l).
  unfold after. rewrite trees_at_app, tspan_app. split_and!; [|by rewrite <- A2|lia|done|congruence|].
  - eapply trees_at_range; [|exact A1]. intros o k Ho Hk Hok. apply B5; lia.
  - eapply same_below_trans; [|exact A5|exact B5]. lia.
Qed.

Lemma after_appends maxlen f l n : appends maxlen f l -> room_for n maxlen (tspan l) -> after n (f n) l.
Proof. intros Hf Hr. destruct (Hf n Hr) as (A1 & A2 & A3 & A4 & A5 & _). by split_and!. Qed.

(** A nest around trees. *)
Lemma after_nest n ty l n2 : 0 <= ty < 2 ^ 16 -> room_for n MAX_MSG (4 + tspan l) ->
  after (addattr_l n MAX_MSG ty []).2 n2 l -> after n (close_nest (NLMSG_TAIL n) n2) [Nest ty l].
Proof.
  intros Hty Hr (B1 & B2 & B3 & B4 & B5). pose proof (tspan_bounds l) as Hs.
  destruct (open_tail n ty _ Hty Hr ltac:(lia)) as (O1 & O2 & _). rewrite O1, O2 in *.
  destruct (close_ok n ty _ n2 Hty Hr ltac:(lia) ltac:(lia) B2 B3 B4 B5) as (C1 & C2 & C3 & C4 & C5 & C6 & C7).
  assert (tspan [Nest ty l] = 4 + tspan l) as Es by (cbn [tspan]; rewrite tspan_nest; lia).
  unfold after. rewrite Es. cbn [trees_at]. split_and!; try done. apply tree_at_nest. split_and!; [done|done|].
  eapply trees_at_range; [|exact B1]. intros o k Ho Hk _. apply C3; lia.
Qed.

Lemma load_split m off a b : 0 <= off -> load_bytes m off (Z.of_nat (List.length (a ++ b))) = a ++ b ->
  load_bytes m off (Z.of_nat (List.length a)) = a /\
  load_bytes m (off + Z.of_nat (List.length a)) (Z.of_nat (List.length b)) = b.
Proof.
  intros Ho H. unfold load_bytes in *. rewrite Nat2Z.id in *. rewrite length_app, <- take_take_drop, drop_drop in H.
  replace (Z.to_nat (off + Z.of_nat (List.length a))) with (Z.to_nat off + List.length a)%nat by lia.
  assert (List.length (take (List.length a) (drop (Z.to_nat off) m)) = List.length a) as Hl.
  { apply (f_equal List.length) in H. rewrite !length_app, !length_take, !length_drop in H.
    rewrite length_take, length_drop. lia. }
  rewrite Nat2Z.id. exact (app_inj_1 _ _ _ _ Hl H).
Qed.

Lemma load_split16 m off v b : 0 <= off -> 0 <= v < 2 ^ 16 ->
  load_bytes m off (Z.of_nat (List.length (le_bytes 2 v ++ b))) = le_bytes 2 v ++ b ->
  load16 m off = v /\ load_bytes m (off + 2) (Z.of_nat (List.length b)) = b.
Proof.
  intros Ho Hv H. apply load_split in H as [H1 H2]; [|done]. rewrite le_bytes_length in H1, H2. split; [|exact H2].
  unfold load16. change 2 with (Z.of_nat 2). rewrite H1, of_le_bytes_le. change (2 ^ (8 * Z.of_nat 2)) with (2 ^ 16). by apply Z.mod_small.
Qed.

(** The header of a node, read back. *)
Lemma emhdr_read m off kind flags d : 0 <= off -> 0 <= kind < 2 ^ 16 -> 0 <= flags < 2 ^ 16 ->
  load_bytes m off (Z.of_nat (List.length (emhdr_bytes (mk_emhdr 0 kind flags) ++ d))) = emhdr_bytes (mk_emhdr 0 kind flags) ++ d ->
  load16 m (off + 2) = kind /\ load16 m (off + 4) = flags /\ load_bytes m (off + 8) (Z.of_nat (List.length d)) = d.
Proof.
  intros Ho Hk Hf. unfold emhdr_bytes. cbn [h_matchid h_kind h_flags]. rewrite <- !app_assoc. intros H.
  apply load_split16 in H as [_ H]; [|done|lia]. apply load_split16 in H as [H1 H]; [|lia|done].
  apply load_split16 in H as [H2 H]; [|lia|done]. apply load_split16 in H as [_ H]; [|lia|lia].
  replace (off + 2 + 2 + 2 + 2) with (off + 8) in H by lia. replace (off + 2 + 2) with (off + 4) in H2 by lia. done.
Qed.

(** ** What a module promises *)

(** A module accepts arguments: it adds a header and data of a size, from which, wherever they
    are, it shows a text. *)
Definition em_accepts (u : ematch_util) (args : list em_arg) (size : Z) (text : string) : Prop :=
  0 <= size /\ size mod 4 = 0 /\ forall n hdr, room_for n MAX_MSG (EMHDR_SIZE + size) ->
    exists n' d, em_parse_eopt u n hdr args = EmAdded n' /\ raw_added n n' (emhdr_bytes hdr ++ d) /\
      Z.of_nat (List.length d) = size /\
      forall m off, 0 <= off -> load_bytes m off size = d -> em_print_eopt u m off size = (0, text).

(** A module whose data are pieces with a text of their own. *)
Lemma pieces_accepted u args l text :
  (forall n hdr, em_parse_eopt u n hdr args = EmAdded (add_pieces n (emhdr_bytes hdr :: l))) ->
  (forall m off, 0 <= off -> load_bytes m off (Z.of_nat (List.length (concat (map padded l)))) = concat (map padded l) ->
    em_print_eopt u m off (Z.of_nat (List.length (concat (map padded l)))) = (0, text)) ->
  em_accepts u args (pieces_size l) text.
Proof.
  intros Hp Hs. assert (Z.of_nat (List.length (concat (map padded l))) = pieces_size l) as El.
  { clear. induction l as [|d l IH]; [done|]. cbn [map concat pieces_size foldr]. fold (pieces_size l).
    rewrite length_app, Nat2Z.inj_add, padding_length. lia. }
  assert (pieces_size l mod 4 = 0) as Hm.
  { clear. induction l as [|d l IH]; [done|]. cbn [pieces_size foldr]. fold (pieces_size l).
    pose proof (RTA_ALIGN_bounds (Z.of_nat (List.length d))). Z.div_mod_to_equations. lia. }
  split; [apply pieces_size_pos|]. split; [done|]. intros n hdr Hr. eexists _, (concat (map padded l)).
  split; [apply Hp|]. split.
  - replace (emhdr_bytes hdr) with (padded (emhdr_bytes hdr)) at 2 by (by apply padded_aligned).
    apply (add_pieces_ok (emhdr_bytes hdr :: l)). cbn [pieces_size foldr]. fold (pieces_size l). exact Hr.
  - split; [done|]. rewrite <- El. exact Hs.
Qed.

(** The table has a place for every type. *)
Lemma loop_length fuel m max : forall rta len tb, List.length (rtattr_loop fuel m max rta len tb).1 = List.length tb.
Proof.
  induction fuel as [|fuel IH]; intros rta len tb; cbn [rtattr_loop]; [done|]. destruct (RTA_OK m rta len); [|done]. rewrite IH.
  destruct (_ <=? max); [|done]. destruct (tb !!! _); [done|]. apply length_insert.
Qed.

Lemma parse_length m max off : List.length (parse_rtattr_nested m max off).1 = Z.to_nat (max + 1).
Proof. unfold parse_rtattr_nested, parse_rtattr. rewrite loop_length. apply length_replicate. Qed.

(** ** The list *)

Section Trip.
Context (map_file : option string) (load : string -> option ematch_util) (behind : string) (wild : aopt_outcome).
Context (buf : strbuf) (size : list bstr -> Z) (text : list bstr -> string).

(** A module that the map knows by name and number, with arguments it accepts. *)
Definition call_ok (l : list bstr) : Prop :=
  exists arg args u num t, map (bstr_arg buf) l = arg :: args /\
    get_ematch_kind load (name_buffer behind 64 (b_cstr arg)) = Some u /\
    lookup_map_id map_file (name_buffer behind 64 (b_cstr arg)) = Some num /\ 0 < num < 2 ^ 16 /\
    get_ematch_kind_num map_file load behind num = Some u /\
    em_accepts u args (size l) t /\ text l = em_kind u +:+ "(" +:+ t.

Fixpoint calls_ok (t : etree) : Prop :=
  match t with
  | EDone => True
  | ECall _ args _ next => call_ok args /\ calls_ok next
  | EGroup _ child _ next => calls_ok child /\ calls_ok next
  end.

Definition row_size (r : row) : Z := match r with RCall _ _ args => 8 + size args | RGroup _ _ _ => 12 end.
Definition row_flags (inv : bool) (rel : Z) : Z := if inv then Z.lor rel TCF_EM_INVERT else rel.
Definition rel_range (rel : Z) : Prop := rel = 0 \/ rel = TCF_EM_REL_AND \/ rel = TCF_EM_REL_OR.

Definition row_ok (r : row) : Prop :=
  match r with
  | RCall _ rel args => call_ok args /\ rel_range rel
  | RGroup _ rel ref => rel_range rel /\ Z.of_nat ref < 2 ^ 31 - 1
  end.

(** The bytes of a row. *)
Definition row_data (r : row) (d : list Z) : Prop :=
  match r with
  | RCall inv rel args => exists num u x t,
      d = emhdr_bytes (mk_emhdr 0 num (row_flags inv rel)) ++ x /\ 0 < num < 2 ^ 16 /\
      get_ematch_kind_num map_file load behind num = Some u /\ text args = em_kind u +:+ "(" +:+ t /\
      forall m off, 0 <= off -> load_bytes m off (Z.of_nat (List.length x)) = x ->
        em_print_eopt u m off (Z.of_nat (List.length x)) = (0, t)
  | RGroup inv rel ref => d = emhdr_bytes (mk_emhdr 0 0 (row_flags inv rel)) ++ le_bytes 4 (Z.of_nat ref)
  end.

Lemma row_flags_of e inv rel : em_inverted e = Z.b2z inv -> em_relation e = rel -> node_flags e = row_flags inv rel.
Proof. intros E1 E2. unfold node_flags, row_flags. rewrite E1, E2. by destruct inv. Qed.

Lemma emhdr_length h : List.length (emhdr_bytes h) = 8%nat.
Proof. reflexivity. Qed.

Definition row_leaf (p : nat * list Z) : atree := Leaf (Z.of_nat p.1) p.2.
Definition row_leaves (i : nat) (ds : list (list Z)) : list atree := map row_leaf (imap (fun k d => ((i + k)%nat, d)) ds).

Lemma row_leaves_cons i d ds : row_leaves i (d :: ds) = Leaf (Z.of_nat i) d :: row_leaves (S i) ds.
Proof.
  unfold row_leaves. rewrite imap_cons, Nat.add_0_r. cbn [map]. f_equal. f_equal. apply imap_ext. intros k x _. cbn. f_equal. lia.
Qed.

Definition rows_size (l : list row) : Z := foldr (fun r z => 4 + row_size r + z) 0 l.

Lemma row_size_ok r : row_ok r -> 0 <= row_size r /\ row_size r mod 4 = 0.
Proof.
  destruct r as [inv rel args|inv rel ref]; [|done]. intros [(arg & rest & u & num & t & _ & _ & _ & _ & _ & (H1 & H2 & _) & _) _].
  cbn [row_size]. split; [lia|]. Z.div_mod_to_equations. lia.
Qed.

Lemma rows_size_pos l : Forall row_ok l -> 0 <= rows_size l.
Proof.
  induction 1 as [|r l Hr _ IH]; cbn; [done|]. fold (rows_size l). destruct (row_size_ok r Hr). lia.
Qed.

(** A node adds the data of its row. *)
Lemma parse_node_ok e r n : row_is e r -> row_ok r -> room_for n MAX_MSG (row_size r) ->
  exists n' d, parse_node map_file load behind buf e n = EmAdded n' /\ raw_added n n' d /\
    Z.of_nat (List.length d) = row_size r /\ row_data r d.
Proof.
  intros He Hr Hroom. unfold parse_node. destruct r as [inv rel args|inv rel ref]; cbn [row_is row_ok row_size row_data] in *.
  - destruct He as (-> & E2 & E3 & E4). destruct Hr as [(arg & rest & u & num & t & M1 & M2 & M3 & M4 & M5 & (M6 & M7 & M8) & M9) _].
    rewrite E2, M1, M2, M3, (row_flags_of e inv rel E3 E4). unfold u16. rewrite Z.mod_small by lia.
    destruct (M8 n (mk_emhdr 0 num (row_flags inv rel)) Hroom) as (n' & d & -> & A & L & S). eexists n', _. split; [done|].
    split; [exact A|]. rewrite length_app, emhdr_length. split; [lia|]. exists num, u, d, t. rewrite L. split_and!; done || lia.
  - destruct He as ((c & ->) & E2 & E3 & E4). rewrite (row_flags_of e inv rel E3 E4), E2.
    pose proof (add_pieces_ok [emhdr_bytes (mk_emhdr 0 0 (row_flags inv rel)); le_bytes 4 (Z.of_nat ref)] n Hroom) as A.
    eexists _, _. split; [reflexivity|]. cbn [map concat add_pieces foldl] in A. rewrite !padded_aligned in A by done.
    rewrite app_nil_r in A. split; [exact A|]. by split.
Qed.

(** All rows, one attribute each. *)
Lemma parse_tree_ok es : forall rs i n, Forall2 row_is es rs -> Forall row_ok rs -> room_for n MAX_MSG (rows_size rs) ->
  Z.of_nat (i + List.length rs) < 2 ^ 16 ->
  exists n' ds, parse_tree map_file load behind buf es (Z.of_nat i) n = EmAdded n' /\ after n n' (row_leaves i ds) /\
    Forall2 row_data rs ds /\ tspan (row_leaves i ds) = rows_size rs.
Proof.
  induction es as [|e es IH]; intros rs i n Hes Hok Hroom Hi; inversion Hes as [|? r ? rs' He Hes']; subst; cbn [parse_tree].
  - exists n, []. split; [done|]. split; [|split; [constructor|done]]. destruct Hroom. split_and!; try done. cbn. lia.
  - apply Forall_cons in Hok as [Hr Hok]. cbn [rows_size foldr] in Hroom. fold (rows_size rs') in Hroom.
    destruct (row_size_ok r Hr) as [Z1 Z2]. pose proof (rows_size_pos rs' Hok) as Z3. cbn [List.length] in Hi.
    assert (0 <= Z.of_nat i < 2 ^ 16) as Hty by lia.
    assert (room_for n MAX_MSG (4 + row_size r)) as Hr1 by (eapply room_less; [exact Hroom|lia]).
    destruct (open_tail n (Z.of_nat i) _ Hty Hr1 Z1) as (O1 & O2 & O3).
    destruct (parse_node_ok e r _ He Hr O3) as (n2 & d & -> & A & L & D).
    rewrite <- L in Hr1, Z2. pose proof (leaf_raw n (Z.of_nat i) d n2 Hty Hr1 Z2 A) as Af. pose proof Af as (_ & T2 & T3 & T4 & _).
    assert (tspan [Leaf (Z.of_nat i) d] = 4 + row_size r) as Es
      by (cbn [tspan tspan1]; unfold attr_span; rewrite RTA_ALIGN_aligned by (Z.div_mod_to_equations; lia); lia).
    destruct (IH rs' (S i) (close_nest (NLMSG_TAIL n) n2) Hes' Hok) as (n' & ds & E & A' & D' & S').
    { eapply room_after; [exact Hroom|by rewrite T2, Es|done|done]. }
    { lia. }
    exists n', (d :: ds). rewrite row_leaves_cons. replace (Z.of_nat i + 1) with (Z.of_nat (S i)) by lia. split; [exact E|]. split.
    + apply (after_seq n (close_nest (NLMSG_TAIL n) n2) n' [_] _); [by destruct Hroom|done|done].
    + split; [by constructor|]. cbn [tspan tspan1]. cbn [tspan tspan1] in Es. cbn [rows_size foldr]. fold (rows_size rs'). lia.
Qed.

(** ** What is shown *)

Definition not_text (inv : bool) : string := if inv then "NOT " else "".

(** A match and, if there is a relation, what is behind it. *)
Definition joined (s : string) (rel : Z) (rest : string) : string :=
  if rel =? TCF_EM_REL_AND then s +:+ "AND " +:+ rest else if rel =? TCF_EM_REL_OR then s +:+ "OR " +:+ rest else s.

(** An expression as the printer shows it. *)
Fixpoint tree_text (prefix : nat) (t : etree) : string :=
  match t with
  | EDone => ""
  | ECall inv args rel next =>
      joined ((not_text inv +:+ text args) +:+ ")" +:+ newline +:+ (if rel =? 0 then "" else indent prefix)) rel
        (tree_text prefix next)
  | EGroup inv child rel next =>
      joined ((not_text inv +:+ "(" +:+ newline +:+ indent (S prefix)) +:+ tree_text (S prefix) child +:+ indent prefix +:+ ") ") rel
        (tree_text prefix next)
  end.

(** A table that gives the data of every row, numbered from 1 on. *)
Definition table_of (m : list Z) (tb : list (option Z)) (ds : list (list Z)) : Prop :=
  forall k d, ds !! k = Some d -> exists o, tb !! S k = Some (Some o) /\ 0 <= RTA_DATA o /\
    RTA_PAYLOAD m o = Z.of_nat (List.length d) /\ load_bytes m (RTA_DATA o) (Z.of_nat (List.length d)) = d.

Lemma flags_range inv rel : rel_range rel -> 0 <= row_flags inv rel < 2 ^ 16.
Proof. intros [-> |[-> | ->]]; by destruct inv. Qed.

Lemma flags_shown inv rel : rel_range rel ->
  (if Z.land (row_flags inv rel) TCF_EM_INVERT =? 0 then "" else "NOT ") = not_text inv /\
  (Z.land (row_flags inv rel) TCF_EM_REL_MASK =? 0) = (rel =? 0) /\
  relation_text (row_flags inv rel) =
    if rel =? TCF_EM_REL_AND then Some "AND " else if rel =? TCF_EM_REL_OR then Some "OR " else None.
Proof. intros [-> |[-> | ->]]; by destruct inv. Qed.

Section Shown.
Context (m : list Z) (tb : list (option Z)) (R : list row) (ds : list (list Z)).
Hypothesis HR : Forall2 row_data R ds.
Hypothesis Hok : Forall row_ok R.
Hypothesis Htb : table_of m tb ds.

#[local] Abbreviation shows := (print_ematch_seq map_file load behind).

(** What is printed behind a match. *)
Lemma shown_next fuel i prefix s inv rel next : rel_ok rel next ->
  (next <> EDone -> shows fuel m tb (Z.of_nat (S i) + 1) prefix = (SeqOk, tree_text prefix next)) ->
  match relation_text (row_flags inv rel) with
  | None => (SeqOk, s)
  | Some r => let '(e, t) := shows fuel m tb (Z.of_nat (S i) + 1) prefix in (e, s +:+ r +:+ t)
  end = (SeqOk, joined s rel (tree_text prefix next)).
Proof using.
  intros Hrel IH. assert (rel_range rel) as Hr by (destruct next; cbn in Hrel; unfold rel_range; tauto).
  destruct (flags_shown inv rel Hr) as (_ & _ & ->). unfold joined. destruct next; cbn in Hrel; [by rewrite Hrel|..];
    rewrite (IH ltac:(done)); by destruct Hrel as [-> | ->].
Qed.

Lemma seq_shown t : forall kb i prefix fuel, t <> EDone -> expr_ok t ->
  (forall j r, (rows kb t).1 !! j = Some r -> R !! (i + j)%nat = Some r) ->
  (forall j r, (rows kb t).2 !! j = Some r -> R !! (kb + j)%nat = Some r) -> (total t <= fuel)%nat ->
  shows fuel m tb (Z.of_nat (S i)) prefix = (SeqOk, tree_text prefix t).
Proof using HR Hok Htb.
  induction t as [|inv args rel next IH|inv child IHc rel next IHn]; [done| |]; intros kb i prefix fuel _ Hex Hs Hk Hf;
    (destruct fuel as [|fuel]; [cbn in Hf; lia|]); cbn [rows total] in *.
  - destruct Hex as (_ & Hrel & Hex). destruct (rows kb next) as [h k] eqn:Er. cbn [fst snd] in *.
    pose proof (Hs 0%nat _ eq_refl) as HRi. rewrite Nat.add_0_r in HRi.
    destruct (Forall2_lookup_l _ _ _ _ _ HR HRi) as (d & Ed & Hd). pose proof (Forall_lookup_1 _ _ _ _ Hok HRi) as [_ Hrr].
    destruct (Htb i d Ed) as (o & Eo & Ho & Hpl & Hld). destruct Hd as (num & u & x & t & -> & Hnum & Hu & Htext & Hprint).
    cbn [print_ematch_seq tree_text]. rewrite (proj2 (Z.ltb_ge (Z.of_nat (S i)) 0)), Nat2Z.id, Eo by lia.
    rewrite length_app, emhdr_length in Hpl. rewrite Hpl. unfold EMHDR_SIZE.
    replace (Z.of_nat (8 + List.length x) - 8) with (Z.of_nat (List.length x)) by lia.
    rewrite (proj2 (Z.ltb_ge (Z.of_nat (List.length x)) 0)) by lia.
    apply emhdr_read in Hld as (H1 & H2 & H3); [|done|lia|by apply flags_range]. rewrite H1, H2.
    rewrite (proj2 (Z.eqb_neq num 0)) by lia. rewrite Hu, (Hprint m (RTA_DATA o + 8) ltac:(lia) H3). cbn [Z.ltb Z.compare].
    destruct (flags_shown inv rel Hrr) as (-> & -> & _). rewrite Htext.
    apply (shown_next fuel i prefix _ inv rel next Hrel). intros Hne.
    replace (Z.of_nat (S i) + 1) with (Z.of_nat (S (S i))) by lia. apply (IH kb); [done|done| | |lia].
    + intros j r Hj. rewrite Er in Hj. replace (S i + j)%nat with (i + S j)%nat by lia. by apply Hs.
    + intros j r Hj. rewrite Er in Hj. by apply Hk.
  - destruct Hex as (Hcd & Hexc & Hrel & Hex). destruct (rows (kb + sibs child) child) as [ch ck] eqn:Ec.
    destruct (rows (kb + total child) next) as [h k] eqn:En. cbn [fst snd] in *.
    pose proof (Hs 0%nat _ eq_refl) as HRi. rewrite Nat.add_0_r in HRi.
    destruct (Forall2_lookup_l _ _ _ _ _ HR HRi) as (d & Ed & Hd). pose proof (Forall_lookup_1 _ _ _ _ Hok HRi) as [Hrr Href].
    destruct (Htb i d Ed) as (o & Eo & Ho & Hpl & Hld). cbn [row_data] in Hd. subst d.
    cbn [print_ematch_seq tree_text]. rewrite (proj2 (Z.ltb_ge (Z.of_nat (S i)) 0)), Nat2Z.id, Eo by lia.
    rewrite length_app, emhdr_length, le_bytes_length in Hpl. rewrite Hpl. unfold EMHDR_SIZE.
    apply emhdr_read in Hld as (H1 & H2 & H3); [|done|lia|by apply flags_range]. rewrite H1, H2.
    change (Z.of_nat (8 + 4) - 8) with 4. cbn [Z.ltb Z.compare Pos.compare Pos.compare_cont Z.eqb].
    rewrite le_bytes_length in H3. change (Z.of_nat 4) with 4 in H3. rewrite H3, of_le_bytes_le.
    change (2 ^ (8 * Z.of_nat 4)) with (2 ^ 32). cbn [row_ok] in Href. rewrite (Z.mod_small (Z.of_nat kb)), s32_small by (unfold int_range, INT_MIN, INT_MAX; lia).
    replace (Z.of_nat kb + 1) with (Z.of_nat (S kb)) by lia.
    destruct (rows_length child (kb + sibs child)%nat) as [L1 L2]. rewrite Ec in L1, L2. cbn [fst snd] in L1, L2.
    rewrite (IHc (kb + sibs child)%nat kb (S prefix) fuel Hcd Hexc); [| | |lia].
    + destruct (flags_shown inv rel Hrr) as (-> & _ & _).
      apply (shown_next fuel i prefix _ inv rel next Hrel). intros Hne.
      replace (Z.of_nat (S i) + 1) with (Z.of_nat (S (S i))) by lia. apply (IHn (kb + total child)%nat); [done|done| | |lia].
      * intros j r Hj. rewrite En in Hj. replace (S i + j)%nat with (i + S j)%nat by lia. by apply Hs.
      * intros j r Hj. rewrite En in Hj. rewrite <- Nat.add_assoc. apply Hk. rewrite app_assoc, lookup_app_r by (rewrite length_app; lia).
        rewrite length_app. by replace (total child + j - _)%nat with j by lia.
    + intros j r Hj. rewrite Ec in Hj. apply Hk. by apply lookup_app_l_Some.
    + intros j r Hj. rewrite Ec in Hj. rewrite <- Nat.add_assoc. apply Hk. rewrite lookup_app_r by lia. apply lookup_app_l_Some.
      by replace (sibs child + j - List.length ch)%nat with j by lia.
Qed.
End Shown.

(** ** The whole *)

Lemma tokens_no_end t : Forall (fun tok => tok <> TEof) (tokens t).
Proof using.
  assert (forall inv, Forall (fun tok => tok <> TEof) (not_tokens inv)) as Hn by (intros []; repeat constructor; done).
  assert (forall rel, Forall (fun tok => tok <> TEof) (rel_tokens rel)) as Hr
    by (intros rel; unfold rel_tokens; repeat case_match; repeat constructor; done).
  induction t as [|inv args rel next IH|inv child IHc rel next IHn]; cbn [tokens]; [constructor| |].
  - apply Forall_app; split; [done|]. apply Forall_app; split; [|by apply Forall_app].
    destruct args as [|b l]; [constructor|]. constructor; [done|]. constructor; [done|]. apply Forall_app; split; [|by repeat constructor].
    apply Forall_map. by apply Forall_true.
  - apply Forall_app; split; [done|]. apply Forall_app; split; [|by apply Forall_app]. constructor; [done|].
    apply Forall_app; split; [done|by repeat constructor].
Qed.

Lemma lexes_size l : forall sc sc', lexes sc l sc' -> Forall (fun tok => tok <> TEof) l ->
  (List.length l + scan_size sc' <= scan_size sc)%nat.
Proof using.
  induction l as [|tok l IH]; intros sc sc' H Hl; inversion H as [|? ? sc1 ? ? E H']; subst; [done|].
  apply Forall_cons in Hl as [Ht Hl]. apply lex_size in E as [_ E]. specialize (E Ht). specialize (IH _ _ H' Hl). cbn. lia.
Qed.

(** The parser reads an expression up to the token behind it. *)
Lemma ematch_parse_ok argv t stop sc : lexes (scan_start argv) (tokens t ++ [stop]) sc -> stops stop -> t <> EDone -> expr_ok t ->
  exists a st sib kids, ematch_parse argv = Root (Some a) st sc /\ heap st (Some a) t sib kids /\ NoDup (sib ++ kids).
Proof using.
  intros Hl Hs Hne Hok. destruct (tokens t) as [|tok toks] eqn:Et; [by destruct (tokens_some t Hne Hok)|].
  pose proof (tokens_no_end t) as Hno. rewrite Et in Hno.
  pose proof Hl as Hl'. apply lexes_app in Hl' as (sc0 & Hl0 & _). pose proof (lexes_size _ _ _ Hl0 Hno) as Hsz.
  cbn [app] in Hl. inversion Hl as [|? ? sc1 ? ? E H']; subst. unfold ematch_parse. rewrite E.
  destruct (expr_parses t Hne Hok (S (scan_size (scan_start argv))) tok toks stop sc1 sc [] Et H' Hs) as (a & st & sib & kids & Ee & _ & _ & Hh & Hf & _);
    [rewrite Et; lia|].
  rewrite Ee. exists a, st, sib, kids. apply Forall_cons in Hno as [Hno _]. split; [by destruct tok|done].
Qed.

Lemma sibs_total t : (sibs t <= total t)%nat.
Proof using. destruct (rows_length t 0) as [L1 L2]. lia. Qed.

Lemma rows_ok t : forall kb, expr_ok t -> calls_ok t -> Z.of_nat kb + Z.of_nat (total t) - Z.of_nat (sibs t) < 2 ^ 31 - 1 ->
  Forall row_ok (rows kb t).1 /\ Forall row_ok (rows kb t).2.
Proof using.
  induction t as [|inv args rel next IH|inv child IHc rel next IHn]; intros kb Hok Hc Hb; cbn [rows total sibs] in *; [split; constructor| |].
  - destruct Hok as (_ & Hrel & Hok). destruct Hc as [Hc Hcs]. destruct (IH kb Hok Hcs ltac:(lia)) as [I1 I2].
    destruct (rows kb next) as [h k]. cbn [fst snd] in *. split; [|done]. constructor; [|done]. split; [done|].
    destruct next; cbn in Hrel; unfold rel_range; tauto.
  - destruct Hok as (_ & Hokc & Hrel & Hok). destruct Hc as [Hc Hcs]. pose proof (sibs_total child). pose proof (sibs_total next).
    destruct (IHc (kb + sibs child)%nat Hokc Hc ltac:(lia)) as [I1 I2]. destruct (IHn (kb + total child)%nat Hok Hcs ltac:(lia)) as [I3 I4].
    destruct (rows _ child) as [ch ck]. destruct (rows _ next) as [h k]. cbn [fst snd] in *.
    split; [|by repeat (apply Forall_app; split)]. constructor; [|done]. split; [|lia].
    destruct next; cbn in Hrel; unfold rel_range; tauto.
Qed.

Lemma layout_ok t : expr_ok t -> calls_ok t -> Z.of_nat (total t) < 2 ^ 16 - 1 -> Forall row_ok (layout t).
Proof using.
  intros Hok Hc Hb. destruct (rows_ok t (sibs t) Hok Hc ltac:(lia)) as [I1 I2]. unfold layout.
  destruct (rows (sibs t) t). by apply Forall_app.
Qed.

Lemma layout_length t : List.length (layout t) = total t.
Proof using. unfold layout. destruct (rows_length t (sibs t)) as [L1 L2]. destruct (rows (sibs t) t). rewrite length_app. exact L2. Qed.

(** The table of the list. *)
Lemma row_leaves_get ds : forall i k d, ds !! k = Some d -> tree_get (Z.of_nat (i + k)) (row_leaves i ds) = Some (Leaf (Z.of_nat (i + k)) d).
Proof using.
  induction ds as [|x ds IH]; intros i [|k] d Hd; try done; rewrite row_leaves_cons; cbn [tree_get tree_type].
  - injection Hd as ->. rewrite Nat.add_0_r. by rewrite Z.eqb_refl.
  - rewrite (proj2 (Z.eqb_neq _ _)) by lia. rewrite <- Nat.add_succ_comm. by apply IH.
Qed.

Lemma list_table m off ty ds max : tree_at m off (Nest ty (row_leaves 1 ds)) -> 0 <= off -> Z.of_nat (List.length ds) <= max ->
  table_of m (parse_rtattr_nested m max off).1 ds.
Proof using.
  intros Ht Ho Hmax k d Hd. pose proof (lookup_lt_Some _ _ _ Hd) as Hk.
  assert (Forall (fun t => 0 <= tree_type t) (row_leaves 1 ds)) as Hty.
  { unfold row_leaves. apply Forall_map. apply Forall_true. intros [j x]. cbn. lia. }
  pose proof (nest_get m max off ty _ (Z.of_nat (1 + k)) Ht Hty ltac:(lia) Ho) as H. rewrite (row_leaves_get ds 1 k d Hd) in H.
  destruct H as (o & Eo & Hoff & (A1 & A2 & A3)). exists o. rewrite Nat2Z.id in Eo. split.
  - rewrite <- Eo. apply list_lookup_lookup_total_lt. rewrite parse_length. lia.
  - unfold RTA_DATA, RTA_PAYLOAD, RTA_LENGTH. change (RTA_ALIGN 4 + 0) with 4. rewrite A1. split; [lia|]. split; [lia|exact A3].
Qed.

(** What is sent of an expression. *)
Definition ematch_nest (tca_id : Z) (t : etree) (ds : list (list Z)) : atree :=
  Nest tca_id [Leaf TCA_EMATCH_TREE_HDR (tree_hdr_bytes (Z.of_nat (total t))); Nest TCA_EMATCH_TREE_LIST (row_leaves 1 ds)].

Definition ematch_span (t : etree) : Z := 8 + (4 + rows_size (layout t)).

(** The nest around a tree that has been parsed. *)
Lemma nest_sent n tca_id t es ds0 : 0 <= tca_id < 2 ^ 16 -> Forall2 row_is es (layout t) -> Forall row_ok (layout t) ->
  room_for n MAX_MSG (4 + ematch_span t) -> Z.of_nat (total t) < 2 ^ 16 - 1 -> ds0 = tree_hdr_bytes (Z.of_nat (total t)) ->
  let n1 := (addattr_l n MAX_MSG tca_id []).2 in
  let n2 := (addattr_l n1 MAX_MSG TCA_EMATCH_TREE_HDR ds0).2 in
  let n3 := (addattr_l n2 MAX_MSG TCA_EMATCH_TREE_LIST []).2 in
  exists n4 ds, parse_tree map_file load behind buf es 1 n3 = EmAdded n4 /\ Forall2 row_data (layout t) ds /\
    after n (close_nest (NLMSG_TAIL n) (close_nest (NLMSG_TAIL n2) n4)) [ematch_nest tca_id t ds].
Proof using.
  intros Hid Hes Hok Hroom Ht -> n1 n2 n3. unfold ematch_span in Hroom. pose proof (rows_size_pos _ Hok) as Hp.
  destruct (open_tail n tca_id _ Hid Hroom ltac:(lia)) as (O1 & O2 & O3). fold n1 in O1, O2, O3.
  assert (after n1 n2 [Leaf TCA_EMATCH_TREE_HDR (tree_hdr_bytes (Z.of_nat (total t)))]) as A2.
  { apply (after_appends MAX_MSG (fun n => (addattr_l n MAX_MSG TCA_EMATCH_TREE_HDR (tree_hdr_bytes (Z.of_nat (total t)))).2));
      [by apply appends_leaf|eapply room_less; [exact O3|change (tspan _) with 8; lia]]. }
  pose proof A2 as (_ & T2 & T3 & T4 & _). change (tspan _) with 8 in T2.
  assert (room_for n2 MAX_MSG (4 + rows_size (layout t))) as R2 by (eapply room_after; [exact O3|done..]).
  destruct (open_tail n2 TCA_EMATCH_TREE_LIST _ ltac:(done) R2 Hp) as (O4 & O5 & O6). fold n3 in O4, O5, O6.
  destruct (parse_tree_ok es (layout t) 1 n3 Hes Hok O6 ltac:(rewrite layout_length; lia)) as (n4 & ds & E & A4 & Hds & Es).
  exists n4, ds. split; [exact E|]. split; [done|]. rewrite <- Es in R2.
  pose proof (after_nest n2 TCA_EMATCH_TREE_LIST (row_leaves 1 ds) n4 ltac:(done) R2 A4) as A5.
  apply after_nest; [done| |].
  - change (tspan [?a; ?b]) with (8 + (tspan1 b + 0)). cbn [tspan]. rewrite tspan_nest. eapply room_less; [exact Hroom|].
    change (tspan1 (Leaf TCA_EMATCH_TREE_HDR (tree_hdr_bytes (Z.of_nat (total t))))) with 8. lia.
  - apply (after_seq n1 n2 _ [_] [_]); [by destruct O3|done|done].
Qed.

(** What is shown of it. *)
Lemma nest_shown m off tca_id t ds : tree_at m off (ematch_nest tca_id t ds) -> 0 <= off -> t <> EDone -> expr_ok t ->
  Forall row_ok (layout t) -> Forall2 row_data (layout t) ds -> Z.of_nat (total t) < 2 ^ 16 - 1 ->
  print_ematch map_file load behind m off = (SeqOk, newline +:+ "  " +:+ tree_text 1 t).
Proof using.
  intros Htree Ho Hne Hex Hok Hds Ht. unfold print_ematch, ematch_nest in *.
  assert (Forall (fun t => 0 <= tree_type t) [Leaf TCA_EMATCH_TREE_HDR (tree_hdr_bytes (Z.of_nat (total t)));
    Nest TCA_EMATCH_TREE_LIST (row_leaves 1 ds)]) as Hty by (by repeat constructor).
  pose proof (nest_get m TCA_EMATCH_TREE_MAX off _ _ TCA_EMATCH_TREE_HDR Htree Hty ltac:(done) Ho) as (o1 & -> & Ho1 & (A1 & _ & A3)).
  pose proof (nest_get m TCA_EMATCH_TREE_MAX off _ _ TCA_EMATCH_TREE_LIST Htree Hty ltac:(done) Ho) as (o2 & -> & Ho2 & A4).
  unfold RTA_PAYLOAD, RTA_DATA, RTA_LENGTH. change (RTA_ALIGN 4 + 0) with 4. rewrite A1.
  change (4 + Z.of_nat (List.length (tree_hdr_bytes (Z.of_nat (total t)))) - 4 <? 4) with false. cbv iota.
  assert (0 < total t)%nat as Hpos by (destruct t; [done|cbn; lia..]).
  apply load_split16 in A3 as [-> _]; [|lia|lia].
  unfold print_ematch_list. rewrite (proj2 (Z.ltb_lt 0 _)) by lia. rewrite Nat2Z.id.
  assert (List.length ds = total t) as El by (rewrite <- (Forall2_length _ _ _ Hds); apply layout_length).
  pose proof (list_table m o2 _ ds (Z.of_nat (total t)) A4 ltac:(lia) ltac:(lia)) as Htb.
  pose proof (seq_shown m _ (layout t) ds Hds Hok Htb t (sibs t) 0 1 (S (total t)) Hne Hex) as Hseq.
  change (Z.of_nat 1) with 1 in Hseq. rewrite Hseq; [done| | |lia];
    unfold layout; destruct (rows_length t (sibs t)) as [L1 L2]; destruct (rows (sibs t) t) as [h k]; cbn [fst snd] in *; intros j r Hj.
  - by apply lookup_app_l_Some.
  - rewrite lookup_app_r by lia. by replace (sibs t + j - List.length h)%nat with j by lia.
Qed.
End Trip.

