(* ===== verification/TcEmodFacts.v ===== *)
(** * Extended matches: the modules keep what they promise

    Arguments a module accepts are sent as data from which the module shows them; and what the
    word of u32 selects in a packet is the field that was named. *)

From S2P Require Export TcEmatchTrip.

#[local] Open Scope list_scope.

(** ** Numbers *)

Lemma bstrtoul_range a v : bstrtoul a = Some v -> 0 <= v < 2 ^ 64.
Proof.
  unfold bstrtoul. destruct (strtoul (b_data a) 0) as [[l r]|] eqn:E; [|done]. destruct (l =? ULONG_MAX); [done|]. intros [= <-].
  unfold strtoul in E. destruct (scan_int 0 (b_data a)) as [[[neg m] rest]|]; [|done]. injection E as <- _.
  destruct (ULONG_MAX <? m); [done|]. unfold u64. by apply Z.mod_pos_bound.
Qed.

Lemma layer_arg_range a v : layer_arg a = Some v -> 0 <= v <= 2.
Proof.
  unfold layer_arg, parse_layer. destruct (b_cstr a) as [|c s].
  2: destruct (Ascii.eqb c "l"); [by intros [= <-]|]; destruct (Ascii.eqb c "n"); [by intros [= <-]|];
     destruct (Ascii.eqb c "t"); [by intros [= <-]|].
  all: destruct (bstrtoul a) as [l|] eqn:E; [|done]; apply bstrtoul_range in E; unfold TCF_LAYER_MAX;
     destruct (Z.ltb_spec 2 l); [done|]; intros [= <-]; lia.
Qed.

Lemma opnd_arg_range a v : opnd_arg a = Some v -> 0 <= v <= 2.
Proof. unfold opnd_arg. repeat case_match; by intros [= <-]. Qed.

(** ** cmp *)

Module CmpFacts.
Import Cmp.

Record cmp_wf (c : tcf_em_cmp) : Prop := {
  cw_val : word32 (cm_val c);
  cw_mask : word32 (cm_mask c);
  cw_off : 0 <= cm_off c < 2 ^ 16;
  cw_align : 0 <= cm_align c < 16;
  cw_flags : 0 <= cm_flags c < 16;
  cw_layer : 0 <= cm_layer c < 16;
  cw_opnd : 0 <= cm_opnd c < 16
}.

Definition words_ok (w : words) : Prop := 0 <= w_layer w <= 2 /\ 0 <= w_opnd w <= 2.

Lemma cmp_words_ok l : forall w w', words_ok w -> cmp_words l w = Some w' -> words_ok w'.
Proof.
  assert (forall k l w w', (List.length l < k)%nat -> words_ok w -> cmp_words l w = Some w' -> words_ok w') as H; [|by intros; eapply (H (S (List.length l))); eauto].
  clear l. induction k as [|k IH]; intros l w w' Hk Hw; [lia|]. destruct l as [|a l]; cbn [cmp_words]; [by intros [= <-]|].
  cbn in Hk. pose proof Hw as [H1 H2].
  repeat match goal with |- (if ?b then _ else _) = _ -> _ => destruct b end;
    try (destruct l as [|v l]; [done|]; cbn in Hk; destruct (bstrtoul v) as [z|]; [|done]; apply (IH l); [lia|done]).
  - destruct l as [|v l]; [done|]. cbn in Hk. destruct (layer_arg v) as [z|] eqn:E; [|done]. apply layer_arg_range in E.
    apply (IH l); [lia|]. by split.
  - apply (IH l); [lia|done].
  - destruct (opnd_arg a) as [op|] eqn:E; [|done]. apply opnd_arg_range in E. destruct l as [|v l]; [done|]. cbn in Hk.
    destruct (bstrtoul v) as [z|]; [|done]. apply (IH l); [lia|]. by split.
Qed.

Lemma cmp_of_args_wf args c : cmp_of_args args = Some c -> cmp_wf c.
Proof.
  unfold cmp_of_args. destruct args as [|a l]; [done|]. destruct (align_arg a) as [al|] eqn:Ea; [|done].
  destruct (cmp_words l _) as [[off layer mask val opnd trans]|] eqn:Ew; [|done]. destruct off as [off|]; [|done].
  destruct val as [val|]; [|done]. intros [= <-]. apply cmp_words_ok in Ew as [H1 H2]; [|done]. cbn in H1, H2.
  constructor; cbn; try (by apply Z.mod_pos_bound); [|by destruct trans|lia|lia].
  unfold align_arg in Ea. repeat case_match; try done; by injection Ea as <-.
Qed.

Lemma cmp_bytes_ok c : cmp_wf c -> cmp_of_bytes (cmp_bytes c) = c.
Proof.
  intros [W1 W2 W3 W4 W5 W6 W7]. unfold cmp_of_bytes.
  change (load_bytes (cmp_bytes c) 0 4) with (le_bytes 4 (cm_val c)). change (load_bytes (cmp_bytes c) 4 4) with (le_bytes 4 (cm_mask c)).
  change (load_bytes (cmp_bytes c) 8 2) with (le_bytes 2 (cm_off c)).
  change (load_bytes (cmp_bytes c) 10 1) with [cm_align c + 16 * cm_flags c].
  change (load_bytes (cmp_bytes c) 11 1) with [cm_layer c + 16 * cm_opnd c].
  rewrite !of_le_bytes_le. change (2 ^ (8 * Z.of_nat 4)) with (2 ^ 32). change (2 ^ (8 * Z.of_nat 2)) with (2 ^ 16).
  rewrite !Z.mod_small by done. cbn [of_le_bytes]. unfold low4, high4. rewrite !Z.mul_0_r, !Z.add_0_r.
  destruct c as [val mask off al fl la op]. cbn in *. f_equal; Z.div_mod_to_equations; lia.
Qed.

(** Accepted arguments are shown with the values they were read as. *)
Lemma cmp_accepted args c : cmp_of_args args = Some c -> em_accepts cmp_ematch_util args 12 (cmp_text c).
Proof.
  intros E. apply (pieces_accepted cmp_ematch_util args [cmp_bytes c]).
  - intros n hdr. cbn. unfold cmp_parse_eopt. by rewrite E.
  - intros m off Ho. cbn [map concat]. rewrite app_nil_r, padded_aligned by done. intros H.
    change (Z.of_nat (List.length (cmp_bytes c))) with CMP_SIZE in *. change (em_print_eopt cmp_ematch_util) with cmp_print_eopt.
    unfold cmp_print_eopt. change (CMP_SIZE <? CMP_SIZE) with false. cbv iota. rewrite H. by rewrite cmp_bytes_ok by (by eapply cmp_of_args_wf).
Qed.
End CmpFacts.

(** ** nbyte *)

Module NbyteFacts.
Import Nbyte.

Lemma nbyte_words_layer l : forall offset layer o y, 0 <= layer <= 2 -> nbyte_words l offset layer = Some (o, y) -> 0 <= y <= 2.
Proof.
  assert (forall k l offset layer o y, (List.length l < k)%nat -> 0 <= layer <= 2 -> nbyte_words l offset layer = Some (o, y) ->
    0 <= y <= 2) as H; [|by intros; eapply (H (S (List.length l))); eauto].
  clear l. induction k as [|k IH]; intros l offset layer o y Hk Hl; [lia|].
  destruct l as [|a l]; cbn [nbyte_words]; [by intros [= _ <-]|]. cbn in Hk. destruct (bstreq a "at").
  - destruct l as [|v l]; [done|]. cbn in Hk. destruct (bstrtoul v) as [z|]; [|done]. apply IH; [lia|done].
  - destruct (bstreq a "layer"); [|done]. destruct l as [|v l]; [done|]. cbn in Hk.
    destruct (layer_arg v) as [z|] eqn:E; [|done]. apply layer_arg_range in E. by apply IH; [lia|].
Qed.

(** The bytes are shown, as many of them as fit the 12 bits of the length. *)
Lemma nbyte_accepted args nb data : nbyte_of_args args = Some (nb, data) -> 
  em_accepts nbyte_ematch_util args (4 + RTA_ALIGN (Z.of_nat (List.length data)))
    (nbyte_text nb (take (Z.to_nat (Z.of_nat (List.length data) mod 4096)) data)).
Proof.
  intros E. pose proof (RTA_ALIGN_bounds (Z.of_nat (List.length data))) as Hb.
  assert (nb_len nb = Z.of_nat (List.length data) mod 4096 /\ 0 <= nb_off nb < 2 ^ 16 /\ 0 <= nb_layer nb <= 2) as (W1 & W2 & W3).
  { unfold nbyte_of_args in E. destruct args as [|a l]; [done|]. destruct (_ =? 0); [done|].
    destruct (nbyte_words l None TCF_LAYER_NETWORK) as [[[off|] layer]|] eqn:El; [|done..]. injection E as <- <-.
    apply nbyte_words_layer in El; [|done]. cbn. split; [done|]. split; [by apply Z.mod_pos_bound|done]. }
  replace (4 + RTA_ALIGN (Z.of_nat (List.length data))) with (pieces_size [nbyte_bytes nb; data])
    by (cbn [pieces_size foldr]; change (RTA_ALIGN (Z.of_nat (List.length (nbyte_bytes nb)))) with 4; lia).
  apply pieces_accepted.
  - intros n hdr. cbn. unfold nbyte_parse_eopt. by rewrite E.
  - intros m off Ho. cbn [map concat]. rewrite app_nil_r, (padded_aligned (nbyte_bytes nb)) by done. intros H.
    pose proof (Z.mod_pos_bound (Z.of_nat (List.length data)) 4096 ltac:(lia)) as Hm.
    pose proof (Z.mod_le (Z.of_nat (List.length data)) 4096 ltac:(lia) ltac:(lia)) as Hle.
    pose proof (padding_length data) as Hp. rewrite length_app. change (List.length (nbyte_bytes nb)) with 4%nat.
    apply load_split in H as [H1 H2]; [|done]. change (Z.of_nat (List.length (nbyte_bytes nb))) with NBYTE_SIZE in H1, H2.
    change (em_print_eopt nbyte_ematch_util) with nbyte_print_eopt. unfold nbyte_print_eopt. rewrite H1.
    assert (nbyte_of_bytes (nbyte_bytes nb) = nb) as ->.
    { unfold nbyte_of_bytes. change (load_bytes (nbyte_bytes nb) 2 2) with (le_bytes 2 (nb_len nb + 4096 * nb_layer nb)).
      change (load_bytes (nbyte_bytes nb) 0 2) with (le_bytes 2 (nb_off nb)). rewrite !of_le_bytes_le.
      change (2 ^ (8 * Z.of_nat 2)) with (2 ^ 16). rewrite !Z.mod_small by lia. destruct nb as [o l y]. cbn in *.
      f_equal; Z.div_mod_to_equations; lia. }
    unfold NBYTE_SIZE in *. rewrite W1.
    rewrite (proj2 (Z.ltb_ge _ 4)) by lia. rewrite (proj2 (Z.ltb_ge _ (4 + _))) by lia. do 2 f_equal.
    unfold load_bytes in *. rewrite Nat2Z.id in H2.
    assert (take (Z.to_nat (Z.of_nat (List.length data) mod 4096)) (padded data) = take (Z.to_nat (Z.of_nat (List.length data) mod 4096)) data) as <-.
    { unfold padded. by rewrite take_app_le by lia. }
    rewrite <- H2 at 1. rewrite take_take. f_equal. lia.
Qed.
End NbyteFacts.

(** ** u32 *)

Module Emu32Facts.
Import Emu32.

Definition ukey_wf (k : tc_u32_key) : Prop :=
  word32 (uk_mask k) /\ word32 (uk_val k) /\ - 2 ^ 31 <= uk_off k < 2 ^ 31 /\ - 2 ^ 31 <= uk_offmask k < 2 ^ 31.

Lemma ukey_bytes_ok k : ukey_wf k -> ukey_of_bytes (key_bytes k) = k.
Proof.
  intros (W1 & W2 & W3 & W4). unfold ukey_of_bytes.
  change (load_bytes (key_bytes k) 0 4) with (le_bytes 4 (uk_mask k)). change (load_bytes (key_bytes k) 4 4) with (le_bytes 4 (uk_val k)).
  change (load_bytes (key_bytes k) 8 4) with (le_bytes 4 (uk_off k)). change (load_bytes (key_bytes k) 12 4) with (le_bytes 4 (uk_offmask k)).
  rewrite !of_le_bytes_le. change (2 ^ (8 * Z.of_nat 4)) with (2 ^ 32). fold (u32 (uk_off k)). fold (u32 (uk_offmask k)).
  rewrite !s32_u32, !s32_small, !Z.mod_small by done. by destruct k.
Qed.

Lemma u32_of_args_wf behind args k : u32_of_args behind args = Some k -> ukey_wf k.
Proof.
  unfold u32_of_args. repeat case_match; try done; intros [= <-]; cbn;
    (split; [apply ntohl_range|]; split; [|split; [apply s32_range|done]]); apply word32_land; apply ntohl_range.
Qed.

Lemma u32_accepted behind args k : u32_of_args behind args = Some k -> em_accepts (u32_ematch_util behind) args 16 (u32_text k).
Proof.
  intros E. apply (pieces_accepted (u32_ematch_util behind) args [key_bytes k]).
  - intros n hdr. cbn. unfold u32_parse_eopt. by rewrite E.
  - intros m off Ho. cbn [map concat]. rewrite app_nil_r, padded_aligned by done. intros H.
    change (Z.of_nat (List.length (key_bytes k))) with UKEY_SIZE in *. change (em_print_eopt (u32_ematch_util behind)) with u32_print_eopt.
    unfold u32_print_eopt. change (UKEY_SIZE <? UKEY_SIZE) with false. cbv iota. rewrite H.
    by rewrite ukey_bytes_ok by (by eapply u32_of_args_wf).
Qed.

(** The key that is sent of a field of [n] bytes. *)
Definition field_key (n : nat) (key mask offset offmask : Z) : option tc_u32_key :=
  match place_key (Z.of_nat n) key mask offset with
  | Some (key, mask, offset) =>
      Some (mk_ukey (ntohl (u32 mask)) (Z.land (ntohl (u32 key)) (ntohl (u32 mask))) (s32 offset) offmask)
  | None => None
  end.

Lemma args_field behind a k v o rest key mask n offset nh :
  align_arg a = Some (Z.of_nat n) -> bstrtoul k = Some key -> bstrtoul v = Some mask ->
  offset_arg behind o rest = Some (offset, nh, []) ->
  u32_of_args behind (a :: k :: v :: mk_emarg "at" false "at" :: o :: rest) = field_key n key mask offset (if nh then - 1 else 0).
Proof.
  intros E1 E2 E3 E4. unfold u32_of_args, field_key. rewrite E1, E2, E3, E4. cbn [bstreq b_data]. 
  by destruct (place_key (Z.of_nat n) key mask offset) as [[[? ?] ?]|].
Qed.

Lemma land_start offset : 0 <= offset -> Z.land offset (Z.lnot 3) + offset mod 4 = offset /\ Z.land offset 3 = offset mod 4.
Proof.
  intros Ho. assert (Z.land offset 3 = offset mod 4) as E by (change 3 with (Z.ones 2); by rewrite Z.land_ones by lia).
  split; [|done]. rewrite <- Z.ldiff_land. change 3 with (Z.ones 2). rewrite Z.ldiff_ones_r, Z.shiftl_mul_pow2, Z.shiftr_div_pow2 by lia.
  change (2 ^ 2) with 4. Z.div_mod_to_equations. lia.
Qed.

(** The key of a field selects the packets in which the field, in the order of the network,
    agrees with the value under the mask; from the next header on where that was asked for. *)
Lemma field_key_selects n key mask offset offmask pkt nexthdr :
  placed n offset -> 0 <= offset < 2 ^ 31 -> packet pkt -> 0 <= key < 2 ^ (8 * Z.of_nat n) -> 0 <= mask < 2 ^ (8 * Z.of_nat n) ->
  exists k, field_key n key mask offset offmask = Some k /\
    (key_matches pkt nexthdr k <-> Z.land (field_at n pkt (offset + Z.land nexthdr offmask)) mask = Z.land key mask).
Proof.
  intros Hpl Hof Hp Hk Hm. unfold field_key. destruct (land_start offset ltac:(lia)) as [Es El]. pose proof (Z.mod_pos_bound offset 4 ltac:(lia)) as Hj.
  pose proof (Z.mod_le offset 4 ltac:(lia) ltac:(lia)) as Hle.
  assert (exists j start, (n + j <= 4)%nat /\ start + Z.of_nat j = offset /\ 0 <= start /\
    place_key (Z.of_nat n) key mask offset =
      Some (Z.shiftl key (8 * Z.of_nat (4 - n - j)), Z.shiftl mask (8 * Z.of_nat (4 - n - j)), start)) as (j & start & Hnj & Hst & Hs0 & ->).
  { unfold place_key. destruct Hpl as [-> |[[-> Hev]|[-> Hev]]].
    - exists (Z.to_nat (offset mod 4)), (Z.land offset (Z.lnot 3)). split; [lia|]. split; [lia|]. split; [lia|].
      change (Z.of_nat 1 =? 1) with true. cbv iota.
      rewrite (proj2 (Z.ltb_ge 0xFF key)), (proj2 (Z.ltb_ge 0xFF mask)) by lia. cbn [orb]. rewrite El.
      replace (24 - offset mod 4 * 8) with (8 * Z.of_nat (4 - 1 - Z.to_nat (offset mod 4))) by lia. done.
    - change (Z.of_nat 2 =? 1) with false. change (Z.of_nat 2 =? 2) with true. cbv iota.
      rewrite (proj2 (Z.ltb_ge 0xFFFF key)), (proj2 (Z.ltb_ge 0xFFFF mask)) by lia. cbn [orb]. rewrite El.
      assert (offset mod 4 = 0 \/ offset mod 4 = 2) as [E|E] by (Z.div_mod_to_equations; lia); rewrite E.
      + exists 0%nat, (Z.land offset (Z.lnot 3)). split; [lia|]. split; [lia|]. split; [lia|]. done.
      + exists 2%nat, (Z.land offset (Z.lnot 3)). split; [lia|]. split; [lia|]. split; [lia|]. by rewrite !Z.shiftl_0_r.
    - exists 0%nat, offset. change (Z.of_nat 4 =? 1) with false. change (Z.of_nat 4 =? 2) with false. cbv iota. rewrite Hev.
      split; [lia|]. split; [lia|]. split; [lia|]. by rewrite !Z.shiftl_0_r. }
  eexists. split; [reflexivity|]. unfold key_matches. cbn [uk_off uk_offmask uk_mask uk_val].
  rewrite (s32_small start) by lia.
  assert (forall v, 0 <= v < 2 ^ (8 * Z.of_nat n) -> u32 (Z.shiftl v (8 * Z.of_nat (4 - n - j))) = Z.shiftl v (8 * Z.of_nat (4 - n - j))) as Hu.
  { intros v Hv. apply u32_small. rewrite Z.shiftl_mul_pow2 by lia. split; [apply Z.mul_nonneg_nonneg; lia|].
    apply Z.lt_le_trans with (2 ^ (8 * Z.of_nat n) * 2 ^ (8 * Z.of_nat (4 - n - j))); [apply Z.mul_lt_mono_pos_r; lia|].
    rewrite <- Z.pow_add_r by lia. apply Z.pow_le_mono_r; lia. }
  rewrite !Hu by done. rewrite (field_in_word n j pkt (start + Z.land nexthdr offmask) key mask Hnj Hp Hk Hm).
  by replace (start + Z.land nexthdr offmask + Z.of_nat j) with (offset + Z.land nexthdr offmask) by lia.
Qed.


Definition tcp_packet (a : Z) : Z := if a =? 29 then 6 else 0.

End Emu32Facts.

(** ** meta *)

Module MetaFacts.
Import Meta.

Definition mval_wf (v : tcf_meta_val) : Prop := 0 <= mv_kind v < 2 ^ 16 /\ 0 <= mv_shift v < 2 ^ 8 /\ 0 <= mv_op v < 2 ^ 8.

Lemma mval_bytes_ok v rest : mval_wf v -> mval_of_bytes (load_bytes (mval_bytes v ++ rest) 0 4) = v.
Proof.
  intros (W1 & W2 & W3). unfold mval_of_bytes. change (load_bytes (load_bytes (mval_bytes v ++ rest) 0 4) 0 2) with (le_bytes 2 (mv_kind v)).
  change (load_bytes (load_bytes (mval_bytes v ++ rest) 0 4) 2 1) with (le_bytes 1 (mv_shift v)).
  change (load_bytes (load_bytes (mval_bytes v ++ rest) 0 4) 3 1) with (le_bytes 1 (mv_op v)). rewrite !of_le_bytes_le.
  change (2 ^ (8 * Z.of_nat 2)) with (2 ^ 16). change (2 ^ (8 * Z.of_nat 1)) with (2 ^ 8). rewrite !Z.mod_small by done. by destruct v.
Qed.

Lemma lor_bound n a b : 0 <= n -> 0 <= a < 2 ^ n -> 0 <= b < 2 ^ n -> 0 <= Z.lor a b < 2 ^ n.
Proof.
  intros Hn Ha Hb. assert (Z.lor a b = Z.land (Z.lor a b) (Z.ones n)) as ->.
  { by rewrite Z.land_lor_distr_l, !Z.land_ones, !Z.mod_small by done. }
  rewrite Z.land_ones by done. apply Z.mod_pos_bound. lia.
Qed.

Lemma type_range k : 0 <= TCF_META_TYPE k < 16.
Proof.
  unfold TCF_META_TYPE. rewrite Z.shiftr_land. change (Z.shiftr 0xf000 12) with (Z.ones 4). rewrite Z.land_ones by lia.
  by apply Z.mod_pos_bound.
Qed.

Lemma id_range k : 0 <= TCF_META_ID k < 2 ^ 11.
Proof. unfold TCF_META_ID. change 0x7ff with (Z.ones 11). rewrite Z.land_ones by lia. by apply Z.mod_pos_bound. Qed.

Lemma overwrite_wf v w : mval_wf v -> mval_wf (v <| mv_kind := overwrite_type v w |>).
Proof.
  intros (_ & W2 & W3). split; [|by split]. cbn. unfold overwrite_type, meta_kind. apply lor_bound; [done| |].
  - rewrite Z.shiftl_mul_pow2 by lia. pose proof (type_range (mv_kind w)). lia.
  - pose proof (id_range (mv_kind v)). lia.
Qed.

Lemma adopt_wf l r l' r' : mval_wf l -> mval_wf r -> adopt l r = Some (Some (l', r')) -> mval_wf l' /\ mval_wf r'.
Proof.
  intros Hl Hr. unfold adopt. repeat case_match; try done; intros [= <- <-]; split; try done; by apply overwrite_wf.
Qed.

Lemma shift_mask_wf l : forall obj dst rest obj' dst', mval_wf obj -> shift_mask l obj dst = Some (rest, obj', dst') -> mval_wf obj'.
Proof.
  assert (forall k l obj dst rest obj' dst', (List.length l < k)%nat -> mval_wf obj -> shift_mask l obj dst = Some (rest, obj', dst') ->
    mval_wf obj') as H; [|by intros; eapply (H (S (List.length l))); eauto].
  clear l. induction k as [|k IH]; intros l obj dst rest obj' dst' Hk Hw; [lia|].
  destruct l as [|a l]; cbn [shift_mask]; [by intros [= _ <- _]|]. cbn in Hk.
  destruct (bstreq a "shift"); [|destruct (bstreq a "mask"); [|by intros [= _ <- _]]];
    (destruct l as [|v l]; [done|]; cbn in Hk; destruct (bstrtoul v) as [z|]; [|done]; apply IH; [lia|]); [|done].
  destruct Hw as (W1 & _ & W3). split; [done|]. split; [by apply Z.mod_pos_bound|done].
Qed.

Lemma object_wf arg rest obj lf rest' obj' dst lf' : mval_wf obj -> (forall l, lf = Some l -> mval_wf l) ->
  parse_object arg rest obj lf = Object rest' obj' dst lf' -> mval_wf obj' /\ forall l, lf' = Some l -> mval_wf l.
Proof.
  intros Ho Hl. assert (forall k, 0 <= k < 2 ^ 16 -> mval_wf (obj <| mv_kind := k |>)) as Hk by (by destruct Ho as (_ & ? & ?)).
  unfold parse_object. destruct (b_quoted arg); [intros [= _ <- _ <-]; split; [by apply Hk|done]|].
  destruct (bstrtoul arg); [intros [= _ <- _ <-]; split; [by apply Hk|done]|].
  destruct (lookup_meta_entry arg) as [e|]; [|done]. set (kind := u16 _).
  specialize (Hk kind (Z.mod_pos_bound _ (2 ^ 16) eq_refl)). set (obj1 := obj <| mv_kind := kind |>) in *.
  destruct lf as [l|]; [destruct (adopt l obj1) as [[[l1 obj2]|]|] eqn:Ea; try done; apply adopt_wf in Ea as [A1 A2]; [|by apply Hl|done]|];
    (destruct (shift_mask _ _ _) as [[[r o] d]|] eqn:Es; [|done]; intros [= _ <- _ <-]; split; [by eapply shift_mask_wf|]).
  - by intros ? [= <-].
  - done.
Qed.

Lemma opnd_wf v o op : mval_wf v -> opnd_arg o = Some op -> mval_wf (v <| mv_op := op |>).
Proof.
  intros (W1 & W2 & _) E. apply opnd_arg_range in E. split; [exact W1|]. split; [exact W2|]. change (0 <= op < 2 ^ 8). lia.
Qed.

Lemma meta_args_wf args l r lv rv : meta_of_args args = MetaOf l r lv rv -> mval_wf l /\ mval_wf r.
Proof.
  unfold meta_of_args. destruct args as [|a rest]; [done|]. destruct (bstreq a "list"); [done|].
  destruct (parse_object a rest _ None) as [[|o rest1] lf lvalue ?| |] eqn:E1; try done.
  apply object_wf in E1 as [W1 _]; [|done|done]. destruct (opnd_arg o) as [op|] eqn:Eo; [|done].
  destruct rest1 as [|a2 rest2]; [done|]. pose proof (opnd_wf lf o op W1 Eo) as Wl.
  destruct (parse_object a2 rest2 _ _) as [[|] rt rvalue l'| |] eqn:E2; try done. intros [= <- <- _ _].
  apply object_wf in E2 as [W2 W3]; [|done|by intros ? [= <-]]. split; [|done]. destruct l' as [l'|]; cbn; [by apply W3|done].
Qed.

(** ** The attributes, wherever they are *)

(** The same bytes at another place hold the same leaves. *)
Lemma leaves_moved m off m' off' size l : load_bytes m off size = load_bytes m' off' size -> 0 <= off -> 0 <= off' ->
  all_leaves l -> forall o, 0 <= o -> o + tspan l <= size -> trees_at m' (off' + o) l -> trees_at m (off + o) l.
Proof.
  intros E H0 H0' Hl. assert (forall o k, 0 <= o -> 0 <= k -> o + k <= size -> load_bytes m (off + o) k = load_bytes m' (off' + o) k) as Hs.
  { intros o k ? ? ?. rewrite (load_load m off size), (load_load m' off' size) by lia. by rewrite E. }
  induction Hl as [|t l (ty & d & -> & Hty) Hl IH]; intros o Ho Hsz; [done|]. cbn [trees_at tspan tspan1] in *.
  pose proof (tspan_bounds l). pose proof (attr_span_bounds d). intros [(A1 & A2 & A3) Hrest]. split.
  - split_and!.
    + revert A1. unfold rta_len, load16. by rewrite Hs by lia.
    + revert A2. unfold rta_type, load16. by rewrite <- !Z.add_assoc, Hs by lia.
    + revert A3. by rewrite <- !Z.add_assoc, Hs by lia.
  - rewrite <- Z.add_assoc in *. apply IH; [lia|lia|done].
Qed.

(** What the table of a series of leaves gives of a type. *)
Lemma flat_leaf m max off l k : trees_at m off l -> all_leaves l -> 0 <= k <= max -> 0 <= off ->
  option_map (fun a => load_bytes m (RTA_DATA a) (RTA_PAYLOAD m a)) ((parse_rtattr m max off (tspan l)).1 !!! Z.to_nat k) = leaf_bytes k l /\
  forall a, (parse_rtattr m max off (tspan l)).1 !!! Z.to_nat k = Some a -> 0 <= RTA_DATA a.
Proof.
  intros Ht Hl Hk Ho. rewrite (parse_trees m max off l Ht). cbn [fst].
  rewrite table_find; [|done|by apply all_leaves_types|by rewrite length_replicate]. rewrite lookup_total_replicate_2 by lia.
  pose proof (find_get m k l off Ht) as Hf. unfold leaf_bytes. destruct (tree_get k l) as [t|] eqn:Eg; [|by rewrite Hf].
  destruct Hf as (o & -> & Hoff & Ha). assert (exists ty d, t = Leaf ty d) as (ty' & d & ->).
  { clear -Hl Eg. induction Hl as [|t' l (ty' & d & -> & _) _ IH]; cbn [tree_get] in Eg; [done|].
    destruct (_ =? k); [injection Eg as <-; eauto|auto]. }
  destruct Ha as (L & _ & D). cbn [option_map]. change (RTA_DATA o) with (o + 4). unfold RTA_PAYLOAD. rewrite L. change (RTA_LENGTH 0) with 4.
  replace (4 + Z.of_nat (List.length d) - 4) with (Z.of_nat (List.length d)) by lia. rewrite D. split; [done|]. intros a [= <-]. unfold RTA_DATA, RTA_LENGTH.
  change (RTA_ALIGN 4) with 4. lia.
Qed.

(** What is shown of what is sent. *)
Definition attrs_text (l r : tcf_meta_val) (attrs : list (Z * Z * list Z)) : Z * string :=
  meta_text l r (leaf_bytes TCA_EM_META_LVALUE (leaves attrs)) (leaf_bytes TCA_EM_META_RVALUE (leaves attrs)).

Lemma attrs_shape l r lv rv attrs : meta_attrs l r lv rv = Some attrs ->
  same_bound MAX_MSG attrs = attrs /\ Forall (fun '(_, t, _) => 0 <= t < 2 ^ 16) attrs /\ all_leaves (leaves attrs) /\
  leaf_bytes TCA_EM_META_HDR (leaves attrs) = Some (mval_bytes l ++ mval_bytes r).
Proof.
  unfold meta_attrs. destruct (dump_value _ lv l) as [a|] eqn:El; [|done]. destruct (dump_value _ rv r) as [b|] eqn:Er; [|done].
  assert (forall tlv v h x, 0 < tlv < 2 ^ 16 -> dump_value tlv v h = Some x -> same_bound MAX_MSG x = x /\
    Forall (fun '(_, t, _) => 0 <= t < 2 ^ 16) x) as Hd.
  { intros tlv v h x Ht E. unfold dump_value in E. repeat case_match; try done; injection E as <-; (split; [done|]); repeat constructor; lia. }
  apply Hd in El as [E1 F1]; [|done]. apply Hd in Er as [E2 F2]; [|done]. intros [= <-].
  assert (Forall (fun '(_, t, _) => 0 <= t < 2 ^ 16) ((MAX_MSG, TCA_EM_META_HDR, mval_bytes l ++ mval_bytes r) :: a ++ b)) as F
    by (constructor; [done|by apply Forall_app]).
  split; [|split; [done|split; [|done]]].
  - cbn [same_bound map]. f_equal. unfold same_bound. rewrite map_app. unfold same_bound in E1, E2. by rewrite E1, E2.
  - apply Forall_map. eapply Forall_impl; [exact F|]. intros [[bd t] d] Ht. exists t, d. split; [done|lia].
Qed.

(** Both sides are shown from what is sent of them. *)
Lemma meta_accepted args l r lv rv attrs text :
  meta_of_args args = MetaOf l r lv rv -> meta_attrs l r lv rv = Some attrs -> attrs_text l r attrs = (0, text) ->
  em_accepts meta_ematch_util args (tspan (leaves attrs)) text.
Proof.
  intros E Ea Et. destruct (attrs_shape l r lv rv attrs Ea) as (Hb & Hty & Hal & Hhdr). pose proof (tspan_bounds (leaves attrs)) as Hs.
  destruct (meta_args_wf args l r lv rv E) as [Wl Wr].
  split; [lia|]. split; [lia|]. intros n hdr Hr. set (s := tspan (leaves attrs)) in *.
  destruct (add_pieces_ok [emhdr_bytes hdr] n) as (A1 & A2 & A3 & A4 & A5); [eapply room_less; [exact Hr|]; change (pieces_size [emhdr_bytes hdr]) with EMHDR_SIZE; lia|].
  cbn [map concat] in A1, A2. rewrite app_nil_r, padded_aligned in A1, A2 by done.
  change (Z.of_nat (List.length (emhdr_bytes hdr))) with 8 in A1, A2. set (n1 := add_pieces n [emhdr_bytes hdr]) in *.
  assert (room_for n1 MAX_MSG s) as Hr1 by (eapply (room_after n); [exact Hr|exact A2|done|done]).
  pose proof (bounded_appends MAX_MSG attrs Hty n1 Hr1) as (B1 & B2 & B3 & B4 & B5 & _). rewrite Hb in B1, B2, B3, B4, B5.
  fold s in B2. set (n2 := add_bounded attrs n1) in *.
  assert (0 <= NLMSG_TAIL n) as Ht by (pose proof (tail_bounds n); destruct Hr; lia).
  set (d := load_bytes (mem n2) (NLMSG_TAIL n1) s).
  assert (Z.of_nat (List.length d) = s) as Hd.
  { unfold d, load_bytes. rewrite length_take, length_drop, B4, A4. destruct Hr as [R0 R1 R2 R3]. unfold EMHDR_SIZE in *. lia. }
  exists n2, d. split; [cbn [em_parse_eopt meta_ematch_util]; unfold meta_parse_eopt; by rewrite E, Ea|].
  split; [|split; [exact Hd|]].
  - apply (raw_seq n n1 n2); [by destruct Hr|by split_and!|]. split_and!; try done; [by rewrite Hd|lia].
  - intros m off Ho Hm.
    assert (trees_at m off (leaves attrs)) as Hta.
    { rewrite <- (Z.add_0_r off). apply (leaves_moved m off (mem n2) (NLMSG_TAIL n1) s); [done|done|lia|done|done|fold s; lia|].
      by rewrite Z.add_0_r. }
    cbn [em_print_eopt meta_ematch_util]. unfold meta_print_eopt.
    destruct (flat_leaf m TCA_EM_META_MAX off (leaves attrs) TCA_EM_META_LVALUE Hta Hal ltac:(done) Ho) as [L _]. fold s in L.
    rewrite L.
    destruct (flat_leaf m TCA_EM_META_MAX off (leaves attrs) TCA_EM_META_RVALUE Hta Hal ltac:(done) Ho) as [R _]. fold s in R.
    rewrite R.
    destruct (flat_leaf m TCA_EM_META_MAX off (leaves attrs) TCA_EM_META_HDR Hta Hal ltac:(done) Ho) as [F1 F2]. rewrite Hhdr in F1.
    fold s in F1, F2. destruct ((parse_rtattr m TCA_EM_META_MAX off s).1 !!! Z.to_nat TCA_EM_META_HDR) as [a|] eqn:Eh; [|done].
    specialize (F2 a eq_refl). cbn [option_map] in F1. apply (inj Some) in F1.
    assert (RTA_PAYLOAD m a = 8 \/ RTA_PAYLOAD m a > 8) as Hp.
    { apply (f_equal (@List.length Z)) in F1. unfold load_bytes in F1. rewrite length_take in F1.
      assert (List.length (mval_bytes l ++ mval_bytes r) = 8%nat) as E8 by done.
      rewrite E8 in F1. lia. }
    rewrite (proj2 (Z.ltb_ge (RTA_PAYLOAD m a) META_HDR_SIZE)) by (unfold META_HDR_SIZE; lia).
    pose proof (load_load m (RTA_DATA a) (RTA_PAYLOAD m a) 0 4 F2 ltac:(lia) ltac:(lia) ltac:(lia)) as L1.
    pose proof (load_load m (RTA_DATA a) (RTA_PAYLOAD m a) 4 4 F2 ltac:(lia) ltac:(lia) ltac:(lia)) as L2. rewrite Z.add_0_r in L1.
    rewrite F1 in L1, L2. rewrite L1, L2, mval_bytes_ok by done.
    change (load_bytes (mval_bytes l ++ mval_bytes r) 4 4) with (mval_bytes r).
    replace (mval_of_bytes (mval_bytes r)) with r; [exact Et|]. symmetry. rewrite <- (mval_bytes_ok r [] Wr) at 2. by rewrite app_nil_r.
Qed.
End MetaFacts.

(** ** The modules linked into the program *)

(** The map knows the linked modules by their names and numbers. *)
Definition maps_linked (map_file : option string) (behind : string) : Prop :=
  Forall (fun u => lookup_map_id map_file (em_kind u) = Some (em_kind_num u) /\
    lookup_map map_file behind (em_kind_num u) = Some (em_kind u)) (linked_ematches behind).

(** The map of the distribution.  [iproute2-3.1.0/etc/iproute2/ematch_map:1-5 ematch_map] *)
Definition ematch_map : string :=
  "# lookup table for ematch kinds" +:+ newline +:+ "1	cmp" +:+ newline +:+ "2	nbyte" +:+ newline +:+ "3	u32" +:+ newline +:+
  "4	meta" +:+ newline.

Lemma ematch_map_linked behind : maps_linked (Some ematch_map) behind.
Proof. repeat constructor; reflexivity. Qed.

(** The size of the data of a call, and its text. *)
Definition call_shown (behind : string) (l : list em_arg) : option (Z * string) :=
  match l with
  | [] => None
  | k :: args =>
      if String.eqb (b_cstr k) "cmp" then option_map (fun c => (12, "cmp(" +:+ Cmp.cmp_text c)) (Cmp.cmp_of_args args)
      else if String.eqb (b_cstr k) "nbyte" then
        option_map (fun '(nb, data) => (4 + RTA_ALIGN (Z.of_nat (List.length data)), "nbyte(" +:+
          Nbyte.nbyte_text nb (take (Z.to_nat (Z.of_nat (List.length data) mod 4096)) data))) (Nbyte.nbyte_of_args args)
      else if String.eqb (b_cstr k) "u32" then
        option_map (fun k => (16, "u32(" +:+ Emu32.u32_text k)) (Emu32.u32_of_args behind args)
      else if String.eqb (b_cstr k) "meta" then
        match Meta.meta_of_args args with
        | Meta.MetaOf l r lv rv =>
            match Meta.meta_attrs l r lv rv with
            | Some attrs =>
                match MetaFacts.attrs_text l r attrs with (0, t) => Some (tspan (leaves attrs), "meta(" +:+ t) | _ => None end
            | None => None
            end
        | _ => None
        end
      else None
  end.

Lemma linked_call_ok map_file behind buf size text l sz t : maps_linked map_file behind ->
  call_shown behind (map (bstr_arg buf) l) = Some (sz, t) -> size l = sz -> text l = t ->
  call_ok map_file (load_ematch behind) behind buf size text l.
Proof.
  intros Hmap E <- <-. unfold call_shown in E. destruct (map (bstr_arg buf) l) as [|k args] eqn:El; [done|].
  assert (forall u t0, In u (linked_ematches behind) -> b_cstr k = em_kind u -> em_accepts u args (size l) t0 -> text l = em_kind u +:+ "(" +:+ t0 ->
    call_ok map_file (load_ematch behind) behind buf size text l) as H.
  { intros u t0 Hu Hk Ha Ht. pose proof (proj1 (List.Forall_forall _ _) Hmap u Hu) as [M1 M2].
    exists k, args, u, (em_kind_num u), t0. split; [done|]. rewrite Hk.
    assert (name_buffer behind 64 (em_kind u) = em_kind u /\ load_ematch behind (em_kind u) = Some u /\ 0 < em_kind_num u < 2 ^ 16) as (N1 & N2 & N3)
      by (repeat (destruct Hu as [<-|Hu]; [split; [reflexivity|]; split; [reflexivity|]; split; reflexivity|]); done).
    rewrite N1. unfold get_ematch_kind_num. rewrite M2. unfold get_ematch_kind. by repeat (split; [done|]). }
  repeat match type of E with (if String.eqb ?a ?b then _ else _) = _ => destruct (String.eqb_spec a b) as [Hk|_] end; [| | | |done].
  - destruct (Cmp.cmp_of_args args) as [c|] eqn:Ec; [|done]. injection E as E1 E2.
    apply (H Cmp.cmp_ematch_util (Cmp.cmp_text c)); [by left|done| |by rewrite <- E2]. rewrite <- E1. by apply CmpFacts.cmp_accepted.
  - destruct (Nbyte.nbyte_of_args args) as [[nb data]|] eqn:Ec; [|done]. injection E as E1 E2.
    eapply (H Nbyte.nbyte_ematch_util); [by right; left|done| |by rewrite <- E2]. rewrite <- E1. by apply NbyteFacts.nbyte_accepted.
  - destruct (Emu32.u32_of_args behind args) as [c|] eqn:Ec; [|done]. injection E as E1 E2.
    eapply (H (Emu32.u32_ematch_util behind)); [by do 2 right; left|done| |by rewrite <- E2]. rewrite <- E1. by apply Emu32Facts.u32_accepted.
  - destruct (Meta.meta_of_args args) as [lf r lv rv| |] eqn:Em; [|done..]. destruct (Meta.meta_attrs lf r lv rv) as [attrs|] eqn:Ea; [|done].
    destruct (MetaFacts.attrs_text lf r attrs) as [z t0] eqn:Et. destruct z; [|done..]. injection E as E1 E2.
    apply (H Meta.meta_ematch_util t0); [by do 3 right; left|done| |by rewrite <- E2]. rewrite <- E1. by eapply MetaFacts.meta_accepted.
Qed.

Definition sent_size (behind : string) (buf : strbuf) (l : list bstr) : Z := default 0 (fst <$> call_shown behind (map (bstr_arg buf) l)).
Definition sent_text (behind : string) (buf : strbuf) (l : list bstr) : string := default "" (snd <$> call_shown behind (map (bstr_arg buf) l)).

(** Every call of an expression is one of a linked module, which accepts it. *)
Fixpoint linked_calls (behind : string) (buf : strbuf) (t : etree) : bool :=
  match t with
  | EDone => true
  | ECall _ l _ next => bool_decide (is_Some (call_shown behind (map (bstr_arg buf) l))) && linked_calls behind buf next
  | EGroup _ child _ next => linked_calls behind buf child && linked_calls behind buf next
  end.

Lemma linked_calls_ok map_file behind buf t : maps_linked map_file behind -> linked_calls behind buf t = true ->
  calls_ok map_file (load_ematch behind) behind buf (sent_size behind buf) (sent_text behind buf) t.
Proof.
  intros Hmap. induction t as [|inv l rel next IH|inv child IHc rel next IHn]; cbn [linked_calls calls_ok]; [done| |];
    intros [H1 H2]%andb_prop; (split; [|by auto]); [|by auto].
  apply bool_decide_eq_true in H1 as [[sz t] E]. by eapply linked_call_ok; [done|exact E|unfold sent_size; by rewrite E|unfold sent_text; by rewrite E].
Qed.

(** ** An expression of every module, with a group *)

Definition demo_words : list string :=
  ["cmp(u16"; "at"; "2"; "layer"; "transport"; "gt"; "1023)"; "and"; "not"; "(u32(u8"; "0x06"; "0xff"; "at"; "9)"; "OR";
   "meta(dev"; "shift"; "1"; "eq"; "2))"; "flowid"; "1:1"].

Definition demo_tree : etree :=
  ECall false (map TcEmatch.Text ["cmp"; "u16"; "at"; "2"; "layer"; "transport"; "gt"; "1023"]) TCF_EM_REL_AND
    (EGroup true
      (ECall false (map TcEmatch.Text ["u32"; "u8"; "0x06"; "0xff"; "at"; "9"]) TCF_EM_REL_OR
        (ECall false (map TcEmatch.Text ["meta"; "dev"; "shift"; "1"; "eq"; "2"]) 0 EDone)) 0 EDone).

Definition demo_end : scanner := mk_scanner " " (Some "flowid") ["1:1"] (mk_strbuf [] 0 0).

Definition demo_text : string :=
  "cmp(u16 at 2 layer 2 gt 1023)" +:+ newline +:+ "  AND NOT (" +:+ newline +:+ "    u32(00060000/00ff0000 at 8)" +:+ newline +:+
  "    OR meta(dev shift 1 mask 0x00000000 eq 2)" +:+ newline +:+ "  ) ".

Example demo_shown : tree_text (sent_text "" (sc_buf demo_end)) 1 demo_tree = demo_text.
Proof. reflexivity. Qed.


(** ** Where the words mean something else *)

Definition quoted (s : string) : string := String quote (s +:+ String quote "").

(** A word in quotes is scanned as text, quotes and all: the rule for text matches more than
    the rule for a quote, unless a blank or a parenthesis follows it. *)
Lemma quoted_word_is_text :
  (ematch_lex (scan_start [quoted "eth0"])).1 = TAttr (TcEmatch.Text (quoted "eth0")) /\
  (ematch_lex (scan_start [quoted " eth0"])).1 = TAttr (TcEmatch.Quoted 5).
Proof. split; reflexivity. Qed.

(** Two strings of an expression are in one buffer: both are the later. *)
Lemma strings_share_buffer :
  let '(t1, sc1) := ematch_lex (scan_start [quoted " one"; quoted " two"]) in
  let '(t2, sc2) := ematch_lex sc1 in
  t1 = TAttr (TcEmatch.Quoted 4) /\ t2 = TAttr (TcEmatch.Quoted 4) /\
  b_data (bstr_arg (sc_buf sc1) (TcEmatch.Quoted 4)) = " one" /\ b_data (bstr_arg (sc_buf sc2) (TcEmatch.Quoted 4)) = " two".
Proof. repeat split; reflexivity. Qed.

(** A run that is longer than what is left of the buffer is written behind its end. *)
Lemma run_overruns c b : (sb_size b <= sb_index b)%nat -> strbuf_append_run true c b = None.
Proof. intros H. unfold strbuf_append_run. by rewrite (proj2 (Nat.leb_le _ _) H). Qed.

(** A match that ends the command gives its last word back to the classifier. *)
Lemma end_given_back load :
  exists n', parse_ematch (Some ematch_map) (load_ematch "") "" load ["cmp(u8"; "at"; "0"; "eq"; "1)"] 3 (mk_nlmsg 36 (replicate 100 0)) =
    AReturn 0 n' ["1)"].
Proof. eexists. reflexivity. Qed.

#[local] Abbreviation plain s := (mk_emarg s false s).

(** The offset of the next header is only counted from there where sign and number are one word,
    and the digits behind the sign are read on behind their copy. *)
Lemma nexthdr_apart behind : Emu32.offset_arg behind (plain "nexthdr+") [plain "4"] = Some (4, false, []) /\
  Emu32.offset_arg "7" (plain "nexthdr+1") [] = Some (17, true, []).
Proof. split; reflexivity. Qed.

(** Two bytes at an odd offset are taken from the end of the word. *)
Lemma odd_offset_moved key mask : Emu32.place_key 2 key mask 5 = Emu32.place_key 2 key mask 6 /\
  Emu32.place_key 2 key mask 7 = Emu32.place_key 2 key mask 6.
Proof. split; reflexivity. Qed.

(** Where the types do not agree, the search for a type runs on behind the text of the entry;
    on the right a string does not ask for its type, and the left stays a number. *)
Lemma meta_types :
  Meta.meta_of_args [mk_emarg " eth0" true " eth0"; plain "eq"; plain "random"] = Meta.WildMeta /\
  exists l r lv rv, Meta.meta_of_args [plain "dev"; plain "eq"; mk_emarg " eth0" true " eth0"] = Meta.MetaOf l r lv rv /\
    Meta.TCF_META_TYPE (Meta.mv_kind l) = Meta.TCF_META_TYPE_INT /\ Meta.TCF_META_TYPE (Meta.mv_kind r) = Meta.TCF_META_TYPE_VAR.
Proof. split; [reflexivity|]. do 4 eexists. repeat split; reflexivity. Qed.
