(* ===== verification/TcMonitor.v ===== *)
(** * The monitor, and the program with all its objects (iproute2-3.1.0/tc/tc_monitor.c)

    [tc monitor] listens to the changes of disciplines, classes, filters and actions, and
    prints each with the printer of its object; [tc_objects] closes the command table
    of [TcQdisc.do_cmd]. *)

From S2P Require Export TcClass TcAction.

#[local] Open Scope list_scope.

Section Monitor.
Context (env : tc_env).

#[local] Set Primitive Projections.

(** The text, the disciplines registered and the states of the filters and the actions. *)
Record monitor_state := mk_monitor {
  ms_out : string; ms_kinds : list tc_util; ms_filter : filter_state; ms_action : action_state
}.

#[local] Unset Primitive Projections.

Definition RTNLGRP_TC : Z := 4.
Definition NLMSG_NOOP : Z := 1.

(** [iproute2-3.1.0/include/utils.h:134-141 nl_mgrp] *)
Definition nl_mgrp (group : Z) : option Z :=
  if 31 <? group then None else Some (if group =? 0 then 0 else Z.shiftl 1 (group - 1)).

(** [%08d] of a number that is not negative. *)
Definition unknown_message (msg : list Z) : string :=
  "Unknown message: length " +:+ pad_left 8 (print_d (s32 (h_len msg 0))) +:+ " type " +:+
  pad_left 8 (print_x (h_type msg 0)) +:+ " flags " +:+ pad_left 8 (print_x (load16 msg 6)) +:+ newline.

(** The printers' results are not looked at.  [idx] and [cf] are what limits the listings
    of disciplines and classes.  [iproute2-3.1.0/tc/tc_monitor.c:38-65 accept_tcmsg] *)
Definition accept_tcmsg (links : ll_map) (idx : Z) (cf : class_filters) : @rtnl_filter_t monitor_state :=
  fun who msg s =>
    let type := h_type msg 0 in
    if (type =? RTM_NEWTFILTER) || (type =? RTM_DELTFILTER) then
      let '(out, f) := (print_filter env links who msg (ms_out s, ms_filter s)).2 in
      (0, mk_monitor out (ms_kinds s) f (ms_action s))
    else if (type =? RTM_NEWTCLASS) || (type =? RTM_DELTCLASS) then
      let '(out, kinds) := (print_class env links cf who msg (ms_out s, ms_kinds s)).2 in
      (0, mk_monitor out kinds (ms_filter s) (ms_action s))
    else if (type =? RTM_NEWQDISC) || (type =? RTM_DELQDISC) then
      let '(out, kinds) := (print_qdisc env links idx who msg (ms_out s, ms_kinds s)).2 in
      (0, mk_monitor out kinds (ms_filter s) (ms_action s))
    else if (type =? RTM_GETACTION) || (type =? RTM_NEWACTION) || (type =? RTM_DELACTION) then
      let '(out, a) := (print_action env who msg (ms_out s, ms_action s)).2 in
      (0, mk_monitor out (ms_kinds s) (ms_filter s) a)
    else if negb (type =? NLMSG_ERROR) && negb (type =? NLMSG_NOOP) && negb (type =? NLMSG_DONE) then
      (0, s <| ms_out := ms_out s +:+ unknown_message msg |>)
    else (0, s).

(** The words: the file, if one is named; [None] when the program ends with 255.
    [iproute2-3.1.0/tc/tc_monitor.c:73-86 do_tcmonitor] *)
Fixpoint monitor_words (argv : list string) (file : option string) : option (option string) :=
  match argv with
  | [] => Some file
  | word :: argv =>
      if matches word "file" then match argv with [] => None | arg :: argv => monitor_words argv (Some arg) end
      else None
  end.

(** The handle is a local one with a socket of its own: [calls] is what its system calls
    return, [inbox] what it delivers, [fopen] the bytes of a file and [buf] what the
    buffer for it held.  Listening ends with an exit only.
    [iproute2-3.1.0/tc/tc_monitor.c:67-110 do_tcmonitor] *)
Definition do_tcmonitor (calls : open_calls) (fopen : string -> option (list Z)) (buf : list Z) (inbox : list recv)
    (argv : list string) (w : tc_world) : result :=
  let handler w := accept_tcmsg (w_links w) (filter_ifindex w) (w_class w) in
  let start w := mk_monitor "" (w_kinds w) (w_filter w) (w_action w) in
  let kept w s := ((w <| w_kinds := ms_kinds s |>) <| w_filter := ms_filter s |>) <| w_action := ms_action s |> in
  match monitor_words argv None, nl_mgrp RTNLGRP_TC with
  | Some (Some file), Some _ =>
      match fopen file with
      | None => (Exited 255, "")
      | Some bytes =>
          let '(r, s) :=
            rtnl_from_file (S (List.length bytes)) (handler w) buf bytes (start w) in
          (Returned r (kept w s), ms_out s)
      end
  | Some None, Some groups =>
      let '(r, rth) := rtnl_open calls groups in
      if r <? 0 then (Exited 1, "")
      else
        match init_links env ((w <| w_rth := rth |>) <| w_inbox := inbox |>) with
        | Returned _ w =>
            match (rtnl_listen (handler w) (e_buf env) (w_inbox w) (start w)).1 with
            | Returned r s => (Exited (if r <? 0 then 2 else 0), ms_out s)
            | Exited status => (Exited status, "")
            | Waiting s => (Waiting (kept w s), ms_out s)
            | Wild => (Wild, "")
            end
        | o => (o, "")
        end
  | _, _ => (Exited 255, "")
  end.

(** ** The objects of the program *)

(** The table of [do_cmd].
    [iproute2-3.1.0/tc/tc.c:201-237 do_cmd] *)
Definition tc_objects (calls : open_calls) (fopen : string -> option (list Z)) (buf : list Z) (inbox : list recv)
    (object : string) (argv : list string)
    (w : tc_world) : result :=
  if String.eqb object "class" then do_class env argv w
  else if String.eqb object "filter" then do_filter env argv w
  else if String.eqb object "monitor" then do_tcmonitor calls fopen buf inbox argv w
  else do_action env argv w.
End Monitor.

(** ** Every change is shown *)

(** The handler never fails, so that listening goes on. *)
Lemma accept_tolerant env links idx cf : tolerant (accept_tcmsg env links idx cf).
Proof.
  intros from msg s. unfold accept_tcmsg. cbv zeta.
  destruct (_ || _); [by destruct (print_filter _ _ _ _ _).2|].
  destruct (_ || _); [by destruct (print_class _ _ _ _ _ _).2|].
  destruct (_ || _); [by destruct (print_qdisc _ _ _ _ _ _).2|].
  destruct (_ || _); [by destruct (print_action _ _ _ _).2|]. by destruct (_ && _).
Qed.

(** A map that was filled is left alone. *)
Lemma init_links_again env w : initialized (w_links w) = true -> init_links env w = Returned 0 w.
Proof. intros Hi. unfold init_links, ll_init_map. rewrite Hi. reflexivity. Qed.

(** The monitor prints the messages of every datagram in the order they come, each by the
    printer of its object, and waits for more; interruptions and lost messages do not
    end it. *)
Theorem monitor_shows_all env calls fopen fbuf evs w :
  (rtnl_open calls 8).1 = 0 -> initialized (w_links w) = true ->
  blen (e_buf env) < 2 ^ 31 -> Forall (event_ok (blen (e_buf env))) evs -> Forall listened evs ->
  let s := foldl (fun s x => (accept_tcmsg env (w_links w) (filter_ifindex w) (w_class w)
                                x.1 (msg_bytes x.2) s).2)
             (mk_monitor "" (w_kinds w) (w_filter w) (w_action w)) (messages evs) in
  exists w', do_tcmonitor env calls fopen fbuf (map deliver evs) [] w = (Waiting w', ms_out s) /\
    w_kinds w' = ms_kinds s /\ w_filter w' = ms_filter s /\ w_action w' = ms_action s /\ w_outbox w' = w_outbox w.
Proof.
  intros Ho Hi Hb Hok Hl s. unfold do_tcmonitor. cbn [monitor_words]. change (nl_mgrp RTNLGRP_TC) with (Some 8). cbv iota beta zeta.
  destruct (rtnl_open calls 8) as [r rth]. cbn [fst] in Ho. subst r. change (0 <? 0) with false. cbv iota.
  rewrite init_links_again by exact Hi. cbv iota.
  match goal with |- context [rtnl_listen ?h ?b ?i ?a] =>
    change (rtnl_listen h b i a) with (rtnl_listen (accept_tcmsg env (w_links w) (filter_ifindex w) (w_class w))
      (e_buf env) (map deliver evs) (mk_monitor "" (w_kinds w) (w_filter w) (w_action w))) end.
  rewrite listen_complete by (done || apply accept_tolerant). cbn [fst]. fold s. eexists. split; [reflexivity|]. done.
Qed.
