(* ===== verification/TcKinds.v ===== *)
(** * The disciplines linked into the program

    The tables of operations that [get_qdisc_kind] finds under their names.  The
    arguments are what the operations read besides their own: the clock, the
    mathematics library, the options of the program, and the contents of arrays they do
    not initialise. *)

From S2P Require Export TcQdisc TcBlue TcTbf TcClass.

#[local] Open Scope list_scope.

Section Kinds.
Context (c : core) (pow : double -> double -> double) (log : double -> double) (use_iec show_raw : bool)
  (p_init p_min : double) (sbuf rtab ptab : list Z) (details : tc_blue_qopt -> string).

(** [iproute2-3.1.0/tc/q_red.c:200-205 red_qdisc_util] *)
Definition red_qdisc_util : tc_util :=
  mk_tc_util "red" (Some (Red.red_parse_opt c pow log sbuf)) Red.red_print_opt (Some Red.red_print_xstats) None None.

(** [iproute2-3.1.0/tc/q_blue.c:252-257 blue_qdisc_util] *)
Definition blue_qdisc_util : tc_util :=
  mk_tc_util "blue" (Some (blue_parse_opt sbuf)) (blue_print_opt details) (Some blue_print_xstats) None None.

(** [iproute2-3.1.0/tc/q_tbf.c:281-285 tbf_qdisc_util] *)
Definition tbf_qdisc_util : tc_util :=
  mk_tc_util "tbf" (Some (tbf_parse_opt c rtab ptab)) (fun d => tbf_print_opt c use_iec d show_raw) None None None.

(** [iproute2-3.1.0/tc/q_sfq.c:126-131 sfq_qdisc_util] *)
Definition sfq_qdisc_util : tc_util :=
  mk_tc_util "sfq" (Some Sfq.sfq_parse_opt) Sfq.sfq_print_opt (Some Sfq.sfq_print_xstats) None None.

(** [iproute2-3.1.0/tc/q_prio.c:120-124 prio_qdisc_util] *)
Definition prio_qdisc_util : tc_util :=
  mk_tc_util "prio" (Some Prio.prio_parse_opt) (fun _ => Prio.prio_print_opt) None None None.

(** [iproute2-3.1.0/tc/q_fifo.c:80-84 bfifo_qdisc_util] *)
Definition bfifo_qdisc_util : tc_util :=
  mk_tc_util "bfifo" (Some Fifo.fifo_parse_opt) (fun _ => Fifo.fifo_print_opt "bfifo") None None None.

(** [iproute2-3.1.0/tc/q_fifo.c:86-90 pfifo_qdisc_util] *)
Definition pfifo_qdisc_util : tc_util :=
  mk_tc_util "pfifo" (Some Fifo.fifo_parse_opt) (fun _ => Fifo.fifo_print_opt "pfifo") None None None.

(** [iproute2-3.1.0/tc/q_fifo.c:92-96 pfifo_head_drop_qdisc_util] *)
Definition pfifo_head_drop_qdisc_util : tc_util :=
  mk_tc_util "pfifo_head_drop" (Some Fifo.fifo_parse_opt) (fun _ => Fifo.fifo_print_opt "pfifo_head_drop") None None None.

(** It takes no options.  [iproute2-3.1.0/tc/q_fifo.c:99-102 pfifo_fast_qdisc_util] *)
Definition pfifo_fast_qdisc_util : tc_util :=
  mk_tc_util "pfifo_fast" None (fun _ => Prio.prio_print_opt) None None None.

Definition linked_kinds : list tc_util :=
  [rbfgrad_util p_init p_min sbuf; blue_qdisc_util; red_qdisc_util; tbf_qdisc_util; sfq_qdisc_util; prio_qdisc_util;
   bfifo_qdisc_util; pfifo_qdisc_util; pfifo_head_drop_qdisc_util; pfifo_fast_qdisc_util; Drr.drr_qdisc_util;
   Qfq.qfq_qdisc_util].

(** The symbol of a name. *)
Definition load_kind (str : string) : option tc_util := List.find (fun q => String.eqb (u_id q) str) linked_kinds.

(** A search never gives another discipline than the one asked for. *)
Lemma load_kind_id str q : load_kind str = Some q -> u_id q = str /\ In q linked_kinds.
Proof.
  intros H. apply List.find_some in H as [H1 H2]. by apply String.eqb_eq in H2.
Qed.

(** Registering keeps the names distinct: a name is loaded once. *)
Lemma get_kind_id env str kinds :
  (forall s q, e_load env s = Some q -> u_id q = s) ->
  let '(q, kinds') := get_qdisc_kind env str kinds in
  u_id q = str /\ (NoDup (map u_id kinds) -> NoDup (map u_id kinds')) /\ In q kinds' /\
  (get_qdisc_kind env str kinds').1 = q.
Proof.
  intros Hload. unfold get_qdisc_kind.
  destruct (List.find _ kinds) as [q|] eqn:E.
  - pose proof (List.find_some _ _ E) as [H1 H2]. apply String.eqb_eq in H2. rewrite E. by split_and!.
  - set (q := match e_load env str with Some q => q | None => _ end).
    assert (u_id q = str) as Hid by (unfold q; destruct (e_load env str) eqn:El; [by apply Hload|done]).
    split; [done|]. split; [|split; [by left|]].
    + intros Hn. cbn [map]. constructor; [|done]. intros Hi. apply list_elem_of_In, in_map_iff in Hi as (p & Hp & Hin).
      pose proof (List.find_none _ _ E p Hin) as Hf. apply String.eqb_neq in Hf.
      apply Hf. exact (eq_trans Hp Hid).
    + cbn [List.find]. by rewrite Hid, String.eqb_refl.
Qed.

(** The words of a command for RED reach its parser, and its request carries the name. *)
Lemma red_found env kinds :
  e_load env = load_kind -> List.find (fun q => String.eqb (u_id q) "red") kinds = None ->
  (get_qdisc_kind env "red" kinds).1 = red_qdisc_util.
Proof. intros El Hk. unfold get_qdisc_kind. by rewrite Hk, El. Qed.
End Kinds.
