(* ===== verification/EndToEnd.v ===== *)
(** * From the command line to the report

    The front end and the scheduler together: what [tc qdisc add] sends is what
    [rbfgrad_change] installs, and what [rbfgrad_dump] and [rbfgrad_dump_stats] put
    into a message is what the front end prints.  Between the two lies the netlink
    code of the kernel, which is not in the repository; it enters as classes of laws
    about attributes in memory, with an instance on the bytes themselves. *)

From S2P Require Export QdiscProps TcQdiscProps.

#[local] Open Scope list_scope.

(** The 16 bytes of a [tc_rbfgrad_xstats]. *)
Definition xstats_bytes (x : tc_rbfgrad_xstats) : list Z :=
  int_bytes (xs_early x) ++ int_bytes (xs_pdrop x) ++ int_bytes (xs_other x) ++ int_bytes (xs_marked x).

(** ** The interface *)

(** The least lengths of the payloads.  [modules/sch_rbfgrad.c:330-333 rbfgrad_policy] *)
Definition rbfgrad_policy (t : tca_rbfgrad) : Z :=
  match t with
  | TCA_RBFGRAD_UNSPEC => 0
  | TCA_RBFGRAD_PARMS => QOPT_SIZE
  | TCA_RBFGRAD_STAB => Z.of_nat RBFGRAD_STAB_SIZE
  end.

(** How the kernel reads attributes that lie in a datagram: [attr_ptr d off] is the
    pointer to the attribute at an offset.  [nla_parse_nested] accepts a nest of the
    two attributes whose lengths the policy asks for, and [nla_data] is their payload. *)
Class NetlinkWire (Attr : Type) `{NetlinkEnv Attr} := {
  attr_ptr : list Z -> Z -> Attr;
  wire_nested : forall d off parms stab,
    rbfgrad_policy TCA_RBFGRAD_PARMS <= blen parms -> rbfgrad_policy TCA_RBFGRAD_STAB <= blen stab ->
    nest_at d off parms stab ->
    exists tb, nla_parse_nested (attr_ptr d off) = inr tb /\
      tb TCA_RBFGRAD_PARMS = Some (attr_ptr d (off + 4)) /\
      tb TCA_RBFGRAD_STAB = Some (attr_ptr d (off + 4 + attr_span parms));
  wire_parms : forall d off parms,
    List.length parms = Z.to_nat QOPT_SIZE -> attr_at d off TCA_PARMS parms ->
    nla_parms (attr_ptr d off) = qopt_of_bytes parms;
  wire_stab : forall d off stab,
    List.length stab = RBFGRAD_STAB_SIZE -> attr_at d off TCA_STAB stab ->
    nla_stab (attr_ptr d off) = stab
}.

(** How the kernel builds a message: attributes are appended at the tail while there is
    room, and the end of a nest writes its length.  The padding of a structure is not
    determined. *)
Class MsgWire (Msg : Type) `{MsgEnv Msg} := {
  msg_bytes : Msg -> list Z;
  msg_tail : Msg -> Z;
  msg_room : Msg -> Z;
  nest_start_ok : forall m, 4 <= msg_room m ->
    exists m', nla_nest_start m = Some (msg_tail m, m') /\
      msg_tail m' = msg_tail m + 4 /\ msg_room m' = msg_room m - 4 /\
      rta_type (msg_bytes m') (msg_tail m) = TCA_OPTIONS /\ 0 <= msg_tail m;
  put_parms_ok : forall o m, qopt_wf o -> 124 <= msg_room m ->
    exists m' b, nla_put_parms o m = Some m' /\
      List.length b = Z.to_nat QOPT_SIZE /\ qopt_of_bytes b = o /\
      attr_at (msg_bytes m') (msg_tail m) TCA_PARMS b /\
      msg_tail m' = msg_tail m + 124 /\ msg_room m' = msg_room m - 124 /\
      same_below (msg_tail m) (msg_bytes m) (msg_bytes m');
  nest_end_ok : forall nest m, 0 <= msg_room m -> 0 <= nest -> nest + 4 <= msg_tail m < nest + 2 ^ 16 ->
    exists len m', nla_nest_end nest m = (len, m') /\ 0 <= len /\
      rta_len (msg_bytes m') nest = msg_tail m - nest /\
      forall o k, nest + 2 <= o -> 0 <= k -> o + k <= msg_tail m ->
        load_bytes (msg_bytes m') o k = load_bytes (msg_bytes m) o k;
  copy_app_ok : forall x m, 20 <= msg_room m ->
    exists m', gnet_stats_copy_app x m = (0, m') /\
      attr_at (msg_bytes m') (msg_tail m) (Z.of_nat TCA_STATS_APP) (xstats_bytes x)
}.

(** ** Reading a report *)

(** The front end reads the options of a nest that holds only the parameters. *)
Lemma print_opt_parms show_details m off b :
  List.length b = Z.to_nat QOPT_SIZE -> rta_len m off = 4 + attr_span b ->
  attr_at m (off + 4) TCA_PARMS b ->
  rbfgrad_print_opt show_details m (Some off) = (0, opt_text show_details (qopt_of_bytes b)).
Proof.
  intros Hb Hl Hat. unfold rbfgrad_print_opt.
  assert (parse_rtattr_nested m TCA_STAB off = ([None; Some (off + 4); None], 0)) as ->.
  { unfold parse_rtattr_nested, parse_rtattr, RTA_DATA, RTA_PAYLOAD, RTA_LENGTH.
    change (RTA_ALIGN 4 + 0) with 4. rewrite Hl.
    replace (4 + attr_span b - 4) with (span [(TCA_PARMS, b)]) by (cbn [span]; lia).
    rewrite rtattr_loop_ok; [done|done|]. pose proof (span_count [(TCA_PARMS, b)]). lia. }
  cbn [fst]. change ([None; Some (off + 4); None] !!! Z.to_nat TCA_PARMS) with (Some (off + 4)). cbv iota.
  destruct Hat as (H1 & _ & H3). unfold RTA_PAYLOAD. rewrite H1, Hb.
  change (4 + Z.of_nat (Z.to_nat QOPT_SIZE) - RTA_LENGTH 0 <? QOPT_SIZE) with false. cbv iota.
  rewrite Hb in H3. change (Z.of_nat (Z.to_nat QOPT_SIZE)) with QOPT_SIZE in H3.
  change (RTA_DATA (off + 4)) with (off + 4 + 4). by rewrite H3.
Qed.

Lemma print_xstats_at m off type x :
  Forall (fun z => 0 <= z < 2 ^ 32) [xs_early x; xs_pdrop x; xs_other x; xs_marked x] ->
  attr_at m off type (xstats_bytes x) ->
  rbfgrad_print_xstats m (Some off) =
    (0, "  marked " +:+ print_u (xs_marked x) +:+ " early " +:+ print_u (xs_early x) +:+
        " pdrop " +:+ print_u (xs_pdrop x) +:+ " other " +:+ print_u (xs_other x)).
Proof.
  rewrite !Forall_cons. intros (H1 & H2 & H3 & H4 & _) (Hl & _ & Hd). unfold rbfgrad_print_xstats, RTA_PAYLOAD.
  rewrite Hl. change (4 + Z.of_nat (List.length (xstats_bytes x)) - RTA_LENGTH 0 <? 16) with false. cbv iota.
  change (Z.of_nat (List.length (xstats_bytes x))) with 16 in Hd. change (RTA_DATA off) with (off + 4). rewrite Hd.
  cbv zeta. cbn [xs_marked xs_early xs_pdrop xs_other].
  rewrite (word_field _ 0 _ H1), (word_field _ 4 _ H2), (word_field _ 8 _ H3), (word_field _ 12 _ H4) by reflexivity.
  done.
Qed.

Section EndToEnd.
Context {C G Skb Attr Msg Tsk Th : Type}.
Context `{QdiscEnvOk C Skb} `{RngOk G} `{NetlinkWire Attr} `{MsgWire Msg} `{ThreadEnvOk Tsk Th}.

Implicit Types (w : world C G Tsk Th) (m : Msg).

(** What the dump puts into a message with room is what the front end prints. *)
Lemma dump_shown w m :
  qopt_wf (dump_opt w) -> 128 <= msg_room m ->
  exists len m', (rbfgrad_dump m w).1 = (len, m') /\ 0 <= len /\
    rta_type (msg_bytes m') (msg_tail m) = TCA_OPTIONS /\
    forall show_details,
      rbfgrad_print_opt show_details (msg_bytes m') (Some (msg_tail m)) = (0, opt_text show_details (dump_opt w)).
Proof.
  intros Hw Hr. unfold rbfgrad_dump. cbv zeta.
  destruct (nest_start_ok m) as (m1 & -> & T1 & R1 & Ty & Hpos); [lia|].
  destruct (put_parms_ok (dump_opt w) m1) as (m2 & b & -> & Lb & Db & Hat & T2 & R2 & Hs); [done|lia|].
  destruct (nest_end_ok (msg_tail m) m2) as (len & m3 & E & Hlen & Hrl & Hag); [lia|lia|lia|].
  exists len, m3. rewrite E. split; [done|]. split; [done|]. unfold rta_type, load16 in *. split.
  - rewrite Hag by lia. by rewrite Hs by lia.
  - intros sd. rewrite <- Db. apply print_opt_parms; [done|..].
    + rewrite Hrl, T2, T1. unfold attr_span. rewrite Lb.
      change (RTA_ALIGN (4 + Z.of_nat (Z.to_nat QOPT_SIZE))) with 124. lia.
    + rewrite <- T1. eapply (attr_at_agree (msg_tail m1) (msg_tail m2)); [|lia| |exact Hat].
      * intros o k ? ? ?. apply Hag; lia.
      * rewrite Lb, T2. change (Z.of_nat (Z.to_nat QOPT_SIZE)) with 120. lia.
Qed.

(** What a request installs, on the datagram itself. *)
Lemma change_reads d off sent sbuf w :
  options_at d off sent sbuf -> qopt_wf sent -> List.length sbuf = RBFGRAD_STAB_SIZE ->
  rbfgrad_change (Some (attr_ptr d off)) w =
  if 0 <? o_limit sent then
    match fifo_create_dflt (o_limit sent) with
    | inl err => (err, w)
    | inr c => (0, install_request sent sbuf (Some c) w)
    end
  else (0, install_request sent sbuf None w).
Proof.
  intros Hat Hw Hs. pose proof (proj1 (options_nest _ _ _ _ Hs) Hat) as Hn.
  destruct (wire_nested d off (qopt_bytes sent) sbuf) as (tb & E & E1 & E2);
    [done|unfold blen; rewrite Hs; done|done|].
  destruct Hn as (_ & _ & A1 & A2 & _). unfold rbfgrad_change. rewrite E, E1, E2.
  rewrite (wire_parms d (off + 4) (qopt_bytes sent)) by done.
  rewrite (wire_stab d _ sbuf Hs A2). by rewrite qopt_of_bytes_ok.
Qed.

(** The options a report shows for a request. *)
Definition reported (o : tc_rbfgrad_qopt) : tc_rbfgrad_qopt :=
  o <| o_p_init := d0 |> <| o_p_min := d0 |> <| o_Scell_log := 0 |> <| o_flags := 0 |>.

Lemma reported_wf o : qopt_wf o -> qopt_wf (reported o).
Proof.
  intros [Wi Wd Wc Wl Wf]. rewrite !Forall_cons in Wd. constructor; [exact Wi| |done|exact Wl|done].
  destruct Wd as (_ & _ & D). repeat (apply Forall_cons; split; [done|]). by rewrite !Forall_cons.
Qed.


(** The statistics of the report are the counters of the scheduler: the drops by
    probability and by force are added, and so are the marks. *)
Theorem stats_shown w m :
  0 <= pdrop (stats (q w)) < 2 ^ 32 -> 0 <= other (stats (q w)) < 2 ^ 32 -> 20 <= msg_room m ->
  exists m', rbfgrad_dump_stats m w = (0, m') /\
    let s := stats (q w) in
    rbfgrad_print_xstats (msg_bytes m') (Some (msg_tail m)) =
      (0, "  marked " +:+ print_u (u32 (prob_mark s + forced_mark s)) +:+
          " early " +:+ print_u (u32 (prob_drop s + forced_drop s)) +:+
          " pdrop " +:+ print_u (pdrop s) +:+ " other " +:+ print_u (other s)).
Proof.
  intros Hp Ho Hr. destruct (copy_app_ok (xstats_of (stats (q w))) m Hr) as (m' & E & Hat).
  exists m'. split; [exact E|]. apply (print_xstats_at _ _ _ _) in Hat; [exact Hat|].
  repeat (apply Forall_cons; split; [first [apply u32_range | done]|]). by apply Forall_nil.
Qed.
End EndToEnd.

(** ** The interface on bytes *)

Definition ERANGE : Z := 34.

(** A pointer into a datagram. *)
#[export] Instance bytes_netlink : NetlinkEnv (list Z * Z) := {
  nla_parse_nested '(d, off) :=
    let tb := (parse_rtattr_nested d 2 off).1 in
    let short a n := match a with Some x => RTA_PAYLOAD d x <? n | None => false end in
    if short (tb !!! 1%nat) QOPT_SIZE || short (tb !!! 2%nat) 256 then inl (- ERANGE)
    else inr (fun t => match t with
      | TCA_RBFGRAD_UNSPEC => None
      | TCA_RBFGRAD_PARMS => pair d <$> (tb !!! 1%nat)
      | TCA_RBFGRAD_STAB => pair d <$> (tb !!! 2%nat) end);
  nla_parms '(d, off) := qopt_of_bytes (load_bytes d (off + 4) QOPT_SIZE);
  nla_stab '(d, off) := take RBFGRAD_STAB_SIZE (load_bytes d (off + 4) 256 ++ replicate RBFGRAD_STAB_SIZE 0)
}.

#[export] Program Instance bytes_netlink_ok : NetlinkEnvOk (list Z * Z).
Next Obligation.
  intros [d off] e. cbn [nla_parse_nested bytes_netlink]. cbv zeta. case_match; intros [= <-]. unfold ERANGE. lia.
Qed.
Next Obligation.
  intros a tb [d off] _ _. cbn [nla_stab bytes_netlink]. rewrite length_take, length_app, length_replicate. lia.
Qed.

#[export] Program Instance bytes_wire : NetlinkWire (list Z * Z) := {| attr_ptr d off := (d, off) |}.
Next Obligation.
  intros d off parms stab Hp Hs Hn. cbn [nla_parse_nested bytes_netlink].
  rewrite (proj1 (nest_read _ _ _ _ Hn)). destruct Hn as (_ & _ & (L1 & _) & (L2 & _) & _). cbv zeta. cbn [fst].
  match goal with |- context [?l !!! 1%nat] => change (l !!! 1%nat) with (Some (off + 4));
    change (l !!! 2%nat) with (Some (off + 4 + attr_span parms)) end. cbv iota.
  unfold blen, rbfgrad_policy in Hp, Hs. change (Z.of_nat RBFGRAD_STAB_SIZE) with 256 in Hs.
  rewrite (proj2 (Z.ltb_ge _ QOPT_SIZE)), (proj2 (Z.ltb_ge _ 256)) by (unfold RTA_PAYLOAD; rewrite ?L1, ?L2; change (RTA_LENGTH 0) with 4; lia).
  eexists. split; [reflexivity|]. by split.
Qed.
Next Obligation.
  intros d off parms Hp (_ & _ & Hd). cbn [nla_parms bytes_netlink]. rewrite Hp in Hd.
  change (Z.of_nat (Z.to_nat QOPT_SIZE)) with QOPT_SIZE in Hd. by rewrite Hd.
Qed.
Next Obligation.
  intros d off stab Hs (_ & _ & Hd). cbn [nla_stab bytes_netlink]. rewrite Hs in Hd.
  change (Z.of_nat RBFGRAD_STAB_SIZE) with 256 in Hd. rewrite Hd, <- Hs. apply take_app_length.
Qed.

(** A message is a buffer and the length used. *)
Definition append_attr (type : Z) (b : list Z) (n : nlmsghdr) : nlmsghdr :=
  mk_nlmsg (NLMSG_TAIL n + attr_span b) (put_attr (NLMSG_TAIL n) type b (mem n)).

Definition room_of (n : nlmsghdr) : Z :=
  if 0 <=? nlmsg_len n then Z.of_nat (List.length (mem n)) - NLMSG_TAIL n else - 1.

#[export] Instance buffer_env : MsgEnv nlmsghdr := {
  nla_nest_start n := if room_of n <? 4 then None else Some (NLMSG_TAIL n, append_attr TCA_OPTIONS [] n);
  nla_put_parms o n := if room_of n <? 124 then None else Some (append_attr TCA_PARMS (qopt_bytes o) n);
  nla_nest_end nest n := (nlmsg_len n, mk_nlmsg (nlmsg_len n) (set_rta_len nest (NLMSG_TAIL n - nest) (mem n)));
  nla_nest_cancel nest n := match nest with Some off => mk_nlmsg off (mem n) | None => n end;
  gnet_stats_copy_app x n :=
    if room_of n <? 20 then (- 1, n) else (0, append_attr (Z.of_nat TCA_STATS_APP) (xstats_bytes x) n)
}.

Lemma append_attr_ok type b n :
  0 <= room_of n -> attr_span b <= room_of n -> 0 <= type < 2 ^ 16 -> 4 + Z.of_nat (List.length b) < 2 ^ 16 ->
  0 <= NLMSG_TAIL n /\ NLMSG_TAIL (append_attr type b n) = NLMSG_TAIL n + attr_span b /\
  room_of (append_attr type b n) = room_of n - attr_span b /\
  attr_at (mem (append_attr type b n)) (NLMSG_TAIL n) type b /\
  same_below (NLMSG_TAIL n) (mem n) (mem (append_attr type b n)).
Proof.
  unfold room_of. intros H0 H1 Ht Hb. destruct (Z.leb_spec 0 (nlmsg_len n)) as [Hl|]; [|lia].
  pose proof (tail_bounds n). pose proof (attr_span_bounds b).
  destruct (put_attr_at (NLMSG_TAIL n) type b (mem n)) as (A1 & A2 & A3); [lia|lia|done|done|].
  assert (NLMSG_TAIL (append_attr type b n) = NLMSG_TAIL n + attr_span b) as E.
  { unfold NLMSG_TAIL at 1. cbn [append_attr nlmsg_len]. apply RTA_ALIGN_aligned. Z.div_mod_to_equations; lia. }
  split; [lia|]. split; [done|]. rewrite E. cbn [append_attr nlmsg_len mem]. rewrite A2.
  rewrite (proj2 (Z.leb_le 0 _)) by lia. split; [lia|]. by split.
Qed.

#[export] Program Instance buffer_wire : MsgWire nlmsghdr :=
  {| msg_bytes := mem; msg_tail := NLMSG_TAIL; msg_room := room_of |}.
Next Obligation.
  intros n Hr. destruct (append_attr_ok TCA_OPTIONS [] n) as (H0 & H1 & H2 & (_ & H3 & _) & _);
    [lia|exact Hr|done|done|].
  cbn [nla_nest_start buffer_env]. rewrite (proj2 (Z.ltb_ge _ 4)) by done. by eexists.
Qed.
Next Obligation.
  intros o n Hw Hr. destruct (append_attr_ok TCA_PARMS (qopt_bytes o) n) as (H0 & H1 & H2 & H3 & H4);
    [lia|exact Hr|done|done|].
  cbn [nla_put_parms buffer_env]. rewrite (proj2 (Z.ltb_ge _ 124)) by done.
  exists (append_attr TCA_PARMS (qopt_bytes o) n), (qopt_bytes o). split; [done|]. split; [done|].
  split; [by apply qopt_of_bytes_ok|]. by split.
Qed.
Next Obligation.
  intros nest n Hr Hn Ht. unfold room_of in Hr. destruct (Z.leb_spec 0 (nlmsg_len n)) as [Hl|]; [|lia].
  cbn [nla_nest_end buffer_env]. eexists _, _. split; [reflexivity|]. split; [done|]. cbn [mem].
  unfold set_rta_len. split.
  - unfold rta_len, load16. rewrite load_store_same by (rewrite ?le_bytes_length; lia).
    rewrite of_le_bytes_le. apply Z.mod_small. lia.
  - intros o k Ho Hk Hok. by rewrite load_store_other by (rewrite ?le_bytes_length; lia).
Qed.
Next Obligation.
  intros x n Hr. destruct (append_attr_ok (Z.of_nat TCA_STATS_APP) (xstats_bytes x) n) as (H0 & H1 & H2 & H3 & H4);
    [lia|exact Hr|done|done|].
  cbn [gnet_stats_copy_app buffer_env]. rewrite (proj2 (Z.ltb_ge _ 20)) by done. by eexists.
Qed.

(** ** The demonstration, from end to end *)

(** A message of the kernel behind its header. *)
Definition demo_dump : nlmsghdr := mk_nlmsg 36 (replicate 256 0).


Lemma stats_shown_witness :
  exists m', rbfgrad_dump_stats demo_dump QdiscProps.demo_world = (0, m') /\
    rbfgrad_print_xstats (mem m') (Some 36) = (0, "  marked 0 early 0 pdrop 0 other 0").
Proof.
  pose proof (stats_shown QdiscProps.demo_world demo_dump) as H.
  apply H; [by vm_compute|by vm_compute|vm_compute; discriminate].
Defined.

(** What the demonstration prints: [ecn] was typed, and is not shown. *)
Example shown_text : (opt_text false (reported (sent_options demo_options true))) = "limit 500Kb".
Proof. vm_compute. reflexivity. Qed.
